(* ===== verification/_CoqProject ===== *)
-Q . S2P
Prelude.v
Memory.v
Linked.v
ListC.v
SysEv.v
Mempool.v
EvBuffer.v
BufClient.v
StringC.v
EvQueue.v
BufQueue.v
EvTimer.v
TimerIf.v
SpiFlash.v
FlashIf.v
FlashDrv.v
SimChip.v
FlashProps.v
Nv.v
NvSpec.v
NvStore.v
NvCompact.v
NvWrites.v
NvFrameCount.v
NvProps.v
NvCut.v
Crc.v
Ota.v
OtaServer.v
OtaClient.v
OtaSpec.v
OtaTransfer.v
OtaSession.v
OtaLink.v
OtaProps.v
OtaDemo.v
Pib.v
PibProps.v
PibTables.v
PibIeee.v
PibDemo.v
MacPhy.v
MacPhyProps.v
MacPhyRadio.v
MacPhyDemo.v
Keyboard.v
KeyboardProps.v
Printf.v
EvPoll.v
UsbDesc.v
Usb.v
UsbProps.v
Hci.v
HciInv.v
HciRx.v
HciProps.v
HciDemo.v
App.v
AppCoor.v
AppCoorProps.v
AppDev.v
AppDevProps.v
AppUi.v
AppUiProps.v
AppDemo.v
Pm.v
DrvHw.v
PmProps.v
DrvHwProps.v
Putchar.v
HwTimer.v
HwTimerProps.v
Uart.v
UartProps.v
Gpio.v
GpioPins.v
GpioProps.v
Irq.v
IrqProps.v
IrqDemo.v
