(* ===== verification/Prelude.v ===== *)
(** * Telink 802.15.4 SDK: verification development (root file)

    A model of the parts of [tl_802154_sdk] that keep the SDK's own state and
    logic, translated function by function from the C sources (paths below are
    relative to [src/tl_802154_sdk]), and the theorems that make them correct.

    ** Parts and how they interact

    - Memory and lists.  [Memory] is the RAM as bytes; [Linked] the interface of
      singly linked nodes ([LinkedHeap]) and [proj/common/utlist.h]; [ListC]
      [proj/common/list.c]; [StringC] [proj/common/string.c]; [Mempool]
      [proj/common/mempool.c]; [Printf] [proj/common/tlPrintf.c].
    - Operating layer ([proj/os]).  [SysEv] is [ev.c] and the interrupt mask of
      [proj/drivers/drv_hw.c]; [EvBuffer] [ev_buffer.c], on [Mempool]; [EvQueue]
      [ev_queue.c]; [EvTimer] [ev_timer.c], on [Linked]; [EvPoll] [ev_poll.c].
    - Flash.  [SpiFlash] is [platform/chip_8278/flash.c] over an SPI chip, the
      class [SpiChip]; [FlashDrv] [proj/drivers/drv_flash.c] with the protection
      drivers of [platform/chip_8278/flash]; [FlashIf] the interface of the
      driver, [Flash] with [FlashLaws], against which its clients are proved and
      of which [FlashDrv] is an instance; [SimChip] a concrete chip, [FlashProps]
      the properties.
    - Non-volatile items.  [Nv] is [proj/drivers/drv_nv.c], over [FlashIf] and the
      buffers of [EvBuffer]; [NvSpec] the invariant of a sector, [NvStore] the
      map it implements, [NvCompact] the move to the other sector when one is
      full, [NvWrites] any sequence of writes, [NvCut] a loss of power between
      two operations of the flash, [NvFrameCount] the frame counter kept in a
      module of its own, [NvProps] the evaluations.
    - Update over the air ([demo/app_common]).  [Crc] is [ota/otaCRC.c]; [Ota] the
      frames and the services ([MacEnv], [TimerSvc], of which [EvTimer] is an
      instance); [OtaServer] and [OtaClient] the two roles of
      [ota/tl_specific_data_ota.c], over [FlashIf]; [OtaSpec], [OtaTransfer],
      [OtaSession], [OtaLink] the composition of the two, [OtaProps] the
      properties, [OtaDemo] a session on concrete flash chips.  [TimerIf] is the
      instance of the timer service by [EvTimer].
    - MAC ([ieee802154/mac]).  [Pib] is [mac_pib.c], its descriptor lists the class
      [TnLib] with [TnLaws]; [PibProps] the attributes, [PibTables] the tables,
      [PibIeee] the extended address (over [FlashIf]), [PibDemo] concrete data.
      [MacPhy] is [mac_phy.c], the chip and the MAC library the class [Radio];
      [MacPhyProps] the averages, [MacPhyRadio] the state of the transceiver and
      the interrupts, [MacPhyDemo] concrete data.
    - USB and host interface ([proj/drivers/usb], [proj/hci]).  [UsbDesc] is the
      descriptors of [usbdesc.c], [Usb] the control endpoint of [usb.c] with the
      class requests of [app/usbcdc.c], [UsbProps] their properties, over the
      registers of the USB block, the class [UsbRegs].  [Hci] is [zbhci.c],
      [usbCDC/zbhci_usb_cdc.c] and the data path of [app/usbcdc.c], on top of
      buffers, queues and timers ([BufClient] and [BufQueue] are what [EvBuffer]
      and [EvQueue] promise a client); [HciInv] its invariant and the laws of the
      endpoint ([EpLaws]), [HciRx] the receiving side, [HciProps] the properties,
      [HciDemo] an endpoint and a session on it.
    - Keyboard.  [Keyboard] is [proj/drivers/drv_keyboard.c], the board the class
      [KbBoard]; [KeyboardProps] its properties.
    - Drivers of the chip ([proj/drivers], for the 8278).  [Putchar] is
      [drv_putchar.c], where the characters of [Printf] go; [HwTimer] is
      [drv_timer.c] with the inline functions of [timer.h] it uses; [Uart]
      [drv_uart.c] and [proj/hci/uart/hci_uart.c]; [Gpio] [drv_gpio.c] with
      [gpio.h], [GpioPins] the bits of a pin among those of the others; [Irq] the
      interrupt handler [platform/services/b85m/irq_handler.c], which puts these
      and the radio together over one processor and one set of event buffers.
      Each has a file of properties ([HwTimerProps], [UartProps], [GpioProps],
      [IrqProps]) with an abstract machine, a relation to it and a run on
      concrete data, that of the interrupts in [IrqDemo].
    - Platform and power.  [DrvHw] is the set-up of the platform and the voltage
      detection of [drv_hw.c], [Pm] [drv_pm.c] over the timers of [EvTimer];
      [DrvHwProps] and [PmProps] are their properties, with evaluations of both in
      the former.
    - Demo applications ([demo/associate_coor], [demo/associate_dev]).  [App] is
      what the two share: the requests to the MAC, the attributes, and the
      descriptors of the binary security library, the class [MacSecLib] with
      [MacSecLaws].  [AppCoor] and [AppDev] are the two [app.c], on top of [Pib],
      the timers, the event buffers and the update; [AppUi] is both [app_ui.c],
      on top of the keyboard, what a key does being the class [KeyOps];
      [AppCoorProps], [AppDevProps] and [AppUiProps] are the properties, [AppDemo]
      a security library and the evaluations.

    ** Conventions

    A definition has the name of the C function; a loop of a function is a
    [Fixpoint] of its own, named after what it does.  State is passed explicitly,
    globals are the fields of a record, a machine word is a [Z] with its
    wrap-around written out ([u8] ... [s32] below), memory a finite map or a
    function from addresses to bytes.  [None] is a read outside of what the code
    owns, a jump to the null pointer, or a loop that has not ended.  Hardware
    readings and code without source are classes, what the code relies on are
    the laws of a second class, and every class of laws has an instance.

    ** What the theorems show

    - Refinement: the allocator of event buffers hands out disjoint blocks and
      takes back exactly those ([ev_buffer_refines_allocator]); queues, lists and
      timers are lists ([ev_queue_refines], [list_c_refines_lists],
      [ev_timer_refines]); the flash driver is an array with a protected part
      ([flash_driver_refines_array]); a module of the NV store is a map
      ([nv_store_refines_map], for any number of writes [nv_store_unbounded]) and
      a sector with so much room, which decides about each write
      ([nv_writes_all_or_nothing]); a whole update session installs the image and
      nothing but a good image ([ota_update_installs_image],
      [ota_bad_checksum_rejected]); the security tables are lists
      ([pib_tables_refine]); any sequence of scans of the keyboard is a run of
      an abstract keyboard of boolean keys, debounced, with a queue of changes
      ([kb_scan_key_refines]); what leaves on the
      USB endpoint is the stream of the messages given to the host interface, in
      their order, while the packets of the host fit the receive buffer
      ([hci_stream]); the coordinator is a registry of sixteen places
      ([coor_refines_registry], [coor_addresses_unique], [coor_round_robin]);
      the serial port is a channel of one frame ([uart_refines_channel]), the
      pins are records of switches with a table of three interrupt functions
      ([gpio_refines]), the hardware timers a table of timers that wait,
      with ticks that wrap at 32 bits ([hwtimer_refines]).
    - Invariants: the transceiver is in step with the variables of the radio layer
      over all sequences of calls and interrupts ([rf_radio_in_step]); timers do
      not drift ([ev_timer_no_drift]); buffers do not leak ([ev_buffer_no_leak]).
    - Functional behaviour and round trips: what the receive interrupt accepts,
      acknowledges and delivers ([rf_rx_exact]), the checksum against its bitwise
      definition ([xcrc32_bitwise]), attributes, strings and formatted numbers;
      a message sent is a message read ([hci_message_roundtrip]), characters
      printed on a pin are what a receiver at 115200 baud reads
      ([printed_is_received]); a GET_DESCRIPTOR
      request is answered with the descriptor, in packets
      ([usb_get_descriptor_transfer]); bytes written to erased flash are read
      back, over page boundaries ([flash_write_page_roundtrip]); an end device asks the best coordinator it
      has heard and polls the one that answered ([dev_joins_best],
      [dev_polls_its_parent]).
    - Safety: a factory reset needs a key that is held
      ([ui_factory_reset_needs_hold]); the interrupt handler serves each pending
      source once, and no driver disturbs another, though the pins and the serial
      port share the event buffers ([irq_handler_serves_pending]).
    - Power: the wake-up is never later than the nearest timer, and exactly then
      when that is less than 2^27 ms away, where the ticks wrap
      ([pm_sleeps_until_nearest]); after a sleep the next processing calls the
      timers whose time is up, that of a fresh one being measured by the 32-bit
      clock ([pm_due_timers_fire]).
    - Termination and bounds: the voltage detection ([voltage_detect_ends]),
      the energy scan, the clear channel assessment, the
      making of an address, the retries of a transfer.
    - Errors: behaviours of the code that lose data or stop a transfer are stated
      as theorems too ([nv_write_lost_when_locked],
      [ota_multiple_of_block_fails], [hci_pending_never_sent] and others), and so
      is what each frame from the host does to the endpoint and to the allocator
      ([hci_task_outcome]) and what an association, also one that failed, leaves
      in the device and key tables ([dev_association_outcome]).

    ** Fuel

    Loops over a linked list take a fuel that is shown to be enough when it
    exceeds the length ([buf_fuel] is the number of blocks of all groups and one
    more); loops over a fixed count recurse on the count; loops that wait for
    hardware ([jitter_loop], [wait_loop], [cca_loop], [tx_done_loop],
    [flash_wait_done], [wait_tx], [wait_done], [send_loop], [wait_bit]) take a fuel,
    and their theorems say which behaviour of the hardware makes which fuel
    enough; [wait_tx] gives the endpoint up by itself, so that 10003 is always
    enough.  [puti] has 49 rounds, the size of its
    buffer, and never needs more than 32.

    ** Not modelled

    The binary MAC and driver libraries, which have no source: what the code
    relies on is a class with laws.  The register headers of the chips, but for
    the constants and inline functions that the modelled drivers use, and the
    drivers of the other chips under [platform]: the same code for other
    registers.  The start-up code (assembly, and the calls that order the
    set-up), the main loops of the applications and the registration of their
    callbacks with the binary MAC.  The wrappers of [drv_adc.c], [drv_spi.c],
    [drv_i2c.c] and [drv_pwm.c]: they choose a register routine and keep no state
    of the SDK.  Of the USB stack the keyboard, mouse and vendor
    devices, which no demo switches on.  The build is that of the 8278 boards:
    flash protection and voltage detection on, watchdog off, no security in the
    update.  Interrupts are steps between calls; only the loops of the serial
    port that wait for one have them inside. *)
From stdpp Require Export base numbers list gmap.
From Stdlib Require Export ZArith Lia.
Global Open Scope Z_scope.

(** ** Machine integers

    The SDK's [types.h] names [u8], [u16], [u32], [s8], [s32].  A value of such
    a type is a [Z]; the functions below are the conversions to the type. *)
Definition u8 (x : Z) : Z := x mod 2 ^ 8.
Definition u16 (x : Z) : Z := x mod 2 ^ 16.
Definition u32 (x : Z) : Z := x mod 2 ^ 32.
Definition s8 (x : Z) : Z := (x + 2 ^ 7) mod 2 ^ 8 - 2 ^ 7.
Definition s32 (x : Z) : Z := (x + 2 ^ 31) mod 2 ^ 32 - 2 ^ 31.

(** A C truth value. *)
Definition c_bool (b : bool) : Z := if b then 1 else 0.

Create HintDb width.
Create Rewrite HintDb widths.

Lemma u8_range x : 0 <= u8 x < 256.
Proof. unfold u8. apply Z.mod_pos_bound. lia. Qed.
Lemma u16_range x : 0 <= u16 x < 65536.
Proof. unfold u16. apply Z.mod_pos_bound. lia. Qed.
Lemma u32_range x : 0 <= u32 x < 2 ^ 32.
Proof. unfold u32. apply Z.mod_pos_bound. lia. Qed.
Lemma s8_range x : -128 <= s8 x < 128.
Proof. unfold s8. pose proof (Z.mod_pos_bound (x + 2 ^ 7) (2 ^ 8)). lia. Qed.
Lemma s32_range x : - 2 ^ 31 <= s32 x < 2 ^ 31.
Proof. unfold s32. pose proof (Z.mod_pos_bound (x + 2 ^ 31) (2 ^ 32)). lia. Qed.

Lemma u8_small x : 0 <= x < 256 -> u8 x = x.
Proof. intros. apply Z.mod_small. lia. Qed.
Lemma u16_small x : 0 <= x < 65536 -> u16 x = x.
Proof. intros. apply Z.mod_small. lia. Qed.
Lemma u32_small x : 0 <= x < 2 ^ 32 -> u32 x = x.
Proof. intros. apply Z.mod_small. lia. Qed.
Lemma s32_small x : - 2 ^ 31 <= x < 2 ^ 31 -> s32 x = x.
Proof. intros. unfold s32. rewrite Z.mod_small; lia. Qed.
Lemma s8_small x : -128 <= x < 128 -> s8 x = x.
Proof. intros. unfold s8. rewrite Z.mod_small; lia. Qed.
Lemma u8_u8 x : u8 (u8 x) = u8 x.
Proof. apply u8_small, u8_range. Qed.
Lemma u32_u32 x : u32 (u32 x) = u32 x.
Proof. apply u32_small, u32_range. Qed.

#[export] Hint Resolve u8_range u16_range u32_range s8_range s32_range : width.
#[export] Hint Rewrite u8_u8 u32_u32 : widths.

(** ** Tactics *)

(** Linear arithmetic with division and remainder by constants. *)
Ltac zdm := Z.div_mod_to_equations; lia.

(** Case analysis on a boolean comparison of the goal, then arithmetic. *)
Ltac case_cmp :=
  match goal with
  | |- context [Z.eqb ?x ?y] => destruct (Z.eqb_spec x y)
  | |- context [Z.leb ?x ?y] => destruct (Z.leb_spec x y)
  | |- context [Z.ltb ?x ?y] => destruct (Z.ltb_spec x y)
  | |- context [decide ?P] => destruct (decide P)
  end.

(** The same on a hypothesis. *)
Ltac case_cmp_in H :=
  match type of H with
  | context [Z.eqb ?x ?y] => destruct (Z.eqb_spec x y)
  | context [Z.leb ?x ?y] => destruct (Z.leb_spec x y)
  | context [Z.ltb ?x ?y] => destruct (Z.ltb_spec x y)
  end.

(** Rewrite a boolean comparison with its truth value, found by [lia]. *)
Ltac cmp_true b := let E := fresh in assert (b = true) as E by lia; rewrite E; clear E.
Ltac cmp_false b := let E := fresh in assert (b = false) as E by lia; rewrite E; clear E.

(** A closed decidable statement, by evaluation. *)
Ltac decide_vm := apply (bool_decide_unpack _); vm_compute; exact I.

(** ** Bits *)

(** A value below [2 ^ k] and one shifted above it do not overlap. *)
Lemma lor_shiftl_add a b k : 0 <= k -> 0 <= a < 2 ^ k -> 0 <= b -> Z.lor a (Z.shiftl b k) = a + 2 ^ k * b.
Proof.
  intros Hk Ha Hb. rewrite <-Z.lxor_lor, <-Z.add_nocarry_lxor;
    [rewrite Z.shiftl_mul_pow2 by lia; lia| |].
  all: apply Z.bits_inj'; intros n Hn; rewrite Z.land_spec, Z.bits_0, Z.shiftl_spec by done;
    destruct (Z.ltb_spec n k).
  all: try (rewrite (Z.testbit_neg_r b) by lia; apply andb_false_r).
  all: assert (Z.testbit a n = false) as -> by
      (destruct (Z.eq_dec a 0) as [->|]; [apply Z.bits_0|];
       apply Z.bits_above_log2; [lia|]; apply Z.log2_lt_pow2; [lia|];
       apply Z.lt_le_trans with (2 ^ k); [lia|]; apply Z.pow_le_mono_r; lia).
  all: done.
Qed.

(** One bit. *)
Lemma land_bit v i : 0 <= i -> Z.land v (2 ^ i) = if Z.testbit v i then 2 ^ i else 0.
Proof.
  intros Hi. apply Z.bits_inj_iff'. intros j Hj. rewrite Z.land_spec, Z.pow2_bits_eqb by done.
  destruct (Z.eqb_spec i j) as [->|Hne]; [rewrite andb_true_r|rewrite andb_false_r].
  - destruct (Z.testbit v j); [by rewrite Z.pow2_bits_true|by rewrite Z.bits_0].
  - destruct (Z.testbit v i); [by rewrite Z.pow2_bits_false by lia|by rewrite Z.bits_0].
Qed.

(** Exclusive or stays within the width. *)
Lemma lxor_range w x y : 0 <= w -> 0 <= x < 2 ^ w -> 0 <= y < 2 ^ w -> 0 <= Z.lxor x y < 2 ^ w.
Proof.
  intros Hw Hx Hy. split; [apply Z.lxor_nonneg; lia|].
  rewrite <-(Z.mod_small x (2 ^ w)), <-(Z.mod_small y (2 ^ w)) by lia.
  rewrite <-!Z.land_ones by done.
  assert (Z.lxor (Z.land x (Z.ones w)) (Z.land y (Z.ones w)) = Z.lxor x y mod 2 ^ w) as ->.
  { rewrite <-Z.land_ones by done. apply Z.bits_inj'. intros n Hn.
    rewrite !Z.lxor_spec, !Z.land_spec, Z.lxor_spec.
    destruct (Z.testbit x n), (Z.testbit y n), (Z.testbit (Z.ones w) n); reflexivity. }
  apply Z.mod_pos_bound. lia.
Qed.

(** ** Lists *)

Definition last_or (d : Z) (l : list Z) : Z := List.last l d.

Arguments last_or : simpl never.

Lemma last_or_nil d : last_or d [] = d.
Proof. done. Qed.

Lemma last_or_snoc d l x : last_or d (l ++ [x]) = x.
Proof. apply List.last_last. Qed.

Lemma last_or_cons d x l : last_or d (x :: l) = last_or x l.
Proof.
  revert d x. induction l as [|y l IH]; intros d x; [done|].
  transitivity (last_or d (y :: l)); [done|]. by rewrite !IH.
Qed.

Lemma list_snoc_inv {A} (l : list A) : l = [] \/ exists l' x, l = l' ++ [x].
Proof.
  destruct l as [|x l] using rev_ind; eauto.
Qed.

Lemma last_or_app_cons d l x l' : last_or d (l ++ x :: l') = last_or x l'.
Proof.
  revert d. induction l as [|y l IH]; intros d; simpl; [apply last_or_cons|].
  rewrite last_or_cons. apply IH.
Qed.

(** ** Loops

    [for_break body p a] runs [body] at most [p] times and stops at the first
    run that answers [true]; the count is binary so that a bound of ten million
    iterations is still evaluated. *)
Fixpoint for_break {A} (body : A -> bool * A) (p : positive) (a : A) : bool * A :=
  match p with
  | xH => body a
  | xO q =>
      let '(d, a1) := for_break body q a in
      if d then (true, a1) else for_break body q a1
  | xI q =>
      let '(d, a1) := body a in
      if d then (true, a1)
      else let '(d, a2) := for_break body q a1 in
           if d then (true, a2) else for_break body q a2
  end.

(** The same loop, counted in unary. *)
Fixpoint for_nat {A} (body : A -> bool * A) (n : nat) (a : A) : bool * A :=
  match n with
  | O => (false, a)
  | S n' => let '(d, a1) := body a in if d then (true, a1) else for_nat body n' a1
  end.

Lemma for_nat_add {A} (body : A -> bool * A) n m a :
  for_nat body (n + m) a =
  let '(d, a1) := for_nat body n a in if d then (true, a1) else for_nat body m a1.
Proof.
  revert a. induction n as [|n IH]; intros a; simpl; [done|].
  destruct (body a) as [[] a1]; [done|]. apply IH.
Qed.

Lemma for_break_nat {A} (body : A -> bool * A) p a :
  for_break body p a = for_nat body (Pos.to_nat p) a.
Proof.
  revert a. induction p as [p IH|p IH|]; intros a; simpl for_break.
  - rewrite Pos2Nat.inj_xI. replace (2 * Pos.to_nat p)%nat with (Pos.to_nat p + Pos.to_nat p)%nat by lia.
    cbn [for_nat]. destruct (body a) as [[] a1]; [done|].
    rewrite for_nat_add, IH. destruct (for_nat body (Pos.to_nat p) a1) as [[] a2]; [done|]. apply IH.
  - rewrite Pos2Nat.inj_xO. replace (2 * Pos.to_nat p)%nat with (Pos.to_nat p + Pos.to_nat p)%nat by lia.
    rewrite for_nat_add, IH. destruct (for_nat body (Pos.to_nat p) a) as [[] a2]; [done|]. apply IH.
  - change (Pos.to_nat 1) with 1%nat. simpl. by destruct (body a) as [[] a1].
Qed.

(** A loop that goes on [k] times and then stops. *)
Lemma for_nat_stop {A} (body : A -> bool * A) (st : nat -> A) k n :
  (k < n)%nat ->
  (forall i, (i < k)%nat -> body (st i) = (false, st (S i))) ->
  body (st k) = (true, st (S k)) ->
  for_nat body n (st 0%nat) = (true, st (S k)).
Proof.
  revert st n. induction k as [|k IH]; intros st n Hn Hgo Hstop.
  - destruct n; [lia|]. simpl. by rewrite Hstop.
  - destruct n; [lia|]. simpl. rewrite Hgo by lia.
    apply (IH (fun i => st (S i))); [lia| |done].
    intros i Hi. apply Hgo. lia.
Qed.
