(* ===== verification/Memory.v ===== *)
(** * Byte memory

    The RAM of the chip as a finite map from addresses to bytes, with the
    little-endian word accesses the compiled code makes.  Cells never written
    read as zero, as the C start-up code leaves static data. *)
From S2P Require Import Prelude.

Abbreviation mem := (gmap Z Z).

Definition load8 (m : mem) (a : Z) : Z := u8 (default 0 (m !! a)).
Definition store8 (m : mem) (a v : Z) : mem := <[a := u8 v]> m.

Definition load32 (m : mem) (a : Z) : Z :=
  load8 m a + 2 ^ 8 * load8 m (a + 1) + 2 ^ 16 * load8 m (a + 2) + 2 ^ 24 * load8 m (a + 3).
Definition store32 (m : mem) (a v : Z) : mem :=
  store8 (store8 (store8 (store8 m a v) (a + 1) (v / 2 ^ 8)) (a + 2) (v / 2 ^ 16))
    (a + 3) (v / 2 ^ 24).

Fixpoint load_bytes (m : mem) (a : Z) (n : nat) : list Z :=
  match n with
  | O => []
  | S n' => load8 m a :: load_bytes m (a + 1) n'
  end.

Fixpoint store_bytes (m : mem) (a : Z) (l : list Z) : mem :=
  match l with
  | [] => m
  | b :: l' => store_bytes (store8 m a b) (a + 1) l'
  end.

(** Two memories are equivalent when every byte reads the same. *)
Definition mem_eq (m1 m2 : mem) : Prop := forall a, load8 m1 a = load8 m2 a.
#[export] Instance mem_equiv : Equiv mem := mem_eq.

#[export] Instance mem_equivalence : Equivalence (≡@{mem}).
Proof.
  split; unfold equiv, mem_equiv, mem_eq.
  - done.
  - intros ?? H a. by rewrite H.
  - intros ??? H1 H2 a. by rewrite H1.
Qed.

Lemma load8_range m a : 0 <= load8 m a < 256.
Proof. apply u8_range. Qed.

Lemma load8_store8 m a b v : load8 (store8 m a v) b = if a =? b then u8 v else load8 m b.
Proof.
  unfold load8, store8. destruct (Z.eqb_spec a b) as [->|Hne].
  - rewrite lookup_insert_eq. simpl. apply u8_u8.
  - by rewrite lookup_insert_ne.
Qed.

Lemma load8_store8_eq m a v : load8 (store8 m a v) a = u8 v.
Proof. by rewrite load8_store8, Z.eqb_refl. Qed.

Lemma load8_store8_ne m a b v : a <> b -> load8 (store8 m a v) b = load8 m b.
Proof. intros. rewrite load8_store8. by destruct (Z.eqb_spec a b). Qed.

#[export] Instance load8_proper : Proper ((≡@{mem}) ==> (=) ==> (=)) load8.
Proof. intros m1 m2 H a ? <-. apply H. Qed.

#[export] Instance store8_proper : Proper ((≡@{mem}) ==> (=) ==> (=) ==> (≡)) store8.
Proof. intros m1 m2 H a ? <- v ? <- b. rewrite !load8_store8. by rewrite (H b). Qed.

#[export] Instance load32_proper : Proper ((≡@{mem}) ==> (=) ==> (=)) load32.
Proof. intros m1 m2 H a ? <-. unfold load32. by rewrite H. Qed.

#[export] Instance store32_proper : Proper ((≡@{mem}) ==> (=) ==> (=) ==> (≡)) store32.
Proof. intros m1 m2 H a ? <- v ? <-. unfold store32. by rewrite H. Qed.

(** Reads of a stored word, at the byte granularity. *)
Lemma load8_store32_ne m a b v :
  b < a \/ a + 4 <= b -> load8 (store32 m a v) b = load8 m b.
Proof. intros. unfold store32. rewrite !load8_store8_ne; lia || done. Qed.

Lemma load32_range m a : 0 <= load32 m a < 2 ^ 32.
Proof.
  unfold load32.
  pose proof (load8_range m a). pose proof (load8_range m (a + 1)).
  pose proof (load8_range m (a + 2)). pose proof (load8_range m (a + 3)). lia.
Qed.

Lemma load32_store32_eq m a v : load32 (store32 m a v) a = u32 v.
Proof.
  unfold load32, store32.
  rewrite !load8_store8.
  repeat match goal with |- context [?x =? ?y] => destruct (Z.eqb_spec x y); try lia end.
  unfold u8, u32. zdm.
Qed.

Lemma load32_store32_ne m a b v :
  b + 4 <= a \/ a + 4 <= b -> load32 (store32 m a v) b = load32 m b.
Proof. intros. unfold load32. rewrite !load8_store32_ne by lia. done. Qed.

Lemma load32_store8_ne m a b v :
  a < b \/ b + 4 <= a -> load32 (store8 m a v) b = load32 m b.
Proof. intros. unfold load32. rewrite !load8_store8_ne by lia. done. Qed.

(** Blocks of bytes. *)
Lemma length_load_bytes m a n : length (load_bytes m a n) = n.
Proof. revert a. induction n; intros; simpl; auto. Qed.

Lemma load_bytes_lookup m a n i :
  (i < n)%nat -> load_bytes m a n !! i = Some (load8 m (a + Z.of_nat i)).
Proof.
  revert a i. induction n as [|n IH]; intros a [|i] Hi; simpl; try lia.
  - by rewrite Z.add_0_r.
  - rewrite IH by lia. do 2 f_equal. lia.
Qed.

Lemma load8_store_bytes m a l b :
  load8 (store_bytes m a l) b =
  if (a <=? b) && (b <? a + Z.of_nat (length l))
  then u8 (default 0 (l !! Z.to_nat (b - a))) else load8 m b.
Proof.
  revert m a. induction l as [|x l IH]; intros m a; cbn [store_bytes length].
  - destruct (Z.leb_spec a b), (Z.ltb_spec b (a + Z.of_nat 0)); simpl; try lia; done.
  - rewrite IH, load8_store8.
    destruct (Z.leb_spec (a + 1) b), (Z.leb_spec a b), (Z.eqb_spec a b),
      (Z.ltb_spec b (a + 1 + Z.of_nat (length l))),
      (Z.ltb_spec b (a + Z.of_nat (S (length l)))); try lia; simpl; try done.
    + replace (Z.to_nat (b - a)) with (S (Z.to_nat (b - (a + 1)))) by lia. done.
    + subst. by rewrite Z.sub_diag.
Qed.

Lemma load_bytes_ext m1 m2 a n :
  (forall i, 0 <= i < Z.of_nat n -> load8 m1 (a + i) = load8 m2 (a + i)) ->
  load_bytes m1 a n = load_bytes m2 a n.
Proof.
  intros H. apply list_eq. intros i.
  destruct (decide (i < n)%nat) as [Hi|Hi].
  - rewrite !load_bytes_lookup by done. f_equal. apply H. lia.
  - by rewrite !lookup_ge_None_2 by (rewrite length_load_bytes; lia).
Qed.

Lemma load_bytes_app m a n1 n2 :
  load_bytes m a (n1 + n2) = load_bytes m a n1 ++ load_bytes m (a + Z.of_nat n1) n2.
Proof.
  revert a. induction n1 as [|n IH]; intros a; simpl; [f_equal; lia|].
  rewrite IH. do 3 f_equal. lia.
Qed.

Lemma load_bytes_Forall m a n : Forall (fun b => 0 <= b < 256) (load_bytes m a n).
Proof. revert a. induction n; intros; simpl; constructor; auto using load8_range. Qed.

Lemma load_store_bytes m a l :
  Forall (fun b => 0 <= b < 256) l -> load_bytes (store_bytes m a l) a (length l) = l.
Proof.
  intros Hl. apply list_eq. intros i.
  destruct (decide (i < length l)%nat) as [Hi|Hi].
  - rewrite load_bytes_lookup by done. rewrite load8_store_bytes.
    replace (Z.to_nat (a + Z.of_nat i - a)) with i by lia.
    destruct (lookup_lt_is_Some_2 l i Hi) as [b Hb]. rewrite Hb.
    destruct (Z.leb_spec a (a + Z.of_nat i)), (Z.ltb_spec (a + Z.of_nat i) (a + Z.of_nat (length l)));
      try lia; simpl.
    rewrite u8_small; [done|]. by apply (Forall_lookup_1 _ _ _ _ Hl Hb).
  - rewrite !lookup_ge_None_2; try done; rewrite ?length_load_bytes; lia.
Qed.
