(* ===== verification/Linked.v ===== *)
(** * Intrusive singly linked lists

    The interface [LinkedHeap] is what [list.c], [utlist.h], [mempool.c],
    [ev_queue.c] and [ev_timer.c] ask of the store they work on: a [next] field
    per node.  The byte memory of [Memory] implements it (field at offset 0, as
    in [struct list], [mem_block_t] and [queue_item_t]); the timer store of
    [EvTimer] implements it with its own records.  The lemmas on list segments
    are proved once, against the laws.  [utlist.h]'s macros are the last
    section. *)
From S2P Require Import Prelude Memory.

Class LinkedHeap (H : Type) := {
  hnext : H -> Z -> Z;
  set_hnext : H -> Z -> Z -> H;
  node_ok : H -> Z -> Prop;
}.

(** A link is NULL or the address of a node. *)
Definition link_ok `{LinkedHeap H} (h : H) (v : Z) : Prop := v = 0 \/ node_ok h v.

Class LinkedHeapLaws (H : Type) `{LinkedHeap H} := {
  node_ok_nonnull (h : H) a : node_ok h a -> a <> 0;
  node_ok_set (h : H) a v b : node_ok h b -> node_ok (set_hnext h a v) b;
  hnext_set_eq (h : H) a v :
    node_ok h a -> link_ok h v -> hnext (set_hnext h a v) a = v;
  hnext_set_ne (h : H) a b v :
    node_ok h a -> node_ok h b -> a <> b -> hnext (set_hnext h a v) b = hnext h b;
}.

(** [lseg h p l q]: following [next] from [p] visits the nodes [l] and stops at [q]. *)
Fixpoint lseg `{LinkedHeap H} (h : H) (p : Z) (l : list Z) (q : Z) : Prop :=
  match l with
  | [] => p = q
  | a :: l' => p = a /\ node_ok h a /\ lseg h (hnext h a) l' q
  end.

(** A NULL-terminated list. *)
Abbreviation lchain h p l := (lseg h p l 0).

Definition head_ptr (l : list Z) : Z := match l with [] => 0 | a :: _ => a end.

Create HintDb linked.

Section segments.
Context {T : Type} {ops : LinkedHeap T} {laws : LinkedHeapLaws T}.
Implicit Types (h : T) (p q a : Z) (l : list Z).

Lemma lseg_app h p l1 l2 q :
  lseg h p (l1 ++ l2) q <-> exists r, lseg h p l1 r /\ lseg h r l2 q.
Proof.
  revert p. induction l1 as [|a l1 IH]; intros p; simpl.
  - split; [by exists p|by intros (r & -> & ?)].
  - rewrite IH. split.
    + intros (-> & Ha & r & H1 & H2). by exists r.
    + intros (r & (-> & Ha & H1) & H2). split_and!; [done..|by exists r].
Qed.

Lemma lseg_nodes h p l q : lseg h p l q -> Forall (node_ok h) l.
Proof.
  revert p. induction l as [|a l IH]; intros p; simpl; constructor; destruct_and!; eauto.
Qed.

Lemma lseg_node h p l q a : lseg h p l q -> a ∈ l -> node_ok h a.
Proof. intros Hl Ha. apply lseg_nodes in Hl. by rewrite Forall_forall in Hl; apply Hl. Qed.

Lemma lchain_head h p l : lchain h p l -> p = head_ptr l.
Proof. by destruct l; [|intros (? & _)]. Qed.

Lemma lchain_nil h l : lchain h 0 l <-> l = [].
Proof.
  split; [|by intros ->]. destruct l as [|a l]; [done|].
  intros (Ha & Hok & _). by destruct (node_ok_nonnull h a Hok).
Qed.

Lemma lchain_cons_inv h p l :
  p <> 0 -> lchain h p l ->
  exists l', l = p :: l' /\ node_ok h p /\ lchain h (hnext h p) l'.
Proof. destruct l as [|a l]; simpl; [done|]. intros _ (-> & ? & ?). eauto. Qed.

(** The list a pointer leads to is unique, hence it has no repetition. *)
Lemma lchain_det h p l1 l2 : lchain h p l1 -> lchain h p l2 -> l1 = l2.
Proof.
  revert p l2. induction l1 as [|a l1 IH]; intros p l2 H1 H2.
  - simpl in H1; subst. symmetry. by apply (lchain_nil h).
  - destruct H1 as (-> & Hok & H1).
    destruct (lchain_cons_inv h a l2 (node_ok_nonnull _ _ Hok) H2) as (l' & -> & _ & H2').
    f_equal. by apply (IH (hnext h a)).
Qed.

Lemma lchain_suffix h p l1 a l2 : lchain h p (l1 ++ a :: l2) -> lchain h a (a :: l2).
Proof. rewrite lseg_app. intros (r & _ & -> & ?). done. Qed.

Lemma lchain_NoDup h p l : lchain h p l -> NoDup l.
Proof.
  revert p. induction l as [|a l IH]; intros p Hl; constructor.
  - intros Ha. apply list_elem_of_split in Ha as (l1 & l2 & ->).
    destruct Hl as (-> & Hok & Hl).
    assert (lchain h a (a :: l1 ++ a :: l2)) as Hfull by done.
    pose proof (lchain_suffix _ _ (a :: l1) _ _ Hfull) as Hs.
    pose proof (lchain_det _ _ _ _ Hfull Hs) as E.
    apply (f_equal length) in E. simpl in E. rewrite length_app in E. simpl in E. lia.
  - destruct Hl as (_ & _ & ?). eauto.
Qed.

Lemma lseg_set_frame h p l q a v :
  node_ok h a -> a ∉ l -> lseg h p l q -> lseg (set_hnext h a v) p l q.
Proof.
  intros Ha. revert p. induction l as [|b l IH]; intros p Hni; simpl; [done|].
  intros (-> & Hb & Hl). split_and!; [done|by apply node_ok_set|].
  rewrite hnext_set_ne by set_solver. apply IH; set_solver.
Qed.

(** Linking a fresh node in front, as LIST_ADD, push and free do. *)
Lemma lseg_push h p l q a :
  node_ok h a -> a ∉ l -> link_ok h p -> lseg h p l q ->
  lseg (set_hnext h a p) a (a :: l) q.
Proof.
  intros Ha Hni Hp Hl. simpl. split_and!; [done|by apply node_ok_set|].
  rewrite hnext_set_eq by done. by apply lseg_set_frame.
Qed.

Lemma lchain_link h p l : lchain h p l -> link_ok h p.
Proof. destruct l; [by left|intros (-> & ? & _); by right]. Qed.

(** Redirecting the [next] field of the last node of a segment. *)
Lemma lseg_relink h p l a q v :
  lseg h p (l ++ [a]) q -> a ∉ l -> link_ok h v ->
  lseg (set_hnext h a v) p (l ++ [a]) v.
Proof.
  intros Hl Hni Hv. apply lseg_app in Hl as (r & H1 & -> & Ha & _).
  apply lseg_app. exists a. split; [by apply lseg_set_frame|].
  simpl. split_and!; [done|by apply node_ok_set|by apply hnext_set_eq].
Qed.

(** Appending a node at the end of a non-empty list. *)
Lemma lchain_append h p l a x :
  lchain h p (l ++ [a]) -> x ∉ l ++ [a] -> node_ok h x ->
  hnext h x = 0 ->
  lchain (set_hnext h a x) p ((l ++ [a]) ++ [x]).
Proof.
  intros Hl Hni Hx Hx0. pose proof (lchain_NoDup _ _ _ Hl) as Hnd.
  apply NoDup_app in Hnd as (_ & Hnd & _).
  apply lseg_app. exists x. split.
  - apply lseg_relink with (q := 0); [done| |by right]. intros ?.
    eapply Hnd; [done|]. set_solver.
  - simpl. split_and!; [done|by apply node_ok_set|].
    rewrite hnext_set_ne; [done| |done|set_solver].
    eapply lseg_node; [done|]. set_solver.
Qed.

(** Unlinking the node after [a]. *)
Lemma lchain_unlink h p l1 a x l2 :
  lchain h p (l1 ++ a :: x :: l2) ->
  lchain (set_hnext h a (hnext h x)) p (l1 ++ a :: l2).
Proof.
  intros Hl. pose proof (lchain_NoDup _ _ _ Hl) as Hnd.
  apply lseg_app in Hl as (r & H1 & -> & Ha & E & Hx & H2).
  apply NoDup_app in Hnd as (_ & Hd & Hnd).
  apply NoDup_cons in Hnd as [Hnd1 Hnd]. apply NoDup_cons in Hnd as [Hnd2 _].
  apply lseg_app. exists a. split.
  - apply lseg_set_frame; [done| |done]. intros Hin. eapply Hd; [done|]. set_solver.
  - simpl. split_and!; [done|by apply node_ok_set|].
    rewrite hnext_set_eq; [|done|by eapply lchain_link].
    apply lseg_set_frame; [done|set_solver|done].
Qed.
End segments.

#[export] Hint Resolve lseg_node lchain_link lchain_NoDup node_ok_nonnull : linked.

(** ** The byte memory as a linked heap *)

(** Nodes are word-aligned objects of the 32-bit address space. *)
Definition aligned4 (a : Z) : Prop := 0 < a < 2 ^ 32 /\ a mod 4 = 0.

#[export] Instance aligned4_dec a : Decision (aligned4 a).
Proof. unfold aligned4. apply _. Defined.

#[export] Instance mem_linked : LinkedHeap mem := {
  hnext := load32;
  set_hnext := store32;
  node_ok _ a := aligned4 a;
}.

Lemma aligned4_disjoint a b : aligned4 a -> aligned4 b -> a <> b -> b + 4 <= a \/ a + 4 <= b.
Proof. unfold aligned4. intros. zdm. Qed.

#[export] Instance mem_linked_laws : LinkedHeapLaws mem.
Proof.
  split; simpl.
  - intros _ a [? _]. lia.
  - done.
  - intros h a v Ha Hv. rewrite load32_store32_eq. apply u32_small.
    destruct Hv as [->|[Hv _]]; lia.
  - intros h a b v Ha Hb Hne. apply load32_store32_ne. by apply aligned4_disjoint.
Qed.

(** The list lemmas in the vocabulary of the byte memory. *)
Section mem_segments.
Implicit Types (m : mem) (p q a x v : Z) (l : list Z).

Lemma mem_frame m p l q a v :
  aligned4 a -> a ∉ l -> lseg m p l q -> lseg (store32 m a v) p l q.
Proof. exact (lseg_set_frame (T := mem) m p l q a v). Qed.

Lemma mem_push m p l a :
  aligned4 a -> a ∉ l -> lchain m p l -> lchain (store32 m a p) a (a :: l).
Proof.
  intros Ha Hni Hl.
  exact (lseg_push (T := mem) m p l 0 a Ha Hni (lchain_link m p l Hl) Hl).
Qed.

Lemma mem_relink m p l a q v :
  lseg m p (l ++ [a]) q -> a ∉ l -> v = 0 \/ aligned4 v ->
  lseg (store32 m a v) p (l ++ [a]) v.
Proof. exact (lseg_relink (T := mem) m p l a q v). Qed.

Lemma mem_append m p l a x :
  lchain m p (l ++ [a]) -> x ∉ l ++ [a] -> aligned4 x -> load32 m x = 0 ->
  lchain (store32 m a x) p ((l ++ [a]) ++ [x]).
Proof. exact (lchain_append (T := mem) m p l a x). Qed.

Lemma mem_unlink m p l1 a x l2 :
  lchain m p (l1 ++ a :: x :: l2) ->
  lchain (store32 m a (load32 m x)) p (l1 ++ a :: l2).
Proof. exact (lchain_unlink (T := mem) m p l1 a x l2). Qed.

Lemma mem_node m p l q a : lseg m p l q -> a ∈ l -> aligned4 a.
Proof. exact (lseg_node (T := mem) m p l q a). Qed.

Lemma mem_link m p l : lchain m p l -> p = 0 \/ aligned4 p.
Proof. exact (lchain_link (T := mem) m p l). Qed.

Lemma aligned4_nonzero a : aligned4 a -> (a =? 0) = false.
Proof. intros [? _]. lia. Qed.

(** A stored link reads back. *)
Lemma load32_store32_link m a v :
  v = 0 \/ aligned4 v -> load32 (store32 m a v) a = v.
Proof. intros [->|[? _]]; rewrite load32_store32_eq; [done|]. apply u32_small. lia. Qed.

Lemma load32_store32_other m a b v :
  aligned4 a -> aligned4 b -> a <> b -> load32 (store32 m a v) b = load32 m b.
Proof. intros. apply load32_store32_ne. by apply aligned4_disjoint. Qed.
End mem_segments.

#[export] Hint Resolve mem_node mem_link : linked.

(** Equivalent memories carry the same lists. *)
Lemma lseg_mem_ext (m1 m2 : mem) p l q :
  (forall a, a ∈ l -> load32 m1 a = load32 m2 a) -> lseg m1 p l q -> lseg m2 p l q.
Proof.
  revert p. induction l as [|a l IH]; intros p Hm; simpl; [done|].
  intros (-> & Ha & Hl). split_and!; [done..|]. rewrite <- Hm by set_solver.
  apply IH; [set_solver|done].
Qed.

(** ** utlist.h *)
Section utlist.
Context {T : Type} {ops : LinkedHeap T}.

(** LIST_ADD(head, ele): the new heap and the new head. *)
Definition LIST_ADD (h : T) (head ele : Z) : T * Z := (set_hnext h ele head, ele).

(** [while (lst->next && (lst->next != ele)) lst = lst->next;] *)
Fixpoint list_delete_walk (fuel : nat) (h : T) (lst ele : Z) : option Z :=
  match fuel with
  | O => None
  | S f =>
      if negb (hnext h lst =? 0) && negb (hnext h lst =? ele)
      then list_delete_walk f h (hnext h lst) ele
      else Some lst
  end.

(** LIST_DELETE(head, ele): [None] when the walk does not end within [fuel] steps. *)
Definition LIST_DELETE (fuel : nat) (h : T) (head ele : Z) : option (T * Z) :=
  if head =? ele then Some (h, hnext h head)
  else
    lst ← list_delete_walk fuel h head ele;
    if negb (hnext h lst =? 0) then Some (set_hnext h lst (hnext h ele), head)
    else Some (h, head).

(** LIST_EXIST(head, ele, result): the value left in [result]. *)
Fixpoint LIST_EXIST (fuel : nat) (h : T) (result ele : Z) : option Z :=
  match fuel with
  | O => None
  | S f =>
      if result =? 0 then Some 0
      else if result =? ele then Some result
      else LIST_EXIST f h (hnext h result) ele
  end.
End utlist.

Section utlist_laws.
Context {T : Type} {ops : LinkedHeap T} {laws : LinkedHeapLaws T}.
Implicit Types (h : T) (l : list Z).

Lemma LIST_ADD_spec h p l x :
  lchain h p l -> node_ok h x -> x ∉ l ->
  lchain (LIST_ADD h p x).1 (LIST_ADD h p x).2 (x :: l).
Proof. intros Hl Hx Hni. simpl fst; simpl snd. apply lseg_push; eauto with linked. Qed.

Lemma LIST_EXIST_spec h p l x fuel :
  lchain h p l -> (length l < fuel)%nat ->
  LIST_EXIST fuel h p x = Some (if decide (x ∈ l) then x else 0).
Proof.
  revert p fuel. induction l as [|a l IH]; intros p [|fuel] Hl Hf; simpl in *; try lia.
  - subst. done.
  - destruct Hl as (-> & Ha & Hl).
    rewrite (proj2 (Z.eqb_neq a 0)) by eauto with linked.
    destruct (Z.eqb_spec a x) as [->|Hne].
    + rewrite decide_True; [done|set_solver].
    + rewrite (IH _ _ Hl) by lia. f_equal.
      destruct (decide (x ∈ l)), (decide (x ∈ a :: l)); set_solver.
Qed.

(** The walk of LIST_DELETE stops at the predecessor of [x], or at the last node. *)
Lemma list_delete_walk_found h p l1 a x l2 fuel :
  lchain h p (l1 ++ a :: x :: l2) -> (length l1 < fuel)%nat ->
  list_delete_walk fuel h p x = Some a.
Proof.
  revert p fuel. induction l1 as [|b l1 IH]; intros p [|fuel] Hl Hf; simpl in *; try lia.
  - destruct Hl as (-> & _ & -> & _). by rewrite Z.eqb_refl, andb_false_r.
  - pose proof (lchain_NoDup _ _ (b :: l1 ++ a :: x :: l2) Hl) as Hnd.
    destruct Hl as (-> & Hb & Hl).
    assert (hnext h b <> 0 /\ hnext h b <> x) as [Hz Hx].
    { destruct l1 as [|c l1]; simpl in Hl; destruct Hl as (-> & Hc & Hl);
        split; eauto using node_ok_nonnull; intros ->;
        apply NoDup_cons in Hnd as [_ Hnd]; apply NoDup_cons in Hnd as [? _]; set_solver. }
    rewrite (proj2 (Z.eqb_neq _ _) Hz), (proj2 (Z.eqb_neq _ _) Hx). simpl.
    apply IH; [done|lia].
Qed.

Lemma list_delete_walk_absent h p l a x fuel :
  lchain h p (l ++ [a]) -> x ∉ l ++ [a] -> (length l < fuel)%nat ->
  list_delete_walk fuel h p x = Some a.
Proof.
  revert p fuel. induction l as [|b l IH]; intros p [|fuel] Hl Hni Hf; simpl in *; try lia.
  - destruct Hl as (-> & _ & ->). done.
  - destruct Hl as (-> & Hb & Hl).
    assert (hnext h b <> 0 /\ hnext h b <> x) as [Hz Hx].
    { destruct l as [|c l]; simpl in Hl; destruct Hl as (-> & Hc & Hl);
        split; eauto using node_ok_nonnull; intros ->; set_solver. }
    rewrite (proj2 (Z.eqb_neq _ _) Hz), (proj2 (Z.eqb_neq _ _) Hx). simpl.
    apply IH; [done|set_solver|lia].
Qed.

Lemma LIST_DELETE_spec h p l1 x l2 fuel :
  lchain h p (l1 ++ x :: l2) -> (length l1 < fuel)%nat ->
  exists h', LIST_DELETE fuel h p x = Some (h', head_ptr (l1 ++ l2)) /\
    lchain h' (head_ptr (l1 ++ l2)) (l1 ++ l2) /\
    (h' = h \/ exists a v, a ∈ l1 /\ h' = set_hnext h a v).
Proof.
  intros Hl Hf. unfold LIST_DELETE.
  destruct l1 as [|b l1 _] using rev_ind.
  - destruct Hl as (-> & Hx & Hl). rewrite Z.eqb_refl. simpl.
    exists h. rewrite <- (lchain_head _ _ _ Hl). eauto.
  - rewrite <- app_assoc in *. simpl in *.
    assert (p <> x) as Hpx.
    { pose proof (lchain_NoDup _ _ _ Hl) as Hnd. rewrite (lchain_head _ _ _ Hl).
      destruct l1; simpl in *; inversion Hnd; set_solver. }
    rewrite (proj2 (Z.eqb_neq _ _) Hpx).
    rewrite length_app in Hf; simpl in Hf.
    rewrite (list_delete_walk_found _ _ _ _ _ _ _ Hl) by lia. simpl.
    pose proof Hl as Hl'. apply lseg_app in Hl' as (r & _ & -> & Hb & Hbx & Hx & _).
    rewrite Hbx. rewrite (proj2 (Z.eqb_neq x 0)) by eauto with linked. simpl.
    exists (set_hnext h b (hnext h x)).
    assert (p = head_ptr (l1 ++ b :: l2)) as ->.
    { rewrite (lchain_head _ _ _ Hl). by destruct l1. }
    split_and!; [done| |right; exists b, (hnext h x); set_solver].
    apply lchain_unlink. replace (head_ptr (l1 ++ b :: l2)) with (head_ptr (l1 ++ b :: x :: l2))
      by (by destruct l1). by rewrite <- (lchain_head _ _ _ Hl).
Qed.
End utlist_laws.
