(* ===== verification/ListC.v ===== *)
(** * proj/common/list.c

    [list_t] is [void **]: the address of a cell holding the head pointer; an
    item is any object whose first word is its [next] field.  Every function of
    the file is a definition below, over the byte memory; a loop that follows
    [next] takes a fuel and is [None] when it has not ended within it.  The
    lemmas relate each function to an operation on the list of item addresses;
    [fuel > length] is always enough. *)
From S2P Require Import Prelude Memory Linked.

(** *** Definitions *)

Definition listInit (m : mem) (list : Z) : mem := store32 m list 0.

Definition listHead (m : mem) (list : Z) : Z := load32 m list.

Definition listCopy (m : mem) (dest src : Z) : mem := store32 m dest (load32 m src).

(** [for(l = *list; l->next != NULL; l = l->next);] *)
Fixpoint tail_loop (fuel : nat) (m : mem) (l : Z) : option Z :=
  match fuel with
  | O => None
  | S f => if load32 m l =? 0 then Some l else tail_loop f m (load32 m l)
  end.

Definition listTail (fuel : nat) (m : mem) (list : Z) : option Z :=
  if load32 m list =? 0 then Some 0 else tail_loop fuel m (load32 m list).

Definition listAdd (fuel : nat) (m : mem) (list item : Z) : option mem :=
  let m1 := store32 m item 0 in
  l ← listTail fuel m1 list;
  Some (if l =? 0 then store32 m1 list item else store32 m1 l item).

Definition listPush (m : mem) (list item : Z) : mem :=
  let m1 := store32 m item (load32 m list) in store32 m1 list item.

(** [for(l = *list; l->next->next != NULL; l = l->next);] *)
Fixpoint chop_loop (fuel : nat) (m : mem) (l : Z) : option Z :=
  match fuel with
  | O => None
  | S f => if load32 m (load32 m l) =? 0 then Some l else chop_loop f m (load32 m l)
  end.

Definition listChop (fuel : nat) (m : mem) (list : Z) : option (Z * mem) :=
  let head := load32 m list in
  if head =? 0 then Some (0, m)
  else if load32 m head =? 0 then Some (head, store32 m list 0)
  else
    l ← chop_loop fuel m head;
    let p := load32 m l in
    Some (p, store32 m l 0).

(** [listPop] returns [*list] after the update, that is the new head. *)
Definition listPop (m : mem) (list : Z) : Z * mem :=
  let m1 := if negb (load32 m list =? 0) then store32 m list (load32 m (load32 m list)) else m in
  (load32 m1 list, m1).

(** The loop of [listRemove]; [p] is the previous item, 0 at the first. *)
Fixpoint remove_loop (fuel : nat) (m : mem) (list item l p : Z) : option mem :=
  match fuel with
  | O => None
  | S f =>
      if l =? 0 then Some m
      else if l =? item then
        let m1 := if p =? 0 then store32 m list (load32 m l) else store32 m p (load32 m l) in
        Some (store32 m1 l 0)
      else remove_loop f m list item (load32 m l) l
  end.

Definition listRemove (fuel : nat) (m : mem) (list item : Z) : option mem :=
  if load32 m list =? 0 then Some m
  else remove_loop fuel m list item (load32 m list) 0.

Fixpoint length_loop (fuel : nat) (m : mem) (l num : Z) : option Z :=
  match fuel with
  | O => None
  | S f => if l =? 0 then Some num else length_loop f m (load32 m l) (num + 1)
  end.

Definition listLength (fuel : nat) (m : mem) (list : Z) : option Z :=
  length_loop fuel m (load32 m list) 0.

Definition listInsert (m : mem) (list prevItem newItem : Z) : mem :=
  if prevItem =? 0 then listPush m list newItem
  else
    let m1 := store32 m newItem (load32 m prevItem) in
    store32 m1 prevItem newItem.

(** *** The list a cell holds *)

Definition holds (m : mem) (L : Z) (l : list Z) : Prop :=
  aligned4 L /\ (L ∉ l) /\ lchain m (load32 m L) l.

(** A fresh item: a node that is neither the cell nor in the list. *)
Definition fresh_item (L : Z) (l : list Z) (x : Z) : Prop :=
  aligned4 x /\ x <> L /\ x ∉ l.

Lemma holds_lseg m L l : holds m L l -> lchain m L (L :: l).
Proof. intros (HL & _ & Hl). done. Qed.

Lemma lseg_holds m L l : lchain m L (L :: l) -> holds m L l.
Proof.
  intros Hl. pose proof (lchain_NoDup _ _ _ Hl) as Hnd.
  apply NoDup_cons in Hnd as [? _]. destruct Hl as (_ & ? & ?). done.
Qed.

Lemma holds_iff m L l : holds m L l <-> lchain m L (L :: l).
Proof. split; [apply holds_lseg|apply lseg_holds]. Qed.

Lemma holds_head m L l : holds m L l -> listHead m L = head_ptr l.
Proof. intros (_ & _ & Hl). by apply lchain_head in Hl. Qed.

(** The last item of a chain, or [p0] before it. *)
Lemma tail_loop_spec m p l a fuel :
  lchain m p (l ++ [a]) -> (length l < fuel)%nat -> tail_loop fuel m p = Some a.
Proof.
  revert p fuel. induction l as [|b l IH]; intros p [|fuel] Hl Hf; simpl in *; try lia.
  - destruct Hl as (-> & _ & ->). done.
  - destruct Hl as (-> & Hb & Hl). pose proof (lchain_head _ _ _ Hl) as E.
    destruct (Z.eqb_spec (load32 m b) 0) as [Hz|Hz]; [|apply IH; [done|lia]].
    rewrite Hz in Hl. apply lchain_nil in Hl. by destruct l.
Qed.

Lemma listTail_spec m L l fuel :
  holds m L l -> (length l < fuel)%nat ->
  listTail fuel m L = Some (last_or 0 l).
Proof.
  intros (HL & Hni & Hl) Hf. unfold listTail.
  destruct (list_snoc_inv l) as [->|(l' & a & ->)].
  - by rewrite Hl.
  - rewrite last_or_snoc. rewrite length_app in Hf.
    destruct (Z.eqb_spec (load32 m L) 0) as [Hz|Hz].
    + rewrite Hz in Hl. apply lchain_nil in Hl. by destruct l'.
    + apply tail_loop_spec with (l := l'); [done|lia].
Qed.

Lemma holds_frame m L l x v :
  holds m L l -> fresh_item L l x -> holds (store32 m x v) L l.
Proof.
  rewrite !holds_iff. intros Hl (Hx & HxL & Hni). apply mem_frame; [done|set_solver|done].
Qed.

Lemma holds_node m L l a : holds m L l -> a ∈ l -> aligned4 a.
Proof. intros (_ & _ & Hl). by apply (mem_node _ _ _ _ _ Hl). Qed.

(** *** Each function is the list operation it is named after *)

(** The cell is the node before the first item, so an insertion after a node
    covers [listAdd], [listPush] and [listInsert]. *)
Lemma insert_after_spec m p l1 a x l2 :
  lchain m p (l1 ++ a :: l2) -> aligned4 x -> x ∉ l1 ++ a :: l2 ->
  lchain (store32 (store32 m x (load32 m a)) a x) p (l1 ++ a :: x :: l2).
Proof.
  intros Hl Hx Hni. pose proof (lchain_NoDup _ _ _ Hl) as Hnd.
  apply lseg_app in Hl as (r & H1 & -> & Ha & H2).
  apply NoDup_app in Hnd as (_ & Hd & Hnd). apply NoDup_cons in Hnd as [Hnd _].
  assert (a ∉ l1) by (intros ?; eapply Hd; [done|set_solver]).
  apply lseg_app. exists a. split; [do 2 (apply mem_frame; [done|set_solver|]); done|].
  cbn [lseg hnext mem_linked]. split_and!; [done|done| |done|].
  - apply load32_store32_link. by right.
  - rewrite load32_store32_other by set_solver.
    rewrite load32_store32_link by (by eapply mem_link).
    do 2 (apply mem_frame; [done|set_solver|]). done.
Qed.

Lemma listPush_holds m L l x :
  holds m L l -> fresh_item L l x -> holds (listPush m L x) L (x :: l).
Proof.
  rewrite !holds_iff. intros Hl (Hx & HxL & Hni).
  apply (insert_after_spec m L [] L x l); [done|done|set_solver].
Qed.

Lemma listInsert_holds m L l1 a x l2 :
  holds m L (l1 ++ a :: l2) -> fresh_item L (l1 ++ a :: l2) x ->
  holds (listInsert m L a x) L (l1 ++ a :: x :: l2).
Proof.
  intros Hh (Hx & HxL & Hni). pose proof Hh as Hh'. rewrite holds_iff in Hh'.
  unfold listInsert. rewrite aligned4_nonzero by (eapply holds_node; [done|set_solver]).
  apply holds_iff. apply (insert_after_spec m L (L :: l1) a x l2); [done|done|set_solver].
Qed.

Lemma listAdd_holds m L l x fuel :
  holds m L l -> fresh_item L l x -> (length l < fuel)%nat ->
  exists m', listAdd fuel m L x = Some m' /\ holds m' L (l ++ [x]).
Proof.
  intros Hh Hx Hf. unfold listAdd.
  pose proof (holds_frame _ _ _ x 0 Hh Hx) as Hh1.
  rewrite (listTail_spec _ _ _ _ Hh1 Hf). simpl. eexists. split; [done|].
  destruct Hx as (Hx & HxL & Hni).
  assert (load32 (store32 m x 0) x = 0) as Hx0 by (apply load32_store32_link; by left).
  apply holds_iff. apply holds_iff in Hh1.
  destruct (list_snoc_inv l) as [->|(l' & a & ->)].
  - apply (mem_append _ L [] L x); [done|set_solver|done|done].
  - rewrite last_or_snoc.
    rewrite aligned4_nonzero by (eapply mem_node; [exact Hh1|set_solver]).
    apply (mem_append _ L (L :: l') a x); [done|set_solver|done|done].
Qed.

Lemma listPop_holds m L l :
  holds m L l ->
  (listPop m L).1 = head_ptr (tail l) /\ holds (listPop m L).2 L (tail l).
Proof.
  intros Hh. enough (holds (listPop m L).2 L (tail l)) as Hh'.
  { split; [|done]. by rewrite <- (holds_head _ _ _ Hh'). }
  unfold listPop. destruct Hh as (HL & Hni & Hl).
  destruct l as [|a l]; simpl in Hl.
  - rewrite Hl. done.
  - destruct Hl as (E & Ha & Hl). rewrite E.
    rewrite aligned4_nonzero by done. simpl. apply holds_iff.
    apply (mem_unlink m L [] L a l). simpl. by rewrite E.
Qed.

Lemma chop_loop_spec m p l a b fuel :
  lchain m p (l ++ [a; b]) -> (length l < fuel)%nat -> chop_loop fuel m p = Some a.
Proof.
  revert p fuel. induction l as [|c l IH]; intros p [|fuel] Hl Hf; simpl in *; try lia.
  - destruct Hl as (-> & _ & E & _ & Hz). by rewrite E, Hz.
  - destruct Hl as (-> & _ & Hl).
    destruct (Z.eqb_spec (load32 m (load32 m c)) 0) as [Hz|Hz]; [|apply IH; [done|lia]].
    exfalso. destruct l as [|d l]; simpl in Hl; destruct Hl as (E & _ & Hl);
      rewrite E in Hz; [|destruct l as [|e l]]; simpl in Hl; rewrite Hz in Hl;
      destruct Hl as (<- & [? _] & _); lia.
Qed.

Lemma listChop_holds m L l fuel :
  holds m L l -> (length l < fuel)%nat ->
  exists m', listChop fuel m L = Some (last_or 0 l, m') /\ holds m' L (removelast l).
Proof.
  intros Hh Hf. pose proof Hh as Hh'. apply holds_iff in Hh'. destruct Hh as (HL & Hni & Hl).
  unfold listChop. destruct (list_snoc_inv l) as [->|(l' & b & ->)].
  { rewrite Hl. eexists. split; [done|]. by apply holds_iff. }
  rewrite last_or_snoc, removelast_last. rewrite length_app in Hf.
  assert (aligned4 b) as Hb by (eapply mem_node; [exact Hl|set_solver]).
  assert (NoDup (L :: l' ++ [b])) as Hnd by (by eapply (lchain_NoDup m L)).
  destruct (list_snoc_inv l') as [->|(l2 & a & ->)].
  - destruct Hl as (E & _ & Hz). simpl in Hz. rewrite E, Hz. simpl.
    rewrite aligned4_nonzero by done.
    eexists. split; [done|]. apply holds_iff.
    apply (mem_relink _ _ [] L b); [by simpl|set_solver|by left].
  - rewrite <- app_assoc in Hl. simpl in Hl.
    assert (load32 m L <> 0 /\ load32 m (load32 m L) <> 0) as [Hz1 Hz2].
    { destruct l2 as [|c [|d l2]]; simpl in Hl; destruct Hl as (E & [? _] & E2 & [? _] & _);
        rewrite E, E2; lia. }
    rewrite (proj2 (Z.eqb_neq _ _) Hz1), (proj2 (Z.eqb_neq _ _) Hz2).
    rewrite length_app in Hf.
    rewrite (chop_loop_spec _ _ _ _ _ _ Hl) by (simpl in Hf; lia). simpl.
    apply lseg_app in Hl as (r & Hl2 & -> & Ha & E & _). simpl in E. rewrite E.
    eexists. split; [done|]. apply holds_iff.
    assert (a ∉ L :: l2).
    { rewrite <- app_assoc, app_comm_cons in Hnd. apply NoDup_app in Hnd as (_ & Hd & _).
      intros Hin. eapply Hd; [done|set_solver]. }
    apply (mem_relink _ _ (L :: l2) a b); [|done|by left].
    apply (lseg_app m L (L :: l2)). by exists a.
Qed.

Lemma length_loop_spec m p l num fuel :
  lchain m p l -> (length l < fuel)%nat ->
  length_loop fuel m p num = Some (num + Z.of_nat (length l)).
Proof.
  revert p num fuel. induction l as [|a l IH]; intros p num [|fuel] Hl Hf; simpl in *; try lia.
  - subst. simpl. f_equal. lia.
  - destruct Hl as (-> & [? _] & Hl). rewrite (proj2 (Z.eqb_neq a 0)) by lia.
    rewrite (IH _ _ _ Hl) by lia. f_equal. lia.
Qed.

Lemma listLength_spec m L l fuel :
  holds m L l -> (length l < fuel)%nat -> listLength fuel m L = Some (Z.of_nat (length l)).
Proof. intros (_ & _ & Hl) Hf. exact (length_loop_spec m _ l 0 fuel Hl Hf). Qed.

(** [listRemove]: the first loop steps keep the predecessor. *)
Lemma remove_loop_absent m L x p l q fuel :
  lchain m p l -> x ∉ l -> (length l < fuel)%nat -> remove_loop fuel m L x p q = Some m.
Proof.
  revert p q fuel. induction l as [|a l IH]; intros p q [|fuel] Hl Hni Hf; simpl in *; try lia.
  - by subst.
  - destruct Hl as (-> & [? _] & Hl). rewrite (proj2 (Z.eqb_neq a 0)) by lia.
    rewrite (proj2 (Z.eqb_neq a x)) by set_solver. apply IH; [done|set_solver|lia].
Qed.

Lemma remove_loop_found m L x p l1 l2 q fuel :
  lchain m p (l1 ++ x :: l2) -> (length l1 < fuel)%nat ->
  remove_loop fuel m L x p q =
    Some (let prev := last_or q l1 in
          store32 (store32 m (if prev =? 0 then L else prev) (load32 m x)) x 0).
Proof.
  revert p q fuel. induction l1 as [|a l1 IH]; intros p q [|fuel] Hl Hf; simpl in *; try lia.
  - destruct Hl as (-> & [? _] & Hl). rewrite (proj2 (Z.eqb_neq x 0)) by lia.
    rewrite Z.eqb_refl. unfold last_or. simpl. by destruct (q =? 0).
  - pose proof (lchain_NoDup _ _ (a :: l1 ++ x :: l2) Hl) as Hnd.
    destruct Hl as (-> & [? _] & Hl). rewrite (proj2 (Z.eqb_neq a 0)) by lia.
    apply NoDup_cons in Hnd as [Hnd _].
    rewrite (proj2 (Z.eqb_neq a x)) by set_solver.
    rewrite (IH _ _ _ Hl) by lia. by rewrite (last_or_cons q).
Qed.

Lemma listRemove_holds m L l1 x l2 fuel :
  holds m L (l1 ++ x :: l2) -> (length l1 < fuel)%nat ->
  exists m', listRemove fuel m L x = Some m' /\ holds m' L (l1 ++ l2) /\ load32 m' x = 0.
Proof.
  intros Hh Hf. pose proof Hh as Hh'. apply holds_iff in Hh'. destruct Hh as (HL & Hni & Hl).
  unfold listRemove.
  destruct (Z.eqb_spec (load32 m L) 0) as [Hz|Hz].
  { rewrite Hz in Hl. apply lchain_nil in Hl. by destruct l1. }
  rewrite (remove_loop_found _ _ _ _ _ _ _ _ Hl) by done. cbv zeta.
  pose proof (lchain_NoDup _ _ _ Hh') as Hnd. rewrite app_comm_cons in Hnd.
  apply NoDup_app in Hnd as (_ & Hd & Hnd). apply NoDup_cons in Hnd as [Hnd _].
  assert (aligned4 x) as Hx by (eapply mem_node; [exact Hl|set_solver]).
  assert (x ∉ L :: l1) by (intros ?; eapply Hd; [done|set_solver]).
  eexists. split; [done|]. split.
  2:{ rewrite load32_store32_eq. done. }
  set (prev := if last_or 0 l1 =? 0 then L else last_or 0 l1).
  assert (exists l0, L :: l1 = l0 ++ [prev]) as (l0 & E).
  { subst prev. destruct (list_snoc_inv l1) as [->|(l' & a & ->)]; [by exists []|].
    rewrite last_or_snoc. exists (L :: l'). rewrite aligned4_nonzero; [done|].
    eapply mem_node; [exact Hl|set_solver]. }
  apply holds_iff. rewrite app_comm_cons in Hh' |- *. rewrite E in *.
  rewrite <- app_assoc in *. simpl in *.
  apply mem_frame; [done|set_solver|]. by apply mem_unlink.
Qed.

(** [listCopy] makes the two cells share one chain. *)
Lemma listCopy_holds m dest src l :
  holds m src l -> aligned4 dest -> dest <> src -> dest ∉ l ->
  holds (listCopy m dest src) dest l /\ holds (listCopy m dest src) src l.
Proof.
  intros Hh Hd Hne Hni. assert (holds (listCopy m dest src) src l) as Hs.
  { apply holds_frame; [done|]. done. }
  split; [|done]. destruct Hs as (_ & _ & Hs). split_and!; [done|done|].
  unfold listCopy in *. rewrite load32_store32_eq, u32_small by apply load32_range.
  rewrite load32_store32_ne in Hs; [done|]. destruct Hh as (Hsrc & _).
  by apply aligned4_disjoint.
Qed.

(** *** Refinement: a sequence of calls against the list model *)

Inductive list_op :=
  | OpAdd (x : Z)
  | OpPush (x : Z)
  | OpInsert (prev x : Z)
  | OpRemove (x : Z)
  | OpPop
  | OpChop
  | OpTail
  | OpLength.

(** The call the program makes: its result (0 for a [void] function) and the memory. *)
Definition list_call (fuel : nat) (L : Z) (op : list_op) (m : mem) : option (Z * mem) :=
  match op with
  | OpAdd x => m' ← listAdd fuel m L x; Some (0, m')
  | OpPush x => Some (0, listPush m L x)
  | OpInsert a x => Some (0, listInsert m L a x)
  | OpRemove x => m' ← listRemove fuel m L x; Some (0, m')
  | OpPop => Some (listPop m L)
  | OpChop => listChop fuel m L
  | OpTail => r ← listTail fuel m L; Some (r, m)
  | OpLength => r ← listLength fuel m L; Some (r, m)
  end.

Fixpoint insert_after (a x : Z) (l : list Z) : list Z :=
  match l with
  | [] => []
  | b :: l' => if decide (b = a) then b :: x :: l' else b :: insert_after a x l'
  end.

Fixpoint remove_first (x : Z) (l : list Z) : list Z :=
  match l with
  | [] => []
  | b :: l' => if decide (b = x) then l' else b :: remove_first x l'
  end.

(** The abstract object: a list of addresses. *)
Definition list_model (op : list_op) (l : list Z) : Z * list Z :=
  match op with
  | OpAdd x => (0, l ++ [x])
  | OpPush x => (0, x :: l)
  | OpInsert a x => (0, if a =? 0 then x :: l else insert_after a x l)
  | OpRemove x => (0, remove_first x l)
  | OpPop => (head_ptr (tail l), tail l)
  | OpChop => (last_or 0 l, removelast l)
  | OpTail => (last_or 0 l, l)
  | OpLength => (Z.of_nat (length l), l)
  end.

(** What a caller owes: an item it adds is not already in a list, and the
    previous item it names is in the list (or NULL). *)
Definition list_op_ok (L : Z) (op : list_op) (l : list Z) : Prop :=
  match op with
  | OpAdd x | OpPush x => fresh_item L l x
  | OpInsert a x => fresh_item L l x /\ (a = 0 \/ a ∈ l)
  | _ => True
  end.

Fixpoint list_calls (fuel : nat) (L : Z) (ops : list list_op) (m : mem) : option (list Z * mem) :=
  match ops with
  | [] => Some ([], m)
  | op :: ops' =>
      '(r, m') ← list_call fuel L op m;
      '(rs, m'') ← list_calls fuel L ops' m';
      Some (r :: rs, m'')
  end.

Fixpoint list_models (ops : list list_op) (l : list Z) : list Z * list Z :=
  match ops with
  | [] => ([], l)
  | op :: ops' =>
      let '(r, l') := list_model op l in
      let '(rs, l'') := list_models ops' l' in (r :: rs, l'')
  end.

Fixpoint list_ops_ok (L : Z) (ops : list list_op) (l : list Z) : Prop :=
  match ops with
  | [] => True
  | op :: ops' => list_op_ok L op l /\ list_ops_ok L ops' (list_model op l).2
  end.

Lemma insert_after_split a x l1 l2 :
  a ∉ l1 -> insert_after a x (l1 ++ a :: l2) = l1 ++ a :: x :: l2.
Proof.
  induction l1 as [|b l1 IH]; intros Hni; simpl.
  - by rewrite decide_True.
  - rewrite decide_False by set_solver. rewrite IH; [done|set_solver].
Qed.

Lemma remove_first_split x l1 l2 :
  x ∉ l1 -> remove_first x (l1 ++ x :: l2) = l1 ++ l2.
Proof.
  induction l1 as [|b l1 IH]; intros Hni; simpl.
  - by rewrite decide_True.
  - rewrite decide_False by set_solver. rewrite IH; [done|set_solver].
Qed.

Lemma remove_first_absent x l : x ∉ l -> remove_first x l = l.
Proof.
  induction l as [|b l IH]; intros Hni; simpl; [done|].
  rewrite decide_False by set_solver. rewrite IH; [done|set_solver].
Qed.

Lemma listRemove_absent m L l x fuel :
  holds m L l -> x ∉ l -> (length l < fuel)%nat -> listRemove fuel m L x = Some m.
Proof.
  intros (_ & _ & Hl) Hni Hf. unfold listRemove.
  destruct (load32 m L =? 0); [done|]. by apply (remove_loop_absent m L x _ l).
Qed.

Lemma holds_NoDup m L l : holds m L l -> NoDup l.
Proof. intros (_ & _ & Hl). by eapply lchain_NoDup. Qed.

(** One call simulates the model. *)
Lemma list_call_sim fuel L op m l :
  holds m L l -> list_op_ok L op l -> (length l < fuel)%nat ->
  exists m', list_call fuel L op m = Some ((list_model op l).1, m') /\
    holds m' L (list_model op l).2.
Proof.
  intros Hh Hok Hf. destruct op as [x|x|a x|x| | | |]; simpl in *.
  - destruct (listAdd_holds _ _ _ _ _ Hh Hok Hf) as (m' & -> & ?). by exists m'.
  - eexists. split; [done|by apply listPush_holds].
  - destruct Hok as [Hx [->|Ha]].
    + eexists. split; [done|]. by apply listPush_holds.
    + eexists. split; [done|].
      rewrite aligned4_nonzero by (by eapply holds_node).
      apply list_elem_of_split_l in Ha as (l1 & l2 & -> & Ha).
      rewrite insert_after_split by done. by apply listInsert_holds.
  - destruct (decide (x ∈ l)) as [Hx|Hx].
    + apply list_elem_of_split_l in Hx as (l1 & l2 & -> & Hx).
      rewrite length_app in Hf. simpl in Hf.
      destruct (listRemove_holds m L l1 x l2 fuel Hh) as (m' & -> & ? & _); [lia|].
      rewrite remove_first_split by done. by exists m'.
    + rewrite (listRemove_absent _ _ _ _ _ Hh Hx Hf), remove_first_absent by done.
      by exists m.
  - destruct (listPop m L) as [r m'] eqn:E.
    destruct (listPop_holds _ _ _ Hh) as [H1 H2]. rewrite E in *. simpl in *. subst. by exists m'.
  - destruct (listChop_holds _ _ _ _ Hh Hf) as (m' & -> & ?). by exists m'.
  - rewrite (listTail_spec _ _ _ _ Hh Hf). by exists m.
  - rewrite (listLength_spec _ _ _ _ Hh Hf). by exists m.
Qed.

Lemma list_model_length op l : (length (list_model op l).2 <= S (length l))%nat.
Proof.
  destruct op as [x|x|a x|x| | | |]; simpl; rewrite ?length_app; simpl; try lia.
  - destruct (a =? 0); simpl; [done|]. induction l; simpl; [lia|]. case_decide; simpl; lia.
  - clear. induction l; simpl; [lia|]. case_decide; simpl; lia.
  - destruct l; simpl; lia.
  - destruct (list_snoc_inv l) as [->|(l' & x & ->)]; [simpl; lia|].
    rewrite removelast_last, length_app. simpl. lia.
Qed.

(** C7. list.c implements lists: any sequence of calls of its functions, made
    within their preconditions, returns what the list model returns and leaves
    the cell holding the model's list; every loop ends within [length + calls]
    steps.  ([listPop] drops the first item and returns the one after it.) *)
Theorem list_c_refines_lists (fuel : nat) (L : Z) (ops : list list_op) (m : mem) (l : list Z) :
  holds m L l -> list_ops_ok L ops l -> (length l + length ops < fuel)%nat ->
  exists m', list_calls fuel L ops m = Some ((list_models ops l).1, m') /\
    holds m' L (list_models ops l).2.
Proof.
  revert m l. induction ops as [|op ops IH]; intros m l Hh Hok Hf.
  { by exists m. }
  destruct Hok as [Hok1 Hok]. simpl in Hf.
  destruct (list_call_sim fuel L op m l Hh Hok1) as (m1 & E1 & Hh1); [lia|].
  pose proof (list_model_length op l).
  destruct (IH m1 (list_model op l).2 Hh1 Hok) as (m2 & E2 & Hh2); [lia|].
  exists m2. cbn [list_calls list_models]. rewrite E1. cbn.
  rewrite E2. cbn. destruct (list_model op l) as [r l1]. simpl in *.
  by destruct (list_models ops l1).
Qed.

Definition list_demo_ops : list list_op :=
  [OpAdd 16; OpAdd 32; OpPush 48; OpInsert 16 64; OpLength; OpRemove 32; OpPop; OpChop; OpTail].

Lemma list_c_refines_lists_witness :
  holds ∅ 4 [] /\ list_ops_ok 4 list_demo_ops [] /\
  exists m', list_calls 20 4 list_demo_ops ∅ = Some ([0; 0; 0; 0; 4; 0; 16; 64; 16], m') /\
    holds m' 4 [16].
Proof.
  assert (holds ∅ 4 []) as Hh by (split_and!; [by vm_compute|set_solver|done]).
  assert (list_ops_ok 4 list_demo_ops []) as Hok.
  { unfold list_demo_ops, fresh_item. cbn. unfold fresh_item, aligned4.
    split_and!; try (by vm_compute); try set_solver. }
  split_and!; [done|done|].
  apply (list_c_refines_lists 20 4 list_demo_ops ∅ [] Hh Hok). vm_compute. lia.
Defined.
