(* ===== verification/SysEv.v ===== *)
(** * The processor state, interrupts and exceptions

    [drv_disable_irq]/[drv_restore_irq] of [proj/drivers/drv_hw.c] (the TC32
    branch: the 8-bit register [reg_irq_en]) and the exception reporting of
    [proj/os/ev.c].  The callback registered for exceptions belongs to the
    application: the model records that it is called. *)
From S2P Require Import Prelude Memory.

(** ** State *)

Record exc_state := mk_exc {
  T_evtExcept : list Z;          (** [volatile u16 T_evtExcept[4]] *)
  g_sysExceptCallback : Z;       (** function pointer, 0 when NULL *)
  exc_calls : list Z;            (** callbacks called so far, oldest first *)
}.

Record cpu := mk_cpu {
  c_mem : mem;
  c_irq : Z;                     (** [reg_irq_en] *)
  c_exc : exc_state;
}.

Definition with_mem (m : mem) (c : cpu) : cpu := mk_cpu m (c_irq c) (c_exc c).
Definition with_irq (r : Z) (c : cpu) : cpu := mk_cpu (c_mem c) r (c_exc c).
Definition with_exc (e : exc_state) (c : cpu) : cpu := mk_cpu (c_mem c) (c_irq c) e.

Definition exc_init : exc_state := mk_exc [0; 0; 0; 0] 0 [].

(** ** drv_hw.c *)

Definition drv_disable_irq (c : cpu) : Z * cpu := (u32 (c_irq c), with_irq 0 c).

Definition drv_restore_irq (en : Z) (c : cpu) : cpu := with_irq (u8 en) c.

(** ** ev.c *)

(** The exception codes of [ev.h] that the modelled files post. *)
Definition SYS_EXCEPTTION_COMMON_MEM_ACCESS : Z := 0.
Definition SYS_EXCEPTTION_COMMON_TIMER_EVEVT : Z := 1.
Definition SYS_EXCEPTTION_COMMON_STACK_OVERFLOWN : Z := 3.
Definition SYS_EXCEPTTION_EV_BUFFER_EXCEPTION_FREE_OVERFLON : Z := 0x71.
Definition SYS_EXCEPTTION_EV_BUFFER_EXCEPTION_FREE_MULTI : Z := 0x72.

(** [sys_exceptionPost(line, evt)]; the value it returns is always 0. *)
Definition sys_exceptionPost (line evt : Z) (e : exc_state) : exc_state :=
  let t := <[1%nat := u8 evt]> (<[0%nat := u16 line]> (T_evtExcept e)) in
  mk_exc t (g_sysExceptCallback e)
    (if negb (g_sysExceptCallback e =? 0)
     then exc_calls e ++ [g_sysExceptCallback e] else exc_calls e).

(** [ZB_EXCEPTION_POST(evt)] at source line [line]. *)
Definition ZB_EXCEPTION_POST (line evt : Z) (c : cpu) : cpu :=
  with_exc (sys_exceptionPost line evt (c_exc c)) c.

Definition sys_exceptHandlerRegister (cb : Z) (e : exc_state) : exc_state :=
  mk_exc (T_evtExcept e) cb (exc_calls e).

(** The scan of the four bytes at the end of [.bss]. *)
Fixpoint stack_scan (n : nat) (m : mem) (a : Z) : bool :=
  match n with
  | O => false
  | S n' => if negb (load8 m a =? 0xff) then true else stack_scan n' m (a + 1)
  end.

Definition sys_stackStatusCheck (end_bss : Z) (c : cpu) : cpu :=
  if stack_scan 4 (c_mem c) end_bss
  then ZB_EXCEPTION_POST 80 SYS_EXCEPTTION_COMMON_STACK_OVERFLOWN c
  else c.

(** ** Lemmas *)

(** The interrupt-enable register holds a byte. *)
Definition irq_ok (c : cpu) : Prop := 0 <= c_irq c < 256.

(** A critical section gives the register its old value back. *)
Lemma irq_restore_disable c c' :
  irq_ok c -> drv_restore_irq (drv_disable_irq c).1 c' = with_irq (c_irq c) c'.
Proof.
  intros Hc. unfold drv_restore_irq, drv_disable_irq. simpl.
  rewrite u32_small by (unfold irq_ok in Hc; lia). rewrite u8_small by done. done.
Qed.

Lemma with_mem_mem m c : c_mem (with_mem m c) = m.
Proof. done. Qed.

Lemma stack_scan_spec n m a :
  stack_scan n m a = false <-> forall i, 0 <= i < Z.of_nat n -> load8 m (a + i) = 0xff.
Proof.
  revert a. induction n as [|n IH]; intros a; cbn [stack_scan].
  - split; [intros _ i Hi; lia|done].
  - destruct (Z.eqb_spec (load8 m a) 255) as [E|E]; simpl.
    + rewrite IH. split; intros H i Hi.
      * destruct (decide (i = 0)) as [->|]; [by rewrite Z.add_0_r|].
        replace (a + i) with (a + 1 + (i - 1)) by lia. apply H. lia.
      * replace (a + 1 + i) with (a + (i + 1)) by lia. apply H. lia.
    + split; [done|]. intros H. destruct E. rewrite <- (H 0) by lia. by rewrite Z.add_0_r.
Qed.

(** The stack guard raises exactly when one of the four guard bytes was
    overwritten: then it posts COMMON_STACK_OVERFLOWN with its source line and
    calls the registered handler once (never a NULL one); otherwise it leaves
    the whole state alone. *)
Theorem stack_guard_detects (end_bss : Z) (c : cpu) :
  let clean := forall i, 0 <= i < 4 -> load8 (c_mem c) (end_bss + i) = 0xff in
  let cb := g_sysExceptCallback (c_exc c) in
  let c' := sys_stackStatusCheck end_bss c in
  (clean /\ c' = c) \/
  (~ clean /\ c_mem c' = c_mem c /\ c_irq c' = c_irq c /\
   T_evtExcept (c_exc c') = <[1%nat := 3]> (<[0%nat := 80]> (T_evtExcept (c_exc c))) /\
   exc_calls (c_exc c') =
     exc_calls (c_exc c) ++ (if decide (cb = 0) then [] else [cb])).
Proof.
  intros clean cb c'. subst clean cb c'. unfold sys_stackStatusCheck.
  pose proof (stack_scan_spec 4 (c_mem c) end_bss) as Hs.
  destruct (stack_scan 4 (c_mem c) end_bss).
  - right. split; [intros Hc; by apply Hs in Hc|]. simpl. split_and!; [done..|].
    destruct (Z.eqb_spec (g_sysExceptCallback (c_exc c)) 0); simpl; case_decide; try done.
    by rewrite app_nil_r.
  - left. split; [by apply Hs|done].
Qed.
