(* ===== verification/Mempool.v ===== *)
(** * proj/common/mempool.c

    A pool is a cell holding the head of its free list; a block's first word
    links it while it is free.  The pool cell has the layout of a list cell of
    [ListC], so the free list is described by [holds]. *)
From S2P Require Import Prelude Memory Linked ListC.

(** *** Definitions *)

Definition MEMPOOL_ALIGNMENT : Z := 4.

Definition MEMPOOL_ITEMSIZE_2_BLOCKSIZE (s : Z) : Z :=
  Z.land (s + (MEMPOOL_ALIGNMENT - 1)) (Z.lnot (MEMPOOL_ALIGNMENT - 1)).

(** [for(i = 0; i < itemcount - 1; ++i) tmp = tmp->next_block = tmp + block_size;] *)
Fixpoint mempool_init_loop (n : nat) (block_size : Z) (m : mem) (tmp : Z) : mem * Z :=
  match n with
  | O => (m, tmp)
  | S n' =>
      let next := u32 (tmp + block_size) in
      mempool_init_loop n' block_size (store32 m tmp next) next
  end.

Definition mempool_init (m : mem) (pool mem0 itemsize itemcount : Z) : Z * mem :=
  if (pool =? 0) || (mem0 =? 0) then (0, m)
  else
    let m1 := store32 m pool mem0 in
    let block_size := u32 (MEMPOOL_ITEMSIZE_2_BLOCKSIZE itemsize) in
    let '(m2, tmp) := mempool_init_loop (Z.to_nat (itemcount - 1)) block_size m1 mem0 in
    (pool, store32 m2 tmp 0).

Definition mempool_header (pd : Z) : Z := pd - 4.

Definition mempool_alloc (m : mem) (pool : Z) : Z * mem :=
  if load32 m pool =? 0 then (0, m)
  else
    let tmp := load32 m pool in
    (tmp + 4, store32 m pool (load32 m tmp)).

Definition mempool_free (m : mem) (pool p : Z) : mem :=
  let tmp := mempool_header p in
  let m1 := store32 m tmp (load32 m pool) in
  store32 m1 pool tmp.

(** *** Blocks of an arena *)

Fixpoint blocks (base bs : Z) (n : nat) : list Z :=
  match n with
  | O => []
  | S n' => base :: blocks (base + bs) bs n'
  end.

Lemma elem_of_blocks b base bs n :
  b ∈ blocks base bs n <-> exists k, 0 <= k < Z.of_nat n /\ b = base + k * bs.
Proof.
  revert base. induction n as [|n IH]; intros base; simpl.
  - split; [set_solver|intros (k & ? & _); lia].
  - rewrite elem_of_cons, IH. split.
    + intros [->|(k & ? & ->)]; [exists 0; lia|exists (k + 1); lia].
    + intros (k & ? & ->). destruct (decide (k = 0)) as [->|]; [left; lia|].
      right. exists (k - 1). lia.
Qed.

Lemma length_blocks base bs n : length (blocks base bs n) = n.
Proof. revert base. induction n; intros; simpl; auto. Qed.

(** *** The pool operations are stack operations on the free list *)

Lemma block_size_aligned s :
  0 <= s -> s mod 4 = 0 -> MEMPOOL_ITEMSIZE_2_BLOCKSIZE s = s.
Proof.
  intros Hs Hm. unfold MEMPOOL_ITEMSIZE_2_BLOCKSIZE, MEMPOOL_ALIGNMENT.
  change (4 - 1) with (Z.ones 2). rewrite <- Z.ldiff_land, Z.ldiff_ones_r by lia.
  rewrite Z.shiftl_mul_pow2, Z.shiftr_div_pow2 by lia. change (Z.ones 2) with 3.
  change (2 ^ 2) with 4. zdm.
Qed.

(** The block size covers the item and is a multiple of 4. *)
Lemma block_size_bounds s :
  0 <= s -> s <= MEMPOOL_ITEMSIZE_2_BLOCKSIZE s < s + 4 /\
            MEMPOOL_ITEMSIZE_2_BLOCKSIZE s mod 4 = 0.
Proof.
  intros Hs. unfold MEMPOOL_ITEMSIZE_2_BLOCKSIZE, MEMPOOL_ALIGNMENT.
  change (4 - 1) with (Z.ones 2). rewrite <- Z.ldiff_land, Z.ldiff_ones_r by lia.
  rewrite Z.shiftl_mul_pow2, Z.shiftr_div_pow2 by lia. change (Z.ones 2) with 3.
  change (2 ^ 2) with 4. split; zdm.
Qed.

Definition arena_ok (base bs : Z) (n : nat) : Prop :=
  aligned4 base /\ bs mod 4 = 0 /\ 4 <= bs /\ base + Z.of_nat n * bs <= 2 ^ 32.

Lemma arena_block_aligned base bs n b :
  arena_ok base bs n -> b ∈ blocks base bs n -> aligned4 b.
Proof.
  intros ([Hb Hm] & Hbs & Hpos & Hend) (k & Hk & ->)%elem_of_blocks. split; [nia|].
  rewrite Z.add_mod, Z.mul_mod, Hbs, Hm, Z.mul_0_r by lia. done.
Qed.

Lemma mempool_init_loop_spec n bs m base :
  arena_ok base bs (S n) ->
  let '(m', last) := mempool_init_loop n bs m base in
  last = base + Z.of_nat n * bs /\
  lseg m' base (blocks base bs n) last /\
  (forall a, aligned4 a -> a ∉ blocks base bs n -> load32 m' a = load32 m a).
Proof.
  revert m base. induction n as [|n IH]; intros m base Hok; cbn [mempool_init_loop].
  { split_and!; [lia|done|done]. }
  assert (arena_ok (base + bs) bs (S n)) as Hok'.
  { destruct Hok as ([Hb Hm] & Hbs & Hpos & Hend).
    split_and!; [split; [nia|]|done|done|lia].
    rewrite Z.add_mod, Hbs, Hm by lia. done. }
  assert (aligned4 base) as Hb by apply Hok.
  assert (aligned4 (base + bs)) as Hb' by apply Hok'.
  rewrite u32_small by (destruct Hb'; lia).
  specialize (IH (store32 m base (base + bs)) (base + bs) Hok').
  destruct (mempool_init_loop n bs _ _) as [m' last].
  destruct IH as (-> & Hl & Hframe).
  assert (base ∉ blocks (base + bs) bs n) as Hni.
  { intros (k & Hk & E)%elem_of_blocks. destruct Hok as (_ & _ & ? & _). nia. }
  split_and!; [lia| |].
  - simpl. split_and!; [done|done|]. rewrite Hframe by done.
    rewrite load32_store32_link by (by right). done.
  - intros a Ha Hnia. rewrite Hframe by (simpl in Hnia; set_solver).
    apply load32_store32_other; [done..|simpl in Hnia; set_solver].
Qed.

Lemma blocks_snoc base bs n :
  blocks base bs (S n) = blocks base bs n ++ [base + Z.of_nat n * bs].
Proof.
  revert base. induction n as [|n IH]; intros base; [simpl; do 2 f_equal; lia|].
  change (blocks base bs (S (S n))) with (base :: blocks (base + bs) bs (S n)).
  rewrite IH. simpl. do 3 f_equal. lia.
Qed.

Lemma blocks_NoDup base bs n : 4 <= bs -> NoDup (blocks base bs n).
Proof.
  intros Hbs. revert base. induction n as [|n IH]; intros base; simpl; constructor; [|done].
  intros (k & Hk & E)%elem_of_blocks. nia.
Qed.

Lemma mempool_init_spec m pool base bs n :
  aligned4 pool -> arena_ok base bs (S n) -> bs < 2 ^ 32 -> pool ∉ blocks base bs (S n) ->
  exists m', mempool_init m pool base bs (Z.of_nat (S n)) = (pool, m') /\
    holds m' pool (blocks base bs (S n)) /\
    (forall a, aligned4 a -> a <> pool -> a ∉ blocks base bs (S n) ->
      load32 m' a = load32 m a).
Proof.
  intros Hp Hok Hlt Hni. unfold mempool_init.
  assert (aligned4 base) as Hb by apply Hok.
  rewrite !aligned4_nonzero by done. simpl orb. cbv iota.
  destruct Hok as (? & Hbs & Hpos & Hend).
  rewrite block_size_aligned, u32_small by lia.
  replace (Z.to_nat (Z.of_nat (S n) - 1)) with n by lia.
  pose proof (mempool_init_loop_spec n bs (store32 m pool base) base) as Hloop.
  destruct (mempool_init_loop n bs _ base) as [m2 tmp].
  destruct Hloop as (-> & Hl & Hframe); [done|].
  assert (arena_ok base bs (S n)) as Hok by done.
  pose proof (blocks_NoDup base bs (S n) Hpos) as Hnd.
  rewrite blocks_snoc in *. set (lst := base + Z.of_nat n * bs) in *.
  assert (aligned4 lst) as Hlst.
  { eapply arena_block_aligned; [exact Hok|]. rewrite blocks_snoc. set_solver. }
  apply NoDup_app in Hnd as (_ & Hd & _).
  assert (lst ∉ blocks base bs n) by (intros ?; eapply Hd; [done|set_solver]).
  eexists. split; [done|]. split.
  - split_and!; [done|done|].
    rewrite load32_store32_other by (done || set_solver).
    rewrite Hframe by (done || set_solver).
    rewrite load32_store32_link by (by right).
    apply mem_relink with (q := load32 m2 lst); [|done|by left].
    apply lseg_app. exists lst. split; [done|]. by simpl.
  - intros a Ha Hap Hna. rewrite load32_store32_other by (done || set_solver).
    rewrite Hframe by (done || set_solver). by apply load32_store32_other.
Qed.

Lemma mempool_alloc_empty m pool : holds m pool [] -> mempool_alloc m pool = (0, m).
Proof. intros (_ & _ & Hl). unfold mempool_alloc. simpl in Hl. by rewrite Hl. Qed.

Lemma mempool_alloc_spec m pool b l :
  holds m pool (b :: l) ->
  mempool_alloc m pool = (b + 4, store32 m pool (load32 m b)) /\
  holds (store32 m pool (load32 m b)) pool l.
Proof.
  intros Hh. pose proof (listPop_holds _ _ _ Hh) as [_ Hpop].
  unfold listPop, mempool_alloc in *. destruct Hh as (_ & _ & E & Hb & _).
  rewrite E, aligned4_nonzero in * by done. done.
Qed.

Lemma mempool_free_spec m pool b l :
  holds m pool l -> fresh_item pool l b ->
  holds (mempool_free m pool (b + 4)) pool (b :: l).
Proof.
  intros Hh Hb. unfold mempool_free, mempool_header.
  replace (b + 4 - 4) with b by lia. by apply listPush_holds.
Qed.
