(* ===== verification/EvBuffer.v ===== *)
(** * proj/os/ev_buffer.c

    Four groups of fixed-size blocks.  A block is a [mem_block_t] (link at
    offset 0) while free and an [ev_bufItem_t] (next, groupIndex, data) while
    allocated; the caller gets the address of [data], 8 bytes in.  The linker's
    placement of the pools and arenas is the class [EvLayout].  Build options:
    EV_BUFFER_DEBUG 0, ASSERT_DEBUG_MODE 0 (so [assert] is empty). *)
From S2P Require Import Prelude Memory Linked ListC SysEv Mempool.

(** ** Data *)

Definition DEFAULT_BUFFER_GROUP_NUM : nat := 4.
Definition BUFFER_GROUPS : list Z := [24; 60; 200; 1024].
Definition BUFFER_NUM_IN_GROUPS : list Z := [8; 12; 16; 1].
Definition MAX_BUFFER_SIZE : Z := 1024.
Definition LARGE_BUFFER : Z := 1024 - 8.

Definition BUFFER_SUCC : Z := 0.
Definition BUFFER_DUPLICATE_FREE : Z := 2.

(** OFFSETOF(ev_bufItem_t, data) and OFFSETOF(mem_block_t, data). *)
Definition bufItem_data : Z := 8.
Definition memBlock_data : Z := 4.

Definition group_size (i : nat) : Z := nth i BUFFER_GROUPS 0.
Definition group_num (i : nat) : Z := nth i BUFFER_NUM_IN_GROUPS 0.

Record ev_buf_groups_t := mk_group {
  qHead : Z;
  size : Z;
  availBufNum : Z;
}.

(** MEMPOOL_DECLARE: the addresses the linker gives the pools and their memory. *)
Class EvLayout := {
  size_pool : nat -> Z;
  size_mem : nat -> Z;
}.

(** [sizeof(size_i_mem)]. *)
Definition sizeof_mem (i : nat) : Z := MEMPOOL_ITEMSIZE_2_BLOCKSIZE (group_size i) * group_num i.

Record buf_state := mk_buf {
  b_cpu : cpu;
  bufGroups : list ev_buf_groups_t;
}.

Definition b_mem (s : buf_state) : mem := c_mem (b_cpu s).
Definition with_cpu (c : cpu) (s : buf_state) : buf_state := mk_buf c (bufGroups s).

(** ** Operations *)

(** Fuel of the free-list walk: 37 blocks exist. *)
Definition buf_fuel : nat := 38.

Fixpoint exist_walk (fuel : nat) (m : mem) (curBlock block : Z) : option bool :=
  match fuel with
  | O => None
  | S f =>
      if curBlock =? 0 then Some false
      else if block =? curBlock then Some true
      else exist_walk f m (load32 m curBlock) block
  end.

(** [None]: the index is outside [bufGroups] or the free list does not end. *)
Definition ev_buf_isExisted (index block : Z) (s : buf_state) : option bool :=
  g ← bufGroups s !! Z.to_nat index;
  exist_walk buf_fuel (b_mem s) (load32 (b_mem s) (qHead g)) block.

Definition ev_buf_retrieveMempoolHeader (pd : Z) : Z := pd - (bufItem_data - memBlock_data).

Definition ev_buf_getHead (pd : Z) : Z := pd - bufItem_data.

Section ops.
Context `{EvLayout}.

(** One iteration of the loop of [ev_buf_reset]. *)
Definition reset_group (i : nat) (s : buf_state) : buf_state :=
  let '(q, m') := mempool_init (b_mem s) (size_pool i) (size_mem i) (group_size i) (group_num i) in
  mk_buf (with_mem m' (b_cpu s))
    (<[i := mk_group q (group_size i) (group_num i)]> (bufGroups s)).

Definition ev_buf_reset (s : buf_state) : buf_state :=
  let s0 := mk_buf (b_cpu s) (replicate DEFAULT_BUFFER_GROUP_NUM (mk_group 0 0 0)) in
  reset_group 3 (reset_group 2 (reset_group 1 (reset_group 0 s0))).

Definition ev_buf_init (s : buf_state) : buf_state := ev_buf_reset s.

(** The search loop of [ev_buf_allocate]; the subtraction is unsigned. *)
Fixpoint find_group (i : nat) (gs : list ev_buf_groups_t) (sz : Z) : option nat :=
  match gs with
  | [] => None
  | g :: gs' =>
      if (sz <=? u32 (size g - bufItem_data)) && negb (availBufNum g =? 0) then Some i
      else find_group (S i) gs' sz
  end.

Definition ev_buf_allocate (sz : Z) (s : buf_state) : Z * buf_state :=
  if (sz =? 0) || (MAX_BUFFER_SIZE <? sz) then (0, s)
  else
    let '(r, c1) := drv_disable_irq (b_cpu s) in
    match find_group 0 (bufGroups s) sz with
    | None => (0, with_cpu (drv_restore_irq r c1) s)
    | Some index =>
        match bufGroups s !! index with
        | None => (0, with_cpu (drv_restore_irq r c1) s)
        | Some g =>
            let '(temp, m1) := mempool_alloc (c_mem c1) (qHead g) in
            if temp =? 0 then (0, with_cpu (drv_restore_irq r (with_mem m1 c1)) s)
            else
              let gs := <[index := mk_group (qHead g) (size g) (u8 (availBufNum g - 1))]> (bufGroups s) in
              let pNewBuf := temp - 4 in
              let m2 := store32 m1 (pNewBuf + 4) (Z.of_nat index) in
              (pNewBuf + bufItem_data, mk_buf (drv_restore_irq r (with_mem m2 c1)) gs)
        end
    end.

Definition long_ev_buf_get (s : buf_state) : Z * buf_state := ev_buf_allocate MAX_BUFFER_SIZE s.

(** [arg >= size_i_mem && arg <= size_i_mem + sizeof(size_i_mem)]. *)
Definition in_mem (i : nat) (arg : Z) : bool :=
  (size_mem i <=? arg) && (arg <=? u32 (size_mem i + sizeof_mem i)).

Definition is_ev_buf (arg : Z) : bool :=
  in_mem 0 arg || in_mem 1 arg || in_mem 2 arg || in_mem 3 arg.

Definition ev_buf_free (pBuf : Z) (s : buf_state) : option (Z * buf_state) :=
  let '(r, c1) := drv_disable_irq (b_cpu s) in
  let c2 := if is_ev_buf pBuf then c1
            else ZB_EXCEPTION_POST 230 SYS_EXCEPTTION_EV_BUFFER_EXCEPTION_FREE_OVERFLON c1 in
  let pDelBuf := ev_buf_getHead pBuf in
  let groupIndex := load32 (c_mem c2) (pDelBuf + 4) in
  dup ← ev_buf_isExisted (u8 groupIndex) pDelBuf (with_cpu c2 s);
  if (dup : bool) then
    let c3 := ZB_EXCEPTION_POST 243 SYS_EXCEPTTION_EV_BUFFER_EXCEPTION_FREE_MULTI c2 in
    Some (BUFFER_DUPLICATE_FREE, with_cpu (drv_restore_irq r c3) s)
  else
    g ← bufGroups s !! Z.to_nat groupIndex;
    let m1 := mempool_free (c_mem c2) (qHead g) (ev_buf_retrieveMempoolHeader pBuf) in
    let gs := <[Z.to_nat groupIndex := mk_group (qHead g) (size g) (u8 (availBufNum g + 1))]>
                (bufGroups s) in
    Some (BUFFER_SUCC, mk_buf (drv_restore_irq r (with_mem m1 c2)) gs).

(** The [size] array has only three initialisers: its last element is 0. *)
Definition ev_buf_getTail (pd offsetToTail : Z) (s : buf_state) : option Z :=
  let index := load32 (b_mem s) (pd - 4) in
  sz ← [24; 60; 200; 0] !! Z.to_nat index;
  Some (pd - 8 + sz - offsetToTail).

Definition ev_buf_getFreeMaxSize (s : buf_state) : Z :=
  foldl (fun sz g =>
    if negb (availBufNum g =? 0) && (sz <? u32 (size g - bufItem_data))
    then u16 (size g - bufItem_data) else sz) 0 (bufGroups s).

Definition get_ev_buf_size (arg : Z) : Z :=
  if in_mem 0 arg then group_size 0 - bufItem_data
  else if in_mem 1 arg then group_size 1 - bufItem_data
  else if in_mem 2 arg then group_size 2 - bufItem_data
  else if in_mem 3 arg then group_size 3 - bufItem_data
  else 0.
End ops.

(** ** The allocator the file implements

    Per group a stack of free blocks; [a_ever] collects the blocks handed out so
    far (only those carry a group index that [ev_buf_free] may read). *)

Record alloc_state := mk_alloc {
  a_free : list (list Z);
  a_ever : gset Z;
}.

Section spec.
Context `{EvLayout}.

Definition arena (i : nat) : list Z :=
  blocks (size_mem i) (group_size i) (Z.to_nat (group_num i)).

Definition abs_init : alloc_state := mk_alloc (arena <$> seq 0 DEFAULT_BUFFER_GROUP_NUM) ∅.

(** First fit over the groups, in order of capacity. *)
Fixpoint first_fit (i : nat) (fs : list (list Z)) (sz : Z) : option nat :=
  match fs with
  | [] => None
  | l :: fs' =>
      if (sz <=? group_size i - 8) && bool_decide (l <> []) then Some i
      else first_fit (S i) fs' sz
  end.

Definition abs_allocate (sz : Z) (a : alloc_state) : Z * alloc_state :=
  if (sz =? 0) || (1024 <? sz) then (0, a)
  else match first_fit 0 (a_free a) sz with
  | None => (0, a)
  | Some i =>
      match a_free a !! i with
      | Some (b :: l) => (b + 8, mk_alloc (<[i := l]> (a_free a)) ({[b]} ∪ a_ever a))
      | _ => (0, a)
      end
  end.

(** The group a block belongs to. *)
Definition group_of (b : Z) : option nat :=
  fst <$> list_find (fun i => b ∈ arena i) (seq 0 DEFAULT_BUFFER_GROUP_NUM).

Definition abs_free (p : Z) (a : alloc_state) : Z * alloc_state :=
  match group_of (p - 8) with
  | None => (BUFFER_SUCC, a)
  | Some i =>
      let l := default [] (a_free a !! i) in
      if bool_decide (p - 8 ∈ l) then (BUFFER_DUPLICATE_FREE, a)
      else (BUFFER_SUCC, mk_alloc (<[i := (p - 8) :: l]> (a_free a)) (a_ever a))
  end.

(** A live buffer: handed out and not yet given back; its capacity. *)
Definition live (a : alloc_state) (i : nat) (b : Z) : Prop :=
  (i < 4)%nat /\ b ∈ arena i /\ b ∉ default [] (a_free a !! i).

Definition capacity (i : nat) : Z := group_size i - 8.
End spec.

(** ** What the linker guarantees *)
Class EvLayoutOk `{EvLayout} := {
  pool_aligned i : (i < 4)%nat -> aligned4 (size_pool i);
  arena_fits i : (i < 4)%nat -> aligned4 (size_mem i) /\ size_mem i + sizeof_mem i < 2 ^ 32;
  pools_distinct i j : (i < 4)%nat -> (j < 4)%nat -> i <> j -> size_pool i <> size_pool j;
  pool_outside i j : (i < 4)%nat -> (j < 4)%nat ->
    size_pool i < size_mem j \/ size_mem j + sizeof_mem j <= size_pool i;
  arenas_apart i j : (i < 4)%nat -> (j < 4)%nat -> i <> j ->
    size_mem i + sizeof_mem i < size_mem j \/ size_mem j + sizeof_mem j < size_mem i;
}.

Section invariant.
Context `{EvLayoutOk}.
Implicit Types (m : mem) (i j : nat) (b x : Z) (s : buf_state) (a : alloc_state).

(** The group record, its free list and the indices of the blocks once used. *)
Record group_ok (m : mem) (i : nat) (g : ev_buf_groups_t) (l : list Z) (ever : gset Z) : Prop := {
  go_rec : g = mk_group (size_pool i) (group_size i) (Z.of_nat (length l));
  go_list : holds m (size_pool i) l;
  go_sub : forall b, b ∈ l -> b ∈ arena i;
  go_used : forall b, b ∈ arena i -> b ∉ l -> b ∈ ever;
  go_index : forall b, b ∈ arena i -> b ∈ ever -> load32 m (b + 4) = Z.of_nat i;
}.

Record buf_inv (s : buf_state) (a : alloc_state) : Prop := {
  bi_len : length (a_free a) = 4%nat;
  bi_glen : length (bufGroups s) = 4%nat;
  bi_irq : irq_ok (b_cpu s);
  bi_group i g l : bufGroups s !! i = Some g -> a_free a !! i = Some l ->
    group_ok (b_mem s) i g l (a_ever a);
}.

(** *** Arithmetic of the layout *)

Lemma group_cases i : (i < 4)%nat -> i = 0%nat \/ i = 1%nat \/ i = 2%nat \/ i = 3%nat.
Proof. lia. Qed.

Lemma group_consts i : (i < 4)%nat ->
  group_size i mod 4 = 0 /\ 24 <= group_size i <= 1024 /\ 0 < group_num i <= 16 /\
  sizeof_mem i = group_size i * group_num i.
Proof. intros [->|[->|[->| ->]]]%group_cases; vm_compute; intuition congruence. Qed.

Lemma arena_arena_ok i : (i < 4)%nat ->
  arena_ok (size_mem i) (group_size i) (Z.to_nat (group_num i)).
Proof.
  intros Hi. destruct (arena_fits i Hi) as [Ha Hf].
  destruct (group_consts i Hi) as (? & ? & ? & E). split_and!; [done|done|lia|].
  rewrite Z2Nat.id by lia. lia.
Qed.

Lemma arena_bounds i b : (i < 4)%nat -> b ∈ arena i ->
  aligned4 b /\ aligned4 (b + 4) /\ size_mem i <= b /\
  b + group_size i <= size_mem i + sizeof_mem i.
Proof.
  intros Hi Hb. pose proof (arena_block_aligned _ _ _ _ (arena_arena_ok i Hi) Hb) as Hal.
  apply elem_of_blocks in Hb as (k & Hk & ->).
  destruct (group_consts i Hi) as (? & ? & ? & E). destruct (arena_fits i Hi) as [_ Hf].
  rewrite Z2Nat.id in Hk by lia. assert (k * group_size i <= (group_num i - 1) * group_size i) by nia.
  split_and!; [done| |nia|nia]. destruct Hal as [? Hm]. split; [nia|]. zdm.
Qed.

Lemma arena_spacing i b c : (i < 4)%nat -> b ∈ arena i -> c ∈ arena i -> b <> c ->
  b + group_size i <= c \/ c + group_size i <= b.
Proof.
  intros Hi (k & Hk & ->)%elem_of_blocks (k' & Hk' & ->)%elem_of_blocks Hne.
  destruct (group_consts i Hi) as (? & ? & _). assert (k < k' \/ k' < k) by nia. nia.
Qed.

(** The words the allocator owns: pool cells, links and indices. *)
Inductive word_of (i : nat) : Z -> Prop :=
  | WPool : word_of i (size_pool i)
  | WLink b : b ∈ arena i -> word_of i b
  | WIndex b : b ∈ arena i -> word_of i (b + 4).

Lemma word_aligned i x : (i < 4)%nat -> word_of i x -> aligned4 x.
Proof.
  intros Hi [|b Hb|b Hb]; [by apply pool_aligned|..]; by destruct (arena_bounds i b Hi Hb) as (?&?&_).
Qed.

Lemma words_apart i j x y : (i < 4)%nat -> (j < 4)%nat -> i <> j ->
  word_of i x -> word_of j y -> x <> y.
Proof.
  intros Hi Hj Hne Hx Hy.
  pose proof (pools_distinct i j Hi Hj Hne). pose proof (pool_outside i j Hi Hj).
  pose proof (pool_outside j i Hj Hi). pose proof (arenas_apart i j Hi Hj Hne).
  pose proof (group_consts i Hi). pose proof (group_consts j Hj).
  destruct Hx as [|b Hb|b Hb], Hy as [|c Hc|c Hc];
    try pose proof (arena_bounds i b Hi Hb); try pose proof (arena_bounds j c Hj Hc); lia.
Qed.

Lemma pool_not_block i b : (i < 4)%nat -> b ∈ arena i -> size_pool i <> b /\ size_pool i <> b + 4.
Proof.
  intros Hi Hb. pose proof (pool_outside i i Hi Hi). pose proof (arena_bounds i b Hi Hb).
  pose proof (group_consts i Hi). lia.
Qed.

Lemma index_not_link i b c : (i < 4)%nat -> b ∈ arena i -> c ∈ arena i -> b + 4 <> c.
Proof.
  intros Hi Hb Hc. pose proof (group_consts i Hi).
  destruct (decide (b = c)) as [->|Hne]; [lia|].
  destruct (arena_spacing i b c Hi Hb Hc Hne); lia.
Qed.

(** *** Frame: a memory that agrees on a group's words keeps the group *)
Lemma group_ok_ext m m' i g l ever :
  (i < 4)%nat -> group_ok m i g l ever ->
  (forall x, x = size_pool i \/ x ∈ l \/ (exists b, b ∈ arena i /\ b ∈ ever /\ x = b + 4) ->
    load32 m' x = load32 m x) ->
  group_ok m' i g l ever.
Proof.
  intros Hi [-> (HL & Hni & Hl) Hsub Hused Hidx] Hm. split; [done| |done|done|].
  - split_and!; [done|done|]. rewrite Hm by auto.
    apply lseg_mem_ext with m; [|done]. intros x Hx. symmetry. apply Hm. auto.
  - intros b Hb He. rewrite Hm by (right; right; by exists b). by apply Hidx.
Qed.

Lemma group_ok_store m i j g l ever x v :
  (i < 4)%nat -> (j < 4)%nat -> i <> j -> word_of j x ->
  group_ok m i g l ever -> group_ok (store32 m x v) i g l ever.
Proof.
  intros Hi Hj Hne Hx Hg. apply group_ok_ext with m; [done|done|].
  assert (forall y, word_of i y -> load32 (store32 m x v) y = load32 m y) as Hw.
  { intros y Hy. apply load32_store32_other;
      [by eapply (word_aligned j)|by eapply (word_aligned i)|].
    apply (words_apart j i); done. }
  intros y [->|[Hy|(b & Hb & _ & ->)]]; apply Hw.
  - apply WPool.
  - apply WLink. by apply (go_sub _ _ _ _ _ Hg).
  - by apply WIndex.
Qed.

(** *** Searching a group *)

Lemma find_group_first_fit k gs fs sz :
  (forall i g l, gs !! i = Some g -> fs !! i = Some l ->
    size g = group_size (k + i)%nat /\ availBufNum g = Z.of_nat (length l)) ->
  length gs = length fs -> (k + length gs <= 4)%nat ->
  find_group k gs sz = first_fit k fs sz.
Proof.
  revert k fs. induction gs as [|g gs IH]; intros k [|l fs] Hg Hlen Hk; try done.
  simpl. destruct (Hg 0%nat g l) as [-> ->]; [done..|]. rewrite Nat.add_0_r.
  simpl in Hk. destruct (group_consts k) as (_ & Hb & _); [lia|].
  unfold bufItem_data. rewrite u32_small by lia.
  assert (negb (Z.of_nat (length l) =? 0) = bool_decide (l <> [])) as ->.
  { destruct l as [|b l]; [done|]. by rewrite bool_decide_true. }
  rewrite (IH (S k) fs); [done| |simpl in *; lia|simpl in *; lia].
  intros i g' l' H1 H2. rewrite Nat.add_succ_comm. by apply Hg.
Qed.

Lemma first_fit_spec k fs sz i :
  first_fit k fs sz = Some i ->
  (k <= i)%nat /\ exists b l, fs !! (i - k)%nat = Some (b :: l) /\ sz <= group_size i - 8.
Proof.
  revert k. induction fs as [|l fs IH]; intros k; simpl; [done|].
  destruct (Z.leb_spec sz (group_size k - 8)); simpl.
  - case_bool_decide as Hl.
    + intros [= <-]. split; [done|]. rewrite Nat.sub_diag. destruct l as [|b l]; [done|].
      by exists b, l.
    + intros Hf. destruct (IH _ Hf) as (Hk & b & l' & Hl' & ?).
      split; [lia|]. exists b, l'. by replace (i - k)%nat with (S (i - S k)) by lia.
  - intros Hf. destruct (IH _ Hf) as (Hk & b & l' & Hl' & ?).
    split; [lia|]. exists b, l'. by replace (i - k)%nat with (S (i - S k)) by lia.
Qed.

Lemma exist_walk_spec m p l x fuel :
  lchain m p l -> (length l < fuel)%nat ->
  exist_walk fuel m p x = Some (bool_decide (x ∈ l)).
Proof.
  revert p fuel. induction l as [|a l IH]; intros p [|fuel] Hl Hf; simpl in *; try lia.
  - by subst.
  - destruct Hl as (-> & Ha & Hl). rewrite aligned4_nonzero by done.
    destruct (Z.eqb_spec x a) as [->|Hne].
    + rewrite bool_decide_true; [done|set_solver].
    + rewrite (IH _ _ Hl) by lia. f_equal. apply bool_decide_ext. set_solver.
Qed.

(** A free list has at most as many blocks as its arena. *)
Lemma free_bound m i g l ever : (i < 4)%nat -> group_ok m i g l ever ->
  (length l <= Z.to_nat (group_num i))%nat.
Proof.
  intros Hi Hg. rewrite <- (length_blocks (size_mem i) (group_size i)).
  apply submseteq_length, NoDup_submseteq.
  - eapply holds_NoDup, go_list, Hg.
  - apply (go_sub _ _ _ _ _ Hg).
Qed.

Lemma group_of_unique i b : (i < 4)%nat -> b ∈ arena i -> group_of b = Some i.
Proof.
  intros Hi Hb. unfold group_of.
  assert (forall j, (j < 4)%nat -> b ∈ arena j -> j = i) as Hu.
  { intros j Hj Hbj. destruct (decide (j = i)) as [->|Hne]; [done|].
    pose proof (arenas_apart i j Hi Hj ltac:(lia)).
    pose proof (arena_bounds i b Hi Hb). pose proof (arena_bounds j b Hj Hbj).
    pose proof (group_consts i Hi). pose proof (group_consts j Hj). lia. }
  destruct (list_find _ _) as [[k j]|] eqn:E; simpl.
  - apply list_find_Some in E as (Hk & Hbj & _).
    apply lookup_seq in Hk as [-> Hk]. f_equal. by apply Hu.
  - exfalso. eapply (list_find_None) in E. rewrite Forall_forall in E.
    apply (E i); [|done]. apply elem_of_seq. unfold DEFAULT_BUFFER_GROUP_NUM. lia.
Qed.

(** *** One group changes, the others are framed *)

Lemma group_ok_ever m i j g l ever b :
  (i < 4)%nat -> (j < 4)%nat -> i <> j -> b ∈ arena j ->
  group_ok m i g l ever -> group_ok m i g l ({[b]} ∪ ever).
Proof.
  intros Hi Hj Hne Hb [Hr Hl Hs Hu Hx]. split; [done|done|done|set_solver|].
  intros c Hc [->%elem_of_singleton|He]%elem_of_union; [|by apply Hx].
  exfalso. by apply (words_apart i j b b Hi Hj Hne (WLink i b Hc) (WLink j b Hb)).
Qed.

Lemma buf_inv_set s a c i g l ever :
  buf_inv s a -> (i < 4)%nat -> irq_ok c -> group_ok (c_mem c) i g l ever ->
  (forall j g' l', (j < 4)%nat -> j <> i ->
    group_ok (b_mem s) j g' l' (a_ever a) -> group_ok (c_mem c) j g' l' ever) ->
  buf_inv (mk_buf c (<[i := g]> (bufGroups s))) (mk_alloc (<[i := l]> (a_free a)) ever).
Proof.
  intros [Hlen Hglen Hirq Hg] Hi Hc Hnew Hother.
  split; simpl; [by rewrite length_insert..|done|].
  intros j g' l' E1 E2. destruct (decide (j = i)) as [->|Hne].
  - rewrite list_lookup_insert_eq in E1 by lia. rewrite list_lookup_insert_eq in E2 by lia.
    by simplify_eq.
  - rewrite list_lookup_insert_ne in E1 by done. rewrite list_lookup_insert_ne in E2 by done.
    apply Hother; [|done|by apply Hg].
    apply lookup_lt_Some in E2. lia.
Qed.

Lemma buf_inv_lookup s a i : buf_inv s a -> (i < 4)%nat ->
  exists l, a_free a !! i = Some l /\
    bufGroups s !! i = Some (mk_group (size_pool i) (group_size i) (Z.of_nat (length l))) /\
    group_ok (b_mem s) i (mk_group (size_pool i) (group_size i) (Z.of_nat (length l))) l (a_ever a).
Proof.
  intros [Hlen Hglen _ Hg] Hi.
  destruct (lookup_lt_is_Some_2 (a_free a) i) as [l Hl]; [lia|].
  destruct (lookup_lt_is_Some_2 (bufGroups s) i) as [g Hgl]; [lia|].
  exists l. split; [done|]. pose proof (Hg i g l Hgl Hl) as Hok.
  rewrite <- (go_rec _ _ _ _ _ Hok). done.
Qed.

(** *** The critical sections *)

#[local] Arguments drv_restore_irq : simpl never.

Lemma irq_section s a r c1 :
  buf_inv s a -> drv_disable_irq (b_cpu s) = (r, c1) ->
  c_mem c1 = b_mem s /\ c_exc c1 = c_exc (b_cpu s) /\
  forall c, c_irq (drv_restore_irq r c) = c_irq (b_cpu s) /\ irq_ok (drv_restore_irq r c).
Proof.
  intros Hi Ed. pose proof (bi_irq _ _ Hi) as Hok.
  pose proof (irq_restore_disable (b_cpu s)) as Hr. rewrite Ed in Hr. simpl in Hr.
  unfold drv_disable_irq in Ed. injection Ed as _ <-. split_and!; [done..|].
  intros c. by rewrite Hr.
Qed.

Lemma buf_inv_same s a c :
  buf_inv s a -> irq_ok c -> c_mem c = b_mem s -> buf_inv (with_cpu c s) a.
Proof.
  intros [Hlen Hglen _ Hg] Hc Hm. split; [done|done|done|].
  intros i g l E1 E2. unfold b_mem, with_cpu. simpl. rewrite Hm. by apply Hg.
Qed.

Lemma find_group_inv s a sz : buf_inv s a ->
  find_group 0 (bufGroups s) sz = first_fit 0 (a_free a) sz.
Proof.
  intros Hi. pose proof Hi as [Hlen Hglen _ Hg]. apply find_group_first_fit; [|lia|lia].
  intros i g l E1 E2. pose proof (go_rec _ _ _ _ _ (Hg i g l E1 E2)) as ->. done.
Qed.

(** *** Allocation *)

(** Taking the first block of group [i] out of the memory. *)
Lemma group_ok_take m i b l ever :
  (i < 4)%nat ->
  group_ok m i (mk_group (size_pool i) (group_size i) (Z.of_nat (S (length l)))) (b :: l) ever ->
  group_ok (store32 (store32 m (size_pool i) (load32 m b)) (b + 4) (Z.of_nat i)) i
    (mk_group (size_pool i) (group_size i) (Z.of_nat (length l))) l ({[b]} ∪ ever).
Proof.
  intros Hi [_ Hl Hs Hu Hx].
  assert (b ∈ arena i) as Hb by (apply Hs; by left).
  pose proof (arena_bounds i b Hi Hb) as (Hb4 & Hb44 & _).
  destruct (mempool_alloc_spec _ _ _ _ Hl) as [_ Hl'].
  pose proof (pool_aligned i Hi) as Hp. pose proof (pool_not_block i b Hi Hb) as [Hp1 Hp2].
  split; [done| |intros c ?; apply Hs; by right| |].
  - apply holds_frame; [done|]. split_and!; [done|done|].
    intros Hin. apply (index_not_link i b (b + 4)); [done..| |done]. apply Hs. by right.
  - intros c Hc Hni. destruct (decide (c = b)) as [->|]; [set_solver|].
    apply elem_of_union_r. apply Hu; [done|set_solver].
  - intros c Hc Hev. destruct (decide (c = b)) as [->|Hne].
    + rewrite load32_store32_eq. apply u32_small. lia.
    + pose proof (arena_bounds i c Hi Hc) as (_ & Hc44 & _).
      pose proof (pool_not_block i c Hi Hc) as [_ Hp3].
      rewrite !load32_store32_other by (done || lia).
      apply Hx; [done|]. set_solver.
Qed.

(** The counter of group [i] stays a byte. *)
Lemma count_u8 i (l : list Z) : (i < 4)%nat ->
  (length l <= Z.to_nat (group_num i))%nat -> u8 (Z.of_nat (length l)) = Z.of_nat (length l).
Proof. intros Hi Hl. destruct (group_consts i Hi) as (_ & _ & ? & _). apply u8_small. lia. Qed.

Lemma allocate_sim s a sz :
  buf_inv s a ->
  exists s', ev_buf_allocate sz s = ((abs_allocate sz a).1, s') /\
    buf_inv s' (abs_allocate sz a).2 /\
    c_irq (b_cpu s') = c_irq (b_cpu s) /\ c_exc (b_cpu s') = c_exc (b_cpu s).
Proof.
  intros Hi. unfold ev_buf_allocate, abs_allocate, MAX_BUFFER_SIZE.
  destruct ((sz =? 0) || (1024 <? sz)); [by exists s|].
  destruct (drv_disable_irq (b_cpu s)) as [r c1] eqn:Ed.
  destruct (irq_section _ _ _ _ Hi Ed) as (Hm1 & He1 & Hr).
  rewrite (find_group_inv s a) by done.
  destruct (first_fit 0 (a_free a) sz) as [i|] eqn:Ef.
  2:{ eexists. split; [done|]. split_and!; [|apply Hr|done].
      apply buf_inv_same; [done|apply Hr|done]. }
  apply first_fit_spec in Ef as (_ & b & l & El & _). rewrite Nat.sub_0_r in El. rewrite El.
  assert (i < 4)%nat as Hi4 by (apply lookup_lt_Some in El; by rewrite (bi_len _ _ Hi) in El).
  destruct (buf_inv_lookup s a i Hi Hi4) as (l0 & El0 & Eg & Hg).
  rewrite El in El0. injection El0 as <-. rewrite Eg. simpl qHead. rewrite Hm1.
  destruct (mempool_alloc_spec _ _ _ _ (go_list _ _ _ _ _ Hg)) as [-> _].
  assert (b ∈ arena i) as Hb by (apply (go_sub _ _ _ _ _ Hg); by left).
  pose proof (arena_bounds i b Hi4 Hb) as ([Hb4 _] & _).
  cmp_false (b + 4 =? 0). eexists. split; [cbn; do 2 f_equal; unfold bufItem_data; lia|].
  split_and!; [|apply Hr|done].
  replace (b + 4 - 4 + 4) with (b + 4) by lia.
  replace (Z.of_nat (S (length l)) - 1) with (Z.of_nat (length l)) by lia.
  rewrite (count_u8 i) by (done || (pose proof (free_bound _ _ _ _ _ Hi4 Hg); simpl in *; lia)).
  apply buf_inv_set; [done|done|apply Hr|by apply group_ok_take|].
  intros j g' l' Hj Hne Hgj. apply group_ok_ever with (j := i); [done..|].
  apply (group_ok_store _ j i); [done..|by apply WIndex|].
  apply (group_ok_store _ j i); [done..|by apply WPool|done].
Qed.

(** *** Release *)

#[local] Arguments exist_walk : simpl never.

Lemma group_ok_give m i b l ever :
  (i < 4)%nat -> b ∈ arena i -> b ∉ l ->
  group_ok m i (mk_group (size_pool i) (group_size i) (Z.of_nat (length l))) l ever ->
  group_ok (mempool_free m (size_pool i) (b + 4)) i
    (mk_group (size_pool i) (group_size i) (Z.of_nat (S (length l)))) (b :: l) ever.
Proof.
  intros Hi Hb Hni [_ Hl Hs Hu Hx].
  pose proof (arena_bounds i b Hi Hb) as (Hb4 & _).
  pose proof (pool_aligned i Hi) as Hp. pose proof (pool_not_block i b Hi Hb) as [Hp1 _].
  split; [done| | |set_solver|].
  - apply mempool_free_spec; [done|]. split_and!; done.
  - intros c [->|Hc]%elem_of_cons; [done|by apply Hs].
  - intros c Hc Hev. pose proof (arena_bounds i c Hi Hc) as (_ & Hc44 & _).
    pose proof (pool_not_block i c Hi Hc) as [_ Hp3].
    pose proof (index_not_link i c b Hi Hc Hb).
    unfold mempool_free, mempool_header. replace (b + 4 - 4) with b by lia.
    rewrite !load32_store32_other by done. by apply Hx.
Qed.

Lemma is_ev_buf_block i b off : (i < 4)%nat -> b ∈ arena i -> 0 <= off <= group_size i ->
  in_mem i (b + off) = true.
Proof.
  intros Hi Hb Ho. pose proof (arena_bounds i b Hi Hb) as (_ & _ & ? & ?).
  destruct (arena_fits i Hi) as [[? _] ?]. pose proof (group_consts i Hi).
  unfold in_mem. rewrite u32_small by lia. lia.
Qed.

Lemma is_ev_buf_true i p : (i < 4)%nat -> in_mem i p = true -> is_ev_buf p = true.
Proof.
  intros Hi Hp. unfold is_ev_buf. destruct (group_cases i Hi) as [->|[->|[->| ->]]];
    rewrite Hp, ?orb_true_r; done.
Qed.

(** What a caller of [ev_buf_free] owes: the buffer was handed out before. *)
Definition freeable (p : Z) (a : alloc_state) : Prop :=
  p - 8 ∈ a_ever a /\ exists i, (i < 4)%nat /\ p - 8 ∈ arena i.

Lemma free_sim s a p :
  buf_inv s a -> freeable p a ->
  exists s', ev_buf_free p s = Some ((abs_free p a).1, s') /\
    buf_inv s' (abs_free p a).2 /\ c_irq (b_cpu s') = c_irq (b_cpu s) /\
    c_exc (b_cpu s') =
      if (abs_free p a).1 =? BUFFER_DUPLICATE_FREE
      then sys_exceptionPost 243 SYS_EXCEPTTION_EV_BUFFER_EXCEPTION_FREE_MULTI (c_exc (b_cpu s))
      else c_exc (b_cpu s).
Proof.
  intros Hi (Hever & i & Hi4 & Hb). unfold ev_buf_free, abs_free.
  rewrite (group_of_unique i) by done.
  destruct (drv_disable_irq (b_cpu s)) as [r c1] eqn:Ed.
  destruct (irq_section _ _ _ _ Hi Ed) as (Hm1 & He1 & Hr).
  destruct (group_consts i Hi4) as (_ & Hgs & Hgn & _).
  rewrite (is_ev_buf_true i p) by (done || (replace p with (p - 8 + 8) by lia;
    apply is_ev_buf_block; [done|done|lia])).
  destruct (buf_inv_lookup s a i Hi Hi4) as (l & El & Eg & Hg). rewrite El.
  unfold ev_buf_getHead, bufItem_data. rewrite Hm1, (go_index _ _ _ _ _ Hg _ Hb Hever).
  unfold ev_buf_isExisted. rewrite (u8_small (Z.of_nat i)), !Nat2Z.id by lia.
  simpl bufGroups. rewrite Eg. simpl. unfold with_cpu, b_mem. simpl. rewrite Hm1.
  pose proof (free_bound _ _ _ _ _ Hi4 Hg) as Hbd.
  destruct (go_list _ _ _ _ _ Hg) as (_ & _ & Hl).
  rewrite (exist_walk_spec _ _ l) by (done || unfold buf_fuel; lia). simpl.
  case_bool_decide as Hin.
  - eexists. split; [done|]. split_and!; [|apply Hr|by rewrite <- He1].
    apply (buf_inv_same s); [done|apply Hr|done].
  - eexists. split; [done|]. split_and!; [|apply Hr|done].
    replace (Z.of_nat (length l) + 1) with (Z.of_nat (S (length l))) by lia.
    unfold ev_buf_retrieveMempoolHeader, bufItem_data, memBlock_data.
    replace (p - (8 - 4)) with (p - 8 + 4) by lia.
    assert (group_ok (mempool_free (b_mem s) (size_pool i) (p - 8 + 4)) i
      (mk_group (size_pool i) (group_size i) (Z.of_nat (S (length l)))) (p - 8 :: l) (a_ever a))
      as Hnew by (by apply group_ok_give).
    rewrite (u8_small (Z.of_nat (S (length l)))) by
      (pose proof (free_bound _ _ _ _ _ Hi4 Hnew) as Hb'; simpl in Hb'; lia).
    apply buf_inv_set; [done|done|apply Hr|done|].
    intros j g' l' Hj Hne Hgj. unfold mempool_free, mempool_header.
    apply (group_ok_store _ j i); [done..|by apply WPool|].
    apply (group_ok_store _ j i); [done..| |done].
    apply WLink. by replace (p - 8 + 4 - 4) with (p - 8) by lia.
Qed.

(** *** Initialisation *)

Lemma group_ok_reset m m' i j g l ever :
  (i < 4)%nat -> (j < 4)%nat -> i <> j -> group_ok m i g l ever ->
  (forall x, aligned4 x -> x <> size_pool j -> x ∉ arena j -> load32 m' x = load32 m x) ->
  group_ok m' i g l ever.
Proof.
  intros Hi Hj Hne Hg Hm. apply group_ok_ext with m; [done..|].
  assert (forall x, word_of i x -> load32 m' x = load32 m x) as Hw.
  { intros x Hx. apply Hm; [by eapply (word_aligned i)|..].
    - intros ->. by apply (words_apart i j (size_pool j) (size_pool j) Hi Hj Hne Hx (WPool j)).
    - intros Hin. by apply (words_apart i j x x Hi Hj Hne Hx (WLink j x Hin)). }
  intros x [->|[Hx|(b & Hb & _ & ->)]]; apply Hw.
  - apply WPool.
  - apply WLink. by apply (go_sub _ _ _ _ _ Hg).
  - by apply WIndex.
Qed.

Definition full_group (i : nat) : ev_buf_groups_t := mk_group (size_pool i) (group_size i) (group_num i).

(** The first [k] groups are set up. *)
Definition reset_upto (k : nat) (c : cpu) (s : buf_state) : Prop :=
  length (bufGroups s) = 4%nat /\ c_irq (b_cpu s) = c_irq c /\ c_exc (b_cpu s) = c_exc c /\
  forall i, (i < k)%nat -> bufGroups s !! i = Some (full_group i) /\
    group_ok (b_mem s) i (full_group i) (arena i) ∅.

Lemma reset_group_step k c s : (k < 4)%nat -> reset_upto k c s -> reset_upto (S k) c (reset_group k s).
Proof.
  intros Hk (Hlen & Hirq & Hexc & Hg). unfold reset_group.
  pose proof (arena_arena_ok k Hk) as Ha. destruct (group_consts k Hk) as (_ & Hgs & Hgn & _).
  destruct (mempool_init_spec (b_mem s) (size_pool k) (size_mem k) (group_size k)
    (Z.to_nat (group_num k - 1))) as (m' & E & Hh & Hf).
  { by apply pool_aligned. }
  { by replace (S (Z.to_nat (group_num k - 1))) with (Z.to_nat (group_num k)) by lia. }
  { lia. }
  { replace (S (Z.to_nat (group_num k - 1))) with (Z.to_nat (group_num k)) by lia.
    intros Hin. by destruct (pool_not_block k _ Hk Hin). }
  replace (S (Z.to_nat (group_num k - 1))) with (Z.to_nat (group_num k)) in * by lia.
  rewrite Z2Nat.id in E by lia. rewrite E. split_and!; simpl; [by rewrite length_insert|done..|].
  intros i Hi. destruct (decide (i = k)) as [->|Hne].
  - rewrite list_lookup_insert_eq by lia. split; [done|]. split; [|done|done|done|set_solver].
    unfold arena, full_group. rewrite length_blocks. f_equal. lia.
  - rewrite list_lookup_insert_ne by done. destruct (Hg i) as [? Hgi]; [lia|]. split; [done|].
    apply (group_ok_reset (b_mem s) m' i k); [lia..|done|]. done.
Qed.

Lemma init_inv s : irq_ok (b_cpu s) ->
  buf_inv (ev_buf_init s) abs_init /\ c_irq (b_cpu (ev_buf_init s)) = c_irq (b_cpu s).
Proof.
  intros Hirq. unfold ev_buf_init, ev_buf_reset.
  set (s0 := mk_buf _ _).
  assert (reset_upto 0 (b_cpu s) s0) as Hs by (split_and!; [done..|lia]).
  do 4 (apply reset_group_step in Hs; [|lia]).
  destruct Hs as (Hlen & Hi & _ & Hg). split; [|done].
  split; [done|done|unfold irq_ok in *; by rewrite Hi|].
  intros i g l E1 E2. assert (i < 4)%nat as Hi4 by (apply lookup_lt_Some in E1; lia).
  destruct (Hg i Hi4) as [E1' Hgi]. rewrite E1' in E1. injection E1 as <-.
  unfold abs_init in E2. cbn [a_free] in E2. rewrite list_lookup_fmap in E2.
  rewrite lookup_seq_lt in E2 by done. by simplify_eq/=.
Qed.

(** *** Writes of the program into its buffers *)

Definition buffer_byte (a : alloc_state) (x : Z) : Prop :=
  exists i b, live a i b /\ b + 8 <= x < b + group_size i.

Definition foreign_byte (x : Z) : Prop :=
  forall i, (i < 4)%nat ->
    ~ (size_pool i <= x < size_pool i + 4) /\ ~ (size_mem i <= x < size_mem i + sizeof_mem i).

Lemma word_byte_kept a i w x : (i < 4)%nat -> word_of i w -> w <= x < w + 4 ->
  ~ buffer_byte a x /\ ~ foreign_byte x.
Proof.
  intros Hi Hw Hx. pose proof (group_consts i Hi) as (? & ? & ? & ?). split.
  - intros (j & b & (Hj & Hb & _) & Hr). pose proof (arena_bounds j b Hj Hb).
    pose proof (pool_aligned i Hi) as [? ?]. pose proof (arena_fits j Hj) as [[? ?] ?].
    pose proof (group_consts j Hj) as (? & ? & ? & ?).
    destruct (decide (i = j)) as [->|Hne].
    + destruct Hw as [|c Hc|c Hc];
        [pose proof (pool_outside j j Hj Hj); zdm|..];
        (destruct (decide (b = c)) as [->|Hbc]; [lia|];
         destruct (arena_spacing j b c Hj Hb Hc Hbc); lia).
    + pose proof (arenas_apart i j Hi Hj Hne). pose proof (pool_outside i j Hi Hj).
      destruct Hw as [|c Hc|c Hc]; [zdm|..]; pose proof (arena_bounds i c Hi Hc); lia.
  - intros Hf. destruct (Hf i Hi) as [Hf1 Hf2].
    destruct Hw as [|c Hc|c Hc]; [lia|..]; pose proof (arena_bounds i c Hi Hc); lia.
Qed.

Lemma write_sim s a c' :
  buf_inv s a -> c_irq c' = c_irq (b_cpu s) ->
  (forall x, load8 (c_mem c') x = load8 (b_mem s) x \/ buffer_byte a x \/ foreign_byte x) ->
  buf_inv (with_cpu c' s) a.
Proof.
  intros Hi Hirq Hw. split; [apply Hi|apply Hi|unfold irq_ok; simpl; rewrite Hirq; apply Hi|].
  intros i g l E1 E2. assert (i < 4)%nat as Hi4.
  { apply lookup_lt_Some in E2. by rewrite (bi_len _ _ Hi) in E2. }
  pose proof (bi_group _ _ Hi i g l E1 E2) as Hg.
  apply (group_ok_ext (b_mem s)); [done..|]. intros w Hpw.
  assert (word_of i w) as Hword.
  { destruct Hpw as [->|[Hx|(b & Hb & _ & ->)]].
    - apply WPool.
    - apply WLink. by apply (go_sub _ _ _ _ _ Hg).
    - by apply WIndex. }
  assert (forall x, w <= x < w + 4 -> load8 (c_mem c') x = load8 (b_mem s) x) as Hb.
  { intros x Hx. destruct (word_byte_kept a i w x Hi4 Hword Hx) as [H1 H2].
    destruct (Hw x) as [?|[?|?]]; done. }
  unfold load32, b_mem at 1 2 3 4, with_cpu. simpl. by rewrite !Hb by lia.
Qed.

(** *** Runs of a client *)

Inductive client_op :=
  | CAlloc (sz : Z)
  | CFree (p : Z)
  | CWrite (x : Z) (bytes : list Z).

Definition client_step (op : client_op) (s : buf_state) : option (Z * buf_state) :=
  match op with
  | CAlloc sz => Some (ev_buf_allocate sz s)
  | CFree p => ev_buf_free p s
  | CWrite x bytes => Some (0, with_cpu (with_mem (store_bytes (b_mem s) x bytes) (b_cpu s)) s)
  end.

Definition abs_step (op : client_op) (a : alloc_state) : Z * alloc_state :=
  match op with
  | CAlloc sz => abs_allocate sz a
  | CFree p => abs_free p a
  | CWrite _ _ => (0, a)
  end.

Fixpoint client_run (ops : list client_op) (s : buf_state) : option (list Z * buf_state) :=
  match ops with
  | [] => Some ([], s)
  | op :: ops' =>
      '(r, s1) ← client_step op s; '(rs, s2) ← client_run ops' s1; Some (r :: rs, s2)
  end.

Fixpoint abs_run (ops : list client_op) (a : alloc_state) : list Z * alloc_state :=
  match ops with
  | [] => ([], a)
  | op :: ops' =>
      let '(r, a1) := abs_step op a in
      let '(rs, a2) := abs_run ops' a1 in (r :: rs, a2)
  end.

(** What the client owes: it frees only what it was given (twice is allowed)
    and writes only into live buffers or outside the allocator's memory. *)
Definition client_ok (op : client_op) (a : alloc_state) : Prop :=
  match op with
  | CAlloc _ => True
  | CFree p => freeable p a
  | CWrite x bytes => forall y, x <= y < x + Z.of_nat (length bytes) -> buffer_byte a y \/ foreign_byte y
  end.

Fixpoint client_oks (ops : list client_op) (a : alloc_state) : Prop :=
  match ops with
  | [] => True
  | op :: ops' => client_ok op a /\ client_oks ops' (abs_step op a).2
  end.

Lemma client_step_sim s a op :
  buf_inv s a -> client_ok op a ->
  exists s', client_step op s = Some ((abs_step op a).1, s') /\ buf_inv s' (abs_step op a).2 /\
    c_irq (b_cpu s') = c_irq (b_cpu s).
Proof.
  intros Hi Hok. destruct op as [sz|p|x bytes]; simpl in *.
  - destruct (allocate_sim s a sz Hi) as (s' & -> & ? & ? & _). by exists s'.
  - destruct (free_sim s a p Hi Hok) as (s' & -> & ? & ? & _). by exists s'.
  - eexists. split; [done|]. split; [|done]. apply write_sim; [done..|].
    intros y. simpl. rewrite load8_store_bytes.
    destruct (Z.leb_spec x y), (Z.ltb_spec y (x + Z.of_nat (length bytes))); simpl; auto.
Qed.

Lemma client_run_sim ops s a :
  buf_inv s a -> client_oks ops a ->
  exists s', client_run ops s = Some ((abs_run ops a).1, s') /\ buf_inv s' (abs_run ops a).2 /\
    c_irq (b_cpu s') = c_irq (b_cpu s).
Proof.
  revert s a. induction ops as [|op ops IH]; intros s a Hi Hok; [by exists s|].
  destruct Hok as [Hok1 Hok].
  destruct (client_step_sim s a op Hi Hok1) as (s1 & E1 & Hi1 & Hirq1).
  destruct (IH s1 _ Hi1 Hok) as (s2 & E2 & Hi2 & Hirq2).
  exists s2. cbn [client_run abs_run]. rewrite E1. cbn. rewrite E2. cbn.
  destruct (abs_step op a) as [r a1]. cbn in *. destruct (abs_run ops a1).
  split_and!; [done|done|]. by rewrite Hirq2.
Qed.

(** A state the running program can be in. *)
Definition buf_reachable (s : buf_state) (a : alloc_state) : Prop :=
  exists s0 ops rs, irq_ok (b_cpu s0) /\ client_oks ops abs_init /\
    client_run ops (ev_buf_init s0) = Some (rs, s) /\ (abs_run ops abs_init).2 = a.

Lemma reachable_inv s a : buf_reachable s a -> buf_inv s a.
Proof.
  intros (s0 & ops & rs & Hirq & Hok & E & <-).
  destruct (init_inv s0 Hirq) as [Hi _].
  destruct (client_run_sim ops _ _ Hi Hok) as (s' & E' & ? & _).
  rewrite E' in E. by simplify_eq.
Qed.

(** *** Consequences for every reachable state *)

Lemma abs_allocate_cases sz a :
  let '(p, a') := abs_allocate sz a in
  (p = 0 /\ a' = a) \/
  exists i b l, sz <> 0 /\ first_fit 0 (a_free a) sz = Some i /\ a_free a !! i = Some (b :: l) /\ sz <= capacity i /\
    p = b + 8 /\ a' = mk_alloc (<[i := l]> (a_free a)) ({[b]} ∪ a_ever a).
Proof.
  unfold abs_allocate. destruct (Z.eqb_spec sz 0); [by left|]. simpl.
  destruct (1024 <? sz); [by left|].
  destruct (first_fit 0 (a_free a) sz) as [i|] eqn:E; [|by left].
  pose proof (first_fit_spec _ _ _ _ E) as (_ & b & l & El & Hsz). rewrite Nat.sub_0_r in El.
  rewrite El. right. by exists i, b, l.
Qed.

Lemma live_disjoint a i b j c :
  live a i b -> live a j c -> (i, b) <> (j, c) ->
  b + group_size i <= c \/ c + group_size j <= b.
Proof.
  intros (Hi & Hb & _) (Hj & Hc & _) Hne.
  destruct (decide (i = j)) as [->|Hij].
  - apply (arena_spacing j); [done..|]. intros ->. done.
  - pose proof (arenas_apart i j Hi Hj Hij).
    pose proof (arena_bounds i b Hi Hb). pose proof (arena_bounds j c Hj Hc).
    pose proof (group_consts i Hi). pose proof (group_consts j Hj). lia.
Qed.

(** A duplicate release only posts the exception. *)
Lemma ev_buf_free_dup p s s' : ev_buf_free p s = Some (BUFFER_DUPLICATE_FREE, s') ->
  bufGroups s' = bufGroups s /\ b_mem s' = b_mem s.
Proof.
  unfold ev_buf_free, BUFFER_DUPLICATE_FREE, BUFFER_SUCC. simpl.
  destruct (ev_buf_isExisted _ _ _) as [[]|]; simpl; [|destruct (bufGroups s !! _); done|done].
  intros [= <-]. unfold b_mem. simpl. by destruct (is_ev_buf p).
Qed.

(** A release writes the block's link and the pool cells only. *)
Lemma ev_buf_free_frame s s' a p r w :
  buf_inv s a -> freeable p a -> ev_buf_free p s = Some (r, s') ->
  aligned4 w -> w <> p - 8 -> (forall i, (i < 4)%nat -> w <> size_pool i) ->
  load32 (b_mem s') w = load32 (b_mem s) w.
Proof.
  intros Hi (Hever & i & Hi4 & Hb) E Hw Hwp Hwpool.
  destruct (buf_inv_lookup s a i Hi Hi4) as (l & El & Eg & Hg).
  pose proof (arena_bounds i _ Hi4 Hb) as (Hb4 & _). pose proof (pool_aligned i Hi4) as Hp.
  unfold ev_buf_free in E. simpl in E.
  destruct (ev_buf_isExisted _ _ _) as [[]|]; simpl in E; [|..|done].
  { injection E as _ <-. unfold b_mem. simpl. by destruct (is_ev_buf p). }
  unfold ev_buf_getHead, bufItem_data, ev_buf_retrieveMempoolHeader in E.
  replace (c_mem (if is_ev_buf p then _ else _)) with (b_mem s) in E by (by destruct (is_ev_buf p)).
  rewrite (go_index _ _ _ _ _ Hg _ Hb Hever), Nat2Z.id, Eg in E. simpl in E.
  injection E as _ <-. unfold b_mem. simpl. unfold mempool_free, mempool_header.
  replace (p - (bufItem_data - memBlock_data) - 4) with (p - 8) by (unfold bufItem_data, memBlock_data; lia).
  pose proof (Hwpool i Hi4). rewrite !load32_store32_other by done. done.
Qed.

(** Giving back a live block makes that block, and no other, free. *)
Lemma abs_free_live s a i b : buf_inv s a -> live a i b ->
  freeable (b + 8) a /\ abs_free (b + 8) a = (BUFFER_SUCC, (abs_free (b + 8) a).2) /\
  forall j c, live (abs_free (b + 8) a).2 j c <-> live a j c /\ c <> b.
Proof.
  intros Hi (Hi4 & Hb & Hni). destruct (buf_inv_lookup s a i Hi Hi4) as (l & El & _ & Hg).
  rewrite El in Hni. simpl in Hni.
  assert (b ∈ a_ever a) as He by (by apply (go_used _ _ _ _ _ Hg)).
  unfold abs_free. replace (b + 8 - 8) with b by lia.
  rewrite (group_of_unique i) by done. rewrite El. simpl default. rewrite bool_decide_false by done.
  split_and!; [|done|].
  { split; [by replace (b + 8 - 8) with b by lia|]. exists i. by replace (b + 8 - 8) with b by lia. }
  intros j c. unfold live. cbn [a_free snd]. destruct (decide (j = i)) as [->|Hne].
  - rewrite list_lookup_insert_eq by (by apply lookup_lt_Some in El). rewrite El. simpl. set_solver.
  - rewrite list_lookup_insert_ne by done. split; [|tauto]. intros (Hj & Hc & Hnc). split_and!; [done..|].
    intros ->. by apply (words_apart i j b b Hi4 Hj ltac:(done) (WLink i b Hb) (WLink j b Hc)).
Qed.

(** The block just taken: what the state says of it before and after. *)
Lemma abs_allocate_taken s a i b l : buf_inv s a -> a_free a !! i = Some (b :: l) ->
  (i < 4)%nat /\ b ∈ arena i /\ b ∉ l /\ ~ live a i b.
Proof.
  intros Hi El. assert (i < 4)%nat as Hi4.
  { apply lookup_lt_Some in El. by rewrite (bi_len _ _ Hi) in El. }
  destruct (buf_inv_lookup s a i Hi Hi4) as (l0 & El0 & _ & Hg). rewrite El in El0.
  injection El0 as <-. pose proof (holds_NoDup _ _ _ (go_list _ _ _ _ _ Hg)) as Hnd.
  apply NoDup_cons in Hnd as [? _]. split_and!; [done|apply (go_sub _ _ _ _ _ Hg); by left|done|].
  intros (_ & _ & Hni). rewrite El in Hni. simpl in Hni. set_solver.
Qed.

Lemma group_full_length s a i : buf_inv s a -> (i < 4)%nat -> (forall b, ~ live a i b) ->
  (availBufNum <$> (bufGroups s !! i)) = Some (group_num i).
Proof.
  intros Hi Hi4 Hl. destruct (buf_inv_lookup s a i Hi Hi4) as (l & El & Eg & Hg).
  rewrite Eg. simpl. f_equal. pose proof (free_bound _ _ _ _ _ Hi4 Hg) as Hb.
  assert (length (arena i) <= length l)%nat as Hge.
  { apply submseteq_length, NoDup_submseteq.
    - apply blocks_NoDup. pose proof (group_consts i Hi4). lia.
    - intros b Hb'. destruct (decide (b ∈ l)) as [|Hni]; [done|].
      destruct (Hl b). split_and!; [done|done|]. by rewrite El. }
  unfold arena in Hge. rewrite length_blocks in Hge. pose proof (group_consts i Hi4). lia.
Qed.
End invariant.

(** ** Properties *)

(** C4. The buffer pool refines the allocator specification: whatever sequence of
    allocations, releases (double ones included) and writes into live buffers a
    client makes after [ev_buf_init], every call returns what the stacks of
    free blocks say, no call loops or leaves the group table, and the
    interrupt-enable register ends as it began. *)
Theorem ev_buffer_refines_allocator `{EvLayoutOk} (s : buf_state) (ops : list client_op) :
  irq_ok (b_cpu s) -> client_oks ops abs_init ->
  exists s', client_run ops (ev_buf_init s) = Some ((abs_run ops abs_init).1, s') /\
    c_irq (b_cpu s') = c_irq (b_cpu s).
Proof.
  intros Hirq Hok. destruct (init_inv s Hirq) as [Hi Hirq'].
  destruct (client_run_sim ops _ _ Hi Hok) as (s' & E & _ & Hirq2).
  exists s'. by rewrite Hirq2.
Qed.

(** A buffer handed out in a reachable state is memory of its own: at least
    as large as asked, inside one group's arena, and apart from the header and
    data of every buffer that is live at that moment. *)
Theorem ev_buf_allocate_fresh `{EvLayoutOk} (s s' : buf_state) (a : alloc_state) (sz p : Z) :
  buf_reachable s a -> ev_buf_allocate sz s = (p, s') -> p <> 0 ->
  exists i, (i < 4)%nat /\ sz <= capacity i /\
    size_mem i <= p - 8 /\ p + capacity i <= size_mem i + sizeof_mem i /\
    live (abs_allocate sz a).2 i (p - 8) /\
    forall j b, live a j b -> p + capacity i <= b \/ b + 8 + capacity j <= p - 8.
Proof.
  intros Hr%reachable_inv E Hp.
  destruct (allocate_sim s a sz Hr) as (s1 & E1 & _). rewrite E in E1. injection E1 as Ep <-.
  pose proof (abs_allocate_cases sz a) as Hc. destruct (abs_allocate sz a) as [p' a'].
  simpl in *. subst p'. destruct Hc as [[? _]|(i & b & l & _ & _ & El & Hsz & -> & ->)]; [done|].
  destruct (abs_allocate_taken s a i b l Hr El) as (Hi & Hb & Hbl & Hnl).
  pose proof (arena_bounds i b Hi Hb) as (_ & _ & ? & ?). unfold capacity in *.
  replace (b + 8 - 8) with b by lia. exists i. split_and!; [done|done|done|lia| |].
  - split_and!; [done|done|]. simpl. rewrite list_lookup_insert_eq; [done|].
    by rewrite (bi_len _ _ Hr).
  - intros j c Hlc. assert ((i, b) <> (j, c)) as Hne by (intros [= -> ->]; done).
    destruct Hlc as (Hj & Hc & _). destruct (decide (i = j)) as [->|Hij].
    + destruct (arena_spacing j b c Hj Hb Hc); [by intros ->|lia|lia].
    + pose proof (arenas_apart i j Hi Hj Hij).
      pose proof (arena_bounds j c Hj Hc). pose proof (group_consts j Hj). lia.
Qed.

(** [ev_buf_getFreeMaxSize] tells exactly which requests succeed: in a
    reachable state a request of a positive size is served iff the size is at
    most the value returned. *)
Theorem ev_buf_getFreeMaxSize_exact `{EvLayoutOk} (s : buf_state) (a : alloc_state) (sz : Z) :
  buf_reachable s a -> 0 < sz ->
  ((ev_buf_allocate sz s).1 <> 0 <-> sz <= ev_buf_getFreeMaxSize s).
Proof.
  intros Hr%reachable_inv Hsz. destruct (allocate_sim s a sz Hr) as (s1 & -> & _). simpl.
  assert (exists l0 l1 l2 l3, a_free a = [l0; l1; l2; l3] /\
    bufGroups s = imap (fun i l => mk_group (size_pool i) (group_size i) (Z.of_nat (length l))) [l0; l1; l2; l3])
    as (l0 & l1 & l2 & l3 & Ef & Eg).
  { pose proof (bi_len _ _ Hr). destruct (a_free a) as [|l0 [|l1 [|l2 [|l3 [|]]]]] eqn:E; try done.
    exists l0, l1, l2, l3. split; [done|]. rewrite <- E. apply list_eq. intros i.
    rewrite list_lookup_imap. destruct (decide (i < 4)%nat) as [Hi|Hi].
    - destruct (buf_inv_lookup s a i Hr Hi) as (l & -> & -> & _). done.
    - rewrite !lookup_ge_None_2; [done|rewrite E; simpl; lia|rewrite (bi_glen _ _ Hr); lia]. }
  assert (forall i b l, a_free a !! i = Some (b :: l) -> b + 8 <> 0) as Hnz.
  { intros i b l El. destruct (abs_allocate_taken s a i b l Hr El) as (Hi & Hb & _).
    destruct (arena_bounds i b Hi Hb) as ([? _] & _). lia. }
  unfold ev_buf_getFreeMaxSize, abs_allocate, capacity. rewrite Eg, Ef in *.
  pose proof (fun b l => Hnz 0%nat b l) as H0'. pose proof (fun b l => Hnz 1%nat b l) as H1'.
  pose proof (fun b l => Hnz 2%nat b l) as H2'. pose proof (fun b l => Hnz 3%nat b l) as H3'.
  simpl in H0', H1', H2', H3'. clear Hnz Eg Ef Hr.
  destruct (Z.eqb_spec sz 0); [lia|]. simpl orb.
  destruct l0 as [|b0 l0], l1 as [|b1 l1], l2 as [|b2 l2], l3 as [|b3 l3];
    unfold bufItem_data, u32, u16; simpl;
    change (group_size 0) with 24; change (group_size 1) with 60;
    change (group_size 2) with 200; change (group_size 3) with 1024;
    repeat match goal with |- context [(?x - 8) mod ?y] =>
      let v := eval vm_compute in ((x - 8) mod y) in change ((x - 8) mod y) with v end;
    destruct (Z.ltb_spec 1024 sz); repeat (first [case_bool_decide; [|done] | case_cmp]; simpl);
    split; intros; simpl in *; (lia || eauto || done).
Qed.

(** A double release is detected: after a buffer of a reachable state's
    allocation is given back, giving it back again returns
    BUFFER_DUPLICATE_FREE, posts the FREE_MULTI exception once and changes
    neither the groups nor the memory. *)
Theorem ev_buf_double_free_detected `{EvLayoutOk} (s s1 : buf_state) (a : alloc_state) (sz p : Z) :
  buf_reachable s a -> ev_buf_allocate sz s = (p, s1) -> p <> 0 ->
  exists s2 s3, ev_buf_free p s1 = Some (BUFFER_SUCC, s2) /\
    ev_buf_free p s2 = Some (BUFFER_DUPLICATE_FREE, s3) /\
    c_irq (b_cpu s3) = c_irq (b_cpu s) /\
    c_exc (b_cpu s3) =
      sys_exceptionPost 243 SYS_EXCEPTTION_EV_BUFFER_EXCEPTION_FREE_MULTI (c_exc (b_cpu s)) /\
    bufGroups s3 = bufGroups s2 /\ b_mem s3 = b_mem s2.
Proof.
  intros Hr%reachable_inv E Hp.
  destruct (allocate_sim s a sz Hr) as (s' & E1 & Hi1 & Hq1 & Hx1). rewrite E in E1.
  injection E1 as Ep <-. pose proof (abs_allocate_cases sz a) as Hc.
  destruct (abs_allocate sz a) as [p' a']. simpl in Ep, Hi1. subst p'.
  destruct Hc as [[? _]|(i & b & l & _ & _ & El & _ & -> & ->)]; [done|].
  destruct (abs_allocate_taken s a i b l Hr El) as (Hi & Hb & Hbl & _).
  set (a1 := mk_alloc _ _) in *.
  assert (freeable (b + 8) a1) as Hf.
  { split; [simpl; replace (b + 8 - 8) with b by lia; set_solver|].
    exists i. by replace (b + 8 - 8) with b by lia. }
  assert (a_free a1 !! i = Some l) as El1.
  { simpl. rewrite list_lookup_insert_eq; [done|]. by rewrite (bi_len _ _ Hr). }
  destruct (free_sim s1 a1 _ Hi1 Hf) as (s2 & E2 & Hi2 & Hq2 & Hx2).
  assert (abs_free (b + 8) a1 = (BUFFER_SUCC, mk_alloc (<[i := b :: l]> (a_free a1)) (a_ever a1))) as Ea.
  { unfold abs_free. replace (b + 8 - 8) with b by lia. rewrite (group_of_unique i) by done.
    rewrite El1. simpl default. by rewrite bool_decide_false. }
  rewrite Ea in E2, Hi2, Hx2. simpl in E2, Hi2, Hx2. set (a2 := mk_alloc _ (a_ever a1)) in *.
  destruct (free_sim s2 a2 _ Hi2 Hf) as (s3 & E3 & _ & Hq3 & Hx3).
  assert (abs_free (b + 8) a2 = (BUFFER_DUPLICATE_FREE, a2)) as Ea2.
  { unfold abs_free. replace (b + 8 - 8) with b by lia. rewrite (group_of_unique i) by done.
    subst a2. cbn [a_free]. rewrite list_lookup_insert_eq by (apply lookup_lt_Some in El1; done).
    simpl default. rewrite bool_decide_true; [done|by left]. }
  rewrite Ea2 in E3, Hx3. simpl in E3, Hx3.
  exists s2, s3. split_and!; [done|done|congruence|congruence|..];
    by destruct (ev_buf_free_dup _ _ _ E3).
Qed.

(** No block leaks: in a reachable state in which every buffer of a group has
    been given back, the group's counter of free blocks is the number of its
    blocks, whatever the history. *)
Theorem ev_buffer_no_leak `{EvLayoutOk} (s : buf_state) (a : alloc_state) (i : nat) :
  buf_reachable s a -> (i < 4)%nat -> (forall b, ~ live a i b) ->
  availBufNum <$> (bufGroups s !! i) = Some (group_num i).
Proof. intros Hr%reachable_inv. by apply group_full_length. Qed.

(** [long_ev_buf_get] can never serve its caller: it asks for 1024 bytes, more
    than the largest block carries (1016), and returns NULL in every reachable
    state, also right after initialisation. *)
Theorem long_ev_buf_get_always_null `{EvLayoutOk} (s : buf_state) (a : alloc_state) :
  buf_reachable s a -> (long_ev_buf_get s).1 = 0.
Proof.
  intros Hr%reachable_inv. unfold long_ev_buf_get.
  destruct (allocate_sim s a MAX_BUFFER_SIZE Hr) as (s1 & -> & _). simpl.
  pose proof (abs_allocate_cases MAX_BUFFER_SIZE a) as Hc.
  destruct (abs_allocate MAX_BUFFER_SIZE a) as [p a']. simpl.
  destruct Hc as [[? _]|(i & b & l & _ & _ & El & Hsz & _)]; [done|]. exfalso.
  destruct (abs_allocate_taken s a i b l Hr El) as (Hi & _).
  pose proof (group_consts i Hi). unfold capacity, MAX_BUFFER_SIZE in Hsz. lia.
Qed.

(** ** A concrete placement *)

#[local] Instance demo_layout : EvLayout := {
  size_pool i := 0x840000 + 4 * Z.of_nat i;
  size_mem i := 0x841000 + 0x1000 * Z.of_nat i;
}.

#[local] Instance demo_layout_ok : EvLayoutOk.
Proof.
  split.
  - intros i Hi. unfold aligned4. simpl. zdm.
  - intros i [->|[->|[->| ->]]]%group_cases; vm_compute; split_and!; congruence || lia.
  - intros i j ?? Hne. simpl. lia.
  - intros i j [->|[->|[->| ->]]]%group_cases [->|[->|[->| ->]]]%group_cases; vm_compute; auto.
  - intros i j [->|[->|[->| ->]]]%group_cases [->|[->|[->| ->]]]%group_cases; vm_compute;
      intros; try done; auto.
Qed.

Definition demo_state : buf_state := mk_buf (mk_cpu ∅ 0x55 exc_init) [].

(** Two small buffers and one of group 1 are taken, one is written to and freed twice. *)
Definition demo_ops : list client_op :=
  [CAlloc 10; CAlloc 16; CAlloc 40; CWrite 0x841008 [1; 2; 3]; CFree 0x841008; CFree 0x841008; CAlloc 1020].

Lemma demo_ops_ok : client_oks demo_ops abs_init.
Proof.
  assert (forall p a i, p - 8 ∈ a_ever a -> (i < 4)%nat -> p - 8 ∈ arena i -> freeable p a) as Hf.
  { intros p a i ???. split; [done|by exists i]. }
  unfold demo_ops. cbn [client_oks client_ok].
  split; [exact I|]. split; [exact I|]. split; [exact I|]. split; [|split; [|split; [|split; exact I]]].
  - intros y Hy. left. exists 0%nat, 0x841000. cbn in Hy. split; [|change (group_size 0) with 24; lia].
    split; [lia|]. split; decide_vm.
  - apply Hf with (i := 0%nat); [decide_vm|lia|decide_vm].
  - apply Hf with (i := 0%nat); [decide_vm|lia|decide_vm].
Qed.

Lemma demo_reachable : exists s, buf_reachable s (abs_run demo_ops abs_init).2 /\
  client_run demo_ops (ev_buf_init demo_state) = Some ([0x841008; 0x841020; 0x842008; 0; 0; 2; 0], s).
Proof.
  eexists. split; [|vm_compute; reflexivity].
  exists demo_state, demo_ops. eexists. split_and!; [done|apply demo_ops_ok|vm_compute; reflexivity|done].
Qed.

Definition demo_abs : alloc_state := (abs_run demo_ops abs_init).2.

Lemma ev_buffer_refines_allocator_witness :
  exists s', client_run demo_ops (ev_buf_init demo_state) = Some ((abs_run demo_ops abs_init).1, s') /\
    c_irq (b_cpu s') = 0x55.
Proof. apply (ev_buffer_refines_allocator demo_state demo_ops); [done|apply demo_ops_ok]. Defined.

Lemma ev_buf_allocate_fresh_witness : exists s i p,
  buf_reachable s demo_abs /\ p <> 0 /\ (i < 4)%nat /\ size_mem i <= p - 8 /\
  live (abs_allocate 100 demo_abs).2 i (p - 8).
Proof.
  destruct demo_reachable as (s & Hr & _).
  destruct (allocate_sim s demo_abs 100 (reachable_inv _ _ Hr)) as (s' & E & _).
  assert (((abs_allocate 100 demo_abs).1 =? 0) = false) as Hz by (vm_compute; reflexivity).
  apply Z.eqb_neq in Hz.
  destruct (ev_buf_allocate_fresh s s' demo_abs 100 _ Hr E Hz) as (i & Hi & _ & Hlo & _ & Hl & _).
  exists s, i, (abs_allocate 100 demo_abs).1. split; [exact Hr|]. split; [exact Hz|].
  split; [exact Hi|]. split; [exact Hlo|exact Hl].
Defined.

Lemma ev_buf_getFreeMaxSize_exact_witness : exists s, buf_reachable s demo_abs /\
  ((ev_buf_allocate 1016 s).1 <> 0 <-> 1016 <= ev_buf_getFreeMaxSize s).
Proof.
  destruct demo_reachable as (s & Hr & _). exists s. split; [exact Hr|].
  apply (ev_buf_getFreeMaxSize_exact s demo_abs 1016 Hr). lia.
Defined.

Lemma ev_buf_double_free_detected_witness : exists s p s1 s2 s3, buf_reachable s demo_abs /\
  ev_buf_free p s1 = Some (BUFFER_SUCC, s2) /\ ev_buf_free p s2 = Some (BUFFER_DUPLICATE_FREE, s3).
Proof.
  destruct demo_reachable as (s & Hr & _).
  destruct (allocate_sim s demo_abs 100 (reachable_inv _ _ Hr)) as (s' & E & _).
  assert (((abs_allocate 100 demo_abs).1 =? 0) = false) as Hz by (vm_compute; reflexivity).
  apply Z.eqb_neq in Hz.
  destruct (ev_buf_double_free_detected s s' demo_abs 100 _ Hr E Hz) as (s2 & s3 & E1 & E2 & _).
  exists s, (abs_allocate 100 demo_abs).1, s', s2, s3. split; [exact Hr|]. split; [exact E1|exact E2].
Defined.

Lemma ev_buffer_no_leak_witness : exists s, buf_reachable s demo_abs /\
  availBufNum <$> (bufGroups s !! 2%nat) = Some 16.
Proof.
  destruct demo_reachable as (s & Hr & _). exists s. split; [exact Hr|].
  apply (ev_buffer_no_leak s demo_abs 2 Hr); [lia|].
  intros b (_ & Hb & Hni). apply Hni. replace (default [] (a_free demo_abs !! 2%nat)) with (arena 2); [exact Hb|].
  vm_compute. reflexivity.
Defined.

Lemma long_ev_buf_get_always_null_witness : exists s, buf_reachable s demo_abs /\ (long_ev_buf_get s).1 = 0.
Proof.
  destruct demo_reachable as (s & Hr & _). exists s. split; [exact Hr|].
  exact (long_ev_buf_get_always_null s demo_abs Hr).
Defined.
