(* ===== verification/BufClient.v ===== *)
(** * The event buffers, as a client sees them

    A client holds a set of buffers.  Allocation adds a fresh one, release takes
    one away, and neither touches what is in the buffers held nor the link word
    in front of each, which belongs to the client's queue while the buffer is
    out ([bufItem->next] of [ev_buffer.h]).  The client may write its buffers
    and those link words. *)
From S2P Require Import Prelude Memory Linked ListC SysEv Mempool EvBuffer.

(** The payload capacity of the block behind a buffer. *)
Definition buf_cap `{EvLayout} (p : Z) : Z :=
  match group_of (p - 8) with Some i => capacity i | None => 0 end.

(** The bytes of a buffer that its holder may use. *)
Definition own_byte `{EvLayout} (p y : Z) : Prop := p - 8 <= y < p - 4 \/ p <= y < p + buf_cap p.

Section client.
Context `{EvLayoutOk}.
Implicit Types (s : buf_state) (a : alloc_state) (L : list Z) (p q y : Z) (m : mem).

(** The client holds the buffers [L], when the allocator is in the state [a]. *)
Record holds_bufs s a L : Prop := {
  hb_alloc : buf_inv s a;
  hb_live : Forall (fun p => exists i, live a i (p - 8)) L;
  hb_nodup : NoDup L;
}.

(** The bytes of the buffers [L] are the same in two memories. *)
Definition bufs_kept L m m' : Prop := forall p y, p ∈ L -> own_byte p y -> load8 m' y = load8 m y.

Lemma bufs_kept_refl L m : bufs_kept L m m.
Proof. done. Qed.

Lemma bufs_kept_trans L m1 m2 m3 : bufs_kept L m1 m2 -> bufs_kept L m2 m3 -> bufs_kept L m1 m3.
Proof. intros H1 H2 p y Hp Hy. by rewrite (H2 p y Hp Hy), (H1 p y Hp Hy). Qed.

Lemma bufs_kept_sub L L' m m' : bufs_kept L m m' -> L' ⊆ L -> bufs_kept L' m m'.
Proof. intros Hk Hs p y Hp. apply Hk. by apply Hs. Qed.

Lemma live_cap a i p : live a i (p - 8) -> buf_cap p = capacity i.
Proof. intros (Hi & Hb & _). unfold buf_cap. by rewrite (group_of_unique i). Qed.

(** Where a buffer lies. *)
Lemma live_range a i p : live a i (p - 8) ->
  (i < 4)%nat /\ aligned4 (p - 8) /\ size_mem i <= p - 8 /\
  p + buf_cap p <= size_mem i + sizeof_mem i /\ 16 <= buf_cap p < 1024 /\ p + buf_cap p < 2 ^ 32.
Proof.
  intros Hl. rewrite (live_cap _ _ _ Hl). destruct Hl as (Hi & Hb & _).
  destruct (arena_bounds i _ Hi Hb) as (? & _ & ? & ?). destruct (arena_fits i Hi) as [_ ?].
  destruct (group_consts i Hi) as (_ & ? & _). unfold capacity. split_and!; try done; lia.
Qed.

Lemma held_range s a L p : holds_bufs s a L -> p ∈ L ->
  aligned4 (p - 8) /\ 16 <= buf_cap p < 1024 /\ p + buf_cap p < 2 ^ 32.
Proof.
  intros [_ Hl _] Hp. rewrite Forall_forall in Hl. destruct (Hl p Hp) as [i Hi].
  destruct (live_range _ _ _ Hi) as (? & ? & ? & ? & ? & ?). done.
Qed.

(** Two buffers do not overlap, headers included. *)
Lemma live_apart a i j p q : live a i (p - 8) -> live a j (q - 8) -> p <> q ->
  p + buf_cap p <= q - 8 \/ q + buf_cap q <= p - 8.
Proof.
  intros Hp Hq Hne. rewrite (live_cap _ _ _ Hp), (live_cap _ _ _ Hq). unfold capacity.
  destruct (live_disjoint a i (p - 8) j (q - 8) Hp Hq) as [?|?]; [intros [= _ ?]; lia|lia|lia].
Qed.

Lemma held_apart s a L p q : holds_bufs s a L -> p ∈ L -> q ∈ L -> p <> q ->
  p + buf_cap p <= q - 8 \/ q + buf_cap q <= p - 8.
Proof.
  intros [_ Hl _] Hp Hq. rewrite Forall_forall in Hl.
  destruct (Hl p Hp) as [i Hi], (Hl q Hq) as [j Hj]. by apply (live_apart a i j).
Qed.

(** A buffer is away from the cells of the pools. *)
Lemma live_pool a i j p y : live a i (p - 8) -> (j < 4)%nat -> own_byte p y ->
  ~ (size_pool j <= y < size_pool j + 4).
Proof.
  intros Hl Hj Hy. destruct (live_range _ _ _ Hl) as (Hi & [? ?] & ? & ? & ? & ?).
  pose proof (pool_aligned j Hj) as [? ?]. pose proof (pool_outside j i Hj Hi) as Ho.
  destruct (arena_fits i Hi) as [[? ?] _]. pose proof (group_consts i Hi) as (? & ? & ? & Es).
  assert (sizeof_mem i mod 4 = 0).
  { rewrite Es, Z.mul_comm, <- Z.mul_mod_idemp_r by lia. replace (group_size i mod 4) with 0 by lia. by rewrite Z.mul_0_r. }
  unfold own_byte in Hy. zdm.
Qed.

(** ** Allocation *)

Lemma alloc_bytes s a sz p s' :
  buf_inv s a -> ev_buf_allocate sz s = (p, s') ->
  b_mem s' = b_mem s \/
  exists j v w, (j < 4)%nat /\ p <> 0 /\ b_mem s' = store32 (store32 (b_mem s) (size_pool j) v) (p - 4) w.
Proof.
  intros Hi E. unfold ev_buf_allocate in E.
  destruct ((sz =? 0) || (MAX_BUFFER_SIZE <? sz)); [injection E as _ <-; by left|].
  destruct (drv_disable_irq (b_cpu s)) as [r c1] eqn:Ed.
  destruct (irq_section _ _ _ _ Hi Ed) as (Hm1 & _ & _).
  destruct (find_group 0 (bufGroups s) sz) as [i|]; [|injection E as _ <-; by left].
  destruct (bufGroups s !! i) as [g|] eqn:Eg; [|injection E as _ <-; by left].
  assert (i < 4)%nat as Hi4 by (apply lookup_lt_Some in Eg; by rewrite (bi_glen _ _ Hi) in Eg).
  destruct (buf_inv_lookup s a i Hi Hi4) as (l & El & Eg' & Hg). rewrite Eg in Eg'. injection Eg' as ->.
  cbn [qHead] in E. rewrite Hm1 in E. unfold mempool_alloc in E.
  destruct (load32 (b_mem s) (size_pool i) =? 0) eqn:Ez.
  { cbn in E. injection E as _ <-. left. done. }
  cbn [fst snd] in E. pose proof (load32_range (b_mem s) (size_pool i)). apply Z.eqb_neq in Ez.
  rewrite (proj2 (Z.eqb_neq (load32 (b_mem s) (size_pool i) + 4) 0)) in E by lia.
  injection E as <- <-. right. exists i. do 2 eexists. split; [done|]. unfold bufItem_data. split; [lia|].
  cbn [b_mem b_cpu c_mem drv_restore_irq with_irq with_mem]. f_equal. lia.
Qed.

(** No block is free for [sz] bytes. *)
Definition no_buffer a (sz : Z) : Prop := (abs_allocate sz a).1 = 0.

Lemma allocate_client_exact s a L sz :
  holds_bufs s a L ->
  exists p s', ev_buf_allocate sz s = (p, s') /\ p = (abs_allocate sz a).1 /\ bufs_kept L (b_mem s) (b_mem s') /\
    c_irq (b_cpu s') = c_irq (b_cpu s) /\
    ((p = 0 /\ no_buffer a sz /\ holds_bufs s' a L) \/
     (0 < p /\ p ∉ L /\ sz <= buf_cap p /\ holds_bufs s' (abs_allocate sz a).2 (p :: L))).
Proof.
  intros [Hi Hl Hnd]. destruct (allocate_sim s a sz Hi) as (s' & E & Hi' & Hirq & _).
  pose proof (alloc_bytes s a sz _ s' Hi E) as Hb. unfold no_buffer.
  pose proof (abs_allocate_cases sz a) as Hc. destruct (abs_allocate sz a) as [p a'] eqn:Ea. cbn [fst snd] in *.
  exists p, s'.
  destruct Hc as [(-> & ->)|(i & b & l & _ & _ & El & Hsz & -> & ->)].
  { split_and!; [done|done| |done|by left].
    destruct Hb as [->|(j & v & w & _ & ? & _)]; [apply bufs_kept_refl|done]. }
  rewrite Forall_forall in Hl.
  destruct (abs_allocate_taken s a i b l Hi El) as (Hi4 & Hba & Hbl & Hnl).
  set (a1 := mk_alloc (<[i:=l]> (a_free a)) ({[b]} ∪ a_ever a)) in *.
  assert (Hnew : live a1 i (b + 8 - 8)).
  { replace (b + 8 - 8) with b by lia. split_and!; [done|done|]. cbn [a1 a_free].
    rewrite list_lookup_insert_eq; [done|]. by apply lookup_lt_Some in El. }
  assert (Hold : forall j c, live a j c -> live a1 j c).
  { intros j c (Hj & Hcb & Hni). split_and!; [done|done|]. cbn [a1 a_free].
    destruct (decide (i = j)) as [->|Hne].
    - rewrite list_lookup_insert_eq by (by apply lookup_lt_Some in El). rewrite El in Hni. cbn in *. set_solver.
    - by rewrite list_lookup_insert_ne. }
  assert (Hni : b + 8 ∉ L).
  { intros HL. destruct (Hl _ HL) as [j Hj]. replace (b + 8 - 8) with b in Hj by lia.
    assert (i = j) as <-; [|done]. destruct Hj as (Hj & Hjb & _).
    pose proof (group_of_unique i b Hi4 Hba) as E1. pose proof (group_of_unique j b Hj Hjb) as E2. congruence. }
  split_and!; [done|done| |done|right; split_and!].
  - destruct Hb as [->|(j & v & w & Hj & _ & ->)]; [apply bufs_kept_refl|].
    intros q y Hq Hy. destruct (Hl q Hq) as [k Hk]. pose proof (live_pool a k j q y Hk Hj Hy).
    assert (b + 8 <> q) by (by intros <-).
    pose proof (live_apart a1 i k (b + 8) q Hnew (Hold _ _ Hk) ltac:(done)) as Hap.
    destruct (live_range _ _ _ Hnew) as (_ & _ & _ & _ & ? & _). unfold own_byte in Hy.
    destruct (live_range _ _ _ Hk) as (_ & _ & _ & _ & ? & _).
    rewrite !load8_store32_ne by lia. done.
  - pose proof (arena_bounds i b Hi4 Hba) as ([? _] & _). lia.
  - done.
  - rewrite (live_cap _ _ _ Hnew). done.
  - split; [done| |by constructor]. constructor; [by exists i|].
    apply Forall_forall. intros q Hq. destruct (Hl q Hq) as [k Hk]. exists k. by apply Hold.
Qed.

Lemma allocate_client s a L sz :
  holds_bufs s a L ->
  exists p s', ev_buf_allocate sz s = (p, s') /\ bufs_kept L (b_mem s) (b_mem s') /\
    c_irq (b_cpu s') = c_irq (b_cpu s) /\
    ((p = 0 /\ no_buffer a sz /\ holds_bufs s' a L) \/
     (0 < p /\ p ∉ L /\ sz <= buf_cap p /\ holds_bufs s' (abs_allocate sz a).2 (p :: L))).
Proof. intros (p & s' & ? & _ & ?)%(allocate_client_exact _ _ _ sz). by exists p, s'. Qed.

(** ** Release *)

Lemma free_bytes s a p r s' :
  buf_inv s a -> freeable p a -> ev_buf_free p s = Some (r, s') ->
  b_mem s' = b_mem s \/
  exists j v w, (j < 4)%nat /\ b_mem s' = store32 (store32 (b_mem s) (p - 8) v) (size_pool j) w.
Proof.
  intros Hi (Hever & i & Hi4 & Hb) E. unfold ev_buf_free in E.
  destruct (drv_disable_irq (b_cpu s)) as [r0 c1] eqn:Ed.
  destruct (irq_section _ _ _ _ Hi Ed) as (Hm1 & _ & _).
  set (c2 := if is_ev_buf p then c1 else _) in E.
  assert (Em2 : c_mem c2 = b_mem s) by (unfold c2; by destruct (is_ev_buf p)).
  destruct (ev_buf_isExisted _ _ _) as [[]|]; cbn in E; [|..|done].
  { injection E as _ <-. left. cbn. by rewrite Em2. }
  destruct (buf_inv_lookup s a i Hi Hi4) as (l & El & Eg & Hg).
  unfold ev_buf_getHead, bufItem_data in E. rewrite Em2, (go_index _ _ _ _ _ Hg _ Hb Hever), Nat2Z.id, Eg in E.
  injection E as _ <-. right. exists i. do 2 eexists. split; [done|].
  cbn [b_mem b_cpu c_mem drv_restore_irq with_irq with_mem qHead].
  unfold mempool_free, mempool_header, ev_buf_retrieveMempoolHeader, bufItem_data, memBlock_data.
  replace (p - (8 - 4) - 4) with (p - 8) by lia. done.
Qed.

Lemma free_client_exact s a L1 p L2 :
  holds_bufs s a (L1 ++ p :: L2) ->
  exists s', ev_buf_free p s = Some (BUFFER_SUCC, s') /\ holds_bufs s' (abs_free p a).2 (L1 ++ L2) /\
    bufs_kept (L1 ++ L2) (b_mem s) (b_mem s') /\ c_irq (b_cpu s') = c_irq (b_cpu s).
Proof.
  intros [Hi Hl Hnd]. rewrite Forall_forall in Hl.
  destruct (Hl p) as [i Hp]; [set_solver|].
  assert (Ep : p - 8 + 8 = p) by lia.
  destruct (abs_free_live s a i (p - 8) Hi Hp) as (Hf & Ef & Hlv). rewrite Ep in *.
  destruct (free_sim s a p Hi Hf) as (s' & E & Hi' & Hirq & _). rewrite Ef in E. cbn [fst] in E.
  assert (Hsub : forall q, q ∈ L1 ++ L2 -> q ∈ L1 ++ p :: L2 /\ q <> p).
  { apply NoDup_app in Hnd as (_ & Hd & Hn2). apply NoDup_cons in Hn2 as [Hn2 _].
    intros q Hq. split; [set_solver|]. intros ->. apply elem_of_app in Hq as [Hq|Hq]; [|done].
    apply (Hd p Hq). by left. }
  exists s'. split_and!; [done| |  |done].
  - split.
    + exact Hi'.
    + apply Forall_forall. intros q Hq. destruct (Hsub q Hq) as [HqL Hne].
      destruct (Hl q HqL) as [j Hj]. exists j. apply Hlv. split; [done|]. intros ?. apply Hne. lia.
    + apply NoDup_app in Hnd as (? & Hd & Hn2). apply NoDup_cons in Hn2 as [_ Hn2].
      apply NoDup_app. split_and!; [done| |done]. intros q Hq Hq2. apply (Hd q Hq). by right.
  - destruct (free_bytes _ _ _ _ _ Hi Hf E) as [->|(j & v & w & Hj & ->)]; [apply bufs_kept_refl|].
    intros q y Hq Hy. destruct (Hsub q Hq) as [HqL Hne]. destruct (Hl q HqL) as [k Hk].
    pose proof (live_pool a k j q y Hk Hj Hy).
    pose proof (live_apart a k i q p Hk Hp Hne) as Hap. unfold own_byte in Hy.
    destruct (live_range _ _ _ Hp) as (_ & _ & _ & _ & ? & _).
    destruct (live_range _ _ _ Hk) as (_ & _ & _ & _ & ? & _).
    rewrite !load8_store32_ne by lia. done.
Qed.

Lemma free_client s a L1 p L2 :
  holds_bufs s a (L1 ++ p :: L2) ->
  exists s' a', ev_buf_free p s = Some (BUFFER_SUCC, s') /\ holds_bufs s' a' (L1 ++ L2) /\
    bufs_kept (L1 ++ L2) (b_mem s) (b_mem s') /\ c_irq (b_cpu s') = c_irq (b_cpu s).
Proof. intros (s' & ? & ? & ? & ?)%free_client_exact. by exists s', (abs_free p a).2. Qed.

(** ** Memory that is not the allocator's *)

(** The byte [y] is in no pool cell and no arena. *)
Definition outside_bufs y : Prop := forall i, (i < 4)%nat ->
  ~ (size_pool i <= y < size_pool i + 4) /\ ~ (size_mem i <= y < size_mem i + sizeof_mem i).

Definition outside_kept m m' : Prop := forall y, outside_bufs y -> load8 m' y = load8 m y.

#[export] Instance outside_kept_preorder : PreOrder outside_kept.
Proof. split; [by intros m y|]. intros m1 m2 m3 H1 H2 y Hy. by rewrite (H2 y Hy), (H1 y Hy). Qed.

(** The bytes of a buffer that is out, header included, are in an arena. *)
Lemma live_inside a i p y x : live a i (p - 8) -> outside_bufs y -> p - 8 <= x < p + buf_cap p -> x <> y.
Proof.
  intros Hl Hy Hx ->. destruct (live_range _ _ _ Hl) as (Hi & _ & ? & ? & _). apply (Hy i Hi). lia.
Qed.

Lemma own_inside s a L p y : holds_bufs s a L -> p ∈ L -> own_byte p y -> ~ outside_bufs y.
Proof.
  intros [_ Hl _] Hp Hy Ho. rewrite Forall_forall in Hl. destruct (Hl p Hp) as [i Hi].
  destruct (live_range _ _ _ Hi) as (_ & _ & _ & _ & ? & _).
  apply (live_inside a i p y y Hi Ho); [unfold own_byte in Hy; lia|done].
Qed.

Lemma outside_store s a L p x v :
  holds_bufs s a L -> p ∈ L -> p - 8 <= x < p + buf_cap p -> outside_kept (b_mem s) (store8 (b_mem s) x v).
Proof.
  intros [_ Hl _] Hp Hx y Hy. rewrite Forall_forall in Hl. destruct (Hl p Hp) as [i Hi].
  apply load8_store8_ne. by apply (live_inside a i p).
Qed.

Lemma outside_pool_block m j v p w a i :
  (j < 4)%nat -> live a i (p - 8) ->
  forall x, p - 8 <= x <= p - 4 -> outside_kept m (store32 (store32 m (size_pool j) v) x w) /\
    outside_kept m (store32 (store32 m x w) (size_pool j) v).
Proof.
  intros Hj Hl x Hx. destruct (live_range _ _ _ Hl) as (Hi & _ & ? & ? & ? & _).
  split; intros y Hy; destruct (Hy j Hj) as [Hp _], (Hy i Hi) as [_ Ha]; by rewrite !load8_store32_ne by lia.
Qed.

Lemma alloc_outside s a L sz p s' :
  holds_bufs s a L -> ev_buf_allocate sz s = (p, s') -> outside_kept (b_mem s) (b_mem s').
Proof.
  intros Hh E. destruct (alloc_bytes s a sz p s' (hb_alloc _ _ _ Hh) E) as [->|(j & v & w & Hj & Hp & ->)]; [done|].
  destruct (allocate_client s a L sz Hh) as (p' & s2 & E' & _ & _ & [(-> & _)|(_ & _ & _ & Hh')]); rewrite E in E';
    injection E' as -> <-; [done|].
  pose proof (hb_live _ _ _ Hh') as Hl. apply Forall_cons_1 in Hl as [[i Hi] _].
  apply (outside_pool_block _ _ _ _ _ _ _ Hj Hi). lia.
Qed.

Lemma free_outside s a L p r s' :
  holds_bufs s a L -> p ∈ L -> ev_buf_free p s = Some (r, s') -> outside_kept (b_mem s) (b_mem s').
Proof.
  intros Hh Hp E. pose proof (hb_live _ _ _ Hh) as Hl. rewrite Forall_forall in Hl. destruct (Hl p Hp) as [i Hi].
  destruct (abs_free_live s a i (p - 8) (hb_alloc _ _ _ Hh) Hi) as (Hf & _). replace (p - 8 + 8) with p in Hf by lia.
  destruct (free_bytes s a p r s' (hb_alloc _ _ _ Hh) Hf E) as [->|(j & v & w & Hj & ->)]; [done|].
  apply (outside_pool_block _ _ _ _ _ _ _ Hj Hi). lia.
Qed.

(** ** Writing *)

Lemma own_outside a p q i j y :
  live a i (p - 8) -> live a j (q - 8) -> p <> q -> own_byte p y -> ~ own_byte q y.
Proof.
  intros Hp Hq Hne Hy Hy'. pose proof (live_apart _ _ _ _ _ Hp Hq Hne).
  destruct (live_range _ _ _ Hp) as (_ & _ & _ & _ & ? & _).
  destruct (live_range _ _ _ Hq) as (_ & _ & _ & _ & ? & _). unfold own_byte in *. lia.
Qed.

(** A write that changes only bytes of held buffers and link words. *)
Lemma write_client s a L c :
  holds_bufs s a L -> c_irq c = c_irq (b_cpu s) ->
  (forall y, (forall p, p ∈ L -> ~ own_byte p y) -> load8 (c_mem c) y = load8 (b_mem s) y) ->
  holds_bufs (with_cpu c s) a L.
Proof.
  intros [Hi Hl Hnd] Hirq Hw. split; [|done|done].
  rewrite Forall_forall in Hl. split; [apply Hi|apply Hi|unfold irq_ok; cbn; rewrite Hirq; apply Hi|].
  intros i g l E1 E2. assert (i < 4)%nat as Hi4.
  { apply lookup_lt_Some in E2. by rewrite (bi_len _ _ Hi) in E2. }
  pose proof (bi_group _ _ Hi i g l E1 E2) as Hg.
  apply (group_ok_ext (b_mem s)); [done..|]. intros w Hpw.
  assert (Hb : forall y, w <= y < w + 4 -> load8 (c_mem c) y = load8 (b_mem s) y).
  { intros y Hy. apply Hw. intros p Hp Hown. destruct (Hl p Hp) as [j Hj].
    pose proof (live_pool a j i p y Hj Hi4 Hown) as Hpool.
    destruct (live_range _ _ _ Hj) as (Hj4 & _ & ? & ? & ? & _).
    assert (Hblock : forall b, b ∈ arena i -> b <> p - 8 -> ~ (b <= y < b + 8)).
    { intros b Hb Hne Hyb. destruct Hj as (_ & Hpa & _). unfold own_byte in Hown.
      assert (Hgp : buf_cap p = group_size j - 8) by (unfold buf_cap; by rewrite (group_of_unique j)).
      destruct (group_consts i Hi4) as (_ & ? & _).
      destruct (decide (i = j)) as [->|Hij].
      - destruct (arena_spacing j b (p - 8) Hi4 Hb Hpa Hne); lia.
      - pose proof (arenas_apart i j Hi4 Hj4 Hij). pose proof (arena_bounds i b Hi4 Hb).
        pose proof (arena_bounds j _ Hj4 Hpa). lia. }
    destruct Hpw as [->|[Hwl|(b & Hb & _ & ->)]].
    - apply Hpool. lia.
    - apply (Hblock w); [by apply (go_sub _ _ _ _ _ Hg)| |lia].
      intros ->. destruct Hj as (_ & Hpa & Hni). apply Hni.
      assert (i = j) as ->; [|by rewrite E2].
      pose proof (go_sub _ _ _ _ _ Hg _ Hwl) as Hpi.
      pose proof (group_of_unique i _ Hi4 Hpi) as G1. pose proof (group_of_unique j _ Hj4 Hpa) as G2. congruence.
    - destruct (decide (b = p - 8)) as [->|Hne]; [unfold own_byte in Hown; lia|].
      apply (Hblock b Hb Hne). lia. }
  unfold load32, b_mem at 1 2 3 4, with_cpu. cbn [b_cpu c_mem]. by rewrite !Hb by lia.
Qed.

(** A write that leaves the allocator's memory alone. *)
Lemma write_outside s a L c :
  holds_bufs s a L -> c_irq c = c_irq (b_cpu s) ->
  (forall y, ~ outside_bufs y -> load8 (c_mem c) y = load8 (b_mem s) y) ->
  holds_bufs (with_cpu c s) a L.
Proof.
  intros [Hi Hl Hnd] Hirq Hw. split; [|done|done]. split; [apply Hi|apply Hi|unfold irq_ok; cbn; rewrite Hirq; apply Hi|].
  intros i g l E1 E2. assert (i < 4)%nat as Hi4.
  { apply lookup_lt_Some in E2. by rewrite (bi_len _ _ Hi) in E2. }
  pose proof (bi_group _ _ Hi i g l E1 E2) as Hg.
  apply (group_ok_ext (b_mem s)); [done..|]. intros w Hpw.
  assert (Hb : forall y, w <= y < w + 4 -> load8 (c_mem c) y = load8 (b_mem s) y).
  { intros y Hy. apply Hw. intros Ho. destruct (Ho i Hi4) as [Hp Ha]. destruct (group_consts i Hi4) as (_ & ? & _).
    destruct Hpw as [->|[Hwl|(b & Hb & _ & ->)]]; [by apply Hp| |].
    - pose proof (arena_bounds i w Hi4 (go_sub _ _ _ _ _ Hg _ Hwl)). apply Ha. lia.
    - pose proof (arena_bounds i b Hi4 Hb). apply Ha. lia. }
  unfold load32, b_mem at 1 2 3 4, with_cpu. cbn [b_cpu c_mem]. by rewrite !Hb by lia.
Qed.

Lemma holds_bufs_perm s a L L' : holds_bufs s a L -> L ≡ₚ L' -> holds_bufs s a L'.
Proof. intros [Hi Hl Hn] Hp. split; [done|by rewrite <- Hp|by rewrite <- Hp]. Qed.

(** Bytes stored into one buffer leave the others alone. *)
Lemma store_bytes_kept s a L p x bytes :
  holds_bufs s a L -> p ∈ L -> p <= x -> x + Z.of_nat (length bytes) <= p + buf_cap p ->
  holds_bufs (with_cpu (with_mem (store_bytes (b_mem s) x bytes) (b_cpu s)) s) a L /\
  forall q y, q ∈ L -> q <> p -> own_byte q y -> load8 (store_bytes (b_mem s) x bytes) y = load8 (b_mem s) y.
Proof.
  intros Hh Hp Hx Hlen.
  assert (Hout : forall y, ~ (x <= y < x + Z.of_nat (length bytes)) ->
            load8 (store_bytes (b_mem s) x bytes) y = load8 (b_mem s) y).
  { intros y Hy. rewrite load8_store_bytes. cmp_false ((x <=? y) && (y <? x + Z.of_nat (length bytes))). done. }
  split.
  - apply write_client; [done|done|]. intros y Hy. apply Hout. intros Hr. apply (Hy p Hp). right. lia.
  - intros q y Hq Hne Hy. apply Hout. pose proof (held_apart s a L p q Hh Hp Hq ltac:(done)).
    destruct (held_range _ _ _ _ Hh Hp) as (_ & ? & _). destruct (held_range _ _ _ _ Hh Hq) as (_ & ? & _).
    unfold own_byte in Hy. lia.
Qed.
End client.
