(* ===== verification/StringC.v ===== *)
(** * proj/common/string.c

    The C library routines the firmware links instead of the compiler's, over
    the byte memory.  A loop with a counter recurses on the counter; a loop that
    looks for a NUL byte takes a fuel and is [None] when it has not ended within
    it.  Objects do not wrap around the 32-bit address space.  [memset] and
    [memcpy] check their arguments and post exceptions, so they act on the whole
    processor state.  The second, disabled half of the file ([#else]) and the
    empty assertions of [memcpy4] are left out. *)
From S2P Require Import Prelude Memory Linked ListC SysEv Mempool EvBuffer.

(** ** Definitions *)

(** [while(n--) *d++ = *s++;] *)
Fixpoint copy_fwd (n : nat) (m : mem) (d s : Z) : mem :=
  match n with
  | O => m
  | S n' => copy_fwd n' (store8 m d (load8 m s)) (d + 1) (s + 1)
  end.

(** [while(n--) *d-- = *s--;] *)
Fixpoint copy_bwd (n : nat) (m : mem) (d s : Z) : mem :=
  match n with
  | O => m
  | S n' => copy_bwd n' (store8 m d (load8 m s)) (d - 1) (s - 1)
  end.

Fixpoint strcpy_loop (fuel : nat) (m : mem) (dst0 src0 : Z) : option mem :=
  match fuel with
  | O => None
  | S f =>
      let c := load8 m src0 in
      let m1 := store8 m dst0 c in
      if c =? 0 then Some m1 else strcpy_loop f m1 (dst0 + 1) (src0 + 1)
  end.

Definition strcpy (fuel : nat) (m : mem) (dst0 src0 : Z) : option (Z * mem) :=
  m' ← strcpy_loop fuel m dst0 src0; Some (dst0, m').

(** Whether the compiler's plain [char] is signed. *)
Definition char_int (char_signed : bool) (b : Z) : Z := if char_signed then s8 b else b.

Fixpoint strchr (char_signed : bool) (fuel : nat) (m : mem) (s c : Z) : option Z :=
  match fuel with
  | O => None
  | S f =>
      if char_int char_signed (load8 m s) =? c then Some s
      else if load8 m s =? 0 then Some 0
      else strchr char_signed f m (s + 1) c
  end.

Fixpoint memcmp (m : mem) (m1 m2 : Z) (n : nat) : Z :=
  match n with
  | O => 0
  | S n' =>
      if negb (load8 m m1 =? load8 m m2) then load8 m m1 - load8 m m2
      else memcmp m (m1 + 1) (m2 + 1) n'
  end.

Fixpoint memchr (m : mem) (src_void c : Z) (length : nat) : Z :=
  match length with
  | O => 0
  | S n' => if load8 m src_void =? c then src_void else memchr m (src_void + 1) c n'
  end.

Definition memmove (m : mem) (dest src n : Z) : Z * mem :=
  let k := Z.to_nat n in
  (dest,
   if dest <? src then copy_fwd k m dest src
   else copy_bwd k m (dest + (n - 1)) (src + (n - 1))).

(** [len] is an [int]: [while(len--)] runs [len mod 2^32] times. *)
Definition bcopy (m : mem) (src dest len : Z) : mem :=
  let k := Z.to_nat (u32 len) in
  if dest <? src then copy_fwd k m dest src
  else copy_bwd k m (dest + (len - 1)) (src + (len - 1)).

Fixpoint set_loop (n : nat) (m : mem) (ptr val : Z) : mem :=
  match n with
  | O => m
  | S n' => set_loop n' (store8 m ptr (u8 val)) (ptr + 1) val
  end.

Section checked.
Context `{EvLayout}.

Definition memset (dest val len : Z) (c : cpu) : Z * cpu :=
  if dest =? 0 then (0, ZB_EXCEPTION_POST 132 SYS_EXCEPTTION_COMMON_MEM_ACCESS c)
  else if is_ev_buf dest && (LARGE_BUFFER <? len) then
    (0, ZB_EXCEPTION_POST 136 SYS_EXCEPTTION_COMMON_MEM_ACCESS c)
  else (dest, with_mem (set_loop (Z.to_nat len) (c_mem c) dest val) c).

Definition memcpy (out inp length : Z) (c : cpu) : Z * cpu :=
  if length =? 0 then (0, c)
  else if out =? 0 then (0, ZB_EXCEPTION_POST 151 SYS_EXCEPTTION_COMMON_MEM_ACCESS c)
  else if inp =? 0 then (0, ZB_EXCEPTION_POST 155 SYS_EXCEPTTION_COMMON_MEM_ACCESS c)
  else if is_ev_buf out && (LARGE_BUFFER <? length) then
    (0, ZB_EXCEPTION_POST 159 SYS_EXCEPTTION_COMMON_MEM_ACCESS c)
  else (out, with_mem (bcopy (c_mem c) inp out (s32 length)) c).
End checked.

(** [while(len--) *dst++ = *src++;] on words. *)
Fixpoint copy4 (n : nat) (m : mem) (dst src : Z) : mem :=
  match n with
  | O => m
  | S n' => copy4 n' (store32 m dst (load32 m src)) (dst + 4) (src + 4)
  end.

Definition memcpy4 (m : mem) (d s length : Z) : mem := copy4 (Z.to_nat (Z.shiftr length 2)) m d s.

Fixpoint strlen_loop (fuel : nat) (m : mem) (str len : Z) : option Z :=
  match fuel with
  | O => None
  | S f => if load8 m str =? 0 then Some len else strlen_loop f m (str + 1) (u32 (len + 1))
  end.

Definition strlen (fuel : nat) (m : mem) (str : Z) : option Z :=
  if str =? 0 then Some 0 else strlen_loop fuel m str 0.

Fixpoint strcmp (fuel : nat) (m : mem) (firstString secondString : Z) : option Z :=
  match fuel with
  | O => None
  | S f =>
      let a := load8 m firstString in
      let b := load8 m secondString in
      if a =? b then
        if a =? 0 then Some 0 else strcmp f m (firstString + 1) (secondString + 1)
      else if a - b <? 0 then Some (-1) else Some 1
  end.

(** The first loop of [strncpy] tests the pointer [t], which is NULL at the
    start or never (an object does not wrap around). *)
Definition strncpy (m : mem) (s t n : Z) : Z * mem :=
  if s =? 0 then (s, m)
  else if negb (t =? 0) then (s, copy_fwd (Z.to_nat n) m s t)
  else (s, set_loop (S (Z.to_nat n)) m s 0).

Fixpoint all_words (n : nat) (m : mem) (p v : Z) : Z :=
  match n with
  | O => 1
  | S n' => if negb (load32 m p =? v) then 0 else all_words n' m (p + 4) v
  end.

Definition ismemzero4 (m : mem) (data len : Z) : Z := all_words (Z.to_nat (Z.shiftr len 2)) m data 0.

Definition ismemf4 (m : mem) (data len : Z) : Z :=
  all_words (Z.to_nat (Z.shiftr len 2)) m data 0xffffffff.

Fixpoint set4_loop (n : nat) (m : mem) (p val : Z) : mem :=
  match n with
  | O => m
  | S n' => set4_loop n' (store32 m p val) (p + 4) val
  end.

Definition memset4 (m : mem) (dest val len : Z) : Z * mem :=
  (dest, set4_loop (Z.to_nat (Z.shiftr len 2)) m dest val).

Definition zeromem4 (m : mem) (data len : Z) : mem := (memset4 m data 0 len).2.

(** ** Copying *)

(** Forward copying is right when the destination starts at or before the source. *)
Lemma copy_fwd_spec n m d s b : d <= s ->
  load8 (copy_fwd n m d s) b =
  if (d <=? b) && (b <? d + Z.of_nat n) then load8 m (s + (b - d)) else load8 m b.
Proof.
  revert m d s. induction n as [|n IH]; intros m d s Hds; cbn [copy_fwd].
  { by destruct (Z.leb_spec d b), (Z.ltb_spec b (d + Z.of_nat 0)); try lia. }
  rewrite IH, !load8_store8 by lia.
  destruct (Z.leb_spec (d + 1) b), (Z.leb_spec d b), (Z.ltb_spec b (d + Z.of_nat (S n))),
    (Z.ltb_spec b (d + 1 + Z.of_nat n)); simpl; try lia; repeat case_cmp; try lia; try done.
  - f_equal. lia.
  - subst b. rewrite u8_small by apply load8_range. f_equal. lia.
Qed.

(** Backward copying, from the last byte, when it starts at or after the source. *)
Lemma copy_bwd_spec n m d s b : s <= d ->
  load8 (copy_bwd n m d s) b =
  if (d - Z.of_nat n <? b) && (b <=? d) then load8 m (s + (b - d)) else load8 m b.
Proof.
  revert m d s. induction n as [|n IH]; intros m d s Hds; cbn [copy_bwd].
  { by destruct (Z.ltb_spec (d - Z.of_nat 0) b), (Z.leb_spec b d); try lia. }
  rewrite IH, !load8_store8 by lia.
  destruct (Z.leb_spec b (d - 1)), (Z.leb_spec b d), (Z.ltb_spec (d - Z.of_nat (S n)) b),
    (Z.ltb_spec (d - 1 - Z.of_nat n) b); simpl; try lia; repeat case_cmp; try lia; try done.
  - f_equal. lia.
  - subst b. rewrite u8_small by apply load8_range. f_equal. lia.
Qed.

(** Both directions together: the effect of a copy of [n] bytes. *)
Definition copied (m m' : mem) (d s : Z) (n : nat) : Prop :=
  load_bytes m' d n = load_bytes m s n /\
  forall b, b < d \/ d + Z.of_nat n <= b -> load8 m' b = load8 m b.

Lemma copied_intro m m' d s n :
  (forall b, load8 m' b =
    if (d <=? b) && (b <? d + Z.of_nat n) then load8 m (s + (b - d)) else load8 m b) ->
  copied m m' d s n.
Proof.
  intros Hb. split.
  - apply list_eq. intros i. destruct (decide (i < n)%nat) as [Hi|Hi].
    + rewrite !load_bytes_lookup, Hb by done.
      destruct (Z.leb_spec d (d + Z.of_nat i)), (Z.ltb_spec (d + Z.of_nat i) (d + Z.of_nat n));
        try lia. simpl. do 2 f_equal. lia.
    + by rewrite !lookup_ge_None_2 by (rewrite length_load_bytes; lia).
  - intros b Ho. rewrite Hb. destruct (Z.leb_spec d b), (Z.ltb_spec b (d + Z.of_nat n)); done || lia.
Qed.

Lemma copy_dir_copied (m : mem) d s n : 0 <= n ->
  copied m (if d <? s then copy_fwd (Z.to_nat n) m d s
            else copy_bwd (Z.to_nat n) m (d + (n - 1)) (s + (n - 1))) d s (Z.to_nat n).
Proof.
  intros Hn. apply copied_intro. intros b. destruct (Z.ltb_spec d s).
  - rewrite copy_fwd_spec by lia. done.
  - rewrite copy_bwd_spec by lia. rewrite !Z2Nat.id by done.
    replace (d + (n - 1) - n <? b) with (d <=? b) by (repeat case_cmp; try reflexivity; lia || (f_equal; lia)).
    replace (b <=? d + (n - 1)) with (b <? d + n) by (repeat case_cmp; try reflexivity; lia).
    replace (s + (n - 1) + (b - (d + (n - 1)))) with (s + (b - d)) by lia. done.
Qed.

Lemma set_loop_spec n m p v b :
  load8 (set_loop n m p v) b = if (p <=? b) && (b <? p + Z.of_nat n) then u8 v else load8 m b.
Proof.
  revert m p. induction n as [|n IH]; intros m p; cbn [set_loop].
  { by destruct (Z.leb_spec p b), (Z.ltb_spec b (p + Z.of_nat 0)); try lia. }
  rewrite IH, load8_store8, u8_u8.
  repeat case_cmp; simpl; try done; lia.
Qed.

(** ** C strings *)

(** The bytes [l] and a terminator stand at [p]. *)
Fixpoint cstr (m : mem) (p : Z) (l : list Z) : Prop :=
  match l with
  | [] => load8 m p = 0
  | c :: l' => load8 m p = c /\ c <> 0 /\ cstr m (p + 1) l'
  end.

(** Lexicographic order of byte strings, as [strcmp] reports it. *)
Fixpoint lex (l1 l2 : list Z) : Z :=
  match l1, l2 with
  | [], [] => 0
  | [], _ => -1
  | _, [] => 1
  | x :: l1', y :: l2' => if x =? y then lex l1' l2' else if x <? y then -1 else 1
  end.

Lemma lex_refl l : lex l l = 0.
Proof. induction l; simpl; [done|]. by rewrite Z.eqb_refl. Qed.

Lemma lex_eq l1 l2 : lex l1 l2 = 0 -> l1 = l2.
Proof.
  revert l2. induction l1 as [|x l1 IH]; intros [|y l2]; simpl; try done.
  repeat case_cmp; try done. intros E. subst. f_equal. by apply IH.
Qed.

Lemma cstr_byte m p c l : cstr m p (c :: l) -> 0 < c < 256.
Proof. intros (<- & ? & _). pose proof (load8_range m p). lia. Qed.

Lemma strlen_spec m p l fuel : p <> 0 -> cstr m p l -> (length l < fuel)%nat ->
  Z.of_nat (length l) < 2 ^ 32 -> strlen fuel m p = Some (Z.of_nat (length l)).
Proof.
  intros Hp Hl Hf Hlt. unfold strlen. rewrite (proj2 (Z.eqb_neq p 0) Hp).
  enough (forall k q, 0 <= k -> cstr m q l -> k + Z.of_nat (length l) < 2 ^ 32 ->
    strlen_loop fuel m q k = Some (k + Z.of_nat (length l))) as He by (by apply (He 0)).
  clear p Hp Hl Hlt. revert fuel Hf.
  induction l as [|c l IH]; intros [|fuel] Hf k q Hk Hl Hlt; simpl in *; try lia.
  - rewrite Hl. simpl. f_equal. lia.
  - destruct Hl as (-> & Hc & Hl). rewrite (proj2 (Z.eqb_neq c 0) Hc).
    rewrite u32_small by lia. rewrite IH by (done || lia). f_equal. lia.
Qed.

Lemma strcmp_spec m p1 p2 l1 l2 fuel : cstr m p1 l1 -> cstr m p2 l2 ->
  (length l1 < fuel)%nat -> strcmp fuel m p1 p2 = Some (lex l1 l2).
Proof.
  revert p1 p2 l2 fuel. induction l1 as [|x l1 IH]; intros p1 p2 [|y l2] [|fuel] H1 H2 Hf;
    simpl in Hf; try lia; cbn [strcmp].
  - simpl in H1, H2. by rewrite H1, H2.
  - pose proof (cstr_byte _ _ _ _ H2). simpl in H1. destruct H2 as (-> & ? & H2). rewrite H1.
    cmp_false (0 =? y). by cmp_true (0 - y <? 0).
  - pose proof (cstr_byte _ _ _ _ H1). simpl in H2. destruct H1 as (-> & ? & H1). rewrite H2.
    cmp_false (x =? 0). by cmp_false (x - 0 <? 0).
  - destruct H1 as (-> & ? & H1), H2 as (-> & ? & H2). simpl.
    destruct (Z.eqb_spec x y) as [->|]; [cmp_false (y =? 0); apply IH; [done..|lia]|].
    replace (x - y <? 0) with (x <? y) by (repeat case_cmp; try reflexivity; lia).
    by destruct (x <? y).
Qed.

Lemma cstr_ext m m' p l :
  (forall b, p <= b <= p + Z.of_nat (length l) -> load8 m' b = load8 m b) ->
  cstr m p l -> cstr m' p l.
Proof.
  revert p. induction l as [|c l IH]; intros p Hb; simpl in *.
  - by rewrite Hb by lia.
  - intros (E & ? & Hl). rewrite Hb by lia. split_and!; [done..|]. apply IH; [|done].
    intros b ?. apply Hb. lia.
Qed.

Lemma strcpy_spec m d s l fuel : cstr m s l -> (length l < fuel)%nat ->
  d + Z.of_nat (length l) < s \/ s + Z.of_nat (length l) < d ->
  exists m', strcpy_loop fuel m d s = Some m' /\ cstr m' d l /\
    forall b, b < d \/ d + Z.of_nat (length l) < b -> load8 m' b = load8 m b.
Proof.
  revert m d s fuel. induction l as [|c l IH]; intros m d s [|fuel] Hl Hf Hd; simpl in Hf; try lia.
  - simpl in *. rewrite Hl. simpl. eexists. split; [done|].
    split; [by rewrite load8_store8_eq|]. intros b ?. by rewrite load8_store8_ne by lia.
  - pose proof (cstr_byte _ _ _ _ Hl). destruct Hl as (E & ? & Hl). cbn [strcpy_loop length] in *.
    rewrite E. cmp_false (c =? 0).
    destruct (IH (store8 m d c) (d + 1) (s + 1) fuel) as (m' & -> & Hc & Hfr); [|lia|lia|].
    { apply (cstr_ext m); [|done]. intros b ?. rewrite load8_store8_ne by lia. done. }
    exists m'. split; [done|]. split.
    + simpl. rewrite Hfr, load8_store8_eq by lia. rewrite u8_small by lia. done.
    + intros b ?. rewrite Hfr, load8_store8_ne by lia. done.
Qed.

(** ** Words *)

Lemma set4_loop_frame n m p v b : b < p \/ p + 4 * Z.of_nat n <= b ->
  load8 (set4_loop n m p v) b = load8 m b.
Proof.
  revert m p. induction n as [|n IH]; intros m p Hb; cbn [set4_loop]; [done|].
  rewrite IH by lia. apply load8_store32_ne. lia.
Qed.

Lemma set4_loop_spec n m p v : all_words n (set4_loop n m p v) p (u32 v) = 1.
Proof.
  revert m p. induction n as [|n IH]; intros m p; cbn [set4_loop all_words]; [done|].
  assert (load32 (set4_loop n (store32 m p v) (p + 4) v) p = u32 v) as ->.
  { rewrite <- (load32_store32_eq m p v). unfold load32 at 1 2.
    rewrite !set4_loop_frame by lia. done. }
  rewrite Z.eqb_refl. apply IH.
Qed.

Lemma all_words_spec n m p v :
  all_words n m p v = 1 <-> forall k, 0 <= k < Z.of_nat n -> load32 m (p + 4 * k) = v.
Proof.
  revert p. induction n as [|n IH]; intros p; cbn [all_words].
  { split; [intros _ k Hk; lia|done]. }
  destruct (Z.eqb_spec (load32 m p) v) as [E|E]; simpl.
  - rewrite IH. split; intros H k Hk.
    + destruct (decide (k = 0)) as [->|]; [by replace (p + 4 * 0) with p by lia|].
      replace (p + 4 * k) with (p + 4 + 4 * (k - 1)) by lia. apply H. lia.
    + replace (p + 4 + 4 * k) with (p + 4 * (k + 1)) by lia. apply H. lia.
  - split; [done|]. intros H. destruct E. rewrite <- (H 0) by lia. f_equal. lia.
Qed.

(** ** Properties *)

(** [memmove] copies overlapping blocks correctly in both directions: the [n]
    bytes at the destination become the bytes that stood at the source before
    the call, and no other byte changes. *)
Theorem memmove_overlap_safe (m : mem) (dest src n : Z) : 0 <= n ->
  (memmove m dest src n).1 = dest /\
  load_bytes (memmove m dest src n).2 dest (Z.to_nat n) = load_bytes m src (Z.to_nat n) /\
  forall b, b < dest \/ dest + n <= b -> load8 (memmove m dest src n).2 b = load8 m b.
Proof.
  intros Hn. destruct (copy_dir_copied m dest src n Hn) as [H1 H2].
  rewrite Z2Nat.id in H2 by done. done.
Qed.

Lemma memmove_overlap_safe_witness :
  load_bytes (memmove (store_bytes ∅ 100 [1; 2; 3; 4; 5]) 102 100 5).2 102 5 = [1; 2; 3; 4; 5].
Proof.
  destruct (memmove_overlap_safe (store_bytes ∅ 100 [1; 2; 3; 4; 5]) 102 100 5) as (_ & E & _); [lia|].
  exact E.
Defined.

(** [memcpy] on every branch: a zero length, a NULL operand and a block too
    large for an event buffer write nothing and return NULL (all but the first
    after posting the exception); otherwise the bytes are copied, overlapping
    or not, and the destination is returned. *)
Theorem memcpy_checked `{EvLayout} (out inp length : Z) (c : cpu) : 0 <= length < 2 ^ 31 ->
  let r := memcpy out inp length c in
  if decide (length = 0) then r = (0, c)
  else if decide (out = 0 \/ inp = 0 \/ (is_ev_buf out = true /\ 1016 < length))
  then r.1 = 0 /\ c_mem r.2 = c_mem c /\ T_evtExcept (c_exc r.2) !! 1%nat = (fun _ => 0) <$> T_evtExcept (c_exc c) !! 1%nat
  else r.1 = out /\ copied (c_mem c) (c_mem r.2) out inp (Z.to_nat length) /\
    c_irq r.2 = c_irq c /\ c_exc r.2 = c_exc c.
Proof.
  intros Hl r. subst r. unfold memcpy.
  assert (forall line, T_evtExcept (c_exc (ZB_EXCEPTION_POST line SYS_EXCEPTTION_COMMON_MEM_ACCESS c)) !! 1%nat
    = (fun _ => 0) <$> T_evtExcept (c_exc c) !! 1%nat) as Hx.
  { intros line. cbn. destruct (T_evtExcept (c_exc c)) as [|? [|? ?]]; done. }
  destruct (Z.eqb_spec length 0) as [->|Hne]; [done|]. rewrite decide_False by done.
  destruct (Z.eqb_spec out 0) as [->|Ho]; [rewrite decide_True by auto; cbn [fst snd]; by rewrite Hx|].
  destruct (Z.eqb_spec inp 0) as [->|Hi]; [rewrite decide_True by auto; cbn [fst snd]; by rewrite Hx|].
  destruct (is_ev_buf out) eqn:Eo, (Z.ltb_spec LARGE_BUFFER length) as [Hlt|Hlt];
    simpl andb; cbv iota; unfold LARGE_BUFFER in Hlt;
    [rewrite decide_True by auto; cbn [fst snd]; by rewrite Hx|..];
    (rewrite decide_False by (intros [?|[?|[? ?]]]; done || lia)); simpl;
    unfold bcopy; rewrite s32_small, u32_small by lia;
    split_and!; try done; apply copy_dir_copied; lia.
Qed.

Lemma memcpy_checked_witness :
  (@memcpy demo_layout 0x841008 50 4 (mk_cpu (store_bytes ∅ 50 [9; 8; 7; 6]) 1 exc_init)).1 = 0x841008.
Proof.
  pose proof (@memcpy_checked demo_layout 0x841008 50 4
    (mk_cpu (store_bytes ∅ 50 [9; 8; 7; 6]) 1 exc_init) ltac:(lia)) as H.
  cbv zeta in H. rewrite decide_False in H by done.
  rewrite decide_False in H by (intros [?|[?|[_ ?]]]; lia). apply H.
Defined.

(** Copying a C string gives an equal string: from non-overlapping buffers
    [strcpy] terminates, returns its destination, leaves the other bytes alone,
    and afterwards [strlen] of the copy is the length and [strcmp] of the copy
    with any string is the lexicographic order of the original with it (0 for
    the original itself). *)
Theorem strcpy_roundtrip (m : mem) (d s q : Z) (l l2 : list Z) (fuel : nat) :
  cstr m s l -> d <> 0 -> (length l < fuel)%nat -> Z.of_nat (length l) < 2 ^ 32 ->
  d + Z.of_nat (length l) < s \/ s + Z.of_nat (length l) < d ->
  cstr m q l2 -> q + Z.of_nat (length l2) < d \/ d + Z.of_nat (length l) < q ->
  exists m', strcpy fuel m d s = Some (d, m') /\ strlen fuel m' d = Some (Z.of_nat (length l)) /\
    strcmp fuel m' d s = Some 0 /\ strcmp fuel m' d q = Some (lex l l2) /\
    (lex l l2 = 0 <-> l = l2) /\
    forall b, b < d \/ d + Z.of_nat (length l) < b -> load8 m' b = load8 m b.
Proof.
  intros Hs Hd Hf Hlt Hov Hq Hqd.
  destruct (strcpy_spec m d s l fuel Hs Hf Hov) as (m' & E & Hc & Hfr).
  exists m'. unfold strcpy. rewrite E.
  assert (cstr m' s l) as Hs' by (apply (cstr_ext m); [|done]; intros; apply Hfr; lia).
  assert (cstr m' q l2) as Hq' by (apply (cstr_ext m); [|done]; intros; apply Hfr; lia).
  split_and!; [done|by apply strlen_spec|..|done].
  - by rewrite (strcmp_spec _ _ _ _ _ _ Hc Hs' Hf), lex_refl.
  - by apply strcmp_spec.
  - split; [apply lex_eq|]. intros ->. apply lex_refl.
Qed.

Lemma strcpy_roundtrip_witness :
  exists m', strcpy 10 (store_bytes ∅ 100 [104; 105; 0]) 200 100 = Some (200, m') /\
    strcmp 10 m' 200 101 = Some (-1).
Proof.
  destruct (strcpy_roundtrip (store_bytes ∅ 100 [104; 105; 0]) 200 100 101 [104; 105] [105] 10)
    as (m' & E & _ & _ & E2 & _); [by vm_compute|lia|simpl; lia|simpl; lia|simpl; lia|by vm_compute|simpl; lia|].
  exists m'. split; [exact E|exact E2].
Defined.

(** [strncpy] ignores the terminator: from a non-NULL source it copies
    exactly [n] bytes, also those after the string's end (the first loop tests
    the pointer, not the character), and from a NULL source it writes [n + 1]
    zero bytes, one past the buffer of [n]. *)
Theorem strncpy_ignores_terminator (m : mem) (s t n b : Z) : s <> 0 -> 0 <= n ->
  (t <> 0 -> s <= t -> s <= b < s + n -> load8 (strncpy m s t n).2 b = load8 m (t + (b - s))) /\
  (t = 0 -> s <= b <= s + n -> load8 (strncpy m s t n).2 b = 0).
Proof.
  intros Hs Hn. unfold strncpy. rewrite (proj2 (Z.eqb_neq s 0) Hs). split.
  - intros Ht Hst Hb. rewrite (proj2 (Z.eqb_neq t 0) Ht). cbn [negb snd].
    rewrite copy_fwd_spec, Z2Nat.id by lia. by cmp_true ((s <=? b) && (b <? s + n)).
  - intros -> Hb. cbn [negb snd Z.eqb]. rewrite set_loop_spec.
    destruct (Z.leb_spec s b), (Z.ltb_spec b (s + Z.of_nat (S (Z.to_nat n)))); [done|lia..].
Qed.

Lemma strncpy_ignores_terminator_witness :
  load8 (strncpy (store_bytes ∅ 200 [65; 0; 66; 67]) 100 200 4).2 103 = 67.
Proof.
  destruct (strncpy_ignores_terminator (store_bytes ∅ 200 [65; 0; 66; 67]) 100 200 4 103) as [H _]; [lia..|].
  rewrite H by lia. reflexivity.
Defined.

(** [memset4] and the word tests agree: after [memset4] the tested words all
    hold the value, so [ismemzero4] holds after [zeromem4] and [ismemf4] after
    filling with -1; and either test is 1 exactly when every word has its value. *)
Theorem word_tests_exact (m : mem) (p len : Z) :
  ismemzero4 (zeromem4 m p len) p len = 1 /\
  ismemf4 (memset4 m p (-1) len).2 p len = 1 /\
  (ismemzero4 m p len = 1 <-> forall k, 0 <= k < Z.of_nat (Z.to_nat (len / 4)) -> load32 m (p + 4 * k) = 0) /\
  (ismemf4 m p len = 1 <-> forall k, 0 <= k < Z.of_nat (Z.to_nat (len / 4)) -> load32 m (p + 4 * k) = 0xffffffff).
Proof.
  unfold ismemzero4, ismemf4, zeromem4, memset4. simpl snd.
  rewrite Z.shiftr_div_pow2 by lia. change (2 ^ 2) with 4. split_and!.
  - apply (set4_loop_spec _ _ _ 0).
  - apply (set4_loop_spec _ _ _ (-1)).
  - apply all_words_spec.
  - apply all_words_spec.
Qed.
