(* ===== verification/EvQueue.v ===== *)
(** * proj/os/ev_queue.c

    A queue of intrusive items, first-in first-out or ordered by a priority
    function of the caller.  The queue object is a record; [None] stands for a
    NULL queue pointer.  Items live in the byte memory, with their link in the
    first word.  Every operation runs with the interrupts disabled. *)
From S2P Require Import Prelude Memory Linked ListC SysEv Mempool EvBuffer.
From Stdlib Require Import Sorted.

(** ** Data *)

Record ev_queue_t := mk_queue {
  head : Z;
  tail : Z;
  priFunc : Z;    (** function pointer, 0 when NULL *)
  curNum : Z;
}.

Definition QUEUE_SUCC : Z := 0.
Definition QUEUE_INVALID_PARAMETER : Z := 1.
Definition QUEUE_EMPTY : Z := 2.
Definition QUEUE_NOT_FOUND : Z := 3.

Definition empty_queue (f : Z) : ev_queue_t := mk_queue 0 0 f 0.

(** The caller's priority functions: what the function at a code address
    returns for an item of a memory. *)
Class PriFuncs := pri_call : Z -> mem -> Z -> Z.

(** ** Operations *)
Section ops.
Context `{PriFuncs} (fuel : nat).

(** The search of [ev_queue_rawPush]: the final [previous] and [current]. *)
Fixpoint pri_search (n : nat) (f : Z) (m : mem) (newElement previous current : Z) : option (Z * Z) :=
  match n with
  | O => None
  | S n' =>
      if current =? 0 then Some (previous, current)
      else if pri_call f m newElement <? pri_call f m current then Some (previous, current)
      else pri_search n' f m newElement current (load32 m current)
  end.

Definition ev_queue_rawPush (q : option ev_queue_t) (newElement : Z) (c : cpu)
    : option (Z * option ev_queue_t * cpu) :=
  match q with
  | None => Some (QUEUE_INVALID_PARAMETER, None, c)
  | Some q =>
      if newElement =? 0 then Some (QUEUE_INVALID_PARAMETER, Some q, c)
      else
        let '(r, c1) := drv_disable_irq c in
        let m := c_mem c1 in
        if head q =? 0 then
          let q' := mk_queue newElement newElement (priFunc q) (u32 (curNum q + 1)) in
          Some (QUEUE_SUCC, Some q', drv_restore_irq r (with_mem (store32 m newElement 0) c1))
        else if priFunc q =? 0 then
          let m1 := store32 m (tail q) newElement in
          let m2 := store32 m1 newElement 0 in
          let q' := mk_queue (head q) newElement (priFunc q) (u32 (curNum q + 1)) in
          Some (QUEUE_SUCC, Some q', drv_restore_irq r (with_mem m2 c1))
        else
          '(previous, current) ← pri_search fuel (priFunc q) m newElement 0 (head q);
          let h' := if previous =? 0 then newElement else head q in
          let m1 := if previous =? 0 then m else store32 m previous newElement in
          let m2 := store32 m1 newElement current in
          let t' := if current =? 0 then newElement else tail q in
          let q' := mk_queue h' t' (priFunc q) (u32 (curNum q + 1)) in
          Some (QUEUE_SUCC, Some q', drv_restore_irq r (with_mem m2 c1))
  end.

Definition ev_queue_rawPop (q : ev_queue_t) (c : cpu) : Z * ev_queue_t * cpu :=
  let '(r, c1) := drv_disable_irq c in
  let oldHead := head q in
  let q1 :=
    if negb (oldHead =? 0) then
      mk_queue (load32 (c_mem c1) oldHead) (if oldHead =? tail q then 0 else tail q)
        (priFunc q) (u32 (curNum q - 1))
    else q in
  let q2 := if curNum q1 =? 0 then mk_queue 0 0 (priFunc q1) (curNum q1) else q1 in
  (oldHead, q2, drv_restore_irq r c1).

(** [while(current != delElement && current) ...] *)
Fixpoint del_search (n : nat) (m : mem) (delElement previous current : Z) : option (Z * Z) :=
  match n with
  | O => None
  | S n' =>
      if negb (current =? delElement) && negb (current =? 0)
      then del_search n' m delElement current (load32 m current)
      else Some (previous, current)
  end.

Definition ev_queue_rawDelete (q : option ev_queue_t) (delElement : Z) (c : cpu)
    : option (Z * option ev_queue_t * cpu) :=
  match q with
  | None => Some (QUEUE_INVALID_PARAMETER, None, c)
  | Some q =>
      if delElement =? 0 then Some (QUEUE_INVALID_PARAMETER, Some q, c)
      else
        let '(r, c1) := drv_disable_irq c in
        let m := c_mem c1 in
        if head q =? 0 then Some (QUEUE_EMPTY, Some q, drv_restore_irq r c1)
        else if head q =? delElement then
          let h' := load32 m (head q) in
          let q' := mk_queue h' (if h' =? 0 then 0 else tail q) (priFunc q) (u32 (curNum q - 1)) in
          Some (QUEUE_SUCC, Some q', drv_restore_irq r c1)
        else
          '(previous, current) ← del_search fuel m delElement 0 (head q);
          if negb (current =? 0) then
            let m1 := store32 m previous (load32 m current) in
            let t' := if load32 m1 current =? 0 then previous else tail q in
            let q' := mk_queue (head q) t' (priFunc q) (u32 (curNum q - 1)) in
            Some (QUEUE_SUCC, Some q', drv_restore_irq r (with_mem m1 c1))
          else Some (QUEUE_NOT_FOUND, Some q, drv_restore_irq r c1)
  end.

Definition ev_queue_init (q : option ev_queue_t) (f : Z) : Z * option ev_queue_t :=
  match q with
  | None => (QUEUE_INVALID_PARAMETER, None)
  | Some _ => (QUEUE_SUCC, Some (empty_queue f))
  end.

Definition ev_queue_push (q : option ev_queue_t) (payload : Z) (c : cpu) :=
  ev_queue_rawPush q (ev_buf_getHead payload) c.

Definition ev_queue_pop (q : ev_queue_t) (c : cpu) : Z * ev_queue_t * cpu :=
  let '(oneItem, q', c') := ev_queue_rawPop q c in
  (if oneItem =? 0 then 0 else oneItem + bufItem_data, q', c').

Definition ev_queue_delete (q : option ev_queue_t) (payload : Z) (c : cpu) :=
  ev_queue_rawDelete q (ev_buf_getHead payload) c.

(** The loop of [ev_queue_freeQ], one pop and one release at a time. *)
Fixpoint freeQ_loop `{EvLayout} (n : nat) (q : ev_queue_t) (s : buf_state)
    : option (ev_queue_t * buf_state) :=
  match n with
  | O => None
  | S n' =>
      let '(buffer_ptr, q', c') := ev_queue_pop q (b_cpu s) in
      if buffer_ptr =? 0 then Some (q', with_cpu c' s)
      else
        '(_, s') ← ev_buf_free buffer_ptr (with_cpu c' s);
        freeQ_loop n' q' s'
  end.

Definition ev_queue_freeQ `{EvLayout} (q : option ev_queue_t) (s : buf_state)
    : option (Z * option ev_queue_t * buf_state) :=
  match q with
  | None => Some (QUEUE_INVALID_PARAMETER, None, s)
  | Some q =>
      '(q', s') ← freeQ_loop fuel q s; Some (QUEUE_SUCC, Some q', s')
  end.
End ops.

(** ** The list a queue holds *)

Record queue_ok (m : mem) (q : ev_queue_t) (l : list Z) : Prop := {
  qo_chain : lchain m (head q) l;
  qo_tail : tail q = last_or 0 l;
  qo_num : curNum q = Z.of_nat (length l);
}.

(** Insertion by priority, after the items of the same priority. *)
Fixpoint pri_insert (pri : Z -> Z) (x : Z) (l : list Z) : list Z :=
  match l with
  | [] => [x]
  | y :: l' => if pri x <? pri y then x :: l else y :: pri_insert pri x l'
  end.

Definition queue_insert (f : Z) (pri : Z -> Z) (x : Z) (l : list Z) : list Z :=
  if f =? 0 then l ++ [x] else pri_insert pri x l.

(** A priority depends on an item's data, not on the links of items. *)
Class PriReadsData `{PriFuncs} (node : Z -> Prop) := {
  pri_node a : node a -> aligned4 a;
  pri_frame f m a v x : node a -> node x -> pri_call f (store32 m a v) x = pri_call f m x;
}.

(** Distinct aligned addresses are few: the 32-bit counter cannot overflow. *)
Lemma aligned_NoDup_length l : NoDup l -> Forall aligned4 l -> Z.of_nat (length l) <= 2 ^ 30.
Proof.
  intros Hnd Hal. rewrite Forall_forall in Hal.
  assert (length ((fun x => (x / 4)%Z) <$> l) <= length (seqZ 0 (2 ^ 30)%Z))%nat as Hle.
  { apply submseteq_length, NoDup_submseteq.
    - apply NoDup_fmap_2_strong; [|done]. intros x y Hx%Hal Hy%Hal E.
      destruct Hx, Hy. zdm.
    - intros y (x & -> & Hx)%list_elem_of_fmap. apply elem_of_seqZ. apply Hal in Hx as [? ?]. zdm. }
  rewrite length_fmap, length_seqZ in Hle. lia.
Qed.

Lemma queue_bound m q l : queue_ok m q l -> Z.of_nat (length l) <= 2 ^ 30.
Proof.
  intros [Hc _ _]. apply aligned_NoDup_length; [exact (lchain_NoDup m _ _ Hc)|].
  exact (lseg_nodes m _ _ _ Hc).
Qed.

Lemma queue_empty m q : queue_ok m q [] -> head q = 0.
Proof. by intros [Hc _ _]. Qed.

Lemma queue_nonempty m q a l : queue_ok m q (a :: l) -> head q = a /\ aligned4 a.
Proof. intros [(-> & ? & _) _ _]. done. Qed.

(** *** Insertion *)

(** Linking [x] after [a], in the order of the stores of the code. *)
Lemma insert_mid m h l1 a x l2 :
  lchain m h (l1 ++ a :: l2) -> aligned4 x -> x ∉ l1 ++ a :: l2 ->
  lchain (store32 (store32 m a x) x (head_ptr l2)) h (l1 ++ a :: x :: l2).
Proof.
  intros Hl Hx Hni. pose proof (lchain_NoDup _ _ _ Hl) as Hnd.
  pose proof Hl as (r & H1 & -> & Ha & H2)%lseg_app. pose proof (lchain_head m _ _ H2) as Eq.
  apply NoDup_app in Hnd as (_ & Hd & Hnd). apply NoDup_cons in Hnd as [Hnd _].
  assert (a ∉ l1) as Hal1 by (intros ?; eapply Hd; [done|set_solver]).
  simpl in Eq, H2. rewrite Eq in H2.
  change (a :: x :: l2) with ([a] ++ x :: l2). rewrite app_assoc. apply lseg_app. exists x. split.
  - apply mem_frame; [done|set_solver|]. apply mem_relink with (q := load32 m a); [|done|by right].
    apply lseg_app. exists a. done.
  - apply mem_push; [done|set_solver|]. by apply mem_frame.
Qed.

(** The state of a queue and of the processor after an operation. *)
Definition same_irq (c c' : cpu) : Prop := c_irq c' = c_irq c /\ c_exc c' = c_exc c.

Lemma irq_frame c r c1 m' : irq_ok c -> drv_disable_irq c = (r, c1) ->
  c_mem c1 = c_mem c /\ same_irq c (drv_restore_irq r (with_mem m' c1)) /\
  same_irq c (drv_restore_irq r c1).
Proof.
  intros Hc E. pose proof (irq_restore_disable c (with_mem m' c1) Hc) as H1.
  pose proof (irq_restore_disable c c1 Hc) as H2. rewrite E in H1, H2. simpl fst in *.
  unfold drv_disable_irq in E. injection E as _ <-. unfold same_irq. by rewrite H1, H2.
Qed.

Lemma rawPop_spec c q l : irq_ok c -> queue_ok (c_mem c) q l ->
  exists q' c', ev_queue_rawPop q c = (head_ptr l, q', c') /\
    queue_ok (c_mem c') q' (List.tl l) /\ priFunc q' = priFunc q /\ same_irq c c' /\ c_mem c' = c_mem c.
Proof.
  intros Hc Hq. pose proof (queue_bound _ _ _ Hq) as Hb. pose proof (lchain_head _ _ _ (qo_chain _ _ _ Hq)) as Eh.
  unfold ev_queue_rawPop. destruct (drv_disable_irq c) as [r c1] eqn:Ed.
  destruct (irq_frame c r c1 ∅ Hc Ed) as (Em & _ & Hsame).
  destruct Hq as [Hl Ht Hn]. destruct l as [|a l].
  - simpl in Hl, Hn. rewrite Hl. simpl. rewrite Hn. simpl. do 2 eexists. split; [done|].
    split_and!; [|done|exact Hsame|exact Em]. by split.
  - destruct Hl as (E & Ha & Hl). rewrite E, Em, Hn. rewrite (aligned4_nonzero a) by done. simpl negb. cbv iota.
    rewrite last_or_cons in Ht. cbn [length] in *.
    rewrite u32_small by lia. replace (Z.of_nat (S (length l)) - 1) with (Z.of_nat (length l)) by lia.
    do 2 eexists. split; [done|]. cbn [curNum priFunc].
    split_and!; [|by destruct (Z.of_nat (length l) =? 0)|exact Hsame|exact Em].
    destruct (Z.eqb_spec (Z.of_nat (length l)) 0) as [Hz|Hz].
    + destruct l; [|done]. by split.
    + split; simpl; [by rewrite Em| |done].
      pose proof (lchain_NoDup (c_mem c) a (a :: l) ltac:(done)) as Hnd.
      destruct (list_snoc_inv l) as [->|(l' & b & ->)]; [done|].
      rewrite !last_or_snoc in *. apply NoDup_cons in Hnd as [Hnd _].
      rewrite Ht, (proj2 (Z.eqb_neq a b)) by set_solver. done.
Qed.

Section laws.
Context {Pf : PriFuncs} {node : Z -> Prop} {Pr : PriReadsData node} (fuel : nat).
Implicit Types (m : mem) (q : ev_queue_t) (l : list Z).

Lemma pri_search_spec f m x p l prev n :
  lchain m p l -> (length l < n)%nat ->
  exists l1 l2, l = l1 ++ l2 /\ pri_insert (pri_call f m) x l = l1 ++ x :: l2 /\
    pri_search n f m x prev p = Some (last_or prev l1, head_ptr l2).
Proof.
  revert p prev n. induction l as [|y l IH]; intros p prev [|n] Hl Hn; simpl in Hn; try lia.
  - simpl in Hl. subst. by exists [], [].
  - destruct Hl as (-> & Hy & Hl). simpl. rewrite aligned4_nonzero by done.
    destruct (Z.ltb_spec (pri_call f m x) (pri_call f m y)); [by exists [], (y :: l)|].
    destruct (IH (load32 m y) y n Hl) as (l1 & l2 & -> & -> & ->); [lia|].
    exists (y :: l1), l2. by rewrite (last_or_cons prev).
Qed.

(** The items' priorities are kept by the queue's own writes. *)
Definition links_only (m m' : mem) : Prop :=
  forall f x, node x -> pri_call f m' x = pri_call f m x.

Lemma links_only_refl m : links_only m m. Proof. done. Qed.
Lemma links_only_store m m' a v : links_only m m' -> node a -> links_only m (store32 m' a v).
Proof. intros H Ha f x Hx. by rewrite pri_frame, H. Qed.

Lemma rawPush_spec c q l x :
  irq_ok c -> queue_ok (c_mem c) q l -> Forall node l -> node x -> x ∉ l -> (length l < fuel)%nat ->
  exists q' c', ev_queue_rawPush fuel (Some q) x c = Some (QUEUE_SUCC, Some q', c') /\
    queue_ok (c_mem c') q' (queue_insert (priFunc q) (pri_call (priFunc q) (c_mem c)) x l) /\
    priFunc q' = priFunc q /\ same_irq c c' /\ links_only (c_mem c) (c_mem c').
Proof.
  intros Hc Hq Hnl Hx Hni Hf. pose proof (pri_node x Hx) as Hx4.
  pose proof (queue_bound _ _ _ Hq) as Hb. destruct Hq as [Hl Ht Hn].
  unfold ev_queue_rawPush. rewrite (aligned4_nonzero x) by done.
  destruct (drv_disable_irq c) as [r c1] eqn:Ed.
  assert (forall m', c_mem c1 = c_mem c /\ same_irq c (drv_restore_irq r (with_mem m' c1)) /\
    same_irq c (drv_restore_irq r c1)) as Hirq by (intros; by apply irq_frame).
  destruct (Hirq ∅) as [Em _]. rewrite Em. rewrite Hn.
  rewrite (u32_small (Z.of_nat (length l) + 1)) by lia.
  destruct (Z.eqb_spec (head q) 0) as [Hz|Hz].
  { rewrite Hz in Hl. apply lchain_nil in Hl as ->. do 2 eexists. split; [done|].
    split; [|split; [done|split; [exact (proj1 (proj2 (Hirq _)))|by apply links_only_store]]].
    assert (queue_insert (priFunc q) (pri_call (priFunc q) (c_mem c)) x [] = [x]) as ->.
    { unfold queue_insert. by destruct (priFunc q =? 0). }
    split; simpl; [|done|done]. split_and!; [done|done|]. by rewrite load32_store32_link by (by left). }
  destruct (Z.eqb_spec (priFunc q) 0) as [Ef|Ef].
  - destruct (list_snoc_inv l) as [->|(l' & a & ->)]; [done|].
    do 2 eexists. split; [done|]. rewrite last_or_snoc in Ht. rewrite Ht.
    rewrite Forall_forall in Hnl.
    split; [|split; [done|split; [exact (proj1 (proj2 (Hirq _)))|do 2 (apply links_only_store; [|try done; apply Hnl; set_solver]); done]]].
    unfold queue_insert. rewrite Ef. split; simpl.
    + rewrite <- app_assoc. exact (insert_mid _ _ l' a x [] Hl Hx4 Hni).
    + by rewrite last_or_snoc.
    + rewrite !length_app. simpl. lia.
  - destruct (pri_search_spec (priFunc q) (c_mem c) x (head q) l 0 fuel Hl Hf)
      as (l1 & l2 & -> & Ei & Es).
    rewrite Es. cbn [mbind option_bind]. do 2 eexists. split; [done|].
    rewrite Forall_forall in Hnl.
    unfold queue_insert. rewrite (proj2 (Z.eqb_neq _ _) Ef), Ei.
    destruct (list_snoc_inv l1) as [->|(l1' & a & ->)].
    + rewrite last_or_nil. simpl in Hl, Ht, Hni |- *.
      split; [|split; [done|split; [exact (proj1 (proj2 (Hirq _)))|by apply links_only_store]]].
      split; simpl; [..|lia].
      * apply mem_push; [done|done|]. by rewrite (lchain_head (c_mem c) _ _ Hl) in Hl.
      * destruct l2 as [|b l2]; [by destruct Hz|].
        destruct Hl as (_ & Hb4 & _). simpl. rewrite aligned4_nonzero by done.
        by rewrite Ht, !last_or_cons.
    + rewrite last_or_snoc. rewrite <- app_assoc in *. simpl in *.
      rewrite (aligned4_nonzero a) by (eapply mem_node; [exact Hl|set_solver]).
      split; [|split; [done|split; [exact (proj1 (proj2 (Hirq _)))|
        do 2 (apply links_only_store; [|try done; apply Hnl; set_solver]); done]]].
      split; simpl; [..|rewrite !length_app; simpl; lia].
      * rewrite <- app_assoc. by apply insert_mid.
      * rewrite last_or_app_cons in Ht |- *. destruct l2 as [|b l2]; [done|].
        pose proof Hl as (r0 & _ & _ & _ & _ & Hb4 & _)%lseg_app.
        simpl. rewrite aligned4_nonzero by done. by rewrite Ht, !last_or_cons.
Qed.

(** *** Removal *)

Lemma del_search_found m p l1 x l2 prev n :
  lchain m p (l1 ++ x :: l2) -> (length l1 < n)%nat ->
  del_search n m x prev p = Some (last_or prev l1, x).
Proof.
  revert p prev n. induction l1 as [|b l1 IH]; intros p prev [|n] Hl Hn; simpl in Hn; try lia; cbn [del_search].
  - destruct Hl as (-> & _). by rewrite Z.eqb_refl.
  - pose proof (lchain_NoDup m p (b :: l1 ++ x :: l2) Hl) as Hnd. apply NoDup_cons in Hnd as [Hnd _].
    destruct Hl as (-> & Hb & Hl). rewrite (aligned4_nonzero b) by done.
    rewrite (proj2 (Z.eqb_neq b x)) by set_solver. cbn [negb andb].
    rewrite (IH (load32 m b)) by (done || lia). by rewrite last_or_cons.
Qed.

Lemma del_search_absent m p l x prev n :
  lchain m p l -> x ∉ l -> (length l < n)%nat ->
  exists prev', del_search n m x prev p = Some (prev', 0).
Proof.
  revert p prev n. induction l as [|b l IH]; intros p prev [|n] Hl Hni Hn; simpl in Hn; try lia; cbn [del_search].
  - simpl in Hl. subst p. exists prev. by rewrite andb_false_r.
  - destruct Hl as (-> & Hb & Hl). rewrite (aligned4_nonzero b) by done.
    rewrite (proj2 (Z.eqb_neq b x)) by set_solver. cbn [negb andb].
    apply (IH (load32 m b)); [done|set_solver|lia].
Qed.

Definition delete_result (x : Z) (l : list Z) : Z :=
  if decide (l = []) then QUEUE_EMPTY else if decide (x ∈ l) then QUEUE_SUCC else QUEUE_NOT_FOUND.

Lemma rawDelete_spec c q l x :
  irq_ok c -> queue_ok (c_mem c) q l -> Forall node l -> aligned4 x -> (length l < fuel)%nat ->
  exists q' c', ev_queue_rawDelete fuel (Some q) x c = Some (delete_result x l, Some q', c') /\
    queue_ok (c_mem c') q' (remove_first x l) /\
    priFunc q' = priFunc q /\ same_irq c c' /\ links_only (c_mem c) (c_mem c').
Proof.
  intros Hc Hq Hnl Hx Hf. pose proof (queue_bound _ _ _ Hq) as Hb.
  unfold ev_queue_rawDelete, delete_result. rewrite (aligned4_nonzero x) by done.
  destruct (drv_disable_irq c) as [r c1] eqn:Ed.
  assert (forall m', c_mem c1 = c_mem c /\ same_irq c (drv_restore_irq r (with_mem m' c1)) /\
    same_irq c (drv_restore_irq r c1)) as Hirq by (intros; by apply irq_frame).
  destruct (Hirq ∅) as (Em & _ & Hsame). rewrite Em.
  pose proof Hq as [Hl Ht Hn]. destruct l as [|a l].
  { simpl in Hl. rewrite Hl. do 2 eexists. split; [done|]. split_and!; [by rewrite <- Em in Hq|done|exact Hsame|].
    cbn. by rewrite Em. }
  rewrite decide_False by done.
  pose proof Hl as (E & Ha & Hl2). rewrite E, (aligned4_nonzero a) by done.
  destruct (Z.eqb_spec a x) as [->|Hne].
  { rewrite decide_True by set_solver. do 2 eexists. split; [done|].
    split_and!; [|done|exact Hsame|by intros ???; simpl; rewrite Em].
    simpl. rewrite decide_True by done. rewrite E, Em in *. cbn [length] in *.
    split; simpl; [done| |rewrite u32_small; lia].
    rewrite last_or_cons in Ht. pose proof (lchain_head (c_mem c) _ _ Hl2) as Eh. simpl in Eh. rewrite Eh.
    destruct l as [|b l]; [done|]. simpl. destruct Hl2 as (_ & Hb4 & _).
    rewrite aligned4_nonzero by done. by rewrite Ht, !last_or_cons. }
  destruct (decide (x ∈ a :: l)) as [Hin|Hni].
  - apply list_elem_of_split_l in Hin as (l1 & l2 & El & Hni).
    rewrite <- E. rewrite El in *.
    rewrite (del_search_found _ _ l1 x l2 0 fuel Hl) by (rewrite length_app in Hf; simpl in Hf; lia).
    cbn [mbind option_bind]. rewrite (aligned4_nonzero x) by done. cbn [negb].
    destruct (list_snoc_inv l1) as [->|(l1' & b & ->)]; [by injection El|].
    rewrite last_or_snoc. rewrite <- app_assoc in *. simpl app in *.
    pose proof (lchain_NoDup (c_mem c) _ _ Hl) as Hnd.
    pose proof Hl as (r0 & _ & -> & Hb4 & Eb & _ & Hl3)%lseg_app. simpl in Eb.
    pose proof (lchain_head (c_mem c) _ _ Hl3) as Eh. simpl in Eh.
    assert (x <> b) as Hxb.
    { apply NoDup_app in Hnd as (_ & _ & Hnd). apply NoDup_cons in Hnd as [Hnd _]. set_solver. }
    do 2 eexists. split; [done|].
    assert (remove_first x (l1' ++ b :: x :: l2) = l1' ++ b :: l2) as Er.
    { pose proof (remove_first_split x (l1' ++ [b]) l2 Hni) as Er.
      by rewrite <- !app_assoc in Er. }
    replace (head q :: l) with (l1' ++ b :: x :: l2) by (by rewrite E). rewrite Er.
    rewrite Forall_forall in Hnl.
    split_and!; [|done|exact (proj1 (proj2 (Hirq _)))|by apply links_only_store; [|apply Hnl; set_solver]].
    rewrite (load32_store32_other _ b x) by done. rewrite Eh.
    split; simpl.
    + rewrite <- Eh. by apply mem_unlink.
    + rewrite last_or_app_cons in Ht |- *. rewrite last_or_cons in Ht.
      destruct l2 as [|d l2]; [done|]. simpl. destruct Hl3 as (_ & Hd4 & _).
      rewrite aligned4_nonzero by done. by rewrite Ht, !last_or_cons.
    + rewrite Hn, !length_app in *. simpl in *. rewrite u32_small; lia.
  - destruct (del_search_absent (c_mem c) (head q) (a :: l) x 0 fuel Hl Hni Hf) as (p' & Es).
    rewrite <- E, Es. cbn [mbind option_bind]. simpl negb. cbv iota.
    do 2 eexists. split; [done|]. rewrite remove_first_absent by (by rewrite E). rewrite E.
    split_and!; [by rewrite <- Em in Hq|done|exact Hsame|]. cbn. by rewrite Em.
Qed.
End laws.

(** ** Refinement *)

Lemma pri_insert_elem pri x l y : y ∈ pri_insert pri x l <-> y = x \/ y ∈ l.
Proof.
  induction l as [|z l IH]; simpl; [set_solver|]. destruct (pri x <? pri z); [set_solver|].
  rewrite !elem_of_cons, IH. tauto.
Qed.

Lemma queue_insert_elem f pri x l y : y ∈ queue_insert f pri x l <-> y = x \/ y ∈ l.
Proof.
  unfold queue_insert. destruct (f =? 0); [set_solver|apply pri_insert_elem].
Qed.

Lemma length_queue_insert f pri x l : length (queue_insert f pri x l) = S (length l).
Proof.
  unfold queue_insert. destruct (f =? 0); [rewrite length_app; simpl; lia|].
  induction l as [|z l IH]; simpl; [done|]. by destruct (pri x <? pri z); simpl; rewrite ?IH.
Qed.

Lemma remove_first_elem x y l : y ∈ remove_first x l -> y ∈ l.
Proof. induction l as [|z l IH]; simpl; [done|]. case_decide; set_solver. Qed.

Lemma length_remove_first x l : (length (remove_first x l) <= length l)%nat.
Proof. induction l as [|z l IH]; simpl; [done|]. case_decide; simpl; lia. Qed.

Lemma pri_insert_ext pri pri' x l :
  (forall y, y = x \/ y ∈ l -> pri y = pri' y) -> pri_insert pri x l = pri_insert pri' x l.
Proof.
  induction l as [|z l IH]; intros He; simpl; [done|]. rewrite !He by set_solver.
  destruct (pri' x <? pri' z); [done|]. rewrite IH; [done|set_solver].
Qed.

Inductive queue_op :=
  | QPush (payload : Z)
  | QPop
  | QDelete (payload : Z).

Section refinement.
Context {Pf : PriFuncs} {node : Z -> Prop} {Pr : PriReadsData node} (fuel : nat).

Definition queue_call (op : queue_op) (q : ev_queue_t) (c : cpu) : option (Z * ev_queue_t * cpu) :=
  match op with
  | QPush p => '(r, q', c') ← ev_queue_push fuel (Some q) p c; q'' ← q'; Some (r, q'', c')
  | QPop => Some (ev_queue_pop q c)
  | QDelete p => '(r, q', c') ← ev_queue_delete fuel (Some q) p c; q'' ← q'; Some (r, q'', c')
  end.

(** The abstract queue: the list of the items' payloads. *)
Definition queue_model (f : Z) (pri : Z -> Z) (op : queue_op) (l : list Z) : Z * list Z :=
  match op with
  | QPush p => (QUEUE_SUCC, queue_insert f pri (p - 8) l)
  | QPop => (match l with [] => 0 | a :: _ => a + 8 end, List.tl l)
  | QDelete p => (delete_result (p - 8) l, remove_first (p - 8) l)
  end.

Definition queue_op_ok (op : queue_op) (l : list Z) : Prop :=
  match op with
  | QPush p => node (p - 8) /\ p - 8 ∉ l
  | QPop => True
  | QDelete p => node (p - 8)
  end.

Fixpoint queue_calls (ops : list queue_op) (q : ev_queue_t) (c : cpu) : option (list Z * ev_queue_t * cpu) :=
  match ops with
  | [] => Some ([], q, c)
  | op :: ops' =>
      '(r, q1, c1) ← queue_call op q c;
      '(rs, q2, c2) ← queue_calls ops' q1 c1;
      Some (r :: rs, q2, c2)
  end.

Fixpoint queue_models (f : Z) (pri : Z -> Z) (ops : list queue_op) (l : list Z) : list Z * list Z :=
  match ops with
  | [] => ([], l)
  | op :: ops' =>
      let '(r, l1) := queue_model f pri op l in
      let '(rs, l2) := queue_models f pri ops' l1 in (r :: rs, l2)
  end.

Fixpoint queue_ops_ok (f : Z) (pri : Z -> Z) (ops : list queue_op) (l : list Z) : Prop :=
  match ops with
  | [] => True
  | op :: ops' => queue_op_ok op l /\ queue_ops_ok f pri ops' (queue_model f pri op l).2
  end.

Lemma queue_model_nodes f pri op l :
  queue_op_ok op l -> Forall node l -> Forall node (queue_model f pri op l).2.
Proof.
  rewrite !Forall_forall. intros Hok Hl x. destruct op as [p| |p]; simpl in *.
  - rewrite queue_insert_elem. intros [->|?]; [by apply Hok|auto].
  - destruct l; set_solver.
  - intros ?%remove_first_elem. auto.
Qed.

Lemma queue_model_length f pri op l : (length (queue_model f pri op l).2 <= S (length l))%nat.
Proof.
  destruct op as [p| |p]; simpl; [by rewrite length_queue_insert|destruct l; simpl; lia|].
  pose proof (length_remove_first (p - 8) l). lia.
Qed.

Lemma queue_call_sim op q c l pri :
  irq_ok c -> queue_ok (c_mem c) q l -> Forall node l -> queue_op_ok op l -> (length l < fuel)%nat ->
  (forall x, node x -> pri_call (priFunc q) (c_mem c) x = pri x) ->
  exists q' c', queue_call op q c = Some ((queue_model (priFunc q) pri op l).1, q', c') /\
    queue_ok (c_mem c') q' (queue_model (priFunc q) pri op l).2 /\
    priFunc q' = priFunc q /\ same_irq c c' /\
    (forall x, node x -> pri_call (priFunc q) (c_mem c') x = pri x).
Proof.
  intros Hc Hq Hnl Hok Hf Hpri. rewrite Forall_forall in Hnl.
  destruct op as [p| |p]; cbn [queue_call queue_model queue_op_ok fst snd] in *;
    unfold ev_queue_push, ev_queue_delete, ev_buf_getHead, bufItem_data.
  - destruct Hok as [Hp Hni].
    destruct (rawPush_spec fuel c q l (p - 8) Hc Hq ltac:(by rewrite Forall_forall) Hp Hni Hf) as (q' & c' & -> & Hq' & ? & ? & Hlo).
    exists q', c'. split; [done|]. split; [|split; [done|split; [done|]]].
    + replace (queue_insert (priFunc q) pri (p - 8) l) with
        (queue_insert (priFunc q) (pri_call (priFunc q) (c_mem c)) (p - 8) l); [done|].
      unfold queue_insert. destruct (priFunc q =? 0); [done|]. apply pri_insert_ext.
      intros y [->|Hy]; auto.
    + intros x Hx. rewrite Hlo by done. auto.
  - destruct (rawPop_spec c q l Hc Hq) as (q' & c' & E & Hq' & ? & ? & Em).
    unfold ev_queue_pop. rewrite E. exists q', c'. split.
    + destruct l as [|a l]; [done|]. destruct (queue_nonempty _ _ _ _ Hq) as [_ Ha].
      simpl. by rewrite aligned4_nonzero.
    + split_and!; [done..|]. by rewrite Em.
  - destruct (rawDelete_spec fuel c q l (p - 8) Hc Hq ltac:(by rewrite Forall_forall) ltac:(by apply pri_node) Hf) as (q' & c' & -> & ? & ? & ? & Hlo).
    exists q', c'. split_and!; [done..|]. intros x Hx. rewrite Hlo by done. auto.
Qed.

Lemma queue_calls_sim ops q c l pri :
  irq_ok c -> queue_ok (c_mem c) q l -> Forall node l -> queue_ops_ok (priFunc q) pri ops l ->
  (length l + length ops < fuel)%nat ->
  (forall x, node x -> pri_call (priFunc q) (c_mem c) x = pri x) ->
  exists q' c', queue_calls ops q c = Some ((queue_models (priFunc q) pri ops l).1, q', c') /\
    queue_ok (c_mem c') q' (queue_models (priFunc q) pri ops l).2 /\ same_irq c c'.
Proof.
  revert q c l. induction ops as [|op ops IH]; intros q c l Hc Hq Hnl Hok Hf Hpri.
  { by exists q, c. }
  destruct Hok as [Hok1 Hok]. simpl in Hf.
  destruct (queue_call_sim op q c l pri) as (q1 & c1 & E1 & Hq1 & Ef & [Hi1 Hx1] & Hpri1); [done..|lia|done|].
  pose proof (queue_model_length (priFunc q) pri op l).
  destruct (IH q1 c1 (queue_model (priFunc q) pri op l).2) as (q2 & c2 & E2 & Hq2 & Hi2 & Hx2).
  - unfold irq_ok. by rewrite Hi1.
  - done.
  - by apply queue_model_nodes.
  - by rewrite Ef.
  - lia.
  - by rewrite Ef.
  - exists q2, c2. cbn [queue_calls queue_models]. rewrite E1. cbn [mbind option_bind]. rewrite E2. cbn [mbind option_bind].
    rewrite Ef in *. destruct (queue_model (priFunc q) pri op l) as [r l1]. cbn [fst snd] in *.
    destruct (queue_models (priFunc q) pri ops l1). split_and!; [done|done|..].
    split; congruence.
Qed.
End refinement.

(** ** Priority order *)

Section order.
Context (pri : Z -> Z).

Definition pri_le (x y : Z) : Prop := pri x <= pri y.

Lemma pri_insert_sorted x l : StronglySorted pri_le l -> StronglySorted pri_le (pri_insert pri x l).
Proof.
  induction 1 as [|y l Hs IH Hy]; simpl; [repeat constructor|].
  destruct (Z.ltb_spec (pri x) (pri y)) as [Hlt|Hge].
  - constructor; [by constructor|]. constructor; [unfold pri_le; lia|].
    eapply List.Forall_impl; [|exact Hy]. unfold pri_le. lia.
  - constructor; [done|]. rewrite List.Forall_forall in *. intros z Hz.
    apply list_elem_of_In in Hz. apply (pri_insert_elem pri x l z) in Hz as [->|Hz]; [unfold pri_le; lia|].
    by apply Hy, list_elem_of_In.
Qed.

(** The items of one priority keep their order; the new one is last of its own. *)
Lemma pri_insert_filter x l v :
  StronglySorted pri_le l ->
  filter (fun y => pri y = v) (pri_insert pri x l) =
  filter (fun y => pri y = v) l ++ (if decide (pri x = v) then [x] else []).
Proof.
  induction 1 as [|y l Hs IH Hy]; simpl; [rewrite filter_cons; by case_decide|].
  destruct (Z.ltb_spec (pri x) (pri y)) as [Hlt|Hge].
  - rewrite (filter_cons _ x). destruct (decide (pri x = v)) as [<-|]; [|by rewrite app_nil_r].
    assert (filter (fun z => pri z = pri x) (y :: l) = []) as ->; [|done].
    destruct (filter _ (y :: l)) as [|z l'] eqn:E; [done|]. exfalso.
    assert (z ∈ filter (fun z => pri z = pri x) (y :: l)) as [Hz Hin]%list_elem_of_filter by (rewrite E; by left).
    apply elem_of_cons in Hin as [->|Hin]; [lia|].
    rewrite List.Forall_forall in Hy. apply list_elem_of_In in Hin. specialize (Hy z Hin).
    unfold pri_le in Hy. lia.
  - rewrite !(filter_cons _ y). rewrite IH. by destruct (decide (pri y = v)).
Qed.

(** Pushing [xs] one after the other. *)
Definition pri_insert_all (xs l : list Z) : list Z := foldl (fun l x => pri_insert pri x l) l xs.

Lemma pri_insert_all_spec xs l :
  StronglySorted pri_le l ->
  StronglySorted pri_le (pri_insert_all xs l) /\
  forall v, filter (fun y => pri y = v) (pri_insert_all xs l) =
    filter (fun y => pri y = v) l ++ filter (fun y => pri y = v) xs.
Proof.
  revert l. induction xs as [|x xs IH]; intros l Hl; simpl; [split; [done|intros; by rewrite app_nil_r]|].
  destruct (IH (pri_insert pri x l)) as [Hs Hfi]; [by apply pri_insert_sorted|].
  split; [done|]. intros v. rewrite Hfi, pri_insert_filter, filter_cons, <- app_assoc by done.
  by case_decide.
Qed.

Lemma queue_models_pushes f xs l : f <> 0 ->
  queue_models f pri (map (fun x => QPush (x + 8)) xs) l =
    (replicate (length xs) QUEUE_SUCC, pri_insert_all xs l).
Proof.
  intros Hf. revert l. induction xs as [|x xs IH]; intros l; simpl; [done|].
  unfold queue_insert. rewrite (proj2 (Z.eqb_neq f 0) Hf).
  replace (x + 8 - 8) with x by lia. by rewrite IH.
Qed.

Lemma queue_models_pops f l l2 :
  queue_models f pri (replicate (length l) QPop) (l ++ l2) = (map (fun x => x + 8) l, l2).
Proof. induction l as [|x l IH]; simpl; [done|]. by rewrite IH. Qed.

Lemma queue_models_app f ops1 ops2 l :
  queue_models f pri (ops1 ++ ops2) l =
  let '(r1, l1) := queue_models f pri ops1 l in
  let '(r2, l2) := queue_models f pri ops2 l1 in (r1 ++ r2, l2).
Proof.
  revert l. induction ops1 as [|op ops1 IH]; intros l; cbn [queue_models app].
  { by destruct (queue_models f pri ops2 l). }
  destruct (queue_model f pri op l) as [r l1]. rewrite IH.
  destruct (queue_models f pri ops1 l1) as [r1 l2]. by destruct (queue_models f pri ops2 l2).
Qed.

Lemma length_pri_insert_all xs l : length (pri_insert_all xs l) = (length xs + length l)%nat.
Proof.
  revert l. induction xs as [|x xs IH]; intros l; simpl; [done|]. rewrite IH.
  pose proof (length_queue_insert 1 pri x l) as Hl. unfold queue_insert in Hl. simpl in Hl. lia.
Qed.
End order.

(** ** Freeing a queue of buffers *)

Section freeQ.
Context `{EvLayoutOk} {Pf : PriFuncs}.

Lemma freeQ_loop_spec n q s a l :
  buf_inv s a -> queue_ok (b_mem s) q l ->
  (forall x, x ∈ l -> exists i, live a i x) -> (length l < n)%nat ->
  exists q' s' a', freeQ_loop n q s = Some (q', s') /\ queue_ok (b_mem s') q' [] /\
    priFunc q' = priFunc q /\ buf_inv s' a' /\ same_irq (b_cpu s) (b_cpu s') /\
    forall i b, live a' i b <-> live a i b /\ b ∉ l.
Proof.
  revert q s a l. induction n as [|n IH]; intros q s a l Hi Hq Hl Hn; [lia|].
  cbn [freeQ_loop]. unfold ev_queue_pop.
  destruct (rawPop_spec (b_cpu s) q l) as (q1 & c1 & -> & Hq1 & Ef & [Hirq Hexc] & Em); [apply Hi|done|].
  assert (irq_ok c1) as Hc1 by (unfold irq_ok; rewrite Hirq; apply Hi).
  pose proof (buf_inv_same s a c1 Hi Hc1 Em) as Hi1.
  destruct l as [|b l].
  { simpl. exists q1, (with_cpu c1 s), a. split_and!; [done|done|done|done|done|]. set_solver. }
  destruct (queue_nonempty _ _ _ _ Hq) as [_ Hb4]. simpl head_ptr.
  rewrite (aligned4_nonzero b) by done. unfold bufItem_data.
  destruct Hb4 as [Hb4 _]. cmp_false (b + 8 =? 0).
  destruct (Hl b) as [i Hli]; [by left|].
  destruct (abs_free_live _ a i b Hi1 Hli) as (Hfr & Ea & Hlive).
  destruct (free_sim _ a (b + 8) Hi1 Hfr) as (s2 & E2 & Hi2 & Hirq2 & Hexc2).
  assert (forall w, w ∈ l -> load32 (b_mem (with_cpu c1 s)) w = load32 (b_mem s2) w) as Hframe.
  { intros w Hw. destruct (Hl w) as (j & Hj & Hwj & _); [by right|].
    pose proof (arena_bounds j w Hj Hwj) as (Hw4 & _).
    symmetry. eapply ev_buf_free_frame; [exact Hi1|exact Hfr|exact E2|done|..].
    - pose proof (lchain_NoDup _ _ _ (qo_chain _ _ _ Hq)) as Hnd. apply NoDup_cons in Hnd as [Hnd _].
      replace (b + 8 - 8) with b by lia. set_solver.
    - intros k Hk ->. destruct (decide (k = j)) as [->|Hne].
      + by destruct (pool_not_block j _ Hj Hwj).
      + by apply (words_apart k j _ _ Hk Hj Hne (WPool k) (WLink j _ Hwj)). }
  rewrite E2. cbn [mbind option_bind]. rewrite Ea in Hexc2. simpl in Hexc2.
  destruct (IH q1 s2 _ l Hi2) as (q' & s' & a' & -> & Hq' & Ef' & Hi' & [Hirq' Hexc'] & Hlive').
  - destruct Hq1 as [Hc Ht Hnum]. split; [|done|done].
    apply (lseg_mem_ext (b_mem (with_cpu c1 s))); [done|exact Hc].
  - intros x Hx. destruct (Hl x) as [j Hj]; [by right|]. exists j. apply Hlive. split; [done|].
    pose proof (lchain_NoDup _ _ _ (qo_chain _ _ _ Hq)) as Hnd. apply NoDup_cons in Hnd as [Hnd _]. set_solver.
  - simpl in Hn. lia.
  - exists q', s', a'. split_and!; [done|done|congruence|done| |].
    + simpl in *. split; congruence.
    + intros j c. rewrite Hlive', Hlive. set_solver.
Qed.
End freeQ.

(** ** Properties *)

(** C6. The event queue refines the list queue: after [ev_queue_init] any sequence
    of pushes, pops and deletes returns what the abstract queue returns (FIFO
    when no priority function is given, ordered insertion otherwise), within as
    many search steps as there were calls, and restores the interrupt-enable
    register. *)
Theorem ev_queue_refines `{PriFuncs} (node : Z -> Prop) `{!PriReadsData node}
    (fuel : nat) (ops : list queue_op) (f : Z) (pri : Z -> Z) (q0 : ev_queue_t) (c : cpu) :
  irq_ok c -> queue_ops_ok (node := node) f pri ops [] -> (length ops < fuel)%nat ->
  (forall x, node x -> pri_call f (c_mem c) x = pri x) ->
  exists q q' c', ev_queue_init (Some q0) f = (QUEUE_SUCC, Some q) /\
    queue_calls fuel ops q c = Some ((queue_models f pri ops []).1, q', c') /\
    queue_ok (c_mem c') q' (queue_models f pri ops []).2 /\ c_irq c' = c_irq c.
Proof.
  intros Hc Hok Hf Hpri. exists (empty_queue f).
  destruct (queue_calls_sim (node := node) fuel ops (empty_queue f) c [] pri) as (q' & c' & E & Hq & Hi & _);
    [done|by split|done|done|done|done|].
  by exists q', c'.
Qed.

(** A priority queue delivers its items in stable priority order: pushing
    distinct items and popping as many times gives them sorted by priority
    value, and items of equal priority in the order they were pushed; the queue
    is empty afterwards. *)
Theorem ev_queue_priority_order `{PriFuncs} (node : Z -> Prop) `{!PriReadsData node}
    (fuel : nat) (f : Z) (pri : Z -> Z) (xs : list Z) (c : cpu) :
  irq_ok c -> f <> 0 -> NoDup xs -> Forall node xs -> (2 * length xs < fuel)%nat ->
  (forall x, node x -> pri_call f (c_mem c) x = pri x) ->
  exists ys q' c',
    queue_calls fuel (map (fun x => QPush (x + 8)) xs ++ replicate (length xs) QPop) (empty_queue f) c =
      Some (replicate (length xs) QUEUE_SUCC ++ map (fun y => y + 8) ys, q', c') /\
    StronglySorted (pri_le pri) ys /\
    (forall v, filter (fun y => pri y = v) ys = filter (fun y => pri y = v) xs) /\
    queue_ok (c_mem c') q' [].
Proof.
  intros Hc Hf Hnd Hn Hfuel Hpri. set (ys := pri_insert_all pri xs []).
  destruct (pri_insert_all_spec pri xs []) as [Hs Hfi]; [constructor|].
  assert (length ys = length xs) as Hlen.
  { subst ys. rewrite length_pri_insert_all. simpl. lia. }
  assert (queue_models f pri (map (fun x => QPush (x + 8)) xs ++ replicate (length xs) QPop) [] =
    (replicate (length xs) QUEUE_SUCC ++ map (fun y => y + 8) ys, [])) as Em.
  { rewrite queue_models_app, queue_models_pushes by done. fold ys.
    pose proof (queue_models_pops pri f ys []) as Ep. rewrite app_nil_r, Hlen in Ep. by rewrite Ep. }
  assert (forall k l, (forall x, x ∈ xs -> x ∉ l) -> queue_ops_ok (node := node) f pri
    (map (fun x => QPush (x + 8)) xs ++ replicate k QPop) l) as Hok.
  { clear - Hnd Hn. intros k. induction Hnd as [|x xs Hx Hnd IH]; intros l Hl; simpl.
    - revert l Hl. induction k as [|k IHk]; intros l Hl; simpl; [done|]. split; [done|]. apply IHk. set_solver.
    - apply Forall_cons in Hn as [Hnx Hn]. replace (x + 8 - 8) with x by lia.
      split; [split; [done|apply Hl; by left]|]. apply IH; [done|].
      intros y Hy. rewrite queue_insert_elem. intros [->|Hyl]; [done|]. apply (Hl y); [by right|done]. }
  destruct (queue_calls_sim (node := node) fuel (map (fun x => QPush (x + 8)) xs ++ replicate (length xs) QPop)
    (empty_queue f) c [] pri) as (q' & c' & E & Hq & _); [done|by split|done| | |done|].
  - apply Hok. set_solver.
  - rewrite length_app, length_map, length_replicate. simpl. lia.
  - exists ys, q', c'. cbn [empty_queue priFunc] in *. rewrite Em in E, Hq. split_and!; [done|done| |done].
    intros v. by rewrite Hfi.
Qed.

(** [ev_queue_freeQ] ends, empties the queue and returns each of its buffers
    to the pool exactly once: afterwards the live buffers are those that were
    live and not queued, no exception is posted and the interrupt-enable
    register is as before. *)
Theorem ev_queue_freeQ_releases `{EvLayoutOk, PriFuncs} (fuel : nat) (q : ev_queue_t)
    (s : buf_state) (a : alloc_state) (l : list Z) :
  buf_inv s a -> queue_ok (b_mem s) q l ->
  (forall x, x ∈ l -> exists i, live a i x) -> (length l < fuel)%nat ->
  exists q' s' a', ev_queue_freeQ fuel (Some q) s = Some (QUEUE_SUCC, Some q', s') /\
    queue_ok (b_mem s') q' [] /\ buf_inv s' a' /\
    (forall i b, live a' i b <-> live a i b /\ b ∉ l) /\
    c_irq (b_cpu s') = c_irq (b_cpu s) /\ c_exc (b_cpu s') = c_exc (b_cpu s).
Proof.
  intros Hi Hq Hl Hn.
  destruct (freeQ_loop_spec fuel q s a l Hi Hq Hl Hn) as (q' & s' & a' & E & Hq' & _ & Hi' & [? ?] & Hlive).
  exists q', s', a'. unfold ev_queue_freeQ. rewrite E. split_and!; done.
Qed.

(** ** A concrete priority function: the first data byte of the item *)

Definition demo_node (x : Z) : Prop := aligned4 x /\ x mod 16 = 0.

#[local] Instance demo_pri : PriFuncs := fun _ m x => load8 m (x + 8).

#[local] Instance demo_pri_ok : PriReadsData demo_node.
Proof.
  split; [by intros a [? _]|]. intros f m a v x [[Ha _] Ham] [[Hx _] Hxm]. unfold pri_call, demo_pri.
  apply load8_store32_ne. zdm.
Qed.

Definition demo_cpu : cpu := mk_cpu (store8 (store8 (store8 ∅ 72 5) 88 2) 104 5) 0x11 exc_init.

Lemma demo_nodes : Forall demo_node [64; 80; 96].
Proof. repeat constructor; vm_compute; congruence. Qed.

Lemma ev_queue_refines_witness : exists q' c',
  queue_calls 10 [QPush 72; QPush 88; QDelete 72; QDelete 104; QPush 104; QPop] (empty_queue 1) demo_cpu =
    Some ([0; 0; 0; 3; 0; 88], q', c') /\ c_irq c' = 0x11.
Proof.
  destruct (ev_queue_refines demo_node 10 [QPush 72; QPush 88; QDelete 72; QDelete 104; QPush 104; QPop] 1
    (pri_call 1 (c_mem demo_cpu)) (empty_queue 0) demo_cpu) as (q & q' & c' & Eq & E & _ & Hi).
  - done.
  - cbn [queue_ops_ok queue_op_ok]. pose proof demo_nodes as Hn.
    apply Forall_cons in Hn as [H1 Hn]. apply Forall_cons in Hn as [H2 Hn]. apply Forall_cons in Hn as [H3 _].
    split; [split; [exact H1|set_solver]|]. split; [split; [exact H2|vm_compute; set_solver]|].
    split; [exact H1|]. split; [exact H3|].
    split; [split; [exact H3|decide_vm]|]. split; exact I.
  - simpl. lia.
  - done.
  - injection Eq as <-. exists q', c'. split; [exact E|exact Hi].
Defined.

Lemma ev_queue_priority_order_witness : exists ys q' c',
  queue_calls 10 [QPush 72; QPush 88; QPush 104; QPop; QPop; QPop] (empty_queue 1) demo_cpu =
    Some ([0; 0; 0] ++ map (fun y => y + 8) ys, q', c') /\
  filter (fun y => pri_call 1 (c_mem demo_cpu) y = 5) ys = [64; 96].
Proof.
  destruct (ev_queue_priority_order demo_node 10 1 (pri_call 1 (c_mem demo_cpu)) [64; 80; 96] demo_cpu)
    as (ys & q' & c' & E & _ & Hf & _).
  - done.
  - lia.
  - decide_vm.
  - exact demo_nodes.
  - simpl. lia.
  - done.
  - exists ys, q', c'. split; [exact E|]. rewrite Hf. vm_compute. reflexivity.
Defined.

#[local] Existing Instance demo_layout.
#[local] Existing Instance demo_layout_ok.

Lemma ev_queue_freeQ_releases_witness : exists s q', 
  queue_ok (b_mem s) q' [] /\ ev_queue_freeQ 5 (Some (empty_queue 0)) (ev_buf_init demo_state) = Some (0, Some q', s).
Proof.
  destruct (ev_queue_freeQ_releases 5 (empty_queue 0) (ev_buf_init demo_state) abs_init []) as (q' & s' & a' & E & Hq & _).
  - destruct (init_inv demo_state); done.
  - split; done.
  - set_solver.
  - simpl. lia.
  - exists s', q'. split; [exact Hq|exact E].
Defined.
