(* ===== verification/BufQueue.v ===== *)
(** * Queues of event buffers

    The first-in first-out queues ([ev_queue_init] with a NULL priority
    function) hold buffers through the link word in front of each. *)
From S2P Require Import Prelude Memory Linked ListC SysEv Mempool EvBuffer BufClient EvQueue.

(** The queue [q] holds the buffers [l], oldest first. *)
Definition queue_bufs (m : mem) (q : ev_queue_t) (l : list Z) : Prop :=
  queue_ok m q ((fun p => p - 8) <$> l) /\ priFunc q = 0.

Section Fifo.
Context `{PriFuncs}.
Implicit Types (m : mem) (q : ev_queue_t) (l : list Z) (p y : Z) (c : cpu).

Lemma fifo_push fuel c q l x :
  irq_ok c -> queue_ok (c_mem c) q l -> priFunc q = 0 -> aligned4 x -> x ∉ l ->
  exists q' c', ev_queue_rawPush fuel (Some q) x c = Some (QUEUE_SUCC, Some q', c') /\
    queue_ok (c_mem c') q' (l ++ [x]) /\ priFunc q' = 0 /\ same_irq c c' /\
    forall y, (forall z, z ∈ l ++ [x] -> ~ (z <= y < z + 4)) -> load8 (c_mem c') y = load8 (c_mem c) y.
Proof.
  intros Hc Hq Ef Hx4 Hni. pose proof (queue_bound _ _ _ Hq) as Hb. destruct Hq as [Hl Ht Hn].
  unfold ev_queue_rawPush. rewrite (aligned4_nonzero x) by done.
  destruct (drv_disable_irq c) as [r c1] eqn:Ed.
  assert (forall m', c_mem c1 = c_mem c /\ same_irq c (drv_restore_irq r (with_mem m' c1)) /\
    same_irq c (drv_restore_irq r c1)) as Hirq by (intros; by apply irq_frame).
  destruct (Hirq ∅) as [Em _]. rewrite Em, Hn, Ef, (u32_small (Z.of_nat (length l) + 1)) by lia.
  destruct (Z.eqb_spec (head q) 0) as [Hz|Hz].
  - rewrite Hz in Hl. apply lchain_nil in Hl as ->. do 2 eexists. split; [done|].
    split; [|split; [done|split; [exact (proj1 (proj2 (Hirq _)))|]]].
    + split; cbn; [|done|done]. split_and!; [done|done|]. by rewrite load32_store32_link by (by left).
    + intros y Hy. cbn. apply load8_store32_ne. specialize (Hy x). set_solver by lia.
  - rewrite Z.eqb_refl. destruct (list_snoc_inv l) as [->|(l' & a & ->)]; [done|].
    do 2 eexists. split; [done|]. rewrite last_or_snoc in Ht. rewrite Ht.
    split; [|split; [done|split; [exact (proj1 (proj2 (Hirq _)))|]]].
    + split; cbn.
      * rewrite <- app_assoc. exact (insert_mid _ _ l' a x [] Hl Hx4 Hni).
      * by rewrite last_or_snoc.
      * rewrite !length_app. cbn. lia.
    + intros y Hy. cbn. rewrite !load8_store32_ne; [done|..].
      * specialize (Hy a). set_solver by lia.
      * specialize (Hy x). set_solver by lia.
Qed.

Lemma push_bufs fuel c q l p :
  irq_ok c -> queue_bufs (c_mem c) q l -> aligned4 (p - 8) -> p ∉ l ->
  exists q' c', ev_queue_push fuel (Some q) p c = Some (QUEUE_SUCC, Some q', c') /\
    queue_bufs (c_mem c') q' (l ++ [p]) /\ same_irq c c' /\
    forall y, (forall z, z ∈ l ++ [p] -> ~ (z - 8 <= y < z - 4)) -> load8 (c_mem c') y = load8 (c_mem c) y.
Proof.
  intros Hc [Hq Hf] Hp Hni.
  destruct (fifo_push fuel c q _ (p - 8) Hc Hq Hf Hp) as (q' & c' & E & Hq' & Hf' & Hs & Hy).
  { intros (z & Hz & Hzl)%list_elem_of_fmap. apply Hni. by replace p with z by lia. }
  exists q', c'. unfold ev_queue_push, ev_buf_getHead, bufItem_data. split_and!; [done| |done|].
  - split; [|done]. by rewrite fmap_app.
  - intros y Hn. apply Hy. intros z Hz Hr. change [p - 8] with ((fun p => p - 8) <$> [p]) in Hz. rewrite <- fmap_app in Hz.
    apply list_elem_of_fmap in Hz as (w & -> & Hw). apply (Hn w Hw). lia.
Qed.

Lemma pop_bufs c q p l :
  irq_ok c -> queue_bufs (c_mem c) q (p :: l) ->
  exists q' c', ev_queue_pop q c = (p, q', c') /\ queue_bufs (c_mem c') q' l /\ same_irq c c' /\
    c_mem c' = c_mem c.
Proof.
  intros Hc [Hq Hf]. destruct (rawPop_spec c q _ Hc Hq) as (q' & c' & E & Hq' & Hf' & Hs & Hm).
  exists q', c'. unfold ev_queue_pop. rewrite E. cbn [fmap list_fmap head_ptr].
  pose proof (qo_chain _ _ _ Hq) as (_ & Ha & _). rewrite (aligned4_nonzero (p - 8)) by done.
  unfold bufItem_data. split_and!; [do 2 f_equal; lia| |done|done]. split; [done|congruence].
Qed.

Lemma queue_bufs_num m q l : queue_bufs m q l -> curNum q = Z.of_nat (length l).
Proof. intros [Hq _]. rewrite (qo_num _ _ _ Hq). by rewrite length_fmap. Qed.
End Fifo.

(** The queue stays as it is when the link words of its buffers do. *)
Lemma queue_bufs_ext m m' q l :
  queue_bufs m q l -> (forall p y, p ∈ l -> p - 8 <= y < p - 4 -> load8 m' y = load8 m y) -> queue_bufs m' q l.
Proof.
  intros [[Hc Ht Hn] Hf] Hm. split; [|done]. split; [|done|done].
  apply lseg_mem_ext with m; [|done]. intros x (p & -> & Hp)%list_elem_of_fmap.
  unfold load32. by rewrite !(Hm p) by (done || lia).
Qed.

Lemma queue_bufs_kept `{EvLayout} L m m' q l :
  queue_bufs m q l -> bufs_kept L m m' -> l ⊆ L -> queue_bufs m' q l.
Proof.
  intros Hq Hk Hs. apply (queue_bufs_ext m); [done|]. intros p y Hp Hy. apply (Hk p); [by apply Hs|by left].
Qed.

(** An empty queue. *)
Lemma queue_bufs_nil m : queue_bufs m (empty_queue 0) [].
Proof. split; [|done]. by split. Qed.
