(* ===== verification/EvTimer.v ===== *)
(** * proj/os/ev_timer.c

    Software timers: a singly linked list of timer objects, 24 of them in a
    static pool.  Timer objects are records in a store of their own, which
    implements [LinkedHeap], so [utlist.h]'s macros are the ones of [Linked].
    The hardware clock is a sequence of readings ([clk]) and the callbacks of
    the application are a parameter ([cb_call]); the state records the
    callbacks called so far.  Loops over the list take a fuel; the theorems show
    that one more than the number of timers is enough. *)
From S2P Require Import Prelude Linked ListC SysEv.

(** ** Data *)

Record ev_timer_event_t := mk_ev {
  next : Z;
  cb : Z;
  data : Z;
  timeout : Z;
  period : Z;
  curSysTick : Z;
  isRunning : Z;
  used : Z;
}.

Definition ev_zero : ev_timer_event_t := mk_ev 0 0 0 0 0 0 0 0.

Definition set_next v e := mk_ev v (cb e) (data e) (timeout e) (period e) (curSysTick e) (isRunning e) (used e).
Definition set_cb v e := mk_ev (next e) v (data e) (timeout e) (period e) (curSysTick e) (isRunning e) (used e).
Definition set_data v e := mk_ev (next e) (cb e) v (timeout e) (period e) (curSysTick e) (isRunning e) (used e).
Definition set_timeout v e := mk_ev (next e) (cb e) (data e) v (period e) (curSysTick e) (isRunning e) (used e).
Definition set_period v e := mk_ev (next e) (cb e) (data e) (timeout e) v (curSysTick e) (isRunning e) (used e).
Definition set_curSysTick v e := mk_ev (next e) (cb e) (data e) (timeout e) (period e) v (isRunning e) (used e).
Definition set_isRunning v e := mk_ev (next e) (cb e) (data e) (timeout e) (period e) (curSysTick e) v (used e).
Definition set_used v e := mk_ev (next e) (cb e) (data e) (timeout e) (period e) (curSysTick e) (isRunning e) v.

Abbreviation theap := (gmap Z ev_timer_event_t).

Definition ev (h : theap) (a : Z) : ev_timer_event_t := default ev_zero (h !! a).
Definition upd (a : Z) (f : ev_timer_event_t -> ev_timer_event_t) (h : theap) : theap :=
  <[a := f (ev h a)]> h.

Arguments ev : simpl never.
Arguments upd : simpl never.

#[export] Instance timer_linked : LinkedHeap theap := {
  hnext h a := next (ev h a);
  set_hnext h a v := upd a (set_next v) h;
  node_ok _ a := a <> 0;
}.

Lemma ev_upd a f h b : ev (upd a f h) b = if decide (a = b) then f (ev h a) else ev h b.
Proof.
  unfold ev, upd. case_decide; [subst; by rewrite lookup_insert_eq|by rewrite lookup_insert_ne].
Qed.

#[export] Instance timer_linked_laws : LinkedHeapLaws theap.
Proof.
  split; simpl.
  - done.
  - done.
  - intros h a v _ _. by rewrite ev_upd, decide_True.
  - intros h a b v _ _ Hne. by rewrite ev_upd, decide_False.
Qed.

(** [ev_timer], the two tick counters, the processor, the number of clock
    readings taken and the callbacks called. *)
Record timers := mk_timers {
  heap : theap;
  timer_head : Z;
  timer_nearest : Z;
  used_num : Z;
  prevSysTick : Z;
  remSysTick : Z;
  t_cpu : cpu;
  t_reads : nat;
  t_calls : list Z;
}.

Definition with_heap h s := mk_timers h (timer_head s) (timer_nearest s) (used_num s) (prevSysTick s) (remSysTick s) (t_cpu s) (t_reads s) (t_calls s).
Definition with_head v s := mk_timers (heap s) v (timer_nearest s) (used_num s) (prevSysTick s) (remSysTick s) (t_cpu s) (t_reads s) (t_calls s).
Definition with_nearest v s := mk_timers (heap s) (timer_head s) v (used_num s) (prevSysTick s) (remSysTick s) (t_cpu s) (t_reads s) (t_calls s).
Definition with_num v s := mk_timers (heap s) (timer_head s) (timer_nearest s) v (prevSysTick s) (remSysTick s) (t_cpu s) (t_reads s) (t_calls s).
Definition with_ticks p r s := mk_timers (heap s) (timer_head s) (timer_nearest s) (used_num s) p r (t_cpu s) (t_reads s) (t_calls s).
Definition with_tcpu c s := mk_timers (heap s) (timer_head s) (timer_nearest s) (used_num s) (prevSysTick s) (remSysTick s) c (t_reads s) (t_calls s).
Definition with_reads n s := mk_timers (heap s) (timer_head s) (timer_nearest s) (used_num s) (prevSysTick s) (remSysTick s) (t_cpu s) n (t_calls s).
Definition with_call a s := mk_timers (heap s) (timer_head s) (timer_nearest s) (used_num s) (prevSysTick s) (remSysTick s) (t_cpu s) (t_reads s) (t_calls s ++ [a]).
Definition upd_ev (a : Z) (f : ev_timer_event_t -> ev_timer_event_t) (s : timers) : timers :=
  with_heap (upd a f (heap s)) s.

Definition TIMER_EVENT_NUM : Z := 24.
Definition TIMER_EVENT_ENOUGH_NUM : Z := TIMER_EVENT_NUM - 4.
Definition SUCCESS : Z := 0.
Definition NO_TIMER_AVAIL : Z := 8.

(** What the timers are given: where the linker puts the pool, the clock's
    readings, the number of ticks in a microsecond and the callbacks (a return
    value and the state they leave). *)
Class TimerEnv := {
  timerEventPool : Z;
  clk : nat -> Z;
  sysTimerPerUs : Z;
  cb_call : Z -> Z -> timers -> Z * timers;
}.

(** [clock_time_exceed(ref, us)] of the chip's [timer.h], 16 ticks a
    microsecond, with the reading of the clock. *)
Definition clock_time_exceed (now ref us : Z) : bool := u32 (us * 16) <? u32 (now - ref).

(** ** Operations *)
Section ops.
Context `{TimerEnv} (fuel : nat).

Definition evt_size : Z := 28.
Definition evt_addr (i : nat) : Z := timerEventPool + evt_size * Z.of_nat i.
Definition ticks_per_ms : Z := sysTimerPerUs * 1000.

Definition clock_time (s : timers) : Z * timers :=
  (u32 (clk (t_reads s)), with_reads (S (t_reads s)) s).

Definition ev_timer_init (s : timers) : timers :=
  let h := foldr (fun i h => <[evt_addr i := ev_zero]> h) (heap s) (seq 0 (Z.to_nat TIMER_EVENT_NUM)) in
  with_num 0 (with_nearest 0 (with_head 0 (with_heap h s))).

Definition ev_timer_setPrevSysTick (tick : Z) (s : timers) : timers := with_ticks tick (remSysTick s) s.

Definition ev_timer_nearestGet (s : timers) : Z := timer_nearest s.

(** The search of [ev_timer_freeGet]: [n] slots are left, [i] is the next. *)
Fixpoint free_search (n i : nat) (h : theap) : option nat :=
  match n with
  | O => None
  | S n' => if used (ev h (evt_addr i)) =? 0 then Some i else free_search n' (S i) h
  end.

Definition ev_timer_freeGet (s : timers) : Z * timers :=
  if TIMER_EVENT_NUM <=? used_num s then (0, s)
  else match free_search (Z.to_nat TIMER_EVENT_NUM) 0 (heap s) with
  | Some i => (evt_addr i, with_num (u32 (used_num s + 1)) (upd_ev (evt_addr i) (set_used 1) s))
  | None => (0, s)
  end.

Definition ev_timer_poolDelUpdate (evt : Z) (s : timers) : timers :=
  let s1 := upd_ev evt (fun e => set_curSysTick 0 (set_isRunning 0 e)) s in
  if (evt_addr 0 <=? evt) && (evt <=? evt_addr (Z.to_nat (TIMER_EVENT_NUM - 1)))
     && negb (used (ev (heap s1) evt) =? 0)
  then with_num (u32 (used_num s1 - 1)) (upd_ev evt (set_used 0) s1)
  else s1.

Fixpoint nearest_loop (n : nat) (h : theap) (timerEvt nearest : Z) : option Z :=
  match n with
  | O => None
  | S n' =>
      if timerEvt =? 0 then Some nearest
      else
        let nearest' := if timeout (ev h timerEvt) <? timeout (ev h nearest) then timerEvt else nearest in
        nearest_loop n' h (next (ev h timerEvt)) nearest'
  end.

Definition ev_timer_nearestUpdate (s : timers) : option timers :=
  n ← nearest_loop fuel (heap s) (timer_head s) (timer_head s);
  Some (with_nearest n s).

Definition ev_timer_enough (s : timers) : bool := used_num s <? TIMER_EVENT_ENOUGH_NUM.

Fixpoint exist_loop (n : nat) (h : theap) (timerEvt evt : Z) : option bool :=
  match n with
  | O => None
  | S n' =>
      if timerEvt =? 0 then Some false
      else if timerEvt =? evt then Some true
      else exist_loop n' h (next (ev h timerEvt)) evt
  end.

Definition ev_timer_exist (evt : Z) (s : timers) : option bool :=
  exist_loop fuel (heap s) (timer_head s) evt.

Definition ev_on_timer (evt t : Z) (s : timers) : option timers :=
  if evt =? 0 then
    Some (with_tcpu (ZB_EXCEPTION_POST 145 SYS_EXCEPTTION_COMMON_TIMER_EVEVT (t_cpu s)) s)
  else
    let s1 := upd_ev evt (set_period t) s in
    let '(r, c1) := drv_disable_irq (t_cpu s1) in
    let s2 := with_tcpu c1 s1 in
    out ← LIST_EXIST fuel (heap s2) (timer_head s2) evt;
    let p := period (ev (heap s2) evt) in
    let s5 :=
      if negb (out =? 0) then upd_ev out (set_timeout p) s2
      else
        let s3 :=
          if isRunning (ev (heap s2) evt) =? 0 then
            let '(now, s') := clock_time s2 in upd_ev evt (set_curSysTick now) s'
          else s2 in
        let s4 := upd_ev evt (set_timeout p) s3 in
        let '(h', hd) := LIST_ADD (heap s4) (timer_head s4) evt in
        with_head hd (with_heap h' s4) in
    s6 ← ev_timer_nearestUpdate s5;
    Some (with_tcpu (drv_restore_irq r (t_cpu s6)) s6).

Definition ev_unon_timer (evt : Z) (s : timers) : option timers :=
  if evt =? 0 then
    Some (with_tcpu (ZB_EXCEPTION_POST 173 SYS_EXCEPTTION_COMMON_TIMER_EVEVT (t_cpu s)) s)
  else
    out ← LIST_EXIST fuel (heap s) (timer_head s) evt;
    if out =? 0 then Some s
    else
      let '(r, c1) := drv_disable_irq (t_cpu s) in
      let s1 := ev_timer_poolDelUpdate evt (with_tcpu c1 s) in
      '(h', hd) ← LIST_DELETE fuel (heap s1) (timer_head s1) evt;
      s2 ← ev_timer_nearestUpdate (with_head hd (with_heap h' s1));
      Some (with_tcpu (drv_restore_irq r (t_cpu s2)) s2).

Definition ev_timer_add (func arg t : Z) (s : timers) : option (Z * timers) :=
  let '(timerEvt, s1) := ev_timer_freeGet s in
  if timerEvt =? 0 then
    Some (0, with_tcpu (ZB_EXCEPTION_POST 199 SYS_EXCEPTTION_COMMON_TIMER_EVEVT (t_cpu s1)) s1)
  else
    let s2 := upd_ev timerEvt (fun e => set_data arg (set_cb func e)) s1 in
    s3 ← ev_on_timer timerEvt t s2;
    Some (timerEvt, s3).

Definition ev_timer_taskPost (func arg t_ms : Z) (s : timers) : option (Z * timers) :=
  let '(r, c1) := drv_disable_irq (t_cpu s) in
  '(timerEvt, s1) ← ev_timer_add func arg t_ms (with_tcpu c1 s);
  Some (timerEvt, with_tcpu (drv_restore_irq r (t_cpu s1)) s1).

(** [evt] is the value of the caller's variable; its new value is returned. *)
Definition ev_timer_taskCancel (evt : Z) (s : timers) : option (Z * Z * timers) :=
  if (evt =? 0) || (used (ev (heap s) evt) =? 0) then Some (NO_TIMER_AVAIL, evt, s)
  else s1 ← ev_unon_timer evt s; Some (SUCCESS, 0, s1).

(** One iteration of [ev_timer_update]. *)
Definition update_one (updateTime now : Z) (e : ev_timer_event_t) : ev_timer_event_t :=
  let updateTimeMs :=
    if negb (isRunning e =? 0) then updateTime
    else u32 (now - curSysTick e) / ticks_per_ms in
  let e1 := if negb (isRunning e =? 0) then e else set_isRunning 1 e in
  set_timeout (if updateTimeMs <? timeout e then timeout e - updateTimeMs else 0) e1.

Fixpoint update_loop (n : nat) (updateTime now : Z) (h : theap) (timerEvt : Z) : option theap :=
  match n with
  | O => None
  | S n' =>
      if timerEvt =? 0 then Some h
      else
        let h1 := upd timerEvt (update_one updateTime now) h in
        update_loop n' updateTime now h1 (next (ev h1 timerEvt))
  end.

Definition ev_timer_update (updateTime : Z) (s : timers) : option timers :=
  let '(now, s1) := clock_time s in
  if updateTime =? 0 then Some s1
  else
    let '(r, c1) := drv_disable_irq (t_cpu s1) in
    h' ← update_loop fuel updateTime now (heap s1) (timer_head s1);
    Some (with_tcpu (drv_restore_irq r c1) (with_heap h' s1)).

Fixpoint exec_loop (n : nat) (timerEvt prev_head : Z) (s : timers) : option timers :=
  match n with
  | O => None
  | S n' =>
      if timerEvt =? 0 then Some s
      else
        let e := ev (heap s) timerEvt in
        if timeout e =? 0 then
          let '(t, s1) := cb_call (cb e) (data e) (with_call timerEvt s) in
          s2 ← (if t <? 0 then ev_unon_timer timerEvt s1
                else if t =? 0 then Some (upd_ev timerEvt (fun e => set_timeout (period e) e) s1)
                else Some (upd_ev timerEvt (fun e => set_timeout (u32 t) (set_period (u32 t) e)) s1));
          if negb (prev_head =? timer_head s2)
          then exec_loop n' (timer_head s2) (timer_head s2) s2
          else exec_loop n' (next (ev (heap s2) timerEvt)) prev_head s2
        else exec_loop n' (next e) prev_head s
  end.

Definition ev_timer_executeCB (s : timers) : option timers :=
  s1 ← exec_loop fuel (timer_head s) (timer_head s) s;
  ev_timer_nearestUpdate s1.

Definition ev_timer_process (s : timers) : option timers :=
  let '(currSysTick, s1) := clock_time s in
  if currSysTick =? prevSysTick s1 then Some s1
  else
    let sysTicks := u32 (currSysTick - prevSysTick s1) in
    let rem1 := u32 (remSysTick s1 + sysTicks mod ticks_per_ms) in
    let updateTime := u32 (sysTicks / ticks_per_ms + rem1 / ticks_per_ms) in
    let s2 := with_ticks currSysTick (rem1 mod ticks_per_ms) s1 in
    if negb (updateTime =? 0) then
      s3 ← ev_timer_update updateTime s2;
      ev_timer_executeCB s3
    else Some s2.
End ops.

(** ** The list of pending timers *)

(** A timer object without its link. *)
Definition core (e : ev_timer_event_t) : ev_timer_event_t := set_next 0 e.

(** The timer with the least timeout, the first of them. *)
Definition nearest_of (tm : Z -> Z) (l : list Z) : Z :=
  foldl (fun m x => if tm x <? tm m then x else m) (head_ptr l) l.

Definition timeouts (h : theap) (a : Z) : Z := timeout (ev h a).

Lemma theap_ext (h1 h2 : theap) p l q :
  (forall a, a ∈ l -> next (ev h1 a) = next (ev h2 a)) -> lseg h1 p l q -> lseg h2 p l q.
Proof.
  revert p. induction l as [|a l IH]; intros p Hm; simpl; [done|].
  intros (-> & Ha & Hl). split_and!; [done..|]. rewrite <- Hm by set_solver.
  apply IH; [set_solver|done].
Qed.

(** A change of an object's fields other than the link. *)
Lemma lseg_upd (h : theap) a f p l q :
  next (f (ev h a)) = next (ev h a) -> lseg h p l q -> lseg (upd a f h) p l q.
Proof.
  intros Hf. apply theap_ext. intros b _. rewrite ev_upd. case_decide; [by subst|done].
Qed.

Lemma core_set_next v e : core (set_next v e) = core e.
Proof. done. Qed.

Lemma foldl_nearest_in (tm : Z -> Z) (l : list Z) (d : Z) :
  let m := foldl (fun m x => if tm x <? tm m then x else m) d l in
  (m = d \/ m ∈ l) /\ tm m <= tm d /\ forall x, x ∈ l -> tm m <= tm x.
Proof.
  revert d. induction l as [|y l IH]; intros d m; simpl in m.
  { subst m. split_and!; [by left|done|set_solver]. }
  specialize (IH (if tm y <? tm d then y else d)). cbv zeta in IH. fold m in IH.
  destruct IH as (Hm & Hle & Hall).
  assert (tm (if tm y <? tm d then y else d) <= tm d /\ tm (if tm y <? tm d then y else d) <= tm y) as [H1 H2].
  { destruct (Z.ltb_spec (tm y) (tm d)); lia. }
  split_and!; [destruct (tm y <? tm d); set_solver|lia|].
  intros x [->|Hx]%elem_of_cons; [lia|auto].
Qed.

(** [nearest_of] is a pending timer and no pending timer expires before it. *)
Lemma nearest_of_spec tm l : l <> [] ->
  nearest_of tm l ∈ l /\ forall x, x ∈ l -> tm (nearest_of tm l) <= tm x.
Proof.
  intros Hl. destruct l as [|a l]; [done|]. unfold nearest_of. simpl head_ptr.
  pose proof (foldl_nearest_in tm (a :: l) a) as (Hm & _ & Hall). cbv zeta in *.
  split; [destruct Hm as [->|?]; [by left|done]|done].
Qed.

Lemma nearest_of_ext (tm1 tm2 : Z -> Z) (l : list Z) :
  (forall x, x ∈ l -> tm1 x = tm2 x) -> nearest_of tm1 l = nearest_of tm2 l.
Proof.
  unfold nearest_of. intros He. destruct l as [|a l]; [done|]. cbn [head_ptr].
  assert (forall (l' : list Z) (d : Z), d ∈ a :: l -> (forall x, x ∈ l' -> x ∈ a :: l) ->
    foldl (fun m x => if tm1 x <? tm1 m then x else m) d l' =
    foldl (fun m x => if tm2 x <? tm2 m then x else m) d l') as Hf; [|apply Hf; set_solver].
  induction l' as [|y l' IH]; intros d Hd Hl'; simpl; [done|].
  rewrite (He y), (He d) by set_solver. apply IH; [|set_solver].
  destruct (tm2 y <? tm2 d); set_solver.
Qed.

Section lists.
Context `{TimerEnv} (fuel : nat).
Implicit Types (s : timers) (l : list Z) (h : theap).

Lemma nearest_loop_spec n h p l d :
  lchain h p l -> (length l < n)%nat ->
  nearest_loop n h p d = Some (foldl (fun m x => if timeouts h x <? timeouts h m then x else m) d l).
Proof.
  revert n p d. induction l as [|a l IH]; intros [|n] p d Hl Hn; simpl in Hn; try lia; cbn [nearest_loop].
  - simpl in Hl. subst. done.
  - destruct Hl as (-> & Ha & Hl). rewrite (proj2 (Z.eqb_neq a 0) Ha).
    rewrite (IH n) by (done || lia). done.
Qed.

Lemma nearestUpdate_spec s l :
  lchain (heap s) (timer_head s) l -> (length l < fuel)%nat ->
  ev_timer_nearestUpdate fuel s = Some (with_nearest (nearest_of (timeouts (heap s)) l) s).
Proof.
  intros Hl Hn. unfold ev_timer_nearestUpdate. rewrite (nearest_loop_spec fuel _ _ l) by done.
  cbn [mbind option_bind]. rewrite (lchain_head _ _ _ Hl). done.
Qed.

Lemma exist_loop_spec n h p l x :
  lchain h p l -> (length l < n)%nat -> exist_loop n h p x = Some (bool_decide (x ∈ l)).
Proof.
  revert n p. induction l as [|a l IH]; intros [|n] p Hl Hn; simpl in Hn; try lia; cbn [exist_loop].
  - simpl in Hl. by subst.
  - destruct Hl as (-> & Ha & Hl). rewrite (proj2 (Z.eqb_neq a 0) Ha).
    destruct (Z.eqb_spec a x) as [->|Hne].
    + rewrite bool_decide_true; [done|set_solver].
    + rewrite (IH n) by (done || lia). f_equal. apply bool_decide_ext. set_solver.
Qed.

(** What the list operations leave alone. *)
Definition same_rest s s' : Prop :=
  prevSysTick s' = prevSysTick s /\ remSysTick s' = remSysTick s /\ t_calls s' = t_calls s /\
  c_irq (t_cpu s') = c_irq (t_cpu s) /\ c_mem (t_cpu s') = c_mem (t_cpu s) /\
  c_exc (t_cpu s') = c_exc (t_cpu s).

Lemma restore_irq s r c1 c2 : irq_ok (t_cpu s) -> drv_disable_irq (t_cpu s) = (r, c1) ->
  c_mem c2 = c_mem c1 -> c_exc c2 = c_exc c1 ->
  c_irq (drv_restore_irq r c2) = c_irq (t_cpu s) /\
  c_mem (drv_restore_irq r c2) = c_mem (t_cpu s) /\ c_exc (drv_restore_irq r c2) = c_exc (t_cpu s).
Proof.
  intros Hc E. pose proof (irq_restore_disable (t_cpu s) c2 Hc) as Hr. rewrite E in Hr. simpl fst in Hr.
  unfold drv_disable_irq in E. injection E as _ <-. cbn [c_mem c_exc with_irq] in *. intros Hm He. rewrite Hr. by rewrite <- Hm, <- He.
Qed.

(** The list and the object after [ev_on_timer]. *)
Definition on_list (evt : Z) (l : list Z) : list Z := if decide (evt ∈ l) then l else evt :: l.

Lemma ev_on_timer_spec s l evt t :
  irq_ok (t_cpu s) -> lchain (heap s) (timer_head s) l -> evt <> 0 -> (S (length l) < fuel)%nat ->
  exists s', ev_on_timer fuel evt t s = Some s' /\
    lchain (heap s') (timer_head s') (on_list evt l) /\
    timer_nearest s' = nearest_of (timeouts (heap s')) (on_list evt l) /\
    (forall a, a <> evt -> core (ev (heap s') a) = core (ev (heap s) a)) /\
    cb (ev (heap s') evt) = cb (ev (heap s) evt) /\ data (ev (heap s') evt) = data (ev (heap s) evt) /\
    timeout (ev (heap s') evt) = t /\ period (ev (heap s') evt) = t /\
    used (ev (heap s') evt) = used (ev (heap s) evt) /\
    isRunning (ev (heap s') evt) = isRunning (ev (heap s) evt) /\
    used_num s' = used_num s /\ same_rest s s'.
Proof.
  intros Hirq Hl Hz Hf. unfold ev_on_timer. rewrite (proj2 (Z.eqb_neq evt 0) Hz).
  cbn [upd_ev with_heap t_cpu]. destruct (drv_disable_irq (t_cpu s)) as [r c1] eqn:Ed.
  cbn [heap timer_head with_tcpu with_heap upd_ev].
  set (h1 := upd evt (set_period t) (heap s)).
  assert (lchain h1 (timer_head s) l) as Hl1 by (by apply lseg_upd).
  rewrite (LIST_EXIST_spec h1 _ l evt fuel Hl1) by lia. cbn [mbind option_bind].
  assert (period (ev h1 evt) = t) as -> by (unfold h1; by rewrite ev_upd, decide_True).
  unfold on_list. destruct (decide (evt ∈ l)) as [Hin|Hni].
  - rewrite (proj2 (Z.eqb_neq evt 0) Hz). cbn [negb].
    erewrite nearestUpdate_spec; [|apply lseg_upd; [done|exact Hl1]|lia]. cbn [mbind option_bind].
    eexists. split; [done|]. cbn.
    destruct (restore_irq s r c1 c1 Hirq Ed eq_refl eq_refl) as (? & ? & ?).
    split_and!; try done; unfold h1; rewrite ?ev_upd, ?decide_True by done; try done.
    + apply lseg_upd; [by rewrite ev_upd|done].
    + intros a Ha. by rewrite !ev_upd, !decide_False by done.
  - cbn [negb Z.eqb].
    set (s3 := if isRunning (ev h1 evt) =? 0 then _ else _).
    assert (exists f, heap s3 = upd evt f h1 /\ (forall e, next (f e) = next e /\ cb (f e) = cb e /\
       data (f e) = data e /\ period (f e) = period e /\ used (f e) = used e /\ isRunning (f e) = isRunning e) /\
       timer_head s3 = timer_head s /\ used_num s3 = used_num s /\ prevSysTick s3 = prevSysTick s /\
       remSysTick s3 = remSysTick s /\ t_calls s3 = t_calls s /\ t_cpu s3 = c1)
      as (f & Eh & Hfp & Ehd & ? & ? & ? & ? & Ec).
    { unfold s3. destruct (isRunning (ev h1 evt) =? 0); cbn.
      - eexists. split; [done|]. split; [|done]. by intros e.
      - exists (fun e => e). split; [|done]. unfold upd. symmetry. apply insert_id.
        unfold h1, upd. rewrite lookup_insert_eq. unfold ev. by rewrite lookup_insert_eq. }
    destruct (Hfp (ev h1 evt)) as (Hf1 & Hf2 & Hf3 & Hf4 & Hf5 & Hf6).
    cbn [upd_ev with_heap with_head heap timer_head LIST_ADD]. rewrite Ehd, Eh.
    set (h4 := upd evt (set_timeout t) (upd evt f h1)).
    assert (lchain h4 (timer_head s) l) as Hl4.
    { apply lseg_upd; [done|]. by apply lseg_upd. }
    pose proof (LIST_ADD_spec h4 _ l evt Hl4 Hz Hni) as Hl5.
    erewrite nearestUpdate_spec; [|exact Hl5|simpl; lia]. cbn [mbind option_bind].
    eexists. split; [done|]. cbn -[upd].
    destruct (restore_irq s r c1 (t_cpu s3) Hirq Ed) as (? & ? & ?); [by rewrite Ec..|].
    unfold h4, h1, upd_ev, same_rest in *. cbn -[upd].
    rewrite !ev_upd, !decide_True in * by done. cbn in Hf2, Hf3, Hf4, Hf5, Hf6 |- *.
    split_and!; try done.
    + exact (lseg_set_frame (T := theap) h4 _ l 0 evt _ Hz Hni Hl4).
    + intros a Ha. by rewrite !ev_upd, !decide_False by done.
Qed.

(** [ev_unon_timer] of a pending timer; [sl] tells a pool slot. *)
Definition pool_range (evt : Z) : Prop := evt_addr 0 <= evt <= evt_addr 23.
#[export] Instance pool_range_dec evt : Decision (pool_range evt).
Proof. unfold pool_range. apply _. Defined.

Lemma ev_unon_timer_spec s l1 evt l2 :
  irq_ok (t_cpu s) -> lchain (heap s) (timer_head s) (l1 ++ evt :: l2) ->
  (length (l1 ++ evt :: l2) < fuel)%nat ->
  exists s', ev_unon_timer fuel evt s = Some s' /\
    lchain (heap s') (timer_head s') (l1 ++ l2) /\
    timer_nearest s' = nearest_of (timeouts (heap s')) (l1 ++ l2) /\
    (forall a, a <> evt -> core (ev (heap s') a) = core (ev (heap s) a)) /\
    (let freed := bool_decide (pool_range evt /\ used (ev (heap s) evt) <> 0) in
     used (ev (heap s') evt) = (if freed then 0 else used (ev (heap s) evt)) /\
     used_num s' = (if freed then u32 (used_num s - 1) else used_num s)) /\
    isRunning (ev (heap s') evt) = 0 /\ timer_head s' = head_ptr (l1 ++ l2) /\
    next (ev (heap s') evt) = head_ptr l2 /\ same_rest s s'.
Proof.
  intros Hirq Hl Hf. pose proof (lchain_NoDup _ _ _ Hl) as Hnd.
  assert (evt <> 0) as Hz by (apply (lseg_node (T := theap) _ _ _ _ _ Hl); set_solver).
  unfold ev_unon_timer. rewrite (proj2 (Z.eqb_neq evt 0) Hz).
  rewrite (LIST_EXIST_spec _ _ _ evt fuel Hl) by lia. cbn [mbind option_bind].
  rewrite decide_True by set_solver. rewrite (proj2 (Z.eqb_neq evt 0) Hz).
  destruct (drv_disable_irq (t_cpu s)) as [r c1] eqn:Ed.
  set (s1 := ev_timer_poolDelUpdate evt (with_tcpu c1 s)).
  set (freed := bool_decide (pool_range evt /\ used (ev (heap s) evt) <> 0)).
  assert (exists f, heap s1 = upd evt f (heap s) /\ next (f (ev (heap s) evt)) = next (ev (heap s) evt) /\
      isRunning (f (ev (heap s) evt)) = 0 /\
      used (f (ev (heap s) evt)) = (if freed then 0 else used (ev (heap s) evt)) /\
      timer_head s1 = timer_head s /\ used_num s1 = (if freed then u32 (used_num s - 1) else used_num s) /\
      prevSysTick s1 = prevSysTick s /\ remSysTick s1 = remSysTick s /\ t_calls s1 = t_calls s /\ t_cpu s1 = c1)
    as (f & Eh & Hn & Hr & Hu & Ehd & Enum & ? & ? & ? & Ec).
  { unfold s1, ev_timer_poolDelUpdate. cbn [heap upd_ev with_heap with_tcpu].
    rewrite ev_upd, decide_True by done. cbn [used set_curSysTick set_isRunning].
    change (Z.to_nat (TIMER_EVENT_NUM - 1)) with 23%nat.
    assert ((evt_addr 0 <=? evt) && (evt <=? evt_addr 23) && negb (used (ev (heap s) evt) =? 0) = freed) as ->.
    { unfold freed, pool_range. repeat case_cmp; simpl; symmetry;
        first [apply bool_decide_true; lia | apply bool_decide_false; lia]. }
    destruct freed; cbn.
    - eexists (fun e => set_used 0 (set_curSysTick 0 (set_isRunning 0 e))). split; [|done].
      unfold upd. rewrite insert_insert_eq. f_equal. unfold ev at 1. by rewrite lookup_insert_eq.
    - by eexists. }
  clearbody s1.
  assert (lchain (heap s1) (timer_head s1) (l1 ++ evt :: l2)) as Hl1.
  { rewrite Eh, Ehd. by apply lseg_upd. }
  destruct (LIST_DELETE_spec _ _ l1 evt l2 fuel Hl1) as (h' & -> & Hl' & Hh').
  { rewrite length_app in Hf. lia. }
  cbn [mbind option_bind].
  erewrite nearestUpdate_spec; [|cbn; exact Hl'|rewrite length_app in *; simpl in Hf; lia]. cbn [mbind option_bind].
  eexists. split; [done|]. cbn [heap timer_head timer_nearest used_num with_tcpu with_nearest with_head with_heap].
  assert (forall a, core (ev h' a) = core (ev (heap s1) a)) as Hcore.
  { destruct Hh' as [->|(b & v & _ & ->)]; [done|]. intros a. cbn. rewrite ev_upd. case_decide; [by subst|done]. }
  assert (next (ev h' evt) = head_ptr l2) as Hnx.
  { assert (evt ∉ l1) as Hni by (apply NoDup_app in Hnd as (_ & Hd & _); intros ?; eapply Hd; [done|set_solver]).
    assert (next (ev h' evt) = next (ev (heap s1) evt)) as ->.
    { destruct Hh' as [->|(b & v & Hb & ->)]; [done|]. cbn. rewrite ev_upd, decide_False; [done|set_solver]. }
    pose proof Hl1 as (r0 & _ & _ & _ & Hl2)%lseg_app. exact (lchain_head (heap s1) _ _ Hl2). }
  assert (forall (g : ev_timer_event_t -> Z) a, (forall e, g e = g (core e)) -> g (ev h' a) = g (ev (heap s1) a)) as Hg.
  { intros g a Hgc. by rewrite (Hgc (ev h' a)), (Hgc (ev (heap s1) a)), Hcore. }
  destruct (restore_irq s r c1 (t_cpu s1) Hirq Ed) as (? & ? & ?); [by rewrite Ec..|].
  split_and!; try done.
  - intros a Ha. rewrite Hcore, Eh, ev_upd, decide_False by done. done.
  - rewrite (Hg used), Eh, ev_upd, decide_True by done. done.
  - rewrite (Hg isRunning), Eh, ev_upd, decide_True by done. done.
Qed.

Lemma ev_unon_timer_absent s l evt :
  lchain (heap s) (timer_head s) l -> (length l < fuel)%nat -> evt <> 0 -> evt ∉ l ->
  ev_unon_timer fuel evt s = Some s.
Proof.
  intros Hl Hf Hz Hni. unfold ev_unon_timer. rewrite (proj2 (Z.eqb_neq evt 0) Hz).
  rewrite (LIST_EXIST_spec _ _ l evt fuel Hl) by lia. cbn [mbind option_bind].
  by rewrite decide_False.
Qed.
End lists.

(** ** The pool and the invariant *)

Class TimerEnvOk `{TimerEnv} := {
  pool_nonnull : 0 < timerEventPool;
  ticks_pos : 0 < sysTimerPerUs;
  ticks_small : sysTimerPerUs * 1000 < 2 ^ 31;
}.

Section pool.
Context `{TimerEnvOk} (fuel : nat).
Implicit Types (s : timers) (l : list Z) (h : theap).

Definition slots : list Z := evt_addr <$> seq 0 24.

Lemma elem_of_slots a : a ∈ slots <-> exists i, (i < 24)%nat /\ a = evt_addr i.
Proof.
  unfold slots. rewrite list_elem_of_fmap. split.
  - intros (i & -> & Hi%elem_of_seq). exists i. split; [lia|done].
  - intros (i & Hi & ->). exists i. split; [done|]. apply elem_of_seq. lia.
Qed.

Lemma evt_addr_inj i j : evt_addr i = evt_addr j -> i = j.
Proof. unfold evt_addr, evt_size. lia. Qed.

Lemma slots_NoDup : NoDup slots.
Proof. unfold slots. apply NoDup_fmap_2_strong; [intros; by apply evt_addr_inj|apply NoDup_seq]. Qed.

Lemma slot_range a : a ∈ slots -> pool_range a /\ a <> 0.
Proof.
  intros (i & Hi & ->)%elem_of_slots. pose proof pool_nonnull. unfold pool_range, evt_addr, evt_size. lia.
Qed.

(** A timer object of the application, not one of the pool. *)
Definition static_timer (a : Z) : Prop := a <> 0 /\ ~ pool_range a.

(** The number of slots in a list. *)
Definition slot_count (l : list Z) : Z := Z.of_nat (length (filter (fun a => a ∈ l) slots)).

Record timers_list (s : timers) (l : list Z) : Prop := {
  tk_chain : lchain (heap s) (timer_head s) l;
  tk_kind a : a ∈ l -> a ∈ slots \/ static_timer a;
  tk_used a : a ∈ slots -> used (ev (heap s) a) = c_bool (bool_decide (a ∈ l));
  tk_num : used_num s = slot_count l;
  tk_irq : irq_ok (t_cpu s);
}.

(** Between two calls the nearest timer is known as well. *)
Record timers_ok (s : timers) (l : list Z) : Prop := {
  tk_list :> timers_list s l;
  tk_nearest : timer_nearest s = nearest_of (timeouts (heap s)) l;
}.

Lemma filter_cons_count (P l : list Z) x : NoDup P -> x ∉ l ->
  length (filter (fun a => a ∈ x :: l) P) =
  (length (filter (fun a => a ∈ l) P) + if decide (x ∈ P) then 1 else 0)%nat.
Proof.
  induction 1 as [|y P Hy Hnd IH]; intros Hx; [done|]. rewrite !filter_cons.
  specialize (IH Hx). destruct (decide (x = y)) as [->|Hne].
  - rewrite (decide_True (P := y ∈ y :: l)) by (by left). rewrite (decide_False (P := y ∈ l)) by done.
    rewrite (decide_True (P := y ∈ y :: P)) by (by left). rewrite decide_False in IH by done.
    simpl. lia.
  - replace (if decide (x ∈ y :: P) then 1%nat else 0%nat) with (if decide (x ∈ P) then 1%nat else 0%nat)
      by (destruct (decide (x ∈ P)), (decide (x ∈ y :: P)); set_solver).
    destruct (decide (y ∈ x :: l)), (decide (y ∈ l)); simpl; rewrite ?IH; [lia|set_solver|set_solver|lia].
Qed.

Lemma slot_count_cons x l : x ∉ l ->
  slot_count (x :: l) = slot_count l + if decide (x ∈ slots) then 1 else 0.
Proof.
  intros Hx. unfold slot_count. rewrite filter_cons_count by (apply slots_NoDup || done).
  case_decide; lia.
Qed.

Lemma slot_count_perm l l' : (forall a, a ∈ l <-> a ∈ l') -> slot_count l = slot_count l'.
Proof.
  intros He. unfold slot_count. do 2 f_equal. apply list_filter_iff. intros a. apply He.
Qed.

Lemma slot_count_bound l : 0 <= slot_count l <= 24.
Proof.
  unfold slot_count. pose proof (length_filter (fun a => a ∈ l) slots) as Hle.
  unfold slots in Hle at 2. rewrite length_fmap, length_seq in Hle. lia.
Qed.

(** All slots are pending exactly when 24 are counted. *)
Lemma slot_count_full l : slot_count l = 24 <-> forall a, a ∈ slots -> a ∈ l.
Proof.
  unfold slot_count. assert (length slots = 24%nat) as Hlen.
  { unfold slots. by rewrite length_fmap, length_seq. }
  split.
  - intros Hc a Ha. destruct (decide (a ∈ l)) as [|Hni]; [done|]. exfalso.
    assert (forall P, a ∈ P -> (length (filter (fun x => x ∈ l) P) < length P)%nat) as Hlt.
    { induction P as [|y P IH]; [set_solver|]. intros Hin. rewrite filter_cons.
      pose proof (length_filter (fun x => x ∈ l) P).
      apply elem_of_cons in Hin as [->|Hin]; [rewrite decide_False by done; simpl; lia|].
      specialize (IH Hin). destruct (decide (y ∈ l)); simpl; lia. }
    specialize (Hlt slots Ha). lia.
  - intros Hall. assert (forall P, (forall a, a ∈ P -> a ∈ l) -> filter (fun x => x ∈ l) P = P) as ->.
    { induction P as [|y P IH]; intros HP; [done|]. rewrite filter_cons, decide_True by (apply HP; by left).
      rewrite IH; [done|]. intros a Ha. apply HP. by right. }
    + lia.
    + done.
Qed.

(** *** Searching a slot *)

Lemma free_search_spec n k h i :
  free_search n k h = Some i -> (k <= i < k + n)%nat /\ used (ev h (evt_addr i)) = 0 /\
    forall j, (k <= j < i)%nat -> used (ev h (evt_addr j)) <> 0.
Proof.
  revert k. induction n as [|n IH]; intros k; simpl; [done|].
  destruct (Z.eqb_spec (used (ev h (evt_addr k))) 0) as [E|E].
  - intros [= <-]. split_and!; [lia|lia|done|lia].
  - intros Hs. destruct (IH _ Hs) as (? & ? & Hlt). split_and!; [lia|lia|done|].
    intros j ?. destruct (decide (j = k)) as [->|]; [done|]. apply Hlt. lia.
Qed.

Lemma free_search_none n k h :
  free_search n k h = None -> forall j, (k <= j < k + n)%nat -> used (ev h (evt_addr j)) <> 0.
Proof.
  revert k. induction n as [|n IH]; intros k; simpl; [lia|].
  destruct (Z.eqb_spec (used (ev h (evt_addr k))) 0) as [E|E]; [done|].
  intros Hs j ?. destruct (decide (j = k)) as [->|]; [done|]. apply (IH _ Hs). lia.
Qed.

Definition first_free (l : list Z) : option nat :=
  fst <$> list_find (fun i => evt_addr i ∉ l) (seq 0 24).

Lemma first_free_Some l i : first_free l = Some i ->
  (i < 24)%nat /\ evt_addr i ∉ l /\ evt_addr i ∈ slots.
Proof.
  unfold first_free. destruct (list_find _ _) as [[k j]|] eqn:E; [|done]. intros [= <-].
  apply list_find_Some in E as (Hk & Hni & _). apply lookup_seq in Hk as [-> Hk].
  split_and!; [done|done|]. apply elem_of_slots. by exists (0 + k)%nat.
Qed.

Lemma freeGet_spec s l : timers_ok s l ->
  ev_timer_freeGet s =
    match first_free l with
    | Some i => (evt_addr i, with_num (used_num s + 1) (upd_ev (evt_addr i) (set_used 1) s))
    | None => (0, s)
    end.
Proof.
  intros [[Hc Hk Hu Hnum Hq] Hnr]. pose proof (slot_count_bound l) as Hb.
  assert (forall i, (i < 24)%nat -> used (ev (heap s) (evt_addr i)) = 0 <-> evt_addr i ∉ l) as Hu'.
  { intros i Hi. rewrite Hu by (apply elem_of_slots; by exists i).
    case_bool_decide; simpl; split; [done|done|done|done]. }
  unfold ev_timer_freeGet, TIMER_EVENT_NUM. rewrite Hnum. unfold first_free.
  destruct (list_find (fun i => evt_addr i ∉ l) (seq 0 24)) as [[k j]|] eqn:E; cbn [fmap option_fmap option_map fst].
  - apply list_find_Some in E as (Hj & Hni & Hbefore).
    apply lookup_seq in Hj as [-> Hk24]. simpl in Hni.
    destruct (Z.leb_spec 24 (slot_count l)) as [Hge|Hlt].
    { exfalso. apply Hni. apply slot_count_full; [lia|]. apply elem_of_slots. by exists k. }
    change (Z.to_nat 24) with 24%nat.
    destruct (free_search 24 0 (heap s)) as [i|] eqn:Es.
    + apply free_search_spec in Es as (Hi & Hz & Hlt').
      assert (i = k) as ->; [|by rewrite u32_small by lia].
      destruct (lt_eq_lt_dec i k) as [[Hik| ->]|Hik]; [exfalso|done|exfalso].
      * apply (Hbefore i i); [apply lookup_seq; lia|done|]. apply Hu'; [lia|done].
      * apply (Hlt' k); [lia|]. by apply Hu'.
    + exfalso. apply (free_search_none _ _ _ Es k); [lia|]. by apply Hu'.
  - apply list_find_None in E. rewrite Forall_forall in E.
    assert (slot_count l = 24) as ->; [|done]. apply slot_count_full.
    intros a (i & Hi & ->)%elem_of_slots. destruct (decide (evt_addr i ∈ l)) as [|Hni]; [done|].
    exfalso. apply (E i); [apply elem_of_seq; lia|done].
Qed.
End pool.

(** ** The abstract timers: pending timers with their remaining time *)

Inductive timer_op :=
  | TPost (func arg t_ms : Z)
  | TCancel (evt : Z)
  | TOn (evt t : Z)
  | TUnon (evt : Z)
  | TNearest
  | TExist (evt : Z).

Section refinement.
Context `{TimerEnvOk} (fuel : nat).
Implicit Types (s : timers) (l : list Z) (al : list (Z * Z)).

Definition timer_call (op : timer_op) (s : timers) : option (Z * timers) :=
  match op with
  | TPost f d t => ev_timer_taskPost fuel f d t s
  | TCancel evt => '(r, _, s') ← ev_timer_taskCancel fuel evt s; Some (r, s')
  | TOn evt t => s' ← ev_on_timer fuel evt t s; Some (0, s')
  | TUnon evt => s' ← ev_unon_timer fuel evt s; Some (0, s')
  | TNearest => Some (ev_timer_nearestGet s, s)
  | TExist evt => b ← ev_timer_exist fuel evt s; Some (c_bool b, s)
  end.

Definition set_time (evt t : Z) (al : list (Z * Z)) : list (Z * Z) :=
  map (fun p => if decide (p.1 = evt) then (p.1, t) else p) al.

Definition drop_timer (evt : Z) (al : list (Z * Z)) : list (Z * Z) :=
  filter (fun p => p.1 <> evt) al.

Definition time_of (al : list (Z * Z)) (a : Z) : Z :=
  default 0 (snd <$> (snd <$> list_find (fun p => p.1 = a) al)).

Definition timer_model (op : timer_op) (al : list (Z * Z)) : Z * list (Z * Z) :=
  match op with
  | TPost _ _ t =>
      match first_free al.*1 with
      | Some i => (evt_addr i, (evt_addr i, t) :: al)
      | None => (0, al)
      end
  | TCancel evt =>
      if decide (evt ∈ al.*1) then (SUCCESS, drop_timer evt al) else (NO_TIMER_AVAIL, al)
  | TOn evt t => (0, if decide (evt ∈ al.*1) then set_time evt t al else (evt, t) :: al)
  | TUnon evt => (0, drop_timer evt al)
  | TNearest => (nearest_of (time_of al) al.*1, al)
  | TExist evt => (c_bool (bool_decide (evt ∈ al.*1)), al)
  end.

(** Pool timers are posted and cancelled, static ones set and unset. *)
Definition timer_op_ok (op : timer_op) (al : list (Z * Z)) : Prop :=
  match op with
  | TCancel evt => evt = 0 \/ evt ∈ slots
  | TOn evt _ => static_timer evt
  | TUnon evt => evt ∈ slots \/ static_timer evt
  | _ => True
  end.

Record holds_timers (s : timers) (al : list (Z * Z)) : Prop := {
  ht_ok : timers_ok s al.*1;
  ht_time a t : (a, t) ∈ al -> timeout (ev (heap s) a) = t;
}.

Lemma core_field (g : ev_timer_event_t -> Z) h h' a :
  (forall e, g (core e) = g e) -> core (ev h' a) = core (ev h a) -> g (ev h' a) = g (ev h a).
Proof. intros Hg E. by rewrite <- (Hg (ev h' a)), E, Hg. Qed.

Lemma set_time_fst evt t al : (set_time evt t al).*1 = al.*1.
Proof.
  unfold set_time. induction al as [|p al IH]; [done|]. cbn [map]. rewrite !fmap_cons, IH. by case_decide.
Qed.

Lemma drop_timer_fst evt l1 l2 al : NoDup al.*1 -> al.*1 = l1 ++ evt :: l2 -> (drop_timer evt al).*1 = l1 ++ l2.
Proof.
  revert l1. induction al as [|p al IH]; intros l1 Hnd E; [by destruct l1|].
  unfold drop_timer. rewrite filter_cons. rewrite fmap_cons in Hnd, E. apply NoDup_cons in Hnd as [Hp Hnd].
  destruct l1 as [|b l1]; injection E as E1 E2.
  - rewrite decide_False by (intros ?; done).
    assert (forall al' : list (Z * Z), evt ∉ al'.*1 -> filter (fun p => p.1 <> evt) al' = al') as Hid.
    { induction al' as [|p' al' IH']; intros Hni; [done|]. rewrite filter_cons, decide_True by set_solver.
      rewrite IH'; set_solver. }
    rewrite Hid; [done|]. by rewrite <- E1.
  - rewrite decide_True; [rewrite fmap_cons, E1; simpl; f_equal; by apply IH|].
    intros Ep. apply Hp. rewrite E2, Ep. set_solver.
Qed.

Lemma drop_timer_absent evt al : evt ∉ al.*1 -> drop_timer evt al = al.
Proof.
  unfold drop_timer. induction al as [|p al IH]; intros Hni; [done|].
  rewrite filter_cons, decide_True by set_solver. rewrite IH; set_solver.
Qed.

Lemma time_of_elem al a t : NoDup al.*1 -> (a, t) ∈ al -> time_of al a = t.
Proof.
  induction al as [|[b u] al IH]; intros Hnd Hin; [set_solver|].
  apply NoDup_cons in Hnd as [Hb Hnd]. unfold time_of. simpl.
  destruct (decide (b = a)) as [->|Hne]; simpl.
  - apply elem_of_cons in Hin as [[= ->]|Hin]; [done|]. exfalso. apply Hb.
    apply list_elem_of_fmap. by exists (a, t).
  - apply elem_of_cons in Hin as [[= -> ->]|Hin]; [done|]. rewrite <- (IH Hnd Hin). unfold time_of.
    by destruct (list_find _ al) as [[? ?]|].
Qed.

Lemma holds_NoDup_timers s al : holds_timers s al -> NoDup al.*1.
Proof. intros [Hok _]. exact (lchain_NoDup _ _ _ (tk_chain _ _ Hok)). Qed.

(** Removing a pending timer keeps the invariant. *)
Lemma unon_ok s l1 evt l2 s' :
  timers_list s (l1 ++ evt :: l2) -> (length (l1 ++ evt :: l2) < fuel)%nat ->
  ev_unon_timer fuel evt s = Some s' ->
  timers_ok s' (l1 ++ l2) /\ (forall a, a <> evt -> core (ev (heap s') a) = core (ev (heap s) a)) /\ same_rest s s'.
Proof.
  intros Hok Hf E. pose proof Hok as [Hc Hk Hu Hnum Hq].
  destruct (ev_unon_timer_spec fuel s l1 evt l2 Hq Hc Hf) as (s1 & E1 & Hc' & Hnr' & Hcore & [Hus Hn] & _ & _ & _ & Hrest).
  rewrite E in E1. injection E1 as <-. split; [|done].
  pose proof (lchain_NoDup _ _ _ Hc) as Hnd.
  assert (evt ∉ l1 ++ l2) as Hni.
  { apply NoDup_app in Hnd as (_ & Hd & Hnd). apply NoDup_cons in Hnd as [? _].
    intros [Hin|Hin]%elem_of_app; [|done]. eapply Hd; [exact Hin|set_solver]. }
  assert (slot_count (l1 ++ evt :: l2) = slot_count (l1 ++ l2) + if decide (evt ∈ slots) then 1 else 0) as Hcnt.
  { rewrite <- slot_count_cons by done. apply slot_count_perm. set_solver. }
  assert (evt ∈ l1 ++ evt :: l2) as Hin by set_solver.
  split; [|done]. split.
  - done.
  - intros a Ha. apply Hk. set_solver.
  - intros a Ha. destruct (decide (a = evt)) as [->|Hne].
    + assert (pool_range evt /\ used (ev (heap s) evt) <> 0) as Hfreed.
      { split; [by apply slot_range|]. by rewrite (Hu evt Ha), bool_decide_true. }
      rewrite Hus, (bool_decide_true _ Hfreed), bool_decide_false by done. done.
    + rewrite (core_field used (heap s)) by (done || by apply Hcore). rewrite Hu by done. f_equal.
      apply bool_decide_ext. set_solver.
  - rewrite Hn, Hnum, Hcnt. pose proof (slot_count_bound (l1 ++ l2)).
    pose proof (slot_count_bound (l1 ++ evt :: l2)).
    destruct (decide (evt ∈ slots)) as [Hs|Hs].
    + rewrite bool_decide_true.
      * rewrite u32_small; lia.
      * split; [by apply slot_range|]. by rewrite (Hu evt Hs), bool_decide_true.
    + rewrite bool_decide_false; [lia|]. intros [Hr _]. destruct (Hk evt Hin) as [?|[_ ?]]; done.
  - unfold irq_ok. destruct Hrest as (_ & _ & _ & -> & _). done.
Qed.

Lemma drop_sim s al evt s' :
  holds_timers s al -> (length al < fuel)%nat -> evt <> 0 -> ev_unon_timer fuel evt s = Some s' ->
  holds_timers s' (drop_timer evt al) /\ same_rest s s'.
Proof.
  intros Hh Hf Hz E. pose proof Hh as [Hok Ht]. pose proof (holds_NoDup_timers _ _ Hh) as Hnd.
  destruct (decide (evt ∈ al.*1)) as [Hin|Hni].
  - apply list_elem_of_split in Hin as (l1 & l2 & Eal). rewrite Eal in Hok.
    destruct (unon_ok s l1 evt l2 s' Hok) as (Hok' & Hcore & Hrest); [by rewrite <- Eal, length_fmap|done|].
    split; [|done]. split.
    + by rewrite (drop_timer_fst evt l1 l2).
    + intros a t [Hne Hin]%list_elem_of_filter. simpl in Hne.
      rewrite (core_field timeout (heap s)) by (done || by apply Hcore). by apply Ht.
  - rewrite (ev_unon_timer_absent fuel s al.*1) in E by (done || (rewrite length_fmap; done) || apply Hok).
    injection E as <-. rewrite drop_timer_absent by done. done.
Qed.

Lemma unon_total s al evt :
  holds_timers s al -> (length al < fuel)%nat -> evt <> 0 -> exists s', ev_unon_timer fuel evt s = Some s'.
Proof.
  intros [Hok Ht] Hf Hz. destruct (decide (evt ∈ al.*1)) as [Hin|Hni].
  - apply list_elem_of_split in Hin as (l1 & l2 & Eal). rewrite Eal in Hok.
    destruct (ev_unon_timer_spec fuel s l1 evt l2) as (s1 & E1 & _); [apply Hok|apply Hok|by rewrite <- Eal, length_fmap|].
    by exists s1.
  - exists s. apply (ev_unon_timer_absent fuel s al.*1); [apply Hok|by rewrite length_fmap|done|done].
Qed.

(** Setting a timer keeps the invariant, once its slot is marked. *)
Lemma on_ok s l evt t s' :
  irq_ok (t_cpu s) -> lchain (heap s) (timer_head s) l -> (forall a, a ∈ l -> a ∈ slots \/ static_timer a) ->
  (evt ∈ slots \/ static_timer evt) ->
  (forall a, a ∈ slots -> used (ev (heap s) a) = c_bool (bool_decide (a ∈ on_list evt l))) ->
  used_num s = slot_count (on_list evt l) -> (S (length l) < fuel)%nat ->
  ev_on_timer fuel evt t s = Some s' ->
  timers_ok s' (on_list evt l) /\ timeout (ev (heap s') evt) = t /\
  (forall a, a <> evt -> core (ev (heap s') a) = core (ev (heap s) a)) /\ same_rest s s'.
Proof.
  intros Hq Hc Hk Hevt Hu Hnum Hf E.
  assert (evt <> 0) as Hz by (destruct Hevt as [Hs|[? _]]; [by apply slot_range in Hs as [_ ?]|done]).
  destruct (ev_on_timer_spec fuel s l evt t Hq Hc Hz Hf)
    as (s1 & E1 & Hc' & Hnr' & Hcore & _ & _ & Hto & _ & Hus & _ & Hn & Hrest).
  rewrite E in E1. injection E1 as <-. split; [|done]. split; [|done]. split.
  - done.
  - intros a. unfold on_list. destruct (decide (evt ∈ l)); [apply Hk|].
    intros [->|?]%elem_of_cons; [done|by apply Hk].
  - intros a Ha. rewrite <- Hu by done. destruct (decide (a = evt)) as [->|Hne]; [done|].
    by apply (core_field used); [|apply Hcore].
  - congruence.
  - unfold irq_ok. destruct Hrest as (_ & _ & _ & -> & _). done.
Qed.

Lemma on_list_fst evt t al :
  (if decide (evt ∈ al.*1) then set_time evt t al else (evt, t) :: al).*1 = on_list evt al.*1.
Proof. unfold on_list. case_decide; [apply set_time_fst|done]. Qed.

Lemma on_times s s' al evt t a u :
  (forall a t, (a, t) ∈ al -> timeout (ev (heap s) a) = t) ->
  timeout (ev (heap s') evt) = t ->
  (forall a, a <> evt -> core (ev (heap s') a) = core (ev (heap s) a)) ->
  (a, u) ∈ (if decide (evt ∈ al.*1) then set_time evt t al else (evt, t) :: al) ->
  timeout (ev (heap s') a) = u.
Proof.
  intros Ht Hto Hcore Hin. destruct (decide (a = evt)) as [->|Hne].
  - rewrite Hto. case_decide as Hd.
    + unfold set_time in Hin. apply list_elem_of_In, in_map_iff in Hin as ([b v] & Hp & _). simpl in Hp.
      case_decide; by simplify_eq.
    + apply elem_of_cons in Hin as [[= <-]|Hin]; [done|]. exfalso. apply Hd.
      apply list_elem_of_fmap. by exists (evt, u).
  - rewrite (core_field timeout (heap s)) by (done || by apply Hcore). apply Ht.
    case_decide as Hd.
    + unfold set_time in Hin. apply list_elem_of_In, in_map_iff in Hin as ([b v] & Hp & Hbv). simpl in Hp.
      apply list_elem_of_In in Hbv. case_decide; by simplify_eq.
    + apply elem_of_cons in Hin as [[= -> ->]|Hin]; done.
Qed.

Lemma on_sim s al evt t :
  holds_timers s al -> (S (length al) < fuel)%nat -> static_timer evt ->
  exists s', ev_on_timer fuel evt t s = Some s' /\ same_rest s s' /\
    holds_timers s' (if decide (evt ∈ al.*1) then set_time evt t al else (evt, t) :: al).
Proof.
  intros [Hok Ht] Hf Hst. pose proof Hok as [[Hc Hk Hu Hnum Hq] _]. rewrite <- (length_fmap fst) in Hf.
  destruct (ev_on_timer_spec fuel s al.*1 evt t Hq Hc (proj1 Hst) Hf) as (s' & E & _).
  assert (evt ∉ slots) as Hns by (intros Hs; apply slot_range in Hs as [? _]; by destruct Hst).
  destruct (on_ok s al.*1 evt t s' Hq Hc Hk (or_intror Hst)) as (Hok' & Hto & Hcore & Hrest); [| |done|done|].
  - intros a Ha. rewrite Hu by done. f_equal. apply bool_decide_ext. unfold on_list.
    assert (a <> evt) by (by intros ->). case_decide; set_solver.
  - rewrite Hnum. unfold on_list. destruct (decide (evt ∈ al.*1)); [done|].
    rewrite slot_count_cons by done. rewrite decide_False by done. lia.
  - exists s'. split; [done|]. split; [done|]. split; [by rewrite on_list_fst|].
    intros a u. by apply on_times with (s := s).
Qed.

Lemma with_tcpu_ok s l c : timers_ok s l -> irq_ok c -> timers_ok (with_tcpu c s) l.
Proof. intros [[???? _] ?] ?. by split; [split|]. Qed.

Lemma post_sim s al f d t :
  holds_timers s al -> (S (length al) < fuel)%nat ->
  exists s', ev_timer_taskPost fuel f d t s = Some ((timer_model (TPost f d t) al).1, s') /\
    holds_timers s' (timer_model (TPost f d t) al).2 /\ c_irq (t_cpu s') = c_irq (t_cpu s) /\
    ((timer_model (TPost f d t) al).1 <> 0 ->
      cb (ev (heap s') (timer_model (TPost f d t) al).1) = f /\
      data (ev (heap s') (timer_model (TPost f d t) al).1) = d).
Proof.
  intros [Hok Ht] Hf. pose proof Hok as [[Hc Hk Hu Hnum Hq] Hnr].
  unfold ev_timer_taskPost, ev_timer_add. destruct (drv_disable_irq (t_cpu s)) as [r c1] eqn:Ed.
  assert (irq_ok c1) as Hq1 by (unfold drv_disable_irq in Ed; injection Ed as _ <-; done).
  rewrite (freeGet_spec (with_tcpu c1 s) al.*1) by (by apply with_tcpu_ok).
  cbn [timer_model]. destruct (first_free al.*1) as [i|] eqn:Ef.
  - apply first_free_Some in Ef as (Hi & Hni & Hs). destruct (slot_range _ Hs) as [_ Hz].
    rewrite (proj2 (Z.eqb_neq (evt_addr i) 0) Hz). set (evt := evt_addr i) in *.
    set (s2 := upd_ev evt (fun e => set_data d (set_cb f e)) _).
    assert (forall a, a <> evt -> ev (heap s2) a = ev (heap s) a) as Hother.
    { intros a Ha. unfold s2. cbn. by rewrite !ev_upd, !decide_False by done. }
    assert (lchain (heap s2) (timer_head s2) al.*1) as Hc2.
    { apply lseg_upd; [done|]. by apply lseg_upd. }
    assert (S (length al.*1) < fuel)%nat as Hf' by (by rewrite length_fmap).
    destruct (ev_on_timer_spec fuel s2 al.*1 evt t Hq1 Hc2 Hz Hf') as (s3 & E3 & _ & _ & _ & Hcb & Hd & _).
    assert (on_list evt al.*1 = evt :: al.*1) as Hon by (unfold on_list; by rewrite decide_False).
    destruct (on_ok s2 al.*1 evt t s3 Hq1 Hc2 Hk (or_introl Hs)) as (Hok3 & Hto & Hcore & Hrest); [| |done|done|].
    + rewrite Hon. intros a Ha. destruct (decide (a = evt)) as [->|Hne].
      * unfold s2. cbn. rewrite !ev_upd, !decide_True by done. cbn.
        by rewrite bool_decide_true by (by left).
      * rewrite Hother, Hu by done. f_equal. apply bool_decide_ext. set_solver.
    + rewrite Hon, slot_count_cons, decide_True by done. unfold s2. cbn. by rewrite Hnum.
    + rewrite E3. cbn [mbind option_bind fst snd].
      destruct (restore_irq s r c1 (t_cpu s3) Hq Ed) as (Hr & _); [apply Hrest..|].
      eexists. split; [done|]. split; [|split].
      * split; [rewrite fmap_cons; rewrite Hon in Hok3; apply with_tcpu_ok; [done|]|].
        { unfold irq_ok. by rewrite Hr. }
        intros a u [[= -> ->]|Hin]%elem_of_cons; [done|]. cbn [heap with_tcpu].
        assert (a <> evt). { intros ->. apply Hni. apply list_elem_of_fmap. by exists (evt, u). }
        rewrite (core_field timeout (heap s2)) by (done || by apply Hcore). rewrite Hother by done. by apply Ht.
      * done.
      * intros _. cbn [heap with_tcpu]. rewrite Hcb, Hd. unfold s2. cbn. rewrite !ev_upd, !decide_True by done. done.
  - cbn [Z.eqb]. destruct (restore_irq s r c1 c1 Hq Ed eq_refl eq_refl) as (Hr & _).
    eexists. split; [done|]. split; [|split; [done|done]]. split; [|done].
    apply with_tcpu_ok; [apply with_tcpu_ok; [by apply with_tcpu_ok|exact Hq1]|].
    unfold irq_ok. change (0 <= c_irq (drv_restore_irq r c1) < 256). by rewrite Hr.
Qed.

Lemma timer_step_sim op s al :
  holds_timers s al -> timer_op_ok op al -> (S (length al) < fuel)%nat ->
  exists s', timer_call op s = Some ((timer_model op al).1, s') /\
    holds_timers s' (timer_model op al).2 /\ c_irq (t_cpu s') = c_irq (t_cpu s).
Proof.
  intros Hh Hop Hf. pose proof Hh as [Hok Ht]. destruct op as [f d t|evt|evt t|evt| |evt]; cbn [timer_call].
  - destruct (post_sim s al f d t Hh Hf) as (s' & E & ? & ? & _). by exists s'.
  - unfold ev_timer_taskCancel. cbn [timer_model]. destruct (decide (evt ∈ al.*1)) as [Hin|Hni].
    + destruct Hop as [->|Hs].
      { exfalso. by apply (lseg_node (T := theap) _ _ _ _ _ (tk_chain _ _ Hok)) in Hin. }
      destruct (slot_range _ Hs) as [_ Hz]. rewrite (proj2 (Z.eqb_neq evt 0) Hz).
      rewrite (tk_used _ _ Hok evt Hs), bool_decide_true by done. cbn [c_bool Z.eqb orb].
      destruct (unon_total s al evt Hh) as (s' & E); [lia|done|]. rewrite E. cbn [mbind option_bind].
      destruct (drop_sim s al evt s' Hh ltac:(lia) Hz E) as (? & _ & _ & _ & ? & _). by exists s'.
    + assert ((evt =? 0) || (used (ev (heap s) evt) =? 0) = true) as ->.
      { destruct Hop as [->|Hs]; [done|]. by rewrite (tk_used _ _ Hok evt Hs), bool_decide_false, orb_true_r. }
      by exists s.
  - destruct (on_sim s al evt t Hh Hf Hop) as (s' & -> & Hr & ?). exists s'. cbn. split_and!; [done|done|apply Hr].
  - assert (evt <> 0) as Hz by (destruct Hop as [Hs|[? _]]; [by apply slot_range in Hs as [_ ?]|done]).
    destruct (unon_total s al evt Hh) as (s' & E); [lia|done|]. rewrite E.
    destruct (drop_sim s al evt s' Hh ltac:(lia) Hz E) as (? & _ & _ & _ & ? & _). by exists s'.
  - exists s. split; [|done]. unfold ev_timer_nearestGet. rewrite (tk_nearest _ _ Hok). do 2 f_equal.
    apply nearest_of_ext. intros a Ha. apply list_elem_of_fmap in Ha as ([b u] & -> & Hin). simpl.
    rewrite (time_of_elem al b u); [by apply Ht|by eapply holds_NoDup_timers|done].
  - unfold ev_timer_exist. rewrite (exist_loop_spec fuel _ _ al.*1) by (apply Hok || (rewrite length_fmap; lia)).
    by exists s.
Qed.

Fixpoint timer_calls (ops : list timer_op) (s : timers) : option (list Z * timers) :=
  match ops with
  | [] => Some ([], s)
  | op :: ops' => '(r, s1) ← timer_call op s; '(rs, s2) ← timer_calls ops' s1; Some (r :: rs, s2)
  end.

Fixpoint timer_models (ops : list timer_op) (al : list (Z * Z)) : list Z * list (Z * Z) :=
  match ops with
  | [] => ([], al)
  | op :: ops' =>
      let '(r, a1) := timer_model op al in let '(rs, a2) := timer_models ops' a1 in (r :: rs, a2)
  end.

Fixpoint timer_ops_ok (ops : list timer_op) (al : list (Z * Z)) : Prop :=
  match ops with
  | [] => True
  | op :: ops' => timer_op_ok op al /\ timer_ops_ok ops' (timer_model op al).2
  end.

Lemma timer_model_length op al : (length (timer_model op al).2 <= S (length al))%nat.
Proof.
  assert (forall evt, length (drop_timer evt al) <= length al)%nat as Hd by (intros; apply length_filter).
  destruct op as [f d t|evt|evt t|evt| |evt]; cbn [timer_model snd]; try lia.
  - destruct (first_free al.*1); cbn [snd length]; lia.
  - specialize (Hd evt). case_decide; cbn [snd]; lia.
  - case_decide; cbn [length]; [|lia]. unfold set_time. rewrite length_map. lia.
  - specialize (Hd evt). lia.
Qed.

Lemma timer_calls_sim ops s al :
  holds_timers s al -> timer_ops_ok ops al -> (S (length al + length ops) < fuel)%nat ->
  exists s', timer_calls ops s = Some ((timer_models ops al).1, s') /\
    holds_timers s' (timer_models ops al).2 /\ c_irq (t_cpu s') = c_irq (t_cpu s).
Proof.
  revert s al. induction ops as [|op ops IH]; intros s al Hh Hok Hf; [by exists s|].
  destruct Hok as [Hok1 Hok]. cbn [length] in Hf.
  destruct (timer_step_sim op s al Hh Hok1) as (s1 & E1 & Hh1 & Hi1); [lia|].
  pose proof (timer_model_length op al).
  destruct (IH s1 _ Hh1 Hok) as (s2 & E2 & Hh2 & Hi2); [lia|].
  exists s2. cbn [timer_calls timer_models]. rewrite E1. cbn [mbind option_bind]. rewrite E2. cbn [mbind option_bind].
  destruct (timer_model op al) as [r a1]. cbn [fst snd] in *. destruct (timer_models ops a1).
  split_and!; [done|done|congruence].
Qed.

Lemma init_holds s : irq_ok (t_cpu s) -> holds_timers (ev_timer_init s) [].
Proof.
  intros Hq. split; [|intros a t Hin; by apply not_elem_of_nil in Hin]. split; [|reflexivity]. split.
  - reflexivity.
  - intros a Ha. by apply not_elem_of_nil in Ha.
  - intros a Ha%elem_of_slots. destruct Ha as (i & Hi & ->). cbn [ev_timer_init heap with_num with_nearest with_head with_heap].
    rewrite bool_decide_false by set_solver. simpl c_bool. change (Z.to_nat TIMER_EVENT_NUM) with 24%nat.
    assert (forall k j h, (j <= i < j + k)%nat ->
      ev (foldr (fun i h => <[evt_addr i := ev_zero]> h) h (seq j k)) (evt_addr i) = ev_zero) as Hz.
    { induction k as [|k IH]; intros j h ?; [lia|]. cbn [seq foldr]. unfold ev.
      destruct (decide (i = j)) as [->|Hne]; [by rewrite lookup_insert_eq|].
      rewrite lookup_insert_ne by (intros ?%evt_addr_inj; done). apply IH. lia. }
    rewrite Hz by lia. done.
  - unfold slot_count. cbn [ev_timer_init used_num with_num].
    assert (forall P : list Z, filter (fun a => a ∈ []) P = []) as ->; [|reflexivity].
    induction P as [|y P IH]; [reflexivity|]. rewrite filter_cons, decide_False by set_solver. exact IH.
  - exact Hq.
Qed.
End refinement.

(** ** The passage of time *)

Section time.
Context `{TimerEnvOk} (fuel : nat).
Implicit Types (s : timers) (l : list Z) (h : theap).

Lemma update_loop_spec n d now h p l :
  lchain h p l -> (length l < n)%nat ->
  exists h', update_loop n d now h p = Some h' /\
    forall a, ev h' a = if decide (a ∈ l) then update_one d now (ev h a) else ev h a.
Proof.
  revert n h p. induction l as [|b l IH]; intros [|n] h p Hl Hn; simpl in Hn; try lia; cbn [update_loop].
  - simpl in Hl. subst p. exists h. split; [done|]. done.
  - pose proof (lchain_NoDup _ _ (b :: l) Hl) as [Hb _]%NoDup_cons. destruct Hl as (-> & Hz & Hl).
    rewrite (proj2 (Z.eqb_neq b 0) Hz). set (h1 := upd b (update_one d now) h).
    assert (forall e, next (update_one d now e) = next e) as Hnx.
    { intros e. unfold update_one. by destruct (isRunning e =? 0). }
    assert (next (ev h1 b) = next (ev h b)) as ->.
    { unfold h1. by rewrite ev_upd, decide_True, Hnx by done. }
    destruct (IH n h1 (next (ev h b))) as (h' & -> & Hh'); [by apply lseg_upd; [apply Hnx|]|lia|].
    exists h'. split; [done|]. intros a. rewrite Hh'. unfold h1. rewrite ev_upd.
    destruct (decide (b = a)) as [->|Hne].
    + rewrite (decide_False (P := a ∈ l)) by done. by rewrite decide_True by (by left).
    + destruct (decide (a ∈ l)), (decide (a ∈ b :: l)); try done; set_solver.
Qed.

Lemma exec_loop_idle n s p ph l :
  lchain (heap s) p l -> (length l < n)%nat -> (forall a, a ∈ l -> timeout (ev (heap s) a) <> 0) ->
  exec_loop fuel n p ph s = Some s.
Proof.
  revert n p. induction l as [|b l IH]; intros [|n] p Hl Hn Ht; simpl in Hn; try lia; cbn [exec_loop].
  - simpl in Hl. by subst p.
  - destruct Hl as (-> & Hz & Hl). rewrite (proj2 (Z.eqb_neq b 0) Hz).
    rewrite (proj2 (Z.eqb_neq _ _) (Ht b ltac:(by left))). apply IH; [done|lia|].
    intros a Ha. apply Ht. by right.
Qed.

(** All the timers run and none is due within the next [e] milliseconds. *)
Record running (s : timers) (l : list Z) (e : Z) : Prop := {
  rn_chain : lchain (heap s) (timer_head s) l;
  rn_irq : irq_ok (t_cpu s);
  rn_run a : a ∈ l -> isRunning (ev (heap s) a) <> 0;
  rn_late a : a ∈ l -> e < timeout (ev (heap s) a);
}.

Lemma update_running s l e d :
  running s l e -> 0 < d <= e -> (length l < fuel)%nat ->
  exists s', ev_timer_update fuel d s = Some s' /\ running s' l (e - d) /\
    (forall a, a ∈ l -> timeout (ev (heap s') a) = timeout (ev (heap s) a) - d) /\
    prevSysTick s' = prevSysTick s /\ remSysTick s' = remSysTick s /\
    t_reads s' = S (t_reads s) /\ t_calls s' = t_calls s /\ c_irq (t_cpu s') = c_irq (t_cpu s).
Proof.
  intros [Hc Hq Hr Hl] Hd Hf. unfold ev_timer_update, clock_time.
  rewrite (proj2 (Z.eqb_neq d 0)) by lia. cbn [t_cpu with_reads heap timer_head].
  destruct (drv_disable_irq (t_cpu s)) as [r c1] eqn:Ed.
  destruct (update_loop_spec fuel d (u32 (clk (t_reads s))) _ _ _ Hc Hf) as (h' & -> & Hh').
  cbn [mbind option_bind].
  destruct (restore_irq s r c1 c1 Hq Ed eq_refl eq_refl) as (Hirq & _).
  assert (forall a, a ∈ l -> ev h' a = set_timeout (timeout (ev (heap s) a) - d) (ev (heap s) a)) as Hev.
  { intros a Ha. rewrite Hh', decide_True by done. unfold update_one.
    rewrite (proj2 (Z.eqb_neq _ _) (Hr a Ha)). cbn [negb].
    rewrite (proj2 (Z.ltb_lt _ _)); [done|]. specialize (Hl a Ha). lia. }
  eexists. split; [done|]. split_and!; [|..|done|done|done|done|exact Hirq].
  - split; cbn [heap timer_head t_cpu with_tcpu with_heap with_reads].
    + apply (theap_ext (heap s)); [|done]. intros a Ha. by rewrite Hev.
    + unfold irq_ok. by rewrite Hirq.
    + intros a Ha. rewrite Hev by done. by apply Hr.
    + intros a Ha. rewrite Hev by done. cbn. specialize (Hl a Ha). lia.
  - intros a Ha. cbn [heap with_tcpu with_heap with_reads]. by rewrite Hev.
Qed.

Lemma execute_idle s l e :
  running s l e -> 0 <= e -> (length l < fuel)%nat ->
  ev_timer_executeCB fuel s = Some (with_nearest (nearest_of (timeouts (heap s)) l) s).
Proof.
  intros [Hc Hq Hr Hl] He Hf. unfold ev_timer_executeCB.
  rewrite (exec_loop_idle fuel s _ _ l) by (done || (intros a Ha; specialize (Hl a Ha); lia)).
  cbn [mbind option_bind]. by apply nearestUpdate_spec.
Qed.

(** One call of [ev_timer_process], at real time [clk (t_reads s)]: the ticks
    since the last one, with the remainder, are whole milliseconds and a new
    remainder. *)
Lemma process_split s P :
  prevSysTick s = u32 P -> 0 <= remSysTick s < ticks_per_ms -> 0 <= clk (t_reads s) - P < 2 ^ 32 ->
  let t := remSysTick s + (clk (t_reads s) - P) in
  let s1 := with_ticks (u32 (clk (t_reads s))) (t mod ticks_per_ms) (with_reads (S (t_reads s)) s) in
  ev_timer_process fuel s =
    if t / ticks_per_ms =? 0 then Some s1
    else s2 ← ev_timer_update fuel (t / ticks_per_ms) s1; ev_timer_executeCB fuel s2.
Proof.
  intros Hprev Hrem HD t s1. pose proof ticks_pos as Hk1. pose proof ticks_small as Hk2.
  unfold ev_timer_process, clock_time. cbn [prevSysTick remSysTick with_reads t_reads]. rewrite Hprev.
  set (D := clk (t_reads s) - P) in *.
  assert (1000 <= ticks_per_ms < 2 ^ 31) as HK by (unfold ticks_per_ms; lia).
  set (K := ticks_per_ms) in *.
  assert (u32 (u32 (clk (t_reads s)) - u32 P) = D) as HDu.
  { unfold u32. rewrite <- Zminus_mod. by rewrite Z.mod_small. }
  assert (t / K = D / K + (remSysTick s + D mod K) / K) as Hu.
  { unfold t. rewrite (Z.div_mod D K) at 1 by lia.
    replace (remSysTick s + (K * (D / K) + D mod K)) with ((remSysTick s + D mod K) + D / K * K) by lia.
    rewrite Z.div_add by lia. lia. }
  pose proof (Z.mod_pos_bound D K ltac:(lia)) as HDm.
  assert (0 <= D / K < 2 ^ 31) as HDk by (split; [apply Z.div_pos; lia|apply Z.div_lt_upper_bound; nia]).
  assert (0 <= (remSysTick s + D mod K) / K <= 1) as Hr1.
  { split; [apply Z.div_pos; lia|]. apply Z.lt_succ_r. apply Z.div_lt_upper_bound; [lia|]. unfold D in *. lia. }
  assert ((remSysTick s + D mod K) mod K = t mod K) as Hm by (apply Zplus_mod_idemp_r).
  destruct (Z.eqb_spec (u32 (clk (t_reads s))) (u32 P)) as [E|E].
  - assert (D = 0) as HD0.
    { rewrite E, Z.sub_diag in HDu. unfold u32 in HDu. rewrite Z.mod_0_l in HDu; lia. }
    unfold s1, t. rewrite HD0, Z.add_0_r, Z.mod_small, Z.div_small, E, <- Hprev by lia. by destruct s.
  - rewrite HDu, (u32_small (remSysTick s + D mod K)), <- Hu, (u32_small (t / K)), Hm by lia.
    fold s1. by destruct (t / K =? 0).
Qed.

Lemma process_running s l P e :
  running s l e -> (length l < fuel)%nat ->
  prevSysTick s = u32 P -> 0 <= remSysTick s < ticks_per_ms ->
  0 <= clk (t_reads s) - P < 2 ^ 32 ->
  (remSysTick s + (clk (t_reads s) - P)) / ticks_per_ms <= e ->
  let u := (remSysTick s + (clk (t_reads s) - P)) / ticks_per_ms in
  exists s', ev_timer_process fuel s = Some s' /\ running s' l (e - u) /\
    prevSysTick s' = u32 (clk (t_reads s)) /\
    remSysTick s' = (remSysTick s + (clk (t_reads s) - P)) mod ticks_per_ms /\
    (forall a, a ∈ l -> timeout (ev (heap s') a) = timeout (ev (heap s) a) - u) /\
    (t_reads s < t_reads s' <= t_reads s + 2)%nat /\ t_calls s' = t_calls s /\
    c_irq (t_cpu s') = c_irq (t_cpu s).
Proof.
  intros Hrun Hf Hprev Hrem HD He u. rewrite (process_split s P) by done. fold u. set (s1 := with_ticks _ _ _).
  assert (0 <= u) as Hu0 by (pose proof ticks_pos; apply Z.div_pos; unfold ticks_per_ms; lia).
  assert (running s1 l e) as Hrun1 by (destruct Hrun as [????]; by split).
  destruct (Z.eqb_spec u 0) as [E|E].
  - rewrite E, Z.sub_0_r. exists s1. split; [done|]. unfold s1. cbn.
    split_and!; [done|done|done|intros; lia|lia|lia|done|done].
  - destruct (update_running s1 l e u Hrun1) as (s3 & -> & Hrun3 & Ht3 & Hp3 & Hr3 & Hn3 & Hc3 & Hi3); [lia|done|].
    cbn [mbind option_bind]. rewrite (execute_idle s3 l (e - u)) by (done || lia).
    eexists. split; [done|]. cbn. rewrite Hp3, Hr3, Hn3, Hc3, Hi3. unfold s1. cbn.
    split_and!; [|done|done|exact Ht3|lia|lia|done|done]. destruct Hrun3 as [????]. by split.
Qed.

Fixpoint process_n (n : nat) (s : timers) : option timers :=
  match n with
  | O => Some s
  | S n' => s1 ← ev_timer_process fuel s; process_n n' s1
  end.

Lemma clk_mono (Hclk : forall i, clk i <= clk (S i)) i j : (i <= j)%nat -> clk i <= clk j.
Proof. induction 1; [lia|]. specialize (Hclk m). lia. Qed.

Lemma process_n_running n s l P e :
  (forall i, clk i <= clk (S i)) -> (forall i, clk (S (S i)) - clk i < 2 ^ 32) ->
  running s l e -> (length l < fuel)%nat ->
  prevSysTick s = u32 P -> 0 <= remSysTick s < ticks_per_ms ->
  P <= clk (t_reads s) -> clk (t_reads s) - P < 2 ^ 32 ->
  (remSysTick s + (clk (t_reads s + 2 * n) - P)) / ticks_per_ms <= e ->
  exists s' Q, process_n n s = Some s' /\ prevSysTick s' = u32 Q /\ P <= Q <= clk (t_reads s + 2 * n) /\
    ((0 < n)%nat -> clk (t_reads s) <= Q) /\
    remSysTick s' = (remSysTick s + (Q - P)) mod ticks_per_ms /\
    (forall a, a ∈ l -> timeout (ev (heap s') a) = timeout (ev (heap s) a) - (remSysTick s + (Q - P)) / ticks_per_ms) /\
    t_calls s' = t_calls s /\ c_irq (t_cpu s') = c_irq (t_cpu s).
Proof.
  intros Hmono Hgap. revert s P e. induction n as [|n IH]; intros s P e Hrun Hf Hprev Hrem HP HD He.
  { exists s, P. rewrite Z.sub_diag, Z.add_0_r, Z.mod_small, Z.div_small by done. rewrite Nat.add_0_r.
    split_and!; [done|done|done|done|lia|done|intros; lia|done|done]. }
  pose proof ticks_pos as Hk1. assert (0 < ticks_per_ms) as HK by (unfold ticks_per_ms; lia).
  set (N := clk (t_reads s)) in *.
  assert (N <= clk (t_reads s + 2 * S n)) as HNe by (apply clk_mono; [done|lia]).
  set (u := (remSysTick s + (N - P)) / ticks_per_ms).
  assert (u <= e) as Hue. { etransitivity; [|exact He]. apply Z.div_le_mono; lia. }
  destruct (process_running s l P e Hrun Hf Hprev Hrem) as (s1 & E1 & Hrun1 & Hp1 & Hr1 & Ht1 & Hn1 & Hc1 & Hi1);
    [fold N; lia|done|]. fold N u in Hrun1, Hp1, Hr1, Ht1.
  assert (ticks_per_ms <> 0) as HK0 by lia.
  pose proof (Z.div_mod (remSysTick s + (N - P)) ticks_per_ms HK0) as Hdm. fold u in Hdm. rewrite <- Hr1 in Hdm.
  pose proof (Z.mod_pos_bound (remSysTick s + (N - P)) ticks_per_ms HK) as Hmb. rewrite <- Hr1 in Hmb.
  assert (clk (t_reads s1 + 2 * n) <= clk (t_reads s + 2 * S n)) as Hend by (apply clk_mono; [done|lia]).
  assert (forall X, (remSysTick s + (X - P)) = (remSysTick s1 + (X - N)) + u * ticks_per_ms) as Hsplit by (intros; lia).
  destruct (IH s1 N (e - u) Hrun1 Hf Hp1 Hmb) as (s2 & Q & E2 & Hp2 & HQ & _ & Hr2 & Ht2 & Hc2 & Hi2).
  { apply clk_mono; [done|lia]. }
  { assert (clk (t_reads s1) <= clk (S (S (t_reads s)))) by (apply clk_mono; [done|lia]).
    specialize (Hgap (t_reads s)). unfold N. lia. }
  { rewrite (Hsplit (clk (t_reads s + 2 * S n))), Z.div_add in He by lia.
    enough ((remSysTick s1 + (clk (t_reads s1 + 2 * n) - N)) / ticks_per_ms <=
      (remSysTick s1 + (clk (t_reads s + 2 * S n) - N)) / ticks_per_ms) by lia.
    apply Z.div_le_mono; lia. }
  exists s2, Q. cbn [process_n]. rewrite E1. cbn [mbind option_bind].
  rewrite Hsplit, Z.div_add, Z.mod_add by lia.
  split_and!; [done|done|lia|lia|intros; lia|done| |congruence|congruence].
  intros a Ha. rewrite Ht2, Ht1 by done. lia.
Qed.
End time.

(** ** Firing the expired timers *)

(** Callbacks that leave the timers alone and only return a value. *)
Class QuietCallbacks `{TimerEnv} := {
  cb_ret : Z -> Z -> Z;
  cb_quiet f d s : cb_call f d s = (cb_ret f d, s);
}.

Section firing.
Context `{TimerEnvOk, !QuietCallbacks} (fuel : nat).
Implicit Types (s : timers) (l : list Z) (h : theap) (e : ev_timer_event_t).

Definition due e : Prop := timeout e = 0.
#[export] Instance due_dec e : Decision (due e).
Proof. unfold due. apply _. Defined.

(** The callback of a due timer asks for its removal. *)
Definition one_shot e : Prop := due e /\ cb_ret (cb e) (data e) < 0.
#[export] Instance one_shot_dec e : Decision (one_shot e).
Proof. unfold one_shot. apply _. Defined.

(** What a due timer that stays becomes: reloaded with its period or with the
    interval its callback returned. *)
Definition reload e : ev_timer_event_t :=
  if decide (due e) then
    let t := cb_ret (cb e) (data e) in
    if t =? 0 then set_timeout (period e) e else set_timeout (u32 t) (set_period (u32 t) e)
  else e.

Definition due_in h l : list Z := filter (fun a => due (ev h a)) l.
Definition staying h l : list Z := filter (fun a => ~ one_shot (ev h a)) l.

Lemma due_core e : due (core e) <-> due e. Proof. reflexivity. Qed.
Lemma due_cores e e' : core e' = core e -> (due e' <-> due e).
Proof. intros E. by rewrite <- (due_core e'), E. Qed.
Lemma one_shot_cores e e' : core e' = core e -> (one_shot e' <-> one_shot e).
Proof.
  destruct e as [? ? ? ? ? ? ? ?], e' as [? ? ? ? ? ? ? ?]. unfold core, set_next. cbn.
  intros E. injection E; intros; subst. unfold one_shot, due. cbn. reflexivity.
Qed.
Lemma reload_cores e e' : core e' = core e -> core (reload e') = core (reload e).
Proof.
  intros E. destruct e as [? ? ? ? ? ? ? ?], e' as [? ? ? ? ? ? ? ?]. unfold core, set_next in E. cbn in E.
  injection E; intros; subst. unfold reload. cbn.
  repeat case_decide; unfold due in *; cbn in *; try done. by destruct (cb_ret _ _ =? 0).
Qed.

Lemma due_in_ext h h' l : (forall a, a ∈ l -> core (ev h' a) = core (ev h a)) -> due_in h' l = due_in h l.
Proof.
  intros He. unfold due_in. induction l as [|a l IH]; [done|]. rewrite !filter_cons.
  rewrite IH by (intros; apply He; by right).
  rewrite (decide_ext (due (ev h' a)) (due (ev h a))); [done|]. apply due_cores, He. by left.
Qed.

Lemma staying_ext h h' l : (forall a, a ∈ l -> core (ev h' a) = core (ev h a)) -> staying h' l = staying h l.
Proof.
  intros He. unfold staying. induction l as [|a l IH]; [done|]. rewrite !filter_cons.
  rewrite IH by (intros; apply He; by right).
  rewrite (decide_ext (~ one_shot (ev h' a)) (~ one_shot (ev h a))); [done|].
  rewrite (one_shot_cores (ev h a)); [done|]. apply He. by left.
Qed.

(** Reloading a timer keeps the list. *)
Lemma upd_list s l evt f :
  timers_list s l ->
  (forall e, next (f e) = next e /\ used (f e) = used e) -> timers_list (upd_ev evt f s) l.
Proof.
  intros [Hc Hk Hu Hn Hq] Hf. split; [|done| |done|done].
  - apply lseg_upd; [apply Hf|done].
  - intros a Ha. cbn. rewrite <- Hu by done. rewrite ev_upd. case_decide; [subst; apply Hf|done].
Qed.

(** The visit of one due timer that stays: it is reloaded, nothing else changes. *)
Lemma exec_loop_fire n s evt :
  evt <> 0 -> due (ev (heap s) evt) -> ~ one_shot (ev (heap s) evt) ->
  exec_loop fuel (S n) evt (timer_head s) s =
  let s' := upd_ev evt reload (with_call evt s) in
  exec_loop fuel n (next (ev (heap s') evt)) (timer_head s') s'.
Proof.
  intros Hz Hd Ho. cbn [exec_loop]. rewrite (proj2 (Z.eqb_neq evt 0) Hz).
  rewrite (proj2 (Z.eqb_eq _ _) Hd). rewrite cb_quiet.
  set (e := ev (heap s) evt) in *. set (t := cb_ret (cb e) (data e)).
  assert (0 <= t) as Ht. { unfold one_shot in Ho. fold t in Ho. destruct (Z.ltb_spec t 0); [by destruct Ho|done]. }
  cmp_false (t <? 0).
  assert ((if t =? 0 then Some (upd_ev evt (fun e0 => set_timeout (period e0) e0) (with_call evt s))
    else Some (upd_ev evt (fun e0 => set_timeout (u32 t) (set_period (u32 t) e0)) (with_call evt s))) =
    Some (upd_ev evt reload (with_call evt s))) as ->.
  { assert (reload e = if t =? 0 then set_timeout (period e) e else set_timeout (u32 t) (set_period (u32 t) e)) as Er.
    { unfold reload. by rewrite decide_True. }
    unfold upd_ev, with_heap, upd. cbn [heap with_call]. fold e. rewrite Er. by destruct (t =? 0). }
  cbn [mbind option_bind]. cbn [timer_head upd_ev with_heap with_call]. by rewrite Z.eqb_refl.
Qed.

(** A due timer is called once; with a negative answer it leaves the list and
    the visit goes on with its successor, or with the new head. *)
Lemma exec_loop_remove n s l1 evt l2 :
  timers_list s (l1 ++ evt :: l2) -> (length (l1 ++ evt :: l2) < fuel)%nat -> one_shot (ev (heap s) evt) ->
  exists s', timers_list s' (l1 ++ l2) /\ t_calls s' = t_calls s ++ [evt] /\
    (forall a, a <> evt -> core (ev (heap s') a) = core (ev (heap s) a)) /\
    exec_loop fuel (S n) evt (timer_head s) s = exec_loop fuel n (head_ptr l2) (timer_head s') s'.
Proof.
  intros Hok Hf [Hd Hneg]. pose proof Hok as [Hc Hk Hu Hn Hq].
  assert (evt <> 0) as Hz by (apply (lseg_node (T := theap) _ _ _ _ _ Hc); set_solver).
  assert (timers_list (with_call evt s) (l1 ++ evt :: l2)) as Hok1 by (by split).
  destruct (ev_unon_timer_spec fuel (with_call evt s) l1 evt l2 Hq Hc Hf)
    as (s' & E & Hc' & _ & _ & _ & _ & Hhd & Hnx & Hrest).
  destruct (unon_ok fuel (with_call evt s) l1 evt l2 s' Hok1 Hf E) as (Hok' & Hcore & _).
  exists s'. split; [apply Hok'|]. split; [apply Hrest|]. split; [done|].
  cbn [exec_loop]. rewrite (proj2 (Z.eqb_neq evt 0) Hz), (proj2 (Z.eqb_eq _ _) Hd), cb_quiet.
  cmp_true (cb_ret (cb (ev (heap s) evt)) (data (ev (heap s) evt)) <? 0). rewrite E. cbn [mbind option_bind].
  rewrite Hhd. pose proof (lchain_head _ _ _ Hc) as Eh. rewrite Eh.
  pose proof (lchain_NoDup _ _ _ Hc) as Hnd.
  destruct l1 as [|b l1]; cbn [app head_ptr].
  - assert (evt <> head_ptr l2) as Hne.
    { destruct l2 as [|d l2]; [done|]. simpl. apply NoDup_cons in Hnd as [? _]. set_solver. }
    by rewrite (proj2 (Z.eqb_neq _ _) Hne).
  - rewrite Z.eqb_refl. cbn [negb]. by rewrite Hnx.
Qed.

Lemma exec_loop_spec n s l1 l2 :
  timers_list s (l1 ++ l2) -> (length (l1 ++ l2) < fuel)%nat -> (length l2 < n)%nat ->
  exists s', exec_loop fuel n (head_ptr l2) (timer_head s) s = Some s' /\
    timers_list s' (l1 ++ staying (heap s) l2) /\
    t_calls s' = t_calls s ++ due_in (heap s) l2 /\
    (forall a, a ∈ staying (heap s) l2 -> core (ev (heap s') a) = core (reload (ev (heap s) a))) /\
    (forall a, a ∉ l2 -> core (ev (heap s') a) = core (ev (heap s) a)).
Proof.
  revert n s l1. induction l2 as [|evt l2 IH]; intros [|n] s l1 Hok Hf Hn; simpl in Hn; try lia.
  { exists s. unfold staying, due_in. rewrite !filter_nil, !app_nil_r in *. split_and!; [done|done|done|set_solver|done]. }
  pose proof (lchain_NoDup _ _ _ (tk_chain _ _ Hok)) as Hnd.
  assert (evt ∉ l1 ++ l2) as Hni.
  { apply NoDup_app in Hnd as (_ & Hd & Hnd). apply NoDup_cons in Hnd as [? _].
    intros [Hin|Hin]%elem_of_app; [|done]. eapply Hd; [exact Hin|set_solver]. }
  assert (evt <> 0) as Hz by (apply (lseg_node (T := theap) _ _ _ _ _ (tk_chain _ _ Hok)); set_solver).
  unfold staying, due_in. rewrite !filter_cons. fold (staying (heap s) l2) (due_in (heap s) l2).
  simpl head_ptr. destruct (decide (one_shot (ev (heap s) evt))) as [Ho|Ho].
  - rewrite (decide_False (P := ~ one_shot _)) by tauto. rewrite decide_True by apply Ho.
    destruct (exec_loop_remove n s l1 evt l2 Hok Hf Ho) as (s1 & Hok1 & Hcalls & Hcore & ->).
    assert (forall a, a ∈ l2 -> core (ev (heap s1) a) = core (ev (heap s) a)) as Hc2.
    { intros a Ha. apply Hcore. intros ->. set_solver. }
    destruct (IH n s1 l1 Hok1) as (s' & -> & Hok' & Hcalls' & Hst & Hot);
      [rewrite length_app in *; simpl in Hf; lia|lia|].
    rewrite (staying_ext (heap s)) in Hok', Hst by done. rewrite (due_in_ext (heap s)) in Hcalls' by done.
    exists s'. split_and!; [done|done|by rewrite Hcalls', Hcalls, <- app_assoc|..].
    + intros a Ha. rewrite Hst by done. apply reload_cores, Hc2.
      unfold staying in Ha. apply list_elem_of_filter in Ha as [_ Ha]. done.
    + intros a Ha. rewrite Hot by set_solver. apply Hcore. set_solver.
  - rewrite (decide_True (P := ~ one_shot _)) by done.
    assert (exists s1, exec_loop fuel (S n) evt (timer_head s) s = exec_loop fuel n (head_ptr l2) (timer_head s1) s1 /\
      timers_list s1 (l1 ++ evt :: l2) /\
      t_calls s1 = t_calls s ++ (if decide (due (ev (heap s) evt)) then [evt] else []) /\
      core (ev (heap s1) evt) = core (reload (ev (heap s) evt)) /\
      forall a, a <> evt -> core (ev (heap s1) a) = core (ev (heap s) a))
      as (s1 & -> & Hok1 & Hcalls & Hevt & Hcore).
    { assert (forall s1, timers_list s1 (l1 ++ evt :: l2) -> next (ev (heap s1) evt) = head_ptr l2) as Hnx.
      { intros s1 [Hc1 _ _ _ _]. pose proof Hc1 as (r0 & _ & _ & _ & Hl2)%lseg_app. exact (lchain_head (heap s1) _ _ Hl2). }
      destruct (decide (due (ev (heap s) evt))) as [Hd|Hd].
      - set (s1 := upd_ev evt reload (with_call evt s)).
        assert (forall e, next (reload e) = next e /\ used (reload e) = used e) as Hrl.
        { intros e. unfold reload. case_decide; [|done]. by destruct (_ =? 0). }
        assert (timers_list s1 (l1 ++ evt :: l2)) as Hok1.
        { apply upd_list; [|done]. destruct Hok. by split. }
        exists s1. rewrite exec_loop_fire by done. cbv zeta. fold s1. rewrite (Hnx s1 Hok1).
        split_and!; [done|done|done|..].
        + unfold s1. cbn. by rewrite ev_upd, decide_True.
        + intros a Ha. unfold s1. cbn. by rewrite ev_upd, decide_False.
      - exists s. cbn [exec_loop]. rewrite (proj2 (Z.eqb_neq evt 0) Hz), (proj2 (Z.eqb_neq _ _) Hd), (Hnx s Hok).
        split_and!; [done|done|by rewrite app_nil_r| |done]. unfold reload. by rewrite decide_False. }
    assert (forall a, a ∈ l2 -> core (ev (heap s1) a) = core (ev (heap s) a)) as Hc2.
    { intros a Ha. apply Hcore. intros ->. set_solver. }
    destruct (IH n s1 (l1 ++ [evt])) as (s' & -> & Hok' & Hcalls' & Hst & Hot).
    { by rewrite <- app_assoc. }
    { by rewrite <- app_assoc. }
    { lia. }
    rewrite (staying_ext (heap s)) in Hok', Hst by done. rewrite (due_in_ext (heap s)) in Hcalls' by done.
    rewrite <- app_assoc in Hok'. exists s'. split_and!; [done|done|..].
    + rewrite Hcalls', Hcalls, <- app_assoc. by case_decide.
    + intros a [->|Ha]%elem_of_cons; [rewrite Hot by set_solver; done|].
      rewrite Hst by done. apply reload_cores, Hc2.
      unfold staying in Ha. apply list_elem_of_filter in Ha as [_ Ha]. done.
    + intros a Ha. rewrite Hot by set_solver. apply Hcore. set_solver.
Qed.
(** All due timers are called, whichever timer is the nearest. *)
Lemma executeCB_list s l :
  timers_list s l -> (length l < fuel)%nat ->
  exists s', ev_timer_executeCB fuel s = Some s' /\
    timers_ok s' (staying (heap s) l) /\
    t_calls s' = t_calls s ++ due_in (heap s) l /\
    forall a, a ∈ staying (heap s) l -> core (ev (heap s') a) = core (reload (ev (heap s) a)).
Proof.
  intros Hok Hf.
  destruct (exec_loop_spec fuel s [] l Hok Hf Hf) as (s1 & E & Hok1 & Hc & Hst & _).
  assert (head_ptr l = timer_head s) as Eh by (symmetry; apply (lchain_head _ _ _ (tk_chain _ _ Hok))).
  rewrite Eh in E. unfold ev_timer_executeCB. rewrite E. cbn [mbind option_bind].
  rewrite (nearestUpdate_spec fuel s1 (staying (heap s) l)).
  - eexists. split; [done|]. split_and!; [|done|done].
    simpl app in Hok1. destruct Hok1. by split; [split|].
  - apply Hok1.
  - eapply Nat.le_lt_trans; [apply length_filter|done].
Qed.
End firing.

(** ** Properties *)

(** C5. The timer module refines the abstract timers: after [ev_timer_init] any
    sequence of posts, cancels, sets, unsets and queries returns what the list
    of pending timers with their times says: a post takes the first free slot
    of the pool (NULL only when all 24 are pending), a cancel frees it exactly
    once, [ev_timer_nearestGet] is a pending timer of least time, and the
    interrupt-enable register ends as it began. *)
Theorem ev_timer_refines `{TimerEnvOk} (fuel : nat) (ops : list timer_op) (s : timers) :
  irq_ok (t_cpu s) -> timer_ops_ok ops [] -> (S (length ops) < fuel)%nat ->
  exists s', timer_calls fuel ops (ev_timer_init s) = Some ((timer_models ops []).1, s') /\
    (forall a t, (a, t) ∈ (timer_models ops []).2 -> timeout (ev (heap s') a) = t) /\
    c_irq (t_cpu s') = c_irq (t_cpu s).
Proof.
  intros Hq Hok Hf.
  destruct (timer_calls_sim fuel ops _ [] (init_holds s Hq) Hok) as (s' & E & [_ Ht] & Hi); [done|].
  by exists s'.
Qed.

(** C31. Time is not lost: while no timer is due, any number of calls of
    [ev_timer_process] at arbitrary moments (less than a wrap of the 32-bit tick
    counter apart) leaves every running timer reduced by exactly the number of
    whole milliseconds, remainder included, from the last processed tick before
    the calls to the last processed tick after them, and keeps the remainder;
    no callback runs. *)
Theorem ev_timer_no_drift `{TimerEnvOk} (fuel n : nat) (s : timers) (l : list Z) (P e : Z) :
  (forall i, clk i <= clk (S i)) -> (forall i, clk (S (S i)) - clk i < 2 ^ 32) ->
  running s l e -> (length l < fuel)%nat ->
  prevSysTick s = u32 P -> 0 <= remSysTick s < ticks_per_ms ->
  P <= clk (t_reads s) -> clk (t_reads s) - P < 2 ^ 32 ->
  (remSysTick s + (clk (t_reads s + 2 * n) - P)) / ticks_per_ms <= e ->
  exists s' Q, process_n fuel n s = Some s' /\ prevSysTick s' = u32 Q /\
    P <= Q <= clk (t_reads s + 2 * n) /\ ((0 < n)%nat -> clk (t_reads s) <= Q) /\
    remSysTick s' = (remSysTick s + (Q - P)) mod ticks_per_ms /\
    (forall a, a ∈ l ->
      timeout (ev (heap s') a) = timeout (ev (heap s) a) - (remSysTick s + (Q - P)) / ticks_per_ms) /\
    t_calls s' = t_calls s.
Proof.
  intros. destruct (process_n_running fuel n s l P e) as (s' & Q & ?); [done..|].
  exists s', Q. naive_solver.
Qed.

(** C32. [ev_timer_executeCB] fires exactly the due timers, each once and in list
    order, when their callbacks leave the timers alone: a negative answer
    removes the timer (and frees its slot), zero reloads it with its period, a
    positive one with that many milliseconds; the others are untouched, and the
    nearest timer is right afterwards. *)
Theorem ev_timer_executeCB_fires_due `{TimerEnvOk, !QuietCallbacks} (fuel : nat) (s : timers) (l : list Z) :
  timers_ok s l -> (length l < fuel)%nat ->
  exists s', ev_timer_executeCB fuel s = Some s' /\
    timers_ok s' (staying (heap s) l) /\
    t_calls s' = t_calls s ++ due_in (heap s) l /\
    forall a, a ∈ staying (heap s) l -> core (ev (heap s') a) = core (reload (ev (heap s) a)).
Proof. intros [Hok _]. by apply executeCB_list. Qed.

(** ** Concrete environments *)

Definition demo_env_base : TimerEnv := {|
  timerEventPool := 0x840100; clk := fun i => 20000 * Z.of_nat i; sysTimerPerUs := 16;
  cb_call := fun f d s => (d, s);
|}.

(** Callback 1 cancels its own timer (slot 1) and its neighbour (slot 0). *)
Definition demo_env_cancel : TimerEnv := {|
  timerEventPool := 0x840100; clk := fun i => 20000 * Z.of_nat i; sysTimerPerUs := 16;
  cb_call := fun f d s =>
    if f =? 1 then
      match ev_timer_taskCancel (H := demo_env_base) 30 (0x840100 + 28) s with
      | Some (_, _, s1) =>
          match ev_timer_taskCancel (H := demo_env_base) 30 0x840100 s1 with
          | Some (r, _, s2) => (if r =? SUCCESS then -1 else 0, s2)
          | None => (0, s)
          end
      | None => (0, s)
      end
    else (d, s);
|}.

Definition demo_timers : timers := mk_timers ∅ 0 0 0 0 0 (mk_cpu ∅ 0x22 exc_init) 0 [].

(** [ev_timer_executeCB] runs the callback of a cancelled timer: it follows the
    [next] field of a timer that its own callback removed.  Three timers are
    posted; the callback of the second cancels itself and the third, both
    cancels succeed, and still the third's callback is called, although its
    slot is free and it is no longer in the list. *)
Theorem ev_timer_executeCB_stale_next : exists s s',
  timer_calls (H := demo_env_cancel) 30 [TPost 2 (-1) 1; TPost 1 0 1; TPost 3 (-1) 1000]
    (ev_timer_init (H := demo_env_cancel) demo_timers) = Some ([0x840100; 0x840100 + 28; 0x840100 + 56], s) /\
  ev_timer_process (H := demo_env_cancel) 30 s = Some s' /\
  t_calls s' = [0x840100 + 28; 0x840100] /\
  used (ev (heap s') 0x840100) = 0 /\ ev_timer_exist 30 0x840100 s' = Some false.
Proof. eexists. eexists. split; [vm_compute; reflexivity|]. split; [vm_compute; reflexivity|]. split_and!; vm_compute; reflexivity. Qed.

#[local] Existing Instance demo_env_base.
#[local] Instance demo_env_ok : TimerEnvOk.
Proof. split; vm_compute; reflexivity. Qed.
#[local] Instance demo_env_quiet : QuietCallbacks := { cb_ret f d := d; cb_quiet f d s := eq_refl }.

Definition demo_timer_ops : list timer_op :=
  [TPost 1 7 50; TOn 0x850000 20; TPost 2 (-1) 20; TNearest; TCancel 0x840100; TCancel 0x840100; TExist 0x850000].

Lemma ev_timer_refines_witness : exists s',
  timer_calls 30 demo_timer_ops (ev_timer_init demo_timers) =
    Some ([0x840100; 0; 0x840100 + 28; 0x840100 + 28; 0; 8; 1], s') /\
  timeout (ev (heap s') 0x850000) = 20.
Proof.
  assert (0x840100 ∈ slots) as Hs by (apply elem_of_slots; exists 0%nat; split; [lia|reflexivity]).
  destruct (ev_timer_refines 30 demo_timer_ops demo_timers) as (s' & E & Ht & _).
  - done.
  - unfold demo_timer_ops. cbn [timer_ops_ok timer_op_ok].
    split; [exact I|]. split; [unfold static_timer, pool_range, evt_addr, evt_size; cbn; lia|].
    split; [exact I|]. split; [exact I|]. split; [right; exact Hs|]. split; [right; exact Hs|]. split; exact I.
  - unfold demo_timer_ops. cbn [length]. lia.
  - exists s'. split.
    + rewrite E. apply (f_equal (fun r => Some (r, s'))). vm_compute. reflexivity.
    + apply Ht. decide_vm.
Defined.

(** One running timer, 1000 ms away. *)
Definition demo_running : timers :=
  mk_timers {[ 0x850000 := mk_ev 0 1 0 1000 1000 0 1 0 ]} 0x850000 0x850000 0 0 5 (mk_cpu ∅ 0x22 exc_init) 1 [].

Lemma demo_running_ok : running demo_running [0x850000] 900.
Proof.
  split.
  - split_and!; [done|done|done].
  - done.
  - intros a ->%list_elem_of_singleton. done.
  - intros a ->%list_elem_of_singleton. done.
Qed.

Lemma ev_timer_no_drift_witness : exists s' Q, process_n 5 100 demo_running = Some s' /\
  prevSysTick s' = u32 Q /\ 20000 <= Q /\
  timeout (ev (heap s') 0x850000) = 1000 - (5 + Q) / 16000.
Proof.
  destruct (ev_timer_no_drift 5 100 demo_running [0x850000] 0 900) as (s' & Q & E & Hp & _ & HQ & _ & Ht & _).
  - intros i. cbn -[Z.mul]. lia.
  - intros i. cbn -[Z.mul]. lia.
  - exact demo_running_ok.
  - simpl. lia.
  - reflexivity.
  - vm_compute. split; congruence.
  - vm_compute. congruence.
  - vm_compute. reflexivity.
  - vm_compute. congruence.
  - exists s', Q. split; [exact E|]. split; [exact Hp|]. split; [apply HQ; lia|].
    rewrite Ht by (by left). change (timeout (ev (heap demo_running) 0x850000)) with 1000.
    change (remSysTick demo_running) with 5. change ticks_per_ms with 16000. f_equal. f_equal. lia.
Defined.

(** A due one-shot static timer. *)
Definition demo_due : timers :=
  mk_timers {[ 0x850000 := mk_ev 0 1 (-1) 0 10 0 1 0 ]} 0x850000 0x850000 0 0 0 (mk_cpu ∅ 0x22 exc_init) 0 [].

Lemma ev_timer_executeCB_fires_due_witness : exists s',
  ev_timer_executeCB 5 demo_due = Some s' /\ timers_ok s' [] /\ t_calls s' = [0x850000].
Proof.
  assert (forall i, (i < 24)%nat -> evt_addr i <> 0x850000) as Hne.
  { intros i Hi. unfold evt_addr, evt_size. cbn. lia. }
  assert (timers_ok demo_due [0x850000]) as Hok.
  { split; [split|].
    - split_and!; [done|done|done].
    - intros a ->%list_elem_of_singleton. right. unfold static_timer, pool_range, evt_addr, evt_size. cbn. lia.
    - intros a (i & Hi & ->)%elem_of_slots. specialize (Hne i Hi). rewrite bool_decide_false by set_solver.
      unfold ev. cbn [heap demo_due]. by rewrite lookup_singleton_ne by done.
    - reflexivity.
    - done.
    - reflexivity. }
  destruct (ev_timer_executeCB_fires_due 5 demo_due [0x850000] Hok) as (s' & E & Hok' & Hc & _); [simpl; lia|].
  exists s'. split; [exact E|]. split; [exact Hok'|exact Hc].
Defined.
