(* ===== verification/TimerIf.v ===== *)
(** * The software timers, as the other components see them

    What the over-the-air update, the host interface and the applications call
    of [ev_timer.c], as a class of operations on the timers' state; the timers
    of [EvTimer.v] are an instance. *)
From S2P Require Import Prelude SysEv EvTimer.

(** [ev_timer_exist], the assignment of a static timer's callback and argument,
    [ev_on_timer], [ev_unon_timer], [TL_ZB_TIMER_SCHEDULE] and
    [TL_ZB_TIMER_CANCEL] (with the new value of the caller's pointer). *)
Class TimerSvc (T : Type) := {
  tmr_exist : Z -> T -> bool;
  tmr_assign : Z -> Z -> Z -> T -> T;
  tmr_on : Z -> Z -> T -> T;
  tmr_unon : Z -> T -> T;
  tmr_post : Z -> Z -> Z -> T -> Z * T;
  tmr_cancel : Z -> T -> Z * T
}.

(** The timers of [EvTimer.v] are such a service. *)
Definition ev_TimerSvc `{TimerEnv} (fuel : nat) : TimerSvc timers := {|
  tmr_exist e s := default false (ev_timer_exist fuel e s);
  tmr_assign e f a s := upd_ev e (fun x => set_data a (set_cb f x)) s;
  tmr_on e t s := default s (ev_on_timer fuel e t s);
  tmr_unon e s := default s (ev_unon_timer fuel e s);
  tmr_post f a t s := default (0, s) (ev_timer_taskPost fuel f a t s);
  tmr_cancel e s :=
    match ev_timer_taskCancel fuel e s with Some (_, e', s') => (e', s') | None => (e, s) end
|}.
