(* ===== verification/SpiFlash.v ===== *)
(** * The SPI NOR flash and its low-level driver
    ([platform/chip_8278/flash.c], [spi_i.h])

    The flash chip itself is hardware: a parameter of the model, the class
    [SpiChip], with the behaviour its data sheet documents in [SpiChipLaws].
    The driver of [flash.c] is modelled on top of it byte by byte: every
    function sends and receives the bytes the code sends and receives. *)
From S2P Require Import Prelude.

(** ** The chip

    A transaction is the list of the bytes sent since the chip was selected.
    [chip_out c out] is the byte the chip shifted out while the last byte of
    [out] was sent; [chip_exec c out] is the chip after it was deselected at the
    end of the transaction [out], which is when a command takes effect. *)
Class SpiChip (C : Type) := {
  chip_out : C -> list Z -> Z;
  chip_exec : C -> list Z -> C
}.

(** Commands ([flash.h], lines 34 to 60). *)
Definition FLASH_WRITE_CMD : Z := 0x02.
Definition FLASH_READ_CMD : Z := 0x03.
Definition FLASH_SECT_ERASE_CMD : Z := 0x20.
Definition FLASH_READ_UID_CMD_GD_PUYA_ZB_UT : Z := 0x4B.
Definition FLASH_READ_UID_CMD_GD_PUYA_ZB_TH : Z := 0x4B.
Definition FLASH_XTX_READ_UID_CMD : Z := 0x5A.
Definition FLASH_GET_JEDEC_ID : Z := 0x9F.
Definition FLASH_WRITE_STATUS_CMD_LOWBYTE : Z := 0x01.
Definition FLASH_READ_STATUS_CMD_LOWBYTE : Z := 0x05.
Definition FLASH_READ_STATUS_CMD_HIGHBYTE : Z := 0x35.
Definition FLASH_WRITE_ENABLE_CMD : Z := 0x06.

Definition PAGE_SIZE : Z := 256.

(** The three address bytes of a command. *)
Definition addr_bytes (a : Z) : list Z := [u8 (a / 2 ^ 16); u8 (a / 2 ^ 8); u8 a].

(** [zeros n]: the bytes sent to issue [n] clocks. *)
Definition zeros (n : nat) : list Z := repeat 0 n.

Class SpiChipLaws (C : Type) `{SpiChip C} := {
  (** the array, the status register, and the chip's condition *)
  chip_byte : C -> Z -> Z;
  chip_status : C -> Z;
  chip_ready : C -> bool;
  chip_wel : C -> bool;
  (** the model's identification, whether it has a 16-bit status register, and
      which addresses a value of the block-protection bits protects *)
  chip_id : Z;
  chip_wide : bool;
  chip_prot : Z -> Z -> bool;
  chip_bp_mask : Z := if chip_wide then 0x407c else 0x1c;
  chip_bp (c : C) : Z := Z.land (chip_status c) chip_bp_mask;

  chip_id_range : 0 <= chip_id < 2 ^ 24;
  chip_byte_range c a : 0 <= chip_byte c a < 256;
  chip_status_range c : 0 <= chip_status c < 65536;
  chip_prot_none a : chip_prot 0 a = false;
  chip_prot_all a : chip_prot (if chip_wide then 0x7c else 0x1c) a = true;
  chip_prot_sector bp a b : a / 4096 = b / 4096 -> chip_prot bp a = chip_prot bp b;

  (** commands that read: they answer, and leave the chip as it was *)
  chip_out_read c a k :
    chip_ready c = true -> 0 <= a -> a + Z.of_nat k < 2 ^ 24 ->
    chip_out c (FLASH_READ_CMD :: addr_bytes a ++ zeros (S k)) = chip_byte c (a + Z.of_nat k);
  chip_out_status_low c k :
    chip_ready c = true ->
    chip_out c (FLASH_READ_STATUS_CMD_LOWBYTE :: zeros (S k)) = u8 (chip_status c);
  chip_out_status_high c k :
    chip_ready c = true ->
    chip_out c (FLASH_READ_STATUS_CMD_HIGHBYTE :: zeros (S k)) = u8 (chip_status c / 256);
  chip_out_id c k :
    chip_ready c = true -> (k < 3)%nat ->
    chip_out c (FLASH_GET_JEDEC_ID :: zeros (S k)) = u8 (chip_id / 2 ^ (8 * Z.of_nat k));
  chip_exec_read c cmd l :
    chip_ready c = true ->
    cmd = FLASH_READ_CMD \/ cmd = FLASH_READ_STATUS_CMD_LOWBYTE \/
    cmd = FLASH_READ_STATUS_CMD_HIGHBYTE \/ cmd = FLASH_GET_JEDEC_ID ->
    chip_exec c (cmd :: l) = c;

  (** write enable *)
  chip_exec_wren c :
    chip_ready c = true ->
    let c' := chip_exec c [FLASH_WRITE_ENABLE_CMD] in
    chip_ready c' = true /\ chip_wel c' = true /\ chip_bp c' = chip_bp c /\
    forall x, chip_byte c' x = chip_byte c x;

  (** page program: bits go from 1 to 0, inside the 256-byte page *)
  chip_exec_program c a data :
    chip_ready c = true -> chip_wel c = true -> 0 <= a < 2 ^ 24 ->
    Forall (fun b => 0 <= b < 256) data -> Z.of_nat (length data) <= 256 ->
    let c' := chip_exec c (FLASH_WRITE_CMD :: addr_bytes a ++ data) in
    chip_bp c' = chip_bp c /\
    forall x, chip_byte c' x =
      if chip_prot (chip_bp c) a then chip_byte c x
      else if (x / 256 =? a / 256) && ((x - a) mod 256 <? Z.of_nat (length data))
           then Z.land (chip_byte c x) (default 0 (data !! Z.to_nat ((x - a) mod 256)))
           else chip_byte c x;

  (** sector erase *)
  chip_exec_erase c a :
    chip_ready c = true -> chip_wel c = true -> 0 <= a < 2 ^ 24 ->
    let c' := chip_exec c (FLASH_SECT_ERASE_CMD :: addr_bytes a) in
    chip_bp c' = chip_bp c /\
    forall x, chip_byte c' x =
      if chip_prot (chip_bp c) a then chip_byte c x
      else if x / 4096 =? a / 4096 then 255 else chip_byte c x;

  (** write status register *)
  chip_exec_wrsr8 c lo :
    chip_ready c = true -> chip_wel c = true -> chip_wide = false -> 0 <= lo < 256 ->
    let c' := chip_exec c [FLASH_WRITE_STATUS_CMD_LOWBYTE; lo] in
    chip_bp c' = Z.land lo chip_bp_mask /\ forall x, chip_byte c' x = chip_byte c x;
  chip_exec_wrsr16 c lo hi :
    chip_ready c = true -> chip_wel c = true -> chip_wide = true ->
    0 <= lo < 256 -> 0 <= hi < 256 ->
    let c' := chip_exec c [FLASH_WRITE_STATUS_CMD_LOWBYTE; lo; hi] in
    chip_bp c' = Z.land (lo + 256 * hi) chip_bp_mask /\ forall x, chip_byte c' x = chip_byte c x;

  (** an operation ends: reading the status until the busy bit is clear *)
  chip_poll c :
    exists n : nat, (n < Pos.to_nat 10000000)%nat /\
      (forall k, (k < n)%nat ->
         Z.land (chip_out c (FLASH_READ_STATUS_CMD_LOWBYTE :: zeros (S k))) 1 = 1) /\
      Z.land (chip_out c (FLASH_READ_STATUS_CMD_LOWBYTE :: zeros (S n))) 1 = 0 /\
      let c' := chip_exec c (FLASH_READ_STATUS_CMD_LOWBYTE :: zeros (S n)) in
      chip_ready c' = true /\ chip_bp c' = chip_bp c /\
      forall x, chip_byte c' x = chip_byte c x
}.

Section Driver.
Context {C : Type} `{SpiChip C}.

(** ** The bus: the chip and the bytes of the transaction that is open *)
Record bus := { bus_chip : C; bus_sent : list Z }.

Definition mspi_high (b : bus) : bus :=
  match bus_sent b with
  | [] => b
  | l => {| bus_chip := chip_exec (bus_chip b) l; bus_sent := [] |}
  end.

Definition mspi_low (b : bus) : bus := {| bus_chip := bus_chip b; bus_sent := [] |}.

Definition mspi_write (c : Z) (b : bus) : bus :=
  {| bus_chip := bus_chip b; bus_sent := bus_sent b ++ [u8 c] |}.

Definition mspi_get (b : bus) : Z := chip_out (bus_chip b) (bus_sent b).

Definition mspi_read (b : bus) : Z * bus :=
  let b := mspi_write 0 b in (mspi_get b, b).

(** ** [flash.c] *)
Definition flash_is_busy (b : bus) : Z * bus :=
  let '(v, b) := mspi_read b in (Z.land v 0x01, b).

Definition flash_send_cmd (cmd : Z) (b : bus) : bus :=
  mspi_write cmd (mspi_low (mspi_high b)).

Definition flash_send_addr (addr : Z) (b : bus) : bus :=
  mspi_write addr (mspi_write (addr / 2 ^ 8) (mspi_write (addr / 2 ^ 16) b)).

Definition flash_wait_done (b : bus) : bus :=
  let b := flash_send_cmd FLASH_READ_STATUS_CMD_LOWBYTE b in
  let '(_, b) :=
    for_break (fun b => let '(busy, b) := flash_is_busy b in (busy =? 0, b)) 10000000 b in
  mspi_high b.

(** [for (i = 0; i < n; ++i) mspi_write(0)] *)
Fixpoint send_dummies (n : nat) (b : bus) : bus :=
  match n with O => b | S n' => send_dummies n' (mspi_write 0x00 b) end.

(** The reading loop; in auto mode fetching a byte issues the next clocks. *)
Fixpoint read_loop (n : nat) (b : bus) : list Z * bus :=
  match n with
  | O => ([], b)
  | S n' =>
      let v := mspi_get b in
      let '(l, b) := read_loop n' (mspi_write 0x00 b) in
      (v :: l, b)
  end.

Fixpoint write_loop (data : list Z) (b : bus) : bus :=
  match data with [] => b | d :: data' => write_loop data' (mspi_write d b) end.

Definition flash_mspi_read_ram (cmd addr : Z) (addr_en : bool) (dummy_cnt data_len : nat)
    (b : bus) : list Z * bus :=
  let b := flash_send_cmd cmd b in
  let b := if addr_en then flash_send_addr addr b else b in
  let b := send_dummies dummy_cnt b in
  let b := mspi_write 0x00 b in
  let '(l, b) := read_loop data_len b in
  (l, mspi_high b).

Definition flash_mspi_write_ram (cmd addr : Z) (addr_en : bool) (data : list Z)
    (b : bus) : bus :=
  let b := flash_send_cmd FLASH_WRITE_ENABLE_CMD b in
  let b := flash_send_cmd cmd b in
  let b := if addr_en then flash_send_addr addr b else b in
  let b := write_loop data b in
  flash_wait_done (mspi_high b).

Definition flash_erase_sector (addr : Z) (b : bus) : bus :=
  flash_mspi_write_ram FLASH_SECT_ERASE_CMD addr true [] b.

Definition flash_read_page (addr : Z) (len : nat) (b : bus) : list Z * bus :=
  flash_mspi_read_ram FLASH_READ_CMD addr true 0 len b.

(** The [do ... while(len > 0)] loop; [buf] is what remains to be written. *)
Fixpoint write_pages (fuel : nat) (ns addr : Z) (buf : list Z) (b : bus) : bus :=
  match fuel with
  | O => b
  | S fuel' =>
      let len := Z.of_nat (length buf) in
      let nw := if ns <? len then ns else len in
      let b := flash_mspi_write_ram FLASH_WRITE_CMD addr true (take (Z.to_nat nw) buf) b in
      let buf := drop (Z.to_nat nw) buf in
      if 0 <? Z.of_nat (length buf) then write_pages fuel' PAGE_SIZE (u32 (addr + nw)) buf b
      else b
  end.

Definition flash_write_page (addr : Z) (buf : list Z) (b : bus) : bus :=
  write_pages (S (length buf)) (PAGE_SIZE - Z.land addr (PAGE_SIZE - 1)) addr buf b.

Definition flash_read_status (cmd : Z) (b : bus) : Z * bus :=
  let '(l, b) := flash_mspi_read_ram cmd 0 false 0 1 b in (List.hd 0 l, b).

Inductive flash_status_typedef_e :=
  | FLASH_TYPE_8BIT_STATUS | FLASH_TYPE_16BIT_STATUS_ONE_CMD | FLASH_TYPE_16BIT_STATUS_TWO_CMD.

Definition flash_write_status (type : flash_status_typedef_e) (data : Z) (b : bus) : bus :=
  let buf0 := u8 data in
  let buf1 := u8 (data / 2 ^ 8) in
  match type with
  | FLASH_TYPE_8BIT_STATUS =>
      flash_mspi_write_ram FLASH_WRITE_STATUS_CMD_LOWBYTE 0 false [buf0] b
  | FLASH_TYPE_16BIT_STATUS_ONE_CMD =>
      flash_mspi_write_ram FLASH_WRITE_STATUS_CMD_LOWBYTE 0 false [buf0; buf1] b
  | FLASH_TYPE_16BIT_STATUS_TWO_CMD => b
  end.

Fixpoint le_word (l : list Z) : Z :=
  match l with [] => 0 | x :: l' => x + 256 * le_word l' end.

Definition flash_read_mid (b : bus) : Z * bus :=
  let '(l, b) := flash_mspi_read_ram FLASH_GET_JEDEC_ID 0 false 0 3 b in (le_word l, b).

(** [None]: the buffer is left as it was. *)
Definition flash_read_uid (idcmd : Z) (b : bus) : option (list Z) * bus :=
  if idcmd =? FLASH_READ_UID_CMD_GD_PUYA_ZB_UT then
    let '(l, b) := flash_mspi_read_ram idcmd 0x00 true 1 16 b in (Some l, b)
  else if idcmd =? FLASH_XTX_READ_UID_CMD then
    let '(l, b) := flash_mspi_read_ram idcmd 0x80 true 1 16 b in (Some l, b)
  else (None, b).

Definition flash_is_zb (b : bus) : Z * bus :=
  let '(flash_mid, b) := flash_read_mid b in
  (c_bool ((flash_mid =? 0x13325E) || (flash_mid =? 0x14325E) || (flash_mid =? 0x11325E)
             || (flash_mid =? 0x12325E)), b).

Definition flash_get_vdd_f_calib_value (b : bus) : Z * bus :=
  let '(mid, b) := flash_read_mid b in
  let rd a := let '(l, b) := flash_read_page a 2 b in (le_word l, b) in
  match Z.land mid 0xff0000 / 2 ^ 16 with
  | 0x10 => rd 0xe1c0
  | 0x11 => rd 0x1e1c0
  | 0x13 => rd 0x771c0
  | 0x14 => rd 0xfe1c0
  | 0x15 => rd 0x1fe1c0
  | _ => (0xff, b)
  end.

(** The analog registers are the array [ana]. *)
Definition flash_vdd_f_calib (ana : Z -> Z) (b : bus) : (Z -> Z) * bus :=
  let analog_write r v (f : Z -> Z) x := if x =? r then u8 v else f x in
  let '(calib_value, b) := flash_get_vdd_f_calib_value b in
  if (calib_value =? 0xffff) || negb (Z.land calib_value 0xf8f8 =? 0) then
    let '(zb, b) := flash_is_zb b in
    if negb (zb =? 0) then
      let ana := analog_write 0x09 (Z.lor (Z.land (ana 0x09) 0x8f) (Z.shiftl 0x07 4)) ana in
      let ana := analog_write 0x0c (Z.lor (Z.land (ana 0x0c) 0xf8) 0x06) ana in
      (ana, b)
    else (ana, b)
  else
    let ana := analog_write 0x09 (Z.lor (Z.land (ana 0x09) 0x8f)
                                        (Z.shiftr (Z.land calib_value 0xff00) 4)) ana in
    let ana := analog_write 0x0c (Z.lor (Z.land (ana 0x0c) 0xf8) (Z.land calib_value 0xff)) ana in
    (ana, b).

End Driver.
Arguments bus C : clear implicits.

(** ** What the driver does to the array

    [programmed prot f a buf] is the array [f] after programming [buf] at [a]:
    the bits of an unprotected byte go from 1 to 0. *)
Definition programmed (prot : Z -> bool) (f : Z -> Z) (a : Z) (buf : list Z) (x : Z) : Z :=
  if (a <=? x) && (x <? a + Z.of_nat (length buf)) && negb (prot x)
  then Z.land (f x) (default 0 (buf !! Z.to_nat (x - a))) else f x.

(** [erased prot f a]: the array after the erase of the 4 kB sector of [a]. *)
Definition erased (prot : Z -> bool) (f : Z -> Z) (a x : Z) : Z :=
  if (x / 4096 =? a / 4096) && negb (prot x) then 255 else f x.

Lemma programmed_out prot f a buf x :
  x < a \/ a + Z.of_nat (length buf) <= x -> programmed prot f a buf x = f x.
Proof.
  intros. unfold programmed.
  destruct (Z.leb_spec a x), (Z.ltb_spec x (a + Z.of_nat (length buf))); simpl; try done; lia.
Qed.

Lemma programmed_take_drop prot f a buf n x :
  (n <= length buf)%nat ->
  programmed prot (programmed prot f a (take n buf)) (a + Z.of_nat n) (drop n buf) x =
  programmed prot f a buf x.
Proof.
  intros Hn. unfold programmed. rewrite length_take, length_drop.
  destruct (Z.leb_spec a x), (Z.ltb_spec x (a + Z.of_nat (length buf)));
    destruct (Z.leb_spec (a + Z.of_nat n) x),
      (Z.ltb_spec x (a + Z.of_nat n + Z.of_nat (length buf - n)));
    destruct (Z.ltb_spec x (a + Z.of_nat (n `min` length buf)));
    try lia; destruct (prot x); simpl; try done.
  - rewrite lookup_drop. do 4 f_equal. lia.
  - rewrite lookup_take_lt by lia. done.
Qed.

Section DriverSpec.
Context {C : Type} `{HL : SpiChipLaws C}.
Implicit Types (c : C) (b : bus C) (f : Z -> Z).

(** The chip idles, is ready, protects by [bp] and contains [f]. *)
Record flash_at b (bp : Z) f : Prop := {
  at_idle : bus_sent b = [];
  at_ready : chip_ready (bus_chip b) = true;
  at_bp : chip_bp (bus_chip b) = bp;
  at_byte x : chip_byte (bus_chip b) x = f x
}.

Lemma flash_at_ext b bp f g : (forall x, f x = g x) -> flash_at b bp f -> flash_at b bp g.
Proof. intros Hfg [? ? ? Hb]. split; try done. intros x. by rewrite Hb. Qed.

Lemma zeros_S n : zeros (S n) = zeros n ++ [0].
Proof. apply repeat_cons. Qed.

Lemma map_u8 l : Forall (fun v => 0 <= v < 256) l -> map u8 l = l.
Proof. induction 1; simpl; [done|]. rewrite u8_small by done. by f_equal. Qed.

Lemma send_cmd_idle cmd b :
  bus_sent b = [] -> flash_send_cmd cmd b = {| bus_chip := bus_chip b; bus_sent := [u8 cmd] |}.
Proof. intros Hi. unfold flash_send_cmd, mspi_high. rewrite Hi. done. Qed.

Lemma send_cmd_after cmd c l :
  l <> [] ->
  flash_send_cmd cmd {| bus_chip := c; bus_sent := l |} =
  {| bus_chip := chip_exec c l; bus_sent := [u8 cmd] |}.
Proof. intros Hl. unfold flash_send_cmd, mspi_high. simpl. by destruct l. Qed.

Lemma send_dummies_sent n c l :
  send_dummies n {| bus_chip := c; bus_sent := l |} = {| bus_chip := c; bus_sent := l ++ zeros n |}.
Proof.
  revert l. induction n as [|n IH]; intros l; cbn [send_dummies].
  - simpl. by rewrite app_nil_r.
  - unfold mspi_write. simpl bus_sent. rewrite IH. simpl. by rewrite <-app_assoc.
Qed.

Lemma read_loop_sent n c l :
  read_loop n {| bus_chip := c; bus_sent := l |} =
  (map (fun k => chip_out c (l ++ zeros k)) (seq 0 n), {| bus_chip := c; bus_sent := l ++ zeros n |}).
Proof.
  revert l. induction n as [|n IH]; intros l; cbn [read_loop].
  - simpl. by rewrite app_nil_r.
  - unfold mspi_write. simpl bus_sent. simpl bus_chip. rewrite IH.
    unfold mspi_get. simpl. rewrite app_nil_r, <-app_assoc. f_equal. f_equal.
    rewrite <-seq_shift, map_map. apply map_ext. intros k. by rewrite <-app_assoc.
Qed.

Lemma write_loop_sent data c l :
  write_loop data {| bus_chip := c; bus_sent := l |} =
  {| bus_chip := c; bus_sent := l ++ map u8 data |}.
Proof.
  revert l. induction data as [|d data IH]; intros l; cbn [write_loop].
  - simpl. by rewrite app_nil_r.
  - unfold mspi_write. simpl bus_sent. rewrite IH. simpl. by rewrite <-app_assoc.
Qed.

Lemma send_addr_sent addr c l :
  flash_send_addr addr {| bus_chip := c; bus_sent := l |} =
  {| bus_chip := c; bus_sent := l ++ addr_bytes addr |}.
Proof. unfold flash_send_addr, mspi_write. simpl. by rewrite <-!app_assoc. Qed.

(** The header of a command: its code and, with [addr_en], its address. *)
Definition header (cmd addr : Z) (addr_en : bool) : list Z :=
  u8 cmd :: (if addr_en then addr_bytes addr else []).

(** A reading transaction. *)
Lemma flash_mspi_read_ram_sent cmd addr en dummy n b :
  bus_sent b = [] ->
  flash_mspi_read_ram cmd addr en dummy n b =
  (map (fun k => chip_out (bus_chip b) (header cmd addr en ++ zeros dummy ++ zeros (S k))) (seq 0 n),
   {| bus_chip := chip_exec (bus_chip b) (header cmd addr en ++ zeros dummy ++ zeros (S n));
      bus_sent := [] |}).
Proof.
  intros Hi. unfold flash_mspi_read_ram. rewrite send_cmd_idle by done.
  assert ((if en then flash_send_addr addr {| bus_chip := bus_chip b; bus_sent := [u8 cmd] |}
           else {| bus_chip := bus_chip b; bus_sent := [u8 cmd] |}) =
          {| bus_chip := bus_chip b; bus_sent := header cmd addr en |}) as ->.
  { destruct en; [|done]. by rewrite send_addr_sent. }
  rewrite send_dummies_sent. unfold mspi_write at 1. simpl bus_sent. simpl bus_chip.
  rewrite read_loop_sent. unfold mspi_high. cbn [bus_sent bus_chip].
  f_equal.
  - apply map_ext. intros k. unfold header. simpl. by rewrite <-!app_assoc.
  - unfold header. simpl. by rewrite <-!app_assoc.
Qed.

(** Waiting for the end of an operation. *)
Lemma flash_wait_done_spec b bp f :
  bus_sent b = [] -> chip_bp (bus_chip b) = bp -> (forall x, chip_byte (bus_chip b) x = f x) ->
  flash_at (flash_wait_done b) bp f.
Proof.
  intros Hi Hbp Hf. unfold flash_wait_done. rewrite send_cmd_idle by done.
  destruct (chip_poll (bus_chip b)) as (n & Hn & Hbusy & Hdone & Hr & Hb & Hx).
  change (u8 FLASH_READ_STATUS_CMD_LOWBYTE) with FLASH_READ_STATUS_CMD_LOWBYTE.
  set (st := fun k => {| bus_chip := bus_chip b;
                         bus_sent := FLASH_READ_STATUS_CMD_LOWBYTE :: zeros k |}).
  change {| bus_chip := bus_chip b; bus_sent := [FLASH_READ_STATUS_CMD_LOWBYTE] |} with (st 0%nat).
  rewrite for_break_nat, (for_nat_stop _ st n); [|exact Hn| |].
  - unfold st. split; [done|done| |].
    + by rewrite <-Hbp.
    + intros x. rewrite <-Hf. apply Hx.
  - intros i Hlt. unfold flash_is_busy, mspi_read, mspi_get, mspi_write, st. cbn [bus_chip bus_sent].
    change (u8 0) with 0. rewrite <-app_comm_cons, <-zeros_S. rewrite Hbusy by done. done.
  - unfold flash_is_busy, mspi_read, mspi_get, mspi_write, st. cbn [bus_chip bus_sent].
    change (u8 0) with 0. rewrite <-app_comm_cons, <-zeros_S. rewrite Hdone. done.
Qed.

(** A writing transaction: write enable, the command, and the wait. *)
Lemma flash_mspi_write_ram_sent cmd addr en data b :
  bus_sent b = [] -> Forall (fun v => 0 <= v < 256) data ->
  flash_mspi_write_ram cmd addr en data b =
  flash_wait_done
    {| bus_chip := chip_exec (chip_exec (bus_chip b) [FLASH_WRITE_ENABLE_CMD])
                     (header cmd addr en ++ data);
       bus_sent := [] |}.
Proof.
  intros Hi Hd. unfold flash_mspi_write_ram. rewrite (send_cmd_idle _ b) by done.
  rewrite send_cmd_after by discriminate.
  change (u8 FLASH_WRITE_ENABLE_CMD) with FLASH_WRITE_ENABLE_CMD.
  set (c := chip_exec (bus_chip b) [FLASH_WRITE_ENABLE_CMD]).
  assert ((if en then flash_send_addr addr {| bus_chip := c; bus_sent := [u8 cmd] |}
           else {| bus_chip := c; bus_sent := [u8 cmd] |}) =
          {| bus_chip := c; bus_sent := header cmd addr en |}) as ->.
  { destruct en; [|done]. by rewrite send_addr_sent. }
  rewrite write_loop_sent, map_u8 by done. done.
Qed.

(** The content of the array, as a list of bytes. *)
Definition bytes_at (f : Z -> Z) (a : Z) (n : nat) : list Z :=
  map (fun k => f (a + Z.of_nat k)) (seq 0 n).

Lemma flash_read_page_spec b bp f addr len :
  flash_at b bp f -> 0 <= addr -> addr + Z.of_nat len <= 2 ^ 24 ->
  flash_read_page addr len b = (bytes_at f addr len, b).
Proof.
  intros [Hi Hr Hbp Hf] Ha Hlen. unfold flash_read_page.
  rewrite flash_mspi_read_ram_sent by done. change (zeros 0) with (@nil Z).
  cbn [app]. unfold header. change (u8 FLASH_READ_CMD) with FLASH_READ_CMD. f_equal.
  - apply map_ext_in. intros k [? ?]%in_seq. rewrite <-app_comm_cons.
    rewrite chip_out_read by (done || lia). apply Hf.
  - rewrite <-app_comm_cons, chip_exec_read by auto. destruct b; simpl in *. by subst.
Qed.

(** A write transaction from a chip at rest: what the command does to a
    write-enabled chip, then the wait. *)
Lemma flash_mspi_write_ram_spec b bp f cmd addr en data bp' g :
  flash_at b bp f -> Forall (fun v => 0 <= v < 256) data ->
  (forall c, chip_ready c = true -> chip_wel c = true -> chip_bp c = bp ->
     (forall x, chip_byte c x = f x) ->
     chip_bp (chip_exec c (header cmd addr en ++ data)) = bp' /\
     forall x, chip_byte (chip_exec c (header cmd addr en ++ data)) x = g x) ->
  flash_at (flash_mspi_write_ram cmd addr en data b) bp' g.
Proof.
  intros [Hi Hr Hbp Hf] Hd Hc. rewrite flash_mspi_write_ram_sent by done.
  destruct (chip_exec_wren (bus_chip b) Hr) as (Hr1 & Hw1 & Hb1 & Hx1).
  destruct (Hc _ Hr1 Hw1) as [Hb2 Hx2].
  - by rewrite Hb1.
  - intros x. by rewrite Hx1.
  - by apply flash_wait_done_spec.
Qed.

Lemma same_page x y : x / 256 = y / 256 -> x / 4096 = y / 4096.
Proof. intros. zdm. Qed.

Lemma page_offset x y :
  x / 256 = y / 256 -> (x - y) mod 256 = if y <=? x then x - y else x - y + 256.
Proof. intros. destruct (Z.leb_spec y x); zdm. Qed.

(** The bytes a program command reaches when it stays inside the page. *)
Lemma in_page_test a n x :
  0 <= n -> a mod 256 + n <= 256 ->
  (x / 256 =? a / 256) && ((x - a) mod 256 <? n) = (a <=? x) && (x <? a + n).
Proof.
  intros Hn Hfit.
  destruct (Z.eqb_spec (x / 256) (a / 256)) as [Hp|Hp]; cbn [andb].
  - rewrite (page_offset x a) by done.
    destruct (Z.leb_spec a x); cbn [andb].
    + destruct (Z.ltb_spec (x - a) n), (Z.ltb_spec x (a + n)); try lia; done.
    + apply Z.ltb_ge. zdm.
  - destruct (Z.leb_spec a x), (Z.ltb_spec x (a + n)); cbn [andb]; try done.
    exfalso. apply Hp. zdm.
Qed.

(** Programming inside one page. *)
Lemma flash_program_spec b bp f addr data :
  flash_at b bp f -> 0 <= addr < 2 ^ 24 -> Forall (fun v => 0 <= v < 256) data ->
  addr mod 256 + Z.of_nat (length data) <= 256 ->
  flash_at (flash_mspi_write_ram FLASH_WRITE_CMD addr true data b) bp
    (programmed (chip_prot bp) f addr data).
Proof.
  intros Hat Ha Hd Hfit. apply (flash_mspi_write_ram_spec b bp f); [done|done|].
  intros c Hr Hw Hbp Hf.
  assert (0 <= addr mod 256) by (apply Z.mod_pos_bound; lia).
  destruct (chip_exec_program c addr data Hr Hw Ha Hd ltac:(lia)) as [Hb Hx].
  split; [by rewrite <-Hbp|]. intros x.
  unfold header. change (u8 FLASH_WRITE_CMD) with FLASH_WRITE_CMD.
  rewrite <-app_comm_cons, Hx, Hbp, Hf. unfold programmed. rewrite in_page_test by lia.
  destruct ((addr <=? x) && (x <? addr + Z.of_nat (length data))) eqn:E; cbn [andb];
    [|by destruct (chip_prot bp addr)].
  assert (Hp : x / 256 = addr / 256) by zdm.
  rewrite (chip_prot_sector bp x addr) by (by apply same_page).
  destruct (chip_prot bp addr); cbn [negb]; [done|]. by rewrite (Z.mod_small (x - addr)) by lia.
Qed.

Lemma write_pages_spec fuel b bp f addr buf :
  flash_at b bp f -> 0 <= addr -> addr + Z.of_nat (length buf) <= 2 ^ 24 -> addr < 2 ^ 24 ->
  Forall (fun v => 0 <= v < 256) buf -> (length buf < fuel)%nat ->
  flash_at (write_pages fuel (256 - addr mod 256) addr buf b) bp
    (programmed (chip_prot bp) f addr buf).
Proof.
  revert b f addr buf. induction fuel as [|fuel IH]; intros b f addr buf Hat Ha Hlen Hlt Hd Hfuel;
    [lia|].
  pose proof (Z.mod_pos_bound addr 256 ltac:(lia)) as Hm.
  cbn [write_pages]. rewrite length_drop.
  destruct (Z.ltb_spec (256 - addr mod 256) (Z.of_nat (length buf))) as [Hlong|Hshort].
  - set (n := Z.to_nat (256 - addr mod 256)).
    assert (Hn : Z.of_nat n = 256 - addr mod 256) by lia. clearbody n.
    assert ((0 <? Z.of_nat (length buf - n)) = true) as -> by (apply Z.ltb_lt; lia).
    assert (Hstep : flash_at (flash_mspi_write_ram FLASH_WRITE_CMD addr true (take n buf) b) bp
                      (programmed (chip_prot bp) f addr (take n buf))).
    { apply flash_program_spec; [done|lia|by apply Forall_take|rewrite length_take; lia]. }
    rewrite u32_small by lia.
    assert (Hal : (addr + (256 - addr mod 256)) mod 256 = 0) by zdm.
    replace PAGE_SIZE with (256 - (addr + (256 - addr mod 256)) mod 256) by (unfold PAGE_SIZE; lia).
    eapply flash_at_ext; [|apply IH; [exact Hstep|lia|rewrite length_drop; lia|lia| |]].
    + intros x. rewrite <-Hn. apply programmed_take_drop. lia.
    + by apply Forall_drop.
    + rewrite length_drop. lia.
  - rewrite Nat2Z.id, Nat.sub_diag. cbn [Z.of_nat Z.ltb Z.compare].
    rewrite firstn_all. apply flash_program_spec; [done|lia|done|lia].
Qed.

Lemma flash_write_page_spec b bp f addr buf :
  flash_at b bp f -> 0 <= addr < 2 ^ 24 -> addr + Z.of_nat (length buf) <= 2 ^ 24 ->
  Forall (fun v => 0 <= v < 256) buf ->
  flash_at (flash_write_page addr buf b) bp (programmed (chip_prot bp) f addr buf).
Proof.
  intros Hat Ha Hlen Hd. unfold flash_write_page, PAGE_SIZE.
  change (256 - 1) with (Z.ones 8). rewrite Z.land_ones by lia.
  apply write_pages_spec; (done || lia).
Qed.

Lemma flash_erase_sector_spec b bp f addr :
  flash_at b bp f -> 0 <= addr < 2 ^ 24 ->
  flash_at (flash_erase_sector addr b) bp (erased (chip_prot bp) f addr).
Proof.
  intros Hat Ha. apply (flash_mspi_write_ram_spec b bp f); [done|constructor|].
  intros c Hr Hw Hbp Hf. rewrite app_nil_r. unfold header.
  change (u8 FLASH_SECT_ERASE_CMD) with FLASH_SECT_ERASE_CMD.
  destruct (chip_exec_erase c addr Hr Hw Ha) as [Hb Hx].
  split; [by rewrite <-Hbp|]. intros x. rewrite Hx, Hbp, Hf. unfold erased.
  destruct (Z.eqb_spec (x / 4096) (addr / 4096)) as [Hs|Hs]; cbn [andb].
  - rewrite (chip_prot_sector bp x addr Hs). by destruct (chip_prot bp addr).
  - by destruct (chip_prot bp addr).
Qed.

(** ** The status register *)
Lemma flash_read_status_low b bp f :
  flash_at b bp f ->
  flash_read_status FLASH_READ_STATUS_CMD_LOWBYTE b = (u8 (chip_status (bus_chip b)), b).
Proof.
  intros [Hi Hr Hbp Hf]. unfold flash_read_status. rewrite flash_mspi_read_ram_sent by done.
  unfold header. change (u8 FLASH_READ_STATUS_CMD_LOWBYTE) with FLASH_READ_STATUS_CMD_LOWBYTE.
  simpl. change [0] with (zeros 1). change [0; 0] with (zeros 2).
  rewrite chip_out_status_low, chip_exec_read by auto. destruct b; simpl in *. by subst.
Qed.

Lemma flash_read_status_high b bp f :
  flash_at b bp f ->
  flash_read_status FLASH_READ_STATUS_CMD_HIGHBYTE b = (u8 (chip_status (bus_chip b) / 256), b).
Proof.
  intros [Hi Hr Hbp Hf]. unfold flash_read_status. rewrite flash_mspi_read_ram_sent by done.
  unfold header. change (u8 FLASH_READ_STATUS_CMD_HIGHBYTE) with FLASH_READ_STATUS_CMD_HIGHBYTE.
  simpl. change [0] with (zeros 1). change [0; 0] with (zeros 2).
  rewrite chip_out_status_high, chip_exec_read by auto. destruct b; simpl in *. by subst.
Qed.

Lemma flash_read_mid_spec b bp f :
  flash_at b bp f -> flash_read_mid b = (chip_id, b).
Proof.
  intros [Hi Hr Hbp Hf]. unfold flash_read_mid. rewrite flash_mspi_read_ram_sent by done.
  unfold header. change (u8 FLASH_GET_JEDEC_ID) with FLASH_GET_JEDEC_ID.
  cbn [seq map app]. change (zeros 0) with (@nil Z). cbn [app].
  rewrite chip_exec_read, !chip_out_id by (auto || lia).
  f_equal; [|destruct b; simpl in *; by subst].
  pose proof chip_id_range. cbn [le_word]. unfold u8. zdm.
Qed.

Lemma flash_write_status8_spec b bp f data :
  flash_at b bp f -> chip_wide = false ->
  flash_at (flash_write_status FLASH_TYPE_8BIT_STATUS data b) (Z.land (u8 data) chip_bp_mask) f.
Proof.
  intros Hat Hw. apply (flash_mspi_write_ram_spec b bp f); [done| |].
  - repeat constructor; apply u8_range.
  - intros c Hr Hwel Hbp Hf. unfold header.
    change (u8 FLASH_WRITE_STATUS_CMD_LOWBYTE) with FLASH_WRITE_STATUS_CMD_LOWBYTE.
    destruct (chip_exec_wrsr8 c (u8 data) Hr Hwel Hw (u8_range _)) as [Hb Hx].
    split; [exact Hb|]. intros x. rewrite <-Hf. apply Hx.
Qed.

Lemma flash_write_status16_spec b bp f data :
  flash_at b bp f -> chip_wide = true ->
  flash_at (flash_write_status FLASH_TYPE_16BIT_STATUS_ONE_CMD data b)
    (Z.land (u16 data) chip_bp_mask) f.
Proof.
  intros Hat Hw. apply (flash_mspi_write_ram_spec b bp f); [done| |].
  - repeat constructor; apply u8_range.
  - intros c Hr Hwel Hbp Hf. unfold header.
    change (u8 FLASH_WRITE_STATUS_CMD_LOWBYTE) with FLASH_WRITE_STATUS_CMD_LOWBYTE.
    destruct (chip_exec_wrsr16 c (u8 data) (u8 (data / 2 ^ 8)) Hr Hwel Hw (u8_range _) (u8_range _))
      as [Hb Hx].
    split; [|intros x; rewrite <-Hf; apply Hx].
    replace (u16 data) with (u8 data + 256 * u8 (data / 2 ^ 8)); [exact Hb|].
    unfold u8, u16. zdm.
Qed.
End DriverSpec.
