(* ===== verification/FlashIf.v ===== *)
(** * The flash interface

    What [drv_flash.c] promises to the code that stores data in flash
    ([drv_nv.c], [tl_specific_data_ota.c]): the operations, in [Flash], and
    their laws, in [FlashLaws].  The clients are proved against these classes;
    [FlashDrv.v] proves that the driver, over the chip, is an instance. *)
From S2P Require Import Prelude SpiFlash.

Class Flash (F : Type) := {
  fl_read : F -> Z -> nat -> list Z;
  fl_write : Z -> list Z -> F -> F;
  fl_erase : Z -> F -> F;
  fl_lock : F -> F;
  fl_unlock : F -> F
}.

(** The flash is a 24-bit address space. *)
Definition flash_range (a : Z) (n : nat) : Prop := 0 <= a < 2 ^ 24 /\ a + Z.of_nat n <= 2 ^ 24.

Class FlashLaws (F : Type) `{Flash F} := {
  fl_ok : F -> Prop;
  (** the content; the addresses that are write-protected at present; those that
      are when the flash is locked *)
  fl_byte : F -> Z -> Z;
  fl_prot : F -> Z -> bool;
  fl_mask : F -> Z -> bool;
  fl_byte_range f a : fl_ok f -> 0 <= fl_byte f a < 256;
  fl_prot_mask f x : fl_ok f -> fl_mask f x = false -> fl_prot f x = false;
  fl_read_law f a n :
    fl_ok f -> flash_range a n -> fl_read f a n = bytes_at (fl_byte f) a n;
  fl_write_law f a l :
    fl_ok f -> flash_range a (length l) -> Forall (fun v => 0 <= v < 256) l ->
    let f' := fl_write a l f in
    fl_ok f' /\ (forall x, fl_prot f' x = fl_prot f x /\ fl_mask f' x = fl_mask f x) /\
    forall x, fl_byte f' x = programmed (fl_prot f) (fl_byte f) a l x;
  fl_erase_law f a :
    fl_ok f -> flash_range a 0 ->
    let f' := fl_erase a f in
    fl_ok f' /\ (forall x, fl_prot f' x = fl_prot f x /\ fl_mask f' x = fl_mask f x) /\
    forall x, fl_byte f' x = erased (fl_prot f) (fl_byte f) a x;
  fl_lock_law f :
    fl_ok f ->
    fl_ok (fl_lock f) /\ (forall x, fl_byte (fl_lock f) x = fl_byte f x) /\
    forall x, fl_prot (fl_lock f) x = fl_mask f x /\ fl_mask (fl_lock f) x = fl_mask f x;
  fl_unlock_law f :
    fl_ok f ->
    fl_ok (fl_unlock f) /\ (forall x, fl_byte (fl_unlock f) x = fl_byte f x) /\
    forall x, fl_prot (fl_unlock f) x = false /\ fl_mask (fl_unlock f) x = fl_mask f x
}.

(** [flash_writeWithCheck], for the clients that use it. *)
Class FlashCheck (F : Type) := fl_write_check : Z -> list Z -> F -> bool * F.

Class FlashCheckLaws (F : Type) `{FlashLaws F} `{!FlashCheck F} :=
  fl_write_check_law f a l :
    fl_ok f -> flash_range a (length l) -> Forall (fun v => 0 <= v < 256) l ->
    let f' := (fl_write_check a l f).2 in
    fl_ok f' /\ (forall x, fl_prot f' x = fl_prot f x /\ fl_mask f' x = fl_mask f x) /\
    (forall x, fl_byte f' x = programmed (fl_prot f) (fl_byte f) a l x) /\
    ((fl_write_check a l f).1 = true <-> bytes_at (fl_byte f') a (length l) = l).

(** ** The content as lists of bytes *)
Lemma length_bytes_at f a n : length (bytes_at f a n) = n.
Proof. unfold bytes_at. by rewrite length_map, length_seq. Qed.

Lemma bytes_at_lookup f a n i :
  (i < n)%nat -> bytes_at f a n !! i = Some (f (a + Z.of_nat i)).
Proof.
  intros Hi. unfold bytes_at. rewrite list_lookup_fmap, lookup_seq_lt by done. done.
Qed.

Lemma bytes_at_ext f g a n :
  (forall i, 0 <= i < Z.of_nat n -> f (a + i) = g (a + i)) -> bytes_at f a n = bytes_at g a n.
Proof. intros Hfg. apply map_ext_in. intros k [? ?]%in_seq. apply Hfg. lia. Qed.

Lemma bytes_at_S f a n : bytes_at f a (S n) = f a :: bytes_at f (a + 1) n.
Proof.
  unfold bytes_at. cbn [seq map]. f_equal; [f_equal; lia|].
  rewrite <-seq_shift, map_map. apply map_ext. intros k. cbn beta. f_equal. lia.
Qed.

Lemma bytes_at_app f a n m :
  bytes_at f a (n + m) = bytes_at f a n ++ bytes_at f (a + Z.of_nat n) m.
Proof.
  revert a. induction n as [|n IH]; intros a.
  { change (Z.of_nat 0) with 0. by rewrite Z.add_0_r. }
  rewrite Nat.add_succ_l, !bytes_at_S, IH. cbn [app]. do 3 f_equal. lia.
Qed.

Lemma bytes_at_Forall f a n :
  (forall x, 0 <= f x < 256) -> Forall (fun v => 0 <= v < 256) (bytes_at f a n).
Proof. intros Hf. unfold bytes_at. apply Forall_map, Forall_forall. auto. Qed.

(** Little-endian words. *)
Fixpoint word_le (n : nat) (v : Z) : list Z :=
  match n with O => [] | S n' => u8 v :: word_le n' (v / 256) end.

Lemma length_word_le n v : length (word_le n v) = n.
Proof. revert v. induction n; intros; simpl; auto. Qed.

Lemma word_le_Forall n v : Forall (fun b => 0 <= b < 256) (word_le n v).
Proof. revert v. induction n; intros; simpl; constructor; auto using u8_range. Qed.

Lemma le_word_word_le n v : 0 <= v < 256 ^ Z.of_nat n -> le_word (word_le n v) = v.
Proof.
  revert v. induction n as [|n IH]; intros v Hv; cbn [word_le le_word].
  - change (256 ^ Z.of_nat 0) with 1 in Hv. lia.
  - rewrite Nat2Z.inj_succ, Z.pow_succ_r in Hv by lia.
    set (w := 256 ^ Z.of_nat n) in *. clearbody w.
    rewrite IH; [unfold u8; zdm|]. split; zdm.
Qed.

Lemma word_le_le_word l :
  Forall (fun b => 0 <= b < 256) l -> word_le (length l) (le_word l) = l.
Proof.
  induction 1 as [|x l Hx Hl IH]; cbn [length word_le le_word]; [done|].
  f_equal; [unfold u8; zdm|].
  replace ((x + 256 * le_word l) / 256) with (le_word l) by zdm. exact IH.
Qed.

Lemma le_word_range l :
  Forall (fun b => 0 <= b < 256) l -> 0 <= le_word l < 256 ^ Z.of_nat (length l).
Proof.
  induction 1 as [|x l Hx Hl IH]; cbn [length le_word]; [done|].
  rewrite Nat2Z.inj_succ, Z.pow_succ_r by lia. lia.
Qed.

(** Programming erased flash stores the data. *)
Lemma programmed_blank prot f a buf x :
  Forall (fun v => 0 <= v < 256) buf ->
  a <= x < a + Z.of_nat (length buf) -> prot x = false -> f x = 255 ->
  programmed prot f a buf x = default 0 (buf !! Z.to_nat (x - a)).
Proof.
  intros Hb Hx Hp Hf. unfold programmed. rewrite Hp, Hf.
  destruct (Z.leb_spec a x), (Z.ltb_spec x (a + Z.of_nat (length buf))); try lia. simpl.
  destruct (lookup_lt_is_Some_2 buf (Z.to_nat (x - a))) as [v Hv]; [lia|]. rewrite Hv. simpl.
  pose proof (Forall_lookup_1 _ _ _ _ Hb Hv) as Hr. simpl in Hr.
  change 255 with (Z.ones 8). rewrite Z.land_comm, Z.land_ones by lia. apply Z.mod_small. lia.
Qed.

Lemma programmed_blank_bytes prot f a buf :
  Forall (fun v => 0 <= v < 256) buf ->
  (forall x, a <= x < a + Z.of_nat (length buf) -> prot x = false /\ f x = 255) ->
  bytes_at (programmed prot f a buf) a (length buf) = buf.
Proof.
  intros Hb Hf. apply list_eq. intros i.
  destruct (decide (i < length buf)%nat) as [Hi|Hi].
  - destruct (Hf (a + Z.of_nat i) ltac:(lia)) as [Hp Hx].
    rewrite bytes_at_lookup, programmed_blank by (done || lia).
    destruct (lookup_lt_is_Some_2 buf i Hi) as [v Hv].
    replace (Z.to_nat (a + Z.of_nat i - a)) with i by lia. by rewrite Hv.
  - rewrite !lookup_ge_None_2; [done|lia|rewrite length_bytes_at; lia].
Qed.

Lemma programmed_bytes_out prot f a buf b n :
  b + Z.of_nat n <= a \/ a + Z.of_nat (length buf) <= b ->
  bytes_at (programmed prot f a buf) b n = bytes_at f b n.
Proof. intros. apply bytes_at_ext. intros i Hi. apply programmed_out. lia. Qed.

Lemma programmed_range prot f a buf x :
  (forall x, 0 <= f x < 256) -> Forall (fun v => 0 <= v < 256) buf ->
  0 <= programmed prot f a buf x < 256.
Proof.
  intros Hf Hb. unfold programmed. destruct (_ && _); [|done].
  set (v := default 0 _). assert (0 <= v < 256) as Hv.
  { unfold v. destruct (buf !! Z.to_nat (x - a)) eqn:E; simpl; [|lia].
    by apply (Forall_lookup_1 _ _ _ _ Hb) in E. }
  assert (Z.land (f x) v = Z.land (f x) v mod 2 ^ 8) as ->.
  { rewrite <-Z.land_ones, <-Z.land_assoc, Z.land_ones by lia.
    by rewrite (Z.mod_small v) by lia. }
  apply Z.mod_pos_bound. lia.
Qed.
