(* ===== verification/FlashDrv.v ===== *)
(** * The flash driver
    ([proj/drivers/drv_flash.c], [platform/chip_8278/flash/*.c], the flash part of
    [drv_platform_init] in [proj/drivers/drv_hw.c])

    The block-protection drivers of the supported flash models, the table that
    selects one of them, and the operations the rest of the system calls.
    [FlashDrv] proves that the driver is an instance of the interface of
    [FlashIf.v], over any chip that behaves as its data sheet says. *)
From S2P Require Import Prelude SpiFlash FlashIf.

(** ** Block protection of the flash models
    ([flash_mid*.h]: the protection bits, "nothing" and "everything") *)
Definition FLASH_WRITE_STATUS_BP_8BIT : Z := 0x1c.
Definition FLASH_WRITE_STATUS_BP_16BIT : Z := 0x407c.
Definition FLASH_LOCK_NONE : Z := 0x00.
Definition FLASH_LOCK_ALL_8BIT : Z := 0x1c.
Definition FLASH_LOCK_ALL_1M_MID146085 : Z := 0x007c.
Definition FLASH_LOCK_LOW_512K_MID1570CD : Z := 0x0030.
Definition FLASH_LOCK_LOW_512K_MID146085 : Z := 0x0030.
Definition FLASH_LOCK_LOW_1M_MID1570CD : Z := 0x0034.
Definition FLASH_LOCK_LOW_64K_128K : Z := 0x10.
Definition FLASH_LOCK_LOW_256K_512K : Z := 0x18.
Definition FLASH_LOCK_LOW_768K_1M : Z := 0x18.

Section Mid.
Context {C : Type} `{SpiChip C}.
Implicit Type b : bus C.

(** Models with an 8-bit status register. *)
Definition flash_read_status_mid1360c8 b : Z * bus C :=
  flash_read_status FLASH_READ_STATUS_CMD_LOWBYTE b.
Definition flash_write_status_mid1360c8 (data mask : Z) b : Z * bus C :=
  if negb (0 =? Z.land data (Z.lnot mask)) then (2, b)
  else
    let '(status, b) := flash_read_status_mid1360c8 b in
    let '(status, b) :=
      if negb (data =? Z.land status mask) then
        let status := u8 (Z.lor data (Z.land status (Z.lnot mask))) in
        let b := flash_write_status FLASH_TYPE_8BIT_STATUS status b in
        flash_read_status_mid1360c8 b
      else (status, b) in
    if data =? Z.land status mask then (1, b) else (0, b).
Definition flash_lock_mid1360c8 (data : Z) b : Z * bus C :=
  flash_write_status_mid1360c8 (u8 data) FLASH_WRITE_STATUS_BP_8BIT b.
Definition flash_unlock_mid1360c8 b : Z * bus C :=
  flash_write_status_mid1360c8 FLASH_LOCK_NONE FLASH_WRITE_STATUS_BP_8BIT b.
Definition flash_get_lock_block_mid1360c8 b : Z * bus C :=
  let '(status, b) := flash_read_status_mid1360c8 b in
  (Z.land status FLASH_WRITE_STATUS_BP_8BIT, b).

(** The files of the other 8-bit models repeat the same text. *)
Definition flash_lock_mid1160c8 := flash_lock_mid1360c8.
Definition flash_unlock_mid1160c8 := flash_unlock_mid1360c8.
Definition flash_get_lock_block_mid1160c8 := flash_get_lock_block_mid1360c8.
Definition flash_write_status_mid1160c8 := flash_write_status_mid1360c8.
Definition flash_lock_mid11325e := flash_lock_mid1360c8.
Definition flash_unlock_mid11325e := flash_unlock_mid1360c8.
Definition flash_get_lock_block_mid11325e := flash_get_lock_block_mid1360c8.
Definition flash_write_status_mid11325e := flash_write_status_mid1360c8.
Definition flash_lock_mid13325e := flash_lock_mid1360c8.
Definition flash_unlock_mid13325e := flash_unlock_mid1360c8.
Definition flash_get_lock_block_mid13325e := flash_get_lock_block_mid1360c8.
Definition flash_write_status_mid13325e := flash_write_status_mid1360c8.
Definition flash_lock_mid14325e := flash_lock_mid1360c8.
Definition flash_unlock_mid14325e := flash_unlock_mid1360c8.
Definition flash_get_lock_block_mid14325e := flash_get_lock_block_mid1360c8.
Definition flash_write_status_mid14325e := flash_write_status_mid1360c8.
Definition flash_lock_mid1460c8 := flash_lock_mid1360c8.
Definition flash_unlock_mid1460c8 := flash_unlock_mid1360c8.
Definition flash_get_lock_block_mid1460c8 := flash_get_lock_block_mid1360c8.
Definition flash_write_status_mid1460c8 := flash_write_status_mid1360c8.

(** Models with a 16-bit status register, written with one command. *)
Definition flash_read_status_mid146085 b : Z * bus C :=
  let '(status_low, b) := flash_read_status FLASH_READ_STATUS_CMD_LOWBYTE b in
  let '(status_high, b) := flash_read_status FLASH_READ_STATUS_CMD_HIGHBYTE b in
  (Z.lor status_low (Z.shiftl status_high 8), b).
Definition flash_write_status_mid146085 (data mask : Z) b : Z * bus C :=
  if negb (0 =? Z.land data (Z.lnot mask)) then (2, b)
  else
    let '(status, b) := flash_read_status_mid146085 b in
    let '(status, b) :=
      if negb (data =? Z.land status mask) then
        let status := u16 (Z.lor data (Z.land status (Z.lnot mask))) in
        let b := flash_write_status FLASH_TYPE_16BIT_STATUS_ONE_CMD status b in
        flash_read_status_mid146085 b
      else (status, b) in
    if data =? Z.land status mask then (1, b) else (0, b).
Definition flash_lock_mid146085 (data : Z) b : Z * bus C :=
  flash_write_status_mid146085 (u16 data) FLASH_WRITE_STATUS_BP_16BIT b.
Definition flash_unlock_mid146085 b : Z * bus C :=
  flash_write_status_mid146085 FLASH_LOCK_NONE FLASH_WRITE_STATUS_BP_16BIT b.
Definition flash_get_lock_block_mid146085 b : Z * bus C :=
  let '(status, b) := flash_read_status_mid146085 b in
  (Z.land status FLASH_WRITE_STATUS_BP_16BIT, b).
Definition flash_lock_mid1570cd := flash_lock_mid146085.
Definition flash_unlock_mid1570cd := flash_unlock_mid146085.
Definition flash_get_lock_block_mid1570cd := flash_get_lock_block_mid146085.
Definition flash_write_status_mid1570cd := flash_write_status_mid146085.

(** [flash_common.c]: the models the platform code knows. *)
Record flash_hal_handler_t := mk_hal {
  hal_mid : Z;
  get_lock : bus C -> Z * bus C;
  hal_unlock : bus C -> Z * bus C;
  lock_func : Z -> bus C -> Z * bus C;
  lock_size : Z
}.
Definition flash_list : list flash_hal_handler_t := [
  mk_hal 0x1160C8 flash_get_lock_block_mid1160c8 flash_unlock_mid1160c8 flash_lock_mid1160c8
    FLASH_LOCK_LOW_64K_128K;
  mk_hal 0x11325E flash_get_lock_block_mid11325e flash_unlock_mid11325e flash_lock_mid11325e
    FLASH_LOCK_LOW_64K_128K;
  mk_hal 0x1360C8 flash_get_lock_block_mid1360c8 flash_unlock_mid1360c8 flash_lock_mid1360c8
    FLASH_LOCK_LOW_256K_512K;
  mk_hal 0x13325E flash_get_lock_block_mid13325e flash_unlock_mid13325e flash_lock_mid13325e
    FLASH_LOCK_LOW_256K_512K;
  mk_hal 0x146085 flash_get_lock_block_mid146085 flash_unlock_mid146085 flash_lock_mid146085
    FLASH_LOCK_LOW_512K_MID146085;
  mk_hal 0x1460C8 flash_get_lock_block_mid1460c8 flash_unlock_mid1460c8 flash_lock_mid1460c8
    FLASH_LOCK_LOW_768K_1M;
  mk_hal 0x14325E flash_get_lock_block_mid14325e flash_unlock_mid14325e flash_lock_mid14325e
    FLASH_LOCK_LOW_768K_1M;
  mk_hal 0x1570CD flash_get_lock_block_mid1570cd flash_unlock_mid1570cd flash_lock_mid1570cd
    FLASH_LOCK_LOW_1M_MID1570CD].

Definition no_uid : list Z :=
  [0x51; 0x01; 0x51; 0x01; 0x51; 0x01; 0x51; 0x01; 0x51; 0x01; 0x51; 0x01; 0x51; 0x01; 0x51; 0x01].

(** [f_cnt]: the places where the two arrays agree. *)
Fixpoint agreements (l1 l2 : list Z) : Z :=
  match l1, l2 with
  | x :: l1', y :: l2' => c_bool (x =? y) + agreements l1' l2'
  | _, _ => 0
  end.

(** The answer, the identification, and the unique identifier if it was read. *)
Definition flash_read_mid_uid_with_check b : Z * Z * option (list Z) * bus C :=
  let '(flash_mid, b) := flash_read_mid b in
  match List.find (fun h => hal_mid h =? flash_mid) flash_list with
  | None => (0, flash_mid, None, b)
  | Some _ =>
      let '(uid, b) := flash_read_uid FLASH_READ_UID_CMD_GD_PUYA_ZB_TH b in
      let flash_uid := default [] uid in
      if agreements flash_uid no_uid =? 16 then (0, flash_mid, uid, b)
      else (1, flash_mid, uid, b)
  end.

(** ** [drv_flash.c] *)
Record drv_flash_opt_t := mk_opt {
  mid : Z;
  unlock : option (bus C -> Z * bus C);
  lock : option (Z -> bus C -> Z * bus C);
  blockSize : Z
}.

Definition c_flashOptList : list drv_flash_opt_t := [
  mk_opt 0x13325e (Some flash_unlock_mid13325e) (Some flash_lock_mid13325e) FLASH_LOCK_ALL_8BIT;
  mk_opt 0x1360c8 (Some flash_unlock_mid1360c8) (Some flash_lock_mid1360c8) FLASH_LOCK_ALL_8BIT;
  mk_opt 0x14325e (Some flash_unlock_mid14325e) (Some flash_lock_mid14325e) FLASH_LOCK_ALL_8BIT;
  mk_opt 0x1460c8 (Some flash_unlock_mid1460c8) (Some flash_lock_mid1460c8) FLASH_LOCK_ALL_8BIT;
  mk_opt 0x146085 (Some flash_unlock_mid146085) (Some flash_lock_mid146085)
    FLASH_LOCK_ALL_1M_MID146085;
  mk_opt 0x1570cd (Some flash_unlock_mid1570cd) (Some flash_lock_mid1570cd)
    FLASH_LOCK_LOW_512K_MID1570CD].
End Mid.
Arguments drv_flash_opt_t C : clear implicits.

(** [drv_hw.h] *)
Definition BATTERY_SAFETY_THRESHOLD : Z := 2200.

(** The supply voltage in millivolts, as the converter reads it: hardware, a
    parameter; [drv_get_adc_data n] is the [n]th reading. *)
Class Adc := drv_get_adc_data : nat -> Z.

(** The supply is never below the threshold. *)
Class AdcSafe `{Adc} : Prop := adc_safe n : BATTERY_SAFETY_THRESHOLD <= drv_get_adc_data n.

Section Drv.
Context {C : Type} `{SpiChip C} `{Adc}.


(** [pFlashOpt] is NULL or points to [g_flashOptTable]. *)
Record drv := mk_drv {
  d_bus : bus C;
  pFlashOpt : bool;
  g_flashOptTable : drv_flash_opt_t C;
  g_flashLocked : bool;
  d_adc : nat
}.
Implicit Type d : drv.

Definition with_bus (b : bus C) d : drv :=
  mk_drv b (pFlashOpt d) (g_flashOptTable d) (g_flashLocked d) (d_adc d).
Definition with_opt (p : bool) (t : drv_flash_opt_t C) d : drv :=
  mk_drv (d_bus d) p t (g_flashLocked d) (d_adc d).
Definition with_locked (l : bool) d : drv :=
  mk_drv (d_bus d) (pFlashOpt d) (g_flashOptTable d) l (d_adc d).
Definition adc_read d : Z * drv :=
  (drv_get_adc_data (d_adc d),
   mk_drv (d_bus d) (pFlashOpt d) (g_flashOptTable d) (g_flashLocked d) (S (d_adc d))).

Definition drv_init (b : bus C) : drv := mk_drv b false (mk_opt 0 None None 0) false 0.

Definition flash_loadOpt d : drv :=
  let '(m, b) := flash_read_mid (d_bus d) in
  let t := g_flashOptTable d in
  let d := with_bus b (with_opt (pFlashOpt d) (mk_opt m (unlock t) (lock t) (blockSize t)) d) in
  match List.find (fun o => m =? mid o) c_flashOptList with
  | Some o => with_opt true (mk_opt m (unlock o) (lock o) (blockSize o)) d
  | None => d
  end.

Definition flash_lock d : drv :=
  match pFlashOpt d, lock (g_flashOptTable d) with
  | true, Some lk =>
      if g_flashLocked d then d
      else
        let '(r, b) := lk (blockSize (g_flashOptTable d)) (d_bus d) in
        let d := with_bus b d in
        if r =? 1 then with_locked true d else d
  | _, _ => d
  end.

Definition flash_unlock d : drv :=
  match pFlashOpt d, unlock (g_flashOptTable d) with
  | true, Some ul =>
      if negb (g_flashLocked d) then d
      else
        let '(r, b) := ul (d_bus d) in
        let d := with_bus b d in
        if r =? 1 then with_locked false d else d
  | _, _ => d
  end.

Definition flash_write (addr : Z) (buf : list Z) d : drv :=
  let '(v, d) := adc_read d in
  if v <? BATTERY_SAFETY_THRESHOLD then d
  else with_bus (flash_write_page addr buf (d_bus d)) d.

Definition flash_read (addr : Z) (len : nat) d : list Z * drv :=
  let '(l, b) := flash_read_page addr len (d_bus d) in (l, with_bus b d).

Definition flash_erase (addr : Z) d : drv :=
  let '(v, d) := adc_read d in
  if v <? BATTERY_SAFETY_THRESHOLD then d
  else with_bus (flash_erase_sector addr (d_bus d)) d.

(** The comparing loop of [flash_writeWithCheck]. *)
Fixpoint check_loop (fuel : nat) (toalLen sAddr : Z) (pSrc : list Z) d : bool * drv :=
  match fuel with
  | O => (true, d)
  | S fuel' =>
      if 0 <? toalLen then
        let wLen := u8 (if 48 <? toalLen then 48 else toalLen) in
        let '(pTemp, d) := flash_read sAddr (Z.to_nat wLen) d in
        if negb (bool_decide (pTemp = take (Z.to_nat wLen) pSrc)) then (false, d)
        else check_loop fuel' (toalLen - wLen) (u32 (sAddr + wLen)) (drop (Z.to_nat wLen) pSrc) d
      else (true, d)
  end.

Definition flash_writeWithCheck (addr : Z) (buf : list Z) d : bool * drv :=
  let '(v, d) := adc_read d in
  if v <? BATTERY_SAFETY_THRESHOLD then (false, d)
  else
    let d := with_bus (flash_write_page addr buf (d_bus d)) d in
    check_loop (S (length buf)) (s32 (Z.of_nat (length buf))) addr buf d.

(** [cfs_flash_op]; the first component collects what is read into [buf]. *)
Fixpoint cfs_loop (fuel : nat) (opmode : bool) (addr pageReLen remainLen : Z) (buf : list Z) d
    : list Z * drv :=
  match fuel with
  | O => ([], d)
  | S fuel' =>
      let '(writeLen, remainLen, pageReLen) :=
        if remainLen <=? pageReLen then (remainLen, 0, pageReLen)
        else (pageReLen, remainLen - pageReLen, 256) in
      let n := Z.to_nat writeLen in
      let '(l, d) :=
        if opmode then ([], with_bus (flash_write_page addr (take n buf) (d_bus d)) d)
        else let '(l, b) := flash_read_page addr n (d_bus d) in (l, with_bus b d) in
      if negb (remainLen =? 0) then
        let '(l', d) := cfs_loop fuel' opmode (u32 (addr + writeLen)) pageReLen remainLen (drop n buf) d
        in (l ++ l', d)
      else (l, d)
  end.

Definition cfs_flash_op (opmode : bool) (addr len : Z) (buf : list Z) d : list Z * drv :=
  let re := addr mod 256 in
  let pageReLen := if negb (re =? 0) then 256 - re else 256 in
  cfs_loop (S (Z.to_nat len)) opmode addr pageReLen len buf d.
Definition cfs_flash_write (addr len : Z) (buf : list Z) d : drv := (cfs_flash_op true addr len buf d).2.
Definition cfs_flash_read (addr len : Z) d : list Z * drv := cfs_flash_op false addr len [] d.

(** The flash part of [drv_platform_init], after a start without retention. *)
Definition platform_flash_init d : drv := flash_lock (flash_loadOpt d).

(** [internalFlashSizeCheck]: [None] when the code stops for ever; else the
    two factory addresses. *)
Definition internalFlashSizeCheck (g_u32MacFlashAddr g_u32CfgFlashAddr : Z) d
    : option (Z * Z * drv) :=
  let '(m, b) := flash_read_mid (d_bus d) in
  let d := with_bus b d in
  let pMid2 := u8 (m / 2 ^ 16) in
  if (pMid2 <? 0x13) || ((g_u32MacFlashAddr =? 0xFF000) && (pMid2 <? 0x14)) then None
  else if (g_u32MacFlashAddr =? 0x76000) && (0x14 <=? pMid2) then Some (0xFF000, 0xFE000, d)
  else Some (g_u32MacFlashAddr, g_u32CfgFlashAddr, d).
End Drv.
Arguments drv C : clear implicits.

(** ** The block-protection drivers *)

Lemma rmw_bits w data s mask :
  0 <= w -> Z.land data (Z.lnot mask) = 0 -> Z.land mask (Z.ones w) = mask ->
  Z.land (Z.lor data (Z.land s (Z.lnot mask)) mod 2 ^ w) mask = data.
Proof.
  intros Hw Hd Hm. rewrite <-Z.land_ones by done. apply Z.bits_inj'. intros n Hn.
  assert (H1 : Z.testbit (Z.land data (Z.lnot mask)) n = false) by (by rewrite Hd, Z.bits_0).
  assert (H2 : Z.testbit (Z.land mask (Z.ones w)) n = Z.testbit mask n) by (by rewrite Hm).
  rewrite Z.land_spec in H1, H2. rewrite Z.lnot_spec in H1 by done.
  rewrite !Z.land_spec, Z.lor_spec, Z.land_spec, Z.lnot_spec by done.
  destruct (Z.testbit data n), (Z.testbit mask n), (Z.testbit s n), (Z.testbit (Z.ones w) n);
    simpl in *; congruence.
Qed.

Lemma land_mod w s mask :
  0 <= w -> Z.land mask (Z.ones w) = mask -> Z.land (s mod 2 ^ w) mask = Z.land s mask.
Proof.
  intros Hw Hm. rewrite <-Z.land_ones by done. rewrite <-Z.land_assoc.
  f_equal. by rewrite Z.land_comm.
Qed.

Lemma lor_bytes s : 0 <= s < 65536 -> Z.lor (u8 s) (Z.shiftl (u8 (s / 256)) 8) = s.
Proof.
  intros Hs. rewrite (u8_small (s / 256)) by zdm. apply Z.bits_inj'. intros n Hn.
  unfold u8. rewrite Z.lor_spec, Z.shiftl_spec by done.
  destruct (Z.ltb_spec n 8).
  - rewrite Z.mod_pow2_bits_low by lia. rewrite (Z.testbit_neg_r _ (n - 8)) by lia. apply orb_false_r.
  - rewrite Z.mod_pow2_bits_high by lia. simpl. change 256 with (2 ^ 8).
    rewrite <-Z.shiftr_div_pow2, Z.shiftr_spec by lia. f_equal. lia.
Qed.

(** An operation on the protection bits that reports success. *)
Definition protects {C} `{SpiChipLaws C} (op : bus C -> Z * bus C) (bp : Z) : Prop :=
  forall b bp0 f, flash_at b bp0 f -> exists b', op b = (1, b') /\ flash_at b' bp f.

Section MidSpec.
Context {C : Type} `{HL : SpiChipLaws C}.
Implicit Types (b : bus C) (f : Z -> Z).

Lemma write_status8_protects data :
  chip_wide = false -> 0 <= data < 256 -> Z.land data (Z.lnot 0x1c) = 0 ->
  protects (flash_write_status_mid1360c8 data FLASH_WRITE_STATUS_BP_8BIT) data.
Proof.
  intros Hw Hd Hm b bp0 f Hat. unfold flash_write_status_mid1360c8, FLASH_WRITE_STATUS_BP_8BIT.
  rewrite Hm, Z.eqb_refl. cbn [negb]. unfold flash_read_status_mid1360c8.
  rewrite (flash_read_status_low _ _ _ Hat).
  assert (Hbp : forall b bp f, flash_at b bp f -> Z.land (u8 (chip_status (bus_chip b))) 0x1c = bp).
  { intros b0 bp g Hat0. unfold u8. rewrite land_mod by done.
    rewrite <-(at_bp _ _ _ Hat0). unfold chip_bp, chip_bp_mask. by rewrite Hw. }
  rewrite (Hbp _ _ _ Hat).
  destruct (Z.eqb_spec data bp0) as [->|Hne]; cbn [negb].
  - rewrite (Hbp _ _ _ Hat), Z.eqb_refl. eauto.
  - pose proof (flash_write_status8_spec b bp0 f
      (u8 (Z.lor data (Z.land (u8 (chip_status (bus_chip b))) (Z.lnot 0x1c)))) Hat Hw) as Hat'.
    assert (Z.land (u8 (u8 (Z.lor data (Z.land (u8 (chip_status (bus_chip b))) (Z.lnot 0x1c)))))
              chip_bp_mask = data) as Hdata.
    { rewrite u8_u8. unfold chip_bp_mask. rewrite Hw. by apply rmw_bits. }
    rewrite Hdata in Hat'. rewrite (flash_read_status_low _ _ _ Hat'), (Hbp _ _ _ Hat'), Z.eqb_refl.
    eauto.
Qed.

Lemma read_status16_spec b bp f :
  flash_at b bp f -> flash_read_status_mid146085 b = (chip_status (bus_chip b), b).
Proof.
  intros Hat. unfold flash_read_status_mid146085.
  rewrite (flash_read_status_low _ _ _ Hat), (flash_read_status_high _ _ _ Hat).
  by rewrite lor_bytes by apply chip_status_range.
Qed.

Lemma write_status16_protects data :
  chip_wide = true -> 0 <= data < 65536 -> Z.land data (Z.lnot 0x407c) = 0 ->
  protects (flash_write_status_mid146085 data FLASH_WRITE_STATUS_BP_16BIT) data.
Proof.
  intros Hw Hd Hm b bp0 f Hat. unfold flash_write_status_mid146085, FLASH_WRITE_STATUS_BP_16BIT.
  rewrite Hm, Z.eqb_refl. cbn [negb]. rewrite (read_status16_spec _ _ _ Hat).
  assert (Hbp : forall b bp f, flash_at b bp f -> Z.land (chip_status (bus_chip b)) 0x407c = bp).
  { intros b0 bp g Hat0. rewrite <-(at_bp _ _ _ Hat0). unfold chip_bp, chip_bp_mask. by rewrite Hw. }
  rewrite (Hbp _ _ _ Hat).
  destruct (Z.eqb_spec data bp0) as [->|Hne]; cbn [negb].
  - rewrite (Hbp _ _ _ Hat), Z.eqb_refl. eauto.
  - pose proof (flash_write_status16_spec b bp0 f
      (u16 (Z.lor data (Z.land (chip_status (bus_chip b)) (Z.lnot 0x407c)))) Hat Hw) as Hat'.
    assert (Z.land (u16 (u16 (Z.lor data (Z.land (chip_status (bus_chip b)) (Z.lnot 0x407c)))))
              chip_bp_mask = data) as Hdata.
    { rewrite (u16_small (u16 _)) by apply u16_range. unfold chip_bp_mask. rewrite Hw.
      by apply rmw_bits. }
    rewrite Hdata in Hat'. rewrite (read_status16_spec _ _ _ Hat'), (Hbp _ _ _ Hat'), Z.eqb_refl.
    eauto.
Qed.

(** A chip of the driver's table has the status register its driver expects. *)
Definition listed_chip (o : drv_flash_opt_t C) : Prop :=
  o ∈ c_flashOptList /\ mid o = chip_id /\
  chip_wide = (mid o =? 0x146085) || (mid o =? 0x1570cd).

Lemma listed_protects o :
  listed_chip o ->
  exists lk ul, lock o = Some lk /\ unlock o = Some ul /\
    protects (lk (blockSize o)) (blockSize o) /\ protects ul 0.
Proof.
  intros (Hin & Hid & Hw). unfold c_flashOptList in Hin.
  rewrite !elem_of_cons, elem_of_nil in Hin.
  destruct_or! Hin; try done; subst o; cbn in Hw |- *; do 2 eexists; split_and!; try reflexivity;
    (apply write_status8_protects || apply write_status16_protects); try done; vm_compute; auto.
Qed.

Lemma find_listed o :
  listed_chip o -> List.find (fun o => chip_id =? mid o) (@c_flashOptList C _) = Some o.
Proof.
  intros (Hin & Hid & _). unfold c_flashOptList in Hin |- *.
  rewrite !elem_of_cons, elem_of_nil in Hin.
  destruct_or! Hin; try done; subst o; rewrite <-Hid; reflexivity.
Qed.
End MidSpec.

Section DrvSpec.
Context {C : Type} `{HL : SpiChipLaws C} `{AdcSafe}.
Implicit Types (d : drv C) (f : Z -> Z).

(** The driver's state: the chip is at rest with content [f]; when a
    protection driver is loaded the flag says what the chip protects, and
    without one nothing is protected. *)
Definition opt_ok (d : drv C) (bp : Z) : Prop :=
  if pFlashOpt d then
    listed_chip (g_flashOptTable d) /\
    bp = (if g_flashLocked d then blockSize (g_flashOptTable d) else 0)
  else bp = 0.

Inductive drv_at d f : Prop := Drv_at (bp : Z) (Hat : flash_at (d_bus d) bp f) (Hopt : opt_ok d bp).

(** The addresses the driver has protected. *)
Definition drv_prot d (x : Z) : bool :=
  pFlashOpt d && g_flashLocked d && chip_prot (blockSize (g_flashOptTable d)) x.

Lemma drv_at_prot d f :
  drv_at d f -> exists bp, flash_at (d_bus d) bp f /\ forall x, chip_prot bp x = drv_prot d x.
Proof.
  intros [bp Hat Hopt]. exists bp. split; [done|]. intros x. unfold opt_ok in Hopt. unfold drv_prot.
  destruct (pFlashOpt d); simpl; [|by rewrite Hopt, chip_prot_none].
  destruct Hopt as [_ ->]. destruct (g_flashLocked d); simpl; [done|apply chip_prot_none].
Qed.

Lemma drv_at_ext d f g : (forall x, f x = g x) -> drv_at d f -> drv_at d g.
Proof. intros Hfg [bp Hat Hopt]. exists bp; [by eapply flash_at_ext|done]. Qed.

Lemma adc_never_low n : (drv_get_adc_data n <? BATTERY_SAFETY_THRESHOLD) = false.
Proof. apply Z.ltb_ge, adc_safe. Qed.

Lemma programmed_prot_ext p q f a l x :
  (forall x, p x = q x) -> programmed p f a l x = programmed q f a l x.
Proof. intros E. unfold programmed. by rewrite E. Qed.

Lemma erased_prot_ext p q f a x : (forall x, p x = q x) -> erased p f a x = erased q f a x.
Proof. intros E. unfold erased. by rewrite E. Qed.

(** A write of the bus that programs keeps the driver's state. *)
Lemma drv_bus_programmed d f bp a l b k :
  flash_at (d_bus d) bp f -> opt_ok d bp ->
  flash_at b bp (programmed (chip_prot bp) f a l) ->
  drv_at (mk_drv b (pFlashOpt d) (g_flashOptTable d) (g_flashLocked d) k)
    (programmed (drv_prot d) f a l).
Proof.
  intros Hat Hopt Hb.
  destruct (drv_at_prot d f (Drv_at d f bp Hat Hopt)) as (bp' & Hat' & E).
  assert (bp' = bp) as -> by (rewrite <-(at_bp _ _ _ Hat'); apply (at_bp _ _ _ Hat)).
  exists bp; [|done]. eapply flash_at_ext; [|exact Hb]. intros x. by apply programmed_prot_ext.
Qed.

Lemma flash_write_at d f a l :
  drv_at d f -> flash_range a (length l) -> Forall (fun v => 0 <= v < 256) l ->
  drv_at (flash_write a l d) (programmed (drv_prot d) f a l).
Proof.
  intros [bp Hat Hopt] [Ha Hl] Hb. unfold flash_write, adc_read. rewrite adc_never_low.
  unfold with_bus. cbn [d_bus pFlashOpt g_flashOptTable g_flashLocked d_adc].
  apply (drv_bus_programmed d f bp a l); [done|done|]. by apply flash_write_page_spec.
Qed.

Lemma flash_erase_at d f a :
  drv_at d f -> flash_range a 0 -> drv_at (flash_erase a d) (erased (drv_prot d) f a).
Proof.
  intros Hd [Ha _]. pose proof (drv_at_prot d f Hd) as (bp' & Hat' & E).
  destruct Hd as [bp Hat Hopt].
  assert (bp' = bp) as -> by (rewrite <-(at_bp _ _ _ Hat'); apply (at_bp _ _ _ Hat)).
  unfold flash_erase, adc_read. rewrite adc_never_low.
  exists bp; [|done]. eapply flash_at_ext; [|by apply flash_erase_sector_spec].
  intros x. by apply erased_prot_ext.
Qed.

Lemma with_bus_id d : with_bus (d_bus d) d = d.
Proof. by destruct d. Qed.

Lemma flash_read_at d f a n :
  drv_at d f -> flash_range a n -> flash_read a n d = (bytes_at f a n, d).
Proof.
  intros [bp Hat Hopt] [Ha Hn]. unfold flash_read.
  rewrite (flash_read_page_spec _ _ _ _ _ Hat) by lia. by rewrite with_bus_id.
Qed.

Lemma flash_lock_at d f :
  drv_at d f ->
  drv_at (flash_lock d) f /\ pFlashOpt (flash_lock d) = pFlashOpt d /\
  g_flashOptTable (flash_lock d) = g_flashOptTable d /\
  g_flashLocked (flash_lock d) = if pFlashOpt d then true else g_flashLocked d.
Proof.
  intros Hd. pose proof Hd as [bp Hat Hopt]. unfold opt_ok in Hopt. unfold flash_lock.
  destruct (pFlashOpt d) eqn:Ep; [|by rewrite Ep].
  destruct Hopt as [Hl Hbp]. destruct (listed_protects _ Hl) as (lk & ul & -> & _ & Hlk & _).
  destruct (g_flashLocked d) eqn:El; [by rewrite Ep, El|].
  destruct (Hlk _ _ _ Hat) as (b' & -> & Hat'). cbn [Z.eqb Pos.eqb].
  unfold with_locked, with_bus. cbn. rewrite Ep. split_and!; try done.
  exists (blockSize (g_flashOptTable d)); [done|]. unfold opt_ok. cbn. done.
Qed.

Lemma flash_unlock_at d f :
  drv_at d f ->
  drv_at (flash_unlock d) f /\ pFlashOpt (flash_unlock d) = pFlashOpt d /\
  g_flashOptTable (flash_unlock d) = g_flashOptTable d /\
  g_flashLocked (flash_unlock d) = if pFlashOpt d then false else g_flashLocked d.
Proof.
  intros Hd. pose proof Hd as [bp Hat Hopt]. unfold opt_ok in Hopt. unfold flash_unlock.
  destruct (pFlashOpt d) eqn:Ep; [|by rewrite Ep].
  destruct Hopt as [Hl Hbp]. destruct (listed_protects _ Hl) as (lk & ul & _ & -> & _ & Hul).
  destruct (g_flashLocked d) eqn:El; cbn [negb]; [|by rewrite Ep, El].
  destruct (Hul _ _ _ Hat) as (b' & -> & Hat'). cbn [Z.eqb Pos.eqb].
  unfold with_locked, with_bus. cbn. rewrite Ep. split_and!; try done.
  exists 0; [done|]. unfold opt_ok. cbn. done.
Qed.

(** Start-up: [platform_flash_init] on a chip of the table, whatever it
    protected before. *)
Lemma platform_flash_init_listed o b bp f :
  listed_chip o -> flash_at b bp f ->
  let d := platform_flash_init (drv_init b) in
  drv_at d f /\ pFlashOpt d = true /\ g_flashLocked d = true /\
  blockSize (g_flashOptTable d) = blockSize o.
Proof.
  intros Ho Hat. unfold platform_flash_init, flash_loadOpt, drv_init. cbn [d_bus].
  rewrite (flash_read_mid_spec _ _ _ Hat). cbn [g_flashOptTable pFlashOpt].
  rewrite (find_listed o Ho). unfold flash_lock, with_opt, with_bus. cbn.
  destruct (listed_protects o Ho) as (lk & ul & Elk & _ & Hlk & _). rewrite Elk.
  destruct (Hlk _ _ _ Hat) as (b' & -> & Hat'). cbn.
  split_and!; try done. exists (blockSize o); [done|]. cbn. split; [|done].
  destruct Ho as (Hin & Hid & Hw).
  assert (mk_opt chip_id (unlock o) (lock o) (blockSize o) = o) as Eo by (rewrite <-Hid; by destruct o).
  by rewrite <-Elk, Eo.
Qed.

Lemma platform_flash_init_unlisted b f :
  (forall o, o ∈ @c_flashOptList C _ -> mid o <> chip_id) -> flash_at b 0 f ->
  let d := platform_flash_init (drv_init b) in drv_at d f /\ pFlashOpt d = false.
Proof.
  intros Ho Hat. unfold platform_flash_init, flash_loadOpt, drv_init. cbn [d_bus].
  rewrite (flash_read_mid_spec _ _ _ Hat). cbn [g_flashOptTable pFlashOpt].
  destruct (List.find _ _) as [o|] eqn:E.
  { apply find_some in E as [Hin%list_elem_of_In Heq%Z.eqb_eq]. by destruct (Ho o Hin). }
  split; [|done]. by exists 0.
Qed.

(** ** The driver is a flash *)
#[export] Instance drv_Flash : Flash (drv C) := {|
  fl_read d a n := (flash_read a n d).1;
  fl_write := flash_write;
  fl_erase := flash_erase;
  fl_lock := flash_lock;
  fl_unlock := flash_unlock
|}.

(** The addresses that the driver protects when it is locked. *)
Definition drv_mask d (x : Z) : bool :=
  pFlashOpt d && chip_prot (blockSize (g_flashOptTable d)) x.

Definition drv_fl_ok d : Prop := drv_at d (chip_byte (bus_chip (d_bus d))).

Lemma drv_at_fl_ok d f : drv_at d f -> drv_fl_ok d /\ forall x, chip_byte (bus_chip (d_bus d)) x = f x.
Proof.
  intros Hd. pose proof Hd as [bp Hat Hopt]. split; [|apply (at_byte _ _ _ Hat)].
  eapply drv_at_ext; [|exact Hd]. intros x. symmetry. apply (at_byte _ _ _ Hat).
Qed.

#[export] Program Instance drv_FlashLaws : FlashLaws (drv C) := {|
  fl_ok := drv_fl_ok;
  fl_byte d := chip_byte (bus_chip (d_bus d));
  fl_prot := drv_prot;
  fl_mask := drv_mask
|}.
Next Obligation. intros; apply chip_byte_range. Qed.
Next Obligation.
  intros d x _. unfold drv_prot, drv_mask. destruct (pFlashOpt d), (g_flashLocked d); done.
Qed.
Next Obligation. intros d a n Hd Hr. cbn. by rewrite (flash_read_at _ _ _ _ Hd Hr). Qed.
Next Obligation.
  intros d a l Hd Hr Hb. cbn.
  destruct (drv_at_fl_ok _ _ (flash_write_at d _ a l Hd Hr Hb)) as [Hok Hx].
  split_and!; [done| |done]. intros x. unfold flash_write, adc_read. by rewrite adc_never_low.
Qed.
Next Obligation.
  intros d a Hd Hr. cbn.
  destruct (drv_at_fl_ok _ _ (flash_erase_at d _ a Hd Hr)) as [Hok Hx].
  split_and!; [done| |done]. intros x. unfold flash_erase, adc_read. by rewrite adc_never_low.
Qed.
Next Obligation.
  intros d Hd. cbn. destruct (flash_lock_at d _ Hd) as (Hd' & Ep & Et & El).
  destruct (drv_at_fl_ok _ _ Hd') as [Hok Hx]. split_and!; [done|done|].
  intros x. unfold drv_prot, drv_mask. rewrite Ep, Et, El. by destruct (pFlashOpt d).
Qed.
Next Obligation.
  intros d Hd. cbn. destruct (flash_unlock_at d _ Hd) as (Hd' & Ep & Et & El).
  destruct (drv_at_fl_ok _ _ Hd') as [Hok Hx]. split_and!; [done|done|].
  intros x. unfold drv_prot, drv_mask. rewrite Ep, Et, El. by destruct (pFlashOpt d).
Qed.
End DrvSpec.
