(* ===== verification/SimChip.v ===== *)
(** * A concrete flash chip

    An instance of [SpiChip] and [SpiChipLaws]: a simulated P25Q80U
    (identification 0x146085, 1 MB, 16-bit status register).  It shows that the
    laws can hold, and the witnesses of the flash and NV properties run on it.
    Any protection bit of the simulated chip protects the whole array. *)
From S2P Require Import Prelude SpiFlash FlashIf FlashDrv.

Record sim_chip := mk_sim {
  sc_byte : Z -> Z;
  sc_status : Z;
  sc_wel : bool;
  sc_busy : bool
}.

Definition sim_addr (a2 a1 a0 : Z) : Z := a2 * 2 ^ 16 + a1 * 2 ^ 8 + a0.

Definition sim_prot (bp a : Z) : bool := negb (bp =? 0).

(** The bits of the status register that are simulated. *)
Definition sim_status (c : sim_chip) : Z := Z.land (u16 (sc_status c)) 0x407c.

Definition sim_protected (c : sim_chip) : bool := sim_prot (sim_status c) 0.

Definition sim_out (c : sim_chip) (sent : list Z) : Z :=
  match sent with
  | 0x03 :: a2 :: a1 :: a0 :: rest =>
      u8 (sc_byte c (sim_addr a2 a1 a0 + Z.of_nat (length rest) - 1))
  | 0x05 :: rest =>
      if sc_busy c then (if (length rest <? 2)%nat then 1 else 0) else u8 (sim_status c)
  | 0x35 :: rest => u8 (sim_status c / 256)
  | 0x9F :: rest => u8 (0x146085 / 2 ^ (8 * Z.of_nat (length rest - 1)))
  | _ => 255
  end.

(** The array after a page program; the common case, a program that does not wrap
    around the page, is tested first. *)
Definition sim_program (f : Z -> Z) (a : Z) (data : list Z) : Z -> Z :=
  let n := Z.of_nat (length data) in
  if a mod 256 + n <=? 256 then
    fun x => if (a <=? x) && (x <? a + n)
             then Z.land (u8 (f x)) (default 0 (data !! Z.to_nat (x - a))) else f x
  else
    fun x => if (x / 256 =? a / 256) && ((x - a) mod 256 <? n)
             then Z.land (u8 (f x)) (default 0 (data !! Z.to_nat ((x - a) mod 256))) else f x.

Definition sim_exec (c : sim_chip) (sent : list Z) : sim_chip :=
  if sc_busy c then
    match sent with
    | 0x05 :: rest => mk_sim (sc_byte c) (sc_status c) (sc_wel c) (length rest <? 2)%nat
    | _ => c
    end
  else
    match sent with
    | [0x06] => mk_sim (sc_byte c) (sc_status c) true false
    | 0x02 :: a2 :: a1 :: a0 :: data =>
        if negb (sc_wel c) || sim_protected c then c
        else
          let a := sim_addr a2 a1 a0 in
          mk_sim (sim_program (sc_byte c) a data) (sc_status c) false true
    | [0x20; a2; a1; a0] =>
        if negb (sc_wel c) || sim_protected c then c
        else
          let a := sim_addr a2 a1 a0 in
          mk_sim (fun x => if Z.shiftr x 12 =? Z.shiftr a 12 then 255 else sc_byte c x) (sc_status c) false true
    | [0x01; lo; hi] => mk_sim (sc_byte c) (lo + 256 * hi) false true
    | _ => c
    end.

#[export] Instance sim_SpiChip : SpiChip sim_chip := {| chip_out := sim_out; chip_exec := sim_exec |}.

Lemma sim_addr_bytes a :
  0 <= a < 2 ^ 24 -> sim_addr (u8 (a / 2 ^ 16)) (u8 (a / 2 ^ 8)) (u8 a) = a.
Proof. intros. unfold sim_addr, u8. zdm. Qed.

Lemma length_zeros n : length (zeros n) = n.
Proof. apply repeat_length. Qed.

Lemma land_range w x v : 0 <= w -> 0 <= x < 2 ^ w -> 0 <= Z.land x v < 2 ^ w.
Proof.
  intros Hw Hx. assert (Z.land x v = Z.land x v mod 2 ^ w) as ->; [|apply Z.mod_pos_bound; lia].
  rewrite <-(Z.mod_small x (2 ^ w)) by lia. rewrite <-!Z.land_ones by lia.
  rewrite <-!Z.land_assoc. f_equal. rewrite (Z.land_comm v), Z.land_assoc.
  by rewrite Z.land_diag, Z.land_comm.
Qed.

Lemma sim_status_mask c : Z.land (sim_status c) 0x407c = sim_status c.
Proof. unfold sim_status. by rewrite <-Z.land_assoc. Qed.

Lemma sim_status_idle c : Z.land (u8 (sim_status c)) 1 = 0.
Proof.
  unfold sim_status, u8. rewrite <-Z.land_ones, <-!Z.land_assoc by lia. apply Z.land_0_r.
Qed.

Lemma sim_program_spec f a data x :
  sim_program f a data x =
  if (x / 256 =? a / 256) && ((x - a) mod 256 <? Z.of_nat (length data))
  then Z.land (u8 (f x)) (default 0 (data !! Z.to_nat ((x - a) mod 256))) else f x.
Proof.
  unfold sim_program. destruct (Z.leb_spec (a mod 256 + Z.of_nat (length data)) 256); [|done].
  rewrite in_page_test by lia.
  destruct ((a <=? x) && (x <? a + Z.of_nat (length data))) eqn:E; [|done].
  pose proof (Z.mod_pos_bound a 256). by rewrite (Z.mod_small (x - a)) by lia.
Qed.

Lemma sim_exec_program f s a data :
  0 <= a < 2 ^ 24 ->
  sim_exec (mk_sim f s true false) (FLASH_WRITE_CMD :: addr_bytes a ++ data) =
  if negb (sim_status (mk_sim f s true false) =? 0) then mk_sim f s true false
  else mk_sim (sim_program f a data) s false true.
Proof.
  intros Ha. unfold sim_exec, FLASH_WRITE_CMD, addr_bytes. cbn [sc_busy sc_byte sc_status sc_wel app negb orb].
  by rewrite sim_addr_bytes.
Qed.

Lemma sim_exec_erase f s a :
  0 <= a < 2 ^ 24 ->
  sim_exec (mk_sim f s true false) (FLASH_SECT_ERASE_CMD :: addr_bytes a) =
  if negb (sim_status (mk_sim f s true false) =? 0) then mk_sim f s true false
  else mk_sim (fun x => if Z.shiftr x 12 =? Z.shiftr a 12 then 255 else f x) s false true.
Proof.
  intros Ha. unfold sim_exec, FLASH_SECT_ERASE_CMD, addr_bytes.
  cbn [sc_busy sc_byte sc_status sc_wel app negb orb]. by rewrite sim_addr_bytes.
Qed.

#[export] Program Instance sim_SpiChipLaws : SpiChipLaws sim_chip := {|
  chip_byte c a := u8 (sc_byte c a);
  chip_status := sim_status;
  chip_ready c := negb (sc_busy c);
  chip_wel := sc_wel;
  chip_id := 0x146085;
  chip_wide := true;
  chip_prot := sim_prot
|}.
Next Obligation. done. Qed.
Next Obligation. intros; apply u8_range. Qed.
Next Obligation. intros c. apply (land_range 16); [lia|]. apply u16_range. Qed.
Next Obligation. done. Qed.
Next Obligation. done. Qed.
Next Obligation. done. Qed.
Next Obligation.
  intros [f s w []] a k Hr Ha Hk; [done|]. cbn -[Z.pow Z.div u8 zeros]. unfold addr_bytes.
  cbn [app]. rewrite sim_addr_bytes by lia. rewrite length_zeros. do 2 f_equal. lia.
Qed.
Next Obligation. intros [f s w []] k Hr; done. Qed.
Next Obligation. intros [f s w []] k Hr; done. Qed.
Next Obligation.
  intros [f s w []] k Hr Hk; [done|]. cbn -[Z.pow Z.div u8 zeros].
  rewrite length_zeros. do 4 f_equal. lia.
Qed.
Next Obligation. intros [f s w []] cmd l Hr Hc; [done|]. destruct_or! Hc; subst; done. Qed.
Next Obligation. intros [f s w []] Hr; done. Qed.
Next Obligation.
  intros [f s w []] a data Hr Hw Ha Hd Hl; [done|]. cbn in Hw. subst w.
  unfold chip_exec, sim_SpiChip. rewrite sim_exec_program by done.
  unfold chip_bp, chip_bp_mask. rewrite !sim_status_mask. unfold sim_prot.
  set (st := sim_status (mk_sim f s true false)).
  destruct (negb (st =? 0)); (split; [done|]); intros x; [done|].
  cbn [sc_byte]. rewrite sim_program_spec. destruct (_ && _); [|done].
  apply u8_small, (land_range 8); [lia|]. apply u8_range.
Qed.
Next Obligation.
  intros [f s w []] a Hr Hw Ha; [done|]. cbn in Hw. subst w.
  unfold chip_exec, sim_SpiChip. rewrite sim_exec_erase by done.
  unfold chip_bp, chip_bp_mask. rewrite !sim_status_mask. unfold sim_prot.
  set (st := sim_status (mk_sim f s true false)).
  destruct (negb (st =? 0)); (split; [done|]); intros x; [done|].
  cbn [sc_byte]. rewrite !Z.shiftr_div_pow2 by lia. change (2 ^ 12) with 4096. by destruct (_ =? _).
Qed.
Next Obligation. done. Qed.
Next Obligation.
  intros [f s w []] lo hi Hr Hw _ Hlo Hhi; [done|]. split; [|done].
  unfold chip_bp, chip_bp_mask. cbn [chip_status chip_wide]. rewrite ?sim_status_mask.
  unfold chip_exec, sim_SpiChip, sim_exec, sim_status, FLASH_WRITE_STATUS_CMD_LOWBYTE.
  cbn [sc_busy sc_status].
  by rewrite (u16_small (lo + 256 * hi)) by lia.
Qed.
Next Obligation.
  intros [f s w []]; [exists 1%nat|exists 0%nat].
  - split; [apply (proj1 (Pos2Nat.inj_lt 1 10000000)); done|]. split; [|done]. intros k Hk.
    assert (k = 0%nat) as -> by lia. done.
  - split; [apply Pos2Nat.is_pos|]. split; [lia|]. split; [|done]. apply sim_status_idle.
Qed.

(** ** The demonstration system: the simulated chip, its supply at 3 volts *)
#[export] Instance sim_Adc : Adc := fun _ => 3000.
#[export] Instance sim_AdcSafe : AdcSafe.
Proof. intros n. vm_compute. discriminate. Qed.

(** A blank chip that protects by [bp]. *)
Definition sim_blank (bp : Z) : bus sim_chip :=
  {| bus_chip := mk_sim (fun _ => 255) bp false false; bus_sent := [] |}.

Lemma sim_blank_at bp : flash_at (sim_blank bp) (Z.land (u16 bp) 0x407c) (fun _ => 255).
Proof. split; [done|done| |done]. apply sim_status_mask. Qed.
