(* ===== verification/FlashProps.v ===== *)
(** * Properties of the flash driver

    The theorems about [flash.c] and [drv_flash.c], and the protected array that
    the driver implements.  The witnesses run on the chip of [SimChip.v]. *)
From S2P Require Import Prelude SpiFlash FlashIf FlashDrv SimChip.

(** ** The protected array: the driver's specification *)
Inductive flash_op :=
  | OpLock
  | OpUnlock
  | OpWrite (a : Z) (l : list Z)
  | OpErase (a : Z).

Record flash_abs := mk_abs { ab_locked : bool; ab_byte : Z -> Z }.

Definition abs_flash_step (prot : Z -> bool) (op : flash_op) (s : flash_abs) : flash_abs :=
  let p x := ab_locked s && prot x in
  match op with
  | OpLock => mk_abs true (ab_byte s)
  | OpUnlock => mk_abs false (ab_byte s)
  | OpWrite a l => mk_abs (ab_locked s) (programmed p (ab_byte s) a l)
  | OpErase a => mk_abs (ab_locked s) (erased p (ab_byte s) a)
  end.

Definition flash_op_ok (op : flash_op) : Prop :=
  match op with
  | OpWrite a l => flash_range a (length l) /\ Forall (fun v => 0 <= v < 256) l
  | OpErase a => flash_range a 0
  | _ => True
  end.

Definition drv_step {C} `{SpiChip C} `{Adc} (op : flash_op) (d : drv C) : drv C :=
  match op with
  | OpLock => flash_lock d
  | OpUnlock => flash_unlock d
  | OpWrite a l => flash_write a l d
  | OpErase a => flash_erase a d
  end.

Lemma pageRe_pos addr : 0 < (if negb (addr mod 256 =? 0) then 256 - addr mod 256 else 256).
Proof. pose proof (Z.mod_pos_bound addr 256). destruct (negb _); lia. Qed.

Section Props.
Context {C : Type} `{HL : SpiChipLaws C} `{AdcSafe}.
Implicit Types (d : drv C) (f : Z -> Z).

Definition sim_rel (bs : Z) d (s : flash_abs) : Prop :=
  drv_at d (ab_byte s) /\ pFlashOpt d = true /\ g_flashLocked d = ab_locked s /\
  blockSize (g_flashOptTable d) = bs.

Lemma drv_step_sim bs d s op :
  flash_op_ok op -> sim_rel bs d s ->
  sim_rel bs (drv_step op d) (abs_flash_step (chip_prot bs) op s).
Proof.
  intros Hok (Hd & Hp & Hl & Hb).
  assert (Hprot : forall x, drv_prot d x = ab_locked s && chip_prot bs x).
  { intros x. unfold drv_prot. by rewrite Hp, Hl, Hb. }
  destruct op as [| |a l|a]; cbn [drv_step abs_flash_step flash_op_ok] in *.
  - destruct (flash_lock_at d _ Hd) as (Hd' & Ep & Et & El).
    split_and!; cbn; [done|by rewrite Ep|by rewrite El, Hp|by rewrite Et].
  - destruct (flash_unlock_at d _ Hd) as (Hd' & Ep & Et & El).
    split_and!; cbn; [done|by rewrite Ep|by rewrite El, Hp|by rewrite Et].
  - destruct Hok as [Hr Hf]. pose proof (flash_write_at d _ a l Hd Hr Hf) as Hd'.
    split; [eapply drv_at_ext; [|exact Hd']; intros x; by apply programmed_prot_ext|].
    unfold flash_write, adc_read. by rewrite adc_never_low.
  - pose proof (flash_erase_at d _ a Hd Hok) as Hd'.
    split; [eapply drv_at_ext; [|exact Hd']; intros x; by apply erased_prot_ext|].
    unfold flash_erase, adc_read. by rewrite adc_never_low.
Qed.

Lemma drv_run_sim bs ops d s :
  Forall flash_op_ok ops -> sim_rel bs d s ->
  sim_rel bs (fold_left (fun d op => drv_step op d) ops d)
    (fold_left (fun s op => abs_flash_step (chip_prot bs) op s) ops s).
Proof.
  intros Hok. revert d s. induction Hok as [|op ops Hop Hops IH]; intros d s Hs; [done|].
  cbn [fold_left]. apply IH. by apply drv_step_sim.
Qed.

Lemma check_loop_at fuel d f a l :
  drv_at d f -> flash_range a (length l) -> a < 2 ^ 24 -> (length l < fuel)%nat ->
  check_loop fuel (Z.of_nat (length l)) a l d =
  (bool_decide (bytes_at f a (length l) = l), d).
Proof.
  intros Hd. revert a l. induction fuel as [|fuel IH]; intros a l [Ha Hl] Ha' Hf; [lia|].
  cbn [check_loop]. destruct (Z.ltb_spec 0 (Z.of_nat (length l))) as [Hpos|Hz].
  2: { destruct l; [|cbn in Hz; lia]. done. }
  set (w := if 48 <? Z.of_nat (length l) then 48 else Z.of_nat (length l)).
  assert (Hw : 0 < w <= 48 /\ w <= Z.of_nat (length l)).
  { unfold w. destruct (Z.ltb_spec 48 (Z.of_nat (length l))); lia. }
  clearbody w. rewrite (u8_small w) by lia.
  set (n := Z.to_nat w). assert (Hn : Z.of_nat n = w) by lia.
  rewrite (flash_read_at _ _ _ _ Hd) by (split; lia).
  assert (bytes_at f a (length l) = bytes_at f a n ++ bytes_at f (a + w) (length l - n)) as ->.
  { rewrite <-Hn, <-bytes_at_app. f_equal. lia. }
  pose proof (take_drop n l) as Etd.
  assert (length (take n l) = n) as Elt by (rewrite length_take; lia).
  destruct (decide (bytes_at f a n = take n l)) as [He|Hne].
  - rewrite bool_decide_true by done. cbn [negb].
    destruct (decide (a + w < 2 ^ 24)) as [Hlt|Hge].
    + rewrite u32_small by lia.
      replace (Z.of_nat (length l) - w) with (Z.of_nat (length (drop n l)))
        by (rewrite length_drop; lia).
      rewrite IH; [|split; [lia|rewrite length_drop; lia]|done|rewrite length_drop; lia].
      f_equal. apply bool_decide_ext. rewrite length_drop. split.
      * intros E. by rewrite He, E, Etd.
      * intros E. rewrite <-Etd in E at 2. by apply app_inj_1 in E as [_ ?];
          [|by rewrite length_bytes_at, Elt].
    + assert (length l - n = 0)%nat as E0 by lia.
      assert (drop n l = []) as Ed by (apply drop_ge; lia).
      rewrite Ed, E0. replace (Z.of_nat (length l) - w) with 0 by lia.
      rewrite bool_decide_true.
      * destruct fuel; [lia|]. done.
      * cbn. rewrite app_nil_r, He. rewrite <-Etd at 2. by rewrite Ed, app_nil_r.
  - rewrite bool_decide_false by done. cbn [negb]. f_equal. symmetry. apply bool_decide_false.
    intros E. apply Hne. rewrite <-Etd in E at 2. by apply app_inj_1 in E as [? _];
      [|by rewrite length_bytes_at, Elt].
Qed.

Lemma with_bus_at d f b bp g :
  drv_at d f -> flash_at (d_bus d) bp f -> flash_at b bp g -> drv_at (with_bus b d) g.
Proof.
  intros [bp' Hat' Hopt] Hat Hb.
  assert (bp' = bp) as -> by (rewrite <-(at_bp _ _ _ Hat'); apply (at_bp _ _ _ Hat)).
  by exists bp.
Qed.

Lemma write_page_at d f a l :
  drv_at d f -> flash_range a (length l) -> Forall (fun v => 0 <= v < 256) l ->
  drv_at (with_bus (flash_write_page a l (d_bus d)) d) (programmed (drv_prot d) f a l).
Proof.
  intros Hd [Ha Hl] Hf. destruct (drv_at_prot d f Hd) as (bp & Hat & E).
  eapply drv_at_ext; [|eapply with_bus_at; [done|exact Hat|by apply flash_write_page_spec]].
  intros x. by apply programmed_prot_ext.
Qed.

Lemma cfs_loop_write fuel d f a pr l :
  drv_at d f -> flash_range a (length l) -> Forall (fun v => 0 <= v < 256) l ->
  0 < pr -> (length l < fuel)%nat ->
  drv_at (cfs_loop fuel true a pr (Z.of_nat (length l)) l d).2 (programmed (drv_prot d) f a l).
Proof.
  revert d f a pr l. induction fuel as [|fuel IH]; intros d f a pr l Hd [Ha Hl] Hf Hpr Hfuel; [lia|].
  cbn [cfs_loop]. destruct (Z.leb_spec (Z.of_nat (length l)) pr) as [Hle|Hgt].
  - cbn [Z.eqb negb snd]. rewrite Nat2Z.id, firstn_all. by apply write_page_at.
  - set (n := Z.to_nat pr). assert (Hn : Z.of_nat n = pr) by lia. clearbody n.
    assert (negb (Z.of_nat (length l) - pr =? 0) = true) as -> by lia.
    assert (Hd1 := write_page_at d f a (take n l) Hd).
    rewrite length_take, Nat.min_l in Hd1 by lia.
    specialize (Hd1 ltac:(split; lia) ltac:(by apply Forall_take)).
    set (d1 := with_bus _ d) in *.
    assert (Ep : forall x, drv_prot d1 x = drv_prot d x) by done. clearbody d1.
    rewrite u32_small by lia.
    replace (Z.of_nat (length l) - pr) with (Z.of_nat (length (drop n l))) by (rewrite length_drop; lia).
    specialize (IH d1 _ (a + pr) 256 (drop n l) Hd1).
    rewrite length_drop in IH |- *.
    specialize (IH ltac:(split; lia) ltac:(by apply Forall_drop) ltac:(lia) ltac:(lia)).
    destruct (cfs_loop _ _ _ _ _ _ _) as [l2 d2]. cbn [snd] in *.
    eapply drv_at_ext; [|exact IH]. intros x.
    rewrite (programmed_prot_ext _ _ _ _ _ _ Ep), <-Hn. apply programmed_take_drop. lia.
Qed.

Lemma cfs_loop_read fuel d f a pr n l :
  drv_at d f -> flash_range a n -> 0 < pr -> (n < fuel)%nat ->
  cfs_loop fuel false a pr (Z.of_nat n) l d = (bytes_at f a n, d).
Proof.
  intros Hd. revert a pr n l. induction fuel as [|fuel IH]; intros a pr n l [Ha Hl] Hpr Hfuel; [lia|].
  destruct (drv_at_prot d f Hd) as (bp & Hat & _).
  cbn [cfs_loop]. destruct (Z.leb_spec (Z.of_nat n) pr) as [Hle|Hgt].
  - rewrite Nat2Z.id, (flash_read_page_spec _ _ _ _ _ Hat) by lia. by rewrite with_bus_id.
  - set (k := Z.to_nat pr). assert (Hn : Z.of_nat k = pr) by lia. clearbody k.
    rewrite (flash_read_page_spec _ _ _ _ _ Hat), with_bus_id by lia.
    assert (negb (Z.of_nat n - pr =? 0) = true) as -> by lia.
    rewrite u32_small by lia. replace (Z.of_nat n - pr) with (Z.of_nat (n - k)) by lia.
    rewrite IH by (split || lia; lia). f_equal.
    rewrite <-Hn, <-bytes_at_app. f_equal. lia.
Qed.
End Props.

(** ** Properties *)

(** C3. The driver is a protected array: started on any chip of its table,
    whatever was protected before, and driven by any sequence of locks, unlocks,
    writes of any length at any address and sector erases, the chip contains
    what the specification says: bits are cleared by writes and set by erases
    only outside the protected area or while the driver is unlocked. *)
Theorem flash_driver_refines_array {C} `{SpiChipLaws C} `{AdcSafe}
    (o : drv_flash_opt_t C) (b : bus C) (bp : Z) (f : Z -> Z) (ops : list flash_op) :
  listed_chip o -> flash_at b bp f -> Forall flash_op_ok ops ->
  let d := fold_left (fun d op => drv_step op d) ops (platform_flash_init (drv_init b)) in
  let s := fold_left (fun s op => abs_flash_step (chip_prot (blockSize o)) op s) ops (mk_abs true f) in
  g_flashLocked d = ab_locked s /\
  (forall x, chip_byte (bus_chip (d_bus d)) x = ab_byte s x) /\
  forall a n, flash_range a n -> (flash_read a n d).1 = bytes_at (ab_byte s) a n.
Proof.
  intros Ho Hat Hops d s.
  destruct (platform_flash_init_listed o b bp f Ho Hat) as (Hd & Hp & Hl & Hb).
  destruct (drv_run_sim (blockSize o) ops (platform_flash_init (drv_init b)) (mk_abs true f) Hops) as (Hd' & _ & Hl' & _);
    [by split_and!|].
  split; [done|]. split.
  - destruct (drv_at_prot _ _ Hd') as (bp' & Hat' & _). apply (at_byte _ _ _ Hat').
  - intros a n Hr. unfold d. by rewrite (flash_read_at _ _ _ _ Hd' Hr).
Qed.

(** C38. [flash_write_page] splits a write at the 256-byte pages of the chip: on
    erased, unprotected flash what is read back is the buffer, for every address
    and length, and every byte outside the range is as it was. *)
Theorem flash_write_page_roundtrip {C} `{SpiChipLaws C}
    (b : bus C) (bp : Z) (f : Z -> Z) (addr : Z) (buf : list Z) :
  flash_at b bp f -> flash_range addr (length buf) ->
  Forall (fun v => 0 <= v < 256) buf ->
  (forall x, addr <= x < addr + Z.of_nat (length buf) -> chip_prot bp x = false /\ f x = 255) ->
  let b' := flash_write_page addr buf b in
  (flash_read_page addr (length buf) b').1 = buf /\
  forall x, x < addr \/ addr + Z.of_nat (length buf) <= x -> chip_byte (bus_chip b') x = f x.
Proof.
  intros Hat [Ha Hl] Hb Hf b'.
  pose proof (flash_write_page_spec b bp f addr buf Hat Ha Hl Hb) as Hat'. split.
  - unfold b'. rewrite (flash_read_page_spec _ _ _ _ _ Hat') by lia.
    by apply programmed_blank_bytes.
  - intros x Hx. unfold b'. rewrite (at_byte _ _ _ Hat'). by apply programmed_out.
Qed.

(** The checked write, on the array. *)
Lemma flash_writeWithCheck_at {C} `{SpiChipLaws C} `{AdcSafe}
    (d : drv C) (f : Z -> Z) (addr : Z) (buf : list Z) :
  drv_at d f -> flash_range addr (length buf) -> Forall (fun v => 0 <= v < 256) buf ->
  let '(ok, d') := flash_writeWithCheck addr buf d in
  drv_at d' (programmed (drv_prot d) f addr buf) /\
  (forall x, drv_prot d' x = drv_prot d x /\ drv_mask d' x = drv_mask d x) /\
  (ok = true <-> bytes_at (programmed (drv_prot d) f addr buf) addr (length buf) = buf).
Proof.
  intros Hd Hr Hf. unfold flash_writeWithCheck, adc_read. rewrite adc_never_low.
  set (d0 := mk_drv _ _ _ _ _).
  assert (Hd0 : drv_at d0 f) by (destruct Hd as [bp ??]; by exists bp).
  pose proof (write_page_at d0 f addr buf Hd0 Hr Hf) as Hd1.
  rewrite s32_small by (destruct Hr; lia).
  rewrite (check_loop_at _ _ _ _ _ Hd1 Hr) by (destruct Hr; lia).
  split_and!; [done|done|by rewrite bool_decide_eq_true].
Qed.

#[export] Instance drv_FlashCheck {C} `{SpiChip C} `{Adc} : FlashCheck (drv C) := flash_writeWithCheck.

#[export] Instance drv_FlashCheckLaws {C} `{SpiChipLaws C} `{AdcSafe} : FlashCheckLaws (drv C).
Proof.
  intros d a l Hd Hr Hb. cbn zeta. pose proof (flash_writeWithCheck_at d _ a l Hd Hr Hb) as Hw.
  unfold fl_write_check, drv_FlashCheck. destruct (flash_writeWithCheck a l d) as [ok d'].
  destruct Hw as (Hd' & Hp & Hok). destruct (drv_at_fl_ok _ _ Hd') as [Hok' Hx].
  split_and!; [done|done|done|]. rewrite Hok. cbn [snd].
  by rewrite (bytes_at_ext _ _ _ _ (fun i _ => Hx (a + i))).
Qed.

(** [flash_writeWithCheck] answers TRUE exactly when the flash then contains
    the buffer: it reports every bit that could not be set and every protected
    byte, for buffers of any length, in steps of 48 bytes. *)
Theorem flash_writeWithCheck_exact {C} `{SpiChipLaws C} `{AdcSafe}
    (d : drv C) (f : Z -> Z) (addr : Z) (buf : list Z) :
  drv_at d f -> flash_range addr (length buf) -> Forall (fun v => 0 <= v < 256) buf ->
  let '(ok, d') := flash_writeWithCheck addr buf d in
  drv_at d' (programmed (drv_prot d) f addr buf) /\
  (ok = true <-> bytes_at (programmed (drv_prot d) f addr buf) addr (length buf) = buf).
Proof.
  intros Hd Hr Hf. pose proof (flash_writeWithCheck_at d f addr buf Hd Hr Hf) as Hw.
  destruct (flash_writeWithCheck addr buf d) as [ok d']. by destruct Hw as (? & _ & ?).
Qed.

(** The file-system entry points are the plain driver: [cfs_flash_write],
    which cuts its buffer at page boundaries itself, leaves the flash as one
    [flash_write] does, and [cfs_flash_read] reads what [flash_read] reads. *)
Theorem cfs_flash_equiv {C} `{SpiChipLaws C} `{AdcSafe}
    (d : drv C) (f : Z -> Z) (addr : Z) (buf : list Z) (n : nat) :
  drv_at d f -> flash_range addr (length buf) -> flash_range addr n ->
  Forall (fun v => 0 <= v < 256) buf ->
  (forall x, chip_byte (bus_chip (d_bus (cfs_flash_write addr (Z.of_nat (length buf)) buf d))) x =
             chip_byte (bus_chip (d_bus (flash_write addr buf d))) x) /\
  cfs_flash_read addr (Z.of_nat n) d = flash_read addr n d.
Proof.
  intros Hd Hr Hn Hf. split.
  - intros x. unfold cfs_flash_write, cfs_flash_op. rewrite Nat2Z.id.
    pose proof (cfs_loop_write (S (length buf)) d f addr _ buf Hd Hr Hf (pageRe_pos addr)
      (Nat.lt_succ_diag_r _)) as Ha1.
    pose proof (flash_write_at d f addr buf Hd Hr Hf) as Ha2.
    destruct (drv_at_prot _ _ Ha1) as (? & E1 & _), (drv_at_prot _ _ Ha2) as (? & E2 & _).
    by rewrite (at_byte _ _ _ E1), (at_byte _ _ _ E2).
  - unfold cfs_flash_read, cfs_flash_op. rewrite Nat2Z.id.
    rewrite (cfs_loop_read _ d f addr _ n [] Hd Hn (pageRe_pos addr)) by lia.
    by rewrite (flash_read_at _ _ _ _ Hd Hn).
Qed.

(** ** Witnesses *)

(** The simulated chip's entry of the table. *)
Definition sim_opt : drv_flash_opt_t sim_chip :=
  mk_opt 0x146085 (Some flash_unlock_mid146085) (Some flash_lock_mid146085) FLASH_LOCK_ALL_1M_MID146085.

Lemma sim_listed : listed_chip sim_opt.
Proof.
  split; [|done]. unfold c_flashOptList, sim_opt. rewrite !elem_of_cons. auto 10.
Qed.

Lemma sim_bytes l : forallb (fun v => (0 <=? v) && (v <? 256)) l = true ->
  Forall (fun v => 0 <= v < 256) l.
Proof. rewrite forallb_forall, Forall_forall. intros Hl x Hx%list_elem_of_In%Hl. lia. Qed.

Definition demo_flash_ops : list flash_op :=
  [OpWrite 0x80000 [1; 2]; OpUnlock; OpWrite 0x800FE [1; 2; 3; 4]; OpLock; OpErase 0x80000].

Lemma demo_flash_ops_ok : Forall flash_op_ok demo_flash_ops.
Proof.
  repeat constructor; cbn; unfold flash_range; (lia || by apply sim_bytes).
Qed.

Lemma flash_driver_refines_array_witness :
  let d := fold_left (fun d op => drv_step op d) demo_flash_ops
             (platform_flash_init (drv_init (sim_blank 0x30))) in
  let s := fold_left (fun s op => abs_flash_step (chip_prot (blockSize sim_opt)) op s) demo_flash_ops
             (mk_abs true (fun _ => 255)) in
  g_flashLocked d = ab_locked s /\
  (forall x, chip_byte (bus_chip (d_bus d)) x = ab_byte s x) /\
  forall a n, flash_range a n -> (flash_read a n d).1 = bytes_at (ab_byte s) a n.
Proof.
  apply (flash_driver_refines_array sim_opt (sim_blank 0x30) (Z.land (u16 0x30) 0x407c));
    [apply sim_listed|apply sim_blank_at|apply demo_flash_ops_ok].
Defined.

Lemma flash_write_page_roundtrip_witness :
  let b' := flash_write_page 0x800FE [1; 2; 3; 4] (sim_blank 0) in
  (flash_read_page 0x800FE 4 b').1 = [1; 2; 3; 4] /\
  forall x, x < 0x800FE \/ 0x800FE + 4 <= x -> chip_byte (bus_chip b') x = 255.
Proof.
  apply (flash_write_page_roundtrip (sim_blank 0) 0 (fun _ => 255) 0x800FE [1; 2; 3; 4]).
  - apply (sim_blank_at 0).
  - split; [lia|cbn; lia].
  - by apply sim_bytes.
  - done.
Defined.

Lemma sim_drv_at : drv_at (drv_init (sim_blank 0)) (fun _ => 255).
Proof. exists 0; [apply (sim_blank_at 0)|done]. Qed.

Lemma flash_writeWithCheck_exact_witness :
  let '(ok, d') := flash_writeWithCheck 0x80000 [5; 6] (drv_init (sim_blank 0)) in
  drv_at d' (programmed (drv_prot (drv_init (sim_blank 0))) (fun _ => 255) 0x80000 [5; 6]) /\
  (ok = true <->
   bytes_at (programmed (drv_prot (drv_init (sim_blank 0))) (fun _ => 255) 0x80000 [5; 6]) 0x80000 2
     = [5; 6]).
Proof.
  apply (flash_writeWithCheck_exact (drv_init (sim_blank 0)) (fun _ => 255) 0x80000 [5; 6]).
  - apply sim_drv_at.
  - split; [lia|cbn; lia].
  - by apply sim_bytes.
Defined.

Lemma cfs_flash_equiv_witness :
  (forall x, chip_byte (bus_chip (d_bus (cfs_flash_write 0x800FE 4 [1; 2; 3; 4] (drv_init (sim_blank 0))))) x =
             chip_byte (bus_chip (d_bus (flash_write 0x800FE [1; 2; 3; 4] (drv_init (sim_blank 0))))) x) /\
  cfs_flash_read 0x800FE 300 (drv_init (sim_blank 0)) = flash_read 0x800FE 300 (drv_init (sim_blank 0)).
Proof.
  apply (cfs_flash_equiv (drv_init (sim_blank 0)) (fun _ => 255) 0x800FE [1; 2; 3; 4] 300).
  - apply sim_drv_at.
  - split; [lia|cbn; lia].
  - split; lia.
  - by apply sim_bytes.
Defined.

(** The simulated driver, evaluated: the write crosses a page boundary. *)
Example flash_page_crossing :
  (flash_read 0x800FC 6 (flash_write 0x800FE [1; 2; 3; 4] (drv_init (sim_blank 0)))).1 =
  [255; 255; 1; 2; 3; 4].
Proof. vm_compute. reflexivity. Qed.

(** While the driver is locked a write is lost. *)
Example flash_locked_write_lost :
  (flash_read 0x80000 2 (flash_write 0x80000 [1; 2]
     (platform_flash_init (drv_init (sim_blank 0))))).1 = [255; 255].
Proof. vm_compute. reflexivity. Qed.
