(* ===== verification/Nv.v ===== *)
(** * Non-volatile storage ([proj/drivers/drv_nv.c], [drv_nv.h])

    Items are kept per module in two sectors that are used in turn.  A sector
    starts with its header, then the table of index entries, then the items.
    The operations run over the flash interface of [FlashIf.v]; the buffer of
    the flash-to-flash copy comes from the pool of [EvBuffer.v].  The addresses
    are those of the 1 MB configuration ([FLASH_CAP_SIZE_1M]). *)
From S2P Require Import Prelude SpiFlash FlashIf EvBuffer.

(** ** Layout ([drv_nv.h]) *)
Definition FLASH_PAGE_SIZE : Z := 256.
Definition FLASH_SECTOR_SIZE : Z := 4096.
Definition NV_BASE_ADDRESS : Z := 0x80000.
Definition CFG_FACTORY_RST_CNT : Z := 0xFC000.

Definition NV_MODULE_MAC_INFO : Z := 0.
Definition NV_MODULE_NWK_FRAME_COUNT : Z := 1.
Definition NV_MODULE_USER_INFO1 : Z := 2.
Definition NV_MODULE_USER_INFO2 : Z := 3.
Definition NV_MAX_MODULS : Z := 4.

Definition NV_SECTOR_VALID : Z := 0x5A5A.
Definition NV_SECTOR_INVALID : Z := 0x5050.
Definition ITEM_FIELD_VALID : Z := 0x5A.
Definition ITEM_FIELD_INVALID : Z := 0x50.
Definition ITEM_FIELD_OPERATION : Z := 0xFA.
Definition ITEM_FIELD_IDLE : Z := 0xFF.

Inductive nv_sts_t :=
  | NV_SUCC | NV_INVALID_MODULS | NV_INVALID_ID | NV_ITEM_NOT_FOUND | NV_NOT_ENOUGH_SAPCE
  | NV_ITEM_LEN_NOT_MATCH | NV_CHECK_SUM_ERROR | NV_ENABLE_PROTECT_ERROR | NV_NO_MEDIA.

#[export] Instance nv_sts_t_eq_dec : EqDecision nv_sts_t.
Proof. solve_decision. Defined.

Definition sizeof_sect : Z := 4.
Definition sizeof_idx : Z := 8.
Definition sizeof_itemHdr : Z := 8.
(** [OFFSETOF(nv_info_idx_t, usedState)] *)
Definition staOffset : Z := 7.

Definition MODULES_START_ADDR (id : Z) : Z := NV_BASE_ADDRESS + FLASH_SECTOR_SIZE * (2 * id).
Definition NV_SECTOR_SIZE (id : Z) : Z :=
  if id =? NV_MODULE_USER_INFO1 then 4 * FLASH_SECTOR_SIZE else FLASH_SECTOR_SIZE.
Definition MODULE_INFO_SIZE (id : Z) : Z :=
  if id =? NV_MODULE_USER_INFO1 then 4 * FLASH_PAGE_SIZE else 2 * FLASH_PAGE_SIZE.
Definition MODULE_SECTOR_NUM : Z := 2.
Definition MODULE_IDX_SIZE (id : Z) : Z := MODULE_INFO_SIZE id - sizeof_sect.
Definition MODULE_SECT_START (id sectNo : Z) : Z := MODULES_START_ADDR id + sectNo * NV_SECTOR_SIZE id.
Definition MODULE_SECT_END (id sectNo : Z) : Z := MODULES_START_ADDR id + (sectNo + 1) * NV_SECTOR_SIZE id.
Definition MODULE_IDX_START (id sectNo : Z) : Z := MODULE_SECT_START id sectNo + sizeof_sect.
Definition MODULE_IDX_NUM (id : Z) : Z := MODULE_IDX_SIZE id / sizeof_idx.
Definition MODULE_CONTEXT_START (id sectNo : Z) : Z := MODULE_SECT_START id sectNo + MODULE_INFO_SIZE id.
Definition ITEM_TOTAL_LEN (len : Z) : Z := len + sizeof_itemHdr.
Definition FRAMECOUNT_PAYLOAD_START (opSect : Z) : Z :=
  Z.land (MODULE_SECT_START NV_MODULE_NWK_FRAME_COUNT opSect + sizeof_sect + 0x03) (Z.lnot 0x03).
Definition FRAMECOUNT_NUM_PER_SECT : Z := Z.land (FLASH_SECTOR_SIZE - sizeof_sect) (Z.lnot 0x03) / 4.

(** ** Data in flash; the structures are packed and little-endian *)
Record nv_sect_info_t := mk_sect { usedFlag : Z; idName : Z; sect_opSect : Z }.
Record nv_info_idx_t := mk_idx { offset : Z; size : Z; idx_itemId : Z; usedState : Z }.
Record itemHdr_t := mk_hdr { checkSum : Z; hdr_size : Z; hdr_itemId : Z; hdr_used : Z }.
Record itemIfno_t := mk_info { opIndex : Z; info_opSect : Z }.

Definition enc_sect (s : nv_sect_info_t) : list Z :=
  word_le 2 (usedFlag s) ++ [u8 (idName s); u8 (sect_opSect s)].
Definition enc_idx (e : nv_info_idx_t) : list Z :=
  word_le 4 (offset e) ++ word_le 2 (size e) ++ [u8 (idx_itemId e); u8 (usedState e)].
Definition enc_hdr (h : itemHdr_t) : list Z :=
  word_le 4 (checkSum h) ++ word_le 2 (hdr_size h) ++ [u8 (hdr_itemId h); u8 (hdr_used h)].

Definition dec_sect (l : list Z) : nv_sect_info_t :=
  mk_sect (le_word (take 2 l)) (nth 2 l 0) (nth 3 l 0).
Definition dec_idx (l : list Z) : nv_info_idx_t :=
  mk_idx (le_word (take 4 l)) (le_word (take 2 (drop 4 l))) (nth 6 l 0) (nth 7 l 0).
Definition dec_hdr (l : list Z) : itemHdr_t :=
  mk_hdr (le_word (take 4 l)) (le_word (take 2 (drop 4 l))) (nth 6 l 0) (nth 7 l 0).

(** An array of index entries. *)
Fixpoint dec_idxs (n : nat) (l : list Z) : list nv_info_idx_t :=
  match n with O => [] | S n' => dec_idx (take 8 l) :: dec_idxs n' (drop 8 l) end.

(** [for(i = n - 1; i >= 0; i--) if(p(i)) break;] *)
Fixpoint scan_down {A} (p : A -> bool) (l : list A) (n : nat) : option nat :=
  match n with
  | O => None
  | S n' =>
      match l !! n' with
      | Some x => if p x then Some n' else scan_down p l n'
      | None => scan_down p l n'
      end
  end.

(** The buffers the flash copy allocates: [ev_buf_allocate], [ev_buf_free]. *)
Class NvHeap (B : Type) := {
  heap_alloc : Z -> B -> Z * B;
  heap_free : Z -> B -> B
}.

#[export] Instance ev_NvHeap `{EvLayout} : NvHeap buf_state := {|
  heap_alloc := ev_buf_allocate;
  heap_free p s := match ev_buf_free p s with Some (_, s') => s' | None => s end
|}.

(** What [nv_write_item] writes: a buffer in RAM, or an item in flash. *)
Inductive nv_src := FromRam (buf : list Z) | FromFlash (addr : Z).

Section Ops.
Context {F B : Type} `{Flash F} `{NvHeap B}.

Record nv := mk_nv { nv_fl : F; nv_heap : B }.
Implicit Type s : nv.

Definition with_fl (g : F -> F) s : nv := mk_nv (g (nv_fl s)) (nv_heap s).
Definition rd (a : Z) (n : nat) s : list Z := fl_read (nv_fl s) a n.

Definition nv_index_update (id opSect opItemIdx : Z) (idx : nv_info_idx_t) s : nv_sts_t * nv :=
  let idxStartAddr := MODULE_IDX_START id opSect in
  let s := with_fl fl_unlock s in
  let s := with_fl (fl_write (idxStartAddr + opItemIdx * sizeof_idx) (enc_idx idx)) s in
  let s := with_fl fl_lock s in
  (NV_SUCC, s).

(** The test of the inner loop of [nv_index_read]. *)
Definition index_hit (itemId itemFlag itemTotalSize : Z) (e : nv_info_idx_t) : bool :=
  if negb (itemId =? ITEM_FIELD_IDLE) then
    (usedState e =? itemFlag) && (size e =? itemTotalSize) && (idx_itemId e =? itemId)
  else
    negb (usedState e =? itemFlag) || negb (size e =? itemTotalSize) || negb (idx_itemId e =? itemId).

(** Its outer loop: four entries at a time, from the last one down. *)
Fixpoint index_loop (fuel : nat) (p : nv_info_idx_t -> bool) (idxTotalNum idxStartAddr opItemIdx : Z) s
    : option Z :=
  match fuel with
  | O => None
  | S fuel' =>
      if 0 <? idxTotalNum then
        let readIdxNum := if 4 <? idxTotalNum then 4 else idxTotalNum in
        let idxStartAddr := idxStartAddr - readIdxNum * sizeof_idx in
        let opItemIdx := opItemIdx - readIdxNum in
        let idxTotalNum := idxTotalNum - readIdxNum in
        let idxInfo := dec_idxs (Z.to_nat readIdxNum)
                         (rd idxStartAddr (Z.to_nat (readIdxNum * sizeof_idx)) s) in
        match scan_down p idxInfo (Z.to_nat readIdxNum) with
        | Some i => Some (opItemIdx + Z.of_nat i)
        | None => index_loop fuel' p idxTotalNum idxStartAddr opItemIdx s
        end
      else None
  end.

(** The status and, when it is NV_SUCC, the value stored in [*idxNo]. *)
Definition nv_index_read (id itemId len opSect totalItemNum : Z) s : nv_sts_t * option Z :=
  let idxStartAddr := MODULE_IDX_START id opSect + totalItemNum * sizeof_idx in
  let '(itemFlag, itemTotalSize) :=
    if itemId =? ITEM_FIELD_IDLE then (ITEM_FIELD_IDLE, 0xffff)
    else (ITEM_FIELD_VALID, u16 (ITEM_TOTAL_LEN len)) in
  match index_loop (S (Z.to_nat totalItemNum)) (index_hit itemId itemFlag itemTotalSize)
          totalItemNum idxStartAddr totalItemNum s with
  | Some i => (NV_SUCC, Some i)
  | None => (NV_ITEM_NOT_FOUND, None)
  end.

(** The status and, when it is NV_SUCC, [*sectInfo]. *)
Fixpoint sector_loop (n : nat) (id moduleStartAddr : Z) s : nv_sts_t * option nv_sect_info_t :=
  match n with
  | O => (NV_ITEM_NOT_FOUND, None)
  | S n' =>
      let si := dec_sect (rd moduleStartAddr 4 s) in
      if (usedFlag si =? NV_SECTOR_VALID) && (idName si =? id) then (NV_SUCC, Some si)
      else sector_loop n' id (moduleStartAddr + NV_SECTOR_SIZE id) s
  end.
Definition nv_sector_read (id sectTotalNum : Z) s : nv_sts_t * option nv_sect_info_t :=
  sector_loop (Z.to_nat sectTotalNum) id (MODULES_START_ADDR id) s.

(** The copying loop of [nv_write_item], through the 48-byte buffer. *)
Fixpoint copy_loop (fuel : nat) (toalLen sAddr dAddr : Z) s : nv :=
  match fuel with
  | O => s
  | S fuel' =>
      if 0 <? toalLen then
        let wLen := if 48 <? toalLen then 48 else toalLen in
        let pTemp := rd sAddr (Z.to_nat wLen) s in
        let s := with_fl (fl_write dAddr pTemp) s in
        copy_loop fuel' (toalLen - wLen) (sAddr + wLen) (dAddr + wLen) s
      else s
  end.

Definition sum_bytes (l : list Z) : Z := fold_left (fun c b => u32 (c + b)) l 0.

(** The verifying loop, 16 bytes at a time. *)
Fixpoint verify_loop (fuel : nat) (tLen payloadAddr checkSumRead : Z) s : Z :=
  match fuel with
  | O => checkSumRead
  | S fuel' =>
      if 0 <? tLen then
        let unitLen := if 16 <? tLen then 16 else tLen in
        let vCheck := rd payloadAddr (Z.to_nat unitLen) s in
        let checkSumRead := fold_left (fun c b => u32 (c + b)) vCheck checkSumRead in
        verify_loop fuel' (tLen - unitLen) (payloadAddr + unitLen) checkSumRead s
      else checkSumRead
  end.

Definition nv_write_item (id itemId opSect opItemIdx len : Z) (src : nv_src) s : nv_sts_t * nv :=
  let idxStartAddr := MODULE_IDX_START id opSect in
  let off :=
    if opItemIdx =? 0 then MODULE_CONTEXT_START id opSect
    else
      let prev := dec_idx (rd (idxStartAddr + (opItemIdx - 1) * sizeof_idx) 8 s) in
      u32 (Z.land (offset prev + size prev + 3) (Z.lnot 0x03)) in
  let idxInfo := mk_idx off (u16 (len + sizeof_itemHdr)) itemId ITEM_FIELD_OPERATION in
  let s := with_fl fl_unlock s in
  let s := with_fl (fl_write (idxStartAddr + opItemIdx * sizeof_idx) (enc_idx idxInfo)) s in
  let finish s :=
    let s := with_fl (fl_write (idxStartAddr + opItemIdx * sizeof_idx + staOffset)
                               [ITEM_FIELD_VALID]) s in
    let s := with_fl fl_lock s in
    (NV_SUCC, s) in
  match src with
  | FromFlash sAddr =>
      let '(pTemp, h) := heap_alloc 48 (nv_heap s) in
      let s := mk_nv (nv_fl s) h in
      if negb (pTemp =? 0) then
        let s := copy_loop (S (Z.to_nat (size idxInfo))) (size idxInfo) sAddr (offset idxInfo) s in
        let s := mk_nv (nv_fl s) (heap_free pTemp (nv_heap s)) in
        finish s
      else (NV_NOT_ENOUGH_SAPCE, with_fl fl_lock s)
  | FromRam buf =>
      let payloadAddr := offset idxInfo + sizeof_itemHdr in
      let checkSum := sum_bytes buf in
      let s := with_fl (fl_write payloadAddr buf) s in
      let checkSumRead := verify_loop (S (Z.to_nat len)) len payloadAddr 0 s in
      if checkSum =? checkSumRead then
        let s := with_fl (fl_write (offset idxInfo)
                   (enc_hdr (mk_hdr checkSum len itemId ITEM_FIELD_VALID))) s in
        finish s
      else (NV_CHECK_SUM_ERROR, with_fl fl_lock s)
  end.

(** The status and, when it is NV_SUCC, the bytes stored in [buf]. *)
Definition nv_flashReadByIndex (id itemId opSect opIdx len : Z) s : nv_sts_t * option (list Z) :=
  let idxStartAddr := MODULE_IDX_START id opSect in
  let idx := dec_idx (rd (idxStartAddr + opIdx * sizeof_idx) 8 s) in
  if negb (usedState idx =? ITEM_FIELD_VALID) then (NV_ITEM_NOT_FOUND, None)
  else
    let hdr := dec_hdr (rd (offset idx) 8 s) in
    if (hdr_size hdr =? len) && (hdr_used hdr =? ITEM_FIELD_VALID) && (hdr_itemId hdr =? itemId) then
      (NV_SUCC, Some (rd (offset idx + sizeof_itemHdr) (Z.to_nat len) s))
    else (NV_ITEM_NOT_FOUND, None).

Definition nv_itemDeleteByIndex (id itemId opSect opIdx : Z) s : nv_sts_t * nv :=
  let idxStartAddr := MODULE_IDX_START id opSect in
  let s := with_fl fl_unlock s in
  let s := with_fl (fl_write (idxStartAddr + opIdx * sizeof_idx + staOffset) [ITEM_FIELD_INVALID]) s in
  let s := with_fl fl_lock s in
  (NV_SUCC, s).

(** The erasing loop of the sector update. *)
Fixpoint erase_loop (n : nat) (eraseAddr : Z) s : nv :=
  match n with
  | O => s
  | S n' => erase_loop n' (eraseAddr + FLASH_SECTOR_SIZE) (with_fl (fl_erase eraseAddr) s)
  end.

(** The copy of the valid items of up to four index entries: status, the next
    index to write, the address used up to. *)
Fixpoint copy_items (id itemId : Z) (single : bool) (opSect : Z) (l : list nv_info_idx_t)
    (wItemIdx sizeusedAddr : Z) s : nv_sts_t * Z * Z * nv :=
  match l with
  | [] => (NV_SUCC, wItemIdx, sizeusedAddr, s)
  | e :: l' =>
      if (usedState e =? ITEM_FIELD_VALID) &&
         (negb (idx_itemId e =? itemId) || ((idx_itemId e =? itemId) && negb single)) then
        let '(ret, s) := nv_write_item id (idx_itemId e) opSect wItemIdx (u16 (size e - sizeof_itemHdr))
                           (FromFlash (offset e)) s in
        if decide (ret = NV_SUCC) then
          copy_items id itemId single opSect l' (u16 (wItemIdx + 1))
            (u32 (Z.land (sizeusedAddr + size e + 0x03) (Z.lnot 0x03))) s
        else (ret, wItemIdx, sizeusedAddr, s)
      else copy_items id itemId single opSect l' wItemIdx sizeusedAddr s
  end.

(** The loop over the old sector's index table. *)
Fixpoint copy_sector (fuel : nat) (id itemId : Z) (single : bool) (opSect idxTotalNum idxStartAddr
    wItemIdx sizeusedAddr : Z) s : nv_sts_t * Z * Z * nv :=
  match fuel with
  | O => (NV_SUCC, wItemIdx, sizeusedAddr, s)
  | S fuel' =>
      if 0 <? idxTotalNum then
        let readIdxNum := if 4 <? idxTotalNum then 4 else idxTotalNum in
        let idxInfo := dec_idxs (Z.to_nat readIdxNum)
                         (rd idxStartAddr (Z.to_nat (readIdxNum * sizeof_idx)) s) in
        let '(ret, wItemIdx, sizeusedAddr, s) :=
          copy_items id itemId single opSect idxInfo wItemIdx sizeusedAddr s in
        if decide (ret = NV_SUCC) then
          copy_sector fuel' id itemId single opSect (idxTotalNum - readIdxNum)
            (idxStartAddr + readIdxNum * sizeof_idx) wItemIdx sizeusedAddr s
        else (ret, wItemIdx, sizeusedAddr, s)
      else (NV_SUCC, wItemIdx, sizeusedAddr, s)
  end.

(** The sector update of [nv_flashWriteNew]: the status, and the index to
    write in the new sector. *)
Definition sector_update (id itemId : Z) (single : bool) (len oldSect opSect : Z) s
    : nv_sts_t * Z * nv :=
  let s := erase_loop (Z.to_nat (NV_SECTOR_SIZE id / FLASH_SECTOR_SIZE))
             (MODULES_START_ADDR id + opSect * NV_SECTOR_SIZE id) s in
  let '(ret, wItemIdx, sizeusedAddr, s) :=
    copy_sector (S (Z.to_nat (MODULE_IDX_NUM id))) id itemId single opSect (MODULE_IDX_NUM id)
      (MODULE_IDX_START id oldSect) 0 (MODULE_CONTEXT_START id opSect) s in
  if decide (ret = NV_SUCC) then
    if (wItemIdx =? MODULE_IDX_NUM id) || (MODULE_SECT_END id opSect <? sizeusedAddr + ITEM_TOTAL_LEN len)
    then (NV_NOT_ENOUGH_SAPCE, wItemIdx, with_fl fl_lock s)
    else (NV_SUCC, wItemIdx, s)
  else (ret, wItemIdx, with_fl fl_lock s).

(** The last part of [nv_flashWriteNew]: the item, the invalidation of the old
    one, and the sector headers. *)
Definition write_and_mark (id itemId : Z) (single : bool) (len : Z) (buf : list Z)
    (sectorUpdate : bool) (oldSect opSect wItemIdx : Z) s : nv_sts_t * nv :=
  let deleteIdx :=
    if single then (nv_index_read id itemId len opSect (MODULE_IDX_NUM id) s).2 else None in
  let '(ret, s) := nv_write_item id itemId opSect wItemIdx len (FromRam buf) s in
  let idxStartAddr := MODULE_IDX_START id opSect in
  let s :=
    match deleteIdx with
    | Some i => with_fl (fl_write (idxStartAddr + i * sizeof_idx + staOffset) [ITEM_FIELD_INVALID]) s
    | None => s
    end in
  let s :=
    if decide (ret = NV_SUCC) then
      if sectorUpdate then
        let s := with_fl (fl_write (MODULE_SECT_START id oldSect)
                            (enc_sect (mk_sect NV_SECTOR_INVALID id opSect))) s in
        with_fl (fl_write (MODULE_SECT_START id opSect)
                   (enc_sect (mk_sect NV_SECTOR_VALID id opSect))) s
      else if wItemIdx =? 0 then
        with_fl (fl_write (MODULE_SECT_START id opSect)
                   (enc_sect (mk_sect NV_SECTOR_VALID id opSect))) s
      else s
    else s in
  (ret, with_fl fl_lock s).

Definition nv_flashWriteNew (single : bool) (id itemId len : Z) (buf : list Z) s : nv_sts_t * nv :=
  if NV_SECTOR_SIZE id <? ITEM_TOTAL_LEN len + MODULE_INFO_SIZE id then (NV_NOT_ENOUGH_SAPCE, s)
  else
    let opSect :=
      match nv_sector_read id MODULE_SECTOR_NUM s with
      | (NV_SUCC, Some si) => sect_opSect si
      | _ => 0
      end in
    let idxTotalNum := MODULE_IDX_NUM id in
    let '(sectorUpdate, wItemIdx) :=
      match nv_index_read id ITEM_FIELD_IDLE len opSect idxTotalNum s with
      | (NV_SUCC, Some w) =>
          let e := dec_idx (rd (MODULE_IDX_START id opSect + w * sizeof_idx) 8 s) in
          if (w =? idxTotalNum - 1) ||
             (MODULE_SECT_END id opSect <? u32 (offset e + size e + ITEM_TOTAL_LEN len))
          then (true, w) else (false, w + 1)
      | _ => (false, 0)
      end in
    let s := with_fl fl_unlock s in
    if sectorUpdate then
      let oldSect := opSect in
      let opSect := Z.land (opSect + 1) (MODULE_SECTOR_NUM - 1) in
      let '(ret, wItemIdx, s) := sector_update id itemId single len oldSect opSect s in
      if decide (ret = NV_SUCC) then
        write_and_mark id itemId single len buf true oldSect opSect wItemIdx s
      else (ret, s)
    else write_and_mark id itemId single len buf false opSect opSect wItemIdx s.

(** What [nv_flashReadNew] puts into [buf]. *)
Inductive nv_read_out := OutNone | OutBytes (l : list Z) | OutInfo (i : itemIfno_t).

Definition nv_flashReadNew (single : bool) (id itemId len : Z) s : nv_sts_t * nv_read_out :=
  match nv_sector_read id MODULE_SECTOR_NUM s with
  | (NV_SUCC, Some si) =>
      let opSect := sect_opSect si in
      let '(ret, i) := nv_index_read id itemId len opSect (MODULE_IDX_NUM id) s in
      let opIdx := default 0 i in
      if single then
        if decide (ret = NV_SUCC) then
          let '(ret, l) := nv_flashReadByIndex id itemId opSect opIdx len s in
          (ret, match l with Some l => OutBytes l | None => OutNone end)
        else (ret, OutNone)
      else (ret, OutInfo (mk_info opIdx opSect))
  | (ret, _) => (ret, OutNone)
  end.

(** ** The network frame counter *)

(** The page loop of [nv_nwkFrameCountSearch]: whether it stopped at a page in
    use, the page, and [*validAddr]. *)
Fixpoint page_loop (n : nat) (opPageAddr validAddr : Z) s : bool * Z * Z :=
  match n with
  | O => (false, opPageAddr, validAddr)
  | S n' =>
      if negb (le_word (rd opPageAddr 4 s) =? 0xffffffff) then (true, opPageAddr, validAddr)
      else page_loop n' (opPageAddr - FLASH_PAGE_SIZE) opPageAddr s
  end.

(** The words of a unit from the second one on: [Some (last, addr)] when the
    function returns inside the loop.  [i] is the index of the first word of [l],
    [n] the number of words of the unit. *)
Fixpoint unit_scan (l : list Z) (i n : Z) (frameCount opPageAddr : Z) : option (Z * Z) :=
  match l with
  | [] => None
  | w :: l' =>
      if negb (w =? 0xffffffff) then
        if i =? n - 1 then Some (w, opPageAddr + 4 * (i + 1))
        else unit_scan l' (i + 1) n w opPageAddr
      else Some (frameCount, opPageAddr + 4 * i)
  end.

Fixpoint words (n : nat) (l : list Z) : list Z :=
  match n with O => [] | S n' => le_word (take 4 l) :: words n' (drop 4 l) end.

(** The unit loop: status, [*frameCount], [*validAddr]. *)
Fixpoint unit_loop (fuel : nat) (checkSize opPageAddr frameCount validAddr : Z) s
    : nv_sts_t * Z * Z :=
  match fuel with
  | O => (NV_ITEM_NOT_FOUND, frameCount, validAddr)
  | S fuel' =>
      if negb (checkSize =? 0) then
        let readSize := if 16 <? checkSize then 16 else checkSize in
        let opPageAddr := opPageAddr - readSize / 4 * 4 in
        let checkSize := checkSize - readSize in
        let checkValid := words (Z.to_nat (readSize / 4)) (rd opPageAddr (Z.to_nat readSize) s) in
        match checkValid with
        | w0 :: rest =>
            if negb (w0 =? 0xffffffff) then
              match unit_scan rest 1 (readSize / 4) w0 opPageAddr with
              | Some (fc, va) => (NV_SUCC, fc, va)
              | None => unit_loop fuel' checkSize opPageAddr w0 validAddr s
              end
            else unit_loop fuel' checkSize opPageAddr frameCount opPageAddr s
        | [] => unit_loop fuel' checkSize opPageAddr frameCount validAddr s
        end
      else (NV_ITEM_NOT_FOUND, frameCount, validAddr)
  end.

Definition nv_nwkFrameCountSearch (id opSect frameCount : Z) s : nv_sts_t * Z * Z :=
  let frmCntTotalNum := FRAMECOUNT_NUM_PER_SECT in
  let sizeUsed := frmCntTotalNum * 4 in
  let pageUsed := if negb (Z.land sizeUsed 0xff =? 0) then sizeUsed / FLASH_PAGE_SIZE + 1
                  else sizeUsed / FLASH_PAGE_SIZE in
  let '(found, opPageAddr, validAddr) :=
    page_loop (Z.to_nat (pageUsed - 1)) (MODULE_SECT_END id opSect - FLASH_PAGE_SIZE)
      (FRAMECOUNT_PAYLOAD_START opSect) s in
  let '(opPageAddr, checkSize) :=
    if found then (opPageAddr, FLASH_PAGE_SIZE)
    else (FRAMECOUNT_PAYLOAD_START opSect, Z.land (FLASH_PAGE_SIZE - sizeof_sect) (Z.lnot 0x03)) in
  let opPageAddr := Z.land (opPageAddr + FLASH_PAGE_SIZE) (Z.lnot (FLASH_PAGE_SIZE - 1)) in
  unit_loop 17 checkSize opPageAddr frameCount validAddr s.

Definition nv_nwkFrameCountSaveToFlash (frameCount : Z) s : nv_sts_t * nv :=
  let id := NV_MODULE_NWK_FRAME_COUNT in
  let moduleStartAddr := MODULES_START_ADDR id in
  let s := with_fl fl_unlock s in
  let '(ret, opSect, s) :=
    match nv_sector_read id MODULE_SECTOR_NUM s with
    | (NV_SUCC, Some si) => (NV_SUCC, sect_opSect si, s)
    | (ret, _) =>
        (ret, 0, with_fl (fl_erase (moduleStartAddr + FLASH_SECTOR_SIZE))
                   (with_fl (fl_erase moduleStartAddr) s))
    end in
  let oldSect := opSect in
  let '(sts, lastFrmCnt, wAddr) := nv_nwkFrameCountSearch id opSect 0 s in
  let '(sectorUpdate, opSect, wAddr, s) :=
    if decide (sts = NV_SUCC) then
      if wAddr =? MODULE_SECT_END id opSect then
        let opSect := Z.land (opSect + 1) (MODULE_SECTOR_NUM - 1) in
        let s := with_fl (fl_erase (moduleStartAddr + opSect * FLASH_SECTOR_SIZE)) s in
        let s := with_fl (fl_write (FRAMECOUNT_PAYLOAD_START opSect) (word_le 4 lastFrmCnt)) s in
        (true, opSect, FRAMECOUNT_PAYLOAD_START opSect + 4, s)
      else (false, opSect, wAddr, s)
    else (false, opSect, wAddr, s) in
  let s := with_fl (fl_write wAddr (word_le 4 frameCount)) s in
  let s :=
    if sectorUpdate || (wAddr =? FRAMECOUNT_PAYLOAD_START opSect) then
      let s := with_fl (fl_write (MODULE_SECT_START id opSect)
                          (enc_sect (mk_sect NV_SECTOR_VALID id opSect))) s in
      if sectorUpdate then
        with_fl (fl_write (MODULE_SECT_START id oldSect)
                   (enc_sect (mk_sect NV_SECTOR_INVALID id opSect))) s
      else s
    else s in
  (ret, with_fl fl_lock s).

Definition nv_nwkFrameCountFromFlash s : nv_sts_t * option Z :=
  let id := NV_MODULE_NWK_FRAME_COUNT in
  match nv_sector_read id MODULE_SECTOR_NUM s with
  | (NV_SUCC, Some si) =>
      match nv_nwkFrameCountSearch id (sect_opSect si) 0 s with
      | (NV_SUCC, lastFrmCnt, _) => (NV_SUCC, Some lastFrmCnt)
      | (ret, _, _) => (ret, None)
      end
  | (ret, _) => (ret, None)
  end.

(** ** Reset; the library is built with [NV_ENABLE] *)
Definition nv_resetModule (modules : Z) s : nv_sts_t * nv :=
  let s := with_fl fl_unlock s in
  let sectNumber := u8 (NV_SECTOR_SIZE modules / FLASH_SECTOR_SIZE) in
  let s := erase_loop (Z.to_nat (MODULE_SECTOR_NUM * sectNumber)) (MODULES_START_ADDR modules) s in
  let s := with_fl fl_lock s in
  (NV_SUCC, s).

Definition nv_resetAll s : nv_sts_t * nv :=
  (NV_SUCC, fold_left (fun s i => (nv_resetModule i s).2) [0; 1; 2; 3] s).

Definition nv_init (rst : bool) s : nv_sts_t * nv :=
  (NV_SUCC, if rst then (nv_resetAll s).2 else s).

Definition nv_facrotyNewRstFlagCheck s : bool :=
  let flag := nth 0 (rd CFG_FACTORY_RST_CNT 1 s) 0 in
  if flag =? 0xff then false else true.

Definition nv_facrotyNewRstFlagSet s : nv :=
  let s := with_fl fl_unlock s in
  let s := with_fl (fl_write CFG_FACTORY_RST_CNT [ITEM_FIELD_VALID]) s in
  with_fl fl_lock s.

Definition nv_facrotyNewRstFlagClear s : nv :=
  let s := with_fl fl_unlock s in
  let s := with_fl (fl_erase CFG_FACTORY_RST_CNT) s in
  with_fl fl_lock s.

Definition nv_resetToFactoryNew s : nv_sts_t * nv :=
  let s := if nv_facrotyNewRstFlagCheck s then s else nv_facrotyNewRstFlagSet s in
  let s := fold_left (fun s i => if negb (i =? NV_MODULE_NWK_FRAME_COUNT)
                                 then (nv_resetModule i s).2 else s) [0; 1; 2; 3] s in
  let s := nv_facrotyNewRstFlagClear s in
  (NV_SUCC, s).
End Ops.
Arguments nv F B : clear implicits.
