(* ===== verification/NvSpec.v ===== *)
(** * Invariant of the NV sectors

    The layout facts of the modules, the invariant of a sector as a list of index
    entries, and the lemmas that the operations of [Nv.v] keep it. *)
From S2P Require Import Prelude SpiFlash FlashIf EvBuffer Nv.

(** ** Geometry *)
Definition NV_LO : Z := 0x80000.
Definition NV_HI : Z := 0x100000.

Definition nv_module (id : Z) : Prop := 0 <= id < 4.

Record sector_geom (id sec : Z) : Prop := {
  geo_idx : MODULE_IDX_START id sec = MODULE_SECT_START id sec + 4;
  geo_num : 63 <= MODULE_IDX_NUM id <= 127;
  geo_tab : MODULE_IDX_START id sec + 8 * MODULE_IDX_NUM id <= MODULE_CONTEXT_START id sec;
  geo_ctx : MODULE_CONTEXT_START id sec = MODULE_SECT_START id sec + MODULE_INFO_SIZE id;
  geo_al : MODULE_CONTEXT_START id sec mod 4 = 0;
  geo_info : 512 <= MODULE_INFO_SIZE id;
  geo_end : MODULE_SECT_END id sec = MODULE_SECT_START id sec + NV_SECTOR_SIZE id;
  geo_size : MODULE_INFO_SIZE id + 3072 <= NV_SECTOR_SIZE id <= 16384;
  geo_lo : NV_LO <= MODULE_SECT_START id sec;
  geo_hi : MODULE_SECT_END id sec <= NV_HI;
  geo_end_al : MODULE_SECT_END id sec mod 4 = 0
}.

Lemma sector_geometry id sec : nv_module id -> 0 <= sec < 2 -> sector_geom id sec.
Proof.
  intros Hid Hsec.
  assert (id = 0 \/ id = 1 \/ id = 2 \/ id = 3) as Hids by (unfold nv_module in *; lia).
  assert (sec = 0 \/ sec = 1) as Hs by lia.
  destruct_or! Hids; destruct_or! Hs; subst; split; vm_compute; intuition discriminate.
Qed.

Definition align4 (x : Z) : Z := Z.land (x + 3) (Z.lnot 3).

Lemma align4_eq x : align4 x = (x + 3) / 4 * 4.
Proof.
  unfold align4. change 3 with (Z.ones 2) at 2. rewrite <-Z.ldiff_land, Z.ldiff_ones_r by lia.
  rewrite Z.shiftr_div_pow2, Z.shiftl_mul_pow2 by lia. done.
Qed.

Lemma align4_bounds x : x <= align4 x <= x + 3 /\ align4 x mod 4 = 0.
Proof. rewrite align4_eq. split; [zdm|]. apply Z.mod_mul. lia. Qed.

(** ** Encoding of the structures *)
Definition is_byte (v : Z) : Prop := 0 <= v < 256.
Definition idx_wf (e : nv_info_idx_t) : Prop :=
  0 <= offset e < 2 ^ 32 /\ 0 <= size e < 65536 /\ is_byte (idx_itemId e) /\ is_byte (usedState e).

Lemma length_enc_idx e : length (enc_idx e) = 8%nat.
Proof. done. Qed.
Lemma length_enc_hdr h : length (enc_hdr h) = 8%nat.
Proof. done. Qed.
Lemma length_enc_sect h : length (enc_sect h) = 4%nat.
Proof. done. Qed.

Lemma enc_idx_Forall e : Forall is_byte (enc_idx e).
Proof. repeat constructor; apply u8_range. Qed.
Lemma enc_hdr_Forall e : Forall is_byte (enc_hdr e).
Proof. repeat constructor; apply u8_range. Qed.
Lemma enc_sect_Forall e : Forall is_byte (enc_sect e).
Proof. repeat constructor; apply u8_range. Qed.

Lemma dec_enc_idx e : idx_wf e -> dec_idx (enc_idx e) = e.
Proof.
  intros (Ho & Hs & Hi & Hu). destruct e as [o z i u]. cbn [offset size idx_itemId usedState] in *. unfold dec_idx, enc_idx. cbn [offset size idx_itemId usedState].
  change (take 4 (word_le 4 o ++ word_le 2 z ++ [u8 i; u8 u])) with (word_le 4 o).
  change (take 2 (drop 4 (word_le 4 o ++ word_le 2 z ++ [u8 i; u8 u]))) with (word_le 2 z).
  rewrite !le_word_word_le by lia. cbn. by rewrite !u8_small.
Qed.

Lemma dec_enc_hdr h :
  0 <= checkSum h < 2 ^ 32 -> 0 <= hdr_size h < 65536 -> is_byte (hdr_itemId h) -> is_byte (hdr_used h) ->
  dec_hdr (enc_hdr h) = h.
Proof.
  destruct h as [o z i u]. cbn [checkSum hdr_size hdr_itemId hdr_used]. intros Ho Hs Hi Hu. unfold dec_hdr, enc_hdr. cbn [checkSum hdr_size hdr_itemId hdr_used].
  change (take 4 (word_le 4 o ++ word_le 2 z ++ [u8 i; u8 u])) with (word_le 4 o).
  change (take 2 (drop 4 (word_le 4 o ++ word_le 2 z ++ [u8 i; u8 u]))) with (word_le 2 z).
  rewrite !le_word_word_le by lia. cbn. by rewrite !u8_small.
Qed.

Lemma dec_enc_sect h :
  0 <= usedFlag h < 65536 -> is_byte (idName h) -> is_byte (sect_opSect h) -> dec_sect (enc_sect h) = h.
Proof.
  destruct h as [o i u]. cbn [usedFlag idName sect_opSect]. intros Ho Hi Hu. unfold dec_sect, enc_sect. cbn [usedFlag idName sect_opSect].
  change (take 2 (word_le 2 o ++ [u8 i; u8 u])) with (word_le 2 o).
  rewrite le_word_word_le by lia. cbn. by rewrite !u8_small.
Qed.

(** ** Flash states the NV code meets: content [g], nothing of the NV area
    protected by a lock *)
Definition prog (g : Z -> Z) (a : Z) (l : list Z) : Z -> Z := programmed (fun _ => false) g a l.

Section At.
Context {F : Type} `{FlashLaws F}.

Record nv_at (f : F) (g : Z -> Z) : Prop := {
  nvat_ok : fl_ok f;
  nvat_mask x : NV_LO <= x < NV_HI -> fl_mask f x = false;
  nvat_byte x : fl_byte f x = g x
}.

Lemma nv_at_byte_range f g x : nv_at f g -> 0 <= g x < 256.
Proof. intros [Hok _ Hb]. rewrite <-Hb. by apply fl_byte_range. Qed.

Lemma nv_at_read f g a n :
  nv_at f g -> NV_LO <= a -> a + Z.of_nat n <= NV_HI -> fl_read f a n = bytes_at g a n.
Proof.
  intros [Hok _ Hb] Hlo Hhi. unfold NV_LO, NV_HI in *.
  rewrite fl_read_law by (done || split; lia). by apply bytes_at_ext.
Qed.

Lemma nv_at_write f g a l :
  nv_at f g -> NV_LO <= a -> a + Z.of_nat (length l) <= NV_HI -> Forall is_byte l ->
  nv_at (fl_write a l f) (prog g a l).
Proof.
  intros [Hok Hm Hb] Hlo Hhi Hl.
  destruct (fl_write_law f a l Hok) as (Hok' & Hpm & Hb');
    [unfold NV_LO, NV_HI in *; split; lia|done|].
  split; [done| |].
  - intros x Hx. rewrite (proj2 (Hpm x)). by apply Hm.
  - intros x. rewrite Hb'. unfold prog, programmed. rewrite Hb.
    destruct ((a <=? x) && (x <? a + Z.of_nat (length l))) eqn:E; cbn [andb]; [|done].
    rewrite fl_prot_mask; [done|done|]. apply Hm. lia.
Qed.

Lemma nv_at_erase f g a :
  nv_at f g -> NV_LO <= a < NV_HI ->
  nv_at (fl_erase a f) (erased (fun _ => false) g a).
Proof.
  intros [Hok Hm Hb] Ha.
  destruct (fl_erase_law f a Hok) as (Hok' & Hpm & Hb');
    [unfold NV_LO, NV_HI in *; split; cbn; lia|].
  split; [done| |].
  - intros x Hx. rewrite (proj2 (Hpm x)). by apply Hm.
  - intros x. rewrite Hb'. unfold erased. rewrite Hb.
    destruct (Z.eqb_spec (x / 4096) (a / 4096)) as [E|E]; cbn [andb]; [|done].
    rewrite fl_prot_mask; [done|done|]. apply Hm. unfold NV_LO, NV_HI in *. zdm.
Qed.

Lemma nv_at_lock f g : nv_at f g -> nv_at (fl_lock f) g.
Proof.
  intros [Hok Hm Hb]. destruct (fl_lock_law f Hok) as (Hok' & Hb' & Hpm). split; [done| |].
  - intros x Hx. rewrite (proj2 (Hpm x)). by apply Hm.
  - intros x. by rewrite Hb'.
Qed.

Lemma nv_at_unlock f g : nv_at f g -> nv_at (fl_unlock f) g.
Proof.
  intros [Hok Hm Hb]. destruct (fl_unlock_law f Hok) as (Hok' & Hb' & Hpm). split; [done| |].
  - intros x Hx. rewrite (proj2 (Hpm x)). by apply Hm.
  - intros x. by rewrite Hb'.
Qed.

Lemma nv_at_ext f g g' : (forall x, g x = g' x) -> nv_at f g -> nv_at f g'.
Proof. intros E [? ? Hb]. split; try done. intros x. by rewrite Hb. Qed.
End At.

Create HintDb nv.
#[export] Hint Resolve enc_idx_Forall enc_hdr_Forall enc_sect_Forall nv_at_lock nv_at_unlock : nv.

Lemma prog_blank g a l :
  Forall is_byte l -> (forall x, a <= x < a + Z.of_nat (length l) -> g x = 255) ->
  bytes_at (prog g a l) a (length l) = l.
Proof. intros Hl Hg. apply programmed_blank_bytes; auto. Qed.

Lemma prog_out g a l b n :
  b + Z.of_nat n <= a \/ a + Z.of_nat (length l) <= b -> bytes_at (prog g a l) b n = bytes_at g b n.
Proof. apply programmed_bytes_out. Qed.

Lemma prog_out1 g a l x : x < a \/ a + Z.of_nat (length l) <= x -> prog g a l x = g x.
Proof. apply programmed_out. Qed.

(** Programming the state byte of an index entry. *)
Lemma prog_state g a e v :
  bytes_at g a 8 = enc_idx e -> is_byte (usedState e) ->
  bytes_at (prog g (a + staOffset) [v]) a 8 =
  enc_idx (mk_idx (offset e) (size e) (idx_itemId e) (Z.land (usedState e) v)).
Proof.
  intros Hg Hu. unfold staOffset.
  change 8%nat with (7 + 1)%nat in Hg |- *. rewrite !bytes_at_app in Hg |- *.
  change (enc_idx e) with (take 7 (enc_idx e) ++ [u8 (usedState e)]) in Hg.
  apply app_inj_1 in Hg as [H7 H1]; [|done].
  change (enc_idx (mk_idx (offset e) (size e) (idx_itemId e) (Z.land (usedState e) v)))
    with (take 7 (enc_idx e) ++ [u8 (Z.land (usedState e) v)]).
  rewrite prog_out by lia. rewrite H7. f_equal.
  rewrite !bytes_at_S in H1 |- *. cbn [bytes_at seq map] in H1 |- *. injection H1 as H1.
  f_equal. unfold prog, programmed. cbn [length].
  change (Z.of_nat 7) with 7 in *.
  rewrite Z.leb_refl. assert ((a + 7 <? a + 7 + Z.of_nat 1) = true) as -> by (apply Z.ltb_lt; lia).
  cbn [andb negb].
  rewrite Z.sub_diag. change (default 0 ([v] !! Z.to_nat 0)) with v.
  rewrite H1, (u8_small (usedState e)) by done. symmetry. apply u8_small.
  assert (Z.land (usedState e) v = Z.land (usedState e) v mod 2 ^ 8) as ->; [|apply Z.mod_pos_bound; lia].
  rewrite <-Z.land_ones, <-Z.land_assoc, (Z.land_comm v), Z.land_assoc, Z.land_ones by lia.
  by rewrite Z.mod_small.
Qed.

(** ** The index table *)

(** The greatest [i < n] that satisfies [q]. *)
Fixpoint last_index (q : nat -> bool) (n : nat) : option nat :=
  match n with O => None | S n' => if q n' then Some n' else last_index q n' end.

Lemma last_index_add q n m :
  last_index q (n + m) =
  match last_index (fun i => q (n + i)%nat) m with
  | Some i => Some (n + i)%nat
  | None => last_index q n
  end.
Proof.
  induction m as [|m IH]; [by rewrite Nat.add_0_r|].
  rewrite Nat.add_succ_r. cbn [last_index]. by destruct (q (n + m)%nat).
Qed.

Lemma last_index_ext q q' n : (forall i, (i < n)%nat -> q i = q' i) -> last_index q n = last_index q' n.
Proof.
  induction n as [|n IH]; intros E; cbn [last_index]; [done|].
  rewrite E by lia. rewrite IH; [done|]. intros i Hi. apply E. lia.
Qed.

Lemma last_index_Some q n i :
  last_index q n = Some i -> (i < n)%nat /\ q i = true /\ forall j, (i < j < n)%nat -> q j = false.
Proof.
  induction n as [|n IH]; cbn [last_index]; [done|].
  destruct (q n) eqn:E; [intros [= <-]; split; [lia|split; [done|lia]]|].
  intros (Hi & Hq & Hj)%IH. split; [lia|split; [done|]]. intros j Hjn.
  destruct (decide (j = n)) as [->|]; [done|]. apply Hj. lia.
Qed.

Lemma last_index_None q n : last_index q n = None -> forall i, (i < n)%nat -> q i = false.
Proof.
  induction n as [|n IH]; cbn [last_index]; [lia|].
  destruct (q n) eqn:E; [done|]. intros HN i Hi.
  destruct (decide (i = n)) as [->|]; [done|]. apply IH; [done|lia].
Qed.

Lemma last_index_false q n : (forall i, (i < n)%nat -> q i = false) -> last_index q n = None.
Proof.
  induction n as [|n IH]; intros E; cbn [last_index]; [done|]. rewrite E by lia. apply IH.
  intros i Hi. apply E. lia.
Qed.

Lemma last_index_scan_down {A} (p : A -> bool) (e : nat -> A) m n k :
  (k <= n)%nat ->
  scan_down p (map e (seq m n)) k = last_index (fun i => p (e (m + i)%nat)) k.
Proof.
  induction k as [|k IH]; intros Hk; cbn [scan_down last_index]; [done|].
  rewrite list_lookup_fmap, lookup_seq_lt by lia. cbn. rewrite IH by lia. done.
Qed.

(** The entry that [g] has at place [i] of the table that starts at [st]. *)
Definition ent (g : Z -> Z) (st : Z) (i : nat) : nv_info_idx_t :=
  dec_idx (bytes_at g (st + 8 * Z.of_nat i) 8).

Lemma dec_idxs_bytes g st m n :
  dec_idxs n (bytes_at g (st + 8 * Z.of_nat m) (8 * n)) = map (ent g st) (seq m n).
Proof.
  revert m. induction n as [|n IH]; intros m; [done|].
  cbn [dec_idxs seq map]. replace (8 * S n)%nat with (8 + 8 * n)%nat by lia.
  rewrite bytes_at_app. rewrite take_app_length', drop_app_length' by (by rewrite length_bytes_at).
  f_equal. rewrite <-IH. f_equal. f_equal. lia.
Qed.

Definition idle_idx : nv_info_idx_t := mk_idx 0xffffffff 0xffff 0xff 0xff.

Lemma ent_idle g st i :
  (forall x, st + 8 * Z.of_nat i <= x < st + 8 * Z.of_nat i + 8 -> g x = 255) ->
  ent g st i = idle_idx.
Proof.
  intros Hg. unfold ent. rewrite (bytes_at_ext g (fun _ => 255)); [done|].
  intros j Hj. apply Hg. lia.
Qed.

Lemma ent_enc g st i e :
  bytes_at g (st + 8 * Z.of_nat i) 8 = enc_idx e -> idx_wf e -> ent g st i = e.
Proof. intros E Hw. unfold ent. by rewrite E, dec_enc_idx. Qed.

Section Reads.
Context {F B : Type} `{FlashLaws F} `{NvHeap B}.
Implicit Type s : nv F B.

Lemma rd_at s g a n :
  nv_at (nv_fl s) g -> NV_LO <= a -> a + Z.of_nat n <= NV_HI -> rd a n s = bytes_at g a n.
Proof. apply nv_at_read. Qed.

Lemma index_loop_spec fuel p n st s g :
  nv_at (nv_fl s) g -> NV_LO <= st -> st + 8 * Z.of_nat n <= NV_HI -> (n < fuel)%nat ->
  index_loop fuel p (Z.of_nat n) (st + 8 * Z.of_nat n) (Z.of_nat n) s =
  Z.of_nat <$> last_index (fun i => p (ent g st i)) n.
Proof.
  intros Hat Hlo. revert n. induction fuel as [|fuel IH]; intros n Hhi Hf; [lia|].
  cbn [index_loop]. destruct (Z.ltb_spec 0 (Z.of_nat n)) as [Hpos|]; [|by assert (n = 0%nat) as -> by lia].
  set (k := if 4 <? Z.of_nat n then 4 else Z.of_nat n).
  assert (exists m kn, k = Z.of_nat kn /\ n = (m + kn)%nat /\ (0 < kn)%nat) as (m & kn & -> & -> & Hkn).
  { unfold k. destruct (Z.ltb_spec 4 (Z.of_nat n)); [exists (n - 4)%nat, 4%nat|exists 0%nat, n]; lia. }
  unfold sizeof_idx.
  replace (st + 8 * Z.of_nat (m + kn) - Z.of_nat kn * 8) with (st + 8 * Z.of_nat m) by lia.
  replace (Z.of_nat (m + kn) - Z.of_nat kn) with (Z.of_nat m) by lia.
  replace (Z.to_nat (Z.of_nat kn * 8)) with (8 * kn)%nat by lia. rewrite Nat2Z.id.
  rewrite (rd_at _ g) by (done || lia). rewrite dec_idxs_bytes, last_index_scan_down by done.
  rewrite last_index_add. destruct (last_index _ kn) as [i|]; [cbn; f_equal; lia|].
  apply IH; lia.
Qed.

Lemma nv_index_read_spec id itemId len sec s g :
  nv_module id -> 0 <= sec < 2 -> nv_at (nv_fl s) g ->
  nv_index_read id itemId len sec (MODULE_IDX_NUM id) s =
  match last_index (fun i =>
          (if itemId =? ITEM_FIELD_IDLE then index_hit itemId ITEM_FIELD_IDLE 0xffff
           else index_hit itemId ITEM_FIELD_VALID (u16 (ITEM_TOTAL_LEN len)))
            (ent g (MODULE_IDX_START id sec) i)) (Z.to_nat (MODULE_IDX_NUM id)) with
  | Some i => (NV_SUCC, Some (Z.of_nat i))
  | None => (NV_ITEM_NOT_FOUND, None)
  end.
Proof.
  intros Hid Hsec Hat. pose proof (sector_geometry id sec Hid Hsec) as [].
  unfold nv_index_read, sizeof_idx.
  set (n := Z.to_nat (MODULE_IDX_NUM id)).
  assert (MODULE_IDX_NUM id = Z.of_nat n) as En by lia. clearbody n. rewrite En in *.
  rewrite (Z.mul_comm _ 8).
  destruct (itemId =? ITEM_FIELD_IDLE);
    rewrite (index_loop_spec _ _ _ _ _ g) by (done || lia); by destruct (last_index _ n).
Qed.
End Reads.

(** ** The invariant of a sector

    [es] are the entries of the index table, oldest first. *)
Definition idx_addr (id sec : Z) (i : nat) : Z := MODULE_IDX_START id sec + 8 * Z.of_nat i.

Definition next_off (id sec : Z) (es : list nv_info_idx_t) : Z :=
  match last es with
  | None => MODULE_CONTEXT_START id sec
  | Some e => align4 (offset e + size e)
  end.

(** The bytes of item area a list of entries takes. *)
Definition total (es : list nv_info_idx_t) : Z := foldr (fun e t => align4 (size e) + t) 0 es.

Record entry_ok (id sec : Z) (g : Z -> Z) (bound : Z) (e : nv_info_idx_t) : Prop := {
  eo_wf : idx_wf e;
  eo_state : usedState e = ITEM_FIELD_VALID \/ usedState e = ITEM_FIELD_INVALID \/
             usedState e = ITEM_FIELD_OPERATION;
  eo_id : idx_itemId e <> ITEM_FIELD_IDLE;
  eo_size : 8 <= size e;
  eo_al : offset e mod 4 = 0;
  eo_lo : MODULE_CONTEXT_START id sec <= offset e;
  eo_hi : offset e + size e <= bound;
  eo_hdr : usedState e = ITEM_FIELD_VALID ->
    exists cs, 0 <= cs < 2 ^ 32 /\
      bytes_at g (offset e) 8 = enc_hdr (mk_hdr cs (size e - 8) (idx_itemId e) ITEM_FIELD_VALID)
}.

Record sector_inv (id sec : Z) (g : Z -> Z) (es : list nv_info_idx_t) : Prop := {
  si_byte x : 0 <= g x < 256;
  si_len : Z.of_nat (length es) <= MODULE_IDX_NUM id;
  si_idx i e : es !! i = Some e -> bytes_at g (idx_addr id sec i) 8 = enc_idx e;
  si_entry e : e ∈ es -> entry_ok id sec g (next_off id sec es) e;
  si_total : next_off id sec es = MODULE_CONTEXT_START id sec + total es;
  si_next : MODULE_CONTEXT_START id sec <= next_off id sec es <= MODULE_SECT_END id sec;
  si_free_idx x : idx_addr id sec (length es) <= x < MODULE_CONTEXT_START id sec -> g x = 255;
  si_free x : next_off id sec es <= x < MODULE_SECT_END id sec -> g x = 255
}.

Lemma next_off_snoc id sec es e : next_off id sec (es ++ [e]) = align4 (offset e + size e).
Proof. unfold next_off. by rewrite last_snoc. Qed.

Lemma align4_add a b : a mod 4 = 0 -> align4 (a + b) = a + align4 b.
Proof. intros. rewrite !align4_eq. zdm. Qed.

Lemma total_app es es' : total (es ++ es') = total es + total es'.
Proof. induction es as [|e es IH]; cbn; [done|]. fold (total (es ++ es')) (total es). lia. Qed.

Lemma total_nonneg es : Forall (fun e => 0 <= size e) es -> 0 <= total es.
Proof.
  induction 1 as [|e es He Hes IH]; cbn; [done|]. fold (total es).
  pose proof (align4_bounds (size e)). lia.
Qed.

Lemma total_mod es : total es mod 4 = 0.
Proof.
  induction es as [|e es IH]; cbn; [done|]. fold (total es).
  pose proof (align4_bounds (size e)). rewrite Z.add_mod by lia. by rewrite IH, (proj2 H).
Qed.

(** An update that keeps the sizes keeps the total. *)
Lemma total_insert es i e e' : es !! i = Some e -> size e' = size e -> total (<[i := e']> es) = total es.
Proof.
  intros Hi Hs. revert i Hi. induction es as [|e0 es IH]; intros [|i] Hi; try done; cbn in *.
  - injection Hi as ->. by rewrite Hs.
  - fold (total es) (total (<[i:=e']> es)). by rewrite IH.
Qed.

Lemma next_off_al id sec g es :
  nv_module id -> 0 <= sec < 2 -> sector_inv id sec g es -> next_off id sec es mod 4 = 0.
Proof.
  intros Hid Hsec Hinv. pose proof (sector_geometry id sec Hid Hsec) as [].
  by rewrite (si_total _ _ _ _ Hinv), Z.add_mod, geo_al0, total_mod by lia.
Qed.

Lemma entry_ok_mono id sec g g' b b' e :
  entry_ok id sec g b e -> b <= b' ->
  bytes_at g' (offset e) 8 = bytes_at g (offset e) 8 ->
  entry_ok id sec g' b' e.
Proof.
  intros [] Hb Hg. split; try done; [lia|]. intros Hu. rewrite Hg. auto.
Qed.

(** Content that differs from [g] only in the next index entry and in the
    [n] bytes of the next item. *)
Definition frame (id sec : Z) (es : list nv_info_idx_t) (n : Z) (g g' : Z -> Z) : Prop :=
  forall x, x < idx_addr id sec (length es) \/
            idx_addr id sec (length es) + 8 <= x < next_off id sec es \/
            next_off id sec es + n <= x -> g' x = g x.

(** Adding an item. *)
Lemma sector_inv_push id sec g g' es e :
  nv_module id -> 0 <= sec < 2 -> sector_inv id sec g es ->
  Z.of_nat (length es) < MODULE_IDX_NUM id ->
  offset e = next_off id sec es -> offset e + size e <= MODULE_SECT_END id sec ->
  (forall x, 0 <= g' x < 256) ->
  frame id sec es (size e) g g' ->
  bytes_at g' (idx_addr id sec (length es)) 8 = enc_idx e ->
  entry_ok id sec g' (offset e + size e) e ->
  sector_inv id sec g' (es ++ [e]).
Proof.
  intros Hid Hsec [] Hlen Hoff Hfit Hb Hfr Hidx Hok.
  pose proof (sector_geometry id sec Hid Hsec) as [].
  pose proof (align4_bounds (offset e + size e)) as [Hal Hmod].
  assert (Hend : align4 (offset e + size e) <= MODULE_SECT_END id sec) by zdm.
  unfold frame in Hfr. pose proof (eo_size _ _ _ _ _ Hok) as Hsz.
  split; [done| | | | | | | ].
  - rewrite length_app. cbn. lia.
  - intros i e' [Hi|[Hi Hi']]%lookup_app_Some.
    + rewrite <-(si_idx0 i e' Hi). apply lookup_lt_Some in Hi. apply bytes_at_ext.
      intros j Hj. apply Hfr. left. unfold idx_addr. lia.
    + apply list_lookup_singleton_Some in Hi' as [Hz <-].
      replace i with (length es) by lia. done.
  - intros e' [He|He]%elem_of_app; rewrite next_off_snoc.
    + specialize (si_entry0 e' He). eapply entry_ok_mono; [done|lia|].
      destruct si_entry0. apply bytes_at_ext. intros j Hj. apply Hfr. right. left.
      unfold idx_addr. lia.
    + apply list_elem_of_singleton in He as ->. eapply entry_ok_mono; [done|lia|done].
  - rewrite next_off_snoc, total_app, Hoff, align4_add by (rewrite si_total0, Z.add_mod, total_mod, geo_al0 by lia; done).
    cbn. lia.
  - rewrite next_off_snoc. lia.
  - intros x. rewrite length_app. cbn [length]. unfold idx_addr in *. intros Hx.
    rewrite Hfr by lia. apply si_free_idx0. lia.
  - intros x. rewrite next_off_snoc. intros Hx. rewrite Hfr by (unfold idx_addr in *; lia).
    apply si_free0. lia.
Qed.

(** The invariant does not look at the sector's header. *)
Lemma sector_inv_ext id sec g g' es :
  nv_module id -> 0 <= sec < 2 ->
  (forall x, MODULE_SECT_START id sec + 4 <= x < MODULE_SECT_END id sec -> g' x = g x) ->
  sector_inv id sec g es -> (forall x, 0 <= g' x < 256) -> sector_inv id sec g' es.
Proof.
  intros Hid Hsec Hg [] Hb. pose proof (sector_geometry id sec Hid Hsec) as [].
  split; try done.
  - intros i e Hi. rewrite <-(si_idx0 i e Hi). apply lookup_lt_Some in Hi. apply bytes_at_ext.
    intros j Hj. apply Hg. unfold idx_addr. lia.
  - intros e He. specialize (si_entry0 e He). eapply entry_ok_mono; [done|lia|].
    destruct si_entry0. apply bytes_at_ext. intros j Hj. apply Hg. lia.
  - intros x Hx. rewrite Hg; [auto|]. unfold idx_addr in *. lia.
  - intros x Hx. rewrite Hg; [auto|]. lia.
Qed.

(** Changing the state of an entry to a state without its bits. *)
Lemma sector_inv_invalidate id sec g es i e :
  nv_module id -> 0 <= sec < 2 -> sector_inv id sec g es ->
  es !! i = Some e -> usedState e = ITEM_FIELD_VALID ->
  let g' := prog g (idx_addr id sec i + staOffset) [ITEM_FIELD_INVALID] in
  sector_inv id sec g'
    (<[i := mk_idx (offset e) (size e) (idx_itemId e) ITEM_FIELD_INVALID]> es) /\
  forall x, x <> idx_addr id sec i + staOffset -> g' x = g x.
Proof.
  intros Hid Hsec [] Hi Hu g'.
  pose proof (sector_geometry id sec Hid Hsec) as [].
  pose proof (lookup_lt_Some _ _ _ Hi) as Hlt.
  assert (Hout : forall x, x <> idx_addr id sec i + staOffset -> g' x = g x).
  { intros x Hx. apply prog_out1. cbn [length]. lia. }
  set (e' := mk_idx _ _ _ _).
  assert (Hnext : next_off id sec (<[i:=e']> es) = next_off id sec es).
  { unfold next_off. rewrite !last_lookup, length_insert.
    destruct (decide (i = pred (length es))) as [->|Hne].
    - by rewrite list_lookup_insert_eq, Hi by done.
    - by rewrite list_lookup_insert_ne. }
  assert (Hent : forall e0, e0 ∈ es -> bytes_at g' (offset e0) 8 = bytes_at g (offset e0) 8).
  { intros e0 He0. apply bytes_at_ext. intros j Hj. apply Hout.
    specialize (si_entry0 e0 He0). destruct si_entry0. unfold idx_addr, staOffset. lia. }
  split; [|done]. split.
  - intros x. apply programmed_range; [done|]. by repeat constructor.
  - by rewrite length_insert.
  - intros j e0 Hj. destruct (decide (j = i)) as [->|Hne].
    + rewrite list_lookup_insert_eq in Hj by done. injection Hj as <-. unfold g'.
      rewrite (prog_state _ _ e); [by rewrite Hu| |].
      * by apply si_idx0.
      * rewrite Hu. done.
    + rewrite list_lookup_insert_ne in Hj by done. rewrite <-(si_idx0 j e0 Hj).
      apply bytes_at_ext. intros k Hk. apply Hout. unfold idx_addr, staOffset. lia.
  - intros e0 He0. rewrite Hnext. apply list_elem_of_lookup in He0 as [j Hj].
    destruct (decide (j = i)) as [->|Hne].
    + rewrite list_lookup_insert_eq in Hj by done. injection Hj as <-.
      pose proof (si_entry0 e ltac:(eapply list_elem_of_lookup_2; eauto)) as [(?&?&?&?) ???????].
      split; cbn; try done; auto.
    + rewrite list_lookup_insert_ne in Hj by done. apply list_elem_of_lookup_2 in Hj.
      eapply entry_ok_mono; [by apply si_entry0|lia|by apply Hent].
  - rewrite Hnext. by rewrite (total_insert _ _ e).
  - by rewrite Hnext.
  - intros x Hx. rewrite length_insert in Hx. rewrite Hout; [by apply si_free_idx0|].
    unfold idx_addr, staOffset in *. lia.
  - intros x Hx. rewrite Hnext in Hx. rewrite Hout; [by apply si_free0|].
    unfold idx_addr, staOffset in *. lia.
Qed.

(** ** Writing an item *)
Lemma fold_left_bytes_at (h : Z -> Z -> Z) g a n m acc :
  fold_left h (bytes_at g (a + Z.of_nat n) m) (fold_left h (bytes_at g a n) acc) =
  fold_left h (bytes_at g a (n + m)) acc.
Proof. by rewrite bytes_at_app, fold_left_app. Qed.

Lemma sum_bytes_range l : 0 <= sum_bytes l < 2 ^ 32.
Proof.
  unfold sum_bytes. destruct l as [|x l] using rev_ind; [done|].
  rewrite fold_left_app. apply u32_range.
Qed.

Section Write.
Context {F B : Type} `{FlashLaws F} `{NvHeap B}.
Implicit Type s : nv F B.

Lemma verify_loop_spec fuel n a acc s g :
  nv_at (nv_fl s) g -> NV_LO <= a -> a + Z.of_nat n <= NV_HI -> (n < fuel)%nat ->
  verify_loop fuel (Z.of_nat n) a acc s = fold_left (fun c b => u32 (c + b)) (bytes_at g a n) acc.
Proof.
  intros Hat. revert n a acc. induction fuel as [|fuel IH]; intros n a acc Hlo Hhi Hf; [lia|].
  cbn [verify_loop]. destruct (Z.ltb_spec 0 (Z.of_nat n)); [|by assert (n = 0%nat) as -> by lia].
  set (k := if 16 <? Z.of_nat n then 16 else Z.of_nat n).
  assert (exists m kn, k = Z.of_nat kn /\ n = (kn + m)%nat /\ (0 < kn)%nat) as (m & kn & -> & -> & Hkn).
  { unfold k. destruct (Z.ltb_spec 16 (Z.of_nat n)); [exists (n - 16)%nat, 16%nat|exists 0%nat, n]; lia. }
  rewrite Nat2Z.id, (rd_at _ g) by (done || lia).
  replace (Z.of_nat (kn + m) - Z.of_nat kn) with (Z.of_nat m) by lia.
  rewrite IH by lia. apply fold_left_bytes_at.
Qed.

(** The offset that [nv_write_item] computes. *)
Lemma write_offset id sec s g es :
  nv_module id -> 0 <= sec < 2 -> nv_at (nv_fl s) g -> sector_inv id sec g es ->
  (if Z.of_nat (length es) =? 0 then MODULE_CONTEXT_START id sec
   else
     let prev := dec_idx (rd (MODULE_IDX_START id sec + (Z.of_nat (length es) - 1) * sizeof_idx) 8 s) in
     u32 (Z.land (offset prev + size prev + 3) (Z.lnot 0x03))) = next_off id sec es.
Proof.
  intros Hid Hsec Hat Hinv. pose proof (sector_geometry id sec Hid Hsec) as [].
  destruct (list_snoc_inv es) as [->|(es0 & e & ->)]; [done|].
  assert (Hi : (es0 ++ [e]) !! length es0 = Some e) by (by rewrite lookup_app_r, Nat.sub_diag).
  pose proof (si_len _ _ _ _ Hinv) as Hl. rewrite length_app in *. cbn [length] in *.
  destruct (Z.eqb_spec (Z.of_nat (length es0 + 1)) 0); [lia|].
  unfold sizeof_idx. replace (MODULE_IDX_START id sec + (Z.of_nat (length es0 + 1) - 1) * 8)
    with (idx_addr id sec (length es0)) by (unfold idx_addr; lia).
  rewrite (rd_at _ g) by (done || unfold idx_addr; lia).
  rewrite (si_idx _ _ _ _ Hinv _ _ Hi).
  pose proof (si_entry _ _ _ _ Hinv e ltac:(apply elem_of_app; right; by apply list_elem_of_singleton)) as [].
  rewrite dec_enc_idx by done. rewrite next_off_snoc in *. cbn zeta.
  fold (align4 (offset e + size e)).
  pose proof (si_next _ _ _ _ Hinv). rewrite next_off_snoc in *.
  apply u32_small. unfold NV_LO, NV_HI in *. lia.
Qed.

Definition new_idx (id sec : Z) (es : list nv_info_idx_t) (itemId len : Z) : nv_info_idx_t :=
  mk_idx (next_off id sec es) (len + 8) itemId ITEM_FIELD_VALID.

(** The entry of an item being written. *)
Definition op_idx (e : nv_info_idx_t) : nv_info_idx_t :=
  mk_idx (offset e) (size e) (idx_itemId e) ITEM_FIELD_OPERATION.

Lemma item_begin id sec g es e :
  nv_module id -> 0 <= sec < 2 -> sector_inv id sec g es -> Z.of_nat (length es) < MODULE_IDX_NUM id ->
  let g1 := prog g (idx_addr id sec (length es)) (enc_idx (op_idx e)) in
  (forall x, 0 <= g1 x < 256) /\ forall x, next_off id sec es <= x < MODULE_SECT_END id sec -> g1 x = 255.
Proof.
  intros Hid Hsec Hinv Hlen g1. pose proof (sector_geometry id sec Hid Hsec) as [].
  pose proof (si_next _ _ _ _ Hinv). split.
  - intros x. apply programmed_range; [apply (si_byte _ _ _ _ Hinv)|auto with nv].
  - intros x Hx. unfold g1. rewrite prog_out1; [by apply (si_free _ _ _ _ Hinv)|].
    rewrite length_enc_idx. unfold idx_addr. lia.
Qed.

(** The end of [nv_write_item]: with the item in place ([g2]), the state byte of
    its entry is programmed. *)
Lemma item_commit id sec g es e g2 :
  nv_module id -> 0 <= sec < 2 -> sector_inv id sec g es ->
  Z.of_nat (length es) < MODULE_IDX_NUM id ->
  offset e = next_off id sec es -> usedState e = ITEM_FIELD_VALID ->
  entry_ok id sec g2 (offset e + size e) e -> offset e + size e <= MODULE_SECT_END id sec ->
  (forall x, 0 <= g2 x < 256) ->
  let ia := idx_addr id sec (length es) in
  (forall x, x < offset e \/ offset e + size e <= x -> g2 x = prog g ia (enc_idx (op_idx e)) x) ->
  let g3 := prog g2 (ia + staOffset) [ITEM_FIELD_VALID] in
  sector_inv id sec g3 (es ++ [e]) /\ frame id sec es (size e) g g3 /\
  forall a n, next_off id sec es <= a -> bytes_at g3 a n = bytes_at g2 a n.
Proof.
  intros Hid Hsec Hinv Hlen Hoff Hu Hok Hfit Hb ia Hg2 g3.
  pose proof (sector_geometry id sec Hid Hsec) as []. pose proof (si_next _ _ _ _ Hinv) as Hnext.
  pose proof (eo_size _ _ _ _ _ Hok) as Hsz.
  assert (Hia : ia + 8 <= MODULE_CONTEXT_START id sec) by (unfold ia, idx_addr; lia).
  assert (Hbytes : forall a n, next_off id sec es <= a -> bytes_at g3 a n = bytes_at g2 a n).
  { intros a n Ha. apply prog_out. cbn [length]. unfold staOffset. lia. }
  assert (Hfr : frame id sec es (size e) g g3).
  { intros x Hx. fold ia in Hx. unfold g3.
    rewrite prog_out1, Hg2, prog_out1; rewrite ?length_enc_idx; cbn [length]; unfold staOffset; (done || lia). }
  assert (Hidx : bytes_at g3 ia 8 = enc_idx e).
  { unfold g3. rewrite (prog_state _ _ (op_idx e)); [| |done].
    { cbn [op_idx offset size idx_itemId usedState].
      change (Z.land ITEM_FIELD_OPERATION ITEM_FIELD_VALID) with ITEM_FIELD_VALID.
      rewrite <-Hu. by destruct e. }
    rewrite (bytes_at_ext _ (prog g ia (enc_idx (op_idx e)))) by (intros; apply Hg2; lia).
    change 8%nat with (length (enc_idx (op_idx e))). apply prog_blank; [auto with nv|].
    intros x Hx. rewrite length_enc_idx in Hx. apply (si_free_idx _ _ _ _ Hinv). fold ia. lia. }
  split_and!; [|done|done]. apply (sector_inv_push _ _ g); try done.
  - intros x. apply programmed_range; [done|by repeat constructor].
  - eapply entry_ok_mono; [done|lia|]. apply Hbytes. lia.
Qed.

Lemma nv_write_item_ram id itemId sec buf s g es :
  nv_module id -> 0 <= sec < 2 -> nv_at (nv_fl s) g -> sector_inv id sec g es ->
  is_byte itemId -> itemId <> ITEM_FIELD_IDLE -> Forall is_byte buf ->
  Z.of_nat (length es) < MODULE_IDX_NUM id ->
  next_off id sec es + 8 + Z.of_nat (length buf) <= MODULE_SECT_END id sec ->
  exists s' g',
    nv_write_item id itemId sec (Z.of_nat (length es)) (Z.of_nat (length buf)) (FromRam buf) s
      = (NV_SUCC, s') /\
    nv_at (nv_fl s') g' /\
    sector_inv id sec g' (es ++ [new_idx id sec es itemId (Z.of_nat (length buf))]) /\
    bytes_at g' (next_off id sec es + 8) (length buf) = buf /\
    frame id sec es (Z.of_nat (length buf) + 8) g g' /\ nv_heap s' = nv_heap s.
Proof.
  intros Hid Hsec Hat Hinv Hib Hidle Hbuf Hlen Hfit.
  pose proof (sector_geometry id sec Hid Hsec) as [].
  pose proof (si_next _ _ _ _ Hinv) as Hnext.
  set (len := Z.of_nat (length buf)) in *.
  assert (El : Z.of_nat (length buf) = len) by done. set (off := next_off id sec es) in *.
  set (ia := idx_addr id sec (length es)).
  assert (Hia : NV_LO <= ia /\ ia + 8 <= MODULE_CONTEXT_START id sec) by (unfold ia, idx_addr; lia).
  unfold nv_write_item, sizeof_itemHdr. pose proof (write_offset id sec s g es Hid Hsec Hat Hinv) as Hoff.
  cbv zeta in Hoff |- *. rewrite Hoff, (u16_small (len + 8)) by lia. clear Hoff. fold off.
  change (MODULE_IDX_START id sec + Z.of_nat (length es) * sizeof_idx)
    with (MODULE_IDX_START id sec + Z.of_nat (length es) * 8).
  rewrite (Z.mul_comm (Z.of_nat (length es))). fold ia. cbn zeta. cbn [offset size].
  set (e := new_idx id sec es itemId len).
  change (mk_idx off (len + 8) itemId ITEM_FIELD_OPERATION) with (op_idx e).
  destruct (item_begin id sec g es e) as [Hb1 Hfree]; try done. fold ia off in Hb1, Hfree.
  set (g1 := prog g ia (enc_idx (op_idx e))) in *. set (g2 := prog g1 (off + 8) buf).
  match goal with |- context [verify_loop _ _ _ _ ?s2] => set (s2' := s2) end.
  assert (Hat2 : nv_at (nv_fl s2') g2).
  { unfold s2', with_fl. cbn [nv_fl].
    apply nv_at_write; [|lia|lia|done].
    apply nv_at_write; [by apply nv_at_unlock|lia|rewrite length_enc_idx; lia|auto with nv]. }
  assert (Hpay : bytes_at g2 (off + 8) (length buf) = buf).
  { apply prog_blank; [done|]. intros x Hx. apply Hfree. lia. }
  assert (Hv : verify_loop (S (Z.to_nat len)) len (off + 8) 0 s2' = sum_bytes buf).
  { rewrite <-El, Nat2Z.id, (verify_loop_spec _ _ _ _ _ g2) by (done || lia). by rewrite Hpay. }
  rewrite Hv, Z.eqb_refl.
  set (hdr := mk_hdr (sum_bytes buf) len itemId ITEM_FIELD_VALID). set (g3 := prog g2 off (enc_hdr hdr)).
  assert (Hhdr : bytes_at g3 off 8 = enc_hdr hdr).
  { unfold g3. change 8%nat with (length (enc_hdr hdr)). apply prog_blank; [auto with nv|].
    intros x Hx. rewrite length_enc_hdr in Hx. unfold g2. rewrite prog_out1 by lia. apply Hfree. lia. }
  destruct (item_commit id sec g es e g3) as (Hinv' & Hfr & Hkeep);
    try done; cbn [e new_idx offset size]; fold off; [|lia| | |].
  { split; cbn; try (done || lia || auto).
    { unfold NV_LO, NV_HI in *. split_and!; cbn; (done || lia). }
    { by apply (next_off_al _ _ g). }
    intros _. exists (sum_bytes buf). split; [apply sum_bytes_range|].
    replace (len + 8 - 8) with len by lia. done. }
  { intros x. repeat (apply programmed_range; [intros ?|auto with nv]). apply (si_byte _ _ _ _ Hinv). }
  { intros x Hx. unfold g3, g2. rewrite prog_out1, prog_out1; rewrite ?length_enc_hdr; (done || lia). }
  eexists _, _. split; [reflexivity|]. split_and!; [|exact Hinv'| |done|done].
  - unfold with_fl. cbn [nv_fl]. apply nv_at_lock.
    apply nv_at_write; [|unfold staOffset; lia|cbn; unfold staOffset; lia|by repeat constructor].
    apply nv_at_write; [done|lia|rewrite length_enc_hdr; lia|auto with nv].
  - rewrite Hkeep by (fold off; lia). unfold g3. by rewrite prog_out by (rewrite length_enc_hdr; lia).
Qed.
End Write.

(** ** Finding an item *)
Definition item_hit (itemId len : Z) (e : nv_info_idx_t) : bool :=
  (usedState e =? ITEM_FIELD_VALID) && (size e =? u16 (len + 8)) && (idx_itemId e =? itemId).

(** The newest valid entry of an item. *)
Definition item_find (es : list nv_info_idx_t) (itemId len : Z) : option nat :=
  last_index (fun i => match es !! i with Some e => item_hit itemId len e | None => false end)
    (length es).

Lemma item_find_Some es itemId len i :
  item_find es itemId len = Some i ->
  exists e, es !! i = Some e /\ usedState e = ITEM_FIELD_VALID /\ size e = u16 (len + 8) /\
    idx_itemId e = itemId.
Proof.
  intros (Hi & Hq & _)%last_index_Some. destruct (es !! i) as [e|]; [|done].
  exists e. split; [done|]. unfold item_hit in Hq. lia.
Qed.

(** The log after a write: the old copy invalid, the new one at the end. *)
Definition log_delete (es : list nv_info_idx_t) (d : option nat) : list nv_info_idx_t :=
  match d with
  | Some i =>
      match es !! i with
      | Some e => <[i := mk_idx (offset e) (size e) (idx_itemId e) ITEM_FIELD_INVALID]> es
      | None => es
      end
  | None => es
  end.

Lemma length_log_delete es d : length (log_delete es d) = length es.
Proof.
  unfold log_delete. destruct d as [i|]; [|done]. destruct (es !! i); [|done]. apply length_insert.
Qed.

Lemma log_delete_snoc es d e :
  (forall i, d = Some i -> (i < length es)%nat) ->
  log_delete (es ++ [e]) d = log_delete es d ++ [e].
Proof.
  intros Hd. unfold log_delete. destruct d as [i|]; [|done]. specialize (Hd i eq_refl).
  rewrite lookup_app_l by done. destruct (lookup_lt_is_Some_2 es i Hd) as [e' He]. rewrite He.
  by rewrite insert_app_l.
Qed.

(** The new item is the one found. *)
Lemma item_find_new es d itemId len e :
  item_hit itemId len e = true ->
  item_find (log_delete es d ++ [e]) itemId len = Some (length es).
Proof.
  intros Hh. unfold item_find. rewrite length_app. cbn [length].
  rewrite Nat.add_1_r. cbn [last_index].
  by rewrite lookup_app_r, length_log_delete, Nat.sub_diag by (by rewrite length_log_delete); cbn; rewrite Hh.
Qed.

(** The others are found where they were. *)
Lemma item_find_other es itemId len itemId' len' e :
  item_hit itemId' len' e = false ->
  (forall e, item_hit itemId len e = true -> item_hit itemId' len' e = false) ->
  item_find (log_delete es (item_find es itemId len) ++ [e]) itemId' len' = item_find es itemId' len'.
Proof.
  intros Hh Hne. unfold item_find at 1. rewrite length_app. cbn [length].
  rewrite Nat.add_1_r. cbn [last_index].
  rewrite lookup_app_r, length_log_delete, Nat.sub_diag by (by rewrite length_log_delete).
  cbn. rewrite Hh. unfold item_find at 2. apply last_index_ext. intros i Hi.
  rewrite lookup_app_l by (by rewrite length_log_delete).
  destruct (item_find es itemId len) as [k|] eqn:Ek; [|done]. unfold log_delete.
  pose proof (item_find_Some _ _ _ _ Ek) as (ek & Hk & Hu & Hsz & Hid). rewrite Hk.
  destruct (decide (i = k)) as [->|Hik]; [|by rewrite list_lookup_insert_ne].
  rewrite list_lookup_insert_eq, Hk by done.
  rewrite (Hne ek); [done|]. unfold item_hit. rewrite Hu, Hsz, Hid, !Z.eqb_refl. done.
Qed.

Section Find.
Context {F B : Type} `{FlashLaws F} `{NvHeap B}.
Implicit Type s : nv F B.

Lemma ent_of id sec g es i :
  nv_module id -> 0 <= sec < 2 -> sector_inv id sec g es -> (i < Z.to_nat (MODULE_IDX_NUM id))%nat ->
  ent g (MODULE_IDX_START id sec) i = default idle_idx (es !! i).
Proof.
  intros Hid Hsec Hinv Hi. pose proof (sector_geometry id sec Hid Hsec) as [].
  destruct (es !! i) as [e|] eqn:E; cbn.
  - apply ent_enc; [by apply (si_idx _ _ _ _ Hinv)|].
    apply list_elem_of_lookup_2 in E. apply (si_entry _ _ _ _ Hinv e E).
  - apply ent_idle. intros x Hx. apply (si_free_idx _ _ _ _ Hinv). unfold idx_addr.
    apply lookup_ge_None in E. lia.
Qed.

Lemma nv_index_read_item id itemId len sec s g es :
  nv_module id -> 0 <= sec < 2 -> nv_at (nv_fl s) g -> sector_inv id sec g es ->
  itemId <> ITEM_FIELD_IDLE ->
  nv_index_read id itemId len sec (MODULE_IDX_NUM id) s =
  match item_find es itemId len with
  | Some i => (NV_SUCC, Some (Z.of_nat i))
  | None => (NV_ITEM_NOT_FOUND, None)
  end.
Proof.
  intros Hid Hsec Hat Hinv Hne. rewrite (nv_index_read_spec _ _ _ _ _ g) by done.
  pose proof (si_len _ _ _ _ Hinv) as Hl.
  assert (E : last_index (fun i =>
          (if itemId =? ITEM_FIELD_IDLE then index_hit itemId ITEM_FIELD_IDLE 0xffff
           else index_hit itemId ITEM_FIELD_VALID (u16 (ITEM_TOTAL_LEN len)))
            (ent g (MODULE_IDX_START id sec) i)) (Z.to_nat (MODULE_IDX_NUM id)) =
          item_find es itemId len); [|by rewrite E].
  replace (Z.to_nat (MODULE_IDX_NUM id))
    with (length es + (Z.to_nat (MODULE_IDX_NUM id) - length es))%nat by lia.
  rewrite last_index_add. rewrite last_index_false.
  - apply last_index_ext. intros i Hi. rewrite (ent_of _ _ _ es) by (done || lia).
    destruct (lookup_lt_is_Some_2 es i Hi) as [e He]. rewrite He. cbn [default].
    destruct (Z.eqb_spec itemId ITEM_FIELD_IDLE); [done|].
    unfold index_hit, item_hit. by destruct (Z.eqb_spec itemId ITEM_FIELD_IDLE).
  - intros i Hi. rewrite (ent_of _ _ _ es) by (done || lia).
    rewrite lookup_ge_None_2 by lia. cbn [default].
    destruct (Z.eqb_spec itemId ITEM_FIELD_IDLE); [done|].
    unfold index_hit. by destruct (Z.eqb_spec itemId ITEM_FIELD_IDLE).
Qed.

Lemma nv_index_read_idle id len sec s g es :
  nv_module id -> 0 <= sec < 2 -> nv_at (nv_fl s) g -> sector_inv id sec g es ->
  nv_index_read id ITEM_FIELD_IDLE len sec (MODULE_IDX_NUM id) s =
  match es with
  | [] => (NV_ITEM_NOT_FOUND, None)
  | _ => (NV_SUCC, Some (Z.of_nat (length es) - 1))
  end.
Proof.
  intros Hid Hsec Hat Hinv. rewrite (nv_index_read_spec _ _ _ _ _ g) by done.
  rewrite Z.eqb_refl. pose proof (si_len _ _ _ _ Hinv) as Hl.
  replace (Z.to_nat (MODULE_IDX_NUM id))
    with (length es + (Z.to_nat (MODULE_IDX_NUM id) - length es))%nat by lia.
  rewrite last_index_add. rewrite last_index_false.
  - destruct (list_snoc_inv es) as [->|(es0 & e & ->)]; [done|].
    assert (Hi : (es0 ++ [e]) !! length es0 = Some e) by (by rewrite lookup_app_r, Nat.sub_diag).
    rewrite length_app in *. cbn [length] in *. rewrite Nat.add_1_r. cbn [last_index].
    rewrite (ent_of _ _ _ _ _ Hid Hsec Hinv) by lia. rewrite Hi.
    change (default idle_idx (Some e)) with e.
    apply list_elem_of_lookup_2 in Hi. pose proof (eo_state _ _ _ _ _ (si_entry _ _ _ _ Hinv e Hi)) as Hst.
    unfold index_hit. rewrite Z.eqb_refl. cbn [negb].
    assert ((usedState e =? ITEM_FIELD_IDLE) = false) as ->.
    { unfold ITEM_FIELD_VALID, ITEM_FIELD_INVALID, ITEM_FIELD_OPERATION, ITEM_FIELD_IDLE in *. lia. }
    cbn. destruct (es0 ++ [e]) eqn:E; [by destruct es0|]. do 2 f_equal. lia.
  - intros i Hi. rewrite (ent_of _ _ _ es) by (done || lia).
    rewrite lookup_ge_None_2 by lia. done.
Qed.

(** Reading the item of a valid entry. *)
Lemma nv_flashReadByIndex_spec id sec s g es i e :
  nv_module id -> 0 <= sec < 2 -> nv_at (nv_fl s) g -> sector_inv id sec g es ->
  es !! i = Some e -> usedState e = ITEM_FIELD_VALID ->
  nv_flashReadByIndex id (idx_itemId e) sec (Z.of_nat i) (size e - 8) s =
  (NV_SUCC, Some (bytes_at g (offset e + 8) (Z.to_nat (size e - 8)))).
Proof.
  intros Hid Hsec Hat Hinv Hi Hu. pose proof (sector_geometry id sec Hid Hsec) as [].
  pose proof (si_len _ _ _ _ Hinv) as Hl. pose proof (lookup_lt_Some _ _ _ Hi) as Hlt.
  pose proof (si_entry _ _ _ _ Hinv e (list_elem_of_lookup_2 _ _ _ Hi)) as [].
  pose proof (si_next _ _ _ _ Hinv) as Hnext.
  unfold nv_flashReadByIndex, sizeof_idx, sizeof_itemHdr. rewrite (Z.mul_comm (Z.of_nat i)).
  rewrite (rd_at _ g) by (done || lia).
  change (dec_idx (bytes_at g (MODULE_IDX_START id sec + 8 * Z.of_nat i) 8))
    with (ent g (MODULE_IDX_START id sec) i).
  rewrite (ent_of _ _ _ es) by (done || lia). rewrite Hi.
  change (default idle_idx (Some e)) with e. rewrite Hu, Z.eqb_refl. cbn [negb].
  rewrite (rd_at _ g) by (done || lia). destruct (eo_hdr0 Hu) as (cs & Hcs & ->).
  destruct eo_wf0 as (?&?&?&?).
  rewrite dec_enc_hdr by (cbn; (done || lia)). cbn [hdr_size hdr_used hdr_itemId].
  rewrite !Z.eqb_refl. cbn [andb]. by rewrite (rd_at _ g) by (done || lia).
Qed.
End Find.
