(* ===== verification/NvStore.v ===== *)
(** * The NV store

    The operations of a module on top of the sector invariant of [NvSpec.v], the
    map they implement, and the properties of [drv_nv.c]. *)
From S2P Require Import Prelude SpiFlash FlashIf EvBuffer Nv NvSpec.

(** The specification of a module: an item and a length are mapped to the bytes
    stored last. *)
Abbreviation store := (gmap (Z * Z) (list Z)).

(** ** Modules *)
Definition hdr_at (g : Z -> Z) (id sec : Z) : nv_sect_info_t :=
  dec_sect (bytes_at g (MODULE_SECT_START id sec) 4).

Definition hdr_valid (id : Z) (h : nv_sect_info_t) : bool :=
  (usedFlag h =? NV_SECTOR_VALID) && (idName h =? id).

(** A module: the operating sector [sec] and its entries. *)
Record mod_inv (id sec : Z) (g : Z -> Z) (es : list nv_info_idx_t) : Prop := {
  mi_sec : 0 <= sec < 2;
  mi_inv : sector_inv id sec g es;
  mi_hdr : if decide (es = []) then
             sec = 0 /\ (forall k, 0 <= k < 2 -> hdr_valid id (hdr_at g id k) = false) /\
             forall x, MODULE_SECT_START id 0 <= x < MODULE_SECT_START id 0 + 4 -> g x = 255
           else
             hdr_at g id sec = mk_sect NV_SECTOR_VALID id sec /\
             forall k, 0 <= k < sec -> hdr_valid id (hdr_at g id k) = false
}.

Lemma hdr_at_ext id k g g' :
  (forall x, MODULE_SECT_START id k <= x < MODULE_SECT_START id k + 4 -> g' x = g x) ->
  hdr_at g' id k = hdr_at g id k.
Proof. intros E. unfold hdr_at. f_equal. apply bytes_at_ext. intros j Hj. apply E. lia. Qed.

(** An erased sector holds no items. *)
Lemma sector_inv_nil id sec g :
  nv_module id -> 0 <= sec < 2 -> (forall x, 0 <= g x < 256) ->
  (forall x, MODULE_SECT_START id sec + 4 <= x < MODULE_SECT_END id sec -> g x = 255) ->
  sector_inv id sec g [].
Proof.
  intros Hid Hsec Hb Hg. pose proof (sector_geometry id sec Hid Hsec) as [].
  split; cbn [length]; unfold next_off, idx_addr; cbn; try (done || lia).
  - intros e He. by apply elem_of_nil in He.
  - intros x Hx. apply Hg. lia.
  - intros x Hx. apply Hg. lia.
Qed.

(** The valid header found first. *)
Lemma valid_hdr_first {A} id sec g (f : nv_sect_info_t -> A) (d : A) :
  0 <= sec < 2 -> hdr_at g id sec = mk_sect NV_SECTOR_VALID id sec ->
  (forall k, 0 <= k < sec -> hdr_valid id (hdr_at g id k) = false) ->
  (if hdr_valid id (hdr_at g id 0) then f (hdr_at g id 0)
   else if hdr_valid id (hdr_at g id 1) then f (hdr_at g id 1) else d) = f (mk_sect NV_SECTOR_VALID id sec).
Proof.
  intros Hsec Hv Hno.
  assert (hdr_valid id (mk_sect NV_SECTOR_VALID id sec) = true) as Ev.
  { unfold hdr_valid. cbn [usedFlag idName]. by rewrite !Z.eqb_refl. }
  assert (sec = 0 \/ sec = 1) as [-> | ->] by lia.
  - by rewrite Hv, Ev.
  - by rewrite (Hno 0), Hv, Ev by lia.
Qed.

Section Module_ops.
Context {F B : Type} `{FlashLaws F} `{NvHeap B}.
Implicit Type s : nv F B.

(** The sector search looks at the two headers. *)
Lemma nv_sector_read_eq id s g :
  nv_module id -> nv_at (nv_fl s) g ->
  nv_sector_read id MODULE_SECTOR_NUM s =
  if hdr_valid id (hdr_at g id 0) then (NV_SUCC, Some (hdr_at g id 0))
  else if hdr_valid id (hdr_at g id 1) then (NV_SUCC, Some (hdr_at g id 1))
  else (NV_ITEM_NOT_FOUND, None).
Proof.
  intros Hid Hat.
  pose proof (sector_geometry id 0 Hid ltac:(lia)) as G0.
  pose proof (sector_geometry id 1 Hid ltac:(lia)) as G1.
  destruct G0, G1.
  unfold nv_sector_read. change (Z.to_nat MODULE_SECTOR_NUM) with 2%nat. cbn [sector_loop].
  replace (MODULES_START_ADDR id + NV_SECTOR_SIZE id) with (MODULE_SECT_START id 1)
    by (unfold MODULE_SECT_START; lia).
  replace (MODULES_START_ADDR id) with (MODULE_SECT_START id 0) by (unfold MODULE_SECT_START; lia).
  by rewrite !(rd_at _ g) by (done || (unfold NV_LO, NV_HI in *; lia)).
Qed.

Lemma nv_sector_read_spec id sec s g es :
  nv_module id -> nv_at (nv_fl s) g -> mod_inv id sec g es ->
  nv_sector_read id MODULE_SECTOR_NUM s =
  match es with
  | [] => (NV_ITEM_NOT_FOUND, None)
  | _ => (NV_SUCC, Some (mk_sect NV_SECTOR_VALID id sec))
  end.
Proof.
  intros Hid Hat [Hsec _ Hh]. rewrite (nv_sector_read_eq id s g) by done.
  destruct es as [|e es]; cbn in Hh.
  - destruct Hh as (_ & Hno & _). by rewrite !Hno by lia.
  - destruct Hh as (Hv & Hno). by apply (valid_hdr_first id sec g (fun h => (NV_SUCC, Some h))).
Qed.

(** The last part of a write that needs no sector update. *)
Lemma write_and_mark_spec id itemId (single : bool) sec buf s g es :
  nv_module id -> nv_at (nv_fl s) g -> mod_inv id sec g es ->
  is_byte itemId -> itemId <> ITEM_FIELD_IDLE -> Forall is_byte buf ->
  Z.of_nat (length es) < MODULE_IDX_NUM id ->
  next_off id sec es + 8 + Z.of_nat (length buf) <= MODULE_SECT_END id sec ->
  let len := Z.of_nat (length buf) in
  let d := if single then item_find es itemId len else None in
  let es' := log_delete es d ++ [new_idx id sec es itemId len] in
  exists s' g',
    write_and_mark id itemId single len buf false sec sec (Z.of_nat (length es)) s = (NV_SUCC, s') /\
    nv_at (nv_fl s') g' /\ mod_inv id sec g' es' /\
    bytes_at g' (next_off id sec es + 8) (length buf) = buf /\
    (forall e, e ∈ es -> bytes_at g' (offset e + 8) (Z.to_nat (size e - 8)) =
                         bytes_at g (offset e + 8) (Z.to_nat (size e - 8))) /\
    (forall x, x < MODULE_SECT_START id sec \/ MODULE_SECT_END id sec <= x -> g' x = g x) /\
    nv_heap s' = nv_heap s.
Proof.
  intros Hid Hat Hmod Hib Hidle Hbuf Hlen Hfit len d es'.
  pose proof Hmod as [Hsec Hinv Hh]. pose proof (sector_geometry id sec Hid Hsec) as [].
  pose proof (si_next _ _ _ _ Hinv) as Hnext.
  unfold write_and_mark. fold len.
  rewrite (nv_index_read_item id itemId len sec s g es) by done.
  destruct (nv_write_item_ram id itemId sec buf s g es) as (s1 & g1 & E1 & Hat1 & Hinv1 & Hpay1 & Hfr1 & Hh1);
    try done.
  unfold frame in Hfr1. fold len in E1, Hinv1, Hfr1. rewrite E1.
  (* the old copy *)
  set (s2 := match (if single then _ else None) with Some i => _ | None => s1 end).
  assert (exists g2, nv_at (nv_fl s2) g2 /\ sector_inv id sec g2 es' /\
            forall x, (forall i, (i < length es)%nat -> x <> idx_addr id sec i + staOffset) -> g2 x = g1 x)
    as (g2 & Hat2 & Hinv2 & Hfr2).
  { unfold s2, es', d. destruct single; [|by exists g1].
    destruct (item_find es itemId len) as [i|] eqn:Ef; cbn [snd]; [|by exists g1].
    pose proof (item_find_Some _ _ _ _ Ef) as (e & Hi & Hu & _).
    pose proof (lookup_lt_Some _ _ _ Hi) as Hlt.
    assert (Hi' : (es ++ [new_idx id sec es itemId len]) !! i = Some e) by (by rewrite lookup_app_l).
    destruct (sector_inv_invalidate id sec g1 _ i e Hid Hsec Hinv1 Hi' Hu) as [Hinv' Hfr'].
    exists (prog g1 (idx_addr id sec i + staOffset) [ITEM_FIELD_INVALID]). split_and!.
    - unfold with_fl. cbn [nv_fl]. unfold sizeof_idx. rewrite (Z.mul_comm (Z.of_nat i)).
      apply nv_at_write; [done| | |by apply Forall_singleton]; unfold idx_addr, staOffset; cbn [length]; lia.
    - unfold log_delete. rewrite Hi. by rewrite <-insert_app_l.
    - intros x Hx. by apply Hfr', Hx. }
  assert (Hh2 : nv_heap s2 = nv_heap s).
  { unfold s2. rewrite <-Hh1. clear. destruct single; [|done]. by destruct (item_find es itemId len). }
  clearbody s2.
  assert (Hold : forall x, next_off id sec es' <= x \/ x < MODULE_IDX_START id sec \/
                   MODULE_CONTEXT_START id sec <= x < next_off id sec es -> g2 x = g x).
  { intros x Hx. assert (next_off id sec es + len + 8 <= next_off id sec es').
    { unfold es'. rewrite next_off_snoc. cbn [new_idx offset size].
      pose proof (align4_bounds (next_off id sec es + (len + 8))). lia. }
    rewrite Hfr2, Hfr1; [done| |]; [unfold idx_addr; lia|].
    intros i Hi. unfold idx_addr, staOffset. lia. }
  assert (Hpay2 : bytes_at g2 (next_off id sec es + 8) (length buf) = buf).
  { rewrite <-Hpay1 at 2. apply bytes_at_ext. intros j Hj. apply Hfr2.
    intros i Hi. unfold idx_addr, staOffset. lia. }
  assert (Hpays : forall e, e ∈ es -> bytes_at g2 (offset e + 8) (Z.to_nat (size e - 8)) =
                         bytes_at g (offset e + 8) (Z.to_nat (size e - 8))).
  { intros e He. pose proof (si_entry _ _ _ _ Hinv e He) as [].
    apply bytes_at_ext. intros j Hj. apply Hold. lia. }
  assert (Hne : es' <> []) by (unfold es'; by destruct (log_delete es d)).
  destruct (decide (NV_SUCC = NV_SUCC)) as [_|]; [|done].
  destruct (Z.eqb_spec (Z.of_nat (length es)) 0) as [Hz|Hnz].
  - (* the first item: the header of the sector *)
    assert (es = []) as Ees by (by destruct es). rewrite Ees in Hh. cbn in Hh.
    destruct Hh as (-> & Hno & Hblank).
    set (h := mk_sect NV_SECTOR_VALID id 0).
    set (g3 := prog g2 (MODULE_SECT_START id 0) (enc_sect h)).
    assert (Hout : forall x, x < MODULE_SECT_START id 0 \/ MODULE_SECT_START id 0 + 4 <= x -> g3 x = g2 x).
    { intros x Hx. apply prog_out1. rewrite length_enc_sect. lia. }
    eexists _, g3. split; [reflexivity|].
    assert (Hh3 : bytes_at g3 (MODULE_SECT_START id 0) 4 = enc_sect h).
    { change 4%nat with (length (enc_sect h)). apply prog_blank; [auto with nv|].
      intros x Hx. rewrite length_enc_sect in Hx. rewrite Hold by lia. apply Hblank. lia. }
    split_and!.
    + unfold with_fl. cbn [nv_fl]. apply nv_at_lock.
      apply nv_at_write; [done|lia|rewrite length_enc_sect; unfold NV_LO, NV_HI in *; lia|auto with nv].
    + split; [lia| |].
      * eapply sector_inv_ext; [done|lia| |exact Hinv2|].
        -- intros x Hx. apply Hout. lia.
        -- intros x. apply programmed_range; [|auto with nv]. apply (si_byte _ _ _ _ Hinv2).
      * destruct (decide (es' = [])); [done|]. split; [|lia].
        unfold hdr_at. rewrite Hh3. apply dec_enc_sect; cbn; [done| |done].
        unfold nv_module, is_byte in *. lia.
    + rewrite <-Hpay2 at 2. apply bytes_at_ext. intros j Hj. apply Hout. lia.
    + intros e He. subst es. by apply elem_of_nil in He.
    + intros x Hx. rewrite Hout by lia. apply Hold.
      assert (MODULE_SECT_END id 0 <= x \/ x < MODULE_SECT_START id 0) as [|] by lia; [|lia].
      left. pose proof (si_next _ _ _ _ Hinv2). lia.
    + done.
  - assert (es <> []) as Ees by (by destruct es).
    destruct (decide (es = [])); [done|]. destruct Hh as [Hv Hno].
    eexists _, g2. split; [reflexivity|].
    assert (Hoth : forall x, x < MODULE_SECT_START id sec + 4 \/ MODULE_SECT_END id sec <= x -> g2 x = g x).
    { intros x Hx. apply Hold. pose proof (si_next _ _ _ _ Hinv2). lia. }
    split_and!; [by apply nv_at_lock| |done|done| |done].
    + split; [done|done|]. destruct (decide (es' = [])); [done|]. split.
      * rewrite <-Hv. apply hdr_at_ext. intros x Hx. apply Hoth. lia.
      * intros k Hk. rewrite <-(Hno k Hk). f_equal. apply hdr_at_ext. intros x Hx. apply Hoth.
        left. unfold MODULE_SECT_START in *. nia.
    + intros x Hx. apply Hoth. lia.
Qed.

(** When [nv_flashWriteNew] moves to the other sector. *)
Definition needs_update (id sec : Z) (es : list nv_info_idx_t) (len : Z) : bool :=
  match last es with
  | Some e => (Z.of_nat (length es) =? MODULE_IDX_NUM id) ||
              (MODULE_SECT_END id sec <? offset e + size e + (len + 8))
  | None => false
  end.

(** The two ways a write goes. *)
Lemma nv_flashWriteNew_eq single id itemId len buf s sec g es :
  nv_module id -> nv_at (nv_fl s) g -> mod_inv id sec g es ->
  0 <= len -> MODULE_INFO_SIZE id + (len + 8) <= NV_SECTOR_SIZE id ->
  nv_flashWriteNew single id itemId len buf s =
  let s1 := with_fl fl_unlock s in
  if needs_update id sec es len then
    let sec' := Z.land (sec + 1) 1 in
    let '(ret, w, s2) := sector_update id itemId single len sec sec' s1 in
    if decide (ret = NV_SUCC) then write_and_mark id itemId single len buf true sec sec' w s2
    else (ret, s2)
  else write_and_mark id itemId single len buf false sec sec (Z.of_nat (length es)) s1.
Proof.
  intros Hid Hat Hmod Hlen Hbig.
  pose proof Hmod as [Hsec Hinv Hh]. pose proof (sector_geometry id sec Hid Hsec) as [].
  pose proof (si_len _ _ _ _ Hinv) as Hl.
  unfold nv_flashWriteNew. rewrite (nv_sector_read_spec id sec s g es) by done.
  assert ((NV_SECTOR_SIZE id <? ITEM_TOTAL_LEN len + MODULE_INFO_SIZE id) = false) as ->.
  { apply Z.ltb_ge. unfold ITEM_TOTAL_LEN, sizeof_itemHdr. lia. }
  set (opSect := match match es with [] => _ | _ => _ end with (NV_SUCC, Some si) => _ | _ => _ end).
  assert (opSect = sec) as ->.
  { unfold opSect. destruct es; [|done]. cbn in Hh. by destruct Hh as [-> _]. }
  rewrite (nv_index_read_idle id len sec s g es) by done. unfold needs_update.
  destruct (list_snoc_inv es) as [->|(es0 & e & Ees)]; [done|]. rewrite Ees at 2. rewrite last_snoc.
  assert (Hi : es !! length es0 = Some e) by (by rewrite Ees, lookup_app_r, Nat.sub_diag).
  assert (El : length es = S (length es0)) by (rewrite Ees, length_app; cbn; lia).
  destruct es as [|e1 es1] eqn:Ee; [by destruct es0|]. rewrite <-Ee in *. clear Ee.
  unfold sizeof_idx. replace (MODULE_IDX_START id sec + (Z.of_nat (length es) - 1) * 8)
    with (MODULE_IDX_START id sec + 8 * Z.of_nat (length es0)) by lia.
  rewrite (rd_at _ g) by (done || lia).
  change (dec_idx (bytes_at g (MODULE_IDX_START id sec + 8 * Z.of_nat (length es0)) 8))
    with (ent g (MODULE_IDX_START id sec) (length es0)).
  rewrite (ent_of _ _ _ es) by (done || lia). rewrite Hi.
  change (default idle_idx (Some e)) with e.
  pose proof (si_entry _ _ _ _ Hinv e (list_elem_of_lookup_2 _ _ _ Hi)) as [].
  pose proof (si_next _ _ _ _ Hinv).
  unfold ITEM_TOTAL_LEN, sizeof_itemHdr, NV_LO, NV_HI in *. rewrite u32_small by lia.
  replace (Z.of_nat (length es) - 1 =? MODULE_IDX_NUM id - 1) with (Z.of_nat (length es) =? MODULE_IDX_NUM id) by lia.
  replace (Z.of_nat (length es) - 1 + 1) with (Z.of_nat (length es)) by lia.
  by destruct (_ || _).
Qed.

(** A write that needs no sector update. *)
Lemma nv_flashWriteNew_spec id itemId (single : bool) sec buf s g es :
  nv_module id -> nv_at (nv_fl s) g -> mod_inv id sec g es ->
  is_byte itemId -> itemId <> ITEM_FIELD_IDLE -> Forall is_byte buf ->
  Z.of_nat (length es) < MODULE_IDX_NUM id ->
  next_off id sec es + 8 + Z.of_nat (length buf) <= MODULE_SECT_END id sec ->
  let len := Z.of_nat (length buf) in
  let d := if single then item_find es itemId len else None in
  let es' := log_delete es d ++ [new_idx id sec es itemId len] in
  exists s' g',
    nv_flashWriteNew single id itemId len buf s = (NV_SUCC, s') /\
    nv_at (nv_fl s') g' /\ mod_inv id sec g' es' /\
    bytes_at g' (next_off id sec es + 8) (length buf) = buf /\
    (forall e, e ∈ es -> bytes_at g' (offset e + 8) (Z.to_nat (size e - 8)) =
                         bytes_at g (offset e + 8) (Z.to_nat (size e - 8))) /\
    (forall x, x < MODULE_SECT_START id sec \/ MODULE_SECT_END id sec <= x -> g' x = g x) /\
    nv_heap s' = nv_heap s.
Proof.
  intros Hid Hat Hmod Hib Hidle Hbuf Hlen Hfit len d es'.
  pose proof Hmod as [Hsec Hinv Hh]. pose proof (sector_geometry id sec Hid Hsec) as [].
  pose proof (si_next _ _ _ _ Hinv) as Hnext.
  rewrite (nv_flashWriteNew_eq _ _ _ _ _ _ sec g es) by (done || unfold len; lia).
  assert (needs_update id sec es len = false) as ->.
  { unfold needs_update. destruct (list_snoc_inv es) as [->|(es0 & e & Ees)]; [done|].
    rewrite Ees at 1. rewrite last_snoc.
    assert (He : e ∈ es) by (rewrite Ees; apply elem_of_app; right; by apply list_elem_of_singleton).
    pose proof (si_entry _ _ _ _ Hinv e He) as [].
    apply orb_false_iff. unfold len. split; [apply Z.eqb_neq|apply Z.ltb_ge]; lia. }
  cbv zeta. apply (write_and_mark_spec id itemId single sec buf (with_fl fl_unlock s) g es Hid); try done.
  unfold with_fl. cbn [nv_fl]. by apply nv_at_unlock.
Qed.

(** ** The store as a map

    [M] maps an item and a length to the bytes stored last. *)

Definition item_ok (itemId len : Z) : Prop :=
  is_byte itemId /\ itemId <> ITEM_FIELD_IDLE /\ 0 <= len < 65528.

Definition mod_rel (id sec : Z) (g : Z -> Z) (es : list nv_info_idx_t) (M : store) : Prop :=
  mod_inv id sec g es /\
  forall itemId len, item_ok itemId len ->
    M !! (itemId, len) =
    match item_find es itemId len with
    | Some i => match es !! i with
                | Some e => Some (bytes_at g (offset e + 8) (Z.to_nat len))
                | None => None
                end
    | None => None
    end.

Lemma nv_flashReadNew_spec id sec itemId len s g es M :
  nv_module id -> nv_at (nv_fl s) g -> mod_rel id sec g es M -> item_ok itemId len ->
  nv_flashReadNew true id itemId len s =
  match M !! (itemId, len) with
  | Some l => (NV_SUCC, OutBytes l)
  | None => (NV_ITEM_NOT_FOUND, OutNone)
  end.
Proof.
  intros Hid Hat [Hmod HM] Hok. rewrite (HM _ _ Hok). destruct Hok as (Hib & Hidle & Hl).
  pose proof Hmod as [Hsec Hinv _].
  unfold nv_flashReadNew. rewrite (nv_sector_read_spec id sec s g es) by done.
  destruct es as [|e0 es0] eqn:Ee; [done|]. rewrite <-Ee in *. cbn [sect_opSect].
  rewrite (nv_index_read_item id itemId len sec s g es) by done.
  destruct (item_find es itemId len) as [i|] eqn:Ef; [|done].
  apply item_find_Some in Ef as (e & Hi & Hu & Hsz & Hit). rewrite Hi.
  change (default 0 (Some (Z.of_nat i))) with (Z.of_nat i).
  destruct (decide (NV_SUCC = NV_SUCC)) as [_|]; [|done].
  rewrite u16_small in Hsz by lia.
  pose proof (nv_flashReadByIndex_spec id sec s g es i e Hid Hsec Hat Hinv Hi Hu) as Hr.
  rewrite Hit, Hsz in Hr. replace (len + 8 - 8) with len in Hr by lia. by rewrite Hr.
Qed.

Lemma item_hit_new id sec es itemId len itemId' len' :
  item_ok itemId len -> item_ok itemId' len' ->
  item_hit itemId' len' (new_idx id sec es itemId len) = bool_decide ((itemId, len) = (itemId', len')).
Proof.
  intros (?&?&?) (?&?&?). unfold item_hit, new_idx. cbn [usedState size idx_itemId].
  rewrite Z.eqb_refl, u16_small by lia. cbn [andb].
  destruct (Z.eqb_spec (len + 8) (len' + 8)), (Z.eqb_spec itemId itemId'); cbn [andb];
    symmetry; first [apply bool_decide_true; f_equal; lia | apply bool_decide_false; intros [=]; lia].
Qed.

(** A write updates the map. *)
Lemma nv_write_map id sec itemId buf s g es M :
  nv_module id -> nv_at (nv_fl s) g -> mod_rel id sec g es M ->
  item_ok itemId (Z.of_nat (length buf)) -> Forall is_byte buf ->
  Z.of_nat (length es) < MODULE_IDX_NUM id ->
  next_off id sec es + 8 + Z.of_nat (length buf) <= MODULE_SECT_END id sec ->
  exists s' g' es',
    nv_flashWriteNew true id itemId (Z.of_nat (length buf)) buf s = (NV_SUCC, s') /\
    nv_at (nv_fl s') g' /\
    mod_rel id sec g' es' (<[(itemId, Z.of_nat (length buf)) := buf]> M) /\
    es' = log_delete es (item_find es itemId (Z.of_nat (length buf))) ++
          [new_idx id sec es itemId (Z.of_nat (length buf))] /\
    nv_heap s' = nv_heap s.
Proof.
  intros Hid Hat [Hmod HM] Hok Hbuf Hlen Hfit. pose proof Hok as (Hib & Hidle & Hl).
  destruct (nv_flashWriteNew_spec id itemId true sec buf s g es Hid Hat Hmod Hib Hidle Hbuf Hlen Hfit)
    as (s' & g' & Ew & Hat' & Hmod' & Hpay & Hold & _ & Hheap).
  set (len := Z.of_nat (length buf)) in *. set (new := new_idx id sec es itemId len) in *.
  eexists s', g', _. split; [done|]. split; [done|]. split; [|split].
  - split; [done|]. intros itemId' len' Hok'.
    destruct (decide ((itemId, len) = (itemId', len'))) as [E|Hne].
    + assert (itemId' = itemId /\ len' = len) as [-> ->] by (by injection E).
    rewrite (lookup_insert_eq M), item_find_new.
      * rewrite lookup_app_r, length_log_delete, Nat.sub_diag by (by rewrite length_log_delete).
        cbn. unfold len. rewrite Nat2Z.id. by f_equal.
      * unfold new. rewrite item_hit_new by done. by apply bool_decide_true.
    + rewrite (lookup_insert_ne M) by done. rewrite (HM _ _ Hok').
      rewrite item_find_other.
      * destruct (item_find es itemId' len') as [i|] eqn:Ef; [|done].
        pose proof (item_find_Some _ _ _ _ Ef) as (e & Hi & Hu & Hsz & Hit).
        pose proof (lookup_lt_Some _ _ _ Hi). rewrite Hi.
        rewrite lookup_app_l by (by rewrite length_log_delete).
        assert (exists e', log_delete es (item_find es itemId len) !! i = Some e' /\ offset e' = offset e)
          as (e' & -> & ->).
        { unfold log_delete. destruct (item_find es itemId len) as [k|]; [|eauto].
          destruct (es !! k) as [ek|] eqn:Ek; [|eauto].
          destruct (decide (i = k)) as [->|]; [|rewrite list_lookup_insert_ne by done; eauto].
          rewrite list_lookup_insert_eq by done. rewrite Hi in Ek. injection Ek as <-.
          eexists. split; [done|]. done. }
        f_equal. destruct Hok' as (_ & _ & Hl'). rewrite u16_small in Hsz by lia.
        replace len' with (size e - 8) by lia. symmetry. apply Hold.
        by apply list_elem_of_lookup_2 in Hi.
      * unfold new. rewrite item_hit_new by done. by apply bool_decide_false.
      * intros e. unfold item_hit. intros He. destruct Hok' as (_ & _ & Hl').
        rewrite !u16_small in * by lia. apply andb_false_iff.
        destruct (Z.eqb_spec (idx_itemId e) itemId'); [|auto]. left. apply andb_false_iff. right.
        apply Z.eqb_neq. intros Es. apply Hne. f_equal; lia.
  - done.
  - done.
Qed.
End Module_ops.

(** ** Reset *)

(** The content after [n] sectors from [a] on were erased. *)
Definition wiped (g : Z -> Z) (a : Z) (n : Z) (x : Z) : Z :=
  if (a <=? x) && (x <? a + 4096 * n) then 255 else g x.

Lemma wiped_in g a n x : a <= x < a + 4096 * n -> wiped g a n x = 255.
Proof. intros. unfold wiped. by destruct (Z.leb_spec a x), (Z.ltb_spec x (a + 4096 * n)); try lia. Qed.

Lemma wiped_out g a n x : x < a \/ a + 4096 * n <= x -> wiped g a n x = g x.
Proof. intros. unfold wiped. destruct (Z.leb_spec a x), (Z.ltb_spec x (a + 4096 * n)); try done; lia. Qed.

Definition module_sectors (id : Z) : Z := MODULE_SECTOR_NUM * u8 (NV_SECTOR_SIZE id / FLASH_SECTOR_SIZE).

Record module_geom (id : Z) : Prop := {
  mg_al : MODULES_START_ADDR id mod 4096 = 0;
  mg_lo : NV_LO <= MODULES_START_ADDR id;
  mg_hi : MODULES_START_ADDR id + 4096 * module_sectors id <= NV_HI;
  mg_n : 0 <= module_sectors id <= 8;
  mg_end : MODULES_START_ADDR id + 4096 * module_sectors id = MODULE_SECT_END id 1;
  mg_start : MODULES_START_ADDR id = MODULE_SECT_START id 0;
  mg_mid : MODULE_SECT_END id 0 = MODULE_SECT_START id 1
}.

Lemma module_geometry id : nv_module id -> module_geom id.
Proof.
  intros Hid. assert (id = 0 \/ id = 1 \/ id = 2 \/ id = 3) as Hids by (unfold nv_module in *; lia).
  destruct_or! Hids; subst; split; vm_compute; intuition discriminate.
Qed.

Section Reset.
Context {F B : Type} `{FlashLaws F} `{NvHeap B}.
Implicit Type s : nv F B.

Lemma erase_loop_spec n a s g :
  nv_at (nv_fl s) g -> a mod 4096 = 0 -> NV_LO <= a -> a + 4096 * Z.of_nat n <= NV_HI ->
  nv_at (nv_fl (erase_loop n a s)) (wiped g a (Z.of_nat n)).
Proof.
  revert a s g. induction n as [|n IH]; intros a s g Hat Hal Hlo Hhi; cbn [erase_loop].
  - eapply nv_at_ext; [|exact Hat]. intros x. symmetry. apply wiped_out. lia.
  - eapply nv_at_ext; [|apply IH].
    2: { unfold with_fl. cbn [nv_fl]. apply nv_at_erase; [done|lia]. }
    2-4: unfold FLASH_SECTOR_SIZE; (lia || zdm).
    intros x. unfold wiped, erased, FLASH_SECTOR_SIZE. cbn [negb]. rewrite andb_true_r.
    destruct (Z.leb_spec (a + 4096) x), (Z.leb_spec a x), (Z.ltb_spec x (a + 4096 + 4096 * Z.of_nat n)),
      (Z.ltb_spec x (a + 4096 * Z.of_nat (S n))), (Z.eqb_spec (x / 4096) (a / 4096)); cbn [andb];
      try done; exfalso; zdm.
Qed.

Lemma nv_resetModule_spec id s g :
  nv_module id -> nv_at (nv_fl s) g ->
  nv_at (nv_fl (nv_resetModule id s).2) (wiped g (MODULES_START_ADDR id) (module_sectors id)).
Proof.
  intros Hid Hat. pose proof (module_geometry id Hid) as [].
  unfold nv_resetModule. fold (module_sectors id). cbn [snd].
  unfold with_fl at 1. cbn [nv_fl]. apply nv_at_lock.
  rewrite <-(Z2Nat.id (module_sectors id)) at 2 by lia.
  apply erase_loop_spec; [|done|done|lia]. unfold with_fl. cbn [nv_fl]. by apply nv_at_unlock.
Qed.

(** A module that was reset is an empty map. *)
Lemma reset_empty id s g :
  nv_module id -> nv_at (nv_fl s) g ->
  mod_rel id 0 (wiped g (MODULES_START_ADDR id) (module_sectors id)) [] ∅.
Proof.
  intros Hid Hat. pose proof (module_geometry id Hid) as [].
  pose proof (sector_geometry id 0 Hid ltac:(lia)) as G0. pose proof (sector_geometry id 1 Hid ltac:(lia)) as G1.
  destruct G0, G1. set (w := wiped _ _ _).
  assert (Hblank : forall x, MODULE_SECT_START id 0 <= x < MODULE_SECT_END id 1 -> w x = 255).
  { intros x Hx. apply wiped_in. lia. }
  split; [|intros; apply lookup_empty]. split; [lia| |].
  - apply sector_inv_nil; [done|lia| |].
    + intros x. unfold w, wiped. destruct (_ && _); [lia|]. eapply nv_at_byte_range, Hat.
    + intros x Hx. apply Hblank. lia.
  - destruct (decide _); [|done]. split; [done|]. split.
    + intros k Hk. unfold hdr_at. rewrite (bytes_at_ext w (fun _ => 255)).
      * unfold hdr_valid. change (usedFlag (dec_sect (bytes_at (fun _ => 255) (MODULE_SECT_START id k) 4)))
          with 0xffff. done.
      * intros j Hj. assert (k = 0 \/ k = 1) as [-> | ->] by lia; apply Hblank; lia.
    + intros x Hx. apply Hblank. lia.
Qed.

(** A sequence of single-item writes; the statuses they return. *)
Fixpoint nv_puts (id : Z) (ops : list (Z * list Z)) s : list nv_sts_t * nv F B :=
  match ops with
  | [] => ([], s)
  | (itemId, buf) :: ops' =>
      let '(r, s) := nv_flashWriteNew true id itemId (Z.of_nat (length buf)) buf s in
      let '(rs, s) := nv_puts id ops' s in
      (r :: rs, s)
  end.

Fixpoint store_of (ops : list (Z * list Z)) (M : store) : store :=
  match ops with
  | [] => M
  | (itemId, buf) :: ops' => store_of ops' (<[(itemId, Z.of_nat (length buf)) := buf]> M)
  end.

Definition put_ok (op : Z * list Z) : Prop :=
  item_ok op.1 (Z.of_nat (length op.2)) /\ Forall is_byte op.2.

(** The bytes of item area the writes take. *)
Fixpoint space_of (ops : list (Z * list Z)) : Z :=
  match ops with
  | [] => 0
  | (_, buf) :: ops' => align4 (Z.of_nat (length buf) + 8) + space_of ops'
  end.

Lemma space_of_nonneg ops : 0 <= space_of ops.
Proof.
  induction ops as [|[i b] ops IH]; cbn; [lia|].
  pose proof (align4_bounds (Z.of_nat (length b) + 8)). lia.
Qed.

Lemma nv_puts_spec id ops s g es M :
  nv_module id -> nv_at (nv_fl s) g -> mod_rel id 0 g es M -> Forall put_ok ops ->
  next_off id 0 es mod 4 = 0 ->
  Z.of_nat (length es + length ops) <= MODULE_IDX_NUM id ->
  next_off id 0 es + space_of ops <= MODULE_SECT_END id 0 ->
  exists g' es', nv_at (nv_fl (nv_puts id ops s).2) g' /\ mod_rel id 0 g' es' (store_of ops M) /\
    Forall (fun r => r = NV_SUCC) (nv_puts id ops s).1.
Proof.
  intros Hid Hat Hrel Hok. revert s g es M Hat Hrel.
  induction Hok as [|[itemId buf] ops [Hit Hb] Hok IH]; intros s g es M Hat Hrel Hal Hn Hsp.
  { exists g, es. cbn. auto. }
  cbn [nv_puts store_of space_of length fst snd] in *.
  pose proof (space_of_nonneg ops). pose proof (align4_bounds (Z.of_nat (length buf) + 8)) as [Hab _].
  destruct (nv_write_map id 0 itemId buf s g es M Hid Hat Hrel Hit Hb)
    as (s' & g' & es' & -> & Hat' & Hrel' & Ees' & _); [lia|lia|].
  assert (Hlen' : length es' = S (length es)).
  { rewrite Ees', length_app, length_log_delete. cbn [length]. lia. }
  assert (Hoff' : next_off id 0 es' = align4 (next_off id 0 es + (Z.of_nat (length buf) + 8)))
    by (by rewrite Ees', next_off_snoc).
  rewrite align4_add in Hoff' by done.
  destruct (IH s' g' es' _ Hat' Hrel') as (g2 & es2 & Hat2 & Hrel2 & Hr2).
  - rewrite Hoff'. pose proof (align4_bounds (Z.of_nat (length buf) + 8)) as [_ Hm].
    rewrite Z.add_mod, Hal, Hm by lia. done.
  - lia.
  - lia.
  - exists g2, es2. destruct (nv_puts id ops s') as [rs s2]. cbn in *. auto.
Qed.
End Reset.

(** ** Properties *)

(** A module of the NV store is a map: after a reset, and as long as the
    writes fit the operating sector, every write answers NV_SUCC and every read
    answers the bytes written last under that item and length, whatever was
    written in between, and NV_ITEM_NOT_FOUND for an item never written.  The
    locks of the flash driver must not cover the NV area. *)
Theorem nv_store_refines_map {F B} `{FlashLaws F} `{NvHeap B}
    (s : nv F B) (id : Z) (ops : list (Z * list Z)) :
  nv_module id -> fl_ok (nv_fl s) ->
  (forall x, NV_LO <= x < NV_HI -> fl_mask (nv_fl s) x = false) ->
  Forall put_ok ops ->
  Z.of_nat (length ops) <= MODULE_IDX_NUM id ->
  space_of ops <= NV_SECTOR_SIZE id - MODULE_INFO_SIZE id ->
  let '(rs, s') := nv_puts id ops (nv_resetModule id s).2 in
  Forall (fun r => r = NV_SUCC) rs /\
  forall itemId len, item_ok itemId len ->
    nv_flashReadNew true id itemId len s' =
    match store_of ops ∅ !! (itemId, len) with
    | Some l => (NV_SUCC, OutBytes l)
    | None => (NV_ITEM_NOT_FOUND, OutNone)
    end.
Proof.
  intros Hid Hf Hm Hok Hn Hsp.
  assert (Hat : nv_at (nv_fl s) (fl_byte (nv_fl s))) by by split.
  pose proof (sector_geometry id 0 Hid ltac:(lia)) as [].
  pose proof (nv_resetModule_spec id s _ Hid Hat) as Hat0.
  pose proof (reset_empty id s _ Hid Hat) as Hrel0.
  destruct (nv_puts_spec id ops _ _ [] ∅ Hid Hat0 Hrel0 Hok) as (g' & es' & Hat' & Hrel' & Hr).
  - done.
  - cbn. lia.
  - unfold next_off. cbn [last]. lia.
  - destruct (nv_puts id ops _) as [rs s']. cbn in *. split; [done|].
    intros itemId len Hi. by apply (nv_flashReadNew_spec id 0 itemId len s' g' es').
Qed.

(** [nv_resetToFactoryNew] erases every module but the frame counter: the
    reset flag ends clear, the two sectors of the frame counter are untouched,
    and every byte of the other modules is erased. *)
Theorem nv_resetToFactoryNew_exact {F B} `{FlashLaws F} `{NvHeap B} (s : nv F B) :
  fl_ok (nv_fl s) -> (forall x, NV_LO <= x < NV_HI -> fl_mask (nv_fl s) x = false) ->
  let s' := (nv_resetToFactoryNew s).2 in
  nv_facrotyNewRstFlagCheck s' = false /\
  (forall x, MODULE_SECT_START NV_MODULE_NWK_FRAME_COUNT 0 <= x < MODULE_SECT_END NV_MODULE_NWK_FRAME_COUNT 1 ->
     fl_byte (nv_fl s') x = fl_byte (nv_fl s) x) /\
  forall id x, nv_module id -> id <> NV_MODULE_NWK_FRAME_COUNT ->
    MODULE_SECT_START id 0 <= x < MODULE_SECT_END id 1 -> fl_byte (nv_fl s') x = 255.
Proof.
  intros Hf Hm s'. assert (Hat : nv_at (nv_fl s) (fl_byte (nv_fl s))) by by split.
  unfold s', nv_resetToFactoryNew. cbn [snd].
  set (s1 := if nv_facrotyNewRstFlagCheck s then s else nv_facrotyNewRstFlagSet s).
  assert (exists g1, nv_at (nv_fl s1) g1 /\ forall x, x <> CFG_FACTORY_RST_CNT -> g1 x = fl_byte (nv_fl s) x)
    as (g1 & Hat1 & Hg1).
  { unfold s1. destruct (nv_facrotyNewRstFlagCheck s); [eauto|].
    exists (prog (fl_byte (nv_fl s)) CFG_FACTORY_RST_CNT [ITEM_FIELD_VALID]). split.
    - unfold nv_facrotyNewRstFlagSet, with_fl. cbn [nv_fl]. apply nv_at_lock, nv_at_write;
        [by apply nv_at_unlock|done|done|by apply Forall_singleton].
    - intros x Hx. apply prog_out1. cbn [length]. lia. }
  clearbody s1. cbn [fold_left negb Z.eqb NV_MODULE_NWK_FRAME_COUNT Pos.eqb].
  pose proof (nv_resetModule_spec 0 s1 _ ltac:(done) Hat1) as Hat2.
  pose proof (nv_resetModule_spec 2 _ _ ltac:(done) Hat2) as Hat3.
  pose proof (nv_resetModule_spec 3 _ _ ltac:(done) Hat3) as Hat4.
  set (s4 := (nv_resetModule 3 _).2) in *. clearbody s4.
  match type of Hat4 with nv_at _ ?g => set (g4 := g) in * end.
  assert (Hat5 : nv_at (nv_fl (nv_facrotyNewRstFlagClear s4))
                   (erased (fun _ => false) g4 CFG_FACTORY_RST_CNT)).
  { unfold nv_facrotyNewRstFlagClear, with_fl. cbn [nv_fl]. apply nv_at_lock, nv_at_erase;
      [by apply nv_at_unlock|done]. }
  assert (Herase : forall x, x < 0xFC000 -> erased (fun _ => false) g4 CFG_FACTORY_RST_CNT x = g4 x).
  { intros x Hx. unfold erased, CFG_FACTORY_RST_CNT.
    destruct (Z.eqb_spec (x / 4096) (0xFC000 / 4096)); [zdm|done]. }
  split_and!.
  - unfold nv_facrotyNewRstFlagCheck. by rewrite (rd_at _ _ _ _ Hat5) by done.
  - change (MODULE_SECT_START NV_MODULE_NWK_FRAME_COUNT 0) with 0x82000.
    change (MODULE_SECT_END NV_MODULE_NWK_FRAME_COUNT 1) with 0x84000.
    intros x Hx. rewrite (nvat_byte _ _ Hat5), Herase by lia. unfold g4.
    change (MODULES_START_ADDR 3) with 0x86000. change (module_sectors 3) with 2.
    change (MODULES_START_ADDR 2) with 0x84000. change (module_sectors 2) with 8.
    change (MODULES_START_ADDR 0) with 0x80000. change (module_sectors 0) with 2.
    rewrite !wiped_out by lia. apply Hg1. unfold CFG_FACTORY_RST_CNT. lia.
  - intros id x Hid Hne Hx.
    assert (id = 0 \/ id = 2 \/ id = 3) as Hids
      by (unfold nv_module, NV_MODULE_NWK_FRAME_COUNT in *; lia).
    rewrite (nvat_byte _ _ Hat5).
    assert (0x80000 <= x < 0x82000 \/ 0x84000 <= x < 0x8c000) as Hx'.
    { destruct_or! Hids; subst id.
      - change (MODULE_SECT_START 0 0) with 0x80000 in Hx. change (MODULE_SECT_END 0 1) with 0x82000 in Hx. lia.
      - change (MODULE_SECT_START 2 0) with 0x84000 in Hx. change (MODULE_SECT_END 2 1) with 0x8c000 in Hx. lia.
      - change (MODULE_SECT_START 3 0) with 0x86000 in Hx. change (MODULE_SECT_END 3 1) with 0x88000 in Hx. lia. }
    rewrite Herase by lia. unfold g4.
    change (MODULES_START_ADDR 3) with 0x86000. change (module_sectors 3) with 2.
    change (MODULES_START_ADDR 2) with 0x84000. change (module_sectors 2) with 8.
    change (MODULES_START_ADDR 0) with 0x80000. change (module_sectors 0) with 2.
    unfold wiped.
    repeat case_cmp; cbn [andb]; try done; lia.
Qed.

(** The first save of the frame counter is reported as a failure: on a module
    without a valid sector [nv_nwkFrameCountSaveToFlash] answers
    NV_ITEM_NOT_FOUND whatever it wrote. *)
Theorem nv_frameCount_first_save_status {F B} `{Flash F} `{NvHeap B} (s : nv F B) (frameCount : Z) :
  nv_sector_read NV_MODULE_NWK_FRAME_COUNT MODULE_SECTOR_NUM (with_fl fl_unlock s) =
    (NV_ITEM_NOT_FOUND, None) ->
  (nv_nwkFrameCountSaveToFlash frameCount s).1 = NV_ITEM_NOT_FOUND.
Proof.
  intros E. unfold nv_nwkFrameCountSaveToFlash. rewrite E. cbn zeta.
  destruct (nv_nwkFrameCountSearch _ _ _ _) as [[sts fc] w].
  by destruct (decide (sts = NV_SUCC)), (w =? _).
Qed.

(** The modules overlap: NV_MODULE_USER_INFO1 has sectors of 16 kB but the
    address of the next module only counts 8 kB, so resetting it erases both
    sectors of NV_MODULE_USER_INFO2 as well. *)
Theorem nv_reset_user1_erases_user2 {F B} `{FlashLaws F} `{NvHeap B} (s : nv F B) (x : Z) :
  fl_ok (nv_fl s) -> (forall x, NV_LO <= x < NV_HI -> fl_mask (nv_fl s) x = false) ->
  MODULE_SECT_START NV_MODULE_USER_INFO2 0 <= x < MODULE_SECT_END NV_MODULE_USER_INFO2 1 ->
  fl_byte (nv_fl (nv_resetModule NV_MODULE_USER_INFO1 s).2) x = 255.
Proof.
  intros Hf Hm Hx. assert (Hat : nv_at (nv_fl s) (fl_byte (nv_fl s))) by by split.
  rewrite (nvat_byte _ _ (nv_resetModule_spec NV_MODULE_USER_INFO1 s _ ltac:(done) Hat)).
  apply wiped_in.
  change (MODULE_SECT_START NV_MODULE_USER_INFO2 0) with 0x86000 in Hx.
  change (MODULE_SECT_END NV_MODULE_USER_INFO2 1) with 0x88000 in Hx.
  change (MODULES_START_ADDR NV_MODULE_USER_INFO1) with 0x84000.
  change (module_sectors NV_MODULE_USER_INFO1) with 8. lia.
Qed.
