(* ===== verification/NvCompact.v ===== *)
(** * Sector updates of the NV store

    When the operating sector is full, [nv_flashWriteNew] erases the other
    sector, moves the valid items there and switches the headers.  The lemmas of
    this file follow that path, with the copy buffer served by any heap, up to
    what one such write leaves in flash. *)
From S2P Require Import Prelude SpiFlash FlashIf EvBuffer Nv NvSpec NvStore.

(** Any property of the heap under which a request for the copy buffer of
    [nv_write_item] succeeds, and that holds again when the buffer is released. *)
Definition heap_serves {B} `{NvHeap B} (P : B -> Prop) : Prop :=
  forall h, P h -> (heap_alloc 48 h).1 <> 0 /\ P (heap_free (heap_alloc 48 h).1 (heap_alloc 48 h).2).

(** Programming a list is programming its parts one after the other. *)
Lemma prog_app g a l1 l2 x : prog (prog g a l1) (a + Z.of_nat (length l1)) l2 x = prog g a (l1 ++ l2) x.
Proof.
  unfold prog. rewrite <-(programmed_take_drop _ _ _ (l1 ++ l2) (length l1)) by (rewrite length_app; lia).
  by rewrite take_app_length, drop_app_length.
Qed.

(** The operations inside a sector leave its header and all other sectors. *)
Definition inside (id sec : Z) (g g' : Z -> Z) : Prop :=
  forall x, x < MODULE_IDX_START id sec \/ MODULE_SECT_END id sec <= x -> g' x = g x.

Lemma inside_trans id sec g1 g2 g3 : inside id sec g1 g2 -> inside id sec g2 g3 -> inside id sec g1 g3.
Proof. intros H1 H2 x Hx. by rewrite H2, H1. Qed.

Lemma inside_bytes id sec g g' a n :
  inside id sec g g' -> a + Z.of_nat n <= MODULE_IDX_START id sec \/ MODULE_SECT_END id sec <= a ->
  bytes_at g' a n = bytes_at g a n.
Proof. intros Hg Ha. apply bytes_at_ext. intros j Hj. apply Hg. lia. Qed.

(** An entry of the old sector, out of the way of sector [sec]. *)
Record source_ok (id sec : Z) (g : Z -> Z) (e : nv_info_idx_t) : Prop := {
  so_wf : idx_wf e;
  so_id : idx_itemId e <> ITEM_FIELD_IDLE;
  so_size : 8 <= size e;
  so_lo : NV_LO <= offset e;
  so_hi : offset e + size e <= NV_HI;
  so_apart : offset e + size e <= MODULE_IDX_START id sec \/ MODULE_SECT_END id sec <= offset e;
  so_hdr : exists cs, 0 <= cs < 2 ^ 32 /\
    bytes_at g (offset e) 8 = enc_hdr (mk_hdr cs (size e - 8) (idx_itemId e) ITEM_FIELD_VALID)
}.

Lemma source_ok_inside id sec g g' e : inside id sec g g' -> source_ok id sec g e -> source_ok id sec g' e.
Proof.
  intros Hg []. split; try done. destruct so_hdr0 as (cs & Hcs & Hb). exists cs. split; [done|].
  rewrite <-Hb. eapply inside_bytes; [done|]. lia.
Qed.

(** The entry of a moved item, at the end of [es]. *)
Definition moved (id sec : Z) (es : list nv_info_idx_t) (e : nv_info_idx_t) : nv_info_idx_t :=
  mk_idx (next_off id sec es) (size e) (idx_itemId e) ITEM_FIELD_VALID.

(** A copied item makes a valid entry. *)
Lemma moved_entry_ok id sec g g' es e :
  nv_module id -> 0 <= sec < 2 -> sector_inv id sec g es -> source_ok id sec g e ->
  next_off id sec es + size e <= MODULE_SECT_END id sec ->
  bytes_at g' (next_off id sec es) (Z.to_nat (size e)) = bytes_at g (offset e) (Z.to_nat (size e)) ->
  entry_ok id sec g' (next_off id sec es + size e) (moved id sec es e).
Proof.
  intros Hid Hsec Hinv [] Hfit Hitem. pose proof (sector_geometry id sec Hid Hsec) as [].
  pose proof (si_next _ _ _ _ Hinv). destruct so_wf0 as (_ & Hsz & Hib & _).
  split; cbn; try (done || lia || auto).
  { unfold NV_LO, NV_HI in *. split_and!; cbn; (done || lia). }
  { by apply (next_off_al _ _ g). }
  intros _. destruct so_hdr0 as (cs & Hcs & Hhdr). exists cs. split; [done|].
  replace (Z.to_nat (size e)) with (8 + Z.to_nat (size e - 8))%nat in Hitem by lia.
  rewrite !bytes_at_app in Hitem. apply app_inj_1 in Hitem as [Hitem _]; [|by rewrite !length_bytes_at].
  exact (eq_trans Hitem Hhdr).
Qed.

Section Copy.
Context {F B : Type} `{FlashLaws F} `{NvHeap B}.
Implicit Type s : nv F B.

Lemma copy_loop_spec fuel n sa da s g :
  nv_at (nv_fl s) g -> NV_LO <= sa -> sa + Z.of_nat n <= NV_HI -> NV_LO <= da -> da + Z.of_nat n <= NV_HI ->
  sa + Z.of_nat n <= da \/ da + Z.of_nat n <= sa -> (n < fuel)%nat ->
  nv_heap (copy_loop fuel (Z.of_nat n) sa da s) = nv_heap s /\
  nv_at (nv_fl (copy_loop fuel (Z.of_nat n) sa da s)) (prog g da (bytes_at g sa n)).
Proof.
  revert n sa da s g. induction fuel as [|fuel IH]; intros n sa da s g Hat Hs Hs' Hd Hd' Hap Hf; [lia|].
  cbn [copy_loop]. destruct (Z.ltb_spec 0 (Z.of_nat n)).
  2: { split; [done|]. eapply nv_at_ext; [|exact Hat]. intros x. symmetry. apply prog_out1.
       rewrite length_bytes_at. lia. }
  set (k := if 48 <? Z.of_nat n then 48 else Z.of_nat n).
  assert (exists m kn, k = Z.of_nat kn /\ n = (kn + m)%nat /\ (0 < kn)%nat) as (m & kn & -> & -> & Hkn).
  { unfold k. destruct (Z.ltb_spec 48 (Z.of_nat n)); [exists (n - 48)%nat, 48%nat|exists 0%nat, n]; lia. }
  rewrite Nat2Z.id, (rd_at _ g) by (done || lia).
  replace (Z.of_nat (kn + m) - Z.of_nat kn) with (Z.of_nat m) by lia.
  set (g1 := prog g da (bytes_at g sa kn)).
  destruct (IH m (sa + Z.of_nat kn) (da + Z.of_nat kn)
              (with_fl (fl_write da (bytes_at g sa kn)) s) g1) as [Hh Hat']; try lia.
  { unfold with_fl. cbn [nv_fl]. apply nv_at_write; [done|done|rewrite length_bytes_at; lia|].
    apply bytes_at_Forall. intros x. eapply nv_at_byte_range, Hat. }
  split; [by rewrite Hh|]. eapply nv_at_ext; [|exact Hat']. intros x.
  unfold g1 at 2. rewrite prog_out by (rewrite length_bytes_at; lia).
  rewrite bytes_at_app, <-prog_app, length_bytes_at. done.
Qed.

Lemma erase_loop_heap n a s : nv_heap (erase_loop n a s) = nv_heap s.
Proof. revert a s. induction n as [|n IH]; intros a s; cbn [erase_loop]; [done|]. by rewrite IH. Qed.

(** Moving one item. *)
Lemma nv_write_item_copy P id sec e s g es :
  heap_serves P ->
  nv_module id -> 0 <= sec < 2 -> nv_at (nv_fl s) g -> sector_inv id sec g es -> source_ok id sec g e ->
  Z.of_nat (length es) < MODULE_IDX_NUM id ->
  next_off id sec es + size e <= MODULE_SECT_END id sec ->
  exists r s' g',
    nv_write_item id (idx_itemId e) sec (Z.of_nat (length es)) (u16 (size e - sizeof_itemHdr))
      (FromFlash (offset e)) s = (r, s') /\
    nv_at (nv_fl s') g' /\ inside id sec g g' /\
    (r = NV_SUCC \/ r = NV_NOT_ENOUGH_SAPCE) /\
    (P (nv_heap s) -> r = NV_SUCC /\ P (nv_heap s')) /\
    (r = NV_SUCC ->
       sector_inv id sec g' (es ++ [moved id sec es e]) /\ frame id sec es (size e) g g' /\
       bytes_at g' (next_off id sec es) (Z.to_nat (size e)) = bytes_at g (offset e) (Z.to_nat (size e))).
Proof.
  intros HP Hid Hsec Hat Hinv Hsrc0 Hlen Hfit. pose proof Hsrc0 as [].
  pose proof (sector_geometry id sec Hid Hsec) as [].
  pose proof (si_next _ _ _ _ Hinv) as Hnext. destruct so_wf0 as (_ & Hsz & Hib & _).
  set (off := next_off id sec es) in *. set (ia := idx_addr id sec (length es)).
  assert (Hia : MODULE_IDX_START id sec <= ia /\ ia + 8 <= MODULE_CONTEXT_START id sec)
    by (unfold ia, idx_addr; lia).
  unfold nv_write_item, sizeof_itemHdr. pose proof (write_offset id sec s g es Hid Hsec Hat Hinv) as Hoff.
  cbv zeta in Hoff |- *. rewrite Hoff, (u16_small (size e - 8)), Z.sub_add, u16_small by lia.
  clear Hoff. fold off.
  change (MODULE_IDX_START id sec + Z.of_nat (length es) * sizeof_idx)
    with (MODULE_IDX_START id sec + Z.of_nat (length es) * 8).
  rewrite (Z.mul_comm (Z.of_nat (length es))). fold ia. cbn [offset size].
  change (mk_idx off (size e) (idx_itemId e) ITEM_FIELD_OPERATION) with (op_idx (moved id sec es e)).
  destruct (item_begin id sec g es (moved id sec es e)) as [Hb1 Hfree]; try done. fold ia off in Hb1, Hfree.
  set (g1 := prog g ia _) in *. set (s1 := with_fl _ (with_fl fl_unlock s)).
  assert (Hat1 : nv_at (nv_fl s1) g1).
  { unfold s1, with_fl. cbn [nv_fl].
    apply nv_at_write; [by apply nv_at_unlock|lia|rewrite length_enc_idx; lia|auto with nv]. }
  assert (Hin1 : inside id sec g g1) by (intros x Hx; apply prog_out1; rewrite length_enc_idx; lia).
  destruct (heap_alloc 48 (nv_heap s1)) as [p h] eqn:Eh. change (nv_heap s1) with (nv_heap s) in Eh.
  destruct (Z.eqb_spec p 0) as [->|Hp]; cbn [negb].
  { eexists _, _, g1. split; [reflexivity|]. split_and!; [by apply nv_at_lock|done|by right| |done].
    intros HPs%HP. rewrite Eh in HPs. by destruct HPs. }
  set (src := bytes_at g1 (offset e) (Z.to_nat (size e))).
  assert (Esrc : src = bytes_at g (offset e) (Z.to_nat (size e)))
    by (eapply inside_bytes; [exact Hin1|lia]).
  destruct (copy_loop_spec (S (Z.to_nat (size e))) (Z.to_nat (size e)) (offset e) off (mk_nv (nv_fl s1) h) g1)
    as [Hh Hat2]; try (done || lia). fold src in Hat2. rewrite Z2Nat.id in Hh, Hat2 by lia.
  set (s2 := copy_loop _ _ _ _ _) in *. clearbody s2. cbn [nv_heap] in Hh.
  assert (Hls : length src = Z.to_nat (size e)) by (unfold src; apply length_bytes_at).
  assert (Hsrc : Forall is_byte src) by (apply bytes_at_Forall; done).
  set (g2 := prog g1 off src) in *.
  assert (Hitem : bytes_at g2 off (Z.to_nat (size e)) = bytes_at g (offset e) (Z.to_nat (size e))).
  { rewrite <-Esrc, <-Hls. apply prog_blank; [done|]. intros x Hx. apply Hfree. lia. }
  destruct (item_commit id sec g es (moved id sec es e) g2) as (Hinv' & Hfr & Hkeep);
    try done; cbn [moved offset size]; fold off; [| | |].
  { by apply (moved_entry_ok id sec g). }
  { intros x. by apply programmed_range. }
  { intros x Hx. apply prog_out1. lia. }
  cbn [moved size] in Hfr. set (g3 := prog g2 _ _) in *. eexists _, _, g3. split; [reflexivity|]. split_and!.
  - unfold with_fl. cbn [nv_fl]. apply nv_at_lock.
    apply nv_at_write; [done|unfold staOffset; lia|cbn; unfold staOffset; lia|by repeat constructor].
  - intros x Hx. apply Hfr. fold ia off. lia.
  - by left.
  - intros HPs%HP. rewrite Eh in HPs. split; [done|]. cbn [with_fl nv_heap]. rewrite Hh. apply HPs.
  - intros _. split_and!; [done|done|]. by rewrite Hkeep by (fold off; lia).
Qed.
End Copy.

Lemma sectors_apart id old sec : nv_module id -> 0 <= old < 2 -> 0 <= sec < 2 -> old <> sec ->
  MODULE_SECT_END id old <= MODULE_SECT_START id sec \/ MODULE_SECT_END id sec <= MODULE_SECT_START id old.
Proof.
  intros Hid Hold Hsec Hne. pose proof (module_geometry id Hid) as [].
  assert (old = 0 /\ sec = 1 \/ old = 1 /\ sec = 0) as [[-> ->]|[-> ->]] by lia; lia.
Qed.

(** ** The table of the old sector *)

(** What the sector update keeps. *)
Definition keep (itemId : Z) (single : bool) (e : nv_info_idx_t) : bool :=
  (usedState e =? ITEM_FIELD_VALID) &&
  (negb (idx_itemId e =? itemId) || ((idx_itemId e =? itemId) && negb single)).

Definition kept (itemId : Z) (single : bool) : list nv_info_idx_t -> list nv_info_idx_t :=
  List.filter (keep itemId single).

(** The new entry of a moved item, and its bytes. *)
Record copied (g g' : Z -> Z) (e e' : nv_info_idx_t) : Prop := {
  cp_size : size e' = size e;
  cp_id : idx_itemId e' = idx_itemId e;
  cp_state : usedState e' = ITEM_FIELD_VALID;
  cp_bytes : bytes_at g' (offset e') (Z.to_nat (size e)) = bytes_at g (offset e) (Z.to_nat (size e))
}.

(** The new sector while items are moved: [ks] were moved, to [es]. *)
Record moving (id sec : Z) (g0 g : Z -> Z) (ks es : list nv_info_idx_t) : Prop := {
  mv_inside : inside id sec g0 g;
  mv_inv : sector_inv id sec g es;
  mv_items : Forall2 (copied g0 g) ks es
}.

Lemma copied_total g g' ks es : Forall2 (copied g g') ks es -> total es = total ks.
Proof.
  induction 1 as [|e e' ks es [Hs _ _ _] _ IH]; cbn; [done|]. fold (total es) (total ks). by rewrite Hs, IH.
Qed.

(** The old bytes may be taken from another state. *)
Lemma copied_from g1 g2 g' ks es :
  (forall e, e ∈ ks -> bytes_at g1 (offset e) (Z.to_nat (size e)) = bytes_at g2 (offset e) (Z.to_nat (size e))) ->
  Forall2 (copied g1 g') ks es -> Forall2 (copied g2 g') ks es.
Proof.
  intros Hg [Hl Hcp]%Forall2_same_length_lookup. apply Forall2_same_length_lookup. split; [done|].
  intros i e e' Hi Hi'. destruct (Hcp i e e' Hi Hi') as [? ? ? Hb]. split; try done.
  rewrite Hb. apply Hg. by eapply list_elem_of_lookup_2.
Qed.

Lemma moving_next id sec g0 g ks es :
  moving id sec g0 g ks es -> next_off id sec es = MODULE_CONTEXT_START id sec + total ks.
Proof.
  intros [_ Hinv Hcp]. by rewrite (si_total _ _ _ _ Hinv), (copied_total _ _ _ _ Hcp).
Qed.

Lemma moving_length id sec g0 g ks es : moving id sec g0 g ks es -> length es = length ks.
Proof. intros [_ _ Hcp]. symmetry. by apply Forall2_length in Hcp. Qed.

(** The payload is moved with the item. *)
Record copied_payload (g g' : Z -> Z) (e e' : nv_info_idx_t) : Prop := {
  cl_size : size e' = size e;
  cl_id : idx_itemId e' = idx_itemId e;
  cl_state : usedState e' = ITEM_FIELD_VALID;
  cl_bytes : bytes_at g' (offset e' + 8) (Z.to_nat (size e - 8)) =
             bytes_at g (offset e + 8) (Z.to_nat (size e - 8))
}.

(** One more item. *)
Lemma moving_snoc id sec g0 g g' ks es e :
  nv_module id -> 0 <= sec < 2 -> moving id sec g0 g ks es -> source_ok id sec g e ->
  inside id sec g g' -> sector_inv id sec g' (es ++ [moved id sec es e]) ->
  frame id sec es (size e) g g' ->
  bytes_at g' (next_off id sec es) (Z.to_nat (size e)) = bytes_at g (offset e) (Z.to_nat (size e)) ->
  moving id sec g0 g' (ks ++ [e]) (es ++ [moved id sec es e]).
Proof.
  intros Hid Hsec [Hin Hinv Hcp] Hsrc Hin' Hinv' Hfr Hb. pose proof (sector_geometry id sec Hid Hsec) as [].
  pose proof (si_len _ _ _ _ Hinv').
  assert (idx_addr id sec (length es) + 8 <= MODULE_CONTEXT_START id sec).
  { rewrite length_app in *. cbn [length] in *. unfold idx_addr. lia. }
  split; [by eapply inside_trans|done|]. apply Forall2_app.
  - apply Forall2_same_length_lookup in Hcp as [Hl Hcp]. apply Forall2_same_length_lookup.
    split; [done|]. intros i k e' Hk He'. destruct (Hcp i k e' Hk He') as [Hs ? ? Hbs]. split; [done..|].
    rewrite <-Hbs. pose proof (si_entry _ _ _ _ Hinv e' (list_elem_of_lookup_2 _ _ _ He')) as [].
    apply bytes_at_ext. intros j Hj. apply Hfr. right. left. lia.
  - constructor; [|constructor]. split; [done..|]. cbn [moved offset]. rewrite Hb.
    eapply inside_bytes; [done|]. destruct Hsrc. lia.
Qed.

Section Move.
Context {F B : Type} `{FlashLaws F} `{NvHeap B} (P : B -> Prop) (HP : heap_serves P).
Context (id sec itemId : Z) (single : bool) (g0 : Z -> Z) (Hid : nv_module id) (Hsec : 0 <= sec < 2).
Implicit Type s : nv F B.

(** The room for the items [ks]. *)
Definition room_for (ks : list nv_info_idx_t) : Prop :=
  Z.of_nat (length ks) <= MODULE_IDX_NUM id /\
    MODULE_CONTEXT_START id sec + total ks <= MODULE_SECT_END id sec.

(** The outcome of a part of the copy: all of [ks] moved, or no memory; the
    rest of the flash as it was. *)
Definition copy_outcome (ks : list nv_info_idx_t) s (res : nv_sts_t * Z * Z * nv F B) : Prop :=
  let '(r, w, u, s') := res in
  exists g', nv_at (nv_fl s') g' /\ inside id sec g0 g' /\
    (r = NV_SUCC \/ r = NV_NOT_ENOUGH_SAPCE) /\
    (P (nv_heap s) -> r = NV_SUCC /\ P (nv_heap s')) /\
    (r = NV_SUCC -> w = Z.of_nat (length ks) /\ u = MODULE_CONTEXT_START id sec + total ks /\
    exists es, moving id sec g0 g' ks es).

Lemma copy_items_spec l ks es s g :
  nv_at (nv_fl s) g -> moving id sec g0 g ks es ->
  (forall e, e ∈ l -> keep itemId single e = true -> source_ok id sec g0 e) ->
  room_for (ks ++ kept itemId single l) ->
  copy_outcome (ks ++ kept itemId single l) s
    (copy_items id itemId single sec l (Z.of_nat (length ks)) (MODULE_CONTEXT_START id sec + total ks) s).
Proof.
  revert ks es s g. induction l as [|e l IH]; intros ks es s g Hat Hmv Hsrc [Hn Hfit].
  { cbn [copy_items kept List.filter]. rewrite app_nil_r. exists g. split_and!; [done|apply Hmv|by left|done|]. eauto. }
  cbn [copy_items kept List.filter] in *. fold (kept itemId single l) in *. fold (keep itemId single e).
  destruct (keep itemId single e) eqn:Ek.
  2: { eapply IH; [done..| |done]. intros e' He'. apply Hsrc. by right. }
  pose proof (sector_geometry id sec Hid Hsec) as [].
  assert (Hse : source_ok id sec g e).
  { eapply source_ok_inside; [apply Hmv|]. apply Hsrc; [by left|done]. }
  assert (Hmin : 0 <= total (kept itemId single l)).
  { apply total_nonneg, List.Forall_forall. intros e' [He' Hk]%filter_In.
    destruct (Hsrc e') as []; [right; by apply list_elem_of_In|done|]. lia. }
  rewrite total_app in Hfit. cbn [total foldr] in Hfit. fold (total (kept itemId single l)) in Hfit.
  pose proof (align4_bounds (size e)) as [Hal _]. rewrite length_app in Hn. cbn [length] in Hn.
  pose proof (moving_next _ _ _ _ _ _ Hmv) as Hnext. pose proof (moving_length _ _ _ _ _ _ Hmv) as Hlen.
  rewrite <-Hlen.
  destruct (nv_write_item_copy P id sec e s g es) as (r & s1 & g1 & -> & Hat1 & Hin1 & Hr & Hp1 & Hok);
    try done; try lia; [apply Hmv|].
  destruct (decide (r = NV_SUCC)) as [->|Hne].
  2: { exists g1. split_and!; [done|eapply inside_trans; [apply Hmv|done]|done| |done].
       intros HPs. by destruct (Hp1 HPs) as [-> _]. }
  destruct (Hok eq_refl) as (Hinv1 & Hfr1 & Hb1).
  pose proof (moving_snoc id sec g0 g g1 ks es e Hid Hsec Hmv Hse Hin1 Hinv1 Hfr1 Hb1) as Hmv1.
  specialize (IH (ks ++ [e]) _ s1 g1 Hat1 Hmv1).
  rewrite <-app_assoc, length_app, total_app in IH. cbn [length app total foldr] in IH.
  rewrite u16_small by lia.
  rewrite (u32_small (Z.land _ _)); fold (align4 (MODULE_CONTEXT_START id sec + total ks + size e)).
  2: { pose proof (align4_bounds (MODULE_CONTEXT_START id sec + total ks + size e)).
       pose proof (si_next _ _ _ _ (mv_inv _ _ _ _ _ _ Hmv)). unfold NV_LO, NV_HI in *. destruct Hse. lia. }
  rewrite align4_add by (rewrite Z.add_mod, total_mod, geo_al by lia; done).
  replace (Z.of_nat (length es) + 1) with (Z.of_nat (length ks + 1)) by lia.
  replace (MODULE_CONTEXT_START id sec + total ks + align4 (size e))
    with (MODULE_CONTEXT_START id sec + (total ks + (align4 (size e) + 0))) by lia.
  destruct (copy_items id itemId single sec l _ _ s1) as [[[r2 w2] u2] s2].
  destruct IH as (g2 & Hat2 & Hin2 & Hr2 & Hp2 & Hok2).
  { intros e' He'. apply Hsrc. by right. }
  { split; [rewrite length_app; cbn [length]; lia|].
    rewrite total_app. cbn [total foldr]. fold (total (kept itemId single l)). lia. }
  exists g2. split_and!; [done..| |done]. intros HPs. apply Hp2, Hp1, HPs.
Qed.

(** The old sector. *)
Context (old : Z) (es0 : list nv_info_idx_t) (Hold : 0 <= old < 2) (Hne : old <> sec).
Context (Hinv0 : sector_inv id old g0 es0).

Definition tbl (i : nat) : nv_info_idx_t := default idle_idx (es0 !! i).

Lemma keep_idle : keep itemId single idle_idx = false.
Proof. done. Qed.

Lemma tbl_kept n : (length es0 <= n)%nat ->
  kept itemId single (map tbl (seq 0 n)) = kept itemId single es0.
Proof.
  intros Hn. replace n with (length es0 + (n - length es0))%nat by lia.
  rewrite seq_app, map_app. unfold kept. rewrite List.filter_app.
  replace (map tbl (seq 0 (length es0))) with es0.
  - rewrite <-(app_nil_r (List.filter _ es0)) at 2. f_equal.
    generalize (n - length es0)%nat as k. intros k.
    assert (Hge : (length es0 <= 0 + length es0)%nat) by lia. revert Hge. generalize (0 + length es0)%nat as a.
    induction k as [|k IH]; intros a Ha; [done|]. cbn [seq map List.filter].
    unfold tbl at 1. rewrite lookup_ge_None_2 by lia. cbn [default]. rewrite keep_idle. apply IH. lia.
  - apply list_eq. intros i. destruct (decide (i < length es0)%nat).
    + rewrite list_lookup_fmap, lookup_seq_lt by done. cbn. unfold tbl.
      by destruct (lookup_lt_is_Some_2 es0 i l) as [e ->].
    + rewrite !lookup_ge_None_2; [done|rewrite length_map, length_seq; lia|lia].
Qed.

Lemma kept_source e : e ∈ es0 -> keep itemId single e = true -> source_ok id sec g0 e.
Proof.
  intros He Hk. pose proof (si_entry _ _ _ _ Hinv0 e He) as []. pose proof (si_next _ _ _ _ Hinv0).
  pose proof (sector_geometry id old Hid Hold) as G1. pose proof (sector_geometry id sec Hid Hsec) as G2.
  destruct G1, G2. pose proof (sectors_apart id old sec Hid Hold Hsec Hne). apply andb_true_iff in Hk as [Hu%Z.eqb_eq _].
  split; try done; try lia. auto.
Qed.

Lemma kept_room : room_for (kept itemId single es0).
Proof.
  pose proof (sector_geometry id old Hid Hold) as G1. pose proof (sector_geometry id sec Hid Hsec) as G2.
  destruct G1, G2. pose proof (si_total _ _ _ _ Hinv0). pose proof (si_next _ _ _ _ Hinv0).
  pose proof (si_len _ _ _ _ Hinv0).
  assert (total (kept itemId single es0) <= total es0) as Ht.
  { assert (Forall (fun e => 0 <= size e) es0) as Hs.
    { apply Forall_forall. intros e He. pose proof (eo_size _ _ _ _ _ (si_entry _ _ _ _ Hinv0 e He)). lia. }
    clear -Hs. induction Hs as [|e es He Hes IH]; cbn; [lia|]. fold (kept itemId single es) (total es).
    pose proof (align4_bounds (size e)).
    destruct (keep itemId single e); cbn [total foldr]; fold (total (kept itemId single es)); lia. }
  split; [|lia]. pose proof (List.filter_length_le (keep itemId single) es0). unfold kept. lia.
Qed.

Lemma tbl_source i : keep itemId single (tbl i) = true -> source_ok id sec g0 (tbl i).
Proof.
  unfold tbl. destruct (es0 !! i) as [e|] eqn:E; cbn [default]; [|by rewrite keep_idle].
  apply kept_source. by eapply list_elem_of_lookup_2.
Qed.

Lemma tbl_room n : Z.of_nat n <= MODULE_IDX_NUM id -> room_for (kept itemId single (map tbl (seq 0 n))).
Proof.
  intros Hn. pose proof (si_len _ _ _ _ Hinv0). destruct kept_room as [Hl Ht].
  rewrite <-(tbl_kept (Z.to_nat (MODULE_IDX_NUM id))) in Hl, Ht by lia.
  replace (Z.to_nat (MODULE_IDX_NUM id)) with (n + (Z.to_nat (MODULE_IDX_NUM id) - n))%nat in Hl, Ht by lia.
  unfold kept in Hl, Ht. rewrite seq_app, map_app, List.filter_app in Hl, Ht.
  rewrite length_app in Hl. rewrite total_app in Ht.
  assert (0 <= total (kept itemId single (map tbl (seq (0 + n) (Z.to_nat (MODULE_IDX_NUM id) - n))))).
  { apply total_nonneg, List.Forall_forall. intros e [(i & <- & _)%in_map_iff Hk]%filter_In.
    destruct (tbl_source i Hk). lia. }
  unfold kept in *. split; lia.
Qed.

Lemma copy_sector_spec fuel m n s g es :
  nv_at (nv_fl s) g -> Z.of_nat (m + n) = MODULE_IDX_NUM id ->
  moving id sec g0 g (kept itemId single (map tbl (seq 0 m))) es -> (n < fuel)%nat ->
  let ks := kept itemId single (map tbl (seq 0 m)) in
  copy_outcome (kept itemId single es0) s
    (copy_sector fuel id itemId single sec (Z.of_nat n) (MODULE_IDX_START id old + 8 * Z.of_nat m)
       (Z.of_nat (length ks)) (MODULE_CONTEXT_START id sec + total ks) s).
Proof.
  pose proof (si_len _ _ _ _ Hinv0) as Hl0.
  pose proof (sector_geometry id old Hid Hold) as G1. pose proof (sector_geometry id sec Hid Hsec) as G2.
  revert m n s g es. induction fuel as [|fuel IH]; intros m n s g es Hat HN Hmv Hf ks; [lia|].
  cbn [copy_sector]. destruct (Z.ltb_spec 0 (Z.of_nat n)).
  2: { assert (ks = kept itemId single es0) as <- by (apply tbl_kept; lia).
       exists g. split_and!; [done|apply Hmv|by left|done|eauto]. }
  set (k := if 4 <? Z.of_nat n then 4 else Z.of_nat n).
  assert (exists r kn, k = Z.of_nat kn /\ n = (kn + r)%nat /\ (0 < kn)%nat) as (r & kn & -> & -> & Hkn).
  { unfold k. destruct (Z.ltb_spec 4 (Z.of_nat n)); [exists (n - 4)%nat, 4%nat|exists 0%nat, n]; lia. }
  unfold sizeof_idx. replace (Z.to_nat (Z.of_nat kn * 8)) with (8 * kn)%nat by lia. rewrite Nat2Z.id.
  assert (Hchunk : dec_idxs kn (rd (MODULE_IDX_START id old + 8 * Z.of_nat m) (8 * kn) s)
                   = map tbl (seq m kn)).
  { pose proof (sectors_apart id old sec Hid Hold Hsec Hne). destruct G1, G2. rewrite (rd_at _ g) by (done || lia). rewrite dec_idxs_bytes.
    apply map_ext_in. intros i [? ?]%in_seq. unfold ent.
    rewrite (inside_bytes id sec g0 g) by (apply Hmv || lia).
    apply (ent_of id old g0 es0); [done..|lia]. }
  rewrite Hchunk.
  assert (Hall : kept itemId single (map tbl (seq 0 (m + kn))) =
                 ks ++ kept itemId single (map tbl (seq m kn))).
  { unfold ks, kept. by rewrite seq_app, map_app, List.filter_app. }
  pose proof (copy_items_spec (map tbl (seq m kn)) ks es s g Hat Hmv) as Hitems. rewrite <-Hall in Hitems.
  destruct (copy_items id itemId single sec (map tbl (seq m kn)) _ _ s) as [[[r1 w1] u1] s1].
  destruct Hitems as (g1 & Hat1 & Hin1 & Hr1 & Hp1 & Hok1).
  { intros e (i & -> & _)%list_elem_of_fmap Hk. apply tbl_source, Hk. }
  { apply tbl_room. lia. }
  destruct (decide (r1 = NV_SUCC)) as [->|Hner]; [|by exists g1].
  destruct (Hok1 eq_refl) as (-> & -> & es1 & Hmv1).
  replace (Z.of_nat (kn + r) - Z.of_nat kn) with (Z.of_nat r) by lia.
  replace (MODULE_IDX_START id old + 8 * Z.of_nat m + Z.of_nat kn * 8)
    with (MODULE_IDX_START id old + 8 * Z.of_nat (m + kn)) by lia.
  assert (Hrest := IH (m + kn)%nat r s1 g1 es1 Hat1 ltac:(lia) Hmv1 ltac:(lia)). cbv zeta in Hrest.
  destruct (copy_sector fuel id itemId single sec _ _ _ _ s1) as [[[r2 w2] u2] s2].
  destruct Hrest as (g2 & Hat2 & Hin2 & Hr2 & Hp2 & Hok2).
  exists g2. split_and!; [done..| |done]. intros HPs. apply Hp2, Hp1, HPs.
Qed.
End Move.

(** ** The whole update *)

Lemma sector_erase id sec : nv_module id -> 0 <= sec < 2 ->
  MODULE_SECT_START id sec mod 4096 = 0 /\
  4096 * Z.of_nat (Z.to_nat (NV_SECTOR_SIZE id / FLASH_SECTOR_SIZE)) = NV_SECTOR_SIZE id.
Proof.
  intros Hid Hsec. assert (id = 0 \/ id = 1 \/ id = 2 \/ id = 3) as Hids by (unfold nv_module in *; lia).
  assert (sec = 0 \/ sec = 1) as Hs by lia. destruct_or! Hids; destruct_or! Hs; subst; by vm_compute.
Qed.

(** A header whose flag was programmed with [NV_SECTOR_INVALID] is not valid. *)
Lemma hdr_invalidated id sec g h :
  (forall x, 0 <= g x < 256) -> usedFlag h = NV_SECTOR_INVALID ->
  hdr_valid id (hdr_at (prog g (MODULE_SECT_START id sec) (enc_sect h)) id sec) = false.
Proof.
  intros Hb Hh. unfold hdr_valid. apply andb_false_iff. left. apply Z.eqb_neq.
  set (a := MODULE_SECT_START id sec). set (g' := prog g a (enc_sect h)).
  assert (Hr : forall x, 0 <= g' x < 256) by (intros x; apply programmed_range; [done|auto with nv]).
  assert (E : g' a = Z.land (g a) 0x50).
  { unfold g', prog, programmed. rewrite Z.leb_refl, length_enc_sect, Z.sub_diag.
    assert ((a <? a + Z.of_nat 4) = true) as -> by (apply Z.ltb_lt; lia). unfold enc_sect. by rewrite Hh. }
  unfold hdr_at. fold a. rewrite !bytes_at_S. cbn [dec_sect usedFlag take le_word].
  pose proof (Hr a) as R0. pose proof (Hr (a + 1)) as R1. intros Hf. unfold NV_SECTOR_VALID in Hf.
  assert (g' a = 0x5A) as H0 by lia. rewrite E in H0.
  apply (f_equal (fun v => Z.testbit v 1)) in H0. rewrite Z.land_spec in H0.
  change (Z.testbit 0x50 1) with false in H0. by rewrite andb_false_r in H0.
Qed.

Section Update.
Context {F B : Type} `{FlashLaws F} `{NvHeap B} (P : B -> Prop) (HP : heap_serves P).
Context (id itemId : Z) (single : bool) (old sec : Z) (g : Z -> Z) (es : list nv_info_idx_t).
Context (Hid : nv_module id) (Hold : 0 <= old < 2) (Hsec : 0 <= sec < 2) (Hne : old <> sec).
Context (Hinv : sector_inv id old g es).
Implicit Type s : nv F B.

#[local] Abbreviation ks := (kept itemId single es).

(** Content that differs from [g] inside sector [sec] only, and not in its
    header, which is erased. *)
Definition other_erased (g' : Z -> Z) : Prop :=
  (forall x, x < MODULE_SECT_START id sec \/ MODULE_SECT_END id sec <= x -> g' x = g x) /\
  forall x, MODULE_SECT_START id sec <= x < MODULE_SECT_START id sec + 4 -> g' x = 255.

Definition fits (len : Z) : Prop :=
  Z.of_nat (length ks) < MODULE_IDX_NUM id /\
  MODULE_INFO_SIZE id + total ks + 8 + len <= NV_SECTOR_SIZE id.

Lemma sector_update_spec len s :
  nv_at (nv_fl s) g ->
  exists r w s' g',
    sector_update id itemId single len old sec s = (r, w, s') /\ nv_at (nv_fl s') g' /\ other_erased g' /\
    (r = NV_SUCC \/ r = NV_NOT_ENOUGH_SAPCE) /\
    (P (nv_heap s) -> P (nv_heap s') /\ (fits len -> r = NV_SUCC)) /\
    (r = NV_SUCC -> w = Z.of_nat (length ks) /\ fits len /\
       exists es', sector_inv id sec g' es' /\ Forall2 (copied g g') ks es').
Proof.
  intros Hat. pose proof (sector_erase id sec Hid Hsec) as [Hal Hn].
  pose proof (sector_geometry id old Hid Hold) as G1. pose proof (sector_geometry id sec Hid Hsec) as [].
  set (n := Z.to_nat (NV_SECTOR_SIZE id / FLASH_SECTOR_SIZE)) in *.
  set (gw := wiped g (MODULE_SECT_START id sec) (Z.of_nat n)).
  unfold sector_update. fold n. fold (MODULE_SECT_START id sec).
  set (s0 := erase_loop n (MODULE_SECT_START id sec) s).
  assert (Hat0 : nv_at (nv_fl s0) gw) by (apply erase_loop_spec; (done || lia)).
  assert (Hwin : forall x, MODULE_SECT_START id sec <= x < MODULE_SECT_END id sec -> gw x = 255)
    by (intros x Hx; apply wiped_in; lia).
  assert (Hwout : forall x, x < MODULE_SECT_START id sec \/ MODULE_SECT_END id sec <= x -> gw x = g x)
    by (intros x Hx; apply wiped_out; lia).
  assert (Hgw : forall x, 0 <= gw x < 256) by (intros x; eapply nv_at_byte_range, Hat0).
  pose proof (sectors_apart id old sec Hid Hold Hsec Hne) as Hap.
  assert (Hinvw : sector_inv id old gw es).
  { eapply sector_inv_ext; [done..| |exact Hinv|done]. intros x Hx. destruct G1. apply Hwout. lia. }
  assert (Hmv0 : moving id sec gw gw [] []).
  { split; [by intros x _| |constructor]. apply sector_inv_nil; [done..|]. intros x Hx. apply Hwin. lia. }
  assert (Hc := copy_sector_spec P HP id sec itemId single gw Hid Hsec old es Hold Hne Hinvw
    (S (Z.to_nat (MODULE_IDX_NUM id))) 0 (Z.to_nat (MODULE_IDX_NUM id)) s0 gw [] Hat0 ltac:(lia) Hmv0 ltac:(lia)).
  cbn [seq map kept List.filter length total foldr Z.of_nat] in Hc.
  rewrite Z2Nat.id, !Z.add_0_r in Hc by lia.
  destruct (copy_sector _ id itemId single sec _ _ _ _ s0) as [[[r w] u] s1].
  destruct Hc as (g1 & Hat1 & Hin1 & Hr1 & Hp1 & Hok1).
  assert (Eheap : nv_heap s0 = nv_heap s) by apply erase_loop_heap.
  assert (Hoe : other_erased g1).
  { split; intros x Hx; rewrite Hin1 by lia; [apply Hwout; lia|apply Hwin; lia]. }
  destruct (decide (r = NV_SUCC)) as [->|Hner].
  2: { eexists _, _, _, g1. split; [reflexivity|]. split_and!; [by apply nv_at_lock|done|done| |done].
       intros HPs. rewrite <-Eheap in HPs. by destruct (Hp1 HPs). }
  destruct (Hok1 eq_refl) as (-> & -> & es' & [_ Hinv' Hcp]).
  destruct (kept_room id sec itemId single gw Hid Hsec old es Hold Hinvw) as [Hk _].
  assert (Hcp' : Forall2 (copied g g1) ks es').
  { eapply copied_from; [|exact Hcp]. intros e [He%list_elem_of_In _]%list_elem_of_In%filter_In.
    pose proof (si_entry _ _ _ _ Hinv e He) as []. pose proof (si_next _ _ _ _ Hinv).
    apply bytes_at_ext. intros j Hj. apply Hwout. destruct G1. lia. }
  unfold ITEM_TOTAL_LEN, sizeof_itemHdr, fits.
  destruct (Z.eqb_spec (Z.of_nat (length ks)) (MODULE_IDX_NUM id)) as [Hz|Hz],
    (Z.ltb_spec (MODULE_SECT_END id sec) (MODULE_CONTEXT_START id sec + total ks + (len + 8)));
    cbn [orb]; eexists _, _, _, g1; (split; [reflexivity|]);
    (split; [first [done|by apply nv_at_lock]|]); (split; [done|]).
  4: { split; [by left|]. rewrite <-Eheap. split; [intros HPs; split; [by apply Hp1|done]|].
       intros _. split; [done|]. split; [lia|]. eauto. }
  all: split; [by right|]; split; [|done]; rewrite <-Eheap; intros HPs; split; [by apply Hp1|lia].
Qed.

Lemma item_find_none es' len :
  (forall e, e ∈ es' -> idx_itemId e <> itemId) -> item_find es' itemId len = None.
Proof.
  intros Hne'. apply last_index_false. intros i Hi.
  destruct (lookup_lt_is_Some_2 es' i Hi) as [e He]. rewrite He. unfold item_hit.
  apply list_elem_of_lookup_2, Hne' in He. apply andb_false_iff. right. by apply Z.eqb_neq.
Qed.

(** The headers of a sector update: the old sector's is made invalid, the new
    one's is written. *)
Lemma switch_headers g1 es' :
  sector_inv id sec g1 es' -> es' <> [] ->
  (forall x, MODULE_SECT_START id sec <= x < MODULE_SECT_START id sec + 4 -> g1 x = 255) ->
  let g2 := prog g1 (MODULE_SECT_START id old) (enc_sect (mk_sect NV_SECTOR_INVALID id sec)) in
  let g3 := prog g2 (MODULE_SECT_START id sec) (enc_sect (mk_sect NV_SECTOR_VALID id sec)) in
  mod_inv id sec g3 es' /\
  forall x, MODULE_SECT_START id sec + 4 <= x < MODULE_SECT_END id sec -> g3 x = g1 x.
Proof.
  intros Hinv' Hes Hblank g2 g3.
  pose proof (sector_geometry id old Hid Hold) as G1. pose proof (sector_geometry id sec Hid Hsec) as [].
  pose proof (sectors_apart id old sec Hid Hold Hsec Hne) as Hap.
  assert (Hb2 : forall x, 0 <= g2 x < 256)
    by (intros x; apply programmed_range; [apply (si_byte _ _ _ _ Hinv')|auto with nv]).
  assert (Hb3 : forall x, 0 <= g3 x < 256) by (intros x; apply programmed_range; [done|auto with nv]).
  assert (Hout : forall x, MODULE_SECT_START id sec + 4 <= x < MODULE_SECT_END id sec -> g3 x = g1 x).
  { intros x Hx. unfold g3, g2. destruct G1. rewrite !prog_out1; rewrite ?length_enc_sect; (done || lia). }
  split; [|done]. split; [done| |].
  { by eapply sector_inv_ext. }
  destruct (decide (es' = [])); [done|]. split.
  - unfold hdr_at, g3. change 4%nat with (length (enc_sect (mk_sect NV_SECTOR_VALID id sec))).
    rewrite prog_blank; [|auto with nv|].
    + apply dec_enc_sect; cbn; [done| |]; unfold nv_module, is_byte in *; lia.
    + intros x Hx. rewrite length_enc_sect in Hx. unfold g2. destruct G1.
      rewrite prog_out1 by (rewrite length_enc_sect; lia). apply Hblank. lia.
  - intros k Hk. assert (k = old) as -> by lia.
    rewrite (hdr_at_ext id old g2 g3).
    + by apply hdr_invalidated; [apply (si_byte _ _ _ _ Hinv')|].
    + intros x Hx. destruct G1. apply prog_out1. rewrite length_enc_sect. lia.
Qed.

Lemma write_and_mark_update buf s g1 es' :
  let len := Z.of_nat (length buf) in
  nv_at (nv_fl s) g1 -> sector_inv id sec g1 es' ->
  (forall x, MODULE_SECT_START id sec <= x < MODULE_SECT_START id sec + 4 -> g1 x = 255) ->
  (single = true -> forall e, e ∈ es' -> idx_itemId e <> itemId) ->
  is_byte itemId -> itemId <> ITEM_FIELD_IDLE -> Forall is_byte buf ->
  Z.of_nat (length es') < MODULE_IDX_NUM id ->
  next_off id sec es' + 8 + len <= MODULE_SECT_END id sec ->
  exists s' g',
    write_and_mark id itemId single len buf true old sec (Z.of_nat (length es')) s = (NV_SUCC, s') /\
    nv_at (nv_fl s') g' /\ mod_inv id sec g' (es' ++ [new_idx id sec es' itemId len]) /\
    bytes_at g' (next_off id sec es' + 8) (length buf) = buf /\
    (forall e, e ∈ es' -> bytes_at g' (offset e + 8) (Z.to_nat (size e - 8)) =
                          bytes_at g1 (offset e + 8) (Z.to_nat (size e - 8))) /\
    nv_heap s' = nv_heap s.
Proof.
  intros len Hat Hinv1 Hblank Hids Hib Hidle Hbuf Hlen Hfit.
  pose proof (sector_geometry id sec Hid Hsec) as []. pose proof (sector_geometry id old Hid Hold) as G1.
  pose proof (si_next _ _ _ _ Hinv1) as Hnext.
  unfold write_and_mark. rewrite (nv_index_read_item id itemId len sec s g1 es') by done.
  assert ((if single then match item_find es' itemId len with
                          | Some i => (NV_SUCC, Some (Z.of_nat i))
                          | None => (NV_ITEM_NOT_FOUND, None)
                          end.2 else None) = None) as ->.
  { destruct single; [|done]. by rewrite item_find_none by auto. }
  destruct (nv_write_item_ram id itemId sec buf s g1 es')
    as (s2 & g2 & E & Hat2 & Hinv2 & Hpay & Hfr & Hheap); try done.
  fold len in E, Hinv2, Hfr. rewrite E.
  destruct (decide (NV_SUCC = NV_SUCC)) as [_|]; [|done].
  assert (Hhdr : forall x, x < MODULE_IDX_START id sec -> g2 x = g1 x)
    by (intros x Hx; apply Hfr; unfold idx_addr; lia).
  destruct (switch_headers g2 _ Hinv2) as [Hmod Hin]; [by destruct es'| |].
  { intros x Hx. rewrite Hhdr by lia. by apply Hblank. }
  eexists _, _. split; [reflexivity|]. split_and!; [|exact Hmod| | |done].
  - unfold with_fl. cbn [nv_fl]. apply nv_at_lock. destruct G1.
    repeat (apply nv_at_write; [|lia|rewrite length_enc_sect; unfold NV_LO, NV_HI in *; lia|auto with nv]). done.
  - rewrite <-Hpay at 2. apply bytes_at_ext. intros j Hj. apply Hin. lia.
  - intros e He. pose proof (si_entry _ _ _ _ Hinv1 e He) as []. apply bytes_at_ext. intros j Hj.
    rewrite Hin by lia. apply Hfr. right. left. unfold idx_addr. lia.
Qed.

(** A write that needs a sector update: the result for every heap. *)
Lemma nv_flashWriteNew_update_spec buf s :
  let len := Z.of_nat (length buf) in
  nv_at (nv_fl s) g -> mod_inv id old g es -> sec = Z.land (old + 1) 1 -> single = true ->
  is_byte itemId -> itemId <> ITEM_FIELD_IDLE -> Forall is_byte buf ->
  MODULE_INFO_SIZE id + (len + 8) <= NV_SECTOR_SIZE id -> needs_update id old es len = true ->
  exists r s' g',
    nv_flashWriteNew single id itemId len buf s = (r, s') /\ nv_at (nv_fl s') g' /\
    (r = NV_SUCC \/ r = NV_NOT_ENOUGH_SAPCE) /\
    (P (nv_heap s) -> P (nv_heap s') /\ (fits len -> r = NV_SUCC)) /\
    (r = NV_SUCC -> fits len /\
       exists es', mod_inv id sec g' (es' ++ [new_idx id sec es' itemId len]) /\
         bytes_at g' (next_off id sec es' + 8) (length buf) = buf /\ Forall2 (copied_payload g g') ks es') /\
    (r <> NV_SUCC -> other_erased g').
Proof.
  intros len Hat Hmod Hsec' Hsingle Hib Hidle Hbuf Hbig Hup.
  rewrite (nv_flashWriteNew_eq _ _ _ _ _ _ old g es) by (done || unfold len; lia). rewrite Hup. cbv zeta.
  rewrite <-Hsec'.
  destruct (sector_update_spec len (with_fl fl_unlock s)) as
    (r & w & s1 & g1 & -> & Hat1 & Hoe & Hr & Hp1 & Hok).
  { unfold with_fl. cbn [nv_fl]. by apply nv_at_unlock. }
  destruct (decide (r = NV_SUCC)) as [->|Hner].
  2: { exists r, s1, g1. split_and!; done. }
  destruct (Hok eq_refl) as (-> & Hf & es' & Hinv1 & Hcp). destruct (Hf) as [Hf1 Hf2].
  rewrite (Forall2_length _ _ _ Hcp) in Hf1 |- *.
  rewrite <-(copied_total _ _ _ _ Hcp) in Hf2.
  pose proof (si_total _ _ _ _ Hinv1). pose proof (sector_geometry id sec Hid Hsec) as [].
  destruct (write_and_mark_update buf s1 g1 es') as (s2 & g2 & E & Hat2 & Hmod2 & Hpay & Hold2 & Hh2); try done.
  { apply Hoe. }
  { intros _ e' (i & He')%list_elem_of_lookup.
    destruct (Forall2_lookup_r _ _ _ _ _ Hcp He') as (e & He & [_ -> _ _]).
    apply list_elem_of_lookup_2, list_elem_of_In, filter_In in He as [_ Hk].
    unfold keep in Hk. rewrite Hsingle in Hk. lia. }
  { fold len. lia. }
  fold len in E, Hmod2, Hpay. rewrite E. exists NV_SUCC, s2, g2. split_and!; [done|done|by left| | |done].
  { intros HPs. split; [|done]. rewrite Hh2. by apply Hp1. }
  intros _. split; [done|]. exists es'. split_and!; [done|done|].
  apply Forall2_same_length_lookup in Hcp as [Hl Hcp]. apply Forall2_same_length_lookup.
  split; [done|]. intros i e e' Hi Hi'. destruct (Hcp i e e' Hi Hi') as [Hs Hie Hst Hb]. split; [done..|].
  apply list_elem_of_lookup_2 in Hi'. pose proof (eo_size _ _ _ _ _ (si_entry _ _ _ _ Hinv1 e' Hi')) as Hsz.
  rewrite <-Hs, Hold2 by done.
  replace (Z.to_nat (size e)) with (8 + Z.to_nat (size e' - 8))%nat in Hb by lia.
  rewrite !bytes_at_app in Hb. by apply app_inj_1 in Hb as [_ Hb]; [|by rewrite !length_bytes_at].
Qed.

(** When the write fails, the old sector is as it was. *)
Lemma other_erased_mod g' :
  mod_inv id old g es -> (forall x, 0 <= g' x < 256) -> other_erased g' -> mod_inv id old g' es.
Proof.
  intros [_ _ Hh] Hb [Hout Hblank].
  pose proof (sector_geometry id sec Hid Hsec) as []. pose proof (sector_geometry id old Hid Hold) as G1.
  pose proof (sectors_apart id old sec Hid Hold Hsec Hne) as Hap. destruct G1.
  assert (Hoh : hdr_at g' id old = hdr_at g id old) by (apply hdr_at_ext; intros x Hx; apply Hout; lia).
  assert (Hnh : hdr_valid id (hdr_at g' id sec) = false).
  { unfold hdr_at. rewrite (bytes_at_ext g' (fun _ => 255)); [done|]. intros j Hj. apply Hblank. lia. }
  split; [done| |].
  - eapply sector_inv_ext; [done..| |exact Hinv|done]. intros x Hx. apply Hout. lia.
  - destruct (decide (es = [])).
    + destruct Hh as (-> & Hno & Hbl). split; [done|]. split.
      * intros k Hk. destruct (decide (k = sec)) as [->|]; [done|].
        assert (k = 0) as -> by lia. rewrite Hoh. by apply Hno.
      * intros x Hx. rewrite Hout by lia. by apply Hbl.
    + destruct Hh as [Hv Hno]. split; [by rewrite Hoh|].
      intros k Hk. by assert (k = sec) as -> by lia.
Qed.
End Update.
