(* ===== verification/NvWrites.v ===== *)
(** * The NV store over any number of writes

    What reads find after the sector updates of [NvCompact.v]; [shelf], a module
    as a map with the room its operating sector has left, on which a write is
    one function; that the code is in step with it; and the theorems that need no
    bound on the number of writes. *)
From S2P Require Import Prelude SysEv SpiFlash FlashIf EvBuffer Nv NvSpec NvStore NvCompact.

(** ** What a read finds *)

(** The value of an item: that of the last valid entry. *)
Definition find_val (g : Z -> Z) (es : list nv_info_idx_t) (itemId len : Z) : option (list Z) :=
  match item_find es itemId len with
  | Some i => match es !! i with
              | Some e => Some (bytes_at g (offset e + 8) (Z.to_nat len))
              | None => None
              end
  | None => None
  end.

Lemma find_val_last g es itemId len :
  find_val g es itemId len =
  (fun e => bytes_at g (offset e + 8) (Z.to_nat len)) <$> last (List.filter (item_hit itemId len) es).
Proof.
  unfold find_val, item_find. induction es as [|e es IH] using rev_ind; [done|].
  rewrite length_app, List.filter_app. cbn [length List.filter]. rewrite Nat.add_1_r. cbn [last_index].
  rewrite lookup_app_r, Nat.sub_diag by lia. cbn [lookup list_lookup].
  destruct (item_hit itemId len e).
  - rewrite lookup_app_r, Nat.sub_diag, last_snoc by lia. done.
  - rewrite app_nil_r, <-IH.
    rewrite (last_index_ext _ (fun i => match es !! i with Some e => item_hit itemId len e | None => false end)).
    + destruct (last_index _ _) as [i|] eqn:E; [|done].
      apply last_index_Some in E as (Hi & _). by rewrite lookup_app_l.
    + intros i Hi. by rewrite lookup_app_l.
Qed.

(** The entries moved by an update are found as before. *)
Lemma find_val_moved g g' es ks es' itemId itemId' len :
  ks = kept itemId true es -> itemId' <> itemId -> 0 <= len < 65528 ->
  Forall2 (copied_payload g g') ks es' -> find_val g' es' itemId' len = find_val g es itemId' len.
Proof.
  intros Hks Hne Hlen Hcp. rewrite !find_val_last.
  assert (List.filter (item_hit itemId' len) es = List.filter (item_hit itemId' len) ks) as ->.
  { rewrite Hks. unfold kept. clear -Hne. induction es as [|e es IH]; cbn [List.filter]; [done|].
    destruct (keep itemId true e) eqn:Ek; cbn [List.filter]; [by rewrite IH|].
    destruct (item_hit itemId' len e) eqn:Eh; [|done]. unfold item_hit, keep in *. lia. }
  assert (Hst : Forall (fun e => usedState e = ITEM_FIELD_VALID) ks).
  { rewrite Hks. apply Forall_forall. intros e [_ Hk]%list_elem_of_In%filter_In. unfold keep in Hk. lia. }
  assert (Hf : Forall2 (fun e e' => bytes_at g' (offset e' + 8) (Z.to_nat len) = bytes_at g (offset e + 8) (Z.to_nat len))
                 (List.filter (item_hit itemId' len) ks) (List.filter (item_hit itemId' len) es')).
  { clear Hks. induction Hcp as [|e e' ks es' [Hs Hi Hu Hb] Hcp IH]; [constructor|].
    apply Forall_cons in Hst as [Hue Hst]. cbn [List.filter].
    replace (item_hit itemId' len e') with (item_hit itemId' len e)
      by (unfold item_hit; by rewrite Hs, Hi, Hu, Hue).
    destruct (item_hit itemId' len e) eqn:Eh; [|by apply IH]. constructor; [|by apply IH].
    unfold item_hit in Eh. rewrite u16_small in Eh by lia. by replace (size e - 8) with len in Hb by lia. }
  apply Forall2_last in Hf. inversion Hf as [x y Hxy E1 E2|E1 E2]; cbn [fmap option_fmap option_map]; congruence.
Qed.

(** ** The live items of a sector *)
Definition key_of (e : nv_info_idx_t) : Z * Z := (idx_itemId e, size e - 8).

Definition valid_entry (e : nv_info_idx_t) : bool := usedState e =? ITEM_FIELD_VALID.

Definition live_keys (es : list nv_info_idx_t) : list (Z * Z) := map key_of (List.filter valid_entry es).

(** The room a set of items takes. *)
Definition keys_size (l : list (Z * Z)) : Z := foldr (fun k t => align4 (k.2 + 8) + t) 0 l.

Lemma live_app es es' : live_keys (es ++ es') = live_keys es ++ live_keys es'.
Proof. unfold live_keys. by rewrite List.filter_app, map_app. Qed.

Lemma live_elem es k : k ∈ live_keys es <-> exists e, e ∈ es /\ usedState e = ITEM_FIELD_VALID /\ k = key_of e.
Proof.
  unfold live_keys. rewrite list_elem_of_fmap. unfold valid_entry. split.
  - intros (e & -> & [He%list_elem_of_In Hu%Z.eqb_eq]%list_elem_of_In%filter_In). eauto.
  - intros (e & He%list_elem_of_In & Hu%Z.eqb_eq & ->). exists e. split; [done|].
    by apply list_elem_of_In, filter_In.
Qed.

Lemma live_moved g g' es ks es' itemId :
  ks = kept itemId true es -> Forall2 (copied_payload g g') ks es' ->
  live_keys es' = List.filter (fun k => negb (k.1 =? itemId)) (live_keys es) /\ total ks = keys_size (live_keys es').
Proof.
  intros Hks Hcp. assert (live_keys ks = List.filter (fun k => negb (k.1 =? itemId)) (live_keys es)) as <-.
  { rewrite Hks. clear. unfold live_keys, kept. induction es as [|e es IH]; [done|]. cbn [List.filter].
    assert (keep itemId true e = valid_entry e && negb (idx_itemId e =? itemId)) as ->.
    { unfold keep, valid_entry. by rewrite andb_false_r, orb_false_r. }
    destruct (valid_entry e) eqn:Hu; cbn [andb map List.filter]; [|done].
    change (key_of e).1 with (idx_itemId e).
    destruct (idx_itemId e =? itemId); cbn [negb]; [done|]. cbn [List.filter].
    rewrite Hu. cbn [map]. by f_equal. }
  assert (Hst : Forall (fun e => usedState e = ITEM_FIELD_VALID) ks).
  { rewrite Hks. apply Forall_forall. intros e [_ Hk]%list_elem_of_In%filter_In. unfold keep in Hk. lia. }
  clear Hks. unfold live_keys. induction Hcp as [|e e' ks es' [Hs Hi Hu _] Hcp IH]; [done|].
  apply Forall_cons in Hst as [Hue Hst]. destruct (IH Hst) as [E1 E2].
  assert (valid_entry e = true /\ valid_entry e' = true) as [Hv Hv']
    by (unfold valid_entry; by rewrite Hu, Hue).
  assert (key_of e' = key_of e) as Hk by (unfold key_of; by rewrite Hs, Hi).
  cbn [List.filter]. rewrite Hv, Hv'. cbn [map total keys_size foldr]. fold (total ks).
  rewrite Hk. split; [by rewrite E1|]. rewrite E2. unfold key_of at 2. cbn [snd]. by rewrite Z.sub_add.
Qed.

(** After the deletion of the old copy the item is not live. *)
Lemma live_delete es itemId len :
  0 <= len < 65528 -> NoDup (live_keys es) ->
  let es' := log_delete es (item_find es itemId len) in
  NoDup (live_keys es') /\ ~ ((itemId, len) ∈ live_keys es') /\ forall k, k ∈ live_keys es' -> k ∈ live_keys es.
Proof.
  intros Hlen Hnd. cbv zeta. unfold log_delete.
  destruct (item_find es itemId len) as [i|] eqn:Ef.
  - pose proof (item_find_Some _ _ _ _ Ef) as (e & Hi & Hu & Hsz & Hid). rewrite Hi.
    rewrite u16_small in Hsz by lia.
    apply list_elem_of_split_length in Hi as (l1 & l2 & -> & ->).
    rewrite insert_app_r_alt, Nat.sub_diag by lia. cbn [insert list_insert].
    rewrite !live_app in *.
    assert (forall e0, live_keys (e0 :: l2) = live_keys [e0] ++ live_keys l2) as Hc by (intros e0; apply (live_app [e0])).
    rewrite !Hc in *.
    assert (live_keys [e] = [(itemId, len)]) as He.
    { unfold live_keys. cbn [List.filter].
      assert (valid_entry e = true) as -> by (unfold valid_entry; by rewrite Hu). cbn [map].
      unfold key_of. rewrite Hid. do 2 f_equal. lia. }
    rewrite He in *. set (e' := mk_idx _ _ _ _). assert (live_keys [e'] = []) as -> by done. cbn [app] in *.
    apply NoDup_app in Hnd as (H1 & H12 & H2). apply NoDup_cons in H2 as [Hn2 H2].
    split; [apply NoDup_app; split; [done|]; split; [|done]; intros k Hk; by apply H12, not_elem_of_cons in Hk as [_ ?]|].
    split; [|intros k; rewrite !elem_of_app, elem_of_cons; tauto]. intros [Hk|Hk]%elem_of_app; [|done]. by apply (H12 _ Hk); left.
  - split; [done|]. split; [|done]. intros (e & He & Hu & Hk)%live_elem. injection Hk as Hi Hs.
    apply list_elem_of_lookup in He as [j Hj].
    pose proof (last_index_None _ _ Ef j (lookup_lt_Some _ _ _ Hj)) as Hh. cbv beta in Hh. rewrite Hj in Hh.
    unfold item_hit in Hh. rewrite u16_small in Hh by lia. lia.
Qed.

Lemma keys_size_Permutation l l' : l ≡ₚ l' -> keys_size l = keys_size l'.
Proof. unfold keys_size. induction 1; cbn; [done|lia|lia|congruence]. Qed.

Lemma keys_size_app l l' : keys_size (l ++ l') = keys_size l + keys_size l'.
Proof. unfold keys_size. induction l as [|k l IH]; cbn; lia. Qed.

Lemma keys_size_nonneg l : (forall k, k ∈ l -> 0 <= k.2) -> 0 <= keys_size l.
Proof.
  induction l as [|k l IH]; intros Hp; cbn; [lia|]. fold (keys_size l).
  pose proof (align4_bounds (k.2 + 8)). pose proof (Hp k ltac:(by left)).
  specialize (IH (fun k Hk => Hp k ltac:(by right))). lia.
Qed.

Lemma keys_size_perm l l' : l ⊆+ l' -> (forall k, k ∈ l' -> 0 <= k.2) -> keys_size l <= keys_size l'.
Proof.
  intros Hs Hpos. apply submseteq_Permutation in Hs as [l2 Hp].
  rewrite (keys_size_Permutation _ _ Hp), keys_size_app.
  enough (0 <= keys_size l2) by lia. apply keys_size_nonneg. intros k Hk. apply Hpos. rewrite Hp.
  apply elem_of_app. by right.
Qed.

(** ** One write *)

(** The items of a module, the index entries its operating sector has used and
    the bytes of item area they take, those of deleted items included. *)
Record shelf := mk_shelf { sh_items : store; sh_entries : Z; sh_bytes : Z }.

(** The bytes the items of a map take, headers included. *)
Definition items_bytes (M : store) : Z := keys_size (map_to_list M).*1.

(** Whether one more item of [len] bytes fits a sector. *)
Definition has_room (id entries bytes len : Z) : bool :=
  (entries <? MODULE_IDX_NUM id) && (MODULE_INFO_SIZE id + bytes + (len + 8) <=? NV_SECTOR_SIZE id).

(** A write: the item goes to the operating sector when it has room.  Otherwise
    the items with other ids are moved to the other sector, if [mem] says that
    there is a buffer to copy them with, and the new item follows them if it
    fits.  Otherwise the write is refused and the module is as it was. *)
Definition shelf_put (id : Z) (mem : bool) (sh : shelf) (itemId : Z) (buf : list Z) : nv_sts_t * shelf :=
  let len := Z.of_nat (length buf) in
  let others := filter (fun kv => kv.1.1 <> itemId) (sh_items sh) in
  let add M entries bytes := (NV_SUCC, mk_shelf (<[(itemId, len) := buf]> M) (entries + 1) (bytes + (len + 8))) in
  if has_room id (sh_entries sh) (sh_bytes sh) len then add (sh_items sh) (sh_entries sh) (sh_bytes sh)
  else if mem && has_room id (Z.of_nat (base.size others)) (items_bytes others) len then
    add others (Z.of_nat (base.size others)) (items_bytes others)
  else (NV_NOT_ENOUGH_SAPCE, sh).

(** All items have lengths that are multiples of four. *)
Definition aligned (es : list nv_info_idx_t) : Prop := Forall (fun e => size e mod 4 = 0) es.

Section Step.
Context {F B : Type} `{FlashLaws F} `{NvHeap B} (P : B -> Prop) (HP : heap_serves P).
Implicit Type s : nv F B.

(** The map after a sector update. *)
Lemma update_map (id old sec : Z) (g g' : Z -> Z) (es es' : list nv_info_idx_t) (itemId : Z) (buf : list Z) (M : store) :
  let len := Z.of_nat (length buf) in
  mod_rel id old g es M -> item_ok itemId len ->
  Forall2 (copied_payload g g') (kept itemId true es) es' ->
  mod_inv id sec g' (es' ++ [new_idx id sec es' itemId len]) ->
  bytes_at g' (next_off id sec es' + 8) (length buf) = buf ->
  mod_rel id sec g' (es' ++ [new_idx id sec es' itemId len])
    (<[(itemId, len) := buf]> (filter (fun kv => kv.1.1 <> itemId) M)).
Proof.
  intros len [_ HM] Hok Hcp Hmod Hpay. split; [done|]. intros itemId' len' Hok'.
  change (match item_find ?l itemId' len' with Some i => _ | None => _ end)
    with (find_val g' l itemId' len').
  rewrite find_val_last, List.filter_app. cbn [List.filter]. rewrite item_hit_new by done.
  case_bool_decide as E.
  - injection E as <- <-. rewrite (lookup_insert_eq (M := gmap _)), last_snoc. cbn. unfold len. rewrite Nat2Z.id.
    by rewrite Hpay.
  - rewrite (lookup_insert_ne (M := gmap _)), app_nil_r by done.
    rewrite <-find_val_last. destruct (decide (itemId' = itemId)) as [->|Hne].
    + rewrite map_lookup_filter_None_2 by (right; intros ? ?; cbn; tauto).
      unfold find_val. rewrite item_find_none; [done|]. intros e' (i & He')%list_elem_of_lookup.
      destruct (Forall2_lookup_r _ _ _ _ _ Hcp He') as (e & He & [_ -> _ _]).
      apply list_elem_of_lookup_2, list_elem_of_In, filter_In in He as [_ Hk]. unfold keep in Hk. lia.
    + transitivity (M !! (itemId', len')).
      { apply option_eq. intros v. rewrite map_lookup_filter_Some. cbn. tauto. }
      rewrite (HM _ _ Hok').
      symmetry. apply (find_val_moved g g' es (kept itemId true es) es' itemId); try done. apply Hok'.
Qed.

(** The log [es] of the operating sector stands for the shelf. *)
Record shelf_rel (id sec : Z) (g : Z -> Z) (es : list nv_info_idx_t) (sh : shelf) : Prop := {
  sr_map : mod_rel id sec g es (sh_items sh);
  sr_entries : sh_entries sh = Z.of_nat (length es);
  sr_bytes : sh_bytes sh = total es;
  sr_live : NoDup (live_keys es);
  sr_keys k v : sh_items sh !! k = Some v -> item_ok k.1 k.2;
  sr_aligned : aligned es
}.

Lemma other_sec sec : 0 <= sec < 2 -> 0 <= Z.land (sec + 1) 1 < 2 /\ sec <> Z.land (sec + 1) 1.
Proof. intros Hsec. assert (sec = 0 \/ sec = 1) as [-> | ->] by lia; vm_compute; intuition discriminate. Qed.

Lemma next_off_aligned id sec g es e :
  nv_module id -> 0 <= sec < 2 -> sector_inv id sec g es -> aligned es -> last es = Some e ->
  next_off id sec es = offset e + size e.
Proof.
  intros Hid Hsec Hinv Hal Hl. unfold next_off. rewrite Hl.
  apply last_Some_elem_of in Hl. pose proof (eo_al _ _ _ _ _ (si_entry _ _ _ _ Hinv e Hl)).
  pose proof (proj1 (Forall_forall _ _) Hal e Hl) as Hs. cbv beta in Hs. rewrite align4_eq. zdm.
Qed.

Lemma kept_total_nonneg id sec g es itemId single :
  sector_inv id sec g es -> 0 <= total (kept itemId single es).
Proof.
  intros Hinv. apply total_nonneg, Forall_forall. intros e [He%list_elem_of_In _]%list_elem_of_In%filter_In.
  pose proof (eo_size _ _ _ _ _ (si_entry _ _ _ _ Hinv e He)). lia.
Qed.

Lemma copied_payload_total g g' ks es : Forall2 (copied_payload g g') ks es -> total es = total ks.
Proof.
  induction 1 as [|e e' ks es [Hs _ _ _] _ IH]; cbn; [done|]. fold (total es) (total ks). by rewrite Hs, IH.
Qed.

Lemma log_delete_aligned es d : aligned es -> aligned (log_delete es d).
Proof.
  intros Hal. unfold log_delete. destruct d as [i|]; [|done]. destruct (es !! i) as [e|] eqn:E; [|done].
  apply Forall_insert; [done|]. cbn. by apply (Forall_lookup_1 _ _ _ _ Hal E).
Qed.

Lemma live_new id sec es itemId len : live_keys [new_idx id sec es itemId len] = [(itemId, len)].
Proof. unfold live_keys, key_of. cbn. do 2 f_equal. lia. Qed.

Lemma aligned_new es id sec es0 itemId len :
  aligned es -> len mod 4 = 0 -> aligned (es ++ [new_idx id sec es0 itemId len]).
Proof. intros Hal Hl. apply Forall_app. split; [done|]. constructor; [cbn; zdm|done]. Qed.

Lemma aligned_moved g g' es es' itemId single :
  aligned es -> Forall2 (copied_payload g g') (kept itemId single es) es' -> aligned es'.
Proof.
  intros Hal Hcp. apply Forall_forall. intros e' (i & He')%list_elem_of_lookup.
  destruct (Forall2_lookup_r _ _ _ _ _ Hcp He') as (e & He & [-> _ _ _]).
  apply list_elem_of_lookup_2, list_elem_of_In, filter_In in He as [He _].
  by apply (proj1 (Forall_forall _ _) Hal), list_elem_of_In.
Qed.

(** Adding an item that is not live. *)
Lemma live_snoc es0 es es' id sec es1 itemId len :
  NoDup (live_keys es') -> (itemId, len) ∉ live_keys es' -> (forall k, k ∈ live_keys es' -> k ∈ live_keys es) ->
  es0 = es' ++ [new_idx id sec es1 itemId len] ->
  NoDup (live_keys es0) /\ forall k, k ∈ live_keys es0 -> k = (itemId, len) \/ k ∈ live_keys es.
Proof.
  intros Hnd Hni Hsub ->. rewrite live_app, live_new. split.
  - apply NoDup_app. split; [done|]. split; [|apply NoDup_singleton].
    intros k Hk Hk'%list_elem_of_singleton. by subst.
  - intros k [Hk|Hk%list_elem_of_singleton]%elem_of_app; auto.
Qed.

(** A failed write stands for the same map. *)
Lemma failed_rel id sec sec' g g' es M :
  nv_module id -> 0 <= sec < 2 -> 0 <= sec' < 2 -> sec <> sec' -> mod_rel id sec g es M ->
  (forall x, 0 <= g' x < 256) -> other_erased id sec' g g' -> mod_rel id sec g' es M.
Proof.
  intros Hid Hsec Hsec' Hne [Hmod HM] Hb Hoe. pose proof (mi_inv _ _ _ _ Hmod) as Hinv.
  split; [by apply (other_erased_mod id sec sec' g)|]. intros itemId len Hok. rewrite (HM _ _ Hok).
  destruct (item_find es itemId len) as [i|] eqn:Ef; [|done].
  apply item_find_Some in Ef as (e & Hi & _ & Hsz & _). rewrite Hi. f_equal.
  pose proof (si_entry _ _ _ _ Hinv e (list_elem_of_lookup_2 _ _ _ Hi)) as [].
  pose proof (sector_geometry id sec Hid Hsec) as []. pose proof (si_next _ _ _ _ Hinv).
  pose proof (sectors_apart id sec sec' Hid Hsec Hsec' Hne). destruct Hok as (_ & _ & Hlen).
  rewrite u16_small in Hsz by lia. apply bytes_at_ext. intros j Hj. symmetry. apply Hoe. lia.
Qed.

(** The live items are those of the map. *)
Lemma shelf_live id sec g es sh :
  shelf_rel id sec g es sh -> (map_to_list (sh_items sh)).*1 ≡ₚ live_keys es.
Proof.
  intros [[Hmod HM] _ _ Hnd Hok _]. apply NoDup_Permutation; [apply NoDup_fst_map_to_list|done|].
  pose proof (si_entry _ _ _ _ (mi_inv _ _ _ _ Hmod)) as He.
  intros [i l]. rewrite list_elem_of_fmap. split.
  - intros ([k v] & E & Hkv%elem_of_map_to_list). cbn [fst] in E. subst k. pose proof (Hok _ _ Hkv) as Hk.
    rewrite (HM i l Hk) in Hkv. destruct (item_find es i l) as [j|] eqn:Ef; [|done].
    apply item_find_Some in Ef as (e & Hj & Hu & Hsz & Hi). apply live_elem. exists e.
    split; [by eapply list_elem_of_lookup_2|]. split; [done|]. unfold key_of. rewrite Hi. f_equal.
    destruct Hk as (_ & _ & Hl). cbn [fst snd] in Hl. rewrite u16_small in Hsz by lia. lia.
  - intros (e & Hin & Hu & Hk)%live_elem. injection Hk as Hi Hl. pose proof (He e Hin) as [(_ & Hsz & Hib & _) _ Hidle H8 _ _ _ _].
    assert (Hiok : item_ok i l) by (unfold item_ok; rewrite Hi; split; [done|split; [done|lia]]).
    specialize (HM i l Hiok). apply list_elem_of_lookup in Hin as [j Hj].
    destruct (item_find es i l) as [j'|] eqn:Ef.
    + apply item_find_Some in Ef as (e' & Hj' & _). rewrite Hj' in HM. eexists (_, _).
      split; [|by apply elem_of_map_to_list]. done.
    + exfalso. pose proof (last_index_None _ _ Ef j (lookup_lt_Some _ _ _ Hj)) as Hh. cbv beta in Hh.
      rewrite Hj in Hh. unfold item_hit in Hh. rewrite u16_small in Hh by lia. lia.
Qed.

(** What a sector update moves, in the log and in the map. *)
Lemma shelf_kept id sec g es sh itemId :
  shelf_rel id sec g es sh ->
  let others := filter (fun kv => kv.1.1 <> itemId) (sh_items sh) in
  Z.of_nat (length (kept itemId true es)) = Z.of_nat (base.size others) /\
  total (kept itemId true es) = items_bytes others.
Proof.
  intros Hsh others. pose proof (shelf_live _ _ _ _ _ Hsh) as Hp. set (ks := kept itemId true es).
  assert (Hst : forall e, e ∈ ks -> usedState e = ITEM_FIELD_VALID).
  { intros e [_ Hk]%list_elem_of_In%filter_In. unfold keep in Hk. lia. }
  assert (Hcp : Forall2 (copied_payload g g) ks ks).
  { apply Forall2_same_length_lookup. split; [done|]. intros i e e' He He'. simplify_eq.
    split; [done..| |done]. by eapply Hst, list_elem_of_lookup_2. }
  destruct (live_moved g g es ks ks itemId eq_refl Hcp) as [El ->].
  assert (Ho : (map_to_list others).*1 ≡ₚ live_keys ks).
  { rewrite El. apply NoDup_Permutation; [apply NoDup_fst_map_to_list|
      apply NoDup_ListNoDup, List.NoDup_filter, NoDup_ListNoDup, (sr_live _ _ _ _ _ Hsh)|].
    intros k. rewrite (list_elem_of_In (List.filter _ _)), filter_In, <-list_elem_of_In, <-Hp.
    rewrite !list_elem_of_fmap. split.
    - intros ([k' v] & -> & [Hk Hne]%elem_of_map_to_list%map_lookup_filter_Some). cbn [fst] in *. split; [|lia].
      exists (k', v). split; [done|]. by apply elem_of_map_to_list.
    - intros [([k' v] & -> & Hk%elem_of_map_to_list) Hne]. cbn [fst] in *. exists (k', v). split; [done|].
      apply elem_of_map_to_list, map_lookup_filter_Some. split; [done|]. cbn. lia. }
  split; [|symmetry; by apply keys_size_Permutation]. f_equal.
  rewrite <-length_map_to_list, <-(length_map fst (map_to_list others)).
  change (map fst (map_to_list others)) with ((map_to_list others).*1). rewrite Ho.
  unfold live_keys. rewrite length_map. f_equal. symmetry. clear -Hst.
  induction ks as [|e ks IH]; [done|]. cbn [List.filter].
  assert (valid_entry e = true) as -> by (unfold valid_entry; rewrite Hst by (by left); done).
  f_equal. apply IH. intros e' He'. apply Hst. by right.
Qed.

Lemma item_ok_insert (M : store) itemId (buf : list Z) :
  item_ok itemId (Z.of_nat (length buf)) -> (forall k v, M !! k = Some v -> item_ok k.1 k.2) ->
  forall k v, <[(itemId, Z.of_nat (length buf)) := buf]> M !! k = Some v -> item_ok k.1 k.2.
Proof. by intros Hok HM k v [[<- _]|[_ Hk%HM]]%lookup_insert_Some. Qed.

Lemma total_new es id sec es0 itemId len :
  len mod 4 = 0 -> 0 <= len < 65528 -> total (es ++ [new_idx id sec es0 itemId len]) = total es + (len + 8).
Proof.
  intros Hl4 Hl. rewrite total_app. unfold new_idx. cbn [total foldr size]. rewrite align4_eq. zdm.
Qed.

Lemma total_delete es d : total (log_delete es d) = total es.
Proof.
  unfold log_delete. destruct d as [i|]; [|done]. destruct (es !! i) as [e|] eqn:E; [|done].
  by eapply total_insert.
Qed.

(** A write that is too big for a sector finds no room anywhere. *)
Lemma has_room_big id entries bytes len :
  0 <= bytes -> NV_SECTOR_SIZE id < len + 8 + MODULE_INFO_SIZE id -> has_room id entries bytes len = false.
Proof. intros Hb Hl. unfold has_room. apply andb_false_iff. right. apply Z.leb_gt. lia. Qed.

(** The code looks for room where the model does. *)
Lemma needs_update_room id sec g es sh len :
  nv_module id -> shelf_rel id sec g es sh -> MODULE_INFO_SIZE id + (len + 8) <= NV_SECTOR_SIZE id ->
  needs_update id sec es len = negb (has_room id (sh_entries sh) (sh_bytes sh) len).
Proof.
  intros Hid [[[Hsec Hinv _] _] -> -> _ _ Hal] Hbig. pose proof (sector_geometry id sec Hid Hsec) as [].
  pose proof (si_total _ _ _ _ Hinv) as Ht. pose proof (si_len _ _ _ _ Hinv). unfold needs_update, has_room.
  destruct (last es) as [e|] eqn:El.
  - rewrite (next_off_aligned id sec g es e) in Ht by done. lia.
  - apply last_None in El as ->. cbn [length total foldr]. symmetry. apply negb_false_iff, andb_true_iff.
    split; [apply Z.ltb_lt; lia|]. apply Z.leb_le. by rewrite Z.add_0_r.
Qed.

(** The shelf after a move. *)
Lemma shelf_moved id sec sec' g g' es es' sh itemId buf :
  let len := Z.of_nat (length buf) in let ks := kept itemId true es in
  let new := es' ++ [new_idx id sec' es' itemId len] in
  shelf_rel id sec g es sh -> item_ok itemId len -> len mod 4 = 0 ->
  Forall2 (copied_payload g g') ks es' -> mod_inv id sec' g' new ->
  bytes_at g' (next_off id sec' es' + 8) (length buf) = buf ->
  shelf_rel id sec' g' new
    (mk_shelf (<[(itemId, len) := buf]> (filter (fun kv => kv.1.1 <> itemId) (sh_items sh)))
       (Z.of_nat (length ks) + 1) (total ks + (len + 8))).
Proof.
  intros len ks new [Hrel _ _ Hnd Hdom Hal] Hok Hlen4 Hcp Hmod' Hpay. pose proof Hok as (_ & _ & Hlr).
  split; cbn [sh_items sh_entries sh_bytes]; [by eapply update_map| | | | |].
  - unfold new. rewrite length_app, (Forall2_length _ _ _ Hcp). cbn [length]. lia.
  - unfold new. rewrite total_new by done. f_equal. symmetry. by eapply copied_payload_total.
  - destruct (live_moved g g' es _ es' itemId eq_refl Hcp) as [El _].
    eapply live_snoc with (es := es); [..|done]; rewrite El.
    + by apply NoDup_ListNoDup, List.NoDup_filter, NoDup_ListNoDup.
    + intros [_ Hk]%list_elem_of_In%filter_In. cbn in Hk. by rewrite Z.eqb_refl in Hk.
    + intros k [Hk _]%list_elem_of_In%filter_In. by apply list_elem_of_In.
  - apply item_ok_insert; [done|]. intros k v [Hk _]%map_lookup_filter_Some. by eapply Hdom.
  - by eapply aligned_new, Hlen4; eapply aligned_moved.
Qed.

(** A write is a step of the shelf; with a buffer to copy with, the one that has it. *)
Lemma nv_put_step id itemId buf sec s g es sh :
  let len := Z.of_nat (length buf) in
  nv_module id -> nv_at (nv_fl s) g -> shelf_rel id sec g es sh ->
  item_ok itemId len -> len mod 4 = 0 -> Forall is_byte buf ->
  exists mem s' sec' g' es',
    let '(r, sh') := shelf_put id mem sh itemId buf in
    nv_flashWriteNew true id itemId len buf s = (r, s') /\
    nv_at (nv_fl s') g' /\ shelf_rel id sec' g' es' sh' /\
    (P (nv_heap s) -> mem = true /\ P (nv_heap s')).
Proof.
  intros len Hid Hat Hsh Hok Hlen4 Hbuf. pose proof Hsh as [Hrel Hse Hsb Hnd Hdom Hal]. pose proof Hrel as [Hmod _].
  pose proof Hmod as [Hsec Hinv _]. pose proof (sector_geometry id sec Hid Hsec) as [].
  pose proof (shelf_kept _ _ _ _ _ itemId Hsh) as [Ekn Ekt]. cbv zeta in Ekn, Ekt.
  pose proof (kept_total_nonneg id sec g es itemId true Hinv) as Hkn. unfold shelf_put. fold len.
  rewrite <-Ekn, <-Ekt.
  destruct (Z.ltb_spec (NV_SECTOR_SIZE id) (ITEM_TOTAL_LEN len + MODULE_INFO_SIZE id)) as [Hbig|Hbig].
  { (* never fits *)
    unfold ITEM_TOTAL_LEN, sizeof_itemHdr in Hbig. pose proof (si_next _ _ _ _ Hinv). pose proof (si_total _ _ _ _ Hinv).
    exists true, s, sec, g, es. rewrite !has_room_big by lia. cbn [andb]. unfold nv_flashWriteNew.
    unfold ITEM_TOTAL_LEN, sizeof_itemHdr. apply Z.ltb_lt in Hbig as ->. by split_and!. }
  unfold ITEM_TOTAL_LEN, sizeof_itemHdr in Hbig.
  pose proof (needs_update_room id sec g es sh len Hid Hsh ltac:(lia)) as Hup. pose proof Hok as (Hib & Hidle & Hlr).
  destruct (has_room id (sh_entries sh) (sh_bytes sh) len) eqn:Hr; cbn [negb] in Hup.
  - unfold has_room in Hr. pose proof (si_total _ _ _ _ Hinv).
    destruct (nv_write_map id sec itemId buf s g es _ Hid Hat Hrel Hok Hbuf)
      as (s' & g' & es' & E & Hat' & Hrel' & Ees' & Hh); [lia|fold len; lia|].
    exists true, s', sec, g', es'. split; [done|]. split; [done|]. rewrite Hh. split; [|by split]. fold len in Ees'.
    split; cbn [sh_items sh_entries sh_bytes]; [done| | | |by apply item_ok_insert|].
    + rewrite Hse, Ees', length_app, length_log_delete. cbn [length]. lia.
    + by rewrite Hsb, Ees', total_new, total_delete.
    + destruct (live_delete es itemId len) as (L1 & L2 & L3); [lia|done|]. by eapply live_snoc.
    + rewrite Ees'. by apply aligned_new; [apply log_delete_aligned|].
  - set (sec' := Z.land (sec + 1) 1).
    pose proof (other_sec sec Hsec) as Hs'. fold sec' in Hs'.
    destruct (nv_flashWriteNew_update_spec P HP id itemId true sec sec' g es Hid Hsec (proj1 Hs') (proj2 Hs') Hinv buf s)
      as (r & s' & g' & E & Hat' & Hrr & Hp & Hok' & Hbad); try done; [fold len; lia|].
    fold len in E, Hp, Hok'.
    destruct (decide (r = NV_SUCC)) as [->|Hner].
    + destruct (Hok' eq_refl) as ([Hf1 Hf2] & es' & Hmod' & Hpay & Hcp). eexists true, s', sec', g', _.
      assert (has_room id (Z.of_nat (length (kept itemId true es))) (total (kept itemId true es)) len = true) as ->
        by (unfold has_room; lia). cbn [andb].
      split; [done|]. split; [done|]. split; [|intros HPs; split; [done|by apply Hp]].
      by eapply (shelf_moved id sec sec' g g' es es').
    + destruct Hrr as [?|Er]; [done|]; subst r.
      assert (Hrel' : shelf_rel id sec g' es sh).
      { split; [|done..]. eapply failed_rel; [done..|apply Hs'|apply Hs'|done| |by apply Hbad].
        intros x. eapply nv_at_byte_range, Hat'. }
      destruct (has_room id (Z.of_nat (length (kept itemId true es))) (total (kept itemId true es)) len) eqn:Hf.
      * exists false, s', sec, g', es. cbn [andb]. split_and!; [done..|]. intros HPs. exfalso. apply Hner.
        apply (Hp HPs). unfold has_room in Hf. split; lia.
      * exists true, s', sec, g', es. cbn [andb]. split_and!; [done..|]. intros HPs. split; [done|by apply Hp].
Qed.
End Step.

(** ** The copy buffer *)

(** What the store asks of the heap. *)
Class NvHeapLaws (B : Type) `{NvHeap B} := {
  heap_ok : B -> Prop;
  heap_ok_serves : heap_serves heap_ok
}.

(** The pools of [EvBuffer.v] have it as long as a buffer of 48 bytes is free. *)
Lemma ev_heap_serves `{EvLayoutOk} :
  heap_serves (fun s : buf_state => exists a, buf_inv s a /\ is_Some (first_fit 0 (a_free a) 48)).
Proof.
  intros s (a & Hi & i & Ef). cbn [heap_alloc heap_free ev_NvHeap].
  destruct (allocate_sim s a 48 Hi) as (s1 & -> & Hi1 & _). cbn [fst snd].
  pose proof (abs_allocate_cases 48 a) as Hc. destruct (abs_allocate 48 a) as [p a1] eqn:Ea. cbn [fst snd] in *.
  assert (exists b l, p = b + 8 /\ a_free a !! i = Some (b :: l) /\
            a1 = mk_alloc (<[i := l]> (a_free a)) ({[b]} ∪ a_ever a)) as (b & l & -> & El & ->).
  { unfold abs_allocate in Ea. cbn [Z.eqb orb Z.ltb Z.compare Pos.compare Pos.compare_cont] in Ea.
    rewrite Ef in Ea. apply first_fit_spec in Ef as (_ & b & l & El & _). rewrite Nat.sub_0_r in El.
    rewrite El in Ea. injection Ea as <- <-. eauto. }
  split; [pose proof (arena_bounds i b) as Hb; destruct (abs_allocate_taken s a i b l Hi El) as (H4 & Hbi & _);
          specialize (Hb H4 Hbi); destruct (arena_fits i H4) as [[? _] _]; lia|].
  destruct (abs_allocate_taken s a i b l Hi El) as (Hi4 & Hb & Hni & _).
  assert (Eb : b + 8 - 8 = b) by lia.
  destruct (free_sim s1 _ (b + 8) Hi1) as (s2 & -> & Hi2 & _).
  { split; rewrite Eb; [cbn [a_ever]; apply elem_of_union; left; by apply elem_of_singleton|eauto]. }
  eexists. split; [exact Hi2|]. unfold abs_free. rewrite Eb, (group_of_unique i) by done. cbn [a_free].
  rewrite list_lookup_insert_eq by (by eapply lookup_lt_Some). cbn [default].
  rewrite bool_decide_false by done. cbn [snd a_free].
  rewrite list_insert_insert_eq, list_insert_id by done. eauto.
Qed.

#[export] Instance ev_NvHeapLaws `{EvLayoutOk} : NvHeapLaws buf_state :=
  {| heap_ok_serves := ev_heap_serves |}.

(** The pools after [ev_buf_init]. *)
Lemma ev_heap_ok_init `{EvLayoutOk} s : irq_ok (b_cpu s) -> heap_ok (ev_buf_init s).
Proof.
  intros Hirq. exists abs_init. split; [by apply init_inv|].
  eexists. vm_compute. reflexivity.
Qed.

(** ** Sequences of writes *)

(** The items a module is used for: ids with one length each, a multiple of four,
    that fit one sector together. *)
Record items_ok (id : Z) (items : list (Z * Z)) : Prop := {
  io_ids : NoDup items.*1;
  io_item k : k ∈ items -> item_ok k.1 k.2 /\ k.2 mod 4 = 0;
  io_num : Z.of_nat (length items) <= MODULE_IDX_NUM id;
  io_size : MODULE_INFO_SIZE id + keys_size items <= NV_SECTOR_SIZE id
}.

(** A sequence of writes; [mems] tells, for each, whether there is a copy buffer. *)
Fixpoint shelf_puts (id : Z) (mems : list bool) (sh : shelf) (ops : list (Z * list Z)) : list nv_sts_t * shelf :=
  match mems, ops with
  | mem :: mems', (itemId, buf) :: ops' =>
      let '(r, sh) := shelf_put id mem sh itemId buf in
      let '(rs, sh) := shelf_puts id mems' sh ops' in
      (r :: rs, sh)
  | _, _ => ([], sh)
  end.

(** A module after a reset. *)
Definition empty_shelf : shelf := mk_shelf ∅ 0 0.

Definition put_aligned (op : Z * list Z) : Prop := put_ok op /\ Z.of_nat (length op.2) mod 4 = 0.

Lemma items_unique id items k l l' :
  items_ok id items -> (k, l) ∈ items -> (k, l') ∈ items -> l' = l.
Proof.
  intros [Hnd _ _ _] Hk Hk'. induction items as [|[i z] items IH]; [by apply elem_of_nil in Hk|].
  cbn in Hnd. apply NoDup_cons in Hnd as [Hni Hnd].
  assert (forall x, (i, x) ∈ items -> False) as Hno.
  { intros x Hx. apply Hni. apply list_elem_of_fmap. by exists (i, x). }
  apply elem_of_cons in Hk as [E|Hk]; apply elem_of_cons in Hk' as [E'|Hk'];
    simplify_eq; try done; try (by exfalso; eapply Hno). by apply IH.
Qed.

(** The shelf holds items it is used for. *)
Definition only_items (items : list (Z * Z)) (M : store) : Prop := forall k v, M !! k = Some v -> k ∈ items.

(** The moved items and the new one fit when all items are among [items]. *)
Lemma items_fit id items M itemId len :
  items_ok id items -> only_items items M -> (itemId, len) ∈ items ->
  let others := filter (fun kv => kv.1.1 <> itemId) M in
  has_room id (Z.of_nat (base.size others)) (items_bytes others) len = true.
Proof.
  intros [_ Hit Hnum Hsize] HM Hin others. unfold has_room, items_bytes. rewrite <-length_map_to_list.
  set (ks := (map_to_list others).*1).
  assert (Hk : forall k, k ∈ ks -> k.1 <> itemId /\ k ∈ items).
  { intros k ([k' v] & -> & [Hk Hne]%elem_of_map_to_list%map_lookup_filter_Some)%list_elem_of_fmap.
    split; [done|by eapply HM]. }
  assert (Hs : (itemId, len) :: ks ⊆+ items).
  { apply NoDup_submseteq.
    - apply NoDup_cons. split; [by intros [? _]%Hk|apply NoDup_fst_map_to_list].
    - by intros k [->|[_ ?]%Hk]%elem_of_cons. }
  pose proof (submseteq_length _ _ Hs) as Hl. cbn [length] in Hl. unfold ks in Hl at 1. rewrite length_fmap in Hl.
  apply keys_size_perm in Hs; [|intros k Hk'; destruct (Hit k Hk') as [(_ & _ & ?) _]; lia].
  cbn [keys_size foldr snd] in Hs. fold (keys_size ks) in Hs.
  pose proof (align4_bounds (len + 8)). lia.
Qed.

(** With one length per id nothing is refused, and nothing is dropped. *)
Lemma shelf_put_items id items sh itemId buf :
  let len := Z.of_nat (length buf) in
  items_ok id items -> only_items items (sh_items sh) -> (itemId, len) ∈ items ->
  let '(r, sh') := shelf_put id true sh itemId buf in
  r = NV_SUCC /\ sh_items sh' = <[(itemId, len) := buf]> (sh_items sh) /\ only_items items (sh_items sh').
Proof.
  intros len Hio HM Hin. unfold shelf_put. fold len. rewrite (items_fit id items) by done. cbn [andb].
  assert (only_items items (<[(itemId, len) := buf]> (sh_items sh))).
  { by intros k v [[<- _]|[_ ?%HM]]%lookup_insert_Some. }
  destruct (has_room id _ _ len); [done|]. cbn [sh_items].
  assert (<[(itemId, len) := buf]> (filter (fun kv => kv.1.1 <> itemId) (sh_items sh)) =
          <[(itemId, len) := buf]> (sh_items sh)) as ->; [|done].
  apply map_eq. intros k. destruct (decide (k = (itemId, len))) as [->|Hne]; [by rewrite !lookup_insert_eq|].
  rewrite !lookup_insert_ne by done. apply option_eq. intros v. rewrite map_lookup_filter_Some. cbn.
  split; [tauto|]. intros Hv. split; [done|]. intros Hk. apply Hne. destruct k as [i l]. cbn in Hk. subst i.
  f_equal. eapply items_unique; [exact Hio|exact Hin|]. by eapply HM.
Qed.

Lemma shelf_puts_items id items mems sh ops :
  items_ok id items -> only_items items (sh_items sh) -> Forall (fun m => m = true) mems ->
  length mems = length ops -> Forall (fun op => (op.1, Z.of_nat (length op.2)) ∈ items) ops ->
  let '(rs, sh') := shelf_puts id mems sh ops in
  Forall (fun r => r = NV_SUCC) rs /\ sh_items sh' = store_of ops (sh_items sh).
Proof.
  intros Hio HM Hm Hl Hops. revert mems sh HM Hm Hl.
  induction Hops as [|[itemId buf] ops Hin _ IH]; intros mems sh HM Hm Hl; [by destruct mems|].
  destruct Hm as [|m mems -> Hm]; [done|]. cbn [shelf_puts store_of fst snd] in *.
  pose proof (shelf_put_items id items sh itemId buf Hio HM Hin) as Hp.
  destruct (shelf_put id true sh itemId buf) as [r sh1]. destruct Hp as (-> & <- & HM1).
  specialize (IH mems sh1 HM1 Hm ltac:(by injection Hl)).
  destruct (shelf_puts id mems sh1 ops) as [rs sh2]. destruct IH as [? ->]. by repeat constructor.
Qed.

Section Theorems.
Context {F B : Type} `{FlashLaws F} `{NvHeap B}.
Implicit Type s : nv F B.

Lemma nv_resetModule_heap id s : nv_heap (nv_resetModule id s).2 = nv_heap s.
Proof. unfold nv_resetModule. cbn. by rewrite erase_loop_heap. Qed.

(** Writes after writes, in step with the shelf. *)
Lemma nv_puts_shelf `{!NvHeapLaws B} id ops s sec g es sh :
  nv_module id -> nv_at (nv_fl s) g -> shelf_rel id sec g es sh -> Forall put_aligned ops ->
  exists mems sec' g' es',
    let '(rs, sh') := shelf_puts id mems sh ops in
    length mems = length ops /\ (heap_ok (nv_heap s) -> Forall (fun m => m = true) mems) /\
    (nv_puts id ops s).1 = rs /\ nv_at (nv_fl (nv_puts id ops s).2) g' /\ shelf_rel id sec' g' es' sh'.
Proof.
  intros Hid Hat Hsh Hops. revert s sec g es sh Hat Hsh.
  induction Hops as [|[itemId buf] ops [[Hok Hb] Hl4] Hops IH]; intros s sec g es sh Hat Hsh.
  { by exists [], sec, g, es. }
  cbn [nv_puts fst snd] in *.
  destruct (nv_put_step heap_ok heap_ok_serves id itemId buf sec s g es sh Hid Hat Hsh Hok Hl4 Hb)
    as (mem & s1 & sec1 & g1 & es1 & Hp).
  destruct (shelf_put id mem sh itemId buf) as [r sh1] eqn:Eput. destruct Hp as (-> & Hat1 & Hsh1 & Hh).
  destruct (IH s1 sec1 g1 es1 sh1 Hat1 Hsh1) as (mems & sec2 & g2 & es2 & Hr).
  exists (mem :: mems), sec2, g2, es2. cbn [shelf_puts]. rewrite Eput.
  destruct (shelf_puts id mems sh1 ops) as [rs sh2], (nv_puts id ops s1) as [rs' s2]. cbn [fst snd length] in *.
  destruct Hr as (Hl & Hm & -> & Hat2 & Hsh2). split_and!; [by f_equal| |done..].
  intros [-> Hh1]%Hh. constructor; auto.
Qed.

(** Writes after a reset. *)
Lemma nv_reset_shelf `{!NvHeapLaws B} id ops s :
  nv_module id -> fl_ok (nv_fl s) -> (forall x, NV_LO <= x < NV_HI -> fl_mask (nv_fl s) x = false) ->
  Forall put_aligned ops ->
  let '(rs, s') := nv_puts id ops (nv_resetModule id s).2 in
  exists mems, length mems = length ops /\ (heap_ok (nv_heap s) -> Forall (fun m => m = true) mems) /\
  let '(rs', sh) := shelf_puts id mems empty_shelf ops in
  rs = rs' /\
  forall itemId len, item_ok itemId len ->
    nv_flashReadNew true id itemId len s' =
    match sh_items sh !! (itemId, len) with
    | Some l => (NV_SUCC, OutBytes l)
    | None => (NV_ITEM_NOT_FOUND, OutNone)
    end.
Proof.
  intros Hid Hf Hm Hops.
  assert (Hat : nv_at (nv_fl s) (fl_byte (nv_fl s))) by by split.
  destruct (nv_puts_shelf id ops (nv_resetModule id s).2 0 _ [] empty_shelf Hid (nv_resetModule_spec id s _ Hid Hat))
    as (mems & sec & g' & es' & Hr); [|done|].
  - split; [by apply (reset_empty id s)|done|done|by apply NoDup_nil|done|by apply Forall_nil].
  - rewrite nv_resetModule_heap in Hr. destruct (nv_puts id ops _) as [rs s']. exists mems.
    destruct (shelf_puts id mems empty_shelf ops) as [rs' sh]. cbn [fst snd] in Hr.
    destruct Hr as (Hl & Hm' & -> & Hat' & Hsh). split_and!; [done..|].
    intros itemId len Hi. by apply (nv_flashReadNew_spec id sec itemId len s' g' es'); [..|apply Hsh|].
Qed.
End Theorems.

(** ** Properties *)

(** C2. A module is a map for any number of writes, when it is used as the code
    needs it to be: after a reset, every item has one length, a multiple of four,
    and all of them fit one sector together with their headers; a buffer is free
    to copy items with; and the locks of the flash driver do not cover the NV
    area.  Then every write answers NV_SUCC, however many there are and however
    often the sectors are switched, and every read answers the bytes written
    last, or NV_ITEM_NOT_FOUND for an item never written.  The conditions are
    needed: an item whose length is no multiple of four can end outside its sector ([nv_item_overruns_sector]), and on a board that locks the whole chip
    at start-up the first write is lost ([nv_write_lost_when_locked]). *)
Theorem nv_store_unbounded {F B} `{FlashLaws F} `{NvHeapLaws B}
    (s : nv F B) (id : Z) (items : list (Z * Z)) (ops : list (Z * list Z)) :
  nv_module id -> fl_ok (nv_fl s) ->
  (forall x, NV_LO <= x < NV_HI -> fl_mask (nv_fl s) x = false) ->
  heap_ok (nv_heap s) -> items_ok id items ->
  Forall (fun op => (op.1, Z.of_nat (length op.2)) ∈ items /\ Forall is_byte op.2) ops ->
  let '(rs, s') := nv_puts id ops (nv_resetModule id s).2 in
  Forall (fun r => r = NV_SUCC) rs /\
  forall itemId len, item_ok itemId len ->
    nv_flashReadNew true id itemId len s' =
    match store_of ops ∅ !! (itemId, len) with
    | Some l => (NV_SUCC, OutBytes l)
    | None => (NV_ITEM_NOT_FOUND, OutNone)
    end.
Proof.
  intros Hid Hf Hm Hheap Hio Hops.
  assert (Hops' : Forall put_aligned ops).
  { eapply Forall_impl; [exact Hops|]. intros op [Hin Hb]. destruct (io_item _ _ Hio _ Hin). by split. }
  pose proof (nv_reset_shelf id ops s Hid Hf Hm Hops') as Hr. destruct (nv_puts id ops _) as [rs s'].
  destruct Hr as (mems & Hl & Hmems & Hr).
  assert (Hin : Forall (fun op => (op.1, Z.of_nat (length op.2)) ∈ items) ops)
    by (eapply Forall_impl; [exact Hops|]; by intros op [? _]).
  pose proof (shelf_puts_items id items mems empty_shelf ops Hio ltac:(done) (Hmems Hheap) Hl Hin) as Hs.
  destruct (shelf_puts id mems empty_shelf ops) as [rs' sh]. destruct Hr as [-> Hread], Hs as [Hs Eit].
  cbn [sh_items empty_shelf] in Eit. by rewrite Eit in Hread.
Qed.

(** C21. The outcome of every write is determined by the room there is: a write
    is stored when the operating sector has an index entry and the bytes for it;
    otherwise, when it fits the other sector behind the items with other ids,
    those are moved there and it is stored behind them (items of its own id and
    another length are dropped); otherwise it answers NV_NOT_ENOUGH_SAPCE and
    every item is as it was.  A write that needs a move may also be refused, in
    the same way, when there is no buffer to copy items with, which does not
    happen while the pools have one.  Reads answer accordingly, after any
    number of writes that follow a reset, of items whose lengths are multiples
    of four, while the locks of the flash driver do not cover the NV area. *)
Theorem nv_writes_all_or_nothing {F B} `{FlashLaws F} `{NvHeapLaws B}
    (s : nv F B) (id : Z) (ops : list (Z * list Z)) :
  nv_module id -> fl_ok (nv_fl s) ->
  (forall x, NV_LO <= x < NV_HI -> fl_mask (nv_fl s) x = false) ->
  Forall put_aligned ops ->
  let '(rs, s') := nv_puts id ops (nv_resetModule id s).2 in
  exists mems, length mems = length ops /\ (heap_ok (nv_heap s) -> Forall (fun m => m = true) mems) /\
  let '(rs', sh) := shelf_puts id mems empty_shelf ops in
  rs = rs' /\
  forall itemId len, item_ok itemId len ->
    nv_flashReadNew true id itemId len s' =
    match sh_items sh !! (itemId, len) with
    | Some l => (NV_SUCC, OutBytes l)
    | None => (NV_ITEM_NOT_FOUND, OutNone)
    end.
Proof. apply nv_reset_shelf. Qed.
