(* ===== verification/NvFrameCount.v ===== *)
(** * The frame counter of the NV store

    The network frame counter has a module of its own: a sector holds up to 1023
    words written one after the other, the last one is the counter, and a full
    sector continues in the other one.  This file follows the search for the last
    word ([nv_nwkFrameCountSearch]), which looks at the first word of each page and
    then at units of four words, and proves the round trip of the counter. *)
From S2P Require Import Prelude SpiFlash FlashIf EvBuffer Nv NvSpec NvStore NvCompact.

(** ** The words of a sector *)
Abbreviation fc_id := NV_MODULE_NWK_FRAME_COUNT.

(** The counts that can be told from erased flash. *)
Definition count_ok (v : Z) : Prop := 0 <= v < 0xffffffff.

Definition fc_base (sec : Z) : Z := FRAMECOUNT_PAYLOAD_START sec.

(** The word at an address. *)
Definition wd (g : Z -> Z) (a : Z) : Z := le_word (bytes_at g a 4).

(** The sector [sec] holds the counts [vs], oldest first. *)
Record fc_inv (sec : Z) (g : Z -> Z) (vs : list Z) : Prop := {
  fi_sec : 0 <= sec < 2;
  fi_byte x : 0 <= g x < 256;
  fi_len : Z.of_nat (length vs) <= 1023;
  fi_val : Forall count_ok vs;
  fi_word i v : vs !! i = Some v -> bytes_at g (fc_base sec + 4 * Z.of_nat i) 4 = word_le 4 v;
  fi_blank x : fc_base sec + 4 * Z.of_nat (length vs) <= x < MODULE_SECT_END fc_id sec -> g x = 255
}.

Record fc_geom (sec : Z) : Prop := {
  fg_base : fc_base sec = MODULE_SECT_START fc_id sec + 4;
  fg_end : MODULE_SECT_END fc_id sec = MODULE_SECT_START fc_id sec + 4096;
  fg_al : MODULE_SECT_START fc_id sec mod 4096 = 0;
  fg_lo : NV_LO <= MODULE_SECT_START fc_id sec;
  fg_hi : MODULE_SECT_END fc_id sec <= NV_HI
}.

Lemma fc_geometry sec : 0 <= sec < 2 -> fc_geom sec.
Proof.
  intros Hsec. assert (sec = 0 \/ sec = 1) as [-> | ->] by lia; split; vm_compute; intuition discriminate.
Qed.

(** The word [i] of a sector. *)
Lemma fc_wd sec g vs i :
  fc_inv sec g vs -> (i < 1023)%nat -> wd g (fc_base sec + 4 * Z.of_nat i) = default 0xffffffff (vs !! i).
Proof.
  intros Hinv Hi. pose proof (fc_geometry sec (fi_sec _ _ _ Hinv)) as []. unfold wd.
  destruct (vs !! i) as [v|] eqn:E; cbn [default].
  - rewrite (fi_word _ _ _ Hinv i v E), le_word_word_le; [done|].
    pose proof (Forall_lookup_1 _ _ _ _ (fi_val _ _ _ Hinv) E) as []. lia.
  - apply lookup_ge_None in E. rewrite (bytes_at_ext g (fun _ => 255)); [done|].
    intros j Hj. apply (fi_blank _ _ _ Hinv). lia.
Qed.

(** The end of the words in use. *)
Definition fc_top (sec : Z) (vs : list Z) : Z := fc_base sec + 4 * Z.of_nat (length vs).

Lemma page_align x : Z.land x (Z.lnot (FLASH_PAGE_SIZE - 1)) = x / 256 * 256.
Proof.
  change (FLASH_PAGE_SIZE - 1) with (Z.ones 8). rewrite <-Z.ldiff_land, Z.ldiff_ones_r by lia.
  rewrite Z.shiftr_div_pow2, Z.shiftl_mul_pow2 by lia. done.
Qed.

Section Search.
Context (sec : Z) (g : Z -> Z) (vs : list Z) (Hinv : fc_inv sec g vs).

#[local] Abbreviation base := (fc_base sec).
#[local] Abbreviation top := (fc_top sec vs).

(** A word address of the sector. *)
Definition word_addr (a : Z) : Prop := base <= a < MODULE_SECT_END fc_id sec /\ (a - base) mod 4 = 0.

Lemma wd_blank a : word_addr a -> (wd g a =? 0xffffffff) = negb (a <? top).
Proof.
  intros [Ha Hm]. pose proof (fc_geometry sec (fi_sec _ _ _ Hinv)) as [].
  assert (exists i, a = base + 4 * Z.of_nat i /\ (i < 1023)%nat) as (i & -> & Hi)
    by (exists (Z.to_nat ((a - base) / 4)); split; zdm).
  rewrite (fc_wd _ _ _ _ Hinv) by done. unfold fc_top.
  destruct (vs !! i) as [v|] eqn:E; cbn [default].
  - pose proof (Forall_lookup_1 _ _ _ _ (fi_val _ _ _ Hinv) E) as []. apply lookup_lt_Some in E.
    destruct (Z.ltb_spec (base + 4 * Z.of_nat i) (base + 4 * Z.of_nat (length vs))); [|lia].
    cbn. apply Z.eqb_neq. lia.
  - apply lookup_ge_None in E. rewrite Z.eqb_refl.
    destruct (Z.ltb_spec (base + 4 * Z.of_nat i) (base + 4 * Z.of_nat (length vs))); [lia|done].
Qed.

Lemma wd_last v : last vs = Some v -> wd g (top - 4) = v.
Proof.
  intros Hl. pose proof (fi_len _ _ _ Hinv). rewrite last_lookup in Hl. pose proof (lookup_lt_Some _ _ _ Hl).
  unfold fc_top. replace (base + 4 * Z.of_nat (length vs) - 4) with (base + 4 * Z.of_nat (pred (length vs))) by lia.
  by rewrite (fc_wd _ _ _ _ Hinv), Hl by lia.
Qed.

(** The words of a unit from the second one on. *)
Lemma unit_scan_spec n k i u fc :
  word_addr u -> u + 4 * n <= MODULE_SECT_END fc_id sec -> 1 <= i -> n = i + Z.of_nat k -> (0 < k)%nat ->
  u + 4 * i <= top <= u + 4 * n -> fc = wd g (u + 4 * (i - 1)) ->
  unit_scan (map (fun j => wd g (u + 4 * Z.of_nat j)) (seq (Z.to_nat i) k)) i n fc u =
  Some (wd g (top - 4), top).
Proof.
  intros [Hu Hm] Hend. assert (Hmt : (top - u) mod 4 = 0) by (unfold fc_top; zdm). revert i fc. induction k as [|k IH]; intros i fc Hi Hn Hk Ht ->; [lia|].
  cbn [seq map unit_scan]. rewrite wd_blank, negb_involutive by (split; [lia|zdm]).
  rewrite Z2Nat.id by lia. destruct (Z.ltb_spec (u + 4 * i) top).
  - destruct (Z.eqb_spec i (n - 1)).
    + assert (top = u + 4 * (i + 1)) as -> by zdm. do 3 f_equal. lia.
    + replace (S (Z.to_nat i)) with (Z.to_nat (i + 1)) by lia. apply IH; try lia.
      * zdm.
      * f_equal. lia.
  - assert (top = u + 4 * i) as -> by lia. do 3 f_equal. lia.
Qed.

Lemma words_bytes u m k :
  words k (bytes_at g (u + 4 * Z.of_nat m) (4 * k)) = map (fun j => wd g (u + 4 * Z.of_nat j)) (seq m k).
Proof.
  revert m. induction k as [|k IH]; intros m; [done|].
  cbn [words seq map]. replace (4 * S k)%nat with (4 + 4 * k)%nat by lia.
  rewrite bytes_at_app, take_app_length', drop_app_length' by (by rewrite length_bytes_at).
  f_equal. rewrite <-IH. do 2 f_equal. lia.
Qed.

Context {F B : Type} `{FlashLaws F} `{NvHeap B} (s : nv F B) (Hat : nv_at (nv_fl s) g).

(** The units of a page, from its end [e] down to [low]. *)
Lemma unit_loop_spec fuel c e fc va :
  base <= e - c -> e <= MODULE_SECT_END fc_id sec -> (e - c - base) mod 4 = 0 ->
  0 <= c <= 16 * Z.of_nat fuel -> c mod 16 = 0 \/ c mod 16 = 12 -> e - c <= top <= e ->
  unit_loop fuel c e fc va s =
  if e - c <? top then (NV_SUCC, wd g (top - 4), top)
  else (NV_ITEM_NOT_FOUND, fc, if c =? 0 then va else e - c).
Proof.
  pose proof (fc_geometry sec (fi_sec _ _ _ Hinv)) as [].
  revert c e fc va. induction fuel as [|fuel IH]; intros c e fc va Hlo Hhi Hm Hf Hc Ht; cbn [unit_loop].
  { assert (c = 0) as -> by lia. by destruct (Z.ltb_spec (e - 0) top); [lia|]. }
  destruct (Z.eqb_spec c 0) as [->|Hc0]; cbn [negb].
  { destruct (Z.ltb_spec (e - 0) top); [lia|done]. }
  set (r := if 16 <? c then 16 else c).
  assert (exists k, r = 4 * Z.of_nat k /\ (1 < k <= 4)%nat /\ 4 * Z.of_nat k <= c /\
                    (k = 4%nat \/ 4 * Z.of_nat k = c)) as (k & -> & Hk & Hkc & Hk4).
  { unfold r. destruct (Z.ltb_spec 16 c); [exists 4%nat; lia|].
    exists (Z.to_nat (c / 4)). split; [zdm|]. split; [zdm|]. split; [zdm|]. right. zdm. }
  rewrite (Z.mul_comm 4), Z.div_mul, (Z.mul_comm (Z.of_nat k)) by lia. rewrite Nat2Z.id.
  set (u := e - 4 * Z.of_nat k). replace (e - 4 * Z.of_nat k) with u by lia.
  replace (Z.to_nat (4 * Z.of_nat k)) with (4 * k)%nat by lia.
  rewrite (rd_at _ g) by (done || unfold u; lia).
  replace u with (u + 4 * Z.of_nat 0) at 1 by lia. rewrite words_bytes.
  destruct k as [|k]; [lia|]. cbn [seq map]. change (Z.of_nat 0) with 0. rewrite Z.mul_0_r, Z.add_0_r.
  assert (Hu : word_addr u) by (split; unfold u; [lia|zdm]).
  rewrite wd_blank, negb_involutive by done.
  destruct (Z.ltb_spec u top).
  - assert ((e - c <? top) = true) as -> by lia.
    change (seq 1 k) with (seq (Z.to_nat 1) k).
    rewrite (unit_scan_spec (Z.of_nat (S k)) k 1 u); try lia; [done|done| |by f_equal; lia].
    destruct Hu as [_ Hu]. unfold fc_top in *. split; [zdm|unfold u; lia].
  - replace (c - 4 * Z.of_nat (S k)) with (u - (e - c)) by (unfold u; lia).
    rewrite IH; unfold u in *; try lia.
    + replace (e - 4 * Z.of_nat (S k) - (e - 4 * Z.of_nat (S k) - (e - c))) with (e - c) by lia.
      destruct (e - c <? top); [done|].
      destruct (Z.eqb_spec (e - 4 * Z.of_nat (S k) - (e - c)) 0); [do 2 f_equal; lia|done].
    + by replace (e - 4 * Z.of_nat (S k) - (e - 4 * Z.of_nat (S k) - (e - c))) with (e - c) by lia.
    + replace (e - 4 * Z.of_nat (S k) - (e - c)) with (c - 4 * Z.of_nat (S k)) by lia.
      destruct Hk4 as [-> | ->]; [zdm|]. rewrite Z.sub_diag. by left.
Qed.

(** The pages, from the last one down to the second. *)
Lemma page_loop_spec n va :
  (n <= 15)%nat -> top <= MODULE_SECT_START fc_id sec + 256 * (Z.of_nat n + 1) ->
  exists k va', page_loop n (MODULE_SECT_START fc_id sec + 256 * Z.of_nat n) va s =
      (bool_decide (k <> 0%nat), MODULE_SECT_START fc_id sec + 256 * Z.of_nat k, va') /\
    (k <= n)%nat /\ top <= MODULE_SECT_START fc_id sec + 256 * (Z.of_nat k + 1) /\
    (k <> 0%nat -> MODULE_SECT_START fc_id sec + 256 * Z.of_nat k < top).
Proof.
  pose proof (fc_geometry sec (fi_sec _ _ _ Hinv)) as [].
  revert va. induction n as [|n IH]; intros va Hn Ht; [by exists 0%nat, va|].
  cbn [page_loop]. set (a := MODULE_SECT_START fc_id sec + 256 * Z.of_nat (S n)) in *.
  rewrite (rd_at _ g) by (done || unfold a; lia). fold (wd g a).
  rewrite wd_blank, negb_involutive by (split; unfold a; [lia|zdm]).
  destruct (Z.ltb_spec a top).
  - exists (S n), va. rewrite bool_decide_true by done. done.
  - unfold FLASH_PAGE_SIZE. replace (a - 256) with (MODULE_SECT_START fc_id sec + 256 * Z.of_nat n)
      by (unfold a; lia).
    destruct (IH a) as (k & va' & -> & Hk & Hk'); [lia|unfold a in *; lia|].
    exists k, va'. split; [done|]. split; [lia|done].
Qed.

(** The search finds the last count and the place of the next one. *)
Lemma nv_nwkFrameCountSearch_spec fc :
  nv_nwkFrameCountSearch fc_id sec fc s =
  match last vs with
  | Some v => (NV_SUCC, v, top)
  | None => (NV_ITEM_NOT_FOUND, fc, base)
  end.
Proof.
  pose proof (fc_geometry sec (fi_sec _ _ _ Hinv)) as []. pose proof (fi_len _ _ _ Hinv).
  assert (Htop : top = base + 4 * Z.of_nat (length vs)) by done.
  unfold nv_nwkFrameCountSearch. cbv zeta.
  match goal with |- context [page_loop ?n _ _ _] => change n with 15%nat end.
  replace (MODULE_SECT_END fc_id sec - FLASH_PAGE_SIZE) with (MODULE_SECT_START fc_id sec + 256 * Z.of_nat 15)
    by (unfold FLASH_PAGE_SIZE; lia).
  destruct (page_loop_spec 15 (FRAMECOUNT_PAYLOAD_START sec)) as (k & va & -> & Hk & Ht & Hkt); [lia|lia|].
  fold (fc_base sec). change (Z.land (FLASH_PAGE_SIZE - sizeof_sect) (Z.lnot 0x03)) with 252.
  set (e := MODULE_SECT_START fc_id sec + 256 * (Z.of_nat k + 1)).
  set (c := if bool_decide (k <> 0%nat) then 256 else 252).
  set (p := if bool_decide (k <> 0%nat) then _ else (base, 252)).
  assert (p = (e - 256 + if bool_decide (k <> 0%nat) then 0 else 4, c)) as ->.
  { unfold p, c, e. case_bool_decide; f_equal; lia. }
  rewrite page_align. unfold FLASH_PAGE_SIZE.
  replace ((e - 256 + (if bool_decide (k <> 0%nat) then 0 else 4) + 256) / 256 * 256) with e
    by (unfold e; case_bool_decide; zdm).
  rewrite unit_loop_spec; unfold c, e in *; try lia; try (case_bool_decide; lia).
  - destruct (last vs) as [v|] eqn:El.
    + rewrite (wd_last v El). assert (0 < Z.of_nat (length vs)).
      { destruct vs; [done|cbn; lia]. }
      case_bool_decide as Hk0; [specialize (Hkt Hk0)|];
        match goal with |- context [Z.ltb ?x top] => destruct (Z.ltb_spec x top); [done|lia] end.
    + apply last_None in El as Ev. rewrite Ev in *. cbn in Htop.
      case_bool_decide as Hk0; [specialize (Hkt Hk0); lia|].
      subst k. match goal with |- context [Z.ltb ?x ?y] => destruct (Z.ltb_spec x y); [lia|] end.
      change (252 =? 0) with false. cbv iota. f_equal. lia.
  - case_bool_decide; zdm.
  - case_bool_decide; [left|right]; done.
Qed.
End Search.

(** ** Saving a count *)

(** One more word. *)
Lemma fc_inv_push sec g vs v :
  fc_inv sec g vs -> Z.of_nat (length vs) < 1023 -> count_ok v ->
  fc_inv sec (prog g (fc_top sec vs) (word_le 4 v)) (vs ++ [v]).
Proof.
  intros Hinv Hlen Hv. pose proof (fc_geometry sec (fi_sec _ _ _ Hinv)) as []. unfold fc_top.
  split; [apply Hinv| | | | |].
  - intros x. apply programmed_range; [apply (fi_byte _ _ _ Hinv)|apply word_le_Forall].
  - rewrite length_app. cbn. lia.
  - apply Forall_app. split; [apply Hinv|by apply Forall_singleton].
  - intros i w [Hi|[Hi Hw]]%lookup_app_Some.
    + rewrite prog_out by (apply lookup_lt_Some in Hi; lia). by apply (fi_word _ _ _ Hinv).
    + apply list_lookup_singleton_Some in Hw as [Hz <-]. replace i with (length vs) by lia.
      apply (prog_blank g _ (word_le 4 v)); [apply word_le_Forall|].
      intros x Hx. rewrite length_word_le in Hx. apply (fi_blank _ _ _ Hinv). lia.
  - intros x Hx. rewrite length_app in Hx. cbn [length] in Hx.
    rewrite prog_out1 by (rewrite length_word_le; lia). apply (fi_blank _ _ _ Hinv). lia.
Qed.

(** The words do not depend on the header or on the other sector. *)
Lemma fc_inv_ext sec g g' vs :
  (forall x, fc_base sec <= x < MODULE_SECT_END fc_id sec -> g' x = g x) -> (forall x, 0 <= g' x < 256) ->
  fc_inv sec g vs -> fc_inv sec g' vs.
Proof.
  intros Hg Hb Hinv. pose proof (fc_geometry sec (fi_sec _ _ _ Hinv)) as [].
  pose proof (fi_len _ _ _ Hinv). split; try done; try apply Hinv.
  - intros i v Hi. rewrite <-(fi_word _ _ _ Hinv i v Hi). apply lookup_lt_Some in Hi.
    apply bytes_at_ext. intros j Hj. apply Hg. lia.
  - intros x Hx. rewrite Hg by lia. by apply (fi_blank _ _ _ Hinv).
Qed.

(** An erased sector holds no counts. *)
Lemma fc_inv_erased sec g :
  0 <= sec < 2 -> (forall x, 0 <= g x < 256) ->
  fc_inv sec (erased (fun _ => false) g (MODULE_SECT_START fc_id sec)) [].
Proof.
  intros Hsec Hb. pose proof (fc_geometry sec Hsec) as [].
  assert (He : forall x, MODULE_SECT_START fc_id sec <= x < MODULE_SECT_END fc_id sec ->
                 erased (fun _ => false) g (MODULE_SECT_START fc_id sec) x = 255).
  { intros x Hx. unfold erased. destruct (Z.eqb_spec (x / 4096) (MODULE_SECT_START fc_id sec / 4096)); [done|zdm]. }
  split; [done| |cbn; lia|by apply Forall_nil|intros i v Hi; by rewrite lookup_nil in Hi|].
  - intros x. unfold erased. destruct (_ && _); [lia|done].
  - intros x Hx. cbn in Hx. apply He. lia.
Qed.

Lemma erased_out g a x : a mod 4096 = 0 -> x < a \/ a + 4096 <= x -> erased (fun _ => false) g a x = g x.
Proof. intros Ha Hx. unfold erased. destruct (Z.eqb_spec (x / 4096) (a / 4096)); [zdm|done]. Qed.

Lemma erased_in g a x : a mod 4096 = 0 -> a <= x < a + 4096 -> erased (fun _ => false) g a x = 255.
Proof. intros Ha Hx. unfold erased. destruct (Z.eqb_spec (x / 4096) (a / 4096)); [done|zdm]. Qed.

(** The module of the frame counter after at least one save. *)
Record fc_mod (sec : Z) (g : Z -> Z) (vs : list Z) : Prop := {
  fm_inv : fc_inv sec g vs;
  fm_used : vs <> [];
  fm_hdr : hdr_at g fc_id sec = mk_sect NV_SECTOR_VALID fc_id sec;
  fm_first k : 0 <= k < sec -> hdr_valid fc_id (hdr_at g fc_id k) = false
}.

Lemma fc_nv_module : nv_module fc_id.
Proof. done. Qed.

Section Save.
Context {F B : Type} `{FlashLaws F} `{NvHeap B}.
Implicit Type s : nv F B.

Lemma fc_sector_read sec s g vs :
  nv_at (nv_fl s) g -> fc_mod sec g vs ->
  nv_sector_read fc_id MODULE_SECTOR_NUM s = (NV_SUCC, Some (mk_sect NV_SECTOR_VALID fc_id sec)).
Proof.
  intros Hat [Hinv _ Hh Hno]. rewrite (nv_sector_read_eq fc_id s g) by done.
  apply (valid_hdr_first fc_id sec g (fun h => (NV_SUCC, Some h))); [apply Hinv|done..].
Qed.

(** Reading the counter. *)
Lemma nv_nwkFrameCountFromFlash_spec sec s g vs v :
  nv_at (nv_fl s) g -> fc_mod sec g vs -> last vs = Some v ->
  nv_nwkFrameCountFromFlash s = (NV_SUCC, Some v).
Proof.
  intros Hat Hmod Hl. unfold nv_nwkFrameCountFromFlash. rewrite (fc_sector_read sec s g vs) by done.
  cbn [sect_opSect]. rewrite (nv_nwkFrameCountSearch_spec sec g vs (fm_inv _ _ _ Hmod) s Hat 0). by rewrite Hl.
Qed.

(** Writing a word of a sector, through the flash. *)
Lemma nv_at_word sec f g a v :
  0 <= sec < 2 -> nv_at f g -> fc_base sec <= a -> a + 4 <= MODULE_SECT_END fc_id sec ->
  nv_at (fl_write a (word_le 4 v) f) (prog g a (word_le 4 v)).
Proof.
  intros Hsec Hat Ha Ha'. pose proof (fc_geometry sec Hsec) as [].
  apply nv_at_write; [done|lia|rewrite length_word_le; lia|apply word_le_Forall].
Qed.

(** A save into a sector with room. *)
Lemma frameCount_save_room sec s g vs v :
  nv_at (nv_fl s) g -> fc_mod sec g vs -> count_ok v -> Z.of_nat (length vs) < 1023 ->
  exists s' g', nv_nwkFrameCountSaveToFlash v s = (NV_SUCC, s') /\ nv_at (nv_fl s') g' /\ fc_mod sec g' (vs ++ [v]).
Proof.
  intros Hat Hmod Hv Hlen. pose proof Hmod as [Hinv Hused Hh Hno].
  pose proof (fc_geometry sec (fi_sec _ _ _ Hinv)) as [].
  assert (Hat0 : nv_at (nv_fl (with_fl fl_unlock s)) g) by (unfold with_fl; cbn [nv_fl]; by apply nv_at_unlock).
  unfold nv_nwkFrameCountSaveToFlash. rewrite (fc_sector_read sec _ g vs) by done. cbv zeta. cbn [sect_opSect].
  rewrite (nv_nwkFrameCountSearch_spec sec g vs Hinv _ Hat0 0).
  destruct (last vs) as [w|] eqn:El; [|by apply last_None in El].
  assert (0 < Z.of_nat (length vs)) by (destruct vs; [done|cbn; lia]).
  destruct (decide (NV_SUCC = NV_SUCC)) as [_|]; [|done].
  assert (Hne : (fc_top sec vs =? MODULE_SECT_END fc_id sec) = false)
    by (apply Z.eqb_neq; unfold fc_top; lia).
  rewrite Hne. cbn [orb].
  assert ((fc_top sec vs =? FRAMECOUNT_PAYLOAD_START sec) = false) as ->
    by (apply Z.eqb_neq; unfold fc_top; fold (fc_base sec); lia).
  eexists _, _. split; [reflexivity|]. split.
  - unfold with_fl. cbn [nv_fl]. apply nv_at_lock.
    apply (nv_at_word sec); [apply Hinv|exact Hat0|unfold fc_top; lia|unfold fc_top; lia].
  - assert (Hout : forall x, x < fc_base sec -> prog g (fc_top sec vs) (word_le 4 v) x = g x).
    { intros x Hx. apply prog_out1. unfold fc_top. lia. }
    split; [by apply fc_inv_push|by destruct vs| |].
    + rewrite <-Hh. apply hdr_at_ext. intros x Hx. apply Hout. lia.
    + intros k Hk. rewrite <-(Hno k Hk). f_equal. apply hdr_at_ext. intros x Hx. apply Hout.
      assert (k = 0 /\ sec = 1) as [-> ->] by (pose proof (fi_sec _ _ _ Hinv); lia).
      pose proof (fc_geometry 0 ltac:(lia)) as []. change (MODULE_SECT_START fc_id 1) with (MODULE_SECT_END fc_id 0) in *. lia.
Qed.

(** The sector header written next to the words. *)
Lemma fc_header sec f g vs :
  nv_at f g -> fc_inv sec g vs ->
  (forall x, MODULE_SECT_START fc_id sec <= x < MODULE_SECT_START fc_id sec + 4 -> g x = 255) ->
  let h := mk_sect NV_SECTOR_VALID fc_id sec in
  let g' := prog g (MODULE_SECT_START fc_id sec) (enc_sect h) in
  nv_at (fl_write (MODULE_SECT_START fc_id sec) (enc_sect h) f) g' /\ fc_inv sec g' vs /\
  hdr_at g' fc_id sec = h.
Proof.
  intros Hat Hinv Hblank h g'. pose proof (fi_sec _ _ _ Hinv) as Hsec.
  pose proof (fc_geometry sec Hsec) as []. split_and!.
  - apply nv_at_write; [done|lia|rewrite length_enc_sect; lia|auto with nv].
  - apply (fc_inv_ext sec g); [| |done].
    + intros x Hx. apply prog_out1. rewrite length_enc_sect. lia.
    + intros x. apply programmed_range; [apply (fi_byte _ _ _ Hinv)|auto with nv].
  - unfold hdr_at, g'. change 4%nat with (length (enc_sect h)). rewrite prog_blank; [|auto with nv|].
    + apply dec_enc_sect; cbn; [done|done|unfold is_byte; lia].
    + intros x Hx. rewrite length_enc_sect in Hx. by apply Hblank.
Qed.

(** The first save: both sectors are erased.  Its status is that of the sector
    search. *)
Lemma frameCount_save_first s g v :
  nv_at (nv_fl s) g -> (forall k, 0 <= k < 2 -> hdr_valid fc_id (hdr_at g fc_id k) = false) -> count_ok v ->
  exists s' g', nv_nwkFrameCountSaveToFlash v s = (NV_ITEM_NOT_FOUND, s') /\ nv_at (nv_fl s') g' /\
    fc_mod 0 g' [v].
Proof.
  intros Hat Hno Hv. pose proof (fc_geometry 0 ltac:(lia)) as [].
  assert (Hat0 : nv_at (nv_fl (with_fl fl_unlock s)) g) by (unfold with_fl; cbn [nv_fl]; by apply nv_at_unlock).
  unfold nv_nwkFrameCountSaveToFlash. rewrite (nv_sector_read_eq fc_id _ g) by done. rewrite !Hno by lia.
  cbv zeta. set (s1 := with_fl (fl_erase _) (with_fl _ _)).
  set (g0 := erased (fun _ => false) g (MODULE_SECT_START fc_id 0)).
  set (g1 := erased (fun _ => false) g0 (MODULE_SECT_START fc_id 1)).
  assert (Hat1 : nv_at (nv_fl s1) g1).
  { unfold s1, with_fl. cbn [nv_fl].
    apply (nv_at_erase _ g0 (MODULE_SECT_START fc_id 1)); [|done].
    by apply (nv_at_erase _ g (MODULE_SECT_START fc_id 0)). }
  assert (Hinv0 : fc_inv 0 g1 []).
  { apply (fc_inv_ext 0 g0).
    - intros x Hx. apply erased_out; [done|]. change (MODULE_SECT_START fc_id 1) with (MODULE_SECT_END fc_id 0). lia.
    - intros x. eapply nv_at_byte_range, Hat1.
    - apply fc_inv_erased; [lia|]. intros x. eapply nv_at_byte_range, Hat0. }
  rewrite (nv_nwkFrameCountSearch_spec 0 g1 [] Hinv0 s1 Hat1 0). cbn [last].
  destruct (decide (NV_ITEM_NOT_FOUND = NV_SUCC)) as [|_]; [done|]. cbn [orb].
  fold (fc_base 0). rewrite Z.eqb_refl.
  assert (Hinv1 := fc_inv_push 0 g1 [] v Hinv0 ltac:(cbn; lia) Hv).
  assert (Etop : fc_top 0 [] = fc_base 0) by (unfold fc_top; cbn; lia). rewrite Etop in Hinv1.
  assert (Hat2 := nv_at_word 0 (nv_fl s1) g1 (fc_base 0) v ltac:(lia) Hat1 ltac:(lia) ltac:(lia)).
  destruct (fc_header 0 _ _ _ Hat2 Hinv1) as (Hat3 & Hinv3 & Hh3).
  { intros x Hx. rewrite prog_out1 by lia.
    unfold g1. rewrite erased_out by (done || change (MODULE_SECT_START fc_id 1) with (MODULE_SECT_END fc_id 0); lia).
    apply erased_in; [done|lia]. }
  eexists _, _. split; [reflexivity|]. split; [unfold with_fl; cbn [nv_fl]; apply nv_at_lock, Hat3|].
  split; [done|done|done|lia].
Qed.

(** A save into a full sector: the last count and the new one go to the other
    sector. *)
Lemma frameCount_save_full sec s g vs v w :
  nv_at (nv_fl s) g -> fc_mod sec g vs -> count_ok v -> Z.of_nat (length vs) = 1023 -> last vs = Some w ->
  exists s' g', nv_nwkFrameCountSaveToFlash v s = (NV_SUCC, s') /\ nv_at (nv_fl s') g' /\
    fc_mod (Z.land (sec + 1) 1) g' [w; v].
Proof.
  intros Hat Hmod Hv Hlen Hl. pose proof Hmod as [Hinv Hused Hh Hno]. pose proof (fi_sec _ _ _ Hinv) as Hsec.
  assert (Hw : count_ok w).
  { apply last_Some_elem_of in Hl. by apply (proj1 (Forall_forall _ _) (fi_val _ _ _ Hinv)). }
  set (sec' := Z.land (sec + 1) 1).
  assert (0 <= sec' < 2 /\ sec <> sec') as [Hsec' Hne].
  { unfold sec'. assert (sec = 0 \/ sec = 1) as [-> | ->] by lia; vm_compute; intuition discriminate. }
  pose proof (fc_geometry sec Hsec) as G. pose proof (fc_geometry sec' Hsec') as [].
  pose proof (sectors_apart fc_id sec sec' fc_nv_module Hsec Hsec' Hne) as Hap.
  assert (Hat0 : nv_at (nv_fl (with_fl fl_unlock s)) g) by (unfold with_fl; cbn [nv_fl]; by apply nv_at_unlock).
  unfold nv_nwkFrameCountSaveToFlash. rewrite (fc_sector_read sec _ g vs) by done. cbv zeta. cbn [sect_opSect].
  rewrite (nv_nwkFrameCountSearch_spec sec g vs Hinv _ Hat0 0), Hl.
  destruct (decide (NV_SUCC = NV_SUCC)) as [_|]; [|done].
  assert (Hfull : (fc_top sec vs =? MODULE_SECT_END fc_id sec) = true)
    by (apply Z.eqb_eq; unfold fc_top; destruct G; lia).
  rewrite Hfull. change (MODULE_SECTOR_NUM - 1) with 1. fold sec'. cbn [orb].
  change (MODULES_START_ADDR fc_id + sec' * FLASH_SECTOR_SIZE) with (MODULE_SECT_START fc_id sec').
  fold (fc_base sec').
  set (g1 := erased (fun _ => false) g (MODULE_SECT_START fc_id sec')).
  assert (Hat1 := nv_at_erase _ g (MODULE_SECT_START fc_id sec') Hat0 ltac:(lia)). fold g1 in Hat1.
  assert (Hinv1 : fc_inv sec' g1 []) by (apply fc_inv_erased; [done|apply (fi_byte _ _ _ Hinv)]).
  assert (Hinv2 := fc_inv_push sec' g1 [] w Hinv1 ltac:(cbn; lia) Hw).
  assert (Hinv3 := fc_inv_push sec' _ [w] v Hinv2 ltac:(cbn; lia) Hv).
  assert (Et0 : fc_top sec' [] = fc_base sec') by (unfold fc_top; cbn; lia).
  assert (Et1 : fc_top sec' [w] = fc_base sec' + 4) by (unfold fc_top; cbn; lia).
  cbn [app] in Hinv2, Hinv3. rewrite Et0 in Hinv2, Hinv3. rewrite Et1 in Hinv3.
  assert (Hat2 := nv_at_word sec' _ g1 (fc_base sec') w Hsec' Hat1 ltac:(lia) ltac:(lia)).
  assert (Hat3 := nv_at_word sec' _ _ (fc_base sec' + 4) v Hsec' Hat2 ltac:(lia) ltac:(lia)).
  destruct (fc_header sec' _ _ _ Hat3 Hinv3) as (Hat4 & Hinv4 & Hh4).
  { intros x Hx. rewrite !prog_out1 by lia. apply erased_in; [zdm|lia]. }
  set (g4 := prog _ (MODULE_SECT_START fc_id sec') _) in *.
  set (g5 := prog g4 (MODULE_SECT_START fc_id sec) (enc_sect (mk_sect NV_SECTOR_INVALID fc_id sec'))).
  assert (Hout : forall x, MODULE_SECT_START fc_id sec' <= x < MODULE_SECT_END fc_id sec' -> g5 x = g4 x).
  { intros x Hx. apply prog_out1. rewrite length_enc_sect. destruct G. lia. }
  eexists _, g5. split; [reflexivity|]. split.
  - unfold with_fl. cbn [nv_fl]. apply nv_at_lock. destruct G.
    apply nv_at_write; [exact Hat4|lia|rewrite length_enc_sect; lia|auto with nv].
  - split; [|done| |].
    + apply (fc_inv_ext sec' g4); [intros x Hx; apply Hout; lia| |done].
      intros x. apply programmed_range; [apply (fi_byte _ _ _ Hinv4)|auto with nv].
    + rewrite <-Hh4. apply hdr_at_ext. intros x Hx. apply Hout. lia.
    + intros k Hk. assert (k = sec) as -> by lia. apply hdr_invalidated; [apply (fi_byte _ _ _ Hinv4)|done].
Qed.

(** A save into a module in use. *)
Lemma frameCount_save sec s g vs v :
  nv_at (nv_fl s) g -> fc_mod sec g vs -> count_ok v ->
  exists s' sec' g' vs', nv_nwkFrameCountSaveToFlash v s = (NV_SUCC, s') /\ nv_at (nv_fl s') g' /\
    fc_mod sec' g' vs' /\ last vs' = Some v.
Proof.
  intros Hat Hmod Hv. pose proof (fi_len _ _ _ (fm_inv _ _ _ Hmod)).
  destruct (decide (Z.of_nat (length vs) = 1023)) as [Hfull|Hroom].
  - destruct (last vs) as [w|] eqn:El; [|apply last_None in El; by destruct (fm_used _ _ _ Hmod)].
    destruct (frameCount_save_full sec s g vs v w) as (s' & g' & ? & ? & ?); try done.
    by exists s', (Z.land (sec + 1) 1), g', [w; v].
  - destruct (frameCount_save_room sec s g vs v) as (s' & g' & ? & ? & ?); try done; [lia|].
    exists s', sec, g', (vs ++ [v]). by rewrite last_snoc.
Qed.

(** A sequence of saves; the statuses they return. *)
Fixpoint frameCount_saves (vs : list Z) s : list nv_sts_t * nv F B :=
  match vs with
  | [] => ([], s)
  | v :: vs' =>
      let '(r, s) := nv_nwkFrameCountSaveToFlash v s in
      let '(rs, s) := frameCount_saves vs' s in
      (r :: rs, s)
  end.

Lemma frameCount_saves_spec vs sec s g us u :
  nv_at (nv_fl s) g -> fc_mod sec g us -> last us = Some u -> Forall count_ok vs ->
  nv_nwkFrameCountFromFlash (frameCount_saves vs s).2 = (NV_SUCC, last (u :: vs)) /\
  Forall (fun r => r = NV_SUCC) (frameCount_saves vs s).1.
Proof.
  revert sec s g us u. induction vs as [|v vs IH]; intros sec s g us u Hat Hmod Hl Hvs; cbn [frameCount_saves].
  { split; [by eapply nv_nwkFrameCountFromFlash_spec|by apply Forall_nil]. }
  apply Forall_cons in Hvs as [Hv Hvs].
  destruct (frameCount_save sec s g us v Hat Hmod Hv) as (s' & sec' & g' & us' & -> & Hat' & Hmod' & Hl').
  destruct (IH sec' s' g' us' v Hat' Hmod' Hl' Hvs) as [Hr Hs].
  destruct (frameCount_saves vs s') as [rs s2]. cbn [fst snd] in *. split; [done|by apply Forall_cons].
Qed.
End Save.

(** ** Properties *)

(** C22. The frame counter survives: on a module without a valid sector, after any
    number of saves of counts other than 0xffffffff, the counter that is read
    back is the one saved last, and every save but the first, which erases the
    module and reports the failure of its sector search, answers NV_SUCC; a
    sector that is full of counts continues in the other one. *)
Theorem frameCount_roundtrip {F B} `{FlashLaws F} `{NvHeap B} (s : nv F B) (v : Z) (vs : list Z) :
  fl_ok (nv_fl s) -> (forall x, NV_LO <= x < NV_HI -> fl_mask (nv_fl s) x = false) ->
  (nv_sector_read NV_MODULE_NWK_FRAME_COUNT MODULE_SECTOR_NUM s).1 = NV_ITEM_NOT_FOUND ->
  Forall count_ok (v :: vs) ->
  let '(rs, s') := frameCount_saves (v :: vs) s in
  nv_nwkFrameCountFromFlash s' = (NV_SUCC, last (v :: vs)) /\
  exists rs', rs = NV_ITEM_NOT_FOUND :: rs' /\ Forall (fun r => r = NV_SUCC) rs'.
Proof.
  intros Hf Hm Hno [Hv Hvs]%Forall_cons.
  assert (Hat : nv_at (nv_fl s) (fl_byte (nv_fl s))) by by split.
  destruct (frameCount_save_first s _ v Hat) as (s' & g' & E & Hat' & Hmod'); [|done|].
  { rewrite (nv_sector_read_eq fc_id s _ fc_nv_module Hat) in Hno. intros k Hk.
    destruct (hdr_valid fc_id (hdr_at _ fc_id 0)) eqn:E0; [done|].
    destruct (hdr_valid fc_id (hdr_at _ fc_id 1)) eqn:E1; [done|].
    by assert (k = 0 \/ k = 1) as [-> | ->] by lia. }
  cbn [frameCount_saves]. rewrite E.
  destruct (frameCount_saves_spec vs 0 s' g' [v] v Hat' Hmod' eq_refl Hvs) as [Hr Hs].
  destruct (frameCount_saves vs s') as [rs s2]. cbn [fst snd] in *. split; [done|eauto].
Qed.
