(* ===== verification/NvProps.v ===== *)
(** * The NV store on the simulated chip

    The witnesses of the theorems of [NvStore.v], [NvWrites.v] and [NvFrameCount.v], and the behaviours of the NV code
    together with the flash driver that are shown by evaluation. *)
From S2P Require Import Prelude Memory SysEv EvBuffer SpiFlash FlashIf FlashDrv SimChip FlashProps.
From S2P Require Import Nv NvSpec NvStore NvCompact NvWrites NvFrameCount.

#[local] Existing Instance demo_layout.
#[local] Existing Instance demo_layout_ok.

(** The system: a driver, and the buffer pool after [ev_buf_init]. *)
Definition nv_sys (d : drv sim_chip) : nv (drv sim_chip) buf_state := mk_nv d (ev_buf_init demo_state).

(** A chip the driver has no protection for, and one it locked at start-up. *)
Definition open_sys := nv_sys (drv_init (sim_blank 0)).
Definition locked_sys := nv_sys (platform_flash_init (drv_init (sim_blank 0))).

Lemma open_ok : fl_ok (nv_fl open_sys).
Proof. exists 0; [|done]. split; try done. Qed.

Lemma open_mask x : NV_LO <= x < NV_HI -> fl_mask (nv_fl open_sys) x = false.
Proof. done. Qed.

(** ** Properties *)

(** With the protection drivers of the SDK the NV store loses its items: on a
    chip that [drv_platform_init] locked, the first write of a module answers
    NV_SUCC, but [nv_write_item] has already locked the flash again when the
    sector header is written, the header is dropped, and the item cannot be
    read back. *)
Theorem nv_write_lost_when_locked :
  let '(r, s') := nv_flashWriteNew true NV_MODULE_MAC_INFO 1 3 [1; 2; 3] locked_sys in
  r = NV_SUCC /\ nv_flashReadNew true NV_MODULE_MAC_INFO 1 3 s' = (NV_ITEM_NOT_FOUND, OutNone).
Proof. vm_compute. split; reflexivity. Qed.

(** The space check forgets the alignment: after an item of one byte, an item
    of 3567 bytes is accepted and written with NV_SUCC, and its last bytes are
    outside the sector, in the header of the other one. *)
Theorem nv_item_overruns_sector :
  let '(r1, s1) := nv_flashWriteNew true NV_MODULE_MAC_INFO 1 1 [7] open_sys in
  let '(r2, s2) := nv_flashWriteNew true NV_MODULE_MAC_INFO 2 3567 (repeat 0x11 3567) s1 in
  r1 = NV_SUCC /\ r2 = NV_SUCC /\
  rd (MODULE_SECT_END NV_MODULE_MAC_INFO 0) 4 s2 = [0x11; 0x11; 0x11; 255].
Proof. vm_compute. split_and!; reflexivity. Qed.

(** ** Witnesses *)
Definition demo_puts : list (Z * list Z) := [(1, [1; 2; 3]); (0x20, [9]); (1, [4; 5; 6]); (1, [8])].

Lemma demo_puts_ok : Forall put_ok demo_puts.
Proof.
  unfold demo_puts, put_ok, item_ok, is_byte, ITEM_FIELD_IDLE.
  repeat (apply Forall_cons; split; [split; [cbn; lia|by apply sim_bytes]|]). apply Forall_nil. done.
Qed.

Lemma nv_store_refines_map_witness :
  let '(rs, s') := nv_puts NV_MODULE_USER_INFO2 demo_puts (nv_resetModule NV_MODULE_USER_INFO2 open_sys).2 in
  Forall (fun r => r = NV_SUCC) rs /\
  forall itemId len, item_ok itemId len ->
    nv_flashReadNew true NV_MODULE_USER_INFO2 itemId len s' =
    match store_of demo_puts ∅ !! (itemId, len) with
    | Some l => (NV_SUCC, OutBytes l)
    | None => (NV_ITEM_NOT_FOUND, OutNone)
    end.
Proof.
  apply (nv_store_refines_map open_sys NV_MODULE_USER_INFO2 demo_puts).
  - unfold nv_module, NV_MODULE_USER_INFO2. lia.
  - apply open_ok.
  - apply open_mask.
  - apply demo_puts_ok.
  - vm_compute. discriminate.
  - vm_compute. discriminate.
Defined.

(** The same, evaluated. *)
Example nv_store_demo :
  let s' := (nv_puts NV_MODULE_USER_INFO2 demo_puts (nv_resetModule NV_MODULE_USER_INFO2 open_sys).2).2 in
  nv_flashReadNew true NV_MODULE_USER_INFO2 1 3 s' = (NV_SUCC, OutBytes [4; 5; 6]).
Proof. vm_compute. reflexivity. Qed.

Lemma nv_resetToFactoryNew_exact_witness :
  let s' := (nv_resetToFactoryNew open_sys).2 in
  nv_facrotyNewRstFlagCheck s' = false /\
  (forall x, MODULE_SECT_START NV_MODULE_NWK_FRAME_COUNT 0 <= x < MODULE_SECT_END NV_MODULE_NWK_FRAME_COUNT 1 ->
     fl_byte (nv_fl s') x = fl_byte (nv_fl open_sys) x) /\
  forall id x, nv_module id -> id <> NV_MODULE_NWK_FRAME_COUNT ->
    MODULE_SECT_START id 0 <= x < MODULE_SECT_END id 1 -> fl_byte (nv_fl s') x = 255.
Proof. apply (nv_resetToFactoryNew_exact open_sys); [apply open_ok|apply open_mask]. Defined.

Lemma nv_frameCount_first_save_status_witness :
  (nv_nwkFrameCountSaveToFlash 100 open_sys).1 = NV_ITEM_NOT_FOUND.
Proof. apply (nv_frameCount_first_save_status open_sys 100). vm_compute. reflexivity. Defined.

(** Two thousand counts: the sectors are switched once. *)
Definition demo_counts : list Z := map Z.of_nat (seq 0 2000).

Lemma demo_counts_ok : Forall count_ok demo_counts.
Proof.
  apply Forall_forall. intros v (i & -> & Hi%elem_of_seq)%list_elem_of_fmap. unfold count_ok. lia.
Qed.

Lemma frameCount_roundtrip_witness :
  let '(rs, s') := frameCount_saves (7 :: demo_counts) open_sys in
  nv_nwkFrameCountFromFlash s' = (NV_SUCC, last (7 :: demo_counts)) /\
  exists rs', rs = NV_ITEM_NOT_FOUND :: rs' /\ Forall (fun r => r = NV_SUCC) rs'.
Proof.
  apply (frameCount_roundtrip open_sys 7 demo_counts).
  - apply open_ok.
  - apply open_mask.
  - vm_compute. reflexivity.
  - apply Forall_cons. split; [unfold count_ok; lia|apply demo_counts_ok].
Defined.

(** The count was stored all the same. *)
Example frameCount_first_save_stored :
  nv_nwkFrameCountFromFlash (nv_nwkFrameCountSaveToFlash 100 open_sys).2 = (NV_SUCC, Some 100).
Proof. vm_compute. reflexivity. Qed.

Lemma nv_reset_user1_erases_user2_witness :
  fl_byte (nv_fl (nv_resetModule NV_MODULE_USER_INFO1 open_sys).2) 0x86000 = 255.
Proof.
  apply (nv_reset_user1_erases_user2 open_sys 0x86000); [apply open_ok|apply open_mask|].
  vm_compute. intuition discriminate.
Defined.

(** A sector update, evaluated: the fourth item does not fit, the valid items are
    moved to the other sector, which becomes the operating one. *)
Example nv_sector_update_demo :
  let ops := [(1, repeat 1 900); (2, repeat 2 900); (1, repeat 3 900); (3, repeat 4 900)] in
  let '(rs, s') := nv_puts NV_MODULE_MAC_INFO ops open_sys in
  forallb (fun r => bool_decide (r = NV_SUCC)) rs = true /\
  (nv_sector_read NV_MODULE_MAC_INFO 2 s').2 = Some (mk_sect NV_SECTOR_VALID 0 1) /\
  nv_flashReadNew true NV_MODULE_MAC_INFO 1 900 s' = (NV_SUCC, OutBytes (repeat 3 900)) /\
  nv_flashReadNew true NV_MODULE_MAC_INFO 2 900 s' = (NV_SUCC, OutBytes (repeat 2 900)) /\
  nv_flashReadNew true NV_MODULE_MAC_INFO 3 900 s' = (NV_SUCC, OutBytes (repeat 4 900)).
Proof. vm_compute. split_and!; reflexivity. Qed.

(** Two items, written many more times than the table has entries. *)
Definition demo_items : list (Z * Z) := [(1, 4); (0x20, 8)].

Definition demo_rounds (n : nat) : list (Z * list Z) :=
  flat_map (fun i => [(1, repeat (Z.of_nat i) 4); (0x20, repeat (Z.of_nat i + 100) 8)]) (seq 0 n).

Lemma demo_items_ok : items_ok NV_MODULE_USER_INFO2 demo_items.
Proof.
  split.
  - repeat (apply NoDup_cons; split; [set_solver|]). apply NoDup_nil. done.
  - unfold item_ok, is_byte, ITEM_FIELD_IDLE.
    intros k [->|[->|Hk%elem_of_nil]%elem_of_cons]%elem_of_cons; cbn; (done || lia).
  - vm_compute. discriminate.
  - vm_compute. discriminate.
Qed.

Lemma demo_rounds_ok n : (n <= 100)%nat ->
  Forall (fun op => (op.1, Z.of_nat (length op.2)) ∈ demo_items /\ Forall is_byte op.2) (demo_rounds n).
Proof.
  intros Hn. apply Forall_forall. intros op Hop.
  apply list_elem_of_In, in_flat_map in Hop as (i & [_ Hi]%in_seq & Hop).
  destruct Hop as [<-|[<-|[]]]; (split; [cbn; set_solver|]); cbn; unfold is_byte;
    repeat (apply Forall_cons; split; [lia|]); by apply Forall_nil.
Qed.

Lemma nv_store_unbounded_witness :
  let '(rs, s') := nv_puts NV_MODULE_USER_INFO2 (demo_rounds 100)
                     (nv_resetModule NV_MODULE_USER_INFO2 open_sys).2 in
  Forall (fun r => r = NV_SUCC) rs /\
  forall itemId len, item_ok itemId len ->
    nv_flashReadNew true NV_MODULE_USER_INFO2 itemId len s' =
    match store_of (demo_rounds 100) ∅ !! (itemId, len) with
    | Some l => (NV_SUCC, OutBytes l)
    | None => (NV_ITEM_NOT_FOUND, OutNone)
    end.
Proof.
  apply (nv_store_unbounded open_sys NV_MODULE_USER_INFO2 demo_items (demo_rounds 100)).
  - unfold nv_module, NV_MODULE_USER_INFO2. lia.
  - apply open_ok.
  - apply open_mask.
  - apply ev_heap_ok_init. by vm_compute.
  - apply demo_items_ok.
  - apply demo_rounds_ok. lia.
Defined.

(** Items that fill the sector: the last write does not fit. *)
Definition demo_fill : list (Z * list Z) :=
  [(1, repeat 1 1200); (2, repeat 2 1200); (3, repeat 3 1200); (2, repeat 4 1200)].

Lemma demo_fill_ok : Forall put_aligned demo_fill.
Proof.
  unfold demo_fill, put_aligned, put_ok, item_ok, is_byte, ITEM_FIELD_IDLE.
  repeat (apply Forall_cons; split; [split; [split; [cbn; lia|by apply sim_bytes]|done]|]). apply Forall_nil. done.
Qed.

Lemma nv_writes_all_or_nothing_witness :
  let '(rs, s') := nv_puts NV_MODULE_MAC_INFO demo_fill (nv_resetModule NV_MODULE_MAC_INFO open_sys).2 in
  exists mems, length mems = length demo_fill /\
  (heap_ok (nv_heap open_sys) -> Forall (fun m => m = true) mems) /\
  let '(rs', sh) := shelf_puts NV_MODULE_MAC_INFO mems empty_shelf demo_fill in
  rs = rs' /\
  forall itemId len, item_ok itemId len ->
    nv_flashReadNew true NV_MODULE_MAC_INFO itemId len s' =
    match sh_items sh !! (itemId, len) with
    | Some l => (NV_SUCC, OutBytes l)
    | None => (NV_ITEM_NOT_FOUND, OutNone)
    end.
Proof.
  apply (nv_writes_all_or_nothing open_sys NV_MODULE_MAC_INFO demo_fill).
  - unfold nv_module, NV_MODULE_MAC_INFO. lia.
  - apply open_ok.
  - apply open_mask.
  - apply demo_fill_ok.
Defined.

(** The same, evaluated: the third item is refused, the fourth, which replaces
    the second, is stored in the other sector. *)
Example nv_fill_demo :
  let '(rs, s') := nv_puts NV_MODULE_MAC_INFO demo_fill (nv_resetModule NV_MODULE_MAC_INFO open_sys).2 in
  bool_decide (rs = [NV_SUCC; NV_SUCC; NV_NOT_ENOUGH_SAPCE; NV_SUCC]) = true /\
  nv_flashReadNew true NV_MODULE_MAC_INFO 1 1200 s' = (NV_SUCC, OutBytes (repeat 1 1200)) /\
  nv_flashReadNew true NV_MODULE_MAC_INFO 2 1200 s' = (NV_SUCC, OutBytes (repeat 4 1200)) /\
  nv_flashReadNew true NV_MODULE_MAC_INFO 3 1200 s' = (NV_ITEM_NOT_FOUND, OutNone).
Proof. vm_compute. split_and!; reflexivity. Qed.

(** What survives depends on whether the sectors were switched: an item of the same id and
    another length is kept by an ordinary write, and dropped by a sector update. *)
Example nv_update_drops_other_length :
  let first := [(1, repeat 1 4); (2, repeat 2 1600); (1, repeat 3 8)] in
  let s1 := (nv_puts NV_MODULE_MAC_INFO first (nv_resetModule NV_MODULE_MAC_INFO open_sys).2).2 in
  let s2 := (nv_puts NV_MODULE_MAC_INFO [(2, repeat 5 1600); (1, repeat 3 8)] s1).2 in
  let s3 := (nv_puts NV_MODULE_MAC_INFO [(1, repeat 7 1000)] s2).2 in
  nv_flashReadNew true NV_MODULE_MAC_INFO 1 4 s2 = (NV_SUCC, OutBytes (repeat 1 4)) /\
  nv_flashReadNew true NV_MODULE_MAC_INFO 1 4 s3 = (NV_ITEM_NOT_FOUND, OutNone).
Proof. vm_compute. split; reflexivity. Qed.
