(* ===== verification/NvCut.v ===== *)
(** * The NV store and power cuts

    A flash that loses its supply after a number of program and erase operations:
    the operations of the code run on, but nothing more reaches the chip.  What a
    restart finds is what the store reads afterwards. *)
From S2P Require Import Prelude Memory SysEv EvBuffer SpiFlash FlashIf FlashDrv SimChip FlashProps.
From S2P Require Import Nv NvSpec NvStore NvProps.

#[local] Existing Instance demo_layout.

(** ** The cut *)

(** A flash with the number of operations left. *)
Record cut (F : Type) := mk_cut { cut_left : nat; cut_fl : F }.
Arguments mk_cut {F}.
Arguments cut_left {F}.
Arguments cut_fl {F}.

Definition cut_op {F} (op : F -> F) (c : cut F) : cut F :=
  match cut_left c with
  | O => c
  | S n => mk_cut n (op (cut_fl c))
  end.

#[export] Instance cut_Flash {F} `{Flash F} : Flash (cut F) := {|
  fl_read c := fl_read (cut_fl c);
  fl_write a l := cut_op (fl_write a l);
  fl_erase a := cut_op (fl_erase a);
  fl_lock c := mk_cut (cut_left c) (fl_lock (cut_fl c));
  fl_unlock c := mk_cut (cut_left c) (fl_unlock (cut_fl c))
|}.

(** A write of an item that is cut after [n] operations, and the restart. *)
Definition cut_write {F B} `{Flash F} `{NvHeap B} (n : nat) (id itemId : Z) (buf : list Z) (s : nv F B)
    : nv F B :=
  let s' := (nv_flashWriteNew true id itemId (Z.of_nat (length buf)) buf
               (mk_nv (mk_cut n (nv_fl s)) (nv_heap s))).2 in
  mk_nv (cut_fl (nv_fl s')) (nv_heap s).

(** ** A sector update, cut at every operation *)

(** The index table of the MAC module is full after 63 writes. *)
Definition before_cut : nv (drv sim_chip) buf_state :=
  (nv_puts NV_MODULE_MAC_INFO
     (map (fun i => (1 + Z.of_nat i mod 2, repeat (Z.of_nat i) 4)) (seq 0 63)) open_sys).2.

(** What is read for the three items after the next write was cut after [n]
    operations. *)
Definition reads_after (s : nv (drv sim_chip) buf_state) (n : nat) : list (nv_sts_t * nv_read_out) :=
  let s := cut_write n NV_MODULE_MAC_INFO 3 [9; 9; 9; 9] s in
  map (fun itemId => nv_flashReadNew true NV_MODULE_MAC_INFO itemId 4 s) [1; 2; 3].

(** ** Property *)

(** A power cut during a sector update can lose a whole module: the update is
    safe as long as the old header stands (the items are as before) and once the
    new one does (the new item is stored too), but the old header is made invalid
    first, and a cut between the two leaves no item of the module readable. *)
Theorem nv_power_cut_gap :
  let before := [(NV_SUCC, OutBytes (repeat 62 4)); (NV_SUCC, OutBytes (repeat 61 4)); (NV_ITEM_NOT_FOUND, OutNone)] in
  let after := [(NV_SUCC, OutBytes (repeat 62 4)); (NV_SUCC, OutBytes (repeat 61 4)); (NV_SUCC, OutBytes (repeat 9 4))] in
  map (reads_after before_cut) (seq 0 15) = repeat before 12 ++ [repeat (NV_ITEM_NOT_FOUND, OutNone) 3] ++ repeat after 2.
Proof. vm_compute. reflexivity. Qed.
