(* ===== verification/Crc.v ===== *)
(** * The checksum of OTA images ([demo/app_common/ota/otaCRC.c])

    The table-driven CRC-32 of the update code, the bitwise definition it
    implements, and what it detects. *)
From S2P Require Import Prelude.

(** The table of the compiled branch. *)
Definition crc32_table : list Z := [
   0x00000000; 0x77073096; 0xEE0E612C; 0x990951BA; 0x076DC419; 0x706AF48F; 0xE963A535; 0x9E6495A3;
   0x0EDB8832; 0x79DCB8A4; 0xE0D5E91E; 0x97D2D988; 0x09B64C2B; 0x7EB17CBD; 0xE7B82D07; 0x90BF1D91;
   0x1DB71064; 0x6AB020F2; 0xF3B97148; 0x84BE41DE; 0x1ADAD47D; 0x6DDDE4EB; 0xF4D4B551; 0x83D385C7;
   0x136C9856; 0x646BA8C0; 0xFD62F97A; 0x8A65C9EC; 0x14015C4F; 0x63066CD9; 0xFA0F3D63; 0x8D080DF5;
   0x3B6E20C8; 0x4C69105E; 0xD56041E4; 0xA2677172; 0x3C03E4D1; 0x4B04D447; 0xD20D85FD; 0xA50AB56B;
   0x35B5A8FA; 0x42B2986C; 0xDBBBC9D6; 0xACBCF940; 0x32D86CE3; 0x45DF5C75; 0xDCD60DCF; 0xABD13D59;
   0x26D930AC; 0x51DE003A; 0xC8D75180; 0xBFD06116; 0x21B4F4B5; 0x56B3C423; 0xCFBA9599; 0xB8BDA50F;
   0x2802B89E; 0x5F058808; 0xC60CD9B2; 0xB10BE924; 0x2F6F7C87; 0x58684C11; 0xC1611DAB; 0xB6662D3D;
   0x76DC4190; 0x01DB7106; 0x98D220BC; 0xEFD5102A; 0x71B18589; 0x06B6B51F; 0x9FBFE4A5; 0xE8B8D433;
   0x7807C9A2; 0x0F00F934; 0x9609A88E; 0xE10E9818; 0x7F6A0DBB; 0x086D3D2D; 0x91646C97; 0xE6635C01;
   0x6B6B51F4; 0x1C6C6162; 0x856530D8; 0xF262004E; 0x6C0695ED; 0x1B01A57B; 0x8208F4C1; 0xF50FC457;
   0x65B0D9C6; 0x12B7E950; 0x8BBEB8EA; 0xFCB9887C; 0x62DD1DDF; 0x15DA2D49; 0x8CD37CF3; 0xFBD44C65;
   0x4DB26158; 0x3AB551CE; 0xA3BC0074; 0xD4BB30E2; 0x4ADFA541; 0x3DD895D7; 0xA4D1C46D; 0xD3D6F4FB;
   0x4369E96A; 0x346ED9FC; 0xAD678846; 0xDA60B8D0; 0x44042D73; 0x33031DE5; 0xAA0A4C5F; 0xDD0D7CC9;
   0x5005713C; 0x270241AA; 0xBE0B1010; 0xC90C2086; 0x5768B525; 0x206F85B3; 0xB966D409; 0xCE61E49F;
   0x5EDEF90E; 0x29D9C998; 0xB0D09822; 0xC7D7A8B4; 0x59B33D17; 0x2EB40D81; 0xB7BD5C3B; 0xC0BA6CAD;
   0xEDB88320; 0x9ABFB3B6; 0x03B6E20C; 0x74B1D29A; 0xEAD54739; 0x9DD277AF; 0x04DB2615; 0x73DC1683;
   0xE3630B12; 0x94643B84; 0x0D6D6A3E; 0x7A6A5AA8; 0xE40ECF0B; 0x9309FF9D; 0x0A00AE27; 0x7D079EB1;
   0xF00F9344; 0x8708A3D2; 0x1E01F268; 0x6906C2FE; 0xF762575D; 0x806567CB; 0x196C3671; 0x6E6B06E7;
   0xFED41B76; 0x89D32BE0; 0x10DA7A5A; 0x67DD4ACC; 0xF9B9DF6F; 0x8EBEEFF9; 0x17B7BE43; 0x60B08ED5;
   0xD6D6A3E8; 0xA1D1937E; 0x38D8C2C4; 0x4FDFF252; 0xD1BB67F1; 0xA6BC5767; 0x3FB506DD; 0x48B2364B;
   0xD80D2BDA; 0xAF0A1B4C; 0x36034AF6; 0x41047A60; 0xDF60EFC3; 0xA867DF55; 0x316E8EEF; 0x4669BE79;
   0xCB61B38C; 0xBC66831A; 0x256FD2A0; 0x5268E236; 0xCC0C7795; 0xBB0B4703; 0x220216B9; 0x5505262F;
   0xC5BA3BBE; 0xB2BD0B28; 0x2BB45A92; 0x5CB36A04; 0xC2D7FFA7; 0xB5D0CF31; 0x2CD99E8B; 0x5BDEAE1D;
   0x9B64C2B0; 0xEC63F226; 0x756AA39C; 0x026D930A; 0x9C0906A9; 0xEB0E363F; 0x72076785; 0x05005713;
   0x95BF4A82; 0xE2B87A14; 0x7BB12BAE; 0x0CB61B38; 0x92D28E9B; 0xE5D5BE0D; 0x7CDCEFB7; 0x0BDBDF21;
   0x86D3D2D4; 0xF1D4E242; 0x68DDB3F8; 0x1FDA836E; 0x81BE16CD; 0xF6B9265B; 0x6FB077E1; 0x18B74777;
   0x88085AE6; 0xFF0F6A70; 0x66063BCA; 0x11010B5C; 0x8F659EFF; 0xF862AE69; 0x616BFFD3; 0x166CCF45;
   0xA00AE278; 0xD70DD2EE; 0x4E048354; 0x3903B3C2; 0xA7672661; 0xD06016F7; 0x4969474D; 0x3E6E77DB;
   0xAED16A4A; 0xD9D65ADC; 0x40DF0B66; 0x37D83BF0; 0xA9BCAE53; 0xDEBB9EC5; 0x47B2CF7F; 0x30B5FFE9;
   0xBDBDF21C; 0xCABAC28A; 0x53B39330; 0x24B4A3A6; 0xBAD03605; 0xCDD70693; 0x54DE5729; 0x23D967BF;
   0xB3667A2E; 0xC4614AB8; 0x5D681B02; 0x2A6F2B94; 0xB40BBE37; 0xC30C8EA1; 0x5A05DF1B; 0x2D02EF8D].

(** One turn of the loop of [xcrc32]. *)
Definition crc_step (crc b : Z) : Z :=
  Z.lxor (Z.shiftr crc 8) (nth (Z.to_nat (Z.land (Z.lxor crc b) 0xff)) crc32_table 0).

Definition xcrc32 (buf : list Z) (init : Z) : Z := fold_left crc_step buf init.

(** ** The reference: one bit at a time, reflected polynomial 0xEDB88320 *)
Definition bit_step (x : Z) : Z :=
  Z.lxor (Z.shiftr x 1) (if Z.odd x then 0xEDB88320 else 0).

Fixpoint bit_steps (n : nat) (x : Z) : Z :=
  match n with O => x | S n' => bit_steps n' (bit_step x) end.

Definition crc_bitwise (buf : list Z) (init : Z) : Z :=
  fold_left (fun crc b => bit_steps 8 (Z.lxor crc b)) buf init.

(** ** The register update is linear *)
Lemma bit_step_lxor x y : bit_step (Z.lxor x y) = Z.lxor (bit_step x) (bit_step y).
Proof.
  unfold bit_step. rewrite Z.shiftr_lxor.
  assert (Z.odd (Z.lxor x y) = xorb (Z.odd x) (Z.odd y)) as ->
    by (rewrite <-!Z.bit0_odd; apply Z.lxor_spec).
  apply Z.bits_inj'. intros n Hn. rewrite !Z.lxor_spec.
  destruct (Z.odd x), (Z.odd y); cbn [xorb]; rewrite ?Z.bits_0;
    destruct (Z.testbit (Z.shiftr x 1) n), (Z.testbit (Z.shiftr y 1) n), (Z.testbit 0xEDB88320 n);
    reflexivity.
Qed.

Lemma bit_steps_lxor n x y : bit_steps n (Z.lxor x y) = Z.lxor (bit_steps n x) (bit_steps n y).
Proof. revert x y. induction n as [|n IH]; intros; cbn [bit_steps]; [done|]. by rewrite bit_step_lxor, IH. Qed.

(** Low zero bits are shifted out. *)
Lemma bit_steps_shift n y : bit_steps n (Z.shiftl y (Z.of_nat n)) = y.
Proof.
  revert y. induction n as [|n IH]; intros y; cbn [bit_steps]; [apply Z.shiftl_0_r|].
  rewrite <-(IH y) at 2. f_equal. unfold bit_step.
  assert (Z.odd (Z.shiftl y (Z.of_nat (S n))) = false) as ->.
  { rewrite <-Z.bit0_odd. apply Z.shiftl_spec_low. lia. }
  rewrite Z.lxor_0_r, Z.shiftr_shiftl_l by lia. f_equal. lia.
Qed.

(** A word is its low byte and the rest. *)
Lemma split_byte x : Z.lxor (Z.shiftl (Z.shiftr x 8) 8) (Z.land x 0xff) = x.
Proof.
  apply Z.bits_inj'. intros n Hn. rewrite Z.lxor_spec, Z.land_spec.
  change 0xff with (Z.ones 8). rewrite Z.shiftl_spec by done.
  destruct (Z.ltb_spec n 8).
  - rewrite (Z.testbit_neg_r _ (n - 8)), Z.ones_spec_low by lia.
    by rewrite xorb_false_l, andb_true_r.
  - rewrite Z.shiftr_spec, Z.ones_spec_high, andb_false_r, xorb_false_r by lia. f_equal. lia.
Qed.

Lemma bit_steps_byte x :
  bit_steps 8 x = Z.lxor (Z.shiftr x 8) (bit_steps 8 (Z.land x 0xff)).
Proof.
  rewrite <-(split_byte x) at 1. rewrite bit_steps_lxor. f_equal. apply (bit_steps_shift 8).
Qed.

Lemma land_byte_range x : 0 <= Z.land x 0xff < 256.
Proof. change 0xff with (Z.ones 8). rewrite Z.land_ones by lia. apply Z.mod_pos_bound. lia. Qed.

(** The table holds the effect of eight steps on each byte. *)
Lemma crc_table_spec i : 0 <= i < 256 -> nth (Z.to_nat i) crc32_table 0 = bit_steps 8 i.
Proof.
  assert (forallb (fun k => nth k crc32_table 0 =? bit_steps 8 (Z.of_nat k)) (seq 0 256) = true) as Ht
    by (vm_compute; reflexivity).
  rewrite forallb_forall in Ht. intros Hi.
  specialize (Ht (Z.to_nat i) ltac:(apply in_seq; lia)). apply Z.eqb_eq in Ht.
  by rewrite Ht, Z2Nat.id by lia.
Qed.

Lemma crc_step_bitwise crc b : 0 <= b < 256 -> crc_step crc b = bit_steps 8 (Z.lxor crc b).
Proof.
  intros Hb. unfold crc_step. rewrite crc_table_spec by apply land_byte_range.
  rewrite (bit_steps_byte (Z.lxor crc b)). f_equal.
  rewrite Z.shiftr_lxor. rewrite (Z.shiftr_div_pow2 b) by lia.
  rewrite (Z.div_small b) by lia. by rewrite Z.lxor_0_r.
Qed.

(** ** The update of the register is injective *)
Lemma crc_table_range k : 0 <= nth k crc32_table 0 < 2 ^ 32.
Proof.
  assert (forallb (fun v => (0 <=? v) && (v <? 2 ^ 32)) crc32_table = true) as Ht by (vm_compute; reflexivity).
  rewrite forallb_forall in Ht. destruct (decide (k < length crc32_table)%nat) as [Hk|Hk].
  - specialize (Ht _ (nth_In _ 0 Hk)). lia.
  - rewrite nth_overflow by lia. lia.
Qed.

(** The top bytes of the table's entries are all different. *)
Lemma crc_table_inj i j :
  0 <= i < 256 -> 0 <= j < 256 ->
  Z.shiftr (nth (Z.to_nat i) crc32_table 0) 24 = Z.shiftr (nth (Z.to_nat j) crc32_table 0) 24 -> i = j.
Proof.
  assert (forallb (fun a => forallb (fun b => negb (Z.shiftr (nth a crc32_table 0) 24 =? Z.shiftr (nth b crc32_table 0) 24)
            || (a =? b)%nat) (seq 0 256)) (seq 0 256) = true) as Ht by (vm_compute; reflexivity).
  intros Hi Hj E. rewrite forallb_forall in Ht.
  specialize (Ht (Z.to_nat i) ltac:(apply in_seq; lia)). rewrite forallb_forall in Ht.
  specialize (Ht (Z.to_nat j) ltac:(apply in_seq; lia)). rewrite E, Z.eqb_refl in Ht. cbn [negb orb] in Ht.
  apply Nat.eqb_eq in Ht. lia.
Qed.

Lemma lxor_cancel_r a b c : Z.lxor a c = Z.lxor b c -> a = b.
Proof.
  intros E. assert (Z.lxor (Z.lxor a c) c = Z.lxor (Z.lxor b c) c) as E2 by (by rewrite E).
  by rewrite !Z.lxor_assoc, Z.lxor_nilpotent, !Z.lxor_0_r in E2.
Qed.

Lemma crc_step_inj c1 c2 b1 b2 :
  0 <= c1 < 2 ^ 32 -> 0 <= c2 < 2 ^ 32 ->
  crc_step c1 b1 = crc_step c2 b2 ->
  Z.shiftr c1 8 = Z.shiftr c2 8 /\ Z.land (Z.lxor c1 b1) 0xff = Z.land (Z.lxor c2 b2) 0xff.
Proof.
  intros H1 H2 E. unfold crc_step in E.
  set (i1 := Z.land (Z.lxor c1 b1) 0xff) in *. set (i2 := Z.land (Z.lxor c2 b2) 0xff) in *.
  assert (Hi1 : 0 <= i1 < 256) by apply land_byte_range.
  assert (Hi2 : 0 <= i2 < 256) by apply land_byte_range.
  assert (i1 = i2) as Ei.
  { apply crc_table_inj; [done|done|].
    assert (forall c, 0 <= c < 2 ^ 32 -> Z.shiftr (Z.shiftr c 8) 24 = 0) as Hz.
    { intros c Hc. rewrite Z.shiftr_shiftr, Z.shiftr_div_pow2 by lia. apply Z.div_small. lia. }
    apply (f_equal (fun v => Z.shiftr v 24)) in E. rewrite !Z.shiftr_lxor in E.
    by rewrite !Hz, !Z.lxor_0_l in E. }
  split; [|done]. rewrite Ei in E. by apply lxor_cancel_r in E.
Qed.

Lemma crc_step_range c b : 0 <= c < 2 ^ 32 -> 0 <= crc_step c b < 2 ^ 32.
Proof.
  intros Hc. apply lxor_range; [lia| |apply crc_table_range].
  rewrite Z.shiftr_div_pow2 by lia. zdm.
Qed.

Lemma xcrc32_range buf c : 0 <= c < 2 ^ 32 -> 0 <= xcrc32 buf c < 2 ^ 32.
Proof.
  revert c. induction buf as [|b buf IH]; intros c Hc; [done|]. apply IH. by apply crc_step_range.
Qed.

(** Equal words from their halves. *)
Lemma word_split_inj c1 c2 :
  Z.shiftr c1 8 = Z.shiftr c2 8 -> Z.land c1 0xff = Z.land c2 0xff -> c1 = c2.
Proof. intros E1 E2. by rewrite <-(split_byte c1), <-(split_byte c2), E1, E2. Qed.

Lemma land_lxor_distr a b m : Z.land (Z.lxor a b) m = Z.lxor (Z.land a m) (Z.land b m).
Proof.
  apply Z.bits_inj'. intros n Hn. rewrite !Z.land_spec, !Z.lxor_spec, !Z.land_spec.
  destruct (Z.testbit a n), (Z.testbit b n), (Z.testbit m n); reflexivity.
Qed.

Lemma xcrc32_inj buf c1 c2 :
  0 <= c1 < 2 ^ 32 -> 0 <= c2 < 2 ^ 32 -> xcrc32 buf c1 = xcrc32 buf c2 -> c1 = c2.
Proof.
  revert c1 c2. induction buf as [|b buf IH]; intros c1 c2 H1 H2 E; [done|].
  cbn [xcrc32 fold_left] in E. apply IH in E; [|by apply crc_step_range|by apply crc_step_range].
  destruct (crc_step_inj _ _ _ _ H1 H2 E) as [E1 E2]. apply word_split_inj; [done|].
  rewrite !land_lxor_distr in E2. by apply lxor_cancel_r in E2.
Qed.

Lemma xcrc32_app l1 l2 c : xcrc32 (l1 ++ l2) c = xcrc32 l2 (xcrc32 l1 c).
Proof. apply fold_left_app. Qed.

(** ** Properties *)

(** C33. The table-driven checksum of the update code is the bitwise CRC-32 with the
    reflected polynomial 0xEDB88320, for every buffer and every starting value:
    all 256 entries of the table are right. *)
Theorem xcrc32_bitwise (buf : list Z) (init : Z) :
  Forall (fun b => 0 <= b < 256) buf -> xcrc32 buf init = crc_bitwise buf init.
Proof.
  intros Hb. unfold xcrc32, crc_bitwise. revert init. induction Hb as [|b buf Hb _ IH]; intros init; [done|].
  cbn [fold_left]. by rewrite crc_step_bitwise, IH by done.
Qed.

(** An image in which one byte is wrong never passes the checksum: buffers that
    differ in exactly one byte have different checksums. *)
Theorem xcrc32_detects_byte (pre post : list Z) (b1 b2 init : Z) :
  0 <= init < 2 ^ 32 -> 0 <= b1 < 256 -> 0 <= b2 < 256 -> b1 <> b2 ->
  xcrc32 (pre ++ b1 :: post) init <> xcrc32 (pre ++ b2 :: post) init.
Proof.
  intros Hi H1 H2 Hne E. apply Hne. rewrite !xcrc32_app in E.
  pose proof (xcrc32_range pre init Hi) as Hc. set (c := xcrc32 pre init) in *. clearbody c.
  cbn [xcrc32 fold_left] in E.
  apply (xcrc32_inj post) in E; [|by apply crc_step_range|by apply crc_step_range].
  destruct (crc_step_inj _ _ _ _ Hc Hc E) as [_ El].
  rewrite !land_lxor_distr, !(Z.lxor_comm (Z.land c 255)) in El. apply lxor_cancel_r in El.
  change 255 with (Z.ones 8) in El. rewrite !Z.land_ones, !Z.mod_small in El by lia. done.
Qed.

(** ** Witnesses *)

(** The check value of CRC-32: the bytes of "123456789". *)
Lemma xcrc32_bitwise_witness :
  xcrc32 [0x31; 0x32; 0x33; 0x34; 0x35; 0x36; 0x37; 0x38; 0x39] 0xffffffff = Z.lxor 0xCBF43926 0xffffffff /\
  xcrc32 [0x31; 0x32; 0x33; 0x34; 0x35; 0x36; 0x37; 0x38; 0x39] 0xffffffff =
  crc_bitwise [0x31; 0x32; 0x33; 0x34; 0x35; 0x36; 0x37; 0x38; 0x39] 0xffffffff.
Proof. split; [vm_compute; reflexivity|]. apply xcrc32_bitwise. repeat constructor; lia. Defined.

Lemma xcrc32_detects_byte_witness :
  xcrc32 ([1; 2] ++ 3 :: [4]) 0xffffffff <> xcrc32 ([1; 2] ++ 5 :: [4]) 0xffffffff.
Proof. apply (xcrc32_detects_byte [1; 2] [4] 3 5 0xffffffff); lia. Defined.
