(* ===== verification/Ota.v ===== *)
(** * Over-the-air update: data and services
    ([demo/app_common/ota/tl_specific_data_ota.h], [tl_specific_data.h])

    What the two roles share: the constants, the packed structures of the
    commands with their encoding, and the services the code calls, as a class:
    the MAC's attributes (the software timers are in [TimerIf.v]).  The MAC's transmission is an
    output: the state of each role records the requests handed to it. *)
From S2P Require Import Prelude SysEv EvTimer TimerIf SpiFlash FlashIf.

(** ** Constants *)
Definition OTA_FRAMESIZE : Z := 0x30.
Definition OTA_UPGRADE_FILE_ID : Z := 0x0BEEF11E.
Definition FLASH_OTA_NEWIMAGE_ADDR : Z := 0x40000.
Definition OTA_TLNK_KEYWORD_ADDROFFSET : Z := 8.
Definition OTA_MAX_IMAGE_SIZE : Z := 0x30000.
Definition OTA_SECTOR_SIZE : Z := 4096.

Definition TL_CMD_OTA_START_REQ : Z := 1.
Definition TL_CMD_OTA_START_RSP : Z := 2.
Definition TL_CMD_OTA_STOP_REQ : Z := 3.
Definition TL_CMD_OTA_STOP_RSP : Z := 4.
Definition TL_CMD_OTA_DATA_REQ : Z := 5.
Definition TL_CMD_OTA_DATA_RSP : Z := 6.

Inductive tl_otaState_e := OTA_STA_IDLE | OTA_STA_STARTING | OTA_STA_DATAING | OTA_STA_END.
Inductive tl_otabin_e := OTA_BIN_VALID | OTA_BIN_INVALID.

#[export] Instance tl_otaState_e_eq_dec : EqDecision tl_otaState_e.
Proof. solve_decision. Defined.
#[export] Instance tl_otabin_e_eq_dec : EqDecision tl_otabin_e.
Proof. solve_decision. Defined.

Definition OTA_HEAD_LENGTH : Z := 0x06.
Definition OTA_HEAD_MAUNCODE : Z := 0x0a.
Definition OTA_HEAD_IMAGETYPE : Z := 0x0c.
Definition OTA_HEAD_FILEVER : Z := 0x0e.
Definition OTA_HEAD_IMAGESIZE : Z := 0x3a.

(** [version_cfg.h] of the end device, on the 8278. *)
Definition MANUFACTURER_CODE : Z := 0x1141.
Definition IMAGE_TYPE : Z := Z.lor (Z.shiftl 0x78 8) 0x52.
Definition FILE_VERSION : Z := Z.lor (Z.lor (Z.lor (Z.shiftl 0x10 24) (Z.shiftl 0x40 16)) (Z.shiftl 0 8)) 0.

Definition TL_SPECIFIC_ID_OTA : Z := 1.
Definition INVALID_EVENT_ID : Z := 6.
Definition MAC_TX_OPTION_ACKNOWLEDGED_BIT : Z := 1.
Definition MAC_TX_OPTION_INDIRECT_TRANSMISSION_BIT : Z := 4.
Definition ZB_ADDR_16BIT_DEV_OR_BROADCAST : Z := 2.
Definition ZB_ADDR_64BIT_DEV : Z := 3.
Definition ATTR_PAN_ID : Z := 0x50.
Definition ATTR_COORDINATOR_EXTENDED_ADDRESS : Z := 0x4A.

(** ** Structures: packed, little-endian *)
Record tl_appFrameHdr_t := mk_fhdr { appId : Z; seqNo : Z; cmdId : Z; fr_len : Z }.

Record ota_preamble_t := mk_pre { fileVer : Z; imageType : Z; manufaurerCode : Z; imageSize : Z }.

#[export] Instance ota_preamble_t_eq_dec : EqDecision ota_preamble_t.
Proof. solve_decision. Defined.

Definition pre_zero : ota_preamble_t := mk_pre 0 0 0 0.

Definition enc_fhdr (h : tl_appFrameHdr_t) : list Z := [u8 (appId h); u8 (seqNo h); u8 (cmdId h); u8 (fr_len h)].
Definition enc_pre (p : ota_preamble_t) : list Z :=
  word_le 4 (fileVer p) ++ word_le 2 (imageType p) ++ word_le 2 (manufaurerCode p) ++ word_le 4 (imageSize p).

(** A received buffer is the memory from a pointer on. *)
Definition at_off (pd : Z -> Z) (o : Z) : Z -> Z := fun i => pd (o + i).
Definition get_fhdr (pd : Z -> Z) : tl_appFrameHdr_t := mk_fhdr (pd 0) (pd 1) (pd 2) (pd 3).
Definition get_pre (pd : Z -> Z) : ota_preamble_t :=
  mk_pre (le_word (bytes_at pd 0 4)) (le_word (bytes_at pd 4 2)) (le_word (bytes_at pd 6 2))
         (le_word (bytes_at pd 8 4)).

(** [ota_dataFrame_t] goes on with [payloadSize] and [payload]. *)
Definition get_payloadSize (pd : Z -> Z) : Z := pd 12.
Definition get_payload (pd : Z -> Z) : Z -> Z := at_off pd 13.

(** [sizeof(ota_preamble_t)]; [sizeof(ota_dataFrame_t) - OTA_FRAMESIZE] *)
Definition sizeof_preamble : Z := 12.
Definition sizeof_dataFrame_hdr : Z := 13.

Definition ota_cmd (seq cmd : Z) (p : ota_preamble_t) : list Z :=
  enc_fhdr (mk_fhdr TL_SPECIFIC_ID_OTA seq cmd sizeof_preamble) ++ enc_pre p.

(** ** Services *)

Record addr_t := mk_addr { addrMode : Z; addr_bytes : list Z }.

(** The fields of [zb_mscp_data_req_t] that are set, with the bytes to send. *)
Record zb_mscp_data_req_t := mk_req {
  rq_srcMode : Z;
  rq_dstAddr : addr_t;
  rq_dstPanId : list Z;
  rq_msduHandle : Z;
  rq_txOptions : Z;
  rq_msdu : list Z
}.

(** [tl_zbMacAttrGet], [ZB_PIB_RX_ON_WHEN_IDLE]. *)
Class MacEnv := {
  mac_attr : Z -> list Z;
  rxOnWhenIdle : bool
}.

(** ** Encoding and decoding *)
Definition pre_ok (p : ota_preamble_t) : Prop :=
  0 <= fileVer p < 2 ^ 32 /\ 0 <= imageType p < 2 ^ 16 /\ 0 <= manufaurerCode p < 2 ^ 16 /\
  0 <= imageSize p < 2 ^ 32.

Lemma length_enc_pre p : length (enc_pre p) = 12%nat.
Proof. unfold enc_pre. by rewrite !length_app, !length_word_le. Qed.

Lemma bytes_at_at_off pd o a n : bytes_at (at_off pd o) a n = bytes_at pd (o + a) n.
Proof.
  unfold bytes_at. apply map_ext. intros k. unfold at_off. f_equal. lia.
Qed.

(** A buffer that holds [l1 ++ l2]. *)
Lemma holds_app pd a l1 l2 :
  bytes_at pd a (length (l1 ++ l2)) = l1 ++ l2 ->
  bytes_at pd a (length l1) = l1 /\ bytes_at pd (a + Z.of_nat (length l1)) (length l2) = l2.
Proof.
  rewrite length_app, bytes_at_app. intros E. apply app_inj_1 in E; [done|apply length_bytes_at].
Qed.

Lemma get_enc_pre pd p :
  pre_ok p -> bytes_at pd 0 12 = enc_pre p -> get_pre pd = p.
Proof.
  intros (H1 & H2 & H3 & H4) E. unfold enc_pre in E.
  rewrite <-(length_enc_pre p) in E. unfold enc_pre in E.
  apply holds_app in E as [E1 E]. apply holds_app in E as [E2 E]. apply holds_app in E as [E3 E4].
  rewrite !length_word_le in *. unfold get_pre. rewrite E1.
  replace 4 with (0 + Z.of_nat 4) at 1 by lia. rewrite E2.
  replace 6 with (0 + Z.of_nat 4 + Z.of_nat 2) at 1 by lia. rewrite E3.
  replace 8 with (0 + Z.of_nat 4 + Z.of_nat 2 + Z.of_nat 2) by lia. rewrite E4.
  rewrite !le_word_word_le by lia. by destruct p.
Qed.
