(* ===== verification/OtaServer.v ===== *)
(** * Over-the-air update: the coordinator
    ([tl_specific_data_ota.c], [ZB_COORDINATOR_ROLE]; [tl_specific_data.c])

    The coordinator keeps a new image in flash and serves it in blocks of 48
    bytes.  [server] holds the globals of the file, the flash, the sender of the
    last frame ([dev_src_addr]) and the requests handed to the MAC.
    [sizeof(ota_hdrFields_t)] and the reads into local buffers are written out;
    [imageinfo] is read and not used. *)
From S2P Require Import Prelude SysEv EvTimer TimerIf SpiFlash FlashIf Ota.

Section Server.
Context {F : Type} `{Flash F} `{MacEnv}.

Record server := mk_server {
  sv_fl : F;
  dev_otaInfo : ota_preamble_t;
  mcuBootAddr : bool;
  ota_bin_state : tl_otabin_e;
  ota_headersize : Z;
  g_tlAppDataSeqNo : Z;
  seq_number : Z;
  dev_src_addr : addr_t;
  sv_sent : list zb_mscp_data_req_t
}.

Definition with_sv_fl v s := mk_server v (dev_otaInfo s) (mcuBootAddr s) (ota_bin_state s) (ota_headersize s) (g_tlAppDataSeqNo s) (seq_number s) (dev_src_addr s) (sv_sent s).
Definition with_dev_otaInfo v s := mk_server (sv_fl s) v (mcuBootAddr s) (ota_bin_state s) (ota_headersize s) (g_tlAppDataSeqNo s) (seq_number s) (dev_src_addr s) (sv_sent s).
Definition with_mcuBootAddr v s := mk_server (sv_fl s) (dev_otaInfo s) v (ota_bin_state s) (ota_headersize s) (g_tlAppDataSeqNo s) (seq_number s) (dev_src_addr s) (sv_sent s).
Definition with_ota_bin_state v s := mk_server (sv_fl s) (dev_otaInfo s) (mcuBootAddr s) v (ota_headersize s) (g_tlAppDataSeqNo s) (seq_number s) (dev_src_addr s) (sv_sent s).
Definition with_ota_headersize v s := mk_server (sv_fl s) (dev_otaInfo s) (mcuBootAddr s) (ota_bin_state s) v (g_tlAppDataSeqNo s) (seq_number s) (dev_src_addr s) (sv_sent s).
Definition with_g_tlAppDataSeqNo v s := mk_server (sv_fl s) (dev_otaInfo s) (mcuBootAddr s) (ota_bin_state s) (ota_headersize s) v (seq_number s) (dev_src_addr s) (sv_sent s).
Definition with_seq_number v s := mk_server (sv_fl s) (dev_otaInfo s) (mcuBootAddr s) (ota_bin_state s) (ota_headersize s) (g_tlAppDataSeqNo s) v (dev_src_addr s) (sv_sent s).
Definition with_dev_src_addr v s := mk_server (sv_fl s) (dev_otaInfo s) (mcuBootAddr s) (ota_bin_state s) (ota_headersize s) (g_tlAppDataSeqNo s) (seq_number s) v (sv_sent s).
Definition with_sv_sent v s := mk_server (sv_fl s) (dev_otaInfo s) (mcuBootAddr s) (ota_bin_state s) (ota_headersize s) (g_tlAppDataSeqNo s) (seq_number s) (dev_src_addr s) v.

Implicit Type s : server.

Definition server_addr (boot : bool) : Z := if boot then 0 else FLASH_OTA_NEWIMAGE_ADDR.

(** The keyword byte of a bootable image; [true] is the C result 1. *)
Definition mcuBootAddrGet (f : F) : bool :=
  if nth 0 (fl_read f OTA_TLNK_KEYWORD_ADDROFFSET 1) 0 =? 0x4b then false else true.

(** Offsets in [ota_hdrFields_t], 56 bytes. *)
Definition hdr_fields_of (l : list Z) : Z * ota_preamble_t :=
  (le_word (take 2 (drop 6 l)),
   mk_pre (le_word (take 4 (drop 14 l))) (le_word (take 2 (drop 12 l)))
          (le_word (take 2 (drop 10 l))) (le_word (take 4 (drop 52 l)))).

Definition ota_init s : server :=
  let s := with_mcuBootAddr (mcuBootAddrGet (sv_fl s)) s in
  let flashAddr := server_addr (mcuBootAddr s) in
  let file_id := le_word (fl_read (sv_fl s) flashAddr 4) in
  let s := with_ota_bin_state OTA_BIN_INVALID s in
  let s := with_dev_otaInfo pre_zero s in
  let s := with_ota_headersize 0 s in
  if file_id =? OTA_UPGRADE_FILE_ID then
    let '(otaHdrLen, headinfo) := hdr_fields_of (fl_read (sv_fl s) flashAddr 56) in
    if OTA_MAX_IMAGE_SIZE <=? imageSize headinfo then with_ota_bin_state OTA_BIN_INVALID s
    else if otaHdrLen <? imageSize headinfo then
      let s := with_dev_otaInfo headinfo s in
      let s := with_ota_headersize (imageSize (dev_otaInfo s)) s in
      with_ota_bin_state OTA_BIN_VALID s
    else with_ota_bin_state OTA_BIN_INVALID s
  else s.

(** The request of all the coordinator's answers; the sequence number is taken. *)
Definition answer (msdu : Z -> list Z) s : server :=
  let seq := g_tlAppDataSeqNo s in
  let req := mk_req ZB_ADDR_16BIT_DEV_OR_BROADCAST (dev_src_addr s) (mac_attr ATTR_PAN_ID) 0
    (Z.lor MAC_TX_OPTION_ACKNOWLEDGED_BIT MAC_TX_OPTION_INDIRECT_TRANSMISSION_BIT) (msdu seq) in
  with_sv_sent (sv_sent s ++ [req]) (with_g_tlAppDataSeqNo (u8 (seq + 1)) s).

Definition ota_startReqHandler (pd : Z -> Z) s : server :=
  let pHdr := get_pre pd in
  if negb (manufaurerCode pHdr =? manufaurerCode (dev_otaInfo s)) then s
  else answer (fun seq => ota_cmd seq TL_CMD_OTA_START_RSP (dev_otaInfo s)) s.

Definition ota_stopReqHandler (pd : Z -> Z) s : server :=
  let pHdr := get_pre pd in
  if (fileVer pHdr =? fileVer (dev_otaInfo s)) && (imageType pHdr =? imageType (dev_otaInfo s)) &&
     (manufaurerCode pHdr =? manufaurerCode (dev_otaInfo s)) && (imageSize pHdr =? imageSize (dev_otaInfo s))
  then answer (fun seq => ota_cmd seq TL_CMD_OTA_STOP_RSP (dev_otaInfo s)) s
  else s.

(** The size of the block asked for. *)
Definition block_len (headersize block : Z) : Z :=
  let ota_headercnt := u32 (block * OTA_FRAMESIZE) in
  if u32 (ota_headercnt + OTA_FRAMESIZE) <? headersize then OTA_FRAMESIZE
  else u8 (headersize mod OTA_FRAMESIZE).

Definition data_frame (seq : Z) (p : ota_preamble_t) (payload : list Z) : list Z :=
  enc_fhdr (mk_fhdr TL_SPECIFIC_ID_OTA seq TL_CMD_OTA_DATA_RSP
              (u8 (sizeof_dataFrame_hdr + Z.of_nat (length payload)))) ++
  enc_pre p ++ u8 (Z.of_nat (length payload)) :: payload.

Definition ota_dataReqHandler (pd : Z -> Z) s : server :=
  let pdHdr := get_pre pd in
  let info := dev_otaInfo s in
  if (fileVer pdHdr =? fileVer info) && (imageType pdHdr =? imageType info) &&
     (manufaurerCode pdHdr =? manufaurerCode info) && bool_decide (ota_bin_state s = OTA_BIN_VALID)
  then
    let flashAddr := server_addr (mcuBootAddr s) in
    let ota_headercnt := u32 (imageSize pdHdr * OTA_FRAMESIZE) in
    let read_len := block_len (ota_headersize s) (imageSize pdHdr) in
    let payload := fl_read (sv_fl s) (u32 (flashAddr + ota_headercnt)) (Z.to_nat read_len) in
    answer (fun seq => data_frame seq
      (mk_pre (fileVer info) (imageType info) (manufaurerCode info) (imageSize pdHdr)) payload) s
  else s.

(** The frame starts with its header; 4 is the offset of the payload. *)
Definition tl_appOtaCmdHandler (pd : Z -> Z) s : Z * server :=
  let hdr := get_fhdr pd in
  let pld := at_off pd 4 in
  if cmdId hdr =? TL_CMD_OTA_START_REQ then (SUCCESS, with_seq_number 0x100 (ota_startReqHandler pld s))
  else if cmdId hdr =? TL_CMD_OTA_STOP_REQ then (SUCCESS, ota_stopReqHandler pld s)
  else if cmdId hdr =? TL_CMD_OTA_DATA_REQ then
    if negb (seq_number s =? seqNo hdr) then
      (SUCCESS, ota_dataReqHandler pld (with_seq_number (seqNo hdr) s))
    else (SUCCESS, s)
  else (INVALID_EVENT_ID, s).

Definition tl_appDataIndicate (pd : Z -> Z) s : Z * server :=
  if appId (get_fhdr pd) =? TL_SPECIFIC_ID_OTA then (SUCCESS, (tl_appOtaCmdHandler pd s).2)
  else (INVALID_EVENT_ID, s).
End Server.

Arguments server : clear implicits.

