(* ===== verification/OtaClient.v ===== *)
(** * Over-the-air update: the end device
    ([tl_specific_data_ota.c], [ZB_ED_ROLE]; [mac_set_pollRate] of [associate_dev/app.c])

    The end device asks for a new image, erases the free half of the flash,
    requests the image block by block, strips the header of the file, writes the
    image and compares its checksum.  [client] holds the globals of the file,
    the flash, the timers, the requests handed to the MAC and the number of
    resets.  [FLASH_PROTECT_ENABLE] is on and [OTA_SECURITY] off, as the demo
    configures them. *)
From S2P Require Import Prelude SysEv EvTimer TimerIf SpiFlash FlashIf Crc Ota.

Inductive ota_periodiccallback_t := cb_dataReq | cb_stopReq.

(** Where the linker puts the query timer, and the callbacks' addresses. *)
Class OtaLinks := {
  otaQueryTimer : Z;
  fn_ota_periodicQueryServerCb : Z;
  fn_ota_periodicDataServerCb : Z;
  fn_PollDataTimerCb : Z
}.

Definition OTA_MAX_IMAGE_BLOCK_RETRIES : Z := 10.
Definition OTA_MAX_IMAGE_BLOCK_RSP_WAIT_TIME : Z := 1.
Definition NORMAL_POLL_RATE : Z := 1000.
Definition OTA_POLL_RATE : Z := 200.
Definition QUERY_RATE : Z := 30.

Section Client.
Context {F T : Type} `{Flash F} `{!FlashCheck F} `{TimerSvc T} `{MacEnv} `{OtaLinks}.

Record client := mk_client {
  cl_fl : F;
  cl_tm : T;
  dev_otaInfo : ota_preamble_t;
  binInfo : ota_preamble_t;
  mcuBootAddr : bool;
  otaDataReqTimer : Z;
  PollDataTimer : Z;
  ota_state : tl_otaState_e;
  ota_reqRetryCnt : Z;
  blockDataCount : Z;
  ota_headercnt : Z;
  ota_headersize : Z;
  crcValue : Z;
  flashOffsetAddr : Z;
  ota_dataCb : option ota_periodiccallback_t;
  g_tlAppDataSeqNo : Z;
  cl_sent : list zb_mscp_data_req_t;
  cl_resets : nat
}.

Definition with_cl_fl v s := mk_client v (cl_tm s) (dev_otaInfo s) (binInfo s) (mcuBootAddr s) (otaDataReqTimer s) (PollDataTimer s) (ota_state s) (ota_reqRetryCnt s) (blockDataCount s) (ota_headercnt s) (ota_headersize s) (crcValue s) (flashOffsetAddr s) (ota_dataCb s) (g_tlAppDataSeqNo s) (cl_sent s) (cl_resets s).
Definition with_cl_tm v s := mk_client (cl_fl s) v (dev_otaInfo s) (binInfo s) (mcuBootAddr s) (otaDataReqTimer s) (PollDataTimer s) (ota_state s) (ota_reqRetryCnt s) (blockDataCount s) (ota_headercnt s) (ota_headersize s) (crcValue s) (flashOffsetAddr s) (ota_dataCb s) (g_tlAppDataSeqNo s) (cl_sent s) (cl_resets s).
Definition with_dev_otaInfo v s := mk_client (cl_fl s) (cl_tm s) v (binInfo s) (mcuBootAddr s) (otaDataReqTimer s) (PollDataTimer s) (ota_state s) (ota_reqRetryCnt s) (blockDataCount s) (ota_headercnt s) (ota_headersize s) (crcValue s) (flashOffsetAddr s) (ota_dataCb s) (g_tlAppDataSeqNo s) (cl_sent s) (cl_resets s).
Definition with_binInfo v s := mk_client (cl_fl s) (cl_tm s) (dev_otaInfo s) v (mcuBootAddr s) (otaDataReqTimer s) (PollDataTimer s) (ota_state s) (ota_reqRetryCnt s) (blockDataCount s) (ota_headercnt s) (ota_headersize s) (crcValue s) (flashOffsetAddr s) (ota_dataCb s) (g_tlAppDataSeqNo s) (cl_sent s) (cl_resets s).
Definition with_mcuBootAddr v s := mk_client (cl_fl s) (cl_tm s) (dev_otaInfo s) (binInfo s) v (otaDataReqTimer s) (PollDataTimer s) (ota_state s) (ota_reqRetryCnt s) (blockDataCount s) (ota_headercnt s) (ota_headersize s) (crcValue s) (flashOffsetAddr s) (ota_dataCb s) (g_tlAppDataSeqNo s) (cl_sent s) (cl_resets s).
Definition with_otaDataReqTimer v s := mk_client (cl_fl s) (cl_tm s) (dev_otaInfo s) (binInfo s) (mcuBootAddr s) v (PollDataTimer s) (ota_state s) (ota_reqRetryCnt s) (blockDataCount s) (ota_headercnt s) (ota_headersize s) (crcValue s) (flashOffsetAddr s) (ota_dataCb s) (g_tlAppDataSeqNo s) (cl_sent s) (cl_resets s).
Definition with_PollDataTimer v s := mk_client (cl_fl s) (cl_tm s) (dev_otaInfo s) (binInfo s) (mcuBootAddr s) (otaDataReqTimer s) v (ota_state s) (ota_reqRetryCnt s) (blockDataCount s) (ota_headercnt s) (ota_headersize s) (crcValue s) (flashOffsetAddr s) (ota_dataCb s) (g_tlAppDataSeqNo s) (cl_sent s) (cl_resets s).
Definition with_ota_state v s := mk_client (cl_fl s) (cl_tm s) (dev_otaInfo s) (binInfo s) (mcuBootAddr s) (otaDataReqTimer s) (PollDataTimer s) v (ota_reqRetryCnt s) (blockDataCount s) (ota_headercnt s) (ota_headersize s) (crcValue s) (flashOffsetAddr s) (ota_dataCb s) (g_tlAppDataSeqNo s) (cl_sent s) (cl_resets s).
Definition with_ota_reqRetryCnt v s := mk_client (cl_fl s) (cl_tm s) (dev_otaInfo s) (binInfo s) (mcuBootAddr s) (otaDataReqTimer s) (PollDataTimer s) (ota_state s) v (blockDataCount s) (ota_headercnt s) (ota_headersize s) (crcValue s) (flashOffsetAddr s) (ota_dataCb s) (g_tlAppDataSeqNo s) (cl_sent s) (cl_resets s).
Definition with_blockDataCount v s := mk_client (cl_fl s) (cl_tm s) (dev_otaInfo s) (binInfo s) (mcuBootAddr s) (otaDataReqTimer s) (PollDataTimer s) (ota_state s) (ota_reqRetryCnt s) v (ota_headercnt s) (ota_headersize s) (crcValue s) (flashOffsetAddr s) (ota_dataCb s) (g_tlAppDataSeqNo s) (cl_sent s) (cl_resets s).
Definition with_ota_headercnt v s := mk_client (cl_fl s) (cl_tm s) (dev_otaInfo s) (binInfo s) (mcuBootAddr s) (otaDataReqTimer s) (PollDataTimer s) (ota_state s) (ota_reqRetryCnt s) (blockDataCount s) v (ota_headersize s) (crcValue s) (flashOffsetAddr s) (ota_dataCb s) (g_tlAppDataSeqNo s) (cl_sent s) (cl_resets s).
Definition with_ota_headersize v s := mk_client (cl_fl s) (cl_tm s) (dev_otaInfo s) (binInfo s) (mcuBootAddr s) (otaDataReqTimer s) (PollDataTimer s) (ota_state s) (ota_reqRetryCnt s) (blockDataCount s) (ota_headercnt s) v (crcValue s) (flashOffsetAddr s) (ota_dataCb s) (g_tlAppDataSeqNo s) (cl_sent s) (cl_resets s).
Definition with_crcValue v s := mk_client (cl_fl s) (cl_tm s) (dev_otaInfo s) (binInfo s) (mcuBootAddr s) (otaDataReqTimer s) (PollDataTimer s) (ota_state s) (ota_reqRetryCnt s) (blockDataCount s) (ota_headercnt s) (ota_headersize s) v (flashOffsetAddr s) (ota_dataCb s) (g_tlAppDataSeqNo s) (cl_sent s) (cl_resets s).
Definition with_flashOffsetAddr v s := mk_client (cl_fl s) (cl_tm s) (dev_otaInfo s) (binInfo s) (mcuBootAddr s) (otaDataReqTimer s) (PollDataTimer s) (ota_state s) (ota_reqRetryCnt s) (blockDataCount s) (ota_headercnt s) (ota_headersize s) (crcValue s) v (ota_dataCb s) (g_tlAppDataSeqNo s) (cl_sent s) (cl_resets s).
Definition with_ota_dataCb v s := mk_client (cl_fl s) (cl_tm s) (dev_otaInfo s) (binInfo s) (mcuBootAddr s) (otaDataReqTimer s) (PollDataTimer s) (ota_state s) (ota_reqRetryCnt s) (blockDataCount s) (ota_headercnt s) (ota_headersize s) (crcValue s) (flashOffsetAddr s) v (g_tlAppDataSeqNo s) (cl_sent s) (cl_resets s).
Definition with_g_tlAppDataSeqNo v s := mk_client (cl_fl s) (cl_tm s) (dev_otaInfo s) (binInfo s) (mcuBootAddr s) (otaDataReqTimer s) (PollDataTimer s) (ota_state s) (ota_reqRetryCnt s) (blockDataCount s) (ota_headercnt s) (ota_headersize s) (crcValue s) (flashOffsetAddr s) (ota_dataCb s) v (cl_sent s) (cl_resets s).
Definition with_cl_sent v s := mk_client (cl_fl s) (cl_tm s) (dev_otaInfo s) (binInfo s) (mcuBootAddr s) (otaDataReqTimer s) (PollDataTimer s) (ota_state s) (ota_reqRetryCnt s) (blockDataCount s) (ota_headercnt s) (ota_headersize s) (crcValue s) (flashOffsetAddr s) (ota_dataCb s) (g_tlAppDataSeqNo s) v (cl_resets s).
Definition with_cl_resets v s := mk_client (cl_fl s) (cl_tm s) (dev_otaInfo s) (binInfo s) (mcuBootAddr s) (otaDataReqTimer s) (PollDataTimer s) (ota_state s) (ota_reqRetryCnt s) (blockDataCount s) (ota_headercnt s) (ota_headersize s) (crcValue s) (flashOffsetAddr s) (ota_dataCb s) (g_tlAppDataSeqNo s) (cl_sent s) v.

Implicit Type s : client.

Definition on_fl (g : F -> F) s : client := with_cl_fl (g (cl_fl s)) s.
Definition on_tm (g : T -> T) s : client := with_cl_tm (g (cl_tm s)) s.

(** The half of the flash the new image goes to. *)
Definition new_base s : Z := if mcuBootAddr s then 0 else FLASH_OTA_NEWIMAGE_ADDR.

Definition mcuBootAddrGet (f : F) : bool :=
  if nth 0 (fl_read f OTA_TLNK_KEYWORD_ADDROFFSET 1) 0 =? 0x4b then false else true.

Definition ota_init s : client :=
  let s := with_dev_otaInfo pre_zero s in
  let s := with_binInfo pre_zero s in
  let s := with_crcValue 0xffffffff s in
  let s := with_flashOffsetAddr 0 s in
  let s := with_blockDataCount 0 s in
  with_mcuBootAddr (mcuBootAddrGet (cl_fl s)) s.

Definition ota_mcuReboot s : client :=
  let s := on_fl fl_unlock s in
  let '(baseAddr, newAddr) :=
    if mcuBootAddr s then (FLASH_OTA_NEWIMAGE_ADDR, 0) else (0, FLASH_OTA_NEWIMAGE_ADDR) in
  let s := on_fl (fl_write (newAddr + OTA_TLNK_KEYWORD_ADDROFFSET) [0x4b]) s in
  let s := on_fl (fl_write (baseAddr + OTA_TLNK_KEYWORD_ADDROFFSET) [0]) s in
  let s := on_fl fl_lock s in
  with_cl_resets (S (cl_resets s)) s.

(** ** Requests *)

Definition request (cmd : Z) (p : ota_preamble_t) s : client :=
  let seq := g_tlAppDataSeqNo s in
  let req := mk_req ZB_ADDR_16BIT_DEV_OR_BROADCAST
    (mk_addr ZB_ADDR_64BIT_DEV (mac_attr ATTR_COORDINATOR_EXTENDED_ADDRESS)) (mac_attr ATTR_PAN_ID) 0
    MAC_TX_OPTION_ACKNOWLEDGED_BIT (ota_cmd seq cmd p) in
  with_cl_sent (cl_sent s ++ [req]) (with_g_tlAppDataSeqNo (u8 (seq + 1)) s).

Definition ota_startReq s : client :=
  request TL_CMD_OTA_START_REQ (mk_pre FILE_VERSION IMAGE_TYPE MANUFACTURER_CODE 0) s.

Definition ota_dataReq s : client :=
  let i := dev_otaInfo s in
  request TL_CMD_OTA_DATA_REQ (mk_pre (fileVer i) (imageType i) (manufaurerCode i) (blockDataCount s)) s.

Definition ota_stopReq s : client :=
  let i := binInfo s in
  request TL_CMD_OTA_STOP_REQ
    (mk_pre (fileVer i) (imageType i) (manufaurerCode i) (u32 (imageSize i + ota_headersize s))) s.

(** ** Timers *)

Definition cancel_dataReqTimer s : client :=
  if otaDataReqTimer s =? 0 then s
  else let '(p, t) := tmr_cancel (otaDataReqTimer s) (cl_tm s) in
       with_otaDataReqTimer p (with_cl_tm t s).

Definition ota_dataReqRetry (seconds : Z) s : client :=
  let s := with_ota_reqRetryCnt 0 s in
  if seconds =? 0 then s
  else
    let s := cancel_dataReqTimer s in
    let '(p, t) := tmr_post fn_ota_periodicDataServerCb 0 (seconds * 1000) (cl_tm s) in
    with_otaDataReqTimer p (with_cl_tm t s).

Definition ota_queryStart (seconds : Z) s : client :=
  let s := with_ota_state OTA_STA_IDLE (ota_init s) in
  if tmr_exist otaQueryTimer (cl_tm s) then s
  else
    let s := on_tm (tmr_assign otaQueryTimer fn_ota_periodicQueryServerCb 0) s in
    on_tm (tmr_on otaQueryTimer (seconds * 1000)) s.

Definition mac_set_pollRate (newRate : Z) s : client :=
  if rxOnWhenIdle then s
  else if newRate =? 0 then s
  else
    let s := if PollDataTimer s =? 0 then s
             else let '(p, t) := tmr_cancel (PollDataTimer s) (cl_tm s) in
                  with_PollDataTimer p (with_cl_tm t s) in
    let '(p, t) := tmr_post fn_PollDataTimerCb 0 newRate (cl_tm s) in
    with_PollDataTimer p (with_cl_tm t s).

Definition ota_periodicQueryServerCb s : Z * client := (0, ota_startReq s).

Definition call_dataCb s : client :=
  match ota_dataCb s with
  | Some cb_dataReq => ota_dataReq s
  | Some cb_stopReq => ota_stopReq s
  | None => s
  end.

Definition ota_periodicDataServerCb s : Z * client :=
  let s := with_ota_reqRetryCnt (u8 (ota_reqRetryCnt s + 1)) s in
  if OTA_MAX_IMAGE_BLOCK_RETRIES <=? ota_reqRetryCnt s then
    let s := with_ota_reqRetryCnt 0 s in
    let s := ota_queryStart QUERY_RATE s in
    let s := mac_set_pollRate NORMAL_POLL_RATE s in
    (-1, with_otaDataReqTimer 0 s)
  else (0, call_dataCb s).

(** ** Responses *)

(** The erase loop of [ota_startRspHandler]: [n] sectors from the [i]-th on. *)
Fixpoint erase_sectors (n : nat) (i baseAddr : Z) s : client :=
  match n with
  | O => s
  | S n' => erase_sectors n' (i + 1) baseAddr (on_fl (fl_erase (baseAddr + i * OTA_SECTOR_SIZE)) s)
  end.

Definition ota_startRspHandler (pd : Z -> Z) s : client :=
  let pHdr := get_pre pd in
  if (manufaurerCode pHdr =? MANUFACTURER_CODE) && (imageType pHdr =? IMAGE_TYPE) &&
     (FILE_VERSION <? fileVer pHdr) && bool_decide (ota_state s = OTA_STA_IDLE) then
    if (0 <? imageSize pHdr) && (imageSize pHdr <? OTA_MAX_IMAGE_SIZE) then
      let s := with_dev_otaInfo pHdr s in
      let sectorNumUsed := u16 (imageSize pHdr / OTA_SECTOR_SIZE + 1) in
      let s := erase_sectors (Z.to_nat sectorNumUsed) 0 (new_base s) s in
      let s := with_ota_state OTA_STA_STARTING s in
      let s := if tmr_exist otaQueryTimer (cl_tm s) then on_tm (tmr_unon otaQueryTimer) s else s in
      let s := ota_dataReq s in
      let s := mac_set_pollRate OTA_POLL_RATE s in
      let s := with_ota_dataCb (Some cb_dataReq) s in
      ota_dataReqRetry OTA_MAX_IMAGE_BLOCK_RSP_WAIT_TIME s
    else s
  else s.

(** Back to the query timer; the end of every failed transfer. *)
Definition abort_transfer s : client :=
  let s := ota_queryStart QUERY_RATE s in
  mac_set_pollRate NORMAL_POLL_RATE s.

Definition ota_stopRspHandler (pd : Z -> Z) s : client :=
  if negb (bool_decide (ota_state s = OTA_STA_END)) then s
  else
    let pHdr := get_pre pd in
    if (manufaurerCode pHdr =? manufaurerCode (binInfo s)) && (imageType pHdr =? imageType (binInfo s)) &&
       (fileVer pHdr =? fileVer (binInfo s)) &&
       (imageSize pHdr =? u32 (imageSize (binInfo s) + ota_headersize s))
    then ota_mcuReboot (with_ota_state OTA_STA_IDLE s)
    else abort_transfer (cancel_dataReqTimer (with_ota_state OTA_STA_IDLE s)).

(** The bytes at [p[i]], as the expressions of the source put them together. *)
Definition get16 (p : Z -> Z) (i : Z) : Z := Z.lor (p i) (Z.shiftl (p (i + 1)) 8).
Definition get32 (p : Z -> Z) (i : Z) : Z :=
  Z.lor (Z.lor (get16 p i) (Z.shiftl (p (i + 2)) 16)) (Z.shiftl (p (i + 3)) 24).

(** The header loop of [ota_DataProcess], from the [i]-th byte on; the first
    component is [i] when the loop ends. *)
Fixpoint header_loop (n : nat) (i : Z) (pData : Z -> Z) s : Z * client :=
  match n with
  | O => (i, s)
  | S n' =>
      let c := ota_headercnt s in
      let next s := header_loop n' (i + 1) pData (with_ota_headercnt (u32 (ota_headercnt s + 1)) s) in
      if c =? OTA_HEAD_LENGTH then
        next (with_ota_headersize (u32 (get16 pData i + 6)) s)
      else if c =? OTA_HEAD_MAUNCODE then
        let b := binInfo s in
        next (with_binInfo (mk_pre (fileVer b) (imageType b) (u16 (get16 pData i)) (imageSize b)) s)
      else if c =? OTA_HEAD_IMAGETYPE then
        let b := binInfo s in
        next (with_binInfo (mk_pre (fileVer b) (u16 (get16 pData i)) (manufaurerCode b) (imageSize b)) s)
      else if c =? OTA_HEAD_FILEVER then
        let b := binInfo s in
        next (with_binInfo (mk_pre (u32 (get32 pData i)) (imageType b) (manufaurerCode b) (imageSize b)) s)
      else if c =? OTA_HEAD_IMAGESIZE then
        let b := binInfo s in
        next (with_binInfo (mk_pre (fileVer b) (imageType b) (manufaurerCode b) (u32 (get32 pData i))) s)
      else if (c =? ota_headersize s) && negb (ota_headersize s =? 0) then
        (i, with_ota_state OTA_STA_DATAING s)
      else next s
  end.

(** [p[i] = v] *)
Definition put (p : Z -> Z) (i v : Z) : Z -> Z := fun x => if x =? i then v else p x.

(** The part of a chunk that the checksum covers. *)
Definition crc_len (datalen headerbuf headercnt limit : Z) : Z :=
  if limit <=? headercnt then
    if limit <=? headerbuf then 0
    else let offset := u16 (headercnt - limit) in
         if offset <? datalen then datalen - offset else 0
  else datalen.

(** The second half of [ota_DataProcess]. *)
Definition write_chunk (len i : Z) (pData : Z -> Z) s : client :=
  if 0 <? len then
    let datalen := u8 (len - i) in
    let ota_headerbuf := ota_headercnt s in
    let s := with_ota_headercnt (u32 (ota_headercnt s + datalen)) s in
    let off := flashOffsetAddr s in
    let flag := (off <=? OTA_TLNK_KEYWORD_ADDROFFSET) && (OTA_TLNK_KEYWORD_ADDROFFSET <=? datalen + off)
                && (0 <? datalen) in
    let pData := if flag then put pData (i + OTA_TLNK_KEYWORD_ADDROFFSET - off) 0xff else pData in
    let '(ok, f) := fl_write_check (u32 (new_base s + off)) (bytes_at pData i (Z.to_nat datalen)) (cl_fl s) in
    let s := with_cl_fl f s in
    if negb ok then abort_transfer (cancel_dataReqTimer (with_ota_state OTA_STA_IDLE s))
    else
      let pData := if flag then put pData (i + OTA_TLNK_KEYWORD_ADDROFFSET - off) 0x4b else pData in
      let s := with_flashOffsetAddr (u32 (off + datalen)) s in
      let limit := u32 (imageSize (binInfo s) + ota_headersize s - 4) in
      let datalen := crc_len datalen ota_headerbuf (ota_headercnt s) limit in
      if negb (datalen =? 0) then
        with_crcValue (xcrc32 (bytes_at pData i (Z.to_nat datalen)) (crcValue s)) s
      else s
  else s.

Definition ota_DataProcess (len : Z) (pData : Z -> Z) s : client :=
  let '(i, s) :=
    if bool_decide (ota_state s = OTA_STA_STARTING) then header_loop (Z.to_nat len) 0 pData s
    else (0, s) in
  if bool_decide (ota_state s = OTA_STA_DATAING) then write_chunk len i pData s else s.

(** What [ota_dataRspHandler] does after a block. *)
Definition next_block s : client :=
  let s := with_blockDataCount (u32 (blockDataCount s + 1)) s in
  if imageSize (dev_otaInfo s) <=? ota_headercnt s then
    let crcBin := le_word (fl_read (cl_fl s)
                    (u32 (new_base s + imageSize (dev_otaInfo s) - ota_headersize s - 4)) 4) in
    if crcBin =? crcValue s then
      let s := with_ota_state OTA_STA_END s in
      let s := ota_stopReq s in
      let s := with_ota_dataCb (Some cb_stopReq) s in
      ota_dataReqRetry OTA_MAX_IMAGE_BLOCK_RSP_WAIT_TIME s
    else
      let i := dev_otaInfo s in
      let s := with_dev_otaInfo (mk_pre (fileVer i) (imageType i) (manufaurerCode i) 0) s in
      let s := cancel_dataReqTimer s in
      let s := with_ota_state OTA_STA_IDLE s in
      abort_transfer s
  else
    let s := ota_dataReq s in
    let s := with_ota_dataCb (Some cb_dataReq) s in
    ota_dataReqRetry OTA_MAX_IMAGE_BLOCK_RSP_WAIT_TIME s.

Definition ota_dataRspHandler (pd : Z -> Z) s : client :=
  if bool_decide (ota_state s = OTA_STA_IDLE) then s
  else
    let pHdr := get_pre pd in
    let i := dev_otaInfo s in
    if (manufaurerCode pHdr =? manufaurerCode i) && (imageType pHdr =? imageType i) &&
       (fileVer pHdr =? fileVer i) && (imageSize pHdr =? blockDataCount s) then
      if get_payloadSize pd =? 0 then
        abort_transfer (with_ota_state OTA_STA_IDLE (cancel_dataReqTimer s))
      else
        let s := on_fl fl_unlock s in
        let s := ota_DataProcess (get_payloadSize pd) (get_payload pd) s in
        let s := on_fl fl_lock s in
        next_block s
    else s.

Definition tl_appOtaCmdHandler (pd : Z -> Z) s : Z * client :=
  let hdr := get_fhdr pd in
  let pld := at_off pd 4 in
  if cmdId hdr =? TL_CMD_OTA_START_RSP then (SUCCESS, ota_startRspHandler pld s)
  else if cmdId hdr =? TL_CMD_OTA_STOP_RSP then (SUCCESS, ota_stopRspHandler pld s)
  else if cmdId hdr =? TL_CMD_OTA_DATA_RSP then (SUCCESS, ota_dataRspHandler pld s)
  else (INVALID_EVENT_ID, s).

Definition tl_appDataIndicate (pd : Z -> Z) s : Z * client :=
  if appId (get_fhdr pd) =? TL_SPECIFIC_ID_OTA then (SUCCESS, (tl_appOtaCmdHandler pd s).2)
  else (INVALID_EVENT_ID, s).
End Client.

Arguments client : clear implicits.

