(* ===== verification/OtaSpec.v ===== *)
(** * The end device's transfer, step by step

    What each step of [OtaClient.v] does to the header counter, the flash and the
    checksum while the blocks of an image file arrive in order.  An image file
    is [hs] bytes of header followed by the image, whose last four bytes are the
    checksum. *)
From S2P Require Import Prelude SysEv EvTimer TimerIf SpiFlash FlashIf Crc Ota OtaServer OtaClient.

(** ** Bytes of a list in memory *)
Definition is_byte (v : Z) : Prop := 0 <= v < 256.

Lemma bytes_at_holds pd a n l i :
  bytes_at pd a n = l -> (i < n)%nat -> pd (a + Z.of_nat i) = nth i l 0.
Proof.
  intros <- Hi. symmetry. apply nth_lookup_Some. by rewrite bytes_at_lookup.
Qed.

Lemma get16_le p i : is_byte (p i) -> is_byte (p (i + 1)) -> get16 p i = le_word (bytes_at p i 2).
Proof.
  unfold is_byte. intros H0 H1. unfold get16. rewrite lor_shiftl_add by lia.
  rewrite !bytes_at_S. cbn [le_word bytes_at seq map]. change (2 ^ 8) with 256. lia.
Qed.

Lemma get32_le p i :
  is_byte (p i) -> is_byte (p (i + 1)) -> is_byte (p (i + 2)) -> is_byte (p (i + 3)) ->
  get32 p i = le_word (bytes_at p i 4).
Proof.
  unfold is_byte. intros H0 H1 H2 H3. unfold get32, get16.
  rewrite (lor_shiftl_add (p i)) by lia.
  rewrite (lor_shiftl_add _ (p (i + 2))) by lia. rewrite lor_shiftl_add by lia.
  rewrite !bytes_at_S. cbn [le_word bytes_at seq map].
  replace (i + 1 + 1) with (i + 2) by lia. replace (i + 2 + 1) with (i + 3) by lia. lia.
Qed.

(** ** The header loop *)
Section Header.
Context {F T : Type} `{Flash F} `{!FlashCheck F} `{TimerSvc T} `{MacEnv} `{OtaLinks}.
Implicit Type s : client F T.

(** The positions where the loop stores something. *)
Definition plain (c : Z) : Prop := c <> 6 /\ c <> 10 /\ c <> 12 /\ c <> 14 /\ c <> 58.

Definition hdr_set (c hs : Z) (b : ota_preamble_t) s : client F T :=
  with_ota_headercnt c (with_ota_headersize hs (with_binInfo b s)).

Lemma hdr_set_id s : hdr_set (ota_headercnt s) (ota_headersize s) (binInfo s) s = s.
Proof. by destruct s. Qed.

Lemma hdr_set_set c hs b c' hs' b' s : hdr_set c hs b (hdr_set c' hs' b' s) = hdr_set c hs b s.
Proof. done. Qed.

(** Past plain positions, before the end of the header. *)
Lemma header_skip m n i p c hs b s :
  0 <= c -> c + Z.of_nat m < 2 ^ 32 ->
  (forall j, c <= j < c + Z.of_nat m -> plain j /\ (j <> hs \/ hs = 0)) ->
  header_loop (m + n) i p (hdr_set c hs b s) =
  header_loop n (i + Z.of_nat m) p (hdr_set (c + Z.of_nat m) hs b s).
Proof.
  revert i c. induction m as [|m IH]; intros i c Hc Hm Hp.
  { change (Z.of_nat 0) with 0. by rewrite !Z.add_0_r. }
  cbn [Nat.add header_loop]. destruct (Hp c) as [(H6 & H10 & H12 & H14 & H58) Hhs]; [lia|].
  cbn [hdr_set ota_headercnt ota_headersize with_ota_headercnt with_ota_headersize].
  unfold OTA_HEAD_LENGTH, OTA_HEAD_MAUNCODE, OTA_HEAD_IMAGETYPE, OTA_HEAD_FILEVER, OTA_HEAD_IMAGESIZE.
  cmp_false (c =? 6). cmp_false (c =? 10). cmp_false (c =? 12). cmp_false (c =? 14). cmp_false (c =? 58).
  cmp_false ((c =? hs) && negb (hs =? 0)).
  rewrite u32_small by lia.
  change (with_ota_headercnt (c + 1) (hdr_set c hs b s)) with (hdr_set (c + 1) hs b s).
  rewrite IH by (lia || (intros; apply Hp; lia)).
  f_equal; [lia|]. f_equal. lia.
Qed.

(** The end of the header, or of the block. *)
Lemma header_end n i p c hs b s :
  0 <= c -> c + Z.of_nat n < 2 ^ 32 -> 0 < hs -> c <= hs ->
  (forall j, c <= j < c + Z.of_nat n -> plain j) ->
  header_loop n i p (hdr_set c hs b s) =
  if hs <? c + Z.of_nat n then (i + (hs - c), with_ota_state OTA_STA_DATAING (hdr_set hs hs b s))
  else (i + Z.of_nat n, hdr_set (c + Z.of_nat n) hs b s).
Proof.
  intros Hc Hn Hhs Hle Hp. destruct (Z.ltb_spec hs (c + Z.of_nat n)) as [Hlt|Hge].
  - replace n with (Z.to_nat (hs - c) + S (n - Z.to_nat (hs - c) - 1))%nat by lia.
    rewrite header_skip; [|lia|lia|].
    2: { intros j Hj. split; [apply Hp; lia|lia]. }
    rewrite Z2Nat.id by lia. replace (c + (hs - c)) with hs by lia. cbn [header_loop].
    cbn [hdr_set ota_headercnt ota_headersize with_ota_headercnt with_ota_headersize].
    destruct (Hp hs) as (H6 & H10 & H12 & H14 & H58); [lia|].
    unfold OTA_HEAD_LENGTH, OTA_HEAD_MAUNCODE, OTA_HEAD_IMAGETYPE, OTA_HEAD_FILEVER, OTA_HEAD_IMAGESIZE.
    cmp_false (hs =? 6). cmp_false (hs =? 10). cmp_false (hs =? 12). cmp_false (hs =? 14). cmp_false (hs =? 58).
    cmp_true ((hs =? hs) && negb (hs =? 0)). done.
  - pose proof (header_skip n 0 i p c hs b s Hc Hn) as E. rewrite Nat.add_0_r in E.
    rewrite E; [done|]. intros j Hj. split; [by apply Hp|lia].
Qed.

(** The positions that are stored. *)
Lemma header_length n i p hs b s :
  header_loop (S n) i p (hdr_set 6 hs b s) =
  header_loop n (i + 1) p (hdr_set 7 (u32 (get16 p i + 6)) b s).
Proof. done. Qed.

Lemma header_manuf n i p hs b s :
  header_loop (S n) i p (hdr_set 10 hs b s) =
  header_loop n (i + 1) p (hdr_set 11 hs
    (mk_pre (fileVer b) (imageType b) (u16 (get16 p i)) (imageSize b)) s).
Proof. done. Qed.

Lemma header_type n i p hs b s :
  header_loop (S n) i p (hdr_set 12 hs b s) =
  header_loop n (i + 1) p (hdr_set 13 hs
    (mk_pre (fileVer b) (u16 (get16 p i)) (manufaurerCode b) (imageSize b)) s).
Proof. done. Qed.

Lemma header_ver n i p hs b s :
  header_loop (S n) i p (hdr_set 14 hs b s) =
  header_loop n (i + 1) p (hdr_set 15 hs
    (mk_pre (u32 (get32 p i)) (imageType b) (manufaurerCode b) (imageSize b)) s).
Proof. done. Qed.

Lemma header_size n i p hs b s :
  header_loop (S n) i p (hdr_set 58 hs b s) =
  header_loop n (i + 1) p (hdr_set 59 hs
    (mk_pre (fileVer b) (imageType b) (manufaurerCode b) (u32 (get32 p i))) s).
Proof. done. Qed.

(** The first block: the length, the manufacturer, the type and the version. *)
Lemma header_block0 p b s hs :
  hs = u32 (get16 p 6 + 6) -> 48 <= hs ->
  header_loop 48 0 p (hdr_set 0 0 b s) =
  (48, hdr_set 48 hs (mk_pre (u32 (get32 p 14)) (u16 (get16 p 12)) (u16 (get16 p 10)) (imageSize b)) s).
Proof.
  intros Ehs Hhs. unfold plain in *.
  change 48%nat with (6 + S (3 + S (1 + S (1 + S (33 + 0)))))%nat.
  rewrite header_skip by (unfold plain; lia). change (0 + Z.of_nat 6) with 6.
  rewrite header_length, <-Ehs. rewrite header_skip by (unfold plain; lia). change (7 + Z.of_nat 3) with 10.
  rewrite header_manuf. rewrite header_skip by (unfold plain; lia). change (10 + 1 + Z.of_nat 1) with 12.
  rewrite header_type. rewrite header_skip by (unfold plain; lia). change (12 + 1 + Z.of_nat 1) with 14.
  rewrite header_ver. rewrite header_skip by (unfold plain; lia). done.
Qed.

(** The second block: the size of the image, and the end of a short header. *)
Lemma header_block1 n p b s hs :
  62 <= hs -> (11 <= n)%nat -> Z.of_nat n < 2 ^ 16 ->
  header_loop n 0 p (hdr_set 48 hs b s) =
  let b' := mk_pre (fileVer b) (imageType b) (manufaurerCode b) (u32 (get32 p 10)) in
  if hs <? 48 + Z.of_nat n then (hs - 48, with_ota_state OTA_STA_DATAING (hdr_set hs hs b' s))
  else (Z.of_nat n, hdr_set (48 + Z.of_nat n) hs b' s).
Proof.
  intros Hhs Hn Hmax. replace n with (10 + S (n - 11))%nat at 1 by lia.
  rewrite header_skip by (unfold plain; lia). change (48 + Z.of_nat 10) with 58.
  rewrite header_size, header_end by (unfold plain; lia).
  replace (59 + Z.of_nat (n - 11)) with (48 + Z.of_nat n) by lia.
  destruct (_ <? _); f_equal; lia.
Qed.

(** The other blocks of a long header. *)
Lemma header_blocks n p c b s hs :
  59 <= c -> c <= hs -> c + Z.of_nat n < 2 ^ 32 ->
  header_loop n 0 p (hdr_set c hs b s) =
  if hs <? c + Z.of_nat n then (hs - c, with_ota_state OTA_STA_DATAING (hdr_set hs hs b s))
  else (Z.of_nat n, hdr_set (c + Z.of_nat n) hs b s).
Proof.
  intros Hc Hhs Hmax. rewrite header_end by (unfold plain; lia). done.
Qed.
End Header.

(** ** A chunk of the image *)

(** The flash holds 0xff in place of the keyword until the restart. *)
Definition stored (data : list Z) : list Z := <[8%nat := 0xff]> data.

(** The flash when [n] bytes of the image have been written to [base]. *)
Definition image_flash (base : Z) (data : list Z) (g : Z -> Z) (n x : Z) : Z :=
  if (base <=? x) && (x <? base + n) then nth (Z.to_nat (x - base)) (stored data) 0 else g x.

Lemma length_stored data : length (stored data) = length data.
Proof. apply length_insert. Qed.

Lemma stored_Forall data : Forall is_byte data -> Forall is_byte (stored data).
Proof. intros Hd. apply Forall_insert; [done|]. unfold is_byte. lia. Qed.

Lemma nth_stored data k : k <> 8%nat -> nth k (stored data) 0 = nth k data 0.
Proof. intros Hk. rewrite !nth_lookup. unfold stored. by rewrite list_lookup_insert_ne. Qed.

Lemma nth_stored_8 data : (8 < length data)%nat -> nth 8 (stored data) 0 = 0xff.
Proof. intros Hk. rewrite nth_lookup. unfold stored. by rewrite list_lookup_insert_eq. Qed.

(** The part [take d (drop o l)] of a list in memory, byte by byte. *)
Lemma bytes_at_part p i d o (l : list Z) :
  (o + d <= length l)%nat ->
  bytes_at p i d = take d (drop o l) <-> forall k, (k < d)%nat -> p (i + Z.of_nat k) = nth (o + k) l 0.
Proof.
  intros Hl. split.
  - intros E k Hk. rewrite (bytes_at_holds _ _ _ _ _ E Hk), !nth_lookup.
    by rewrite lookup_take_lt, lookup_drop by done.
  - intros Hp. apply list_eq. intros k. destruct (decide (k < d)%nat) as [Hk|Hk].
    + rewrite bytes_at_lookup, lookup_take_lt, lookup_drop by done. rewrite Hp, nth_lookup by done.
      destruct (lookup_lt_is_Some_2 l (o + k)) as [v ->]; [lia|done].
    + rewrite !lookup_ge_None_2; [done| |rewrite length_bytes_at; lia].
      rewrite length_take. lia.
Qed.

Lemma put_keyword p i d o data (v : Z) :
  (o + d <= length data)%nat -> (8 < length data)%nat ->
  bytes_at p i d = take d (drop o data) ->
  let flag := (Z.of_nat o <=? 8) && (8 <=? Z.of_nat d + Z.of_nat o) && (0 <? Z.of_nat d) in
  bytes_at (if flag then put p (i + 8 - Z.of_nat o) v else p) i d =
  take d (drop o (<[8%nat := v]> data)).
Proof.
  intros Hl H8 Hp flag. rewrite bytes_at_part in Hp by done.
  apply bytes_at_part; [by rewrite length_insert|].
  intros k Hk. assert (Hn : nth (o + k) (<[8%nat:=v]> data) 0 =
    if decide (o + k = 8)%nat then v else nth (o + k) data 0).
  { rewrite !nth_lookup. case_decide as E; [rewrite E, list_lookup_insert_eq; [done|lia]|].
    by rewrite list_lookup_insert_ne by lia. }
  rewrite Hn. unfold flag. case_decide.
  - cmp_true ((Z.of_nat o <=? 8) && (8 <=? Z.of_nat d + Z.of_nat o) && (0 <? Z.of_nat d)).
    unfold put. by cmp_true (i + Z.of_nat k =? i + 8 - Z.of_nat o).
  - destruct (_ && _ && _); [|by apply Hp]. unfold put.
    cmp_false (i + Z.of_nat k =? i + 8 - Z.of_nat o). by apply Hp.
Qed.

Lemma image_flash_chunk prot g base data o d x :
  (o + d <= length data)%nat -> Forall is_byte data ->
  (forall y, base <= y < base + Z.of_nat (length data) -> prot y = false /\ g y = 255) ->
  programmed prot (image_flash base data g (Z.of_nat o)) (base + Z.of_nat o)
    (take d (drop o (stored data))) x =
  image_flash base data g (Z.of_nat (o + d)) x.
Proof.
  intros Hl Hb Hg. pose proof (length_stored data) as Hls.
  assert (Hlen : length (take d (drop o (stored data))) = d) by (rewrite length_take, length_drop; lia).
  destruct (decide (base + Z.of_nat o <= x < base + Z.of_nat (o + d))) as [Hx|Hx].
  - rewrite programmed_blank.
    + rewrite lookup_take_lt, lookup_drop by lia. unfold image_flash.
      assert ((base <=? x) && (x <? base + Z.of_nat (o + d)) = true) as ->
        by (apply andb_true_iff; split; [apply Z.leb_le|apply Z.ltb_lt]; lia).
      rewrite nth_lookup. do 2 f_equal. lia.
    + apply Forall_take, Forall_drop, stored_Forall, Hb.
    + rewrite Hlen. lia.
    + apply Hg. lia.
    + unfold image_flash. destruct (Z.ltb_spec x (base + Z.of_nat o)); [lia|].
      rewrite andb_false_r. apply Hg. lia.
  - rewrite programmed_out by (rewrite Hlen; lia). unfold image_flash.
    destruct (Z.leb_spec base x), (Z.ltb_spec x (base + Z.of_nat o)), (Z.ltb_spec x (base + Z.of_nat (o + d)));
      cbn [andb]; done || lia.
Qed.

Lemma image_flash_bytes base data g o d n :
  (o + d <= length data)%nat -> Z.of_nat (o + d) <= n ->
  bytes_at (image_flash base data g n) (base + Z.of_nat o) d = take d (drop o (stored data)).
Proof.
  intros Hl Hn. apply bytes_at_part; [by rewrite length_stored|]. intros k Hk. unfold image_flash.
  destruct (Z.leb_spec base (base + Z.of_nat o + Z.of_nat k)), (Z.ltb_spec (base + Z.of_nat o + Z.of_nat k) (base + n));
    try lia. cbn [andb].
  f_equal. lia.
Qed.

Lemma crc_len_spec d off hs N :
  0 <= d < 2 ^ 8 -> 0 <= off -> 4 <= N -> off + d <= N -> 0 <= hs ->
  crc_len d (hs + off) (hs + off + d) (N + hs - 4) = Z.min (off + d) (N - 4) - Z.min off (N - 4).
Proof.
  intros Hd Ho HN Hle Hhs. unfold crc_len.
  destruct (Z.leb_spec (N + hs - 4) (hs + off + d)); [|lia].
  destruct (Z.leb_spec (N + hs - 4) (hs + off)); [lia|].
  rewrite u16_small by lia. destruct (Z.ltb_spec (hs + off + d - (N + hs - 4)) d); lia.
Qed.

(** ** The image under transfer *)

(** An image with its checksum, and the length of the file's header. *)
Record image_ok (data : list Z) (hs : Z) : Prop := {
  im_bytes : Forall is_byte data;
  im_len : (13 <= length data)%nat;
  im_key : nth 8 data 0 = 0x4b;
  im_hs : 62 <= hs;
  im_max : hs + Z.of_nat (length data) < OTA_MAX_IMAGE_SIZE
}.

(** The checksum of the first [n] bytes, as far as it covers them. *)
Definition crc_upto (data : list Z) (n : nat) : Z :=
  xcrc32 (take (n `min` (length data - 4)) data) 0xffffffff.

Lemma crc_upto_step data o d :
  (o + d <= length data)%nat ->
  xcrc32 (take (((o + d) `min` (length data - 4)) - (o `min` (length data - 4))) (drop o data)) (crc_upto data o) =
  crc_upto data (o + d).
Proof.
  intros Hl. unfold crc_upto. set (a := (o `min` (length data - 4))%nat). set (b := ((o + d) `min` (length data - 4))%nat).
  assert (take b data = take a data ++ take (b - a) (drop o data)) as ->; [|by rewrite xcrc32_app].
  rewrite <-(take_drop a (take b data)), take_take, skipn_firstn_comm.
  replace (a `min` b)%nat with a by lia. f_equal.
  destruct (decide (o <= length data - 4)%nat) as [Ho|Ho].
  - replace a with o by lia. done.
  - replace (b - a)%nat with 0%nat by lia. by rewrite !take_0.
Qed.

Lemma restore_keyword data : nth 8 data 0 = 0x4b -> (8 < length data)%nat -> <[8%nat := 0x4b]> (stored data) = data.
Proof.
  intros Hk Hl. unfold stored. rewrite list_insert_insert_eq. apply list_insert_id.
  destruct (lookup_lt_is_Some_2 data 8 Hl) as [v Hv]. rewrite nth_lookup, Hv in Hk. by rewrite Hv, <-Hk.
Qed.

Lemma bytes_at_prefix p i n d l : (n <= d)%nat -> bytes_at p i d = l -> bytes_at p i n = take n l.
Proof.
  intros Hn <-. replace d with (n + (d - n))%nat by lia. rewrite bytes_at_app.
  by rewrite take_app_length' by (by rewrite length_bytes_at).
Qed.

Section Chunk.
Context {F T : Type} `{FlashLaws F} `{!FlashCheck F} `{!FlashCheckLaws F}.
Context `{TimerSvc T} `{MacEnv} `{OtaLinks}.
Context (data : list Z) (hs base : Z) (g : Z -> Z) (Him : image_ok data hs).
Context (Hbase : base = 0 \/ base = FLASH_OTA_NEWIMAGE_ADDR).
Implicit Type s : client F T.

Definition in_image (x : Z) : Prop := base <= x < base + Z.of_nat (length data).

(** [n] bytes have been written; what the flash held elsewhere is [g]. *)
Definition flash_has (f : F) (n : nat) : Prop :=
  fl_ok f /\ forall x, fl_byte f x = image_flash base data g (Z.of_nat n) x.

Lemma write_checked f n d :
  flash_has f n -> (n + d <= length data)%nat ->
  (forall x, in_image x -> fl_prot f x = false /\ g x = 255) ->
  let l := take d (drop n (stored data)) in
  let r := fl_write_check (u32 (base + Z.of_nat n)) l f in
  r.1 = true /\ flash_has r.2 (n + d) /\ forall x, fl_mask r.2 x = fl_mask f x.
Proof.
  intros [Hok Hf] Hd Hg l r. pose proof Him as []. unfold OTA_MAX_IMAGE_SIZE in *.
  assert (Hlen : length l = d) by (unfold l; rewrite length_take, length_drop, length_stored; lia).
  assert (Ea : u32 (base + Z.of_nat n) = base + Z.of_nat n)
    by (apply u32_small; unfold FLASH_OTA_NEWIMAGE_ADDR in *; lia).
  unfold r. rewrite Ea. clear r. set (r := fl_write_check (base + Z.of_nat n) l f).
  assert (Hlb : Forall is_byte l) by (apply Forall_take, Forall_drop, stored_Forall; done).
  destruct (fl_write_check_law f (base + Z.of_nat n) l Hok) as (Hok' & Hpm & Hb & Hc); [|done|].
  { unfold flash_range. rewrite Hlen. unfold FLASH_OTA_NEWIMAGE_ADDR in *. lia. }
  fold r in Hok', Hpm, Hb, Hc.
  assert (Hb' : forall x, fl_byte r.2 x = image_flash base data g (Z.of_nat (n + d)) x).
  { intros x. rewrite Hb. rewrite <-(image_flash_chunk (fl_prot f) g base data n d x Hd im_bytes0 Hg).
    unfold programmed. destruct (_ && _); by rewrite Hf. }
  split_and!; [|by split|intros x; apply Hpm].
  apply Hc. rewrite Hlen, (bytes_at_ext _ _ _ _ (fun i _ => Hb' (base + Z.of_nat n + i))).
  by apply image_flash_bytes.
Qed.

Lemma write_chunk_spec len i p s o d :
  0 <= i -> 0 < len < 256 -> len = i + Z.of_nat d -> (o + d <= length data)%nat ->
  new_base s = base -> ota_headersize s = hs -> imageSize (binInfo s) = Z.of_nat (length data) ->
  ota_headercnt s = hs + Z.of_nat o -> flashOffsetAddr s = Z.of_nat o -> crcValue s = crc_upto data o ->
  bytes_at p i d = take d (drop o data) ->
  flash_has (cl_fl s) o -> (forall x, in_image x -> fl_prot (cl_fl s) x = false /\ g x = 255) ->
  exists f', write_chunk len i p s =
    with_crcValue (crc_upto data (o + d))
      (with_flashOffsetAddr (Z.of_nat (o + d))
        (with_cl_fl f' (with_ota_headercnt (hs + Z.of_nat (o + d)) s))) /\
    flash_has f' (o + d) /\ forall x, fl_mask f' x = fl_mask (cl_fl s) x.
Proof.
  intros Hi Hlen Hd Hod Enb Ehs Esz Ecnt Eoff Ecrc Hp Hf Hg. pose proof Him as [].
  unfold OTA_MAX_IMAGE_SIZE in *. unfold write_chunk.
  rewrite (proj2 (Z.ltb_lt 0 len)) by lia. rewrite (u8_small (len - i)) by lia.
  replace (len - i) with (Z.of_nat d) by lia.
  change (flashOffsetAddr (with_ota_headercnt _ s)) with (flashOffsetAddr s). rewrite Ecnt, Eoff.
  unfold OTA_TLNK_KEYWORD_ADDROFFSET. rewrite Nat2Z.id.
  pose proof (put_keyword p i d o data 0xff Hod ltac:(lia) Hp) as Hp1. cbv zeta in Hp1. fold (stored data) in Hp1.
  set (p1 := if (_ && _ && _ : bool) then _ else p) in *.
  pose proof (put_keyword p1 i d o (stored data) 0x4b) as Hp2. rewrite length_stored in Hp2.
  specialize (Hp2 Hod ltac:(lia) Hp1). cbv zeta in Hp2. rewrite restore_keyword in Hp2 by (done || lia).
  set (p2 := if (_ && _ && _ : bool) then put p1 _ _ else p1) in *. rewrite Hp1. clearbody p1 p2.
  change (new_base (with_ota_headercnt _ s)) with (new_base s). rewrite Enb.
  change (cl_fl (with_ota_headercnt _ s)) with (cl_fl s).
  destruct (write_checked (cl_fl s) o d Hf Hod Hg) as (E1 & Hf' & Hm').
  destruct (fl_write_check _ _ _) as [ok f'] eqn:Ew. cbn [fst snd] in *. subst ok.
  cbn [negb]. exists f'. split; [|done].
  cbn [with_flashOffsetAddr with_cl_fl with_ota_headercnt binInfo ota_headersize ota_headercnt].
  rewrite Esz, Ehs. rewrite (u32_small (hs + Z.of_nat o + Z.of_nat d)) by lia.
  rewrite (u32_small (Z.of_nat (length data) + hs - 4)) by lia.
  rewrite crc_len_spec by lia.
  rewrite (u32_small (Z.of_nat o + Z.of_nat d)) by lia.
  rewrite <-(crc_upto_step data o d Hod). set (n := (_ `min` _ - _ `min` _)%nat).
  replace (Z.min (Z.of_nat o + Z.of_nat d) (Z.of_nat (length data) - 4) - Z.min (Z.of_nat o) (Z.of_nat (length data) - 4))
    with (Z.of_nat n) by lia.
  rewrite Nat2Z.id, (bytes_at_prefix p2 i n d _ ltac:(lia) Hp2), take_take.
  replace (n `min` d)%nat with n by lia.
  replace (hs + Z.of_nat o + Z.of_nat d) with (hs + Z.of_nat (o + d)) by lia.
  replace (Z.of_nat o + Z.of_nat d) with (Z.of_nat (o + d)) by lia. rewrite <-Ecrc.
  destruct (Z.eqb_spec (Z.of_nat n) 0) as [En|_]; cbn [negb]; [|done].
  replace n with 0%nat by lia. by destruct s.
Qed.
End Chunk.

(** ** A file: the header and the image *)

Definition field (header : list Z) (o n : nat) : Z := le_word (take n (drop o header)).

(** The fields the device reads are those of [info], which is what the
    coordinator announces. *)
Record file_ok (header data : list Z) (info : ota_preamble_t) : Prop := {
  fi_image : image_ok data (Z.of_nat (length header));
  fi_bytes : Forall is_byte header;
  fi_len : field header 6 2 + 6 = Z.of_nat (length header);
  fi_manuf : field header 10 2 = manufaurerCode info;
  fi_type : field header 12 2 = imageType info;
  fi_ver : field header 14 4 = fileVer info;
  fi_size : field header 58 4 = Z.of_nat (length data);
  fi_total : imageSize info = Z.of_nat (length header + length data)
}.

Lemma take_drop_app_l {A} (l1 l2 : list A) n o :
  (o + n <= length l1)%nat -> take n (drop o (l1 ++ l2)) = take n (drop o l1).
Proof.
  intros Hl. rewrite drop_app_le by lia. rewrite take_app_le; [done|]. rewrite length_drop. lia.
Qed.

Lemma take_drop_app_r {A} (l1 l2 : list A) n o :
  take n (drop (length l1 + o) (l1 ++ l2)) = take n (drop o l2).
Proof. by rewrite drop_app_add. Qed.

(** A field inside a block. *)
Lemma block_field p c L (file : list Z) o n :
  bytes_at p 0 L = take L (drop c file) -> (o + n <= L)%nat -> (c + L <= length file)%nat ->
  bytes_at p (Z.of_nat o) n = take n (drop (c + o) file).
Proof.
  intros Hp Ho Hl. apply bytes_at_part; [lia|]. intros k Hk. rewrite bytes_at_part in Hp by done.
  rewrite <-Nat.add_assoc, <-(Hp (o + k)%nat) by lia. f_equal. lia.
Qed.

(** A part of a file in memory. *)
Lemma block_field' p a (file : list Z) o n :
  bytes_at p a (length file) = file -> (o + n <= length file)%nat ->
  bytes_at p (a + Z.of_nat o) n = take n (drop o file).
Proof.
  intros Hp Hl. apply bytes_at_part; [done|]. intros k Hk.
  rewrite <-(bytes_at_holds p a _ _ (o + k) Hp) by lia. f_equal. lia.
Qed.

Lemma block_byte p c L (file : list Z) i :
  bytes_at p 0 L = take L (drop c file) -> (c + L <= length file)%nat -> Forall is_byte file ->
  0 <= i < Z.of_nat L -> is_byte (p i).
Proof.
  intros Hp Hl Hb Hi. rewrite bytes_at_part in Hp by done.
  replace i with (0 + Z.of_nat (Z.to_nat i)) by lia. rewrite Hp by lia.
  apply Forall_nth; [done|lia].
Qed.
