(* ===== verification/OtaTransfer.v ===== *)
(** * The end device's transfer: the invariant

    While the blocks of an image file arrive in order, the header counter, the
    flash, the write offset and the checksum are functions of the number of
    bytes received. *)
From S2P Require Import Prelude SysEv EvTimer TimerIf SpiFlash FlashIf Crc Ota OtaServer OtaClient OtaSpec.

Section Transfer.
Context {F T : Type} `{FlashLaws F} `{!FlashCheck F} `{!FlashCheckLaws F}.
Context `{TimerSvc T} `{MacEnv} `{OtaLinks}.
Implicit Type s : client F T.

(** ** What the services leave alone *)

(** [s'] differs from [s] in its timers only. *)
Inductive timers_only s : client F T -> Prop :=
  | timers_set t p q r :
      timers_only s (with_cl_tm t (with_otaDataReqTimer p (with_PollDataTimer q (with_ota_reqRetryCnt r s)))).

Lemma timers_refl s : timers_only s s.
Proof.
  replace s with (with_cl_tm (cl_tm s) (with_otaDataReqTimer (otaDataReqTimer s)
    (with_PollDataTimer (PollDataTimer s) (with_ota_reqRetryCnt (ota_reqRetryCnt s) s)))) at 2
    by (by destruct s).
  apply timers_set.
Qed.

Lemma timers_trans s1 s2 s3 : timers_only s1 s2 -> timers_only s2 s3 -> timers_only s1 s3.
Proof. intros [t p q r] [t' p' q' r']. exact (timers_set s1 t' p' q' r'). Qed.

Lemma timers_on_tm f s : timers_only s (on_tm f s).
Proof. exact (timers_set s (f (cl_tm s)) (otaDataReqTimer s) (PollDataTimer s) (ota_reqRetryCnt s)). Qed.

Lemma timers_cnt n s : timers_only s (with_ota_reqRetryCnt n s).
Proof. exact (timers_set s (cl_tm s) (otaDataReqTimer s) (PollDataTimer s) n). Qed.

Lemma timers_dr p t s : timers_only s (with_otaDataReqTimer p (with_cl_tm t s)).
Proof. exact (timers_set s t p (PollDataTimer s) (ota_reqRetryCnt s)). Qed.

Lemma timers_pd p t s : timers_only s (with_PollDataTimer p (with_cl_tm t s)).
Proof. exact (timers_set s t (otaDataReqTimer s) p (ota_reqRetryCnt s)). Qed.

Lemma timers_cancel s : timers_only s (cancel_dataReqTimer s).
Proof.
  unfold cancel_dataReqTimer. destruct (_ =? _); [apply timers_refl|].
  destruct (tmr_cancel _ _) as [p t]. apply timers_dr.
Qed.

Lemma timers_retry n s : timers_only s (ota_dataReqRetry n s).
Proof.
  unfold ota_dataReqRetry. eapply timers_trans; [apply (timers_cnt 0)|].
  destruct (_ =? _); [apply timers_refl|]. eapply timers_trans; [apply timers_cancel|].
  destruct (tmr_post _ _ _ _) as [p t]. apply timers_dr.
Qed.

Lemma timers_poll n s : timers_only s (mac_set_pollRate n s).
Proof.
  unfold mac_set_pollRate. destruct rxOnWhenIdle; [apply timers_refl|].
  destruct (_ =? _); [apply timers_refl|]. eapply timers_trans.
  2: { destruct (tmr_post _ _ _ _) as [p t]. apply timers_pd. }
  destruct (_ =? 0); [apply timers_refl|]. destruct (tmr_cancel _ _) as [p t]. apply timers_pd.
Qed.

(** ** Progress *)
Context (header data : list Z) (info : ota_preamble_t) (base : Z) (g : Z -> Z).
Context (Hfile : file_ok header data info).
Context (Hbase : base = 0 \/ base = FLASH_OTA_NEWIMAGE_ADDR).
Context (Hblank : forall x, in_image data base x -> g x = 255).

Abbreviation file := (header ++ data).
Abbreviation hl := (length header).

(** What is not the business of the data process. *)
Definition same_session s s' : Prop :=
  dev_otaInfo s' = dev_otaInfo s /\ mcuBootAddr s' = mcuBootAddr s /\
  blockDataCount s' = blockDataCount s /\ cl_sent s' = cl_sent s /\
  g_tlAppDataSeqNo s' = g_tlAppDataSeqNo s /\ cl_resets s' = cl_resets s.

(** The header fields known after [c] bytes. *)
Definition header_known (c : nat) (hs : Z) (b : ota_preamble_t) : Prop :=
  (c = 0%nat -> hs = 0) /\
  ((48 <= c)%nat -> hs = Z.of_nat hl /\ fileVer b = fileVer info /\ imageType b = imageType info /\
                    manufaurerCode b = manufaurerCode info) /\
  ((59 <= c)%nat -> imageSize b = Z.of_nat (length data)).

(** [c] bytes of the file have been received. *)
Record progress (c : nat) s : Prop := {
  pr_base : new_base s = base;
  pr_cnt : ota_headercnt s = Z.of_nat c;
  pr_flash : flash_has data base g (cl_fl s) (c - hl);
  pr_off : flashOffsetAddr s = Z.of_nat (c - hl);
  pr_crc : crcValue s = crc_upto data (c - hl);
  pr_state : ota_state s = if (c <=? hl)%nat then OTA_STA_STARTING else OTA_STA_DATAING;
  pr_hdr : header_known c (ota_headersize s) (binInfo s)
}.

Lemma file_length : length file = (hl + length data)%nat.
Proof. apply length_app. Qed.

Lemma file_bytes : Forall is_byte file.
Proof. apply Forall_app; split; [apply (fi_bytes _ _ _ Hfile)|apply (im_bytes _ _ (fi_image _ _ _ Hfile))]. Qed.

Lemma fi_bounds : (62 <= hl)%nat /\ (13 <= length data)%nat /\ Z.of_nat (hl + length data) < OTA_MAX_IMAGE_SIZE.
Proof. pose proof (fi_image _ _ _ Hfile) as []. lia. Qed.

(** A 16-bit and a 32-bit field of the header, read from its block. *)
Lemma get_field16 p c L (o : nat) :
  bytes_at p 0 L = take L (drop c file) -> (o + 2 <= L)%nat -> (c + L <= length file)%nat ->
  (c + o + 2 <= hl)%nat -> get16 p (Z.of_nat o) = field header (c + o) 2.
Proof.
  intros Hp Ho HL Hh. pose proof file_bytes as Hb.
  rewrite get16_le by (eapply (block_byte p c L file); (done || lia)).
  rewrite (block_field p c L file o 2) by (done || lia).
  unfold field. by rewrite take_drop_app_l by lia.
Qed.

Lemma get_field32 p c L (o : nat) :
  bytes_at p 0 L = take L (drop c file) -> (o + 4 <= L)%nat -> (c + L <= length file)%nat ->
  (c + o + 4 <= hl)%nat -> get32 p (Z.of_nat o) = field header (c + o) 4.
Proof.
  intros Hp Ho HL Hh. pose proof file_bytes as Hb.
  rewrite get32_le by (eapply (block_byte p c L file); (done || lia)).
  rewrite (block_field p c L file o 4) by (done || lia).
  unfold field. by rewrite take_drop_app_l by lia.
Qed.

Lemma field_range o n : 0 <= field header o n < 256 ^ Z.of_nat n.
Proof.
  unfold field. assert (Hb : Forall is_byte (take n (drop o header))).
  { apply Forall_take, Forall_drop, (fi_bytes _ _ _ Hfile). }
  pose proof (le_word_range _ Hb) as Hr. rewrite length_take in Hr.
  split; [apply Hr|]. eapply Z.lt_le_trans; [apply Hr|]. apply Z.pow_le_mono_r; lia.
Qed.

(** The header loop on the block at [c]. *)
Lemma header_any p c L s :
  (c = 0 \/ c = 48 \/ 59 <= c)%nat -> (c <= hl)%nat -> L = (48 `min` (length file - c))%nat ->
  bytes_at p 0 L = take L (drop c file) ->
  ota_headercnt s = Z.of_nat c -> header_known c (ota_headersize s) (binInfo s) ->
  exists b, header_known (c + L) (Z.of_nat hl) b /\
    header_loop L 0 p s =
    if Z.of_nat hl <? Z.of_nat (c + L)
    then (Z.of_nat (hl - c), with_ota_state OTA_STA_DATAING (hdr_set (Z.of_nat hl) (Z.of_nat hl) b s))
    else (Z.of_nat L, hdr_set (Z.of_nat (c + L)) (Z.of_nat hl) b s).
Proof.
  intros Hc Hle HL Hp Hcnt (Hk0 & Hk48 & Hk59). pose proof fi_bounds as (Hh & Hd & Hmax).
  pose proof file_length as Hfl. unfold OTA_MAX_IMAGE_SIZE in Hmax.
  assert (header_loop L 0 p s =
    header_loop L 0 p (hdr_set (Z.of_nat c) (ota_headersize s) (binInfo s) s)) as ->
    by (by rewrite <-Hcnt, hdr_set_id).
  destruct (decide (c = 0%nat)) as [->|]; [|destruct (decide (c = 48%nat)) as [->|]].
  - assert (L = 48%nat) as -> by lia. rewrite Hk0 by done.
    assert (E : forall o, (o + 2 <= 48)%nat -> get16 p (Z.of_nat o) = field header o 2)
      by (intros; apply (get_field16 p 0 48); (done || lia)).
    pose proof (get_field32 p 0 48 14 Hp ltac:(lia) ltac:(lia) ltac:(lia)) as E4.
    pose proof (E 6%nat ltac:(lia)) as E6. pose proof (E 10%nat ltac:(lia)) as E10.
    pose proof (E 12%nat ltac:(lia)) as E12. cbn [Nat.add] in E4. clear E.
    change (Z.of_nat 6) with 6 in E6. change (Z.of_nat 10) with 10 in E10.
    change (Z.of_nat 12) with 12 in E12. change (Z.of_nat 14) with 14 in E4.
    pose proof (field_range 6 2). pose proof (field_range 10 2). pose proof (field_range 12 2).
    pose proof (field_range 14 4).
    pose proof Hfile as [_ _ Elen Emanuf Etype Ever _ _].
    change (Z.of_nat 0) with 0. rewrite (header_block0 _ _ _ (Z.of_nat hl)); [| |lia].
    2: { rewrite E6, Elen, u32_small; lia. }
    exists (mk_pre (u32 (get32 p 14)) (u16 (get16 p 12)) (u16 (get16 p 10)) (imageSize (binInfo s))).
    rewrite (proj2 (Z.ltb_ge (Z.of_nat hl) (Z.of_nat (0 + 48)))) by lia. split; [|done].
    split_and!; [lia| |lia]. intros _. cbn [fileVer imageType manufaurerCode].
    rewrite E4, E10, E12, Ever, Etype, Emanuf.
    rewrite u32_small, !u16_small by (rewrite <-?Ever, <-?Etype, <-?Emanuf; lia). done.
  - destruct (Hk48 ltac:(lia)) as (Ehs & Ev & Et & Em). rewrite Ehs.
    change (Z.of_nat 48) with 48. rewrite header_block1 by lia. cbv zeta.
    pose proof (get_field32 p 48 L 10 Hp ltac:(lia) ltac:(lia) ltac:(lia)) as E4.
    change (Z.of_nat 10) with 10 in E4. change (48 + 10)%nat with 58%nat in E4.
    rewrite E4, (fi_size _ _ _ Hfile), u32_small by lia.
    eexists. split; [|replace (48 + Z.of_nat L) with (Z.of_nat (48 + L)) by lia;
                      destruct (_ <? _); [|done]; f_equal; lia].
    split_and!; [lia|done|done].
  - destruct (Hk48 ltac:(lia)) as (Ehs & Ev & Et & Em). rewrite Ehs.
    rewrite header_blocks by lia.
    exists (binInfo s). split; [|replace (Z.of_nat c + Z.of_nat L) with (Z.of_nat (c + L)) by lia;
                                 destruct (_ <? _); [|done]; f_equal; lia].
    split_and!; [lia|done|intros _; apply Hk59; lia].
Qed.

(** The bytes of the block that belong to the image. *)
Lemma block_data p c L i d :
  bytes_at p 0 L = take L (drop c file) -> (i + d = L)%nat -> (c + L <= length file)%nat ->
  (hl <= c + i)%nat -> bytes_at p (Z.of_nat i) d = take d (drop (c + i - hl) data).
Proof.
  intros Hp Hi Hl Hh. rewrite (block_field p c L file i d Hp) by lia.
  replace (c + i)%nat with (hl + (c + i - hl))%nat at 1 by lia. apply take_drop_app_r.
Qed.

(** A chunk of the block at [c], from its [i]-th byte on. *)
Lemma progress_chunk p c L i d s :
  bytes_at p 0 L = take L (drop c file) -> (i + d = L)%nat -> (0 < L <= 48)%nat ->
  (c + L <= length file)%nat -> (hl <= c + i)%nat -> (hl < c + L)%nat ->
  (forall x, in_image data base x -> fl_prot (cl_fl s) x = false) ->
  new_base s = base -> ota_headercnt s = Z.of_nat (c + i) ->
  flash_has data base g (cl_fl s) (c + i - hl) -> flashOffsetAddr s = Z.of_nat (c + i - hl) ->
  crcValue s = crc_upto data (c + i - hl) -> ota_state s = OTA_STA_DATAING ->
  header_known (c + L) (ota_headersize s) (binInfo s) ->
  let s' := write_chunk (Z.of_nat L) (Z.of_nat i) p s in
  progress (c + L) s' /\ same_session s s'.
Proof.
  intros Hp Hi HL Hl Hh Hc Hprot Ebase Ecnt Hf Eoff Ecrc Est Hk s'.
  pose proof fi_bounds as (Hh62 & Hd & Hmax). pose proof file_length as Hfl.
  pose proof Hk as (_ & Hk48 & Hk59).
  destruct (Hk48 ltac:(lia)) as (Ehs & _). pose proof (Hk59 ltac:(lia)) as Esz.
  destruct (write_chunk_spec data (Z.of_nat hl) base g (fi_image _ _ _ Hfile) Hbase
    (Z.of_nat L) (Z.of_nat i) p s (c + i - hl) d) as (f' & E & Hf' & _); try (done || lia).
  { by rewrite (block_data p c L i d). }
  { intros x Hx. split; [by apply Hprot|by apply Hblank]. }
  unfold s'. rewrite E. replace (c + i - hl + d)%nat with (c + L - hl)%nat in * by lia.
  split; [|done]. split; try done.
  - cbn [ota_headercnt with_crcValue with_flashOffsetAddr with_cl_fl with_ota_headercnt]. lia.
  - cbn [ota_state with_crcValue with_flashOffsetAddr with_cl_fl with_ota_headercnt].
    rewrite Est. by destruct (Nat.leb_spec (c + L) hl); [lia|].
Qed.

(** One block. *)
Lemma progress_block p c L s :
  (c = 0 \/ c = 48 \/ 59 <= c)%nat -> (c < length file)%nat -> L = (48 `min` (length file - c))%nat ->
  bytes_at p 0 L = take L (drop c file) -> progress c s ->
  (forall x, in_image data base x -> fl_prot (cl_fl s) x = false) ->
  let s' := ota_DataProcess (Z.of_nat L) p s in
  progress (c + L) s' /\ same_session s s'.
Proof.
  intros Hc Hlt HL Hp [Ebase Ecnt Hf Eoff Ecrc Est Hk] Hprot.
  pose proof fi_bounds as (Hh62 & Hd & Hmax). pose proof file_length as Hfl.
  unfold ota_DataProcess. rewrite Est. destruct (Nat.leb_spec c hl) as [Hle|Hgt].
  - rewrite bool_decide_true, Nat2Z.id by done.
    destruct (header_any p c L s Hc Hle HL Hp Ecnt Hk) as (b & Hb & E). rewrite E. clear E.
    replace (c - hl)%nat with 0%nat in * by lia.
    destruct (Z.ltb_spec (Z.of_nat hl) (Z.of_nat (c + L))) as [Hend|Hmore].
    + cbn [ota_state with_ota_state]. rewrite bool_decide_true by done.
      set (s1 := with_ota_state _ _).
      assert (Hz : (c + (hl - c) - hl)%nat = 0%nat) by lia.
      destruct (progress_chunk p c L (hl - c) (L - (hl - c)) s1) as [HP HS]; try (done || lia); rewrite ?Hz; try done.
      cbn [s1 ota_headercnt with_ota_state hdr_set with_ota_headercnt]. lia.
    + cbn [ota_state hdr_set with_ota_headercnt with_ota_headersize with_binInfo]. rewrite Est.
      destruct (Nat.leb_spec c hl); [|lia]. rewrite bool_decide_false by done.
      split; [|done]. replace (c + L - hl)%nat with 0%nat in * by lia.
      split; cbn [new_base hdr_set ota_headercnt with_ota_headercnt with_ota_headersize with_binInfo
                  cl_fl flashOffsetAddr crcValue ota_state ota_headersize binInfo]; try done.
      all: replace (c + L - hl)%nat with 0%nat by lia; try done.
      rewrite Est. destruct (Nat.leb_spec c hl), (Nat.leb_spec (c + L) hl); done || lia.
  - rewrite bool_decide_false by done. rewrite Est. destruct (Nat.leb_spec c hl); [lia|].
    rewrite bool_decide_true by done.
    change (write_chunk (Z.of_nat L) 0 p s) with (write_chunk (Z.of_nat L) (Z.of_nat 0) p s).
    apply (progress_chunk p c L 0 L s); try (done || lia); rewrite ?Nat.add_0_r; try done.
    destruct Hk as (_ & H48 & H59). split_and!; [lia|intros _; apply H48; lia|intros _; apply H59; lia].
Qed.
End Transfer.
