(* ===== verification/OtaSession.v ===== *)
(** * Over-the-air update: the parts of a session

    The erasure of the new half, the frames as they are sent and received, and
    what the coordinator answers to the request of a block. *)
From S2P Require Import Prelude SysEv EvTimer TimerIf SpiFlash FlashIf Crc Ota OtaServer OtaClient OtaSpec OtaTransfer.

(** ** The start of a transfer *)
Section Start.
Context {F T : Type} `{FlashLaws F} `{!FlashCheck F} `{TimerSvc T} `{MacEnv} `{OtaLinks}.
Implicit Type s : client F T.

(** The sectors [i] to [i + n - 1] of the half at [base]. *)
Definition in_sectors (base i n x : Z) : bool := (base + i * 4096 <=? x) && (x <? base + (i + n) * 4096).

Lemma erase_sectors_spec n i base s :
  fl_ok (cl_fl s) -> base mod 4096 = 0 -> 0 <= base -> 0 <= i ->
  base + (i + Z.of_nat n) * 4096 <= 2 ^ 24 ->
  exists f', erase_sectors n i base s = with_cl_fl f' s /\ fl_ok f' /\
    (forall x, fl_prot f' x = fl_prot (cl_fl s) x) /\
    forall x, fl_byte f' x =
      if in_sectors base i (Z.of_nat n) x && negb (fl_prot (cl_fl s) x) then 255 else fl_byte (cl_fl s) x.
Proof.
  revert i s. induction n as [|n IH]; intros i s Hok Hal Hb Hi Hmax; cbn [erase_sectors].
  - exists (cl_fl s). split_and!; [by destruct s|done|done|]. intros x. unfold in_sectors.
    destruct (Z.leb_spec (base + i * 4096) x), (Z.ltb_spec x (base + (i + Z.of_nat 0) * 4096)); cbn [andb]; done || lia.
  - unfold OTA_SECTOR_SIZE. set (a := base + i * 4096). assert (Ea : a = base + i * 4096) by done.
    destruct (fl_erase_law (cl_fl s) a Hok) as (Hok1 & Hpm1 & Hb1); [split; cbn; lia|].
    destruct (IH (i + 1) (on_fl (fl_erase a) s)) as (f' & E & Hok' & Hp' & Hb'); try (done || lia).
    exists f'. split_and!; [by rewrite E|done|intros x; rewrite Hp'; apply Hpm1|].
    intros x. rewrite Hb'. cbn [on_fl cl_fl with_cl_fl].
    rewrite (proj1 (Hpm1 x)), Hb1. unfold in_sectors, erased.
    destruct (fl_prot (cl_fl s) x); rewrite ?andb_false_r; [done|]. rewrite !andb_true_r.
    destruct (Z.leb_spec (base + (i + 1) * 4096) x), (Z.ltb_spec x (base + (i + 1 + Z.of_nat n) * 4096)),
      (Z.leb_spec (base + i * 4096) x), (Z.ltb_spec x (base + (i + Z.of_nat (S n)) * 4096)),
      (Z.eqb_spec (x / 4096) (a / 4096)); cbn [andb]; try done; exfalso; zdm.
Qed.

(** Frames arrive as they were sent. *)
Definition delivers (rx : list Z -> Z -> Z) : Prop := forall l, bytes_at (rx l) 0 (length l) = l.

Lemma delivered rx l1 l2 :
  delivers rx -> bytes_at (at_off (rx (l1 ++ l2)) (Z.of_nat (length l1))) 0 (length l2) = l2.
Proof.
  intros Hrx. rewrite bytes_at_at_off, Z.add_0_r.
  destruct (holds_app (rx (l1 ++ l2)) 0 l1 l2 (Hrx _)) as [_ E]. by rewrite Z.add_0_l in E.
Qed.

Lemma get_fhdr_enc pd h l :
  bytes_at pd 0 (length (enc_fhdr h ++ l)) = enc_fhdr h ++ l ->
  get_fhdr pd = mk_fhdr (u8 (appId h)) (u8 (seqNo h)) (u8 (cmdId h)) (u8 (fr_len h)).
Proof.
  intros E. apply holds_app in E as [E _].
  pose proof (bytes_at_holds pd 0 4 _ 0 E ltac:(lia)) as E0. pose proof (bytes_at_holds pd 0 4 _ 1 E ltac:(lia)) as E1.
  pose proof (bytes_at_holds pd 0 4 _ 2 E ltac:(lia)) as E2. pose proof (bytes_at_holds pd 0 4 _ 3 E ltac:(lia)) as E3.
  unfold get_fhdr. change (pd 0) with (pd (0 + Z.of_nat 0)). change (pd 1) with (pd (0 + Z.of_nat 1)).
  change (pd 2) with (pd (0 + Z.of_nat 2)). change (pd 3) with (pd (0 + Z.of_nat 3)).
  by rewrite E0, E1, E2, E3.
Qed.

Lemma get_pre_cmd rx seq cmd p :
  delivers rx -> pre_ok p -> 0 <= seq < 256 -> 0 <= cmd < 256 ->
  get_fhdr (rx (ota_cmd seq cmd p)) = mk_fhdr TL_SPECIFIC_ID_OTA seq cmd sizeof_preamble /\
  get_pre (at_off (rx (ota_cmd seq cmd p)) 4) = p.
Proof.
  intros Hrx Hp Hs Hc. split.
  - unfold ota_cmd. rewrite (get_fhdr_enc _ _ _ (Hrx _)). cbn [appId seqNo cmdId fr_len].
    by rewrite !u8_small by (unfold TL_SPECIFIC_ID_OTA, sizeof_preamble; lia).
  - apply get_enc_pre; [done|]. rewrite <-(length_enc_pre p). apply (delivered rx (enc_fhdr _) (enc_pre p) Hrx).
Qed.
End Start.

(** A data frame, as it is received. *)
Lemma get_data_frame rx seq p l :
  delivers rx -> pre_ok p -> 0 <= seq < 256 -> (length l <= 48)%nat ->
  let pd := rx (data_frame seq p l) in
  get_fhdr pd = mk_fhdr TL_SPECIFIC_ID_OTA seq TL_CMD_OTA_DATA_RSP (13 + Z.of_nat (length l)) /\
  get_pre (at_off pd 4) = p /\ get_payloadSize (at_off pd 4) = Z.of_nat (length l) /\
  bytes_at (get_payload (at_off pd 4)) 0 (length l) = l.
Proof.
  intros Hrx Hp Hs Hl pd. pose proof (Hrx (data_frame seq p l)) as E. fold pd in E.
  split.
  { unfold data_frame in E. rewrite (get_fhdr_enc _ _ _ E). cbn [appId seqNo cmdId fr_len].
    by rewrite !u8_u8, !u8_small by (unfold TL_SPECIFIC_ID_OTA, TL_CMD_OTA_DATA_RSP, sizeof_dataFrame_hdr; lia). }
  unfold data_frame in E. apply holds_app in E as [_ E].
  change (0 + Z.of_nat (length (enc_fhdr _))) with 4 in E.
  apply holds_app in E as [E1 E2]. rewrite length_enc_pre in *. change (4 + Z.of_nat 12) with 16 in E2.
  change (u8 (Z.of_nat (length l)) :: l) with ([u8 (Z.of_nat (length l))] ++ l) in E2.
  apply holds_app in E2 as [E2 E3]. split_and!.
  - apply get_enc_pre; [done|]. by rewrite bytes_at_at_off.
  - unfold get_payloadSize, at_off. pose proof (bytes_at_holds pd 16 1 _ 0 E2 ltac:(lia)) as E0.
    change (16 + Z.of_nat 0) with (4 + 12) in E0. rewrite E0. cbn [nth]. apply u8_small. lia.
  - unfold get_payload. rewrite !bytes_at_at_off. exact E3.
Qed.

(** ** The coordinator *)
Section Serve.
Context {G : Type} `{FlashLaws G} `{MacEnv}.
Context (header data : list Z) (info : ota_preamble_t) (Hfile : file_ok header data info).
Implicit Type s : server G.

Abbreviation file := (header ++ data).

(** The coordinator holds the file. *)
Record serving s : Prop := {
  sv_ok : fl_ok (sv_fl s);
  sv_valid : ota_bin_state s = OTA_BIN_VALID;
  sv_info : OtaServer.dev_otaInfo s = info;
  sv_size : OtaServer.ota_headersize s = imageSize info;
  sv_seq : 0 <= OtaServer.g_tlAppDataSeqNo s < 256;
  sv_file : bytes_at (fl_byte (sv_fl s)) (server_addr (OtaServer.mcuBootAddr s)) (length file) = file
}.

Definition block (k : nat) : list Z := take 48 (drop (48 * k) file).

Lemma length_block k : length (block k) = (48 `min` (length file - 48 * k))%nat.
Proof. unfold block. by rewrite length_take, length_drop. Qed.

Lemma info_ok : pre_ok info.
Proof.
  pose proof (fi_bounds header data info Hfile) as (_ & _ & Hmax). unfold OTA_MAX_IMAGE_SIZE in Hmax.
  pose proof (field_range header data info Hfile) as Hr. destruct Hfile as [_ _ _ Em Et Ev _ En].
  unfold pre_ok. rewrite <-Em, <-Et, <-Ev, En.
  pose proof (Hr 14%nat 4%nat). pose proof (Hr 12%nat 2%nat). pose proof (Hr 10%nat 2%nat). lia.
Qed.

(** The size of the [k]-th answer: the last block of a file whose length is a
    multiple of 48 is empty. *)
Definition sent_len (k : nat) : nat :=
  if decide (48 * k + 48 = length file)%nat then 0%nat else length (block k).

Lemma block_len_spec k :
  (48 * k < length file)%nat -> block_len (imageSize info) (Z.of_nat k) = Z.of_nat (sent_len k).
Proof.
  intros Hk. pose proof (fi_bounds header data info Hfile) as (_ & _ & Hmax). unfold OTA_MAX_IMAGE_SIZE in Hmax.
  pose proof (file_length header data) as Hl. unfold block_len, OTA_FRAMESIZE, sent_len.
  rewrite (fi_total _ _ _ Hfile). rewrite !u32_small by (rewrite ?u32_small; lia). rewrite length_block.
  destruct (Z.ltb_spec (Z.of_nat k * 48 + 48) (Z.of_nat (length header + length data))); case_decide; try lia.
  - assert (Em : Z.of_nat (length header + length data) mod 48 = 0) by
      (apply Z.mod_divide; [lia|]; exists (Z.of_nat k + 1); lia).
    by rewrite Em.
  - assert (Em : Z.of_nat (length header + length data) mod 48 = Z.of_nat (length header + length data) - 48 * Z.of_nat k).
    { symmetry. apply (Z.mod_unique _ 48 (Z.of_nat k)); lia. }
    rewrite Em, u8_small; lia.
Qed.

Lemma sent_len_le k : (sent_len k <= length (block k))%nat.
Proof. unfold sent_len. case_decide; lia. Qed.

Lemma serve_block s pd k :
  serving s -> (48 * k < length file)%nat ->
  get_pre pd = mk_pre (fileVer info) (imageType info) (manufaurerCode info) (Z.of_nat k) ->
  ota_dataReqHandler pd s =
  answer (fun seq => data_frame seq (mk_pre (fileVer info) (imageType info) (manufaurerCode info) (Z.of_nat k))
                       (take (sent_len k) (block k))) s.
Proof.
  intros [Hok Hv Hi Hsz _ Hf] Hk Epd. unfold ota_dataReqHandler. rewrite Epd, Hi, Hv, Hsz.
  cbn [fileVer imageType manufaurerCode imageSize]. rewrite !Z.eqb_refl, bool_decide_true by done. cbn [andb].
  rewrite block_len_spec by done. rewrite Nat2Z.id.
  pose proof (fi_bounds header data info Hfile) as (_ & _ & Hmax). unfold OTA_MAX_IMAGE_SIZE in Hmax.
  pose proof (file_length header data) as Hl. pose proof (sent_len_le k) as Hsl. rewrite length_block in Hsl.
  assert (Ea : u32 (server_addr (OtaServer.mcuBootAddr s) + u32 (Z.of_nat k * OTA_FRAMESIZE)) =
          server_addr (OtaServer.mcuBootAddr s) + Z.of_nat (48 * k)).
  { unfold OTA_FRAMESIZE. rewrite (u32_small (Z.of_nat k * 48)) by lia. rewrite u32_small; [lia|].
    unfold server_addr, FLASH_OTA_NEWIMAGE_ADDR. destruct (OtaServer.mcuBootAddr s); lia. }
  rewrite Ea, fl_read_law; [|done|].
  2: { unfold flash_range, server_addr, FLASH_OTA_NEWIMAGE_ADDR. destruct (OtaServer.mcuBootAddr s); lia. }
  assert (bytes_at (fl_byte (sv_fl s)) (server_addr (OtaServer.mcuBootAddr s) + Z.of_nat (48 * k)) (sent_len k) =
          take (sent_len k) (block k)) as ->; [|done].
  rewrite (block_field' (fl_byte (sv_fl s)) (server_addr (OtaServer.mcuBootAddr s)) file _ _ Hf) by lia.
  unfold block. rewrite take_take. f_equal. lia.
Qed.
End Serve.
