(* ===== verification/OtaLink.v ===== *)
(** * Over-the-air update: the exchange of frames

    The composition of [OtaServer.v] and [OtaClient.v]: each exchange delivers
    the end device's last request to the coordinator and its answers to the end
    device.  The steps of a session: a block, the last block, the restart. *)
From S2P Require Import Prelude SysEv EvTimer TimerIf SpiFlash FlashIf Crc Ota OtaServer OtaClient OtaSpec OtaTransfer OtaSession.

Section Session.
Context {F T G : Type} `{FlashLaws F} `{!FlashCheck F} `{!FlashCheckLaws F}.
Context `{TimerSvc T} `{FlashLaws G} `{MacEnv} `{OtaLinks}.
Context (rx : list Z -> Z -> Z).

Abbreviation client := (client F T).
Abbreviation server := (server G).

(** The end device's last request is delivered, then the answers to it. *)
Definition exchange (st : client * server) : client * server :=
  let '(c, s) := st in
  match last (cl_sent c) with
  | None => st
  | Some rq =>
      let s' := (OtaServer.tl_appDataIndicate (rx (rq_msdu rq)) s).2 in
      (foldl (fun c rp => (OtaClient.tl_appDataIndicate (rx (rq_msdu rp)) c).2) c
         (drop (length (sv_sent s)) (sv_sent s')), s')
  end.

Context (header data : list Z) (info : ota_preamble_t) (base : Z) (g : Z -> Z).
Context (Hfile : file_ok header data info) (Hrx : delivers rx).
Context (Hbase : base = 0 \/ base = FLASH_OTA_NEWIMAGE_ADDR).
Context (Hblank : forall x, in_image data base x -> g x = 255).

Abbreviation file := (header ++ data).
Abbreviation hl := (length header).

Definition data_pre (k : Z) : ota_preamble_t :=
  mk_pre (fileVer info) (imageType info) (manufaurerCode info) k.

(** The last request of the device, and its sequence number. *)
Definition requested (c : client) (cmd : Z) (p : ota_preamble_t) (seq : Z) : Prop :=
  (exists rq, last (cl_sent c) = Some rq /\ rq_msdu rq = ota_cmd seq cmd p) /\
  0 <= seq < 256 /\ g_tlAppDataSeqNo c = u8 (seq + 1).

(** The device waits for block [k]. *)
Record waiting (k : nat) (resets : nat) (c : client) (s : server) : Prop := {
  wt_progress : progress header data info base g (48 * k) c;
  wt_dev : dev_otaInfo c = info;
  wt_blk : blockDataCount c = Z.of_nat k;
  wt_req : exists seq, requested c TL_CMD_OTA_DATA_REQ (data_pre (Z.of_nat k)) seq /\ seq_number s <> seq;
  wt_resets : cl_resets c = resets;
  wt_serving : serving header data info s
}.

Lemma data_pre_ok k : 0 <= k < 2 ^ 32 -> pre_ok (data_pre k).
Proof. intros Hk. pose proof (info_ok header data info Hfile) as (H1' & H2' & H3' & _).
  unfold pre_ok, data_pre. cbn [fileVer imageType manufaurerCode imageSize]. done. Qed.

(** A request sent. *)
Lemma request_requested cmd p (c : client) :
  0 <= g_tlAppDataSeqNo c < 256 -> requested (request cmd p c) cmd p (g_tlAppDataSeqNo c).
Proof.
  intros Hs. split_and!; [|lia|lia|done]. eexists. split; [apply last_snoc|done].
Qed.

Lemma timers_requested (c c' : client) cmd p seq : timers_only c c' -> requested c cmd p seq -> requested c' cmd p seq.
Proof. by intros [] ?. Qed.

Lemma timers_progress (c c' : client) n : timers_only c c' -> progress header data info base g n c -> progress header data info base g n c'.
Proof. intros [] []. by split. Qed.

Lemma answered f (s : server) : drop (length (sv_sent s)) (sv_sent (answer f s)) =
  [mk_req ZB_ADDR_16BIT_DEV_OR_BROADCAST (dev_src_addr s) (mac_attr ATTR_PAN_ID) 0
    (Z.lor MAC_TX_OPTION_ACKNOWLEDGED_BIT MAC_TX_OPTION_INDIRECT_TRANSMISSION_BIT) (f (OtaServer.g_tlAppDataSeqNo s))].
Proof. unfold answer. cbn [sv_sent with_sv_sent]. by rewrite drop_app_length. Qed.

Lemma answer_serving f (s : server) : serving header data info s -> serving header data info (answer f s).
Proof. intros []. split; try done. apply u8_range. Qed.

Lemma serving_seq n (s : server) : serving header data info s -> serving header data info (with_seq_number n s).
Proof. intros []. by split. Qed.

(** The exchange of a block: what the device does with it. *)
Lemma exchange_block k r c s :
  waiting k r c s -> (48 * k < length file)%nat ->
  exists pd, exchange (c, s) = (ota_dataRspHandler pd c, (exchange (c, s)).2) /\
    get_pre pd = data_pre (Z.of_nat k) /\
    get_payloadSize pd = Z.of_nat (sent_len header data k) /\
    bytes_at (get_payload pd) 0 (sent_len header data k) = take (sent_len header data k) (block header data k) /\
    serving header data info (exchange (c, s)).2 /\
    exists seq, requested c TL_CMD_OTA_DATA_REQ (data_pre (Z.of_nat k)) seq /\ seq_number (exchange (c, s)).2 = seq.
Proof.
  intros [_ _ _ (seq & Hreq & Hseq) _ Hsv] Hk.
  pose proof (fi_bounds header data info Hfile) as (_ & _ & Hmax). unfold OTA_MAX_IMAGE_SIZE in Hmax.
  pose proof (file_length header data) as Hl.
  pose proof Hreq as ((rq & Hlast & Hmsdu) & Hsr & Hg).
  destruct (get_pre_cmd rx seq TL_CMD_OTA_DATA_REQ (data_pre (Z.of_nat k)) Hrx) as [Eh Ep];
    [apply data_pre_ok; lia|done|unfold TL_CMD_OTA_DATA_REQ; lia|].
  unfold exchange. rewrite Hlast, Hmsdu.
  unfold OtaServer.tl_appDataIndicate, OtaServer.tl_appOtaCmdHandler. rewrite Eh. cbn [appId cmdId seqNo].
  change (TL_SPECIFIC_ID_OTA =? TL_SPECIFIC_ID_OTA) with true.
  change (TL_CMD_OTA_DATA_REQ =? TL_CMD_OTA_START_REQ) with false.
  change (TL_CMD_OTA_DATA_REQ =? TL_CMD_OTA_STOP_REQ) with false.
  change (TL_CMD_OTA_DATA_REQ =? TL_CMD_OTA_DATA_REQ) with true. cbv iota.
  rewrite (proj2 (Z.eqb_neq _ _) Hseq). cbn [negb snd].
  rewrite (serve_block header data info Hfile _ _ k); [|by apply serving_seq|done|done].
  set (s1 := with_seq_number seq s). change (sv_sent s) with (sv_sent s1). rewrite answered. cbn [foldl rq_msdu].
  pose proof (sent_len_le header data k) as Hsl. pose proof (length_block header data k) as Hlb.
  set (l := take (sent_len header data k) (block header data k)).
  assert (Hll : length l = sent_len header data k) by (unfold l; rewrite length_take; lia).
  destruct (get_data_frame rx (OtaServer.g_tlAppDataSeqNo s1) (data_pre (Z.of_nat k)) l Hrx)
    as (Eh2 & Ep2 & Es2 & El2); [apply data_pre_ok; lia|apply (sv_seq _ _ _ _ Hsv)|lia|].
  exists (at_off (rx (data_frame (OtaServer.g_tlAppDataSeqNo s1) (data_pre (Z.of_nat k)) l)) 4).
  rewrite <-Hll. split_and!; try done.
  - unfold OtaClient.tl_appDataIndicate, OtaClient.tl_appOtaCmdHandler. fold (data_pre (Z.of_nat k)). fold l.
    by rewrite Eh2.
  - cbn [snd]. apply answer_serving. by apply serving_seq.
  - exists seq. done.
Qed.

Lemma progress_fl n (c : client) f' :
  progress header data info base g n c -> fl_ok f' -> (forall x, fl_byte f' x = fl_byte (cl_fl c) x) ->
  progress header data info base g n (with_cl_fl f' c).
Proof.
  intros [Eb Ec [Hok Hf] Eo Er Es Eh] Hok' Hb. split; try done. split; [done|].
  intros x. by rewrite Hb, Hf.
Qed.

Lemma progress_state n (c : client) : progress header data info base g n c -> ota_state c <> OTA_STA_IDLE.
Proof. intros [_ _ _ _ _ -> _]. by destruct (_ <=? _)%nat. Qed.

(** A block that is not empty: what the handler does before [next_block]. *)
Lemma handle_block k r c s pd L :
  waiting k r c s -> (48 * k < length file)%nat -> L = length (block header data k) ->
  get_pre pd = data_pre (Z.of_nat k) -> get_payloadSize pd = Z.of_nat L ->
  bytes_at (get_payload pd) 0 L = block header data k ->
  exists c3, ota_dataRspHandler pd c = next_block c3 /\
    progress header data info base g (48 * k + L) c3 /\ same_session c c3.
Proof.
  intros [Hpr Hdev Hblk _ _ _] Hk HL Epd Esz Hp. rewrite length_block in HL.
  unfold ota_dataRspHandler. rewrite bool_decide_false by (by eapply progress_state).
  rewrite Epd, Hdev, Hblk, Esz. cbn [data_pre fileVer imageType manufaurerCode imageSize].
  rewrite !Z.eqb_refl. cbn [andb]. rewrite (proj2 (Z.eqb_neq (Z.of_nat L) 0)) by lia.
  pose proof (pr_flash _ _ _ _ _ _ _ Hpr) as [Hok Hf].
  destruct (fl_unlock_law (cl_fl c) Hok) as (Hoku & Hbu & Hpu).
  assert (Hpr1 : progress header data info base g (48 * k) (on_fl fl_unlock c)) by (by apply progress_fl).
  destruct (progress_block header data info base g Hfile Hbase Hblank (get_payload pd) (48 * k) L (on_fl fl_unlock c))
    as [Hpr2 Hsame]; [lia|done|lia| |done| |].
  { rewrite Hp, HL. unfold block.
    destruct (Nat.min_spec 48 (length file - 48 * k)) as [[? ->]|[? ->]]; [done|].
    rewrite !take_ge; [done|rewrite length_drop; lia..]. }
  { intros x _. apply (proj1 (Hpu x)). }
  set (c2 := ota_DataProcess _ _ _) in *. exists (on_fl fl_lock c2). split; [done|].
  destruct (fl_lock_law (cl_fl c2) (proj1 (pr_flash _ _ _ _ _ _ _ Hpr2))) as (Hokl & Hbl & _).
  split; [by apply progress_fl|done].
Qed.

(** A block before the last one. *)
Lemma waiting_step k r c s :
  waiting k r c s -> (48 * k + 48 < length file)%nat ->
  waiting (S k) r (exchange (c, s)).1 (exchange (c, s)).2.
Proof.
  intros Hw Hk. pose proof (fi_bounds header data info Hfile) as (_ & _ & Hmax). unfold OTA_MAX_IMAGE_SIZE in Hmax.
  pose proof (file_length header data) as Hl. pose proof (length_block header data k) as Hlb.
  destruct (exchange_block k r c s Hw ltac:(lia)) as (pd & E & Epd & Esz & Hp & Hsv & seq & Hreq & Hseq).
  assert (Esl : sent_len header data k = length (block header data k)).
  { unfold sent_len. case_decide; [lia|done]. }
  rewrite Esl, firstn_all in *.
  destruct (handle_block k r c s pd _ Hw ltac:(lia) eq_refl Epd Esz Hp) as (c3 & Eh & Hpr & Hd & Hb & Hbk & Hs & Hq & Hr).
  rewrite E. cbn [fst snd]. rewrite Eh. pose proof Hw as [_ Wd Wb _ Wr _].
  replace (48 * k + length (block header data k))%nat with (48 * S k)%nat in Hpr by lia.
  unfold next_block. rewrite Hbk, Wb. set (c4 := with_blockDataCount _ c3).
  assert (Ecnt : ota_headercnt c4 = Z.of_nat (48 * S k)) by apply (pr_cnt _ _ _ _ _ _ _ Hpr).
  assert (Edev : dev_otaInfo c4 = info) by (cbn [c4 dev_otaInfo with_blockDataCount]; by rewrite Hd).
  rewrite Ecnt, Edev, (fi_total _ _ _ Hfile), (proj2 (Z.leb_gt _ _)) by lia.
  set (c5 := with_ota_dataCb _ _). pose proof (timers_retry OTA_MAX_IMAGE_BLOCK_RSP_WAIT_TIME c5) as Ht.
  assert (Hreq5 : exists seq', requested c5 TL_CMD_OTA_DATA_REQ (data_pre (Z.of_nat (S k))) seq' /\ seq' = u8 (seq + 1)).
  { exists (u8 (seq + 1)). split; [|done]. destruct Hreq as (_ & Hsr & Hg).
    assert (Eg : g_tlAppDataSeqNo c4 = u8 (seq + 1)) by (rewrite <-Hg; apply Hq).
    pose proof (request_requested TL_CMD_OTA_DATA_REQ (data_pre (Z.of_nat (S k))) c4) as Hr4. rewrite Eg in Hr4.
    specialize (Hr4 (u8_range _)). unfold c5, ota_dataReq. rewrite Edev.
    change (blockDataCount c4) with (u32 (Z.of_nat k + 1)). rewrite u32_small by lia.
    replace (Z.of_nat k + 1) with (Z.of_nat (S k)) by lia. exact Hr4. }
  destruct Hreq5 as (seq' & Hreq5 & Eseq'). destruct Ht as [t p q r']. 
  split; try done.
  - by destruct Hpr.
  - cbn [blockDataCount with_cl_tm with_otaDataReqTimer with_PollDataTimer with_ota_reqRetryCnt c5 with_ota_dataCb].
    change (u32 (Z.of_nat k + 1) = Z.of_nat (S k)). rewrite u32_small; lia.
  - exists seq'. split; [exact Hreq5|]. rewrite Hseq, Eseq'. destruct Hreq as (_ & Hsr & _).
    intros E'. unfold u8 in E'. zdm.
  - cbn. by rewrite <-Wr.
Qed.

(** ** The end of the transfer *)

Definition checksum_ok : Prop := le_word (drop (length data - 4) data) = xcrc32 (take (length data - 4) data) 0xffffffff.

(** The image is in the flash, whatever the outcome. *)
Definition image_stored (r : nat) (c : client) : Prop :=
  flash_has data base g (cl_fl c) (length data) /\ cl_resets c = r.

(** The device asks to stop. *)
Record stopping (r : nat) (c : client) (s : server) : Prop := {
  sp_stored : image_stored r c;
  sp_base : new_base c = base;
  sp_state : ota_state c = OTA_STA_END;
  sp_bin : binInfo c = mk_pre (fileVer info) (imageType info) (manufaurerCode info) (Z.of_nat (length data));
  sp_size : ota_headersize c = Z.of_nat hl;
  sp_req : exists seq, requested c TL_CMD_OTA_STOP_REQ info seq;
  sp_serving : serving header data info s
}.

Lemma abort_keeps (c : client) :
  ota_state (abort_transfer c) = OTA_STA_IDLE /\ cl_fl (abort_transfer c) = cl_fl c /\ cl_resets (abort_transfer c) = cl_resets c.
Proof.
  unfold abort_transfer. set (c1 := ota_queryStart QUERY_RATE c).
  assert (H' : ota_state c1 = OTA_STA_IDLE /\ cl_fl c1 = cl_fl c /\ cl_resets c1 = cl_resets c).
  { unfold c1, ota_queryStart. by destruct (tmr_exist _ _). }
  clearbody c1. destruct (timers_poll NORMAL_POLL_RATE c1). exact H'.
Qed.

Lemma crc_read (c : client) :
  flash_has data base g (cl_fl c) (length data) ->
  le_word (fl_read (cl_fl c) (u32 (base + Z.of_nat (hl + length data) - Z.of_nat hl - 4)) 4) =
  le_word (drop (length data - 4) data).
Proof.
  intros [Hok Hf]. pose proof (fi_bounds header data info Hfile) as (_ & Hd & Hmax).
  unfold OTA_MAX_IMAGE_SIZE in Hmax. unfold FLASH_OTA_NEWIMAGE_ADDR in Hbase.
  rewrite u32_small by lia.
  replace (base + Z.of_nat (hl + length data) - Z.of_nat hl - 4) with (base + Z.of_nat (length data - 4)) by lia.
  rewrite fl_read_law; [|done|unfold flash_range; lia]. f_equal.
  rewrite (bytes_at_ext _ _ _ _ (fun i _ => Hf (base + Z.of_nat (length data - 4) + i))).
  rewrite image_flash_bytes by lia. unfold stored.
  rewrite drop_insert_lt by lia. apply take_ge. rewrite length_drop. lia.
Qed.

Lemma last_block k r c s :
  waiting k r c s -> (48 * k < length file < 48 * k + 48)%nat ->
  let '(c', s') := exchange (c, s) in
  image_stored r c' /\ (checksum_ok -> stopping r c' s') /\ (~ checksum_ok -> ota_state c' = OTA_STA_IDLE).
Proof.
  intros Hw Hk. pose proof (fi_bounds header data info Hfile) as (Hh & Hd' & Hmax). unfold OTA_MAX_IMAGE_SIZE in Hmax.
  pose proof (file_length header data) as Hl. pose proof (length_block header data k) as Hlb.
  destruct (exchange_block k r c s Hw ltac:(lia)) as (pd & E & Epd & Esz & Hp & Hsv & seq & Hreq & Hseq).
  assert (Esl : sent_len header data k = length (block header data k)).
  { unfold sent_len. case_decide; [lia|done]. }
  rewrite Esl, firstn_all in *.
  destruct (handle_block k r c s pd _ Hw ltac:(lia) eq_refl Epd Esz Hp) as (c3 & Eh & Hpr & Hd & Hb & Hbk & Hs & Hq & Hr).
  rewrite E, Eh. pose proof Hw as [_ Wd Wb _ Wr _].
  replace (48 * k + length (block header data k))%nat with (hl + length data)%nat in Hpr by lia.
  pose proof Hpr as [Pb Pc Pf _ Pcrc Pst (_ & P48 & P59)].
  destruct (P48 ltac:(lia)) as (Ehs & Ebv & Ebt & Ebm). specialize (P59 ltac:(lia)).
  replace (hl + length data - hl)%nat with (length data) in * by lia.
  unfold next_block. set (c4 := with_blockDataCount _ c3).
  change (ota_headercnt c4) with (ota_headercnt c3). change (dev_otaInfo c4) with (dev_otaInfo c3).
  change (cl_fl c4) with (cl_fl c3). change (new_base c4) with (new_base c3).
  change (ota_headersize c4) with (ota_headersize c3). change (crcValue c4) with (crcValue c3).
  rewrite Pc, Pb, Hd, Wd, (fi_total _ _ _ Hfile), Ehs, Z.leb_refl, crc_read, Pcrc by done.
  unfold crc_upto. replace (length data `min` (length data - 4))%nat with (length data - 4)%nat by lia.
  destruct (Z.eqb_spec (le_word (drop (length data - 4) data)) (xcrc32 (take (length data - 4) data) 0xffffffff)) as [Ecrc|Ecrc].
  - set (c5 := with_ota_dataCb _ _). pose proof (timers_retry OTA_MAX_IMAGE_BLOCK_RSP_WAIT_TIME c5) as Ht.
    assert (Hst : image_stored r c5) by (split; [done|by rewrite <-Wr]).
    assert (Hreq5 : requested c5 TL_CMD_OTA_STOP_REQ info (u8 (seq + 1))).
    { destruct Hreq as (_ & Hsr & Hg).
      assert (Eg : g_tlAppDataSeqNo c4 = u8 (seq + 1)) by (rewrite <-Hg; apply Hq).
      pose proof (request_requested TL_CMD_OTA_STOP_REQ info (with_ota_state OTA_STA_END c4)) as Hr4.
      change (g_tlAppDataSeqNo (with_ota_state OTA_STA_END c4)) with (g_tlAppDataSeqNo c4) in Hr4.
      rewrite Eg in Hr4. specialize (Hr4 (u8_range _)). unfold c5, ota_stopReq.
      cbn [binInfo ota_headersize with_ota_state c4 with_blockDataCount].
      rewrite Ebv, Ebt, Ebm, P59, Ehs, u32_small by lia.
      replace (mk_pre _ _ _ _) with info; [exact Hr4|].
      destruct info as [iv it im isz]. pose proof (fi_total _ _ _ Hfile) as Et. cbn in Et |- *. f_equal. lia. }
    destruct Ht as [t p q r']. split; [exact Hst|]. split; [|done]. intros _. split; try done.
    + cbn. change (binInfo c3 = mk_pre (fileVer info) (imageType info) (manufaurerCode info) (Z.of_nat (length data))).
      rewrite <-Ebv, <-Ebt, <-Ebm, <-P59. by destruct (binInfo c3).
    + by exists (u8 (seq + 1)).
  - set (c5 := with_ota_state OTA_STA_IDLE _). destruct (abort_keeps c5) as (Gs & Gf & Gr).
    assert (Hst : image_stored r c5).
    { unfold c5. cbn [with_ota_state]. set (c6 := with_dev_otaInfo _ c4).
      assert (image_stored r c6) as H6 by (split; [done|by rewrite <-Wr]).
      destruct (timers_cancel c6). exact H6. }
    destruct Hst as [Hf5 Hr5]. split; [split; congruence|]. split; [done|done].
Qed.

(** ** The restart *)

Definition old_base : Z := if base =? 0 then FLASH_OTA_NEWIMAGE_ADDR else 0.

(** The keyword of the new image is completed, the old one's is cleared. *)
Definition switched (x : Z) : Z :=
  if x =? old_base + 8 then 0
  else if (base <=? x) && (x <? base + Z.of_nat (length data)) then nth (Z.to_nat (x - base)) data 0
  else g x.

(** One byte programmed while the flash is unlocked. *)
Lemma write_byte (f : F) a v :
  fl_ok f -> (forall x, fl_prot f x = false) -> 0 <= a < 2 ^ 24 - 1 -> is_byte v ->
  fl_ok (fl_write a [v] f) /\ (forall x, fl_prot (fl_write a [v] f) x = false) /\
  forall x, fl_byte (fl_write a [v] f) x = if x =? a then Z.land (fl_byte f x) v else fl_byte f x.
Proof.
  intros Hok Hp Ha Hv.
  destruct (fl_write_law f a [v] Hok) as (Hok' & Hpm & Hb);
    [unfold flash_range; cbn [length]; lia|by apply Forall_singleton|].
  split_and!; [done|intros x; by rewrite (proj1 (Hpm x)), Hp|].
  intros x. rewrite Hb. unfold programmed. rewrite Hp. cbn [length negb]. rewrite andb_true_r.
  destruct (Z.leb_spec a x), (Z.ltb_spec x (a + Z.of_nat 1)), (Z.eqb_spec x a); cbn [andb]; try done; try lia.
  subst x. by rewrite Z.sub_diag.
Qed.

Lemma mcuReboot_spec r c s :
  stopping r c s ->
  let c' := ota_mcuReboot (with_ota_state OTA_STA_IDLE c) in
  cl_resets c' = S r /\ fl_ok (cl_fl c') /\ (forall x, fl_byte (cl_fl c') x = switched x).
Proof.
  intros [[[Hok Hf] Hr] Hb _ _ _ _ _]. unfold ota_mcuReboot.
  set (c1 := on_fl fl_unlock _). pose proof (fi_image _ _ _ Hfile) as [Himb Himl Himk _ Himm].
  unfold OTA_MAX_IMAGE_SIZE in Himm.
  assert (Ebases : (if mcuBootAddr c1 then (FLASH_OTA_NEWIMAGE_ADDR, 0) else (0, FLASH_OTA_NEWIMAGE_ADDR)) = (old_base, base)).
  { unfold old_base. unfold new_base in Hb. change (mcuBootAddr c1) with (mcuBootAddr c). by destruct (mcuBootAddr c); subst base. }
  rewrite Ebases. destruct (fl_unlock_law (cl_fl c) Hok) as (Hok1 & Hb1 & Hp1).
  assert (Hran : 0 <= base + 8 < 2 ^ 24 - 1 /\ 0 <= old_base + 8 < 2 ^ 24 - 1 /\ 
            (old_base + 8 < base \/ base + Z.of_nat (length data) <= old_base)).
  { unfold old_base, FLASH_OTA_NEWIMAGE_ADDR in *. destruct (Z.eqb_spec base 0); lia. }
  unfold OTA_TLNK_KEYWORD_ADDROFFSET.
  destruct (write_byte (fl_unlock (cl_fl c)) (base + 8) 0x4b Hok1) as (Hok2 & Hp2 & Hb2);
    [intros x; apply Hp1|lia|unfold is_byte; lia|].
  destruct (write_byte (fl_write (base + 8) [0x4b] (fl_unlock (cl_fl c))) (old_base + 8) 0 Hok2 Hp2) as (Hok3 & Hp3 & Hb3);
    [lia|unfold is_byte; lia|].
  destruct (fl_lock_law _ Hok3) as (Hok4 & Hb4 & _).
  split_and!; [cbn; by rewrite <-Hr|exact Hok4|]. intros x.
  change (fl_byte (fl_lock (fl_write (old_base + 8) [0] (fl_write (base + 8) [0x4b] (fl_unlock (cl_fl c))))) x = switched x).
  rewrite Hb4, Hb3, Hb2, Hb1, Hf. unfold switched. destruct (Z.eqb_spec x (old_base + 8)); [apply Z.land_0_r|].
  unfold image_flash. destruct (Z.eqb_spec x (base + 8)) as [->|Hx].
  - destruct (Z.leb_spec base (base + 8)), (Z.ltb_spec (base + 8) (base + Z.of_nat (length data))); try lia. cbn [andb].
    replace (Z.to_nat (base + 8 - base)) with 8%nat by lia. by rewrite nth_stored_8, Himk by lia.
  - destruct (Z.leb_spec base x), (Z.ltb_spec x (base + Z.of_nat (length data))); cbn [andb]; try done.
    apply nth_stored. lia.
Qed.

Lemma stop_exchange r c s :
  stopping r c s -> (exchange (c, s)).1 = ota_mcuReboot (with_ota_state OTA_STA_IDLE c).
Proof.
  intros [_ _ Hst Hbin Hsz (seq & (rq & Hlast & Hmsdu) & Hsr & Hg) [_ _ Hsi _ Hsq _]].
  pose proof (fi_bounds header data info Hfile) as (_ & _ & Hmax). unfold OTA_MAX_IMAGE_SIZE in Hmax.
  pose proof (info_ok header data info Hfile) as Hio.
  destruct (get_pre_cmd rx seq TL_CMD_OTA_STOP_REQ info Hrx Hio Hsr) as [Eh Ep]; [unfold TL_CMD_OTA_STOP_REQ; lia|].
  unfold exchange. rewrite Hlast, Hmsdu.
  unfold OtaServer.tl_appDataIndicate, OtaServer.tl_appOtaCmdHandler. rewrite Eh. cbn [appId cmdId].
  change (TL_SPECIFIC_ID_OTA =? TL_SPECIFIC_ID_OTA) with true.
  change (TL_CMD_OTA_STOP_REQ =? TL_CMD_OTA_START_REQ) with false.
  change (TL_CMD_OTA_STOP_REQ =? TL_CMD_OTA_STOP_REQ) with true. cbv iota. cbn [snd].
  unfold ota_stopReqHandler. rewrite Ep, Hsi, !Z.eqb_refl. cbn [andb]. rewrite answered. cbn [foldl rq_msdu fst].
  destruct (get_pre_cmd rx (OtaServer.g_tlAppDataSeqNo s) TL_CMD_OTA_STOP_RSP info Hrx Hio Hsq) as [Eh2 Ep2];
    [unfold TL_CMD_OTA_STOP_RSP; lia|].
  unfold OtaClient.tl_appDataIndicate, OtaClient.tl_appOtaCmdHandler. rewrite Eh2. cbn [appId cmdId].
  change (TL_SPECIFIC_ID_OTA =? TL_SPECIFIC_ID_OTA) with true.
  change (TL_CMD_OTA_STOP_RSP =? TL_CMD_OTA_START_RSP) with false.
  change (TL_CMD_OTA_STOP_RSP =? TL_CMD_OTA_STOP_RSP) with true. cbv iota. cbn [snd].
  unfold ota_stopRspHandler. rewrite Hst, bool_decide_true by done. cbn [negb].
  rewrite Ep2, Hbin, Hsz. cbn [fileVer imageType manufaurerCode imageSize].
  rewrite u32_small, (fi_total _ _ _ Hfile) by lia.
  replace (Z.of_nat (length data) + Z.of_nat hl) with (Z.of_nat (hl + length data)) by lia.
  by rewrite !Z.eqb_refl.
Qed.
End Session.
