(* ===== verification/OtaProps.v ===== *)
(** * Over-the-air update: what a session achieves

    Sessions from the first request to the restart, and the behaviours of the
    two roles that break them. *)
From S2P Require Import Prelude SysEv EvTimer TimerIf SpiFlash FlashIf Crc Ota OtaServer OtaClient OtaSpec OtaTransfer OtaSession OtaLink.

Section Whole.
Context {F T G : Type} `{FlashLaws F} `{!FlashCheck F} `{!FlashCheckLaws F}.
Context `{TimerSvc T} `{FlashLaws G} `{MacEnv} `{OtaLinks}.
Implicit Types (c : client F T) (s : server G).

(** A device with nothing in progress, as after a reset. *)
Record idle c : Prop := {
  id_ok : fl_ok (cl_fl c);
  id_state : ota_state c = OTA_STA_IDLE;
  id_cnt : ota_headercnt c = 0;
  id_size : ota_headersize c = 0;
  id_crc : crcValue c = 0xffffffff;
  id_off : flashOffsetAddr c = 0;
  id_blk : blockDataCount c = 0;
  id_seq : 0 <= g_tlAppDataSeqNo c < 256
}.

(** A newer image for this device. *)
Definition newer (info : ota_preamble_t) : Prop :=
  manufaurerCode info = MANUFACTURER_CODE /\ imageType info = IMAGE_TYPE /\ FILE_VERSION < fileVer info.

(** The flash after the erasure of the sectors for [size] bytes. *)
Definition after_erase c (size x : Z) : Z :=
  if in_sectors (new_base c) 0 (size / 4096 + 1) x && negb (fl_prot (cl_fl c) x) then 255
  else fl_byte (cl_fl c) x.

Lemma new_base_cases c : new_base c = 0 \/ new_base c = FLASH_OTA_NEWIMAGE_ADDR.
Proof. unfold new_base. destruct (mcuBootAddr c); auto. Qed.

(** The erasing part of the start handler. *)
Lemma erase_new_half c size :
  fl_ok (cl_fl c) -> 0 < size < OTA_MAX_IMAGE_SIZE ->
  exists f', erase_sectors (Z.to_nat (u16 (size / OTA_SECTOR_SIZE + 1))) 0 (new_base c) c = with_cl_fl f' c /\
    fl_ok f' /\ (forall x, fl_prot f' x = fl_prot (cl_fl c) x) /\ forall x, fl_byte f' x = after_erase c size x.
Proof.
  intros Hok Hs. unfold OTA_MAX_IMAGE_SIZE, OTA_SECTOR_SIZE in *.
  assert (Hq : 0 <= size / 4096 < 64) by zdm. rewrite u16_small by lia.
  destruct (erase_sectors_spec (Z.to_nat (size / 4096 + 1)) 0 (new_base c) c Hok) as (f' & E & H1' & H2' & H3').
  1-4: destruct (new_base_cases c) as [E0|E0]; rewrite ?E0; unfold FLASH_OTA_NEWIMAGE_ADDR; (done || lia).
  exists f'. rewrite Z2Nat.id in H3' by lia. done.
Qed.

Context (rx : list Z -> Z -> Z) (Hrx : delivers rx).
Context (header data : list Z) (info : ota_preamble_t) (Hfile : file_ok header data info).

(** The new half is blank once the sectors are erased. *)
Definition erasable c : Prop :=
  forall x, in_image data (new_base c) x -> fl_prot (cl_fl c) x = false \/ fl_byte (cl_fl c) x = 255.

Lemma erasable_blank c : erasable c -> forall x, in_image data (new_base c) x -> after_erase c (imageSize info) x = 255.
Proof.
  intros He x Hx. unfold after_erase. destruct (He x Hx) as [Hp|Hb].
  - rewrite Hp, (fi_total _ _ _ Hfile). unfold in_sectors, in_image in *.
    assert (Z.of_nat (length data) <= (Z.of_nat (length header + length data) / 4096 + 1) * 4096) by zdm.
    destruct (Z.leb_spec (new_base c + 0 * 4096) x),
      (Z.ltb_spec x (new_base c + (0 + (Z.of_nat (length header + length data) / 4096 + 1)) * 4096));
      cbn [andb negb]; done || lia.
  - rewrite Hb. by destruct (_ && _).
Qed.

Lemma start_exchange c s :
  idle c -> newer info -> erasable c -> serving header data info s ->
  let '(c', s') := exchange rx (ota_startReq c, s) in
  waiting header data info (new_base c) (after_erase c (imageSize info)) 0 (cl_resets c) c' s'.
Proof.
  intros [Hok Hst Hcnt Hsz Hcrc Hoff Hblk Hseq] (Hm & Ht & Hv) He Hsv.
  pose proof (fi_bounds header data info Hfile) as (_ & Hd & Hmax). unfold OTA_MAX_IMAGE_SIZE in Hmax.
  pose proof (info_ok header data info Hfile) as Hio. pose proof Hsv as [_ _ Hsi _ Hsq _].
  set (p0 := mk_pre FILE_VERSION IMAGE_TYPE MANUFACTURER_CODE 0).
  assert (Hp0 : pre_ok p0) by (vm_compute; intuition discriminate).
  destruct (get_pre_cmd rx (g_tlAppDataSeqNo c) TL_CMD_OTA_START_REQ p0 Hrx Hp0 Hseq) as [Eh Ep];
    [unfold TL_CMD_OTA_START_REQ; lia|].
  unfold exchange, ota_startReq, request. cbn [cl_sent with_cl_sent]. rewrite last_snoc. cbn [rq_msdu]. fold p0.
  unfold OtaServer.tl_appDataIndicate, OtaServer.tl_appOtaCmdHandler. rewrite Eh. cbn [appId cmdId].
  change (TL_SPECIFIC_ID_OTA =? TL_SPECIFIC_ID_OTA) with true.
  change (TL_CMD_OTA_START_REQ =? TL_CMD_OTA_START_REQ) with true. cbv iota. cbn [snd].
  unfold ota_startReqHandler. rewrite Ep, Hsi, Hm. cbn [p0 manufaurerCode].
  change (MANUFACTURER_CODE =? MANUFACTURER_CODE) with true. cbn [negb].
  change (sv_sent (with_seq_number 0x100 ?s1)) with (sv_sent s1). rewrite answered. cbn [foldl rq_msdu].
  destruct (get_pre_cmd rx (OtaServer.g_tlAppDataSeqNo s) TL_CMD_OTA_START_RSP info Hrx Hio Hsq) as [Eh2 Ep2];
    [unfold TL_CMD_OTA_START_RSP; lia|].
  unfold OtaClient.tl_appDataIndicate, OtaClient.tl_appOtaCmdHandler. rewrite Eh2. cbn [appId cmdId].
  change (TL_SPECIFIC_ID_OTA =? TL_SPECIFIC_ID_OTA) with true.
  change (TL_CMD_OTA_START_RSP =? TL_CMD_OTA_START_RSP) with true. cbv iota. cbn [snd].
  set (c1 := with_cl_sent _ _). unfold ota_startRspHandler. rewrite Ep2, Hm, Ht, !Z.eqb_refl.
  rewrite (proj2 (Z.ltb_lt _ _) Hv), bool_decide_true by done. cbn [andb].
  pose proof (fi_total _ _ _ Hfile) as Etot. unfold OTA_MAX_IMAGE_SIZE.
  rewrite (proj2 (Z.ltb_lt 0 (imageSize info))), (proj2 (Z.ltb_lt (imageSize info) 0x30000)) by lia. cbn [andb].
  set (c2 := with_dev_otaInfo info c1).
  destruct (erase_new_half c2 (imageSize info)) as (f' & E & Hok' & Hp' & Hb');
    [done|unfold OTA_MAX_IMAGE_SIZE; lia|]. rewrite E.
  set (c3 := with_ota_state OTA_STA_STARTING (with_cl_fl f' c2)).
  set (c4 := if tmr_exist _ _ then _ else _).
  assert (Ht4 : timers_only c3 c4) by (unfold c4; destruct (tmr_exist _ _); [apply timers_on_tm|apply timers_refl]).
  clearbody c4. set (c5 := mac_set_pollRate OTA_POLL_RATE (ota_dataReq c4)).
  assert (Ht5 : timers_only (ota_dataReq c4) c5) by apply timers_poll.
  clearbody c5. set (c6 := ota_dataReqRetry _ _).
  assert (Ht6 : timers_only (with_ota_dataCb (Some cb_dataReq) c5) c6) by apply timers_retry. clearbody c6.
  assert (Eseq : g_tlAppDataSeqNo c4 = u8 (g_tlAppDataSeqNo c + 1)) by (by destruct Ht4).
  pose proof (request_requested TL_CMD_OTA_DATA_REQ (data_pre info 0) c4) as Hreq. rewrite Eseq in Hreq.
  specialize (Hreq (u8_range _)).
  destruct Ht4 as [t4 p4 q4 r4], Ht5 as [t5 p5 q5 r5], Ht6 as [t6 p6 q6 r6]. split; try done.
  - split; try done.
    + split; [exact Hok'|]. intros x. change (fl_byte f' x = image_flash (new_base c) data (after_erase c (imageSize info)) 0 x).
      unfold image_flash. rewrite Z.add_0_r, Hb'.
      by destruct (Z.leb_spec (new_base c) x), (Z.ltb_spec x (new_base c)); cbn [andb]; try lia.
    + split_and!; [intros _; exact Hsz|lia|lia].
  - exists (u8 (g_tlAppDataSeqNo c + 1)). split; [|cbn; pose proof (u8_range (g_tlAppDataSeqNo c + 1)); lia].
    unfold ota_dataReq in Hreq. destruct Hreq as ((rq & Hl & Hm') & Hr). split; [|exact Hr].
    exists rq. split; [|done]. etransitivity; [|exact Hl]. cbn. by rewrite Hblk.
  - by apply serving_seq, answer_serving.
Qed.

(** The number of blocks of a file. *)
Definition nblocks (n : nat) : nat := ((n + 47) / 48)%nat.

Abbreviation file := (header ++ data).

Lemma iter_waiting base g k r c s :
  (base = 0 \/ base = FLASH_OTA_NEWIMAGE_ADDR) -> (forall x, in_image data base x -> g x = 255) ->
  waiting header data info base g 0 r c s -> (48 * k < length file)%nat ->
  let '(c', s') := Nat.iter k (exchange rx) (c, s) in waiting header data info base g k r c' s'.
Proof.
  intros Hb Hg Hw Hk. induction k as [|k IH]; [done|]. rewrite Nat.iter_succ.
  destruct (Nat.iter k (exchange rx) (c, s)) as [ck sk]. specialize (IH ltac:(lia)).
  pose proof (waiting_step rx header data info base g Hfile Hrx Hb Hg k r ck sk IH ltac:(lia)) as Hs.
  by destruct (exchange rx (ck, sk)).
Qed.

Lemma nblocks_last n : (n mod 48 <> 0)%nat -> exists k, nblocks n = S k /\ (48 * k < n < 48 * k + 48)%nat.
Proof.
  intros Hm. exists (n / 48)%nat. unfold nblocks. pose proof (Nat.div_mod n 48 ltac:(lia)) as E.
  pose proof (Nat.mod_upper_bound n 48 ltac:(lia)) as Hu. set (q := (n / 48)%nat) in *. set (m := (n mod 48)%nat) in *.
  split; [|lia]. symmetry. apply (Nat.div_unique _ 48 _ (m - 1)); lia.
Qed.

(** A session up to the last block. *)
Lemma session_blocks c s :
  idle c -> newer info -> erasable c -> serving header data info s -> (length file mod 48 <> 0)%nat ->
  let '(c', s') := Nat.iter (S (nblocks (length file))) (exchange rx) (ota_startReq c, s) in
  let g := after_erase c (imageSize info) in
  image_stored data (new_base c) g (cl_resets c) c' /\
  (checksum_ok data -> stopping header data info (new_base c) g (cl_resets c) c' s') /\
  (~ checksum_ok data -> ota_state c' = OTA_STA_IDLE).
Proof.
  intros Hid Hnew He Hsv Hm. destruct (nblocks_last _ Hm) as (k & Ek & Hk). rewrite Ek.
  pose proof (start_exchange c s Hid Hnew He Hsv) as Hw.
  rewrite Nat.iter_succ_r. destruct (exchange rx (ota_startReq c, s)) as [c0 s0].
  pose proof (iter_waiting _ _ k _ c0 s0 (new_base_cases c) (erasable_blank c He) Hw ltac:(lia)) as Hk'.
  rewrite Nat.iter_succ. destruct (Nat.iter k (exchange rx) (c0, s0)) as [ck sk].
  exact (last_block rx header data info _ _ Hfile Hrx (new_base_cases c) (erasable_blank c He) k _ ck sk Hk' Hk).
Qed.

(** What the restart leaves. *)
Lemma installed c c' :
  fl_ok (cl_fl c') ->
  (forall x, fl_byte (cl_fl c') x = switched data (new_base c) (after_erase c (imageSize info)) x) ->
  bytes_at (fl_byte (cl_fl c')) (new_base c) (length data) = data /\
  OtaClient.mcuBootAddrGet (cl_fl c') = negb (mcuBootAddr c) /\
  forall x, in_sectors (new_base c) 0 (imageSize info / 4096 + 1) x = false ->
    x <> old_base (new_base c) + 8 -> fl_byte (cl_fl c') x = fl_byte (cl_fl c) x.
Proof.
  intros Hok Hf. pose proof (fi_image _ _ _ Hfile) as [Himb Himl Himk Himh Himm].
  unfold OTA_MAX_IMAGE_SIZE in Himm. pose proof (fi_total _ _ _ Hfile) as Etot.
  assert (Hb : (mcuBootAddr c = true /\ new_base c = 0 /\ old_base (new_base c) = 0x40000) \/
               (mcuBootAddr c = false /\ new_base c = 0x40000 /\ old_base (new_base c) = 0)).
  { unfold old_base, new_base, FLASH_OTA_NEWIMAGE_ADDR. by destruct (mcuBootAddr c); [left|right]. }
  split_and!.
  - transitivity (take (length data) (drop 0 data)); [|by rewrite drop_0, take_ge].
    apply bytes_at_part; [lia|]. intros k Hk. rewrite Hf. unfold switched.
    destruct (Z.eqb_spec (new_base c + Z.of_nat k) (old_base (new_base c) + 8));
      [destruct Hb as [(_ & Eb & Eo)|(_ & Eb & Eo)]; lia|].
    destruct (Z.leb_spec (new_base c) (new_base c + Z.of_nat k)),
      (Z.ltb_spec (new_base c + Z.of_nat k) (new_base c + Z.of_nat (length data))); cbn [andb]; try lia.
    f_equal. lia.
  - unfold OtaClient.mcuBootAddrGet. rewrite fl_read_law; [|done|unfold flash_range, OTA_TLNK_KEYWORD_ADDROFFSET; lia].
    cbn [bytes_at map seq nth]. change (OTA_TLNK_KEYWORD_ADDROFFSET + Z.of_nat 0) with 8.
    rewrite Hf. unfold switched. destruct Hb as [(-> & -> & ->)|(-> & -> & ->)]; [|done].
    change (8 =? 0x40000 + 8) with false. cbv iota.
    rewrite (proj2 (Z.ltb_lt 8 (0 + Z.of_nat (length data)))) by lia.
    change (Z.to_nat (8 - 0)) with 8%nat. by rewrite Himk.
  - intros x Hs Hx. rewrite Hf. unfold switched. rewrite (proj2 (Z.eqb_neq _ _) Hx).
    unfold after_erase. rewrite Hs. cbn [andb].
    destruct (Z.leb_spec (new_base c) x), (Z.ltb_spec x (new_base c + Z.of_nat (length data))); cbn [andb]; try done.
    exfalso. unfold in_sectors in Hs. rewrite Etot in Hs.
    assert (Z.of_nat (length data) <= (Z.of_nat (length header + length data) / 4096 + 1) * 4096) by zdm.
    apply andb_false_iff in Hs as [Hs|Hs]; [apply Z.leb_gt in Hs|apply Z.ltb_ge in Hs]; lia.
Qed.

(** ** Properties *)

(** C1. A complete update.  A coordinator that holds the file of a newer image,
    whose length is not a multiple of the block size, and an idle end device
    whose free half can be erased: after the exchange of the start request, of
    the blocks and of the stop request, if the checksum of the image is right,
    the device has restarted exactly once, the free half holds the image byte
    for byte, the next start takes it, and outside the erased sectors nothing
    but the keyword of the old image has changed. *)
Theorem ota_update_installs_image c s :
  idle c -> newer info -> erasable c -> serving header data info s -> (length file mod 48 <> 0)%nat ->
  checksum_ok data ->
  let '(c', _) := Nat.iter (2 + nblocks (length file)) (exchange rx) (ota_startReq c, s) in
  cl_resets c' = S (cl_resets c) /\
  bytes_at (fl_byte (cl_fl c')) (new_base c) (length data) = data /\
  OtaClient.mcuBootAddrGet (cl_fl c') = negb (mcuBootAddr c) /\
  forall x, in_sectors (new_base c) 0 (imageSize info / 4096 + 1) x = false ->
    x <> old_base (new_base c) + 8 -> fl_byte (cl_fl c') x = fl_byte (cl_fl c) x.
Proof.
  intros Hid Hnew He Hsv Hm Hcrc. pose proof (session_blocks c s Hid Hnew He Hsv Hm) as Hb.
  cbn [Nat.add]. rewrite Nat.iter_succ. destruct (Nat.iter (S (nblocks _)) _ _) as [ck sk].
  destruct Hb as (_ & Hst & _). specialize (Hst Hcrc).
  pose proof (stop_exchange rx header data info _ _ Hfile Hrx _ ck sk Hst) as E.
  pose proof (mcuReboot_spec header data info _ _ Hfile (new_base_cases c) (erasable_blank c He) _ ck sk Hst) as (Hr & Hok & Hf).
  destruct (exchange rx (ck, sk)) as [c' s']. cbn [fst] in E. subst c'.
  split; [exact Hr|]. exact (installed c _ Hok Hf).
Qed.

(** C29. A damaged image is never started.  In the same session with an image
    whose checksum is wrong, the end device is idle again after the last block,
    it has not restarted, and the keyword byte of the half that was written is
    still blank, so that the start-up code does not take it. *)
Theorem ota_bad_checksum_rejected c s :
  idle c -> newer info -> erasable c -> serving header data info s -> (length file mod 48 <> 0)%nat ->
  ~ checksum_ok data ->
  let '(c', _) := Nat.iter (S (nblocks (length file))) (exchange rx) (ota_startReq c, s) in
  ota_state c' = OTA_STA_IDLE /\ cl_resets c' = cl_resets c /\ fl_byte (cl_fl c') (new_base c + 8) = 0xff.
Proof.
  intros Hid Hnew He Hsv Hm Hcrc. pose proof (session_blocks c s Hid Hnew He Hsv Hm) as Hb.
  destruct (Nat.iter (S (nblocks _)) _ _) as [ck sk]. destruct Hb as ([[_ Hf] Hr] & _ & Hi).
  split_and!; [by apply Hi|done|]. rewrite Hf. unfold image_flash.
  pose proof (fi_image _ _ _ Hfile) as [_ Himl _ _ _].
  destruct (Z.leb_spec (new_base c) (new_base c + 8)), (Z.ltb_spec (new_base c + 8) (new_base c + Z.of_nat (length data))); try lia.
  cbn [andb]. replace (Z.to_nat (new_base c + 8 - new_base c)) with 8%nat by lia. apply nth_stored_8. lia.
Qed.

(** A file whose length is a multiple of the block size cannot be transferred:
    the coordinator computes the size of the last block as the remainder, 0, and
    sends it empty; the end device gives up, whatever the image is. *)
Theorem ota_multiple_of_block_fails c s k :
  idle c -> newer info -> erasable c -> serving header data info s -> length file = (48 * S k)%nat ->
  let '(c', _) := Nat.iter (2 + k) (exchange rx) (ota_startReq c, s) in
  ota_state c' = OTA_STA_IDLE /\ cl_resets c' = cl_resets c.
Proof.
  intros Hid Hnew He Hsv Hm. pose proof (start_exchange c s Hid Hnew He Hsv) as Hw.
  change (2 + k)%nat with (S (S k)). rewrite Nat.iter_succ_r. destruct (exchange rx (ota_startReq c, s)) as [c0 s0].
  pose proof (iter_waiting _ _ k _ c0 s0 (new_base_cases c) (erasable_blank c He) Hw ltac:(lia)) as Hk.
  rewrite Nat.iter_succ. destruct (Nat.iter k (exchange rx) (c0, s0)) as [ck sk].
  destruct (exchange_block rx header data info _ _ Hfile Hrx k _ ck sk Hk ltac:(lia)) as (pd & -> & Epd & Esz & _).
  destruct Hk as [Hpr Hd Hb _ Hr _]. unfold sent_len in Esz. rewrite decide_True in Esz by lia.
  unfold ota_dataRspHandler. rewrite bool_decide_false by (by eapply progress_state).
  rewrite Epd, Hd, Hb, Esz. cbn [data_pre fileVer imageType manufaurerCode imageSize]. rewrite !Z.eqb_refl. cbn [andb].
  change (Z.of_nat 0 =? 0) with true. cbv iota. set (c1 := with_ota_state _ _).
  destruct (abort_keeps c1) as (Gs & _ & Gr). split; [done|]. rewrite Gr, <-Hr.
  by destruct (timers_cancel ck).
Qed.
End Whole.

Section Device.
Context {F T : Type} `{FlashLaws F} `{!FlashCheck F} `{TimerSvc T} `{MacEnv} `{OtaLinks}.
Implicit Type c : client F T.

(** What the start handler does when it accepts the answer. *)
Lemma start_accepts c pd :
  fl_ok (cl_fl c) -> ota_state c = OTA_STA_IDLE -> newer (get_pre pd) ->
  0 < imageSize (get_pre pd) < OTA_MAX_IMAGE_SIZE ->
  let c' := ota_startRspHandler pd c in
  ota_state c' = OTA_STA_STARTING /\ ota_headercnt c' = ota_headercnt c /\ ota_headersize c' = ota_headersize c /\
  fl_ok (cl_fl c') /\ forall x, fl_byte (cl_fl c') x = after_erase c (imageSize (get_pre pd)) x.
Proof.
  intros Hok Hst (Hm & Ht & Hv) Hs. unfold ota_startRspHandler.
  rewrite Hm, Ht, !Z.eqb_refl, (proj2 (Z.ltb_lt _ _) Hv), bool_decide_true by done. cbn [andb].
  rewrite (proj2 (Z.ltb_lt 0 _) (proj1 Hs)), (proj2 (Z.ltb_lt _ OTA_MAX_IMAGE_SIZE) (proj2 Hs)). cbn [andb].
  set (c2 := with_dev_otaInfo (get_pre pd) c).
  destruct (erase_new_half c2 (imageSize (get_pre pd)) Hok Hs) as (f' & E & Hok' & _ & Hb'). rewrite E.
  set (c3 := with_ota_state OTA_STA_STARTING (with_cl_fl f' c2)). set (c4 := if tmr_exist _ _ then _ else _).
  assert (Ht4 : timers_only c3 c4) by (unfold c4; destruct (tmr_exist _ _); [apply timers_on_tm|apply timers_refl]).
  clearbody c4. destruct (timers_poll OTA_POLL_RATE (ota_dataReq c4)) as [t5 p5 q5 r5].
  set (c5 := with_ota_dataCb _ _). destruct (timers_retry OTA_MAX_IMAGE_BLOCK_RSP_WAIT_TIME c5) as [t6 p6 q6 r6].
  by destruct Ht4 as [t4 p4 q4 r4].
Qed.

(** While the flash is protected, the start of a transfer erases nothing:
    [ota_startRspHandler] calls [flash_erase] without [flash_unlock], so that
    the old content of the half stays and the device asks for the first block
    all the same. *)
Theorem ota_start_erases_nothing_locked c pd :
  fl_ok (cl_fl c) -> (forall x, fl_prot (cl_fl c) x = true) -> ota_state c = OTA_STA_IDLE ->
  newer (get_pre pd) ->
  0 < imageSize (get_pre pd) < OTA_MAX_IMAGE_SIZE ->
  ota_state (ota_startRspHandler pd c) = OTA_STA_STARTING /\
  forall x, fl_byte (cl_fl (ota_startRspHandler pd c)) x = fl_byte (cl_fl c) x.
Proof.
  intros Hok Hp Hst Hnew Hs. destruct (start_accepts c pd Hok Hst Hnew Hs) as (E1 & _ & _ & _ & Hb).
  split; [done|]. intros x. rewrite Hb. unfold after_erase. by rewrite Hp, andb_false_r.
Qed.

(** The retry timer fires [n] times without an answer in between. *)
Fixpoint retries (n : nat) c : list Z * client F T :=
  match n with
  | O => ([], c)
  | S n' =>
      let '(r, c1) := ota_periodicDataServerCb c in
      let '(rs, c2) := retries n' c1 in (r :: rs, c2)
  end.

Lemma call_dataCb_keeps c :
  ota_reqRetryCnt (call_dataCb c) = ota_reqRetryCnt c /\ ota_state (call_dataCb c) = ota_state c /\
  ota_dataCb (call_dataCb c) = ota_dataCb c /\ length (cl_sent (call_dataCb c)) =
    (length (cl_sent c) + match ota_dataCb c with Some _ => 1 | None => 0 end)%nat.
Proof.
  unfold call_dataCb. destruct (ota_dataCb c) as [[]|] eqn:E; cbn; rewrite ?length_app; cbn; auto with lia.
Qed.

Lemma retries_spec n c :
  ota_reqRetryCnt c + Z.of_nat n < 10 -> 0 <= ota_reqRetryCnt c ->
  let '(rs, c') := retries n c in
  rs = repeat 0 n /\ ota_state c' = ota_state c /\ ota_reqRetryCnt c' = ota_reqRetryCnt c + Z.of_nat n /\
  ota_dataCb c' = ota_dataCb c /\
  length (cl_sent c') = (length (cl_sent c) + match ota_dataCb c with Some _ => n | None => 0 end)%nat.
Proof.
  revert c. induction n as [|n IH]; intros c Hn H0'; cbn [retries].
  { split_and!; try done; [lia|]. by destruct (ota_dataCb c); rewrite Nat.add_0_r. }
  unfold ota_periodicDataServerCb. set (c1 := with_ota_reqRetryCnt _ c).
  assert (E1 : ota_reqRetryCnt c1 = ota_reqRetryCnt c + 1) by (cbn; apply u8_small; lia).
  unfold OTA_MAX_IMAGE_BLOCK_RETRIES. rewrite E1, (proj2 (Z.leb_gt _ _)) by lia.
  destruct (call_dataCb_keeps c1) as (Ec & Es & Ed & El). specialize (IH (call_dataCb c1)).
  rewrite Ec, E1 in IH. specialize (IH ltac:(lia) ltac:(lia)).
  destruct (retries n (call_dataCb c1)) as [rs c']. destruct IH as (-> & Hs & Hc & Hd & Hl).
  split_and!; [done|by rewrite Hs, Es|lia|by rewrite Hd, Ed|].
  rewrite Hl, Ed, El. change (ota_dataCb c1) with (ota_dataCb c). change (cl_sent c1) with (cl_sent c).
  destruct (ota_dataCb c); lia.
Qed.

(** C40. A transfer never hangs: when the coordinator stops answering, the device
    repeats its last request nine times and the tenth expiry of the retry timer
    ends the transfer, stops the timer (the callback's negative value) and goes
    back to the query timer. *)
Theorem ota_retries_bounded c cb' :
  ota_reqRetryCnt c = 0 -> ota_dataCb c = Some cb' ->
  let '(rs, c') := retries 10 c in
  rs = repeat 0 9 ++ [-1] /\ ota_state c' = OTA_STA_IDLE /\ otaDataReqTimer c' = 0 /\
  length (cl_sent c') = (length (cl_sent c) + 9)%nat.
Proof.
  intros Hr Hcb. pose proof (retries_spec 9 c) as Hs. rewrite Hr in Hs. specialize (Hs ltac:(lia) ltac:(lia)).
  assert (Hsnoc : forall n c0, retries (S n) c0 =
    let '(rs, c1) := retries n c0 in let '(r, c2) := ota_periodicDataServerCb c1 in (rs ++ [r], c2)).
  { clear. induction n as [|n IH]; intros c0; [cbn [retries]; by destruct (ota_periodicDataServerCb c0)|].
    cbn [retries] in IH |- *. destruct (ota_periodicDataServerCb c0) as [r c1]. rewrite (IH c1).
    destruct (retries n c1) as [rs c2]. by destruct (ota_periodicDataServerCb c2). }
  rewrite (Hsnoc 9%nat). destruct (retries 9 c) as [rs c9]. destruct Hs as (-> & _ & Hc & _ & Hl).
  unfold ota_periodicDataServerCb. rewrite Hc. cbn [ota_reqRetryCnt with_ota_reqRetryCnt].
  change (OTA_MAX_IMAGE_BLOCK_RETRIES <=? u8 (0 + Z.of_nat 9 + 1)) with true. cbv iota.
  set (c10 := with_ota_reqRetryCnt 0 _).
  change (mac_set_pollRate NORMAL_POLL_RATE (ota_queryStart QUERY_RATE c10)) with (abort_transfer c10).
  destruct (abort_keeps c10) as (Gs & _ & _). split_and!; [done|exact Gs|done|].
  rewrite Hcb in Hl. rewrite <-Hl. change (cl_sent c9) with (cl_sent c10). 
  unfold abort_transfer, ota_queryStart. cbn [cl_sent with_otaDataReqTimer]. f_equal.
  set (c11 := if tmr_exist _ _ then _ else _).
  assert (cl_sent c11 = cl_sent c10) as <- by (unfold c11; by destruct (tmr_exist _ _)).
  by destruct (timers_poll NORMAL_POLL_RATE c11).
Qed.

(** ** A transfer after an aborted one *)

(** The header counter is past the header: the header loop finds nothing. *)
Record past_header (n : nat) (f : F) c : Prop := {
  ph_state : ota_state c <> OTA_STA_DATAING;
  ph_cnt : 58 < ota_headercnt c /\ ota_headersize c < ota_headercnt c /\
           ota_headercnt c + 256 * Z.of_nat n < 2 ^ 32;
  ph_flash : fl_ok (cl_fl c) /\ forall x, fl_byte (cl_fl c) x = fl_byte f x
}.

Lemma past_header_weaken n m f c : (m <= n)%nat -> past_header n f c -> past_header m f c.
Proof. intros Hm [Hs Hc Hf]. split; [done|lia|done]. Qed.

(** What past_header depends on. *)
Lemma past_header_eq n f c c' :
  past_header n f c -> ota_state c' <> OTA_STA_DATAING -> ota_headercnt c' = ota_headercnt c ->
  ota_headersize c' = ota_headersize c -> fl_ok (cl_fl c') ->
  (forall x, fl_byte (cl_fl c') x = fl_byte (cl_fl c) x) -> past_header n f c'.
Proof.
  intros [Hs Hc [Hok Hf]] Hs' E1 E2 Hok' Hf'. split; [done|by rewrite E1, E2|]. split; [done|].
  intros x. by rewrite Hf', Hf.
Qed.

Lemma abort_header c :
  ota_headercnt (abort_transfer c) = ota_headercnt c /\ ota_headersize (abort_transfer c) = ota_headersize c.
Proof.
  unfold abort_transfer. set (c1 := ota_queryStart QUERY_RATE c).
  assert (H' : ota_headercnt c1 = ota_headercnt c /\ ota_headersize c1 = ota_headersize c).
  { unfold c1, ota_queryStart. by destruct (tmr_exist _ _). }
  clearbody c1. by destruct (timers_poll NORMAL_POLL_RATE c1).
Qed.

Lemma past_header_give_up n f c : past_header n f c -> past_header n f (abort_transfer c).
Proof.
  intros Hp. destruct (abort_keeps c) as (Gs & Gf & _), (abort_header c) as [Gc Gh].
  apply (past_header_eq n f c); [done|by rewrite Gs|done|done|by rewrite Gf; apply Hp|by rewrite Gf].
Qed.

Lemma past_header_timers n f c c' : timers_only c c' -> past_header n f c -> past_header n f c'.
Proof. by intros [] []. Qed.

Lemma past_header_state n f c st :
  st <> OTA_STA_DATAING -> past_header n f c -> past_header n f (with_ota_state st c).
Proof. intros Hst Hp. apply (past_header_eq n f c); [done|done|done|done|apply Hp|done]. Qed.

Lemma past_header_process n f c len p :
  0 <= len < 256 -> past_header (S n) f c -> past_header n f (ota_DataProcess len p c).
Proof.
  intros Hlen [Hs (H58 & Hhs & Hmax) Hf]. unfold ota_DataProcess.
  assert (Hgo : forall c1, past_header n f c1 ->
    past_header n f (if bool_decide (ota_state c1 = OTA_STA_DATAING) then write_chunk len 0 p c1 else c1)).
  { intros c1 H1'. rewrite bool_decide_false by apply H1'. done. }
  destruct (bool_decide (ota_state c = OTA_STA_STARTING)).
  - pose proof (header_skip (Z.to_nat len) 0 0 p (ota_headercnt c) (ota_headersize c) (binInfo c) c) as E.
    rewrite Nat.add_0_r, hdr_set_id in E.
    rewrite E by (unfold plain; lia). cbn [header_loop].
    set (c1 := hdr_set _ _ _ c). change (ota_state c1) with (ota_state c).
    rewrite bool_decide_false by done. split; [done| |done].
    cbn [c1 hdr_set ota_headercnt ota_headersize with_ota_headercnt with_ota_headersize]. lia.
  - apply Hgo. split; [done|lia|done].
Qed.

Lemma past_header_next n f c : past_header n f c -> past_header n f (next_block c).
Proof.
  intros Hp. unfold next_block. set (c1 := with_blockDataCount _ c).
  assert (H1' : past_header n f c1) by (destruct Hp; by split). clearbody c1. clear Hp.
  destruct (_ <=? _); [destruct (_ =? _)|].
  - eapply past_header_timers; [apply timers_retry|].
    apply (past_header_eq n f c1); [done|done|done|done|apply H1'|done].
  - apply past_header_give_up, past_header_state; [done|].
    eapply past_header_timers; [apply timers_cancel|].
    apply (past_header_eq n f c1); [done|apply H1'|done|done|apply H1'|done].
  - eapply past_header_timers; [apply timers_retry|].
    apply (past_header_eq n f c1); [done|apply H1'|done|done|apply H1'|done].
Qed.

Lemma past_header_handler n f c pd :
  is_byte (get_payloadSize pd) -> past_header (S n) f c -> past_header n f (ota_dataRspHandler pd c).
Proof.
  intros Hb Hp. assert (Hp0 : past_header n f c) by (apply (past_header_weaken (S n)); [lia|done]).
  unfold ota_dataRspHandler. destruct (bool_decide _); [done|]. destruct (_ && _ && _ && _); [|done].
  destruct (_ =? 0).
  - apply past_header_give_up, past_header_state; [done|]. by eapply past_header_timers; [apply timers_cancel|].
  - apply past_header_next. destruct (fl_unlock_law (cl_fl c) (proj1 (ph_flash _ _ _ Hp))) as (Hoku & Hbu & _).
    assert (H1' : past_header (S n) f (on_fl fl_unlock c)).
    { apply (past_header_eq (S n) f c); [done|apply Hp|done|done|done|done]. }
    apply (past_header_process n f _ _ (get_payload pd) Hb) in H1'. set (c2 := ota_DataProcess _ _ _) in *.
    destruct (fl_lock_law (cl_fl c2) (proj1 (ph_flash _ _ _ H1'))) as (Hokl & Hbl & _).
    apply (past_header_eq n f c2); [done|apply H1'|done|done|done|done].
Qed.

(** A transfer that was aborted after the header of the file makes every later
    one fail until the next reset: [ota_init], which every abort runs, does not
    clear the header counter, so that the header of the new file is never
    recognised and no block of it is written. *)
Theorem ota_next_transfer_writes_nothing c pd pds :
  fl_ok (cl_fl c) -> 58 < ota_headercnt c -> ota_headersize c < ota_headercnt c ->
  ota_headercnt c + 256 * Z.of_nat (length pds) < 2 ^ 32 ->
  Forall (fun p => is_byte (get_payloadSize p)) pds -> newer (get_pre pd) ->
  0 < imageSize (get_pre pd) < OTA_MAX_IMAGE_SIZE ->
  let c1 := ota_startRspHandler pd (ota_queryStart QUERY_RATE c) in
  ota_state c1 = OTA_STA_STARTING /\
  forall x, fl_byte (cl_fl (foldl (fun c p => ota_dataRspHandler p c) c1 pds)) x = fl_byte (cl_fl c1) x.
Proof.
  intros Hok H58 Hhs Hmax Hpds Hnew Hsz c1.
  assert (H1' : ota_state c1 = OTA_STA_STARTING /\ past_header (length pds) (cl_fl c1) c1).
  { unfold c1. set (c0 := ota_queryStart QUERY_RATE c).
    assert (H0' : ota_state c0 = OTA_STA_IDLE /\ cl_fl c0 = cl_fl c /\ ota_headercnt c0 = ota_headercnt c /\
                  ota_headersize c0 = ota_headersize c).
    { unfold c0, ota_queryStart. by destruct (tmr_exist _ _). }
    destruct H0' as (Es & Ef & Ec & Eh). clearbody c0. destruct (start_accepts c0 pd) as (S1 & S2 & S3 & S4 & _);
      [by rewrite Ef|done|done|done|].
    split; [done|]. split; [by rewrite S1|rewrite S2, S3, Ec, Eh; lia|done]. }
  destruct H1' as [Es Hp]. split; [done|]. clearbody c1.
  assert (Hall : forall c2, past_header (length pds) (cl_fl c1) c2 ->
    past_header 0 (cl_fl c1) (foldl (fun c p => ota_dataRspHandler p c) c2 pds)).
  { clear Hp Es Hmax. induction Hpds as [|p pds Hb _ IH]; intros c2 Hc2; [done|]. cbn [foldl]. apply IH.
    by apply past_header_handler. }
  apply (Hall c1 Hp).
Qed.
(** ** A write that fails *)

(** A device in the middle of a transfer whose next write fails. *)
Record failing (pd : Z -> Z) c : Prop := {
  fa_ok : fl_ok (cl_fl c);
  fa_state : ota_state c = OTA_STA_DATAING;
  fa_match : get_pre pd = mk_pre (fileVer (dev_otaInfo c)) (imageType (dev_otaInfo c))
                            (manufaurerCode (dev_otaInfo c)) (blockDataCount c);
  fa_len : 0 < get_payloadSize pd < 256 /\ forall i, is_byte (get_payload pd i);
  fa_boot : mcuBootAddr c = false /\ fl_byte (cl_fl c) 8 = 0x4b;
  fa_off : 8 < flashOffsetAddr c < OTA_MAX_IMAGE_SIZE;
  fa_size : 0 <= ota_headersize c < 0x10000;
  fa_fails : (fl_write_check (FLASH_OTA_NEWIMAGE_ADDR + flashOffsetAddr c)
    (bytes_at (get_payload pd) 0 (Z.to_nat (get_payloadSize pd))) (fl_unlock (cl_fl c))).1 = false;
  (** the last bytes of the running half are blank *)
  fa_tail : forall x, FLASH_OTA_NEWIMAGE_ADDR - ota_headersize c - 4 <= x < FLASH_OTA_NEWIMAGE_ADDR - ota_headersize c ->
    fl_byte (cl_fl c) x = 255
}.

Lemma abort_fields c :
  crcValue (abort_transfer c) = 0xffffffff /\ imageSize (dev_otaInfo (abort_transfer c)) = 0 /\
  mcuBootAddr (abort_transfer c) = OtaClient.mcuBootAddrGet (cl_fl c) /\ binInfo (abort_transfer c) = pre_zero.
Proof.
  unfold abort_transfer. set (c1 := ota_queryStart QUERY_RATE c).
  assert (H' : crcValue c1 = 0xffffffff /\ imageSize (dev_otaInfo c1) = 0 /\
    mcuBootAddr c1 = OtaClient.mcuBootAddrGet (cl_fl c) /\ binInfo c1 = pre_zero).
  { unfold c1, ota_queryStart. by destruct (tmr_exist _ _). }
  clearbody c1. by destruct (timers_poll NORMAL_POLL_RATE c1).
Qed.
End Device.

Section Failure.
Context {F T : Type} `{FlashLaws F} `{!FlashCheck F} `{!FlashCheckLaws F} `{TimerSvc T} `{MacEnv} `{OtaLinks}.
Implicit Type c : client F T.

(** The chunk is given up, the flash outside it is as before. *)
Lemma write_chunk_fails len p c :
  0 < len < 256 -> fl_ok (cl_fl c) -> (forall i, is_byte (p i)) ->
  mcuBootAddr c = false -> 8 < flashOffsetAddr c < OTA_MAX_IMAGE_SIZE ->
  (fl_write_check (FLASH_OTA_NEWIMAGE_ADDR + flashOffsetAddr c) (bytes_at p 0 (Z.to_nat len)) (cl_fl c)).1 = false ->
  exists c2, write_chunk len 0 p c = abort_transfer c2 /\ ota_headersize c2 = ota_headersize c /\
    0 <= ota_headercnt c2 /\ fl_ok (cl_fl c2) /\
    forall x, x < FLASH_OTA_NEWIMAGE_ADDR -> fl_byte (cl_fl c2) x = fl_byte (cl_fl c) x.
Proof.
  intros Hlen Hok Hp Hboot Hoff Hfail. unfold write_chunk. rewrite (proj2 (Z.ltb_lt 0 len)) by lia.
  rewrite Z.sub_0_r, (u8_small len) by lia.
  change (flashOffsetAddr (with_ota_headercnt _ c)) with (flashOffsetAddr c).
  unfold OTA_TLNK_KEYWORD_ADDROFFSET. rewrite (proj2 (Z.leb_gt (flashOffsetAddr c) 8)) by lia. cbn [andb].
  unfold new_base. change (mcuBootAddr (with_ota_headercnt _ c)) with (mcuBootAddr c). rewrite Hboot.
  change (cl_fl (with_ota_headercnt _ c)) with (cl_fl c).
  unfold OTA_MAX_IMAGE_SIZE, FLASH_OTA_NEWIMAGE_ADDR in *. rewrite u32_small by lia.
  destruct (fl_write_check_law (cl_fl c) (0x40000 + flashOffsetAddr c) (bytes_at p 0 (Z.to_nat len)) Hok) as (Hok' & _ & Hb & _);
    [unfold flash_range; rewrite length_bytes_at; lia|by apply bytes_at_Forall|].
  destruct (fl_write_check _ _ (cl_fl c)) as [ok f']. cbn [fst snd] in *. subst ok. cbn [negb].
  set (c1 := with_ota_state OTA_STA_IDLE _). exists (cancel_dataReqTimer c1). split; [done|].
  destruct (timers_cancel c1). split_and!; [done|apply u32_range|exact Hok'|]. intros x Hx.
  change (fl_byte f' x = fl_byte (cl_fl c) x). rewrite Hb. apply programmed_out. lia.
Qed.

(** A failed write ends the transfer as if it had succeeded: [ota_DataProcess]
    gives up and returns, but [ota_dataRspHandler] goes on with the reset
    variables, compares the blank end of the running half with the initial
    value of the checksum, finds them equal and reports the end of the
    transfer to the coordinator. *)
Theorem ota_failed_write_reports_end c pd :
  failing pd c ->
  let c' := ota_dataRspHandler pd c in
  ota_state c' = OTA_STA_END /\
  exists rq seq, last (cl_sent c') = Some rq /\
    rq_msdu rq = ota_cmd seq TL_CMD_OTA_STOP_REQ (mk_pre 0 0 0 (ota_headersize c)).
Proof.
  intros [Hok Hst Hm [Hlen Hpb] [Hboot Hkey] Hoff Hsz Hfail Htail].
  unfold ota_dataRspHandler. rewrite bool_decide_false by (by rewrite Hst).
  rewrite Hm. cbn [fileVer imageType manufaurerCode imageSize]. rewrite !Z.eqb_refl. cbn [andb].
  rewrite (proj2 (Z.eqb_neq (get_payloadSize pd) 0)) by lia.
  destruct (fl_unlock_law (cl_fl c) Hok) as (Hoku & Hbu & _). set (c0 := on_fl fl_unlock c).
  unfold ota_DataProcess. change (ota_state c0) with (ota_state c). rewrite Hst.
  rewrite bool_decide_false, bool_decide_true by done.
  destruct (write_chunk_fails (get_payloadSize pd) (get_payload pd) c0) as (c2 & E & Es & Ecnt & Hok2 & Hb2); try done.
  rewrite E. clear E. destruct (fl_lock_law (cl_fl (abort_transfer c2))) as (Hokl & Hbl & _);
    [by rewrite (proj1 (proj2 (abort_keeps c2)))|].
  destruct (abort_keeps c2) as (Gs & Gf & _), (abort_header c2) as [_ Gh], (abort_fields c2) as (Gc & Gi & Gb & Gn).
  assert (Hold : forall x, x < FLASH_OTA_NEWIMAGE_ADDR -> fl_byte (fl_lock (cl_fl (abort_transfer c2))) x = fl_byte (cl_fl c) x).
  { intros x Hx. by rewrite Hbl, Gf, Hb2, <-Hbu. }
  assert (Hbase : new_base (abort_transfer c2) = FLASH_OTA_NEWIMAGE_ADDR).
  { unfold new_base. rewrite Gb. unfold OtaClient.mcuBootAddrGet.
    rewrite fl_read_law; [|done|unfold flash_range, OTA_TLNK_KEYWORD_ADDROFFSET; lia].
    cbn [bytes_at map seq nth]. change (OTA_TLNK_KEYWORD_ADDROFFSET + Z.of_nat 0) with 8.
    rewrite Hb2 by (unfold FLASH_OTA_NEWIMAGE_ADDR; lia). change (cl_fl c0) with (fl_unlock (cl_fl c)).
    by rewrite Hbu, Hkey. }
  unfold next_block. set (c4 := with_blockDataCount _ _).
  change (dev_otaInfo c4) with (dev_otaInfo (abort_transfer c2)). change (new_base c4) with (new_base (abort_transfer c2)).
  change (ota_headersize c4) with (ota_headersize (abort_transfer c2)). change (crcValue c4) with (crcValue (abort_transfer c2)).
  change (cl_fl c4) with (fl_lock (cl_fl (abort_transfer c2))).
  change (ota_headercnt c4) with (ota_headercnt (abort_transfer c2)).
  rewrite Gi, Hbase, Gh, Es, Gc, (proj1 (abort_header c2)), (proj2 (Z.leb_le 0 _) Ecnt).
  change (ota_headersize c0) with (ota_headersize c). unfold FLASH_OTA_NEWIMAGE_ADDR in *.
  rewrite u32_small, fl_read_law by (done || unfold flash_range; lia).
  rewrite (bytes_at_ext _ (fun _ => 255)).
  2: { intros j Hj. rewrite Hold by lia. apply Htail. lia. }
  change (le_word (bytes_at (fun _ => 255) _ 4) =? 0xffffffff) with true. cbv iota.
  set (c5 := with_ota_dataCb _ _). pose proof (timers_retry OTA_MAX_IMAGE_BLOCK_RSP_WAIT_TIME c5) as Ht.
  destruct Ht as [t q r n]. split; [done|].
  eexists _, _. split; [apply last_snoc|]. cbn [rq_msdu binInfo ota_headersize c4 with_ota_state with_blockDataCount on_fl with_cl_fl].
  rewrite Gn, Gh, Es. cbn [fileVer imageType manufaurerCode imageSize pre_zero].
  change (ota_headersize c0) with (ota_headersize c).
  rewrite (u32_small (0 + ota_headersize c)), Z.add_0_l by lia. done.
Qed.
End Failure.
