(* ===== verification/OtaDemo.v ===== *)
(** * An update on simulated chips

    A file of 82 bytes, a coordinator that holds it and an end device, both on
    the simulated flash of [SimChip.v]: the witnesses of the update theorems. *)
From S2P Require Import Prelude SysEv EvTimer TimerIf SpiFlash FlashIf FlashDrv SimChip FlashProps Crc Ota OtaServer OtaClient OtaSpec OtaTransfer OtaSession OtaLink OtaProps.

#[local] Existing Instance demo_env_base.
#[local] Instance demo_svc : TimerSvc timers := ev_TimerSvc 32.
#[local] Instance demo_mac : MacEnv := {| mac_attr := fun a => if a =? ATTR_PAN_ID then [0xef; 0xbe] else [1; 2; 3; 4; 5; 6; 7; 8]; rxOnWhenIdle := false |}.
#[local] Instance demo_links : OtaLinks := {|
  otaQueryTimer := 0x850000; fn_ota_periodicQueryServerCb := 0x1000;
  fn_ota_periodicDataServerCb := 0x1100; fn_PollDataTimerCb := 0x1200 |}.

Definition demo_header (total : Z) : list Z :=
  [30; 241; 238; 11; 0; 1; 56; 0; 0; 0; 65; 17; 82; 120; 1; 0; 64; 16; 2; 0] ++ repeat 0 32 ++
  [total; 0; 0; 0; 0; 0; total - 62; 0; 0; 0].

Definition demo_body : list Z := [1; 2; 3; 4; 5; 6; 7; 8; 75; 10; 11; 12; 13; 14; 15; 16].
Definition demo_data : list Z := demo_body ++ [158; 186; 11; 157].
Definition demo_bad : list Z := demo_body ++ [158; 186; 11; 156].
(** An image of 34 bytes: the file is two blocks long. *)
Definition demo_two : list Z := demo_body ++ repeat 5 18.

Definition demo_info (total : Z) : ota_preamble_t := mk_pre 0x10400001 0x7852 0x1141 total.

Lemma demo_image_ok data hs :
  forallb (fun v => (0 <=? v) && (v <? 256)) data = true -> (13 <=? length data)%nat = true ->
  nth 8 data 0 = 0x4b -> 62 <= hs -> hs + Z.of_nat (length data) < OTA_MAX_IMAGE_SIZE -> image_ok data hs.
Proof. intros Hb Hl Hk Hh Hm. split; [by apply sim_bytes|by apply Nat.leb_le|done|done|done]. Qed.

Ltac demo_file := split; [apply demo_image_ok; vm_compute; (reflexivity || discriminate)
  |by apply sim_bytes|vm_compute; reflexivity..].

Lemma demo_file_ok : file_ok (demo_header 82) demo_data (demo_info 82).
Proof. demo_file. Qed.
Lemma demo_bad_ok : file_ok (demo_header 82) demo_bad (demo_info 82).
Proof. demo_file. Qed.
Lemma demo_two_ok : file_ok (demo_header 96) demo_two (demo_info 96).
Proof. demo_file. Qed.

(** A chip that holds the keyword of the running image and the bytes [l] at 0x40000. *)
Definition demo_flash (l : list Z) : drv sim_chip :=
  flash_write 0x40000 l (flash_write 8 [0x4b] (drv_init (sim_blank 0))).

Lemma demo_flash_ok l :
  (length l <= 4096)%nat -> forallb (fun v => (0 <=? v) && (v <? 256)) l = true ->
  fl_ok (demo_flash l) /\ forall x, fl_prot (demo_flash l) x = false /\
  fl_byte (demo_flash l) x = programmed (fun _ => false) (programmed (fun _ => false) (fun _ => 255) 8 [0x4b]) 0x40000 l x.
Proof.
  intros Hl Hb. set (d0 := drv_init (sim_blank 0)).
  assert (H0 : fl_ok d0) by (exists 0; [|done]; split; try done).
  destruct (fl_write_law d0 8 [0x4b] H0) as (H1 & Hp1 & Hb1); [split; cbn; lia|by apply sim_bytes|].
  destruct (fl_write_law (fl_write 8 [0x4b] d0) 0x40000 l H1) as (H2 & Hp2 & Hb2);
    [split; cbn; lia|by apply sim_bytes|].
  assert (Hz : forall x, fl_prot (fl_write 8 [0x4b] d0) x = false) by (intros x; by rewrite (proj1 (Hp1 x))).
  assert (demo_flash l = fl_write 0x40000 l (fl_write 8 [0x4b] d0)) as -> by reflexivity.
  split; [exact H2|]. intros x. split; [by rewrite (proj1 (Hp2 x)), Hz|].
  rewrite Hb2. unfold programmed at 1. rewrite Hz, Hb1. reflexivity.
Qed.

Definition demo_client : client (drv sim_chip) timers :=
  mk_client (demo_flash []) (ev_timer_init demo_timers) pre_zero pre_zero false 0 0 OTA_STA_IDLE 0 0 0 0
    0xffffffff 0 None 0 [] 0.

Definition demo_server (file : list Z) : server (drv sim_chip) :=
  OtaServer.ota_init (mk_server (demo_flash file) pre_zero false OTA_BIN_INVALID 0 0 0 (mk_addr 2 [1; 0]) []).

Definition demo_rx (l : list Z) (i : Z) : Z := nth (Z.to_nat i) l 0.

Lemma demo_delivers : delivers demo_rx.
Proof.
  intros l. apply list_eq. intros i. destruct (decide (i < length l)%nat) as [Hi|Hi].
  - rewrite bytes_at_lookup by done. unfold demo_rx. replace (Z.to_nat (0 + Z.of_nat i)) with i by lia.
    destruct (lookup_lt_is_Some_2 l i Hi) as [v Hv]. by rewrite nth_lookup, Hv.
  - rewrite !lookup_ge_None_2; [done|lia|rewrite length_bytes_at; lia].
Qed.

Lemma demo_idle : idle demo_client.
Proof. split; [apply (demo_flash_ok []); [cbn; lia|done]|reflexivity..|split; vm_compute; (reflexivity || discriminate)]. Qed.

Lemma demo_newer n : newer (demo_info n).
Proof. vm_compute. split_and!; reflexivity. Qed.

Lemma demo_erasable data : erasable data demo_client.
Proof. intros x _. left. apply (demo_flash_ok []); [cbn; lia|done]. Qed.

Lemma demo_server_fl file : sv_fl (demo_server file) = demo_flash file.
Proof.
  unfold demo_server. set (s0 := mk_server _ _ _ _ _ _ _ _ _). change (demo_flash file) with (sv_fl s0).
  clearbody s0. unfold OtaServer.ota_init.
  destruct (_ =? _); [|done]. destruct (hdr_fields_of _) as [n i].
  destruct (_ <=? _); [done|]. by destruct (_ <? _).
Qed.

Ltac demo_serve := split; [rewrite demo_server_fl; apply demo_flash_ok; [cbn; lia|vm_compute; reflexivity]
  |vm_compute; (reflexivity || (intuition discriminate))..].

Lemma demo_serving : serving (demo_header 82) demo_data (demo_info 82) (demo_server (demo_header 82 ++ demo_data)).
Proof. demo_serve. Qed.
Lemma demo_serving_bad : serving (demo_header 82) demo_bad (demo_info 82) (demo_server (demo_header 82 ++ demo_bad)).
Proof. demo_serve. Qed.
Lemma demo_serving_two : serving (demo_header 96) demo_two (demo_info 96) (demo_server (demo_header 96 ++ demo_two)).
Proof. demo_serve. Qed.

(** ** Witnesses *)

Lemma ota_update_installs_image_witness :
  let '(c', _) := Nat.iter 4 (exchange demo_rx) (ota_startReq demo_client, demo_server (demo_header 82 ++ demo_data)) in
  cl_resets c' = 1%nat /\
  bytes_at (fl_byte (cl_fl c')) (new_base demo_client) 20 = demo_data /\
  OtaClient.mcuBootAddrGet (cl_fl c') = true /\
  forall x, in_sectors (new_base demo_client) 0 1 x = false ->
    x <> old_base (new_base demo_client) + 8 -> fl_byte (cl_fl c') x = fl_byte (cl_fl demo_client) x.
Proof.
  apply (ota_update_installs_image demo_rx demo_delivers (demo_header 82) demo_data (demo_info 82) demo_file_ok).
  - apply demo_idle.
  - apply demo_newer.
  - apply demo_erasable.
  - apply demo_serving.
  - vm_compute. discriminate.
  - vm_compute. reflexivity.
Defined.

Lemma ota_bad_checksum_rejected_witness :
  let '(c', _) := Nat.iter 3 (exchange demo_rx) (ota_startReq demo_client, demo_server (demo_header 82 ++ demo_bad)) in
  ota_state c' = OTA_STA_IDLE /\ cl_resets c' = 0%nat /\ fl_byte (cl_fl c') (new_base demo_client + 8) = 0xff.
Proof.
  apply (ota_bad_checksum_rejected demo_rx demo_delivers (demo_header 82) demo_bad (demo_info 82) demo_bad_ok).
  - apply demo_idle.
  - apply demo_newer.
  - apply demo_erasable.
  - apply demo_serving_bad.
  - vm_compute. discriminate.
  - vm_compute. discriminate.
Defined.

Lemma ota_multiple_of_block_fails_witness :
  let '(c', _) := Nat.iter 3 (exchange demo_rx) (ota_startReq demo_client, demo_server (demo_header 96 ++ demo_two)) in
  ota_state c' = OTA_STA_IDLE /\ cl_resets c' = 0%nat.
Proof.
  apply (ota_multiple_of_block_fails demo_rx demo_delivers (demo_header 96) demo_two (demo_info 96) demo_two_ok
    demo_client (demo_server (demo_header 96 ++ demo_two)) 1).
  - apply demo_idle.
  - apply demo_newer.
  - apply demo_erasable.
  - apply demo_serving_two.
  - reflexivity.
Defined.

(** The answer to the start request, as it is received. *)
Definition demo_start : Z -> Z := demo_rx (enc_pre (demo_info 82)).

(** A device whose chip the driver has locked. *)
Definition locked_client : client (drv sim_chip) timers :=
  with_cl_fl (platform_flash_init (drv_init (sim_blank 0))) demo_client.

Lemma locked_client_ok : fl_ok (cl_fl locked_client) /\ forall x, fl_prot (cl_fl locked_client) x = true.
Proof.
  destruct (platform_flash_init_listed sim_opt (sim_blank 0) 0 (fun _ => 255) sim_listed (sim_blank_at 0)) as (Hd & Hp & Hl & Hb).
  split; [by eapply drv_at_fl_ok|]. intros x.
  change (drv_prot (platform_flash_init (drv_init (sim_blank 0))) x = true). unfold drv_prot. rewrite Hp, Hl, Hb. done.
Qed.

Lemma ota_start_erases_nothing_locked_witness :
  ota_state (ota_startRspHandler demo_start locked_client) = OTA_STA_STARTING /\
  forall x, fl_byte (cl_fl (ota_startRspHandler demo_start locked_client)) x = fl_byte (cl_fl locked_client) x.
Proof.
  apply (ota_start_erases_nothing_locked locked_client demo_start).
  - apply locked_client_ok.
  - apply locked_client_ok.
  - reflexivity.
  - vm_compute. split_and!; reflexivity.
  - vm_compute. split; reflexivity.
Defined.

Lemma ota_retries_bounded_witness :
  let '(rs, c') := retries 10 (with_ota_dataCb (Some cb_dataReq) demo_client) in
  rs = repeat 0 9 ++ [-1] /\ ota_state c' = OTA_STA_IDLE /\ otaDataReqTimer c' = 0 /\
  length (cl_sent c') = 9%nat.
Proof. apply (ota_retries_bounded (with_ota_dataCb (Some cb_dataReq) demo_client) cb_dataReq); reflexivity. Defined.

(** A data answer for block 0, and a device that has given up after 96 bytes. *)
Definition demo_block : Z -> Z := demo_rx (enc_pre (demo_info 0) ++ 48 :: repeat 1 48).

Lemma ota_next_transfer_writes_nothing_witness :
  let c1 := ota_startRspHandler demo_start (ota_queryStart QUERY_RATE (hdr_set 96 62 pre_zero demo_client)) in
  ota_state c1 = OTA_STA_STARTING /\
  forall x, fl_byte (cl_fl (foldl (fun c p => ota_dataRspHandler p c) c1 [demo_block; demo_block])) x = fl_byte (cl_fl c1) x.
Proof.
  apply (ota_next_transfer_writes_nothing (hdr_set 96 62 pre_zero demo_client) demo_start [demo_block; demo_block]).
  - apply demo_idle.
  - vm_compute. reflexivity.
  - vm_compute. reflexivity.
  - vm_compute. reflexivity.
  - repeat constructor; vm_compute; discriminate || reflexivity.
  - vm_compute. split_and!; reflexivity.
  - vm_compute. split; reflexivity.
Defined.

(** A device in the middle of a transfer over a chip that already holds 0 where
    the next block goes. *)
Definition stuck_client : client (drv sim_chip) timers :=
  with_cl_fl (demo_flash (repeat 0 64)) (with_ota_state OTA_STA_DATAING (with_flashOffsetAddr 34 (hdr_set 96 62 pre_zero
    (with_blockDataCount 2 (with_dev_otaInfo (demo_info 200) demo_client))))).

Definition stuck_block : Z -> Z := demo_rx (enc_pre (demo_info 2) ++ 48 :: repeat 1 48).

Lemma demo_rx_byte l i : forallb (fun v => (0 <=? v) && (v <? 256)) l = true -> is_byte (demo_rx l i).
Proof.
  intros Hl%sim_bytes. unfold demo_rx. destruct (nth_in_or_default (Z.to_nat i) l 0) as [Hin| ->]; [|unfold is_byte; lia].
  rewrite Forall_forall in Hl. by apply Hl, list_elem_of_In.
Qed.

Lemma stuck_failing : failing stuck_block stuck_client.
Proof.
  destruct (demo_flash_ok (repeat 0 64)) as [Hok Hf]; [cbn; lia|reflexivity|].
  split; try reflexivity.
  - exact Hok.
  - split; [split; reflexivity|]. intros i. by apply demo_rx_byte.
  - split; [reflexivity|]. etransitivity; [apply (Hf 8)|]. reflexivity.
  - split; reflexivity.
  - split; [discriminate|reflexivity].
  - intros x Hx. change (fl_byte (demo_flash (repeat 0 64)) x = 255). destruct (Hf x) as [_ ->].
    cbn [stuck_client ota_headersize with_cl_fl with_ota_state with_flashOffsetAddr hdr_set with_ota_headercnt
      with_ota_headersize] in Hx. unfold FLASH_OTA_NEWIMAGE_ADDR in Hx.
    rewrite !programmed_out; [done|cbn [length]; lia|left; lia].
Qed.

Lemma ota_failed_write_reports_end_witness :
  let c' := ota_dataRspHandler stuck_block stuck_client in
  ota_state c' = OTA_STA_END /\
  exists rq seq, last (cl_sent c') = Some rq /\
    rq_msdu rq = ota_cmd seq TL_CMD_OTA_STOP_REQ (mk_pre 0 0 0 62).
Proof. apply (ota_failed_write_reports_end stuck_client stuck_block). apply stuck_failing. Defined.

(** The whole session, evaluated. *)
Example ota_session_demo :
  let '(c', s') := Nat.iter 4 (exchange demo_rx) (ota_startReq demo_client, demo_server (demo_header 82 ++ demo_data)) in
  (cl_resets c', length (cl_sent c'), length (sv_sent s')) = (1%nat, 4%nat, 4%nat) /\
  (flash_read 0x40000 20 (cl_fl c')).1 = demo_data.
Proof. vm_compute. split; reflexivity. Qed.
