(* ===== verification/Pib.v ===== *)
(** * The MAC information base ([ieee802154/mac/mac_pib.c], [tl_zb_mac_pib.h])

    The attributes of the MAC are the fields of one structure, [g_zbMacPib];
    the state holds the memory from its address on ([pib]), so that an access
    outside the structure has its effect.  [g_zbMacPibTbl] gives the offset and
    the size of each attribute; a lookup outside of the table is [None], where
    the C reads what follows the table.  The lists and pools of descriptors
    ([tn_list.h], [tn_mm.h]) are in a binary library: they are the class
    [TnLib], with what the code relies on in [TnLaws]. *)
From S2P Require Import Prelude SpiFlash FlashIf.

(** ** Layout of [tl_zb_mac_pib_t] on the 32-bit cores *)
Definition off_beaconTxTime : Z := 0.
Definition off_coordExtAddress : Z := 4.
Definition off_extAddress : Z := 12.
Definition off_ackWaitDuration : Z := 20.
Definition off_coordShortAddress : Z := 22.
Definition off_panId : Z := 24.
Definition off_shortAddress : Z := 26.
Definition off_superframeOrder : Z := 28.
Definition off_transactionPersistenceTime : Z := 30.
Definition off_frameTotalWaitTime : Z := 32.
Definition off_syncSymbolOffset : Z := 34.
Definition off_beaconPayload : Z := 36.
Definition off_beaconPayloadLen : Z := 51.
Definition off_associationPermit : Z := 52.
Definition off_associatedPanCoord : Z := 53.
Definition off_autoReq : Z := 54.
Definition off_battLifeExt : Z := 55.
Definition off_battLifeExtPeriods : Z := 56.
Definition off_beaconOrder : Z := 57.
Definition off_beaconSeqNum : Z := 58.
Definition off_seqNum : Z := 59.
Definition off_frameRetryNum : Z := 60.
Definition off_respWaitTime : Z := 61.
Definition off_maxCsmaBackoffs : Z := 62.
Definition off_promiscuousMode : Z := 63.
Definition off_timeStampSupported : Z := 64.
Definition off_securityEnabled : Z := 65.
Definition off_gtsPermit : Z := 66.
Definition off_minBe : Z := 67.
Definition off_maxBe : Z := 68.
Definition off_phyChannelCur : Z := 70.
Definition off_rxOnWhenIdle : Z := 71.
Definition off_txPower : Z := 72.
Definition off_keyTable : Z := 76.
Definition off_devTable : Z := 80.
Definition off_secLvlTable : Z := 84.
Definition off_keyTableEntries : Z := 88.
Definition off_devTableEntries : Z := 89.
Definition off_secLvlTableEntries : Z := 90.
Definition off_autoReqSecLvl : Z := 91.
Definition off_frameCounter : Z := 92.
Definition off_autoReqKeySource : Z := 96.
Definition off_autoReqKeyIdMode : Z := 104.
Definition off_autoReqKeyIndex : Z := 105.
Definition off_panCoordShortAddr : Z := 106.
Definition off_defaultKeySource : Z := 108.
Definition off_panCoordExtAddr : Z := 116.

Record mac_pibTbl_t := mk_tbl { tb_offset : Z; tb_len : Z; tb_min : Z; tb_max : Z }.

Definition g_zbMacPibTbl : list mac_pibTbl_t := [
  mk_tbl off_ackWaitDuration 1 54 54;
  mk_tbl off_associationPermit 1 0 1;
  mk_tbl off_autoReq 1 0 1;
  mk_tbl off_battLifeExt 1 0 1;
  mk_tbl off_battLifeExtPeriods 1 6 6;
  mk_tbl off_beaconPayload 15 0 0;
  mk_tbl off_beaconPayloadLen 1 0 52;
  mk_tbl off_beaconOrder 1 0 15;
  mk_tbl off_beaconTxTime 4 1 1;
  mk_tbl off_beaconSeqNum 1 0 0xFF;
  mk_tbl off_coordExtAddress 8 0 0;
  mk_tbl off_coordShortAddress 2 0 0;
  mk_tbl off_seqNum 1 0 0xFF;
  mk_tbl off_gtsPermit 1 0 1;
  mk_tbl off_maxCsmaBackoffs 1 0 254;
  mk_tbl off_minBe 1 0 8;
  mk_tbl off_panId 2 0 0;
  mk_tbl off_promiscuousMode 1 0 1;
  mk_tbl off_rxOnWhenIdle 1 0 1;
  mk_tbl off_shortAddress 2 0 0;
  mk_tbl off_superframeOrder 1 0 15;
  mk_tbl off_transactionPersistenceTime 2 0 0;
  mk_tbl off_associatedPanCoord 1 0 1;
  mk_tbl off_maxBe 1 0 8;
  mk_tbl off_frameTotalWaitTime 2 0 0xFF;
  mk_tbl off_frameRetryNum 1 0 7;
  mk_tbl off_respWaitTime 1 2 64;
  mk_tbl off_syncSymbolOffset 1 0 0;
  mk_tbl off_timeStampSupported 1 0 1;
  mk_tbl off_securityEnabled 1 0 1;
  mk_tbl off_extAddress 8 0 1;
  mk_tbl off_txPower 1 0 11;
  mk_tbl off_keyTable 4 0 0;
  mk_tbl off_keyTableEntries 1 0 16;
  mk_tbl off_devTable 4 0 0;
  mk_tbl off_devTableEntries 1 0 16;
  mk_tbl off_secLvlTable 4 0 0;
  mk_tbl off_secLvlTableEntries 1 0 6;
  mk_tbl off_frameCounter 4 0 0xffffffff;
  mk_tbl off_autoReqSecLvl 1 0 7;
  mk_tbl off_autoReqKeyIdMode 1 0 3;
  mk_tbl off_autoReqKeySource 8 0 0;
  mk_tbl off_autoReqKeyIndex 1 1 0xff;
  mk_tbl off_defaultKeySource 8 0 0;
  mk_tbl off_panCoordExtAddr 8 0 0;
  mk_tbl off_panCoordShortAddr 2 0 0].

Definition MAC_SUCCESS : Z := 0.
Definition MAC_STA_INVALID_PARAMETER : Z := 0xE8.

Definition MAC_PHY_ATTR_CURRENT_CHANNEL : Z := 0x00.
Definition MAC_PIB_ATTRIBUTE_START : Z := 0x40.
Definition MAC_ATTR_BEACON_PAYLOAD : Z := 0x45.
Definition MAC_ATTR_BEACON_PAYLOAD_LENGTH : Z := 0x46.
Definition MAC_TX_POWER : Z := 0x5F.
Definition MAC_KEY_TABLE : Z := 0x71.
Definition MAC_DEVICE_TABLE : Z := 0x73.
Definition MAC_SECURITY_LEVEL_TABLE : Z := 0x75.
Definition MAC_DEFAULT_KEY_SOURCE : Z := 0x7c.
Definition MAC_PIB_ATTRIBUTE_STOP : Z := 0x7f.

Inductive mac_secMaterial_t :=
  | MAC_SECMATERIAL_KEYID_LOOKUP_DESC | MAC_SECMATERIAL_DEVICE_DESC | MAC_SECMATERIAL_KEYUSAGE_DESC
  | MAC_SECMATERIAL_SECLEVEL_DESC | MAC_SECMATERIAL_KEY_DESC | MAC_SECMATERIAL_KEYDEV_DESC.

(** The four static lists. *)
Inductive tn_name := macKeyTable | macDevTable | macSecLvlTable | macKeyDevTable.

#[export] Instance tn_name_eq_dec : EqDecision tn_name.
Proof. solve_decision. Defined.

(** The library of lists and pools.  [key_entries k i] is the counter of the
    [i]-th list inside a key descriptor and [key_pop] takes an item from it. *)
Class TnLib (L : Type) := {
  tn_list_init : tn_name -> L -> L;
  tn_list_head : tn_name -> L -> Z;
  tn_list_item_next : Z -> L -> Z;
  tn_list_add : tn_name -> Z -> L -> L;
  tn_list_push : tn_name -> Z -> L -> L;
  tn_list_insert : tn_name -> Z -> Z -> L -> L;
  tn_list_remove : tn_name -> Z -> L -> L;
  tn_mem_init : mac_secMaterial_t -> L -> L;
  tn_mem_alloc : mac_secMaterial_t -> L -> Z * L;
  tn_mem_free : mac_secMaterial_t -> Z -> L -> Z * L;
  key_entries : Z -> nat -> L -> nat;
  key_pop : Z -> nat -> L -> Z * L
}.

Section Ops.
Context {L : Type} `{TnLib L}.

(** The memory from [&g_zbMacPib] on, the lists, and the powers that were set. *)
Record mac := mk_mac { pib : Z -> Z; tn : L; tx_power : list Z }.
Implicit Type s : mac.

Definition with_pib v s := mk_mac v (tn s) (tx_power s).
Definition with_tn v s := mk_mac (pib s) v (tx_power s).

(** [memcpy(p + o, l, n)] *)
Definition mem_put (p : Z -> Z) (o : Z) (l : list Z) : Z -> Z := fun x =>
  if (o <=? x) && (x <? o + Z.of_nat (length l)) then nth (Z.to_nat (x - o)) l 0 else p x.

(** ** Security material *)

(** The pointers [keyTable], [devTable], [secLvlTable] are set once, to the
    static lists; their value is the linker's ([ptrs]). *)
Definition mac_secMaterial_Init (ptrs : list Z) (coldReset : bool) s : mac :=
  let s :=
    if coldReset then
      let t := foldl (fun t k => tn_mem_init k t) (tn s)
        [MAC_SECMATERIAL_KEYID_LOOKUP_DESC; MAC_SECMATERIAL_DEVICE_DESC; MAC_SECMATERIAL_KEYUSAGE_DESC;
         MAC_SECMATERIAL_SECLEVEL_DESC; MAC_SECMATERIAL_KEY_DESC; MAC_SECMATERIAL_KEYDEV_DESC] in
      with_tn (foldl (fun t l => tn_list_init l t) t [macKeyTable; macDevTable; macSecLvlTable; macKeyDevTable]) s
    else s in
  with_pib (mem_put (pib s) off_keyTable (concat (map (word_le 4) (take 3 ptrs)))) s.

Definition mac_secMaterial_alloc (type : mac_secMaterial_t) s : Z * mac :=
  let '(r, t) := tn_mem_alloc type (tn s) in (r, with_tn t s).

Definition mac_secMaterial_free (type : mac_secMaterial_t) (item : Z) s : Z * mac :=
  let '(r, t) := tn_mem_free type item (tn s) in (r, with_tn t s).

(** One of the loops of [mac_key_free]. *)
Fixpoint free_list (n : nat) (k : mac_secMaterial_t) (key : Z) (i : nat) (t : L) : L :=
  match n with
  | O => t
  | S n' => let '(item, t) := key_pop key i t in free_list n' k key i (tn_mem_free k item t).2
  end.

Definition mac_key_free (key : Z) (t : L) : L :=
  let t := free_list (key_entries key 0 t) MAC_SECMATERIAL_KEYID_LOOKUP_DESC key 0 t in
  let t := free_list (key_entries key 1 t) MAC_SECMATERIAL_KEYDEV_DESC key 1 t in
  let t := free_list (key_entries key 2 t) MAC_SECMATERIAL_KEYUSAGE_DESC key 2 t in
  (tn_mem_free MAC_SECMATERIAL_KEY_DESC key t).2.

Definition updateKeyDevTable (desc : Z) s : mac := with_tn (tn_list_add macKeyDevTable desc (tn s)) s.

(** ** The tables of descriptors *)

(** The list, the counter and the release function of a table attribute. *)
Definition table_of (attribute : Z) : option (tn_name * Z * (Z -> L -> L)) :=
  if attribute =? MAC_KEY_TABLE then Some (macKeyTable, off_keyTableEntries, mac_key_free)
  else if attribute =? MAC_DEVICE_TABLE then
    Some (macDevTable, off_devTableEntries, fun p t => (tn_mem_free MAC_SECMATERIAL_DEVICE_DESC p t).2)
  else if attribute =? MAC_SECURITY_LEVEL_TABLE then
    Some (macSecLvlTable, off_secLvlTableEntries, fun p t => (tn_mem_free MAC_SECMATERIAL_SECLEVEL_DESC p t).2)
  else None.

(** [while(pibIndex--) { tmp_item2 = tmp_item; tmp_item = next(tmp_item); }] *)
Fixpoint walk (n : nat) (item2 item : Z) (t : L) : Z * Z :=
  match n with O => (item2, item) | S n' => walk n' item (tn_list_item_next item t) t end.

Definition set_table (l : tn_name) (cnt : Z) (release : Z -> L -> L) (value pibIndex : Z) s : Z * mac :=
  let entries := pib s cnt in
  if entries <? pibIndex then (MAC_STA_INVALID_PARAMETER, s)
  else if pibIndex =? entries then
    (MAC_SUCCESS, with_pib (mem_put (pib s) cnt [u8 (entries + 1)]) (with_tn (tn_list_add l value (tn s)) s))
  else
    let '(item2, item) := walk (Z.to_nat pibIndex) 0 (tn_list_head l (tn s)) (tn s) in
    let t := tn_list_remove l item (tn s) in
    let t := if negb (item2 =? 0) then tn_list_insert l item2 value t else tn_list_push l value t in
    (MAC_SUCCESS, with_tn (release item t) s).

Definition get_table (l : tn_name) (cnt : Z) (pibIndex : Z) s : Z * option Z :=
  if pib s cnt <=? pibIndex then (MAC_STA_INVALID_PARAMETER, None)
  else (MAC_SUCCESS, Some (walk (Z.to_nat pibIndex) 0 (tn_list_head l (tn s)) (tn s)).2).

Definition del_table (l : tn_name) (cnt : Z) (release : Z -> L -> L) (pibIndex : Z) s : Z * mac :=
  if pib s cnt <=? pibIndex then (MAC_STA_INVALID_PARAMETER, s)
  else
    let item := (walk (Z.to_nat pibIndex) 0 (tn_list_head l (tn s)) (tn s)).2 in
    let t := tn_list_remove l item (tn s) in
    (MAC_SUCCESS, with_pib (mem_put (pib s) cnt [u8 (pib s cnt - 1)]) (with_tn (release item t) s)).

(** ** Attributes *)

(** [value] is the pointer, [buf] the memory at it; the new memory is returned. *)
Definition tl_zbMacAttrSet (attribute value : Z) (buf : Z -> Z) (index : Z) s : option (Z * (Z -> Z) * mac) :=
  if attribute =? MAC_TX_POWER then
    let buf := if 11 <? buf 0 then mem_put buf 0 [11] else buf in
    Some (MAC_SUCCESS, buf, mk_mac (pib s) (tn s) (tx_power s ++ [buf 0]))
  else if attribute =? MAC_PHY_ATTR_CURRENT_CHANNEL then
    Some (MAC_SUCCESS, buf, with_pib (mem_put (pib s) off_phyChannelCur [buf 0]) s)
  else if (MAC_PIB_ATTRIBUTE_STOP <? attribute) || (attribute <? MAC_PIB_ATTRIBUTE_START) then
    Some (MAC_STA_INVALID_PARAMETER, buf, s)
  else
    match table_of attribute with
    | Some (l, cnt, release) =>
        let '(r, s) := set_table l cnt release value index s in Some (r, buf, s)
    | None =>
        let offset := if MAC_KEY_TABLE <=? attribute then MAC_KEY_TABLE - MAC_TX_POWER - 1 else 0 in
        e ← g_zbMacPibTbl !! Z.to_nat (attribute - MAC_PIB_ATTRIBUTE_START - offset);
        if tb_len e <? index then Some (MAC_STA_INVALID_PARAMETER, buf, s)
        else Some (MAC_SUCCESS, buf, with_pib (mem_put (pib s) (tb_offset e) (bytes_at buf 0 (Z.to_nat index))) s)
    end.

(** What [tl_zbMacAttrGet] stores: bytes and a length, or a descriptor. *)
Inductive got := GotNone | GotBytes (l : list Z) (len : Z) | GotItem (p : Z).

Definition tl_zbMacAttrGet (attribute index : Z) s : option (Z * got) :=
  if attribute =? MAC_PHY_ATTR_CURRENT_CHANNEL then
    Some (MAC_SUCCESS, GotBytes [pib s off_phyChannelCur] 1)
  else if (MAC_PIB_ATTRIBUTE_STOP <? attribute) || (attribute <? MAC_PIB_ATTRIBUTE_START) then
    Some (MAC_STA_INVALID_PARAMETER, GotNone)
  else
    match table_of attribute with
    | Some (l, cnt, _) =>
        match get_table l cnt index s with
        | (r, Some p) => Some (r, GotItem p)
        | (r, None) => Some (r, GotNone)
        end
    | None =>
        e ← g_zbMacPibTbl !! Z.to_nat (attribute - MAC_PIB_ATTRIBUTE_START);
        let len := u8 (tb_len e) in
        let l := bytes_at (pib s) (tb_offset e) (Z.to_nat len) in
        let len :=
          if (attribute =? MAC_ATTR_BEACON_PAYLOAD) && (pib s off_beaconPayloadLen <=? len)
          then pib s off_beaconPayloadLen else len in
        Some (MAC_SUCCESS, GotBytes l len)
    end.

Definition tl_zbMacSecAttrDel (pibAttribute pibIndex : Z) s : Z * mac :=
  match table_of pibAttribute with
  | Some (l, cnt, release) => del_table l cnt release pibIndex s
  | None => (MAC_STA_INVALID_PARAMETER, s)
  end.
End Ops.

Arguments mac : clear implicits.

(** ** The extended address *)
Definition startIEEEAddr : list Z := [0x38; 0xc1; 0xa4].

(** The random numbers and the clock are sequences of readings. *)
Class Entropy := { rnd : nat -> Z; tick : nat -> Z }.

Section Ieee.
Context `{Entropy} {F : Type} `{Flash F}.

(** [drv_generateRandomData]: the [i]-th byte on, with [randNums] so far. *)
Fixpoint random_loop (n : nat) (i : nat) (randNums : Z) (k : nat) : list Z * nat :=
  match n with
  | O => ([], k)
  | S n' =>
      let '(randNums, k) := if (i mod 4 =? 0)%nat then (u32 (rnd k), S k) else (randNums, k) in
      let '(l, k') := random_loop n' (S i) (Z.shiftr randNums 8) k in
      (Z.land randNums 0xff :: l, k')
  end.

Definition drv_generateRandomData (len : nat) (k : nat) : list Z * nat := random_loop len 0 0 k.

(** [do jitter = drv_u32Rand() & 0xfff; while(jitter == 0);] *)
Fixpoint jitter_loop (fuel : nat) (k : nat) : option (Z * nat) :=
  match fuel with
  | O => None
  | S fuel' =>
      let jitter := Z.land (rnd k) 0xfff in
      if jitter =? 0 then jitter_loop fuel' (S k) else Some (jitter, S k)
  end.

(** [while(!clock_time_exceed(t0, jitter));] *)
Fixpoint wait_loop (fuel : nat) (t0 us : Z) (j : nat) : option nat :=
  match fuel with
  | O => None
  | S fuel' =>
      if u32 (us * 16) <? u32 (u32 (tick j) - t0) then Some (S j) else wait_loop fuel' t0 us (S j)
  end.

Definition known_prefix (addr : list Z) : bool :=
  bool_decide (take 3 (drop 3 addr) = [0x38; 0xC1; 0xA4]) || bool_decide (take 3 (drop 3 addr) = [0xD1; 0x19; 0xC4]) ||
  bool_decide (take 3 (drop 3 addr) = [0xCB; 0x0B; 0xD8]).

(** The address that is copied to the PIB, and the flash. *)
Definition generateIEEEAddr (fuel : nat) (CFG_MAC_ADDRESS : Z) (k j : nat) (f : F) : option (list Z * F) :=
  let addr := fl_read f CFG_MAC_ADDRESS 8 in
  if bool_decide (addr = repeat 0xff 8) then
    let t0 := u32 (tick j) in
    '(jitter, k) ← jitter_loop fuel k;
    _ ← wait_loop fuel t0 jitter (S j);
    let addr := (drv_generateRandomData 5 k).1 ++ startIEEEAddr in
    let f := fl_write CFG_MAC_ADDRESS (take 6 (drop 2 addr)) f in
    let f := fl_write (CFG_MAC_ADDRESS + 6) (take 2 addr) f in
    Some (addr, f)
  else if known_prefix addr then
    Some (fl_read f (CFG_MAC_ADDRESS + 6) 2 ++ fl_read f CFG_MAC_ADDRESS 6, f)
  else Some (addr, f).
End Ieee.
