(* ===== verification/PibProps.v ===== *)
(** * The MAC information base: properties

    The plain attributes are independent cells, the descriptor tables are lists
    addressed by their index, the address made at the first start is the one of
    every later start. *)
From S2P Require Import Prelude SpiFlash FlashIf Pib.

(** ** Bytes *)
Lemma mem_put_out p o l x : x < o \/ o + Z.of_nat (length l) <= x -> mem_put p o l x = p x.
Proof.
  intros Hx. unfold mem_put. destruct (Z.leb_spec o x), (Z.ltb_spec x (o + Z.of_nat (length l))); cbn [andb]; done || lia.
Qed.

Lemma mem_put_bytes p o l : bytes_at (mem_put p o l) o (length l) = l.
Proof.
  apply list_eq. intros i. destruct (decide (i < length l)%nat) as [Hi|Hi].
  - rewrite bytes_at_lookup by done. unfold mem_put.
    destruct (Z.leb_spec o (o + Z.of_nat i)), (Z.ltb_spec (o + Z.of_nat i) (o + Z.of_nat (length l))); cbn [andb]; try lia.
    replace (Z.to_nat (o + Z.of_nat i - o)) with i by lia.
    destruct (lookup_lt_is_Some_2 l i Hi) as [v Hv]. by rewrite nth_lookup, Hv.
  - rewrite !lookup_ge_None_2; [done|lia|rewrite length_bytes_at; lia].
Qed.

Lemma mem_put_bytes_out p o l a n :
  a + Z.of_nat n <= o \/ o + Z.of_nat (length l) <= a -> bytes_at (mem_put p o l) a n = bytes_at p a n.
Proof. intros Hx. apply bytes_at_ext. intros i Hi. apply mem_put_out. lia. Qed.

(** ** Plain attributes *)

(** The attributes that are cells of the structure. *)
Definition plain_attr (a : Z) : Prop := 0x40 <= a <= 0x5E.

Definition entry (a : Z) : mac_pibTbl_t := nth (Z.to_nat (a - 0x40)) g_zbMacPibTbl (mk_tbl 0 0 0 0).

(** No two entries of the plain part overlap, and the tables' part is after them. *)
Definition apart (e1 e2 : mac_pibTbl_t) : bool :=
  (tb_offset e1 + tb_len e1 <=? tb_offset e2) || (tb_offset e2 + tb_len e2 <=? tb_offset e1).

Lemma layout_apart :
  forallb (fun i => forallb (fun j => (i =? j)%nat || apart (nth i g_zbMacPibTbl (mk_tbl 0 0 0 0)) (nth j g_zbMacPibTbl (mk_tbl 0 0 0 0)))
    (seq 0 32)) (seq 0 32) = true.
Proof. vm_compute. reflexivity. Qed.

Lemma layout_sizes :
  forallb (fun i => let e := nth i g_zbMacPibTbl (mk_tbl 0 0 0 0) in
    (0 <=? tb_offset e) && (0 <? tb_len e) && (tb_len e <? 256) && (tb_offset e + tb_len e <=? 76)) (seq 0 32) = true.
Proof. vm_compute. reflexivity. Qed.

Lemma entry_size a : 0x40 <= a <= 0x5F ->
  0 <= tb_offset (entry a) /\ 0 < tb_len (entry a) < 256 /\ tb_offset (entry a) + tb_len (entry a) <= 76.
Proof.
  intros Ha. pose proof layout_sizes as Hs. rewrite forallb_forall in Hs.
  specialize (Hs (Z.to_nat (a - 0x40)) ltac:(apply in_seq; lia)). cbn zeta in Hs. fold (entry a) in Hs. lia.
Qed.

Lemma entry_apart a b : 0x40 <= a <= 0x5F -> 0x40 <= b <= 0x5F -> a <> b ->
  tb_offset (entry a) + tb_len (entry a) <= tb_offset (entry b) \/
  tb_offset (entry b) + tb_len (entry b) <= tb_offset (entry a).
Proof.
  intros Ha Hb Hne. pose proof layout_apart as Hs. rewrite forallb_forall in Hs.
  specialize (Hs (Z.to_nat (a - 0x40)) ltac:(apply in_seq; lia)). rewrite forallb_forall in Hs.
  specialize (Hs (Z.to_nat (b - 0x40)) ltac:(apply in_seq; lia)). unfold apart in Hs.
  fold (entry a) (entry b) in Hs. apply orb_true_iff in Hs as [Hs|Hs]; [apply Nat.eqb_eq in Hs; lia|lia].
Qed.

Lemma entry_lookup a : 0x40 <= a <= 0x5F -> g_zbMacPibTbl !! Z.to_nat (a - MAC_PIB_ATTRIBUTE_START) = Some (entry a).
Proof.
  intros Ha. unfold entry, MAC_PIB_ATTRIBUTE_START.
  destruct (lookup_lt_is_Some_2 g_zbMacPibTbl (Z.to_nat (a - 0x40))) as [e He]; [cbn; lia|].
  by rewrite He, nth_lookup, He.
Qed.

Section Attr.
Context {L : Type} `{TnLib L}.
Implicit Type s : mac L.

Lemma no_table a : a < 0x71 -> @table_of L _ a = None.
Proof.
  intros Ha. unfold table_of, MAC_KEY_TABLE, MAC_DEVICE_TABLE, MAC_SECURITY_LEVEL_TABLE.
  by rewrite !(proj2 (Z.eqb_neq a _)) by lia.
Qed.

Lemma get_plain a index s : 0x40 <= a <= 0x5F ->
  exists len, tl_zbMacAttrGet a index s =
    Some (MAC_SUCCESS, GotBytes (bytes_at (pib s) (tb_offset (entry a)) (Z.to_nat (tb_len (entry a)))) len) /\
    (a <> MAC_ATTR_BEACON_PAYLOAD -> len = tb_len (entry a)).
Proof.
  intros Ha. unfold tl_zbMacAttrGet, MAC_PHY_ATTR_CURRENT_CHANNEL.
  rewrite (proj2 (Z.eqb_neq a 0)) by lia. unfold MAC_PIB_ATTRIBUTE_STOP.
  rewrite (proj2 (Z.ltb_ge 0x7f a)), (proj2 (Z.ltb_ge a MAC_PIB_ATTRIBUTE_START))
    by (unfold MAC_PIB_ATTRIBUTE_START; lia). cbn [orb].
  rewrite no_table, entry_lookup by lia. cbn [mbind option_bind].
  destruct (entry_size a Ha) as (_ & Hl & _). rewrite u8_small by lia.
  eexists. split; [reflexivity|]. intros Hne. by rewrite (proj2 (Z.eqb_neq _ _) Hne).
Qed.

Lemma pib_attr_cell a value buf s :
  plain_attr a ->
  exists s', tl_zbMacAttrSet a value buf (tb_len (entry a)) s = Some (MAC_SUCCESS, buf, s') /\
    (exists len, tl_zbMacAttrGet a 0 s' = Some (MAC_SUCCESS, GotBytes (bytes_at buf 0 (Z.to_nat (tb_len (entry a)))) len)) /\
    (forall b, 0x40 <= b <= 0x5F -> b <> a ->
       exists v len len', tl_zbMacAttrGet b 0 s = Some (MAC_SUCCESS, GotBytes v len) /\
         tl_zbMacAttrGet b 0 s' = Some (MAC_SUCCESS, GotBytes v len')) /\
    tn s' = tn s /\ forall x, 76 <= x -> pib s' x = pib s x.
Proof.
  intros Ha. unfold plain_attr in Ha. destruct (entry_size a ltac:(lia)) as (Ho & Hl & Hmax).
  unfold tl_zbMacAttrSet, MAC_TX_POWER, MAC_PHY_ATTR_CURRENT_CHANNEL, MAC_PIB_ATTRIBUTE_STOP, MAC_KEY_TABLE.
  rewrite !(proj2 (Z.eqb_neq a _)) by lia.
  rewrite (proj2 (Z.ltb_ge 0x7f a)), (proj2 (Z.ltb_ge a MAC_PIB_ATTRIBUTE_START))
    by (unfold MAC_PIB_ATTRIBUTE_START; lia). cbn [orb].
  rewrite no_table, (proj2 (Z.leb_gt _ a)), Z.sub_0_r, entry_lookup by lia. cbn [mbind option_bind].
  rewrite Z.ltb_irrefl. eexists. split; [reflexivity|].
  set (l := bytes_at buf 0 _). assert (Hll : length l = Z.to_nat (tb_len (entry a))) by apply length_bytes_at.
  cbn [with_pib tn pib]. split_and!; [| |done|].
  - destruct (get_plain a 0 (with_pib (mem_put (pib s) (tb_offset (entry a)) l) s)) as (len & E & _); [lia|].
    exists len. unfold with_pib in E |- *. rewrite E. cbn [pib]. rewrite <-Hll, mem_put_bytes. done.
  - intros b Hb Hne. destruct (get_plain b 0 s Hb) as (len & E & _).
    destruct (get_plain b 0 (with_pib (mem_put (pib s) (tb_offset (entry a)) l) s) Hb) as (len' & E' & _).
    eexists _, len, len'. split; [exact E|]. unfold with_pib in E' |- *. rewrite E'. cbn [pib]. rewrite mem_put_bytes_out; [done|].
    destruct (entry_apart a b) as [?|?]; try lia. pose proof (entry_size b Hb). lia.
  - intros x Hx. apply mem_put_out. lia.
Qed.

(** C34. The attributes 0x40 to 0x5E are independent cells: a value that is set with
    the attribute's size is what the next get returns, whatever the index, no
    other attribute's value changes, and neither the descriptor tables nor
    their counters do. *)
Theorem pib_attr_roundtrip a value buf s :
  plain_attr a ->
  exists s', tl_zbMacAttrSet a value buf (tb_len (entry a)) s = Some (MAC_SUCCESS, buf, s') /\
    (exists len, tl_zbMacAttrGet a 0 s' = Some (MAC_SUCCESS, GotBytes (bytes_at buf 0 (Z.to_nat (tb_len (entry a)))) len)) /\
    (forall b, 0x40 <= b <= 0x5F -> b <> a ->
       exists v len len', tl_zbMacAttrGet b 0 s = Some (MAC_SUCCESS, GotBytes v len) /\
         tl_zbMacAttrGet b 0 s' = Some (MAC_SUCCESS, GotBytes v len')) /\
    tn s' = tn s /\ forall x, 76 <= x -> pib s' x = pib s x.
Proof. apply pib_attr_cell. Qed.

(** The security attributes that are no tables can be set but never read:
    [tl_zbMacAttrSet] skips the unused identifiers between 0x60 and 0x70,
    [tl_zbMacAttrGet] does not, so that it looks beyond the table. *)
Theorem pib_security_get_outside a index value buf s :
  0x71 <= a <= 0x7e -> @table_of L _ a = None ->
  (exists s', tl_zbMacAttrSet a value buf 1 s = Some (MAC_SUCCESS, buf, s')) /\ tl_zbMacAttrGet a index s = None.
Proof.
  intros Ha Ht. split.
  - unfold tl_zbMacAttrSet, MAC_TX_POWER, MAC_PHY_ATTR_CURRENT_CHANNEL, MAC_PIB_ATTRIBUTE_STOP, MAC_KEY_TABLE.
    rewrite !(proj2 (Z.eqb_neq a _)) by lia.
    rewrite (proj2 (Z.ltb_ge 0x7f a)), (proj2 (Z.ltb_ge a MAC_PIB_ATTRIBUTE_START))
      by (unfold MAC_PIB_ATTRIBUTE_START; lia). cbn [orb].
    rewrite Ht, (proj2 (Z.leb_le _ a)) by lia. unfold MAC_PIB_ATTRIBUTE_START.
    assert (Hs : forallb (fun i => match g_zbMacPibTbl !! i with Some e => 1 <=? tb_len e | None => false end) (seq 32 14) = true)
      by (vm_compute; reflexivity).
    rewrite forallb_forall in Hs. specialize (Hs (Z.to_nat (a - 64 - (0x71 - 0x5F - 1))) ltac:(apply in_seq; lia)).
    destruct (g_zbMacPibTbl !! _) as [e|]; [|done]. cbn [mbind option_bind].
    rewrite (proj2 (Z.ltb_ge (tb_len e) 1)) by lia. by eexists.
  - unfold tl_zbMacAttrGet, MAC_PHY_ATTR_CURRENT_CHANNEL, MAC_PIB_ATTRIBUTE_STOP.
    rewrite (proj2 (Z.eqb_neq a 0)) by lia.
    rewrite (proj2 (Z.ltb_ge 0x7f a)), (proj2 (Z.ltb_ge a MAC_PIB_ATTRIBUTE_START))
      by (unfold MAC_PIB_ATTRIBUTE_START; lia). cbn [orb].
    rewrite Ht. unfold MAC_PIB_ATTRIBUTE_START. rewrite lookup_ge_None_2; [done|]. cbn [length g_zbMacPibTbl]. lia.
Qed.
End Attr.
