(* ===== verification/PibTables.v ===== *)
(** * The MAC information base: the tables of descriptors

    The tables are lists of descriptors of a binary library; what the code relies
    on is [TnLaws].  Set, get and delete by index refine the operations of a list. *)
From S2P Require Import Prelude SpiFlash FlashIf Pib PibProps.

(** A descriptor is in one list at most, once; 0 is no descriptor. *)
Class TnLaws (L : Type) `{TnLib L} := {
  tn_ok : L -> Prop;
  tn_items : tn_name -> L -> list Z;
  tn_nodup t l : tn_ok t -> NoDup (tn_items l t);
  tn_disjoint t l l' x : tn_ok t -> x ∈ tn_items l t -> x ∈ tn_items l' t -> l = l';
  tn_nonzero t l : tn_ok t -> 0 ∉ tn_items l t;
  tn_head_law t l : tn_ok t -> tn_list_head l t = default 0 (head (tn_items l t));
  tn_next_law t l l1 l2 x :
    tn_ok t -> tn_items l t = l1 ++ x :: l2 -> tn_list_item_next x t = default 0 (head l2);
  tn_add_law t l x :
    tn_ok t -> x <> 0 -> (forall l', x ∉ tn_items l' t) ->
    tn_ok (tn_list_add l x t) /\
    forall l', tn_items l' (tn_list_add l x t) = if decide (l' = l) then tn_items l t ++ [x] else tn_items l' t;
  tn_push_law t l x :
    tn_ok t -> x <> 0 -> (forall l', x ∉ tn_items l' t) ->
    tn_ok (tn_list_push l x t) /\
    forall l', tn_items l' (tn_list_push l x t) = if decide (l' = l) then x :: tn_items l t else tn_items l' t;
  tn_insert_law t l l1 l2 p x :
    tn_ok t -> x <> 0 -> (forall l', x ∉ tn_items l' t) -> tn_items l t = l1 ++ p :: l2 ->
    tn_ok (tn_list_insert l p x t) /\
    forall l', tn_items l' (tn_list_insert l p x t) = if decide (l' = l) then l1 ++ p :: x :: l2 else tn_items l' t;
  tn_remove_law t l l1 l2 x :
    tn_ok t -> tn_items l t = l1 ++ x :: l2 ->
    tn_ok (tn_list_remove l x t) /\
    forall l', tn_items l' (tn_list_remove l x t) = if decide (l' = l) then l1 ++ l2 else tn_items l' t;
  tn_free_law t k x :
    tn_ok t -> tn_ok (tn_mem_free k x t).2 /\ forall l, tn_items l (tn_mem_free k x t).2 = tn_items l t;
  tn_pop_law t k i :
    tn_ok t -> tn_ok (key_pop k i t).2 /\ forall l, tn_items l (key_pop k i t).2 = tn_items l t
}.

(** ** The three tables as lists *)
Inductive tbl_op := TSet (attribute value index : Z) | TGet (attribute index : Z) | TDel (attribute index : Z).

Definition tables := tn_name -> list Z.

Definition name_of (a : Z) : option tn_name :=
  if a =? MAC_KEY_TABLE then Some macKeyTable
  else if a =? MAC_DEVICE_TABLE then Some macDevTable
  else if a =? MAC_SECURITY_LEVEL_TABLE then Some macSecLvlTable else None.

Definition upd_tbl (n : tn_name) (l : list Z) (m : tables) : tables := fun n' => if decide (n' = n) then l else m n'.

(** The result of an operation: its status and the descriptor it yields. *)
Definition tbl_model (op : tbl_op) (m : tables) : (Z * option Z) * tables :=
  match op with
  | TSet a v i =>
      match name_of a with
      | Some n =>
          let k := Z.to_nat i in
          if (length (m n) <? k)%nat then ((MAC_STA_INVALID_PARAMETER, None), m)
          else if (k =? length (m n))%nat then ((MAC_SUCCESS, None), upd_tbl n (m n ++ [v]) m)
          else ((MAC_SUCCESS, None), upd_tbl n (<[k := v]> (m n)) m)
      | None => ((MAC_STA_INVALID_PARAMETER, None), m)
      end
  | TGet a i =>
      match name_of a ≫= fun n => m n !! Z.to_nat i with
      | Some x => ((MAC_SUCCESS, Some x), m)
      | None => ((MAC_STA_INVALID_PARAMETER, None), m)
      end
  | TDel a i =>
      match name_of a with
      | Some n =>
          if (length (m n) <=? Z.to_nat i)%nat then ((MAC_STA_INVALID_PARAMETER, None), m)
          else ((MAC_SUCCESS, None), upd_tbl n (delete (Z.to_nat i) (m n)) m)
      | None => ((MAC_STA_INVALID_PARAMETER, None), m)
      end
  end.

(** A table attribute, an index of 8 bits, a descriptor that is in no list, and
    room for the counter. *)
Definition tbl_op_ok (op : tbl_op) (m : tables) : Prop :=
  match op with
  | TSet a v i => is_Some (name_of a) /\ 0 <= i < 256 /\ v <> 0 /\ (forall n, v ∉ m n) /\
                  forall n, (length (m n) < 255)%nat
  | TGet a i | TDel a i => is_Some (name_of a) /\ 0 <= i < 256
  end.

Fixpoint tbl_models (ops : list tbl_op) (m : tables) : list (Z * option Z) * tables :=
  match ops with
  | [] => ([], m)
  | op :: ops => let '(r, m) := tbl_model op m in let '(rs, m) := tbl_models ops m in (r :: rs, m)
  end.

Fixpoint tbl_ops_ok (ops : list tbl_op) (m : tables) : Prop :=
  match ops with
  | [] => True
  | op :: ops => tbl_op_ok op m /\ tbl_ops_ok ops (tbl_model op m).2
  end.

Section Tables.
Context {L : Type} `{TnLaws L}.
Implicit Types (s : mac L) (t : L).

Definition tbl_call (op : tbl_op) s : option ((Z * option Z) * mac L) :=
  match op with
  | TSet a v i => '(r, _, s') ← tl_zbMacAttrSet a v (fun _ => 0) i s; Some ((r, None), s')
  | TGet a i =>
      '(r, g) ← tl_zbMacAttrGet a i s;
      Some ((r, match g with GotItem p => Some p | _ => None end), s)
  | TDel a i => let '(r, s') := tl_zbMacSecAttrDel a i s in Some ((r, None), s')
  end.

Definition counter (n : tn_name) : Z :=
  match n with
  | macKeyTable => off_keyTableEntries | macDevTable => off_devTableEntries
  | macSecLvlTable => off_secLvlTableEntries | macKeyDevTable => -1
  end.

(** The counters are the lengths of the lists. *)
Record tables_at (m : tables) s : Prop := {
  ta_ok : tn_ok (tn s);
  ta_items : forall n, tn_items n (tn s) = m n;
  ta_count : forall n, n <> macKeyDevTable -> pib s (counter n) = Z.of_nat (length (m n)) /\ (length (m n) < 256)%nat
}.

(** ** Release *)
Definition keeps t t' : Prop := tn_ok t' /\ forall l, tn_items l t' = tn_items l t.

Lemma keeps_trans t1 t2 t3 : keeps t1 t2 -> keeps t2 t3 -> keeps t1 t3.
Proof. intros [_ H1'] [H2 H2']. split; [done|]. intros l. by rewrite H2', H1'. Qed.

Lemma free_keeps k x t : tn_ok t -> keeps t (tn_mem_free k x t).2.
Proof. intros Ht. by apply tn_free_law. Qed.

Lemma free_list_keeps n k key i t : tn_ok t -> keeps t (free_list n k key i t).
Proof.
  revert t. induction n as [|n IH]; intros t Ht; cbn [free_list]; [by split|].
  destruct (tn_pop_law t key i Ht) as [Hp Hi]. destruct (key_pop key i t) as [item t1]. cbn [snd] in *.
  pose proof (free_keeps k item t1 Hp) as Hf. eapply keeps_trans; [split; [exact Hp|exact Hi]|].
  eapply keeps_trans; [exact Hf|]. apply IH, Hf.
Qed.

Lemma key_free_keeps key t : tn_ok t -> keeps t (mac_key_free key t).
Proof.
  intros Ht. unfold mac_key_free.
  eapply keeps_trans; [apply free_list_keeps, Ht|]. eapply keeps_trans; [apply free_list_keeps, free_list_keeps, Ht|].
  eapply keeps_trans; [apply free_list_keeps, free_list_keeps, free_list_keeps, Ht|].
  apply free_keeps, free_list_keeps, free_list_keeps, free_list_keeps, Ht.
Qed.

Lemma table_of_spec a n : name_of a = Some n ->
  exists release, table_of a = Some (n, counter n, release) /\ n <> macKeyDevTable /\
    forall x t, tn_ok t -> keeps t (release x t).
Proof.
  unfold name_of, table_of.
  destruct (a =? MAC_KEY_TABLE); [intros [= <-]; eexists; split_and!; [done|done|intros; by apply key_free_keeps]|].
  destruct (a =? MAC_DEVICE_TABLE); [intros [= <-]; eexists; split_and!; [done|done|intros; by apply free_keeps]|].
  destruct (a =? MAC_SECURITY_LEVEL_TABLE); [|done].
  intros [= <-]; eexists; split_and!; [done|done|intros; by apply free_keeps].
Qed.

Lemma name_of_range a n : name_of a = Some n -> a = 0x71 \/ a = 0x73 \/ a = 0x75.
Proof.
  unfold name_of, MAC_KEY_TABLE, MAC_DEVICE_TABLE, MAC_SECURITY_LEVEL_TABLE.
  destruct (Z.eqb_spec a 0x71), (Z.eqb_spec a 0x73), (Z.eqb_spec a 0x75); auto; done.
Qed.

(** ** The walk to an index *)
Lemma walk_spec t l l1 l2 item2 x :
  tn_ok t -> tn_items l t = l1 ++ l2 -> (length l2 > 0)%nat ->
  forall k, (k < length l2)%nat -> x = default 0 (head l2) ->
  walk k item2 x t = (if (k =? 0)%nat then item2 else nth (k - 1) l2 0, nth k l2 0).
Proof.
  intros Ht. revert l1 item2 x. induction l2 as [|y l2 IH]; intros l1 item2 x Hi Hl k Hk Hx; [cbn in Hl; lia|].
  cbn in Hx. subst x. destruct k as [|k]; [done|]. cbn [walk].
  rewrite (tn_next_law t l l1 l2 y Ht Hi). cbn [length] in Hk.
  rewrite (IH (l1 ++ [y]) y _); [|by rewrite <-app_assoc|lia|lia|done].
  cbn [Nat.eqb]. replace (S k - 1)%nat with k by lia. destruct k; [done|]. cbn [Nat.eqb nth]. f_equal.
  by replace (S k - 1)%nat with k by lia.
Qed.

Lemma walk_index t l k :
  tn_ok t -> (k < length (tn_items l t))%nat ->
  walk k 0 (tn_list_head l t) t =
  (if (k =? 0)%nat then 0 else nth (k - 1) (tn_items l t) 0, nth k (tn_items l t) 0).
Proof.
  intros Ht Hk. rewrite (tn_head_law t l Ht). apply (walk_spec t l [] (tn_items l t)); (done || lia).
Qed.

(** The list around an index. *)
Lemma around (l : list Z) k : (k < length l)%nat ->
  l = take k l ++ nth k l 0 :: drop (S k) l.
Proof.
  intros Hk. destruct (lookup_lt_is_Some_2 l k Hk) as [x Hx].
  rewrite nth_lookup, Hx. symmetry. by apply take_drop_middle.
Qed.

Lemma in_range a : 0x40 <= a <= 0x7f -> (MAC_PIB_ATTRIBUTE_STOP <? a) || (a <? MAC_PIB_ATTRIBUTE_START) = false.
Proof. unfold MAC_PIB_ATTRIBUTE_STOP, MAC_PIB_ATTRIBUTE_START. lia. Qed.

Lemma put_count p n v : mem_put p (counter n) [v] (counter n) = v.
Proof.
  unfold mem_put. cbn [length]. rewrite Z.leb_refl, (proj2 (Z.ltb_lt _ _)) by lia. cbn [andb].
  by rewrite Z.sub_diag.
Qed.

Lemma put_count_other p n n' v : n' <> n -> mem_put p (counter n) [v] (counter n') = p (counter n').
Proof.
  intros Hn. apply mem_put_out. cbn [length].
  destruct n, n'; try done; unfold counter, off_keyTableEntries, off_devTableEntries, off_secLvlTableEntries; lia.
Qed.

(** ** The operations *)
Lemma set_table_spec m s n release v i :
  tables_at m s -> n <> macKeyDevTable -> (forall x t, tn_ok t -> keeps t (release x t)) ->
  0 <= i < 256 -> v <> 0 -> (forall n', v ∉ m n') -> (length (m n) < 255)%nat ->
  let '(r, s') := set_table n (counter n) release v i s in
  let k := Z.to_nat i in
  if (length (m n) <? k)%nat then r = MAC_STA_INVALID_PARAMETER /\ tables_at m s'
  else r = MAC_SUCCESS /\
    tables_at (upd_tbl n (if (k =? length (m n))%nat then m n ++ [v] else <[k := v]> (m n)) m) s'.
Proof.
  intros [Hok Hit Hct] Hn Hrel Hi Hv Hfresh Hlen. unfold set_table.
  destruct (Hct n Hn) as [Hc Hmax]. rewrite Hc. set (k := Z.to_nat i).
  destruct (Nat.ltb_spec (length (m n)) k) as [Hlt|Hge].
  { rewrite (proj2 (Z.ltb_lt _ _)) by lia. done. }
  rewrite (proj2 (Z.ltb_ge _ _)) by lia. destruct (Nat.eqb_spec k (length (m n))) as [Ek|Hne].
  - rewrite (proj2 (Z.eqb_eq _ _)) by lia. split; [done|].
    destruct (tn_add_law (tn s) n v Hok Hv) as [Hok' Hit']; [intros l'; by rewrite Hit|].
    split; cbn [with_pib with_tn tn pib].
    + done.
    + intros n'. rewrite Hit'. unfold upd_tbl. case_decide; by rewrite Hit.
    + intros n' Hn'. unfold upd_tbl. case_decide as En.
      * subst n'. rewrite length_app. cbn [length]. split; [|lia].
        rewrite put_count, u8_small; lia.
      * rewrite put_count_other by done. by apply Hct.
  - rewrite (proj2 (Z.eqb_neq _ _)) by lia. fold k.
    assert (Hk : (k < length (tn_items n (tn s)))%nat) by (rewrite Hit; lia).
    rewrite (walk_index (tn s) n k Hok Hk), Hit.
    set (item := nth k (m n) 0). pose proof (around (m n) k ltac:(lia)) as Ear. fold item in Ear.
    destruct (tn_remove_law (tn s) n (take k (m n)) (drop (S k) (m n)) item Hok) as [Hok1 Hit1]; [by rewrite Hit|].
    set (t1 := tn_list_remove n item (tn s)) in *.
    assert (Hfr1 : forall l', v ∉ tn_items l' t1).
    { intros l'. rewrite Hit1. case_decide; [|by rewrite Hit]. intros Hin. apply (Hfresh n). rewrite Ear.
      set_solver. }
    assert (Hnew : <[k:=v]> (m n) = take k (m n) ++ v :: drop (S k) (m n)) by (apply insert_take_drop; lia).
    set (item2 := if (k =? 0)%nat then 0 else _).
    set (t2 := if negb (item2 =? 0) then _ else _).
    assert (Hres : tn_ok t2 /\ forall l', tn_items l' t2 = if decide (l' = n) then <[k:=v]> (m n) else tn_items l' t1).
    { unfold t2, item2. destruct (Nat.eqb_spec k 0) as [E0|Hk0].
      - change (negb (0 =? 0)) with false. cbv iota. destruct (tn_push_law t1 n v Hok1 Hv Hfr1) as [Hok2 Hit2].
        split; [done|]. intros l'. rewrite Hit2. case_decide; [|done]. rewrite Hit1, decide_True, Hnew by done.
        by rewrite E0.
      - pose proof (around (m n) (k - 1) ltac:(lia)) as Ear2. set (p := nth (k - 1) (m n) 0) in *.
        assert (Hp : p <> 0).
        { intros Ep. apply (tn_nonzero (tn s) n Hok). rewrite Hit, Ear2, Ep. set_solver. }
        rewrite (proj2 (Z.eqb_neq p 0) Hp). cbn [negb].
        assert (Etk : take k (m n) = take (k - 1) (m n) ++ [p]).
        { destruct (lookup_lt_is_Some_2 (m n) (k - 1)) as [y Hy]; [lia|].
          replace k with (S (k - 1)) at 1 by lia. rewrite (take_S_r _ _ y Hy). unfold p. by rewrite nth_lookup, Hy. }
        destruct (tn_insert_law t1 n (take (k - 1) (m n)) (drop (S k) (m n)) p v Hok1 Hv Hfr1) as [Hok2 Hit2].
        { rewrite Hit1, decide_True, Etk by done. by rewrite <-app_assoc. }
        split; [done|]. intros l'. rewrite Hit2. case_decide; [|done]. rewrite Hnew, Etk.
        by rewrite <-app_assoc. }
    destruct Hres as [Hok2 Hit2]. destruct (Hrel item t2 Hok2) as [Hok3 Hit3].
    split; [done|]. split; cbn [with_tn tn pib].
    + done.
    + intros n'. rewrite Hit3, Hit2. unfold upd_tbl. case_decide; [done|]. by rewrite Hit1, decide_False, Hit by done.
    + intros n' Hn'. unfold upd_tbl. case_decide as En; [|by apply Hct]. subst n'. rewrite length_insert. by rewrite Hc.
Qed.

Lemma get_table_spec m s n i :
  tables_at m s -> n <> macKeyDevTable -> 0 <= i ->
  get_table n (counter n) i s =
  match m n !! Z.to_nat i with
  | Some x => (MAC_SUCCESS, Some x)
  | None => (MAC_STA_INVALID_PARAMETER, None)
  end.
Proof.
  intros [Hok Hit Hct] Hn Hi. unfold get_table. destruct (Hct n Hn) as [Hc _]. rewrite Hc.
  destruct (Z.leb_spec (Z.of_nat (length (m n))) i) as [Hle|Hlt].
  - by rewrite lookup_ge_None_2 by lia.
  - rewrite walk_index, Hit by (rewrite ?Hit; done || lia). cbn [snd].
    destruct (lookup_lt_is_Some_2 (m n) (Z.to_nat i)) as [x Hx]; [lia|]. by rewrite nth_lookup, Hx.
Qed.

Lemma del_table_spec m s n release i :
  tables_at m s -> n <> macKeyDevTable -> (forall x t, tn_ok t -> keeps t (release x t)) -> 0 <= i ->
  let '(r, s') := del_table n (counter n) release i s in
  if (length (m n) <=? Z.to_nat i)%nat then r = MAC_STA_INVALID_PARAMETER /\ tables_at m s'
  else r = MAC_SUCCESS /\ tables_at (upd_tbl n (delete (Z.to_nat i) (m n)) m) s'.
Proof.
  intros [Hok Hit Hct] Hn Hrel Hi. unfold del_table. destruct (Hct n Hn) as [Hc Hmax]. rewrite Hc.
  set (k := Z.to_nat i). destruct (Nat.leb_spec (length (m n)) k) as [Hle|Hlt].
  { rewrite (proj2 (Z.leb_le _ _)) by lia. done. }
  rewrite (proj2 (Z.leb_gt _ _)) by lia. fold k. rewrite walk_index, Hit by (rewrite ?Hit; done || lia). cbn [snd].
  destruct (tn_remove_law (tn s) n (take k (m n)) (drop (S k) (m n)) (nth k (m n) 0) Hok) as [Hok1 Hit1].
  { rewrite Hit. by apply around. }
  destruct (Hrel (nth k (m n) 0) _ Hok1) as [Hok2 Hit2]. split; [done|]. split; cbn [with_pib with_tn tn pib].
  - done.
  - intros n'. rewrite Hit2, Hit1. unfold upd_tbl. case_decide; [|by rewrite Hit]. by rewrite delete_take_drop.
  - intros n' Hn'. unfold upd_tbl. case_decide as En; [|rewrite put_count_other by done; by apply Hct].
    subst n'. rewrite put_count, length_delete, u8_small by (lia || by apply lookup_lt_is_Some_2). lia.
Qed.

Lemma call_spec op m s :
  tables_at m s -> tbl_op_ok op m ->
  exists s', tbl_call op s = Some ((tbl_model op m).1, s') /\ tables_at (tbl_model op m).2 s'.
Proof.
  intros Hat Hop.
  assert (Hn : exists a n, name_of a = Some n /\ match op with TSet a' _ _ | TGet a' _ | TDel a' _ => a' = a end).
  { destruct op; destruct Hop as [[n Hn] _]; by eexists _, n. }
  destruct Hn as (a & n & Hn & Ea). pose proof (name_of_range a n Hn) as Hr.
  destruct (table_of_spec a n Hn) as (release & Et & Hnk & Hrel).
  destruct op as [a' v i|a' i|a' i]; subst a'; cbn [tbl_call tbl_model]; rewrite Hn.
  - destruct Hop as (_ & Hi & Hv & Hf & Hl). unfold tl_zbMacAttrSet, MAC_TX_POWER, MAC_PHY_ATTR_CURRENT_CHANNEL.
    rewrite !(proj2 (Z.eqb_neq a _)) by lia. rewrite in_range, Et by lia.
    pose proof (set_table_spec m s n release v i Hat Hnk Hrel Hi Hv Hf (Hl n)) as Hs.
    destruct (set_table _ _ _ _ _ _) as [r s']. cbn [mbind option_bind].
    cbn zeta in Hs. destruct (_ <? _)%nat; destruct Hs as [-> Hs]; [by exists s'|]. exists s'. by destruct (_ =? _)%nat.
  - destruct Hop as (_ & Hi). unfold tl_zbMacAttrGet, MAC_PHY_ATTR_CURRENT_CHANNEL.
    rewrite (proj2 (Z.eqb_neq a _)) by lia. rewrite in_range, Et, (get_table_spec m) by (done || lia).
    cbn [mbind option_bind]. exists s. by destruct (m n !! Z.to_nat i).
  - destruct Hop as (_ & Hi). unfold tl_zbMacSecAttrDel. rewrite Et.
    pose proof (del_table_spec m s n release i Hat Hnk Hrel ltac:(lia)) as Hs.
    destruct (del_table _ _ _ _ _) as [r s']. exists s'. destruct (_ <=? _)%nat; by destruct Hs as [-> Hs].
Qed.

Fixpoint tbl_calls (ops : list tbl_op) s : option (list (Z * option Z) * mac L) :=
  match ops with
  | [] => Some ([], s)
  | op :: ops => '(r, s) ← tbl_call op s; '(rs, s) ← tbl_calls ops s; Some (r :: rs, s)
  end.

(** C8. The key, device and security level tables refine lists: any sequence of
    sets, gets and deletes by index, each set of a descriptor that is in no
    list, gives the answers of the same operations on lists, where a set at
    the length appends, a set below it replaces and a delete shifts the rest
    down; the counters in the PIB stay the lengths.  The order of the list,
    the removal and the release of the old descriptor are those of the code,
    on any list library with the laws. *)
Theorem pib_tables_refine ops m s :
  tables_at m s -> tbl_ops_ok ops m ->
  exists s', tbl_calls ops s = Some ((tbl_models ops m).1, s') /\ tables_at (tbl_models ops m).2 s'.
Proof.
  revert m s. induction ops as [|op ops IH]; intros m s Hat Hok; [by exists s|].
  cbn [tbl_ops_ok tbl_models tbl_calls] in *. destruct Hok as [Hop Hok].
  destruct (call_spec op m s Hat Hop) as (s1 & -> & Hat1). cbn [mbind option_bind].
  destruct (tbl_model op m) as [r m1]. cbn [fst snd] in *.
  destruct (IH m1 s1 Hat1 Hok) as (s' & -> & Hat'). cbn [mbind option_bind].
  destruct (tbl_models ops m1) as [rs m2]. by exists s'.
Qed.
End Tables.
