(* ===== verification/PibIeee.v ===== *)
(** * The extended address

    [generateIEEEAddr] makes an address when the MAC area is blank and stores it
    rotated by two bytes; a later start finds one of the vendor prefixes in the
    middle of the area and turns the address back.  In a chip that is protected
    the address is not stored. *)
From S2P Require Import Prelude SpiFlash FlashIf Pib.

Section Ieee.
Context `{Entropy} {F : Type} `{FlashLaws F}.

(** ** The loops end *)
Lemma jitter_loop_ends fuel k n :
  (n < fuel)%nat -> Z.land (rnd (k + n)) 0xfff <> 0 ->
  exists jitter k', jitter_loop fuel k = Some (jitter, k') /\ 0 < jitter <= 0xfff.
Proof.
  revert k n. induction fuel as [|fuel IH]; intros k n Hn Hr; [lia|]. cbn [jitter_loop].
  pose proof (Z.land_ones (rnd k) 12 ltac:(lia)) as E. change (Z.ones 12) with 0xfff in E.
  pose proof (Z.mod_pos_bound (rnd k) (2 ^ 12) ltac:(lia)) as Hb. rewrite <-E in Hb.
  destruct (Z.eqb_spec (Z.land (rnd k) 0xfff) 0) as [E0|Hne].
  - destruct n as [|n]; [rewrite Nat.add_0_r in Hr; done|]. apply (IH (S k) n); [lia|].
    by replace (S k + n)%nat with (k + S n)%nat by lia.
  - eexists _, _. split; [reflexivity|]. lia.
Qed.

Lemma wait_loop_ends fuel t0 us j n :
  (n < fuel)%nat -> u32 (us * 16) < u32 (u32 (tick (j + n)) - t0) ->
  exists j', wait_loop fuel t0 us j = Some j'.
Proof.
  revert j n. induction fuel as [|fuel IH]; intros j n Hn Ht; [lia|]. cbn [wait_loop].
  destruct (Z.ltb_spec (u32 (us * 16)) (u32 (u32 (tick j) - t0))) as [Hlt|Hge]; [by eexists|].
  destruct n as [|n]; [rewrite Nat.add_0_r in Ht; lia|]. apply (IH (S j) n); [lia|].
  by replace (S j + n)%nat with (j + S n)%nat by lia.
Qed.

(** ** The random bytes *)
Lemma random_loop_bytes n i r k :
  length (random_loop n i r k).1 = n /\ Forall (fun v => 0 <= v < 256) (random_loop n i r k).1.
Proof.
  revert i r k. induction n as [|n IH]; intros i r k; cbn [random_loop]; [done|].
  set (p := if (i mod 4 =? 0)%nat then _ else _). destruct p as [r' k'].
  specialize (IH (S i) (Z.shiftr r' 8) k'). destruct (random_loop n (S i) _ k') as [l k'']. cbn [fst length] in *.
  destruct IH as [Hl Hf]. split; [lia|]. constructor; [|done].
  pose proof (Z.land_ones r' 8 ltac:(lia)) as E. change (Z.ones 8) with 0xff in E. rewrite E.
  apply Z.mod_pos_bound. lia.
Qed.

(** ** The area *)
Definition ieee_area (addr : list Z) : list Z := drop 2 addr ++ take 2 addr.

(** Two programs of blank, unprotected flash next to each other. *)
Lemma program_twice f a l1 l2 :
  fl_ok f -> flash_range a (length l1) -> flash_range (a + Z.of_nat (length l1)) (length l2) ->
  Forall (fun v => 0 <= v < 256) l1 -> Forall (fun v => 0 <= v < 256) l2 ->
  (forall x, a <= x < a + Z.of_nat (length l1 + length l2) -> fl_byte f x = 255 /\ fl_prot f x = false) ->
  let f' := fl_write (a + Z.of_nat (length l1)) l2 (fl_write a l1 f) in
  fl_ok f' /\ bytes_at (fl_byte f') a (length l1 + length l2) = l1 ++ l2.
Proof.
  intros Hok Hr1 Hr2 Hf1 Hf2 Hb.
  destruct (fl_write_law f a l1 Hok Hr1 Hf1) as (Hok1 & Hp1 & Hw1).
  set (f1 := fl_write a l1 f) in *.
  destruct (fl_write_law f1 (a + Z.of_nat (length l1)) l2 Hok1 Hr2 Hf2) as (Hok2 & _ & Hw2).
  split; [done|]. rewrite bytes_at_app. f_equal.
  - rewrite (bytes_at_ext _ (programmed (fl_prot f) (fl_byte f) a l1)).
    + apply programmed_blank_bytes; [done|]. intros x Hx. apply and_comm, Hb. lia.
    + intros i Hi. rewrite Hw2, programmed_out by lia. apply Hw1.
  - rewrite (bytes_at_ext _ (programmed (fl_prot f1) (fl_byte f1) (a + Z.of_nat (length l1)) l2)) by (intros; apply Hw2).
    apply programmed_blank_bytes; [done|]. intros x Hx.
    rewrite Hw1, programmed_out, (proj1 (Hp1 x)) by lia. apply and_comm, Hb. lia.
Qed.

(** A stored address is recognised by its prefix. *)
Lemma ieee_stored fuel CFG_MAC_ADDRESS k j f addr :
  fl_ok f -> flash_range CFG_MAC_ADDRESS 8 -> length addr = 8%nat -> drop 5 addr = startIEEEAddr ->
  bytes_at (fl_byte f) CFG_MAC_ADDRESS 8 = ieee_area addr ->
  generateIEEEAddr fuel CFG_MAC_ADDRESS k j f = Some (addr, f).
Proof.
  intros Hok Hr Hl Hs Ha. unfold flash_range in Hr.
  destruct addr as [|a0 [|a1 [|a2 [|a3 [|a4 [|a5 [|a6 [|a7 [|]]]]]]]]]; try discriminate Hl.
  injection Hs as -> -> ->. unfold ieee_area in Ha. cbn [drop take app] in Ha.
  unfold generateIEEEAddr. rewrite fl_read_law, Ha by (done || split; lia).
  rewrite bool_decide_eq_false_2 by (intros [=]).
  assert (Hk : known_prefix [a2; a3; a4; 0x38; 0xc1; 0xa4; a0; a1] = true).
  { unfold known_prefix. cbn [take drop]. by rewrite bool_decide_eq_true_2. }
  rewrite Hk, !fl_read_law by (done || (unfold flash_range; lia)).
  change 8%nat with (6 + 2)%nat in Ha. rewrite bytes_at_app in Ha.
  change [a2; a3; a4; 0x38; 0xc1; 0xa4; a0; a1] with ([a2; a3; a4; 0x38; 0xc1; 0xa4] ++ [a0; a1]) in Ha.
  apply app_inj_1 in Ha as [E1 E2]; [|by rewrite length_bytes_at].
  change (CFG_MAC_ADDRESS + 6) with (CFG_MAC_ADDRESS + Z.of_nat 6). by rewrite E1, E2.
Qed.

(** A program of protected flash changes nothing. *)
Lemma program_protected f a l :
  fl_ok f -> flash_range a (length l) -> Forall (fun v => 0 <= v < 256) l ->
  (forall x, a <= x < a + Z.of_nat (length l) -> fl_prot f x = true) ->
  let f' := fl_write a l f in
  fl_ok f' /\ (forall x, fl_prot f' x = fl_prot f x) /\ forall x, fl_byte f' x = fl_byte f x.
Proof.
  intros Hok Hr Hf Hp. destruct (fl_write_law f a l Hok Hr Hf) as (Hok1 & Hp1 & Hw1). split; [done|].
  split; [by intros x; apply Hp1|]. intros x. rewrite Hw1. unfold programmed.
  destruct (decide (a <= x < a + Z.of_nat (length l))) as [Hx|Hx].
  - rewrite (Hp x Hx). by rewrite ?andb_false_r, ?andb_true_r.
  - by case_match eqn:E; [lia|].
Qed.

(** C30. The first start of a device whose MAC area is blank, and either not
    write-protected or protected as a whole, returns: with a usable
    random number and a clock that passes the jitter within the fuel, it makes an
    address of five random bytes and the vendor's prefix.  When the area is
    not protected it stores the address: every later start, at any time
    and with any random numbers, on any flash whose MAC area is still as it was
    left, reads that same address and writes nothing.  When the area is
    protected, as it is where the whole chip has been locked, the programs are
    dropped: the flash is as it was, the area still blank, and the next
    start makes an address anew. *)
Theorem ieee_address_stable fuel CFG_MAC_ADDRESS k j f n m (protected : bool) :
  fl_ok f -> flash_range CFG_MAC_ADDRESS 8 ->
  (forall x, CFG_MAC_ADDRESS <= x < CFG_MAC_ADDRESS + 8 -> fl_byte f x = 255 /\ fl_prot f x = protected) ->
  (n < fuel)%nat -> Z.land (rnd (k + n)) 0xfff <> 0 ->
  (m < fuel)%nat -> 0xfff * 16 < u32 (u32 (tick (S j + m)) - u32 (tick j)) ->
  exists addr f', generateIEEEAddr fuel CFG_MAC_ADDRESS k j f = Some (addr, f') /\
    length addr = 8%nat /\ drop 5 addr = startIEEEAddr /\ fl_ok f' /\
    if protected then (forall x, fl_byte f' x = fl_byte f x) /\ bytes_at (fl_byte f') CFG_MAC_ADDRESS 8 = repeat 255 8
    else forall fuel' k' j' f'', fl_ok f'' ->
      (forall i, 0 <= i < 8 -> fl_byte f'' (CFG_MAC_ADDRESS + i) = fl_byte f' (CFG_MAC_ADDRESS + i)) ->
      generateIEEEAddr fuel' CFG_MAC_ADDRESS k' j' f'' = Some (addr, f'').
Proof.
  intros Hok Hr Hb Hn Hrnd Hm Htick. pose proof Hr as Hr'. unfold flash_range in Hr'.
  assert (Hblank : bytes_at (fl_byte f) CFG_MAC_ADDRESS 8 = repeat 255 8).
  { unfold bytes_at. cbn [seq map repeat]. by rewrite !(fun x Hx => proj1 (Hb x Hx)) by lia. }
  unfold generateIEEEAddr at 1. rewrite fl_read_law, Hblank by (done || split; lia).
  rewrite bool_decide_eq_true_2 by done.
  destruct (jitter_loop_ends fuel k n Hn Hrnd) as (jitter & k1 & -> & Hjit).
  cbn [mbind option_bind].
  destruct (wait_loop_ends fuel (u32 (tick j)) jitter (S j) m Hm) as [j1 ->].
  { rewrite u32_small by lia. lia. }
  cbn [mbind option_bind]. destruct (random_loop_bytes 5 0 0 k1) as [Hl Hf]. unfold drv_generateRandomData.
  destruct (random_loop 5 0 0 k1).1 as [|r0 [|r1 [|r2 [|r3 [|r4 [|]]]]]]; try discriminate Hl. clear Hl.
  set (addr := _ ++ startIEEEAddr). eexists addr, _. split; [reflexivity|].
  assert (Hfa : Forall (fun v => 0 <= v < 256) addr).
  { unfold addr, startIEEEAddr. apply Forall_app. split; [done|]. repeat (constructor; [lia|]). constructor. }
  split; [done|]. split; [done|]. cbn [addr startIEEEAddr app drop take]. destruct protected.
  - destruct (program_protected f CFG_MAC_ADDRESS (take 6 (drop 2 addr)) Hok) as (Hok1 & Hp1 & Hb1);
      [unfold flash_range; cbn; lia|by apply Forall_take, Forall_drop|intros x Hx; apply Hb; cbn in Hx; lia|].
    destruct (program_protected (fl_write CFG_MAC_ADDRESS (take 6 (drop 2 addr)) f) (CFG_MAC_ADDRESS + 6) (take 2 addr) Hok1)
      as (Hok2 & _ & Hb2);
      [unfold flash_range; cbn; lia|by apply Forall_take|intros x Hx; rewrite Hp1; apply Hb; cbn in Hx; lia|].
    split; [exact Hok2|]. split; [intros x; etransitivity; [apply Hb2|apply Hb1]|].
    rewrite <-Hblank. apply bytes_at_ext. intros i _. etransitivity; [apply Hb2|apply Hb1].
  - pose proof (program_twice f CFG_MAC_ADDRESS (take 6 (drop 2 addr)) (take 2 addr) Hok
      ltac:(unfold flash_range; cbn; lia) ltac:(unfold flash_range; cbn; lia)
      ltac:(by apply Forall_take, Forall_drop) ltac:(by apply Forall_take) ltac:(intros x Hx; apply Hb; cbn in Hx; lia))
      as [Hok' Hby].
    split; [exact Hok'|]. intros fuel' k' j' f'' Hok'' Heq. apply ieee_stored; [done..|]. etransitivity; [|exact Hby].
    apply bytes_at_ext. intros i Hi. apply Heq. done.
Qed.
End Ieee.
