(* ===== verification/PibDemo.v ===== *)
(** * The MAC information base on concrete data

    A list library with the laws, and the properties at concrete inputs. *)
From S2P Require Import Prelude SpiFlash FlashIf FlashDrv SimChip FlashProps Pib PibProps PibTables PibIeee.

(** ** Lists of descriptors *)
Definition dlists := tn_name -> list Z.

Fixpoint next_in (x : Z) (l : list Z) : option Z :=
  match l with
  | [] => None
  | y :: l' => if y =? x then Some (default 0 (head l')) else next_in x l'
  end.

Definition d_next (x : Z) (t : dlists) : Z :=
  default 0 (foldr (fun n r => match next_in x (t n) with Some y => Some y | None => r end) None
    [macKeyTable; macDevTable; macSecLvlTable; macKeyDevTable]).

Fixpoint insert_after (p x : Z) (l : list Z) : list Z :=
  match l with [] => [] | y :: l' => if y =? p then y :: x :: l' else y :: insert_after p x l' end.

Fixpoint remove_one (x : Z) (l : list Z) : list Z :=
  match l with [] => [] | y :: l' => if y =? x then l' else y :: remove_one x l' end.

Definition d_upd (l : tn_name) (f : list Z -> list Z) (t : dlists) : dlists :=
  fun l' => if decide (l' = l) then f (t l) else t l'.

#[local] Instance d_TnLib : TnLib dlists := {|
  tn_list_init l t := d_upd l (fun _ => []) t;
  tn_list_head l t := default 0 (head (t l));
  tn_list_item_next := d_next;
  tn_list_add l x t := d_upd l (fun i => i ++ [x]) t;
  tn_list_push l x t := d_upd l (cons x) t;
  tn_list_insert l p x t := d_upd l (insert_after p x) t;
  tn_list_remove l x t := d_upd l (remove_one x) t;
  tn_mem_init _ t := t;
  tn_mem_alloc _ t := (0x100, t);
  tn_mem_free _ _ t := (0, t);
  key_entries _ _ _ := 2%nat;
  key_pop _ _ t := (0x200, t)
|}.

Record d_ok (t : dlists) : Prop := {
  d_nodup : forall l, NoDup (t l);
  d_disjoint : forall l l' x, x ∈ t l -> x ∈ t l' -> l = l';
  d_nonzero : forall l, 0 ∉ t l
}.

Lemma next_in_none x l : x ∉ l -> next_in x l = None.
Proof.
  induction l as [|y l IH]; intros Hx; cbn [next_in]; [done|].
  rewrite elem_of_cons in Hx. destruct (Z.eqb_spec y x); [subst; tauto|tauto].
Qed.

Lemma next_in_some x l1 l2 : x ∉ l1 -> next_in x (l1 ++ x :: l2) = Some (default 0 (head l2)).
Proof.
  induction l1 as [|y l1 IH]; intros Hx; cbn [next_in app]; [by rewrite Z.eqb_refl|].
  rewrite elem_of_cons in Hx. destruct (Z.eqb_spec y x); [subst; tauto|tauto].
Qed.

Lemma insert_after_at p x l1 l2 : p ∉ l1 -> insert_after p x (l1 ++ p :: l2) = l1 ++ p :: x :: l2.
Proof.
  induction l1 as [|y l1 IH]; intros Hx; cbn [insert_after app]; [by rewrite Z.eqb_refl|].
  rewrite elem_of_cons in Hx. destruct (Z.eqb_spec y p); [subst; tauto|]. by rewrite IH by tauto.
Qed.

Lemma remove_one_at x l1 l2 : x ∉ l1 -> remove_one x (l1 ++ x :: l2) = l1 ++ l2.
Proof.
  induction l1 as [|y l1 IH]; intros Hx; cbn [remove_one app]; [by rewrite Z.eqb_refl|].
  rewrite elem_of_cons in Hx. destruct (Z.eqb_spec y x); [subst; tauto|]. by rewrite IH by tauto.
Qed.

(** Replacing a list by one of its descriptors and, possibly, a fresh one. *)
Lemma d_upd_ok t l f i :
  d_ok t -> f (t l) = i -> NoDup i ->
  (forall x, x ∈ i -> x ∈ t l \/ (x <> 0 /\ forall l', x ∉ t l')) -> d_ok (d_upd l f t).
Proof.
  intros [Hn Hd Hz] Hf Hi Hin. split; unfold d_upd.
  - intros l'. case_decide; [by rewrite Hf|done].
  - intros l1 l2 x. rewrite Hf. case_decide; case_decide; intros H1 H2; subst; try done; eauto.
    + destruct (Hin x H1) as [H1'|[_ Hx]]; [eauto|]. by destruct (Hx l2).
    + destruct (Hin x H2) as [H2'|[_ Hx]]; [eauto|]. by destruct (Hx l1).
  - intros l'. case_decide; [|done]. rewrite Hf. intros H0. destruct (Hin 0 H0) as [H1|[? _]]; [|done]. by apply (Hz l).
Qed.

Lemma nodup_middle (l1 l2 : list Z) x : NoDup (l1 ++ x :: l2) -> x ∉ l1 /\ x ∉ l2 /\ NoDup (l1 ++ l2).
Proof.
  rewrite NoDup_app, NoDup_cons. intros (H1 & H2 & H3 & H4). split_and!; [|done|].
  - intros Hx. apply (H2 x Hx). apply elem_of_cons. by left.
  - apply NoDup_app. split_and!; [done| |done]. intros y Hy Hy'. apply (H2 y Hy). apply elem_of_cons. by right.
Qed.

#[local] Program Instance d_TnLaws : TnLaws dlists := {| tn_ok := d_ok; tn_items l t := t l |}.
Next Obligation. intros t l Ht. apply Ht. Qed.
Next Obligation. intros t l l' x Ht. apply Ht. Qed.
Next Obligation. intros t l Ht. apply Ht. Qed.
Next Obligation. done. Qed.
Next Obligation.
  intros t l l1 l2 x Ht Hi. cbn [tn_list_item_next d_TnLib]. unfold d_next. cbn [foldr].
  assert (Hl : next_in x (t l) = Some (default 0 (head l2))).
  { rewrite Hi. apply next_in_some. pose proof (d_nodup t Ht l) as Hn. rewrite Hi in Hn. by apply nodup_middle in Hn as (? & _ & _). }
  assert (Hx : x ∈ t l) by (rewrite Hi; set_solver).
  assert (Ho : forall l', l' <> l -> next_in x (t l') = None).
  { intros l' Hne. apply next_in_none. intros Hx'. by apply Hne, (d_disjoint t Ht l' l x). }
  destruct l; rewrite ?Hl, ?Ho by done; reflexivity.
Qed.
Next Obligation.
  intros t l x Ht Hx Hf. split; [|intros l'; cbn; unfold d_upd; by case_decide].
  apply (d_upd_ok t l _ (t l ++ [x])); [done|done| |].
  - apply NoDup_app. split_and!; [apply Ht| |apply NoDup_singleton]. intros y Hy Hyx%list_elem_of_singleton. subst y. by apply (Hf l).
  - intros y Hy. apply elem_of_app in Hy as [Hy|Hy%list_elem_of_singleton]; subst; auto.
Qed.
Next Obligation.
  intros t l x Ht Hx Hf. split; [|intros l'; cbn; unfold d_upd; by case_decide].
  apply (d_upd_ok t l _ (x :: t l)); [done|done| |].
  - apply NoDup_cons. split; [done|apply Ht].
  - intros y Hy. apply elem_of_cons in Hy as [->|Hy]; auto.
Qed.
Next Obligation.
  intros t l l1 l2 p x Ht Hx Hf Hi. cbn beta in Hi. pose proof (d_nodup t Ht l) as Hn. rewrite Hi in Hn.
  destruct (nodup_middle _ _ _ Hn) as (Hp & _ & _). pose proof (insert_after_at p x l1 l2 Hp) as E. rewrite <-Hi in E.
  split; [|intros l'; cbn; unfold d_upd; by case_decide].
  apply (d_upd_ok t l _ (l1 ++ p :: x :: l2)); [done|done| |].
  - assert (Hfl : x ∉ l1 ++ p :: l2) by (rewrite <-Hi; apply Hf).
    assert (Hperm : l1 ++ p :: x :: l2 ≡ₚ x :: l1 ++ p :: l2).
    { rewrite Permutation_middle. apply Permutation_app_head, perm_swap. }
    rewrite Hperm. by apply NoDup_cons.
  - intros y Hy. rewrite Hi. destruct (decide (y = x)) as [->|]; [by right|]. left. set_solver.
Qed.
Next Obligation.
  intros t l l1 l2 x Ht Hi. cbn beta in Hi. pose proof (d_nodup t Ht l) as Hn. rewrite Hi in Hn.
  destruct (nodup_middle _ _ _ Hn) as (Hp & _ & Hn'). pose proof (remove_one_at x l1 l2 Hp) as E. rewrite <-Hi in E.
  split; [|intros l'; cbn; unfold d_upd; by case_decide].
  apply (d_upd_ok t l _ (l1 ++ l2)); [done|done|done|]. intros y Hy. left. rewrite Hi. set_solver.
Qed.
Next Obligation. by intros t k x Ht. Qed.
Next Obligation. by intros t k i Ht. Qed.

(** ** The properties *)
Definition demo_mac : mac dlists := mk_mac (fun _ => 0) (fun _ => []) [].

Lemma pib_attr_roundtrip_witness :
  exists s', tl_zbMacAttrSet 0x50 0 (fun _ => 0x34) 2 demo_mac = Some (MAC_SUCCESS, fun _ => 0x34, s') /\
    exists len, tl_zbMacAttrGet 0x50 0 s' = Some (MAC_SUCCESS, GotBytes [0x34; 0x34] len).
Proof.
  destruct (pib_attr_roundtrip 0x50 0 (fun _ => 0x34) demo_mac ltac:(unfold plain_attr; lia)) as (s' & E & Hg & _).
  by exists s'.
Defined.

Lemma pib_security_get_outside_witness : tl_zbMacAttrGet MAC_DEFAULT_KEY_SOURCE 0 demo_mac = None.
Proof. apply (pib_security_get_outside MAC_DEFAULT_KEY_SOURCE 0 0 (fun _ => 0) demo_mac); [unfold MAC_DEFAULT_KEY_SOURCE; lia|done]. Defined.

Definition demo_tbl_ops : list tbl_op := [
  TSet MAC_KEY_TABLE 0x1000 0; TSet MAC_KEY_TABLE 0x1010 1; TSet MAC_KEY_TABLE 0x1020 2;
  TSet MAC_DEVICE_TABLE 0x2000 0; TSet MAC_KEY_TABLE 0x1030 1; TGet MAC_KEY_TABLE 1; TDel MAC_KEY_TABLE 0;
  TGet MAC_KEY_TABLE 1; TGet MAC_KEY_TABLE 2; TSet MAC_SECURITY_LEVEL_TABLE 0x3000 1].

Lemma demo_tables : tables_at (fun _ => []) demo_mac.
Proof.
  split; [|done|].
  - split; [intros; apply NoDup_nil_2|intros l l' x Hx; by apply elem_of_nil in Hx|intros l Hx; by apply elem_of_nil in Hx].
  - intros n _. cbn [length]. split; [done|lia].
Qed.

Lemma pib_tables_refine_witness :
  exists s', tbl_calls demo_tbl_ops demo_mac =
    Some ([(MAC_SUCCESS, None); (MAC_SUCCESS, None); (MAC_SUCCESS, None); (MAC_SUCCESS, None); (MAC_SUCCESS, None);
      (MAC_SUCCESS, Some 0x1030); (MAC_SUCCESS, None); (MAC_SUCCESS, Some 0x1020);
      (MAC_STA_INVALID_PARAMETER, None); (MAC_STA_INVALID_PARAMETER, None)], s').
Proof.
  destruct (pib_tables_refine demo_tbl_ops (fun _ => []) demo_mac demo_tables) as (s' & E & _).
  { repeat split; try (by eexists); try (intros []; vm_compute; set_solver || lia); lia. }
  by exists s'.
Defined.

#[local] Instance demo_entropy : Entropy := {|
  rnd k := nth k [0x1000; 0x234; 0xa1b2c3d4; 0x99] 0; tick j := Z.of_nat j * 40000
|}.

Lemma ieee_address_stable_witness :
  exists f', generateIEEEAddr 4 0x76000 0 0 (drv_init (sim_blank 0)) =
    Some ([0xd4; 0xc3; 0xb2; 0xa1; 0x99; 0x38; 0xc1; 0xa4], f') /\
    forall k' j', generateIEEEAddr 0 0x76000 k' j' f' = Some ([0xd4; 0xc3; 0xb2; 0xa1; 0x99; 0x38; 0xc1; 0xa4], f').
Proof.
  destruct (ieee_address_stable 4 0x76000 0 0 (drv_init (sim_blank 0)) 1 2 false) as (addr & f' & E & _ & _ & Hok & Hnext).
  - apply (drv_at_fl_ok _ _ sim_drv_at).
  - unfold flash_range. lia.
  - intros x _. split; reflexivity.
  - lia.
  - vm_compute. discriminate.
  - lia.
  - vm_compute. reflexivity.
  - assert (Ea : (x ← generateIEEEAddr 4 0x76000 0 0 (drv_init (sim_blank 0)); Some x.1) =
      Some [0xd4; 0xc3; 0xb2; 0xa1; 0x99; 0x38; 0xc1; 0xa4]) by (vm_compute; reflexivity).
    rewrite E in Ea. injection Ea as ->. exists f'. split; [exact E|].
    intros k' j'. apply (Hnext 0%nat k' j' f' Hok). done.
Defined.
