(* ===== verification/MacPhy.v ===== *)
(** * The radio layer of the MAC ([ieee802154/mac/mac_phy.c])

    The transceiver of the TLSR8278 is driven by register macros
    ([drv_radio.h]); what they do to the chip is recorded, in order, in the
    trace.  What the chip answers (signal strength, clock, flags of the radio)
    and the functions of the binary MAC library that the code calls are the
    class [Radio]: the [k]-th reading is a function of [k].  The build is the
    one of a coordinator or router. *)
From S2P Require Import Prelude SpiFlash FlashIf.

(** ** Constants *)
Definition ZB_RADIO_TX_HDR_LEN : Z := 5.
Definition ZB_RADIO_RX_HDR_LEN : Z := 5.
Definition ZB_RADIO_TX_0DBM : Z := 31.
Definition RF_PKT_BUFF_LEN : Z := 144.
Definition RF_MODE_TX : Z := 0.
Definition RF_MODE_RX : Z := 1.
Definition RF_MODE_OFF : Z := 3.
Definition RF_STATE_TX : Z := 0.
Definition RF_STATE_RX : Z := 1.
Definition RF_STATE_ED : Z := 2.
Definition RF_STATE_OFF : Z := 3.
Definition PHY_CCA_IDLE : Z := 4.
Definition PHY_CCA_BUSY : Z := 0.
Definition TX_BUSY : Z := 2.
Definition TL_ZB_MAC_CHANNEL_START : Z := 11.
Definition TL_ZB_MAC_CHANNEL_STOP : Z := 26.
Definition MAC_FCF_ACK_REQ_BIT : Z := 0x20.
Definition MAC_FCF_SRC_ADDR_BIT : Z := 0xc0.
Definition MAC_FCF_FRAME_TYPE_MASK : Z := 7.
Definition MAC_FCF_SEC_ENABLED_MASK : Z := 8.
Definition SEC_CRTL_KEYID_MODE_MASK : Z := 0x18.
Definition MAC_FRAME_COMMAND : Z := 3.
Definition MAC_CMD_DATA_REQUEST : Z := 4.
Definition ZB_ADDR_NO_ADDR : Z := 0.
Definition ZB_ADDR_16BIT_DEV_OR_BROADCAST : Z := 2.
Definition ZB_ADDR_64BIT_DEV : Z := 3.
Definition LOGICCHANNEL_TO_PHYSICAL (p : Z) : Z := (p - 10) * 5.

(** ** What the code does to the radio and to the MAC library *)
Inductive rev :=
  | RadioTrxSwitch (mode chn : Z) | RadioTxPower (level : Z) | RadioTrxCfg (len : Z)
  | RadioRxBufSet (p : Z) | RadioRxEnable | RadioRxDisable | RadioTxEnable | RadioTimestampEnable
  | RadioTxDoneClr | RadioRxDoneClr | RadioTxStart (frame : list Z) | RadioIrqMaskClr | RadioIrqMaskSet
  | GpioFunc (pin : Z) | GpioOutputEn (pin v : Z) | GpioWrite (pin v : Z) | WaitUs (us : Z)
  | MacReceive (rxBuf data len ackPkt timestamp rssi : Z) | MacSendDone.

Class Radio := {
  r_rssi : nat -> Z;
  r_clock : nat -> Z;
  r_tx_done : nat -> bool;
  r_dma_busy : nat -> bool;
  (** the mode of the transceiver, after what was done to it *)
  r_trx_sta : list rev -> Z;
  sysTimerPerUs : Z;
  tl_getRxBuf : nat -> Z;
  (** The address filter and, below, the test for pending data are in the binary
      library: functions of what they are given, without an effect on the state.
      The filter maps memory, frame and length to the source address,
      [needDrop] and [ackPkt]. *)
  zb_macDataFilter : (Z -> Z) -> Z -> Z -> Z * Z * Z;
  tl_zbMacHdrSize : Z -> Z;
  mac_getAuxSecurityHeaderLen : Z -> Z;
  tl_zbMacPendingDataCheck : nat -> Z -> Z -> Z
}.

Record phy := mk_phy {
  rf_tx_buf : list Z;
  rf_ack_buf : list Z;
  rf_rxBuf : Z;
  rfMode : Z;
  rf_busyFlag : Z;
  soft_rssi : Z;
  sum_rssi : Z;
  cnt_rssi : Z;
  fPaEn : Z;
  rf_pa_txen_pin : Z;
  rf_pa_rxen_pin : Z;
  turnArnd : Z;
  ccaThres : Z;
  g_zb_txPowerSet : Z;
  phyChannelCur : Z;
  macRxCrcFail : Z;
  phytoMACqueuelimitreached : Z;
  macTxIrqCnt : Z;
  macRxIrqCnt : Z;
  ed_poll : bool;
  ram : Z -> Z;
  now : nat;
  trace : list rev
}.

Definition with_rf_tx_buf v s := mk_phy v (rf_ack_buf s) (rf_rxBuf s) (rfMode s) (rf_busyFlag s) (soft_rssi s) (sum_rssi s) (cnt_rssi s) (fPaEn s) (rf_pa_txen_pin s) (rf_pa_rxen_pin s) (turnArnd s) (ccaThres s) (g_zb_txPowerSet s) (phyChannelCur s) (macRxCrcFail s) (phytoMACqueuelimitreached s) (macTxIrqCnt s) (macRxIrqCnt s) (ed_poll s) (ram s) (now s) (trace s).
Definition with_rf_ack_buf v s := mk_phy (rf_tx_buf s) v (rf_rxBuf s) (rfMode s) (rf_busyFlag s) (soft_rssi s) (sum_rssi s) (cnt_rssi s) (fPaEn s) (rf_pa_txen_pin s) (rf_pa_rxen_pin s) (turnArnd s) (ccaThres s) (g_zb_txPowerSet s) (phyChannelCur s) (macRxCrcFail s) (phytoMACqueuelimitreached s) (macTxIrqCnt s) (macRxIrqCnt s) (ed_poll s) (ram s) (now s) (trace s).
Definition with_rf_rxBuf v s := mk_phy (rf_tx_buf s) (rf_ack_buf s) v (rfMode s) (rf_busyFlag s) (soft_rssi s) (sum_rssi s) (cnt_rssi s) (fPaEn s) (rf_pa_txen_pin s) (rf_pa_rxen_pin s) (turnArnd s) (ccaThres s) (g_zb_txPowerSet s) (phyChannelCur s) (macRxCrcFail s) (phytoMACqueuelimitreached s) (macTxIrqCnt s) (macRxIrqCnt s) (ed_poll s) (ram s) (now s) (trace s).
Definition with_rfMode v s := mk_phy (rf_tx_buf s) (rf_ack_buf s) (rf_rxBuf s) v (rf_busyFlag s) (soft_rssi s) (sum_rssi s) (cnt_rssi s) (fPaEn s) (rf_pa_txen_pin s) (rf_pa_rxen_pin s) (turnArnd s) (ccaThres s) (g_zb_txPowerSet s) (phyChannelCur s) (macRxCrcFail s) (phytoMACqueuelimitreached s) (macTxIrqCnt s) (macRxIrqCnt s) (ed_poll s) (ram s) (now s) (trace s).
Definition with_rf_busyFlag v s := mk_phy (rf_tx_buf s) (rf_ack_buf s) (rf_rxBuf s) (rfMode s) v (soft_rssi s) (sum_rssi s) (cnt_rssi s) (fPaEn s) (rf_pa_txen_pin s) (rf_pa_rxen_pin s) (turnArnd s) (ccaThres s) (g_zb_txPowerSet s) (phyChannelCur s) (macRxCrcFail s) (phytoMACqueuelimitreached s) (macTxIrqCnt s) (macRxIrqCnt s) (ed_poll s) (ram s) (now s) (trace s).
Definition with_soft_rssi v s := mk_phy (rf_tx_buf s) (rf_ack_buf s) (rf_rxBuf s) (rfMode s) (rf_busyFlag s) v (sum_rssi s) (cnt_rssi s) (fPaEn s) (rf_pa_txen_pin s) (rf_pa_rxen_pin s) (turnArnd s) (ccaThres s) (g_zb_txPowerSet s) (phyChannelCur s) (macRxCrcFail s) (phytoMACqueuelimitreached s) (macTxIrqCnt s) (macRxIrqCnt s) (ed_poll s) (ram s) (now s) (trace s).
Definition with_sum_rssi v s := mk_phy (rf_tx_buf s) (rf_ack_buf s) (rf_rxBuf s) (rfMode s) (rf_busyFlag s) (soft_rssi s) v (cnt_rssi s) (fPaEn s) (rf_pa_txen_pin s) (rf_pa_rxen_pin s) (turnArnd s) (ccaThres s) (g_zb_txPowerSet s) (phyChannelCur s) (macRxCrcFail s) (phytoMACqueuelimitreached s) (macTxIrqCnt s) (macRxIrqCnt s) (ed_poll s) (ram s) (now s) (trace s).
Definition with_cnt_rssi v s := mk_phy (rf_tx_buf s) (rf_ack_buf s) (rf_rxBuf s) (rfMode s) (rf_busyFlag s) (soft_rssi s) (sum_rssi s) v (fPaEn s) (rf_pa_txen_pin s) (rf_pa_rxen_pin s) (turnArnd s) (ccaThres s) (g_zb_txPowerSet s) (phyChannelCur s) (macRxCrcFail s) (phytoMACqueuelimitreached s) (macTxIrqCnt s) (macRxIrqCnt s) (ed_poll s) (ram s) (now s) (trace s).
Definition with_fPaEn v s := mk_phy (rf_tx_buf s) (rf_ack_buf s) (rf_rxBuf s) (rfMode s) (rf_busyFlag s) (soft_rssi s) (sum_rssi s) (cnt_rssi s) v (rf_pa_txen_pin s) (rf_pa_rxen_pin s) (turnArnd s) (ccaThres s) (g_zb_txPowerSet s) (phyChannelCur s) (macRxCrcFail s) (phytoMACqueuelimitreached s) (macTxIrqCnt s) (macRxIrqCnt s) (ed_poll s) (ram s) (now s) (trace s).
Definition with_rf_pa_txen_pin v s := mk_phy (rf_tx_buf s) (rf_ack_buf s) (rf_rxBuf s) (rfMode s) (rf_busyFlag s) (soft_rssi s) (sum_rssi s) (cnt_rssi s) (fPaEn s) v (rf_pa_rxen_pin s) (turnArnd s) (ccaThres s) (g_zb_txPowerSet s) (phyChannelCur s) (macRxCrcFail s) (phytoMACqueuelimitreached s) (macTxIrqCnt s) (macRxIrqCnt s) (ed_poll s) (ram s) (now s) (trace s).
Definition with_rf_pa_rxen_pin v s := mk_phy (rf_tx_buf s) (rf_ack_buf s) (rf_rxBuf s) (rfMode s) (rf_busyFlag s) (soft_rssi s) (sum_rssi s) (cnt_rssi s) (fPaEn s) (rf_pa_txen_pin s) v (turnArnd s) (ccaThres s) (g_zb_txPowerSet s) (phyChannelCur s) (macRxCrcFail s) (phytoMACqueuelimitreached s) (macTxIrqCnt s) (macRxIrqCnt s) (ed_poll s) (ram s) (now s) (trace s).
Definition with_turnArnd v s := mk_phy (rf_tx_buf s) (rf_ack_buf s) (rf_rxBuf s) (rfMode s) (rf_busyFlag s) (soft_rssi s) (sum_rssi s) (cnt_rssi s) (fPaEn s) (rf_pa_txen_pin s) (rf_pa_rxen_pin s) v (ccaThres s) (g_zb_txPowerSet s) (phyChannelCur s) (macRxCrcFail s) (phytoMACqueuelimitreached s) (macTxIrqCnt s) (macRxIrqCnt s) (ed_poll s) (ram s) (now s) (trace s).
Definition with_ccaThres v s := mk_phy (rf_tx_buf s) (rf_ack_buf s) (rf_rxBuf s) (rfMode s) (rf_busyFlag s) (soft_rssi s) (sum_rssi s) (cnt_rssi s) (fPaEn s) (rf_pa_txen_pin s) (rf_pa_rxen_pin s) (turnArnd s) v (g_zb_txPowerSet s) (phyChannelCur s) (macRxCrcFail s) (phytoMACqueuelimitreached s) (macTxIrqCnt s) (macRxIrqCnt s) (ed_poll s) (ram s) (now s) (trace s).
Definition with_g_zb_txPowerSet v s := mk_phy (rf_tx_buf s) (rf_ack_buf s) (rf_rxBuf s) (rfMode s) (rf_busyFlag s) (soft_rssi s) (sum_rssi s) (cnt_rssi s) (fPaEn s) (rf_pa_txen_pin s) (rf_pa_rxen_pin s) (turnArnd s) (ccaThres s) v (phyChannelCur s) (macRxCrcFail s) (phytoMACqueuelimitreached s) (macTxIrqCnt s) (macRxIrqCnt s) (ed_poll s) (ram s) (now s) (trace s).
Definition with_phyChannelCur v s := mk_phy (rf_tx_buf s) (rf_ack_buf s) (rf_rxBuf s) (rfMode s) (rf_busyFlag s) (soft_rssi s) (sum_rssi s) (cnt_rssi s) (fPaEn s) (rf_pa_txen_pin s) (rf_pa_rxen_pin s) (turnArnd s) (ccaThres s) (g_zb_txPowerSet s) v (macRxCrcFail s) (phytoMACqueuelimitreached s) (macTxIrqCnt s) (macRxIrqCnt s) (ed_poll s) (ram s) (now s) (trace s).
Definition with_macRxCrcFail v s := mk_phy (rf_tx_buf s) (rf_ack_buf s) (rf_rxBuf s) (rfMode s) (rf_busyFlag s) (soft_rssi s) (sum_rssi s) (cnt_rssi s) (fPaEn s) (rf_pa_txen_pin s) (rf_pa_rxen_pin s) (turnArnd s) (ccaThres s) (g_zb_txPowerSet s) (phyChannelCur s) v (phytoMACqueuelimitreached s) (macTxIrqCnt s) (macRxIrqCnt s) (ed_poll s) (ram s) (now s) (trace s).
Definition with_phytoMACqueuelimitreached v s := mk_phy (rf_tx_buf s) (rf_ack_buf s) (rf_rxBuf s) (rfMode s) (rf_busyFlag s) (soft_rssi s) (sum_rssi s) (cnt_rssi s) (fPaEn s) (rf_pa_txen_pin s) (rf_pa_rxen_pin s) (turnArnd s) (ccaThres s) (g_zb_txPowerSet s) (phyChannelCur s) (macRxCrcFail s) v (macTxIrqCnt s) (macRxIrqCnt s) (ed_poll s) (ram s) (now s) (trace s).
Definition with_macTxIrqCnt v s := mk_phy (rf_tx_buf s) (rf_ack_buf s) (rf_rxBuf s) (rfMode s) (rf_busyFlag s) (soft_rssi s) (sum_rssi s) (cnt_rssi s) (fPaEn s) (rf_pa_txen_pin s) (rf_pa_rxen_pin s) (turnArnd s) (ccaThres s) (g_zb_txPowerSet s) (phyChannelCur s) (macRxCrcFail s) (phytoMACqueuelimitreached s) v (macRxIrqCnt s) (ed_poll s) (ram s) (now s) (trace s).
Definition with_macRxIrqCnt v s := mk_phy (rf_tx_buf s) (rf_ack_buf s) (rf_rxBuf s) (rfMode s) (rf_busyFlag s) (soft_rssi s) (sum_rssi s) (cnt_rssi s) (fPaEn s) (rf_pa_txen_pin s) (rf_pa_rxen_pin s) (turnArnd s) (ccaThres s) (g_zb_txPowerSet s) (phyChannelCur s) (macRxCrcFail s) (phytoMACqueuelimitreached s) (macTxIrqCnt s) v (ed_poll s) (ram s) (now s) (trace s).
Definition with_ed_poll v s := mk_phy (rf_tx_buf s) (rf_ack_buf s) (rf_rxBuf s) (rfMode s) (rf_busyFlag s) (soft_rssi s) (sum_rssi s) (cnt_rssi s) (fPaEn s) (rf_pa_txen_pin s) (rf_pa_rxen_pin s) (turnArnd s) (ccaThres s) (g_zb_txPowerSet s) (phyChannelCur s) (macRxCrcFail s) (phytoMACqueuelimitreached s) (macTxIrqCnt s) (macRxIrqCnt s) v (ram s) (now s) (trace s).
Definition with_ram v s := mk_phy (rf_tx_buf s) (rf_ack_buf s) (rf_rxBuf s) (rfMode s) (rf_busyFlag s) (soft_rssi s) (sum_rssi s) (cnt_rssi s) (fPaEn s) (rf_pa_txen_pin s) (rf_pa_rxen_pin s) (turnArnd s) (ccaThres s) (g_zb_txPowerSet s) (phyChannelCur s) (macRxCrcFail s) (phytoMACqueuelimitreached s) (macTxIrqCnt s) (macRxIrqCnt s) (ed_poll s) v (now s) (trace s).
Definition with_now v s := mk_phy (rf_tx_buf s) (rf_ack_buf s) (rf_rxBuf s) (rfMode s) (rf_busyFlag s) (soft_rssi s) (sum_rssi s) (cnt_rssi s) (fPaEn s) (rf_pa_txen_pin s) (rf_pa_rxen_pin s) (turnArnd s) (ccaThres s) (g_zb_txPowerSet s) (phyChannelCur s) (macRxCrcFail s) (phytoMACqueuelimitreached s) (macTxIrqCnt s) (macRxIrqCnt s) (ed_poll s) (ram s) v (trace s).
Definition with_trace v s := mk_phy (rf_tx_buf s) (rf_ack_buf s) (rf_rxBuf s) (rfMode s) (rf_busyFlag s) (soft_rssi s) (sum_rssi s) (cnt_rssi s) (fPaEn s) (rf_pa_txen_pin s) (rf_pa_rxen_pin s) (turnArnd s) (ccaThres s) (g_zb_txPowerSet s) (phyChannelCur s) (macRxCrcFail s) (phytoMACqueuelimitreached s) (macTxIrqCnt s) (macRxIrqCnt s) (ed_poll s) (ram s) (now s) v.


Definition emit (e : rev) s : phy := with_trace (trace s ++ [e]) s.

(** [ZB_RADIO_RX_BUF_CLEAR] *)
Definition rx_buf_clear (p : Z) s : phy :=
  with_ram (fun a => if (a =? p) || (a =? p + 4) then 0 else ram s a) s.

(** ** Packets of the chip: [rf_drv.h] *)
Definition RF_ZIGBEE_PACKET_LENGTH_OK (m : Z -> Z) (p : Z) : bool := m p =? m (p + 4) + 9.
Definition RF_ZIGBEE_PACKET_CRC_OK (m : Z -> Z) (p : Z) : bool := Z.land (m (p + (m p + 3))) 0x51 =? 0x10.
Definition RF_ZIGBEE_PACKET_RSSI_GET (m : Z -> Z) (p : Z) : Z := m (p + (m p + 2)).
Definition RF_ZIGBEE_PACKET_TIMESTAMP_GET (m : Z -> Z) (p : Z) : Z :=
  Z.lor (m (p + (m p - 4))) (Z.lor (Z.shiftl (m (p + (m p - 3))) 8)
    (Z.lor (Z.shiftl (m (p + (m p - 2))) 16) (Z.shiftl (m (p + (m p - 1))) 24))).

(** [ZB_RADIO_DMA_HDR_BUILD] on a buffer *)
Definition dma_hdr_build (buf : list Z) (len : Z) : list Z := u8 (len + 1) :: 0 :: 0 :: 0 :: drop 4 buf.

Section Phy.
Context `{Radio}.

Definition clock_time s : Z * phy := (u32 (r_clock (now s)), with_now (S (now s)) s).
Definition rssi_get s : Z * phy := (s8 (r_rssi (now s)), with_now (S (now s)) s).

Definition rf_getChannel s : Z := phyChannelCur s.

Definition zb_switch (tx : bool) s : phy :=
  let s :=
    if negb (fPaEn s =? 0) then
      emit (GpioWrite (rf_pa_rxen_pin s) (c_bool (negb tx))) (emit (GpioWrite (rf_pa_txen_pin s) (c_bool tx)) s)
    else s in
  emit (RadioTrxSwitch (if tx then RF_MODE_TX else RF_MODE_RX) (LOGICCHANNEL_TO_PHYSICAL (rf_getChannel s))) s.

Definition ZB_SWITCH_TO_TXMODE s : phy := zb_switch true s.
Definition ZB_SWITCH_TO_RXMODE s : phy := zb_switch false s.

Definition rf_paShutDown s : phy :=
  if negb (fPaEn s =? 0) then emit (GpioWrite (rf_pa_rxen_pin s) 0) (emit (GpioWrite (rf_pa_txen_pin s) 0) s) else s.

(** The gain modes are empty on this chip. *)
Definition rf_setTrxState (state : Z) s : phy :=
  if (RF_STATE_RX =? state) || (RF_STATE_ED =? state) then
    with_rfMode RF_STATE_RX (ZB_SWITCH_TO_RXMODE s)
  else if RF_STATE_TX =? state then
    with_rfMode RF_STATE_TX (emit (WaitUs (turnArnd s)) (ZB_SWITCH_TO_TXMODE s))
  else
    let s := rf_paShutDown s in
    with_rfMode RF_STATE_OFF (emit (RadioTrxSwitch RF_MODE_OFF (LOGICCHANNEL_TO_PHYSICAL (rf_getChannel s))) s).

Definition rf_TrxStateGet s : Z := rfMode s.

Definition rf_setChannel (chn : Z) s : phy :=
  if (chn <? TL_ZB_MAC_CHANNEL_START) || (TL_ZB_MAC_CHANNEL_STOP <? chn) then s
  else
    let s := with_phyChannelCur chn s in
    emit (RadioTrxSwitch (r_trx_sta (trace s)) (LOGICCHANNEL_TO_PHYSICAL chn)) s.

Definition rf_setTxPower (power : Z) s : phy :=
  emit (RadioTxPower (if negb (fPaEn s =? 0) then ZB_RADIO_TX_0DBM else power)) s.

Definition rf_setRxBuf (pBuf : Z) s : phy :=
  emit (RadioRxBufSet pBuf) (rx_buf_clear pBuf (with_rf_rxBuf pBuf s)).

Definition rf_reset s : phy :=
  let s := rf_setTrxState RF_STATE_TX s in
  let s := rf_setTxPower (g_zb_txPowerSet s) s in
  let s := rf_setChannel (phyChannelCur s) s in
  let s := if negb (rf_rxBuf s =? 0) then rf_setRxBuf (rf_rxBuf s) s
           else rf_setRxBuf (tl_getRxBuf (now s)) (with_now (S (now s)) s) in
  let s := emit (RadioTrxCfg RF_PKT_BUFF_LEN) s in
  emit RadioTimestampEnable (emit RadioTxEnable (emit RadioRxEnable s)).

Definition rf_mac_ack_build s : phy :=
  let b := dma_hdr_build (repeat 0 12) 3 in
  with_rf_ack_buf (<[6%nat := 0]> (<[5%nat := 2]> (<[4%nat := 5]> b))) s.

(** [ev_on_poll], then [ev_disable_poll] of [EV_POLL_ED_DETECT]. *)
Definition rf_init s : phy := with_ed_poll false (rf_mac_ack_build (rf_reset s)).

(** ** Energy detection *)
Definition rf_edDetect s : phy :=
  let '(rssi, s) := rssi_get s in
  let sum := s32 (sum_rssi s + rssi) in
  let cnt := s32 (cnt_rssi s + 1) in
  if 0xfffffe <=? cnt then with_cnt_rssi 1 (with_sum_rssi (Z.quot sum cnt) s)
  else with_cnt_rssi cnt (with_sum_rssi sum s).

Definition minEd : Z := -99.
Definition maxEd : Z := -15.

Definition rf_getLqi (rssi : Z) : Z :=
  let rssi := if maxEd <? rssi then maxEd else rssi in
  let rssi := if rssi <? minEd then minEd else rssi in
  u8 (Z.quot (255 * (rssi - minEd)) (maxEd - minEd)).

Definition rf_startEDScan s : phy :=
  rf_setTrxState RF_STATE_ED (with_ed_poll true (with_cnt_rssi 0 (with_sum_rssi 0 (with_soft_rssi (-110) s)))).

Definition rf_stopEDScan s : Z * phy :=
  let s := if cnt_rssi s =? 0 then with_cnt_rssi 1 s else s in
  let s := with_soft_rssi (s8 (Z.quot (sum_rssi s) (cnt_rssi s))) s in
  (rf_getLqi (soft_rssi s), with_ed_poll false s).

(** [while(!clock_time_exceed(t1,128)) { ... }] *)
Fixpoint cca_loop (fuel : nat) (t1 rssiSum cnt : Z) s : option (Z * Z * phy) :=
  match fuel with
  | O => None
  | S fuel' =>
      let '(t, s) := clock_time s in
      if 128 * 16 <? u32 (t - t1) then Some (rssiSum, cnt, s)
      else
        let '(rssi, s) := rssi_get s in
        cca_loop fuel' t1 (s32 (rssiSum + rssi)) (s32 (cnt + 1)) s
  end.

Definition rf_performCCA (fuel : nat) s : option (Z * phy) :=
  let '(t1, s) := clock_time s in
  let '(rssi_cur, s) := rssi_get s in
  '(rssiSum, cnt, s) ← cca_loop fuel t1 rssi_cur 1 s;
  let rssi_peak := s8 (Z.quot rssiSum cnt) in
  Some (if (ccaThres s <? rssi_peak) || negb (Z.land (rf_busyFlag s) TX_BUSY =? 0) then PHY_CCA_BUSY else PHY_CCA_IDLE, s).

(** ** Sending *)
(** [memcpy] into the buffer; what does not fit is written behind it. *)
Definition buf_put (o : nat) (l buf : list Z) : list Z := take o buf ++ l ++ drop (o + length l) buf.

Definition rf802154_tx_ready (buf : list Z) (len : Z) s : phy :=
  let b := <[4%nat := u8 (len + 2)]> (dma_hdr_build (rf_tx_buf s) len) in
  with_rf_tx_buf (buf_put 5 (take (Z.to_nat len) buf) b) s.

Definition rf802154_tx s : phy :=
  let s := rf_setTrxState RF_STATE_TX s in
  let s := emit RadioRxDoneClr (emit RadioTxDoneClr s) in
  emit (RadioTxStart (rf_tx_buf s)) s.

Definition rf_paInit (TXEN_pin RXEN_pin : Z) s : phy :=
  let s := with_rf_pa_rxen_pin RXEN_pin (with_rf_pa_txen_pin TXEN_pin s) in
  let s := emit (GpioWrite TXEN_pin 0) (emit (GpioOutputEn TXEN_pin 1) (emit (GpioFunc TXEN_pin) s)) in
  let s := emit (GpioWrite RXEN_pin 1) (emit (GpioOutputEn RXEN_pin 1) (emit (GpioFunc RXEN_pin) s)) in
  with_fPaEn 1 s.

Definition rf_tx_irq_handler s : phy :=
  let s := with_rf_busyFlag (Z.ldiff (rf_busyFlag s) TX_BUSY) s in
  let s := with_macTxIrqCnt (u8 (macTxIrqCnt s + 1)) s in
  emit MacSendDone (ZB_SWITCH_TO_RXMODE (with_rfMode RF_STATE_RX s)).

(** ** Receiving *)

(** The buffer is kept and the receiver enabled again. *)
Definition rx_recover s : phy := emit RadioRxEnable (rx_buf_clear (rf_rxBuf s) s).

(** The control field of the acknowledgement. *)
Definition ack_control (m : Z -> Z) (macPld pSrcAddr : Z) (k : nat) : Z :=
  let fcf := Z.lor (Z.shiftl (m (macPld + 1)) 8) (m macPld) in
  let pldOft := tl_zbMacHdrSize fcf in
  let frameType := Z.land fcf MAC_FCF_FRAME_TYPE_MASK in
  let pldOft :=
    if negb (Z.land fcf MAC_FCF_SEC_ENABLED_MASK =? 0) then
      u8 (pldOft + mac_getAuxSecurityHeaderLen (Z.shiftr (Z.land (m (macPld + pldOft)) SEC_CRTL_KEYID_MODE_MASK) 3))
    else pldOft in
  let cmdDataReq := (frameType =? MAC_FRAME_COMMAND) && (m (macPld + pldOft) =? MAC_CMD_DATA_REQUEST) in
  let srcAddrMode :=
    if Z.land (m (macPld + 1)) MAC_FCF_SRC_ADDR_BIT =? 0x80 then ZB_ADDR_16BIT_DEV_OR_BROADCAST
    else if Z.land (m (macPld + 1)) MAC_FCF_SRC_ADDR_BIT =? 0xc0 then ZB_ADDR_64BIT_DEV
    else ZB_ADDR_NO_ADDR in
  if cmdDataReq && negb (srcAddrMode =? ZB_ADDR_NO_ADDR) then
    if tl_zbMacPendingDataCheck k srcAddrMode pSrcAddr =? 0 then Z.lor 2 16 else 2
  else 2.

(** [while(!ZB_RADIO_TX_DONE && !clock_time_exceed(cur_tick, 1000));] *)
Fixpoint tx_done_loop (fuel : nat) (cur_tick : Z) s : option phy :=
  match fuel with
  | O => None
  | S fuel' =>
      let '(ok, s) := (r_tx_done (now s), with_now (S (now s)) s) in
      if ok then Some s
      else
        let '(t, s) := clock_time s in
        if 1000 * 16 <? u32 (t - cur_tick) then Some s else tx_done_loop fuel' cur_tick s
  end.

Definition send_ack (fuel : nat) (macPld pSrcAddr txTime : Z) s : option phy :=
  let c := ack_control (ram s) macPld pSrcAddr (now s) in
  let s := with_rf_ack_buf (<[5%nat := c]> (<[7%nat := ram s (macPld + 2)]> (rf_ack_buf s))) s in
  let '(t, s) := clock_time s in
  let txDelayUs := s32 (u32 (t - txTime) / sysTimerPerUs) in
  let s := if txDelayUs <? turnArnd s then emit (WaitUs (turnArnd s - txDelayUs)) s else s in
  let s := emit RadioIrqMaskClr s in
  let s := emit (RadioTxStart (rf_ack_buf s)) s in
  let '(cur_tick, s) := clock_time s in
  s ← tx_done_loop fuel cur_tick s;
  let s := emit RadioTxDoneClr s in
  let s := emit RadioIrqMaskSet s in
  Some (ZB_SWITCH_TO_RXMODE s).

Definition rf_rx_irq_handler (fuel : nat) s : option phy :=
  let p := rf_rxBuf s in
  let '(busy, s) := (r_dma_busy (now s), with_now (S (now s)) s) in
  if busy then Some s
  else
    let s := emit RadioRxDisable s in
    let s := with_macRxIrqCnt (u8 (macRxIrqCnt s + 1)) s in
    if negb (RF_ZIGBEE_PACKET_CRC_OK (ram s) p) || negb (RF_ZIGBEE_PACKET_LENGTH_OK (ram s) p) ||
       negb (Z.land (rf_busyFlag s) TX_BUSY =? 0) then
      Some (rx_recover (with_macRxCrcFail (u32 (macRxCrcFail s + 1)) s))
    else
      let len := u8 (ram s (p + 4)) in
      let macPld := p + ZB_RADIO_RX_HDR_LEN in
      let '(pSrcAddr, fDrop, fAck) := zb_macDataFilter (ram s) macPld len in
      if negb (fDrop =? 0) then Some (rx_recover s)
      else
        let ackReq := negb (Z.land (ram s macPld) MAC_FCF_ACK_REQ_BIT =? 0) in
        let '(txTime, s) := if ackReq then clock_time (ZB_SWITCH_TO_TXMODE s) else (0, s) in
        let '(rxNextBuf, s) := (tl_getRxBuf (now s), with_now (S (now s)) s) in
        if rxNextBuf =? 0 then
          let s := if ackReq then ZB_SWITCH_TO_RXMODE s else s in
          Some (rx_recover (with_phytoMACqueuelimitreached (u16 (phytoMACqueuelimitreached s + 1)) s))
        else
          let s := rf_setRxBuf rxNextBuf s in
          s ← (if ackReq then send_ack fuel macPld pSrcAddr txTime s else Some s);
          let s := emit RadioRxEnable s in
          Some (emit (MacReceive p macPld len fAck (RF_ZIGBEE_PACKET_TIMESTAMP_GET (ram s) p)
                        (s8 (RF_ZIGBEE_PACKET_RSSI_GET (ram s) p - 110))) s).
End Phy.
