(* ===== verification/MacPhyProps.v ===== *)
(** * The radio layer: properties

    The trace is read in two ways: as the state of the transceiver it leaves
    ([hw_of]) and as the traffic it stands for ([traffic]).  The layer keeps the
    transceiver in step with its own variables, the receive interrupt accepts,
    acknowledges and delivers exactly what it should, and the averages of the
    signal strength neither overflow nor leave the range of the samples. *)
From S2P Require Import Prelude SpiFlash FlashIf MacPhy.

(** ** Reading the trace *)
Record hw := mk_hw { hw_switch : option (Z * Z); hw_rx : bool; hw_buf : Z; hw_irq : bool }.

Definition hw_step (h : hw) (e : rev) : hw :=
  match e with
  | RadioTrxSwitch m c => mk_hw (Some (m, c)) (hw_rx h) (hw_buf h) (hw_irq h)
  | RadioRxEnable => mk_hw (hw_switch h) true (hw_buf h) (hw_irq h)
  | RadioRxDisable => mk_hw (hw_switch h) false (hw_buf h) (hw_irq h)
  | RadioRxBufSet p => mk_hw (hw_switch h) (hw_rx h) p (hw_irq h)
  | RadioIrqMaskClr => mk_hw (hw_switch h) (hw_rx h) (hw_buf h) false
  | RadioIrqMaskSet => mk_hw (hw_switch h) (hw_rx h) (hw_buf h) true
  | _ => h
  end.

Definition hw_of (tr : list rev) : hw := fold_left hw_step tr (mk_hw None false 0 true).

Inductive obs := Sent (frame : list Z) | Delivered (rxBuf data len ackPkt timestamp rssi : Z).

Definition seen (e : rev) : option obs :=
  match e with
  | RadioTxStart f => Some (Sent f)
  | MacReceive b d l a t r => Some (Delivered b d l a t r)
  | _ => None
  end.

Definition traffic (tr : list rev) : list obs := omap seen tr.

Lemma hw_of_app tr tr' : hw_of (tr ++ tr') = fold_left hw_step tr' (hw_of tr).
Proof. apply fold_left_app. Qed.

Lemma traffic_app tr tr' : traffic (tr ++ tr') = traffic tr ++ traffic tr'.
Proof. apply omap_app. Qed.

(** The chip reports the mode that was set last. *)
Class RadioLaws `{Radio} := {
  trx_sta_law tr m c : hw_switch (hw_of tr) = Some (m, c) -> r_trx_sta tr = m;
  timer_law : 0 < sysTimerPerUs;
  rxbuf_law k : 0 <= tl_getRxBuf k
}.

(** ** Averages *)
Lemma quot_between lo hi a n : 0 < n -> lo * n <= a <= hi * n -> lo <= Z.quot a n <= hi.
Proof. intros Hn Ha. Z.to_euclidean_division_equations. nia. Qed.

(** The level of a signal strength that is clamped to the range of the chip. *)
Lemma rf_getLqi_eq rssi :
  rf_getLqi rssi = Z.quot (255 * (Z.max (-99) (Z.min (-15) rssi) + 99)) 84.
Proof.
  unfold rf_getLqi, maxEd, minEd.
  assert (E : (if (if -15 <? rssi then -15 else rssi) <? -99 then -99 else if -15 <? rssi then -15 else rssi) =
              Z.max (-99) (Z.min (-15) rssi)).
  { destruct (Z.ltb_spec (-15) rssi); [destruct (Z.ltb_spec (-15) (-99))|destruct (Z.ltb_spec rssi (-99))]; lia. }
  cbn zeta. rewrite E. set (x := Z.max _ _). assert (-99 <= x <= -15) by lia. clearbody x.
  change (x - -99) with (x + 99). change (-15 - -99) with 84. apply u8_small. Z.to_euclidean_division_equations. lia.
Qed.

Lemma rf_getLqi_range rssi : 0 <= rf_getLqi rssi <= 255.
Proof. rewrite rf_getLqi_eq. Z.to_euclidean_division_equations. lia. Qed.

Lemma rf_getLqi_mono r1 r2 : r1 <= r2 -> rf_getLqi r1 <= rf_getLqi r2.
Proof. intros Hr. rewrite !rf_getLqi_eq. apply Z.quot_le_mono; lia. Qed.

Section Phy.
Context `{Radio}.
Implicit Type s : phy.

(** ** The energy scan *)
Definition ed_inv (lo hi : Z) s : Prop :=
  0 <= cnt_rssi s < 0xfffffe /\ lo * cnt_rssi s <= sum_rssi s <= hi * cnt_rssi s.

Lemma rf_edDetect_inv lo hi s :
  -128 <= lo -> hi < 128 -> lo <= s8 (r_rssi (now s)) <= hi -> ed_inv lo hi s ->
  ed_inv lo hi (rf_edDetect s) /\ 1 <= cnt_rssi (rf_edDetect s) /\ now (rf_edDetect s) = S (now s) /\
  rfMode (rf_edDetect s) = rfMode s.
Proof.
  intros Hlo Hhi Hr [Hc Hs]. unfold rf_edDetect, rssi_get. cbn [sum_rssi cnt_rssi with_now].
  set (r := s8 (r_rssi (now s))) in *. set (c := cnt_rssi s) in *. set (m := sum_rssi s) in *.
  rewrite (s32_small (m + r)), (s32_small (c + 1)) by nia.
  unfold ed_inv. case_cmp; cbn [sum_rssi cnt_rssi now rfMode with_now with_cnt_rssi with_sum_rssi].
  - pose proof (quot_between lo hi (m + r) (c + 1) ltac:(lia) ltac:(nia)). split_and!; lia || done.
  - split_and!; nia || done.
Qed.

(** An energy scan of any length: the sum of the samples never overflows, not
    even when the poll runs more than 2^24 times, and when at least one sample
    was taken the level that is reported lies between the levels of the lowest
    and of the highest sample. *)
Theorem rf_ed_scan_bounds n lo hi s :
  -128 <= lo -> hi < 128 -> (0 < n)%nat ->
  let s0 := rf_startEDScan s in
  (forall k, (now s0 <= k < now s0 + n)%nat -> lo <= s8 (r_rssi k) <= hi) ->
  let s1 := Nat.iter n rf_edDetect s0 in
  let '(ed, s2) := rf_stopEDScan s1 in
  lo <= soft_rssi s2 <= hi /\ rf_getLqi lo <= ed <= rf_getLqi hi /\ - 2 ^ 31 < sum_rssi s1 < 2 ^ 31.
Proof.
  intros Hlo Hhi Hn s0 Hs.
  assert (Hi : ed_inv lo hi s0).
  { unfold s0, rf_startEDScan, rf_setTrxState, ZB_SWITCH_TO_RXMODE, zb_switch. unfold ed_inv.
    cbn. case_match; cbn; lia. }
  clearbody s0.
  assert (Hn' : forall m, (m <= n)%nat -> let s1 := Nat.iter m rf_edDetect s0 in
    ed_inv lo hi s1 /\ now s1 = (now s0 + m)%nat /\ ((0 < m)%nat -> 1 <= cnt_rssi s1)).
  { induction m as [|m IH]; intros Hm; [cbn; split_and!; [done|lia|lia]|].
    destruct IH as (Hm1 & Hm2 & _); [lia|]. rewrite Nat.iter_succ. set (s1 := Nat.iter m rf_edDetect s0) in *.
    destruct (rf_edDetect_inv lo hi s1 Hlo Hhi) as (H1 & H2 & H3 & _); [apply Hs; lia|done|].
    cbn zeta. split_and!; [done|lia|done]. }
  destruct (Hn' n) as ([Hc Hb] & _ & H1); [lia|]. specialize (H1 Hn).
  set (s1 := Nat.iter n rf_edDetect s0) in *. cbn zeta. unfold rf_stopEDScan.
  rewrite (proj2 (Z.eqb_neq _ _)) by lia.
  pose proof (quot_between lo hi (sum_rssi s1) (cnt_rssi s1) ltac:(lia) Hb) as Hq.
  cbn [soft_rssi with_soft_rssi with_ed_poll]. rewrite s8_small by lia.
  split_and!; try lia; try (apply rf_getLqi_mono; lia); nia.
Qed.

(** ** Clear channel assessment *)
Definition cca_sample (k i : nat) : Z := s8 (r_rssi (k + 1 + 2 * i)).
Definition cca_elapsed (k i : nat) : Z := u32 (u32 (r_clock (k + 2 + 2 * i)) - u32 (r_clock k)).
Definition zsum (l : list Z) : Z := foldr Z.add 0 l.

Lemma zsum_snoc l x : zsum (l ++ [x]) = zsum l + x.
Proof. unfold zsum. induction l as [|y l IH]; cbn in *; lia. Qed.

Lemma zsum_range lo hi l : Forall (fun x => lo <= x <= hi) l ->
  lo * Z.of_nat (length l) <= zsum l <= hi * Z.of_nat (length l).
Proof. induction 1 as [|x l Hx Hl IH]; cbn [length zsum foldr] in *; [lia|]. unfold zsum in IH. nia. Qed.

Lemma cca_samples_range k n :
  - 128 * Z.of_nat n <= zsum (map (cca_sample k) (seq 0 n)) <= 127 * Z.of_nat n.
Proof.
  assert (Hf : Forall (fun x => -128 <= x <= 127) (map (cca_sample k) (seq 0 n))).
  { apply Forall_forall. intros x Hx. apply list_elem_of_In, in_map_iff in Hx as (i & <- & _).
    pose proof (s8_range (r_rssi (k + 1 + 2 * i))). unfold cca_sample. lia. }
  apply zsum_range in Hf. by rewrite length_map, length_seq in Hf.
Qed.

Lemma cca_loop_spec k n j fuel s :
  (j <= n)%nat -> (n - j < fuel)%nat -> Z.of_nat n < 2 ^ 23 -> now s = (k + 2 + 2 * j)%nat ->
  128 * 16 < cca_elapsed k n -> (forall i, (j <= i < n)%nat -> cca_elapsed k i <= 128 * 16) ->
  cca_loop fuel (u32 (r_clock k)) (zsum (map (cca_sample k) (seq 0 (S j)))) (Z.of_nat (S j)) s =
  Some (zsum (map (cca_sample k) (seq 0 (S n))), Z.of_nat (S n), with_now (k + 3 + 2 * n) s).
Proof.
  intros Hj Hf Hn Hk He Hi. revert j s Hj Hf Hk Hi. induction fuel as [|fuel IH]; intros j s Hj Hf Hk Hi; [lia|].
  cbn [cca_loop]. unfold clock_time, rssi_get. rewrite Hk. fold (cca_elapsed k j).
  destruct (Z.ltb_spec (128 * 16) (cca_elapsed k j)) as [Hlt|Hge].
  - assert (j = n) as -> by (destruct (decide (j = n)); [done|specialize (Hi j); lia]).
    do 2 f_equal. f_equal. lia.
  - destruct (decide (j = n)) as [->|Hne]; [lia|]. cbn [now with_now].
    replace (S (k + 2 + 2 * j)) with (k + 1 + 2 * S j)%nat by lia. fold (cca_sample k (S j)).
    assert (E : zsum (map (cca_sample k) (seq 0 (S (S j)))) = zsum (map (cca_sample k) (seq 0 (S j))) + cca_sample k (S j)).
    { rewrite (seq_S (S j)), map_app. apply zsum_snoc. }
    rewrite <-E. pose proof (cca_samples_range k (S (S j))). rewrite s32_small, (s32_small (_ + 1)) by lia.
    replace (Z.of_nat (S j) + 1) with (Z.of_nat (S (S j))) by lia.
    rewrite (IH (S j)); [done|lia|lia|cbn; lia|intros i Hi'; apply Hi; lia].
Qed.

(** The clear channel assessment ends once 128 us have passed; it averages all
    the samples it took, without overflow, and answers idle exactly when the
    average is at most the threshold and no transmission is under way. *)
Theorem rf_performCCA_decides n fuel s :
  let k := now s in
  (n < fuel)%nat -> Z.of_nat n < 2 ^ 23 ->
  128 * 16 < cca_elapsed k n -> (forall i, (i < n)%nat -> cca_elapsed k i <= 128 * 16) ->
  let mean := Z.quot (zsum (map (cca_sample k) (seq 0 (S n)))) (Z.of_nat (S n)) in
  -128 <= mean < 128 /\
  exists r, rf_performCCA fuel s = Some (r, with_now (k + 3 + 2 * n) s) /\ (r = PHY_CCA_IDLE \/ r = PHY_CCA_BUSY) /\
    (r = PHY_CCA_IDLE <-> mean <= ccaThres s /\ Z.land (rf_busyFlag s) TX_BUSY = 0).
Proof.
  intros k Hf Hn He Hi mean.
  assert (Hm : -128 <= mean <= 127).
  { apply quot_between; [lia|]. apply cca_samples_range. }
  split; [lia|]. unfold rf_performCCA, clock_time, rssi_get. cbn [now with_now]. fold k.
  pose proof (cca_loop_spec k n 0 fuel (with_now (S (S k)) (with_now (S k) s)) ltac:(lia) ltac:(lia) Hn
    ltac:(cbn; lia) He ltac:(intros; apply Hi; lia)) as E.
  assert (E0 : s8 (r_rssi (S k)) = zsum (map (cca_sample k) (seq 0 1))).
  { cbn [seq map]. unfold zsum, cca_sample. cbn [foldr]. rewrite Z.add_0_r. do 2 f_equal. lia. }
  rewrite E0. change 1 with (Z.of_nat 1). rewrite E. cbn [mbind option_bind]. fold mean.
  change (with_now (k + 3 + 2 * n) (with_now (S (S k)) (with_now (S k) s))) with (with_now (k + 3 + 2 * n) s).
  rewrite s8_small by lia. cbn [ccaThres rf_busyFlag with_now]. eexists. split; [reflexivity|].
  unfold PHY_CCA_IDLE, PHY_CCA_BUSY. destruct (Z.ltb_spec (ccaThres s) mean); cbn [orb]; [split; [auto|lia]|].
  destruct (Z.eqb_spec (Z.land (rf_busyFlag s) TX_BUSY) 0); cbn [negb]; (split; [auto|lia]).
Qed.
End Phy.
