(* ===== verification/MacPhyRadio.v ===== *)
(** * The radio layer: the transceiver and its interrupts

    Every operation leaves the transceiver in the mode, on the channel and with
    the receive buffer that the variables of the layer say, the receiver
    enabled and the interrupts unmasked; the receive interrupt accepts,
    acknowledges and delivers exactly what it should. *)
From S2P Require Import Prelude SpiFlash FlashIf MacPhy MacPhyProps.

Definition ack_frame (c q : Z) : list Z := [4; 0; 0; 0; 5; c; 0; q; 0; 0; 0; 0].

Definition mode_of (rfMode : Z) : Z := if rfMode =? RF_STATE_OFF then RF_MODE_OFF else rfMode.

Section Radio.
Context `{Radio}.
Implicit Type s : phy.

(** The acknowledgement is sent, or given up after a millisecond, within the fuel. *)
Definition timely (fuel : nat) : Prop := forall k,
  (exists n, (n < fuel)%nat /\
    (r_tx_done (k + 1 + 2 * n) = true \/ 1000 * 16 < u32 (u32 (r_clock (k + 2 + 2 * n)) - u32 (r_clock k)))) /\
  exists n, (n < fuel)%nat /\ 128 * 16 < cca_elapsed k n.

(** ** The operations on the trace *)
Definition switch_events (tx : bool) s : list rev :=
  (if negb (fPaEn s =? 0) then [GpioWrite (rf_pa_txen_pin s) (c_bool tx); GpioWrite (rf_pa_rxen_pin s) (c_bool (negb tx))]
   else []) ++ [RadioTrxSwitch (if tx then RF_MODE_TX else RF_MODE_RX) (LOGICCHANNEL_TO_PHYSICAL (phyChannelCur s))].

Lemma with_trace_trace s : with_trace (trace s) s = s.
Proof. by destruct s. Qed.

Lemma zb_switch_eq tx s : zb_switch tx s = with_trace (trace s ++ switch_events tx s) s.
Proof.
  unfold zb_switch, switch_events, emit, rf_getChannel. destruct (negb (fPaEn s =? 0)); [|done].
  cbn [trace with_trace phyChannelCur fPaEn rf_pa_txen_pin rf_pa_rxen_pin app]. by rewrite <-!app_assoc.
Qed.

Lemma switch_hw tx s h :
  fold_left hw_step (switch_events tx s) h =
  mk_hw (Some (if tx then RF_MODE_TX else RF_MODE_RX, LOGICCHANNEL_TO_PHYSICAL (phyChannelCur s))) (hw_rx h) (hw_buf h) (hw_irq h).
Proof. unfold switch_events. by destruct (negb (fPaEn s =? 0)). Qed.

Lemma switch_traffic tx s : traffic (switch_events tx s) = [].
Proof. unfold switch_events. by destruct (negb (fPaEn s =? 0)). Qed.

(** ** The acknowledgement *)
Lemma tx_done_loop_ends fuel k n i s :
  (i <= n)%nat -> (n - i < fuel)%nat -> now s = (k + 1 + 2 * i)%nat ->
  (r_tx_done (k + 1 + 2 * n) = true \/ 1000 * 16 < u32 (u32 (r_clock (k + 2 + 2 * n)) - u32 (r_clock k))) ->
  exists k', tx_done_loop fuel (u32 (r_clock k)) s = Some (with_now k' s).
Proof.
  intros Hi Hf Hk Hend. revert i s Hi Hf Hk. induction fuel as [|fuel IH]; intros i s Hi Hf Hk; [lia|].
  cbn [tx_done_loop]. destruct (r_tx_done (now s)) eqn:E; [by eexists|].
  unfold clock_time. cbn [now with_now]. rewrite Hk in *.
  destruct (Z.ltb_spec (1000 * 16) (u32 (u32 (r_clock (S (k + 1 + 2 * i))) - u32 (r_clock k)))) as [Hlt|Hge]; [by eexists|].
  destruct (decide (i = n)) as [->|Hne].
  - destruct Hend as [Hend|Hend]; [congruence|].
    replace (k + 2 + 2 * n)%nat with (S (k + 1 + 2 * n)) in Hend by lia. lia.
  - destruct (IH (S i) (with_now (S (S (k + 1 + 2 * i))) (with_now (S (k + 1 + 2 * i)) s))) as [k' E'];
      [lia|lia|cbn; lia|]. exists k'. rewrite E'. done.
Qed.

(** What was done when the wait for the end of the transmission begins. *)
Definition ack_wait (txTime : Z) s : list rev :=
  let d := s32 (u32 (u32 (r_clock (now s)) - txTime) / sysTimerPerUs) in
  if d <? turnArnd s then [WaitUs (turnArnd s - d)] else [].

Definition ack_of (macPld src : Z) s : list Z :=
  ack_frame (ack_control (ram s) macPld src (now s)) (ram s (macPld + 2)).

Definition ack_started (macPld src txTime : Z) s : phy :=
  with_now (S (S (now s))) (with_rf_ack_buf (ack_of macPld src s)
    (with_trace (trace s ++ ack_wait txTime s ++ [RadioIrqMaskClr; RadioTxStart (ack_of macPld src s)]) s)).

Lemma send_ack_eq fuel macPld src txTime s c q :
  rf_ack_buf s = ack_frame c q ->
  send_ack fuel macPld src txTime s =
  (s' ← tx_done_loop fuel (u32 (r_clock (S (now s)))) (ack_started macPld src txTime s);
   Some (ZB_SWITCH_TO_RXMODE (emit RadioIrqMaskSet (emit RadioTxDoneClr s')))).
Proof.
  intros Hb. unfold send_ack, ack_started, ack_wait. cbv zeta. rewrite Hb.
  change (<[5%nat := _]> (<[7%nat := _]> (ack_frame c q))) with (ack_of macPld src s).
  unfold clock_time at 1. cbn [turnArnd now with_now with_rf_ack_buf].
  destruct (_ <? turnArnd s); unfold clock_time, emit; cbn; by rewrite <-?app_assoc.
Qed.

Lemma send_ack_spec fuel macPld src txTime s c q :
  timely fuel -> rf_ack_buf s = ack_frame c q ->
  exists k', send_ack fuel macPld src txTime s =
    Some (with_now k' (with_rf_ack_buf (ack_of macPld src s)
      (with_trace (trace s ++ ack_wait txTime s ++
         [RadioIrqMaskClr; RadioTxStart (ack_of macPld src s); RadioTxDoneClr; RadioIrqMaskSet] ++ switch_events false s) s))).
Proof.
  intros Ht Hb. rewrite (send_ack_eq _ _ _ _ _ c q Hb).
  destruct (Ht (S (now s))) as [(n & Hn & Hend) _].
  destruct (tx_done_loop_ends fuel (S (now s)) n 0 (ack_started macPld src txTime s)) as [k' E]; [lia|lia|cbn; lia|done|].
  exists k'. rewrite E. cbn [mbind option_bind]. unfold ZB_SWITCH_TO_RXMODE. rewrite zb_switch_eq.
  unfold emit, ack_started. cbn. by rewrite <-!app_assoc.
Qed.

Lemma ack_wait_silent txTime s h : fold_left hw_step (ack_wait txTime s) h = h /\ traffic (ack_wait txTime s) = [].
Proof. unfold ack_wait. cbv zeta. by destruct (_ <? _). Qed.

(** ** The receive interrupt *)
Record rx_view := mk_view {
  rv_good : bool; (** checksum and length are right and nothing is being sent *)
  rv_len : Z; rv_src : Z; rv_drop : bool; rv_fAck : Z; rv_ackReq : bool; rv_next : Z }.

Definition view s : rx_view :=
  let p := rf_rxBuf s in
  let macPld := p + ZB_RADIO_RX_HDR_LEN in
  let len := u8 (ram s (p + 4)) in
  let '(src, drop, fAck) := zb_macDataFilter (ram s) macPld len in
  let ackReq := negb (Z.land (ram s macPld) MAC_FCF_ACK_REQ_BIT =? 0) in
  mk_view (RF_ZIGBEE_PACKET_CRC_OK (ram s) p && RF_ZIGBEE_PACKET_LENGTH_OK (ram s) p && (Z.land (rf_busyFlag s) TX_BUSY =? 0))
    len src (negb (drop =? 0)) fAck ackReq (tl_getRxBuf (if ackReq then S (S (now s)) else S (now s))).

Definition accepted s : bool := let v := view s in rv_good v && negb (rv_drop v) && negb (rv_next v =? 0).

(** The variables that an interrupt does not touch. *)
Definition same_rest s s' : Prop :=
  rf_tx_buf s' = rf_tx_buf s /\ rfMode s' = rfMode s /\ rf_busyFlag s' = rf_busyFlag s /\ phyChannelCur s' = phyChannelCur s /\
  fPaEn s' = fPaEn s.

Definition switched s (b : bool) (h : hw) : option (Z * Z) :=
  if b then Some (RF_MODE_RX, LOGICCHANNEL_TO_PHYSICAL (phyChannelCur s)) else hw_switch h.

(** The frame is not accepted: the buffer is kept. *)
Definition rx_dropped s s' : Prop :=
  let v := view s in
  rf_rxBuf s' = rf_rxBuf s /\ traffic (trace s') = traffic (trace s) /\ rf_ack_buf s' = rf_ack_buf s /\
  macRxCrcFail s' = (if rv_good v then macRxCrcFail s else u32 (macRxCrcFail s + 1)) /\
  phytoMACqueuelimitreached s' =
    (if rv_good v && negb (rv_drop v) then u16 (phytoMACqueuelimitreached s + 1) else phytoMACqueuelimitreached s) /\
  hw_of (trace s') = mk_hw (switched s (rv_good v && negb (rv_drop v) && rv_ackReq v) (hw_of (trace s))) true
    (hw_buf (hw_of (trace s))) (hw_irq (hw_of (trace s))).

Definition rx_accepted s s' : Prop :=
  let v := view s in let p := rf_rxBuf s in
  let m a := if (a =? rv_next v) || (a =? rv_next v + 4) then 0 else ram s a in
  exists ctl k, ctl = ack_control m (p + 5) (rv_src v) k /\
  rf_rxBuf s' = rv_next v /\ ram s' = m /\
  rf_ack_buf s' = (if rv_ackReq v then ack_frame ctl (m (p + 5 + 2)) else rf_ack_buf s) /\
  traffic (trace s') = traffic (trace s) ++ (if rv_ackReq v then [Sent (ack_frame ctl (m (p + 5 + 2)))] else []) ++
    [Delivered p (p + 5) (rv_len v) (rv_fAck v) (RF_ZIGBEE_PACKET_TIMESTAMP_GET m p) (s8 (RF_ZIGBEE_PACKET_RSSI_GET m p - 110))] /\
  macRxCrcFail s' = macRxCrcFail s /\ phytoMACqueuelimitreached s' = phytoMACqueuelimitreached s /\
  hw_of (trace s') = mk_hw (switched s (rv_ackReq v) (hw_of (trace s))) true (rv_next v)
    (rv_ackReq v || hw_irq (hw_of (trace s))).

Ltac tr_simp :=
  unfold rx_recover, rf_setRxBuf, ack_of, rx_buf_clear, emit;
  cbn [trace with_trace rf_rxBuf ram with_ram with_rf_rxBuf with_now now with_macRxIrqCnt with_macRxCrcFail
       with_phytoMACqueuelimitreached with_rf_ack_buf macRxIrqCnt macRxCrcFail phytoMACqueuelimitreached rf_ack_buf];
  rewrite ?hw_of_app, ?traffic_app, ?fold_left_app, ?switch_hw, ?switch_traffic, ?(proj1 (ack_wait_silent _ _ _)),
    ?(proj2 (ack_wait_silent _ _ (hw_of []))); cbn [fold_left hw_step switched]; rewrite ?switch_hw, ?app_nil_r, <-?app_assoc.

(** The handler in terms of the view. *)
Lemma rx_irq_eq fuel s :
  r_dma_busy (now s) = false ->
  rf_rx_irq_handler fuel s =
  let v := view s in let p := rf_rxBuf s in
  let s1 := with_macRxIrqCnt (u8 (macRxIrqCnt s + 1)) (emit RadioRxDisable (with_now (S (now s)) s)) in
  if rv_good v then
    if rv_drop v then Some (rx_recover s1)
    else
      let '(txTime, s2) := if rv_ackReq v then clock_time (ZB_SWITCH_TO_TXMODE s1) else (0, s1) in
      let s3 := with_now (S (now s2)) s2 in
      if rv_next v =? 0 then
        let s4 := if rv_ackReq v then ZB_SWITCH_TO_RXMODE s3 else s3 in
        Some (rx_recover (with_phytoMACqueuelimitreached (u16 (phytoMACqueuelimitreached s4 + 1)) s4))
      else
        s5 ← (if rv_ackReq v then send_ack fuel (p + 5) (rv_src v) txTime (rf_setRxBuf (rv_next v) s3)
              else Some (rf_setRxBuf (rv_next v) s3));
        let s6 := emit RadioRxEnable s5 in
        Some (emit (MacReceive p (p + 5) (rv_len v) (rv_fAck v) (RF_ZIGBEE_PACKET_TIMESTAMP_GET (ram s6) p)
                      (s8 (RF_ZIGBEE_PACKET_RSSI_GET (ram s6) p - 110))) s6)
  else Some (rx_recover (with_macRxCrcFail (u32 (macRxCrcFail s1 + 1)) s1)).
Proof.
  intros Hd. unfold rf_rx_irq_handler, view. rewrite Hd. cbv zeta. unfold ZB_RADIO_RX_HDR_LEN.
  cbn [emit with_trace with_now with_macRxIrqCnt ram rf_busyFlag rf_rxBuf].
  destruct (zb_macDataFilter (ram s) (rf_rxBuf s + 5) (u8 (ram s (rf_rxBuf s + 4)))) as [[src drop] fAck].
  cbn [rv_good rv_drop rv_next rv_len rv_src rv_fAck rv_ackReq].
  rewrite <-!negb_andb. destruct (RF_ZIGBEE_PACKET_CRC_OK _ _ && _ && _); cbn [negb]; [|done].
  destruct (drop =? 0); cbn [negb]; [|done].
  unfold ZB_SWITCH_TO_TXMODE.
  set (s1 := with_macRxIrqCnt _ _). assert (E : now s1 = S (now s)) by done. clearbody s1. rewrite !zb_switch_eq.
  destruct (Z.land _ _ =? 0); cbn [negb]; unfold clock_time; cbn [now with_now with_trace]; by rewrite E.
Qed.

Lemma rx_irq_spec fuel s c q :
  timely fuel -> rf_ack_buf s = ack_frame c q -> r_dma_busy (now s) = false ->
  exists s', rf_rx_irq_handler fuel s = Some s' /\ same_rest s s' /\
    if accepted s then rx_accepted s s' else rx_dropped s s'.
Proof.
  intros Ht Hb Hd. rewrite rx_irq_eq by done. unfold accepted, rx_accepted, rx_dropped, ZB_SWITCH_TO_TXMODE, ZB_SWITCH_TO_RXMODE.
  set (v := view s). clearbody v. cbv zeta. rewrite !zb_switch_eq.
  destruct (rv_good v); cbn [andb]; [|eexists; split; [reflexivity|]; split; [done|]; tr_simp; by split_and!].
  destruct (rv_drop v); cbn [andb negb]; [eexists; split; [reflexivity|]; split; [done|]; tr_simp; by split_and!|].
  destruct (rv_ackReq v); cbn [clock_time].
  - destruct (rv_next v =? 0); cbn [negb].
    + rewrite zb_switch_eq. eexists; split; [reflexivity|]; split; [done|]. tr_simp. by split_and!.
    + edestruct (send_ack_spec fuel (rf_rxBuf s + 5) (rv_src v)) as [k' E]; [done| |rewrite E]; [exact Hb|].
      cbn [mbind option_bind]. eexists; split; [reflexivity|]; split; [done|]. eexists _, _. split; [reflexivity|]. tr_simp. by split_and!.
  - destruct (rv_next v =? 0); cbn [negb].
    + eexists; split; [reflexivity|]; split; [done|]. tr_simp. by split_and!.
    + eexists; split; [reflexivity|]; split; [done|]. eexists _, O. split; [reflexivity|]. tr_simp. by split_and!.
Qed.

(** The two control fields; the pending bit only answers a data request. *)
Lemma ack_control_cases m macPld src k :
  ack_control m macPld src k = 2 \/
  ack_control m macPld src k = 0x12 /\
  Z.land (Z.lor (Z.shiftl (m (macPld + 1)) 8) (m macPld)) 7 = MAC_FRAME_COMMAND /\
  exists mode, (mode = ZB_ADDR_16BIT_DEV_OR_BROADCAST \/ mode = ZB_ADDR_64BIT_DEV) /\ tl_zbMacPendingDataCheck k mode src = 0.
Proof.
  unfold ack_control, MAC_FCF_FRAME_TYPE_MASK. cbv zeta.
  destruct (Z.eqb_spec (Z.land (Z.lor (Z.shiftl (m (macPld + 1)) 8) (m macPld)) 7) MAC_FRAME_COMMAND) as [Et|]; [|by left].
  destruct (_ =? MAC_CMD_DATA_REQUEST); [|by left]. cbn [andb].
  destruct (_ =? 0x80); [|destruct (_ =? 0xc0); [|by left]]; cbn [negb Z.eqb ZB_ADDR_NO_ADDR];
    match goal with |- context [tl_zbMacPendingDataCheck k ?md src] => destruct (Z.eqb_spec (tl_zbMacPendingDataCheck k md src) 0) end;
    [right|by left|right|by left]; (split; [done|]; split; [done|]; eexists; split; [|done]; auto).
Qed.

Lemma packet_fields_ext (m m' : Z -> Z) p :
  (forall a, p <= a < p + 144 -> m' a = m a) -> RF_ZIGBEE_PACKET_LENGTH_OK m p = true -> 0 <= m (p + 4) <= 127 ->
  RF_ZIGBEE_PACKET_TIMESTAMP_GET m' p = RF_ZIGBEE_PACKET_TIMESTAMP_GET m p /\
  RF_ZIGBEE_PACKET_RSSI_GET m' p = RF_ZIGBEE_PACKET_RSSI_GET m p.
Proof.
  intros Hm Hl Hp. unfold RF_ZIGBEE_PACKET_LENGTH_OK in Hl. apply Z.eqb_eq in Hl.
  unfold RF_ZIGBEE_PACKET_TIMESTAMP_GET, RF_ZIGBEE_PACKET_RSSI_GET.
  by rewrite (Hm p), !Hm by lia.
Qed.

(** C9. The receive interrupt accepts a frame exactly when its checksum and length
    are right, nothing is being sent, the filter keeps it and a buffer for the
    next frame is free.  Then, and only then, it is delivered, once, with the
    bytes that were received; and, when it asks for it, acknowledged first, by a
    frame with its sequence number whose pending bit is only set for a command
    frame.  Any other frame causes no traffic and stays in the same buffer.  Of
    these, a frame with a wrong checksum or length, or one that arrives while a
    transmission is pending, is counted as a receive error; a frame the filter
    keeps but for which no next buffer is free is counted as a lack of buffers;
    a frame the address filter drops is counted nowhere.  Assumed are: the
    transmitter is done, or the millisecond the code waits for it is over,
    within the fuel; the receive DMA is idle; the length byte is at most 127;
    and the two words the code clears in the next buffer are not in the present
    one. *)
Theorem rf_rx_exact fuel s c q :
  timely fuel -> rf_ack_buf s = ack_frame c q -> r_dma_busy (now s) = false ->
  let v := view s in let p := rf_rxBuf s in
  (forall a, p <= a < p + RF_PKT_BUFF_LEN -> a <> rv_next v /\ a <> rv_next v + 4) -> 0 <= ram s (p + 4) <= 127 ->
  exists s', rf_rx_irq_handler fuel s = Some s' /\
  if accepted s then
    rf_rxBuf s' = rv_next v /\ (forall a, p <= a < p + RF_PKT_BUFF_LEN -> ram s' a = ram s a) /\
    exists ctl, (ctl = 2 \/ ctl = 0x12 /\ Z.land (Z.lor (Z.shiftl (ram s (p + 6)) 8) (ram s (p + 5))) 7 = MAC_FRAME_COMMAND) /\
    traffic (trace s') = traffic (trace s) ++
      (if rv_ackReq v then [Sent (ack_frame ctl (ram s (p + 7)))] else []) ++
      [Delivered p (p + 5) (rv_len v) (rv_fAck v) (RF_ZIGBEE_PACKET_TIMESTAMP_GET (ram s) p)
         (s8 (RF_ZIGBEE_PACKET_RSSI_GET (ram s) p - 110))]
  else
    rf_rxBuf s' = p /\ traffic (trace s') = traffic (trace s) /\
    macRxCrcFail s' = (if rv_good v then macRxCrcFail s else u32 (macRxCrcFail s + 1)) /\
    phytoMACqueuelimitreached s' =
      (if rv_good v && negb (rv_drop v) then u16 (phytoMACqueuelimitreached s + 1) else phytoMACqueuelimitreached s).
Proof.
  intros Ht Hb Hd v p Hap Hlen. destruct (rx_irq_spec fuel s c q Ht Hb Hd) as (s' & E & _ & Hs). exists s'. split; [exact E|].
  destruct (accepted s) eqn:Ea; [|by destruct Hs as (H1 & H2 & _ & H3 & H4 & _)].
  destruct Hs as (ctl & k & Ectl & H1 & H2 & _ & H3 & _). fold v in Ectl, H1, H2, H3. fold p in Ectl, H3.
  unfold RF_PKT_BUFF_LEN in *.
  pose (m := fun a => if (a =? rv_next v) || (a =? rv_next v + 4) then 0 else ram s a). fold m in Ectl, H2, H3.
  assert (Hm : forall a, p <= a < p + 144 -> m a = ram s a).
  { intros a Ha. destruct (Hap a Ha). unfold m. by rewrite !(proj2 (Z.eqb_neq a _)) by done. }
  split; [done|]. split; [intros; rewrite H2; by apply Hm|].
  assert (Hl : RF_ZIGBEE_PACKET_LENGTH_OK (ram s) p = true).
  { unfold accepted, view in Ea. destruct (zb_macDataFilter _ _ _) as [[? ?] ?]. cbn [rv_good rv_drop rv_next] in Ea.
    fold p in Ea. by destruct (RF_ZIGBEE_PACKET_LENGTH_OK (ram s) p); rewrite ?andb_false_r in Ea. }
  destruct (packet_fields_ext (ram s) m p Hm Hl Hlen) as [E1 E2]. rewrite E1, E2 in H3.
  assert (E7 : m (p + 5 + 2) = ram s (p + 7)) by (replace (p + 5 + 2) with (p + 7) by lia; apply Hm; lia).
  unfold m in E7. rewrite E7 in H3. exists ctl. split; [|exact H3].
  subst ctl. destruct (ack_control_cases m (p + 5) (rv_src v) k) as [->|(-> & Hty & _)]; [by left|right].
  replace (p + 5 + 1) with (p + 6) in Hty by lia. by rewrite !Hm in Hty by lia.
Qed.

(** ** The transceiver is in step with the variables *)
Record radio_ok s : Prop := {
  ro_hw : hw_of (trace s) =
    mk_hw (Some (mode_of (rfMode s), LOGICCHANNEL_TO_PHYSICAL (phyChannelCur s))) true (rf_rxBuf s) true;
  ro_mode : rfMode s = RF_STATE_TX \/ rfMode s = RF_STATE_RX \/ rfMode s = RF_STATE_OFF;
  ro_buf : rf_rxBuf s <> 0;
  ro_ack : exists c q, rf_ack_buf s = ack_frame c q;
  ro_tx : length (rf_tx_buf s) = 132%nat
}.

(** The variables other than the mode and the trace. *)
Definition same_buffers s s' : Prop :=
  rf_rxBuf s' = rf_rxBuf s /\ rf_ack_buf s' = rf_ack_buf s /\ rf_tx_buf s' = rf_tx_buf s /\ phyChannelCur s' = phyChannelCur s.

Lemma set_state_spec st s :
  let s' := rf_setTrxState st s in let h := hw_of (trace s) in
  same_buffers s s' /\ traffic (trace s') = traffic (trace s) /\ now s' = now s /\
  (rfMode s' = RF_STATE_TX \/ rfMode s' = RF_STATE_RX \/ rfMode s' = RF_STATE_OFF) /\
  (st = RF_STATE_TX -> rfMode s' = RF_STATE_TX) /\
  hw_of (trace s') = mk_hw (Some (mode_of (rfMode s'), LOGICCHANNEL_TO_PHYSICAL (phyChannelCur s))) (hw_rx h) (hw_buf h) (hw_irq h).
Proof.
  cbv zeta. unfold rf_setTrxState, ZB_SWITCH_TO_RXMODE, ZB_SWITCH_TO_TXMODE. rewrite !zb_switch_eq.
  destruct ((RF_STATE_RX =? st) || (RF_STATE_ED =? st)) eqn:E1; [|destruct (RF_STATE_TX =? st) eqn:E2];
    unfold emit, same_buffers; cbn [trace with_trace with_rfMode rfMode].
  - rewrite hw_of_app, traffic_app, switch_hw, switch_traffic, app_nil_r. split_and!; auto.
    intros ->. discriminate E1.
  - rewrite !hw_of_app, !traffic_app, switch_hw, switch_traffic, !app_nil_r. split_and!; auto.
  - unfold rf_paShutDown, emit. destruct (negb (fPaEn s =? 0)); cbn [trace with_trace phyChannelCur rf_getChannel];
      rewrite !hw_of_app, !traffic_app; cbn [traffic omap list_omap seen fold_left hw_step]; rewrite ?app_nil_r; split_and!; auto;
      intros ->; discriminate E2.
Qed.

Inductive phy_op :=
  | OpReset | OpState (state : Z) | OpChannel (chn : Z) | OpPower (power : Z)
  | OpEdStart | OpEdPoll | OpEdStop | OpCca
  | OpTxReady (buf : list Z) (len : Z) | OpTx | OpPa (txen rxen : Z) | OpTxIrq | OpRxIrq.

Definition phy_call (fuel : nat) (op : phy_op) s : option phy :=
  match op with
  | OpReset => Some (rf_reset s)
  | OpState st => Some (rf_setTrxState st s)
  | OpChannel c => Some (rf_setChannel c s)
  | OpPower p => Some (rf_setTxPower p s)
  | OpEdStart => Some (rf_startEDScan s)
  | OpEdPoll => Some (rf_edDetect s)
  | OpEdStop => Some (rf_stopEDScan s).2
  | OpCca => '(_, s) ← rf_performCCA fuel s; Some s
  | OpTxReady buf len => Some (rf802154_tx_ready buf len s)
  | OpTx => Some (rf802154_tx s)
  | OpPa t r => Some (rf_paInit t r s)
  | OpTxIrq => Some (rf_tx_irq_handler s)
  | OpRxIrq => rf_rx_irq_handler fuel s
  end.

(** The chip only receives in receive mode; a frame has at most 127 bytes.
    Between the calls the DMA stores what is received. *)
Definition op_ok (op : phy_op) s : Prop :=
  match op with
  | OpTxReady buf len => 0 <= len <= 127 /\ len <= Z.of_nat (length buf)
  | OpRxIrq => rfMode s = RF_STATE_RX
  | _ => True
  end.

Inductive phy_step (fuel : nat) s : phy -> Prop :=
  | PhyStep op s' : op_ok op s -> phy_call fuel op s = Some s' -> phy_step fuel s s'
  | PhyDma m : phy_step fuel s (with_ram m s).

Lemma ok_ext s s' : same_buffers s s' -> rfMode s' = rfMode s -> hw_of (trace s') = hw_of (trace s) -> radio_ok s -> radio_ok s'.
Proof. intros (E1 & E2 & E3 & E4) E5 E6 []. split; by rewrite ?E1, ?E2, ?E3, ?E4, ?E5, ?E6. Qed.

Lemma ok_state st s : radio_ok s -> radio_ok (rf_setTrxState st s).
Proof.
  intros Hok. destruct (set_state_spec st s) as ((E1 & E2 & E3 & E4) & _ & _ & Hm & _ & Hh). destruct Hok as [Hhw _ Hb Ha Ht].
  split; [|done|..]; rewrite ?E1, ?E2, ?E3, ?E4; [|done..]. by rewrite Hh, Hhw.
Qed.

(** What happens to the transceiver does not concern it. *)
Lemma ok_emit e s : (forall h, hw_step h e = h) -> radio_ok s -> radio_ok (emit e s).
Proof. intros He. apply ok_ext; [done|done|]. unfold emit. cbn [trace with_trace]. rewrite hw_of_app. cbn [fold_left]. apply He. Qed.

Lemma ok_channel `{!RadioLaws} chn s : radio_ok s -> radio_ok (rf_setChannel chn s).
Proof.
  intros Hok. unfold rf_setChannel. destruct (_ || _); [done|]. destruct Hok as [Hhw Hm Hb Ha Ht].
  split; unfold emit; cbn [trace with_trace with_phyChannelCur rfMode phyChannelCur rf_rxBuf rf_ack_buf rf_tx_buf]; [|done..].
  rewrite hw_of_app, Hhw. cbn [fold_left hw_step hw_rx hw_buf hw_irq]. do 3 f_equal.
  apply (trx_sta_law _ _ (LOGICCHANNEL_TO_PHYSICAL (phyChannelCur s))). by rewrite Hhw.
Qed.

Lemma ok_rxbuf p s : p <> 0 -> radio_ok s -> radio_ok (rf_setRxBuf p s).
Proof.
  intros Hp [Hhw Hm Hb Ha Ht]. unfold rf_setRxBuf, rx_buf_clear, emit.
  split; cbn [trace with_trace with_ram with_rf_rxBuf rfMode phyChannelCur rf_rxBuf rf_ack_buf rf_tx_buf]; [|done..].
  by rewrite hw_of_app, Hhw.
Qed.

Lemma ok_reset `{!RadioLaws} s : radio_ok s -> radio_ok (rf_reset s).
Proof.
  intros Hok. unfold rf_reset. cbv zeta.
  set (s1 := rf_setChannel _ _). assert (Hok1 : radio_ok s1).
  { apply ok_channel, ok_emit; [done|]. by apply ok_state. }
  rewrite (proj2 (Z.eqb_neq _ _) (ro_buf s1 Hok1)). cbn [negb].
  apply ok_emit; [done|]. apply ok_emit; [done|].
  assert (Hon : forall s, radio_ok s -> radio_ok (emit RadioRxEnable s)).
  { intros s0 [Hhw ? ? ? ?]. split; [|done..]. unfold emit. cbn [trace with_trace]. by rewrite hw_of_app, Hhw. }
  apply Hon, ok_emit; [done|]. apply ok_rxbuf; [apply (ro_buf s1 Hok1)|done].
Qed.

Lemma ok_rx_irq fuel s : timely fuel -> rfMode s = RF_STATE_RX -> radio_ok s ->
  exists s', rf_rx_irq_handler fuel s = Some s' /\ radio_ok s'.
Proof.
  intros Ht Hrx Hok. destruct (r_dma_busy (now s)) eqn:Hd.
  { unfold rf_rx_irq_handler. rewrite Hd. eexists. split; [reflexivity|]. by apply (ok_ext s). }
  destruct Hok as [Hhw Hm Hb (c & q & Ha) Hl].
  destruct (rx_irq_spec fuel s c q Ht Ha Hd) as (s' & E & (R1 & R2 & _ & R4 & _) & Hs). exists s'. split; [exact E|].
  destruct (accepted s) eqn:Eacc.
  - unfold rx_accepted in Hs. rewrite Hhw in Hs. destruct Hs as (ctl & k & _ & H1 & _ & H3 & _ & _ & _ & H7).
    split; rewrite ?R1, ?R2, ?R4, ?H1; [..|done].
    + rewrite H7, Hrx. cbn [hw_switch hw_irq]. rewrite orb_true_r. unfold switched. by destruct (rv_ackReq (view s)).
    + by rewrite Hrx in Hm |- *.
    + unfold accepted in Eacc. by destruct (Z.eqb_spec (rv_next (view s)) 0); rewrite ?andb_false_r in Eacc.
    + rewrite H3. destruct (rv_ackReq _); eauto.
  - unfold rx_dropped in Hs. rewrite Hhw in Hs. destruct Hs as (H1 & _ & H3 & _ & _ & H6).
    split; rewrite ?R1, ?R2, ?R4, ?H1, ?H3; [|done|done|eauto|done].
    rewrite H6, Hrx. cbn [hw_switch hw_irq hw_buf]. unfold switched. by destruct (_ && rv_ackReq _).
Qed.

(** From the start, where nothing is known. *)
Lemma ok_init `{!RadioLaws} s0 :
  trace s0 = [] -> length (rf_tx_buf s0) = 132%nat -> (rf_rxBuf s0 <> 0 \/ forall k, tl_getRxBuf k <> 0) ->
  radio_ok (rf_init s0).
Proof.
  intros Htr Hl Hbuf. unfold rf_init, rf_reset. cbv zeta.
  destruct (set_state_spec RF_STATE_TX s0) as ((E1 & E2 & E3 & E4) & _ & _ & _ & Hm & Hh). specialize (Hm eq_refl).
  set (s1 := rf_setTrxState RF_STATE_TX s0) in *. rewrite Htr, Hm in Hh.
  change (hw_of []) with (mk_hw None false 0 true) in Hh. cbn [hw_rx hw_buf hw_irq] in Hh.
  set (s2 := rf_setChannel _ _).
  assert (H2 : rfMode s2 = RF_STATE_TX /\ rf_rxBuf s2 = rf_rxBuf s0 /\ rf_tx_buf s2 = rf_tx_buf s0 /\
    hw_of (trace s2) = mk_hw (Some (RF_MODE_TX, LOGICCHANNEL_TO_PHYSICAL (phyChannelCur s2))) false 0 true).
  { unfold s2, rf_setChannel, rf_setTxPower, emit. cbn [trace with_trace phyChannelCur with_phyChannelCur].
    set (pw := if negb (fPaEn s1 =? 0) then _ else _).
    assert (Hp : hw_of (trace s1 ++ [RadioTxPower pw]) = hw_of (trace s1)) by by rewrite hw_of_app.
    destruct (_ || _); cbn [trace with_trace rfMode rf_rxBuf rf_tx_buf phyChannelCur with_phyChannelCur].
    - rewrite Hp, E4. done.
    - rewrite hw_of_app, Hp, Hh. cbn [fold_left hw_step hw_rx hw_buf hw_irq]. split_and!; [done..|]. do 3 f_equal.
      apply (trx_sta_law _ _ (LOGICCHANNEL_TO_PHYSICAL (phyChannelCur s0))). by rewrite Hp, Hh. }
  destruct H2 as (M2 & B2 & T2 & H2). clearbody s2.
  set (s3 := if negb (rf_rxBuf s2 =? 0) then _ else _).
  assert (H3 : rfMode s3 = RF_STATE_TX /\ rf_rxBuf s3 <> 0 /\ rf_tx_buf s3 = rf_tx_buf s0 /\
    hw_of (trace s3) = mk_hw (Some (RF_MODE_TX, LOGICCHANNEL_TO_PHYSICAL (phyChannelCur s3))) false (rf_rxBuf s3) true).
  { unfold s3, rf_setRxBuf, rx_buf_clear, emit. destruct (Z.eqb_spec (rf_rxBuf s2) 0) as [E0|Hne]; cbn [negb];
      cbn [trace with_trace with_ram with_rf_rxBuf with_now rfMode rf_rxBuf rf_tx_buf phyChannelCur];
      rewrite hw_of_app, H2; (split_and!; [done| |done|done]); [|done].
    destruct Hbuf as [Hbuf|Hbuf]; [congruence|apply Hbuf]. }
  destruct H3 as (M3 & B3 & T3 & H3). clearbody s3.
  unfold rf_mac_ack_build, emit.
  split; cbn [trace with_trace with_ed_poll with_rf_ack_buf rfMode phyChannelCur rf_rxBuf rf_ack_buf rf_tx_buf].
  - rewrite !hw_of_app, H3, M3. done.
  - by left.
  - done.
  - by exists 2, 0.
  - by rewrite T3.
Qed.

Lemma cca_loop_ends fuel k n j sum cnt s :
  (j <= n)%nat -> (n - j < fuel)%nat -> now s = (k + 2 + 2 * j)%nat -> 128 * 16 < cca_elapsed k n ->
  exists r c k', cca_loop fuel (u32 (r_clock k)) sum cnt s = Some (r, c, with_now k' s).
Proof.
  intros Hj Hf Hk He. revert j sum cnt s Hj Hf Hk. induction fuel as [|fuel IH]; intros j sum cnt s Hj Hf Hk; [lia|].
  cbn [cca_loop]. unfold clock_time, rssi_get. rewrite Hk. fold (cca_elapsed k j).
  destruct (Z.ltb_spec (128 * 16) (cca_elapsed k j)); [by eexists _, _, _|].
  destruct (decide (j = n)) as [->|Hne]; [lia|]. cbn [now with_now].
  edestruct (IH (S j)) as (r & c & k' & E); [lia|lia| |rewrite E]; [cbn; lia|]. by eexists _, _, _.
Qed.

Lemma ok_cca fuel s : timely fuel -> radio_ok s -> exists s', phy_call fuel OpCca s = Some s' /\ radio_ok s'.
Proof.
  intros Ht Hok. destruct (Ht (now s)) as [_ (n & Hn & He)]. cbn [phy_call]. unfold rf_performCCA, clock_time, rssi_get.
  edestruct (cca_loop_ends fuel (now s) n 0) as (r & c & k' & E); [lia|lia| |exact He|rewrite E]; [cbn; lia|].
  eexists. split; [reflexivity|]. by apply (ok_ext s).
Qed.

Lemma ok_pa v s : radio_ok s -> radio_ok (with_fPaEn v s).
Proof. by apply ok_ext. Qed.

Lemma ok_pins t r s : radio_ok s -> radio_ok (with_rf_pa_rxen_pin r (with_rf_pa_txen_pin t s)).
Proof. by apply ok_ext. Qed.

Lemma ok_tx_irq s : radio_ok s -> radio_ok (rf_tx_irq_handler s).
Proof.
  intros Hok. unfold rf_tx_irq_handler, ZB_SWITCH_TO_RXMODE. cbv zeta. apply ok_emit; [done|]. rewrite zb_switch_eq.
  destruct Hok as [Hhw Hm Hb Ha Hl]. split; cbn [trace with_trace with_rfMode with_macTxIrqCnt with_rf_busyFlag rfMode phyChannelCur rf_rxBuf rf_ack_buf rf_tx_buf];
    [|auto|done..]. by rewrite hw_of_app, switch_hw, Hhw.
Qed.

Lemma ok_call `{!RadioLaws} fuel op s :
  timely fuel -> radio_ok s -> op_ok op s -> exists s', phy_call fuel op s = Some s' /\ radio_ok s'.
Proof.
  intros Ht Hok Hop. destruct op as [|st|chn|pw| | | | |buf len| |tx rx| |]; cbn [phy_call op_ok] in *;
    try (by apply ok_rx_irq); try (by apply ok_cca); (eexists; split; [reflexivity|]).
  - by apply ok_reset.
  - by apply ok_state.
  - by apply ok_channel.
  - by apply ok_emit.
  - unfold rf_startEDScan. apply ok_state. by apply (ok_ext s).
  - unfold rf_edDetect, rssi_get. cbv zeta. destruct (_ <=? _); by apply (ok_ext s).
  - unfold rf_stopEDScan. cbn [snd]. destruct (_ =? 0); by apply (ok_ext s).
  - destruct Hok as [Hhw Hm Hb Ha Hl]. split; [done..|]. unfold rf802154_tx_ready. cbn [rf_tx_buf with_rf_tx_buf].
    unfold buf_put, dma_hdr_build. rewrite !length_app, length_take, length_drop, length_take, length_insert. cbn [length].
    rewrite length_drop. lia.
  - unfold rf802154_tx. do 3 (apply ok_emit; [done|]). by apply ok_state.
  - unfold rf_paInit. cbv zeta. apply ok_pa. do 6 (apply ok_emit; [done|]). by apply ok_pins.
  - by apply ok_tx_irq.
Qed.

(** C10. After [rf_init], whatever sequence of calls and interrupts follows (a
    receive interrupt only in receive mode), the transceiver is in the mode and
    on the channel that the variables say, its receiver is enabled with the
    buffer that [rf_rxBuf] says, its interrupts are not masked, and every
    further call returns. *)
Theorem rf_radio_in_step `{!RadioLaws} fuel s0 s :
  timely fuel -> trace s0 = [] -> length (rf_tx_buf s0) = 132%nat ->
  (rf_rxBuf s0 <> 0 \/ forall k, tl_getRxBuf k <> 0) ->
  rtc (phy_step fuel) (rf_init s0) s ->
  radio_ok s /\ forall op, op_ok op s -> exists s', phy_call fuel op s = Some s'.
Proof.
  intros Ht Htr Hl Hbuf Hsteps. cut (radio_ok s).
  { intros Hok. split; [done|]. intros op Hop. destruct (ok_call fuel op s Ht Hok Hop) as (s' & E & _). by exists s'. }
  assert (Hok : radio_ok (rf_init s0)) by by apply ok_init.
  clear Htr Hl Hbuf. induction Hsteps as [|s1 s2 s3 [op s' Hop E|m] _ IH]; [done| |apply IH; by apply (ok_ext s1)]. apply IH.
  destruct (ok_call fuel op s1 Ht Hok Hop) as (s'' & E' & Hok'). congruence.
Qed.

(** Preparing and sending a frame of at most 127 bytes puts exactly one frame on
    the air: the length for the DMA, the length with the checksum's two bytes,
    and the bytes of the caller's buffer; the buffer keeps its size, so that
    nothing behind it is written, and the layer is in transmit mode. *)
Theorem rf802154_tx_frame buf len s :
  length (rf_tx_buf s) = 132%nat -> 0 <= len <= 127 -> len <= Z.of_nat (length buf) ->
  let s' := rf802154_tx (rf802154_tx_ready buf len s) in
  exists rest, traffic (trace s') =
      traffic (trace s) ++ [Sent ([len + 1; 0; 0; 0; len + 2] ++ take (Z.to_nat len) buf ++ rest)] /\
    length (rf_tx_buf s') = 132%nat /\ rfMode s' = RF_STATE_TX.
Proof.
  intros Hl Hlen Hb. cbv zeta. unfold rf802154_tx.
  set (s1 := rf802154_tx_ready buf len s). assert (Htr : trace s1 = trace s) by done.
  assert (Ef : exists rest, rf_tx_buf s1 = [len + 1; 0; 0; 0; len + 2] ++ take (Z.to_nat len) buf ++ rest).
  { unfold s1, rf802154_tx_ready. cbn [rf_tx_buf with_rf_tx_buf]. unfold buf_put, dma_hdr_build.
    destruct (rf_tx_buf s) as [|x0 [|x1 [|x2 [|x3 [|x4 l]]]]]; try (cbn in Hl; lia).
    cbn [drop]. rewrite !u8_small by lia. eexists. reflexivity. }
  assert (Hl1 : length (rf_tx_buf s1) = 132%nat).
  { unfold s1, rf802154_tx_ready. cbn [rf_tx_buf with_rf_tx_buf].
    unfold buf_put, dma_hdr_build. rewrite !length_app, length_take, length_drop, length_take, length_insert. cbn [length].
    rewrite length_drop. lia. }
  clearbody s1. destruct Ef as [rest Ef]. exists rest.
  destruct (set_state_spec RF_STATE_TX s1) as ((_ & _ & E3 & _) & Htf & _ & _ & Hm & _). specialize (Hm eq_refl).
  set (s2 := rf_setTrxState RF_STATE_TX s1) in *. clearbody s2. unfold emit.
  cbn [trace with_trace rf_tx_buf rfMode]. rewrite !traffic_app, Htf, Htr, E3, Ef. cbn [traffic omap list_omap seen].
  rewrite !app_nil_r. split_and!; [done| |done]. by rewrite <-Ef.
Qed.
End Radio.
