(* ===== verification/MacPhyDemo.v ===== *)
(** * The radio layer on concrete data

    A radio with the laws, and the properties at concrete inputs: a data frame
    that asks for an acknowledgement, an energy scan, a busy channel. *)
From S2P Require Import Prelude SpiFlash FlashIf MacPhy MacPhyProps MacPhyRadio.

#[local] Instance demo_radio : Radio := {|
  r_rssi k := -80 + Z.of_nat (k mod 7);
  r_clock k := 1000 * Z.of_nat k;
  r_tx_done k := (k mod 8 =? 0)%nat;
  r_dma_busy _ := false;
  r_trx_sta tr := match hw_switch (hw_of tr) with Some (m, _) => m | None => 0 end;
  sysTimerPerUs := 16;
  tl_getRxBuf _ := 0x1200;
  zb_macDataFilter m p len := (p + 7, 0, 0);
  tl_zbMacHdrSize _ := 9;
  mac_getAuxSecurityHeaderLen _ := 0;
  tl_zbMacPendingDataCheck _ _ _ := 1
|}.

#[local] Instance demo_radio_laws : RadioLaws.
Proof. split; [|cbn; lia|done]. intros tr m c E. cbn. by rewrite E. Qed.

(** A frame of 12 bytes behind the header of the DMA. *)
Definition demo_packet : list Z :=
  [21; 0; 0; 0; 12; 0x61; 0x88; 0x2a; 0xef; 0xbe; 0; 0; 1; 0; 0x55; 0; 0; 0; 0; 0; 0; 0; 0; 70; 0x10].

Definition demo_phy : phy :=
  mk_phy (repeat 0 132) (repeat 0 12) 0x1000 0 0 0 0 1 0 0 0 120 (-70) 0 20 0 0 0 0 false
    (fun a => nth (Z.to_nat (a - 0x1000)) demo_packet 0) 0 [].

Lemma demo_timely : timely 12.
Proof.
  intros k. split.
  - exists 9%nat. split; [lia|]. right. cbn [r_clock demo_radio]. unfold u32. rewrite <-Zminus_mod, Z.mod_small; lia.
  - exists 2%nat. split; [lia|]. unfold cca_elapsed. cbn [r_clock demo_radio]. unfold u32. rewrite <-Zminus_mod, Z.mod_small; lia.
Qed.

(** The radio after [rf_init], in receive mode. *)
Definition demo_rx : phy :=
  let s := rf_setTrxState RF_STATE_RX (rf_init demo_phy) in
  with_ram (ram demo_phy) s.

Lemma rf_rx_exact_witness :
  exists s', rf_rx_irq_handler 12 demo_rx = Some s' /\ rf_rxBuf s' = 0x1200 /\
    exists ctl, traffic (trace s') = [Sent (ack_frame ctl 0x2a); Delivered 0x1000 0x1005 12 0 0 (-40)].
Proof.
  destruct (rf_rx_exact 12 demo_rx 2 0 demo_timely) as (s' & E & Hs).
  - reflexivity.
  - reflexivity.
  - intros a Ha. change (rf_rxBuf demo_rx) with 0x1000 in Ha. change (rv_next (view demo_rx)) with 0x1200.
    unfold RF_PKT_BUFF_LEN in Ha. lia.
  - vm_compute. split; discriminate.
  - exists s'. split; [exact E|]. assert (Ea : accepted demo_rx = true) by (vm_compute; reflexivity). rewrite Ea in Hs.
    destruct Hs as (Hb & _ & ctl & _ & Ht). split; [exact Hb|]. exists ctl. rewrite Ht. vm_compute. reflexivity.
Defined.

Lemma rf_radio_in_step_witness : radio_ok demo_rx.
Proof.
  apply (rf_radio_in_step 12 demo_phy demo_rx demo_timely); [done|done|by left|].
  eapply rtc_l; [apply (PhyStep 12 _ (OpState RF_STATE_RX)); [done|reflexivity]|]. apply rtc_once, PhyDma.
Defined.

Lemma rf_ed_scan_bounds_witness :
  let '(ed, s2) := rf_stopEDScan (Nat.iter 20 rf_edDetect (rf_startEDScan demo_phy)) in
  -80 <= soft_rssi s2 <= -74 /\ rf_getLqi (-80) <= ed <= rf_getLqi (-74).
Proof.
  pose proof (rf_ed_scan_bounds 20 (-80) (-74) demo_phy ltac:(lia) ltac:(lia) ltac:(lia)) as Hb.
  cbv zeta in Hb. destruct (rf_stopEDScan _) as [ed s2]. destruct Hb as (H1 & H2 & _); [|done].
  intros k _. cbn [r_rssi demo_radio]. pose proof (Nat.mod_upper_bound k 7). rewrite s8_small; lia.
Defined.

Lemma rf_performCCA_decides_witness :
  exists r, rf_performCCA 12 demo_phy = Some (r, with_now 5 demo_phy) /\ r = PHY_CCA_IDLE.
Proof.
  destruct (rf_performCCA_decides 1 12 demo_phy) as (Hm & r & E & _ & Hr).
  - lia.
  - lia.
  - vm_compute. reflexivity.
  - intros i Hi. assert (i = 0)%nat as -> by lia. vm_compute. discriminate.
  - exists r. split; [exact E|]. apply Hr. vm_compute. split; [discriminate|reflexivity].
Defined.

Lemma rf802154_tx_frame_witness :
  exists rest, traffic (trace (rf802154_tx (rf802154_tx_ready [1; 2; 3] 3 demo_phy))) =
    [Sent ([4; 0; 0; 0; 5] ++ [1; 2; 3] ++ rest)].
Proof.
  destruct (rf802154_tx_frame [1; 2; 3] 3 demo_phy) as (rest & E & _); [reflexivity|lia|cbn; lia|].
  exists rest. exact E.
Defined.
