(* ===== verification/Keyboard.v ===== *)
(** * The keyboard driver ([proj/drivers/drv_keyboard.c])

    The matrix is scanned row by row, the rows are debounced, changed matrices
    go through a ring of four, and the oldest one is turned into key codes.  The
    pins and the key map are the board's ([KbBoard]), with the options of the
    8278 boards other than [KB_LINE_MODE], which is a parameter.  What the pins
    read is a function of what was done to the drive pins before. *)
From S2P Require Import Prelude.

Definition KB_RETURN_KEY_MAX : nat := 6.
Definition KB_NUMLOCK_STATUS_INVALID : Z := 0x80.

(** [BIT(n)] *)
Definition BIT (n : nat) : Z := Z.shiftl 1 (Z.of_nat n).

Record kb_data_t := mk_kb_data { ctrl_key : Z; keycode : list Z }.

(** [cnt] is the number of codes that are valid. *)
Definition cnt (d : kb_data_t) : nat := length (keycode d).

Inductive gev := GpioWrite (pin v : Z) | GpioOutputEn (pin v : Z) | WaitUs (us : Z) | ReadAll.

Class KbBoard := {
  drive_pins : list Z;
  scan_pins : list Z;
  kb_map_normal : list (list Z);
  KB_LINE_MODE : bool;
  (** the bytes that [drv_gpio_read_all] stores *)
  gpio_levels : list gev -> list Z
}.

Record kb := mk_kb {
  mtrx_pre : list Z;
  mtrx_last : list Z;
  matrix_buff : list (list Z);
  matrix_wptr : Z;
  matrix_rptr : Z;
  release_cnt : Z;
  ret_last : Z;
  scan_pin_need : Z;
  kb_event : kb_data_t;
  gpio_ops : list gev
}.

Definition with_mtrx_pre v s := mk_kb v (mtrx_last s) (matrix_buff s) (matrix_wptr s) (matrix_rptr s) (release_cnt s) (ret_last s) (scan_pin_need s) (kb_event s) (gpio_ops s).
Definition with_mtrx_last v s := mk_kb (mtrx_pre s) v (matrix_buff s) (matrix_wptr s) (matrix_rptr s) (release_cnt s) (ret_last s) (scan_pin_need s) (kb_event s) (gpio_ops s).
Definition with_matrix_buff v s := mk_kb (mtrx_pre s) (mtrx_last s) v (matrix_wptr s) (matrix_rptr s) (release_cnt s) (ret_last s) (scan_pin_need s) (kb_event s) (gpio_ops s).
Definition with_matrix_wptr v s := mk_kb (mtrx_pre s) (mtrx_last s) (matrix_buff s) v (matrix_rptr s) (release_cnt s) (ret_last s) (scan_pin_need s) (kb_event s) (gpio_ops s).
Definition with_matrix_rptr v s := mk_kb (mtrx_pre s) (mtrx_last s) (matrix_buff s) (matrix_wptr s) v (release_cnt s) (ret_last s) (scan_pin_need s) (kb_event s) (gpio_ops s).
Definition with_release_cnt v s := mk_kb (mtrx_pre s) (mtrx_last s) (matrix_buff s) (matrix_wptr s) (matrix_rptr s) v (ret_last s) (scan_pin_need s) (kb_event s) (gpio_ops s).
Definition with_ret_last v s := mk_kb (mtrx_pre s) (mtrx_last s) (matrix_buff s) (matrix_wptr s) (matrix_rptr s) (release_cnt s) v (scan_pin_need s) (kb_event s) (gpio_ops s).
Definition with_scan_pin_need v s := mk_kb (mtrx_pre s) (mtrx_last s) (matrix_buff s) (matrix_wptr s) (matrix_rptr s) (release_cnt s) (ret_last s) v (kb_event s) (gpio_ops s).
Definition with_kb_event v s := mk_kb (mtrx_pre s) (mtrx_last s) (matrix_buff s) (matrix_wptr s) (matrix_rptr s) (release_cnt s) (ret_last s) (scan_pin_need s) v (gpio_ops s).
Definition with_gpio_ops v s := mk_kb (mtrx_pre s) (mtrx_last s) (matrix_buff s) (matrix_wptr s) (matrix_rptr s) (release_cnt s) (ret_last s) (scan_pin_need s) (kb_event s) v.

Definition gpio_read_cache (pin : Z) (p : list Z) : Z := Z.land (nth (Z.to_nat (Z.shiftr pin 8)) p 0) (Z.land pin 0xff).

(** ** Debouncing *)
Definition debounce_row (last pre tmp : Z) : Z :=
  Z.lor (Z.land (u32 (Z.lnot last)) (Z.land pre tmp)) (Z.land last (Z.lor pre tmp)).

(** The rows of the filtered matrix and whether one has changed. *)
Fixpoint debounce_loop (last pre cur : list Z) (filt_en : bool) : list Z * bool :=
  match last, pre, cur with
  | l :: last, p :: pre, c :: cur =>
      let v := if filt_en then debounce_row l p c else c in
      let '(vs, kc) := debounce_loop last pre cur filt_en in
      (v :: vs, negb (v =? l) || kc)
  | _, _, _ => ([], false)
  end.

Definition key_debounce_filter (mtrx_cur : list Z) (filt_en : bool) s : bool * list Z * kb :=
  let '(v, kc) := debounce_loop (mtrx_last s) (mtrx_pre s) mtrx_cur filt_en in
  (kc, v, with_mtrx_last v (with_mtrx_pre mtrx_cur s)).

(** ** Ghost keys *)
Definition BIT_IS_POW2 (x : Z) : bool := Z.land x (x - 1) =? 0.

(** The overlaps of row [x] with the rows below it. *)
Definition ghost_mix (x : Z) (rows : list Z) (mix_final : Z) : Z :=
  fold_left (fun m y =>
    let mix := Z.land x y in
    if negb (mix =? 0) && (negb (BIT_IS_POW2 mix) || negb (Z.lxor x y =? 0)) then Z.lor m mix else m) rows mix_final.

Fixpoint rmv_ghost_loop (rows : list Z) (mix_final : Z) : list Z :=
  match rows with
  | [] => []
  | x :: rows => let m := ghost_mix x rows mix_final in Z.land x (u32 (Z.lnot m)) :: rmv_ghost_loop rows m
  end.

Definition kb_rmv_ghost_key (pressed_matrix : list Z) : list Z := rmv_ghost_loop pressed_matrix 0.

(** ** Key codes *)

(** The rest of a row from scan pin [i] on. *)
Fixpoint remap_row (fuel : nat) (col : nat -> Z) (i : nat) (m : Z) (key_max : nat) (d : kb_data_t) : kb_data_t :=
  match fuel with
  | O => d
  | S fuel' =>
      let hit := negb (Z.land m 1 =? 0) in
      let d := if hit then mk_kb_data (ctrl_key d) (keycode d ++ [col i]) else d in
      if hit && (key_max <=? cnt d)%nat then d
      else
        let m := Z.shiftr m 1 in
        if m =? 0 then d else remap_row fuel' col (S i) m key_max d
  end.

Section Board.
Context `{KbBoard}.

Definition kb_remap_key_row (drv_ind : nat) (m : Z) (key_max : nat) (d : kb_data_t) : kb_data_t :=
  remap_row (length scan_pins) (fun i => nth drv_ind (nth i kb_map_normal []) 0) 0 m key_max d.

Fixpoint remap_loop (i : nat) (rows : list Z) (key_max : nat) (d : kb_data_t) : kb_data_t :=
  match rows with
  | [] => d
  | m :: rows =>
      if m =? 0 then remap_loop (S i) rows key_max d
      else
        let d := kb_remap_key_row i m key_max d in
        if (key_max <=? cnt d)%nat then d else remap_loop (S i) rows key_max d
  end.

Definition kb_remap_key_code (pressed_matrix : list Z) (key_max : nat) (d : kb_data_t) : kb_data_t :=
  remap_loop 0 pressed_matrix key_max d.

(** ** Scanning *)
Definition emit (e : gev) s : kb := with_gpio_ops (gpio_ops s ++ [e]) s.

Definition drv_gpio_read_all s : list Z * kb := (gpio_levels (gpio_ops s), emit ReadAll s).

Definition drive (v en : Z) (pins : list Z) s : kb :=
  fold_left (fun s p => emit (GpioOutputEn p en) (emit (GpioWrite p v) s)) pins s.

(** The scan pins that read 0. *)
Definition low_pins (gpio : list Z) : list bool := map (fun pin => gpio_read_cache pin gpio =? 0) scan_pins.

Fixpoint bits_of (i : nat) (l : list bool) : Z :=
  match l with [] => 0 | b :: l => Z.lor (if b then BIT i else 0) (bits_of (S i) l) end.

Definition kb_key_pressed s : list Z * Z * kb :=
  let s := if KB_LINE_MODE then s else emit (WaitUs 20) (drive 0 1 drive_pins s) in
  let '(gpio, s) := drv_gpio_read_all s in
  let ret := bits_of 0 (low_pins gpio) in
  let s := if negb (ret =? 0) then with_ret_last ret (with_release_cnt 6 s) else s in
  let '(ret, s) := if negb (release_cnt s =? 0) then (ret_last s, with_release_cnt (release_cnt s - 1) s) else (ret, s) in
  let s := if KB_LINE_MODE then s else drive 0 0 drive_pins s in
  (gpio, ret, s).

(** The row that the levels in [gpio] show; then the levels of the next one are read. *)
Definition kb_scan_row (drv_ind : nat) (gpio : list Z) s : Z * list Z * kb :=
  let pin := [nth drv_ind drive_pins 0] in
  let s := if KB_LINE_MODE then s else drive 0 1 pin s in
  let matrix := Z.land (scan_pin_need s) (bits_of 0 (low_pins gpio)) in
  let '(gpio, s) := drv_gpio_read_all s in
  let s := if KB_LINE_MODE then s else drive 0 0 pin s in
  (matrix, gpio, s).

(** [for(int i = 0; i <= ARRAY_SIZE(drive_pins); i++)] *)
Fixpoint scan_loop (n i : nat) (gpio : list Z) s : list Z * kb :=
  match n with
  | O => ([], s)
  | S n' =>
      let '(r, gpio, s) := kb_scan_row (if (i <? length drive_pins)%nat then i else 0) gpio s in
      let '(rs, s) := scan_loop n' (S i) gpio s in
      (if (i =? 0)%nat then rs else r :: rs, s)
  end.

(** ** The ring of matrices *)
Definition push_matrix (m : list Z) s : kb :=
  let s := with_matrix_buff (<[Z.to_nat (Z.land (matrix_wptr s) 3) := m]> (matrix_buff s)) s in
  let s := with_matrix_wptr (Z.land (matrix_wptr s + 1) 7) s in
  if 4 <? Z.land (matrix_wptr s - matrix_rptr s) 7 then with_matrix_rptr (Z.land (matrix_wptr s - 4) 7) s else s.

Definition pop_matrix s : list Z * kb :=
  (nth (Z.to_nat (Z.land (matrix_rptr s) 3)) (matrix_buff s) [], with_matrix_rptr (Z.land (matrix_rptr s + 1) 7) s).

Definition kb_scan_key (numlock_status : Z) (read_key : bool) s : Z * kb :=
  let '(gpio, need, s) := kb_key_pressed s in
  let s := with_scan_pin_need need s in
  if negb (scan_pin_need s =? 0) then
    let s := with_kb_event (mk_kb_data 0 []) s in
    let '(_, gpio, s) := kb_scan_row 0 gpio s in
    let '(pressed_matrix, s) := scan_loop (S (length drive_pins)) 0 gpio s in
    let '(key_changed, pressed_matrix, s) := key_debounce_filter pressed_matrix true s in
    let s := if key_changed then push_matrix pressed_matrix s else s in
    if negb (Z.land numlock_status KB_NUMLOCK_STATUS_INVALID =? 0) then (1, s)
    else if (matrix_wptr s =? matrix_rptr s) || negb read_key then (0, s)
    else
      let '(pd, s) := pop_matrix s in
      (1, with_kb_event (kb_remap_key_code pd KB_RETURN_KEY_MAX (kb_event s)) s)
  else (0, s).
End Board.

Definition kb_is_data_same (a b : option kb_data_t) : bool :=
  match a, b with
  | Some a, Some b =>
      (cnt a =? cnt b)%nat && (ctrl_key a =? ctrl_key b) && forallb (fun '(x, y) => x =? y) (combine (keycode a) (keycode b))
  | _, _ => false
  end.
