(* ===== verification/KeyboardProps.v ===== *)
(** * The keyboard driver: properties

    The debouncing is a majority vote, the ring of matrices a queue of at most
    four that drops its oldest element, the key codes are the first six of the
    matrix in scanning order.  [keyboard] is an abstract machine of keys as
    booleans, without words, rings and pointers, that says what a scan does to
    the pins, what it reads and what it reports; any sequence of calls of
    [kb_scan_key] is a run of that machine. *)
From S2P Require Import Prelude Keyboard.

(** ** Words as bits *)
Lemma lnot_bit x b : 0 <= b < 32 -> Z.testbit (u32 (Z.lnot x)) b = negb (Z.testbit x b).
Proof. intros Hb. unfold u32. rewrite Z.mod_pow2_bits_low by lia. apply Z.lnot_spec. lia. Qed.

Lemma word_bits x y : 0 <= x < 2 ^ 32 -> 0 <= y < 2 ^ 32 ->
  (forall b, 0 <= b < 32 -> Z.testbit x b = Z.testbit y b) -> x = y.
Proof.
  intros Hx Hy Hb. apply Z.bits_inj'. intros b Hb0. destruct (Z.ltb_spec b 32); [apply Hb; lia|].
  rewrite <-(Z.mod_small x (2 ^ 32)), <-(Z.mod_small y (2 ^ 32)), !Z.mod_pow2_bits_high by lia. done.
Qed.

(** ** Debouncing *)
Definition majority (a b c : bool) : bool := if a then b || c else b && c.

Lemma debounce_row_bit last pre tmp b :
  0 <= b < 32 ->
  Z.testbit (debounce_row last pre tmp) b = majority (Z.testbit last b) (Z.testbit pre b) (Z.testbit tmp b).
Proof.
  intros Hb. unfold debounce_row. rewrite Z.lor_spec, !Z.land_spec, Z.lor_spec, lnot_bit by done.
  by destruct (Z.testbit last b), (Z.testbit pre b), (Z.testbit tmp b).
Qed.

Lemma debounce_loop_spec last pre cur :
  length last = length cur -> length pre = length cur ->
  let '(v, kc) := debounce_loop last pre cur true in
  length v = length cur /\ (kc = false <-> v = last) /\
  forall i l p c, last !! i = Some l -> pre !! i = Some p -> cur !! i = Some c -> v !! i = Some (debounce_row l p c).
Proof.
  revert last pre. induction cur as [|c cur IH]; intros [|l last] [|p pre] Hl Hp; try done.
  cbn [debounce_loop]. specialize (IH last pre ltac:(cbn in *; lia) ltac:(cbn in *; lia)).
  destruct (debounce_loop last pre cur true) as [v kc]. destruct IH as (H1 & H2 & H3). cbn [length]. split_and!; [lia| |].
  - destruct (Z.eqb_spec (debounce_row l p c) l) as [E|E]; cbn [negb orb].
    + rewrite H2, E. split; [by intros ->|by intros [= ->]].
    + split; [done|]. intros [= E' _]. done.
  - intros [|i] l' p' c'; cbn; [by intros [= ->] [= ->] [= ->]|apply H3].
Qed.

(** The debounced state of a key is the majority of its last debounced state
    and its last two readings: it only changes when two readings in a row
    disagree with it, so that a glitch of one scan has no effect, and after two
    equal readings it is what was read.  A change is reported exactly when the
    state of some key changed. *)
Theorem key_debounce_majority cur s :
  length (mtrx_last s) = length cur -> length (mtrx_pre s) = length cur ->
  let '(kc, v, s') := key_debounce_filter cur true s in
  mtrx_pre s' = cur /\ mtrx_last s' = v /\ length v = length cur /\
  (kc = true <-> v <> mtrx_last s) /\
  forall i l p c r b, mtrx_last s !! i = Some l -> mtrx_pre s !! i = Some p -> cur !! i = Some c -> v !! i = Some r ->
    0 <= b < 32 ->
    (Z.testbit p b = Z.testbit c b -> Z.testbit r b = Z.testbit c b) /\
    (Z.testbit p b <> Z.testbit c b -> Z.testbit r b = Z.testbit l b).
Proof.
  intros Hl Hp. unfold key_debounce_filter. pose proof (debounce_loop_spec _ _ _ Hl Hp) as Hs.
  destruct (debounce_loop (mtrx_last s) (mtrx_pre s) cur true) as [v kc]. destruct Hs as (H1 & H2 & H3).
  split_and!; [done|done|done| |].
  - destruct kc; [|by rewrite <-H2]. split; [intros _ E; by apply H2 in E|done].
  - intros i l p c r b El Ep Ec Er Hb. rewrite (H3 i l p c El Ep Ec) in Er. injection Er as <-.
    rewrite debounce_row_bit by done. destruct (Z.testbit l b), (Z.testbit p b), (Z.testbit c b); cbn; (split; congruence).
Qed.

(** ** Ghost keys *)
Lemma ghost_mix_bits x rows m b :
  Z.testbit m b = true -> Z.testbit (ghost_mix x rows m) b = true.
Proof.
  unfold ghost_mix. revert m. induction rows as [|y rows IH]; intros m Hm; [done|]. cbn [fold_left]. apply IH.
  case_match; [|done]. by rewrite Z.lor_spec, Hm.
Qed.

Definition ghost_pair (x y : Z) : Prop := Z.land x y <> 0 /\ (BIT_IS_POW2 (Z.land x y) = false \/ x <> y).

Lemma ghost_mix_pair x y rows m b :
  y ∈ rows -> ghost_pair x y -> Z.testbit (Z.land x y) b = true -> Z.testbit (ghost_mix x rows m) b = true.
Proof.
  unfold ghost_mix. revert m. induction rows as [|z rows IH]; intros m Hy Hp Hb; [by apply elem_of_nil in Hy|].
  cbn [fold_left]. apply elem_of_cons in Hy as [->|Hy]; [|by apply IH].
  apply ghost_mix_bits. destruct Hp as [H0 H1]. rewrite (proj2 (Z.eqb_neq _ _) H0). cbn [negb andb].
  assert (E : negb (BIT_IS_POW2 (Z.land x z)) || negb (Z.lxor x z =? 0) = true).
  { destruct H1 as [->|Hne]; [done|]. destruct (Z.eqb_spec (Z.lxor x z) 0) as [E|]; [|by rewrite orb_true_r].
    by apply Z.lxor_eq in E. }
  by rewrite E, Z.lor_spec, Hb, orb_true_r.
Qed.

(** Two rows that make up a ghost have no key in common afterwards. *)
Theorem kb_rmv_ghost_key_removes pre x mid y post :
  let rows := pre ++ x :: mid ++ y :: post in
  Forall (fun r => 0 <= r < 2 ^ 32) rows -> ghost_pair x y ->
  exists x' y', kb_rmv_ghost_key rows !! length pre = Some x' /\
    kb_rmv_ghost_key rows !! (length pre + 1 + length mid)%nat = Some y' /\ Z.land x' y' = 0.
Proof.
  cbv zeta. intros Hf Hg. unfold kb_rmv_ghost_key.
  assert (Hpre : forall pre m, exists m', rmv_ghost_loop (pre ++ x :: mid ++ y :: post) m !! length pre =
      Some (Z.land x (u32 (Z.lnot (ghost_mix x (mid ++ y :: post) m')))) /\
    drop (length pre + 1) (rmv_ghost_loop (pre ++ x :: mid ++ y :: post) m) =
      rmv_ghost_loop (mid ++ y :: post) (ghost_mix x (mid ++ y :: post) m')).
  { intros pre'. induction pre' as [|z pre' IH]; intros m; [by exists m|].
    cbn [app rmv_ghost_loop length]. cbv zeta. set (m1 := ghost_mix z _ m). destruct (IH m1) as (m' & E1 & E2).
    exists m'. split; [exact E1|]. exact E2. }
  destruct (Hpre pre 0) as (m' & E1 & E2). set (m1 := ghost_mix x (mid ++ y :: post) m') in *.
  assert (Hmid : forall mid' m, exists m2, rmv_ghost_loop (mid' ++ y :: post) m !! length mid' = Some (Z.land y (u32 (Z.lnot m2))) /\
    forall b, Z.testbit m b = true -> Z.testbit m2 b = true).
  { intros mid'. induction mid' as [|z mid' IH]; intros m; cbn [app rmv_ghost_loop length]; cbv zeta.
    - eexists. split; [reflexivity|]. intros b Hb. by apply ghost_mix_bits.
    - destruct (IH (ghost_mix z (mid' ++ y :: post) m)) as (m2 & E & Hm). exists m2. split; [exact E|].
      intros b Hb. by apply Hm, ghost_mix_bits. }
  destruct (Hmid mid m1) as (m2 & E3 & Hm2). rewrite <-E2, lookup_drop in E3.
  eexists _, _. split; [exact E1|]. split; [rewrite <-E3; f_equal; lia|].
  rewrite !Forall_app, Forall_cons, Forall_app, Forall_cons in Hf. destruct Hf as (_ & Hx & _ & Hy & _).
  apply Z.bits_inj'. intros b Hb. rewrite Z.bits_0, !Z.land_spec. destruct (Z.ltb_spec b 32) as [Hb'|Hb'].
  - rewrite !lnot_bit by lia. destruct (Z.testbit x b) eqn:Ex, (Z.testbit y b) eqn:Ey; rewrite ?andb_false_r; try done.
    rewrite Hm2; [by rewrite andb_false_r|]. apply (ghost_mix_pair x y); [set_solver|done|]. by rewrite Z.land_spec, Ex, Ey.
  - rewrite <-(Z.mod_small x (2 ^ 32)), Z.mod_pow2_bits_high by lia. done.
Qed.

(** ** The ring of matrices *)
Lemma land3 x : Z.land x 3 = x mod 4.
Proof. change 3 with (Z.ones 2). by rewrite Z.land_ones. Qed.
Lemma land7 x : Z.land x 7 = x mod 8.
Proof. change 7 with (Z.ones 3). by rewrite Z.land_ones. Qed.

Record ring_at (q : list (list Z)) s : Prop := {
  rg_len : length (matrix_buff s) = 4%nat;
  rg_w : 0 <= matrix_wptr s < 8;
  rg_r : 0 <= matrix_rptr s < 8;
  rg_count : (matrix_wptr s - matrix_rptr s) mod 8 = Z.of_nat (length q);
  rg_max : (length q <= 4)%nat;
  rg_items : forall i m, q !! i = Some m -> matrix_buff s !! Z.to_nat ((matrix_rptr s + Z.of_nat i) mod 4) = Some m
}.

(** The last four. *)
Definition push_last (m : list Z) (q : list (list Z)) : list (list Z) :=
  if (length q =? 4)%nat then tail q ++ [m] else q ++ [m].

Lemma push_ring m q s : ring_at q s -> ring_at (push_last m q) (push_matrix m s).
Proof.
  intros [Hl Hw Hr Hc Hm Hi]. unfold push_matrix. rewrite !land3. cbv zeta.
  cbn [matrix_wptr matrix_rptr with_matrix_buff with_matrix_wptr]. rewrite !land7.
  set (w := matrix_wptr s) in *. set (r := matrix_rptr s) in *. set (n := length q) in *.
  assert (Hw4 : w mod 4 = (r + Z.of_nat n) mod 4) by zdm.
  assert (Hnew : <[Z.to_nat (w mod 4) := m]> (matrix_buff s) !! Z.to_nat (w mod 4) = Some m).
  { apply list_lookup_insert_eq. rewrite Hl. zdm. }
  unfold push_last. fold n. destruct (Nat.eqb_spec n 4) as [E4|Hne].
  - assert (E : ((w + 1) mod 8 - r) mod 8 = 5) by (rewrite E4 in Hc; zdm). rewrite E. change (4 <? 5) with true. cbv iota beta.
    destruct q as [|x q]; [cbn in n; lia|]. cbn [tail]. assert (Hq : length q = 3%nat) by (cbn in n; lia).
    split; cbn [matrix_buff matrix_wptr matrix_rptr with_matrix_rptr with_matrix_wptr with_matrix_buff].
    + by rewrite length_insert.
    + apply Z.mod_pos_bound. lia.
    + apply Z.mod_pos_bound. lia.
    + rewrite length_app, Hq. cbn [length]. zdm.
    + rewrite length_app, Hq. cbn. lia.
    + intros i y Hy. apply lookup_app_Some in Hy as [Hy|[Hge Hy]].
      * pose proof (lookup_lt_Some _ _ _ Hy). rewrite list_lookup_insert_ne by (rewrite E4 in *; zdm).
        specialize (Hi (S i) y Hy). rewrite <-Hi. do 2 f_equal. rewrite E4 in *. zdm.
      * apply list_lookup_singleton_Some in Hy as [Ei <-]. rewrite <-Hnew. f_equal. rewrite E4 in *. f_equal. zdm.
  - assert (E : 4 <? ((w + 1) mod 8 - r) mod 8 = false) by (apply Z.ltb_ge; zdm). rewrite E.
    split; cbn [matrix_buff matrix_wptr matrix_rptr with_matrix_wptr with_matrix_buff].
    + by rewrite length_insert.
    + apply Z.mod_pos_bound. lia.
    + exact Hr.
    + rewrite length_app. fold n r. cbn [length]. zdm.
    + rewrite length_app. fold n. cbn. lia.
    + fold r. intros i y Hy. apply lookup_app_Some in Hy as [Hy|[Hge Hy]].
      * pose proof (lookup_lt_Some _ _ _ Hy). fold n in H. rewrite list_lookup_insert_ne by zdm. by apply Hi.
      * apply list_lookup_singleton_Some in Hy as [Ei <-]. rewrite <-Hnew. f_equal. f_equal. fold n in Ei, Hge. zdm.
Qed.

Lemma pop_ring m q s : ring_at (m :: q) s -> (pop_matrix s).1 = m /\ ring_at q (pop_matrix s).2.
Proof.
  intros [Hl Hw Hr Hc Hm Hi]. unfold pop_matrix. rewrite land3, land7. cbn [fst snd]. cbn [length] in *.
  specialize (Hi O m eq_refl) as H0. rewrite Z.add_0_r in H0. split; [by rewrite nth_lookup, H0|].
  split; cbn [matrix_buff matrix_wptr matrix_rptr with_matrix_rptr]; try done.
  - apply Z.mod_pos_bound. lia.
  - zdm.
  - lia.
  - intros i y Hy. specialize (Hi (S i) y Hy). rewrite <-Hi. do 2 f_equal. zdm.
Qed.

Lemma ring_empty q s : ring_at q s -> (matrix_wptr s =? matrix_rptr s) = (length q =? 0)%nat.
Proof. intros [Hl Hw Hr Hc Hm Hi]. destruct (Nat.eqb_spec (length q) 0); zdm. Qed.

(** ** Key codes *)
Section Board.
Context `{KbBoard}.
Implicit Type s : kb.

(** The codes of a row, in the order of the scan pins. *)
Definition row_keys (n : nat) (col : nat -> Z) (i : nat) (m : Z) : list Z :=
  omap (fun j => if Z.testbit m (Z.of_nat j) then Some (col (i + j)%nat) else None) (seq 0 n).

Lemma row_keys_S n col i m :
  row_keys (S n) col i m = (if Z.testbit m 0 then [col i] else []) ++ row_keys n col (S i) (Z.shiftr m 1).
Proof.
  unfold row_keys. cbn [seq omap list_omap]. change (Z.of_nat 0) with 0. rewrite Nat.add_0_r.
  assert (E : omap (fun j => if Z.testbit m (Z.of_nat j) then Some (col (i + j)%nat) else None) (seq 1 n) =
              omap (fun j => if Z.testbit (Z.shiftr m 1) (Z.of_nat j) then Some (col (S i + j)%nat) else None) (seq 0 n)).
  { rewrite <-seq_shift. induction (seq 0 n) as [|k l IH]; [done|]. cbn [map omap list_omap].
    rewrite Z.shiftr_spec by lia. replace (Z.of_nat (S k)) with (Z.of_nat k + 1) by lia.
    replace (i + S k)%nat with (S i + k)%nat by lia. by case_match; rewrite IH. }
  rewrite E. by destruct (Z.testbit m 0).
Qed.

Lemma row_keys_0 n col i : row_keys n col i 0 = [].
Proof. revert i. induction n as [|n IH]; intros i; [done|]. rewrite row_keys_S. cbn. apply IH. Qed.

Lemma bit0 m : negb (Z.land m 1 =? 0) = Z.testbit m 0.
Proof.
  change 1 with (Z.ones 1). rewrite Z.land_ones, Z.bit0_odd by lia. change (2 ^ 1) with 2.
  rewrite Zmod_odd. by destruct (Z.odd m).
Qed.

Lemma bit7 x : negb (Z.land x 0x80 =? 0) = Z.testbit x 7.
Proof.
  destruct (Z.testbit x 7) eqn:E.
  - destruct (Z.eqb_spec (Z.land x 0x80) 0) as [E0|]; [|done].
    assert (Hf : Z.testbit (Z.land x 0x80) 7 = true) by by rewrite Z.land_spec, E. by rewrite E0 in Hf.
  - assert (E0 : Z.land x 0x80 = 0); [|by rewrite E0].
    apply Z.bits_inj'. intros b Hb. rewrite Z.land_spec, Z.bits_0. change 0x80 with (2 ^ 7).
    rewrite Z.pow2_bits_eqb by lia. destruct (Z.eqb_spec 7 b) as [<-|]; [by rewrite E|apply andb_false_r].
Qed.

Lemma remap_row_spec n col i m key_max d :
  (cnt d < key_max)%nat ->
  remap_row n col i m key_max d = mk_kb_data (ctrl_key d) (take key_max (keycode d ++ row_keys n col i m)).
Proof.
  revert i m d. induction n as [|n IH]; intros i m [c l] Hd; unfold cnt in Hd; cbn [keycode] in Hd.
  { cbn. rewrite app_nil_r, take_ge by lia. done. }
  cbn [remap_row keycode ctrl_key cnt]. rewrite bit0, row_keys_S. destruct (Z.testbit m 0) eqn:Eb; cbn [andb].
  - unfold cnt. cbn [keycode]. rewrite length_app. cbn [length]. cbv zeta.
    destruct (Nat.leb_spec key_max (length l + 1)) as [Hle|Hgt].
    + f_equal. rewrite app_assoc, take_app_le, take_ge by (rewrite length_app; cbn; lia). done.
    + destruct (Z.eqb_spec (Z.shiftr m 1) 0) as [E0|_].
      * rewrite E0, row_keys_0, app_nil_r, take_ge by (rewrite length_app; cbn; lia). done.
      * rewrite IH by (unfold cnt; cbn [keycode]; rewrite length_app; cbn; lia). cbn [keycode ctrl_key]. by rewrite <-app_assoc.
  - cbn [app]. cbv zeta. destruct (Z.eqb_spec (Z.shiftr m 1) 0) as [E0|_].
    + rewrite E0, row_keys_0, app_nil_r, take_ge by lia. done.
    + by rewrite IH.
Qed.

(** The codes of a matrix, row by row. *)
Definition matrix_keys (i : nat) (rows : list Z) : list Z :=
  concat (imap (fun k m => row_keys (length scan_pins) (fun j => nth (i + k) (nth j kb_map_normal []) 0) 0 m) rows).

Lemma matrix_keys_cons i m rows :
  matrix_keys i (m :: rows) =
  row_keys (length scan_pins) (fun j => nth i (nth j kb_map_normal []) 0) 0 m ++ matrix_keys (S i) rows.
Proof.
  unfold matrix_keys. rewrite imap_cons. cbn [concat]. rewrite Nat.add_0_r. do 2 f_equal.
  apply imap_ext. intros k x _. unfold compose. by replace (i + S k)%nat with (S i + k)%nat by lia.
Qed.

Lemma remap_loop_spec i rows key_max d :
  (cnt d < key_max)%nat ->
  remap_loop i rows key_max d = mk_kb_data (ctrl_key d) (take key_max (keycode d ++ matrix_keys i rows)).
Proof.
  revert i d. induction rows as [|m rows IH]; intros i [c l] Hd; unfold cnt in Hd; cbn [keycode] in Hd.
  { cbn. rewrite app_nil_r, take_ge by lia. done. }
  cbn [remap_loop keycode ctrl_key]. rewrite matrix_keys_cons. destruct (Z.eqb_spec m 0) as [->|Hm].
  { rewrite row_keys_0. cbn [app]. rewrite IH by done. done. }
  unfold kb_remap_key_row. rewrite remap_row_spec by done. cbn [keycode ctrl_key]. cbv zeta.
  set (k1 := row_keys _ _ _ _). unfold cnt. cbn [keycode]. rewrite length_take, length_app.
  destruct (Nat.leb_spec key_max (Nat.min key_max (length l + length k1))) as [Hle|Hgt].
  - f_equal. rewrite app_assoc, (take_app_le (l ++ k1)) by (rewrite length_app; lia). done.
  - rewrite IH by (unfold cnt; cbn [keycode]; rewrite length_take, length_app; lia). cbn [keycode ctrl_key].
    rewrite (take_ge (l ++ k1)) by (rewrite length_app; lia). by rewrite <-app_assoc.
Qed.

(** ** The abstract keyboard

    Keys are booleans: row [i] of a matrix is drive pin [i], column [j] scan pin
    [j].  [seen] is the last nonempty reading with all rows driven and
    [hold] for how many more scans it still counts. *)
Record keyboard := mk_keyboard {
  prev : list (list bool);          (** the last readings *)
  keys : list (list bool);          (** the debounced state of the keys *)
  queue : list (list (list bool));  (** the changed states not yet reported *)
  hold : nat;
  seen : list bool;
  event : kb_data_t;                (** what the last scan reported *)
  trace : list gev                  (** what was done to the pins *)
}.

(** The scan pins that read low after [tr]; the low byte of a pin is its mask,
    the high byte its port. *)
Definition low_after (tr : list gev) : list bool :=
  map (fun pin => Z.land (nth (Z.to_nat (pin / 256)) (gpio_levels tr) 0) (pin mod 256) =? 0) scan_pins.

(** Pin [p] driven low ([1]) or floating ([0]); nothing is driven in line mode. *)
Definition set_pin (en p : Z) : list gev := if KB_LINE_MODE then [] else [GpioWrite p 0; GpioOutputEn p en].
Definition pulse (p : Z) : list gev := set_pin 1 p ++ [ReadAll] ++ set_pin 0 p.

(** The readings of a walk over the pins, each while its pin alone is driven. *)
Fixpoint row_readings (tr : list gev) (pins : list Z) : list (list bool) :=
  match pins with
  | [] => []
  | p :: pins => low_after (tr ++ set_pin 1 p) :: row_readings (tr ++ pulse p) pins
  end.

Definition nothing : list bool := map (fun _ => false) scan_pins.

(** With all rows driven: the columns with a key down, now or, when there is
    none now, in one of the last five scans. *)
Definition sense (a : keyboard) : list bool * keyboard :=
  let tr := trace a ++ concat (map (set_pin 1) drive_pins) ++ (if KB_LINE_MODE then [] else [WaitUs 20]) in
  let now := low_after tr in
  let tr := tr ++ [ReadAll] ++ concat (map (set_pin 0) drive_pins) in
  let upd h l := mk_keyboard (prev a) (keys a) (queue a) h l (event a) tr in
  if existsb id now then (now, upd 5%nat now)
  else match hold a with S h => (seen a, upd h (seen a)) | O => (nothing, upd O (seen a)) end.

(** Two readings that agree are believed, otherwise the key stays as it was. *)
Definition settle (last pre cur : bool) : bool := if Bool.eqb pre cur then cur else last.

Definition zip3 {A B C D} (f : A -> B -> C -> D) (la : list A) (lb : list B) (lc : list C) : list D :=
  zip_with (fun g c => g c) (zip_with f la lb) lc.

Definition enqueue (m : list (list bool)) (q : list (list (list bool))) := drop (length q - 3) (q ++ [m]).

(** The codes of the keys that are down, row by row. *)
Definition codes_of (m : list (list bool)) : list Z :=
  concat (imap (fun i row => concat (imap (fun j b => if b : bool then [nth i (nth j kb_map_normal []) 0] else []) row)) m).

Definition keyboard_scan (locks_known read_key : bool) (a : keyboard) : Z * keyboard :=
  let '(cols, a) := sense a in
  if existsb id cols then
    let p0 := nth 0 drive_pins 0 in
    let cur := map (zip_with andb cols) (row_readings (trace a ++ pulse p0) drive_pins) in
    let tr := trace a ++ pulse p0 ++ concat (map pulse drive_pins) ++ pulse p0 in
    let new := zip3 (zip3 settle) (keys a) (prev a) cur in
    let q := if decide (new = keys a) then queue a else enqueue new (queue a) in
    let upd q ev := mk_keyboard cur new q (hold a) (seen a) (mk_kb_data 0 ev) tr in
    if locks_known then
      match q, read_key with
      | m :: q, true => (1, upd q (take 6 (codes_of m)))
      | _, _ => (0, upd q [])
      end
    else (1, upd q [])
  else (0, a).

(** A sequence of scans: what each returns and the event it leaves. *)
Fixpoint keyboard_scans (ops : list (bool * bool)) (a : keyboard) : list (Z * kb_data_t) * keyboard :=
  match ops with
  | [] => ([], a)
  | (lk, rd) :: ops =>
      let '(r, a) := keyboard_scan lk rd a in
      let '(rs, a') := keyboard_scans ops a in ((r, event a) :: rs, a')
  end.

Fixpoint kb_scan_keys (ops : list (Z * bool)) s : list (Z * kb_data_t) * kb :=
  match ops with
  | [] => ([], s)
  | (nl, rd) :: ops =>
      let '(r, s) := kb_scan_key nl rd s in
      let '(rs, s') := kb_scan_keys ops s in ((r, kb_event s) :: rs, s')
  end.

(** ** Words for rows *)
Definition word (l : list bool) : Z := fold_right (fun b n => 2 * n + Z.b2z b) 0 l.

Definition row_ok (l : list bool) : Prop := length l = length scan_pins.
Definition matrix_ok (m : list (list bool)) : Prop := length m = length drive_pins /\ Forall row_ok m.

Record keyboard_rel (a : keyboard) s : Prop := {
  kr_prev : mtrx_pre s = map word (prev a);
  kr_keys : mtrx_last s = map word (keys a);
  kr_queue : ring_at (map (map word) (queue a)) s;
  kr_hold : release_cnt s = Z.of_nat (hold a);
  kr_seen : ret_last s = word (seen a);
  kr_event : kb_event s = event a;
  kr_trace : gpio_ops s = trace a;
  kr_prev_ok : matrix_ok (prev a);
  kr_keys_ok : matrix_ok (keys a);
  kr_queue_ok : Forall matrix_ok (queue a);
  kr_seen_ok : row_ok (seen a)
}.

Lemma word_bit l b : 0 <= b -> Z.testbit (word l) b = nth (Z.to_nat b) l false.
Proof.
  revert b. induction l as [|x l IH]; intros b Hb; [rewrite Z.bits_0; by destruct (Z.to_nat b)|].
  cbn [word fold_right]. fold (word l). destruct (Z.eqb_spec b 0) as [->|].
  - by rewrite Z.testbit_0_r.
  - replace b with (Z.succ (Z.pred b)) by lia. rewrite Z.testbit_succ_r by lia. rewrite IH by lia.
    by replace (Z.to_nat (Z.succ (Z.pred b))) with (S (Z.to_nat (Z.pred b))) by lia.
Qed.

Lemma word_inj l l' : length l = length l' -> word l = word l' -> l = l'.
Proof.
  intros Hl E. apply (nth_ext _ _ false false Hl). intros i _.
  by rewrite <-(Nat2Z.id i), <-!word_bit, E by lia.
Qed.

Lemma words_inj m m' :
  Forall row_ok m -> Forall row_ok m' -> map word m = map word m' -> m = m'.
Proof.
  intros Hm. revert m'. induction Hm as [|r m Hr Hm IH]; intros [|r' m'] Hm'; try done.
  inversion Hm' as [|? ? Hr' Hm2]; subst. cbn. intros [= E1 E2]. rewrite (IH m' Hm2 E2). f_equal.
  apply word_inj; [by rewrite Hr|done].
Qed.

Lemma word_ext x l :
  (forall b, 0 <= b -> Z.testbit x b = nth (Z.to_nat b) l false) -> x = word l.
Proof. intros Hx. apply Z.bits_inj'. intros b Hb. by rewrite Hx, word_bit. Qed.

Lemma word_zero l : (word l =? 0) = negb (existsb id l).
Proof.
  induction l as [|[] l IH]; [done|cbn [word fold_right existsb id orb Z.b2z]; fold (word l)..].
  - apply Z.eqb_neq. lia.
  - rewrite <-IH. destruct (Z.eqb_spec (word l) 0), (Z.eqb_spec (2 * word l + 0) 0); lia || done.
Qed.

Lemma bits_of_word i l : bits_of i l = Z.shiftl (word l) (Z.of_nat i).
Proof.
  revert i. induction l as [|b l IH]; intros i; [by rewrite Z.shiftl_0_l|]. cbn [bits_of word fold_right]. fold (word l).
  rewrite IH. apply Z.bits_inj'. intros k Hk. rewrite Z.lor_spec, !Z.shiftl_spec by lia.
  assert (Ek : forall k, Z.testbit (2 * word l + Z.b2z b) k = if k =? 0 then b else Z.testbit (word l) (k - 1)).
  { intros k'. destruct (Z.eqb_spec k' 0) as [->|]; [by rewrite Z.testbit_0_r|]. destruct (Z.ltb_spec k' 0).
    - by rewrite !Z.testbit_neg_r by lia.
    - replace k' with (Z.succ (k' - 1)) at 1 by lia. by rewrite Z.testbit_succ_r by lia. }
  rewrite Ek. replace (k - Z.of_nat (S i)) with (k - Z.of_nat i - 1) by lia.
  destruct b; unfold BIT.
  - rewrite Z.shiftl_1_l, Z.pow2_bits_eqb by lia.
    destruct (Z.eqb_spec (Z.of_nat i) k), (Z.eqb_spec (k - Z.of_nat i) 0); try lia; done.
  - rewrite Z.bits_0. cbn [orb]. destruct (Z.eqb_spec (k - Z.of_nat i) 0) as [->|]; [by rewrite Z.testbit_neg_r by lia|done].
Qed.

Lemma nth_zip {A B C} (f : A -> B -> C) la lb da db i :
  length la = length lb -> nth i (zip_with f la lb) (f da db) = f (nth i la da) (nth i lb db).
Proof. revert lb i. induction la as [|a la IH]; intros [|b lb] [|i] Hl; try done. cbn. apply IH. by injection Hl. Qed.

Lemma word_and l l' : length l = length l' -> Z.land (word l) (word l') = word (zip_with andb l l').
Proof.
  intros Hl. apply word_ext. intros b Hb. rewrite Z.land_spec, !word_bit by done.
  by rewrite <-(nth_zip andb l l' false false).
Qed.

Lemma length_zip3 {A B C D} (f : A -> B -> C -> D) la lb lc :
  length lb = length la -> length lc = length la -> length (zip3 f la lb lc) = length la.
Proof. intros. unfold zip3. rewrite !length_zip_with. lia. Qed.

Hypothesis scan_pins_32 : (length scan_pins <= 32)%nat.

(** The word arithmetic of the debouncing, key by key. *)
Lemma debounce_row_settle l p c :
  row_ok l -> row_ok p -> row_ok c -> debounce_row (word l) (word p) (word c) = word (zip3 settle l p c).
Proof.
  unfold row_ok. intros Hl Hp Hc. apply word_ext. intros b Hb.
  assert (E : nth (Z.to_nat b) (zip3 settle l p c) false =
              settle (nth (Z.to_nat b) l false) (nth (Z.to_nat b) p false) (nth (Z.to_nat b) c false)).
  { etransitivity; [apply (nth_zip (fun g c => g c) _ _ (settle false false) false); rewrite length_zip_with; lia|].
    exact (f_equal (fun g => g _) (nth_zip settle l p false false (Z.to_nat b) ltac:(congruence))). }
  rewrite E. destruct (Z.ltb_spec b 32).
  - rewrite debounce_row_bit, !word_bit by lia. by destruct (nth _ l _), (nth _ p _), (nth _ c _).
  - unfold debounce_row. rewrite Z.lor_spec, !Z.land_spec, !Z.lor_spec, !word_bit by lia.
    rewrite !(nth_overflow _ _ (n := Z.to_nat b)) by lia. by rewrite !andb_false_r.
Qed.

Lemma debounce_settles m pre cur :
  matrix_ok m -> matrix_ok pre -> matrix_ok cur ->
  let new := zip3 (zip3 settle) m pre cur in
  matrix_ok new /\ (debounce_loop (map word m) (map word pre) (map word cur) true).1 = map word new.
Proof.
  unfold matrix_ok. generalize (length drive_pins). intros n [Hl Hm]. revert n pre cur Hl.
  induction Hm as [|l m Hrl Hm IH]; intros n [|p pre] [|c cur] Hl [Hp Fp] [Hc Fc]; cbn in Hl; subst n; try done.
  inversion Fp as [|? ? Hrp Fp']; subst. inversion Fc as [|? ? Hrc Fc']; subst.
  destruct (IH _ pre cur eq_refl) as [[I1 I2] I3]; [split; [by injection Hp|done]|split; [by injection Hc|done]|].
  cbn [map debounce_loop zip3 zip_with]. destruct (debounce_loop _ _ _ true) as [vs kc]. cbn [fst] in *. cbn [map].
  fold (zip3 (zip3 settle) m pre cur). rewrite I3, debounce_row_settle by done.
  split; [|done]. split; [cbn [length]; by rewrite I1|]. constructor; [|exact I2].
  unfold row_ok in *. rewrite length_zip3; congruence.
Qed.

(** ** The scan and the pins *)
Lemma with_ops_twice t t' s : with_gpio_ops t (with_gpio_ops t' s) = with_gpio_ops t s.
Proof. done. Qed.

Lemma with_ops_same s : with_gpio_ops (gpio_ops s) s = s.
Proof. by destruct s. Qed.

Definition after (evs : list gev) s : kb := with_gpio_ops (gpio_ops s ++ evs) s.

Lemma after_nil s : after [] s = s.
Proof. unfold after. rewrite app_nil_r. apply with_ops_same. Qed.

Lemma after_after e1 e2 s : after e2 (after e1 s) = after (e1 ++ e2) s.
Proof. unfold after. cbn. by rewrite app_assoc. Qed.

Lemma emit_after e s : emit e s = after [e] s.
Proof. done. Qed.

Lemma drive_after en pins s :
  (if KB_LINE_MODE then s else drive 0 en pins s) = after (concat (map (set_pin en) pins)) s.
Proof.
  unfold set_pin, drive. revert s. destruct KB_LINE_MODE; induction pins as [|p pins IH]; intros s; cbn [map concat fold_left app].
  1, 3: by rewrite after_nil.
  - apply IH.
  - by rewrite IH, !emit_after, !after_after.
Qed.

Lemma low_pins_after tr : low_pins (gpio_levels tr) = low_after tr.
Proof.
  unfold low_pins, low_after. apply map_ext. intros pin. unfold gpio_read_cache.
  rewrite Z.shiftr_div_pow2 by lia. change 0xff with (Z.ones 8). by rewrite Z.land_ones by lia.
Qed.

Lemma low_after_ok tr : row_ok (low_after tr).
Proof. unfold row_ok, low_after. apply length_map. Qed.

Lemma nothing_ok : row_ok nothing.
Proof. unfold row_ok, nothing. apply length_map. Qed.

Lemma word_nothing : word nothing = 0.
Proof. symmetry. apply word_ext. intros b Hb. rewrite Z.bits_0. unfold nothing. symmetry. exact (map_nth (fun _ => false) scan_pins 0 (Z.to_nat b)). Qed.

Lemma bits_low tr : bits_of 0 (low_pins (gpio_levels tr)) = word (low_after tr).
Proof. by rewrite low_pins_after, bits_of_word, Z.shiftl_0_r. Qed.

#[local] Hint Resolve low_after_ok nothing_ok : core.

(** Everything but what the hardware side of a scan changes. *)
Definition same_data s s' : Prop :=
  mtrx_pre s' = mtrx_pre s /\ mtrx_last s' = mtrx_last s /\ matrix_buff s' = matrix_buff s /\
  matrix_wptr s' = matrix_wptr s /\ matrix_rptr s' = matrix_rptr s /\ kb_event s' = kb_event s.

Lemma hardware_rel a s h l tr s' :
  keyboard_rel a s -> row_ok l -> same_data s s' ->
  release_cnt s' = Z.of_nat h -> ret_last s' = word l -> gpio_ops s' = tr ->
  keyboard_rel (mk_keyboard (prev a) (keys a) (queue a) h l (event a) tr) s'.
Proof.
  intros [H1 H2 [Q1 Q2 Q3 Q4 Q5 Q6] H4 H5 H6 H7 H8 H9 H10 H11] Hl (D1 & D2 & D3 & D4 & D5 & D6) E1 E2 E3.
  split; cbn; try (done || congruence). split; rewrite ?D3, ?D4, ?D5; done.
Qed.

Lemma key_pressed_rel a s :
  keyboard_rel a s ->
  let '(gpio, need, s') := kb_key_pressed s in
  let '(cols, a') := sense a in
  (exists tr, gpio = gpio_levels tr) /\ need = word cols /\ row_ok cols /\ keyboard_rel a' s'.
Proof.
  intros Hr. pose proof Hr as [H1 H2 H3 H4 H5 H6 H7 H8 H9 H10 H11]. unfold kb_key_pressed, sense, drv_gpio_read_all.
  rewrite <-H7. set (s1 := if KB_LINE_MODE then s else _). set (tr := gpio_ops s ++ _ ++ _).
  assert (E1 : s1 = with_gpio_ops tr s).
  { unfold s1, tr. pose proof (drive_after 1 drive_pins s) as E. destruct KB_LINE_MODE.
    - rewrite app_nil_r. exact E.
    - rewrite E, emit_after, after_after. done. }
  clearbody s1. subst s1. cbn [gpio_ops with_gpio_ops]. cbv zeta. rewrite bits_low, word_zero, negb_involutive.
  rewrite app_assoc. set (off := concat _). set (s2 := emit ReadAll _).
  destruct (existsb id (low_after tr)) eqn:En.
  - cbn [release_cnt with_ret_last with_release_cnt negb Z.eqb Z.sub ret_last].
    unfold off. rewrite (drive_after 0 drive_pins). split_and!; [by eexists|done|done|].
    by apply (hardware_rel a s).
  - assert (E2 : release_cnt s2 = Z.of_nat (hold a)) by done. rewrite E2. destruct (hold a) as [|h].
    + change (negb (Z.of_nat 0 =? 0)) with false. cbv iota beta. rewrite (drive_after 0 drive_pins). split_and!; [by eexists| |done|].
      * rewrite word_nothing. destruct (Z.eqb_spec (word (low_after tr)) 0) as [|Hne]; [done|].
        pose proof (word_zero (low_after tr)) as Hz. rewrite En in Hz. cbn in Hz. by apply Z.eqb_eq in Hz.
      * by apply (hardware_rel a s).
    + destruct (Z.eqb_spec (Z.of_nat (S h)) 0); [lia|]. cbn [negb]. rewrite (drive_after 0 drive_pins).
      split_and!; [by eexists|exact H5|done|]. apply (hardware_rel a s); try done. cbn. lia.
Qed.

(** ** The rows *)
Lemma scan_row_after i tr s :
  kb_scan_row i (gpio_levels tr) s =
  (Z.land (scan_pin_need s) (word (low_after tr)), gpio_levels (gpio_ops s ++ set_pin 1 (nth i drive_pins 0)),
   after (pulse (nth i drive_pins 0)) s).
Proof.
  unfold kb_scan_row, drv_gpio_read_all. rewrite bits_low. cbv zeta. set (p := nth i drive_pins 0).
  pose proof (drive_after 1 [p] s) as E1. cbn [map concat] in E1. rewrite app_nil_r in E1. rewrite E1.
  rewrite emit_after, after_after.
  pose proof (drive_after 0 [p] (after (set_pin 1 p ++ [ReadAll]) s)) as E2. cbn [map concat] in E2. rewrite app_nil_r in E2.
  rewrite E2, after_after. unfold pulse. rewrite <-app_assoc. done.
Qed.

Lemma scan_loop_S n i gpio s :
  scan_loop (S n) i gpio s =
  let '(r, gpio, s) := kb_scan_row (if (i <? length drive_pins)%nat then i else 0) gpio s in
  let '(rs, s) := scan_loop n (S i) gpio s in (if (i =? 0)%nat then rs else r :: rs, s).
Proof. done. Qed.

Lemma scan_loop_rows pins i tr s :
  (0 < i)%nat -> drop i drive_pins = pins -> (i + length pins)%nat = length drive_pins ->
  scan_loop (S (length pins)) i (gpio_levels tr) s =
  (map (fun l => Z.land (scan_pin_need s) (word l)) (low_after tr :: row_readings (gpio_ops s) pins),
   after (concat (map pulse pins) ++ pulse (nth 0 drive_pins 0)) s).
Proof.
  revert i tr s. induction pins as [|p pins IH]; intros i tr s Hi Hd Hn.
  - cbn [length scan_loop] in *. destruct (Nat.ltb_spec i (length drive_pins)); [lia|].
    rewrite scan_row_after. destruct (Nat.eqb_spec i 0); [lia|]. done.
  - cbn [length] in *. rewrite scan_loop_S. destruct (Nat.ltb_spec i (length drive_pins)); [|lia].
    assert (Hp : nth i drive_pins 0 = p).
    { assert (E : drive_pins !! i = Some p) by (rewrite <-(Nat.add_0_r i), <-lookup_drop, Hd; done). by rewrite nth_lookup, E. }
    rewrite scan_row_after, Hp. assert (Hd' : drop (S i) drive_pins = pins).
    { replace (S i) with (i + 1)%nat by lia. by rewrite <-drop_drop, Hd. }
    specialize (IH (S i) (gpio_ops s ++ set_pin 1 p) (after (pulse p) s) ltac:(lia) Hd' ltac:(lia)).
    rewrite IH. destruct (Nat.eqb_spec i 0); [lia|]. rewrite after_after. cbn [map row_readings concat]. rewrite <-app_assoc. done.
Qed.

Lemma walk_ok tr pins : length (row_readings tr pins) = length pins /\ Forall row_ok (row_readings tr pins).
Proof.
  revert tr. induction pins as [|p pins IH]; intros tr; [done|]. destruct (IH (tr ++ pulse p)) as [I1 I2].
  cbn [row_readings length]. split; [by rewrite I1|]. by constructor.
Qed.

(** All the rows of a scan. *)
Lemma scan_rows tr s :
  (0 < length drive_pins)%nat ->
  let p0 := nth 0 drive_pins 0 in
  let '(_, gpio, s1) := kb_scan_row 0 (gpio_levels tr) s in
  scan_loop (S (length drive_pins)) 0 gpio s1 =
  (map (fun l => Z.land (scan_pin_need s) (word l)) (row_readings (gpio_ops s ++ pulse p0) drive_pins),
   after (pulse p0 ++ concat (map pulse drive_pins) ++ pulse p0) s).
Proof.
  intros Hn. cbv zeta. rewrite scan_row_after. set (p0 := nth 0 drive_pins 0). destruct drive_pins as [|q pins] eqn:Ed; [cbn in Hn; lia|].
  subst p0. cbn [nth]. cbn [length].
  rewrite scan_loop_S. rewrite Ed at 1. cbn [length Nat.ltb Nat.leb]. rewrite scan_row_after, Ed. cbn [nth].
  rewrite (scan_loop_rows pins 1); [|lia|by rewrite Ed|by rewrite Ed].
  rewrite !after_after, Ed. cbn [Nat.eqb nth map row_readings concat]. rewrite <-!app_assoc.
  unfold after. cbn [gpio_ops scan_pin_need with_gpio_ops]. by rewrite <-!app_assoc.
Qed.

Lemma codes_row n col i l :
  length l = n -> row_keys n col i (word l) = concat (imap (fun j (b : bool) => if b then [col (i + j)%nat] else []) l).
Proof.
  intros <-. revert i. induction l as [|b l IH]; intros i; [done|]. cbn [length]. rewrite row_keys_S, imap_cons.
  cbn [concat]. rewrite Nat.add_0_r.
  assert (Eb : Z.testbit (word (b :: l)) 0 = b) by by rewrite word_bit. rewrite Eb. f_equal.
  assert (Es : Z.shiftr (word (b :: l)) 1 = word l).
  { apply word_ext. intros k Hk. rewrite Z.shiftr_spec, word_bit by lia.
    by replace (Z.to_nat (k + 1)) with (S (Z.to_nat k)) by lia. }
  rewrite Es, IH. f_equal. apply imap_ext. intros j x _. unfold compose. by replace (i + S j)%nat with (S i + j)%nat by lia.
Qed.

Lemma matrix_codes m : Forall row_ok m -> matrix_keys 0 (map word m) = codes_of m.
Proof.
  intros Hm. unfold matrix_keys, codes_of. f_equal. rewrite imap_fmap. apply imap_ext. intros i l Hl. unfold compose.
  apply codes_row. by apply (proj1 (Forall_lookup _ _) Hm i).
Qed.

Lemma enqueue_push m q : (length q <= 4)%nat -> map (map word) (enqueue m q) = push_last (map word m) (map (map word) q).
Proof.
  intros Hq. unfold enqueue, push_last. rewrite length_map. destruct (Nat.eqb_spec (length q) 4) as [E|E].
  - rewrite E. destruct q as [|x q]; [done|]. cbn [Nat.sub app drop map tail]. apply map_app.
  - replace (length q - 3)%nat with O by lia. apply map_app.
Qed.

Lemma enqueue_ok m q : matrix_ok m -> Forall matrix_ok q -> Forall matrix_ok (enqueue m q).
Proof. intros. unfold enqueue. apply Forall_drop, Forall_app. split; [done|]. by constructor. Qed.

Lemma rows_and cols rows :
  row_ok cols -> Forall row_ok rows ->
  map (fun l => Z.land (word cols) (word l)) rows = map word (map (zip_with andb cols) rows) /\
  Forall row_ok (map (zip_with andb cols) rows).
Proof.
  unfold row_ok. intros Hc. induction 1 as [|l rows Hl Hr [I1 I2]]; [done|]. cbn [map]. rewrite I1, word_and by congruence.
  split; [done|]. constructor; [|done]. rewrite length_zip_with. lia.
Qed.

(** The data side of a scan: the debounced matrix joins the queue when it differs. *)
Lemma settle_rel a s cur q ev tr :
  keyboard_rel a s -> matrix_ok cur -> q = queue a ->
  let '(kc, v, s1) := key_debounce_filter (map word cur) true (after tr (with_kb_event ev s)) in
  let new := zip3 (zip3 settle) (keys a) (prev a) cur in
  keyboard_rel (mk_keyboard cur new (if decide (new = keys a) then q else enqueue new q) (hold a) (seen a) ev (trace a ++ tr))
    (if kc then push_matrix v s1 else s1).
Proof.
  intros [H1 H2 H3 H4 H5 H6 H7 H8 H9 H10 H11] Hc ->. unfold key_debounce_filter, after.
  cbn [mtrx_last mtrx_pre gpio_ops with_gpio_ops with_kb_event]. rewrite H1, H2, H7.
  pose proof (debounce_loop_spec (map word (keys a)) (map word (prev a)) (map word cur)) as Hs.
  destruct (debounce_settles (keys a) (prev a) cur H9 H8 Hc) as [Hn Ev]. set (new := zip3 _ _ _ _) in *.
  destruct (debounce_loop _ _ _ true) as [v kc]. cbn [fst] in Ev. subst v.
  destruct H9 as [L9 F9], H8 as [L8 F8], (Hc) as [Lc Fc]. rewrite !length_map in Hs.
  destruct Hs as (_ & Hk & _); [congruence..|].
  set (s1 := with_mtrx_last _ _). assert (R1 : ring_at (map (map word) (queue a)) s1) by (destruct H3; by split).
  assert (Hsame : forall q' s2, ring_at (map (map word) q') s2 -> Forall matrix_ok q' -> mtrx_pre s2 = mtrx_pre s1 -> mtrx_last s2 = mtrx_last s1 ->
    release_cnt s2 = release_cnt s1 -> ret_last s2 = ret_last s1 -> kb_event s2 = kb_event s1 -> gpio_ops s2 = gpio_ops s1 ->
    keyboard_rel (mk_keyboard cur new q' (hold a) (seen a) ev (trace a ++ tr)) s2).
  { intros q' s2 Hq Fq E1 E2 E3 E4 E5 E6. split; cbn; rewrite ?E1, ?E2, ?E3, ?E4, ?E5, ?E6; done. }
  destruct (decide (new = keys a)) as [En|En].
  - assert (Ek : kc = false) by (apply Hk; by rewrite En). rewrite Ek. by apply Hsame.
  - assert (Ek : kc = true).
    { destruct kc; [done|]. destruct En. apply words_inj; [by destruct Hn|done|]. by apply Hk. }
    rewrite Ek. pose proof (rg_max _ _ R1) as Hm. rewrite length_map in Hm. apply Hsame.
    1: rewrite enqueue_push by done; by apply push_ring.
    1: by apply enqueue_ok.
    all: unfold push_matrix; cbv zeta; by case_match.
Qed.

Lemma event_rel a s q ev :
  keyboard_rel a s -> ring_at (map (map word) q) s -> Forall matrix_ok q ->
  keyboard_rel (mk_keyboard (prev a) (keys a) q (hold a) (seen a) ev (trace a)) (with_kb_event ev s).
Proof. intros [H1 H2 H3 H4 H5 H6 H7 H8 H9 H10 H11] [Q1 Q2 Q3 Q4 Q5 Q6] Hq. by split. Qed.

Lemma pop_rel a s m q :
  keyboard_rel a s -> queue a = m :: q ->
  let '(pd, s') := pop_matrix s in
  pd = map word m /\ kb_event s' = event a /\
  keyboard_rel (mk_keyboard (prev a) (keys a) q (hold a) (seen a) (event a) (trace a)) s'.
Proof.
  intros [H1 H2 H3 H4 H5 H6 H7 H8 H9 H10 H11] Eq. rewrite Eq in H3, H10. destruct (pop_ring _ _ _ H3) as [Em Hq].
  inversion H10; subst. destruct (pop_matrix s) as [pd s'] eqn:Ep. cbn [fst snd] in *. unfold pop_matrix in Ep. injection Ep as _ <-.
  split_and!; [done|done|]. split; (done || by destruct Hq).
Qed.

Hypothesis drive_pins_some : (0 < length drive_pins)%nat.

Lemma scan_key_rel numlock read_key a s :
  keyboard_rel a s ->
  let '(r, s') := kb_scan_key numlock read_key s in
  let '(r', a') := keyboard_scan (negb (Z.testbit numlock 7)) read_key a in
  r = r' /\ keyboard_rel a' s'.
Proof.
  intros Hr. pose proof (key_pressed_rel a s Hr) as Hk. unfold kb_scan_key, keyboard_scan.
  destruct (kb_key_pressed s) as [[gpio need] s0], (sense a) as [cols a0]. destruct Hk as ((tr & ->) & -> & Hc & Hr0).
  cbn [scan_pin_need with_scan_pin_need]. rewrite word_zero, negb_involutive. cbv zeta.
  destruct (existsb id cols); [|split; [done|]; by destruct Hr0 as [? ? [] ? ? ? ? ? ? ? ?]; split].
  set (s1 := with_kb_event _ _). pose proof (scan_rows tr s1 drive_pins_some) as Hs. cbv zeta in Hs.
  destruct (kb_scan_row 0 (gpio_levels tr) s1) as [[r0 gpio1] s2]. rewrite Hs. clear Hs s2 r0 gpio1.
  change (scan_pin_need s1) with (word cols). change (gpio_ops s1) with (gpio_ops s0). rewrite (kr_trace _ _ Hr0).
  set (p0 := nth 0 drive_pins 0). destruct (walk_ok (trace a0 ++ pulse p0) drive_pins) as [Lw Fw].
  destruct (rows_and cols _ Hc Fw) as [-> Fc]. set (cur := map (zip_with andb cols) _) in *.
  assert (Hcur : matrix_ok cur) by (split; [unfold cur; by rewrite length_map|done]).
  assert (Hr1 : keyboard_rel a0 (with_scan_pin_need (word cols) s0)) by (by destruct Hr0 as [? ? [] ? ? ? ? ? ? ? ?]; split).
  pose proof (settle_rel a0 _ cur (queue a0) (mk_kb_data 0 []) (pulse p0 ++ concat (map pulse drive_pins) ++ pulse p0) Hr1 Hcur eq_refl) as Hd.
  change (after ?t s1) with (after t (with_kb_event (mk_kb_data 0 []) (with_scan_pin_need (word cols) s0))).
  destruct (key_debounce_filter _ true _) as [[kc v] s2]. cbv zeta in Hd. set (s3 := if kc then _ else _) in *.
  set (new := zip3 _ _ _ _) in *. set (q := if decide _ then _ else _) in *. clearbody s3 q new cur.
  change KB_NUMLOCK_STATUS_INVALID with 0x80. rewrite bit7, (ring_empty _ _ (kr_queue _ _ Hd)). cbn [queue]. rewrite length_map.
  destruct (Z.testbit numlock 7); cbn [negb]; [by split|].
  destruct q as [|m q]; cbn [length Nat.eqb orb]; [by split|]. destruct read_key; cbn [negb]; [|by split].
  pose proof (pop_rel _ _ m q Hd eq_refl) as Hp. destruct (pop_matrix s3) as [pd s4]. destruct Hp as (-> & E4 & Hr4).
  split; [done|]. rewrite E4. unfold kb_remap_key_code, KB_RETURN_KEY_MAX. rewrite remap_loop_spec by (cbn; lia).
  pose proof (kr_queue_ok _ _ Hd) as Fq. inversion Fq as [|? ? [_ Fm] Fq']; subst. cbn [ctrl_key keycode event app].
  rewrite matrix_codes by done. apply (event_rel _ _ q _ Hr4); [apply (kr_queue _ _ Hr4)|done].
Qed.

(** C11. Any sequence of calls of [kb_scan_key] returns and reports, scan by scan,
    what the abstract keyboard does, which knows keys as booleans and no words,
    and does the same to the pins in the same order.  With all rows driven a
    scan looks which columns have a key down, now or in one of the last five scans;
    if none has it returns 0 and nothing else changes.  Otherwise, after a pulse on the
    first row, each row is pulsed in turn and its keys are read in between; a
    key changes when two scans agree on it; the state of the keys joins a queue
    when it has changed, of which the last four are kept.  While the lock keys
    are unknown the scan returns 1 and no codes; otherwise, when the
    caller wants a key and the queue is not empty, it returns 1 and the codes of
    the oldest state, row by row and six at most, and 0 if not.  The board has at least one row and at most 32 columns. *)
Theorem kb_scan_key_refines ops a s :
  keyboard_rel a s ->
  let '(outs, s') := kb_scan_keys ops s in
  let '(outs', a') := keyboard_scans (map (fun '(numlock, read_key) => (negb (Z.testbit numlock 7), read_key)) ops) a in
  outs = outs' /\ keyboard_rel a' s'.
Proof.
  revert a s. induction ops as [|[nl rd] ops IH]; intros a s Hr; [done|]. cbn [kb_scan_keys map keyboard_scans].
  pose proof (scan_key_rel nl rd a s Hr) as Hs. destruct (kb_scan_key nl rd s) as [r s1], (keyboard_scan _ rd a) as [r' a1].
  destruct Hs as [-> Hr1]. specialize (IH a1 s1 Hr1). destruct (kb_scan_keys ops s1) as [outs s2].
  destruct (keyboard_scans _ a1) as [outs' a2]. destruct IH as [-> IH]. by rewrite (kr_event _ _ Hr1).
Qed.

(** After a reset: the static variables are zero. *)
Definition kb_reset : kb :=
  mk_kb (map (fun _ => 0) drive_pins) (map (fun _ => 0) drive_pins) (replicate 4 (map (fun _ => 0) drive_pins))
    0 0 0 0 0 (mk_kb_data 0 []) [].
Definition keyboard_reset : keyboard :=
  mk_keyboard (map (fun _ => nothing) drive_pins) (map (fun _ => nothing) drive_pins) [] 0 nothing (mk_kb_data 0 []) [].

Lemma reset_rel : keyboard_rel keyboard_reset kb_reset.
Proof.
  assert (E : map (fun _ => 0) drive_pins = map word (map (fun _ => nothing) drive_pins)).
  { rewrite map_map. by apply map_ext; intros; rewrite word_nothing. }
  assert (Ho : matrix_ok (map (fun _ => nothing) drive_pins)).
  { split; [apply length_map|]. apply Forall_fmap, Forall_true. intros ?. apply nothing_ok. }
  split; cbn; try (exact E || exact Ho || exact (eq_sym word_nothing)); try done. split; cbn; (lia || done).
Qed.
End Board.

(** ** A board of two rows and two columns; the key of row 1, column 0 is down *)
#[local] Instance demo_board : KbBoard := {|
  drive_pins := [0x101; 0x102];
  scan_pins := [0x001; 0x002];
  kb_map_normal := [[10; 11]; [20; 21]];
  KB_LINE_MODE := false;
  gpio_levels tr :=
    match last (List.filter (fun e => match e with GpioOutputEn _ _ => true | _ => false end) tr) with
    | Some (GpioOutputEn 0x102 1) => [0xfe; 0xff]
    | _ => [0xff; 0xff]
    end
|}.

(** The key is reported by the second scan and not again. *)
Lemma kb_scan_key_refines_witness :
  (kb_scan_keys [(0, true); (0, true); (0, true)] kb_reset).1 =
    [(0, mk_kb_data 0 []); (1, mk_kb_data 0 [11]); (0, mk_kb_data 0 [])].
Proof.
  assert (H1 : (length scan_pins <= 32)%nat) by (vm_compute; lia).
  assert (H2 : (0 < length drive_pins)%nat) by (vm_compute; lia).
  pose proof (kb_scan_key_refines H1 H2 [(0, true); (0, true); (0, true)] keyboard_reset kb_reset (reset_rel H1 H2)) as Hs.
  destruct (kb_scan_keys _ kb_reset) as [outs s']. cbn [fst].
  assert (Ea : (keyboard_scans [(true, true); (true, true); (true, true)] keyboard_reset).1 =
    [(0, mk_kb_data 0 []); (1, mk_kb_data 0 [11]); (0, mk_kb_data 0 [])]) by (vm_compute; reflexivity).
  change (map _ _) with [(true, true); (true, true); (true, true)] in Hs.
  destruct (keyboard_scans _ keyboard_reset) as [outs' a']. cbn [fst] in Ea. destruct Hs as [-> _]. exact Ea.
Defined.

Definition demo_kb : kb := mk_kb [0; 1] [0; 0] [[]; []; []; []] 0 0 0 0 0 (mk_kb_data 0 []) [].

Lemma key_debounce_majority_witness :
  let '(kc, v, s') := key_debounce_filter [0; 1] true demo_kb in mtrx_last s' = v /\ (kc = true <-> v <> [0; 0]).
Proof.
  pose proof (key_debounce_majority [0; 1] demo_kb eq_refl eq_refl) as Hs.
  destruct (key_debounce_filter _ _ _) as [[kc v] s']. by destruct Hs as (_ & H1 & _ & H2 & _).
Defined.
