(* ===== verification/Printf.v ===== *)
(** * Formatted output ([proj/common/tlPrintf.c])

    The branch of the cores without a C library.  The output is the list of the
    bytes given to [drv_putchar]; the arguments of the call are a list, an
    argument that is missing or of another kind is [None] (the C reads the
    caller's stack). *)
From S2P Require Import Prelude.

Definition DECIMAL_OUTPUT : Z := 10.
Definition OCTAL_OUTPUT : Z := 8.
Definition HEX_OUTPUT : Z := 16.

(** ["0123456789ABCDEF"] *)
Definition re : list Z := [48; 49; 50; 51; 52; 53; 54; 55; 56; 57; 65; 66; 67; 68; 69; 70].

(** [do { *--addr = re[num%base]; num /= base; } while(num != 0);]: the digits so far
    are [buf]. *)
Fixpoint digit_loop (fuel : nat) (num base : Z) (buf : list Z) : option (list Z) :=
  match fuel with
  | O => None
  | S fuel' =>
      let buf := nth (Z.to_nat (num mod base)) re 0 :: buf in
      let num := num / base in
      if num =? 0 then Some buf else digit_loop fuel' num base buf
  end.

(** The buffer has room for 49 digits and the terminator. *)
Definition puti (num base : Z) : option (list Z) := digit_loop 49 (u32 num) base [].

(** [put_s]: up to the terminator. *)
Fixpoint put_s (s : list Z) : list Z :=
  match s with [] => [] | c :: s => if c =? 0 then [] else c :: put_s s end.

Inductive va_arg := VInt (v : Z) | VStr (s : list Z).

Definition ch_percent : Z := 37.
Definition ch_minus : Z := 45.
Definition ch_c : Z := 99.
Definition ch_d : Z := 100.
Definition ch_o : Z := 111.
Definition ch_s : Z := 115.
Definition ch_x : Z := 120.

(** One directive: its output and the arguments that are left. *)
Definition directive (span : Z) (args : list va_arg) : option (list Z * list va_arg) :=
  if span =? ch_c then match args with VInt j :: args => Some ([u8 j], args) | _ => None end
  else if span =? ch_d then
    match args with
    | VInt m :: args =>
        let m := s32 m in
        let '(sign, m) := if m <? 0 then ([ch_minus], s32 (- m)) else ([], m) in
        ds ← puti m DECIMAL_OUTPUT; Some (sign ++ ds, args)
    | _ => None
    end
  else if span =? ch_s then match args with VStr s :: args => Some (put_s s, args) | _ => None end
  else if span =? ch_o then match args with VInt j :: args => ds ← puti j OCTAL_OUTPUT; Some (ds, args) | _ => None end
  else if span =? ch_x then match args with VInt j :: args => ds ← puti j HEX_OUTPUT; Some (ds, args) | _ => None end
  else Some ([span], args).

(** The characters of the format, without its terminator; a [%] at the end is
    followed by the terminator, which ends the output. *)
Fixpoint Tl_printf (format : list Z) (args : list va_arg) : option (list Z) :=
  match format with
  | [] => Some []
  | span :: format =>
      if span =? 0 then Some []
      else if negb (span =? ch_percent) then out ← Tl_printf format args; Some (span :: out)
      else
        match format with
        | [] => Some []
        | d :: format =>
            if d =? 0 then Some []
            else '(o, args) ← directive d args; out ← Tl_printf format args; Some (o ++ out)
        end
  end.

(** ** Reading numbers back *)
Definition digit_value (c : Z) : Z := if c <? 58 then c - 48 else c - 55.

Definition number (base : Z) (ds : list Z) : Z := foldl (fun v c => v * base + digit_value c) 0 ds.

Lemma number_app base ds c : number base (ds ++ [c]) = number base ds * base + digit_value c.
Proof. unfold number. by rewrite foldl_snoc. Qed.

Lemma digit_value_re k : 0 <= k < 16 -> digit_value (nth (Z.to_nat k) re 0) = k.
Proof.
  intros Hk. assert (Hs : forallb (fun i => digit_value (nth i re 0) =? Z.of_nat i) (seq 0 16) = true) by (vm_compute; reflexivity).
  rewrite forallb_forall in Hs. specialize (Hs (Z.to_nat k) ltac:(apply in_seq; lia)). apply Z.eqb_eq in Hs. rewrite Hs. lia.
Qed.

(** Each round divides by the base. *)
Lemma digit_loop_spec fuel num base buf :
  2 <= base <= 16 -> 0 <= num < base ^ Z.of_nat fuel -> (0 < fuel)%nat ->
  exists ds, digit_loop fuel num base buf = Some (ds ++ buf) /\ number base ds = num /\
    (0 < length ds <= fuel)%nat /\ Forall (fun c => c ∈ re) ds.
Proof.
  intros Hb. revert num buf. induction fuel as [|fuel IH]; intros num buf Hn Hf; [lia|]. cbn [digit_loop]. cbv zeta.
  rewrite Nat2Z.inj_succ, Z.pow_succ_r in Hn by lia.
  assert (Hmod : 0 <= num mod base < 16) by (pose proof (Z.mod_pos_bound num base); lia).
  set (c := nth (Z.to_nat (num mod base)) re 0).
  assert (Hc : digit_value c = num mod base) by by apply digit_value_re.
  assert (Hre : c ∈ re) by (apply list_elem_of_In, nth_In; cbn; lia).
  destruct (Z.eqb_spec (num / base) 0) as [E|E].
  - exists [c]. split_and!; [done| |cbn; lia|cbn; lia|by apply Forall_singleton].
    unfold number. cbn [foldl]. rewrite Hc. pose proof (Z.div_mod num base). lia.
  - destruct fuel as [|fuel]; [change (base ^ Z.of_nat 0) with 1 in Hn; rewrite Z.div_small in E by lia; lia|].
    destruct (IH (num / base) (c :: buf)) as (ds & E1 & E2 & E3 & E4);
      [|lia|].
    { split; [apply Z.div_pos; lia|]. apply Z.div_lt_upper_bound; lia. }
    exists (ds ++ [c]). rewrite E1, <-app_assoc. split_and!; [done| |rewrite length_app; cbn; lia..|].
    + rewrite number_app, E2, Hc. pose proof (Z.div_mod num base). lia.
    + apply Forall_app. split; [done|by apply Forall_singleton].
Qed.

Lemma puti_spec num base : 2 <= base <= 16 ->
  exists ds, puti num base = Some ds /\ number base ds = u32 num /\ (0 < length ds <= 49)%nat /\ Forall (fun c => c ∈ re) ds.
Proof.
  intros Hb. unfold puti. destruct (digit_loop_spec 49 (u32 num) base []) as (ds & E & H1 & H2 & H3); [done| |lia|].
  - pose proof (u32_range num). assert (2 ^ Z.of_nat 49 <= base ^ Z.of_nat 49) by (apply Z.pow_le_mono_l; lia). lia.
  - exists ds. by rewrite app_nil_r in E.
Qed.

(** ** The output of a format *)

(** A format in pieces: characters, and directives with their argument. *)
Inductive piece :=
  | PLit (c : Z) | PChar (v : Z) | PDec (v : Z) | PStr (s : list Z) | POct (v : Z) | PHex (v : Z) | POther (c : Z).

Definition piece_ok (p : piece) : Prop :=
  match p with
  | PLit c => c <> 0 /\ c <> ch_percent
  | POther c => c <> 0 /\ c ∉ [ch_c; ch_d; ch_s; ch_o; ch_x]
  | PDec v => - 2 ^ 31 <= v < 2 ^ 31
  | POct v | PHex v => 0 <= v < 2 ^ 32
  | _ => True
  end.

Definition piece_format (p : piece) : list Z :=
  match p with
  | PLit c => [c]
  | PChar _ => [ch_percent; ch_c] | PDec _ => [ch_percent; ch_d] | PStr _ => [ch_percent; ch_s]
  | POct _ => [ch_percent; ch_o] | PHex _ => [ch_percent; ch_x] | POther c => [ch_percent; c]
  end.

Definition piece_args (p : piece) : list va_arg :=
  match p with
  | PChar v | PDec v | POct v | PHex v => [VInt v] | PStr s => [VStr s] | _ => []
  end.

(** What a reader of the output recovers. *)
Definition shows (p : piece) (o : list Z) : Prop :=
  match p with
  | PLit c | POther c => o = [c]
  | PChar v => o = [u8 v]
  | PStr s => o = put_s s
  | PDec v =>
      exists ds, o = (if v <? 0 then [ch_minus] else []) ++ ds /\ number 10 ds = Z.abs v /\
        (0 < length ds)%nat /\ Forall (fun c => c ∈ re) ds
  | POct v => number 8 o = v /\ (0 < length o)%nat /\ Forall (fun c => c ∈ re) o
  | PHex v => number 16 o = v /\ (0 < length o)%nat /\ Forall (fun c => c ∈ re) o
  end.

Lemma directive_shows p d args :
  piece_ok p -> piece_format p = [ch_percent; d] ->
  exists o, directive d (piece_args p ++ args) = Some (o, args) /\ shows p o.
Proof.
  intros Hok Hf. destruct p as [c|v|v|s|v|v|c]; cbn in Hf; try discriminate; injection Hf as <-; cbn [piece_args app piece_ok shows] in *.
  - by eexists.
  - cbn [directive Z.eqb]. unfold directive. change (ch_d =? ch_c) with false. change (ch_d =? ch_d) with true. cbv iota.
    rewrite (s32_small v) by lia. cbv zeta. destruct (Z.ltb_spec v 0) as [Hn|Hn].
    + destruct (puti_spec (s32 (- v)) 10) as (ds & E & H1 & H2 & H3); [lia|]. unfold DECIMAL_OUTPUT. rewrite E. cbn [mbind option_bind].
      eexists. split; [reflexivity|]. exists ds. split_and!; [done| |lia|done]. rewrite H1. unfold u32, s32. zdm.
    + destruct (puti_spec v 10) as (ds & E & H1 & H2 & H3); [lia|]. unfold DECIMAL_OUTPUT. rewrite E. cbn [mbind option_bind].
      eexists. split; [reflexivity|]. exists ds. split_and!; [done| |lia|done]. rewrite H1, u32_small; lia.
  - by eexists.
  - destruct (puti_spec v 8) as (ds & E & H1 & H2 & H3); [lia|]. change (directive ch_o (VInt v :: args)) with (ds ← puti v 8; Some (ds, args)). rewrite E. cbn [mbind option_bind].
    eexists. split; [reflexivity|]. rewrite H1, u32_small by lia. split_and!; [done|lia|done].
  - destruct (puti_spec v 16) as (ds & E & H1 & H2 & H3); [lia|]. change (directive ch_x (VInt v :: args)) with (ds ← puti v 16; Some (ds, args)). rewrite E. cbn [mbind option_bind].
    eexists. split; [reflexivity|]. rewrite H1, u32_small by lia. split_and!; [done|lia|done].
  - destruct Hok as [_ Hc]. exists [c]. split; [|done]. unfold directive.
    rewrite !(proj2 (Z.eqb_neq c _)) by (intros ->; apply Hc; set_solver). done.
Qed.

(** C35. The output of a format is that of its pieces, one after the other; numbers in
    decimal (the most negative included), octal and hexadecimal notation can be
    read back, their digits fit the buffer, and an unknown directive prints its
    own character. *)
Theorem Tl_printf_roundtrip (ps : list piece) :
  Forall piece_ok ps ->
  exists os, Tl_printf (concat (map piece_format ps)) (concat (map piece_args ps)) = Some (concat os) /\
    Forall2 shows ps os.
Proof.
  induction 1 as [|p ps Hp Hps (os & E & Hs)]; [by exists []|]. cbn [map concat].
  destruct p as [c|v|v|s|v|v|c]; cbn [piece_format] in *;
    try (match goal with |- context [Tl_printf ([ch_percent; ?d] ++ _) (piece_args ?p ++ ?args)] =>
      destruct (directive_shows p d args Hp eq_refl) as (o & Ed & Ho); exists (o :: os); split; [|by constructor];
      cbn [app Tl_printf]; change (ch_percent =? 0) with false; change (ch_percent =? ch_percent) with true; cbn [negb];
      assert (E0 : (d =? 0) = false) by (cbn in Hp; first [reflexivity|apply Z.eqb_neq; tauto]);
      rewrite E0, Ed; cbn [mbind option_bind]; by rewrite E end).
  exists ([c] :: os). split; [|by constructor]. destruct Hp as [H0 Hc]. cbn [app Tl_printf piece_args].
  by rewrite (proj2 (Z.eqb_neq c 0)), (proj2 (Z.eqb_neq c ch_percent)), E by done.
Qed.

Definition demo_pieces : list piece := [PLit 118; POther 37; PDec (-2 ^ 31); PLit 44; PHex 0xdeadbeef; PStr [111; 107; 0; 1]].

Lemma Tl_printf_roundtrip_witness :
  exists os, Tl_printf (concat (map piece_format demo_pieces)) (concat (map piece_args demo_pieces)) = Some (concat os) /\
    Forall2 shows demo_pieces os.
Proof.
  apply (Tl_printf_roundtrip demo_pieces). repeat constructor; cbn; try lia; try done. set_solver.
Defined.

Example printf_demo :
  Tl_printf (concat (map piece_format demo_pieces)) (concat (map piece_args demo_pieces)) =
  Some [118; 37; 45; 50; 49; 52; 55; 52; 56; 51; 54; 52; 56; 44; 68; 69; 65; 68; 66; 69; 69; 70; 111; 107].
Proof. vm_compute. reflexivity. Qed.
