(* ===== verification/EvPoll.v ===== *)
(** * Polling ([proj/os/ev_poll.c])

    The table of poll events of the main loop.  A callback is an address;
    what it does to the table, the [k]-th time a callback is called, is a list of
    calls of this component ([PollCallbacks]).  An access outside of the table
    and a call of the null pointer are [None]. *)
From S2P Require Import Prelude.

(** [ev_poll_e] of the demos *)
Definition EV_POLL_ED_DETECT : nat := 0.
Definition EV_POLL_HCI : nat := 1.
Definition EV_POLL_IDLE : nat := 2.
Definition EV_POLL_MAX : nat := 3.

Record ev_poll_t := mk_poll { cb : Z; valid : Z }.

Inductive poll_op := POn (e : nat) (c : Z) | PEnable (e : nat) | PDisable (e : nat).

Class PollCallbacks := callback : Z -> nat -> list poll_op.

(** The table and the callbacks that were called. *)
Record polls := mk_polls { ev_poll : list ev_poll_t; called : list Z }.

Definition upd_poll (e : nat) (f : ev_poll_t -> ev_poll_t) (s : polls) : option polls :=
  p ← ev_poll s !! e; Some (mk_polls (<[e := f p]> (ev_poll s)) (called s)).

Definition ev_on_poll (e : nat) (c : Z) (s : polls) : option polls := upd_poll e (fun _ => mk_poll c 1) s.
Definition ev_enable_poll (e : nat) (s : polls) : option polls := upd_poll e (fun p => mk_poll (cb p) 1) s.
Definition ev_disable_poll (e : nat) (s : polls) : option polls := upd_poll e (fun p => mk_poll (cb p) 0) s.

Definition poll_call (op : poll_op) (s : polls) : option polls :=
  match op with POn e c => ev_on_poll e c s | PEnable e => ev_enable_poll e s | PDisable e => ev_disable_poll e s end.

Fixpoint poll_calls (ops : list poll_op) (s : polls) : option polls :=
  match ops with [] => Some s | op :: ops => s ← poll_call op s; poll_calls ops s end.

Section Poll.
Context `{PollCallbacks}.
Implicit Type s : polls.

(** [ev_poll[i].cb()] *)
Definition call_cb (c : Z) s : option polls :=
  if c =? 0 then None
  else poll_calls (callback c (length (called s))) (mk_polls (ev_poll s) (called s ++ [c])).

Fixpoint poll_loop (n i : nat) s : option polls :=
  match n with
  | O => Some s
  | S n' =>
      p ← ev_poll s !! i;
      s ← (if negb (valid p =? 0) then call_cb (cb p) s else Some s);
      poll_loop n' (S i) s
  end.

Definition ev_poll_process s : option polls := poll_loop EV_POLL_MAX 0 s.

(** A valid entry has a callback. *)
Definition polls_ok s : Prop :=
  length (ev_poll s) = EV_POLL_MAX /\ forall e p, ev_poll s !! e = Some p -> valid p <> 0 -> cb p <> 0.

(** Callbacks register callbacks and only enable what is registered. *)
Definition op_ok (op : poll_op) s : Prop :=
  match op with
  | POn e c => (e < EV_POLL_MAX)%nat /\ c <> 0
  | PEnable e => exists p, ev_poll s !! e = Some p /\ cb p <> 0
  | PDisable e => (e < EV_POLL_MAX)%nat
  end.

Fixpoint ops_ok (ops : list poll_op) s : Prop :=
  match ops with
  | [] => True
  | op :: ops => op_ok op s /\ match poll_call op s with Some s' => ops_ok ops s' | None => True end
  end.

Definition callbacks_ok : Prop := forall c k s, polls_ok s -> ops_ok (callback c k) s.

Lemma poll_call_ok op s : polls_ok s -> op_ok op s ->
  exists s', poll_call op s = Some s' /\ polls_ok s' /\ called s' = called s.
Proof.
  intros [Hl Hv] Hop.
  assert (Hupd : forall e f, (e < EV_POLL_MAX)%nat ->
    (forall p, ev_poll s !! e = Some p -> valid (f p) <> 0 -> cb (f p) <> 0) ->
    exists s', upd_poll e f s = Some s' /\ polls_ok s' /\ called s' = called s).
  { intros e f He Hf. unfold upd_poll. destruct (lookup_lt_is_Some_2 (ev_poll s) e) as [p Hp]; [by rewrite Hl|].
    rewrite Hp. cbn [mbind option_bind]. eexists. split; [reflexivity|]. split; [|done]. split; cbn [ev_poll].
    - by rewrite length_insert.
    - intros e' p' He' Hval. destruct (decide (e' = e)) as [->|Hne].
      + rewrite list_lookup_insert_eq in He' by (rewrite Hl; done). injection He' as <-. by apply Hf.
      + rewrite list_lookup_insert_ne in He' by done. by apply (Hv e'). }
  destruct op as [e c|e|e]; cbn [poll_call op_ok] in *.
  - apply Hupd; [apply Hop|]. intros p _ _. apply Hop.
  - destruct Hop as (p & Hp & Hc). apply Hupd.
    + rewrite <-Hl. by apply lookup_lt_Some in Hp.
    + intros p' Hp' _. cbn. congruence.
  - apply Hupd; [done|]. intros p _ Hval. done.
Qed.

Lemma poll_calls_ok ops s : polls_ok s -> ops_ok ops s ->
  exists s', poll_calls ops s = Some s' /\ polls_ok s' /\ called s' = called s.
Proof.
  revert s. induction ops as [|op ops IH]; intros s Hs Hops; [by exists s|]. cbn [poll_calls ops_ok] in *.
  destruct Hops as [Hop Hops]. destruct (poll_call_ok op s Hs Hop) as (s1 & E1 & Hs1 & Hc1). rewrite E1 in Hops |- *.
  cbn [mbind option_bind]. destruct (IH s1 Hs1 Hops) as (s2 & E2 & Hs2 & Hc2). exists s2. split_and!; [done|done|congruence].
Qed.

Lemma poll_loop_ok n i s : callbacks_ok -> polls_ok s -> (i + n <= EV_POLL_MAX)%nat ->
  exists s', poll_loop n i s = Some s' /\ polls_ok s' /\ exists l, called s' = called s ++ l /\ (length l <= n)%nat /\ 0 ∉ l.
Proof.
  intros Hcb. revert i s. induction n as [|n IH]; intros i s Hs Hi.
  { exists s. split_and!; [done|done|]. exists []. rewrite app_nil_r. split_and!; [done|cbn; lia|apply not_elem_of_nil]. }
  cbn [poll_loop]. destruct (lookup_lt_is_Some_2 (ev_poll s) i) as [p Hp]; [destruct Hs; lia|].
  rewrite Hp. cbn [mbind option_bind]. destruct (Z.eqb_spec (valid p) 0) as [Hv|Hv]; cbn [negb].
  - destruct (IH (S i) s Hs ltac:(lia)) as (s' & E & Hs' & l & Hl & Hn & H0). exists s'. split_and!; [done|done|].
    exists l. split_and!; [done|lia|done].
  - assert (Hc : cb p <> 0) by by apply (proj2 Hs i). unfold call_cb. rewrite (proj2 (Z.eqb_neq _ _) Hc).
    destruct (poll_calls_ok (callback (cb p) (length (called s))) (mk_polls (ev_poll s) (called s ++ [cb p]))) as (s1 & E1 & Hs1 & Hc1);
      [done|by apply Hcb|]. rewrite E1. cbn [mbind option_bind called] in *.
    destruct (IH (S i) s1 Hs1 ltac:(lia)) as (s' & E & Hs' & l & Hl & Hn & H0). exists s'. split_and!; [done|done|].
    exists (cb p :: l). rewrite Hl, Hc1, <-app_assoc. split_and!; [done|cbn; lia|]. by apply not_elem_of_cons.
Qed.

(** The callbacks that are enabled, in the order of the table. *)
Definition enabled s : list Z := omap (fun p => if valid p =? 0 then None else Some (cb p)) (ev_poll s).

Lemma poll_loop_quiet n i s : (forall c k, callback c k = []) -> polls_ok s -> (i + n = EV_POLL_MAX)%nat ->
  poll_loop n i s =
  Some (mk_polls (ev_poll s) (called s ++ omap (fun p => if valid p =? 0 then None else Some (cb p)) (drop i (ev_poll s)))).
Proof.
  intros Hq. revert i s. induction n as [|n IH]; intros i [t l] Hs Hi; cbn [poll_loop ev_poll called].
  { rewrite drop_ge by (destruct Hs; cbn in *; lia). cbn. by rewrite app_nil_r. }
  destruct (lookup_lt_is_Some_2 t i) as [p Hp]; [destruct Hs; cbn in *; lia|].
  rewrite Hp. cbn [mbind option_bind]. rewrite (drop_S t p i Hp). cbn [omap list_omap].
  destruct (Z.eqb_spec (valid p) 0) as [Hv|Hv]; cbn [negb].
  - cbn [mbind option_bind]. by rewrite IH by (done || lia).
  - assert (Hc : cb p <> 0) by by apply (proj2 Hs i). unfold call_cb. rewrite (proj2 (Z.eqb_neq _ _) Hc), Hq.
    cbn [poll_calls mbind option_bind ev_poll called]. rewrite IH by (done || lia). cbn [ev_poll called]. by rewrite <-app_assoc.
Qed.

(** When a valid entry always has a callback and the callbacks only enable what is
    registered, a round of polling never calls the null pointer or leaves the
    table, ends, keeps this invariant, whatever the callbacks do to the table
    meanwhile, and calls at most one callback per entry; when they leave the
    table alone it calls exactly the enabled ones, in the order of the table. *)
Theorem ev_poll_process_safe s :
  callbacks_ok -> polls_ok s ->
  exists s', ev_poll_process s = Some s' /\ polls_ok s' /\
    (exists l, called s' = called s ++ l /\ (length l <= EV_POLL_MAX)%nat /\ 0 ∉ l) /\
    ((forall c k, callback c k = []) -> ev_poll s' = ev_poll s /\ called s' = called s ++ enabled s).
Proof.
  intros Hcb Hs. destruct (poll_loop_ok EV_POLL_MAX 0 s Hcb Hs ltac:(lia)) as (s' & E & Hs' & Hl).
  exists s'. split; [exact E|]. split; [exact Hs'|]. split; [exact Hl|]. intros Hq.
  unfold ev_poll_process in E. rewrite (poll_loop_quiet EV_POLL_MAX 0 s Hq Hs eq_refl) in E. by injection E as <-.
Qed.
End Poll.

(** The idle task disables the energy detection. *)
#[local] Instance demo_callbacks : PollCallbacks := fun c _ => if c =? 0x300 then [PDisable EV_POLL_ED_DETECT] else [].

Definition demo_polls : polls := mk_polls [mk_poll 0x100 1; mk_poll 0x200 0; mk_poll 0x300 1] [].

Lemma ev_poll_process_safe_witness :
  exists s', ev_poll_process demo_polls = Some s' /\ called s' = [0x100; 0x300].
Proof.
  destruct (ev_poll_process_safe demo_polls) as (s' & E & _).
  - intros c k s _. unfold callback, demo_callbacks. destruct (c =? 0x300); cbn; [|done].
    split; [unfold EV_POLL_MAX, EV_POLL_ED_DETECT; lia|by destruct (ev_disable_poll _ _)].
  - split; [done|]. intros [|[|[|e]]] p Hp; cbn in Hp; [injection Hp as <-; done..|discriminate].
  - exists s'. split; [exact E|]. vm_compute in E. injection E as <-. reflexivity.
Defined.
