(* ===== verification/UsbDesc.v ===== *)
(** * proj/drivers/usb/usbdesc.c

    The descriptors the device answers with, in the build for the host interface
    over a virtual serial port ([ZBHCI_USB_CDC]: [USB_CDC_ENABLE] is the only
    function that is on).  The structures are those of [usbstd/StdDescriptors.h]
    and [usbstd/CDCClassCommon.h]; the build packs them ([-fpack-struct]) and
    makes [wchar_t] two bytes wide ([-fshort-wchar]), so a descriptor is the
    concatenation of the bytes of its fields, least significant byte first. *)
From S2P Require Import Prelude.
From Stdlib Require Import String Ascii.

#[local] Open Scope Z_scope.
#[local] Open Scope list_scope.

Definition le16 (v : Z) : list Z := [u8 v; u8 (v / 2 ^ 8)].

(** ** Constants *)
Definition DTYPE_Device : Z := 0x01.
Definition DTYPE_Configuration : Z := 0x02.
Definition DTYPE_String : Z := 0x03.
Definition DTYPE_Interface : Z := 0x04.
Definition DTYPE_Endpoint : Z := 0x05.
Definition DTYPE_InterfaceAssociation : Z := 0x0B.
Definition DTYPE_CSInterface : Z := 0x24.

Definition USB_CSCP_IADDeviceClass : Z := 0xEF.
Definition USB_CSCP_IADDeviceSubclass : Z := 0x02.
Definition USB_CSCP_IADDeviceProtocol : Z := 0x01.

Definition CDC_CSCP_CDCClass : Z := 0x02.
Definition CDC_CSCP_ACMSubclass : Z := 0x02.
Definition CDC_CSCP_ATCommandProtocol : Z := 0x01.
Definition CDC_CSCP_CDCDataClass : Z := 0x0A.
Definition CDC_CSCP_NoDataSubclass : Z := 0x00.
Definition CDC_CSCP_NoDataProtocol : Z := 0x00.

Definition CDC_DSUBTYPE_CSInterface_Header : Z := 0x00.
Definition CDC_DSUBTYPE_CSInterface_CallManagement : Z := 0x01.
Definition CDC_DSUBTYPE_CSInterface_ACM : Z := 0x02.
Definition CDC_DSUBTYPE_CSInterface_Union : Z := 0x06.

Definition NO_DESCRIPTOR : Z := 0.
Definition USB_CONFIG_POWER_MA (mA : Z) : Z := Z.shiftr mA 1.
Definition LANGUAGE_ID_ENG : Z := 0x0409.
Definition USB_CONFIG_ATTR_RESERVED : Z := 0x80.
Definition ENDPOINT_DIR_OUT : Z := 0x00.
Definition ENDPOINT_DIR_IN : Z := 0x80.
Definition EP_TYPE_BULK : Z := 0x02.
Definition EP_TYPE_INTERRUPT : Z := 0x03.
Definition ENDPOINT_ATTR_NO_SYNC : Z := 0.
Definition ENDPOINT_USAGE_DATA : Z := 0.

Definition ID_VENDOR : Z := 0x248A.
Definition ID_VERSION : Z := 0x0100.
Definition ID_PRODUCT_BASE : Z := 0x8800.
(** of the functions only [USB_CDC_ENABLE] is 1 *)
Definition ID_PRODUCT : Z := Z.lor ID_PRODUCT_BASE (Z.shiftl 1 6).

Definition USB_INTF_CDC_CCI : Z := 0.
Definition USB_INTF_CDC_DCI : Z := 1.
Definition USB_INTF_MAX : Z := 2.

Definition USB_EDP_CDC_IN : Z := 4.
Definition USB_EDP_CDC_OUT : Z := 5.
Definition CDC_NOTIFICATION_EPNUM : Z := 2.
Definition CDC_TX_EPNUM : Z := USB_EDP_CDC_IN.
Definition CDC_RX_EPNUM : Z := USB_EDP_CDC_OUT.
Definition CDC_NOTIFICATION_EPSIZE : Z := 8.
Definition CDC_TXRX_EPSIZE : Z := 64.

Definition USB_STRING_LANGUAGE : Z := 0.
Definition USB_STRING_VENDOR : Z := 1.
Definition USB_STRING_PRODUCT : Z := 2.
Definition USB_STRING_SERIAL : Z := 3.

(** ** Structures *)

Record USB_Descriptor_Header_t := mk_hdr { Size : Z; Type_ : Z }.

Record USB_Descriptor_Device_t := mk_device {
  dev_Header : USB_Descriptor_Header_t;
  USBSpecification : Z; dev_Class : Z; dev_SubClass : Z; dev_Protocol : Z;
  Endpoint0Size : Z; VendorID : Z; ProductID : Z; ReleaseNumber : Z;
  ManufacturerStrIndex : Z; ProductStrIndex : Z; SerialNumStrIndex : Z;
  NumberOfConfigurations : Z }.

Record USB_Descriptor_Configuration_Header_t := mk_cfg_hdr {
  cfg_Header : USB_Descriptor_Header_t;
  TotalConfigurationSize : Z; cfg_TotalInterfaces : Z; ConfigurationNumber : Z;
  ConfigurationStrIndex : Z; ConfigAttributes : Z; MaxPowerConsumption : Z }.

Record USB_Descriptor_Interface_t := mk_intf {
  intf_Header : USB_Descriptor_Header_t;
  InterfaceNumber : Z; AlternateSetting : Z; TotalEndpoints : Z;
  intf_Class : Z; intf_SubClass : Z; intf_Protocol : Z; InterfaceStrIndex : Z }.

Record USB_Descriptor_Interface_Association_t := mk_iad {
  iad_Header : USB_Descriptor_Header_t;
  FirstInterfaceIndex : Z; iad_TotalInterfaces : Z;
  iad_Class : Z; iad_SubClass : Z; iad_Protocol : Z; IADStrIndex : Z }.

Record USB_Descriptor_Endpoint_t := mk_ep {
  ep_Header : USB_Descriptor_Header_t;
  EndpointAddress : Z; Attributes : Z; EndpointSize : Z; PollingIntervalMS : Z }.

Record USB_CDC_Descriptor_FunctionalHeader_t := mk_fheader {
  fh_Header : USB_Descriptor_Header_t; fh_Subtype : Z; CDCSpecification : Z }.

Record USB_CDC_Descriptor_FunctionalACM_t := mk_acm {
  acm_Header : USB_Descriptor_Header_t; acm_Subtype : Z; Capabilities : Z }.

Record USB_CDC_Descriptor_FunctionalUnion_t := mk_union {
  un_Header : USB_Descriptor_Header_t; un_Subtype : Z;
  MasterInterfaceNumber : Z; SlaveInterfaceNumber : Z }.

Record USB_CDC_Descriptor_t := mk_cdc {
  CDC_Functional_Header : USB_CDC_Descriptor_FunctionalHeader_t;
  CDC_Functional_ACM : USB_CDC_Descriptor_FunctionalACM_t;
  CDC_Functional_Union : USB_CDC_Descriptor_FunctionalUnion_t;
  CDC_Functional_CallManagement : USB_CDC_Descriptor_FunctionalUnion_t;
  CDC_NotificationEndpoint : USB_Descriptor_Endpoint_t;
  CDC_DCI_Interface : USB_Descriptor_Interface_t;
  CDC_DataOutEndpoint : USB_Descriptor_Endpoint_t;
  CDC_DataInEndpoint : USB_Descriptor_Endpoint_t }.

Record USB_Descriptor_Configuration_t := mk_configuration {
  Config : USB_Descriptor_Configuration_Header_t;
  cdc_iad : USB_Descriptor_Interface_Association_t;
  cdc_interface : USB_Descriptor_Interface_t;
  cdc_descriptor : USB_CDC_Descriptor_t }.

Record USB_Descriptor_String_t := mk_string {
  str_Header : USB_Descriptor_Header_t; UnicodeString : list Z }.

(** ** Layout in memory *)

Definition hdr_bytes (h : USB_Descriptor_Header_t) : list Z := [u8 (Size h); u8 (Type_ h)].

Definition device_bytes (d : USB_Descriptor_Device_t) : list Z :=
  hdr_bytes (dev_Header d) ++ le16 (USBSpecification d) ++
  [u8 (dev_Class d); u8 (dev_SubClass d); u8 (dev_Protocol d); u8 (Endpoint0Size d)] ++
  le16 (VendorID d) ++ le16 (ProductID d) ++ le16 (ReleaseNumber d) ++
  [u8 (ManufacturerStrIndex d); u8 (ProductStrIndex d); u8 (SerialNumStrIndex d);
   u8 (NumberOfConfigurations d)].

Definition cfg_hdr_bytes (c : USB_Descriptor_Configuration_Header_t) : list Z :=
  hdr_bytes (cfg_Header c) ++ le16 (TotalConfigurationSize c) ++
  [u8 (cfg_TotalInterfaces c); u8 (ConfigurationNumber c); u8 (ConfigurationStrIndex c);
   u8 (ConfigAttributes c); u8 (MaxPowerConsumption c)].

Definition intf_bytes (i : USB_Descriptor_Interface_t) : list Z :=
  hdr_bytes (intf_Header i) ++
  [u8 (InterfaceNumber i); u8 (AlternateSetting i); u8 (TotalEndpoints i); u8 (intf_Class i);
   u8 (intf_SubClass i); u8 (intf_Protocol i); u8 (InterfaceStrIndex i)].

Definition iad_bytes (i : USB_Descriptor_Interface_Association_t) : list Z :=
  hdr_bytes (iad_Header i) ++
  [u8 (FirstInterfaceIndex i); u8 (iad_TotalInterfaces i); u8 (iad_Class i);
   u8 (iad_SubClass i); u8 (iad_Protocol i); u8 (IADStrIndex i)].

Definition ep_bytes (e : USB_Descriptor_Endpoint_t) : list Z :=
  hdr_bytes (ep_Header e) ++ [u8 (EndpointAddress e); u8 (Attributes e)] ++
  le16 (EndpointSize e) ++ [u8 (PollingIntervalMS e)].

Definition fheader_bytes (f : USB_CDC_Descriptor_FunctionalHeader_t) : list Z :=
  hdr_bytes (fh_Header f) ++ [u8 (fh_Subtype f)] ++ le16 (CDCSpecification f).

Definition acm_bytes (f : USB_CDC_Descriptor_FunctionalACM_t) : list Z :=
  hdr_bytes (acm_Header f) ++ [u8 (acm_Subtype f); u8 (Capabilities f)].

Definition union_bytes (f : USB_CDC_Descriptor_FunctionalUnion_t) : list Z :=
  hdr_bytes (un_Header f) ++
  [u8 (un_Subtype f); u8 (MasterInterfaceNumber f); u8 (SlaveInterfaceNumber f)].

Definition cdc_bytes (c : USB_CDC_Descriptor_t) : list Z :=
  fheader_bytes (CDC_Functional_Header c) ++ acm_bytes (CDC_Functional_ACM c) ++
  union_bytes (CDC_Functional_Union c) ++ union_bytes (CDC_Functional_CallManagement c) ++
  ep_bytes (CDC_NotificationEndpoint c) ++ intf_bytes (CDC_DCI_Interface c) ++
  ep_bytes (CDC_DataOutEndpoint c) ++ ep_bytes (CDC_DataInEndpoint c).

Definition configuration_bytes (c : USB_Descriptor_Configuration_t) : list Z :=
  cfg_hdr_bytes (Config c) ++ iad_bytes (cdc_iad c) ++ intf_bytes (cdc_interface c) ++
  cdc_bytes (cdc_descriptor c).

Definition string_bytes (s : USB_Descriptor_String_t) : list Z :=
  hdr_bytes (str_Header s) ++ List.concat (le16 <$> UnicodeString s).

(** [sizeof] of the packed structures. *)
Definition sizeof_Header : Z := 2.
Definition sizeof_Device : Z := 18.
Definition sizeof_Configuration_Header : Z := 9.
Definition sizeof_Interface : Z := 9.
Definition sizeof_Interface_Association : Z := 8.
Definition sizeof_Endpoint : Z := 7.
Definition sizeof_FunctionalHeader : Z := 5.
Definition sizeof_FunctionalACM : Z := 4.
Definition sizeof_FunctionalUnion : Z := 5.
Definition sizeof_CDC : Z :=
  sizeof_FunctionalHeader + sizeof_FunctionalACM + sizeof_FunctionalUnion + sizeof_FunctionalUnion +
  sizeof_Endpoint + sizeof_Interface + sizeof_Endpoint + sizeof_Endpoint.
Definition sizeof_Configuration : Z :=
  sizeof_Configuration_Header + sizeof_Interface_Association + sizeof_Interface + sizeof_CDC.

(** ** The descriptors *)

(** A wide string literal, with its terminating zero. *)
Fixpoint wide (s : string) : list Z :=
  match s with
  | EmptyString => [0]
  | String.String c s' => Z.of_nat (nat_of_ascii c) :: wide s'
  end.

Definition STRING_VENDOR : list Z := wide "Telink"%string.
Definition STRING_PRODUCT : list Z := wide "TelinkUSBDongle"%string.
Definition STRING_SERIAL : list Z := wide "TLSR82xx"%string.

(** [sizeof] of a wide literal; [LANGUAGE_ID_ENG] is an [int]. *)
Definition sizeof_wide (l : list Z) : Z := 2 * Z.of_nat (List.length l).
Definition sizeof_LANGUAGE_ID_ENG : Z := 4.

Definition language_desc : USB_Descriptor_String_t :=
  mk_string (mk_hdr (sizeof_Header + 2) DTYPE_String) [LANGUAGE_ID_ENG].

Definition vendor_desc : USB_Descriptor_String_t :=
  mk_string (mk_hdr (sizeof_Header + sizeof_wide STRING_VENDOR - 2) DTYPE_String) STRING_VENDOR.

Definition product_desc : USB_Descriptor_String_t :=
  mk_string (mk_hdr (sizeof_Header + sizeof_wide STRING_PRODUCT - 2) DTYPE_String) STRING_PRODUCT.

Definition serial_desc : USB_Descriptor_String_t :=
  mk_string (mk_hdr (sizeof_Header + sizeof_wide STRING_SERIAL - 2) DTYPE_String) STRING_SERIAL.

Definition device_desc : USB_Descriptor_Device_t :=
  mk_device (mk_hdr sizeof_Device DTYPE_Device)
    0x0110
    USB_CSCP_IADDeviceClass USB_CSCP_IADDeviceSubclass USB_CSCP_IADDeviceProtocol
    8
    ID_VENDOR ID_PRODUCT ID_VERSION
    USB_STRING_VENDOR USB_STRING_PRODUCT USB_STRING_SERIAL
    1.

Definition configuration_desc : USB_Descriptor_Configuration_t :=
  mk_configuration
    (mk_cfg_hdr (mk_hdr sizeof_Configuration_Header DTYPE_Configuration)
       sizeof_Configuration USB_INTF_MAX 1 NO_DESCRIPTOR
       USB_CONFIG_ATTR_RESERVED (USB_CONFIG_POWER_MA 50))
    (mk_iad (mk_hdr sizeof_Interface_Association DTYPE_InterfaceAssociation)
       USB_INTF_CDC_CCI 2 CDC_CSCP_CDCClass CDC_CSCP_ACMSubclass CDC_CSCP_ATCommandProtocol
       NO_DESCRIPTOR)
    (mk_intf (mk_hdr sizeof_Interface DTYPE_Interface)
       USB_INTF_CDC_CCI 0 1 CDC_CSCP_CDCClass CDC_CSCP_ACMSubclass CDC_CSCP_ATCommandProtocol
       NO_DESCRIPTOR)
    (mk_cdc
       (mk_fheader (mk_hdr sizeof_FunctionalHeader DTYPE_CSInterface)
          CDC_DSUBTYPE_CSInterface_Header 0x0110)
       (mk_acm (mk_hdr sizeof_FunctionalACM DTYPE_CSInterface) CDC_DSUBTYPE_CSInterface_ACM 0x02)
       (mk_union (mk_hdr sizeof_FunctionalUnion DTYPE_CSInterface)
          CDC_DSUBTYPE_CSInterface_Union USB_INTF_CDC_CCI USB_INTF_CDC_DCI)
       (mk_union (mk_hdr sizeof_FunctionalUnion DTYPE_CSInterface)
          CDC_DSUBTYPE_CSInterface_CallManagement 0 USB_INTF_CDC_DCI)
       (mk_ep (mk_hdr sizeof_Endpoint DTYPE_Endpoint)
          (Z.lor ENDPOINT_DIR_IN CDC_NOTIFICATION_EPNUM)
          (Z.lor (Z.lor EP_TYPE_INTERRUPT ENDPOINT_ATTR_NO_SYNC) ENDPOINT_USAGE_DATA)
          CDC_NOTIFICATION_EPSIZE 0x40)
       (mk_intf (mk_hdr sizeof_Interface DTYPE_Interface)
          USB_INTF_CDC_DCI 0 2 CDC_CSCP_CDCDataClass CDC_CSCP_NoDataSubclass CDC_CSCP_NoDataProtocol
          NO_DESCRIPTOR)
       (mk_ep (mk_hdr sizeof_Endpoint DTYPE_Endpoint)
          (Z.lor ENDPOINT_DIR_OUT CDC_RX_EPNUM)
          (Z.lor (Z.lor EP_TYPE_BULK ENDPOINT_ATTR_NO_SYNC) ENDPOINT_USAGE_DATA)
          CDC_TXRX_EPSIZE 0x00)
       (mk_ep (mk_hdr sizeof_Endpoint DTYPE_Endpoint)
          (Z.lor ENDPOINT_DIR_IN CDC_TX_EPNUM)
          (Z.lor (Z.lor EP_TYPE_BULK ENDPOINT_ATTR_NO_SYNC) ENDPOINT_USAGE_DATA)
          CDC_TXRX_EPSIZE 0x00)).

(** ** The objects a response pointer can point into *)
Inductive usb_object := ObjDevice | ObjConfiguration | ObjLanguage | ObjVendor | ObjProduct | ObjSerial.

#[export] Instance usb_object_eq_dec : EqDecision usb_object.
Proof. solve_decision. Defined.

Definition object_bytes (o : usb_object) : list Z :=
  match o with
  | ObjDevice => device_bytes device_desc
  | ObjConfiguration => configuration_bytes configuration_desc
  | ObjLanguage => string_bytes language_desc
  | ObjVendor => string_bytes vendor_desc
  | ObjProduct => string_bytes product_desc
  | ObjSerial => string_bytes serial_desc
  end.

(** A pointer into an object. *)
Definition usb_ptr : Type := usb_object * Z.

Definition usbdesc_get_language : usb_ptr := (ObjLanguage, 0).
Definition usbdesc_get_vendor : usb_ptr := (ObjVendor, 0).
Definition usbdesc_get_product : usb_ptr := (ObjProduct, 0).
Definition usbdesc_get_serial : usb_ptr := (ObjSerial, 0).
Definition usbdesc_get_device : usb_ptr := (ObjDevice, 0).
Definition usbdesc_get_configuration : usb_ptr := (ObjConfiguration, 0).

(** The byte a pointer points at. *)
Definition deref (p : usb_ptr) : Z := nth (Z.to_nat p.2) (object_bytes p.1) 0.
