(* ===== verification/Usb.v ===== *)
(** * The USB control endpoint ([proj/drivers/usb/usb.c])

    Requests of the host on endpoint 0, answered from the descriptors of
    [UsbDesc.v], and the class requests of the virtual serial port
    ([usbcdc_processControlRequest] of [proj/drivers/usb/app/usbcdc.c]).  The
    build is the one of the host interface over USB CDC on the TLSR8278.

    The registers of the USB block belong to the chip.  Every access of the code
    is recorded, in order, in a trace; what a register reads is an arbitrary
    function [usb_reg] of the accesses made before, so that the buffers behind
    the data registers, the host and the bus are all behind that function. *)
From S2P Require Import Prelude UsbDesc.

(** ** Registers *)
Definition reg_ctrl_ep_ptr : Z := 0x100.
Definition reg_ctrl_ep_dat : Z := 0x101.
Definition reg_ctrl_ep_ctrl : Z := 0x102.
Definition reg_ctrl_ep_irq_sta : Z := 0x103.
Definition reg_usb_ep_ptr (i : Z) : Z := 0x110 + Z.land i 7.
Definition reg_usb_ep_dat (i : Z) : Z := 0x118 + Z.land i 7.
Definition reg_usb_ep_ctrl (i : Z) : Z := 0x120 + Z.land i 7.
Definition reg_usb_irq : Z := 0x139.
Definition reg_usb_mask : Z := 0x13a.
Definition reg_irq_src : Z := 0x648.

Definition FLD_EP_DAT_ACK : Z := 1.
Definition FLD_EP_DAT_STALL : Z := 2.
Definition FLD_EP_STA_ACK : Z := 4.
Definition FLD_EP_STA_STALL : Z := 8.
Definition FLD_CTRL_EP_IRQ_SETUP : Z := 0x10.
Definition FLD_CTRL_EP_IRQ_DATA : Z := 0x20.
Definition FLD_CTRL_EP_IRQ_STA : Z := 0x40.
Definition FLD_CTRL_EP_AUTO_DESC : Z := 0x20.
Definition FLD_CTRL_EP_AUTO_STD : Z := 0x80.
Definition FLD_USB_EP_BUSY : Z := 1.
Definition FLD_IRQ_USB_RST_EN : Z := Z.shiftl 1 17.

(** An access: a write, a read, or a call of the binary driver library
    ([usbhw_read_ctrl_ep_u16], [usbhw_enable_manual_interrupt]). *)
Inductive uev := UWr (a v : Z) | URd (a : Z) | URdCtrl16 | UManualIrq (m : Z).

(** What a register reads and what [usbhw_read_ctrl_ep_u16] returns. *)
Class UsbRegs := {
  usb_reg : Z -> list uev -> Z;
  usb_ctrl_u16 : list uev -> Z
}.

(** ** Requests *)
Definition USB_IRQ_SETUP_REQ : Z := 0.
Definition USB_IRQ_DATA_REQ : Z := 1.

Definition REQDIR_HOSTTODEVICE : Z := Z.shiftl 0 7.
Definition REQDIR_DEVICETOHOST : Z := Z.shiftl 1 7.
Definition REQTYPE_STANDARD : Z := Z.shiftl 0 5.
Definition REQTYPE_CLASS : Z := Z.shiftl 1 5.
Definition REQREC_DEVICE : Z := 0.
Definition REQREC_INTERFACE : Z := 1.
Definition REQREC_ENDPOINT : Z := 2.
Definition REQ_GetDescriptor : Z := 6.
Definition REQ_GetInterface : Z := 10.
Definition REQ_SetInterface : Z := 11.

Definition HID_DTYPE_HID : Z := 0x21.
Definition HID_DTYPE_Report : Z := 0x22.
Definition HID_DTYPE_Physical : Z := 0x23.
Definition HID_REQ_GetReport : Z := 0x01.
Definition HID_REQ_GetIdle : Z := 0x02.
Definition HID_REQ_GetProtocol : Z := 0x03.
Definition HID_REQ_SetReport : Z := 0x09.
Definition HID_REQ_SetIdle : Z := 0x0A.
Definition HID_REQ_SetProtocol : Z := 0x0B.
Definition HID_REPORT_ITEM_In : Z := 0.
Definition HID_REPORT_ITEM_Out : Z := 1.
Definition HID_REPORT_ITEM_Feature : Z := 2.
Definition HID_REPORT_CUSTOM : Z := 3.
Definition CDC_REQ_SendEncapsulatedCommand : Z := 0x00.
Definition CDC_REQ_SetLineEncoding : Z := 0x20.
Definition CDC_REQ_GetLineEncoding : Z := 0x21.
Definition CDC_REQ_SetControlLineState : Z := 0x22.
Definition CDC_REQ_SendBreak : Z := 0x23.
Definition CDC_LINEENCODING_OneStopBit : Z := 0.
Definition CDC_PARITY_None : Z := 0.

(** ** State *)

Record USB_Request_Header_t := mk_req {
  bmRequestType : Z; bRequest : Z; wValue : Z; wIndex : Z; wLength : Z }.

Record CDC_LineEncoding_t := mk_line {
  BaudRateBPS : Z; CharFormat : Z; ParityType : Z; DataBits : Z }.

(** [CDCInterfaceInfo]: the state that changes; its interface number is 0. *)
Definition ControlInterfaceNumber : Z := 0.

Record usb := mk_usb {
  u_tr : list uev;                    (** accesses to the registers, oldest first *)
  control_request : USB_Request_Header_t;
  g_response : option usb_ptr;        (** [None] when NULL *)
  g_response_len : Z;
  g_stall : Z;
  g_rate : Z;
  usb_mouse_report_proto : Z;
  host_keyboard_status : Z;
  LineEncoding : CDC_LineEncoding_t;
  HostToDevice : Z
}.

Definition with_u_tr v s := mk_usb v (control_request s) (g_response s) (g_response_len s) (g_stall s) (g_rate s) (usb_mouse_report_proto s) (host_keyboard_status s) (LineEncoding s) (HostToDevice s).
Definition with_control_request v s := mk_usb (u_tr s) v (g_response s) (g_response_len s) (g_stall s) (g_rate s) (usb_mouse_report_proto s) (host_keyboard_status s) (LineEncoding s) (HostToDevice s).
Definition with_response p n s := mk_usb (u_tr s) (control_request s) p n (g_stall s) (g_rate s) (usb_mouse_report_proto s) (host_keyboard_status s) (LineEncoding s) (HostToDevice s).
Definition with_g_stall v s := mk_usb (u_tr s) (control_request s) (g_response s) (g_response_len s) v (g_rate s) (usb_mouse_report_proto s) (host_keyboard_status s) (LineEncoding s) (HostToDevice s).
Definition with_g_rate v s := mk_usb (u_tr s) (control_request s) (g_response s) (g_response_len s) (g_stall s) v (usb_mouse_report_proto s) (host_keyboard_status s) (LineEncoding s) (HostToDevice s).
Definition with_mouse_proto v s := mk_usb (u_tr s) (control_request s) (g_response s) (g_response_len s) (g_stall s) (g_rate s) v (host_keyboard_status s) (LineEncoding s) (HostToDevice s).
Definition with_keyboard_status v s := mk_usb (u_tr s) (control_request s) (g_response s) (g_response_len s) (g_stall s) (g_rate s) (usb_mouse_report_proto s) v (LineEncoding s) (HostToDevice s).
Definition with_LineEncoding v s := mk_usb (u_tr s) (control_request s) (g_response s) (g_response_len s) (g_stall s) (g_rate s) (usb_mouse_report_proto s) (host_keyboard_status s) v (HostToDevice s).
Definition with_HostToDevice v s := mk_usb (u_tr s) (control_request s) (g_response s) (g_response_len s) (g_stall s) (g_rate s) (usb_mouse_report_proto s) (host_keyboard_status s) (LineEncoding s) v.

Definition usb_start : usb :=
  mk_usb [] (mk_req 0 0 0 0 0) None 0 0 0 0 0 (mk_line 0 0 0 0) 0.

Section Ops.
Context `{UsbRegs}.
Implicit Type s : usb.

(** ** Register access ([platform/chip_8278/usbhw_i.h], [proj/drivers/drv_usb.h]) *)
Definition wr (a v : Z) s : usb := with_u_tr (u_tr s ++ [UWr a v]) s.
Definition rd32 (a : Z) s : Z * usb := (u32 (usb_reg a (u_tr s)), with_u_tr (u_tr s ++ [URd a]) s).
Definition rd (a : Z) s : Z * usb := (u8 (usb_reg a (u_tr s)), with_u_tr (u_tr s ++ [URd a]) s).

Definition usbhw_reset_ctrl_ep_ptr s : usb := wr reg_ctrl_ep_ptr 0 s.
Definition usbhw_get_ctrl_ep_irq s : Z * usb := rd reg_ctrl_ep_irq_sta s.
Definition usbhw_clr_ctrl_ep_irq (ep : Z) s : usb := wr reg_ctrl_ep_irq_sta ep s.
Definition usbhw_write_ctrl_ep_ctrl (data : Z) s : usb := wr reg_ctrl_ep_ctrl data s.
Definition usbhw_read_ctrl_ep_data s : Z * usb := rd reg_ctrl_ep_dat s.
Definition usbhw_write_ctrl_ep_data (data : Z) s : usb := wr reg_ctrl_ep_dat (u8 data) s.
Definition usbhw_reset_ep_ptr (ep : Z) s : usb := wr (reg_usb_ep_ptr ep) 0 s.
Definition usbhw_clr_eps_irq_mask (mask : Z) s : usb :=
  let '(m, s) := rd reg_usb_mask s in wr reg_usb_mask (u8 (Z.land m (Z.lnot mask))) s.
Definition usbhw_get_eps_irq s : Z * usb := rd reg_usb_irq s.
Definition usbhw_clr_eps_irq (ep : Z) s : usb := wr reg_usb_irq ep s.
Definition usbhw_read_ep_data (ep : Z) s : Z * usb := rd (reg_usb_ep_dat ep) s.
Definition usbhw_is_ep_busy (ep : Z) s : Z * usb :=
  let '(c, s) := rd (reg_usb_ep_ctrl ep) s in (Z.land c FLD_USB_EP_BUSY, s).
Definition usbhw_data_ep_ack (ep : Z) s : usb := wr (reg_usb_ep_ctrl ep) FLD_USB_EP_BUSY s.
Definition usbhw_read_ctrl_ep_u16 s : Z * usb :=
  (u16 (usb_ctrl_u16 (u_tr s)), with_u_tr (u_tr s ++ [URdCtrl16]) s).
Definition usbhw_enable_manual_interrupt (m : Z) s : usb := with_u_tr (u_tr s ++ [UManualIrq m]) s.

(** [u8 usb_is_irq_reset(void){ return reg_irq_src & FLD_IRQ_USB_RST_EN; }] *)
Definition usb_is_irq_reset s : Z * usb :=
  let '(r, s) := rd32 reg_irq_src s in (u8 (Z.land r FLD_IRQ_USB_RST_EN), s).
Definition usb_clear_irq_reset s : usb := wr reg_irq_src FLD_IRQ_USB_RST_EN s.

(** ** usbcdc.c: the class requests of the serial port *)

Definition usbcdc_write32 (value : Z) s : usb :=
  let s := usbhw_write_ctrl_ep_data (Z.land value 0xff) s in
  let s := usbhw_write_ctrl_ep_data (Z.land (Z.shiftr value 8) 0xff) s in
  let s := usbhw_write_ctrl_ep_data (Z.land (Z.shiftr value 16) 0xff) s in
  usbhw_write_ctrl_ep_data (Z.land (Z.shiftr value 24) 0xff) s.

Definition usbcdc_read32 s : Z * usb :=
  let '(value, s) := usbhw_read_ctrl_ep_data s in
  let '(temp, s) := usbhw_read_ctrl_ep_data s in
  let value := Z.lor (Z.shiftl temp 8) value in
  let '(temp, s) := usbhw_read_ctrl_ep_data s in
  let value := Z.lor (Z.shiftl temp 16) value in
  let '(temp, s) := usbhw_read_ctrl_ep_data s in
  (Z.lor (Z.shiftl temp 24) value, s).

Definition usbcdc_processControlRequest (bReq wVal wIdx wLen : Z) s : usb :=
  if negb (wIdx =? ControlInterfaceNumber) then s
  else if bReq =? CDC_REQ_GetLineEncoding then
    let s := usbcdc_write32 (BaudRateBPS (LineEncoding s)) s in
    let s := usbhw_write_ctrl_ep_data (CharFormat (LineEncoding s)) s in
    let s := usbhw_write_ctrl_ep_data (ParityType (LineEncoding s)) s in
    usbhw_write_ctrl_ep_data (DataBits (LineEncoding s)) s
  else if bReq =? CDC_REQ_SetLineEncoding then
    let '(baud, s) := usbcdc_read32 s in
    let '(fmt, s) := usbhw_read_ctrl_ep_data s in
    let '(par, s) := usbhw_read_ctrl_ep_data s in
    let '(bits, s) := usbhw_read_ctrl_ep_data s in
    with_LineEncoding (mk_line baud fmt par bits) s
  else if bReq =? CDC_REQ_SetControlLineState then with_HostToDevice wVal s
  else s.

(** The line settings of [usbcdc_init]. *)
Definition usbcdc_init_line s : usb :=
  with_LineEncoding (mk_line 115200 CDC_LINEENCODING_OneStopBit CDC_PARITY_None 8) s.

(** ** usb.c *)

(** [while(n-- > 0){ usbhw_write_ctrl_ep_data( *g_response ); ++g_response; }] *)
Fixpoint send_bytes (n : nat) s : usb :=
  match n with
  | O => s
  | S n' =>
      let b := match g_response s with Some p => deref p | None => 0 end in
      let s := usbhw_write_ctrl_ep_data b s in
      let p := match g_response s with Some (o, i) => Some (o, i + 1) | None => None end in
      send_bytes n' (with_response p (g_response_len s) s)
  end.

Definition usb_send_response s : usb :=
  let n := if g_response_len s <? 8 then g_response_len s else 8 in
  let s := with_response (g_response s) (u16 (g_response_len s - n)) s in
  let s := usbhw_reset_ctrl_ep_ptr s in
  send_bytes (Z.to_nat n) s.

(** The response chosen by the descriptor type and index, or a stall. *)
Definition prepare_response (value_h value_l : Z) s : usb :=
  if value_h =? DTYPE_Device then with_response (Some usbdesc_get_device) sizeof_Device s
  else if value_h =? DTYPE_Configuration then
    with_response (Some usbdesc_get_configuration) sizeof_Configuration s
  else if value_h =? DTYPE_String then
    if USB_STRING_LANGUAGE =? value_l then
      with_response (Some usbdesc_get_language) sizeof_LANGUAGE_ID_ENG s
    else if USB_STRING_VENDOR =? value_l then
      with_response (Some usbdesc_get_vendor) (sizeof_wide STRING_VENDOR) s
    else if USB_STRING_PRODUCT =? value_l then
      with_response (Some usbdesc_get_product) (sizeof_wide STRING_PRODUCT) s
    else if USB_STRING_SERIAL =? value_l then
      with_response (Some usbdesc_get_serial) (sizeof_wide STRING_SERIAL) s
    else with_g_stall 1 s
  else with_g_stall 1 s.

(** [if(control_request.wLength < g_response_len) g_response_len = wLength;] *)
Definition clamp_response s : usb :=
  if wLength (control_request s) <? g_response_len s
  then with_response (g_response s) (wLength (control_request s)) s else s.

Definition usb_prepare_desc_data s : usb :=
  let value_l := Z.land (wValue (control_request s)) 0xff in
  let value_h := Z.land (Z.shiftr (wValue (control_request s)) 8) 0xff in
  let s := with_response None 0 s in
  let s := prepare_response value_h value_l s in
  clamp_response s.

(** No mouse, keyboard or vendor interface in this build: no case of the
    [switch] sets a response. *)
Definition usb_handle_std_intf_req s : usb :=
  let s := with_response None 0 s in
  clamp_response s.

Definition usb_handle_out_class_intf_req (data_request : Z) s : usb :=
  let property := bRequest (control_request s) in
  let value_l := Z.land (wValue (control_request s)) 0xff in
  let value_h := Z.land (Z.shiftr (wValue (control_request s)) 8) 0xff in
  if property =? HID_REQ_SetReport then
    if value_h =? HID_REPORT_ITEM_In then s
    else if value_h =? HID_REPORT_ITEM_Out then s
    else if value_h =? HID_REPORT_ITEM_Feature then
      if negb (data_request =? 0) then
        let '(d, s) := usbhw_read_ctrl_ep_data s in with_keyboard_status d s
      else s
    else if value_h =? HID_REPORT_CUSTOM then s
    else with_g_stall 1 s
  else if property =? HID_REQ_SetIdle then
    let s := if negb (data_request =? 0) then
               let '(d, s) := usbhw_read_ctrl_ep_data s in with_g_rate d s
             else s in
    with_g_rate value_h s
  else if property =? HID_REQ_SetProtocol then
    let s := if negb (data_request =? 0) then
               let '(d, s) := usbhw_read_ctrl_ep_data s in with_mouse_proto d s
             else s in
    with_mouse_proto value_l s
  else if (property =? CDC_REQ_SetControlLineState) || (property =? CDC_REQ_SetLineEncoding) then
    usbcdc_processControlRequest (bRequest (control_request s)) (wValue (control_request s))
      (wIndex (control_request s)) (wLength (control_request s)) s
  else with_g_stall 1 s.

Definition usb_handle_in_class_intf_req s : usb :=
  let property := bRequest (control_request s) in
  if property =? CDC_REQ_SendEncapsulatedCommand then usbhw_write_ctrl_ep_data 0x00 s
  else if property =? HID_REQ_GetReport then s
  else if property =? HID_REQ_GetIdle then usbhw_write_ctrl_ep_data (g_rate s) s
  else if property =? HID_REQ_GetProtocol then usbhw_write_ctrl_ep_data (usb_mouse_report_proto s) s
  else if property =? CDC_REQ_GetLineEncoding then
    usbcdc_processControlRequest (bRequest (control_request s)) (wValue (control_request s))
      (wIndex (control_request s)) (wLength (control_request s)) s
  else with_g_stall 1 s.

(** [bmRequestType] of the cases of [usb_handle_request]. *)
Definition RT_IN_STD_DEVICE : Z := Z.lor (Z.lor REQDIR_DEVICETOHOST REQTYPE_STANDARD) REQREC_DEVICE.
Definition RT_IN_STD_INTF : Z := Z.lor (Z.lor REQDIR_DEVICETOHOST REQTYPE_STANDARD) REQREC_INTERFACE.
Definition RT_OUT_CLASS_INTF : Z := Z.lor (Z.lor REQDIR_HOSTTODEVICE REQTYPE_CLASS) REQREC_INTERFACE.
Definition RT_OUT_CLASS_ENDP : Z := Z.lor (Z.lor REQDIR_HOSTTODEVICE REQTYPE_CLASS) REQREC_ENDPOINT.
Definition RT_IN_CLASS_INTF : Z := Z.lor (Z.lor REQDIR_DEVICETOHOST REQTYPE_CLASS) REQREC_INTERFACE.
Definition RT_IN_CLASS_ENDP : Z := Z.lor (Z.lor REQDIR_DEVICETOHOST REQTYPE_CLASS) REQREC_ENDPOINT.
Definition RT_OUT_STD_INTF : Z := Z.lor (Z.lor REQDIR_HOSTTODEVICE REQTYPE_STANDARD) REQREC_INTERFACE.

(** [usb_handle_get_intf], [usb_handle_set_intf] and the two handlers of class
    requests to endpoints have empty bodies. *)
Definition usb_handle_request (data_request : Z) s : usb :=
  let ty := bmRequestType (control_request s) in
  let bReq := bRequest (control_request s) in
  let s := usbhw_reset_ctrl_ep_ptr s in
  if ty =? RT_IN_STD_DEVICE then
    if REQ_GetDescriptor =? bReq then
      let s := if USB_IRQ_SETUP_REQ =? data_request then usb_prepare_desc_data s else s in
      usb_send_response s
    else s
  else if ty =? RT_IN_STD_INTF then
    if REQ_GetDescriptor =? bReq then
      let s := if USB_IRQ_SETUP_REQ =? data_request then usb_handle_std_intf_req s else s in
      usb_send_response s
    else s
  else if ty =? RT_OUT_CLASS_INTF then usb_handle_out_class_intf_req data_request s
  else if ty =? RT_OUT_CLASS_ENDP then s
  else if ty =? RT_IN_CLASS_INTF then usb_handle_in_class_intf_req s
  else if ty =? RT_IN_CLASS_ENDP then s
  else if ty =? RT_OUT_STD_INTF then s
  else with_g_stall 1 s.

Definition usb_handle_ctl_ep_setup s : usb :=
  let s := usbhw_reset_ctrl_ep_ptr s in
  let '(ty, s) := usbhw_read_ctrl_ep_data s in
  let '(rq, s) := usbhw_read_ctrl_ep_data s in
  let '(v, s) := usbhw_read_ctrl_ep_u16 s in
  let '(i, s) := usbhw_read_ctrl_ep_u16 s in
  let '(l, s) := usbhw_read_ctrl_ep_u16 s in
  let s := with_control_request (mk_req ty rq v i l) s in
  let s := with_g_stall 0 s in
  let s := usb_handle_request USB_IRQ_SETUP_REQ s in
  if negb (g_stall s =? 0) then usbhw_write_ctrl_ep_ctrl FLD_EP_DAT_STALL s
  else usbhw_write_ctrl_ep_ctrl FLD_EP_DAT_ACK s.

Definition usb_handle_ctl_ep_data s : usb :=
  let s := usbhw_reset_ctrl_ep_ptr s in
  let s := with_g_stall 0 s in
  let s := usb_handle_request USB_IRQ_DATA_REQ s in
  if negb (g_stall s =? 0) then usbhw_write_ctrl_ep_ctrl FLD_EP_DAT_STALL s
  else usbhw_write_ctrl_ep_ctrl FLD_EP_DAT_ACK s.

Definition usb_handle_ctl_ep_status s : usb :=
  if negb (g_stall s =? 0) then usbhw_write_ctrl_ep_ctrl FLD_EP_STA_STALL s
  else usbhw_write_ctrl_ep_ctrl FLD_EP_STA_ACK s.

(** [for(int i = 0; i < 8; i++) reg_usb_ep_ctrl(i) = 0;] *)
Definition clear_ep_ctrls s : usb :=
  fold_left (fun s i => wr (reg_usb_ep_ctrl (Z.of_nat i)) 0 s) (seq 0 8) s.

(** [usb_handle_irq] up to the data handler of the serial port. *)
Definition handle_ctrl_irq s : usb :=
  let '(irq, s) := usbhw_get_ctrl_ep_irq s in
  let s := if negb (Z.land irq FLD_CTRL_EP_IRQ_SETUP =? 0) then
             usb_handle_ctl_ep_setup (usbhw_clr_ctrl_ep_irq FLD_CTRL_EP_IRQ_SETUP s) else s in
  let s := if negb (Z.land irq FLD_CTRL_EP_IRQ_DATA =? 0) then
             usb_handle_ctl_ep_data (usbhw_clr_ctrl_ep_irq FLD_CTRL_EP_IRQ_DATA s) else s in
  let s := if negb (Z.land irq FLD_CTRL_EP_IRQ_STA =? 0) then
             usb_handle_ctl_ep_status (usbhw_clr_ctrl_ep_irq FLD_CTRL_EP_IRQ_STA s) else s in
  let '(r, s) := usb_is_irq_reset s in
  let s := if negb (r =? 0) then
             let s := with_mouse_proto 1 s in
             let s := usb_clear_irq_reset s in
             let s := clear_ep_ctrls s in
             usbhw_data_ep_ack CDC_RX_EPNUM s
           else s in
  with_g_stall 0 s.

Definition usb_init_interrupt s : usb :=
  let s := usbhw_enable_manual_interrupt (Z.lor FLD_CTRL_EP_AUTO_STD FLD_CTRL_EP_AUTO_DESC) s in
  let s := usbhw_clr_eps_irq_mask
             (Z.lor (Z.shiftl 1 (Z.land CDC_TX_EPNUM 7)) (Z.shiftl 1 (Z.land CDC_RX_EPNUM 7))) s in
  usbhw_data_ep_ack CDC_RX_EPNUM s.

Definition usb_init s : usb := usb_init_interrupt s.
End Ops.
