(* ===== verification/UsbProps.v ===== *)
(** * Properties of the USB control endpoint

    Descriptors reach the host in packets of eight bytes, the line settings of
    the serial port survive a set and a get, and a bus reset is never seen. *)
From S2P Require Import Prelude UsbDesc Usb.

Definition byte_at (i : nat) (d : list Z) : Z := nth i d 0.

(** ** What the device sends *)

(** The bytes written to the data buffer of endpoint 0 and the answers given on it. *)
Definition data_out (t : list uev) : list Z :=
  omap (fun e => match e with UWr a v => if a =? reg_ctrl_ep_dat then Some v else None | _ => None end) t.
Definition answers (t : list uev) : list Z :=
  omap (fun e => match e with UWr a v => if a =? reg_ctrl_ep_ctrl then Some v else None | _ => None end) t.

Lemma data_out_app t t' : data_out (t ++ t') = data_out t ++ data_out t'.
Proof. apply omap_app. Qed.
Lemma answers_app t t' : answers (t ++ t') = answers t ++ answers t'.
Proof. apply omap_app. Qed.

Lemma data_out_writes l : data_out (UWr reg_ctrl_ep_dat <$> l) = l.
Proof.
  induction l as [|b l IH]; [done|]. unfold data_out in *. cbn [fmap list_fmap omap list_omap].
  rewrite Z.eqb_refl. by f_equal.
Qed.
Lemma answers_writes l : answers (UWr reg_ctrl_ep_dat <$> l) = [].
Proof. induction l as [|b l IH]; [done|]. apply IH. Qed.

(** ** Descriptors *)

(** A string descriptor: its length, its type and the characters, two bytes each. *)
Definition string_descriptor (cs : list Z) : list Z :=
  [2 + 2 * Z.of_nat (length cs); DTYPE_String] ++ concat ((fun c => [c; 0]) <$> cs).

(** The descriptor a request names: the type in the high byte of [wValue],
    the index of a string in the low byte. *)
Definition descriptor_of (wv : Z) : option (list Z) :=
  let ty := wv / 2 ^ 8 in
  let idx := wv mod 2 ^ 8 in
  if ty =? DTYPE_Device then Some (object_bytes ObjDevice)
  else if ty =? DTYPE_Configuration then Some (object_bytes ObjConfiguration)
  else if ty =? DTYPE_String then
    if idx =? 0 then Some [4; DTYPE_String; 0x09; 0x04]
    else if idx =? 1 then Some (string_descriptor [84; 101; 108; 105; 110; 107])
    else if idx =? 2 then
      Some (string_descriptor [84; 101; 108; 105; 110; 107; 85; 83; 66; 68; 111; 110; 103; 108; 101])
    else if idx =? 3 then Some (string_descriptor [84; 76; 83; 82; 56; 50; 120; 120])
    else None
  else None.

Section Control.
Context `{UsbRegs}.
Implicit Type s : usb.

(** The setup packet [rq] is in the buffer of endpoint 0: what the reads of
    the setup handler answer, in their order. *)
Record setup_at (rq : USB_Request_Header_t) s : Prop := {
  se_type : usb_reg reg_ctrl_ep_dat (u_tr s ++ [UWr reg_ctrl_ep_ptr 0]) = bmRequestType rq;
  se_request : usb_reg reg_ctrl_ep_dat (u_tr s ++ [UWr reg_ctrl_ep_ptr 0; URd reg_ctrl_ep_dat]) = bRequest rq;
  se_value : usb_ctrl_u16 (u_tr s ++ [UWr reg_ctrl_ep_ptr 0; URd reg_ctrl_ep_dat; URd reg_ctrl_ep_dat]) = wValue rq;
  se_index : usb_ctrl_u16 (u_tr s ++ [UWr reg_ctrl_ep_ptr 0; URd reg_ctrl_ep_dat; URd reg_ctrl_ep_dat; URdCtrl16]) = wIndex rq;
  se_length : usb_ctrl_u16 (u_tr s ++ [UWr reg_ctrl_ep_ptr 0; URd reg_ctrl_ep_dat; URd reg_ctrl_ep_dat; URdCtrl16; URdCtrl16]) = wLength rq;
  se_range : 0 <= bmRequestType rq < 256 /\ 0 <= bRequest rq < 256 /\ 0 <= wValue rq < 65536 /\
             0 <= wIndex rq < 65536 /\ 0 <= wLength rq < 65536;
}.

Definition setup_events : list uev :=
  [UWr reg_ctrl_ep_ptr 0; URd reg_ctrl_ep_dat; URd reg_ctrl_ep_dat; URdCtrl16; URdCtrl16; URdCtrl16].

(** The state in which [usb_handle_request] finds the request. *)
Definition requested (rq : USB_Request_Header_t) s : usb :=
  with_g_stall 0 (with_control_request rq (with_u_tr (u_tr s ++ setup_events) s)).

Definition ctl_answer s : usb :=
  if negb (g_stall s =? 0) then usbhw_write_ctrl_ep_ctrl FLD_EP_DAT_STALL s
  else usbhw_write_ctrl_ep_ctrl FLD_EP_DAT_ACK s.

Lemma setup_eq rq s : setup_at rq s ->
  usb_handle_ctl_ep_setup s = ctl_answer (usb_handle_request USB_IRQ_SETUP_REQ (requested rq s)).
Proof.
  intros [E1 E2 E3 E4 E5 (?&?&?&?&?)].
  unfold usb_handle_ctl_ep_setup, usbhw_reset_ctrl_ep_ptr, usbhw_read_ctrl_ep_data, usbhw_read_ctrl_ep_u16, wr, rd, requested.
  cbn -[u8 u16]. rewrite <- !app_assoc. cbn -[u8 u16].
  rewrite E1, E2, E3, E4, E5, !u8_small, !u16_small by done. by destruct rq.
Qed.

(** [n] bytes from a pointer. *)
Definition slice (p : usb_ptr) (n : nat) : list Z := take n (drop (Z.to_nat p.2) (object_bytes p.1)).

Lemma object_byte o i : 0 <= nth i (object_bytes o) 0 < 256.
Proof.
  assert (Forall (fun b => 0 <= b < 256) (object_bytes o)) as Hf by (destruct o; decide_vm).
  destruct (decide (i < length (object_bytes o))%nat).
  - eapply Forall_forall in Hf; [exact Hf|]. apply list_elem_of_In, nth_In. done.
  - rewrite nth_overflow by lia. lia.
Qed.

Lemma send_bytes_spec n s o i :
  g_response s = Some (o, i) -> 0 <= i -> i + Z.of_nat n <= Z.of_nat (length (object_bytes o)) ->
  send_bytes n s =
  with_response (Some (o, i + Z.of_nat n)) (g_response_len s)
    (with_u_tr (u_tr s ++ (UWr reg_ctrl_ep_dat <$> slice (o, i) n)) s).
Proof.
  revert s i. induction n as [|n IH]; intros s i Es Hi Hn.
  - cbn. rewrite app_nil_r, Z.add_0_r. destruct s. cbn in *. by subst.
  - cbn [send_bytes]. rewrite Es. rewrite (IH _ (i + 1)); [|cbn; by rewrite Es|lia|lia].
    unfold usbhw_write_ctrl_ep_data, wr, deref, slice. cbn [fst snd u_tr g_response_len with_response with_u_tr].
    rewrite u8_small by apply object_byte.
    destruct (drop (Z.to_nat i) (object_bytes o)) as [|b l] eqn:Ed.
    { apply (f_equal length) in Ed. rewrite length_drop in Ed. cbn in Ed. lia. }
    assert (nth (Z.to_nat i) (object_bytes o) 0 = b) as ->.
    { rewrite <- (take_drop (Z.to_nat i) (object_bytes o)), Ed.
      rewrite app_nth2; rewrite length_take_le by lia; [|lia]. by rewrite Nat.sub_diag. }
    replace (Z.to_nat (i + 1)) with (Z.to_nat i + 1)%nat by lia.
    rewrite <- drop_drop, Ed. cbn [take drop fmap list_fmap]. rewrite <- app_assoc. cbn [app].
    replace (i + 1 + Z.of_nat n) with (i + Z.of_nat (S n)) by lia. done.
Qed.

(** [usb_send_response] sends the next packet of the response. *)
Lemma send_response_spec s o i n :
  g_response s = Some (o, i) -> g_response_len s = n -> 0 <= i -> 0 <= n < 65536 ->
  i + n <= Z.of_nat (length (object_bytes o)) ->
  usb_send_response s =
  with_response (Some (o, i + Z.min n 8)) (n - Z.min n 8)
    (with_u_tr (u_tr s ++ UWr reg_ctrl_ep_ptr 0 :: (UWr reg_ctrl_ep_dat <$> slice (o, i) (Z.to_nat (Z.min n 8)))) s).
Proof.
  intros Es <- Hi Hn Hlen. unfold usb_send_response.
  replace (if g_response_len s <? 8 then g_response_len s else 8) with (Z.min (g_response_len s) 8) by (case_cmp; lia).
  rewrite u16_small by lia. unfold usbhw_reset_ctrl_ep_ptr, wr.
  rewrite (send_bytes_spec _ _ o i); [|done|done|lia].
  cbn [u_tr with_u_tr with_response g_response_len]. rewrite <- app_assoc, Z2Nat.id by lia. done.
Qed.

(** What a request is answered with: an object and the length announced. *)
Definition answered_with (wv : Z) : option (usb_object * Z) :=
  let ty := wv / 2 ^ 8 in
  let idx := wv mod 2 ^ 8 in
  if ty =? DTYPE_Device then Some (ObjDevice, sizeof_Device)
  else if ty =? DTYPE_Configuration then Some (ObjConfiguration, sizeof_Configuration)
  else if ty =? DTYPE_String then
    if idx =? 0 then Some (ObjLanguage, sizeof_LANGUAGE_ID_ENG)
    else if idx =? 1 then Some (ObjVendor, sizeof_wide STRING_VENDOR)
    else if idx =? 2 then Some (ObjProduct, sizeof_wide STRING_PRODUCT)
    else if idx =? 3 then Some (ObjSerial, sizeof_wide STRING_SERIAL)
    else None
  else None.

Lemma answered_bytes wv :
  descriptor_of wv = '(o, n) ← answered_with wv; Some (take (Z.to_nat n) (object_bytes o)).
Proof. unfold descriptor_of, answered_with. repeat case_match; vm_compute; reflexivity. Qed.

Lemma answered_range wv o n : answered_with wv = Some (o, n) ->
  0 <= n < 65536 /\ n <= Z.of_nat (length (object_bytes o)).
Proof.
  unfold answered_with. intros E.
  repeat case_match; simplify_eq; split; first [by vm_compute | decide_vm].
Qed.

Lemma low_byte v : Z.land v 0xff = v mod 2 ^ 8.
Proof. apply (Z.land_ones v 8). lia. Qed.

Lemma prepare_spec s :
  0 <= wValue (control_request s) < 65536 -> 0 <= wLength (control_request s) ->
  g_stall s = 0 ->
  usb_prepare_desc_data s =
  match answered_with (wValue (control_request s)) with
  | Some (o, n) => with_response (Some (o, 0)) (Z.min n (wLength (control_request s))) s
  | None => with_g_stall 1 (with_response None 0 s)
  end.
Proof.
  intros Hv Hl Hs. unfold usb_prepare_desc_data, prepare_response, answered_with.
  rewrite !low_byte, Z.shiftr_div_pow2 by lia.
  cbn [wValue control_request with_response]. set (v := wValue (control_request s)) in *.
  rewrite (Z.mod_small (v / 2 ^ 8)) by zdm.
  unfold USB_STRING_LANGUAGE, USB_STRING_VENDOR, USB_STRING_PRODUCT, USB_STRING_SERIAL.
  rewrite !(Z.eqb_sym _ (v mod 2 ^ 8)).
  repeat case_match; unfold clamp_response;
    cbn -[Z.min Z.ltb]; case_cmp; try (rewrite Z.min_l by lia); try (rewrite Z.min_r by lia); try lia; done.
Qed.

(** One stage of a transfer: what it adds to the trace, and what is left to send. *)
Record stage (o : usb_object) (i n : Z) (s s' : usb) : Prop := {
  st_trace : exists t, u_tr s' = u_tr s ++ t /\
    data_out t = slice (o, i) (Z.to_nat (Z.min n 8)) /\ answers t = [FLD_EP_DAT_ACK];
  st_request : control_request s' = control_request s;
  st_ptr : g_response s' = Some (o, i + Z.min n 8);
  st_len : g_response_len s' = n - Z.min n 8;
}.

Lemma stage_send o i n s s0 t0 :
  g_response s = Some (o, i) -> g_response_len s = n -> g_stall s = 0 ->
  0 <= i -> 0 <= n < 65536 -> i + n <= Z.of_nat (length (object_bytes o)) ->
  u_tr s = u_tr s0 ++ t0 -> data_out t0 = [] -> answers t0 = [] -> control_request s = control_request s0 ->
  stage o i n s0 (ctl_answer (usb_send_response s)).
Proof.
  intros Ep Hlen Hst Hi Hn Hl Et Hd Ha Hc. rewrite (send_response_spec s o i n) by done.
  unfold ctl_answer, usbhw_write_ctrl_ep_ctrl, wr. cbn [g_stall with_response with_u_tr u_tr]. rewrite Hst. cbn [Z.eqb negb].
  split; [|done..]. rewrite Et. rewrite <- !app_assoc.
  eexists. split; [cbn [u_tr with_u_tr]; reflexivity|].
  rewrite !data_out_app, !answers_app, Hd, Ha.
  change (data_out (UWr reg_ctrl_ep_ptr 0 :: ?t)) with (data_out t).
  change (answers (UWr reg_ctrl_ep_ptr 0 :: ?t)) with (answers t).
  rewrite data_out_writes, answers_writes. split; [apply app_nil_r|done].
Qed.

Lemma data_stage o i n s :
  bmRequestType (control_request s) = RT_IN_STD_DEVICE -> bRequest (control_request s) = REQ_GetDescriptor ->
  g_response s = Some (o, i) -> g_response_len s = n ->
  0 <= i -> 0 <= n < 65536 -> i + n <= Z.of_nat (length (object_bytes o)) ->
  stage o i n s (usb_handle_ctl_ep_data s).
Proof.
  intros Ht Hr Ep Hlen Hi Hn Hl. unfold usb_handle_ctl_ep_data, usb_handle_request, usbhw_reset_ctrl_ep_ptr, wr.
  cbn [control_request with_g_stall with_u_tr]. rewrite Ht, Hr. cbn [Z.eqb].
  rewrite !Z.eqb_refl. cbn [Z.eqb USB_IRQ_SETUP_REQ USB_IRQ_DATA_REQ].
  apply (stage_send o i n _ s [UWr reg_ctrl_ep_ptr 0; UWr reg_ctrl_ep_ptr 0]); try done.
  cbn [u_tr with_u_tr with_g_stall]. by rewrite <- app_assoc.
Qed.

(** The state of a transfer of [N] bytes of [o] when [k] packets are sent. *)
Record sent (rq : USB_Request_Header_t) (o : usb_object) (N : Z) (k : nat) (s s' : usb) : Prop := {
  sn_trace : exists t, u_tr s' = u_tr s ++ t /\
    data_out t = take (8 * k) (slice (o, 0) (Z.to_nat N)) /\ answers t = replicate k FLD_EP_DAT_ACK;
  sn_request : control_request s' = rq;
  sn_ptr : g_response s' = Some (o, Z.min N (8 * Z.of_nat k));
  sn_len : g_response_len s' = N - Z.min N (8 * Z.of_nat k);
}.

Lemma slice_next o N k : 0 <= N -> N <= Z.of_nat (length (object_bytes o)) ->
  take (8 * k) (slice (o, 0) (Z.to_nat N)) ++
  slice (o, Z.min N (8 * Z.of_nat k)) (Z.to_nat (Z.min (N - Z.min N (8 * Z.of_nat k)) 8)) =
  take (8 * S k) (slice (o, 0) (Z.to_nat N)).
Proof.
  intros HN Hl. unfold slice. cbn [fst snd]. rewrite drop_0, !take_take.
  destruct (Z.le_gt_cases N (8 * Z.of_nat k)).
  - rewrite (Z.min_l N) by lia. rewrite Z.sub_diag, Z.min_l by lia. rewrite take_0, app_nil_r.
    f_equal. lia.
  - rewrite (Z.min_r N) by lia.
    replace ((8 * k) `min` Z.to_nat N)%nat with (8 * k)%nat by lia.
    replace ((8 * S k) `min` Z.to_nat N)%nat with (8 * k + Z.to_nat (Z.min (N - 8 * Z.of_nat k) 8))%nat by lia.
    replace (Z.to_nat (8 * Z.of_nat k)) with (8 * k)%nat by lia.
    by rewrite take_take_drop.
Qed.

Lemma sent_step rq o N k s s1 s2 :
  sent rq o N k s s1 -> 0 <= N -> N <= Z.of_nat (length (object_bytes o)) ->
  stage o (Z.min N (8 * Z.of_nat k)) (N - Z.min N (8 * Z.of_nat k)) s1 s2 ->
  sent rq o N (S k) s s2.
Proof.
  intros [(t & Et & Hd & Ha) Hr Hp Hn] H0 Hl [(t' & Et' & Hd' & Ha') Hr' Hp' Hn'].
  split.
  - exists (t ++ t'). rewrite Et', Et, app_assoc, data_out_app, answers_app, Hd, Hd', Ha, Ha', slice_next by done.
    split_and!; [done..|]. by rewrite replicate_S_end.
  - congruence.
  - rewrite Hp'. do 2 f_equal. lia.
  - rewrite Hn'. lia.
Qed.

Definition transfer (k : nat) s : usb := Nat.iter k usb_handle_ctl_ep_data (usb_handle_ctl_ep_setup s).

Lemma get_descriptor_request rq s :
  setup_at rq s -> bmRequestType rq = RT_IN_STD_DEVICE -> bRequest rq = REQ_GetDescriptor ->
  usb_handle_ctl_ep_setup s =
  ctl_answer (usb_send_response (usb_prepare_desc_data (wr reg_ctrl_ep_ptr 0 (requested rq s)))).
Proof.
  intros Hs Ht Hr. rewrite (setup_eq rq) by done. unfold usb_handle_request, usbhw_reset_ctrl_ep_ptr.
  cbn [control_request requested with_g_stall with_control_request wr with_u_tr]. rewrite Ht, Hr.
  rewrite !Z.eqb_refl. done.
Qed.

Lemma transfer_sent rq o n s k :
  setup_at rq s -> bmRequestType rq = RT_IN_STD_DEVICE -> bRequest rq = REQ_GetDescriptor ->
  answered_with (wValue rq) = Some (o, n) ->
  sent rq o (Z.min n (wLength rq)) (S k) s (transfer k s).
Proof.
  intros Hs Ht Hr Ho. destruct (answered_range _ _ _ Ho) as [Hn Hl].
  destruct (se_range _ _ Hs) as (_ & _ & Hv & _ & Hw).
  induction k as [|k IH].
  - change (transfer 0 s) with (usb_handle_ctl_ep_setup s).
    apply (sent_step rq o _ 0 s (with_control_request rq (with_response (Some (o, 0)) (Z.min n (wLength rq)) s))); [|lia|lia|].
    + split; [exists []; by rewrite app_nil_r|done|..]; cbn [g_response g_response_len with_response with_control_request];
        replace (Z.min (Z.min n (wLength rq)) (8 * Z.of_nat 0)) with 0 by lia; [done|lia].
    + rewrite (get_descriptor_request rq) by done.
      rewrite prepare_spec by (cbn; lia || done).
      change (wValue (control_request (wr reg_ctrl_ep_ptr 0 (requested rq s)))) with (wValue rq).
      change (wLength (control_request (wr reg_ctrl_ep_ptr 0 (requested rq s)))) with (wLength rq).
      rewrite Ho. replace (Z.min (Z.min n (wLength rq)) (8 * Z.of_nat 0)) with 0 by lia. rewrite Z.sub_0_r.
      apply (stage_send o _ _ _ _ (setup_events ++ [UWr reg_ctrl_ep_ptr 0])); try done; try lia.
      cbn [u_tr wr requested with_u_tr with_response with_control_request with_g_stall]. by rewrite app_assoc.
  - change (transfer (S k) s) with (usb_handle_ctl_ep_data (transfer k s)).
    apply (sent_step rq o _ (S k) s (transfer k s)); [done|lia|lia|].
    apply data_stage; [by rewrite (sn_request _ _ _ _ _ _ IH)..| | |lia|lia|lia]; apply IH.
Qed.
End Control.

(** C37. The host reads a descriptor.  For every request GET_DESCRIPTOR to the device
    in the buffer of endpoint 0: if the descriptor exists, the handler of the
    setup packet and the handlers of the data packets after it send the
    descriptor, cut at the length the host asked for, in packets of at most
    eight bytes, and acknowledge each; after [k] data packets the first
    [8 * (k + 1)] bytes are sent.  If it does not exist, nothing is sent and the
    endpoint is stalled. *)
Theorem usb_get_descriptor_transfer `{UsbRegs} (rq : USB_Request_Header_t) (s : usb) (k : nat) :
  setup_at rq s -> bmRequestType rq = RT_IN_STD_DEVICE -> bRequest rq = REQ_GetDescriptor ->
  match descriptor_of (wValue rq) with
  | Some d => exists t, u_tr (transfer k s) = u_tr s ++ t /\
      data_out t = take (8 * S k) (take (Z.to_nat (wLength rq)) d) /\
      answers t = replicate (S k) FLD_EP_DAT_ACK
  | None => exists t, u_tr (usb_handle_ctl_ep_setup s) = u_tr s ++ t /\
      data_out t = [] /\ answers t = [FLD_EP_DAT_STALL]
  end.
Proof.
  intros Hs Ht Hr. rewrite answered_bytes. destruct (answered_with (wValue rq)) as [[o n]|] eqn:Ho; unfold mbind, option_bind; cbv beta iota.
  - destruct (sn_trace _ _ _ _ _ _ (transfer_sent rq o n s k Hs Ht Hr Ho)) as (t & Et & Hd & Ha).
    exists t. split; [done|]. rewrite Hd. split; [|done]. do 2 f_equal. unfold slice. cbn [fst snd].
    destruct (se_range _ _ Hs) as (_ & _ & _ & _ & Hw). destruct (answered_range _ _ _ Ho) as [Hn _].
    rewrite drop_0, take_take. f_equal. lia.
  - rewrite (get_descriptor_request rq) by done.
    destruct (se_range _ _ Hs) as (_ & _ & Hv & _ & Hw).
    rewrite prepare_spec by (cbn; lia || done).
    change (wValue (control_request (wr reg_ctrl_ep_ptr 0 (requested rq s)))) with (wValue rq). rewrite Ho.
    exists (setup_events ++ [UWr reg_ctrl_ep_ptr 0; UWr reg_ctrl_ep_ptr 0; UWr reg_ctrl_ep_ctrl FLD_EP_DAT_STALL]).
    split; [|done]. transitivity ((((u_tr s ++ setup_events) ++ [UWr reg_ctrl_ep_ptr 0]) ++ [UWr reg_ctrl_ep_ptr 0]) ++
                     [UWr reg_ctrl_ep_ctrl FLD_EP_DAT_STALL]); [done|]. by rewrite <- !app_assoc.
Qed.

(** ** The line settings of the serial port *)

Definition line_bytes (bs : list Z) : CDC_LineEncoding_t :=
  mk_line (byte_at 0 bs + 2 ^ 8 * byte_at 1 bs + 2 ^ 16 * byte_at 2 bs + 2 ^ 24 * byte_at 3 bs)
    (byte_at 4 bs) (byte_at 5 bs) (byte_at 6 bs).

(** The bytes [bs] of a data packet are in the buffer of endpoint 0. *)
Definition packet_at `{UsbRegs} (bs : list Z) (s : usb) : Prop :=
  forall i, (i < length bs)%nat ->
    usb_reg reg_ctrl_ep_dat (u_tr s ++ [UWr reg_ctrl_ep_ptr 0; UWr reg_ctrl_ep_ptr 0] ++ replicate i (URd reg_ctrl_ep_dat)) = byte_at i bs.

Section Line.
Context `{UsbRegs}.
Implicit Type s : usb.

Lemma read32_spec s b0 b1 b2 b3 :
  (forall i, (i < 4)%nat -> usb_reg reg_ctrl_ep_dat (u_tr s ++ replicate i (URd reg_ctrl_ep_dat)) = byte_at i [b0; b1; b2; b3]) ->
  Forall (fun b => 0 <= b < 256) [b0; b1; b2; b3] ->
  usbcdc_read32 s = (b0 + 2 ^ 8 * b1 + 2 ^ 16 * b2 + 2 ^ 24 * b3,
                     with_u_tr (u_tr s ++ replicate 4 (URd reg_ctrl_ep_dat)) s).
Proof.
  intros Hb Hr. rewrite !Forall_cons in Hr. destruct Hr as (? & ? & ? & ? & _).
  pose proof (Hb 0%nat ltac:(lia)) as E0. pose proof (Hb 1%nat ltac:(lia)) as E1.
  pose proof (Hb 2%nat ltac:(lia)) as E2. pose proof (Hb 3%nat ltac:(lia)) as E3.
  rewrite app_nil_r in E0. cbn in E0, E1, E2, E3.
  unfold usbcdc_read32, usbhw_read_ctrl_ep_data, rd. cbn -[u8 Z.pow]. rewrite <- !app_assoc. cbn -[u8 Z.pow].
  rewrite E0, E1, E2, E3, !u8_small by done. f_equal.
  rewrite (Z.lor_comm (Z.shiftl b1 8)), lor_shiftl_add by lia.
  rewrite (Z.lor_comm (Z.shiftl b2 16)), lor_shiftl_add by lia.
  rewrite (Z.lor_comm (Z.shiftl b3 24)), lor_shiftl_add by lia. done.
Qed.

(** The little-endian bytes of a 32-bit number. *)
Lemma word_bytes b0 b1 b2 b3 :
  0 <= b0 < 256 -> 0 <= b1 < 256 -> 0 <= b2 < 256 -> 0 <= b3 < 256 ->
  let v := b0 + 2 ^ 8 * b1 + 2 ^ 16 * b2 + 2 ^ 24 * b3 in
  Z.land v 0xff = b0 /\ Z.land (Z.shiftr v 8) 0xff = b1 /\ Z.land (Z.shiftr v 16) 0xff = b2 /\ Z.land (Z.shiftr v 24) 0xff = b3.
Proof.
  intros ???? v. change 0xff with (Z.ones 8). rewrite !Z.land_ones, !Z.shiftr_div_pow2 by lia. unfold v.
  change (2 ^ 8) with 256. change (2 ^ 16) with 65536. change (2 ^ 24) with 16777216. split_and!; zdm.
Qed.

(** The two requests reach the serial port. *)
Lemma request_line s d :
  (bmRequestType (control_request s) = RT_OUT_CLASS_INTF /\ bRequest (control_request s) = CDC_REQ_SetLineEncoding \/
   bmRequestType (control_request s) = RT_IN_CLASS_INTF /\ bRequest (control_request s) = CDC_REQ_GetLineEncoding) ->
  usb_handle_request d s =
  usbcdc_processControlRequest (bRequest (control_request s)) (wValue (control_request s))
    (wIndex (control_request s)) (wLength (control_request s)) (wr reg_ctrl_ep_ptr 0 s).
Proof.
  intros Hr. unfold usb_handle_request, usb_handle_out_class_intf_req, usb_handle_in_class_intf_req, usbhw_reset_ctrl_ep_ptr.
  change (control_request (wr reg_ctrl_ep_ptr 0 s)) with (control_request s). by destruct Hr as [[-> ->]|[-> ->]].
Qed.

Lemma ctl_answer_line s : LineEncoding (ctl_answer s) = LineEncoding s.
Proof. unfold ctl_answer. by destruct (negb _). Qed.

(** The data stage of SET_LINE_CODING. *)
Lemma set_line_coding s bs :
  bmRequestType (control_request s) = RT_OUT_CLASS_INTF -> bRequest (control_request s) = CDC_REQ_SetLineEncoding ->
  wIndex (control_request s) = ControlInterfaceNumber -> length bs = 7%nat -> Forall (fun b => 0 <= b < 256) bs ->
  packet_at bs s -> LineEncoding (usb_handle_ctl_ep_data s) = line_bytes bs.
Proof.
  intros Ety Ebr Eix Hlen Hbs Hp.
  destruct bs as [|b0 [|b1 [|b2 [|b3 [|b4 [|b5 [|b6 [|]]]]]]]]; try done. clear Hlen.
  rewrite !Forall_cons in Hbs. destruct Hbs as (R0 & R1 & R2 & R3 & R4 & R5 & R6 & _).
  unfold usb_handle_ctl_ep_data, usbhw_reset_ctrl_ep_ptr. cbv zeta. etrans; [apply ctl_answer_line|].
  rewrite request_line by (left; done).
  change (control_request (with_g_stall 0 (wr reg_ctrl_ep_ptr 0 s))) with (control_request s).
  set (s1 := wr reg_ctrl_ep_ptr 0 (with_g_stall 0 (wr reg_ctrl_ep_ptr 0 s))).
  assert (Hs1 : forall i, (i < 7)%nat ->
    usb_reg reg_ctrl_ep_dat (u_tr s1 ++ replicate i (URd reg_ctrl_ep_dat)) = byte_at i [b0; b1; b2; b3; b4; b5; b6]).
  { intros i Hi. rewrite <- (Hp i Hi). unfold s1. cbn [wr u_tr with_u_tr with_g_stall]. by rewrite <- !app_assoc. }
  clearbody s1. unfold usbcdc_processControlRequest. rewrite Ebr, Eix.
  cbv delta [CDC_REQ_SetLineEncoding CDC_REQ_GetLineEncoding] beta. rewrite Z.eqb_refl. cbn [negb Z.eqb Pos.eqb].
  rewrite (read32_spec s1 b0 b1 b2 b3).
  2:{ intros i Hi. rewrite Hs1 by lia. by do 4 (destruct i as [|i]; [done|]); lia. }
  2:{ by repeat (apply Forall_cons; split; [done|]). }
  unfold usbhw_read_ctrl_ep_data, rd. cbv beta iota zeta. cbn [u_tr with_u_tr]. rewrite <- !app_assoc.
  pose proof (Hs1 4%nat ltac:(lia)) as E4. pose proof (Hs1 5%nat ltac:(lia)) as E5. pose proof (Hs1 6%nat ltac:(lia)) as E6.
  cbn [replicate app byte_at nth] in E4, E5, E6 |- *. by rewrite E4, E5, E6, !u8_small by done.
Qed.

(** GET_LINE_CODING. *)
Lemma get_line_coding s bs rq :
  length bs = 7%nat -> Forall (fun b => 0 <= b < 256) bs -> LineEncoding s = line_bytes bs ->
  bmRequestType rq = RT_IN_CLASS_INTF -> bRequest rq = CDC_REQ_GetLineEncoding -> wIndex rq = ControlInterfaceNumber ->
  exists t, u_tr (ctl_answer (usb_handle_request USB_IRQ_SETUP_REQ (requested rq s))) = u_tr s ++ t /\
    data_out t = bs /\ answers t = [FLD_EP_DAT_ACK].
Proof.
  intros Hlen Hbs El Hty Hbr Hix.
  destruct bs as [|b0 [|b1 [|b2 [|b3 [|b4 [|b5 [|b6 [|]]]]]]]]; try done. clear Hlen.
  rewrite !Forall_cons in Hbs. destruct Hbs as (R0 & R1 & R2 & R3 & R4 & R5 & R6 & _).
  rewrite request_line by (right; done). change (control_request (requested rq s)) with rq. rewrite Hbr, Hix.
  unfold usbcdc_processControlRequest. rewrite Z.eqb_refl. cbn [negb]. rewrite Z.eqb_refl.
  destruct (word_bytes b0 b1 b2 b3 R0 R1 R2 R3) as (E0 & E1 & E2 & E3).
  cbn -[u8 Z.land Z.shiftr]. rewrite El. cbn [line_bytes BaudRateBPS CharFormat ParityType DataBits byte_at nth].
  rewrite E0, E1, E2, E3, <- !app_assoc. eexists. split; [reflexivity|].
  cbn -[u8]. rewrite ?u8_small by done. done.
Qed.

(** SET_LINE_CODING stores the seven bytes of its data stage, and GET_LINE_CODING
    sends the same seven bytes back. *)
Theorem usb_line_coding_roundtrip s rq bs :
  control_request s = rq -> bmRequestType rq = RT_OUT_CLASS_INTF -> bRequest rq = CDC_REQ_SetLineEncoding ->
  wIndex rq = ControlInterfaceNumber -> length bs = 7%nat -> Forall (fun b => 0 <= b < 256) bs -> packet_at bs s ->
  LineEncoding (usb_handle_ctl_ep_data s) = line_bytes bs /\
  forall s' rq', LineEncoding s' = LineEncoding (usb_handle_ctl_ep_data s) -> setup_at rq' s' ->
    bmRequestType rq' = RT_IN_CLASS_INTF -> bRequest rq' = CDC_REQ_GetLineEncoding -> wIndex rq' = ControlInterfaceNumber ->
    exists t, u_tr (usb_handle_ctl_ep_setup s') = u_tr s' ++ t /\ data_out t = bs /\ answers t = [FLD_EP_DAT_ACK].
Proof.
  intros Erq Ety Ebr Eix Hlen Hbs Hp.
  assert (Hset : LineEncoding (usb_handle_ctl_ep_data s) = line_bytes bs) by (subst rq; by apply set_line_coding).
  split; [done|]. rewrite Hset. intros s' rq' El Hs Hty Hbr Hix. rewrite (setup_eq rq') by done.
  by apply get_line_coding.
Qed.
End Line.
