(* ===== verification/Hci.v ===== *)
(** * The host interface over USB CDC

    [proj/hci/zbhci.c], [proj/hci/usbCDC/zbhci_usb_cdc.c] and the data path of
    [proj/drivers/usb/app/usbcdc.c], in the build with [ZBHCI_USB_CDC].

    A message travels in a frame [0x55, type, length, check sum, data, 0xAA]
    through an event buffer.  To the host: [usb_cdc_txMsg] fills a buffer and
    hands it to the driver, or to the queue of pending buffers while the driver
    has one; the driver copies it to endpoint 4, 64 bytes at a time.  From the
    host: the driver copies packets of endpoint 5 into the receive buffer; a
    packet of less than 64 bytes, or 20 ms without one, ends the message, and the
    buffer goes to [usbcdc_data_handler] through the task queue.

    Not in the sources and therefore parameters: the USB block ([UsbRegs] of
    [Usb.v]), the task queue and the command handler [hciTestCmdHandler] of the
    binary libraries, whose calls are recorded in the state.

    A function that does not return ([while(1);]) gives [None]; so does the wait
    for the endpoint when it takes more polls than [wait_fuel] allows. *)
From S2P Require Import Prelude Memory Linked ListC SysEv Mempool EvBuffer EvQueue EvTimer TimerIf UsbDesc Usb.

(** ** Constants *)
Definition ZBHCI_MSG_STATUS_ERROR_START_CHAR : Z := 0xE0.
Definition ZBHCI_MSG_STATUS_MSG_OVERFLOW : Z := 0xE1.
Definition ZBHCI_MSG_STATUS_ERROR_END_CHAR : Z := 0xE2.
Definition ZBHCI_MSG_STATUS_UART_EXCEPT : Z := 0xE4.
Definition ZBHCI_MSG_START_FLAG : Z := 0x55.
Definition ZBHCI_MSG_END_FLAG : Z := 0xAA.
Definition ZBHCI_MSG_HDR_LEN : Z := 7.
Definition ZBHCI_CMD_ACKNOWLEDGE : Z := 0x8000.
Definition ZBHCI_TX_SUCCESS : Z := 0.
Definition ZBHCI_TX_FAILED : Z := 3.
Definition ZBHCI_TX_TOO_LONG : Z := 4.
Definition RX_NDATA_LEN : Z := 7.
Definition RX_BUF_LEN : Z := 64.
Definition TX_BUF_LEN : Z := 64.
Definition USB_CDC_SUCCESS : Z := 0.
Definition USB_CDC_BUSY : Z := 1.

(** Where the linker puts the functions whose addresses the code takes. *)
Class HciLinks := {
  fn_usbcdc_rxCb : Z;
  fn_usbcdc_txFinishCb : Z;
  fn_usbcdc_data_handler : Z;
  fn_usbcdc_recvTimeoutCb : Z
}.

(** ** State *)

(** [cdc_ctrl_t] of [usbcdc.h]. *)
Record cdc_ctrl_t := mk_cdc_ctrl {
  rxBuf : Z;
  txBuf : Z;
  timer : Z;
  rxCb : Z;
  txCb : Z;
  lenToSend : Z;
  lastSendIndex : Z;
  lastIndex : Z;
}.

Definition set_rxBuf v s := mk_cdc_ctrl v (txBuf s) (timer s) (rxCb s) (txCb s) (lenToSend s) (lastSendIndex s) (lastIndex s).
Definition set_txBuf v s := mk_cdc_ctrl (rxBuf s) v (timer s) (rxCb s) (txCb s) (lenToSend s) (lastSendIndex s) (lastIndex s).
Definition set_timer v s := mk_cdc_ctrl (rxBuf s) (txBuf s) v (rxCb s) (txCb s) (lenToSend s) (lastSendIndex s) (lastIndex s).
Definition set_rxCb v s := mk_cdc_ctrl (rxBuf s) (txBuf s) (timer s) v (txCb s) (lenToSend s) (lastSendIndex s) (lastIndex s).
Definition set_txCb v s := mk_cdc_ctrl (rxBuf s) (txBuf s) (timer s) (rxCb s) v (lenToSend s) (lastSendIndex s) (lastIndex s).
Definition set_lenToSend v s := mk_cdc_ctrl (rxBuf s) (txBuf s) (timer s) (rxCb s) (txCb s) v (lastSendIndex s) (lastIndex s).
Definition set_lastSendIndex v s := mk_cdc_ctrl (rxBuf s) (txBuf s) (timer s) (rxCb s) (txCb s) (lenToSend s) v (lastIndex s).
Definition set_lastIndex v s := mk_cdc_ctrl (rxBuf s) (txBuf s) (timer s) (rxCb s) (txCb s) (lenToSend s) (lastSendIndex s) v.


(** [usbcdc_txBuf_t]: a 16-bit length, then the data. *)
Definition txBuf_len (m : mem) (p : Z) : Z := load8 m p + 2 ^ 8 * load8 m (p + 1).
Definition txBuf_data (p : Z) : Z := p + 2.

(** ** zbhci.c *)

(** The exclusive or of the bytes of the type, of the length and of the data
    ([data]: the bytes behind the pointer). *)
Definition crc8Calculate (type length : Z) (data : list Z) : Z :=
  let crc8 := Z.land (Z.shiftr type 0) 0xff in
  let crc8 := Z.lxor crc8 (Z.land (Z.shiftr type 8) 0xff) in
  let crc8 := Z.lxor crc8 (Z.land (Z.shiftr length 0) 0xff) in
  let crc8 := Z.lxor crc8 (Z.land (Z.shiftr length 8) 0xff) in
  fold_left (fun crc n => Z.lxor crc (nth n data 0)) (seq 0 (Z.to_nat length)) crc8.

(** The bytes [usb_cdc_txMsg] and [usb_print_txMsg] store one after the other. *)
Definition frame (type length : Z) (data : list Z) : list Z :=
  [ZBHCI_MSG_START_FLAG; Z.land (Z.shiftr type 8) 0xff; Z.land (Z.shiftr type 0) 0xff;
   Z.land (Z.shiftr length 8) 0xff; Z.land (Z.shiftr length 0) 0xff; crc8Calculate type length data] ++
  ((fun n => nth n data 0) <$> seq 0 (Z.to_nat length)) ++ [ZBHCI_MSG_END_FLAG].

Section State.
Context {T : Type}.

Record hci := mk_hci {
  h_usb : usb;
  cdc_v : cdc_ctrl_t;
  usbcdc_txPendingQ : ev_queue_t;
  h_buf : buf_state;    (** memory, processor, event buffers *)
  h_tm : T;    (** software timers *)
  h_tasks : list (Z * Z);    (** scheduled tasks: function and argument, oldest first *)
  h_cmds : list (Z * Z * list Z);    (** calls of [hciTestCmdHandler]: type, length, data *)
}.

Definition with_h_usb v s := mk_hci v (cdc_v s) (usbcdc_txPendingQ s) (h_buf s) (h_tm s) (h_tasks s) (h_cmds s).
Definition with_cdc_v v s := mk_hci (h_usb s) v (usbcdc_txPendingQ s) (h_buf s) (h_tm s) (h_tasks s) (h_cmds s).
Definition with_usbcdc_txPendingQ v s := mk_hci (h_usb s) (cdc_v s) v (h_buf s) (h_tm s) (h_tasks s) (h_cmds s).
Definition with_h_buf v s := mk_hci (h_usb s) (cdc_v s) (usbcdc_txPendingQ s) v (h_tm s) (h_tasks s) (h_cmds s).
Definition with_h_tm v s := mk_hci (h_usb s) (cdc_v s) (usbcdc_txPendingQ s) (h_buf s) v (h_tasks s) (h_cmds s).
Definition with_h_tasks v s := mk_hci (h_usb s) (cdc_v s) (usbcdc_txPendingQ s) (h_buf s) (h_tm s) v (h_cmds s).
Definition with_h_cmds v s := mk_hci (h_usb s) (cdc_v s) (usbcdc_txPendingQ s) (h_buf s) (h_tm s) (h_tasks s) v.

End State.
Arguments hci : clear implicits.

Section Ops.
Context `{UsbRegs, EvLayout, PriFuncs, HciLinks} {T : Type} `{TimerSvc T} (wait_fuel : nat).
Implicit Type s : hci T.

Definition h_mem s : mem := b_mem (h_buf s).
Definition with_h_mem (m : mem) s : hci T := with_h_buf (with_cpu (with_mem m (b_cpu (h_buf s))) (h_buf s)) s.
Definition on_usb (f : usb -> usb) s : hci T := with_h_usb (f (h_usb s)) s.
Definition ask_usb (f : usb -> Z * usb) s : Z * hci T := let '(v, u) := f (h_usb s) in (v, with_h_usb u s).
Definition on_cdc (f : cdc_ctrl_t -> cdc_ctrl_t) s : hci T := with_cdc_v (f (cdc_v s)) s.

(** [TL_SCHEDULE_TASK(f, arg)] *)
Definition TL_SCHEDULE_TASK (f arg : Z) s : hci T := with_h_tasks (h_tasks s ++ [(f, arg)]) s.

Definition buf_allocate (sz : Z) s : Z * hci T :=
  let '(p, b) := ev_buf_allocate sz (h_buf s) in (p, with_h_buf b s).
Definition buf_free (p : Z) s : option (hci T) :=
  '(_, b) ← ev_buf_free p (h_buf s); Some (with_h_buf b s).

(** ** usbcdc.c *)

Definition usbcdc_isAvailable s : bool := txBuf (cdc_v s) =? 0.

Definition usbcdc_isTxBusy s : Z * hci T := ask_usb (usbhw_is_ep_busy CDC_TX_EPNUM) s.

Definition usbcdc_init s : hci T := on_cdc (set_lastIndex 0) (on_usb usbcdc_init_line s).

Definition usbcdc_setRxBuf (buf : Z) s : hci T := on_cdc (set_rxBuf buf) s.

Definition usbcdc_setCb (rxFunc txFunc : Z) s : hci T := on_cdc (fun c => set_txCb txFunc (set_rxCb rxFunc c)) s.

(** [while(usbhw_is_ep_busy(CDC_TX_EPNUM)){ if(t++ > 10000) reg_usb_ep_ctrl &= 0xfe; }] *)
Fixpoint wait_tx (n : nat) (t : Z) (u : usb) : option usb :=
  match n with
  | O => None
  | S n' =>
      let '(busy, u) := usbhw_is_ep_busy CDC_TX_EPNUM u in
      if busy =? 0 then Some u
      else
        let u := if 10000 <? t then
                   let '(c, u) := rd (reg_usb_ep_ctrl CDC_TX_EPNUM) u in
                   wr (reg_usb_ep_ctrl CDC_TX_EPNUM) (Z.land c 0xfe) u
                 else u in
        wait_tx n' (u16 (t + 1)) u
  end.

(** [foreach(i, len) reg_usb_ep_dat(CDC_TX_EPNUM) = txBuf->data[lastSendIndex++];] *)
Fixpoint write_fifo (n : nat) s : hci T :=
  match n with
  | O => s
  | S n' =>
      let b := load8 (h_mem s) (txBuf_data (txBuf (cdc_v s)) + lastSendIndex (cdc_v s)) in
      let s := on_usb (wr (reg_usb_ep_dat CDC_TX_EPNUM) b) s in
      let s := on_cdc (set_lastSendIndex (u16 (lastSendIndex (cdc_v s) + 1))) s in
      write_fifo n' s
  end.

(** [for(i = 0; i < len; i++) rxBuf[lastIndex++] = usbhw_read_ep_data(CDC_RX_EPNUM);] *)
Fixpoint read_fifo (n : nat) s : hci T :=
  match n with
  | O => s
  | S n' =>
      let '(b, s) := ask_usb (usbhw_read_ep_data CDC_RX_EPNUM) s in
      let s := with_h_mem (store8 (h_mem s) (rxBuf (cdc_v s) + lastIndex (cdc_v s)) b) s in
      let s := on_cdc (set_lastIndex (u8 (lastIndex (cdc_v s) + 1))) s in
      read_fifo n' s
  end.

(** The callbacks run through function pointers: [call_tx] is what calling the
    address in [txCb] does. *)
Section Callbacks.
Variable call_tx : Z -> Z -> hci T -> option (hci T).

Definition usbcdc_sendBulkData s : option (Z * hci T) :=
  let '(busy, s) := ask_usb (usbhw_is_ep_busy CDC_TX_EPNUM) s in
  if negb (busy =? 0) then Some (0, s)
  else
    let len := if CDC_TXRX_EPSIZE <? lenToSend (cdc_v s) then CDC_TXRX_EPSIZE else lenToSend (cdc_v s) in
    let s := on_cdc (set_lenToSend (u16 (lenToSend (cdc_v s) - len))) s in
    if len =? 0 then Some (0, s)
    else
      let s := on_usb (wr (reg_usb_ep_ptr CDC_TX_EPNUM) 0) s in
      let s := write_fifo (Z.to_nat len) s in
      let s := on_usb (wr (reg_usb_ep_ctrl CDC_TX_EPNUM) FLD_EP_DAT_ACK) s in
      u ← wait_tx wait_fuel 0 (h_usb s);
      let s := with_h_usb u s in
      s ← (if lenToSend (cdc_v s) =? 0 then
             let s := on_cdc (fun c => set_lastSendIndex 0 (set_lenToSend 0 c)) s in
             s ← (if negb (txCb (cdc_v s) =? 0) then call_tx (txCb (cdc_v s)) (txBuf (cdc_v s)) s else Some s);
             Some (on_cdc (set_txBuf 0) s)
           else Some s);
      Some (u8 len, s).

Definition usbcdc_sendData (buf : Z) s : option (Z * hci T) :=
  if negb (txBuf (cdc_v s) =? 0) then Some (USB_CDC_BUSY, s)
  else
    let s := on_cdc (set_lenToSend (txBuf_len (h_mem s) buf)) s in
    let s := on_cdc (fun c => set_lastSendIndex 0 (set_txBuf buf c)) s in
    '(_, s) ← usbcdc_sendBulkData s;
    let s := on_usb (usbhw_data_ep_ack CDC_RX_EPNUM) s in
    Some (USB_CDC_SUCCESS, s).

(** zbhci_usb_cdc.c *)
Definition usb_cdc_send (pTxBuf : Z) s : option (hci T) :=
  if usbcdc_isAvailable s then '(_, s) ← usbcdc_sendData pTxBuf s; Some s
  else
    '(_, q, c) ← ev_queue_push wait_fuel (Some (usbcdc_txPendingQ s)) pTxBuf (b_cpu (h_buf s));
    Some (with_usbcdc_txPendingQ (default (usbcdc_txPendingQ s) q) (with_h_buf (with_cpu c (h_buf s)) s)).

Definition usbcdc_txFinishCb (pData : Z) s : option (hci T) :=
  s ← buf_free pData s;
  if negb (curNum (usbcdc_txPendingQ s) =? 0) then
    let '(pTxBuf, q, c) := ev_queue_pop (usbcdc_txPendingQ s) (b_cpu (h_buf s)) in
    let s := with_usbcdc_txPendingQ q (with_h_buf (with_cpu c (h_buf s)) s) in
    usb_cdc_send pTxBuf s
  else Some s.
End Callbacks.

(** The only function registered for [txCb]. *)
Fixpoint call_txCb (depth : nat) (cb pData : Z) s : option (hci T) :=
  match depth with
  | O => None
  | S d => if cb =? fn_usbcdc_txFinishCb then usbcdc_txFinishCb (call_txCb d) pData s else None
  end.

(** A finished transmission hands its buffer to the callback, and the callback
    starts no transmission: two calls are enough. *)
Definition call_tx : Z -> Z -> hci T -> option (hci T) := call_txCb 2.

Definition usb_cdc_txMsg (u16Type u16Length : Z) (pu8Data : list Z) s : option (Z * hci T) :=
  if TX_BUF_LEN <? u16Length then Some (ZBHCI_TX_TOO_LONG, s)
  else
    let '(pTxBuf, s) := buf_allocate (2 + u16Length + 7) s in
    if pTxBuf =? 0 then Some (ZBHCI_TX_FAILED, s)
    else
      let len := u16 (u16Length + 7) in
      let s := with_h_mem (store_bytes (h_mem s) pTxBuf [u8 len; u8 (len / 2 ^ 8)]) s in
      let s := with_h_mem (store_bytes (h_mem s) (txBuf_data pTxBuf) (frame u16Type u16Length pu8Data)) s in
      s ← usb_cdc_send call_tx pTxBuf s;
      Some (ZBHCI_TX_SUCCESS, s).

(** zbhci.c, [ZBHCI_USB_CDC]. *)
Definition zbhciTx (u16Type u16Length : Z) (pu8Data : list Z) s : option (Z * hci T) :=
  usb_cdc_txMsg u16Type u16Length pu8Data s.

(** ** Reception *)

Definition usbcdc_rxCb (pData : Z) s : option (hci T) :=
  let s := TL_SCHEDULE_TASK fn_usbcdc_data_handler pData s in
  let '(pBuf, s) := buf_allocate RX_BUF_LEN s in
  if pBuf =? 0 then None
  else
    let s := with_h_mem (store_bytes (h_mem s) pBuf (replicate 64 0)) s in
    Some (usbcdc_setRxBuf pBuf s).

(** The only function registered for [rxCb]. *)
Definition call_rxCb (cb pData : Z) s : option (hci T) :=
  if cb =? 0 then Some s
  else if cb =? fn_usbcdc_rxCb then usbcdc_rxCb pData s else None.

Definition usbcdc_recvTimeoutCb s : option (Z * hci T) :=
  let s := on_cdc (set_lastIndex 0) s in
  let p := rxBuf (cdc_v s) in
  let s := on_cdc (set_rxBuf 0) s in
  s ← call_rxCb (rxCb (cdc_v s)) p s;
  Some (-1, on_cdc (set_timer 0) s).

Definition usbcdc_recvData s : option (hci T) :=
  if rxBuf (cdc_v s) =? 0 then None
  else
    let s := if negb (timer (cdc_v s) =? 0) then
               let '(p, t) := tmr_cancel (timer (cdc_v s)) (h_tm s) in
               on_cdc (set_timer p) (with_h_tm t s)
             else s in
    let '(len, s) := ask_usb (rd (reg_usb_ep_ptr (Z.land CDC_RX_EPNUM 7))) s in
    let fEnd := negb (len =? CDC_TXRX_EPSIZE) in
    let s := on_usb (usbhw_reset_ep_ptr CDC_RX_EPNUM) s in
    let s := read_fifo (Z.to_nat len) s in
    if fEnd then
      let s := on_cdc (set_lastIndex 0) s in
      let p := rxBuf (cdc_v s) in
      let s := on_cdc (set_rxBuf 0) s in
      call_rxCb (rxCb (cdc_v s)) p s
    else
      let '(p, t) := tmr_post fn_usbcdc_recvTimeoutCb 0 20 (h_tm s) in
      Some (on_cdc (set_timer p) (with_h_tm t s)).

Definition usbWriteByte (byte : Z) s : option (Z * hci T) :=
  let '(busy, s) := ask_usb (usbhw_is_ep_busy CDC_TX_EPNUM) s in
  if negb (busy =? 0) then Some (0, s)
  else
    let s := on_usb (wr (reg_usb_ep_ptr CDC_TX_EPNUM) 0) s in
    let s := on_usb (wr (reg_usb_ep_dat CDC_TX_EPNUM) (u8 byte)) s in
    let s := on_usb (wr (reg_usb_ep_ctrl CDC_TX_EPNUM) FLD_EP_DAT_ACK) s in
    u ← wait_tx wait_fuel 0 (h_usb s);
    Some (1, with_h_usb u s).

Definition usbcdc_dataHandler s : option (hci T) :=
  let '(irq, s) := ask_usb usbhw_get_eps_irq s in
  let rx := Z.shiftl 1 (Z.land CDC_RX_EPNUM 7) in
  let tx := Z.shiftl 1 (Z.land CDC_TX_EPNUM 7) in
  s ← (if negb (Z.land irq rx =? 0) then
         let s := on_usb (usbhw_clr_eps_irq rx) s in
         s ← usbcdc_recvData s;
         Some (on_usb (usbhw_data_ep_ack CDC_RX_EPNUM) s)
       else Some s);
  if negb (Z.land irq tx =? 0) then
    let s := on_usb (usbhw_clr_eps_irq tx) s in
    '(n, s) ← usbcdc_sendBulkData call_tx s;
    if negb (n =? 0) then Some (on_usb (usbhw_data_ep_ack CDC_RX_EPNUM) s) else Some s
  else Some s.

(** usb.c: [usb_handle_irq], and zbhci.c: [zbhciTask], in this build. *)
Definition usb_handle_irq s : option (hci T) := usbcdc_dataHandler (on_usb handle_ctrl_irq s).
Definition zbhciTask s : option (hci T) := usb_handle_irq s.

(** ** zbhci_usb_cdc.c: the handler of received messages *)

(** The check of a received buffer: a status, 0 when the frame is accepted. *)
Definition check_message (m : mem) (arg : Z) : Z :=
  let len := u8 (Z.lor (Z.shiftl (load8 m (arg + 3)) 8) (load8 m (arg + 4)) + RX_NDATA_LEN) in
  let endChar := load8 m (arg + len - 1) in
  if load8 m arg =? ZBHCI_MSG_START_FLAG then
    let pktLen := Z.lor (Z.shiftl (load8 m (arg + 3)) 8) (load8 m (arg + 4)) in
    if pktLen + ZBHCI_MSG_HDR_LEN <? RX_BUF_LEN then
      if negb (endChar =? ZBHCI_MSG_END_FLAG) then ZBHCI_MSG_STATUS_ERROR_END_CHAR else 0
    else ZBHCI_MSG_STATUS_MSG_OVERFLOW
  else ZBHCI_MSG_STATUS_ERROR_START_CHAR.

Definition usbcdc_data_handler (arg : Z) s : option (hci T) :=
  let m := h_mem s in
  let st := check_message m arg in
  let pktLen := Z.lor (Z.shiftl (load8 m (arg + 3)) 8) (load8 m (arg + 4)) in
  let msgType := u16 (Z.shiftl (load8 m (arg + 1)) 8 + load8 m (arg + 2)) in
  s ← (if st =? 0 then
         Some (with_h_cmds (h_cmds s ++ [(msgType, pktLen, load_bytes m (arg + 6) (Z.to_nat pktLen))]) s)
       else
         let s := if (st =? ZBHCI_MSG_STATUS_UART_EXCEPT) || (st =? ZBHCI_MSG_STATUS_MSG_OVERFLOW)
                     || (st =? ZBHCI_MSG_STATUS_ERROR_START_CHAR)
                  then with_h_mem (store8 (store8 (h_mem s) (arg + 1) 0xff) (arg + 2) 0xff) s else s in
         let ret := [load8 (h_mem s) (arg + 1); load8 (h_mem s) (arg + 2); st; 0] in
         '(_, s) ← zbhciTx ZBHCI_CMD_ACKNOWLEDGE 4 ret s; Some s);
  buf_free arg s.

(** The task queue runs its oldest task and drops it. *)
Definition run_task s : option (hci T) :=
  match h_tasks s with
  | [] => Some s
  | (f, arg) :: _ =>
      s ← (if f =? fn_usbcdc_data_handler then usbcdc_data_handler arg s else None);
      Some (with_h_tasks (drop 1 (h_tasks s)) s)
  end.

(** ** Initialisation *)

Definition usb_cdc_init s : option (hci T) :=
  let s := usbcdc_init s in
  let s := usbcdc_setCb fn_usbcdc_rxCb fn_usbcdc_txFinishCb s in
  let '(pBuf, s) := buf_allocate RX_BUF_LEN s in
  if pBuf =? 0 then None
  else
    let s := with_h_mem (store_bytes (h_mem s) pBuf (replicate 64 0)) s in
    let s := usbcdc_setRxBuf pBuf s in
    let '(_, q) := ev_queue_init (Some (usbcdc_txPendingQ s)) 0 in
    Some (with_usbcdc_txPendingQ (default (usbcdc_txPendingQ s) q) s).

(** The pins ([HW_USB_CFG], a macro of the board) apart. *)
Definition zbhciInit s : option (hci T) :=
  s ← usb_cdc_init s; Some (on_usb usb_init s).

(** ** Runs *)

(** What can happen: a message to send, the poll of the main loop, a scheduled
    task, the receive timer. *)
Inductive hci_op := OpTx (type length : Z) (data : list Z) | OpPoll | OpTask | OpTimeout.

Definition hci_step (op : hci_op) s : option (hci T) :=
  match op with
  | OpTx t n d => '(_, s) ← zbhciTx t n d s; Some s
  | OpPoll => zbhciTask s
  | OpTask => run_task s
  | OpTimeout => '(_, s) ← usbcdc_recvTimeoutCb s; Some s
  end.

Fixpoint hci_run (ops : list hci_op) s : option (hci T) :=
  match ops with
  | [] => Some s
  | op :: ops' => s' ← hci_step op s; hci_run ops' s'
  end.
End Ops.

(** ** proj/hci/usbPrint/hci_usbPrint.c

    The same frames through two buffers in memory that a tool on the host
    reads and writes over the debug interface. *)
Section Print.
Implicit Type m : mem.

(** [usb_print_outbuf] at [out]: no bound on the length. *)
Definition usb_print_txMsg (out u16Type u16Length : Z) (pu8Data : list Z) m : Z * mem :=
  (ZBHCI_TX_SUCCESS, store_bytes m out (frame u16Type u16Length pu8Data)).

(** [usb_print_task], with [MAC_PHY_TEST_ENABLE]: the command handed on, if any. *)
Definition usb_print_task (inbuf : Z) m : option (Z * Z * Z) * mem :=
  if load8 m inbuf =? ZBHCI_MSG_START_FLAG then
    let pktLen := u16 (Z.shiftl (load8 m (inbuf + 3)) 8 + load8 m (inbuf + 4)) in
    let msgType := u16 (Z.shiftl (load8 m (inbuf + 1)) 8 + load8 m (inbuf + 2)) in
    (Some (msgType, pktLen, inbuf + 6), store8 m inbuf 0)
  else (None, m).
End Print.
