(* ===== verification/HciInv.v ===== *)
(** * The invariant of the host interface

    Which event buffers the interface holds (one to receive into, the one being
    sent, the pending ones, the received ones waiting for their task), what is in
    them, and what went over the wire.  Every operation keeps it. *)
From S2P Require Import Prelude Memory Linked ListC SysEv Mempool EvBuffer BufClient EvQueue BufQueue EvTimer TimerIf UsbDesc Usb UsbProps Hci.

(** ** The endpoint to the host *)

(** The bytes written to the buffer of the endpoint. *)
Definition fifo_out (t : list uev) : list Z :=
  omap (fun e => match e with UWr a v => if a =? reg_usb_ep_dat CDC_TX_EPNUM then Some v else None | _ => None end) t.

Lemma fifo_out_app t t' : fifo_out (t ++ t') = fifo_out t ++ fifo_out t'.
Proof. apply omap_app. Qed.

Lemma fifo_out_writes l : fifo_out (UWr (reg_usb_ep_dat CDC_TX_EPNUM) <$> l) = l.
Proof.
  induction l as [|b l IH]; [done|]. unfold fifo_out in *. cbn [fmap list_fmap omap list_omap].
  rewrite Z.eqb_refl. by f_equal.
Qed.

(** [u'] is [u] after accesses that put nothing on the wire. *)
Definition silent (u u' : usb) : Prop := exists t, u_tr u' = u_tr u ++ t /\ fifo_out t = [].

Lemma silent_refl u : silent u u.
Proof. exists []. by rewrite app_nil_r. Qed.
Lemma silent_trans u1 u2 u3 : silent u1 u2 -> silent u2 u3 -> silent u1 u3.
Proof.
  intros (t1 & E1 & F1) (t2 & E2 & F2). exists (t1 ++ t2). by rewrite E2, E1, app_assoc, fifo_out_app, F1, F2.
Qed.

Lemma silent_wire u u' : silent u u' -> fifo_out (u_tr u') = fifo_out (u_tr u).
Proof. intros (t & -> & Ht). by rewrite fifo_out_app, Ht, app_nil_r. Qed.

Create HintDb silent.
#[export] Hint Resolve silent_refl : silent.

Section Usb.
Context `{UsbRegs}.
Implicit Type u : usb.

Lemma silent_wr u a v : (a =? reg_usb_ep_dat CDC_TX_EPNUM) = false -> silent u (wr a v u).
Proof. intros Ha. eexists. split; [done|]. cbn [fifo_out omap list_omap]. by rewrite Ha. Qed.
Lemma silent_rd u a : silent u (rd a u).2.
Proof. by eexists. Qed.

Lemma is_ep_busy_silent ep u : silent u (usbhw_is_ep_busy ep u).2.
Proof. by eexists. Qed.

(** [while(busy)]: the wait ends, because from its 10002nd turn on it clears the
    flag itself; it only reads and writes the control register. *)
Class EpLaws := busy_cleared tr v :
  Z.land v 1 = 0 -> Z.land (usb_reg (reg_usb_ep_ctrl CDC_TX_EPNUM) (tr ++ [UWr (reg_usb_ep_ctrl CDC_TX_EPNUM) v])) 1 = 0.

Lemma land_u8_1 x : Z.land (u8 x) 1 = Z.land x 1.
Proof.
  change 1 with (Z.ones 1). rewrite !Z.land_ones by lia. unfold u8. change (2 ^ 1) with 2. change (2 ^ 8) with 256. zdm.
Qed.

Lemma wait_tx_silent n t u u' : wait_tx n t u = Some u' -> silent u u'.
Proof.
  revert t u. induction n as [|n IH]; intros t u E; [done|]. cbn [wait_tx] in E.
  unfold usbhw_is_ep_busy, rd in E. cbn [fst snd] in E.
  destruct (_ =? 0) in E; [injection E as <-; by eexists|].
  apply IH in E. eapply silent_trans; [|exact E]. destruct (10000 <? t); [|by eexists].
  eexists. cbn. rewrite <- !app_assoc. split; [reflexivity|done].
Qed.

Lemma wait_tx_ends `{!EpLaws} n t u :
  0 <= t <= 10001 -> 10003 <= Z.of_nat n + t -> exists u', wait_tx n t u = Some u'.
Proof.
  revert t u. induction n as [|n IH]; intros t u Ht Hn; [lia|]. cbn [wait_tx].
  unfold usbhw_is_ep_busy, rd. cbn [fst snd].
  destruct (_ =? 0); [by eexists|]. rewrite u16_small by lia.
  destruct (Z.ltb_spec 10000 t).
  - destruct n as [|n]; [lia|]. cbn [wait_tx]. unfold usbhw_is_ep_busy, rd, wr. cbn [fst snd u_tr with_u_tr].
    unfold FLD_USB_EP_BUSY. rewrite land_u8_1, busy_cleared; [by eexists|].
    rewrite <- Z.land_assoc. apply Z.land_0_r.
  - apply IH; lia.
Qed.

(** The control endpoint does not touch the others. *)
Definition ctrl_event (e : uev) : Prop :=
  match e with UWr a _ => 0x100 <= a <= 0x103 | _ => True end.
Definition ctrl_only u u' : Prop := exists t, u_tr u' = u_tr u ++ t /\ Forall ctrl_event t.

Lemma ctrl_refl u u' : u_tr u' = u_tr u -> ctrl_only u u'.
Proof. intros E. exists []. by rewrite app_nil_r. Qed.
Lemma ctrl_trans u1 u2 u3 : ctrl_only u1 u2 -> ctrl_only u2 u3 -> ctrl_only u1 u3.
Proof.
  intros (t1 & E1 & F1) (t2 & E2 & F2). exists (t1 ++ t2).
  rewrite E2, E1, app_assoc. split; [done|]. by apply Forall_app.
Qed.
Lemma ctrl_wr u a v : 0x100 <= a <= 0x103 -> ctrl_only u (wr a v u).
Proof. intros Ha. eexists. split; [done|]. by constructor. Qed.
Lemma ctrl_rd u a : ctrl_only u (rd a u).2.
Proof. eexists. split; [done|]. by constructor. Qed.

Lemma ctrl_silent u u' : ctrl_only u u' -> silent u u'.
Proof.
  intros (t & E & F). exists t. split; [done|]. clear E. induction F as [|e t He _ IH]; [done|].
  cbn [fifo_out omap list_omap]. destruct e as [a v|a| |m]; try done.
  change (reg_usb_ep_dat CDC_TX_EPNUM) with 0x11c. cbn [ctrl_event] in He. cmp_false (a =? 0x11c). done.
Qed.

Lemma ctrl_with u0 u u' : ctrl_only u0 u -> u_tr u' = u_tr u -> ctrl_only u0 u'.
Proof. intros Hc E. eapply ctrl_trans; [exact Hc|]. by apply ctrl_refl. Qed.
Lemma ctrl_ev u0 u u' e : ctrl_only u0 u -> u_tr u' = u_tr u ++ [e] -> ctrl_event e -> ctrl_only u0 u'.
Proof. intros Hc E He. eapply ctrl_trans; [exact Hc|]. exists [e]. split; [done|]. by constructor. Qed.

(** Peels the last access off. *)
Ltac ctrl_peel :=
  cbv beta zeta;
  lazymatch goal with
  | |- ctrl_only ?u ?u => by apply ctrl_refl
  | |- ctrl_only _ (if ?b then _ else _) => destruct b
  | |- ctrl_only _ (let '(_, _) := ?x in _) => unfold x || (let E := fresh in destruct x eqn:E)
  | |- ctrl_only _ (wr _ _ ?u) => eapply (ctrl_ev _ u); [|reflexivity|cbn; unfold reg_ctrl_ep_ptr, reg_ctrl_ep_dat, reg_ctrl_ep_ctrl, reg_ctrl_ep_irq_sta; lia]
  | |- ctrl_only _ (with_u_tr (u_tr ?u ++ [?e]) ?u) => apply (ctrl_ev _ u _ e); [|reflexivity|exact I]
  | |- ctrl_only _ (with_control_request _ ?u) => apply (ctrl_with _ u); [|reflexivity]
  | |- ctrl_only _ (with_response _ _ ?u) => apply (ctrl_with _ u); [|reflexivity]
  | |- ctrl_only _ (with_g_stall _ ?u) => apply (ctrl_with _ u); [|reflexivity]
  | |- ctrl_only _ (with_g_rate _ ?u) => apply (ctrl_with _ u); [|reflexivity]
  | |- ctrl_only _ (with_mouse_proto _ ?u) => apply (ctrl_with _ u); [|reflexivity]
  | |- ctrl_only _ (with_keyboard_status _ ?u) => apply (ctrl_with _ u); [|reflexivity]
  | |- ctrl_only _ (with_LineEncoding _ ?u) => apply (ctrl_with _ u); [|reflexivity]
  | |- ctrl_only _ (with_HostToDevice _ ?u) => apply (ctrl_with _ u); [|reflexivity]
  end.

Lemma ctrl_send_bytes u0 n u : ctrl_only u0 u -> ctrl_only u0 (send_bytes n u).
Proof.
  revert u. induction n as [|n IH]; intros u Hu; [done|]. cbn [send_bytes]. apply IH.
  unfold usbhw_write_ctrl_ep_data. by repeat ctrl_peel.
Qed.

Lemma ctrl_send_response u0 u : ctrl_only u0 u -> ctrl_only u0 (usb_send_response u).
Proof.
  intros Hu. unfold usb_send_response, usbhw_reset_ctrl_ep_ptr. cbv zeta. apply ctrl_send_bytes. by repeat ctrl_peel.
Qed.

Lemma ctrl_process u0 r v i l u : ctrl_only u0 u -> ctrl_only u0 (usbcdc_processControlRequest r v i l u).
Proof.
  intros Hu. unfold usbcdc_processControlRequest, usbcdc_write32, usbcdc_read32, usbhw_write_ctrl_ep_data, usbhw_read_ctrl_ep_data, rd.
  cbn beta iota zeta. by repeat ctrl_peel.
Qed.

Lemma ctrl_request u0 d u : ctrl_only u0 u -> ctrl_only u0 (usb_handle_request d u).
Proof.
  intros Hu. unfold usb_handle_request. cbv zeta.
  assert (Hr : ctrl_only u0 (usbhw_reset_ctrl_ep_ptr u)) by (unfold usbhw_reset_ctrl_ep_ptr; by repeat ctrl_peel).
  set (v := usbhw_reset_ctrl_ep_ptr u) in *. clearbody v.
  repeat lazymatch goal with |- ctrl_only _ (if ?b then _ else _) => destruct b end;
    try (apply ctrl_send_response); try done;
    unfold usb_prepare_desc_data, prepare_response, usb_handle_std_intf_req, clamp_response, usb_handle_out_class_intf_req,
      usb_handle_in_class_intf_req, usbhw_write_ctrl_ep_data, usbhw_read_ctrl_ep_data, rd; cbn beta iota zeta;
    repeat first [apply ctrl_process | ctrl_peel]; done.
Qed.

(** [u8 usb_is_irq_reset(void)]: the flag is bit 17. *)
Lemma irq_reset_zero u : (usb_is_irq_reset u).1 = 0.
Proof.
  unfold usb_is_irq_reset, rd32. cbn [fst]. unfold u8, FLD_IRQ_USB_RST_EN.
  rewrite <- Z.land_ones by lia. rewrite <- Z.land_assoc. apply Z.land_0_r.
Qed.

Lemma ctrl_handle u0 u : ctrl_only u0 u -> ctrl_only u0 (handle_ctrl_irq u).
Proof.
  intros Hu. unfold handle_ctrl_irq.
  destruct (usbhw_get_ctrl_ep_irq u) as [irq u1] eqn:E1.
  assert (H1 : ctrl_only u0 u1) by (injection E1 as _ <-; by repeat ctrl_peel). clear E1 Hu.
  set (u2 := if negb (Z.land irq FLD_CTRL_EP_IRQ_SETUP =? 0) then _ else _).
  assert (H2 : ctrl_only u0 u2).
  { unfold u2, usb_handle_ctl_ep_setup, usbhw_reset_ctrl_ep_ptr, usbhw_clr_ctrl_ep_irq, usbhw_write_ctrl_ep_ctrl,
      usbhw_read_ctrl_ep_data, usbhw_read_ctrl_ep_u16, rd. cbn beta iota zeta.
    repeat first [apply ctrl_request | ctrl_peel]; done. }
  clearbody u2. clear H1.
  set (u3 := if negb (Z.land irq FLD_CTRL_EP_IRQ_DATA =? 0) then _ else _).
  assert (H3 : ctrl_only u0 u3).
  { unfold u3, usb_handle_ctl_ep_data, usbhw_reset_ctrl_ep_ptr, usbhw_clr_ctrl_ep_irq, usbhw_write_ctrl_ep_ctrl.
    cbn beta iota zeta. repeat first [apply ctrl_request | ctrl_peel]; done. }
  clearbody u3. clear H2.
  set (u4 := if negb (Z.land irq FLD_CTRL_EP_IRQ_STA =? 0) then _ else _).
  assert (H4 : ctrl_only u0 u4).
  { unfold u4, usb_handle_ctl_ep_status, usbhw_clr_ctrl_ep_irq, usbhw_write_ctrl_ep_ctrl.
    cbn beta iota zeta. repeat ctrl_peel; done. }
  clearbody u4. clear H3.
  pose proof (irq_reset_zero u4) as Hz. unfold usb_is_irq_reset, rd32 in *. cbn beta iota zeta. cbn [fst] in Hz.
  rewrite Hz. cbn [Z.eqb negb]. by repeat ctrl_peel.
Qed.
End Usb.

(** ** Messages in memory *)

(** A part of a block of bytes. *)
Lemma load_bytes_part m a n i k :
  (i + k <= n)%nat -> take k (drop i (load_bytes m a n)) = load_bytes m (a + Z.of_nat i) k.
Proof.
  intros Hn. replace n with (i + (k + (n - i - k)))%nat by lia.
  rewrite !load_bytes_app, drop_app_length', take_app_length'; rewrite ?length_load_bytes; done.
Qed.

(** The buffer [p] holds the message [bs] behind its length. *)
Definition msg_at (m : mem) (p : Z) (bs : list Z) : Prop :=
  txBuf_len m p = Z.of_nat (length bs) /\ load_bytes m (txBuf_data p) (length bs) = bs.

Lemma msg_at_ext m m' p bs :
  msg_at m p bs -> (forall y, p <= y < p + 2 + Z.of_nat (length bs) -> load8 m' y = load8 m y) -> msg_at m' p bs.
Proof.
  intros [Hl Hb] Hm. split.
  - unfold txBuf_len. rewrite !Hm by lia. done.
  - rewrite <- Hb at 2. apply load_bytes_ext. intros i Hi. unfold txBuf_data. apply Hm. lia.
Qed.

(** A frame: what [usb_cdc_txMsg] makes of a type and at most 64 bytes. *)
Definition is_frame (bs : list Z) : Prop :=
  exists type length data, 0 <= length <= TX_BUF_LEN /\ bs = frame type length data.

Lemma length_frame t n d : 0 <= n -> Z.of_nat (length (frame t n d)) = n + 7.
Proof. intros. unfold frame. rewrite !length_app, length_fmap, length_seq. cbn. lia. Qed.

Definition bytes (l : list Z) : Prop := Forall (fun v => 0 <= v < 256) l.

Lemma land_byte x : 0 <= Z.land x 0xff < 256.
Proof. change 0xff with (Z.ones 8). rewrite Z.land_ones by lia. apply Z.mod_pos_bound. lia. Qed.

Lemma nth_byte d i : bytes d -> 0 <= nth i d 0 < 256.
Proof.
  intros Hd. destruct (decide (i < length d)%nat); [|rewrite nth_overflow; lia].
  eapply Forall_forall in Hd; [exact Hd|]. by apply list_elem_of_In, nth_In.
Qed.

Lemma crc_bytes t n d : bytes d -> 0 <= crc8Calculate t n d < 256.
Proof.
  intros Hd. unfold crc8Calculate. generalize (seq 0 (Z.to_nat n)). intros l.
  assert (Hi : forall c, 0 <= c < 256 -> 0 <= fold_left (fun crc k => Z.lxor crc (nth k d 0)) l c < 256).
  { induction l as [|k l IH]; intros c Hc; [done|]. cbn [fold_left]. apply IH.
    apply (lxor_range 8); [done|done|by apply nth_byte]. }
  apply Hi. repeat (apply (lxor_range 8); [done| |apply land_byte]). apply land_byte.
Qed.

Lemma frame_bytes t n d : bytes d -> bytes (frame t n d).
Proof.
  intros Hd. unfold bytes, frame. rewrite !Forall_app. split_and!.
  - repeat constructor; try apply land_byte; try (by apply crc_bytes); unfold ZBHCI_MSG_START_FLAG; lia.
  - apply Forall_fmap, Forall_forall. intros i _. by apply nth_byte.
  - repeat constructor; unfold ZBHCI_MSG_END_FLAG; lia.
Qed.

(** ** The invariant *)
Section Inv.
Context `{UsbRegs, EvLayoutOk, PriFuncs, HciLinks} {T : Type} `{TimerSvc T}.
Implicit Type s : hci T.

(** [done]: the messages sent; [tx]: the message the driver has, if any, with its
    buffer; [pend]: the pending ones. *)
Record hci_inv s (a : alloc_state) (done : list (list Z)) (tx pend : list (Z * list Z)) : Prop := {
  hi_bufs : holds_bufs (h_buf s) a (rxBuf (cdc_v s) :: tx.*1 ++ pend.*1 ++ (h_tasks s).*2);
  hi_rx : RX_BUF_LEN <= buf_cap (rxBuf (cdc_v s));
  hi_tx : match tx with
          | [] => txBuf (cdc_v s) = 0 /\ lenToSend (cdc_v s) = 0
          | [(p, bs)] => txBuf (cdc_v s) = p /\ 0 < lenToSend (cdc_v s) /\ 0 <= lastSendIndex (cdc_v s) /\
                         lastSendIndex (cdc_v s) + lenToSend (cdc_v s) = Z.of_nat (length bs)
          | _ => False
          end;
  hi_msgs : Forall (fun '(p, bs) => msg_at (h_mem s) p bs /\ 2 + Z.of_nat (length bs) <= buf_cap p /\ is_frame bs) (tx ++ pend);
  hi_queue : queue_bufs (h_mem s) (usbcdc_txPendingQ s) pend.*1;
  hi_cbs : rxCb (cdc_v s) = fn_usbcdc_rxCb /\ txCb (cdc_v s) = fn_usbcdc_txFinishCb;
  hi_tasks : Forall (fun t => t.1 = fn_usbcdc_data_handler) (h_tasks s);
  hi_index : 0 <= lastIndex (cdc_v s) < 256;
  hi_wire : fifo_out (u_tr (h_usb s)) =
            concat done ++ match tx with (_, bs) :: _ => take (Z.to_nat (lastSendIndex (cdc_v s))) bs | [] => [] end;
}.

(** Where the two callbacks are. *)
Class HciLinksOk := {
  links_set : fn_usbcdc_rxCb <> 0 /\ fn_usbcdc_txFinishCb <> 0
}.

(** Accesses to the registers that put nothing on the wire. *)
Lemma inv_usb s a done tx pend u :
  hci_inv s a done tx pend -> silent (h_usb s) u -> hci_inv (with_h_usb u s) a done tx pend.
Proof. intros [] Hs. split; try done. cbn [h_usb with_h_usb]. by rewrite (silent_wire _ _ Hs). Qed.

Lemma inv_on_usb s a done tx pend f :
  hci_inv s a done tx pend -> silent (h_usb s) (f (h_usb s)) -> hci_inv (on_usb f s) a done tx pend.
Proof. intros. by apply inv_usb. Qed.

Lemma msg_len bs : is_frame bs -> 7 <= Z.of_nat (length bs) <= 71.
Proof. intros (t & n & d & Hn & ->). unfold TX_BUF_LEN in Hn. rewrite length_frame by lia. lia. Qed.

(** ** Sending *)

Lemma write_fifo_spec n s :
  0 <= lastSendIndex (cdc_v s) -> lastSendIndex (cdc_v s) + Z.of_nat n < 65536 ->
  write_fifo n s =
  on_cdc (set_lastSendIndex (lastSendIndex (cdc_v s) + Z.of_nat n))
    (on_usb (fun u => with_u_tr (u_tr u ++ (UWr (reg_usb_ep_dat CDC_TX_EPNUM) <$>
       load_bytes (h_mem s) (txBuf_data (txBuf (cdc_v s)) + lastSendIndex (cdc_v s)) n)) u) s).
Proof.
  revert s. induction n as [|n IH]; intros s Hz Hn.
  - unfold on_cdc, on_usb. cbn [load_bytes fmap list_fmap write_fifo]. rewrite app_nil_r, Z.add_0_r.
    destruct s as [u c]. by destruct u, c.
  - cbn [write_fifo]. rewrite u16_small by (cbn; lia). rewrite IH by (cbn; lia).
    destruct s as [[] [] ? ? ? ? ?]. unfold on_cdc, on_usb, wr, h_mem, with_cdc_v, with_h_usb, with_u_tr, set_lastSendIndex.
    cbn. rewrite <- app_assoc. cbn. rewrite <- !Z.add_assoc.
    by rewrite (Z.add_1_l (Z.of_nat n)), <- Nat2Z.inj_succ.
Qed.

(** The payload of the buffers [L] is the same. *)
Definition payload_kept (L : list Z) (m m' : mem) : Prop :=
  forall q y, q ∈ L -> q <= y < q + buf_cap q -> load8 m' y = load8 m y.

Lemma payload_trans L m1 m2 m3 : payload_kept L m1 m2 -> payload_kept L m2 m3 -> payload_kept L m1 m3.
Proof. intros K1 K2 q y Hq Hy. by rewrite (K2 q y Hq Hy), (K1 q y Hq Hy). Qed.
Lemma payload_of_bufs L m m' : bufs_kept L m m' -> payload_kept L m m'.
Proof. intros K q y Hq Hy. apply (K q y Hq). by right. Qed.
Lemma payload_sub L L' m m' : payload_kept L m m' -> L' ⊆ L -> payload_kept L' m m'.
Proof. intros K Hs q y Hq. apply K. by apply Hs. Qed.

Definition msg_ok (m : mem) (e : Z * list Z) : Prop :=
  let '(p, bs) := e in msg_at m p bs /\ 2 + Z.of_nat (length bs) <= buf_cap p /\ is_frame bs.

Lemma msgs_kept L m m' l :
  payload_kept L m m' -> l.*1 ⊆ L -> Forall (msg_ok m) l -> Forall (msg_ok m') l.
Proof.
  intros K Hs Hl. rewrite Forall_forall in Hl |- *. intros [p bs] He.
  destruct (Hl _ He) as (Hm & Hc & Hf). split_and!; [|done|done].
  apply (msg_at_ext m); [done|]. intros y Hy. apply (K p); [apply Hs|lia].
  apply list_elem_of_fmap. by exists (p, bs).
Qed.

(** The buffers the interface holds. *)
Definition held s (tx pend : list (Z * list Z)) : list Z :=
  rxBuf (cdc_v s) :: tx.*1 ++ pend.*1 ++ (h_tasks s).*2.

Lemma inv_msgs_kept s a done tx pend m' :
  hci_inv s a done tx pend -> bufs_kept (held s tx pend) (h_mem s) m' -> Forall (msg_ok m') (tx ++ pend).
Proof.
  intros Hi K. apply (msgs_kept (held s tx pend) (h_mem s)); [by apply payload_of_bufs| |exact (hi_msgs _ _ _ _ _ Hi)].
  unfold held. rewrite fmap_app. set_solver.
Qed.

Lemma inv_same_bufs s a done tx pend b a' :
  hci_inv s a done tx pend -> holds_bufs b a' (held s tx pend) -> bufs_kept (held s tx pend) (h_mem s) (b_mem b) ->
  hci_inv (with_h_buf b s) a' done tx pend.
Proof.
  intros Hi Hh K. pose proof (inv_msgs_kept _ _ _ _ _ _ Hi K) as Hm.
  pose proof (queue_bufs_kept _ _ _ _ _ (hi_queue _ _ _ _ _ Hi) K ltac:(unfold held; set_solver)) as Hq.
  destruct Hi. split; done.
Qed.

(** A pending message is taken out of the queue, and put back. *)
Definition rotate {A} (l : list A) : list A := match l with [] => [] | x :: l' => l' ++ [x] end.

Lemma fmap_rotate {A B} (f : A -> B) l : f <$> rotate l = rotate (f <$> l).
Proof. destruct l; [done|]. cbn. by rewrite fmap_app. Qed.
Lemma rotate_perm {A} (l : list A) : rotate l ≡ₚ l.
Proof. destruct l as [|x l]; [done|]. cbn. by rewrite (comm app). Qed.

Section Sending.
Context `{!EpLaws, !HciLinksOk} (fuel : nat).

(** Pushing a held buffer on the queue. *)
Lemma push_pending s a L l p :
  holds_bufs (h_buf s) a L -> queue_bufs (h_mem s) (usbcdc_txPendingQ s) l -> p :: l ⊆ L -> p ∉ l ->
  exists q c, ev_queue_push fuel (Some (usbcdc_txPendingQ s)) p (b_cpu (h_buf s)) = Some (QUEUE_SUCC, Some q, c) /\
    holds_bufs (with_cpu c (h_buf s)) a L /\ queue_bufs (c_mem c) q (l ++ [p]) /\
    payload_kept L (h_mem s) (c_mem c).
Proof.
  intros Hh Hq Hs Hni. pose proof (held_range _ _ _ p Hh ltac:(set_solver)) as (Ha & _).
  destruct (push_bufs fuel (b_cpu (h_buf s)) _ l p (bi_irq _ _ (hb_alloc _ _ _ Hh)) Hq Ha Hni)
    as (q & c & E & Hq' & [Hirq _] & Hm).
  assert (Hin : l ++ [p] ⊆ L) by set_solver.
  exists q, c. split_and!; [done| |done|].
  - apply write_client; [done|done|]. intros y Hy. apply Hm. intros z Hz Hr. apply (Hy z); [by apply Hin|by left].
  - intros w y Hw Hy. apply Hm. intros z Hz Hr. apply Hin in Hz.
    destruct (decide (w = z)) as [->|Hne]; [lia|]. pose proof (held_apart _ _ _ _ _ Hh Hw Hz Hne).
    pose proof (held_range _ _ _ _ Hh Hw). pose proof (held_range _ _ _ _ Hh Hz). lia.
Qed.

(** The end of a transmission: the callback releases the buffer; a pending message
    goes back to the queue, because the driver still has the buffer it sent. *)
Lemma finish_spec call s a (pend : list (Z * list Z)) p :
  holds_bufs (h_buf s) a (rxBuf (cdc_v s) :: p :: pend.*1 ++ (h_tasks s).*2) ->
  queue_bufs (h_mem s) (usbcdc_txPendingQ s) pend.*1 -> txBuf (cdc_v s) = p ->
  exists q b, usbcdc_txFinishCb fuel call p s = Some (with_usbcdc_txPendingQ q (with_h_buf b s)) /\
    holds_bufs b (abs_free p a).2 (rxBuf (cdc_v s) :: (rotate pend).*1 ++ (h_tasks s).*2) /\
    queue_bufs (b_mem b) q (rotate pend).*1 /\
    payload_kept (rxBuf (cdc_v s) :: pend.*1 ++ (h_tasks s).*2) (h_mem s) (b_mem b).
Proof.
  intros Hh Hq Hp. unfold usbcdc_txFinishCb, buf_free.
  destruct (free_client_exact (h_buf s) a [rxBuf (cdc_v s)] p (pend.*1 ++ (h_tasks s).*2) Hh) as (b1 & E1 & Hh1 & K1 & _).
  set (a1 := (abs_free p a).2) in *.
  rewrite E1. cbn [mbind option_bind]. set (s1 := with_h_buf b1 s).
  assert (Hq1 : queue_bufs (b_mem b1) (usbcdc_txPendingQ s) pend.*1).
  { eapply queue_bufs_kept; [exact Hq|exact K1|set_solver]. }
  cbn [app] in Hh1, K1. change (usbcdc_txPendingQ s1) with (usbcdc_txPendingQ s).
  rewrite (queue_bufs_num _ _ _ Hq1), length_fmap. destruct pend as [|[q0 bs0] pend]; cbn [length Z.of_nat Z.eqb negb rotate].
  - exists (usbcdc_txPendingQ s), b1. split_and!; [done|done|done|by apply payload_of_bufs].
  - rewrite (proj2 (Z.eqb_neq (Z.of_nat (S (length pend))) 0)) by lia. cbn [negb].
    destruct (pop_bufs (b_cpu b1) (usbcdc_txPendingQ s) q0 pend.*1 (bi_irq _ _ (hb_alloc _ _ _ Hh1)) Hq1)
      as (q2 & c2 & E2 & Hq2 & [Hirq2 _] & Hm2).
    change (b_cpu (h_buf s1)) with (b_cpu b1). rewrite E2. cbn [mbind option_bind].
    unfold usb_cdc_send, usbcdc_isAvailable. cbn [cdc_v with_usbcdc_txPendingQ with_h_buf].
    change (cdc_v s1) with (cdc_v s). rewrite Hp.
    assert (0 < p) by (destruct (held_range _ _ _ p Hh ltac:(set_solver)) as ([? _] & _); lia).
    rewrite (proj2 (Z.eqb_neq p 0)) by lia.
    set (s2 := with_usbcdc_txPendingQ q2 (with_h_buf (with_cpu c2 (h_buf s1)) s1)).
    assert (Hh2 : holds_bufs (h_buf s2) a1 (rxBuf (cdc_v s) :: ((q0, bs0) :: pend).*1 ++ (h_tasks s).*2)).
    { apply write_client; [done|done|]. intros y _. by rewrite Hm2. }
    pose proof (hb_nodup _ _ _ Hh2) as Hnd. cbn [fmap list_fmap fst app] in Hnd.
    apply NoDup_cons in Hnd as [_ Hnd]. apply NoDup_cons in Hnd as [Hnd _].
    destruct (push_pending s2 a1 _ pend.*1 q0 Hh2 Hq2) as (q3 & c3 & E3 & Hh3 & Hq3 & K3); [set_solver|set_solver|].
    fold s2. rewrite E3. cbn [mbind option_bind default].
    eexists q3, _. split_and!; [done| | |].
    + eapply holds_bufs_perm; [exact Hh3|]. cbn [fmap list_fmap fst app]. rewrite fmap_app. cbn. solve_Permutation.
    + by rewrite fmap_app.
    + eapply payload_trans; [apply payload_of_bufs; exact K1|]. intros w y Hw Hy.
      etrans; [exact (K3 w y Hw Hy)|]. unfold h_mem, b_mem. cbn. by rewrite Hm2.
Qed.

Context (fuel_ok : 10003 <= Z.of_nat fuel).

Lemma hd_msg s a done p bs pend :
  hci_inv s a done [(p, bs)] pend -> msg_at (h_mem s) p bs /\ is_frame bs.
Proof. intros Hi. pose proof (hi_msgs _ _ _ _ _ Hi) as Hm. apply Forall_cons in Hm as [(? & _ & ?) _]. done. Qed.

(** What every transmission leaves alone. *)
Record keeps s s' : Prop := {
  kp_rx : rxBuf (cdc_v s') = rxBuf (cdc_v s);
  kp_tasks : h_tasks s' = h_tasks s;
  kp_cmds : h_cmds s' = h_cmds s;
  kp_index : lastIndex (cdc_v s') = lastIndex (cdc_v s);
  kp_payload : payload_kept (rxBuf (cdc_v s) :: (h_tasks s).*2) (h_mem s) (h_mem s');
}.

Lemma hci_keeps_refl s : keeps s s.
Proof. by split. Qed.
Lemma hci_keeps_trans s1 s2 s3 : keeps s1 s2 -> keeps s2 s3 -> keeps s1 s3.
Proof.
  intros [A1 A2 A3 A4 A5] [B1 B2 B3 B4 B5]. rewrite A1, A2 in *. split; [congruence..|].
  by eapply payload_trans.
Qed.

(** The outcome of a bulk transaction: the message stays, or it is done and its
    buffer free. *)
Definition bulk_out (a : alloc_state) (done : list (list Z)) (tx pend : list (Z * list Z)) a' done' tx' pend' : Prop :=
  (a' = a /\ done' = done /\ tx' = tx /\ pend' = pend) \/
  exists p bs, tx = [(p, bs)] /\ a' = (abs_free p a).2 /\ done' = done ++ [bs] /\ tx' = [] /\ pend' = rotate pend.

(** The state after the copy of [k] bytes and the wait. *)
Lemma copy_spec s a done p bs pend k u2 :
  hci_inv s a done [(p, bs)] pend -> 0 < k <= lenToSend (cdc_v s) ->
  let s1 := on_cdc (set_lenToSend (lenToSend (cdc_v s) - k)) s in
  let s2 := on_usb (wr (reg_usb_ep_ctrl CDC_TX_EPNUM) FLD_EP_DAT_ACK)
              (write_fifo (Z.to_nat k) (on_usb (wr (reg_usb_ep_ptr CDC_TX_EPNUM) 0) s1)) in
  silent (h_usb s2) u2 ->
  let c := set_lastSendIndex (lastSendIndex (cdc_v s) + k) (set_lenToSend (lenToSend (cdc_v s) - k) (cdc_v s)) in
  with_h_usb u2 s2 = with_cdc_v c (with_h_usb u2 s) /\
  fifo_out (u_tr u2) = concat done ++ take (Z.to_nat (lastSendIndex (cdc_v s) + k)) bs.
Proof.
  intros Hi Hk s1 s2 Hs c. destruct (hd_msg _ _ _ _ _ _ Hi) as [[Hlen Hbs] Hf].
  pose proof (msg_len bs Hf) as Hlb. pose proof (hi_wire _ _ _ _ _ Hi) as Hw. cbn in Hw.
  destruct (hi_tx _ _ _ _ _ Hi) as (Hp & Hl & Hx & Hsum).
  unfold s2 in *. rewrite write_fifo_spec in * by (cbn; lia). split.
  - rewrite Z2Nat.id by lia. destruct s as [u cc q b tm tk cm]. by destruct cc.
  - rewrite (silent_wire _ _ Hs). cbn [h_usb on_usb on_cdc with_h_usb with_cdc_v wr u_tr with_u_tr].
    rewrite !fifo_out_app, fifo_out_writes.
    change (fifo_out [UWr (reg_usb_ep_ptr CDC_TX_EPNUM) 0]) with (@nil Z).
    change (fifo_out [UWr (reg_usb_ep_ctrl CDC_TX_EPNUM) FLD_EP_DAT_ACK]) with (@nil Z).
    rewrite !app_nil_r. cbn [s1 on_cdc with_cdc_v h_usb]. rewrite Hw, <- app_assoc. f_equal.
    rewrite Z2Nat.inj_add by lia. rewrite <- take_take_drop. f_equal.
    change (load_bytes (h_mem s) (txBuf_data (txBuf (cdc_v s)) + lastSendIndex (cdc_v s)) (Z.to_nat k) =
            take (Z.to_nat k) (drop (Z.to_nat (lastSendIndex (cdc_v s))) bs)).
    rewrite Hp, <- Hbs, load_bytes_part by lia. rewrite Z2Nat.id by lia. done.
Qed.

(** The state between two bulk transactions of a message. *)
Lemma inv_partial s a done p bs pend c u :
  hci_inv s a done [(p, bs)] pend ->
  rxBuf c = rxBuf (cdc_v s) -> txBuf c = p -> rxCb c = rxCb (cdc_v s) -> txCb c = txCb (cdc_v s) ->
  lastIndex c = lastIndex (cdc_v s) -> 0 < lenToSend c -> 0 <= lastSendIndex c ->
  lastSendIndex c + lenToSend c = Z.of_nat (length bs) ->
  fifo_out (u_tr u) = concat done ++ take (Z.to_nat (lastSendIndex c)) bs ->
  hci_inv (with_cdc_v c (with_h_usb u s)) a done [(p, bs)] pend.
Proof.
  intros [] E1 E2 E3 E4 E5 L1 L2 L3 Hw. split; cbn [cdc_v with_cdc_v with_h_usb h_buf h_tasks usbcdc_txPendingQ h_usb];
    rewrite ?E1, ?E3, ?E4, ?E5; try done.
Qed.

(** The state after a message. *)
Lemma inv_finished s a done p bs pend c u :
  hci_inv s a done [(p, bs)] pend ->
  rxBuf c = rxBuf (cdc_v s) -> txBuf c = p -> rxCb c = rxCb (cdc_v s) -> txCb c = txCb (cdc_v s) ->
  lastIndex c = lastIndex (cdc_v s) -> lenToSend c = 0 ->
  fifo_out (u_tr u) = concat done ++ bs ->
  exists s', call_tx fuel (txCb c) p (with_cdc_v c (with_h_usb u s)) = Some s' /\
    hci_inv (on_cdc (set_txBuf 0) s') (abs_free p a).2 (done ++ [bs]) [] (rotate pend) /\
    keeps s (on_cdc (set_txBuf 0) s').
Proof.
  intros Hi E1 E2 E3 E4 E5 L Hw. unfold call_tx, call_txCb.
  destruct (hi_cbs _ _ _ _ _ Hi) as [Hrc Htc]. rewrite E4, Htc, Z.eqb_refl.
  set (s1 := with_cdc_v c (with_h_usb u s)).
  destruct (finish_spec (fun cb pData s0 => if cb =? fn_usbcdc_txFinishCb then usbcdc_txFinishCb fuel (fun _ _ _ => None) pData s0 else None)
    s1 a pend p) as (q & b & E & Hh & Hq & K).
  { cbn. rewrite E1. apply (hi_bufs _ _ _ _ _ Hi). }
  { apply (hi_queue _ _ _ _ _ Hi). }
  { done. }
  rewrite E. eexists. split; [done|].
  cbn [s1 cdc_v with_cdc_v h_tasks with_h_usb] in Hh, K. rewrite E1 in Hh, K.
  assert (Hm : Forall (msg_ok (b_mem b)) (rotate pend)).
  { rewrite rotate_perm. apply (msgs_kept (rxBuf (cdc_v s) :: pend.*1 ++ (h_tasks s).*2) (h_mem s)); [done|set_solver|].
    pose proof (hi_msgs _ _ _ _ _ Hi) as Hm. by apply Forall_app in Hm as [_ Hm]. }
  pose proof (hi_rx _ _ _ _ _ Hi). pose proof (hi_tasks _ _ _ _ _ Hi). pose proof (hi_index _ _ _ _ _ Hi).
  split.
  - split; cbn; rewrite ?E1, ?E3, ?E4, ?E5; try done.
    rewrite Hw, concat_app. cbn. by rewrite !app_nil_r.
  - split; cbn; try done. eapply payload_sub; [exact K|set_solver].
Qed.

(** One bulk transaction.  If the endpoint is free, the next 64 bytes go out;
    with the last ones the message is done. *)
Lemma bulk_spec s a done tx pend :
  hci_inv s a done tx pend ->
  exists n s' a' done' tx' pend', usbcdc_sendBulkData fuel (call_tx fuel) s = Some (n, s') /\
    hci_inv s' a' done' tx' pend' /\ bulk_out a done tx pend a' done' tx' pend' /\ keeps s s' /\
    ((usbhw_is_ep_busy CDC_TX_EPNUM (h_usb s)).1 = 0 -> lenToSend (cdc_v s) <= 64 -> tx' = []) /\
    ((usbhw_is_ep_busy CDC_TX_EPNUM (h_usb s)).1 <> 0 -> tx' = tx).
Proof.
  intros Hi. unfold usbcdc_sendBulkData, ask_usb.
  destruct (usbhw_is_ep_busy CDC_TX_EPNUM (h_usb s)) as [busy u1] eqn:E1.
  assert (S1 : silent (h_usb s) u1) by (pose proof (is_ep_busy_silent CDC_TX_EPNUM (h_usb s)) as Hs; by rewrite E1 in Hs).
  pose proof (inv_usb s a done tx pend u1 Hi S1) as Hi1.
  assert (K1 : keeps s (with_h_usb u1 s)) by done.
  destruct (Z.eqb_spec busy 0) as [->|Hb]; cbn [negb fst].
  2:{ eexists 0, _, a, done, tx, pend. split_and!; [done|done|by left|done|done|done]. }
  assert (EL : lenToSend (cdc_v (with_h_usb u1 s)) = lenToSend (cdc_v s)) by done.
  rewrite <- EL. clear S1 E1 EL. revert Hi1 K1. generalize (with_h_usb u1 s). clear Hi. intros s1 Hi K1.
  assert (Hlen : 0 <= lenToSend (cdc_v s1) < 65536 /\ (tx = [] -> lenToSend (cdc_v s1) = 0)).
  { pose proof (hi_tx _ _ _ _ _ Hi) as Ht. destruct tx as [|[p bs] [|]]; [lia| |done].
    destruct (hd_msg _ _ _ _ _ _ Hi) as [_ Hf]. pose proof (msg_len bs Hf). split; [lia|done]. }
  set (k := if CDC_TXRX_EPSIZE <? lenToSend (cdc_v s1) then _ else _).
  assert (Hk : k = Z.min 64 (lenToSend (cdc_v s1))) by (unfold k, CDC_TXRX_EPSIZE; case_cmp; lia).
  clearbody k. rewrite u16_small by lia.
  destruct tx as [|[p bs] [|]]; [| |by destruct (hi_tx _ _ _ _ _ Hi)].
  { destruct Hlen as [_ Hl]. specialize (Hl eq_refl). rewrite (proj2 (Z.eqb_eq k 0)) by lia.
    assert (on_cdc (set_lenToSend (lenToSend (cdc_v s1) - k)) s1 = s1) as ->.
    { replace (lenToSend (cdc_v s1) - k) with (lenToSend (cdc_v s1)) by lia. destruct s1 as [? [] ? ? ? ? ?]. done. }
    eexists 0, _, a, done, [], pend. split_and!; [done|done|by left|done|done|done]. }
  destruct (hi_tx _ _ _ _ _ Hi) as (Hp & Hl & Hx & Hsum).
  rewrite (proj2 (Z.eqb_neq k 0)) by lia.
  set (s2 := on_usb (wr (reg_usb_ep_ctrl CDC_TX_EPNUM) FLD_EP_DAT_ACK) _).
  destruct (wait_tx_ends fuel 0 (h_usb s2) ltac:(lia) ltac:(lia)) as [u2 Eu].
  rewrite Eu. cbn [mbind option_bind].
  destruct (copy_spec s1 a done p bs pend k u2 Hi ltac:(lia) (wait_tx_silent _ _ _ _ Eu)) as [Ec Hw].
  cbv zeta in Ec. fold s2 in Ec. rewrite Ec. clear Ec.
  set (c := set_lastSendIndex _ _) in *.
  change (lenToSend (cdc_v (with_cdc_v c (with_h_usb u2 s1)))) with (lenToSend (cdc_v s1) - k).
  destruct (Z.eqb_spec (lenToSend (cdc_v s1) - k) 0) as [Hz|Hz].
  - destruct (hi_cbs _ _ _ _ _ Hi) as [_ Htc]. destruct links_set as [_ Hnz].
    assert (Hne : txCb (cdc_v s1) <> 0) by congruence.
    change (on_cdc (fun c => set_lastSendIndex 0 (set_lenToSend 0 c)) (with_cdc_v c (with_h_usb u2 s1)))
      with (with_cdc_v (set_lastSendIndex 0 (set_lenToSend 0 c)) (with_h_usb u2 s1)).
    change (txCb (cdc_v (with_cdc_v (set_lastSendIndex 0 (set_lenToSend 0 c)) (with_h_usb u2 s1)))) with (txCb (cdc_v s1)).
    rewrite (proj2 (Z.eqb_neq _ _) Hne). cbn [negb].
    change (txBuf (cdc_v (with_cdc_v (set_lastSendIndex 0 (set_lenToSend 0 c)) (with_h_usb u2 s1)))) with (txBuf (cdc_v s1)).
    rewrite Hp.
    destruct (inv_finished s1 a done p bs pend (set_lastSendIndex 0 (set_lenToSend 0 c)) u2 Hi) as (s3 & E3 & Hi3 & K3); try done.
    { rewrite Hw. f_equal. apply take_ge. lia. }
    change (txCb (set_lastSendIndex 0 (set_lenToSend 0 c))) with (txCb (cdc_v s1)) in E3.
    rewrite E3. cbn [mbind option_bind].
    eexists _, _, _, (done ++ [bs]), [], (rotate pend). split_and!; [done|exact Hi3| |by eapply hci_keeps_trans|done|done].
    right. by exists p, bs.
  - cbn [mbind option_bind]. eexists _, _, a, done, [(p, bs)], pend. split_and!; [done| |by left| |intros; lia|done].
    + apply inv_partial; try done; cbn; lia.
    + eapply hci_keeps_trans; [exact K1|]. done.
Qed.

(** A new message in a buffer of its own, next to what is held already. *)
Record new_msg s tx pend (b : buf_state) (a : alloc_state) (p : Z) (bs : list Z) : Prop := {
  nm_bufs : holds_bufs b a (p :: held s tx pend);
  nm_kept : bufs_kept (held s tx pend) (h_mem s) (b_mem b);
  nm_msg : msg_ok (b_mem b) (p, bs);
}.

Lemma msg_ok_frame m e : msg_ok m e -> is_frame e.2.
Proof. destruct e as [p bs]. by intros (_ & _ & ?). Qed.

Lemma new_msg_pos s tx pend b a p bs : new_msg s tx pend b a p bs -> 0 < p.
Proof. intros [Hh _ _]. destruct (held_range _ _ _ p Hh ltac:(by left)) as ([? _] & _). lia. Qed.

(** An idle driver takes the message. *)
Lemma send_idle s a0 a done pend b p bs :
  hci_inv s a0 done [] pend -> new_msg s [] pend b a p bs ->
  exists s' a' done' tx' pend', usb_cdc_send fuel (call_tx fuel) p (with_h_buf b s) = Some s' /\
    hci_inv s' a' done' tx' pend' /\ bulk_out a done [(p, bs)] pend a' done' tx' pend' /\ keeps s s' /\
    ((usbhw_is_ep_busy CDC_TX_EPNUM (h_usb s)).1 = 0 -> Z.of_nat (length bs) <= 64 -> tx' = []) /\
    ((usbhw_is_ep_busy CDC_TX_EPNUM (h_usb s)).1 <> 0 -> tx' = [(p, bs)]).
Proof.
  intros Hi Hn. pose proof (new_msg_pos _ _ _ _ _ _ _ Hn) as Hp. destruct (hi_tx _ _ _ _ _ Hi) as [Ht Hl].
  unfold usb_cdc_send, usbcdc_isAvailable, usbcdc_sendData.
  change (cdc_v (with_h_buf b s)) with (cdc_v s). rewrite Ht. cbn [Z.eqb negb].
  destruct (nm_msg _ _ _ _ _ _ _ Hn) as ((Hlen & Hbs) & Hcap & Hf). pose proof (msg_len bs Hf).
  set (s2 := on_cdc (fun c => set_lastSendIndex 0 (set_txBuf p c)) _).
  assert (Hi2 : hci_inv s2 a done [(p, bs)] pend).
  { pose proof (hi_rx _ _ _ _ _ Hi). pose proof (hi_cbs _ _ _ _ _ Hi). pose proof (hi_tasks _ _ _ _ _ Hi).
    pose proof (hi_index _ _ _ _ _ Hi). pose proof (hi_wire _ _ _ _ _ Hi) as Hw.
    split; try done.
    - eapply holds_bufs_perm; [exact (nm_bufs _ _ _ _ _ _ _ Hn)|]. unfold held. cbn. apply Permutation_swap.
    - cbn. change (h_mem (with_h_buf b s)) with (b_mem b). rewrite Hlen. lia.
    - cbn [app]. constructor; [exact (nm_msg _ _ _ _ _ _ _ Hn)|].
      exact (inv_msgs_kept _ _ _ [] _ _ Hi (nm_kept _ _ _ _ _ _ _ Hn)).
    - eapply queue_bufs_kept; [exact (hi_queue _ _ _ _ _ Hi)|exact (nm_kept _ _ _ _ _ _ _ Hn)|].
      unfold held. set_solver. }
  destruct (bulk_spec _ _ _ _ _ Hi2) as (n & s3 & a3 & done' & tx' & pend' & E & Hi3 & Ho & K & Hfree & Hbusy).
  rewrite E. cbn [mbind option_bind]. eexists _, a3, done', tx', pend'. split_and!; [done| |done| | |exact Hbusy].
  - apply inv_on_usb; [done|]. by apply silent_wr.
  - eapply hci_keeps_trans; [|eapply hci_keeps_trans; [exact K|done]]. split; try done.
    apply payload_of_bufs. eapply bufs_kept_sub; [exact (nm_kept _ _ _ _ _ _ _ Hn)|]. unfold held. set_solver.
  - intros Hb Hle. apply Hfree; [done|]. cbn. change (h_mem (with_h_buf b s)) with (b_mem b). lia.
Qed.

(** A busy driver: the message is pending. *)
Lemma send_busy s a0 a done q bs0 pend b p bs :
  hci_inv s a0 done [(q, bs0)] pend -> new_msg s [(q, bs0)] pend b a p bs ->
  exists s', usb_cdc_send fuel (call_tx fuel) p (with_h_buf b s) = Some s' /\
    hci_inv s' a done [(q, bs0)] (pend ++ [(p, bs)]) /\ keeps s s'.
Proof.
  intros Hi Hn. destruct (hi_tx _ _ _ _ _ Hi) as (Hq & Hl & Hx & Hsum).
  unfold usb_cdc_send, usbcdc_isAvailable. change (cdc_v (with_h_buf b s)) with (cdc_v s). rewrite Hq.
  assert (0 < q) by (destruct (held_range _ _ _ q (hi_bufs _ _ _ _ _ Hi) ltac:(set_solver)) as ([? _] & _); lia).
  rewrite (proj2 (Z.eqb_neq q 0)) by lia.
  pose proof (nm_bufs _ _ _ _ _ _ _ Hn) as Hh. pose proof (nm_kept _ _ _ _ _ _ _ Hn) as K.
  assert (Hqueue : queue_bufs (h_mem (with_h_buf b s)) (usbcdc_txPendingQ (with_h_buf b s)) pend.*1).
  { eapply queue_bufs_kept; [exact (hi_queue _ _ _ _ _ Hi)|exact K|]. unfold held. set_solver. }
  pose proof (hb_nodup _ _ _ Hh) as Hnd. unfold held in Hnd. apply NoDup_cons in Hnd as [Hnd _].
  destruct (push_pending (with_h_buf b s) a _ pend.*1 p Hh Hqueue) as (q' & c & E & Hh' & Hq' & K');
    [unfold held; set_solver|set_solver|].
  change (h_buf (with_h_buf b s)) with b in *. cbv beta iota zeta. rewrite E. cbn [mbind option_bind default].
  eexists. split; [done|].
  assert (Hpk : payload_kept (held s [(q, bs0)] pend) (h_mem s) (c_mem c)).
  { eapply payload_trans; [by apply payload_of_bufs|]. eapply payload_sub; [exact K'|set_solver]. }
  pose proof (hi_rx _ _ _ _ _ Hi). pose proof (hi_cbs _ _ _ _ _ Hi). pose proof (hi_tasks _ _ _ _ _ Hi).
  pose proof (hi_index _ _ _ _ _ Hi). pose proof (hi_wire _ _ _ _ _ Hi) as Hw.
  split; [split; try done|split; try done].
  - eapply holds_bufs_perm; [exact Hh'|]. unfold held. cbn. rewrite fmap_app. cbn. solve_Permutation.
  - rewrite app_assoc. apply Forall_app. split.
    + apply (msgs_kept (held s [(q, bs0)] pend) (h_mem s)); [done| |exact (hi_msgs _ _ _ _ _ Hi)].
      unfold held. rewrite fmap_app. set_solver.
    + constructor; [|done]. pose proof (nm_msg _ _ _ _ _ _ _ Hn) as Hm.
      assert (Forall (msg_ok (c_mem c)) [(p, bs)]) as Hf; [|rewrite Forall_singleton in Hf; exact Hf].
      apply (msgs_kept (p :: held s [(q, bs0)] pend) (b_mem b)); [exact K'|set_solver|by apply Forall_singleton].
  - by rewrite fmap_app.
  - eapply payload_sub; [exact Hpk|]. unfold held. set_solver.
Qed.

(** ** [usb_cdc_txMsg] *)

(** The outcome of a request to send: the message is too long, there is no buffer
    for it, an idle driver takes it, or it is pending. *)
Inductive tx_out (a : alloc_state) (n : Z) (fr : list Z) (done : list (list Z)) (tx pend : list (Z * list Z)) :
    Z -> alloc_state -> list (list Z) -> list (Z * list Z) -> list (Z * list Z) -> Prop :=
  | TxTooLong : TX_BUF_LEN < n -> tx_out a n fr done tx pend ZBHCI_TX_TOO_LONG a done tx pend
  | TxNoBuffer : n <= TX_BUF_LEN -> no_buffer a (n + 9) -> tx_out a n fr done tx pend ZBHCI_TX_FAILED a done tx pend
  | TxStarted p a' done' tx' pend' : n <= TX_BUF_LEN -> p = (abs_allocate (n + 9) a).1 -> p <> 0 -> tx = [] ->
      bulk_out (abs_allocate (n + 9) a).2 done [(p, fr)] pend a' done' tx' pend' ->
      tx_out a n fr done tx pend ZBHCI_TX_SUCCESS a' done' tx' pend'
  | TxQueued p : n <= TX_BUF_LEN -> p = (abs_allocate (n + 9) a).1 -> p <> 0 -> tx <> [] ->
      tx_out a n fr done tx pend ZBHCI_TX_SUCCESS (abs_allocate (n + 9) a).2 done tx (pend ++ [(p, fr)]).

Lemma txMsg_new s a done tx pend type n data b p a1 :
  hci_inv s a done tx pend -> 0 <= n <= TX_BUF_LEN -> bytes data ->
  holds_bufs b a1 (p :: held s tx pend) -> bufs_kept (held s tx pend) (h_mem s) (b_mem b) -> 2 + n + 7 <= buf_cap p ->
  let s1 := with_h_mem (store_bytes (h_mem (with_h_buf b s)) p [u8 (u16 (n + 7)); u8 (u16 (n + 7) / 2 ^ 8)]) (with_h_buf b s) in
  let s2 := with_h_mem (store_bytes (h_mem s1) (txBuf_data p) (frame type n data)) s1 in
  exists b2, s2 = with_h_buf b2 s /\ new_msg s tx pend b2 a1 p (frame type n data).
Proof.
  intros Hi Hn Hd Hh K Hc s1 s2. unfold TX_BUF_LEN in Hn.
  pose proof (length_frame type n data ltac:(lia)) as Hlf.
  destruct (store_bytes_kept b a1 _ p p [u8 (u16 (n + 7)); u8 (u16 (n + 7) / 2 ^ 8)] Hh) as [Hh1 K1]; [by left|lia|cbn; lia|].
  set (b1 := with_cpu _ b) in Hh1.
  destruct (store_bytes_kept b1 a1 _ p (txBuf_data p) (frame type n data) Hh1) as [Hh2 K2];
    [by left|unfold txBuf_data; lia|unfold txBuf_data; lia|].
  set (b2 := with_cpu _ b1) in Hh2. exists b2. split; [done|].
  pose proof (hb_nodup _ _ _ Hh) as Hnd. apply NoDup_cons in Hnd as [Hni _].
  split; [exact Hh2| |].
  - intros q y Hq Hy. assert (q <> p) by congruence.
    etrans; [apply (K2 q y); [by right|done|done]|]. etrans; [apply (K1 q y); [by right|done|done]|]. by apply (K q y).
  - split_and!; [|lia|by exists type, n, data]. split.
    + rewrite Hlf. unfold txBuf_len. cbn [b2 b_mem b_cpu with_cpu c_mem with_mem].
      rewrite !(load8_store_bytes _ (txBuf_data p)). unfold txBuf_data.
      cmp_false ((p + 2 <=? p) && (p <? p + 2 + Z.of_nat (length (frame type n data)))).
      cmp_false ((p + 2 <=? p + 1) && (p + 1 <? p + 2 + Z.of_nat (length (frame type n data)))).
      cbn [b1 b_mem b_cpu with_cpu c_mem with_mem store_bytes].
      rewrite load8_store8_ne, !load8_store8_eq by lia. rewrite !u16_small, u8_u8 by lia.
      replace ((n + 7) / 2 ^ 8) with 0 by (change (2 ^ 8) with 256; zdm).
      rewrite (u8_small (n + 7)) by lia. change (u8 (u8 0)) with 0. lia.
    + cbn [b2 b_mem b_cpu with_cpu c_mem with_mem]. apply load_store_bytes. apply frame_bytes; done.
Qed.

Lemma txMsg_spec s a done tx pend type n data :
  hci_inv s a done tx pend -> 0 <= n -> bytes data ->
  exists r s' a' done' tx' pend', usb_cdc_txMsg fuel type n data s = Some (r, s') /\
    hci_inv s' a' done' tx' pend' /\ tx_out a n (frame type n data) done tx pend r a' done' tx' pend' /\ keeps s s' /\
    (r = ZBHCI_TX_SUCCESS -> tx = [] -> (usbhw_is_ep_busy CDC_TX_EPNUM (h_usb s)).1 = 0 -> n <= 57 -> tx' = []) /\
    (r = ZBHCI_TX_SUCCESS -> tx = [] -> (usbhw_is_ep_busy CDC_TX_EPNUM (h_usb s)).1 <> 0 -> tx' <> []).
Proof.
  intros Hi Hn Hd. unfold usb_cdc_txMsg.
  destruct (Z.ltb_spec TX_BUF_LEN n) as [Hlong|Hlong].
  { eexists _, _, a, done, tx, pend. split_and!; [done|done|by apply TxTooLong|done|done|done]. }
  unfold buf_allocate. replace (2 + n + 7) with (n + 9) by lia.
  destruct (allocate_client_exact (h_buf s) a _ (n + 9) (hi_bufs _ _ _ _ _ Hi)) as (p & b & E & Ep & K & _ & Hcase). rewrite E.
  destruct Hcase as [(-> & Hno & Hh)|(Hp & Hni & Hcap & Hh)].
  - cbn [Z.eqb]. eexists _, _, a, done, tx, pend.
    split_and!; [done|by eapply inv_same_bufs|by apply TxNoBuffer| |done|done].
    split; try done. apply payload_of_bufs. eapply bufs_kept_sub; [exact K|]. set_solver.
  - rewrite (proj2 (Z.eqb_neq p 0)) by lia. set (a1 := (abs_allocate (n + 9) a).2) in Hh.
    destruct (txMsg_new s a done tx pend type n data b p a1 Hi) as (b2 & Es & Hnew); [done..|lia|].
    cbv zeta in Es |- *. rewrite Es. clear Es.
    destruct tx as [|[q bs0] [|]]; [| |by destruct (hi_tx _ _ _ _ _ Hi)].
    + destruct (send_idle s a a1 done pend b2 p _ Hi Hnew) as (s' & a' & done' & tx' & pend' & Es & Hi' & Ho & Kp & Hfree & Hbusy).
      rewrite Es. cbn [mbind option_bind]. eexists _, s', a', done', tx', pend'.
      split_and!; [done|done|apply (TxStarted _ _ _ _ _ _ p); (done || lia)|done| |].
      * intros _ _ Hb Hle. apply Hfree; [done|]. rewrite length_frame by done. lia.
      * intros _ _ Hb. by rewrite Hbusy.
    + destruct (send_busy s a a1 done q bs0 pend b2 p _ Hi Hnew) as (s' & Es & Hi' & Kp).
      rewrite Es. cbn [mbind option_bind]. eexists _, s', a1, done, [(q, bs0)], _.
      split_and!; [done|done|apply TxQueued; (done || lia)|done|done|done].
Qed.

End Sending.
End Inv.
