(* ===== verification/HciRx.v ===== *)
(** * Reception over USB CDC, and the steps of the host interface

    The receiving half of the driver, the handler of received messages, and the
    invariant of [HciInv.v] under every step. *)
From S2P Require Import Prelude Memory Linked ListC SysEv Mempool EvBuffer BufClient EvQueue BufQueue EvTimer TimerIf UsbDesc Usb UsbProps Hci HciInv.

(** ** The endpoint from the host *)
Section Endpoint.
Context `{UsbRegs}.
Implicit Type u : usb.

(** The [n] next bytes of the endpoint's buffer, after the accesses [t]. *)
Fixpoint rx_bytes (n : nat) (t : list uev) : list Z :=
  match n with
  | O => []
  | S n' => u8 (usb_reg (reg_usb_ep_dat CDC_RX_EPNUM) t) :: rx_bytes n' (t ++ [URd (reg_usb_ep_dat CDC_RX_EPNUM)])
  end.

Lemma length_rx_bytes n t : length (rx_bytes n t) = n.
Proof. revert t. induction n as [|n IH]; intros t; [done|]. cbn [rx_bytes length]. by rewrite IH. Qed.

Lemma rx_bytes_bytes n t : bytes (rx_bytes n t).
Proof. revert t. induction n as [|n IH]; intros t; [apply Forall_nil_2|]. apply Forall_cons. split; [apply u8_range|apply IH]. Qed.

(** Where a poll of the main loop stands when it comes to the packet: the
    interrupt flags it saw, the packet's length, the accesses before its bytes. *)
Definition poll_irq u : Z := (usbhw_get_eps_irq (handle_ctrl_irq u)).1.
Definition packet_regs u : usb := usbhw_clr_eps_irq 0x20 (usbhw_get_eps_irq (handle_ctrl_irq u)).2.
Definition packet_len u : Z := (rd (reg_usb_ep_ptr CDC_RX_EPNUM) (packet_regs u)).1.
Definition packet_bytes u : list Z :=
  rx_bytes (Z.to_nat (packet_len u)) (u_tr (usbhw_reset_ep_ptr CDC_RX_EPNUM (rd (reg_usb_ep_ptr CDC_RX_EPNUM) (packet_regs u)).2)).
Definition packet_waits u : bool := negb (Z.land (poll_irq u) 0x20 =? 0).

Lemma packet_len_range u : 0 <= packet_len u < 256.
Proof. apply u8_range. Qed.
End Endpoint.

Section Rx.
Context `{UsbRegs, EvLayoutOk, PriFuncs, HciLinks} {T : Type} `{TimerSvc T}.
Implicit Type s : hci T.

(** The state after bytes were read: accesses, memory, index. *)
Definition after_read (tr : list uev) (m : mem) (k : Z) s : hci T :=
  mk_hci (with_u_tr tr (h_usb s)) (set_lastIndex k (cdc_v s)) (usbcdc_txPendingQ s)
    (with_cpu (with_mem m (b_cpu (h_buf s))) (h_buf s)) (h_tm s) (h_tasks s) (h_cmds s).

Lemma after_read_same s : after_read (u_tr (h_usb s)) (h_mem s) (lastIndex (cdc_v s)) s = s.
Proof. by destruct s as [[] [] ? [[] ?] ? ? ?]. Qed.

(** Copying a packet behind what was received before. *)
Lemma read_fifo_spec n s :
  0 <= lastIndex (cdc_v s) -> lastIndex (cdc_v s) + Z.of_nat n < 256 ->
  read_fifo n s =
  after_read (u_tr (h_usb s) ++ replicate n (URd (reg_usb_ep_dat CDC_RX_EPNUM)))
    (store_bytes (h_mem s) (rxBuf (cdc_v s) + lastIndex (cdc_v s)) (rx_bytes n (u_tr (h_usb s))))
    (lastIndex (cdc_v s) + Z.of_nat n) s.
Proof.
  revert s. induction n as [|n IH]; intros s Hz Hn.
  - cbn [read_fifo rx_bytes store_bytes replicate]. rewrite app_nil_r, Z.add_0_r. by rewrite after_read_same.
  - cbn [read_fifo]. unfold ask_usb, usbhw_read_ep_data, rd. cbv beta iota zeta.
    set (b := u8 (usb_reg _ _)).
    set (s1 := on_cdc _ _).
    assert (s1 = after_read (u_tr (h_usb s) ++ [URd (reg_usb_ep_dat CDC_RX_EPNUM)])
      (store8 (h_mem s) (rxBuf (cdc_v s) + lastIndex (cdc_v s)) b) (lastIndex (cdc_v s) + 1) s) as ->.
    { unfold s1. rewrite u8_small by (cbn; lia). reflexivity. }
    rewrite IH by (cbn; lia).
    cbn [after_read cdc_v h_usb set_lastIndex lastIndex rxBuf u_tr with_u_tr rx_bytes store_bytes replicate].
    unfold h_mem at 1. cbn [after_read h_buf b_mem b_cpu with_cpu c_mem with_mem]. rewrite <- app_assoc.
    replace (rxBuf (cdc_v s) + lastIndex (cdc_v s) + 1) with (rxBuf (cdc_v s) + (lastIndex (cdc_v s) + 1)) by lia.
    replace (lastIndex (cdc_v s) + Z.of_nat (S n)) with (lastIndex (cdc_v s) + 1 + Z.of_nat n) by lia. reflexivity.
Qed.

(** Changes of the driver's record that concern reception only. *)
Lemma inv_cdc s a done tx pend c :
  hci_inv s a done tx pend ->
  rxBuf c = rxBuf (cdc_v s) -> txBuf c = txBuf (cdc_v s) -> rxCb c = rxCb (cdc_v s) -> txCb c = txCb (cdc_v s) ->
  lenToSend c = lenToSend (cdc_v s) -> lastSendIndex c = lastSendIndex (cdc_v s) -> 0 <= lastIndex c < 256 ->
  hci_inv (with_cdc_v c s) a done tx pend.
Proof. intros [] E1 E2 E3 E4 E5 E6 L. split; cbn; rewrite ?E1, ?E2, ?E3, ?E4, ?E5, ?E6; done. Qed.

Lemma inv_tm s a done tx pend t : hci_inv s a done tx pend -> hci_inv (with_h_tm t s) a done tx pend.
Proof. by intros []. Qed.

(** The packet goes into the receive buffer. *)
Lemma inv_read s a done tx pend n :
  hci_inv s a done tx pend -> lastIndex (cdc_v s) + Z.of_nat n <= RX_BUF_LEN ->
  hci_inv (read_fifo n s) a done tx pend /\
  h_mem (read_fifo n s) = store_bytes (h_mem s) (rxBuf (cdc_v s) + lastIndex (cdc_v s)) (rx_bytes n (u_tr (h_usb s))) /\
  cdc_v (read_fifo n s) = set_lastIndex (lastIndex (cdc_v s) + Z.of_nat n) (cdc_v s) /\
  h_tasks (read_fifo n s) = h_tasks s /\ h_cmds (read_fifo n s) = h_cmds s /\
  bufs_kept (tx.*1 ++ pend.*1 ++ (h_tasks s).*2) (h_mem s) (h_mem (read_fifo n s)).
Proof.
  intros Hi Hn. pose proof (hi_index _ _ _ _ _ Hi) as Hx. pose proof (hi_rx _ _ _ _ _ Hi) as Hr.
  unfold RX_BUF_LEN in *. rewrite read_fifo_spec by lia.
  set (bs := rx_bytes n (u_tr (h_usb s))). assert (Hbs : length bs = n) by apply length_rx_bytes.
  destruct (store_bytes_kept (h_buf s) a _ (rxBuf (cdc_v s)) (rxBuf (cdc_v s) + lastIndex (cdc_v s)) bs (hi_bufs _ _ _ _ _ Hi))
    as [Hh K]; [by left|lia|lia|].
  pose proof (hb_nodup _ _ _ Hh) as Hnd. apply NoDup_cons in Hnd as [Hni _].
  assert (Kb : bufs_kept (tx.*1 ++ pend.*1 ++ (h_tasks s).*2) (h_mem s)
    (store_bytes (h_mem s) (rxBuf (cdc_v s) + lastIndex (cdc_v s)) bs)).
  { intros q y Hq Hy. apply (K q y); [by right|congruence|done]. }
  split_and!; try done.
  assert (Hm : Forall (msg_ok (store_bytes (h_mem s) (rxBuf (cdc_v s) + lastIndex (cdc_v s)) bs)) (tx ++ pend)).
  { apply (msgs_kept (tx.*1 ++ pend.*1 ++ (h_tasks s).*2) (h_mem s)); [by apply payload_of_bufs| |exact (hi_msgs _ _ _ _ _ Hi)].
    rewrite fmap_app. set_solver. }
  assert (Hsub : pend.*1 ⊆ tx.*1 ++ pend.*1 ++ (h_tasks s).*2) by set_solver.
  pose proof (queue_bufs_kept _ _ _ _ _ (hi_queue _ _ _ _ _ Hi) Kb Hsub) as Hq.
  destruct Hi. split; try done.
  - cbn. lia.
  - cbn. rewrite fifo_out_app, hi_wire.
    assert (forall k, fifo_out (replicate k (URd (reg_usb_ep_dat CDC_RX_EPNUM))) = []) as ->; [|by rewrite app_nil_r].
    intros k. by induction k.
Qed.

(** What a packet of [len] bytes does: the buffer is handed on, or it is a
    packet of 64 bytes and the message goes on. *)
Definition recv_out (len : Z) s s' : Prop :=
  h_cmds s' = h_cmds s /\
  if len =? CDC_TXRX_EPSIZE then
    h_tasks s' = h_tasks s /\ lastIndex (cdc_v s') = lastIndex (cdc_v s) + len /\ rxBuf (cdc_v s') = rxBuf (cdc_v s)
  else
    h_tasks s' = h_tasks s ++ [(fn_usbcdc_data_handler, rxBuf (cdc_v s))] /\ lastIndex (cdc_v s') = 0.

Context `{!HciLinksOk}.

Lemma rx_nonzero s a done tx pend : hci_inv s a done tx pend -> rxBuf (cdc_v s) <> 0.
Proof.
  intros Hi. destruct (held_range _ _ _ (rxBuf (cdc_v s)) (hi_bufs _ _ _ _ _ Hi)) as ([? _] & _); [by left|lia].
Qed.

(** The receive callback: the full buffer goes to the task queue and a new one
    takes its place, or the code stops for want of a buffer. *)
Lemma rxCb_spec s a done tx pend p :
  hci_inv (usbcdc_setRxBuf p s) a done tx pend ->
  (no_buffer a RX_BUF_LEN /\ call_rxCb (rxCb (cdc_v s)) p s = None) \/
  exists s' a', call_rxCb (rxCb (cdc_v s)) p s = Some s' /\ hci_inv s' a' done tx pend /\
    h_tasks s' = h_tasks s ++ [(fn_usbcdc_data_handler, p)] /\ h_cmds s' = h_cmds s /\
    lastIndex (cdc_v s') = lastIndex (cdc_v s) /\ timer (cdc_v s') = timer (cdc_v s) /\
    bufs_kept (p :: tx.*1 ++ pend.*1 ++ (h_tasks s).*2) (h_mem s) (h_mem s').
Proof.
  intros Hi. destruct (hi_cbs _ _ _ _ _ Hi) as [Hrc Htc]. destruct links_set as [Hnz _].
  unfold call_rxCb. cbn in Hrc. rewrite Hrc, (proj2 (Z.eqb_neq _ _) Hnz), Z.eqb_refl.
  unfold usbcdc_rxCb, TL_SCHEDULE_TASK, buf_allocate.
  change (h_buf (with_h_tasks (h_tasks s ++ [(fn_usbcdc_data_handler, p)]) s)) with (h_buf s).
  destruct (allocate_client (h_buf s) a _ RX_BUF_LEN (hi_bufs _ _ _ _ _ Hi)) as (q & b & E & K & _ & Hcase).
  rewrite E. set (L := p :: tx.*1 ++ pend.*1 ++ (h_tasks s).*2).
  change (bufs_kept L (h_mem s) (b_mem b)) in K.
  destruct Hcase as [(-> & Hno & Hh)|(Hq & Hni & Hcap & Hh)].
  { left. done. }
  right. set (a1 := (abs_allocate RX_BUF_LEN a).2) in Hh. rewrite (proj2 (Z.eqb_neq q 0)) by lia. unfold RX_BUF_LEN in Hcap.
  change (holds_bufs b a1 (q :: L)) in Hh. change (q ∉ L) in Hni.
  destruct (store_bytes_kept b a1 _ q q (replicate 64 0) Hh) as [Hh1 K1]; [by left|lia|cbn; lia|].
  assert (Kall : bufs_kept L (h_mem s) (store_bytes (b_mem b) q (replicate 64 0))).
  { intros w y Hw Hy. assert (w <> q) by congruence. etrans; [apply (K1 w y); [by right|done|done]|]. by apply (K w y). }
  pose proof (inv_msgs_kept _ _ _ _ _ _ Hi Kall) as Hm.
  assert (Hsub : pend.*1 ⊆ L).
  { intros w Hw. right. apply elem_of_app. right. apply elem_of_app. by left. }
  pose proof (queue_bufs_kept _ _ _ _ _ (hi_queue _ _ _ _ _ Hi) Kall Hsub) as Hqq.
  eexists _, a1. split; [done|]. split_and!; try done. destruct Hi. cbn in *.
  split; cbn; try done.
  - eapply holds_bufs_perm; [exact Hh1|]. rewrite fmap_app. cbn. unfold L. solve_Permutation.
  - rewrite Forall_app. split; [done|]. by constructor.
Qed.
(** The buffer is handed on: the end of [usbcdc_recvData] and [usbcdc_recvTimeoutCb]. *)
Lemma hand_on_spec s a done tx pend :
  hci_inv s a done tx pend ->
  let s1 := on_cdc (set_rxBuf 0) (on_cdc (set_lastIndex 0) s) in
  (no_buffer a RX_BUF_LEN /\ call_rxCb (rxCb (cdc_v s1)) (rxBuf (cdc_v s)) s1 = None) \/
  exists s' a', call_rxCb (rxCb (cdc_v s1)) (rxBuf (cdc_v s)) s1 = Some s' /\ hci_inv s' a' done tx pend /\
    h_cmds s' = h_cmds s /\ h_tasks s' = h_tasks s ++ [(fn_usbcdc_data_handler, rxBuf (cdc_v s))] /\
    lastIndex (cdc_v s') = 0 /\
    bufs_kept (rxBuf (cdc_v s) :: (h_tasks s).*2) (h_mem s) (h_mem s').
Proof.
  intros Hi s1.
  assert (Hi1 : hci_inv (usbcdc_setRxBuf (rxBuf (cdc_v s)) s1) a done tx pend).
  { apply (inv_cdc s a done tx pend (set_rxBuf (rxBuf (cdc_v s)) (cdc_v s1))); try done. }
  destruct (rxCb_spec s1 a done tx pend _ Hi1) as [[Hno E]|(s' & a' & E & Hi' & Et & Ec & El & _ & K)]; [by left|right].
  exists s', a'. split_and!; try done.
  eapply bufs_kept_sub; [exact K|]. change (h_tasks s1) with (h_tasks s).
  intros w. rewrite !elem_of_cons, !elem_of_app. tauto.
Qed.

(** The message so far, and the packet's bytes behind it. *)
Lemma recv_spec s a done tx pend :
  hci_inv s a done tx pend ->
  let len := (rd (reg_usb_ep_ptr CDC_RX_EPNUM) (h_usb s)).1 in
  let bs := rx_bytes (Z.to_nat len) (u_tr (usbhw_reset_ep_ptr CDC_RX_EPNUM (rd (reg_usb_ep_ptr CDC_RX_EPNUM) (h_usb s)).2)) in
  lastIndex (cdc_v s) + len <= RX_BUF_LEN ->
  (no_buffer a RX_BUF_LEN /\ len <> 64 /\ usbcdc_recvData s = None) \/
  exists s' a', usbcdc_recvData s = Some s' /\ hci_inv s' a' done tx pend /\ recv_out len s s' /\
    bufs_kept (h_tasks s).*2 (h_mem s) (h_mem s') /\
    load_bytes (h_mem s') (rxBuf (cdc_v s)) (Z.to_nat (lastIndex (cdc_v s) + len)) =
    load_bytes (h_mem s) (rxBuf (cdc_v s)) (Z.to_nat (lastIndex (cdc_v s))) ++ bs.
Proof.
  intros Hi len bs Hlen. pose proof (rx_nonzero _ _ _ _ _ Hi) as Hnz. unfold usbcdc_recvData.
  rewrite (proj2 (Z.eqb_neq _ _) Hnz).
  set (s1 := if negb (timer (cdc_v s) =? 0) then _ else s).
  assert (Hs1 : hci_inv s1 a done tx pend /\ h_usb s1 = h_usb s /\ h_buf s1 = h_buf s /\ h_tasks s1 = h_tasks s /\
    h_cmds s1 = h_cmds s /\ rxBuf (cdc_v s1) = rxBuf (cdc_v s) /\ lastIndex (cdc_v s1) = lastIndex (cdc_v s)).
  { unfold s1. destruct (negb _); [|done]. destruct (tmr_cancel _ _) as [q t]. split; [|done].
    apply inv_cdc; try done; [by apply inv_tm|apply (hi_index _ _ _ _ _ Hi)]. }
  clearbody s1. destruct Hs1 as (Hi1 & Eu & Eb & Et & Ec & Er & El). unfold ask_usb.
  change (reg_usb_ep_ptr (Z.land CDC_RX_EPNUM 7)) with (reg_usb_ep_ptr CDC_RX_EPNUM).
  change (rd (reg_usb_ep_ptr CDC_RX_EPNUM) (h_usb s1))
    with ((rd (reg_usb_ep_ptr CDC_RX_EPNUM) (h_usb s1)).1, (rd (reg_usb_ep_ptr CDC_RX_EPNUM) (h_usb s1)).2).
  cbv beta iota zeta. rewrite Eu. fold len.
  set (s2 := on_usb (usbhw_reset_ep_ptr CDC_RX_EPNUM) _).
  assert (Hi2 : hci_inv s2 a done tx pend).
  { apply inv_on_usb; [|by apply silent_wr]. apply inv_usb; [done|]. rewrite Eu. apply silent_rd. }
  assert (Hl0 : 0 <= len < 256) by apply u8_range.
  destruct (inv_read s2 a done tx pend (Z.to_nat len) Hi2) as (Hi3 & Em & Ev & Et3 & Ec3 & K3).
  { change (cdc_v s2) with (cdc_v s1). rewrite El. lia. }
  set (s3 := read_fifo (Z.to_nat len) s2) in *.
  change (h_mem s2) with (b_mem (h_buf s1)) in Em, K3. change (cdc_v s2) with (cdc_v s1) in Em, Ev.
  change (h_tasks s2) with (h_tasks s1) in Et3, K3. change (h_cmds s2) with (h_cmds s1) in Ec3.
  change (u_tr (h_usb s2)) with (u_tr (usbhw_reset_ep_ptr CDC_RX_EPNUM (rd (reg_usb_ep_ptr CDC_RX_EPNUM) (h_usb s)).2)) in Em.
  rewrite Eb, Er, El in Em. fold bs in Em. rewrite Eb, Et in K3. rewrite Z2Nat.id, El in Ev by lia.
  assert (Hx : 0 <= lastIndex (cdc_v s)) by apply (hi_index _ _ _ _ _ Hi).
  assert (Hbytes : load_bytes (h_mem s3) (rxBuf (cdc_v s)) (Z.to_nat (lastIndex (cdc_v s) + len)) =
            load_bytes (h_mem s) (rxBuf (cdc_v s)) (Z.to_nat (lastIndex (cdc_v s))) ++ bs).
  { rewrite Z2Nat.inj_add, load_bytes_app, Z2Nat.id, Em by lia. f_equal.
    - apply load_bytes_ext. intros i Hi'. rewrite load8_store_bytes.
      cmp_false ((rxBuf (cdc_v s) + lastIndex (cdc_v s) <=? rxBuf (cdc_v s) + i) && (rxBuf (cdc_v s) + i <? rxBuf (cdc_v s) + lastIndex (cdc_v s) + Z.of_nat (length bs))). done.
    - replace (Z.to_nat len) with (length bs) by apply length_rx_bytes. apply load_store_bytes. apply rx_bytes_bytes. }
  assert (Kt : bufs_kept (h_tasks s).*2 (h_mem s) (h_mem s3)).
  { eapply bufs_kept_sub; [exact K3|]. set_solver. }
  destruct (Z.eqb_spec len CDC_TXRX_EPSIZE) as [H64|H64]; cbn [negb].
  - right. destruct (tmr_post _ _ _ _) as [q t]. eexists _, a. split; [done|]. split_and!.
    + apply inv_cdc; try done; [by apply inv_tm|apply (hi_index _ _ _ _ _ Hi3)].
    + split; [cbn; congruence|]. rewrite (proj2 (Z.eqb_eq len CDC_TXRX_EPSIZE) H64). split; [cbn; congruence|].
      split; [change (lastIndex (cdc_v s3) = lastIndex (cdc_v s) + len); by rewrite Ev|].
      change (rxBuf (cdc_v s3) = rxBuf (cdc_v s)). rewrite Ev. exact Er.
    + done.
    + done.
  - destruct (hand_on_spec s3 a done tx pend Hi3) as [[Hno E]|(s' & a' & E & Hi' & Ecm & Ets & Elx & K)].
    + left. split_and!; [done|done|]. cbv zeta in E. rewrite <- E. done.
    + right. assert (Erx : rxBuf (cdc_v s3) = rxBuf (cdc_v s)) by (rewrite Ev; exact Er).
      cbv zeta in E. exists s', a'. split; [rewrite <- E; done|]. rewrite Erx, Et3, Et in *. split_and!.
      * done.
      * split; [congruence|]. by rewrite (proj2 (Z.eqb_neq len CDC_TXRX_EPSIZE) H64).
      * eapply bufs_kept_trans; [exact Kt|]. eapply bufs_kept_sub; [exact K|set_solver].
      * rewrite <- Hbytes. apply load_bytes_ext. intros i Hi0. apply (K (rxBuf (cdc_v s))); [by left|].
        right. pose proof (hi_rx _ _ _ _ _ Hi). lia.
Qed.

(** ** The poll of the main loop *)
Context `{!EpLaws} (fuel : nat) (fuel_ok : 10003 <= Z.of_nat fuel).

(** What a poll leaves of the reception: nothing new, or the packet. *)
Definition poll_out s s' : Prop :=
  h_cmds s' = h_cmds s /\ payload_kept (h_tasks s).*2 (h_mem s) (h_mem s') /\
  if packet_waits (h_usb s) then
    recv_out (packet_len (h_usb s)) s s' /\
    load_bytes (h_mem s') (rxBuf (cdc_v s)) (Z.to_nat (lastIndex (cdc_v s) + packet_len (h_usb s))) =
    load_bytes (h_mem s) (rxBuf (cdc_v s)) (Z.to_nat (lastIndex (cdc_v s))) ++ packet_bytes (h_usb s)
  else
    h_tasks s' = h_tasks s /\ lastIndex (cdc_v s') = lastIndex (cdc_v s) /\ rxBuf (cdc_v s') = rxBuf (cdc_v s) /\
    payload_kept [rxBuf (cdc_v s)] (h_mem s) (h_mem s').

(** A packet, with what was received before, fits the receive buffer. *)
Definition packet_fits s : Prop :=
  packet_waits (h_usb s) = true -> lastIndex (cdc_v s) + packet_len (h_usb s) <= RX_BUF_LEN.

(** The part of a poll that transmits. *)
Lemma poll_tx_spec s a done tx pend irq :
  hci_inv s a done tx pend ->
  exists s' a' done' tx' pend',
    (if negb (Z.land irq (Z.shiftl 1 (Z.land CDC_TX_EPNUM 7)) =? 0) then
       let s := on_usb (usbhw_clr_eps_irq (Z.shiftl 1 (Z.land CDC_TX_EPNUM 7))) s in
       '(n, s) ← usbcdc_sendBulkData fuel (call_tx fuel) s;
       if negb (n =? 0) then Some (on_usb (usbhw_data_ep_ack CDC_RX_EPNUM) s) else Some s
     else Some s) = Some s' /\
    hci_inv s' a' done' tx' pend' /\ bulk_out a done tx pend a' done' tx' pend' /\ keeps s s'.
Proof.
  intros Hi. destruct (negb _).
  2:{ exists s, a, done, tx, pend. split_and!; [done|done|by left|apply hci_keeps_refl]. }
  cbv zeta. set (s1 := on_usb _ s).
  assert (Hi1 : hci_inv s1 a done tx pend) by (apply inv_on_usb; [done|by apply silent_wr]).
  destruct (bulk_spec fuel fuel_ok s1 a done tx pend Hi1) as (n & s2 & a2 & done' & tx' & pend' & E & Hi2 & Ho & K & _).
  rewrite E. cbn [mbind option_bind].
  assert (K2 : keeps s s2) by (eapply hci_keeps_trans; [|exact K]; done).
  destruct (negb _); [|by eexists s2, a2, done', tx', pend'].
  exists (on_usb (usbhw_data_ep_ack CDC_RX_EPNUM) s2), a2, done', tx', pend'.
  split; [done|]. split; [apply inv_on_usb; [done|by apply silent_wr]|]. split; [done|].
  eapply hci_keeps_trans; [exact K2|]. by split.
Qed.

(** Transmission leaves what was received alone. *)
Lemma poll_out_keeps s s1 s' :
  RX_BUF_LEN <= buf_cap (rxBuf (cdc_v s)) -> packet_fits s -> poll_out s s1 -> keeps s1 s' -> poll_out s s'.
Proof.
  intros Hcap Hfit (Ec & Kt & Ho) [K1 K2 K3 K4 K5]. unfold poll_out.
  rewrite K3. split; [done|]. unfold packet_fits in Hfit. destruct (packet_waits (h_usb s)).
  - destruct Ho as [[Ec' Ho] Hb]. specialize (Hfit eq_refl).
    assert (Hin : (h_tasks s).*2 ⊆ (h_tasks s1).*2 /\ rxBuf (cdc_v s) ∈ rxBuf (cdc_v s1) :: (h_tasks s1).*2).
    { destruct (packet_len (h_usb s) =? CDC_TXRX_EPSIZE).
      - destruct Ho as (-> & _ & ->). split; [done|by left].
      - destruct Ho as (-> & _). rewrite fmap_app. split; [set_solver|]. right. apply elem_of_app. right. by left. }
    destruct Hin as [Hsub Hin]. split; [|split].
    + eapply payload_trans; [exact Kt|]. eapply payload_sub; [exact K5|]. intros w Hw. right. by apply Hsub.
    + split; [congruence|]. rewrite K2, K4. destruct (_ =? _); [|done].
      destruct Ho as (? & ? & ?). split_and!; [done|done|congruence].
    + rewrite <- Hb. apply load_bytes_ext. intros i Hr. apply (K5 (rxBuf (cdc_v s))); [done|].
      unfold RX_BUF_LEN in *. lia.
  - destruct Ho as (Et & El & Er & Kr). rewrite K1, K2, K4, Er in *. split; [|split_and!; try done].
    + eapply payload_trans; [exact Kt|]. eapply payload_sub; [exact K5|]. rewrite Et. intros w Hw. by right.
    + eapply payload_trans; [exact Kr|]. eapply payload_sub; [exact K5|]. set_solver.
Qed.

Lemma poll_spec s a done tx pend :
  hci_inv s a done tx pend -> packet_fits s ->
  (no_buffer a RX_BUF_LEN /\ packet_waits (h_usb s) = true /\ zbhciTask fuel s = None) \/
  exists s' a' done' tx' pend', zbhciTask fuel s = Some s' /\
    hci_inv s' a' done' tx' pend' /\ (exists a1, bulk_out a1 done tx pend a' done' tx' pend') /\ poll_out s s'.
Proof.
  intros Hi Hfit. unfold zbhciTask, usb_handle_irq, usbcdc_dataHandler, ask_usb.
  set (s1 := on_usb handle_ctrl_irq s).
  assert (Hi1 : hci_inv s1 a done tx pend).
  { apply inv_on_usb; [done|]. apply ctrl_silent, ctrl_handle. by apply ctrl_refl. }
  change (usbhw_get_eps_irq (h_usb s1)) with (poll_irq (h_usb s), (usbhw_get_eps_irq (handle_ctrl_irq (h_usb s))).2).
  cbv beta iota zeta.
  change (Z.shiftl 1 (Z.land CDC_RX_EPNUM 7)) with 0x20.
  set (s2 := with_h_usb _ s1).
  assert (Hi2 : hci_inv s2 a done tx pend) by (apply inv_usb; [done|apply silent_rd]).
  assert (Hcases : (no_buffer a RX_BUF_LEN /\ packet_waits (h_usb s) = true /\
      (if negb (Z.land (poll_irq (h_usb s)) 0x20 =? 0) then
         s3 ← usbcdc_recvData (on_usb (usbhw_clr_eps_irq 0x20) s2);
         Some (on_usb (usbhw_data_ep_ack CDC_RX_EPNUM) s3)
       else Some s2) = None) \/
    exists s3 a3, (if negb (Z.land (poll_irq (h_usb s)) 0x20 =? 0) then
         s3 ← usbcdc_recvData (on_usb (usbhw_clr_eps_irq 0x20) s2);
         Some (on_usb (usbhw_data_ep_ack CDC_RX_EPNUM) s3)
       else Some s2) = Some s3 /\ hci_inv s3 a3 done tx pend /\ poll_out s s3).
  { unfold poll_out. unfold packet_fits, packet_waits in *.
    destruct (negb _).
    - set (s2' := on_usb _ s2).
      assert (Hi2' : hci_inv s2' a done tx pend) by (apply inv_on_usb; [done|by apply silent_wr]).
      destruct (recv_spec s2' a done tx pend Hi2' (Hfit eq_refl)) as [(Hno & H64 & E)|(s3 & a3 & E & Hi3 & Ho & K & Hb)].
      + left. split_and!; [done|done|]. by rewrite E.
      + right. rewrite E. cbn [mbind option_bind]. eexists _, a3. split; [done|]. split.
        * apply inv_on_usb; [done|by apply silent_wr].
        * split_and!; [apply Ho|by apply payload_of_bufs|exact Ho|exact Hb].
    - right. eexists _, a. split; [done|]. split; [done|]. split_and!; done. }
  destruct Hcases as [(Hno & Hw & E)|(s3 & a3 & E & Hi3 & Ho)].
  { left. split_and!; [done|done|]. rewrite E. done. }
  right. rewrite E. cbn [mbind option_bind].
  destruct (poll_tx_spec s3 a3 done tx pend (poll_irq (h_usb s)) Hi3) as (s' & a' & done' & tx' & pend' & E' & Hi' & Hbo & K).
  exists s', a', done', tx', pend'. split_and!; [exact E'|done|by exists a3|].
  apply (poll_out_keeps s s3 s'); [apply (hi_rx _ _ _ _ _ Hi)|done..].
Qed.
(** ** The receive timer *)
Lemma timeout_spec s a done tx pend :
  hci_inv s a done tx pend ->
  (no_buffer a RX_BUF_LEN /\ usbcdc_recvTimeoutCb s = None) \/
  exists s' a', usbcdc_recvTimeoutCb s = Some (-1, s') /\ hci_inv s' a' done tx pend /\ h_cmds s' = h_cmds s /\
    h_tasks s' = h_tasks s ++ [(fn_usbcdc_data_handler, rxBuf (cdc_v s))] /\ lastIndex (cdc_v s') = 0 /\
    timer (cdc_v s') = 0.
Proof.
  intros Hi. unfold usbcdc_recvTimeoutCb.
  destruct (hand_on_spec s a done tx pend Hi) as [[Hno E]|(s1 & a1 & E & Hi1 & Ec & Et & El & _)]; cbv zeta in E.
  - left. split; [done|]. change (rxBuf (cdc_v (on_cdc (set_lastIndex 0) s))) with (rxBuf (cdc_v s)). by rewrite E.
  - right. change (rxBuf (cdc_v (on_cdc (set_lastIndex 0) s))) with (rxBuf (cdc_v s)). rewrite E. cbn [mbind option_bind].
    eexists _, a1. split; [done|]. split; [|done]. apply inv_cdc; try done. apply (hi_index _ _ _ _ _ Hi1).
Qed.

(** ** The handler of received messages *)

(** What the handler's report to the host says: the type and the status; the
    type is lost unless only the end flag is wrong. *)
Definition ack_bytes (m : mem) (p : Z) : list Z :=
  let st := check_message m p in
  if st =? ZBHCI_MSG_STATUS_ERROR_END_CHAR then [load8 m (p + 1); load8 m (p + 2); st; 0] else [0xff; 0xff; st; 0].

Lemma check_message_status m p :
  check_message m p = 0 \/ check_message m p = ZBHCI_MSG_STATUS_ERROR_END_CHAR \/
  check_message m p = ZBHCI_MSG_STATUS_MSG_OVERFLOW \/ check_message m p = ZBHCI_MSG_STATUS_ERROR_START_CHAR.
Proof. unfold check_message. repeat case_match; auto. Qed.

Lemma bytes4 a b c d : 0 <= a < 256 -> 0 <= b < 256 -> 0 <= c < 256 -> 0 <= d < 256 -> bytes [a; b; c; d].
Proof. intros. by repeat (apply Forall_cons; split; [done|]). Qed.

Lemma ack_bytes_bytes m p : bytes (ack_bytes m p).
Proof.
  assert (Hst : 0 <= check_message m p < 256).
  { destruct (check_message_status m p) as [->|[->|[->| ->]]]; done. }
  unfold ack_bytes. destruct (_ =? _); apply bytes4; try done; apply load8_range.
Qed.

(** The buffer of the oldest task is released. *)
Lemma inv_freed s a done tx pend f p ts :
  hci_inv s a done tx pend -> h_tasks s = (f, p) :: ts ->
  exists s', buf_free p s = Some s' /\ hci_inv (with_h_tasks (drop 1 (h_tasks s')) s') (abs_free p a).2 done tx pend /\
    h_tasks s' = h_tasks s /\ h_cmds s' = h_cmds s /\ cdc_v s' = cdc_v s.
Proof.
  intros Hi Ht. pose proof (hi_bufs _ _ _ _ _ Hi) as Hh. rewrite Ht in Hh.
  assert (Hh' : holds_bufs (h_buf s) a ((rxBuf (cdc_v s) :: tx.*1 ++ pend.*1) ++ p :: ts.*2)).
  { cbn [app]. rewrite <- app_assoc. exact Hh. }
  destruct (free_client_exact _ _ _ _ _ Hh') as (b & E & Hb & K & _). unfold buf_free. rewrite E. cbn [mbind option_bind].
  eexists. split; [done|]. split; [|done]. cbn [h_tasks with_h_buf]. rewrite Ht. cbn [drop].
  set (L := (rxBuf (cdc_v s) :: tx.*1 ++ pend.*1) ++ ts.*2) in *.
  assert (Hm : Forall (msg_ok (b_mem b)) (tx ++ pend)).
  { apply (msgs_kept L (h_mem s)); [by apply payload_of_bufs| |exact (hi_msgs _ _ _ _ _ Hi)].
    rewrite fmap_app. unfold L. set_solver. }
  assert (Hsub : pend.*1 ⊆ L) by (unfold L; set_solver).
  pose proof (queue_bufs_kept _ _ _ _ _ (hi_queue _ _ _ _ _ Hi) K Hsub) as Hq.
  pose proof (hi_tasks _ _ _ _ _ Hi) as Hts. rewrite Ht in Hts. apply Forall_cons in Hts as [_ Hts].
  destruct Hi. split; try done. cbn. unfold L in Hb. cbn [app] in Hb. by rewrite <- app_assoc in Hb.
Qed.

(** Bytes stored into the buffer of a task. *)
Lemma inv_store s a done tx pend p x bs :
  hci_inv s a done tx pend -> p ∈ (h_tasks s).*2 -> p <= x -> x + Z.of_nat (length bs) <= p + buf_cap p ->
  hci_inv (with_h_mem (store_bytes (h_mem s) x bs) s) a done tx pend.
Proof.
  intros Hi Hp Hx Hl. pose proof (hi_bufs _ _ _ _ _ Hi) as Hh.
  pose proof (hb_nodup _ _ _ Hh) as Hnd.
  assert (Hd : forall w, w ∈ tx.*1 ++ pend.*1 -> w <> p).
  { intros w Hw ->. apply NoDup_cons in Hnd as [_ Hnd]. rewrite app_assoc in Hnd.
    apply NoDup_app in Hnd as (_ & Hnd & _). by apply (Hnd p). }
  destruct (store_bytes_kept (h_buf s) a _ p x bs Hh) as [Hh' K]; [set_solver|lia|lia|].
  assert (Kb : bufs_kept (tx.*1 ++ pend.*1) (h_mem s) (store_bytes (h_mem s) x bs)).
  { intros w y Hw Hy. apply (K w y); [set_solver|by apply Hd|done]. }
  assert (Hm : Forall (msg_ok (store_bytes (h_mem s) x bs)) (tx ++ pend)).
  { apply (msgs_kept (tx.*1 ++ pend.*1) (h_mem s)); [by apply payload_of_bufs| |exact (hi_msgs _ _ _ _ _ Hi)].
    by rewrite fmap_app. }
  assert (Hsub : pend.*1 ⊆ tx.*1 ++ pend.*1) by set_solver.
  pose proof (queue_bufs_kept _ _ _ _ _ (hi_queue _ _ _ _ _ Hi) Kb Hsub) as Hq.
  destruct Hi. by split.
Qed.

(** A scheduled task: the message goes to the application, or the status to the
    host; either way the buffer is free again. *)
Lemma task_spec s a done tx pend f p ts :
  hci_inv s a done tx pend -> h_tasks s = (f, p) :: ts ->
  exists s' a' done' tx' pend', run_task fuel s = Some s' /\ hci_inv s' a' done' tx' pend' /\ h_tasks s' = ts /\
    rxBuf (cdc_v s') = rxBuf (cdc_v s) /\ lastIndex (cdc_v s') = lastIndex (cdc_v s) /\
    if check_message (h_mem s) p =? 0 then
      let n := Z.lor (Z.shiftl (load8 (h_mem s) (p + 3)) 8) (load8 (h_mem s) (p + 4)) in
      let type := u16 (Z.shiftl (load8 (h_mem s) (p + 1)) 8 + load8 (h_mem s) (p + 2)) in
      h_cmds s' = h_cmds s ++ [(type, n, load_bytes (h_mem s) (p + 6) (Z.to_nat n))] /\
      a' = (abs_free p a).2 /\ done' = done /\ tx' = tx /\ pend' = pend
    else
      h_cmds s' = h_cmds s /\
      exists r a2, a' = (abs_free p a2).2 /\
        tx_out a 4 (frame ZBHCI_CMD_ACKNOWLEDGE 4 (ack_bytes (h_mem s) p)) done tx pend r a2 done' tx' pend' /\
        (r = ZBHCI_TX_SUCCESS -> tx = [] -> ((usbhw_is_ep_busy CDC_TX_EPNUM (h_usb s)).1 = 0 <-> tx' = [])).
Proof.
  intros Hi Ht. unfold run_task. rewrite Ht.
  pose proof (hi_tasks _ _ _ _ _ Hi) as Hf. rewrite Ht in Hf. apply Forall_cons in Hf as [Hf _]. cbn in Hf. subst f.
  rewrite Z.eqb_refl. unfold usbcdc_data_handler.
  destruct (check_message (h_mem s) p =? 0) eqn:Est.
  - cbn [mbind option_bind]. set (s1 := with_h_cmds _ s).
    assert (Hi1 : hci_inv s1 a done tx pend) by (destruct Hi; by split).
    destruct (inv_freed s1 a done tx pend _ p ts Hi1 Ht) as (s2 & E & Hi2 & Et & Ec & Ev).
    rewrite E. cbn [mbind option_bind]. eexists _, _, done, tx, pend. split; [done|]. split; [exact Hi2|].
    cbn [with_h_tasks h_tasks cdc_v h_cmds]. rewrite Et, Ev, Ec. change (h_tasks s1) with (h_tasks s). rewrite Ht. done.
  - set (st := check_message (h_mem s) p) in *.
    set (s1 := if (st =? _) || _ || _ then with_h_mem _ s else s).
    assert (Hcap : 16 <= buf_cap p).
    { pose proof (held_range _ _ _ p (hi_bufs _ _ _ _ _ Hi)) as Hr. rewrite Ht in Hr. apply Hr.
      right. apply elem_of_app. right. apply elem_of_app. right. by left. }
    assert (Hin : p ∈ (h_tasks s).*2) by (rewrite Ht; by left).
    assert (H1' : hci_inv s1 a done tx pend /\ h_tasks s1 = h_tasks s /\ h_cmds s1 = h_cmds s /\ cdc_v s1 = cdc_v s /\ h_usb s1 = h_usb s /\
      [load8 (h_mem s1) (p + 1); load8 (h_mem s1) (p + 2); st; 0] = ack_bytes (h_mem s) p).
    { unfold s1, ack_bytes. fold st. destruct (check_message_status (h_mem s) p) as [Hz|[Hz|Hz]]; fold st in Hz.
      - by rewrite Hz in Est.
      - rewrite Hz. cbn. done.
      - assert ((st =? ZBHCI_MSG_STATUS_UART_EXCEPT) || (st =? ZBHCI_MSG_STATUS_MSG_OVERFLOW)
                || (st =? ZBHCI_MSG_STATUS_ERROR_START_CHAR) = true) as -> by (by destruct Hz as [-> | ->]).
        assert ((st =? ZBHCI_MSG_STATUS_ERROR_END_CHAR) = false) as -> by (by destruct Hz as [-> | ->]).
        split; [|split_and!; try done].
        + assert (store8 (store8 (h_mem s) (p + 1) 255) (p + 2) 255 = store_bytes (h_mem s) (p + 1) [255; 255]) as ->.
          { cbn [store_bytes]. by replace (p + 1 + 1) with (p + 2) by lia. }
          apply (inv_store s a done tx pend p); [done|done|lia|cbn [length]; lia].
        + cbn. rewrite load8_store8_eq, load8_store8_ne, load8_store8_eq by lia. done. }
    clearbody s1. destruct H1' as (Hi1 & Et1 & Ec1 & Ev1 & Eu1 & Eret). rewrite Eret. unfold zbhciTx.
    destruct (txMsg_spec fuel fuel_ok s1 a done tx pend ZBHCI_CMD_ACKNOWLEDGE 4 _ Hi1 ltac:(lia) (ack_bytes_bytes (h_mem s) p))
      as (r & s2 & a2 & done' & tx' & pend' & E & Hi2 & Ho & K & Hfree & Hbusy).
    rewrite E. cbn [mbind option_bind].
    assert (Et2 : h_tasks s2 = (fn_usbcdc_data_handler, p) :: ts) by (rewrite (kp_tasks _ _ K); congruence).
    destruct (inv_freed s2 a2 done' tx' pend' _ p ts Hi2 Et2) as (s3 & E3 & Hi3 & Et3 & Ec3 & Ev3).
    rewrite E3. cbn [mbind option_bind]. eexists _, _, done', tx', pend'. split; [done|]. split; [exact Hi3|].
    cbn [with_h_tasks h_tasks cdc_v h_cmds]. rewrite Et3, Et2, Ec3, (kp_cmds _ _ K), Ev3, (kp_rx _ _ K), (kp_index _ _ K).
    split_and!; [done|congruence|congruence|congruence|]. exists r, a2. split; [done|]. split; [exact Ho|].
    rewrite Eu1 in Hfree, Hbusy. intros Er Etx. split; [intros Hb; by apply Hfree|]. intros E0.
    destruct (Z.eqb_spec (usbhw_is_ep_busy CDC_TX_EPNUM (h_usb s)).1 0) as [|Hne]; [done|]. by destruct (Hbusy Er Etx Hne).
Qed.
End Rx.
