(* ===== verification/HciProps.v ===== *)
(** * The properties of the host interface

    Initialisation establishes the invariant; runs keep it.  What goes over the
    wire is what was asked for, frame by frame; a frame that arrives is handed to
    the application as it was sent; everything else that arrives is answered with
    a status. *)
From S2P Require Import Prelude Memory Linked ListC SysEv Mempool EvBuffer BufClient EvQueue BufQueue EvTimer TimerIf UsbDesc Usb UsbProps Hci HciInv HciRx.

Section Runs.
Context `{UsbRegs, EvLayoutOk, PriFuncs, HciLinks} {T : Type} `{TimerSvc T}.
Context `{!EpLaws, !HciLinksOk} (fuel : nat) (fuel_ok : 10003 <= Z.of_nat fuel).
Implicit Type s : hci T.

(** What a step may assume: bytes to send, packets that fit the receive buffer
    (nothing in [usbcdc_recvData] checks it). *)
Definition op_ok (op : hci_op) s : Prop :=
  match op with OpTx _ n d => 0 <= n /\ bytes d | OpPoll => packet_fits s | _ => True end.

Fixpoint run_ok (ops : list hci_op) s : Prop :=
  match ops with
  | [] => True
  | op :: ops' => op_ok op s /\ match hci_step fuel op s with Some s' => run_ok ops' s' | None => True end
  end.

(** The messages a step asks to send: the application's, or the handler's report
    on a message it rejects. *)
Definition op_msgs (op : hci_op) s : list (list Z) :=
  match op with
  | OpTx t n d => if TX_BUF_LEN <? n then [] else [frame t n d]
  | OpTask =>
      match h_tasks s with
      | (_, p) :: _ => if check_message (h_mem s) p =? 0 then [] else [frame ZBHCI_CMD_ACKNOWLEDGE 4 (ack_bytes (h_mem s) p)]
      | [] => []
      end
  | _ => []
  end.

Fixpoint run_msgs (ops : list hci_op) s : list (list Z) :=
  match ops with
  | [] => []
  | op :: ops' => op_msgs op s ++ match hci_step fuel op s with Some s' => run_msgs ops' s' | None => [] end
  end.

(** The messages sent or being sent are among those asked for, in order, and a
    pending message stays pending. *)
Definition advances (log : list (list Z)) done (tx pend : list (Z * list Z)) done' (tx' pend' : list (Z * list Z)) : Prop :=
  done `prefix_of` done' /\ done' ++ tx'.*2 `sublist_of` done ++ tx.*2 ++ log /\ pend ⊆+ pend'.

Lemma advances_refl done tx pend : advances [] done tx pend done tx pend.
Proof. split; [done|]. split; [by rewrite app_nil_r|done]. Qed.

Lemma advances_trans l1 l2 d1 t1 p1 d2 t2 p2 d3 t3 p3 :
  advances l1 d1 t1 p1 d2 t2 p2 -> advances l2 d2 t2 p2 d3 t3 p3 -> advances (l1 ++ l2) d1 t1 p1 d3 t3 p3.
Proof.
  intros (A1 & A2 & A3) (B1 & B2 & B3). split; [by etrans|]. split; [|by etrans].
  etrans; [exact B2|]. rewrite (app_assoc d2), !(app_assoc d1). rewrite (app_assoc d1) in A2.
  rewrite (app_assoc (d1 ++ t1.*2)). by apply sublist_app.
Qed.

Lemma bulk_advances a done tx pend a' done' tx' pend' :
  bulk_out a done tx pend a' done' tx' pend' -> advances [] done tx pend done' tx' pend'.
Proof.
  intros [(_ & -> & -> & ->)|(p & bs & -> & _ & -> & -> & ->)]; [apply advances_refl|].
  split; [by exists [bs]|]. split; [by rewrite !app_nil_r|]. by rewrite rotate_perm.
Qed.

Lemma tx_advances a n fr done tx pend r a' done' tx' pend' :
  tx_out a n fr done tx pend r a' done' tx' pend' ->
  advances (if TX_BUF_LEN <? n then [] else [fr]) done tx pend done' tx' pend'.
Proof.
  intros Ho. destruct Ho as [Hn|Hn Hno|p a' done' tx' pend' Hn _ _ -> Hb|p Hn _ _ Ht].
  - rewrite (proj2 (Z.ltb_lt _ _) Hn). apply advances_refl.
  - rewrite (proj2 (Z.ltb_ge _ _) Hn). split; [done|]. split; [|done].
    apply sublist_app; [done|]. by apply sublist_inserts_r.
  - rewrite (proj2 (Z.ltb_ge _ _) Hn). destruct (bulk_advances _ _ _ _ _ _ _ _ Hb) as (A1 & A2 & A3).
    split; [done|]. split; [|done]. by rewrite app_nil_r in A2.
  - rewrite (proj2 (Z.ltb_ge _ _) Hn). split; [done|]. split; [|by apply submseteq_inserts_r].
    apply sublist_app; [done|]. by apply sublist_inserts_r.
Qed.

(** One step: the invariant again, or the code stops for want of a receive buffer. *)
Lemma step_spec op s a done tx pend :
  hci_inv s a done tx pend -> op_ok op s ->
  match hci_step fuel op s with
  | Some s' => exists a' done' tx' pend',
      hci_inv s' a' done' tx' pend' /\ advances (op_msgs op s) done tx pend done' tx' pend'
  | None => no_buffer a RX_BUF_LEN /\ (op = OpPoll \/ op = OpTimeout)
  end.
Proof.
  intros Hi Hok. destruct op as [t n d| | |]; cbn [hci_step op_msgs].
  - destruct Hok as [Hn Hd]. unfold zbhciTx.
    destruct (txMsg_spec fuel fuel_ok s a done tx pend t n d Hi Hn Hd) as (r & s' & a' & done' & tx' & pend' & E & Hi' & Ho & _).
    rewrite E. cbn [mbind option_bind]. exists a', done', tx', pend'. split; [done|]. by eapply tx_advances.
  - destruct (poll_spec fuel fuel_ok s a done tx pend Hi Hok) as [(Hno & _ & E)|(s' & a' & done' & tx' & pend' & E & Hi' & [a1 Ho] & _)];
      rewrite E; [by split; [|left]|].
    exists a', done', tx', pend'. split; [done|]. by eapply bulk_advances.
  - destruct (h_tasks s) as [|[f p] ts] eqn:Et.
    { unfold run_task. rewrite Et. exists a, done, tx, pend. split; [done|apply advances_refl]. }
    destruct (task_spec fuel fuel_ok s a done tx pend f p ts Hi Et) as (s' & a' & done' & tx' & pend' & E & Hi' & _ & _ & _ & Ho).
    rewrite E. exists a', done', tx', pend'. split; [done|]. destruct (_ =? 0).
    + destruct Ho as (_ & _ & -> & -> & ->). apply advances_refl.
    + destruct Ho as (_ & r & a2 & _ & Ho & _). apply (tx_advances _ _ _ _ _ _ _ _ _ _ _ Ho).
  - destruct (timeout_spec s a done tx pend Hi) as [[Hno E]|(s' & a' & E & Hi' & _)]; rewrite E; cbn [mbind option_bind].
    + by split; [|right].
    + exists a', done, tx, pend. split; [done|apply advances_refl].
Qed.

Lemma run_spec ops s a done tx pend :
  hci_inv s a done tx pend -> run_ok ops s ->
  match hci_run fuel ops s with
  | Some s' => exists a' done' tx' pend',
      hci_inv s' a' done' tx' pend' /\ advances (run_msgs ops s) done tx pend done' tx' pend'
  | None => exists ops1 op ops2 s1 a1 done1 tx1 pend1, ops = ops1 ++ op :: ops2 /\ hci_run fuel ops1 s = Some s1 /\
      hci_inv s1 a1 done1 tx1 pend1 /\ no_buffer a1 RX_BUF_LEN /\ (op = OpPoll \/ op = OpTimeout)
  end.
Proof.
  revert s a done tx pend. induction ops as [|op ops IH]; intros s a done tx pend Hi Hok; cbn [hci_run run_msgs].
  { exists a, done, tx, pend. split; [done|apply advances_refl]. }
  destruct Hok as [Hop Hok]. pose proof (step_spec op s a done tx pend Hi Hop) as Hs.
  destruct (hci_step fuel op s) as [s1|] eqn:E1; cbn [mbind option_bind].
  - destruct Hs as (a1 & d1 & t1 & p1 & Hi1 & Ha). specialize (IH s1 a1 d1 t1 p1 Hi1 Hok).
    destruct (hci_run fuel ops s1) as [s'|].
    + destruct IH as (a' & d' & t' & p' & Hi' & Ha'). exists a', d', t', p'. split; [done|]. by eapply advances_trans.
    + destruct IH as (ops1 & op1 & ops2 & s2 & a2 & d2 & t2 & p2 & -> & E2 & Hi2 & Hno & Hwho).
      exists (op :: ops1), op1, ops2, s2, a2, d2, t2, p2. split_and!; try done. cbn [hci_run]. rewrite E1. done.
  - exists [], op, ops, s, a, done, tx, pend. by destruct Hs as [? ?].
Qed.
End Runs.

(** ** Initialisation *)
Section Init.
Context `{UsbRegs, EvLayoutOk, PriFuncs, HciLinks} {T : Type} `{TimerSvc T}.
Implicit Type s : hci T.

(** The driver's state before [zbhciInit]: static data are zero. *)
Record fresh_hci s (a : alloc_state) : Prop := {
  fr_bufs : buf_inv (h_buf s) a;
  fr_cdc : cdc_v s = mk_cdc_ctrl 0 0 0 0 0 0 0 0;
  fr_tasks : h_tasks s = [];
  fr_wire : fifo_out (u_tr (h_usb s)) = [];
}.

Lemma usb_init_silent u : silent u (usb_init u).
Proof. eexists. cbn. rewrite <- !app_assoc. split; [reflexivity|done]. Qed.

Lemma init_spec s a :
  fresh_hci s a ->
  match zbhciInit s with
  | Some s' => hci_inv s' (abs_allocate RX_BUF_LEN a).2 [] [] [] /\ h_cmds s' = h_cmds s /\ usbcdc_txPendingQ s' = empty_queue 0
  | None => no_buffer a RX_BUF_LEN
  end.
Proof.
  intros [Hb Hc Ht Hw]. unfold zbhciInit, usb_cdc_init. cbv zeta.
  set (s1 := usbcdc_setCb _ _ _). unfold buf_allocate. change (h_buf s1) with (h_buf s).
  assert (Hh : holds_bufs (h_buf s) a []) by (split; [done|apply Forall_nil_2|apply NoDup_nil_2]).
  destruct (allocate_client (h_buf s) a [] RX_BUF_LEN Hh) as (p & b & E & _ & _ & Hcase). rewrite E.
  destruct Hcase as [(-> & Hno & _)|(Hp & _ & Hcap & Hh')]; [done|]. set (a' := (abs_allocate RX_BUF_LEN a).2) in *.
  rewrite (proj2 (Z.eqb_neq p 0)) by lia. cbn [ev_queue_init default mbind option_bind].
  unfold RX_BUF_LEN in Hcap.
  destruct (store_bytes_kept b a' [p] p p (replicate 64 0) Hh') as [Hh2 _]; [by left|lia|cbn [length replicate]; lia|].
  split; [|done]. split; try done.
  - change (holds_bufs (with_cpu (with_mem (store_bytes (b_mem b) p (replicate 64 0)) (b_cpu b)) b) a' (p :: (h_tasks s).*2)).
    rewrite Ht. exact Hh2.
  - cbn. by rewrite Hc.
  - change (Forall (fun t => t.1 = fn_usbcdc_data_handler) (h_tasks s)). rewrite Ht. apply Forall_nil_2.
  - cbn [h_usb on_usb with_h_usb]. rewrite (silent_wire _ _ (usb_init_silent _)). exact Hw.
Qed.
End Init.

(** ** Received messages *)

(** The format: start flag, type, length, check sum, data, end flag.  The check
    sum is not looked at. *)
Definition parse_message (bs : list Z) : (Z * Z * list Z) + Z :=
  match bs with
  | start :: t1 :: t0 :: n1 :: n0 :: _ :: rest =>
      let n := 256 * n1 + n0 in
      if negb (start =? ZBHCI_MSG_START_FLAG) then inr ZBHCI_MSG_STATUS_ERROR_START_CHAR
      else if 56 <? n then inr ZBHCI_MSG_STATUS_MSG_OVERFLOW
      else if default 0 (rest !! Z.to_nat n) =? ZBHCI_MSG_END_FLAG then inl (256 * t1 + t0, n, take (Z.to_nat n) rest)
      else inr ZBHCI_MSG_STATUS_ERROR_END_CHAR
  | _ => inr ZBHCI_MSG_STATUS_ERROR_START_CHAR
  end.

(** The first 64 bytes of a buffer. *)
Definition message_in (m : mem) (p : Z) : list Z := load_bytes m p 64.

Lemma message_in_eq m p :
  message_in m p = [load8 m p; load8 m (p + 1); load8 m (p + 2); load8 m (p + 3); load8 m (p + 4); load8 m (p + 5)]
    ++ load_bytes m (p + 6) 58.
Proof.
  unfold message_in. change 64%nat with (6 + 58)%nat. rewrite load_bytes_app. f_equal.
  cbn [load_bytes]. by rewrite <- !Z.add_assoc.
Qed.

Lemma length_field m p :
  Z.lor (Z.shiftl (load8 m (p + 3)) 8) (load8 m (p + 4)) = 256 * load8 m (p + 3) + load8 m (p + 4).
Proof.
  pose proof (load8_range m (p + 3)). pose proof (load8_range m (p + 4)).
  rewrite Z.lor_comm, lor_shiftl_add by lia. lia.
Qed.

Lemma type_field m p :
  u16 (Z.shiftl (load8 m (p + 1)) 8 + load8 m (p + 2)) = 256 * load8 m (p + 1) + load8 m (p + 2).
Proof.
  pose proof (load8_range m (p + 1)). pose proof (load8_range m (p + 2)).
  rewrite Z.shiftl_mul_pow2, u16_small by lia. lia.
Qed.

(** The two bytes of the type in the handler's report: only a message whose end
    flag is wrong is named. *)
Definition ack_type (bs : list Z) (st : Z) : list Z :=
  if st =? ZBHCI_MSG_STATUS_ERROR_END_CHAR then [nth 1 bs 0; nth 2 bs 0] else [0xff; 0xff].

Lemma ack_bytes_eq m p : ack_bytes m p = ack_type (message_in m p) (check_message m p) ++ [check_message m p; 0].
Proof. unfold ack_bytes, ack_type. rewrite message_in_eq. by destruct (_ =? _). Qed.

(** The handler's check is that format. *)
Lemma check_parse m p :
  match parse_message (message_in m p) with
  | inl (t, n, d) => check_message m p = 0 /\
      u16 (Z.shiftl (load8 m (p + 1)) 8 + load8 m (p + 2)) = t /\
      Z.lor (Z.shiftl (load8 m (p + 3)) 8) (load8 m (p + 4)) = n /\ load_bytes m (p + 6) (Z.to_nat n) = d
  | inr st => check_message m p = st /\ st <> 0
  end.
Proof.
  rewrite message_in_eq. cbn [app parse_message]. unfold check_message. rewrite type_field, length_field.
  pose proof (load8_range m (p + 3)). pose proof (load8_range m (p + 4)).
  set (n := 256 * load8 m (p + 3) + load8 m (p + 4)) in *.
  unfold RX_NDATA_LEN, ZBHCI_MSG_HDR_LEN, RX_BUF_LEN.
  destruct (load8 m p =? ZBHCI_MSG_START_FLAG); [|done]. cbn [negb].
  destruct (Z.ltb_spec 56 n) as [Hn|Hn].
  { rewrite (proj2 (Z.ltb_ge (n + 7) 64)) by lia. done. }
  rewrite (proj2 (Z.ltb_lt (n + 7) 64)), u8_small by lia.
  rewrite load_bytes_lookup by lia. unfold default, from_option, id. rewrite Z2Nat.id by lia.
  replace (p + (n + 7) - 1) with (p + 6 + n) by lia.
  destruct (load8 m (p + 6 + n) =? ZBHCI_MSG_END_FLAG); cbn [negb]; [|done].
  pose proof (load_bytes_part m (p + 6) 58 0 (Z.to_nat n) ltac:(lia)) as Hpart.
  rewrite drop_0, Z.add_0_r in Hpart. by rewrite Hpart.
Qed.

Lemma frame_fields type n data :
  0 <= type < 65536 -> 0 <= n <= 56 -> Z.of_nat (length data) = n ->
  frame type n data = [ZBHCI_MSG_START_FLAG; type / 256; type mod 256; 0; n; crc8Calculate type n data] ++ data ++ [ZBHCI_MSG_END_FLAG].
Proof.
  intros Ht Hn Hl. unfold frame. rewrite !Z.shiftr_0_r. change 0xff with (Z.ones 8).
  rewrite !Z.land_ones, !Z.shiftr_div_pow2 by lia. change (2 ^ 8) with 256.
  rewrite (Z.mod_small (type / 256)), (Z.mod_small n), (Z.div_small n) by zdm. change (0 mod 256) with 0.
  do 2 f_equal. rewrite <- Hl, Nat2Z.id. clear. induction data as [|x data IH]; [done|].
  cbn [length seq fmap list_fmap]. f_equal. rewrite <- fmap_S_seq, <- list_fmap_compose. exact IH.
Qed.

(** What the sender makes of a message is parsed back, whatever follows it. *)
Lemma parse_frame type n data rest :
  0 <= type < 65536 -> 0 <= n <= 56 -> Z.of_nat (length data) = n ->
  parse_message (frame type n data ++ rest) = inl (type, n, data).
Proof.
  intros Ht Hn Hl. rewrite frame_fields by done. cbn [app parse_message]. rewrite Z.eqb_refl. cbn [negb].
  replace (256 * 0 + n) with n by lia. rewrite (proj2 (Z.ltb_ge 56 n)) by lia.
  replace (Z.to_nat n) with (length data) by lia. rewrite <- app_assoc. cbn [app].
  rewrite list_lookup_middle by done. unfold default, from_option, id. rewrite Z.eqb_refl, take_app_length. do 3 f_equal. zdm.
Qed.

(** A report of four bytes, as a function of the allocator, the driver and the
    endpoint. *)
Lemma report_out `{EvLayout} (busy : Z) a fr done tx pend r a2 done' tx' pend' p :
  tx_out a 4 fr done tx pend r a2 done' tx' pend' -> (r = ZBHCI_TX_SUCCESS -> tx = [] -> (busy = 0 <-> tx' = [])) ->
  let a' := (abs_free p a2).2 in
  let '(q, a1) := abs_allocate 13 a in
  if q =? 0 then a' = (abs_free p a).2 /\ done' = done /\ tx' = tx /\ pend' = pend
  else match tx with
  | [] =>
      if busy =? 0 then a' = (abs_free p (abs_free q a1).2).2 /\ done' = done ++ [fr] /\ tx' = [] /\ pend' = rotate pend
      else a' = (abs_free p a1).2 /\ done' = done /\ tx' = [(q, fr)] /\ pend' = pend
  | _ => a' = (abs_free p a1).2 /\ done' = done /\ tx' = tx /\ pend' = pend ++ [(q, fr)]
  end.
Proof.
  intros Ho Hep a'. destruct Ho as [Hn|_ Hno|q a2 done' tx' pend' _ Eq Hq -> Hb|q _ Eq Hq Htx]; change (4 + 9) with 13 in *.
  - unfold TX_BUF_LEN in Hn. lia.
  - unfold no_buffer in Hno. destruct (abs_allocate 13 a) as [q a1]. cbn in Hno. by rewrite Hno.
  - destruct (abs_allocate 13 a) as [q' a1]. cbn [fst snd] in *. subst q'. rewrite (proj2 (Z.eqb_neq q 0)) by done.
    specialize (Hep eq_refl eq_refl). destruct (Z.eqb_spec busy 0) as [Hz|Hz].
    + destruct Hb as [(_ & _ & E & _)|(q' & bs & [= <- <-] & -> & -> & -> & ->)]; [|done]. apply Hep in Hz. by rewrite Hz in E.
    + destruct Hb as [(-> & -> & -> & ->)|(q' & bs & _ & _ & _ & E & _)]; [done|]. by destruct Hz; apply Hep.
  - destruct (abs_allocate 13 a) as [q' a1]. cbn [fst snd] in *. subst q'. rewrite (proj2 (Z.eqb_neq q 0)) by done.
    by destruct tx.
Qed.

(** ** Theorems *)
Section Theorems.
Context `{UsbRegs, EvLayoutOk, PriFuncs, HciLinks} {T : Type} `{TimerSvc T}.
Context `{!EpLaws, !HciLinksOk}.
Implicit Type s : hci T.

(** C18. [zbhciInit], then a sequence of messages to send, polls, tasks and
    timeouts in which the data given to send are bytes and every packet of the
    host, with what was received of its message before, fits the 64 bytes of the
    receive buffer ([run_ok]; the code does not check it, and a longer message
    overruns the buffer): what the endpoint to the host was given is a sequence of
    complete messages and perhaps the beginning of one more, all of them among
    the messages asked for and in their order, so that no message is sent twice,
    cut short or mixed with another.  The code stops only in a receive callback
    that finds no buffer.  The fuel covers the ten thousand looks at a busy
    endpoint. *)
Theorem hci_stream fuel s0 a0 ops :
  10003 <= Z.of_nat fuel -> fresh_hci s0 a0 ->
  match zbhciInit s0 with
  | None => no_buffer a0 RX_BUF_LEN
  | Some s1 =>
      run_ok fuel ops s1 ->
      match hci_run fuel ops s1 with
      | Some s => exists sent rest,
          fifo_out (u_tr (h_usb s)) = concat sent ++ rest /\
          (rest = [] /\ sent `sublist_of` run_msgs fuel ops s1 \/
           exists msg, rest `prefix_of` msg /\ rest <> msg /\ sent ++ [msg] `sublist_of` run_msgs fuel ops s1)
      | None => exists ops1 op ops2 s2 a2 done tx pend, ops = ops1 ++ op :: ops2 /\ hci_run fuel ops1 s1 = Some s2 /\
          hci_inv s2 a2 done tx pend /\ no_buffer a2 RX_BUF_LEN /\ (op = OpPoll \/ op = OpTimeout)
      end
  end.
Proof.
  intros Hf Hfr. pose proof (init_spec s0 a0 Hfr) as Hi. destruct (zbhciInit s0) as [s1|]; [|exact Hi].
  destruct Hi as (Hi & _). intros Hok. pose proof (run_spec fuel Hf ops s1 _ [] [] [] Hi Hok) as Hr.
  destruct (hci_run fuel ops s1) as [s|]; [|exact Hr].
  destruct Hr as (a & sent & tx & pend & Hi' & _ & Hs & _). cbn in Hs.
  pose proof (hi_wire _ _ _ _ _ Hi') as Hw. pose proof (hi_tx _ _ _ _ _ Hi') as Ht.
  destruct tx as [|[p bs] [|]]; [| |done]; eexists sent, _; (split; [exact Hw|]).
  - left. split; [done|]. by rewrite app_nil_r in Hs.
  - right. exists bs. destruct Ht as (_ & ? & ? & ?). split; [|split; [|exact Hs]].
    + eexists. symmetry. apply take_drop.
    + intros E. apply (f_equal length) in E. rewrite length_take in E. lia.
Qed.

(** C39. A message that finds the driver busy goes to the pending queue and stays
    there.  In a sequence of messages to send, polls, tasks and timeouts in which
    the data given to send are bytes and every packet of the host, with what was
    received of its message before, fits the 64 bytes of the receive buffer
    ([run_ok]), the queue does not get shorter, and every pending message is still
    pending at the end, in a buffer that is still allocated, though the comment in
    [usbcdc_txFinishCb] says that it is sent; unless the code has stopped for good
    in a receive callback that found no buffer.  The fuel covers the ten thousand
    looks at a busy endpoint. *)
Theorem hci_pending_never_sent fuel s a done tx pend ops :
  10003 <= Z.of_nat fuel -> hci_inv s a done tx pend -> run_ok fuel ops s ->
  match hci_run fuel ops s with
  | Some s' => curNum (usbcdc_txPendingQ s) <= curNum (usbcdc_txPendingQ s') /\
      exists a' pend', pend ⊆+ pend' /\ queue_bufs (h_mem s') (usbcdc_txPendingQ s') pend'.*1 /\
        Forall (msg_ok (h_mem s')) pend' /\ exists L, holds_bufs (h_buf s') a' L /\ pend'.*1 ⊆ L
  | None => True
  end.
Proof.
  intros Hf Hi Hok. pose proof (run_spec fuel Hf ops s a done tx pend Hi Hok) as Hr.
  destruct (hci_run fuel ops s) as [s'|]; [|done].
  destruct Hr as (a' & done' & tx' & pend' & Hi' & _ & _ & Hp). split.
  - rewrite (queue_bufs_num _ _ _ (hi_queue _ _ _ _ _ Hi)), (queue_bufs_num _ _ _ (hi_queue _ _ _ _ _ Hi')), !length_fmap.
    apply inj_le. by apply submseteq_length.
  - exists a', pend'. split; [done|]. split; [apply (hi_queue _ _ _ _ _ Hi')|]. split.
    + pose proof (hi_msgs _ _ _ _ _ Hi') as Hm. by apply Forall_app in Hm as [_ Hm].
    + eexists. split; [apply (hi_bufs _ _ _ _ _ Hi')|]. intros w Hw. right. apply elem_of_app. right. apply elem_of_app. by left.
Qed.

(** C24. The task of a received buffer does what the message format says.  A
    message of at most 56 bytes goes to the command handler.  Anything else is
    reported to the host with its status: in a new buffer, if there is one
    for the 13 bytes (without one nothing is sent); the report leaves at once when
    the driver is idle and the endpoint free (the first pending message then
    goes to the end of its queue), waits in the driver when the
    endpoint is busy, and is pending when the driver has a message already.  In
    every case the task is gone and its buffer free again: the allocator is
    left exactly as these steps say. *)
Theorem hci_task_outcome fuel s a done tx pend f p ts :
  10003 <= Z.of_nat fuel -> hci_inv s a done tx pend -> h_tasks s = (f, p) :: ts ->
  exists s' a' done' tx' pend', run_task fuel s = Some s' /\ hci_inv s' a' done' tx' pend' /\ h_tasks s' = ts /\
    match parse_message (message_in (h_mem s) p) with
    | inl (type, n, data) =>
        h_cmds s' = h_cmds s ++ [(type, n, data)] /\
        a' = (abs_free p a).2 /\ done' = done /\ tx' = tx /\ pend' = pend
    | inr st =>
        h_cmds s' = h_cmds s /\
        let report := frame ZBHCI_CMD_ACKNOWLEDGE 4 (ack_type (message_in (h_mem s) p) st ++ [st; 0]) in
        let '(q, a1) := abs_allocate 13 a in
        if q =? 0 then a' = (abs_free p a).2 /\ done' = done /\ tx' = tx /\ pend' = pend
        else match tx with
        | [] =>
            if (usbhw_is_ep_busy CDC_TX_EPNUM (h_usb s)).1 =? 0 then
              a' = (abs_free p (abs_free q a1).2).2 /\ done' = done ++ [report] /\ tx' = [] /\ pend' = rotate pend
            else a' = (abs_free p a1).2 /\ done' = done /\ tx' = [(q, report)] /\ pend' = pend
        | _ => a' = (abs_free p a1).2 /\ done' = done /\ tx' = tx /\ pend' = pend ++ [(q, report)]
        end
    end.
Proof.
  intros Hf Hi Ht. destruct (task_spec fuel Hf s a done tx pend f p ts Hi Ht) as (s' & a' & done' & tx' & pend' & E & Hi' & Et & _ & _ & Ho).
  exists s', a', done', tx', pend'. split; [done|]. split; [done|]. split; [done|]. rewrite ack_bytes_eq in Ho.
  pose proof (check_parse (h_mem s) p) as Hp. destruct (parse_message _) as [[[t n] d]|st].
  - cbv zeta in Ho. destruct Hp as (Ec & Et1 & En & Ed). rewrite Ec, Et1, En, Ed in Ho. exact Ho.
  - destruct Hp as [Ec Hz]. rewrite Ec, (proj2 (Z.eqb_neq st 0) Hz) in Ho. destruct Ho as (Ecm & r & a2 & -> & Ho & Hep). split; [done|].
    cbv zeta. by apply report_out with r.
Qed.

(** C23. A message of at most 56 bytes, sent by an idle interface, is one packet; the
    packet, at the other end, comes out of the poll and the task as the message
    that was sent. *)
Theorem hci_message_roundtrip fuel s a done pend type n data :
  10003 <= Z.of_nat fuel -> hci_inv s a done [] pend ->
  0 <= type < 65536 -> 0 <= n <= 56 -> bytes data -> Z.of_nat (length data) = n ->
  ~ no_buffer a (n + 9) -> (usbhw_is_ep_busy CDC_TX_EPNUM (h_usb s)).1 = 0 ->
  exists s' packet, zbhciTx fuel type n data s = Some (ZBHCI_TX_SUCCESS, s') /\
    fifo_out (u_tr (h_usb s')) = fifo_out (u_tr (h_usb s)) ++ packet /\ usbcdc_isAvailable s' = true /\
    forall r ar doner txr pendr, hci_inv r ar doner txr pendr ->
      h_tasks r = [] -> lastIndex (cdc_v r) = 0 -> ~ no_buffer ar RX_BUF_LEN ->
      packet_waits (h_usb r) = true -> packet_bytes (h_usb r) = packet ->
      exists r', hci_run fuel [OpPoll; OpTask] r = Some r' /\
        h_cmds r' = h_cmds r ++ [(type, n, data)] /\ h_tasks r' = [].
Proof.
  intros Hf Hi Ht Hn Hd Hl Hbuf Hfree. unfold zbhciTx.
  destruct (txMsg_spec fuel Hf s a done [] pend type n data Hi ltac:(lia) Hd)
    as (r & s' & a' & done' & tx' & pend' & E & Hi' & Ho & _ & Hidle & _).
  assert (Hout : r = ZBHCI_TX_SUCCESS /\ tx' = [] /\ done' = done ++ [frame type n data]).
  { destruct Ho as [Hbad|_ Hbad|p a' d' t' p' _ _ _ _ Hb|p _ _ _ Hbad]; try done; [unfold TX_BUF_LEN in Hbad; lia|].
    rewrite (Hidle eq_refl eq_refl Hfree ltac:(lia)) in *.
    destruct Hb as [(_ & _ & Hbad & _)|(q & bs & [= <- <-] & _ & -> & _ & _)]; done. }
  destruct Hout as (-> & -> & ->). exists s', (frame type n data). split; [done|]. split; [|split].
  - rewrite (hi_wire _ _ _ _ _ Hi'), (hi_wire _ _ _ _ _ Hi), concat_app. cbn. by rewrite !app_nil_r.
  - unfold usbcdc_isAvailable. destruct (hi_tx _ _ _ _ _ Hi') as [-> _]. done.
  - clear -Hf Ht Hn Hl H1 H5 H6. intros r a done tx pend Hi Hts Hx Hbuf Hw Hp.
    assert (Hlen : packet_len (h_usb r) = n + 7).
    { apply (f_equal (fun l => Z.of_nat (length l))) in Hp. rewrite length_frame in Hp by lia.
      unfold packet_bytes in Hp. rewrite length_rx_bytes in Hp. pose proof (packet_len_range (h_usb r)). lia. }
    destruct (poll_spec fuel Hf r a done tx pend Hi) as [(Hno & _)|(r1 & a1 & d1 & t1 & p1 & E1 & Hi1 & _ & Ho)];
      [unfold packet_fits, RX_BUF_LEN; lia|done|].
    destruct Ho as (Ec1 & _ & Ho). rewrite Hw in Ho. destruct Ho as [[_ Ho] Hb]. rewrite Hlen, Hx in *.
    cbn [load_bytes app Z.to_nat] in Hb.
    rewrite (proj2 (Z.eqb_neq (n + 7) CDC_TXRX_EPSIZE)), Hts in Ho by (unfold CDC_TXRX_EPSIZE; lia). destruct Ho as [Ets _].
    destruct (task_spec fuel Hf r1 a1 d1 t1 p1 _ _ [] Hi1 Ets) as (r2 & a2 & d2 & t2 & p2 & E2 & _ & Et2 & _ & _ & Ho).
    exists r2. cbn [hci_run hci_step]. rewrite E1. cbn [mbind option_bind]. rewrite E2. split; [done|]. split; [|done].
    pose proof (check_parse (h_mem r1) (rxBuf (cdc_v r))) as Hc.
    assert (Em : message_in (h_mem r1) (rxBuf (cdc_v r)) =
      frame type n data ++ load_bytes (h_mem r1) (rxBuf (cdc_v r) + (n + 7)) (Z.to_nat (57 - n))).
    { unfold message_in. replace 64%nat with (Z.to_nat (0 + (n + 7)) + Z.to_nat (57 - n))%nat by lia.
      rewrite load_bytes_app, Hb, Hp. do 2 f_equal. lia. }
    rewrite Em, parse_frame in Hc by done. destruct Hc as (Ec & Et & En & Ed).
    cbv zeta in Ho. rewrite Ec, En, Et, Ed in Ho. destruct Ho as [-> _]. by rewrite Ec1.
Qed.

(** [usb_is_irq_reset] gives the low byte of bit 17: the poll never sees a reset
    of the bus, and the reset branch of [usb_handle_irq] never runs. *)
Theorem usb_bus_reset_ignored (u : usb) : (usb_is_irq_reset u).1 = 0.
Proof. apply irq_reset_zero. Qed.
End Theorems.
