(* ===== verification/HciDemo.v ===== *)
(** * The host interface on a simulated USB block

    A small model of the block: the buffers of endpoints 0 and 5 with their
    pointers, endpoint 4 free or busy for ever, unless the program clears the
    flag.  The witnesses of the theorems on the control endpoint and on the host
    interface. *)
From S2P Require Import Prelude Memory SysEv EvBuffer BufClient EvQueue EvTimer TimerIf UsbDesc Usb UsbProps Hci HciInv HciRx HciProps.

#[local] Existing Instance demo_layout.
#[local] Existing Instance demo_layout_ok.
#[local] Existing Instance demo_pri.

(** ** The block *)

(** The accesses after the last write to [a]. *)
Definition since (a : Z) (tr : list uev) : list uev :=
  fold_left (fun acc e => match e with UWr a' _ => if a' =? a then [] else acc ++ [e] | _ => acc ++ [e] end) tr [].

(** How many bytes of a buffer were read. *)
Definition bytes_read (dat : Z) (tr : list uev) : nat :=
  foldr (fun e n => match e with URd a => if a =? dat then S n else n | URdCtrl16 => S (S n) | _ => n end) 0%nat tr.

(** The flag of endpoint 4: what was written last, if that was an even value. *)
Definition busy_flag (tr : list uev) : Z :=
  match last tr with
  | Some (UWr a v) => if (a =? reg_usb_ep_ctrl CDC_TX_EPNUM) && (Z.land v 1 =? 0) then 0 else 1
  | _ => 1
  end.

(** [ep0]: the packet in the buffer of endpoint 0, which may change as the
    transfer goes on; [ep5]: the packet of endpoint 5. *)
Definition sim_usb (ep0 : list uev -> list Z) (ep5 : list Z) (busy : bool) : UsbRegs := {|
  usb_reg a tr :=
    if a =? reg_ctrl_ep_dat then nth (bytes_read reg_ctrl_ep_dat (since reg_ctrl_ep_ptr tr)) (ep0 tr) 0
    else if a =? reg_usb_irq then match ep5 with [] => 0 | _ => 0x20 end
    else if a =? reg_usb_ep_ptr CDC_RX_EPNUM then Z.of_nat (length ep5)
    else if a =? reg_usb_ep_dat CDC_RX_EPNUM then
      nth (bytes_read (reg_usb_ep_dat CDC_RX_EPNUM) (since (reg_usb_ep_ptr CDC_RX_EPNUM) tr)) ep5 0
    else if a =? reg_usb_ep_ctrl CDC_TX_EPNUM then (if busy then busy_flag tr else 0)
    else 0;
  usb_ctrl_u16 tr :=
    let k := bytes_read reg_ctrl_ep_dat (since reg_ctrl_ep_ptr tr) in nth k (ep0 tr) 0 + 256 * nth (S k) (ep0 tr) 0
|}.

Lemma sim_laws ep0 ep5 busy : @EpLaws (sim_usb ep0 ep5 busy).
Proof.
  intros tr v Hv. cbn -[Z.land]. destruct busy; [|done]. unfold busy_flag. rewrite last_snoc.
  rewrite Z.eqb_refl, Hv. done.
Qed.

Definition demo_usb : usb := mk_usb [] (mk_req 0 0 0 0 0) None 0 0 0 0 0 (mk_line 0 0 0 0) 0.

(** ** The control endpoint *)

Definition get_device : USB_Request_Header_t := mk_req RT_IN_STD_DEVICE REQ_GetDescriptor 0x100 0 18.
Definition ep0_device (_ : list uev) : list Z := [0x80; 6; 0; 1; 0; 0; 18; 0].

(** The 18 bytes of the device descriptor, in three packets. *)
Lemma usb_get_descriptor_transfer_witness :
  let R := sim_usb ep0_device [] false in
  setup_at get_device demo_usb /\
  exists t, u_tr (transfer 2 demo_usb) = u_tr demo_usb ++ t /\ length (data_out t) = 18%nat /\
    answers t = [FLD_EP_DAT_ACK; FLD_EP_DAT_ACK; FLD_EP_DAT_ACK].
Proof.
  intros R.
  assert (Hs : setup_at get_device demo_usb) by (split; vm_compute; first [reflexivity | repeat split; discriminate]).
  split; [exact Hs|].
  destruct (usb_get_descriptor_transfer get_device demo_usb 2 Hs eq_refl eq_refl) as (t & E & Hd & Ha).
  exists t. split; [exact E|]. split; [rewrite Hd; vm_compute; reflexivity|exact Ha].
Defined.

Definition set_line : USB_Request_Header_t := mk_req RT_OUT_CLASS_INTF CDC_REQ_SetLineEncoding 0 0 7.
Definition get_line : USB_Request_Header_t := mk_req RT_IN_CLASS_INTF CDC_REQ_GetLineEncoding 0 0 7.
(** 9600 baud, two stop bits, even parity, seven data bits. *)
Definition line_9600 : list Z := [0x80; 0x25; 0; 0; 2; 2; 7].

(** First the data stage of the one request, then the setup packet of the other. *)
Definition ep0_line (tr : list uev) : list Z :=
  match tr with UManualIrq _ :: _ => [RT_IN_CLASS_INTF; CDC_REQ_GetLineEncoding; 0; 0; 0; 0; 7; 0] | _ => line_9600 end.

Lemma usb_line_coding_roundtrip_witness :
  let R := sim_usb ep0_line [] false in
  let s := with_control_request set_line demo_usb in
  let s' := with_u_tr [UManualIrq 0] (usb_handle_ctl_ep_data s) in
  LineEncoding (usb_handle_ctl_ep_data s) = mk_line 9600 2 2 7 /\
  exists t, u_tr (usb_handle_ctl_ep_setup s') = u_tr s' ++ t /\ data_out t = line_9600 /\ answers t = [FLD_EP_DAT_ACK].
Proof.
  intros R s s'.
  assert (Hp : packet_at line_9600 s).
  { intros i Hi. cbn in Hi. by do 7 (destruct i as [|i]; [vm_compute; reflexivity|]); lia. }
  assert (Hs : setup_at get_line s') by (split; vm_compute; first [reflexivity | repeat split; discriminate]).
  assert (Hr : Forall (fun b => 0 <= b < 256) line_9600) by decide_vm.
  destruct (usb_line_coding_roundtrip s set_line line_9600 eq_refl eq_refl eq_refl eq_refl eq_refl Hr Hp) as [E Hget].
  split; [rewrite E; reflexivity|]. apply (Hget s' get_line); [reflexivity|exact Hs|reflexivity..].
Defined.

(** ** The host interface *)

(** Timers that never run. *)
#[local] Instance demo_timer : TimerSvc unit := {|
  tmr_exist _ _ := false; tmr_assign _ _ _ t := t; tmr_on _ _ t := t; tmr_unon _ t := t;
  tmr_post _ _ _ t := (0x850000, t); tmr_cancel _ t := (0, t) |}.
#[local] Instance demo_hci_links : HciLinks := {|
  fn_usbcdc_rxCb := 0x1000; fn_usbcdc_txFinishCb := 0x1100; fn_usbcdc_data_handler := 0x1200; fn_usbcdc_recvTimeoutCb := 0x1300 |}.
#[local] Instance demo_hci_links_ok : HciLinksOk.
Proof. by split. Qed.

Definition demo_hci : hci unit :=
  mk_hci demo_usb (mk_cdc_ctrl 0 0 0 0 0 0 0 0) (empty_queue 0) (ev_buf_init demo_state) tt [] [].

Lemma demo_fresh : fresh_hci demo_hci abs_init.
Proof. split; try done. by apply init_inv. Qed.

Definition demo_fuel : nat := Z.to_nat 10003.
Lemma demo_fuel_ok : 10003 <= Z.of_nat demo_fuel.
Proof. unfold demo_fuel. lia. Qed.

(** Three data bytes of type 0x1234. *)
Definition demo_msg : hci_op := OpTx 0x1234 3 [1; 2; 3].
Definition demo_packet : list Z := frame 0x1234 3 [1; 2; 3].

Lemma demo_bytes : bytes [1; 2; 3].
Proof. unfold bytes. decide_vm. Qed.

Definition op_okb `{UsbRegs} (op : hci_op) (s : hci unit) : bool :=
  match op with
  | OpTx _ n d => (0 <=? n) && forallb (fun v => (0 <=? v) && (v <? 256)) d
  | OpPoll => negb (packet_waits (h_usb s)) || (lastIndex (cdc_v s) + packet_len (h_usb s) <=? RX_BUF_LEN)
  | _ => true
  end.
Fixpoint run_okb `{UsbRegs} (ops : list hci_op) (s : hci unit) : bool :=
  match ops with
  | [] => true
  | op :: ops' => op_okb op s && match hci_step demo_fuel op s with Some s' => run_okb ops' s' | None => true end
  end.

Lemma run_okb_ok `{UsbRegs} ops s : run_okb ops s = true -> run_ok demo_fuel ops s.
Proof.
  revert s. induction ops as [|op ops IH]; intros s E; [done|]. cbn [run_okb] in E. apply andb_true_iff in E as [Eo E]. split.
  - destruct op as [t n d| | |]; try done; cbn [op_okb op_ok] in *.
    + apply andb_true_iff in Eo as [Hn Hd]. split; [by apply Z.leb_le|]. rewrite forallb_forall in Hd. apply Forall_forall.
      intros v Hv%list_elem_of_In. specialize (Hd v Hv). lia.
    + intros Hw. rewrite Hw in Eo. by apply Z.leb_le.
  - destruct (hci_step demo_fuel op s) as [s'|]; [by apply IH|done].
Qed.

(** The state after [zbhciInit]. *)
Definition demo_up (R : UsbRegs) : hci unit := default demo_hci (zbhciInit demo_hci).

Lemma demo_up_inv (R : UsbRegs) : zbhciInit demo_hci = Some (demo_up R) ->
  hci_inv (demo_up R) (abs_allocate RX_BUF_LEN abs_init).2 [] [] [].
Proof. intros E. pose proof (init_spec demo_hci abs_init demo_fresh) as Hi. rewrite E in Hi. apply Hi. Qed.

(** The endpoint never gets free: the second message is pending, and stays. *)
Lemma hci_pending_never_sent_witness :
  let R := sim_usb (fun _ => []) [] true in
  exists s, hci_run demo_fuel [demo_msg; demo_msg; OpPoll; OpPoll] (demo_up R) = Some s /\
    curNum (usbcdc_txPendingQ s) = 1 /\ curNum (usbcdc_txPendingQ (demo_up R)) <= curNum (usbcdc_txPendingQ s).
Proof.
  intros R. pose proof (sim_laws (fun _ => []) [] true : @EpLaws R) as Hlaws.
  assert (Hok : run_ok demo_fuel [demo_msg; demo_msg; OpPoll; OpPoll] (demo_up R)) by (apply run_okb_ok; vm_compute; reflexivity).
  pose proof (hci_pending_never_sent demo_fuel (demo_up R) _ [] [] [] _ demo_fuel_ok
    (demo_up_inv R ltac:(vm_compute; reflexivity)) Hok) as Hp.
  assert (Hn : match hci_run demo_fuel [demo_msg; demo_msg; OpPoll; OpPoll] (demo_up R) with
    | Some s => curNum (usbcdc_txPendingQ s) = 1 | None => False end) by (vm_compute; reflexivity).
  destruct (hci_run demo_fuel _ (demo_up R)) as [s|]; [|destruct Hn]. exists s. split; [done|]. split; [done|]. apply Hp.
Defined.

(** A message out, the same message in, and its report: the message handed on. *)
Lemma hci_stream_witness :
  let R := sim_usb (fun _ => []) demo_packet false in
  exists s sent rest, hci_run demo_fuel [demo_msg; OpPoll; OpTask; demo_msg] (demo_up R) = Some s /\
    fifo_out (u_tr (h_usb s)) = concat sent ++ rest /\ fifo_out (u_tr (h_usb s)) = demo_packet ++ demo_packet.
Proof.
  intros R. pose proof (sim_laws (fun _ => []) demo_packet false : @EpLaws R) as Hlaws.
  assert (Hok : run_ok demo_fuel [demo_msg; OpPoll; OpTask; demo_msg] (demo_up R)) by (apply run_okb_ok; vm_compute; reflexivity).
  pose proof (hci_stream demo_fuel demo_hci abs_init [demo_msg; OpPoll; OpTask; demo_msg] demo_fuel_ok demo_fresh) as Hs.
  assert (E : zbhciInit demo_hci = Some (demo_up R)) by (vm_compute; reflexivity).
  rewrite E in Hs. specialize (Hs Hok).
  assert (Hn : match hci_run demo_fuel [demo_msg; OpPoll; OpTask; demo_msg] (demo_up R) with
    | Some s => fifo_out (u_tr (h_usb s)) = demo_packet ++ demo_packet | None => False end) by (vm_compute; reflexivity).
  clear E Hok. destruct (hci_run demo_fuel [demo_msg; OpPoll; OpTask; demo_msg] (demo_up R)) as [s|]; [|destruct Hn].
  destruct Hs as (sent & rest & Hw & _). exists s, sent, rest. split; [reflexivity|]. split; [exact Hw|exact Hn].
Defined.

Lemma hci_message_roundtrip_witness :
  let R := sim_usb (fun _ => []) demo_packet false in
  exists s' r', zbhciTx demo_fuel 0x1234 3 [1; 2; 3] (demo_up R) = Some (ZBHCI_TX_SUCCESS, s') /\
    hci_run demo_fuel [OpPoll; OpTask] (demo_up R) = Some r' /\ h_cmds r' = [(0x1234, 3, [1; 2; 3])].
Proof.
  intros R. pose proof (sim_laws (fun _ => []) demo_packet false : @EpLaws R) as Hlaws.
  pose proof (demo_up_inv R ltac:(vm_compute; reflexivity)) as Hi.
  destruct (hci_message_roundtrip demo_fuel (demo_up R) _ [] [] 0x1234 3 [1; 2; 3] demo_fuel_ok Hi ltac:(lia) ltac:(lia)
    demo_bytes eq_refl) as (s' & w & E & Hw & _ & Hr); [vm_compute; discriminate|vm_compute; reflexivity|].
  assert (Ew : w = demo_packet).
  { assert (Hn : match zbhciTx demo_fuel 0x1234 3 [1; 2; 3] (demo_up R) with
      | Some (_, s) => fifo_out (u_tr (h_usb s)) = fifo_out (u_tr (h_usb (demo_up R))) ++ demo_packet | None => False end)
      by (vm_compute; reflexivity).
    rewrite E, Hw in Hn. by apply app_inv_head in Hn. }
  assert (Hb : ~ no_buffer (abs_allocate RX_BUF_LEN abs_init).2 RX_BUF_LEN) by (vm_compute; discriminate).
  assert (Hp : packet_bytes (h_usb (demo_up R)) = w) by (rewrite Ew; vm_compute; reflexivity).
  destruct (Hr (demo_up R) _ [] [] [] Hi ltac:(vm_compute; reflexivity) ltac:(vm_compute; reflexivity) Hb
    ltac:(vm_compute; reflexivity) Hp) as (r' & Er & Hc & _).
  exists s', r'. split; [exact E|]. split; [exact Er|].
  assert (Ec : h_cmds (demo_up R) = []) by (vm_compute; reflexivity). rewrite Hc, Ec. reflexivity.
Defined.

(** A message without its end flag: the task reports it and drops it. *)
Definition demo_broken : list Z := [0x55; 0x12; 0x34; 0; 2; 0; 7; 8; 0].

Lemma hci_task_outcome_witness :
  let R := sim_usb (fun _ => []) demo_broken false in
  exists s1 s', zbhciTask demo_fuel (demo_up R) = Some s1 /\ run_task demo_fuel s1 = Some s' /\ h_tasks s' = [] /\ h_cmds s' = [].
Proof.
  intros R. pose proof (sim_laws (fun _ => []) demo_broken false : @EpLaws R) as Hlaws.
  pose proof (demo_up_inv R ltac:(vm_compute; reflexivity)) as Hi.
  assert (Hfit : packet_fits (demo_up R)) by (intros _; vm_compute; discriminate).
  assert (Hb : ~ no_buffer (abs_allocate RX_BUF_LEN abs_init).2 RX_BUF_LEN) by (vm_compute; discriminate).
  assert (Hn : match zbhciTask demo_fuel (demo_up R) with
    | Some s => match h_tasks s with
                | [(_, p)] => h_cmds s = [] /\ parse_message (message_in (h_mem s) p) = inr ZBHCI_MSG_STATUS_ERROR_END_CHAR
                | _ => False end
    | None => False end) by (vm_compute; by split).
  destruct (poll_spec demo_fuel demo_fuel_ok (demo_up R) _ [] [] [] Hi Hfit) as [(Hno & _)|(s1 & a1 & d & t & p & E & Hi1 & _)];
    [destruct (Hb Hno)|]. rewrite E in Hn.
  destruct (h_tasks s1) as [|[f q] [|]] eqn:Et; [destruct Hn| |destruct Hn]. destruct Hn as [Hc Hp].
  destruct (hci_task_outcome demo_fuel s1 a1 d t p f q [] demo_fuel_ok Hi1 Et) as (s3 & a3 & d3 & t3 & p3 & Er & _ & Ets & Ho).
  rewrite Hp in Ho. destruct Ho as [Ho _]. exists s1, s3. split; [exact E|]. split; [exact Er|]. split; [exact Ets|].
  rewrite Ho. exact Hc.
Defined.
