(* ===== verification/App.v ===== *)
(** * The demo applications: what the two have in common
    ([demo/associate_coor], [demo/associate_dev])

    The primitives of the MAC the applications request, the attributes they use,
    and the descriptors of the security library.  A request is an output: the
    state of each application records the requests handed to the MAC. *)
From S2P Require Import Prelude SpiFlash FlashIf Memory Linked ListC SysEv Mempool EvBuffer BufClient EvTimer TimerIf.
From S2P Require Import Ota Pib PibProps PibTables.

(** ** Constants *)
Definition MAC_ATTR_ASSOCIATION_PERMIT : Z := 0x41.
Definition MAC_ATTR_COORDINATOR_EXTENDED_ADDRESS : Z := 0x4A.
Definition MAC_ATTR_COORDINATOR_SHORT_ADDRESS : Z := 0x4B.
Definition MAC_ATTR_PAN_ID : Z := 0x50.
Definition MAC_ATTR_SHORT_ADDRESS : Z := 0x53.
Definition MAC_ATTR_SECURITY_ENABLED : Z := 0x5D.
Definition MAC_DEV_TABLE_MAX_LEN : Z := 16.
Definition ZB_TURN_OFF_ORDER : Z := 15.
Definition ZB_MAC_SECURITY : Z := 1.
Definition DEFAULT_CHANNEL : Z := 24.
Definition ACTIVE_SCAN : Z := 1.
Definition KEY_ID_MODE_KEY_EXPLICIT_8 : Z := 3.
Definition SECURITY_LEVEL_ENC_MIC_64 : Z := 6.
Definition LOOKUP_DATA_SIZE_9 : Z := 1.
Definition TRUE : Z := 1.
Definition FALSE : Z := 0.

(** The key material is the same in both applications. *)
Definition default_key_source : list Z := [0x00; 0x01; 0x02; 0x03; 0x04; 0x05; 0x06; 0x07].
Definition default_key_index : Z := 0xa5.
Definition test_key : list Z :=
  [0x00; 0x11; 0x22; 0x33; 0x44; 0x55; 0x66; 0x77; 0x88; 0x99; 0xaa; 0xbb; 0xcc; 0xdd; 0xee; 0xff].

(** ** Requests *)
Record mac_sec_t := mk_sec { key_source : list Z; securityLevel : Z; key_id_mode : Z; key_index : Z }.

(** [memset] to 0 *)
Definition sec_zero : mac_sec_t := mk_sec (repeat 0 8) 0 0 0.
Definition addr_zero : addr_t := mk_addr 0 (repeat 0 8).

(** The bits [rcvOnWhenIdle] and [allocAddr] are set, the others stay 0. *)
Record capability_info_t := mk_capab {
  altPanCoord : Z; devType : Z; powerSrc : Z; rcvOnWhenIdle : Z; secuCapability : Z; allocAddr : Z }.

Record zb_mlme_associate_req_t := mk_areq {
  aq_logicalChannel : Z;
  aq_channelPage : Z;
  aq_coordPanId : Z;
  aq_sec : mac_sec_t;
  aq_coordAddress : addr_t;
  aq_capbilityInfo : capability_info_t
}.

Record zb_mlme_associate_resp_t := mk_arsp {
  ar_devAddress : list Z;
  ar_sec : mac_sec_t;
  ar_shortAddress : Z;
  ar_status : Z
}.

Record zb_mac_mlme_scan_req_t := mk_scan {
  sc_scanChannels : Z; sc_sec : mac_sec_t; sc_scanType : Z; sc_scanDuration : Z; sc_channelPage : Z }.

Record zb_mac_mlme_start_req_t := mk_start {
  st_startTime : Z;
  st_panId : Z;
  st_logicalChannel : Z;
  st_channelPage : Z;
  st_beaconOrder : Z;
  st_superframeOrder : Z;
  st_panCoordinator : Z;
  st_batteryLifeExt : Z;
  st_coordRealignSec : mac_sec_t;
  st_beaconSec : mac_sec_t;
  st_coordRealignment : Z
}.

Record mac_mlme_poll_req_t := mk_poll {
  po_coordAddr : list Z; po_coordPanId : list Z; po_coordAddrMode : Z; po_sec : mac_sec_t }.

(** [tl_MacMcpsDataRequestSend] with the bytes of the payload, and the other
    requests. *)
Inductive mac_request :=
  | McpsData (req : zb_mscp_data_req_t) (sec : mac_sec_t)
  | MlmeAssociateRequest (req : zb_mlme_associate_req_t)
  | MlmeAssociateResponse (rsp : zb_mlme_associate_resp_t)
  | MlmeScan (req : zb_mac_mlme_scan_req_t)
  | MlmeStart (req : zb_mac_mlme_start_req_t)
  | MlmePoll (req : mac_mlme_poll_req_t).

(** Two bytes as a number. *)
Definition word16 (l : list Z) : Z := le_word (take 2 l).

(** The packet an application keeps ([user_packet], 16 bytes): the first bytes of
    the payload, at most as many as the buffer holds. *)
Definition keep_packet (pd : Z -> Z) (msduLength : Z) (packet : list Z) : list Z :=
  let len := if 16 <? msduLength then 16 else msduLength in
  bytes_at pd 0 (Z.to_nat len) ++ drop (Z.to_nat len) packet.

(** ** Attributes of the MAC *)
Section Attributes.
Context {L : Type} `{TnLib L}.
Implicit Type s : mac L.

(** [tl_zbMacAttrGet] of a plain attribute: the bytes it stores. *)
Definition attr_get (a : Z) s : option (list Z) :=
  '(_, g) ← tl_zbMacAttrGet a 0 s;
  match g with GotBytes l _ => Some l | _ => None end.

(** [tl_zbMacAttrSet] of the bytes [l]; the result is not looked at. *)
Definition attr_set (a : Z) (l : list Z) (index : Z) s : option (mac L) :=
  '(_, _, s) ← tl_zbMacAttrSet a 0 (fun i => nth (Z.to_nat i) l 0) index s; Some s.

(** [tl_zbMacAttrSet] of a descriptor in one of the tables. *)
Definition item_set (a p index : Z) s : option (mac L) :=
  '(_, _, s) ← tl_zbMacAttrSet a p (fun _ => 0) index s; Some s.

(** What the update reads of the MAC: [ZB_PIB_RX_ON_WHEN_IDLE] is a field of the
    information base, an attribute the bytes [tl_zbMacAttrGet] stores. *)
Definition env_of s : MacEnv := {|
  mac_attr a := default [] (attr_get a s);
  rxOnWhenIdle := negb (pib s off_rxOnWhenIdle =? 0)
|}.
End Attributes.

(** ** The security library *)

(** [mac_keyDesc_t]: the descriptors in its lists, and the key. *)
Record mac_keyDesc_t := mk_keyDesc {
  key_id_lookup_list : list Z; key_device_list : list Z; key_usage_list : list Z; key_bytes : list Z }.

(** [mac_deviceDesc_alloc] and the allocators of the other descriptors, by kind,
    the functions that fill a descriptor, and the fields of the descriptors: the
    addresses and the PAN of a device ([mac_deviceDesc_t]), the device of a
    [mac_keydevDesc_t], and of a [mac_keyDesc_t] its three lists and the key. *)
Class MacSecLib (L : Type) := {
  desc_alloc : mac_secMaterial_t -> L -> Z * L;
  short_address : Z -> L -> Z;
  long_address : Z -> L -> list Z;
  device_pan : Z -> L -> Z;
  keydev_device : Z -> L -> Z;
  key_fields : Z -> L -> mac_keyDesc_t;
  mac_keyidDesc_set : Z -> Z -> list Z -> L -> L;
  mac_deviceDesc_set : Z -> Z -> Z -> list Z -> Z -> bool -> L -> L;
  mac_deviceDesc_reset : Z -> Z -> Z -> list Z -> Z -> bool -> L -> L;
  mac_keydevDesc_set : Z -> Z -> bool -> bool -> L -> L;
  mac_keyusageDesc_set : Z -> Z -> Z -> L -> L;
  mac_keyDesc_set : Z -> list Z -> list Z -> list Z -> list Z -> L -> L
}.

Section Lists.
Context {L : Type} `{TnLaws L, !MacSecLib L}.

(** The tables, and the device descriptors in them, are the same. *)
Definition same_tables (t t' : L) : Prop := tn_ok t' /\ forall l, tn_items l t' = tn_items l t.
Definition same_devs (t t' : L) : Prop :=
  forall p, p ∈ tn_items macDevTable t ->
    short_address p t' = short_address p t /\ long_address p t' = long_address p t /\ device_pan p t' = device_pan p t.
End Lists.

#[export] Instance mac_secMaterial_t_eq_dec : EqDecision mac_secMaterial_t.
Proof. solve_decision. Defined.

(** What the code relies on: an allocator gives a descriptor that is in no table
    while its pool of the sizes in [mac_pib.c] has one left ([pool_free]); the
    functions that fill a descriptor store in it what they are given and write
    that descriptor only and, for the link of a key to a device,
    [macKeyDevTable]; putting a descriptor in a table writes none of these fields
    and no pool. *)
Class MacSecLaws (L : Type) `{TnLaws L, !MacSecLib L} := {
  pool_free : mac_secMaterial_t -> L -> nat;
  alloc_law k t x t' : tn_ok t -> desc_alloc k t = (x, t') -> pool_free k t <> 0%nat ->
    x <> 0 /\ (forall l, x ∉ tn_items l t) /\ same_tables t t' /\ same_devs t t' /\
    (k <> MAC_SECMATERIAL_KEYDEV_DESC -> forall q, keydev_device q t' = keydev_device q t) /\
    forall k', pool_free k' t' = if decide (k' = k) then (pool_free k t - 1)%nat else pool_free k' t;
  dev_set_law p pan sh ext fc ex t : tn_ok t ->
    let t' := mac_deviceDesc_set p pan sh ext fc ex t in
    same_tables t t' /\ (forall k, pool_free k t' = pool_free k t) /\
    short_address p t' = sh /\ long_address p t' = ext /\ device_pan p t' = pan /\
    forall q, q <> p ->
      short_address q t' = short_address q t /\ long_address q t' = long_address q t /\ device_pan q t' = device_pan q t;
  dev_reset_law p pan sh ext fc ex t : tn_ok t ->
    let t' := mac_deviceDesc_reset p pan sh ext fc ex t in
    same_tables t t' /\ (forall k, pool_free k t' = pool_free k t) /\
    short_address p t' = sh /\ long_address p t' = ext /\ device_pan p t' = pan /\
    forall q, q <> p ->
      short_address q t' = short_address q t /\ long_address q t' = long_address q t /\ device_pan q t' = device_pan q t;
  keydev_set_law p d u b t : tn_ok t ->
    let t' := mac_keydevDesc_set p d u b t in
    tn_ok t' /\ (forall l, l <> macKeyDevTable -> tn_items l t' = tn_items l t) /\
    same_devs t t' /\ (forall k, pool_free k t' = pool_free k t) /\ keydev_device p t' = d;
  keyid_set_law p sz d t : tn_ok t ->
    let t' := mac_keyidDesc_set p sz d t in
    same_tables t t' /\ same_devs t t' /\ forall k, pool_free k t' = pool_free k t;
  usage_set_law p ft cmd t : tn_ok t ->
    let t' := mac_keyusageDesc_set p ft cmd t in
    same_tables t t' /\ same_devs t t' /\ forall k, pool_free k t' = pool_free k t;
  key_set_law p ids devs us key t : tn_ok t ->
    let t' := mac_keyDesc_set p ids devs us key t in
    same_tables t t' /\ same_devs t t' /\ (forall k, pool_free k t' = pool_free k t) /\
    key_fields p t' = mk_keyDesc ids devs us key /\ forall q, keydev_device q t' = keydev_device q t;
  add_fields_law l x t : tn_ok t -> x <> 0 -> (forall l', x ∉ tn_items l' t) ->
    let t' := tn_list_add l x t in
    (forall p, short_address p t' = short_address p t /\ long_address p t' = long_address p t /\ device_pan p t' = device_pan p t /\
      keydev_device p t' = keydev_device p t /\ key_fields p t' = key_fields p t) /\
    forall k, pool_free k t' = pool_free k t
}.

(** ** Lemmas *)
Section Props.
Context {L : Type} `{TnLib L}.
Implicit Type s : mac L.

Lemma bytes_of_list (l : list Z) n : (n <= length l)%nat -> bytes_at (fun i => nth (Z.to_nat i) l 0) 0 n = take n l.
Proof.
  intros Hn. apply list_eq. intros i. destruct (decide (i < n)%nat) as [Hi|Hi].
  - rewrite bytes_at_lookup, lookup_take_lt by done. rewrite Z.add_0_l, Nat2Z.id.
    destruct (lookup_lt_is_Some_2 l i) as [v Hv]; [lia|]. by rewrite nth_lookup, Hv.
  - rewrite !lookup_ge_None_2; [done|rewrite length_take; lia|rewrite length_bytes_at; lia].
Qed.

(** A plain attribute is a cell of the information base. *)
Lemma attr_get_plain a s : plain_attr a ->
  attr_get a s = Some (bytes_at (pib s) (tb_offset (entry a)) (Z.to_nat (tb_len (entry a)))).
Proof.
  intros Ha. unfold attr_get. destruct (get_plain a 0 s) as (len & -> & _); [unfold plain_attr in Ha; lia|]. done.
Qed.

(** The value may be the beginning of a longer list. *)
Lemma attr_set_prefix a l n s : plain_attr a -> (Z.to_nat (tb_len (entry a)) <= length l)%nat -> n = tb_len (entry a) ->
  exists s', attr_set a l n s = Some s' /\ tn s' = tn s /\ attr_get a s' = Some (take (Z.to_nat n) l) /\
    (forall b, plain_attr b -> b <> a -> attr_get b s' = attr_get b s) /\
    forall x, 76 <= x -> pib s' x = pib s x.
Proof.
  intros Ha Hl ->. unfold attr_set.
  destruct (pib_attr_cell a 0 (fun i => nth (Z.to_nat i) l 0) s Ha) as (s' & -> & (len & Eg) & Ho & Ht & Hx).
  exists s'. split_and!; [done|done| | |done].
  - unfold attr_get. rewrite Eg. cbn [mbind option_bind]. by rewrite bytes_of_list.
  - intros b Hb Hne. unfold attr_get, plain_attr in *. destruct (Ho b ltac:(lia) Hne) as (v & len1 & len2 & -> & ->). done.
Qed.

Lemma attr_set_plain a l n s : plain_attr a -> length l = Z.to_nat (tb_len (entry a)) -> n = tb_len (entry a) ->
  exists s', attr_set a l n s = Some s' /\ tn s' = tn s /\ attr_get a s' = Some l /\
    (forall b, plain_attr b -> b <> a -> attr_get b s' = attr_get b s) /\
    forall x, 76 <= x -> pib s' x = pib s x.
Proof.
  intros Ha Hl Hn. destruct (attr_set_prefix a l n s Ha) as (s' & E); [lia|done|]. exists s'.
  rewrite Hn, <- Hl, firstn_all in E. by rewrite Hn.
Qed.
End Props.

(** ** The tables while key material is added *)

(** The pools a device takes a descriptor of. *)
Definition own_pools : list mac_secMaterial_t :=
  [MAC_SECMATERIAL_DEVICE_DESC; MAC_SECMATERIAL_KEYDEV_DESC; MAC_SECMATERIAL_KEY_DESC].

Section Quiet.
Context {L : Type} `{MacSecLaws L}.
Implicit Types (t : L) (M : mac L).

(** A step that changes no table but [macKeyDevTable], and no device in one. *)
Record quiet t t' : Prop := {
  qu_ok : tn_ok t';
  qu_items : forall l, l <> macKeyDevTable -> tn_items l t' = tn_items l t;
  qu_devs : same_devs t t'
}.

Lemma quiet_trans t1 t2 t3 : quiet t1 t2 -> quiet t2 t3 -> quiet t1 t3.
Proof.
  intros [O1 I1 D1] [O2 I2 D2]. split; [done| |].
  - intros l Hl. by rewrite I2, I1.
  - intros p Hp. destruct (D1 p Hp) as (<- & <- & <-). apply D2. by rewrite I1.
Qed.

Lemma same_quiet t t' : same_tables t t' -> same_devs t t' -> quiet t t'.
Proof. intros [? Hi] ?. split; [done| |done]. intros l _. apply Hi. Qed.

Lemma alloc_quiet k t x t' : tn_ok t -> desc_alloc k t = (x, t') -> pool_free k t <> 0%nat ->
  x <> 0 /\ (forall l, x ∉ tn_items l t') /\ quiet t t' /\
  (k <> MAC_SECMATERIAL_KEYDEV_DESC -> forall q, keydev_device q t' = keydev_device q t) /\
  forall k', pool_free k' t' = if decide (k' = k) then (pool_free k t - 1)%nat else pool_free k' t.
Proof.
  intros Ht E Hp. destruct (alloc_law k t x t' Ht E Hp) as (Hx & Hf & Hs & Hd & Hy & Hk).
  split_and!; [done| |by apply same_quiet|done|done]. intros l. destruct Hs as [_ ->]. apply Hf.
Qed.

(** The counters of the information base are the lengths of the tables. *)
Definition tables_here M : Prop := tables_at (fun n => tn_items n (tn M)) M.

Lemma tables_at_here m M : tables_at m M -> tables_here M.
Proof.
  intros [Ho Hi Hc]. split; [done|done|]. intros n Hn. rewrite Hi. by apply Hc.
Qed.

Lemma quiet_tables M t' : tables_here M -> quiet (tn M) t' -> tables_here (with_tn t' M).
Proof.
  intros [Ho Hi Hc] [Ho' Hi' _]. split; cbn [tn with_tn pib]; [done|done|].
  intros n Hn. rewrite Hi' by done. by apply Hc.
Qed.

Lemma item_append a n v M :
  name_of a = Some n -> tables_here M -> v <> 0 -> (forall n', v ∉ tn_items n' (tn M)) ->
  (length (tn_items n (tn M)) < 255)%nat ->
  exists M', item_set a v (Z.of_nat (length (tn_items n (tn M)))) M = Some M' /\
    tn M' = tn_list_add n v (tn M) /\ (forall x, x < 76 -> pib M' x = pib M x) /\ tables_here M'.
Proof.
  intros Hn Ht Hv Hf Hl. pose proof (name_of_range a n Hn) as Hr.
  destruct (table_of_spec a n Hn) as (release & Et & Hnk & Hrel).
  assert (Hlen : 0 <= Z.of_nat (length (tn_items n (tn M))) < 256) by (clear - Hl; lia).
  pose proof (set_table_spec _ M n release v _ Ht Hnk Hrel Hlen Hv Hf Hl) as Hs.
  unfold item_set, tl_zbMacAttrSet, MAC_TX_POWER, MAC_PHY_ATTR_CURRENT_CHANNEL.
  rewrite !(proj2 (Z.eqb_neq a _)) by lia. rewrite in_range, Et by lia. revert Hs.
  unfold set_table. destruct (ta_count _ _ Ht n Hnk) as [-> _]. rewrite Z.ltb_irrefl, Z.eqb_refl. cbn zeta.
  rewrite Nat2Z.id, Nat.ltb_irrefl, Nat.eqb_refl. intros [_ Hs]. eexists. split; [reflexivity|].
  cbn [tn with_pib with_tn pib]. split_and!; [done| |by eapply tables_at_here].
  intros x Hx. apply mem_put_out. left.
  destruct n; cbn [counter]; unfold off_keyTableEntries, off_devTableEntries, off_secLvlTableEntries; done || lia.
Qed.

(** Adding to a table leaves the other tables and the fields as they are. *)
Lemma add_quiet n v t : tn_ok t -> v <> 0 -> (forall n', v ∉ tn_items n' t) ->
  tn_ok (tn_list_add n v t) /\
  (forall n', tn_items n' (tn_list_add n v t) = if decide (n' = n) then tn_items n t ++ [v] else tn_items n' t) /\
  (forall p, short_address p (tn_list_add n v t) = short_address p t /\ long_address p (tn_list_add n v t) = long_address p t /\
    device_pan p (tn_list_add n v t) = device_pan p t /\ keydev_device p (tn_list_add n v t) = keydev_device p t /\
    key_fields p (tn_list_add n v t) = key_fields p t) /\
  forall k, pool_free k (tn_list_add n v t) = pool_free k t.
Proof.
  intros Ht Hv Hf. destruct (tn_add_law t n v Ht Hv Hf) as [? ?]. destruct (add_fields_law n v t Ht Hv Hf) as [? ?].
  by split_and!.
Qed.

Lemma attr_get_ext a M M' : plain_attr a -> (forall x, x < 76 -> pib M' x = pib M x) -> attr_get a M' = attr_get a M.
Proof.
  intros Ha Hx. rewrite !attr_get_plain by done. f_equal. apply bytes_at_ext.
  pose proof (entry_size a ltac:(unfold plain_attr in Ha; lia)). intros i Hi. apply Hx. lia.
Qed.

(** An index of the device table. *)
Lemma device_get M i : tables_here M -> 0 <= i < 256 ->
  exists r, tl_zbMacAttrGet MAC_DEVICE_TABLE i M =
    Some (r, match tn_items macDevTable (tn M) !! Z.to_nat i with Some p => GotItem p | None => GotNone end).
Proof.
  intros Ht Hi.
  assert (E : tl_zbMacAttrGet MAC_DEVICE_TABLE i M =
    match get_table macDevTable off_devTableEntries i M with
    | (r, Some p) => Some (r, GotItem p)
    | (r, None) => Some (r, GotNone)
    end) by reflexivity.
  rewrite E. change off_devTableEntries with (counter macDevTable).
  rewrite (get_table_spec _ M macDevTable i Ht) by (done || lia).
  destruct (tn_items macDevTable (tn M) !! Z.to_nat i); by eexists.
Qed.
(** The device's entry: the descriptor is filled and appended to the table. *)
Lemma enter_device M pn a sh :
  tables_here M -> pool_free MAC_SECMATERIAL_DEVICE_DESC (tn M) <> 0%nat ->
  (length (tn_items macDevTable (tn M)) < 255)%nat ->
  exists p t1, desc_alloc MAC_SECMATERIAL_DEVICE_DESC (tn M) = (p, t1) /\ p <> 0 /\
    let M2 := with_tn (mac_deviceDesc_set p pn sh a 0 false t1) M in
    exists M3, item_set MAC_DEVICE_TABLE p (Z.of_nat (length (tn_items macDevTable (tn M)))) M2 = Some M3 /\
      tables_here M3 /\ tn_items macDevTable (tn M3) = tn_items macDevTable (tn M) ++ [p] /\
      tn_items macKeyTable (tn M3) = tn_items macKeyTable (tn M) /\
      long_address p (tn M3) = a /\ short_address p (tn M3) = sh /\ device_pan p (tn M3) = pn /\ same_devs (tn M) (tn M3) /\
      (forall k, pool_free k (tn M3) = if decide (k = MAC_SECMATERIAL_DEVICE_DESC) then (pool_free k (tn M) - 1)%nat
                                       else pool_free k (tn M)) /\
      forall x, x < 76 -> pib M3 x = pib M x.
Proof.
  intros Hh Hpool Hlen. destruct (desc_alloc MAC_SECMATERIAL_DEVICE_DESC (tn M)) as [p t1] eqn:E1. exists p, t1.
  destruct (alloc_quiet _ _ _ _ (ta_ok _ _ Hh) E1 Hpool) as (Hp & Hf & Hq1 & _ & Hk1). split_and!; [done|done|].
  set (t2 := mac_deviceDesc_set p pn sh a 0 false t1). intros M2.
  destruct (dev_set_law p pn sh a 0 false t1 (qu_ok _ _ Hq1)) as ([Ho2 Hi2] & Hk2 & Hs2 & Hl2 & Hp2 & Hd2).
  fold t2 in Ho2, Hi2, Hk2, Hs2, Hl2, Hp2, Hd2.
  assert (Hq2 : quiet (tn M) t2).
  { apply (quiet_trans _ t1); [done|]. split; [done|by intros l _|].
    intros q Hqin. apply Hd2. intros ->. by apply (Hf macDevTable). }
  pose proof (quiet_tables M t2 Hh Hq2) as Hh2. fold M2 in Hh2.
  assert (Hi2' : forall n, n <> macKeyDevTable -> tn_items n t2 = tn_items n (tn M)) by apply (qu_items _ _ Hq2).
  assert (Hf2 : forall n, p ∉ tn_items n t2) by (intros n; rewrite Hi2; apply Hf).
  destruct (item_append MAC_DEVICE_TABLE macDevTable p M2) as (M3 & E3 & Et3 & Hx3 & Hh3); [done|done|done|exact Hf2| |].
  { unfold M2. cbn [tn with_tn]. by rewrite Hi2'. }
  assert (Et2 : tn M2 = t2) by done. rewrite Et2, (Hi2' macDevTable) in E3 by done. rewrite Et2 in Et3.
  destruct (add_quiet macDevTable p t2 Ho2 Hp Hf2) as (_ & Hi3 & Hd3 & Hk3). rewrite <- Et3 in Hi3, Hd3, Hk3.
  exists M3. split_and!; try done.
  - by rewrite Hi3, decide_True, Hi2'.
  - by rewrite Hi3, decide_False, Hi2'.
  - by destruct (Hd3 p) as (_ & -> & _).
  - by destruct (Hd3 p) as (-> & _).
  - by destruct (Hd3 p) as (_ & _ & -> & _).
  - intros q Hqin. destruct (Hd3 q) as (-> & -> & -> & _). by apply (qu_devs _ _ Hq2).
  - intros k. rewrite Hk3, Hk2, Hk1. by case_decide as Ek; [rewrite Ek|].
Qed.

(** The device's key. *)
Lemma enter_key M p ids us key :
  tables_here M -> pool_free MAC_SECMATERIAL_KEYDEV_DESC (tn M) <> 0%nat -> pool_free MAC_SECMATERIAL_KEY_DESC (tn M) <> 0%nat ->
  (length (tn_items macKeyTable (tn M)) < 255)%nat ->
  exists y t4, desc_alloc MAC_SECMATERIAL_KEYDEV_DESC (tn M) = (y, t4) /\ y <> 0 /\
    let t5 := mac_keydevDesc_set y p false false t4 in
    exists z t6, desc_alloc MAC_SECMATERIAL_KEY_DESC t5 = (z, t6) /\ z <> 0 /\
      let M7 := with_tn (mac_keyDesc_set z ids [y] us key t6) M in
      exists M8, item_set MAC_KEY_TABLE z (Z.of_nat (length (tn_items macKeyTable (tn M)))) M7 = Some M8 /\
        tables_here M8 /\ tn_items macDevTable (tn M8) = tn_items macDevTable (tn M) /\
        tn_items macKeyTable (tn M8) = tn_items macKeyTable (tn M) ++ [z] /\
        key_fields z (tn M8) = mk_keyDesc ids [y] us key /\ keydev_device y (tn M8) = p /\
        same_devs (tn M) (tn M8) /\
        (forall k, k <> MAC_SECMATERIAL_KEYDEV_DESC -> k <> MAC_SECMATERIAL_KEY_DESC -> pool_free k (tn M8) = pool_free k (tn M)) /\
        (forall k, (pool_free k (tn M) <= S (pool_free k (tn M8)))%nat) /\
        forall x, x < 76 -> pib M8 x = pib M x.
Proof.
  intros Hh Hpy Hpz Hlen. destruct (desc_alloc MAC_SECMATERIAL_KEYDEV_DESC (tn M)) as [y t4] eqn:E4. exists y, t4.
  destruct (alloc_quiet _ _ _ _ (ta_ok _ _ Hh) E4 Hpy) as (Hy & _ & Hq4 & _ & Hk4). split_and!; [done|done|]. intros t5.
  destruct (keydev_set_law y p false false t4 (qu_ok _ _ Hq4)) as (Ho5 & Hi5 & Hd5 & Hk5 & Hy5).
  fold t5 in Ho5, Hi5, Hd5, Hk5, Hy5.
  destruct (desc_alloc MAC_SECMATERIAL_KEY_DESC t5) as [z t6] eqn:E6. exists z, t6.
  destruct (alloc_quiet _ _ _ _ Ho5 E6) as (Hz & Hf6 & Hq6 & Hy6 & Hk6).
  { by rewrite Hk5, Hk4, decide_False. }
  split_and!; [done|done|]. set (t7 := mac_keyDesc_set z ids [y] us key t6). intros M7.
  destruct (key_set_law z ids [y] us key t6 (qu_ok _ _ Hq6)) as (Hs7 & Hd7 & Hk7 & Hz7 & Hy7).
  fold t7 in Hs7, Hd7, Hk7, Hz7, Hy7.
  assert (Hq7 : quiet (tn M) t7).
  { apply (quiet_trans _ t4); [done|]. apply (quiet_trans _ t5); [by split|].
    apply (quiet_trans _ t6); [done|]. by apply same_quiet. }
  pose proof (quiet_tables M t7 Hh Hq7) as Hh7. fold M7 in Hh7. assert (Et7 : tn M7 = t7) by done.
  assert (Hf7 : forall n, z ∉ tn_items n t7) by (intros n; rewrite (proj2 Hs7); apply Hf6).
  destruct (item_append MAC_KEY_TABLE macKeyTable z M7) as (M8 & E8 & Et8 & Hx8 & Hh8); [done|done|done|exact Hf7| |].
  { rewrite Et7, (qu_items _ _ Hq7) by done. done. }
  rewrite Et7, (qu_items _ _ Hq7) in E8 by done. rewrite Et7 in Et8.
  destruct (add_quiet macKeyTable z t7 (qu_ok _ _ Hq7) Hz Hf7) as (_ & Hi8 & Hd8 & Hk8). rewrite <- Et8 in Hi8, Hd8, Hk8.
  exists M8. split_and!; try done.
  - rewrite Hi8, decide_False, (qu_items _ _ Hq7) by done. done.
  - by rewrite Hi8, decide_True, (qu_items _ _ Hq7) by done.
  - by destruct (Hd8 z) as (_ & _ & _ & _ & ->).
  - destruct (Hd8 y) as (_ & _ & _ & -> & _). by rewrite Hy7, Hy6, Hy5.
  - intros q Hqin. destruct (Hd8 q) as (-> & -> & -> & _). by apply (qu_devs _ _ Hq7).
  - intros k Hk Hk'. by rewrite Hk8, Hk7, Hk6, decide_False, Hk5, Hk4, decide_False.
  - intros k. rewrite Hk8, Hk7, Hk6. case_decide as Ek; rewrite Hk5, Hk4; case_decide as Ek'; clear Hy5; subst; done || lia.
Qed.

(** The materials all keys share. *)
Lemma enter_materials t :
  tn_ok t -> (2 <= pool_free MAC_SECMATERIAL_KEYUSAGE_DESC t)%nat ->
  (1 <= pool_free MAC_SECMATERIAL_KEYID_LOOKUP_DESC t)%nat ->
  exists u0 t1, desc_alloc MAC_SECMATERIAL_KEYUSAGE_DESC t = (u0, t1) /\ u0 <> 0 /\
    let t2 := mac_keyusageDesc_set u0 1 0 t1 in
    exists u1 t3, desc_alloc MAC_SECMATERIAL_KEYUSAGE_DESC t2 = (u1, t3) /\ u1 <> 0 /\
      let t4 := mac_keyusageDesc_set u1 3 4 t3 in
      exists k t5, desc_alloc MAC_SECMATERIAL_KEYID_LOOKUP_DESC t4 = (k, t5) /\ k <> 0 /\
        let t6 := mac_keyidDesc_set k LOOKUP_DATA_SIZE_9 (default_key_source ++ [default_key_index]) t5 in
        quiet t t6 /\ forall j, j ∈ own_pools -> pool_free j t6 = pool_free j t.
Proof.
  intros Ht Hu Hk.
  destruct (desc_alloc MAC_SECMATERIAL_KEYUSAGE_DESC t) as [u0 t1] eqn:E1. exists u0, t1.
  destruct (alloc_quiet _ _ _ _ Ht E1) as (Hu0 & _ & Q1 & _ & P1); [lia|]. split_and!; [done|done|]. intros t2.
  destruct (usage_set_law u0 1 0 t1 (qu_ok _ _ Q1)) as (S2 & D2 & P2). fold t2 in S2, D2, P2.
  pose proof (quiet_trans _ _ _ Q1 (same_quiet _ _ S2 D2)) as Q2.
  destruct (desc_alloc MAC_SECMATERIAL_KEYUSAGE_DESC t2) as [u1 t3] eqn:E3. exists u1, t3.
  destruct (alloc_quiet _ _ _ _ (qu_ok _ _ Q2) E3) as (Hu1 & _ & Q3 & _ & P3).
  { rewrite P2, P1, decide_True by done. lia. }
  split_and!; [done|done|]. intros t4.
  destruct (usage_set_law u1 3 4 t3 (qu_ok _ _ Q3)) as (S4 & D4 & P4). fold t4 in S4, D4, P4.
  pose proof (quiet_trans _ _ _ (quiet_trans _ _ _ Q2 Q3) (same_quiet _ _ S4 D4)) as Q4.
  destruct (desc_alloc MAC_SECMATERIAL_KEYID_LOOKUP_DESC t4) as [k t5] eqn:E5. exists k, t5.
  destruct (alloc_quiet _ _ _ _ (qu_ok _ _ Q4) E5) as (Hk0 & _ & Q5 & _ & P5).
  { rewrite P4, P3, decide_False, P2, P1, decide_False by done. lia. }
  split_and!; [done|done|]. intros t6.
  destruct (keyid_set_law k LOOKUP_DATA_SIZE_9 (default_key_source ++ [default_key_index]) t5 (qu_ok _ _ Q5)) as (S6 & D6 & P6).
  fold t6 in S6, D6, P6. split; [exact (quiet_trans _ _ _ (quiet_trans _ _ _ Q4 Q5) (same_quiet _ _ S6 D6))|].
  intros j Hj.
  assert (Hj2 : j <> MAC_SECMATERIAL_KEYUSAGE_DESC /\ j <> MAC_SECMATERIAL_KEYID_LOOKUP_DESC) by (split; intros ->; set_solver).
  destruct Hj2 as [Hj1 Hj2]. by rewrite P6, P5, decide_False, P4, P3, decide_False, P2, P1, decide_False.
Qed.

Lemma tables_pib m (M M' : mac L) : tables_at m M -> tn M' = tn M -> (forall x, 76 <= x < 108 -> pib M' x = pib M x) ->
  tables_at m M'.
Proof.
  intros [Ho Hi Hc] Et Hx. split; [by rewrite Et|by intros n; rewrite Et|].
  intros n Hn. rewrite Hx; [by apply Hc|].
  destruct n; cbn [counter]; unfold off_keyTableEntries, off_devTableEntries, off_secLvlTableEntries; done || lia.
Qed.

End Quiet.
