(* ===== verification/AppCoor.v ===== *)
(** * The coordinator application ([demo/associate_coor/app.c])

    A device that associates gets a place in the device table and the short
    address that goes with it; a timer then sends data to the devices in turn.
    [coor] holds the globals of the file, the MAC's information base, the timers,
    the memory with the event buffers, the coordinator's side of the update
    (whose [dev_src_addr] is the application's) and, oldest first, the tasks that
    were scheduled and the requests handed to the MAC.

    A wait forever ([while(1);]) is [None], and so is the write through the
    pointer [ev_buf_allocate] returned when that pointer is null. *)
From S2P Require Import Prelude SpiFlash FlashIf Memory Linked ListC SysEv Mempool EvBuffer BufClient EvTimer TimerIf.
From S2P Require Import Ota OtaServer Pib PibProps PibTables App.

(** [my_device_t] *)
Record my_device_t := mk_dev { extAddr : list Z; shortAddr : Z; dev_pan_id : list Z }.
Definition dev_zero : my_device_t := mk_dev (repeat 0 8) 0 [0; 0].

Definition END_DEVICE_NUM : Z := MAC_DEV_TABLE_MAX_LEN.
Definition APP_NODE_NUM_MAX : nat := 128.

(** Globals that are never written. *)
Definition coor_addr_short : Z := 0x2211.
Definition pan_id : Z := 0xbeef.

(** The addresses of the callbacks. *)
Class CoorLinks := {
  fn_data_send_indir_timer_cb : Z;
  fn_mac_send_data_indirect : Z;
  fn_app_data_txto_allnode : Z
}.

Section State.
Context {L T F : Type}.

Record coor := mk_coor {
  end_device : list my_device_t;
  device_index : Z;
  indirect_device_index : Z;
  device_ext_addr : list Z;
  device_addr_short : Z;
  pKeyUsgDesc : list Z;
  pKeyIDDesc : Z;
  user_packet : list Z;
  g_node_addr : list Z;
  g_node_num_cur : Z;
  g_mac_msdu_handle : Z;
  g_node_index : Z;
  g_data_txto_allnode_timer : Z;
  g_app_data_sn : Z;
  test_cnt : Z;
  data_send_indir_timer : Z;
  cr_mac : mac L;
  cr_tm : T;
  cr_buf : buf_state;
  cr_ota : server F;
  cr_tasks : list (Z * Z);
  cr_sent : list mac_request
}.

Definition with_end_device v s := mk_coor v (device_index s) (indirect_device_index s) (device_ext_addr s) (device_addr_short s) (pKeyUsgDesc s) (pKeyIDDesc s) (user_packet s) (g_node_addr s) (g_node_num_cur s) (g_mac_msdu_handle s) (g_node_index s) (g_data_txto_allnode_timer s) (g_app_data_sn s) (test_cnt s) (data_send_indir_timer s) (cr_mac s) (cr_tm s) (cr_buf s) (cr_ota s) (cr_tasks s) (cr_sent s).
Definition with_device_index v s := mk_coor (end_device s) v (indirect_device_index s) (device_ext_addr s) (device_addr_short s) (pKeyUsgDesc s) (pKeyIDDesc s) (user_packet s) (g_node_addr s) (g_node_num_cur s) (g_mac_msdu_handle s) (g_node_index s) (g_data_txto_allnode_timer s) (g_app_data_sn s) (test_cnt s) (data_send_indir_timer s) (cr_mac s) (cr_tm s) (cr_buf s) (cr_ota s) (cr_tasks s) (cr_sent s).
Definition with_indirect_device_index v s := mk_coor (end_device s) (device_index s) v (device_ext_addr s) (device_addr_short s) (pKeyUsgDesc s) (pKeyIDDesc s) (user_packet s) (g_node_addr s) (g_node_num_cur s) (g_mac_msdu_handle s) (g_node_index s) (g_data_txto_allnode_timer s) (g_app_data_sn s) (test_cnt s) (data_send_indir_timer s) (cr_mac s) (cr_tm s) (cr_buf s) (cr_ota s) (cr_tasks s) (cr_sent s).
Definition with_device_ext_addr v s := mk_coor (end_device s) (device_index s) (indirect_device_index s) v (device_addr_short s) (pKeyUsgDesc s) (pKeyIDDesc s) (user_packet s) (g_node_addr s) (g_node_num_cur s) (g_mac_msdu_handle s) (g_node_index s) (g_data_txto_allnode_timer s) (g_app_data_sn s) (test_cnt s) (data_send_indir_timer s) (cr_mac s) (cr_tm s) (cr_buf s) (cr_ota s) (cr_tasks s) (cr_sent s).
Definition with_device_addr_short v s := mk_coor (end_device s) (device_index s) (indirect_device_index s) (device_ext_addr s) v (pKeyUsgDesc s) (pKeyIDDesc s) (user_packet s) (g_node_addr s) (g_node_num_cur s) (g_mac_msdu_handle s) (g_node_index s) (g_data_txto_allnode_timer s) (g_app_data_sn s) (test_cnt s) (data_send_indir_timer s) (cr_mac s) (cr_tm s) (cr_buf s) (cr_ota s) (cr_tasks s) (cr_sent s).
Definition with_pKeyUsgDesc v s := mk_coor (end_device s) (device_index s) (indirect_device_index s) (device_ext_addr s) (device_addr_short s) v (pKeyIDDesc s) (user_packet s) (g_node_addr s) (g_node_num_cur s) (g_mac_msdu_handle s) (g_node_index s) (g_data_txto_allnode_timer s) (g_app_data_sn s) (test_cnt s) (data_send_indir_timer s) (cr_mac s) (cr_tm s) (cr_buf s) (cr_ota s) (cr_tasks s) (cr_sent s).
Definition with_pKeyIDDesc v s := mk_coor (end_device s) (device_index s) (indirect_device_index s) (device_ext_addr s) (device_addr_short s) (pKeyUsgDesc s) v (user_packet s) (g_node_addr s) (g_node_num_cur s) (g_mac_msdu_handle s) (g_node_index s) (g_data_txto_allnode_timer s) (g_app_data_sn s) (test_cnt s) (data_send_indir_timer s) (cr_mac s) (cr_tm s) (cr_buf s) (cr_ota s) (cr_tasks s) (cr_sent s).
Definition with_user_packet v s := mk_coor (end_device s) (device_index s) (indirect_device_index s) (device_ext_addr s) (device_addr_short s) (pKeyUsgDesc s) (pKeyIDDesc s) v (g_node_addr s) (g_node_num_cur s) (g_mac_msdu_handle s) (g_node_index s) (g_data_txto_allnode_timer s) (g_app_data_sn s) (test_cnt s) (data_send_indir_timer s) (cr_mac s) (cr_tm s) (cr_buf s) (cr_ota s) (cr_tasks s) (cr_sent s).
Definition with_g_node_addr v s := mk_coor (end_device s) (device_index s) (indirect_device_index s) (device_ext_addr s) (device_addr_short s) (pKeyUsgDesc s) (pKeyIDDesc s) (user_packet s) v (g_node_num_cur s) (g_mac_msdu_handle s) (g_node_index s) (g_data_txto_allnode_timer s) (g_app_data_sn s) (test_cnt s) (data_send_indir_timer s) (cr_mac s) (cr_tm s) (cr_buf s) (cr_ota s) (cr_tasks s) (cr_sent s).
Definition with_g_node_num_cur v s := mk_coor (end_device s) (device_index s) (indirect_device_index s) (device_ext_addr s) (device_addr_short s) (pKeyUsgDesc s) (pKeyIDDesc s) (user_packet s) (g_node_addr s) v (g_mac_msdu_handle s) (g_node_index s) (g_data_txto_allnode_timer s) (g_app_data_sn s) (test_cnt s) (data_send_indir_timer s) (cr_mac s) (cr_tm s) (cr_buf s) (cr_ota s) (cr_tasks s) (cr_sent s).
Definition with_g_mac_msdu_handle v s := mk_coor (end_device s) (device_index s) (indirect_device_index s) (device_ext_addr s) (device_addr_short s) (pKeyUsgDesc s) (pKeyIDDesc s) (user_packet s) (g_node_addr s) (g_node_num_cur s) v (g_node_index s) (g_data_txto_allnode_timer s) (g_app_data_sn s) (test_cnt s) (data_send_indir_timer s) (cr_mac s) (cr_tm s) (cr_buf s) (cr_ota s) (cr_tasks s) (cr_sent s).
Definition with_g_node_index v s := mk_coor (end_device s) (device_index s) (indirect_device_index s) (device_ext_addr s) (device_addr_short s) (pKeyUsgDesc s) (pKeyIDDesc s) (user_packet s) (g_node_addr s) (g_node_num_cur s) (g_mac_msdu_handle s) v (g_data_txto_allnode_timer s) (g_app_data_sn s) (test_cnt s) (data_send_indir_timer s) (cr_mac s) (cr_tm s) (cr_buf s) (cr_ota s) (cr_tasks s) (cr_sent s).
Definition with_g_data_txto_allnode_timer v s := mk_coor (end_device s) (device_index s) (indirect_device_index s) (device_ext_addr s) (device_addr_short s) (pKeyUsgDesc s) (pKeyIDDesc s) (user_packet s) (g_node_addr s) (g_node_num_cur s) (g_mac_msdu_handle s) (g_node_index s) v (g_app_data_sn s) (test_cnt s) (data_send_indir_timer s) (cr_mac s) (cr_tm s) (cr_buf s) (cr_ota s) (cr_tasks s) (cr_sent s).
Definition with_g_app_data_sn v s := mk_coor (end_device s) (device_index s) (indirect_device_index s) (device_ext_addr s) (device_addr_short s) (pKeyUsgDesc s) (pKeyIDDesc s) (user_packet s) (g_node_addr s) (g_node_num_cur s) (g_mac_msdu_handle s) (g_node_index s) (g_data_txto_allnode_timer s) v (test_cnt s) (data_send_indir_timer s) (cr_mac s) (cr_tm s) (cr_buf s) (cr_ota s) (cr_tasks s) (cr_sent s).
Definition with_test_cnt v s := mk_coor (end_device s) (device_index s) (indirect_device_index s) (device_ext_addr s) (device_addr_short s) (pKeyUsgDesc s) (pKeyIDDesc s) (user_packet s) (g_node_addr s) (g_node_num_cur s) (g_mac_msdu_handle s) (g_node_index s) (g_data_txto_allnode_timer s) (g_app_data_sn s) v (data_send_indir_timer s) (cr_mac s) (cr_tm s) (cr_buf s) (cr_ota s) (cr_tasks s) (cr_sent s).
Definition with_data_send_indir_timer v s := mk_coor (end_device s) (device_index s) (indirect_device_index s) (device_ext_addr s) (device_addr_short s) (pKeyUsgDesc s) (pKeyIDDesc s) (user_packet s) (g_node_addr s) (g_node_num_cur s) (g_mac_msdu_handle s) (g_node_index s) (g_data_txto_allnode_timer s) (g_app_data_sn s) (test_cnt s) v (cr_mac s) (cr_tm s) (cr_buf s) (cr_ota s) (cr_tasks s) (cr_sent s).
Definition with_cr_mac v s := mk_coor (end_device s) (device_index s) (indirect_device_index s) (device_ext_addr s) (device_addr_short s) (pKeyUsgDesc s) (pKeyIDDesc s) (user_packet s) (g_node_addr s) (g_node_num_cur s) (g_mac_msdu_handle s) (g_node_index s) (g_data_txto_allnode_timer s) (g_app_data_sn s) (test_cnt s) (data_send_indir_timer s) v (cr_tm s) (cr_buf s) (cr_ota s) (cr_tasks s) (cr_sent s).
Definition with_cr_tm v s := mk_coor (end_device s) (device_index s) (indirect_device_index s) (device_ext_addr s) (device_addr_short s) (pKeyUsgDesc s) (pKeyIDDesc s) (user_packet s) (g_node_addr s) (g_node_num_cur s) (g_mac_msdu_handle s) (g_node_index s) (g_data_txto_allnode_timer s) (g_app_data_sn s) (test_cnt s) (data_send_indir_timer s) (cr_mac s) v (cr_buf s) (cr_ota s) (cr_tasks s) (cr_sent s).
Definition with_cr_buf v s := mk_coor (end_device s) (device_index s) (indirect_device_index s) (device_ext_addr s) (device_addr_short s) (pKeyUsgDesc s) (pKeyIDDesc s) (user_packet s) (g_node_addr s) (g_node_num_cur s) (g_mac_msdu_handle s) (g_node_index s) (g_data_txto_allnode_timer s) (g_app_data_sn s) (test_cnt s) (data_send_indir_timer s) (cr_mac s) (cr_tm s) v (cr_ota s) (cr_tasks s) (cr_sent s).
Definition with_cr_ota v s := mk_coor (end_device s) (device_index s) (indirect_device_index s) (device_ext_addr s) (device_addr_short s) (pKeyUsgDesc s) (pKeyIDDesc s) (user_packet s) (g_node_addr s) (g_node_num_cur s) (g_mac_msdu_handle s) (g_node_index s) (g_data_txto_allnode_timer s) (g_app_data_sn s) (test_cnt s) (data_send_indir_timer s) (cr_mac s) (cr_tm s) (cr_buf s) v (cr_tasks s) (cr_sent s).
Definition with_cr_tasks v s := mk_coor (end_device s) (device_index s) (indirect_device_index s) (device_ext_addr s) (device_addr_short s) (pKeyUsgDesc s) (pKeyIDDesc s) (user_packet s) (g_node_addr s) (g_node_num_cur s) (g_mac_msdu_handle s) (g_node_index s) (g_data_txto_allnode_timer s) (g_app_data_sn s) (test_cnt s) (data_send_indir_timer s) (cr_mac s) (cr_tm s) (cr_buf s) (cr_ota s) v (cr_sent s).
Definition with_cr_sent v s := mk_coor (end_device s) (device_index s) (indirect_device_index s) (device_ext_addr s) (device_addr_short s) (pKeyUsgDesc s) (pKeyIDDesc s) (user_packet s) (g_node_addr s) (g_node_num_cur s) (g_mac_msdu_handle s) (g_node_index s) (g_data_txto_allnode_timer s) (g_app_data_sn s) (test_cnt s) (data_send_indir_timer s) (cr_mac s) (cr_tm s) (cr_buf s) (cr_ota s) (cr_tasks s) v.
End State.
Arguments coor : clear implicits.

Section Coor.
Context {L T F : Type} `{TnLib L, !MacSecLib L, TimerSvc T, Flash F, EvLayout, CoorLinks}.
Implicit Type s : coor L T F.

Definition cr_mem s : mem := b_mem (cr_buf s).
Definition with_cr_mem (m : mem) s : coor L T F := with_cr_buf (with_cpu (with_mem m (b_cpu (cr_buf s))) (cr_buf s)) s.
Definition buf_allocate (sz : Z) s : Z * coor L T F :=
  let '(p, b) := ev_buf_allocate sz (cr_buf s) in (p, with_cr_buf b s).
Definition buf_free (p : Z) s : option (coor L T F) :=
  '(_, b) ← ev_buf_free p (cr_buf s); Some (with_cr_buf b s).
Definition send (r : mac_request) s : coor L T F := with_cr_sent (cr_sent s ++ [r]) s.
Definition on_tn (f : L -> L) s : coor L T F := with_cr_mac (with_tn (f (tn (cr_mac s))) (cr_mac s)) s.
Definition set_attr (a : Z) (l : list Z) (index : Z) s : option (coor L T F) :=
  m ← attr_set a l index (cr_mac s); Some (with_cr_mac m s).
Definition set_item (a p index : Z) s : option (coor L T F) :=
  m ← item_set a p index (cr_mac s); Some (with_cr_mac m s).

(** An allocation of a descriptor, followed by [if (!p) while(1);] *)
Definition alloc_or_hang (k : mac_secMaterial_t) s : option (Z * coor L T F) :=
  let '(p, t) := desc_alloc k (tn (cr_mac s)) in
  if p =? 0 then None else Some (p, on_tn (fun _ => t) s).

(** A destination or source with a short address. *)
Definition short_addr (a : Z) : addr_t := mk_addr ZB_ADDR_16BIT_DEV_OR_BROADCAST (word_le 2 a ++ repeat 0 6).

Definition both_bits : Z := Z.lor MAC_TX_OPTION_ACKNOWLEDGED_BIT MAC_TX_OPTION_INDIRECT_TRANSMISSION_BIT.

(** ** Data to all nodes *)
Definition app_data_txto_allnode s : option (Z * coor L T F) :=
  pan ← attr_get MAC_ATTR_PAN_ID (cr_mac s);
  if 0 <? g_node_num_cur s then
    a ← g_node_addr s !! Z.to_nat (g_node_index s);
    let s := with_g_node_index (u32 (g_node_index s + 1)) s in
    let s := if g_node_num_cur s <=? g_node_index s then with_g_node_index 0 s else s in
    let handle := Z.land (g_mac_msdu_handle s) 0x3f in
    let s := with_g_mac_msdu_handle (u8 (g_mac_msdu_handle s + 1)) s in
    let msduLen := 50 + 4 in
    let '(msdu, s) := buf_allocate msduLen s in
    let sn := g_app_data_sn s in
    let s := with_g_app_data_sn (u32 (sn + 1)) s in
    if msdu =? 0 then None
    else
      let s := with_cr_mem (store32 (cr_mem s) msdu sn) s in
      let s := with_cr_mem (store_bytes (cr_mem s) (msdu + 4) (u8 <$> seqZ 0 (msduLen - 4))) s in
      let req := mk_req ZB_ADDR_16BIT_DEV_OR_BROADCAST (short_addr a) pan handle both_bits
                   (load_bytes (cr_mem s) msdu (Z.to_nat msduLen)) in
      let s := send (McpsData req sec_zero) s in
      s ← buf_free msdu s;
      Some (0, s)
  else Some (-1, s).

Definition app_data_transmit_toggle s : coor L T F :=
  if negb (g_data_txto_allnode_timer s =? 0) then
    let '(p, t) := tmr_cancel (g_data_txto_allnode_timer s) (cr_tm s) in
    with_g_data_txto_allnode_timer p (with_cr_tm t s)
  else
    let s := with_g_node_index 0 s in
    let '(p, t) := tmr_post fn_app_data_txto_allnode 0 3000 (cr_tm s) in
    with_g_data_txto_allnode_timer p (with_cr_tm t s).

(** ** Configuration *)

(** The materials all keys share. *)
Definition common_materials s : option (coor L T F) :=
  '(u0, s) ← alloc_or_hang MAC_SECMATERIAL_KEYUSAGE_DESC s;
  let s := with_pKeyUsgDesc [u0; nth 1 (pKeyUsgDesc s) 0] s in
  let s := on_tn (mac_keyusageDesc_set u0 1 0) s in
  '(u1, s) ← alloc_or_hang MAC_SECMATERIAL_KEYUSAGE_DESC s;
  let s := with_pKeyUsgDesc [u0; u1] s in
  let s := on_tn (mac_keyusageDesc_set u1 3 4) s in
  '(k, s) ← alloc_or_hang MAC_SECMATERIAL_KEYID_LOOKUP_DESC s;
  let s := with_pKeyIDDesc k s in
  let look_data := default_key_source ++ [default_key_index] in
  Some (on_tn (mac_keyidDesc_set k LOOKUP_DATA_SIZE_9 look_data) s).

Definition coor_config s : option (coor L T F) :=
  s ← set_attr MAC_ATTR_SECURITY_ENABLED [ZB_MAC_SECURITY] 1 s;
  s ← set_attr MAC_ATTR_SHORT_ADDRESS (word_le 2 coor_addr_short) 2 s;
  s ← set_attr MAC_DEFAULT_KEY_SOURCE default_key_source 8 s;
  common_materials s.

(** The loop over the device table: the descriptor with the address, or null. *)
Fixpoint find_device (n : nat) (index : Z) s : option Z :=
  match n with
  | O => Some 0
  | S n' =>
      '(_, g) ← tl_zbMacAttrGet MAC_DEVICE_TABLE index (cr_mac s);
      let pDevDesc := match g with GotItem p => p | _ => 0 end in
      if negb (pDevDesc =? 0) && bool_decide (long_address pDevDesc (tn (cr_mac s)) = device_ext_addr s)
      then Some pDevDesc
      else find_device n' (u8 (index + 1)) s
  end.

(** The entry of a new device in the device table, and its key. *)
Definition add_device_entry s : option (Z * coor L T F) :=
  '(pDevDesc, s) ← alloc_or_hang MAC_SECMATERIAL_DEVICE_DESC s;
  let s := with_device_addr_short (Z.land (device_addr_short s) 0xfff0) s in
  let s := with_device_addr_short (u16 (device_addr_short s + device_index s)) s in
  let s := on_tn (mac_deviceDesc_set pDevDesc pan_id (device_addr_short s) (device_ext_addr s) 0 false) s in
  s ← set_item MAC_DEVICE_TABLE pDevDesc (device_index s) s;
  Some (pDevDesc, s).

Definition add_key_entry (pDevDesc : Z) s : option (coor L T F) :=
  '(pKeyDevDesc, s) ← alloc_or_hang MAC_SECMATERIAL_KEYDEV_DESC s;
  let s := on_tn (mac_keydevDesc_set pKeyDevDesc pDevDesc false false) s in
  '(pKeyDesc, s) ← alloc_or_hang MAC_SECMATERIAL_KEY_DESC s;
  let s := on_tn (mac_keyDesc_set pKeyDesc [pKeyIDDesc s] [pKeyDevDesc] (pKeyUsgDesc s) test_key) s in
  set_item MAC_KEY_TABLE pKeyDesc (device_index s) s.

Definition add_key_material s : option (Z * coor L T F) :=
  pDevDesc ← find_device (Z.to_nat MAC_DEV_TABLE_MAX_LEN) 0 s;
  if negb (pDevDesc =? 0) then
    let s := with_device_addr_short (short_address pDevDesc (tn (cr_mac s))) s in
    Some (TRUE, on_tn (mac_deviceDesc_reset pDevDesc pan_id (device_addr_short s) (device_ext_addr s) 0 false) s)
  else if END_DEVICE_NUM <=? device_index s then Some (FALSE, s)
  else
    '(pDevDesc, s) ← add_device_entry s;
    s ← add_key_entry pDevDesc s;
    Some (TRUE, with_device_index (u8 (device_index s + 1)) s).

Definition pan_start s : coor L T F :=
  send (MlmeStart (mk_start 0 pan_id DEFAULT_CHANNEL 0 ZB_TURN_OFF_ORDER ZB_TURN_OFF_ORDER 1 0 sec_zero sec_zero 0)) s.

(** ** Data to the associated devices *)
Definition data_send_indir_timer_cb s : Z * coor L T F :=
  (0, with_cr_tasks (cr_tasks s ++ [(fn_mac_send_data_indirect, 0)]) s).

Definition mac_send_data_indirect s : option (coor L T F) :=
  d ← end_device s !! Z.to_nat (indirect_device_index s);
  pan ← attr_get MAC_ATTR_PAN_ID (cr_mac s);
  let sec := mk_sec default_key_source SECURITY_LEVEL_ENC_MIC_64 KEY_ID_MODE_KEY_EXPLICIT_8 default_key_index in
  let '(pay, s) := buf_allocate 4 s in
  if pay =? 0 then None
  else
    let pay_len := 4 in
    let s := with_cr_mem (store_bytes (cr_mem s) pay (word_le 4 (test_cnt s))) s in
    let s := with_test_cnt (u32 (test_cnt s + 1)) s in
    let req := mk_req ZB_ADDR_16BIT_DEV_OR_BROADCAST (short_addr (shortAddr d)) pan 0 both_bits
                 (load_bytes (cr_mem s) pay (Z.to_nat pay_len)) in
    let s := send (McpsData req sec) s in
    s ← buf_free pay s;
    let s := with_indirect_device_index (u8 (indirect_device_index s + 1)) s in
    Some (if device_index s <=? indirect_device_index s then with_indirect_device_index 0 s else s).

Definition data_send s : coor L T F :=
  let s := if negb (data_send_indir_timer s =? 0) then
             let '(p, t) := tmr_cancel (data_send_indir_timer s) (cr_tm s) in
             with_data_send_indir_timer p (with_cr_tm t s)
           else s in
  let '(p, t) := tmr_post fn_data_send_indir_timer_cb 0 5000 (cr_tm s) in
  with_data_send_indir_timer p (with_cr_tm t s).

(** ** Indications *)

(** The record of the device, the response and the timer. *)
Definition associate_answer (devAddress : list Z) s : option (coor L T F) :=
  let idx := Z.to_nat (Z.land (device_addr_short s) 0xf) in
  _ ← end_device s !! idx;
  pan ← attr_get MAC_ATTR_PAN_ID (cr_mac s);
  let address := device_addr_short s in
  let s := with_end_device (<[idx := mk_dev devAddress address pan]> (end_device s)) s in
  let s := send (MlmeAssociateResponse (mk_arsp devAddress sec_zero address MAC_SUCCESS)) s in
  Some (data_send s).

(** [pInd]: the address of the device, when the pointer is not null. *)
Definition MyAssociateIndCb (pInd : option (list Z)) s : option (coor L T F) :=
  match pInd with
  | None => Some s
  | Some devAddress =>
      let s := with_device_ext_addr devAddress s in
      '(r, s) ← add_key_material s;
      if negb (r =? TRUE) then Some s else associate_answer devAddress s
  end.

(** [pInd]: the source, the payload and its length. *)
Definition MyDataIndCb (pInd : option (addr_t * (Z -> Z) * Z)) s : coor L T F :=
  match pInd with
  | None => s
  | Some (srcAddr, msdu, msduLength) =>
      let '(ret, o) := @tl_appDataIndicate F _ (env_of (cr_mac s)) msdu (with_dev_src_addr srcAddr (cr_ota s)) in
      let s := with_cr_ota o s in
      if negb (ret =? SUCCESS) then with_user_packet (keep_packet msdu msduLength (user_packet s)) s else s
  end.
End Coor.

(** ** Events

    An indication of the MAC, a timer that is due, a key, or the next task. *)
Inductive coor_event :=
  | CAssociate (pInd : option (list Z))
  | CData (pInd : option (addr_t * (Z -> Z) * Z))
  | CIndirTimer
  | CAllTimer
  | CToggle
  | CTask.

Section Events.
Context {L T F : Type} `{TnLib L, !MacSecLib L, TimerSvc T, Flash F, EvLayout, CoorLinks}.
Implicit Type s : coor L T F.

(** The application schedules one function only. *)
Definition run_task s : option (coor L T F) :=
  match cr_tasks s with
  | [] => Some s
  | (f, _) :: ts => if f =? fn_mac_send_data_indirect then mac_send_data_indirect (with_cr_tasks ts s) else None
  end.

Definition coor_step (e : coor_event) s : option (coor L T F) :=
  match e with
  | CAssociate pInd => MyAssociateIndCb pInd s
  | CData pInd => Some (MyDataIndCb pInd s)
  | CIndirTimer => Some (data_send_indir_timer_cb s).2
  | CAllTimer => '(_, s) ← app_data_txto_allnode s; Some s
  | CToggle => Some (app_data_transmit_toggle s)
  | CTask => run_task s
  end.

Fixpoint coor_run (evs : list coor_event) s : option (coor L T F) :=
  match evs with [] => Some s | e :: evs => s ← coor_step e s; coor_run evs s end.
End Events.
