(* ===== verification/AppCoorProps.v ===== *)
(** * The coordinator application: properties

    The abstract coordinator is a registry: the addresses of the devices in the
    order in which they associated, the place of the next device to send to, the
    counter that is the payload, and the number of transmissions that are due.
    The application refines it, over any sequence of events. *)
From S2P Require Import Prelude SpiFlash FlashIf Memory Linked ListC SysEv Mempool EvBuffer BufClient EvTimer TimerIf.
From S2P Require Import Ota OtaServer Pib PibProps PibTables App AppCoor.

(** ** The registry *)
Record registry := mk_reg { rg_devs : list (list Z); rg_next : nat; rg_count : Z; rg_due : nat }.

Definition reg0 : registry := mk_reg [] 0 0xaa000001 0.

(** The short address of a place. *)
Definition rg_short (i : nat) : Z := 0x3300 + Z.of_nat i.

Definition assoc_rsp (a : list Z) (i : nat) : mac_request :=
  MlmeAssociateResponse (mk_arsp a sec_zero (rg_short i) MAC_SUCCESS).

Definition data_sec : mac_sec_t :=
  mk_sec default_key_source SECURITY_LEVEL_ENC_MIC_64 KEY_ID_MODE_KEY_EXPLICIT_8 default_key_index.

Definition data_msg (pan : list Z) (dst cnt : Z) : mac_request :=
  McpsData (mk_req ZB_ADDR_16BIT_DEV_OR_BROADCAST (short_addr dst) pan 0 both_bits (word_le 4 cnt)) data_sec.

(** Where the next transmission goes; address 0 when no device has associated. *)
Definition rg_dst (r : registry) : Z := if (length (rg_devs r) =? 0)%nat then 0 else rg_short (rg_next r).

Definition reg_step (pan : list Z) (e : coor_event) (r : registry) : list mac_request * registry :=
  match e with
  | CAssociate (Some a) =>
      match list_find (a =.) (rg_devs r) with
      | Some (i, _) => ([assoc_rsp a i], r)
      | None =>
          let n := length (rg_devs r) in
          if (n <? 16)%nat then ([assoc_rsp a n], mk_reg (rg_devs r ++ [a]) (rg_next r) (rg_count r) (rg_due r))
          else ([], r)
      end
  | CIndirTimer => ([], mk_reg (rg_devs r) (rg_next r) (rg_count r) (S (rg_due r)))
  | CTask =>
      match rg_due r with
      | O => ([], r)
      | S n =>
          let next := if (length (rg_devs r) <=? S (rg_next r))%nat then 0%nat else S (rg_next r) in
          ([data_msg pan (rg_dst r) (rg_count r)], mk_reg (rg_devs r) next (u32 (rg_count r + 1)) n)
      end
  | _ => ([], r)
  end.

Fixpoint reg_run (pan : list Z) (evs : list coor_event) (r : registry) : list mac_request * registry :=
  match evs with
  | [] => ([], r)
  | e :: evs => let '(o, r) := reg_step pan e r in let '(os, r) := reg_run pan evs r in (o ++ os, r)
  end.

(** ** A buffer that is taken and given back *)
Section Buffers.
Context `{EvLayoutOk}.

(** A buffer of [sz] bytes is free. *)
Definition has_buffer (sz : Z) (b : buf_state) : Prop := exists a, buf_inv b a /\ ~ no_buffer a sz.

Lemma abs_allocate_ever sz a a' : a_free a' = a_free a -> (abs_allocate sz a').1 = (abs_allocate sz a).1.
Proof.
  intros E. unfold abs_allocate. rewrite E. destruct (_ || _); [done|].
  destruct (first_fit _ _ _) as [i|]; [|done]. by destruct (a_free a !! i) as [[|b l]|].
Qed.

(** Giving back the buffer taken last restores the free lists. *)
Lemma give_back sz a : Forall (fun l => NoDup l) (a_free a) -> (abs_allocate sz a).1 <> 0 ->
  (forall i b l, a_free a !! i = Some (b :: l) -> group_of b = Some i) ->
  let '(p, a1) := abs_allocate sz a in a_free (abs_free p a1).2 = a_free a.
Proof.
  intros Hnd Hp Hg. pose proof (abs_allocate_cases sz a) as Hc. destruct (abs_allocate sz a) as [p a1]. cbn [fst] in Hp.
  destruct Hc as [[-> _]|(i & b & l & _ & _ & El & _ & -> & ->)]; [done|].
  unfold abs_free. replace (b + 8 - 8) with b by lia. rewrite (Hg i b l El). cbn [a_free].
  assert (i < length (a_free a))%nat by (by eapply lookup_lt_Some).
  rewrite list_lookup_insert_eq by done. cbn [default].
  rewrite Forall_forall in Hnd. specialize (Hnd (b :: l)). rewrite NoDup_cons in Hnd.
  rewrite bool_decide_false by (apply Hnd; by eapply list_elem_of_lookup_2). cbn [snd a_free].
  rewrite list_insert_insert_eq. by apply list_insert_id.
Qed.

Lemma borrow_spec sz b : has_buffer sz b ->
  exists p b1, ev_buf_allocate sz b = (p, b1) /\ p <> 0 /\
    forall bytes, Z.of_nat (length bytes) <= sz ->
    exists r b3, ev_buf_free p (with_cpu (with_mem (store_bytes (b_mem b1) p bytes) (b_cpu b1)) b1) = Some (r, b3) /\
      has_buffer sz b3.
Proof.
  intros (a & Hi & Hn).
  destruct (allocate_client b a [] sz) as (p & b1 & E & _ & _ & [(_ & ? & _)|(Hp & _ & Hsz & Hh)]); [by split; [|constructor|constructor]|done|].
  exists p, b1. split_and!; [done|lia|]. intros bytes Hl.
  destruct (store_bytes_kept b1 _ [p] p p bytes Hh) as [Hh2 _]; [by left|lia|lia|].
  set (b2 := with_cpu _ _) in *. destruct Hh2 as [Hi2 Hl2 _]. apply Forall_singleton in Hl2 as [i Hlive].
  pose proof (abs_free_live b2 _ i (p - 8) Hi2 Hlive) as (Hf & _ & _). replace (p - 8 + 8) with p in Hf by lia.
  destruct (free_sim b2 _ p Hi2 Hf) as (b3 & E3 & Hi3 & _). do 2 eexists. split; [exact E3|].
  eexists. split; [exact Hi3|]. unfold no_buffer in *. rewrite (abs_allocate_ever sz a); [done|].
  destruct (allocate_sim b a sz Hi) as (b' & E' & _). rewrite E in E'. injection E' as -> ->.
  pose proof (give_back sz a) as Hgb. destruct (abs_allocate sz a) as [p a1]. apply Hgb; [|done|].
  - apply Forall_forall. intros l [j Hj]%list_elem_of_lookup_1. 
    assert (j < 4)%nat by (apply lookup_lt_Some in Hj; by rewrite (bi_len _ _ Hi) in Hj).
    destruct (buf_inv_lookup b a j Hi) as (l' & El & _ & Hg); [done|]. rewrite Hj in El. injection El as <-.
    apply (holds_NoDup _ _ _ (go_list _ _ _ _ _ Hg)).
  - intros j c l Hj. destruct (abs_allocate_taken b a j c l Hi Hj) as (? & ? & _). by apply group_of_unique.
Qed.
End Buffers.

(** ** The device table *)
Section Table.
Context {L : Type} `{MacSecLaws L}.
Implicit Types (t : L) (M : mac L) (devs : list (list Z)).

(** The table holds the devices [devs], each with its place's short address, and
    the pools have descriptors for the others. *)
Record dev_tables (pan : list Z) devs M : Prop := {
  dt_here : tables_here M;
  dt_len : length (tn_items macDevTable (tn M)) = length devs;
  dt_keys : length (tn_items macKeyTable (tn M)) = length devs;
  dt_fields : forall i p a, tn_items macDevTable (tn M) !! i = Some p -> devs !! i = Some a ->
    long_address p (tn M) = a /\ short_address p (tn M) = rg_short i;
  dt_pools : forall k, k ∈ own_pools -> (16 <= pool_free k (tn M) + length devs)%nat;
  dt_pan : attr_get MAC_ATTR_PAN_ID M = Some pan
}.

Lemma pan_plain : plain_attr MAC_ATTR_PAN_ID.
Proof. unfold plain_attr, MAC_ATTR_PAN_ID. lia. Qed.

Lemma dt_room pan devs M k : dev_tables pan devs M -> k ∈ own_pools -> (length devs < 16)%nat ->
  pool_free k (tn M) <> 0%nat.
Proof. intros Hd Hk Hl. pose proof (dt_pools _ _ _ Hd k Hk). lia. Qed.

(** A device whose entry is written again. *)
Lemma reset_tables pan devs M i p a pn fc ex :
  dev_tables pan devs M -> tn_items macDevTable (tn M) !! i = Some p -> devs !! i = Some a ->
  dev_tables pan devs (with_tn (mac_deviceDesc_reset p pn (short_address p (tn M)) a fc ex (tn M)) M).
Proof.
  intros [Hh Hl Hk Hf Hp Ha] Hi Hd.
  destruct (dev_reset_law p pn (short_address p (tn M)) a fc ex (tn M) (ta_ok _ _ Hh)) as ([Ho Hit] & Hpf & Hs & Hlg & _ & Hq).
  split; cbn [tn with_tn].
  - split; cbn [tn with_tn pib]; [done|done|]. intros n Hn. rewrite Hit. by apply (ta_count _ _ Hh).
  - by rewrite Hit.
  - by rewrite Hit.
  - intros j q b. rewrite Hit. intros Hj Hb. destruct (decide (q = p)) as [->|Hne].
    + rewrite Hs, Hlg. pose proof (tn_nodup (tn M) macDevTable (ta_ok _ _ Hh)) as Hnd.
      assert (j = i) as -> by (by eapply NoDup_lookup). rewrite Hd in Hb. injection Hb as <-. split; [done|].
      by apply (Hf i p a).
    + destruct (Hq q Hne) as (-> & -> & _). by apply (Hf j q b).
  - intros k Hkk. rewrite Hpf. by apply Hp.
  - rewrite <- Ha. by apply attr_get_ext; [apply pan_plain|].
Qed.

(** The two tables with an entry more, and a descriptor less in each pool. *)
Lemma grown_tables pan devs M M' p a :
  dev_tables pan devs M -> tables_here M' ->
  tn_items macDevTable (tn M') = tn_items macDevTable (tn M) ++ [p] ->
  length (tn_items macKeyTable (tn M')) = S (length devs) ->
  long_address p (tn M') = a -> short_address p (tn M') = rg_short (length devs) ->
  same_devs (tn M) (tn M') ->
  (forall k, (pool_free k (tn M) <= S (pool_free k (tn M')))%nat) ->
  (forall x, x < 76 -> pib M' x = pib M x) ->
  dev_tables pan (devs ++ [a]) M'.
Proof.
  intros [Hh Hl Hk Hf Hp Ha] Hh' Hit Hkey Hlg Hs Hsame Hpf Hpib. split.
  - done.
  - rewrite Hit, !length_app, Hl. done.
  - rewrite Hkey, length_app. cbn. lia.
  - intros i q b. rewrite Hit. intros Hi Hb. apply lookup_app_Some in Hb as [Hb|[Hge Hb]].
    + rewrite lookup_app_l in Hi by (rewrite Hl; by eapply lookup_lt_Some).
      destruct (Hsame q) as (-> & -> & _); [by eapply list_elem_of_lookup_2|]. by apply (Hf i q b).
    + rewrite lookup_app_r in Hi by lia. rewrite Hl in Hi.
      apply list_lookup_singleton_Some in Hb as [Hz <-], Hi as [_ <-].
      split; [done|]. rewrite Hs. f_equal. lia.
  - intros k Hkk. rewrite length_app. cbn. specialize (Hp k Hkk). specialize (Hpf k). lia.
  - rewrite <- Ha. apply attr_get_ext; [apply pan_plain|done].
Qed.
End Table.

(** ** Short addresses *)
Lemma short_bits i : (i < 16)%nat ->
  Z.land (rg_short i) 0xfff0 = 0x3300 /\ Z.land (rg_short i) 0xf = Z.of_nat i /\
  u16 (0x3300 + Z.of_nat i) = rg_short i.
Proof.
  intros Hi.
  assert (E : forallb (fun i => (Z.land (rg_short i) 0xfff0 =? 0x3300) && (Z.land (rg_short i) 0xf =? Z.of_nat i) &&
    (u16 (0x3300 + Z.of_nat i) =? rg_short i)) (seq 0 16) = true) by reflexivity.
  rewrite forallb_forall in E. specialize (E i ltac:(apply in_seq; lia)). lia.
Qed.

(** ** Adding key material *)
Section Add.
Context {L T F : Type} `{MacSecLaws L, TimerSvc T, Flash F, EvLayout, CoorLinks}.
Implicit Types (s : coor L T F) (devs : list (list Z)).

Lemma find_device_spec pan devs s n i :
  dev_tables pan devs (cr_mac s) -> (i + n = 16)%nat -> (length devs <= 16)%nat ->
  exists p, find_device n (Z.of_nat i) s = Some p /\
    ((exists j, (i <= j)%nat /\ devs !! j = Some (device_ext_addr s) /\
        tn_items macDevTable (tn (cr_mac s)) !! j = Some p /\ p <> 0) \/
     (p = 0 /\ forall j, (i <= j)%nat -> devs !! j <> Some (device_ext_addr s))).
Proof.
  intros Hd Hn Hl. revert i Hn. induction n as [|n IH]; intros i Hn; cbn [find_device].
  { exists 0. split; [done|]. right. split; [done|]. intros j Hj Hj'. apply lookup_lt_Some in Hj'. lia. }
  destruct (device_get (cr_mac s) (Z.of_nat i) (dt_here _ _ _ Hd) ltac:(lia)) as (r & ->). rewrite Nat2Z.id.
  cbn [mbind option_bind]. rewrite u8_small by lia. replace (Z.of_nat i + 1) with (Z.of_nat (S i)) by lia.
  destruct (IH (S i) ltac:(lia)) as (q & Eq & Hq).
  destruct (tn_items macDevTable (tn (cr_mac s)) !! i) as [p|] eqn:Ei; cbn [Z.eqb negb andb].
  - assert (Hp0 : p <> 0).
    { intros ->. apply (tn_nonzero (tn (cr_mac s)) macDevTable (ta_ok _ _ (dt_here _ _ _ Hd))).
      by eapply list_elem_of_lookup_2. }
    rewrite (proj2 (Z.eqb_neq p 0)) by done. cbn [negb andb].
    destruct (lookup_lt_is_Some_2 devs i) as [a Ha].
    { rewrite <- (dt_len _ _ _ Hd). by eapply lookup_lt_Some. }
    destruct (dt_fields _ _ _ Hd i p a Ei Ha) as [-> _]. case_bool_decide as E.
    + exists p. split; [done|]. left. exists i. by rewrite Ha, E.
    + exists q. split; [done|]. destruct Hq as [(j & ? & ?)|[-> Hq]]; [left; exists j; split; [lia|done]|].
      right. split; [done|]. intros j Hj. destruct (decide (j = i)) as [->|]; [rewrite Ha; congruence|apply Hq; lia].
  - exists q. split; [done|]. destruct Hq as [(j & ? & ?)|[-> Hq]]; [left; exists j; split; [lia|done]|].
    right. split; [done|]. intros j Hj Hj'. apply lookup_lt_Some in Hj'. rewrite <- (dt_len _ _ _ Hd) in Hj'.
    apply lookup_ge_None_1 in Ei. lia.
Qed.

Lemma add_known pan devs s j :
  dev_tables pan devs (cr_mac s) -> (length devs <= 16)%nat -> NoDup devs -> devs !! j = Some (device_ext_addr s) ->
  exists M', add_key_material s = Some (TRUE, with_cr_mac M' (with_device_addr_short (rg_short j) s)) /\
    dev_tables pan devs M'.
Proof.
  intros Hd Hl Hnd Hj. unfold add_key_material, MAC_DEV_TABLE_MAX_LEN.
  destruct (find_device_spec pan devs s 16 0 Hd) as (p & Ef & Hp); [done|done|]. 
  change (Z.to_nat 16) with 16%nat. change (Z.of_nat 0) with 0 in Ef. rewrite Ef. cbn [mbind option_bind].
  destruct Hp as [(i & _ & Hi & Hit & Hp)|[_ Hno]]; [|by destruct (Hno j ltac:(lia))].
  assert (i = j) as -> by (by eapply NoDup_lookup). rewrite (proj2 (Z.eqb_neq p 0)) by done. cbn [negb].
  destruct (dt_fields _ _ _ Hd j p _ Hit Hj) as [_ Hs]. rewrite Hs.
  exists (with_tn (mac_deviceDesc_reset p pan_id (rg_short j) (device_ext_addr s) 0 false (tn (cr_mac s))) (cr_mac s)).
  split; [reflexivity|]. rewrite <- Hs. by apply (reset_tables pan devs (cr_mac s) j).
Qed.

Lemma add_full pan devs s :
  dev_tables pan devs (cr_mac s) -> length devs = 16%nat -> device_index s = Z.of_nat (length devs) ->
  device_ext_addr s ∉ devs -> add_key_material s = Some (FALSE, s).
Proof.
  intros Hd Hl Hi Hno. unfold add_key_material, MAC_DEV_TABLE_MAX_LEN.
  destruct (find_device_spec pan devs s 16 0 Hd) as (p & Ef & Hp); [done|lia|].
  change (Z.to_nat 16) with 16%nat. change (Z.of_nat 0) with 0 in Ef. rewrite Ef. cbn [mbind option_bind].
  destruct Hp as [(j & _ & Hj & _)|[-> _]]; [by apply list_elem_of_lookup_2 in Hj|]. rewrite Hi, Hl. done.
Qed.

Lemma alloc_eq k s t p t' : tn (cr_mac s) = t -> desc_alloc k t = (p, t') -> p <> 0 ->
  alloc_or_hang k s = Some (p, on_tn (fun _ => t') s).
Proof. intros <- E Hp. unfold alloc_or_hang. by rewrite E, (proj2 (Z.eqb_neq p 0)). Qed.

Lemma set_item_eq a v i s M M' : cr_mac s = M -> item_set a v i M = Some M' -> set_item a v i s = Some (with_cr_mac M' s).
Proof. intros <- E. unfold set_item. by rewrite E. Qed.

Lemma device_entry_eq s p t1 M3 sh n :
  desc_alloc MAC_SECMATERIAL_DEVICE_DESC (tn (cr_mac s)) = (p, t1) -> p <> 0 ->
  u16 (Z.land (device_addr_short s) 0xfff0 + device_index s) = sh -> device_index s = n ->
  item_set MAC_DEVICE_TABLE p n (with_tn (mac_deviceDesc_set p pan_id sh (device_ext_addr s) 0 false t1) (cr_mac s)) = Some M3 ->
  add_device_entry s = Some (p, with_device_addr_short sh (with_cr_mac M3 s)).
Proof.
  intros E1 Hp <- <- E3. unfold add_device_entry. erewrite alloc_eq; [|reflexivity|exact E1|exact Hp].
  cbn [mbind option_bind]. erewrite set_item_eq; [|reflexivity|exact E3]. reflexivity.
Qed.

Lemma key_entry_eq s p y t4 z t6 M8 n :
  desc_alloc MAC_SECMATERIAL_KEYDEV_DESC (tn (cr_mac s)) = (y, t4) -> y <> 0 ->
  desc_alloc MAC_SECMATERIAL_KEY_DESC (mac_keydevDesc_set y p false false t4) = (z, t6) -> z <> 0 ->
  device_index s = n ->
  item_set MAC_KEY_TABLE z n (with_tn (mac_keyDesc_set z [pKeyIDDesc s] [y] (pKeyUsgDesc s) test_key t6) (cr_mac s)) = Some M8 ->
  add_key_entry p s = Some (with_cr_mac M8 s).
Proof.
  intros E4 Hy E6 Hz <- E8. unfold add_key_entry. erewrite alloc_eq; [|reflexivity|exact E4|exact Hy].
  cbn [mbind option_bind]. erewrite alloc_eq; [|reflexivity|exact E6|exact Hz].
  cbn [mbind option_bind]. erewrite set_item_eq; [|reflexivity|exact E8]. reflexivity.
Qed.

Lemma add_new pan devs s :
  dev_tables pan devs (cr_mac s) -> (length devs < 16)%nat -> device_index s = Z.of_nat (length devs) ->
  Z.land (device_addr_short s) 0xfff0 = 0x3300 -> device_ext_addr s ∉ devs ->
  exists M', add_key_material s = Some (TRUE, with_device_index (Z.of_nat (length devs + 1))
      (with_device_addr_short (rg_short (length devs)) (with_cr_mac M' s))) /\
    dev_tables pan (devs ++ [device_ext_addr s]) M'.
Proof.
  intros Hd Hl Hi Hsh Hno. unfold add_key_material, MAC_DEV_TABLE_MAX_LEN, END_DEVICE_NUM, MAC_DEV_TABLE_MAX_LEN.
  destruct (find_device_spec pan devs s 16 0 Hd) as (p0 & Ef & Hp0); [done|lia|].
  change (Z.to_nat 16) with 16%nat. change (Z.of_nat 0) with 0 in Ef. rewrite Ef. cbn [mbind option_bind].
  destruct Hp0 as [(j & _ & Hj & _)|[-> _]]; [by apply list_elem_of_lookup_2 in Hj|]. cbn [Z.eqb negb].
  rewrite Hi, (proj2 (Z.leb_gt _ _)) by lia.
  destruct (short_bits (length devs) Hl) as (_ & _ & Hu).
  pose proof Hd as [Hh Hld Hlk _ _ _].
  destruct (enter_device (cr_mac s) pan_id (device_ext_addr s) (rg_short (length devs)) Hh) as
    (p & t1 & E1 & Hp & M3 & E3 & Hh3 & Hit3 & Hik3 & Hlg3 & Hs3 & _ & Hd3 & Hk3 & Hx3).
  { apply (dt_room _ _ _ _ Hd); [set_solver|done]. }
  { rewrite Hld. lia. }
  destruct (enter_key M3 p [pKeyIDDesc s] (pKeyUsgDesc s) test_key Hh3) as
    (y & t4 & E4 & Hy & z & t6 & E6 & Hz & M8 & E8 & Hh8 & Hid8 & Hik8 & _ & _ & Hd8 & Hko8 & Hk8 & Hx8).
  { rewrite Hk3, decide_False by done. apply (dt_room _ _ _ _ Hd); [set_solver|done]. }
  { rewrite Hk3, decide_False by done. apply (dt_room _ _ _ _ Hd); [set_solver|done]. }
  { rewrite Hik3, Hlk. lia. }
  rewrite Hld in E3. rewrite Hik3, Hlk in E8.
  rewrite (device_entry_eq s p t1 M3 (rg_short (length devs)) (Z.of_nat (length devs)) E1 Hp); [|by rewrite Hsh, Hi|done|exact E3].
  cbn [mbind option_bind].
  rewrite (key_entry_eq (with_device_addr_short (rg_short (length devs)) (with_cr_mac M3 s)) p y t4 z t6 M8 (Z.of_nat (length devs)) E4 Hy E6 Hz); [|exact Hi|exact E8].
  cbn [mbind option_bind]. exists M8. split.
  - replace (u8 _) with (Z.of_nat (length devs + 1)); [reflexivity|].
    transitivity (u8 (device_index s + 1)); [|reflexivity]. rewrite Hi, u8_small; lia.
  - apply (grown_tables pan devs (cr_mac s) M8 p); [done|done| | | | | | |].
    + by rewrite Hid8.
    + rewrite Hik8, length_app, Hik3, Hlk. cbn. lia.
    + destruct (Hd8 p) as (_ & -> & _); [rewrite Hit3; set_solver|done].
    + destruct (Hd8 p) as (-> & _); [rewrite Hit3; set_solver|done].
    + intros q Hq. destruct (Hd8 q) as (-> & -> & ->); [rewrite Hit3; set_solver|]. by apply Hd3.
    + intros k. destruct (decide (k = MAC_SECMATERIAL_DEVICE_DESC)) as [->|Hne].
      * rewrite Hko8, Hk3, decide_True by done. lia.
      * specialize (Hk8 k). by rewrite Hk3, decide_False in Hk8.
    + intros x Hx. by rewrite Hx8, Hx3.
Qed.
End Add.

(** ** The refinement *)
Section Refine.
Context {L T F : Type} `{MacSecLaws L, TimerSvc T, Flash F, EvLayoutOk, CoorLinks}.
Implicit Types (s : coor L T F) (r : registry).

(** What the globals say of the registry. *)
Record coor_ok (pan : list Z) s r : Prop := {
  co_tables : dev_tables pan (rg_devs r) (cr_mac s);
  co_max : (length (rg_devs r) <= 16)%nat;
  co_nodup : NoDup (rg_devs r);
  co_index : device_index s = Z.of_nat (length (rg_devs r));
  co_short : Z.land (device_addr_short s) 0xfff0 = 0x3300;
  co_ends : length (end_device s) = 16%nat;
  co_devs : forall i a, rg_devs r !! i = Some a -> exists pn, end_device s !! i = Some (mk_dev a (rg_short i) pn);
  co_first : rg_devs r = [] -> exists d, end_device s !! 0%nat = Some d /\ shortAddr d = 0;
  co_next : indirect_device_index s = Z.of_nat (rg_next r);
  co_turn : (rg_next r < Nat.max 1 (length (rg_devs r)))%nat;
  co_count : test_cnt s = rg_count r;
  co_tasks : cr_tasks s = replicate (rg_due r) (fn_mac_send_data_indirect, 0);
  co_nodes : g_node_num_cur s = 0;
  co_buf : has_buffer 4 (cr_buf s)
}.

(** The fields [coor_ok] and the requests depend on. *)
Definition same_fields s s' : Prop :=
  cr_mac s' = cr_mac s /\ device_index s' = device_index s /\ device_addr_short s' = device_addr_short s /\
  end_device s' = end_device s /\ indirect_device_index s' = indirect_device_index s /\ test_cnt s' = test_cnt s /\
  cr_tasks s' = cr_tasks s /\ g_node_num_cur s' = g_node_num_cur s /\ cr_buf s' = cr_buf s /\ cr_sent s' = cr_sent s.

Lemma coor_ok_fields pan s s' r : coor_ok pan s r -> same_fields s s' -> coor_ok pan s' r.
Proof.
  intros Hok (E1 & E2 & E3 & E4 & E5 & E6 & E7 & E8 & E9 & _).
  destruct Hok. split; rewrite ?E1, ?E2, ?E3, ?E4, ?E5, ?E6, ?E7, ?E8, ?E9; done.
Qed.

Lemma data_send_fields s : same_fields s (data_send s).
Proof.
  unfold data_send. destruct (data_send_indir_timer s =? 0); cbn [negb].
  - by destruct (tmr_post _ _ _ _).
  - destruct (tmr_cancel _ _). by destruct (tmr_post _ _ _ _).
Qed.

Lemma toggle_fields s : same_fields s (app_data_transmit_toggle s).
Proof.
  unfold app_data_transmit_toggle. destruct (g_data_txto_allnode_timer s =? 0); cbn [negb].
  - by destruct (tmr_post _ _ _ _).
  - by destruct (tmr_cancel _ _).
Qed.

Lemma data_ind_fields p s : same_fields s (MyDataIndCb p s).
Proof.
  destruct p as [[[src pd] len]|]; [|done]. unfold MyDataIndCb. destruct (tl_appDataIndicate _ _) as [ret o].
  by destruct (negb _).
Qed.

(** The answer to a device that has a place. *)
Lemma answer_spec pan devs s i a :
  dev_tables pan devs (cr_mac s) -> device_addr_short s = rg_short i -> (i < 16)%nat -> length (end_device s) = 16%nat ->
  exists s1, associate_answer a s = Some s1 /\
    same_fields (send (assoc_rsp a i) (with_end_device (<[i := mk_dev a (rg_short i) pan]> (end_device s)) s)) s1.
Proof.
  intros Hd Hs Hi Hl. unfold associate_answer. rewrite Hs. destruct (short_bits i Hi) as (_ & -> & _). rewrite Nat2Z.id.
  destruct (lookup_lt_is_Some_2 (end_device s) i) as [d ->]; [lia|]. rewrite (dt_pan _ _ _ Hd).
  cbn [mbind option_bind]. eexists. split; [reflexivity|]. apply data_send_fields.
Qed.

Lemma associate_spec pan s r a :
  coor_ok pan s r ->
  exists s', MyAssociateIndCb (Some a) s = Some s' /\
    cr_sent s' = cr_sent s ++ (reg_step pan (CAssociate (Some a)) r).1 /\
    coor_ok pan s' (reg_step pan (CAssociate (Some a)) r).2.
Proof.
  intros Hok. unfold MyAssociateIndCb. set (s0 := with_device_ext_addr a s).
  assert (Hok0 : coor_ok pan s0 r) by (by apply (coor_ok_fields pan s)).
  pose proof Hok0 as [Ht Hmax Hnd Hidx Hsh Hends Hdevs Hfst Hnext Hturn Hcnt Htasks Hnodes Hbuf].
  assert (Hends' : length (end_device s) = 16%nat) by exact Hends.
  cbn [reg_step]. destruct (list_find (a =.) (rg_devs r)) as [[i b]|] eqn:Ef.
  - apply list_find_Some in Ef as (Hi & Hab & _). subst b. cbn [fst snd].
    destruct (add_known pan (rg_devs r) s0 i Ht Hmax Hnd Hi) as (M' & -> & Ht'). cbn [mbind option_bind Z.eqb negb].
    set (s2 := with_cr_mac M' _). assert (Hi16 : (i < 16)%nat) by (apply lookup_lt_Some in Hi; lia).
    destruct (answer_spec pan (rg_devs r) s2 i a Ht' eq_refl Hi16 Hends) as (s1 & -> & Hf).
    exists s1. split; [done|]. destruct Hf as (E1 & E2 & E3 & E4 & E5 & E6 & E7 & E8 & E9 & E10).
    split; [rewrite E10; done|]. destruct (short_bits i Hi16) as (Hb & _ & _).
    split; rewrite ?E1, ?E2, ?E3, ?E4, ?E5, ?E6, ?E7, ?E8, ?E9; try done.
    + cbn. by rewrite length_insert.
    + cbn. intros j c Hj. destruct (decide (j = i)) as [->|Hne].
      * rewrite list_lookup_insert_eq by lia. rewrite Hi in Hj. injection Hj as <-. by eexists.
      * rewrite list_lookup_insert_ne by done. by apply Hdevs.
    + intros En. rewrite En in Hi. done.
  - apply list_find_None in Ef. assert (Hno : a ∉ rg_devs r).
    { intros Hin. rewrite Forall_forall in Ef. by apply (Ef a Hin). }
    destruct (Nat.ltb_spec (length (rg_devs r)) 16) as [Hlt|Hge]; cbn [fst snd].
    + destruct (add_new pan (rg_devs r) s0 Ht Hlt Hidx Hsh Hno) as (M' & -> & Ht'). cbn [mbind option_bind Z.eqb negb].
      change (device_ext_addr s0) with a in Ht'. set (s2 := with_device_index _ _). set (n := length (rg_devs r)) in *.
      destruct (answer_spec pan (rg_devs r ++ [a]) s2 n a Ht' eq_refl Hlt Hends) as (s1 & -> & Hf).
      exists s1. split; [done|]. destruct Hf as (E1 & E2 & E3 & E4 & E5 & E6 & E7 & E8 & E9 & E10).
      split; [rewrite E10; done|]. destruct (short_bits n Hlt) as (Hb & _ & _).
      split; rewrite ?E1, ?E2, ?E3, ?E4, ?E5, ?E6, ?E7, ?E8, ?E9; cbn [rg_devs rg_next rg_count rg_due]; try done.
      * rewrite length_app. cbn. unfold n in Hlt. lia.
      * apply NoDup_app. split_and!; [done| |apply NoDup_singleton]. by intros x Hx ->%list_elem_of_singleton.
      * rewrite length_app. done.
      * cbn. by rewrite length_insert.
      * cbn. intros j c Hj. apply lookup_app_Some in Hj as [Hj|[Hge Hj]].
        -- pose proof (lookup_lt_Some _ _ _ Hj). rewrite list_lookup_insert_ne by (unfold n; lia). by apply Hdevs.
        -- apply list_lookup_singleton_Some in Hj as [Hz <-]. assert (j = n) as -> by (unfold n; lia).
           rewrite list_lookup_insert_eq by lia. by eexists.
      * intros En. by destruct (rg_devs r).
      * rewrite length_app. cbn. fold n. lia.
    + rewrite (add_full pan (rg_devs r) s0 Ht); [|lia|done|done]. cbn [mbind option_bind Z.eqb negb].
      exists s0. split_and!; [done|by rewrite app_nil_r|done].
Qed.

Lemma buf_free_eq p s b v b' : cr_buf s = b -> ev_buf_free p b = Some (v, b') -> buf_free p s = Some (with_cr_buf b' s).
Proof. intros <- E. unfold buf_free. by rewrite E. Qed.

Lemma send_spec pan s r n :
  coor_ok pan s r -> rg_due r = S n ->
  exists s', run_task s = Some s' /\
    cr_sent s' = cr_sent s ++ (reg_step pan CTask r).1 /\ coor_ok pan s' (reg_step pan CTask r).2.
Proof.
  intros [Ht Hmax Hnd Hidx Hsh Hends Hdevs Hfst Hnext Hturn Hcnt Htasks Hnodes Hbuf] Hn.
  unfold run_task. rewrite Htasks, Hn. cbn [replicate reg_step]. rewrite Z.eqb_refl, Hn. cbn [fst snd].
  set (k := length (rg_devs r)) in *.
  unfold mac_send_data_indirect. cbn [indirect_device_index end_device with_cr_tasks cr_mac].
  assert (Hd : exists d, (end_device s !! rg_next r = Some d) /\ (shortAddr d = rg_dst r)).
  { unfold rg_dst. fold k. destruct (Nat.eqb_spec k 0) as [E|E].
    - apply nil_length_inv in E. replace (rg_next r) with 0%nat by (unfold k in *; rewrite E in *; cbn in *; lia). by apply Hfst.
    - destruct (lookup_lt_is_Some_2 (rg_devs r) (rg_next r)) as [a Ha]; [lia|].
      destruct (Hdevs _ _ Ha) as [pn ->]. by eexists. }
  destruct Hd as (d & Ed & Hsd). rewrite Hnext, Nat2Z.id, Ed, (dt_pan _ _ _ Ht). cbn [mbind option_bind].
  rewrite Hsd.
  unfold buf_allocate. cbn [cr_buf with_cr_tasks].
  destruct (borrow_spec 4 (cr_buf s) Hbuf) as (p & b1 & E1 & Hp & Hfree). rewrite E1.
  rewrite (proj2 (Z.eqb_neq p 0)) by done.
  destruct (Hfree (word_le 4 (test_cnt s))) as (rr & b3 & E3 & Hb3); [by rewrite length_word_le|].
  erewrite buf_free_eq; [|reflexivity|exact E3]. cbn [mbind option_bind]. eexists. split; [reflexivity|].
  set (w := word_le 4 (test_cnt s)) in *.
  assert (Ew : load_bytes (store_bytes (b_mem b1) p w) p (Z.to_nat 4) = w).
  { apply load_store_bytes. apply word_le_Forall. }
  match goal with |- context [if ?b then _ else _] => set (c := b) end.
  assert (Hc : c = (k <=? S (rg_next r))%nat).
  { unfold c. cbn [device_index indirect_device_index with_indirect_device_index with_cr_buf send with_cr_sent with_test_cnt with_cr_mem with_cr_tasks].
    rewrite Hidx, u8_small by lia. destruct (Nat.leb_spec k (S (rg_next r))); lia. }
  clearbody c. split.
  - destruct c; cbn; unfold data_msg; rewrite <- Hcnt; fold w; do 5 f_equal; exact Ew.
  - rewrite Hc. destruct (Nat.leb_spec k (S (rg_next r))); split; cbn [rg_devs rg_next rg_count rg_due]; try done;
      cbn; rewrite ?Hcnt, ?u8_small; try done; lia.
Qed.

Lemma all_nodes_spec pan s r : coor_ok pan s r -> app_data_txto_allnode s = Some (-1, s).
Proof.
  intros Hok. unfold app_data_txto_allnode. rewrite (dt_pan _ _ _ (co_tables _ _ _ Hok)), (co_nodes _ _ _ Hok). done.
Qed.

Lemma step_refines pan e s r :
  coor_ok pan s r ->
  exists s', coor_step e s = Some s' /\
    cr_sent s' = cr_sent s ++ (reg_step pan e r).1 /\ coor_ok pan s' (reg_step pan e r).2.
Proof.
  intros Hok.
  assert (Hsame : forall s', same_fields s s' -> cr_sent s' = cr_sent s ++ [] /\ coor_ok pan s' r).
  { intros s' Hf. rewrite app_nil_r. split; [apply Hf|by eapply coor_ok_fields]. }
  destruct e as [[a|]|p| | | |]; cbn [coor_step].
  - by apply associate_spec.
  - exists s. split; [done|]. by apply Hsame.
  - eexists. split; [done|]. apply Hsame, data_ind_fields.
  - eexists. split; [done|]. cbn [reg_step fst snd]. split; [by rewrite app_nil_r|].
    destruct Hok. split; try done. cbn [rg_due]. cbn. rewrite co_tasks0. symmetry. apply replicate_cons_app.
  - rewrite (all_nodes_spec pan s r Hok). eexists. split; [done|]. by apply Hsame.
  - eexists. split; [done|]. apply Hsame, toggle_fields.
  - destruct (rg_due r) as [|n] eqn:En; [|by apply (send_spec pan s r n)].
    cbn [reg_step]. rewrite En. unfold run_task. rewrite (co_tasks _ _ _ Hok), En. exists s. split; [done|]. by apply Hsame.
Qed.

Lemma run_refines pan evs s r :
  coor_ok pan s r ->
  exists s', coor_run evs s = Some s' /\
    cr_sent s' = cr_sent s ++ (reg_run pan evs r).1 /\ coor_ok pan s' (reg_run pan evs r).2.
Proof.
  revert s r. induction evs as [|e evs IH]; intros s r Hok; cbn [coor_run reg_run].
  { exists s. split_and!; [done|by rewrite app_nil_r|done]. }
  destruct (step_refines pan e s r Hok) as (s1 & -> & Hs1 & Hok1). cbn [mbind option_bind].
  destruct (reg_step pan e r) as [o r1]. cbn [fst snd] in *.
  destruct (IH s1 r1 Hok1) as (s' & -> & Hs' & Hok'). exists s'. split; [done|].
  destruct (reg_run pan evs r1) as [os r2]. cbn [fst snd] in *. split; [|done]. by rewrite Hs', Hs1, app_assoc.
Qed.

(** ** The start *)

(** The tables are empty, the pools full, the globals as they are initialised. *)
Record coor_fresh s : Prop := {
  cf_tables : tables_at (fun _ => []) (cr_mac s);
  cf_own : forall k, k ∈ own_pools -> (16 <= pool_free k (tn (cr_mac s)))%nat;
  cf_usage : (2 <= pool_free MAC_SECMATERIAL_KEYUSAGE_DESC (tn (cr_mac s)))%nat;
  cf_keyid : (1 <= pool_free MAC_SECMATERIAL_KEYID_LOOKUP_DESC (tn (cr_mac s)))%nat;
  cf_index : device_index s = 0;
  cf_short : device_addr_short s = 0x3300;
  cf_ends : end_device s = replicate 16 dev_zero;
  cf_next : indirect_device_index s = 0;
  cf_count : test_cnt s = 0xaa000001;
  cf_tasks : cr_tasks s = [];
  cf_nodes : g_node_num_cur s = 0;
  cf_buf : has_buffer 4 (cr_buf s)
}.

Lemma materials_spec s :
  tables_here (cr_mac s) ->
  (2 <= pool_free MAC_SECMATERIAL_KEYUSAGE_DESC (tn (cr_mac s)))%nat ->
  (1 <= pool_free MAC_SECMATERIAL_KEYID_LOOKUP_DESC (tn (cr_mac s)))%nat ->
  exists u0 u1 k t, common_materials s = Some (with_pKeyIDDesc k (with_pKeyUsgDesc [u0; u1] (on_tn (fun _ => t) s))) /\
    quiet (tn (cr_mac s)) t /\ forall k, k ∈ own_pools -> pool_free k t = pool_free k (tn (cr_mac s)).
Proof.
  intros Hh Hu Hk.
  destruct (enter_materials _ (ta_ok _ _ Hh) Hu Hk) as (u0 & t1 & E1 & Hu0 & u1 & t3 & E3 & Hu1 & k & t5 & E5 & Hk0 & Q & P).
  exists u0, u1, k. eexists. split; [|split; [exact Q|exact P]]. unfold common_materials.
  erewrite alloc_eq; [|reflexivity|exact E1|done]. cbn [mbind option_bind].
  erewrite alloc_eq; [|reflexivity|exact E3|done]. cbn [mbind option_bind].
  erewrite alloc_eq; [|reflexivity|exact E5|done]. reflexivity.
Qed.

Lemma set_attr_plain a l n s : plain_attr a -> length l = Z.to_nat (tb_len (entry a)) -> n = tb_len (entry a) ->
  exists M, set_attr a l n s = Some (with_cr_mac M s) /\ tn M = tn (cr_mac s) /\ attr_get a M = Some l /\
    (forall b, plain_attr b -> b <> a -> attr_get b M = attr_get b (cr_mac s)) /\
    forall x, 76 <= x -> pib M x = pib (cr_mac s) x.
Proof.
  intros Ha Hl Hn. destruct (attr_set_plain a l n (cr_mac s) Ha Hl Hn) as (M & E & ?). exists M. split; [|done].
  unfold set_attr. by rewrite E.
Qed.

(** The default key source is no plain attribute. *)
Lemma set_key_source s : exists M, set_attr MAC_DEFAULT_KEY_SOURCE default_key_source 8 s = Some (with_cr_mac M s) /\
  tn M = tn (cr_mac s) /\ forall x, x < 108 -> pib M x = pib (cr_mac s) x.
Proof.
  eexists. split; [reflexivity|]. cbn [tn with_pib pib]. split; [done|]. intros x Hx. apply mem_put_out. left. exact Hx.
Qed.

Lemma config_spec s pan :
  coor_fresh s -> attr_get MAC_ATTR_PAN_ID (cr_mac s) = Some pan ->
  exists s', coor_config s = Some s' /\ cr_sent s' = cr_sent s /\ coor_ok pan s' reg0 /\
    attr_get MAC_ATTR_SECURITY_ENABLED (cr_mac s') = Some [1] /\
    attr_get MAC_ATTR_SHORT_ADDRESS (cr_mac s') = Some [0x11; 0x22].
Proof.
  intros [Ht Hown Hus Hki Hidx Hsh Hends Hnx Hcnt Htk Hnd Hbuf] Hpan. unfold coor_config.
  destruct (set_attr_plain MAC_ATTR_SECURITY_ENABLED [ZB_MAC_SECURITY] 1 s) as (M1 & -> & T1 & A1 & O1 & X1);
    [unfold plain_attr, MAC_ATTR_SECURITY_ENABLED; lia|done|done|]. cbn [mbind option_bind].
  destruct (set_attr_plain MAC_ATTR_SHORT_ADDRESS (word_le 2 coor_addr_short) 2 (with_cr_mac M1 s)) as (M2 & -> & T2 & A2 & O2 & X2);
    [unfold plain_attr, MAC_ATTR_SHORT_ADDRESS; lia|done|done|]. cbn [mbind option_bind cr_mac with_cr_mac] in *.
  destruct (set_key_source (with_cr_mac M2 (with_cr_mac M1 s))) as (M3 & -> & T3 & X3). cbn [mbind option_bind cr_mac with_cr_mac] in *.
  assert (ET : tn M3 = tn (cr_mac s)) by congruence.
  assert (Ht3 : tables_at (fun _ => []) M3).
  { apply (tables_pib _ (cr_mac s)); [done|done|]. intros x Hx. rewrite X3, X2, X1; [done|lia..]. }
  destruct (materials_spec (with_cr_mac M3 (with_cr_mac M2 (with_cr_mac M1 s)))) as (u0 & u1 & k & t & -> & Q & P).
  { by eapply tables_at_here. }
  { cbn. by rewrite ET. }
  { cbn. by rewrite ET. }
  cbn [cr_mac with_cr_mac] in Q, P. eexists. split; [reflexivity|].
  assert (Hattr : forall a, plain_attr a -> attr_get a (with_tn t M3) = attr_get a M2).
  { intros a Ha. apply attr_get_ext; [done|]. intros x Hx. cbn. apply X3. lia. }
  assert (Hpl : plain_attr MAC_ATTR_PAN_ID /\ plain_attr MAC_ATTR_SECURITY_ENABLED /\ plain_attr MAC_ATTR_SHORT_ADDRESS).
  { unfold plain_attr, MAC_ATTR_PAN_ID, MAC_ATTR_SECURITY_ENABLED, MAC_ATTR_SHORT_ADDRESS. lia. }
  destruct Hpl as (Hp1 & Hp2 & Hp3).
  assert (Hi : forall n, n <> macKeyDevTable -> tn_items n t = []).
  { intros n Hn. rewrite (qu_items _ _ Q n Hn). apply (ta_items _ _ Ht3). }
  split_and!; [done| | |].
  - split; cbn [rg_devs reg0 rg_next rg_count rg_due]; try done.
    + split; cbn [cr_mac on_tn with_cr_mac with_pKeyIDDesc with_pKeyUsgDesc tn with_tn].
      * apply (quiet_tables M3 t); [by eapply tables_at_here|done].
      * by rewrite Hi.
      * by rewrite Hi.
      * intros i p a Hx. by rewrite Hi in Hx.
      * intros j Hj. rewrite P, ET by done. specialize (Hown j Hj). lia.
      * rewrite (Hattr _ Hp1), O2, O1 by done. exact Hpan.
    + cbn. lia.
    + constructor.
    + cbn. by rewrite Hsh.
    + cbn. by rewrite Hends.
    + intros _. exists dev_zero. cbn. by rewrite Hends.
    + cbn. lia.
  - etransitivity; [exact (Hattr _ Hp2)|]. rewrite O2 by done. exact A1.
  - etransitivity; [exact (Hattr _ Hp3)|]. exact A2.
Qed.

(** ** The properties *)

(** C19. The coordinator, configured from its initial state, refines the registry
    over any sequence of indications, timers, keys and tasks: it never hangs;
    the first association of a device, while fewer than 16 have one, takes the
    next place and is answered with 0x3300 plus the place, every later one with
    the same short address, and a seventeenth device gets no answer; each task
    sends the counter to the next device in turn, and no other data request or
    answer to an association leaves ([cr_sent]).  Received data that the update
    answers is answered through the update server, whose requests are recorded
    apart ([cr_ota]).
    The device table holds the registered devices with these addresses
    ([coor_ok]). *)
Theorem coor_refines_registry evs s pan :
  coor_fresh s -> attr_get MAC_ATTR_PAN_ID (cr_mac s) = Some pan ->
  exists s', (s1 ← coor_config s; coor_run evs s1) = Some s' /\
    cr_sent s' = cr_sent s ++ (reg_run pan evs reg0).1 /\ coor_ok pan s' (reg_run pan evs reg0).2.
Proof.
  intros Hf Hp. destruct (config_spec s pan Hf Hp) as (s1 & -> & <- & Hok & _). cbn [mbind option_bind].
  by apply run_refines.
Qed.

(** Every response names a device of the registry and its place. *)
Lemma reg_run_grows pan evs r : rg_devs r `prefix_of` rg_devs (reg_run pan evs r).2.
Proof.
  revert r. induction evs as [|e evs IH]; intros r; cbn [reg_run]; [done|].
  assert (Hs : rg_devs r `prefix_of` rg_devs (reg_step pan e r).2).
  { destruct e as [[a|]|p| | | |]; cbn [reg_step]; try done.
    - destruct (list_find _ _) as [[i b]|]; [done|]. destruct (_ <? _)%nat; [|done]. by apply prefix_app_r.
    - by destruct (rg_due r). }
  destruct (reg_step pan e r) as [o r1]. specialize (IH r1). destruct (reg_run pan evs r1) as [os r2]. by etrans.
Qed.

Lemma reg_run_responses pan evs r rsp :
  MlmeAssociateResponse rsp ∈ (reg_run pan evs r).1 ->
  exists i, rg_devs (reg_run pan evs r).2 !! i = Some (ar_devAddress rsp) /\ ar_shortAddress rsp = rg_short i.
Proof.
  revert r. induction evs as [|e evs IH]; intros r; cbn [reg_run]; [by intros ?%not_elem_of_nil|].
  pose proof (reg_run_grows pan evs (reg_step pan e r).2) as Hg.
  assert (Hs : MlmeAssociateResponse rsp ∈ (reg_step pan e r).1 ->
    exists i, rg_devs (reg_step pan e r).2 !! i = Some (ar_devAddress rsp) /\ ar_shortAddress rsp = rg_short i).
  { destruct e as [[a|]|p| | | |]; cbn [reg_step]; try by intros ?%not_elem_of_nil.
    - destruct (list_find (a =.) (rg_devs r)) as [[i b]|] eqn:Ef.
      + cbn. intros [= ->]%list_elem_of_singleton. apply list_find_Some in Ef as (Hi & -> & _). by exists i.
      + destruct (_ <? _)%nat; [|by intros ?%not_elem_of_nil]. cbn. intros [= ->]%list_elem_of_singleton.
        exists (length (rg_devs r)). cbn. by rewrite lookup_app_r, Nat.sub_diag by lia.
    - destruct (rg_due r); [by intros ?%not_elem_of_nil|]. cbn. by intros ?%list_elem_of_singleton. }
  specialize (IH (reg_step pan e r).2). destruct (reg_step pan e r) as [o r1]. cbn [fst snd] in *.
  destruct (reg_run pan evs r1) as [os r2]. cbn [fst snd] in *. intros [Hin|Hin]%elem_of_app; [|by apply IH].
  destruct (Hs Hin) as (i & Hi & ?). exists i. split; [|done]. by eapply prefix_lookup_Some.
Qed.

(** C20. Over any sequence of events from the initial state, the short addresses
    the coordinator gives out are those of sixteen places, and two responses
    carry the same short address exactly when they are for the same device. *)
Theorem coor_addresses_unique evs s pan :
  coor_fresh s -> cr_sent s = [] -> attr_get MAC_ATTR_PAN_ID (cr_mac s) = Some pan ->
  exists s', (s1 ← coor_config s; coor_run evs s1) = Some s' /\
    forall q1 q2, MlmeAssociateResponse q1 ∈ cr_sent s' -> MlmeAssociateResponse q2 ∈ cr_sent s' ->
      0x3300 <= ar_shortAddress q1 < 0x3310 /\
      (ar_shortAddress q1 = ar_shortAddress q2 <-> ar_devAddress q1 = ar_devAddress q2).
Proof.
  intros Hf Hs Hp. destruct (config_spec s pan Hf Hp) as (s1 & -> & E1 & Hok & _). cbn [mbind option_bind].
  destruct (run_refines pan evs s1 reg0 Hok) as (s' & -> & E & Hok'). exists s'. split; [done|].
  rewrite E, E1, Hs. cbn [app]. intros q1 q2 Hq1 Hq2.
  destruct (reg_run_responses _ _ _ _ Hq1) as (i & Hi & ->), (reg_run_responses _ _ _ _ Hq2) as (j & Hj & ->).
  pose proof (lookup_lt_Some _ _ _ Hi). pose proof (co_max _ _ _ Hok'). unfold rg_short. split; [lia|]. split.
  - intros Eij. assert (i = j) as -> by lia. congruence.
  - intros Ea. rewrite Ea in Hi. f_equal. f_equal. by apply (NoDup_lookup _ _ _ _ (co_nodup _ _ _ Hok') Hi).
Qed.

(** ** Turns *)

(** A timer that is due, and its task. *)
Definition rounds (n : nat) : list coor_event := concat (replicate n [CIndirTimer; CTask]).

Definition dst_of (m : mac_request) : option addr_t :=
  match m with McpsData q _ => Some (rq_dstAddr q) | _ => None end.

Lemma reg_round pan evs r :
  reg_run pan (CIndirTimer :: CTask :: evs) r =
  let r' := mk_reg (rg_devs r) (if (length (rg_devs r) <=? S (rg_next r))%nat then 0%nat else S (rg_next r))
                   (u32 (rg_count r + 1)) (rg_due r) in
  (data_msg pan (rg_dst r) (rg_count r) :: (reg_run pan evs r').1, (reg_run pan evs r').2).
Proof. cbn. by destruct (reg_run pan evs _). Qed.

Lemma rounds_run pan n r :
  rg_devs r <> [] -> (rg_next r + n <= length (rg_devs r))%nat ->
  dst_of <$> (reg_run pan (rounds n) r).1 = (fun i => Some (short_addr (rg_short i))) <$> seq (rg_next r) n /\
  rg_devs (reg_run pan (rounds n) r).2 = rg_devs r /\
  rg_next (reg_run pan (rounds n) r).2 =
    (if (n =? 0)%nat || negb (rg_next r + n =? length (rg_devs r))%nat then rg_next r + n else 0)%nat.
Proof.
  intros Hd. revert r Hd. induction n as [|n IH]; intros r Hd Hn.
  { cbn. split_and!; [done|done|lia]. }
  change (rounds (S n)) with (CIndirTimer :: CTask :: rounds n). rewrite reg_round. cbn zeta. cbn [fst snd].
  assert (Hdst : rg_dst r = rg_short (rg_next r)).
  { unfold rg_dst. destruct (rg_devs r); [done|]. done. }
  destruct n as [|n].
  - cbn. rewrite Hdst. split_and!; [done|done|].
    destruct (Nat.leb_spec (length (rg_devs r)) (S (rg_next r))), (Nat.eqb_spec (rg_next r + 1) (length (rg_devs r))); cbn; lia.
  - rewrite (proj2 (Nat.leb_gt _ _)) by lia. set (r' := mk_reg _ _ _ _).
    destruct (IH r') as (E1 & E2 & E3); [done|cbn; lia|]. split_and!.
    + cbn [fmap list_fmap]. rewrite E1. cbn. by rewrite Hdst.
    + by rewrite E2.
    + rewrite E3. cbn [rg_next rg_devs r' Nat.eqb orb]. replace (S (rg_next r) + S n)%nat with (rg_next r + S (S n))%nat by lia. done.
Qed.

Lemma reg_run_app pan e1 e2 r :
  reg_run pan (e1 ++ e2) r =
  ((reg_run pan e1 r).1 ++ (reg_run pan e2 (reg_run pan e1 r).2).1, (reg_run pan e2 (reg_run pan e1 r).2).2).
Proof.
  revert r. induction e1 as [|e e1 IH]; intros r; cbn [app reg_run fst snd]; [by rewrite <- surjective_pairing|].
  destruct (reg_step pan e r) as [o r1]. rewrite IH. destruct (reg_run pan e1 r1) as [os r2]. cbn [fst snd].
  destruct (reg_run pan e2 r2). cbn. by rewrite app_assoc.
Qed.

Lemma turn_dsts pan r :
  rg_devs r <> [] -> (rg_next r < length (rg_devs r))%nat ->
  dst_of <$> (reg_run pan (rounds (length (rg_devs r))) r).1 ≡ₚ
  (fun i => Some (short_addr (rg_short i))) <$> seq 0 (length (rg_devs r)).
Proof.
  intros Hd Hn. set (k := length (rg_devs r)) in *. set (c := rg_next r) in *.
  assert (E : rounds k = rounds (k - c) ++ rounds c).
  { unfold rounds. rewrite <- concat_app, <- replicate_add. do 2 f_equal. lia. }
  rewrite E, reg_run_app. cbn [fst]. rewrite fmap_app.
  destruct (rounds_run pan (k - c) r Hd) as (E1 & E2 & E3); [fold k c; lia|]. fold c k in E1, E3.
  destruct (rounds_run pan c (reg_run pan (rounds (k - c)) r).2) as (E4 & _ & _).
  { by rewrite E2. }
  { rewrite E2, E3. fold k. replace (c + (k - c))%nat with k by lia. rewrite Nat.eqb_refl, orb_false_r.
    destruct (Nat.eqb_spec (k - c) 0); lia. }
  rewrite E1, E4, E3. replace (c + (k - c))%nat with k by lia. rewrite Nat.eqb_refl, orb_false_r.
  rewrite (proj2 (Nat.eqb_neq (k - c) 0)) by lia. rewrite <- fmap_app.
  apply Permutation_map. rewrite Permutation_app_comm. replace k with (c + (k - c))%nat at 2 by lia. by rewrite seq_app.
Qed.

(** The devices are served in turn: whatever happened since the start, as
    many rounds of the timer and its task as there are devices send one message
    to each of them. *)
Theorem coor_round_robin evs s pan :
  coor_fresh s -> attr_get MAC_ATTR_PAN_ID (cr_mac s) = Some pan ->
  let n := length (rg_devs (reg_run pan evs reg0).2) in
  n <> 0%nat ->
  exists s1 s2 out, (s0 ← coor_config s; coor_run evs s0) = Some s1 /\ device_index s1 = Z.of_nat n /\
    coor_run (rounds n) s1 = Some s2 /\ cr_sent s2 = cr_sent s1 ++ out /\
    dst_of <$> out ≡ₚ (fun i => Some (short_addr (rg_short i))) <$> seq 0 n.
Proof.
  intros Hf Hp n Hn. destruct (config_spec s pan Hf Hp) as (s0 & -> & _ & Hok & _). cbn [mbind option_bind].
  destruct (run_refines pan evs s0 reg0 Hok) as (s1 & -> & _ & Hok1).
  destruct (run_refines pan (rounds n) s1 _ Hok1) as (s2 & E2 & Es & _).
  exists s1, s2. eexists. split_and!; [done|apply Hok1|done|exact Es|]. apply turn_dsts.
  - intros E. apply Hn. unfold n. by rewrite E.
  - pose proof (co_turn _ _ _ Hok1) as Ht. fold n in Ht |- *. lia.
Qed.
End Refine.
