(* ===== verification/AppDev.v ===== *)
(** * The end device application ([demo/associate_dev/app.c])

    A device that is new scans, collects the beacons of coordinators that permit
    association, asks the one with the best link, and polls it once associated.
    [dev] holds the globals of the file, the fields [newDev] and [keyPressed] of
    [gDevCtx], the memory with the event buffers, the MAC's information base, the device's side of the update (with its timers, and [PollDataTimer]),
    how often [ieee802154_info_save] was called, and the requests handed to the
    MAC, oldest first.  [mac_set_pollRate] is in [OtaClient.v].

    A wait forever ([while(1);]) is [None]. *)
From S2P Require Import Prelude SpiFlash FlashIf Memory Linked ListC SysEv Mempool EvBuffer BufClient EvTimer TimerIf.
From S2P Require Import Ota OtaClient Pib PibProps PibTables App.

Definition MAX_ED_SCAN_RESULTS_SUPPORTED : Z := 16.
Definition MAC_STA_FRAME_PENDING : Z := 0x20.

(** [my_pan_t] *)
Record my_pan_t := mk_pan {
  pan_pan_id : Z; pan_lqi : Z; pan_channel : Z; pan_coor_addr : addr_t; pan_permitjoin : Z }.
Definition pan_zero : my_pan_t := mk_pan 0 0 0 addr_zero 0.

(** The fields of [mac_panDesc_t] the application reads. *)
Record mac_panDesc_t := mk_panDesc {
  coordPanId : Z; superframeSpec : Z; coordAddr : addr_t; logicalChannel : Z; gtsPermit : Z; linkQuality : Z }.

(** [zb_superframe_spec_t]: the topmost bit of the second byte. *)
Definition associatePermit (spec : Z) : Z := Z.land (Z.shiftr spec 15) 1.

(** The address of the callback. *)
Class DevLinks := { fn_dev_activescan_callback : Z }.

Section State.
Context {L T F : Type}.

Record dev := mk_device {
  coor_beacon : list my_pan_t;
  coor_size : Z;
  BeaconReqTimer : Z;
  coor_ext_addr : list Z;
  coor_addr_short : Z;
  pan_id : Z;
  pKeyUsgDesc : list Z;
  pKeyIDDesc : Z;
  user_packet : list Z;
  tdebug_cnt_poll_req : Z;
  poll_cnt : Z;
  tdebug_cnt_poll_cnf : Z;
  newDev : bool;
  dv_mac : mac L;
  dv_cl : client F T;
  keyPressed : bool;
  dv_buf : buf_state;
  dv_saves : nat;
  dv_sent : list mac_request
}.

Definition with_coor_beacon v s := mk_device v (coor_size s) (BeaconReqTimer s) (coor_ext_addr s) (coor_addr_short s) (pan_id s) (pKeyUsgDesc s) (pKeyIDDesc s) (user_packet s) (tdebug_cnt_poll_req s) (poll_cnt s) (tdebug_cnt_poll_cnf s) (newDev s) (dv_mac s) (dv_cl s) (keyPressed s) (dv_buf s) (dv_saves s) (dv_sent s).
Definition with_coor_size v s := mk_device (coor_beacon s) v (BeaconReqTimer s) (coor_ext_addr s) (coor_addr_short s) (pan_id s) (pKeyUsgDesc s) (pKeyIDDesc s) (user_packet s) (tdebug_cnt_poll_req s) (poll_cnt s) (tdebug_cnt_poll_cnf s) (newDev s) (dv_mac s) (dv_cl s) (keyPressed s) (dv_buf s) (dv_saves s) (dv_sent s).
Definition with_BeaconReqTimer v s := mk_device (coor_beacon s) (coor_size s) v (coor_ext_addr s) (coor_addr_short s) (pan_id s) (pKeyUsgDesc s) (pKeyIDDesc s) (user_packet s) (tdebug_cnt_poll_req s) (poll_cnt s) (tdebug_cnt_poll_cnf s) (newDev s) (dv_mac s) (dv_cl s) (keyPressed s) (dv_buf s) (dv_saves s) (dv_sent s).
Definition with_coor_ext_addr v s := mk_device (coor_beacon s) (coor_size s) (BeaconReqTimer s) v (coor_addr_short s) (pan_id s) (pKeyUsgDesc s) (pKeyIDDesc s) (user_packet s) (tdebug_cnt_poll_req s) (poll_cnt s) (tdebug_cnt_poll_cnf s) (newDev s) (dv_mac s) (dv_cl s) (keyPressed s) (dv_buf s) (dv_saves s) (dv_sent s).
Definition with_coor_addr_short v s := mk_device (coor_beacon s) (coor_size s) (BeaconReqTimer s) (coor_ext_addr s) v (pan_id s) (pKeyUsgDesc s) (pKeyIDDesc s) (user_packet s) (tdebug_cnt_poll_req s) (poll_cnt s) (tdebug_cnt_poll_cnf s) (newDev s) (dv_mac s) (dv_cl s) (keyPressed s) (dv_buf s) (dv_saves s) (dv_sent s).
Definition with_pan_id v s := mk_device (coor_beacon s) (coor_size s) (BeaconReqTimer s) (coor_ext_addr s) (coor_addr_short s) v (pKeyUsgDesc s) (pKeyIDDesc s) (user_packet s) (tdebug_cnt_poll_req s) (poll_cnt s) (tdebug_cnt_poll_cnf s) (newDev s) (dv_mac s) (dv_cl s) (keyPressed s) (dv_buf s) (dv_saves s) (dv_sent s).
Definition with_pKeyUsgDesc v s := mk_device (coor_beacon s) (coor_size s) (BeaconReqTimer s) (coor_ext_addr s) (coor_addr_short s) (pan_id s) v (pKeyIDDesc s) (user_packet s) (tdebug_cnt_poll_req s) (poll_cnt s) (tdebug_cnt_poll_cnf s) (newDev s) (dv_mac s) (dv_cl s) (keyPressed s) (dv_buf s) (dv_saves s) (dv_sent s).
Definition with_pKeyIDDesc v s := mk_device (coor_beacon s) (coor_size s) (BeaconReqTimer s) (coor_ext_addr s) (coor_addr_short s) (pan_id s) (pKeyUsgDesc s) v (user_packet s) (tdebug_cnt_poll_req s) (poll_cnt s) (tdebug_cnt_poll_cnf s) (newDev s) (dv_mac s) (dv_cl s) (keyPressed s) (dv_buf s) (dv_saves s) (dv_sent s).
Definition with_user_packet v s := mk_device (coor_beacon s) (coor_size s) (BeaconReqTimer s) (coor_ext_addr s) (coor_addr_short s) (pan_id s) (pKeyUsgDesc s) (pKeyIDDesc s) v (tdebug_cnt_poll_req s) (poll_cnt s) (tdebug_cnt_poll_cnf s) (newDev s) (dv_mac s) (dv_cl s) (keyPressed s) (dv_buf s) (dv_saves s) (dv_sent s).
Definition with_tdebug_cnt_poll_req v s := mk_device (coor_beacon s) (coor_size s) (BeaconReqTimer s) (coor_ext_addr s) (coor_addr_short s) (pan_id s) (pKeyUsgDesc s) (pKeyIDDesc s) (user_packet s) v (poll_cnt s) (tdebug_cnt_poll_cnf s) (newDev s) (dv_mac s) (dv_cl s) (keyPressed s) (dv_buf s) (dv_saves s) (dv_sent s).
Definition with_poll_cnt v s := mk_device (coor_beacon s) (coor_size s) (BeaconReqTimer s) (coor_ext_addr s) (coor_addr_short s) (pan_id s) (pKeyUsgDesc s) (pKeyIDDesc s) (user_packet s) (tdebug_cnt_poll_req s) v (tdebug_cnt_poll_cnf s) (newDev s) (dv_mac s) (dv_cl s) (keyPressed s) (dv_buf s) (dv_saves s) (dv_sent s).
Definition with_tdebug_cnt_poll_cnf v s := mk_device (coor_beacon s) (coor_size s) (BeaconReqTimer s) (coor_ext_addr s) (coor_addr_short s) (pan_id s) (pKeyUsgDesc s) (pKeyIDDesc s) (user_packet s) (tdebug_cnt_poll_req s) (poll_cnt s) v (newDev s) (dv_mac s) (dv_cl s) (keyPressed s) (dv_buf s) (dv_saves s) (dv_sent s).
Definition with_newDev v s := mk_device (coor_beacon s) (coor_size s) (BeaconReqTimer s) (coor_ext_addr s) (coor_addr_short s) (pan_id s) (pKeyUsgDesc s) (pKeyIDDesc s) (user_packet s) (tdebug_cnt_poll_req s) (poll_cnt s) (tdebug_cnt_poll_cnf s) v (dv_mac s) (dv_cl s) (keyPressed s) (dv_buf s) (dv_saves s) (dv_sent s).
Definition with_dv_mac v s := mk_device (coor_beacon s) (coor_size s) (BeaconReqTimer s) (coor_ext_addr s) (coor_addr_short s) (pan_id s) (pKeyUsgDesc s) (pKeyIDDesc s) (user_packet s) (tdebug_cnt_poll_req s) (poll_cnt s) (tdebug_cnt_poll_cnf s) (newDev s) v (dv_cl s) (keyPressed s) (dv_buf s) (dv_saves s) (dv_sent s).
Definition with_dv_cl v s := mk_device (coor_beacon s) (coor_size s) (BeaconReqTimer s) (coor_ext_addr s) (coor_addr_short s) (pan_id s) (pKeyUsgDesc s) (pKeyIDDesc s) (user_packet s) (tdebug_cnt_poll_req s) (poll_cnt s) (tdebug_cnt_poll_cnf s) (newDev s) (dv_mac s) v (keyPressed s) (dv_buf s) (dv_saves s) (dv_sent s).
Definition with_keyPressed v s := mk_device (coor_beacon s) (coor_size s) (BeaconReqTimer s) (coor_ext_addr s) (coor_addr_short s) (pan_id s) (pKeyUsgDesc s) (pKeyIDDesc s) (user_packet s) (tdebug_cnt_poll_req s) (poll_cnt s) (tdebug_cnt_poll_cnf s) (newDev s) (dv_mac s) (dv_cl s) v (dv_buf s) (dv_saves s) (dv_sent s).
Definition with_dv_buf v s := mk_device (coor_beacon s) (coor_size s) (BeaconReqTimer s) (coor_ext_addr s) (coor_addr_short s) (pan_id s) (pKeyUsgDesc s) (pKeyIDDesc s) (user_packet s) (tdebug_cnt_poll_req s) (poll_cnt s) (tdebug_cnt_poll_cnf s) (newDev s) (dv_mac s) (dv_cl s) (keyPressed s) v (dv_saves s) (dv_sent s).
Definition with_dv_saves v s := mk_device (coor_beacon s) (coor_size s) (BeaconReqTimer s) (coor_ext_addr s) (coor_addr_short s) (pan_id s) (pKeyUsgDesc s) (pKeyIDDesc s) (user_packet s) (tdebug_cnt_poll_req s) (poll_cnt s) (tdebug_cnt_poll_cnf s) (newDev s) (dv_mac s) (dv_cl s) (keyPressed s) (dv_buf s) v (dv_sent s).
Definition with_dv_sent v s := mk_device (coor_beacon s) (coor_size s) (BeaconReqTimer s) (coor_ext_addr s) (coor_addr_short s) (pan_id s) (pKeyUsgDesc s) (pKeyIDDesc s) (user_packet s) (tdebug_cnt_poll_req s) (poll_cnt s) (tdebug_cnt_poll_cnf s) (newDev s) (dv_mac s) (dv_cl s) (keyPressed s) (dv_buf s) (dv_saves s) v.
End State.
Arguments dev : clear implicits.

Section Dev.
Context {L T F : Type} `{TnLib L, !MacSecLib L, TimerSvc T, Flash F, !FlashCheck F, EvLayout, OtaLinks, DevLinks}.
Implicit Type s : dev L T F.

Definition send (r : mac_request) s : dev L T F := with_dv_sent (dv_sent s ++ [r]) s.
Definition on_tn (f : L -> L) s : dev L T F := with_dv_mac (with_tn (f (tn (dv_mac s))) (dv_mac s)) s.
Definition set_attr (a : Z) (l : list Z) (index : Z) s : option (dev L T F) :=
  m ← attr_set a l index (dv_mac s); Some (with_dv_mac m s).
Definition set_item (a p index : Z) s : option (dev L T F) :=
  m ← item_set a p index (dv_mac s); Some (with_dv_mac m s).
Definition on_tm (f : T -> Z * T) s : Z * dev L T F :=
  let '(p, t) := f (cl_tm (dv_cl s)) in (p, with_dv_cl (with_cl_tm t (dv_cl s)) s).

(** An allocation of a descriptor, followed by [if (!p) while(1);] *)
Definition alloc_or_hang (k : mac_secMaterial_t) s : option (Z * dev L T F) :=
  let '(p, t) := desc_alloc k (tn (dv_mac s)) in
  if p =? 0 then None else Some (p, on_tn (fun _ => t) s).

(** ** Configuration *)

(** The materials all keys share. *)
Definition common_materials s : option (dev L T F) :=
  '(u0, s) ← alloc_or_hang MAC_SECMATERIAL_KEYUSAGE_DESC s;
  let s := with_pKeyUsgDesc [u0; nth 1 (pKeyUsgDesc s) 0] s in
  let s := on_tn (mac_keyusageDesc_set u0 1 0) s in
  '(u1, s) ← alloc_or_hang MAC_SECMATERIAL_KEYUSAGE_DESC s;
  let s := with_pKeyUsgDesc [u0; u1] s in
  let s := on_tn (mac_keyusageDesc_set u1 3 4) s in
  '(k, s) ← alloc_or_hang MAC_SECMATERIAL_KEYID_LOOKUP_DESC s;
  let s := with_pKeyIDDesc k s in
  let look_data := default_key_source ++ [default_key_index] in
  Some (on_tn (mac_keyidDesc_set k LOOKUP_DATA_SIZE_9 look_data) s).

Definition dev_config s : option (dev L T F) :=
  s ← set_attr MAC_ATTR_SECURITY_ENABLED [ZB_MAC_SECURITY] 1 s;
  s ← set_attr MAC_DEFAULT_KEY_SOURCE default_key_source 8 s;
  common_materials s.

(** The coordinator's entry in the device table, and its key. *)
Definition add_device_entry s : option (Z * dev L T F) :=
  '(pDevDesc, s) ← alloc_or_hang MAC_SECMATERIAL_DEVICE_DESC s;
  let s := on_tn (mac_deviceDesc_set pDevDesc (pan_id s) (coor_addr_short s) (coor_ext_addr s) 0 false) s in
  s ← set_item MAC_DEVICE_TABLE pDevDesc 0 s;
  Some (pDevDesc, s).

Definition add_key_entry (pDevDesc : Z) s : option (dev L T F) :=
  '(pKeyDevDesc, s) ← alloc_or_hang MAC_SECMATERIAL_KEYDEV_DESC s;
  let s := on_tn (mac_keydevDesc_set pKeyDevDesc pDevDesc false false) s in
  '(pKeyDesc, s) ← alloc_or_hang MAC_SECMATERIAL_KEY_DESC s;
  let s := on_tn (mac_keyDesc_set pKeyDesc [pKeyIDDesc s] [pKeyDevDesc] (pKeyUsgDesc s) test_key) s in
  set_item MAC_KEY_TABLE pKeyDesc 0 s.

Definition add_key_material s : option (Z * dev L T F) :=
  '(pDevDesc, s) ← add_device_entry s;
  s ← add_key_entry pDevDesc s;
  Some (TRUE, s).

(** ** Scanning *)
Definition dev_active_scan s : dev L T F :=
  let s := with_coor_size 0 s in
  send (MlmeScan (mk_scan (Z.shiftl 1 DEFAULT_CHANNEL) sec_zero ACTIVE_SCAN 2 0)) s.

Definition dev_activescan_callback s : Z * dev L T F := (0, dev_active_scan s).

Definition cancel_beacon_timer s : dev L T F :=
  if negb (BeaconReqTimer s =? 0) then
    let '(p, s) := on_tm (tmr_cancel (BeaconReqTimer s)) s in with_BeaconReqTimer p s
  else s.

Definition dev_start_scan s : dev L T F :=
  let s := cancel_beacon_timer s in
  let '(p, s) := on_tm (tmr_post fn_dev_activescan_callback 0 (3 * 1000)) s in
  with_BeaconReqTimer p s.

(** The loop from the [i]-th pan on; [h] is the best one so far. *)
Fixpoint best_lqi (pans : list my_pan_t) (n i : nat) (h : my_pan_t) : option my_pan_t :=
  match n with
  | O => Some h
  | S n' =>
      p ← pans !! i;
      best_lqi pans n' (S i) (if pan_lqi h <? pan_lqi p then p else h)
  end.

Definition dev_start_associate s : option (dev L T F) :=
  let pan_size := coor_size s in
  if pan_size =? 0 then Some s
  else
    h ← coor_beacon s !! 0%nat;
    pan ← best_lqi (coor_beacon s) (Z.to_nat pan_size) 0 h;
    let capab := mk_capab 0 0 0 1 0 1 in
    let bytes := addr_bytes (pan_coor_addr pan) in
    '(coordAddress, s) ←
      (if addrMode (pan_coor_addr pan) =? ZB_ADDR_64BIT_DEV then
         s ← set_attr MAC_ATTR_COORDINATOR_EXTENDED_ADDRESS bytes 8 s;
         Some (mk_addr ZB_ADDR_64BIT_DEV (take 8 bytes), s)
       else
         s ← set_attr MAC_ATTR_COORDINATOR_SHORT_ADDRESS bytes 2 s;
         Some (mk_addr ZB_ADDR_16BIT_DEV_OR_BROADCAST (take 2 bytes ++ repeat 0 6), s));
    s ← set_attr MAC_ATTR_PAN_ID (word_le 2 (pan_pan_id pan)) 2 s;
    Some (send (MlmeAssociateRequest
      (mk_areq (pan_channel pan) 0 (pan_pan_id pan) sec_zero coordAddress capab)) s).

(** [pConf]: the status and the type of the scan, which make no difference. *)
Definition MyScanCnfCb (pConf : option (Z * Z)) s : option (dev L T F) :=
  match pConf with
  | None => Some s
  | Some _ => if negb (coor_size s =? 0) then dev_start_associate (cancel_beacon_timer s) else Some s
  end.

Definition MyBeaconIndCb (pInd : option mac_panDesc_t) s : dev L T F :=
  match pInd with
  | None => s
  | Some d =>
      if associatePermit (superframeSpec d) =? 0 then s
      else
        let size := u8 (coor_size s + 1) in
        if size <? MAX_ED_SCAN_RESULTS_SUPPORTED then
          let p := mk_pan (coordPanId d) (linkQuality d) (logicalChannel d) (coordAddr d) (gtsPermit d) in
          let s := with_coor_beacon (<[Z.to_nat (coor_size s) := p]> (coor_beacon s)) s in
          with_coor_size (u32 (coor_size s + 1)) s
        else s
  end.

(** ** Polling *)
Definition poll_data_req_send s : option (dev L T F) :=
  ext ← attr_get MAC_ATTR_COORDINATOR_EXTENDED_ADDRESS (dv_mac s);
  pan ← attr_get MAC_ATTR_PAN_ID (dv_mac s);
  let s := send (MlmePoll (mk_poll ext pan ZB_ADDR_64BIT_DEV sec_zero)) s in
  Some (with_tdebug_cnt_poll_req (u32 (tdebug_cnt_poll_req s + 1)) s).

Definition PollDataTimerCb s : option (Z * dev L T F) :=
  s ← poll_data_req_send s;
  Some (0, with_poll_cnt (u32 (poll_cnt s + 1)) s).

Definition MyPollCnfCb (pCnf : option Z) s : dev L T F :=
  match pCnf with None => s | Some _ => with_tdebug_cnt_poll_cnf (u32 (tdebug_cnt_poll_cnf s + 1)) s end.

(** ** Association *)

(** [pCnf]: the parent's address and the status. *)
Definition MyAssocCnfCb (pCnf : option (list Z * Z)) s : option (dev L T F) :=
  match pCnf with
  | None => Some s
  | Some (parentAddress, status) =>
      s ← set_attr MAC_ATTR_COORDINATOR_EXTENDED_ADDRESS parentAddress 8 s;
      pan ← attr_get MAC_ATTR_PAN_ID (dv_mac s);
      let s := with_pan_id (word16 pan) s in
      short ← attr_get MAC_ATTR_COORDINATOR_SHORT_ADDRESS (dv_mac s);
      let s := with_coor_addr_short (word16 short) s in
      let s := with_coor_ext_addr parentAddress s in
      '(_, s) ← add_key_material s;
      if status =? MAC_SUCCESS then
        let s := with_dv_saves (S (dv_saves s)) s in
        let s := with_newDev false s in
        let s := with_dv_cl (@mac_set_pollRate F T _ (env_of (dv_mac s)) _ NORMAL_POLL_RATE (dv_cl s)) s in
        Some (with_dv_cl (ota_queryStart QUERY_RATE (dv_cl s)) s)
      else Some s
  end.

(** ** Data *)

(** [app_ui.c]: fifty bytes to the coordinator, when a buffer is free. *)
Definition app_dataTxTest s : option (dev L T F) :=
  pan ← attr_get MAC_ATTR_PAN_ID (dv_mac s);
  let dst := mk_addr ZB_ADDR_16BIT_DEV_OR_BROADCAST (repeat 0 8) in
  let msduLen := 50 in
  let '(msdu, b) := ev_buf_allocate msduLen (dv_buf s) in
  let s := with_dv_buf b s in
  if negb (msdu =? 0) then
    let m := store_bytes (b_mem (dv_buf s)) msdu (u8 <$> seqZ 0 50) in
    let s := with_dv_buf (with_cpu (with_mem m (b_cpu (dv_buf s))) (dv_buf s)) s in
    let req := mk_req ZB_ADDR_16BIT_DEV_OR_BROADCAST dst pan 0 MAC_TX_OPTION_ACKNOWLEDGED_BIT
                 (load_bytes (b_mem (dv_buf s)) msdu (Z.to_nat msduLen)) in
    let s := send (McpsData req sec_zero) s in
    '(_, b) ← ev_buf_free msdu (dv_buf s);
    Some (with_dv_buf b s)
  else Some s.

(** [pInd]: the payload and its length. *)
Definition MyDataIndCb (pInd : option ((Z -> Z) * Z)) s : dev L T F :=
  match pInd with
  | None => s
  | Some (msdu, msduLength) =>
      let '(ret, c) := @tl_appDataIndicate F T _ _ _ (env_of (dv_mac s)) _ msdu (dv_cl s) in
      let s := with_dv_cl c s in
      if negb (ret =? SUCCESS) then with_user_packet (keep_packet msdu msduLength (user_packet s)) s else s
  end.
End Dev.

