(* ===== verification/AppDevProps.v ===== *)
(** * The end device application: properties

    Which coordinator a scan leads to, what an association leaves behind, and
    that the device then polls its parent. *)
From S2P Require Import Prelude SpiFlash FlashIf Memory Linked ListC SysEv Mempool EvBuffer BufClient EvTimer TimerIf.
From S2P Require Import Ota OtaClient Pib PibProps PibTables App AppDev.

(** ** Candidates *)

(** The beacons that are kept: the first fifteen that permit association. *)
Definition permits (d : mac_panDesc_t) : bool := negb (associatePermit (superframeSpec d) =? 0).
Definition candidates (bs : list mac_panDesc_t) : list mac_panDesc_t := take 15 (filter (fun d => permits d = true) bs).

Definition pan_of (d : mac_panDesc_t) : my_pan_t :=
  mk_pan (coordPanId d) (linkQuality d) (logicalChannel d) (coordAddr d) (gtsPermit d).

(** The first one of the best link. *)
Definition best_at (cs : list mac_panDesc_t) (i : nat) (d : mac_panDesc_t) : Prop :=
  cs !! i = Some d /\
  forall j e, cs !! j = Some e -> linkQuality e <= linkQuality d /\ ((j < i)%nat -> linkQuality e < linkQuality d).

Definition scan_req : mac_request := MlmeScan (mk_scan (Z.shiftl 1 24) sec_zero ACTIVE_SCAN 2 0).

(** The request to the coordinator that sent the beacon. *)
Definition join_addr (a : addr_t) : addr_t :=
  if addrMode a =? ZB_ADDR_64BIT_DEV then mk_addr ZB_ADDR_64BIT_DEV (take 8 (addr_bytes a))
  else mk_addr ZB_ADDR_16BIT_DEV_OR_BROADCAST (take 2 (addr_bytes a) ++ repeat 0 6).

Definition join_req (d : mac_panDesc_t) : mac_request :=
  MlmeAssociateRequest (mk_areq (logicalChannel d) 0 (coordPanId d) sec_zero (join_addr (coordAddr d)) (mk_capab 0 0 0 1 0 1)).

Lemma best_lqi_spec pans n i h j :
  (i + n <= length pans)%nat -> pans !! j = Some h -> (j < Nat.max 1 i)%nat ->
  (forall k q, (k < i)%nat -> pans !! k = Some q -> pan_lqi q <= pan_lqi h /\ ((k < j)%nat -> pan_lqi q < pan_lqi h)) ->
  exists j' h', best_lqi pans n i h = Some h' /\ pans !! j' = Some h' /\ (j' < Nat.max 1 (i + n))%nat /\
    forall k q, (k < i + n)%nat -> pans !! k = Some q ->
      pan_lqi q <= pan_lqi h' /\ ((k < j')%nat -> pan_lqi q < pan_lqi h').
Proof.
  revert i h j. induction n as [|n IH]; intros i h j Hlen Hj Hji Hbest; cbn [best_lqi].
  { exists j, h. rewrite Nat.add_0_r. done. }
  destruct (lookup_lt_is_Some_2 pans i) as [p Hp]; [lia|]. rewrite Hp. cbn [mbind option_bind].
  replace (i + S n)%nat with (S i + n)%nat by lia.
  destruct (Z.ltb_spec (pan_lqi h) (pan_lqi p)) as [Hlt|Hge].
  - apply (IH (S i) p i); [lia|done|lia|]. intros k q Hk Hq. destruct (decide (k = i)) as [->|Hne].
    + rewrite Hp in Hq. injection Hq as <-. lia.
    + destruct (Hbest k q ltac:(lia) Hq). lia.
  - apply (IH (S i) h j); [lia|done|lia|]. intros k q Hk Hq. destruct (decide (k = i)) as [->|Hne].
    + rewrite Hp in Hq. injection Hq as <-. lia.
    + apply (Hbest k q); [lia|done].
Qed.

Section Scan.
Context {L T F : Type} `{TnLib L, !MacSecLib L, TimerSvc T, Flash F, !FlashCheck F, EvLayout, OtaLinks, DevLinks}.
Implicit Type s : dev L T F.

Definition hear (bs : list mac_panDesc_t) s : dev L T F := foldl (fun s d => MyBeaconIndCb (Some d) s) s bs.

Definition stored (l : list my_pan_t) (n : nat) s : dev L T F := with_coor_size (Z.of_nat n) (with_coor_beacon l s).

Lemma hear_spec bs s acc :
  coor_size s = Z.of_nat (length acc) -> (length acc <= 15)%nat -> length (coor_beacon s) = 16%nat ->
  (forall i p, acc !! i = Some p -> coor_beacon s !! i = Some p) ->
  let acc' := take 15 (acc ++ (pan_of <$> filter (fun d => permits d = true) bs)) in
  exists l, hear bs s = stored l (length acc') s /\ length l = 16%nat /\ forall i p, acc' !! i = Some p -> l !! i = Some p.
Proof.
  revert s acc. induction bs as [|d bs IH]; intros s acc Hn Hle Hlen Hacc acc'.
  { exists (coor_beacon s). unfold acc'. cbn [filter list_filter fmap list_fmap]. rewrite app_nil_r, take_ge by lia.
    split_and!; [|done|done]. cbn [hear foldl]. unfold stored. rewrite <- Hn. by destruct s. }
  change (hear (d :: bs) s) with (hear bs (MyBeaconIndCb (Some d) s)). unfold MyBeaconIndCb, acc', permits.
  rewrite filter_cons. destruct (Z.eqb_spec (associatePermit (superframeSpec d)) 0) as [E|E]; cbn [negb].
  { rewrite decide_False by done. by apply IH. }
  rewrite decide_True by done. cbn [fmap list_fmap]. fold (pan_of d). unfold MAX_ED_SCAN_RESULTS_SUPPORTED.
  rewrite Hn, u8_small by lia. destruct (Z.ltb_spec (Z.of_nat (length acc) + 1) 16) as [Hlt|Hge].
  - cbn [with_coor_beacon coor_size]. rewrite Hn, u32_small, Nat2Z.id by lia.
    set (s1 := with_coor_size _ _).
    destruct (IH s1 (acc ++ [pan_of d])) as (l & E1 & E2 & E3).
    + rewrite length_app. cbn. lia.
    + rewrite length_app. cbn. lia.
    + cbn. by rewrite length_insert.
    + cbn. intros i p Hi. apply lookup_app_Some in Hi as [Hi|[Hge Hi]].
      * rewrite list_lookup_insert_ne by (apply lookup_lt_Some in Hi; lia). by apply Hacc.
      * apply list_lookup_singleton_Some in Hi as [Hz <-]. assert (i = length acc) as -> by lia.
        by rewrite list_lookup_insert_eq by lia.
    + rewrite <- app_assoc in E1, E3. exists l. by rewrite E1.
  - destruct (IH s acc Hn Hle Hlen Hacc) as (l & E1 & E2 & E3). exists l. rewrite E1.
    rewrite !take_app_le in E3 |- * by lia. by rewrite take_app_le by lia.
Qed.

Lemma set_attr_prefix a l n s : plain_attr a -> (Z.to_nat (tb_len (entry a)) <= length l)%nat -> n = tb_len (entry a) ->
  exists M, set_attr a l n s = Some (with_dv_mac M s) /\ tn M = tn (dv_mac s) /\
    attr_get a M = Some (take (Z.to_nat n) l) /\
    (forall b, plain_attr b -> b <> a -> attr_get b M = attr_get b (dv_mac s)) /\
    forall x, 76 <= x -> pib M x = pib (dv_mac s) x.
Proof.
  intros Ha Hl Hn. destruct (attr_set_prefix a l n (dv_mac s) Ha Hl Hn) as (M & E & ?). exists M. split; [|done].
  unfold set_attr. by rewrite E.
Qed.

(** What the request leaves in the information base. *)
Definition joins (d : mac_panDesc_t) (M M' : mac L) : Prop :=
  tn M' = tn M /\ (forall x, 76 <= x -> pib M' x = pib M x) /\
  attr_get MAC_ATTR_PAN_ID M' = Some (word_le 2 (coordPanId d)) /\
  (if addrMode (coordAddr d) =? ZB_ADDR_64BIT_DEV
   then attr_get MAC_ATTR_COORDINATOR_EXTENDED_ADDRESS M' = Some (addr_bytes (coordAddr d))
   else attr_get MAC_ATTR_COORDINATOR_SHORT_ADDRESS M' = Some (take 2 (addr_bytes (coordAddr d)))) /\
  forall b, plain_attr b -> b <> MAC_ATTR_PAN_ID -> b <> MAC_ATTR_COORDINATOR_EXTENDED_ADDRESS ->
    b <> MAC_ATTR_COORDINATOR_SHORT_ADDRESS -> attr_get b M' = attr_get b M.

Lemma attrs_plain :
  plain_attr MAC_ATTR_PAN_ID /\ plain_attr MAC_ATTR_COORDINATOR_EXTENDED_ADDRESS /\
  plain_attr MAC_ATTR_COORDINATOR_SHORT_ADDRESS /\ plain_attr MAC_ATTR_SECURITY_ENABLED.
Proof.
  unfold plain_attr, MAC_ATTR_PAN_ID, MAC_ATTR_COORDINATOR_EXTENDED_ADDRESS, MAC_ATTR_COORDINATOR_SHORT_ADDRESS,
    MAC_ATTR_SECURITY_ENABLED. lia.
Qed.

Lemma associate_request s pans n d i :
  coor_size s = Z.of_nat n -> (0 < n <= 16)%nat -> length (coor_beacon s) = 16%nat ->
  (forall i p, pans !! i = Some p -> coor_beacon s !! i = Some (pan_of p)) -> length pans = n ->
  best_at pans i d -> length (addr_bytes (coordAddr d)) = 8%nat ->
  exists M', dev_start_associate s = Some (send (join_req d) (with_dv_mac M' s)) /\ joins d (dv_mac s) M'.
Proof.
  intros Hn Hpos Hlen Hp Hpl [Hi Hbest] Ha8. unfold dev_start_associate.
  rewrite (proj2 (Z.eqb_neq _ _)) by lia. destruct (lookup_lt_is_Some_2 pans 0) as [d0 Hd0]; [lia|].
  rewrite (Hp _ _ Hd0). cbn [mbind option_bind]. rewrite Hn, Nat2Z.id.
  destruct (best_lqi_spec (coor_beacon s) n 0 (pan_of d0) 0) as (j & h & -> & Hj & Hjn & Hbj); [lia|by apply Hp|lia|lia|].
  cbn [mbind option_bind Nat.add] in *. destruct (lookup_lt_is_Some_2 pans j) as [e He]; [lia|].
  rewrite (Hp _ _ He) in Hj. injection Hj as <-.
  assert (j = i) as ->.
  { destruct (Hbest j e He) as [B1 B2]. destruct (Hbj i (pan_of d)) as [B3 B4]; [apply lookup_lt_Some in Hi; lia|by apply Hp|].
    cbn in B3, B4. destruct (Nat.lt_trichotomy i j) as [?|[?|?]]; lia. }
  rewrite Hi in He. injection He as <-. cbn [pan_coor_addr pan_of pan_pan_id pan_channel].
  destruct attrs_plain as (P1 & P2 & P3 & _). unfold joins, join_req, join_addr.
  destruct (addrMode (coordAddr d) =? ZB_ADDR_64BIT_DEV).
  - destruct (set_attr_prefix MAC_ATTR_COORDINATOR_EXTENDED_ADDRESS (addr_bytes (coordAddr d)) 8 s P2) as (M1 & -> & T1 & A1 & O1 & X1);
      [rewrite Ha8; apply Nat.leb_le; reflexivity|done|]. cbn [mbind option_bind].
    destruct (set_attr_prefix MAC_ATTR_PAN_ID (word_le 2 (coordPanId d)) 2 (with_dv_mac M1 s) P1) as (M2 & -> & T2 & A2 & O2 & X2);
      [done|done|]. cbn [mbind option_bind dv_mac with_dv_mac] in *. exists M2.
    split; [done|]. split_and!; [congruence| |done| |].
    + intros x Hx. by rewrite X2, X1.
    + rewrite O2, A1 by done. by rewrite take_ge by (rewrite Ha8; done).
    + intros b Hb N1 N2 N3. by rewrite O2, O1.
  - destruct (set_attr_prefix MAC_ATTR_COORDINATOR_SHORT_ADDRESS (addr_bytes (coordAddr d)) 2 s P3) as (M1 & -> & T1 & A1 & O1 & X1);
      [rewrite Ha8; apply Nat.leb_le; reflexivity|done|]. cbn [mbind option_bind].
    destruct (set_attr_prefix MAC_ATTR_PAN_ID (word_le 2 (coordPanId d)) 2 (with_dv_mac M1 s) P1) as (M2 & -> & T2 & A2 & O2 & X2);
      [done|done|]. cbn [mbind option_bind dv_mac with_dv_mac] in *. exists M2.
    split; [done|]. split_and!; [congruence| |done| |].
    + intros x Hx. by rewrite X2, X1.
    + by rewrite O2, A1 by done.
    + intros b Hb N1 N2 N3. by rewrite O2, O1.
Qed.
End Scan.

(** ** The scan *)
Section Join.
Context {L T F : Type} `{TnLib L, !MacSecLib L, TimerSvc T, Flash F, !FlashCheck F, EvLayout, OtaLinks, DevLinks}.
Implicit Type s : dev L T F.

(** A scan: the request, the beacons, the confirm with its status and type. *)
Definition scan (bs : list mac_panDesc_t) (sc : Z * Z) s : option (dev L T F) :=
  MyScanCnfCb (Some sc) (hear bs (dev_active_scan s)).

Lemma scan_none bs sc s :
  length (coor_beacon s) = 16%nat -> candidates bs = [] ->
  exists l, length l = 16%nat /\ scan bs sc s = Some (stored l 0 (send scan_req s)).
Proof.
  intros Hl Hc. destruct (hear_spec bs (dev_active_scan s) []) as (l & E & El & _); [done|cbn; lia|exact Hl|done|].
  cbn [app] in E. rewrite <- fmap_take in E. fold (candidates bs) in E. rewrite Hc in E. exists l. split; [done|].
  unfold scan. by rewrite E.
Qed.

Lemma cancel_fields s :
  let s' := cancel_beacon_timer s in
  coor_size s' = coor_size s /\ coor_beacon s' = coor_beacon s /\ dv_mac s' = dv_mac s /\ dv_sent s' = dv_sent s.
Proof. unfold cancel_beacon_timer, on_tm. destruct (negb _); [|done]. by destruct (tmr_cancel _ _). Qed.

(** The timer does not depend on the beacons. *)
Lemma cancel_ext s s' : BeaconReqTimer s' = BeaconReqTimer s -> dv_cl s' = dv_cl s ->
  BeaconReqTimer (cancel_beacon_timer s') = BeaconReqTimer (cancel_beacon_timer s) /\
  dv_cl (cancel_beacon_timer s') = dv_cl (cancel_beacon_timer s).
Proof.
  intros E1 E2. unfold cancel_beacon_timer, on_tm. rewrite E1, E2. destruct (negb _); [|done]. by destruct (tmr_cancel _ _).
Qed.

Lemma scan_some bs sc s :
  length (coor_beacon s) = 16%nat -> candidates bs <> [] -> Forall (fun d => length (addr_bytes (coordAddr d)) = 8%nat) bs ->
  exists i d l M', best_at (candidates bs) i d /\ joins d (dv_mac s) M' /\ length l = 16%nat /\
    scan bs sc s = Some (send (join_req d) (with_dv_mac M' (cancel_beacon_timer (stored l (length (candidates bs)) (send scan_req s))))).
Proof.
  intros Hl Hc Ha. destruct (hear_spec bs (dev_active_scan s) []) as (l & E & El & Hs); [done|cbn; lia|exact Hl|done|].
  cbn [app] in E, Hs. rewrite <- fmap_take in E, Hs. fold (candidates bs) in E, Hs. rewrite length_fmap in E.
  assert (Hlen : (0 < length (candidates bs) <= 15)%nat).
  { split; [by destruct (candidates bs); [|cbn; lia]|]. unfold candidates. rewrite length_take. lia. }
  assert (Hb : exists i d, best_at (candidates bs) i d).
  { destruct (lookup_lt_is_Some_2 (candidates bs) 0) as [d0 Hd0]; [lia|].
    destruct (best_lqi_spec (pan_of <$> candidates bs) (length (candidates bs)) 0 (pan_of d0) 0) as (j & h & _ & Hj & _ & Hbj);
      [rewrite length_fmap; lia|by rewrite list_lookup_fmap, Hd0|lia|lia|].
    rewrite list_lookup_fmap in Hj. apply fmap_Some in Hj as (d & Hd & ->). exists j, d. split; [done|]. intros k e He.
    destruct (Hbj k (pan_of e)) as [B1 B2]; [by apply lookup_lt_Some in He|by rewrite list_lookup_fmap, He|]. done. }
  destruct Hb as (i & d & Hb). set (s1 := stored l (length (candidates bs)) (send scan_req s)).
  assert (Hd8 : length (addr_bytes (coordAddr d)) = 8%nat).
  { destruct Hb as [Hi _]. rewrite Forall_forall in Ha. apply Ha. apply list_elem_of_lookup_2 in Hi.
    unfold candidates in Hi. apply elem_of_take in Hi as (k & Hk & _). apply list_elem_of_lookup_2 in Hk.
    by apply list_elem_of_filter in Hk as [_ ?]. }
  destruct (cancel_fields s1) as (C1 & C2 & C3 & _).
  destruct (associate_request (cancel_beacon_timer s1) (candidates bs) (length (candidates bs)) d i) as (M' & EM & HJ);
    [by rewrite C1|lia|by rewrite C2| |done|done|done|].
  { intros k p Hk. rewrite C2. apply Hs. by rewrite list_lookup_fmap, Hk. }
  rewrite C3 in HJ. exists i, d, l, M'. split_and!; [done|done|done|].
  unfold scan. rewrite E. change (stored l _ (dev_active_scan s)) with s1. unfold MyScanCnfCb.
  rewrite (proj2 (Z.eqb_neq _ _)) by (cbn; lia). cbn [negb]. exact EM.
Qed.

(** C26. A scan joins the best coordinator: of the first fifteen beacons that
    permit association, the association request goes to the first one of the
    highest link quality, on its channel and PAN, by the address the beacon
    carries; the information base then holds its PAN and address and the scan
    timer is cancelled.  When no beacon permits, the scan request is the only
    one, and neither the information base nor the timers change, so that the
    timer starts another scan. *)
Theorem dev_joins_best bs sc s :
  length (coor_beacon s) = 16%nat -> Forall (fun d => length (addr_bytes (coordAddr d)) = 8%nat) bs ->
  exists s', scan bs sc s = Some s' /\
    ((candidates bs = [] /\ dv_sent s' = dv_sent s ++ [scan_req] /\ dv_mac s' = dv_mac s /\ dv_cl s' = dv_cl s /\
      BeaconReqTimer s' = BeaconReqTimer s) \/
     exists i d, best_at (candidates bs) i d /\ dv_sent s' = dv_sent s ++ [scan_req; join_req d] /\
      joins d (dv_mac s) (dv_mac s') /\ BeaconReqTimer s' = BeaconReqTimer (cancel_beacon_timer s) /\
      dv_cl s' = dv_cl (cancel_beacon_timer s)).
Proof.
  intros Hl Ha. destruct (decide (candidates bs = [])) as [Hc|Hc].
  - destruct (scan_none bs sc s Hl Hc) as (l & _ & E). eexists. split; [exact E|]. by left.
  - destruct (scan_some bs sc s Hl Hc Ha) as (i & d & l & M' & Hb & HJ & _ & E). eexists. split; [exact E|]. right.
    exists i, d. set (s1 := stored _ _ _). destruct (cancel_fields s1) as (_ & _ & _ & C4).
    destruct (cancel_ext s s1) as [C5 C6]; [done|done|]. split; [done|]. cbn [send with_dv_mac with_dv_sent dv_sent dv_mac BeaconReqTimer dv_cl].
    rewrite C4. change (dv_sent s1) with (dv_sent s ++ [scan_req]). split_and!; [by rewrite <- app_assoc|done|done|done].
Qed.
End Join.

(** ** The association *)
Section Assoc.
Context {L T F : Type} `{MacSecLaws L, TimerSvc T, Flash F, !FlashCheck F, EvLayout, OtaLinks, DevLinks}.
Implicit Type s : dev L T F.

(** The tables are empty and every pool has what the device takes. *)
Record dev_fresh s : Prop := {
  df_tables : tables_at (fun _ => []) (dv_mac s);
  df_own : forall k, k ∈ own_pools -> (1 <= pool_free k (tn (dv_mac s)))%nat;
  df_usage : (2 <= pool_free MAC_SECMATERIAL_KEYUSAGE_DESC (tn (dv_mac s)))%nat;
  df_keyid : (1 <= pool_free MAC_SECMATERIAL_KEYID_LOOKUP_DESC (tn (dv_mac s)))%nat;
  df_beacons : length (coor_beacon s) = 16%nat
}.

(** After [dev_config]: room for the coordinator. *)
Record dev_ready M : Prop := {
  dr_tables : tables_here M;
  dr_empty : forall n, n <> macKeyDevTable -> tn_items n (tn M) = [];
  dr_own : forall k, k ∈ own_pools -> (1 <= pool_free k (tn M))%nat
}.

Lemma dev_alloc_eq k s t p t' : tn (dv_mac s) = t -> desc_alloc k t = (p, t') -> p <> 0 ->
  alloc_or_hang k s = Some (p, on_tn (fun _ => t') s).
Proof. intros <- E Hp. unfold alloc_or_hang. by rewrite E, (proj2 (Z.eqb_neq p 0)). Qed.

Lemma dev_item_eq a v i s M M' : dv_mac s = M -> item_set a v i M = Some M' -> set_item a v i s = Some (with_dv_mac M' s).
Proof. intros <- E. unfold set_item. by rewrite E. Qed.

Lemma dev_key_source s : exists M, set_attr MAC_DEFAULT_KEY_SOURCE default_key_source 8 s = Some (with_dv_mac M s) /\
  tn M = tn (dv_mac s) /\ forall x, x < 108 -> pib M x = pib (dv_mac s) x.
Proof.
  eexists. split; [reflexivity|]. cbn [tn with_pib pib]. split; [done|]. intros x Hx. apply mem_put_out. left. exact Hx.
Qed.

(** What the configuration leaves alone. *)
Lemma dev_config_spec s :
  dev_fresh s ->
  exists u0 u1 k M, dev_config s = Some (with_pKeyIDDesc k (with_pKeyUsgDesc [u0; u1] (with_dv_mac M s))) /\
    dev_ready M /\ attr_get MAC_ATTR_SECURITY_ENABLED M = Some [1] /\
    forall b, plain_attr b -> b <> MAC_ATTR_SECURITY_ENABLED -> attr_get b M = attr_get b (dv_mac s).
Proof.
  intros [Ht Hown Hus Hki _]. destruct attrs_plain as (_ & _ & _ & P4). unfold dev_config.
  destruct (set_attr_prefix MAC_ATTR_SECURITY_ENABLED [ZB_MAC_SECURITY] 1 s P4) as (M1 & -> & T1 & A1 & O1 & X1); [done|done|].
  cbn [mbind option_bind]. destruct (dev_key_source (with_dv_mac M1 s)) as (M2 & -> & T2 & X2).
  cbn [mbind option_bind dv_mac with_dv_mac] in *.
  assert (ET : tn M2 = tn (dv_mac s)) by congruence.
  assert (Ht2 : tables_at (fun _ => []) M2).
  { apply (tables_pib _ (dv_mac s)); [done|done|]. intros x Hx. rewrite X2, X1; [done|lia..]. }
  destruct (enter_materials (tn M2)) as (u0 & t1 & E1 & Hu0 & u1 & t3 & E3 & Hu1 & k & t5 & E5 & Hk0 & Q & P);
    [apply Ht2|by rewrite ET..|].
  set (t6 := mac_keyidDesc_set _ _ _ _) in Q, P. exists u0, u1, k, (with_tn t6 M2). split.
  { unfold common_materials. erewrite dev_alloc_eq; [|reflexivity|exact E1|done]. cbn [mbind option_bind].
    erewrite dev_alloc_eq; [|reflexivity|exact E3|done]. cbn [mbind option_bind].
    erewrite dev_alloc_eq; [|reflexivity|exact E5|done]. reflexivity. }
  assert (Hattr : forall b, plain_attr b -> attr_get b (with_tn t6 M2) = attr_get b M1).
  { intros b Hb. apply attr_get_ext; [done|]. intros x Hx. cbn. apply X2. lia. }
  split_and!.
  - split.
    + apply quiet_tables; [by eapply tables_at_here|done].
    + intros n Hn. cbn. rewrite (qu_items _ _ Q n Hn). apply (ta_items _ _ Ht2).
    + intros j Hj. cbn. rewrite P, ET by done. by apply Hown.
  - by rewrite Hattr.
  - intros b Hb Hne. by rewrite Hattr, O1.
Qed.

Lemma add_coordinator s :
  dev_ready (dv_mac s) ->
  exists M' p y z, add_key_material s = Some (TRUE, with_dv_mac M' s) /\
    tn_items macDevTable (tn M') = [p] /\ long_address p (tn M') = coor_ext_addr s /\
    short_address p (tn M') = coor_addr_short s /\ device_pan p (tn M') = pan_id s /\
    tn_items macKeyTable (tn M') = [z] /\
    key_fields z (tn M') = mk_keyDesc [pKeyIDDesc s] [y] (pKeyUsgDesc s) test_key /\ keydev_device y (tn M') = p /\
    forall x, x < 76 -> pib M' x = pib (dv_mac s) x.
Proof.
  intros [Hh He Hown]. unfold own_pools in Hown.
  destruct (enter_device (dv_mac s) (pan_id s) (coor_ext_addr s) (coor_addr_short s) Hh) as
    (p & t1 & E1 & Hp & M3 & E3 & Hh3 & Hit3 & Hik3 & Hlg3 & Hs3 & Hpan3 & _ & Hk3 & Hx3).
  { specialize (Hown MAC_SECMATERIAL_DEVICE_DESC ltac:(set_solver)). lia. }
  { rewrite He by done. cbn. lia. }
  destruct (enter_key M3 p [pKeyIDDesc s] (pKeyUsgDesc s) test_key Hh3) as
    (y & t4 & E4 & Hy & z & t6 & E6 & Hz & M8 & E8 & _ & Hid8 & Hik8 & Hkf8 & Hkd8 & Hd8 & _ & _ & Hx8).
  { rewrite Hk3, decide_False by done. specialize (Hown MAC_SECMATERIAL_KEYDEV_DESC ltac:(set_solver)). lia. }
  { rewrite Hk3, decide_False by done. specialize (Hown MAC_SECMATERIAL_KEY_DESC ltac:(set_solver)). lia. }
  { rewrite Hik3, He by done. cbn. lia. }
  rewrite (He macDevTable) in E3, Hit3 by done. rewrite Hik3, He in E8, Hik8 by done. cbn [length Z.of_nat app] in *.
  assert (Hpin : p ∈ tn_items macDevTable (tn M3)) by (rewrite Hit3; by left).
  destruct (Hd8 p Hpin) as (Es & El & Ep). exists M8, p, y, z. split.
  - unfold add_key_material, add_device_entry. erewrite dev_alloc_eq; [|reflexivity|exact E1|exact Hp].
    cbn [mbind option_bind]. erewrite dev_item_eq; [|reflexivity|exact E3]. cbn [mbind option_bind].
    unfold add_key_entry. erewrite dev_alloc_eq; [|reflexivity|exact E4|exact Hy]. cbn [mbind option_bind].
    erewrite dev_alloc_eq; [|reflexivity|exact E6|exact Hz]. cbn [mbind option_bind].
    erewrite dev_item_eq; [|reflexivity|exact E8]. reflexivity.
  - split_and!; [by rewrite Hid8|congruence|congruence|congruence|done|done|done|]. intros x Hx. by rewrite Hx8, Hx3.
Qed.

(** What a confirm with status [status] leaves behind. *)
Record associated (parent : list Z) (status : Z) s s' : Prop := {
  as_table : exists p y z short pan, tn_items macDevTable (tn (dv_mac s')) = [p] /\ long_address p (tn (dv_mac s')) = parent /\
    attr_get MAC_ATTR_COORDINATOR_SHORT_ADDRESS (dv_mac s) = Some short /\ short_address p (tn (dv_mac s')) = word16 short /\
    attr_get MAC_ATTR_PAN_ID (dv_mac s) = Some pan /\ device_pan p (tn (dv_mac s')) = word16 pan /\
    tn_items macKeyTable (tn (dv_mac s')) = [z] /\
    key_fields z (tn (dv_mac s')) = mk_keyDesc [pKeyIDDesc s] [y] (pKeyUsgDesc s)
      [0x00; 0x11; 0x22; 0x33; 0x44; 0x55; 0x66; 0x77; 0x88; 0x99; 0xaa; 0xbb; 0xcc; 0xdd; 0xee; 0xff] /\
    keydev_device y (tn (dv_mac s')) = p;
  as_ext : attr_get MAC_ATTR_COORDINATOR_EXTENDED_ADDRESS (dv_mac s') = Some parent;
  as_others : forall b, plain_attr b -> b <> MAC_ATTR_COORDINATOR_EXTENDED_ADDRESS ->
    attr_get b (dv_mac s') = attr_get b (dv_mac s);
  as_sent : dv_sent s' = dv_sent s;
  as_done : if status =? MAC_SUCCESS
    then newDev s' = false /\ dv_saves s' = S (dv_saves s) /\
      dv_cl s' = ota_queryStart QUERY_RATE (@mac_set_pollRate F T _ (env_of (dv_mac s')) _ NORMAL_POLL_RATE (dv_cl s))
    else newDev s' = newDev s /\ dv_saves s' = dv_saves s /\ dv_cl s' = dv_cl s
}.

Lemma confirm_spec parent status s :
  dev_ready (dv_mac s) -> length parent = 8%nat ->
  exists s', MyAssocCnfCb (Some (parent, status)) s = Some s' /\ associated parent status s s'.
Proof.
  intros [Hh He Hown] H8. destruct attrs_plain as (P1 & P2 & P3 & _). unfold MyAssocCnfCb.
  destruct (set_attr_prefix MAC_ATTR_COORDINATOR_EXTENDED_ADDRESS parent 8 s P2) as (M1 & -> & T1 & A1 & O1 & X1);
    [rewrite H8; apply Nat.leb_le; reflexivity|done|]. rewrite take_ge in A1 by (rewrite H8; done).
  cbn [mbind option_bind dv_mac with_dv_mac].
  assert (Hpan : attr_get MAC_ATTR_PAN_ID (dv_mac s) = Some (bytes_at (pib (dv_mac s)) off_panId 2)) by (by rewrite attr_get_plain).
  rewrite O1, Hpan by done. cbn [mbind option_bind].
  change (dv_mac (with_pan_id _ (with_dv_mac M1 s))) with M1.
  assert (Hshort : attr_get MAC_ATTR_COORDINATOR_SHORT_ADDRESS (dv_mac s) =
    Some (bytes_at (pib (dv_mac s)) off_coordShortAddress 2)) by (by rewrite attr_get_plain).
  rewrite O1, Hshort by done. cbn [mbind option_bind]. set (s1 := with_coor_ext_addr parent _).
  assert (Hr : dev_ready (dv_mac s1)).
  { change (dv_mac s1) with M1. split; rewrite ?T1; [|done|done].
    apply (tables_at_here (fun n => tn_items n (tn (dv_mac s)))). destruct Hh as [Ho Hi Hc].
    split; rewrite ?T1; [done|done|]. intros n Hn.
    rewrite X1; [by apply Hc|destruct n; cbn [counter]; unfold off_keyTableEntries, off_devTableEntries, off_secLvlTableEntries; done || lia]. }
  destruct (add_coordinator s1 Hr) as (M' & p & y & z & -> & Hit & Hlg & Hs & Hpn & Hkt & Hkf & Hkd & Hx). cbn [mbind option_bind].
  change (dv_mac s1) with M1 in Hx. change (coor_ext_addr s1) with parent in Hlg.
  assert (Hattr : forall b, plain_attr b -> attr_get b M' = attr_get b M1) by (intros b Hb; by apply attr_get_ext).
  assert (Hfin : forall s2, dv_mac s2 = M' -> dv_sent s2 = dv_sent s ->
    (if status =? MAC_SUCCESS
     then newDev s2 = false /\ dv_saves s2 = S (dv_saves s) /\
       dv_cl s2 = ota_queryStart QUERY_RATE (@mac_set_pollRate F T _ (env_of (dv_mac s2)) _ NORMAL_POLL_RATE (dv_cl s))
     else newDev s2 = newDev s /\ dv_saves s2 = dv_saves s /\ dv_cl s2 = dv_cl s) -> associated parent status s s2).
  { intros s2 Hm Hsent Hd. split; rewrite ?Hm; [| | |done|].
    - by exists p, y, z, (bytes_at (pib (dv_mac s)) off_coordShortAddress 2), (bytes_at (pib (dv_mac s)) off_panId 2).
    - by rewrite Hattr.
    - intros b Hb Hne. by rewrite Hattr, O1.
    - by rewrite Hm in Hd. }
  destruct (status =? MAC_SUCCESS); (eexists; split; [reflexivity|]; by apply Hfin).
Qed.

(** C27. An association of a device with empty tables, whatever its status,
    enters the parent in the device table, under the short address and the PAN
    that the information base has for the coordinator, and in the key table the
    test key with that device and the descriptors that the configuration has
    made; it makes the parent the coordinator's extended address.  A successful one saves
    the network's data, ends the state of a new device, and starts the polls and
    the query of the update server; after a failed one no timer has changed and
    nothing was sent: the device, whose scan is over, tries no other coordinator. *)
Theorem dev_association_outcome parent status s0 :
  dev_fresh s0 -> length parent = 8%nat ->
  exists s s', dev_config s0 = Some s /\ MyAssocCnfCb (Some (parent, status)) s = Some s' /\ associated parent status s s' /\
    attr_get MAC_ATTR_SECURITY_ENABLED (dv_mac s') = Some [1].
Proof.
  intros Hf H8. destruct (dev_config_spec s0 Hf) as (u0 & u1 & k & M & E & Hr & Hsec & _). rewrite E.
  set (s := with_pKeyIDDesc k _). destruct (confirm_spec parent status s Hr H8) as (s' & E' & Ha).
  exists s, s'. split_and!; [done|done|done|]. destruct attrs_plain as (_ & _ & _ & P4).
  rewrite (as_others _ _ _ _ Ha) by done. exact Hsec.
Qed.

(** C25. The whole of joining: configured from its initial state, a device that
    scans, hears a beacon that permits association, and whose association is
    confirmed by [parent], polls [parent] in the PAN of the coordinator it chose:
    each poll timer sends one request with that address and that PAN, and runs
    again. *)
Theorem dev_polls_its_parent bs sc parent s0 :
  dev_fresh s0 -> candidates bs <> [] -> Forall (fun d => length (addr_bytes (coordAddr d)) = 8%nat) bs ->
  length parent = 8%nat ->
  exists i d s1 s2 s3, best_at (candidates bs) i d /\
    (s ← dev_config s0; scan bs sc s) = Some s1 /\ dv_sent s1 = dv_sent s0 ++ [scan_req; join_req d] /\
    MyAssocCnfCb (Some (parent, MAC_SUCCESS)) s1 = Some s2 /\ newDev s2 = false /\
    PollDataTimerCb s2 = Some (0, s3) /\
    dv_sent s3 = dv_sent s1 ++ [MlmePoll (mk_poll parent (word_le 2 (coordPanId d)) ZB_ADDR_64BIT_DEV sec_zero)] /\
    dv_mac s3 = dv_mac s2.
Proof.
  intros Hf Hc Ha H8. destruct (dev_config_spec s0 Hf) as (u0 & u1 & k & M & -> & Hr & _ & _). cbn [mbind option_bind].
  set (s := with_pKeyIDDesc k _). destruct (scan_some bs sc s (df_beacons _ Hf) Hc Ha) as (i & d & l & M' & Hb & HJ & _ & E).
  destruct HJ as (JT & JX & JP & _ & _). rewrite E.
  set (s0' := stored _ _ _). set (s1 := send _ _). destruct (cancel_fields s0') as (_ & _ & _ & C4).
  assert (Hr1 : dev_ready (dv_mac s1)).
  { change (dv_mac s1) with M'. change (dv_mac s) with M in JT, JX. destruct Hr as [Hh He Ho].
    split; rewrite ?JT; [|done|done]. apply (tables_at_here (fun n => tn_items n (tn M))). destruct Hh as [Hok Hi Hct].
    split; rewrite ?JT; [done|done|]. intros n Hn.
    rewrite JX; [by apply Hct|destruct n; cbn [counter]; unfold off_keyTableEntries, off_devTableEntries, off_secLvlTableEntries; done || lia]. }
  destruct (confirm_spec parent MAC_SUCCESS s1 Hr1 H8) as (s2 & E2 & [_ Hext Hoth Hsent Hdone]).
  destruct attrs_plain as (P1 & _). destruct Hdone as (Hnew & _).
  exists i, d, s1, s2. eexists. split_and!; [done|done| |done|done| | |].
  - change (dv_sent s1) with (dv_sent (cancel_beacon_timer s0') ++ [join_req d]). rewrite C4.
    change (dv_sent s0') with (dv_sent s0 ++ [scan_req]). by rewrite <- app_assoc.
  - unfold PollDataTimerCb, poll_data_req_send. rewrite Hext, Hoth by done. change (dv_mac s1) with M'. by rewrite JP.
  - cbn. by rewrite Hsent.
  - done.
Qed.
End Assoc.
