(* ===== verification/AppUi.v ===== *)
(** * The demo applications: keys and lights ([app_ui.c] of both)

    The handler of the keys is the same in both applications; what a key does is
    not ([KeyOps]).  The keys are those of [Keyboard.v], the clock a sequence of
    readings.  [nv_resetToFactoryNew] is the one of [Nv.v], on the application's
    flash and buffers; the reset of the system, which does not return, ends a run
    ([Reset]). *)
From S2P Require Import Prelude SpiFlash FlashIf Memory Linked ListC SysEv Mempool EvBuffer BufClient EvTimer TimerIf.
From S2P Require Import Ota OtaServer OtaClient Nv Pib PibProps PibTables App AppCoor AppDev Keyboard.

Definition VK_SW1 : Z := 0x01.
Definition VK_SW2 : Z := 0x02.

Inductive app_state := APP_STATE_NORMAL | APP_FACTORY_NEW_SET_CHECK | APP_FACTORY_NEW_DOING.

#[export] Instance app_state_eq_dec : EqDecision app_state.
Proof. solve_decision. Defined.

(** [clock_time] *)
Class UiClock := { ui_clock : nat -> Z }.

(** What an application does: [buttonShortPressed], the part of
    [buttonKeepPressed] for the second key, [nv_resetToFactoryNew], and the
    assignment of [keyPressed], which the coordinator does not have. *)
Class KeyOps (A : Type) := {
  buttonShortPressed : Z -> A -> option A;
  keep_sw2 : A -> A;
  factory_new : A -> A;
  set_keyPressed : bool -> A -> A
}.

Inductive outcome (S : Type) := Running (s : S) | Reset (s : S).
Arguments Running {S}.
Arguments Reset {S}.

(** ** The handler *)
Section Handler.
Context `{KbBoard, UiClock} {A : Type} `{KeyOps A}.

(** [reads] counts the readings of the clock. *)
Record ui := mk_ui {
  u_state : app_state; keyPressedTime : Z; valid_keyCode : Z; u_kb : kb; u_app : A; u_reads : nat }.
Implicit Type s : ui.

Definition with_u_state v s := mk_ui v (keyPressedTime s) (valid_keyCode s) (u_kb s) (u_app s) (u_reads s).
Definition with_keyPressedTime v s := mk_ui (u_state s) v (valid_keyCode s) (u_kb s) (u_app s) (u_reads s).
Definition with_valid_keyCode v s := mk_ui (u_state s) (keyPressedTime s) v (u_kb s) (u_app s) (u_reads s).
Definition with_u_kb v s := mk_ui (u_state s) (keyPressedTime s) (valid_keyCode s) v (u_app s) (u_reads s).
Definition with_u_app v s := mk_ui (u_state s) (keyPressedTime s) (valid_keyCode s) (u_kb s) v (u_reads s).
Definition clock_time s : Z * ui :=
  (ui_clock (u_reads s), mk_ui (u_state s) (keyPressedTime s) (valid_keyCode s) (u_kb s) (u_app s) (S (u_reads s))).

Definition buttonKeepPressed (btNum : Z) s : outcome ui :=
  if btNum =? VK_SW1 then
    let s := with_u_state APP_FACTORY_NEW_DOING s in
    Reset (with_u_app (factory_new (u_app s)) s)
  else if btNum =? VK_SW2 then Running (with_u_app (keep_sw2 (u_app s)) s)
  else Running s.

Definition keyScan_keyPressedCB (kbEvt : kb_data_t) s : option ui :=
  keyCode ← keycode kbEvt !! 0%nat;
  a ← buttonShortPressed keyCode (u_app s);
  let s := with_u_app a s in
  if keyCode =? VK_SW1 then
    let '(now, s) := clock_time s in
    Some (with_u_state APP_FACTORY_NEW_SET_CHECK (with_keyPressedTime now s))
  else Some s.

Definition keyScan_keyReleasedCB s : ui := with_u_state APP_STATE_NORMAL s.

(** The keys, after the test for the factory reset. *)
Definition scan_keys s : option ui :=
  let '(r, k) := kb_scan_key 0 true (u_kb s) in
  let s := with_u_kb k s in
  if negb (r =? 0) then
    if (0 <? cnt (kb_event (u_kb s)))%nat then
      let s := with_u_app (set_keyPressed true (u_app s)) s in
      s ← keyScan_keyPressedCB (kb_event (u_kb s)) s;
      if (cnt (kb_event (u_kb s)) =? 1)%nat then
        code ← keycode (kb_event (u_kb s)) !! 0%nat;
        Some (with_valid_keyCode code s)
      else Some s
    else
      let s := with_valid_keyCode 0xff (keyScan_keyReleasedCB s) in
      Some (with_u_app (set_keyPressed false (u_app s)) s)
  else Some s.

Definition app_key_handler s : option (outcome ui) :=
  let o :=
    if decide (u_state s = APP_FACTORY_NEW_SET_CHECK) then
      let '(now, s) := clock_time s in
      if clock_time_exceed now (keyPressedTime s) (5 * 1000 * 1000) then buttonKeepPressed (valid_keyCode s) s
      else Running s
    else Running s in
  match o with
  | Running s => s ← scan_keys s; Some (Running s)
  | Reset s => Some (Reset s)
  end.

(** The polls of the idle loop, until one resets the system. *)
Fixpoint ui_run (n : nat) s : option (outcome ui) :=
  match n with
  | O => Some (Running s)
  | S n' =>
      o ← app_key_handler s;
      match o with Running s => ui_run n' s | Reset s => Some (Reset s) end
  end.
End Handler.
Arguments ui : clear implicits.

(** ** The coordinator *)

(** The LEDs of the dongle: [GPIO_PA3] and [GPIO_PA2]. *)
Definition LED_POWER : Z := 0x008.
Definition LED_PERMIT : Z := 0x004.
Definition LED_ON : Z := 1.
Definition LED_OFF : Z := 0.

Section Coordinator.
Context {L T F : Type} `{TnLib L, !MacSecLib L, TimerSvc T, Flash F, EvLayout, CoorLinks}.

(** The application with the writes to the pins of the LEDs, oldest first. *)
Record coor_app := mk_coor_app { ca_coor : coor L T F; ca_pins : list (Z * Z) }.
Implicit Type s : coor_app.

Definition drv_gpio_write (pin v : Z) s : coor_app := mk_coor_app (ca_coor s) (ca_pins s ++ [(pin, v)]).
Definition on_coor (f : coor L T F -> coor L T F) s : coor_app := mk_coor_app (f (ca_coor s)) (ca_pins s).

Definition led_on (pin : Z) s : coor_app := drv_gpio_write pin LED_ON s.
Definition led_off (pin : Z) s : coor_app := drv_gpio_write pin LED_OFF s.
Definition led_init s : coor_app := led_off LED_PERMIT (led_off LED_POWER s).

Definition localPermitJoinState s : option coor_app :=
  v ← attr_get MAC_ATTR_ASSOCIATION_PERMIT (cr_mac (ca_coor s));
  b ← v !! 0%nat;
  let permit_en := Z.lxor b 1 in
  c ← AppCoor.set_attr MAC_ATTR_ASSOCIATION_PERMIT [permit_en] 1 (ca_coor s);
  let s := on_coor (fun _ => c) s in
  Some (if permit_en =? 1 then led_on LED_PERMIT s else led_off LED_PERMIT s).

Definition coor_short (btNum : Z) s : option coor_app :=
  if btNum =? VK_SW1 then localPermitJoinState s
  else if btNum =? VK_SW2 then Some (on_coor app_data_transmit_toggle s)
  else Some s.

Definition coor_factory_new s : coor_app :=
  on_coor (fun c =>
    let n := (nv_resetToFactoryNew (mk_nv (sv_fl (cr_ota c)) (cr_buf c))).2 in
    with_cr_buf (nv_heap n) (with_cr_ota (with_sv_fl (nv_fl n) (cr_ota c)) c)) s.
End Coordinator.
Arguments coor_app : clear implicits.

#[export] Instance coor_KeyOps {L T F} `{TnLib L, !MacSecLib L, TimerSvc T, Flash F, EvLayout, CoorLinks} :
  KeyOps (coor_app L T F) := {|
  buttonShortPressed := coor_short;
  keep_sw2 := on_coor app_data_transmit_toggle;
  factory_new := coor_factory_new;
  set_keyPressed _ s := s
|}.

(** ** The end device *)
Section Device.
Context {L T F : Type} `{TnLib L, !MacSecLib L, TimerSvc T, Flash F, !FlashCheck F, EvLayout, OtaLinks, DevLinks}.
Implicit Type s : dev L T F.

Definition dev_short (btNum : Z) s : option (dev L T F) :=
  if (btNum =? VK_SW1) && negb (newDev s) then app_dataTxTest s else Some s.

Definition dev_factory_new s : dev L T F :=
  let n := (nv_resetToFactoryNew (mk_nv (cl_fl (dv_cl s)) (dv_buf s))).2 in
  with_dv_buf (nv_heap n) (with_dv_cl (with_cl_fl (nv_fl n) (dv_cl s)) s).
End Device.

#[export] Instance dev_KeyOps {L T F} `{TnLib L, !MacSecLib L, TimerSvc T, Flash F, !FlashCheck F, EvLayout, OtaLinks, DevLinks} :
  KeyOps (dev L T F) := {|
  buttonShortPressed := dev_short;
  keep_sw2 s := s;
  factory_new := dev_factory_new;
  set_keyPressed := with_keyPressed
|}.
