(* ===== verification/AppUiProps.v ===== *)
(** * The demo applications: properties of the keys

    The factory reset needs a key that is held, a press of the first key flips
    the permission to associate, and what happens when the keys change while the
    reset is armed. *)
From S2P Require Import Prelude SpiFlash FlashIf Memory Linked ListC SysEv Mempool EvBuffer BufClient EvTimer TimerIf.
From S2P Require Import Ota OtaServer OtaClient Nv Pib PibProps PibTables App AppCoor AppDev Keyboard AppUi.

Section Handler.
Context `{KbBoard, UiClock} {A : Type} `{KeyOps A}.
Implicit Type s : ui A.

(** What a poll reports: nothing, or the codes of the keys that are down. *)
Definition report s : option (list Z) :=
  let '(r, k) := kb_scan_key 0 true (u_kb s) in if r =? 0 then None else Some (keycode (kb_event k)).

(** The state before the [m]-th poll. *)
Definition at_poll (s0 : ui A) (m : nat) s : Prop := ui_run m s0 = Some (Running s).

(** The reset is armed: at the poll [i] the first key was reported first, the
    time of that is kept, and no poll since reported a release. *)
Definition armed (s0 : ui A) (m : nat) s : Prop :=
  exists i a b codes, (i < m)%nat /\ at_poll s0 i a /\ at_poll s0 (S i) b /\ report a = Some (VK_SW1 :: codes) /\
    keyPressedTime s = ui_clock (pred (u_reads b)) /\
    forall j c, (i < j < m)%nat -> at_poll s0 j c -> report c <> Some [].

(** The last report of a single key was of [code], with no release since. *)
Definition single (s0 : ui A) (m : nat) (code : Z) : Prop :=
  exists i a, (i < m)%nat /\ at_poll s0 i a /\ report a = Some [code] /\
    forall j c, (i < j < m)%nat -> at_poll s0 j c -> report c <> Some [] /\ forall q, report c <> Some [q].

Lemma ui_run_last s0 m :
  ui_run (S m) s0 = (o ← ui_run m s0; match o with Running s => app_key_handler s | Reset s => Some (Reset s) end).
Proof.
  revert s0. induction m as [|m IH]; intros s0.
  - cbn. destruct (app_key_handler s0) as [[?|?]|]; done.
  - change (ui_run (S (S m)) s0) with
      (o ← app_key_handler s0; match o with Running s => ui_run (S m) s | Reset s => Some (Reset s) end).
    cbn [ui_run]. destruct (app_key_handler s0) as [[s|s]|]; cbn [mbind option_bind]; [|done|done]. apply IH.
Qed.

(** One scan of the keys. *)
Lemma scan_keys_cases s s' :
  scan_keys s = Some s' ->
  match report s with
  | None => u_state s' = u_state s /\ keyPressedTime s' = keyPressedTime s /\ valid_keyCode s' = valid_keyCode s
  | Some [] => u_state s' = APP_STATE_NORMAL /\ valid_keyCode s' = 0xff
  | Some (c :: codes) =>
      valid_keyCode s' = (if (length codes =? 0)%nat then c else valid_keyCode s) /\
      if c =? VK_SW1 then u_state s' = APP_FACTORY_NEW_SET_CHECK /\ keyPressedTime s' = ui_clock (pred (u_reads s'))
      else u_state s' = u_state s /\ keyPressedTime s' = keyPressedTime s
  end.
Proof.
  unfold scan_keys, report. destruct (kb_scan_key 0 true (u_kb s)) as [r k]. destruct (r =? 0); cbn [negb].
  { by intros [= <-]. }
  cbn [u_kb with_u_kb with_u_app]. unfold cnt. destruct (keycode (kb_event k)) as [|c codes] eqn:Ek.
  { rewrite (proj2 (Nat.ltb_ge _ _)) by (cbn; lia). by intros [= <-]. }
  rewrite (proj2 (Nat.ltb_lt _ _)) by (cbn; lia). unfold keyScan_keyPressedCB. rewrite Ek. cbn [lookup list_lookup mbind option_bind].
  destruct (buttonShortPressed c _) as [a|]; [|done]. cbn [mbind option_bind].
  destruct (c =? VK_SW1); cbn [mbind option_bind u_kb with_u_kb with_u_app clock_time with_u_state with_keyPressedTime];
    rewrite Ek; cbn [length Nat.eqb lookup list_lookup mbind option_bind]; destruct codes; cbn; by intros [= <-].
Qed.

(** What every state of a run says of the polls before it. *)
Lemma run_inv s0 m s :
  u_state s0 = APP_STATE_NORMAL -> valid_keyCode s0 = 0xff -> at_poll s0 m s ->
  (u_state s = APP_STATE_NORMAL \/ (u_state s = APP_FACTORY_NEW_SET_CHECK /\ armed s0 m s)) /\
  (valid_keyCode s = 0xff \/ single s0 m (valid_keyCode s)).
Proof.
  intros Hn Hv. revert s. induction m as [|m IH]; intros s Hs.
  { injection Hs as <-. split; by left. }
  unfold at_poll in Hs. rewrite ui_run_last in Hs. destruct (ui_run m s0) as [[a|a]|] eqn:Ea; [|done|done].
  cbn [mbind option_bind] in Hs. specialize (IH a Ea). unfold app_key_handler in Hs.
  set (o := if decide (u_state a = APP_FACTORY_NEW_SET_CHECK) then _ else _) in Hs.
  assert (Ho : forall a', o = Running a' -> u_state a' = u_state a /\ keyPressedTime a' = keyPressedTime a /\
    valid_keyCode a' = valid_keyCode a /\ u_kb a' = u_kb a).
  { intros a'. unfold o. case_decide; [|by intros [= <-]]. cbn [clock_time]. destruct (clock_time_exceed _ _ _); [|by intros [= <-]].
    unfold buttonKeepPressed. destruct (_ =? VK_SW1); [done|]. destruct (_ =? VK_SW2); by intros [= <-]. }
  destruct o as [a'|a'] eqn:Eo; [|done]. destruct (Ho a' eq_refl) as (Hst & Ht & Hvc & Hkb).
  destruct (scan_keys a') as [s1|] eqn:Es; [|done]. cbn in Hs. injection Hs as ->.
  apply scan_keys_cases in Es as Hc. assert (Hr : report a' = report a) by (unfold report; by rewrite Hkb).
  rewrite Hr in Hc. destruct IH as [IH1 IH2].
  assert (Hs : at_poll s0 (S m) s).
  { unfold at_poll. rewrite ui_run_last, Ea. cbn [mbind option_bind]. unfold app_key_handler. fold o. by rewrite Eo, Es. }
  assert (Hkeep : report a <> Some [] -> armed s0 m a -> keyPressedTime s = keyPressedTime a -> armed s0 (S m) s).
  { intros Hne (i & b & c & codes & Hi & Hb & Hb' & Hrep & Hti & Hall) E. exists i, b, c, codes.
    split_and!; [lia|done|done|done|by rewrite E|]. intros j d Hj Hd. destruct (decide (j = m)) as [->|].
    - unfold at_poll in Hd. rewrite Ea in Hd. by injection Hd as <-.
    - apply (Hall j d); [lia|done]. }
  assert (Hsingle : report a <> Some [] -> (forall q, report a <> Some [q]) ->
    single s0 m (valid_keyCode a) -> single s0 (S m) (valid_keyCode a)).
  { intros Hne Hnq (i & b & Hi & Hb & Hrep & Hall). exists i, b. split_and!; [lia|done|done|]. intros j d Hj Hd.
    destruct (decide (j = m)) as [->|].
    - unfold at_poll in Hd. rewrite Ea in Hd. by injection Hd as <-.
    - apply (Hall j d); [lia|done]. }
  destruct (report a) as [[|c codes]|] eqn:Er.
  - destruct Hc as [-> ->]. split; by left.
  - destruct Hc as [Hcv Hcs]. split.
    + destruct (c =? VK_SW1) eqn:Ec.
      * apply Z.eqb_eq in Ec as ->. destruct Hcs as [-> Hti]. right. split; [done|].
        exists m, a, s, codes. split_and!; [lia|done|done|done|done|]. intros j d Hj. lia.
      * destruct Hcs as [-> E]. rewrite Hst. destruct IH1 as [?|[? ?]]; [by left|]. right. split; [done|].
        apply Hkeep; [done|done|congruence].
    + rewrite Hcv. destruct codes as [|c' codes]; cbn [length Nat.eqb].
      * right. exists m, a. split_and!; [lia|done|done|]. intros j d Hj. lia.
      * rewrite Hvc. destruct IH2 as [?|?]; [by left|]. right. by apply Hsingle.
  - destruct Hc as (E1 & E2 & E3). rewrite E1, E3, Hst, Hvc. split.
    + destruct IH1 as [?|[? ?]]; [by left|]. right. split; [done|]. apply Hkeep; [done|done|congruence].
    + destruct IH2 as [?|?]; [by left|]. right. by apply Hsingle.
Qed.

Lemma scan_runs s s' : (s1 ← scan_keys s; Some (Running s1)) <> Some (Reset s').
Proof. by destruct (scan_keys s). Qed.

(** C28. A factory reset needs a key that is held.  When a run of polls from the
    normal state ends in the reset of the system, then an earlier poll reported
    the first key, no poll between it and the resetting one reported a release,
    more than five seconds (80 million ticks, modulo the width of the clock)
    have passed since, and the last report of a single key, with no release
    after it, was of the first key. *)
Theorem ui_factory_reset_needs_hold n s0 s' :
  u_state s0 = APP_STATE_NORMAL -> valid_keyCode s0 = 0xff -> ui_run n s0 = Some (Reset s') ->
  exists m c, (m < n)%nat /\ at_poll s0 m c /\ armed s0 m c /\ single s0 m VK_SW1 /\
    80000000 < u32 (ui_clock (u_reads c) - keyPressedTime c).
Proof.
  intros Hn Hv. induction n as [|n IH]; [done|]. rewrite ui_run_last.
  destruct (ui_run n s0) as [[a|a]|] eqn:Ea; cbn [mbind option_bind]; [| |done].
  2:{ intros [= ->]. destruct (IH eq_refl) as (m & c & Hm & Hc). exists m, c. split; [lia|done]. }
  intros E. exists n, a. split_and!; [lia|done|..]; destruct (run_inv s0 n a Hn Hv Ea) as [Hst Hvc]; unfold app_key_handler in E;
    (destruct (decide (u_state a = APP_FACTORY_NEW_SET_CHECK)) as [Es|Es]; [|by apply scan_runs in E]);
    cbn [clock_time keyPressedTime valid_keyCode] in E;
    (destruct (clock_time_exceed _ _ _) eqn:Ex; [|by apply scan_runs in E]);
    unfold buttonKeepPressed in E; (destruct (Z.eqb_spec (valid_keyCode a) VK_SW1) as [Ev|Ev];
      [|by destruct (_ =? VK_SW2); apply scan_runs in E]).
  - destruct Hst as [Hst|[_ ?]]; [congruence|done].
  - rewrite Ev in Hvc. destruct Hvc as [Hx|?]; [discriminate Hx|done].
  - unfold clock_time_exceed in Ex. change (u32 (5 * 1000 * 1000 * 16)) with 80000000 in Ex. lia.
Qed.
End Handler.

(** ** Keys that change while the reset is armed *)
Section Slide.
Context `{KbBoard, UiClock} {A : Type} `{KeyOps A}.
Implicit Type s : ui A.

Lemma scan_keys_none s : report s = None -> exists k, scan_keys s = Some (with_u_kb k s).
Proof.
  unfold report, scan_keys. destruct (kb_scan_key 0 true (u_kb s)) as [r k]. destruct (r =? 0); [|done].
  intros _. by exists k.
Qed.

(** The reset stays armed when the second key is pressed before the first is
    released and no poll saw both up: from five seconds after the first press
    on, every poll of the idle loop runs what holding the second key runs. *)
Theorem ui_second_key_repeats n s :
  u_state s = APP_FACTORY_NEW_SET_CHECK -> valid_keyCode s = VK_SW2 ->
  (forall j c, (j < n)%nat -> at_poll s j c ->
     report c = None /\ clock_time_exceed (ui_clock (u_reads c)) (keyPressedTime s) (5 * 1000 * 1000) = true) ->
  exists s', ui_run n s = Some (Running s') /\ u_app s' = Nat.iter n keep_sw2 (u_app s) /\
    u_state s' = APP_FACTORY_NEW_SET_CHECK /\ valid_keyCode s' = VK_SW2 /\ keyPressedTime s' = keyPressedTime s.
Proof.
  intros Hst Hv Hq. induction n as [|n IH]; [by exists s|].
  destruct IH as (a & Ea & Happ & Hsta & Hva & Hta); [intros j c Hj; apply Hq; lia|].
  destruct (Hq n a ltac:(lia) Ea) as [Hr Hx]. rewrite ui_run_last, Ea. cbn [mbind option_bind]. unfold app_key_handler.
  rewrite decide_True by done. cbn [clock_time keyPressedTime valid_keyCode]. rewrite Hta, Hx. unfold buttonKeepPressed.
  rewrite Hva. cbn [Z.eqb VK_SW2 VK_SW1 Pos.eqb].
  match goal with |- context [scan_keys ?x] => destruct (scan_keys_none x) as [k ->] end.
  { unfold report in *. exact Hr. }
  cbn [mbind option_bind]. eexists. split; [reflexivity|]. cbn. by rewrite Happ.
Qed.
End Slide.

(** ** The permission to associate *)
Section Permit.
Context {L T F : Type} `{TnLib L, !MacSecLib L, TimerSvc T, Flash F, EvLayout, CoorLinks}.
Implicit Type s : coor_app L T F.

Fixpoint presses (n : nat) s : option (coor_app L T F) :=
  match n with O => Some s | S n' => s ← buttonShortPressed VK_SW1 s; presses n' s end.

Definition permit_of s : option (list Z) := attr_get MAC_ATTR_ASSOCIATION_PERMIT (cr_mac (ca_coor s)).

Lemma press_spec s b :
  permit_of s = Some [b] -> b = 0 \/ b = 1 ->
  exists s', buttonShortPressed VK_SW1 s = Some s' /\ permit_of s' = Some [1 - b] /\
    ca_pins s' = ca_pins s ++ [(LED_PERMIT, 1 - b)] /\
    (forall a, plain_attr a -> a <> MAC_ATTR_ASSOCIATION_PERMIT ->
       attr_get a (cr_mac (ca_coor s')) = attr_get a (cr_mac (ca_coor s))) /\
    tn (cr_mac (ca_coor s')) = tn (cr_mac (ca_coor s)).
Proof.
  intros Hp Hb. cbn [buttonShortPressed coor_KeyOps]. unfold coor_short, localPermitJoinState.
  unfold permit_of in Hp. rewrite Hp. cbn [mbind option_bind lookup list_lookup].
  assert (Hx : Z.lxor b 1 = 1 - b) by (by destruct Hb as [-> | ->]). rewrite Hx. unfold AppCoor.set_attr.
  assert (Pa : plain_attr MAC_ATTR_ASSOCIATION_PERMIT) by (unfold plain_attr, MAC_ATTR_ASSOCIATION_PERMIT; lia).
  destruct (attr_set_plain MAC_ATTR_ASSOCIATION_PERMIT [1 - b] 1 (cr_mac (ca_coor s)) Pa) as (M & -> & T1 & A1 & O1 & _); [done|done|].
  cbn [mbind option_bind]. eexists. split; [reflexivity|].
  destruct Hb as [-> | ->]; cbn; split_and!; done.
Qed.

(** Each press of the first key of the coordinator flips the permission to
    associate, and the LED shows it: after [n] presses the attribute is the
    initial one plus [n], modulo 2, the LED was last set to it, and no other
    attribute, nor the tables, have changed. *)
Theorem coor_permit_join_parity n s b :
  permit_of s = Some [b] -> b = 0 \/ b = 1 ->
  exists s', presses n s = Some s' /\ permit_of s' = Some [(b + Z.of_nat n) mod 2] /\
    (n <> 0%nat -> last (ca_pins s') = Some (LED_PERMIT, (b + Z.of_nat n) mod 2)) /\
    (forall a, plain_attr a -> a <> MAC_ATTR_ASSOCIATION_PERMIT ->
       attr_get a (cr_mac (ca_coor s')) = attr_get a (cr_mac (ca_coor s))) /\
    tn (cr_mac (ca_coor s')) = tn (cr_mac (ca_coor s)).
Proof.
  revert s b. induction n as [|n IH]; intros s b Hp Hb.
  { exists s. cbn [Z.of_nat]. rewrite Z.add_0_r, Z.mod_small by lia. by split_and!. }
  cbn [presses]. destruct (press_spec s b Hp Hb) as (s1 & -> & Hp1 & Hl1 & Ho1 & Ht1). cbn [mbind option_bind].
  destruct (IH s1 (1 - b) Hp1 ltac:(lia)) as (s' & E' & Hp' & Hl' & Ho' & Ht'). exists s'. split; [done|].
  assert (Em : (b + Z.of_nat (S n)) mod 2 = (1 - b + Z.of_nat n) mod 2).
  { destruct Hb as [-> | ->]; [f_equal; lia|].
    replace (1 + Z.of_nat (S n)) with (1 - 1 + Z.of_nat n + 1 * 2) by lia. by rewrite Z_mod_plus_full. }
  rewrite Em. split_and!; [done| | |congruence].
  - intros _. destruct n as [|n]; [|by apply Hl']. injection E' as <-. rewrite Hl1, last_snoc.
    by rewrite Z.add_0_r, Z.mod_small by lia.
  - intros a Ha Hne. by rewrite Ho', Ho1.
Qed.
End Permit.
