(* ===== verification/AppDemo.v ===== *)
(** * The demo applications on concrete data

    A security library with the laws of [App.v], and the properties of the
    applications at concrete inputs. *)
From S2P Require Import Prelude SpiFlash FlashIf FlashDrv SimChip FlashProps Memory Linked ListC SysEv Mempool EvBuffer BufClient EvTimer TimerIf.
From S2P Require Import Ota OtaServer OtaClient Nv Pib PibProps PibTables PibDemo App AppCoor AppCoorProps AppDev AppDevProps Keyboard AppUi AppUiProps.

#[local] Existing Instance demo_layout.
#[local] Existing Instance demo_layout_ok.
#[local] Existing Instance d_TnLib.
#[local] Existing Instance d_TnLaws.

(** ** A security library *)

(** The tables of [PibDemo.v], what is left in each pool, and the fields of the
    descriptors. *)
Record slib := mk_slib {
  sl_lists : dlists; sl_pool : mac_secMaterial_t -> nat; sl_short : Z -> Z; sl_long : Z -> list Z; sl_pan : Z -> Z;
  sl_keydev : Z -> Z; sl_key : Z -> mac_keyDesc_t }.

Definition on_lists (f : dlists -> dlists) (t : slib) : slib :=
  mk_slib (f (sl_lists t)) (sl_pool t) (sl_short t) (sl_long t) (sl_pan t) (sl_keydev t) (sl_key t).

#[local] Instance s_TnLib : TnLib slib := {|
  tn_list_init l := on_lists (tn_list_init l);
  tn_list_head l t := tn_list_head l (sl_lists t);
  tn_list_item_next x t := tn_list_item_next x (sl_lists t);
  tn_list_add l x := on_lists (tn_list_add l x);
  tn_list_push l x := on_lists (tn_list_push l x);
  tn_list_insert l p x := on_lists (tn_list_insert l p x);
  tn_list_remove l x := on_lists (tn_list_remove l x);
  tn_mem_init _ t := t;
  tn_mem_alloc _ t := (0, t);
  tn_mem_free _ _ t := (0, t);
  key_entries _ _ _ := 1%nat;
  key_pop _ _ t := (0x200, t)
|}.

#[local] Program Instance s_TnLaws : TnLaws slib := {|
  tn_ok t := d_ok (sl_lists t);
  tn_items l t := sl_lists t l
|}.
Next Obligation. intros t l Ht. apply Ht. Qed.
Next Obligation. intros t l l' x Ht. apply Ht. Qed.
Next Obligation. intros t l Ht. apply Ht. Qed.
Next Obligation. done. Qed.
Next Obligation. intros t l l1 l2 x Ht. apply (@tn_next_law dlists _ d_TnLaws (sl_lists t) l l1 l2 x Ht). Qed.
Next Obligation. intros t l x Ht. apply (@tn_add_law dlists _ d_TnLaws (sl_lists t) l x Ht). Qed.
Next Obligation. intros t l x Ht. apply (@tn_push_law dlists _ d_TnLaws (sl_lists t) l x Ht). Qed.
Next Obligation. intros t l l1 l2 p x Ht. apply (@tn_insert_law dlists _ d_TnLaws (sl_lists t) l l1 l2 p x Ht). Qed.
Next Obligation. intros t l l1 l2 x Ht. apply (@tn_remove_law dlists _ d_TnLaws (sl_lists t) l l1 l2 x Ht). Qed.
Next Obligation. by intros t k x Ht. Qed.
Next Obligation. by intros t k i Ht. Qed.

(** An address above all that are in a table. *)
Definition fresh (t : dlists) : Z :=
  1 + foldr Z.max 0 (t macKeyTable ++ t macDevTable ++ t macSecLvlTable ++ t macKeyDevTable).

Lemma max_above (l : list Z) x : x ∈ l -> x <= foldr Z.max 0 l.
Proof. induction l as [|y l IH]; [by intros ?%not_elem_of_nil|]. intros [->|Hx]%elem_of_cons; cbn; [lia|]. specialize (IH Hx). lia. Qed.

Lemma max_nonneg (l : list Z) : 0 <= foldr Z.max 0 l.
Proof. induction l; cbn; lia. Qed.

Lemma fresh_not_in t l : fresh t ∉ t l.
Proof.
  intros Hin. assert (fresh t <= fresh t - 1); [|lia]. unfold fresh at 2. rewrite Z.add_simpl_l.
  apply max_above. destruct l; rewrite !elem_of_app; auto.
Qed.

Definition take_pool (k : mac_secMaterial_t) (t : slib) : slib :=
  mk_slib (sl_lists t) (fun k' => if decide (k' = k) then (sl_pool t k - 1)%nat else sl_pool t k') (sl_short t) (sl_long t)
    (sl_pan t) (sl_keydev t) (sl_key t).

Definition put {A} (p : Z) (v : A) (f : Z -> A) (q : Z) : A := if q =? p then v else f q.

Definition set_dev (p pan sh : Z) (ext : list Z) (t : slib) : slib :=
  mk_slib (sl_lists t) (sl_pool t) (put p sh (sl_short t)) (put p ext (sl_long t)) (put p pan (sl_pan t)) (sl_keydev t) (sl_key t).

Definition set_keydev (p d : Z) (t : slib) : slib :=
  mk_slib (sl_lists t) (sl_pool t) (sl_short t) (sl_long t) (sl_pan t) (put p d (sl_keydev t)) (sl_key t).

Definition set_key (p : Z) (k : mac_keyDesc_t) (t : slib) : slib :=
  mk_slib (sl_lists t) (sl_pool t) (sl_short t) (sl_long t) (sl_pan t) (sl_keydev t) (put p k (sl_key t)).

#[local] Instance s_MacSecLib : MacSecLib slib := {|
  desc_alloc k t := if (sl_pool t k =? 0)%nat then (0, t) else (fresh (sl_lists t), take_pool k t);
  short_address p t := sl_short t p;
  long_address p t := sl_long t p;
  device_pan p t := sl_pan t p;
  keydev_device p t := sl_keydev t p;
  key_fields p t := sl_key t p;
  mac_keyidDesc_set _ _ _ t := t;
  mac_deviceDesc_set p pan sh ext _ _ t := set_dev p pan sh ext t;
  mac_deviceDesc_reset p pan sh ext _ _ t := set_dev p pan sh ext t;
  mac_keydevDesc_set p d _ _ t := set_keydev p d t;
  mac_keyusageDesc_set _ _ _ t := t;
  mac_keyDesc_set p ids devs us key t := set_key p (mk_keyDesc ids devs us key) t
|}.

Lemma put_eq {A} p (v : A) f : put p v f p = v.
Proof. unfold put. by rewrite Z.eqb_refl. Qed.
Lemma put_ne {A} p (v : A) f q : q <> p -> put p v f q = f q.
Proof. intros Hq. unfold put. by rewrite (proj2 (Z.eqb_neq q p) Hq). Qed.

Lemma set_dev_laws p pan sh ext t : tn_ok t ->
  let t' := set_dev p pan sh ext t in
  same_tables t t' /\ (forall k, sl_pool t' k = sl_pool t k) /\ sl_short t' p = sh /\ sl_long t' p = ext /\ sl_pan t' p = pan /\
  forall q, q <> p -> sl_short t' q = sl_short t q /\ sl_long t' q = sl_long t q /\ sl_pan t' q = sl_pan t q.
Proof.
  intros Ht. cbn. rewrite !put_eq. split_and!; [by split|done..|]. intros q Hq. by rewrite !put_ne.
Qed.

#[local] Program Instance s_MacSecLaws : MacSecLaws slib := {| pool_free k t := sl_pool t k |}.
Next Obligation.
  intros k t x t' Ht E Hp. cbn in E. rewrite (proj2 (Nat.eqb_neq _ _) Hp) in E. injection E as <- <-.
  split_and!; [|intros l; apply fresh_not_in|by split|by split|done|done].
  unfold fresh. pose proof (max_nonneg (sl_lists t macKeyTable ++ sl_lists t macDevTable ++ sl_lists t macSecLvlTable ++ sl_lists t macKeyDevTable)). lia.
Qed.
Next Obligation. intros p pan sh ext fc ex t Ht. by apply set_dev_laws. Qed.
Next Obligation. intros p pan sh ext fc ex t Ht. by apply set_dev_laws. Qed.
Next Obligation. intros p d u b t Ht. cbn. rewrite put_eq. by split_and!. Qed.
Next Obligation. intros p sz d t Ht. by split_and!. Qed.
Next Obligation. intros p ft c t Ht. by split_and!. Qed.
Next Obligation. intros p ids devs us key t Ht. cbn. rewrite put_eq. by split_and!. Qed.
Next Obligation. by intros l x t Ht Hx Hf. Qed.

Definition demo_slib : slib :=
  mk_slib (fun _ => []) (fun _ => 16%nat) (fun _ => 0) (fun _ => []) (fun _ => 0) (fun _ => 0) (fun _ => mk_keyDesc [] [] [] []).
Definition app_mac : mac slib := mk_mac (fun _ => 0) demo_slib [].

Lemma app_mac_tables : tables_at (fun _ => []) app_mac.
Proof.
  split; [|done|].
  - split; [intros l; constructor|by intros l l' x ?%not_elem_of_nil|intros l; apply not_elem_of_nil].
  - intros n _. destruct n; split; cbn; done || lia.
Qed.

(** ** The coordinator *)

(** Timers that never run. *)
#[local] Instance app_timer : TimerSvc unit := {|
  tmr_exist _ _ := false; tmr_assign _ _ _ t := t; tmr_on _ _ t := t; tmr_unon _ t := t;
  tmr_post _ _ _ t := (0x850000, t); tmr_cancel _ t := (0, t) |}.
#[local] Existing Instance demo_env_base.
#[local] Instance app_coor_links : CoorLinks := {|
  fn_data_send_indir_timer_cb := 0x1000; fn_mac_send_data_indirect := 0x1100; fn_app_data_txto_allnode := 0x1200 |}.

Definition app_flash : drv sim_chip := drv_init (sim_blank 0).

Definition app_server : server (drv sim_chip) :=
  OtaServer.ota_init (mk_server app_flash pre_zero false OTA_BIN_INVALID 0 0 0 addr_zero []).

Definition demo_coor : coor slib unit (drv sim_chip) :=
  mk_coor (replicate 16 dev_zero) 0 0 (repeat 0 8) 0x3300 [0; 0] 0 (repeat 0 16)
    (replicate 128 0) 0 0 0 0 0 0xaa000001 0 app_mac tt (ev_buf_init demo_state) app_server [] [].

Lemma app_buffer : has_buffer 4 (ev_buf_init demo_state).
Proof.
  exists abs_init. split; [by apply init_inv|]. unfold no_buffer. vm_compute. discriminate.
Qed.

Lemma demo_coor_fresh : coor_fresh demo_coor.
Proof.
  split; [apply app_mac_tables|intros k _; cbn; lia|cbn; lia|cbn; lia|done..|apply app_buffer].
Qed.

Definition ext_a : list Z := [1; 2; 3; 4; 5; 6; 7; 8].
Definition ext_b : list Z := [8; 7; 6; 5; 4; 3; 2; 1].
Definition demo_events : list coor_event :=
  [CAssociate (Some ext_a); CAssociate (Some ext_b); CIndirTimer; CTask; CAssociate (Some ext_a); CToggle; CTask].

Lemma coor_refines_registry_witness :
  exists s', (s1 ← coor_config demo_coor; coor_run demo_events s1) = Some s' /\
    cr_sent s' = [assoc_rsp ext_a 0; assoc_rsp ext_b 1; data_msg [0; 0] 0x3300 0xaa000001; assoc_rsp ext_a 0].
Proof.
  destruct (coor_refines_registry demo_events demo_coor [0; 0] demo_coor_fresh eq_refl) as (s' & E & Es & _).
  exists s'. split; [exact E|]. rewrite Es. vm_compute. reflexivity.
Defined.

Lemma coor_addresses_unique_witness :
  exists s', (s1 ← coor_config demo_coor; coor_run demo_events s1) = Some s' /\
    forall q1 q2, MlmeAssociateResponse q1 ∈ cr_sent s' -> MlmeAssociateResponse q2 ∈ cr_sent s' ->
      0x3300 <= ar_shortAddress q1 < 0x3310 /\
      (ar_shortAddress q1 = ar_shortAddress q2 <-> ar_devAddress q1 = ar_devAddress q2).
Proof. apply (coor_addresses_unique demo_events demo_coor [0; 0] demo_coor_fresh eq_refl eq_refl). Defined.

Lemma coor_round_robin_witness :
  exists s1 s2 out, (s0 ← coor_config demo_coor; coor_run demo_events s0) = Some s1 /\ device_index s1 = 2 /\
    coor_run (rounds 2) s1 = Some s2 /\ cr_sent s2 = cr_sent s1 ++ out /\
    dst_of <$> out ≡ₚ [Some (short_addr 0x3300); Some (short_addr 0x3301)].
Proof.
  assert (Hn : length (rg_devs (reg_run [0; 0] demo_events reg0).2) <> 0%nat) by (vm_compute; discriminate).
  exact (coor_round_robin demo_events demo_coor [0; 0] demo_coor_fresh eq_refl Hn).
Defined.

(** ** The end device *)
#[local] Instance app_ota_links : OtaLinks := {|
  otaQueryTimer := 0x850000; fn_ota_periodicQueryServerCb := 0x1000;
  fn_ota_periodicDataServerCb := 0x1100; fn_PollDataTimerCb := 0x1200 |}.
#[local] Instance app_dev_links : DevLinks := {| fn_dev_activescan_callback := 0x1300 |}.

Definition app_client : client (drv sim_chip) unit :=
  mk_client app_flash tt pre_zero pre_zero false 0 0 OTA_STA_IDLE 0 0 0 0 0xffffffff 0 None 0 [] 0.

Definition demo_device : dev slib unit (drv sim_chip) :=
  mk_device (replicate 16 pan_zero) 0 0x850000 (repeat 0 8) 0 0 [0; 0] 0 (repeat 0 16) 0 0 0 true app_mac app_client
    false (ev_buf_init demo_state) 0 [].

Lemma demo_device_fresh : dev_fresh demo_device.
Proof.
  split; [apply app_mac_tables|intros k _; cbn; lia|cbn; lia|cbn; lia|done].
Qed.

(** Three coordinators; the first one permits no association. *)
Definition demo_beacons : list mac_panDesc_t := [
  mk_panDesc 0x1111 0x0fff (mk_addr ZB_ADDR_16BIT_DEV_OR_BROADCAST [0; 0; 0; 0; 0; 0; 0; 0]) 24 0 250;
  mk_panDesc 0x2222 0x8fff (mk_addr ZB_ADDR_16BIT_DEV_OR_BROADCAST [0x11; 0x22; 0; 0; 0; 0; 0; 0]) 24 0 100;
  mk_panDesc 0xbeef 0x8fff (mk_addr ZB_ADDR_64BIT_DEV [1; 2; 3; 4; 5; 6; 7; 8]) 24 0 200].

Lemma demo_beacon_addrs : Forall (fun d => length (addr_bytes (coordAddr d)) = 8%nat) demo_beacons.
Proof. by repeat constructor. Qed.

Definition demo_best : mac_panDesc_t :=
  mk_panDesc 0xbeef 0x8fff (mk_addr ZB_ADDR_64BIT_DEV [1; 2; 3; 4; 5; 6; 7; 8]) 24 0 200.

Lemma demo_best_only i d : best_at (candidates demo_beacons) i d -> d = demo_best.
Proof.
  intros [Hi Hb]. assert (E : candidates demo_beacons = drop 1 demo_beacons) by reflexivity. rewrite E in Hi, Hb.
  destruct (Hb 1%nat demo_best eq_refl) as [Hb1 _]. destruct i as [|[|i]]; cbn in Hi.
  - injection Hi as <-. cbn in Hb1. lia.
  - by injection Hi as <-.
  - done.
Qed.

Lemma dev_joins_best_witness :
  exists s', scan demo_beacons (MAC_SUCCESS, ACTIVE_SCAN) demo_device = Some s' /\
    dv_sent s' = [scan_req; join_req demo_best] /\ BeaconReqTimer s' = 0 /\
    attr_get MAC_ATTR_PAN_ID (dv_mac s') = Some [0xef; 0xbe].
Proof.
  destruct (dev_joins_best demo_beacons (MAC_SUCCESS, ACTIVE_SCAN) demo_device eq_refl demo_beacon_addrs)
    as (s' & E & [(Hc & _)|(i & d & Hb & Hs & HJ & Ht & _)]); [discriminate Hc|].
  apply demo_best_only in Hb as ->. exists s'. split_and!; [exact E|exact Hs|exact Ht|]. apply HJ.
Defined.

Lemma dev_association_outcome_witness :
  exists s s', dev_config demo_device = Some s /\ MyAssocCnfCb (Some (ext_a, 1)) s = Some s' /\ associated ext_a 1 s s' /\
    attr_get MAC_ATTR_SECURITY_ENABLED (dv_mac s') = Some [1].
Proof. exact (dev_association_outcome ext_a 1 demo_device demo_device_fresh eq_refl). Defined.

Lemma dev_polls_its_parent_witness :
  exists s1 s2 s3, (s ← dev_config demo_device; scan demo_beacons (MAC_SUCCESS, ACTIVE_SCAN) s) = Some s1 /\
    MyAssocCnfCb (Some (ext_b, MAC_SUCCESS)) s1 = Some s2 /\ PollDataTimerCb s2 = Some (0, s3) /\
    dv_sent s3 = dv_sent s1 ++ [MlmePoll (mk_poll ext_b [0xef; 0xbe] ZB_ADDR_64BIT_DEV sec_zero)].
Proof.
  assert (Hc : candidates demo_beacons <> []) by discriminate.
  destruct (dev_polls_its_parent demo_beacons (MAC_SUCCESS, ACTIVE_SCAN) ext_b demo_device demo_device_fresh Hc demo_beacon_addrs eq_refl)
    as (i & d & s1 & s2 & s3 & Hb & E1 & _ & E2 & _ & E3 & Hs & _).
  apply demo_best_only in Hb as ->. exists s1, s2, s3. split_and!; [exact E1|exact E2|exact E3|exact Hs].
Defined.

(** ** Keys *)

(** One key, always down; a reading of the clock every six seconds. *)
#[local] Instance app_board : KbBoard := {|
  drive_pins := [0x101; 0x102];
  scan_pins := [0x001];
  kb_map_normal := [[VK_SW2; VK_SW1]];
  KB_LINE_MODE := false;
  gpio_levels tr :=
    match last (List.filter (fun e => match e with GpioOutputEn _ _ => true | _ => false end) tr) with
    | Some (GpioOutputEn 0x102 1) => [0xfe; 0xff]
    | _ => [0xff; 0xff]
    end
|}.
#[local] Instance app_clock : UiClock := {| ui_clock n := Z.of_nat n * 96000000 |}.

Definition demo_ui : ui (coor_app slib unit (drv sim_chip)) :=
  mk_ui APP_STATE_NORMAL 0 0xff (mk_kb [0; 0] [0; 0] [[]; []; []; []] 0 0 0 0 0 (mk_kb_data 0 []) [])
    (mk_coor_app demo_coor []) 0.

Definition resets (o : option (outcome (ui (coor_app slib unit (drv sim_chip))))) : bool :=
  match o with Some (Reset _) => true | _ => false end.

Lemma demo_ui_resets : resets (ui_run 6 demo_ui) = true.
Proof. lazy. reflexivity. Qed.

Lemma ui_factory_reset_needs_hold_witness :
  exists m c, (m < 6)%nat /\ at_poll demo_ui m c /\ armed demo_ui m c /\ single demo_ui m VK_SW1 /\
    80000000 < u32 (ui_clock (u_reads c) - keyPressedTime c).
Proof.
  pose proof demo_ui_resets as Hr. destruct (ui_run 6 demo_ui) as [[s|s]|] eqn:E; [discriminate Hr| |discriminate Hr].
  exact (ui_factory_reset_needs_hold 6 demo_ui s eq_refl eq_refl E).
Defined.

Lemma coor_permit_join_parity_witness :
  exists s', presses 3 (mk_coor_app demo_coor []) = Some s' /\ permit_of s' = Some [1] /\
    last (ca_pins s') = Some (LED_PERMIT, 1).
Proof.
  destruct (coor_permit_join_parity 3 (mk_coor_app demo_coor []) 0 eq_refl (or_introl eq_refl)) as (s' & E & Hp & Hl & _).
  exists s'. split_and!; [exact E|exact Hp|]. apply Hl. discriminate.
Defined.
