(* ===== verification/Pm.v ===== *)
(** * Power management ([proj/drivers/drv_pm.c])

    The idle loop of an end device puts the chip to sleep until the nearest
    software timer is due, and accounts for the time it slept when it wakes.
    [pm] holds the software timers of [EvTimer.v] (with the interrupt mask),
    [prevSleepTick], the analog registers that survive a deep sleep, the MAC's
    information base (for the channel) and, oldest first, what the code asks of
    the chip and of the radio.

    A sleep of the chip ends in one of three ways ([wake]): the call returns, the
    processor restarts with its RAM retained, or it restarts without.  A function
    that sleeps therefore ends in a [flow]: it comes back to its caller, or the
    program starts again from the reset vector ([DrvHw.v]).  The build is the one
    of the 8278 with [PM_ENABLE]. *)
From S2P Require Import Prelude Linked ListC SysEv EvTimer.
From S2P Require Pib.

(** ** Constants *)
Definition PM_WAKEUP_SRC_PAD : Z := 1.
Definition PM_WAKEUP_SRC_TIMER : Z := 2.
Definition PM_WAKEUP_LEVEL_LOW : Z := 0.
Definition PM_WAKEUP_LEVEL_HIGH : Z := 1.
Definition PM_NORMAL_SLEEP_MAX : Z := 230 * 1000.
Definition PM_FC_SET_FLAG : Z := 0x5A.
Definition PM_FC_CLR_FLAG : Z := 0x00.
Definition DEEP_ANA_REG0 : Z := 0x3a.
Definition DEEP_ANA_REG6 : Z := 0x35.
Definition PM_ANA_REG_FRAME_COUNTER_FLAG : Z := DEEP_ANA_REG0.
Definition PM_ANA_REG_FRAME_COUNTER : Z := DEEP_ANA_REG6.
Definition SUSPEND_MODE : Z := 0x00.
Definition DEEPSLEEP_MODE : Z := 0x30.
Definition DEEPSLEEP_MODE_RET_SRAM_LOW32K : Z := 0x03.
Definition PM_WAKEUP_PAD : Z := 8.
Definition PM_WAKEUP_TIMER : Z := 32.
Definition MCU_STATUS_DEEPRET_BACK : Z := 1.
Definition MCU_STATUS_DEEP_BACK : Z := 2.
Definition FAILURE : Z := 1.

(** ** Data *)

(** [drv_pm_sleep_mode_e] *)
Inductive drv_pm_sleep_mode_e :=
  | PM_SLEEP_MODE_SUSPEND | PM_SLEEP_MODE_DEEPSLEEP | PM_SLEEP_MODE_DEEP_WITH_RETENTION | PM_SLEEP_MODE_MCU_STALL.

#[export] Instance sleep_mode_eq_dec : EqDecision drv_pm_sleep_mode_e.
Proof. solve_decision. Defined.

Record drv_pm_pinCfg_t := mk_pinCfg { wakeupPin : Z; wakeupLevel : Z }.

(** What is asked of the chip, of the radio and of the board. *)
Inductive pm_ev :=
  | PaShutDown
  | CpuSleep (mode src tick : Z)
  | LongSleep (mode src ticks_32k : Z)
  | RadioInit
  | SetChannel (ch : Z)
  | SetGpioWakeup (pin pol en : Z)
  | CpuWakeupInit | ClockInit | GpioInit | RandInit | FlashLoadOpt | FlashLock | PmClockInit | AdcInit | HwTimerInit.

Inductive wake := Returned | Restarted (retention : bool).

(** The readings of the 32k counter, how a sleep ends, the status of the chip,
    the level of a pin, and the two questions to the MAC library.  All but the
    first depend on what was asked of the chip before. *)
Class PmEnv := {
  tick_32k : nat -> Z;
  wakes : list pm_ev -> wake;
  mcu_status : list pm_ev -> Z;
  gpio_level : list pm_ev -> Z -> bool;
  tl_stackBusy : list pm_ev -> bool;
  zb_isTaskDone : list pm_ev -> bool
}.

Section Pm.
Context {L : Type} `{Pib.TnLib L, TimerEnv, PmEnv} (fuel : nat).

Record pm := mk_pm {
  p_tm : timers;
  prevSleepTick : Z;
  p_32k : nat;
  p_ana : Z -> Z;
  p_mac : Pib.mac L;
  p_ev : list pm_ev
}.
Implicit Type s : pm.

Definition with_tm v s := mk_pm v (prevSleepTick s) (p_32k s) (p_ana s) (p_mac s) (p_ev s).
Definition with_prevSleepTick v s := mk_pm (p_tm s) v (p_32k s) (p_ana s) (p_mac s) (p_ev s).
Definition with_ana v s := mk_pm (p_tm s) (prevSleepTick s) (p_32k s) v (p_mac s) (p_ev s).
Definition emit (e : pm_ev) s := mk_pm (p_tm s) (prevSleepTick s) (p_32k s) (p_ana s) (p_mac s) (p_ev s ++ [e]).

(** A function that sleeps returns, or the program restarts. *)
Inductive flow := Back (s : pm) | Reboot (retention : bool) (s : pm).

Definition pm_get_32k_tick s : Z * pm :=
  (u32 (tick_32k (p_32k s)), mk_pm (p_tm s) (prevSleepTick s) (S (p_32k s)) (p_ana s) (p_mac s) (p_ev s)).
Definition pm_clock_time s : Z * pm := let '(t, tm) := clock_time (p_tm s) in (t, with_tm tm s).
Definition analog_write (a v : Z) s : pm := with_ana (fun x => if x =? a then u8 v else p_ana s x) s.
Definition analog_read (a : Z) s : Z := p_ana s a.

(** ** Time *)
Definition drv_pm_sleepTime_get s : Z * pm :=
  let '(t, s) := pm_get_32k_tick s in (u32 (t - prevSleepTick s) / 32, s).

Definition drv_pm_wakeupTimeUpdate s : option pm :=
  let '(sleepTime, s) := drv_pm_sleepTime_get s in
  if negb (sleepTime =? 0) then
    tm ← ev_timer_update fuel sleepTime (p_tm s);
    let '(now, s) := pm_clock_time (with_tm tm s) in
    Some (with_tm (ev_timer_setPrevSysTick now (p_tm s)) s)
  else Some s.

(** ** The frame counter *)
Definition drv_pm_deepSleep_frameCnt_set (frameCounter : Z) s : pm :=
  let s := analog_write PM_ANA_REG_FRAME_COUNTER_FLAG PM_FC_SET_FLAG s in
  let s := analog_write PM_ANA_REG_FRAME_COUNTER frameCounter s in
  let s := analog_write (PM_ANA_REG_FRAME_COUNTER + 1) (Z.shiftr frameCounter 8) s in
  let s := analog_write (PM_ANA_REG_FRAME_COUNTER + 2) (Z.shiftr frameCounter 16) s in
  analog_write (PM_ANA_REG_FRAME_COUNTER + 3) (Z.shiftr frameCounter 24) s.

Definition drv_pm_deepSleep_frameCnt_get s : Z * pm :=
  let s := analog_write PM_ANA_REG_FRAME_COUNTER_FLAG PM_FC_CLR_FLAG s in
  (u32 (Z.lor (Z.lor (Z.lor (Z.shiftl (analog_read (PM_ANA_REG_FRAME_COUNTER + 3) s) 24)
     (Z.shiftl (analog_read (PM_ANA_REG_FRAME_COUNTER + 2) s) 16))
     (Z.shiftl (analog_read (PM_ANA_REG_FRAME_COUNTER + 1) s) 8))
     (analog_read PM_ANA_REG_FRAME_COUNTER s)), s).

Definition drv_pm_deepSleep_flag_get s : bool :=
  (mcu_status (p_ev s) =? MCU_STATUS_DEEP_BACK) && (analog_read PM_ANA_REG_FRAME_COUNTER_FLAG s =? PM_FC_SET_FLAG).

(** ** Sleeping *)

(** [RF_RECOVERY] *)
Definition RF_RECOVERY s : option pm :=
  let s := emit RadioInit s in
  '(_, g) ← Pib.tl_zbMacAttrGet Pib.MAC_PHY_ATTR_CURRENT_CHANNEL 0 (p_mac s);
  match g with Pib.GotBytes (value :: _) _ => Some (emit (SetChannel value) s) | _ => None end.

Definition chip_mode (mode : drv_pm_sleep_mode_e) : option Z :=
  match mode with
  | PM_SLEEP_MODE_SUSPEND => Some SUSPEND_MODE
  | PM_SLEEP_MODE_DEEPSLEEP => Some DEEPSLEEP_MODE
  | PM_SLEEP_MODE_DEEP_WITH_RETENTION => Some DEEPSLEEP_MODE_RET_SRAM_LOW32K
  | PM_SLEEP_MODE_MCU_STALL => None
  end.

Definition chip_src (src : Z) : Z :=
  let srcType := if negb (Z.land src PM_WAKEUP_SRC_PAD =? 0) then PM_WAKEUP_PAD else 0 in
  if negb (Z.land src PM_WAKEUP_SRC_TIMER =? 0) then Z.lor srcType PM_WAKEUP_TIMER else srcType.

(** The rest of both functions, once the chip sleeps. *)
Definition after_sleep s : option flow :=
  match wakes (p_ev s) with
  | Returned => s ← drv_pm_wakeupTimeUpdate s; s ← RF_RECOVERY s; Some (Back s)
  | Restarted retention => Some (Reboot retention s)
  end.

Definition drv_pm_sleep (mode : drv_pm_sleep_mode_e) (src durationMs : Z) s : option flow :=
  match chip_mode mode with
  | None => Some (Back s)
  | Some sleep_mode =>
      let srcType := chip_src src in
      let '(t, s) := pm_get_32k_tick s in
      let s := with_prevSleepTick t s in
      let '(now, s) := pm_clock_time s in
      after_sleep (emit (CpuSleep sleep_mode srcType (u32 (now + u32 (u32 (durationMs * 1000) * sysTimerPerUs)))) s)
  end.

Definition drv_pm_longSleep (mode : drv_pm_sleep_mode_e) (src durationMs : Z) s : option flow :=
  match chip_mode mode with
  | None => Some (Back s)
  | Some sleep_mode =>
      let srcType := chip_src src in
      let '(t, s) := pm_get_32k_tick s in
      let s := with_prevSleepTick t s in
      after_sleep (emit (LongSleep sleep_mode srcType (u32 (durationMs * 32))) s)
  end.

(** ** The pins that wake the chip *)
Fixpoint drv_pm_wakeupPinValid (pinCfg : list drv_pm_pinCfg_t) s : Z :=
  match pinCfg with
  | [] => FAILURE
  | p :: ps =>
      if (wakeupLevel p =? PM_WAKEUP_LEVEL_HIGH) && gpio_level (p_ev s) (wakeupPin p) then SUCCESS
      else if (wakeupLevel p =? PM_WAKEUP_LEVEL_LOW) && negb (gpio_level (p_ev s) (wakeupPin p)) then SUCCESS
      else drv_pm_wakeupPinValid ps s
  end.

Fixpoint drv_pm_wakeupPinConfig (pinCfg : list drv_pm_pinCfg_t) s : pm :=
  match pinCfg with
  | [] => s
  | p :: ps => drv_pm_wakeupPinConfig ps (emit (SetGpioWakeup (wakeupPin p) (wakeupLevel p) 1) s)
  end.

(** ** Entering low power *)

(** The sources of the wake-up and the time, from the nearest timer. *)
Definition nearest_wakeup s : Z * Z :=
  let timerEvt := ev_timer_nearestGet (p_tm s) in
  if negb (timerEvt =? 0) then
    (Z.lor PM_WAKEUP_SRC_PAD PM_WAKEUP_SRC_TIMER, timeout (ev (heap (p_tm s)) timerEvt))
  else (PM_WAKEUP_SRC_PAD, 0).

Definition restore_irq_of (r : Z) (o : flow) : flow :=
  match o with
  | Back s => Back (with_tm (with_tcpu (drv_restore_irq r (t_cpu (p_tm s))) (p_tm s)) s)
  | Reboot retention s => Reboot retention s
  end.

Definition drv_pm_lowPowerEnter s : option flow :=
  if tl_stackBusy (p_ev s) || negb (zb_isTaskDone (p_ev s)) then Some (Back s)
  else
    let '(r, c) := drv_disable_irq (t_cpu (p_tm s)) in
    let s := with_tm (with_tcpu c (p_tm s)) s in
    let '(wakeupSrc, sleepTime) := nearest_wakeup s in
    let sleepMode :=
      if negb (Z.land wakeupSrc PM_WAKEUP_SRC_TIMER =? 0) then PM_SLEEP_MODE_DEEP_WITH_RETENTION
      else PM_SLEEP_MODE_DEEPSLEEP in
    let longSleep := negb (sleepTime =? 0) && (PM_NORMAL_SLEEP_MAX <? sleepTime) in
    let s := emit PaShutDown s in
    let s := if decide (sleepMode = PM_SLEEP_MODE_DEEPSLEEP) then drv_pm_deepSleep_frameCnt_set 0 s else s in
    o ← (if negb longSleep then drv_pm_sleep sleepMode wakeupSrc sleepTime s
         else drv_pm_longSleep sleepMode wakeupSrc sleepTime s);
    Some (restore_irq_of r o).
End Pm.
Arguments pm : clear implicits.
Arguments flow : clear implicits.
