(* ===== verification/DrvHw.v ===== *)
(** * The platform ([proj/drivers/drv_hw.c])

    What runs before the first task: the initialisation of the chip, after power
    up or after a sleep that retained the RAM, and the test of the battery (the
    random bytes are in [Pib.v]).  [hw] holds the power management of [Pm.v], the
    addresses of the factory data, and how many conversions of the battery voltage
    were read. *)
From S2P Require Import Prelude Memory Linked ListC SysEv EvTimer Pm.
From S2P Require Pib FlashDrv.

Definition FLASH_SIZE_512K : Z := 0x13.
Definition FLASH_SIZE_1M : Z := 0x14.
Definition FLASH_ADDR_OF_MAC_ADDR_512K : Z := 0x76000.
Definition FLASH_ADDR_0F_MAC_ADDR_1M : Z := 0xFF000.
Definition FLASH_ADDR_OF_F_CFG_INFO_1M : Z := 0xFE000.

(** The identification of the flash, and the voltages measured (in mV). *)
Class HwEnv := {
  flash_mid : Z;
  adc_mv : nat -> Z
}.

Section Hw.
Context {L : Type} `{Pib.TnLib L, TimerEnv, PmEnv, HwEnv} (fuel : nat).

Record hw := mk_hw {
  h_pm : pm L;
  g_u32MacFlashAddr : Z;
  g_u32CfgFlashAddr : Z;
  h_adc : nat
}.
Implicit Type s : hw.

Definition with_pm v s := mk_hw v (g_u32MacFlashAddr s) (g_u32CfgFlashAddr s) (h_adc s).
Definition with_addrs m c s := mk_hw (h_pm s) m c (h_adc s).
Definition ask (e : pm_ev) s : hw := with_pm (emit e (h_pm s)) s.

(** ** The battery *)
Definition drv_get_adc_data s : Z * hw :=
  (u16 (adc_mv (h_adc s)), mk_hw (h_pm s) (g_u32MacFlashAddr s) (g_u32CfgFlashAddr s) (S (h_adc s))).

Definition hw_clock_time s : Z * hw := let '(t, p) := pm_clock_time (h_pm s) in (t, with_pm p s).

(** What a function that may sleep leaves. *)
Inductive hw_flow := HwBack (s : hw) | HwReboot (retention : bool) (s : hw).

Fixpoint voltage_loop (n : nat) (voltage curTick : Z) s : option hw_flow :=
  match n with
  | O => None
  | S n' =>
      if voltage <? FlashDrv.BATTERY_SAFETY_THRESHOLD then
        let '(now, s) := hw_clock_time s in
        o ← (if clock_time_exceed now curTick (1000 * 1000) then drv_pm_sleep fuel PM_SLEEP_MODE_DEEPSLEEP 0 0 (h_pm s)
             else Some (Back (h_pm s)));
        match o with
        | Reboot r p => Some (HwReboot r (with_pm p s))
        | Back p => let '(voltage, s) := drv_get_adc_data (with_pm p s) in voltage_loop n' voltage curTick s
        end
      else Some (HwBack s)
  end.

Definition voltage_detect (n : nat) s : option hw_flow :=
  let '(voltage, s) := drv_get_adc_data s in
  let '(curTick, s) := hw_clock_time s in
  voltage_loop n voltage curTick s.

(** ** Initialisation *)

(** [None]: the flash is too small, the code waits forever. *)
Definition internalFlashSizeCheck s : option hw :=
  let pMid_2 := u8 (Z.shiftr flash_mid 16) in
  if (pMid_2 <? FLASH_SIZE_512K)
     || ((g_u32MacFlashAddr s =? FLASH_ADDR_0F_MAC_ADDR_1M) && (pMid_2 <? FLASH_SIZE_1M)) then None
  else if (g_u32MacFlashAddr s =? FLASH_ADDR_OF_MAC_ADDR_512K) && (FLASH_SIZE_1M <=? pMid_2) then
    Some (with_addrs FLASH_ADDR_0F_MAC_ADDR_1M FLASH_ADDR_OF_F_CFG_INFO_1M s)
  else Some s.

(** True: the RAM was retained. *)
Definition platform_wakeup_init s : bool * hw :=
  let s := ask CpuWakeupInit s in
  (mcu_status (p_ev (h_pm s)) =? MCU_STATUS_DEEPRET_BACK, s).

Definition drv_platform_init s : option (bool * hw) :=
  let '(retention, s) := platform_wakeup_init s in
  let s := ask GpioInit (ask ClockInit s) in
  s ← (if negb retention then
         s ← internalFlashSizeCheck (ask RandInit s);
         Some (ask PmClockInit (ask FlashLock (ask FlashLoadOpt s)))
       else
         p ← drv_pm_wakeupTimeUpdate fuel (h_pm s);
         Some (with_pm p s));
  let s := ask AdcInit s in
  let s := ask RadioInit s in
  let s := ask HwTimerInit s in
  Some (retention, s).

(** [irq_enable] *)
Definition drv_enable_irq s : hw :=
  with_pm (with_tm (with_tcpu (with_irq 1 (t_cpu (p_tm (h_pm s)))) (p_tm (h_pm s))) (h_pm s)) s.
End Hw.
Arguments hw : clear implicits.
Arguments hw_flow : clear implicits.
