(* ===== verification/PmProps.v ===== *)
(** * Power management: properties

    What a sleep is asked to be, what it leaves of the timers however the chip
    wakes, and which callbacks run after it. *)
From S2P Require Import Prelude Memory Linked ListC SysEv EvTimer Pm DrvHw.
From S2P Require Pib.

(** What the code relies on: a sleep that retains the RAM returns, or restarts
    the program with the RAM as it was, and then the chip's status says so. *)
Definition retains (e : pm_ev) : Prop :=
  match e with
  | CpuSleep mode _ _ | LongSleep mode _ _ => mode = DEEPSLEEP_MODE_RET_SRAM_LOW32K
  | _ => False
  end.

Class PmLaws `{PmEnv} := {
  retained_wake es e : retains e ->
    wakes (es ++ [e]) = Returned \/
    (wakes (es ++ [e]) = Restarted true /\ mcu_status (es ++ [e; CpuWakeupInit]) = MCU_STATUS_DEEPRET_BACK)
}.

(** The state in which a flow goes on. *)
Definition flow_state {L} (o : flow L) : pm L := match o with Back s | Reboot _ s => s end.

(** ** Timers *)
Section Timers.
Context `{TimerEnvOk} (fuel : nat).
Implicit Types (s : timers) (l : list Z).

(** Every timer of the list was updated by [d] milliseconds. *)
Lemma update_list s l d :
  timers_list s l -> d <> 0 -> (length l < fuel)%nat ->
  exists s', ev_timer_update fuel d s = Some s' /\ timers_list s' l /\
    (forall a, a ∈ l -> ev (heap s') a = set_next (next (ev (heap s) a)) (update_one d (u32 (clk (t_reads s))) (ev (heap s) a))) /\
    prevSysTick s' = prevSysTick s /\ remSysTick s' = remSysTick s /\ t_reads s' = S (t_reads s) /\
    t_calls s' = t_calls s /\ c_irq (t_cpu s') = c_irq (t_cpu s).
Proof.
  intros [Hc Hk Hu Hn Hq] Hd Hf. unfold ev_timer_update, clock_time. rewrite (proj2 (Z.eqb_neq d 0)) by done.
  cbn [t_cpu with_reads heap timer_head]. destruct (drv_disable_irq (t_cpu s)) as [r c1] eqn:Ed.
  destruct (update_loop_spec fuel d (u32 (clk (t_reads s))) _ _ _ Hc Hf) as (h' & -> & Hh').
  cbn [mbind option_bind]. destruct (restore_irq s r c1 c1 Hq Ed eq_refl eq_refl) as (Hirq & _).
  assert (Hsame : forall e, next (update_one d (u32 (clk (t_reads s))) e) = next e /\
    used (update_one d (u32 (clk (t_reads s))) e) = used e).
  { intros e. unfold update_one. by destruct (isRunning e =? 0). }
  eexists. split; [done|]. split_and!; [|..|done|done|done|done|exact Hirq].
  - split; cbn [heap timer_head t_cpu used_num with_tcpu with_heap with_reads].
    + apply (theap_ext (heap s)); [|done]. intros a Ha. rewrite Hh', decide_True by done. by rewrite (proj1 (Hsame _)).
    + done.
    + intros a Ha. rewrite Hh', <- Hu by done. case_decide; [apply Hsame|done].
    + done.
    + unfold irq_ok. by rewrite Hirq.
  - intros a Ha. cbn [heap with_tcpu with_heap with_reads]. rewrite Hh', decide_True by done.
    rewrite <- (proj1 (Hsame (ev (heap s) a))). by destruct (update_one _ _ _).
Qed.

(** The milliseconds that [ev_timer_update] takes from a timer: [m] if it runs,
    otherwise those since it was started, by the system clock. *)
Definition time_gone (m now : Z) (e : ev_timer_event_t) : Z :=
  if isRunning e =? 0 then u32 (now - curSysTick e) / ticks_per_ms else m.
Definition left_after (m now : Z) (e : ev_timer_event_t) : Z := Z.max 0 (timeout e - time_gone m now e).

Definition all_run s l : Prop := forall a, a ∈ l -> isRunning (ev (heap s) a) <> 0.

Lemma update_one_left m now e n :
  let e' := set_next n (update_one m now e) in
  0 <= timeout e -> isRunning e' <> 0 /\ timeout e' = left_after m now e.
Proof.
  intros e' Ht. unfold e', left_after, time_gone, update_one.
  destruct (Z.eqb_spec (isRunning e) 0) as [E|E]; cbn -[Z.max]; (split; [done|]).
  - by destruct (Z.ltb_spec (u32 (now - curSysTick e) / ticks_per_ms) (timeout e)); lia.
  - by destruct (Z.ltb_spec m (timeout e)); lia.
Qed.

Lemma update_all s l d :
  timers_list s l -> (forall a, a ∈ l -> 0 <= timeout (ev (heap s) a)) -> d <> 0 -> (length l < fuel)%nat ->
  exists s', ev_timer_update fuel d s = Some s' /\ timers_list s' l /\ all_run s' l /\
    (forall a, a ∈ l -> timeout (ev (heap s') a) = left_after d (u32 (clk (t_reads s))) (ev (heap s) a)) /\
    prevSysTick s' = prevSysTick s /\ remSysTick s' = remSysTick s /\ t_reads s' = S (t_reads s) /\
    t_calls s' = t_calls s /\ c_irq (t_cpu s') = c_irq (t_cpu s).
Proof.
  intros Hl Hp Hd Hf. destruct (update_list s l d Hl Hd Hf) as (s' & E & Hl' & He & Hrest). exists s'.
  split_and!; [done|done| | |apply Hrest..]; intros a Ha; rewrite He by done; by apply update_one_left, Hp.
Qed.

(** The timers that are due within [u] milliseconds, in the order of the list. *)
Definition due_within (u : Z) s l : list Z := filter (fun a => timeout (ev (heap s) a) <= u) l.

(** The same for [u] milliseconds after an update by [m] at the reading [now]. *)
Definition due_after (m now u : Z) s l : list Z :=
  filter (fun a => timeout (ev (heap s) a) - time_gone m now (ev (heap s) a) <= u) l.

Lemma filter_iff (P Q : Z -> Prop) `{forall a, Decision (P a), forall a, Decision (Q a)} l :
  (forall a, a ∈ l -> P a <-> Q a) -> filter P l = filter Q l.
Proof.
  induction l as [|a l IH]; intros Hi; [done|]. rewrite !filter_cons, IH by (intros; apply Hi; by right).
  specialize (Hi a ltac:(by left)). by rewrite (decide_ext _ _ _ _ Hi).
Qed.
End Timers.

Section Fire.
Context `{TimerEnvOk, !QuietCallbacks} (fuel : nat).
Implicit Types (s : timers) (l : list Z).

(** One call of [ev_timer_process] calls the timers that are due by then. *)
Lemma process_due s l P :
  timers_list s l -> all_run s l -> (forall a, a ∈ l -> 0 <= timeout (ev (heap s) a)) -> (length l < fuel)%nat ->
  prevSysTick s = u32 P -> 0 <= remSysTick s < ticks_per_ms -> 0 <= clk (t_reads s) - P < 2 ^ 32 ->
  let u := (remSysTick s + (clk (t_reads s) - P)) / ticks_per_ms in
  0 <= u /\ exists s', ev_timer_process fuel s = Some s' /\
    t_calls s' = t_calls s ++ (if u =? 0 then [] else due_within u s l).
Proof.
  intros Hl Hr Hp Hf Hprev Hrem HD u. rewrite (process_split fuel s P) by done. fold u. set (s1 := with_ticks _ _ _).
  assert (0 <= u) as Hu by (pose proof ticks_pos; apply Z.div_pos; unfold ticks_per_ms; lia). split; [done|].
  destruct (Z.eqb_spec u 0) as [E|E]; [exists s1; by rewrite app_nil_r|].
  assert (timers_list s1 l) as Hl1 by (destruct Hl; by split).
  destruct (update_all fuel s1 l u Hl1 Hp E Hf) as (s2 & -> & Hl2 & _ & He2 & _ & _ & _ & Hc2 & _).
  cbn [mbind option_bind]. destruct (executeCB_list fuel s2 l Hl2 Hf) as (s3 & -> & _ & Hc3 & _).
  exists s3. split; [done|]. rewrite Hc3, Hc2. f_equal. apply filter_iff. intros a Ha. unfold due. rewrite He2 by done.
  specialize (Hr a Ha). unfold left_after, time_gone. change (heap s1) with (heap s). rewrite (proj2 (Z.eqb_neq _ _) Hr). lia.
Qed.

(** What is due [u] milliseconds after an update. *)
Lemma due_within_after m now u s s' l : 0 <= u ->
  (forall a, a ∈ l -> timeout (ev (heap s') a) = left_after m now (ev (heap s) a)) ->
  due_within u s' l = due_after m now u s l.
Proof. intros Hu He. apply filter_iff. intros a Ha. rewrite He by done. unfold left_after. lia. Qed.
End Fire.

(** ** Sleeping *)
Section Sleep.
Context {L : Type} `{Pib.TnLib L, TimerEnvOk, PmEnv, HwEnv} (fuel : nat).
Implicit Types (s : pm L) (l : list Z).

(** The milliseconds counted between the [k]-th reading of the 32k counter and
    the next. *)
Definition slept_ms (k : nat) : Z := u32 (u32 (tick_32k (S k)) - u32 (tick_32k k)) / 32.

(** The time was accounted: the timers lost [m] milliseconds, or what the last
    reading of the clock but one gave, and the next call of [ev_timer_process]
    counts from the last. *)
Record accounted (m : Z) (t t' : timers) l : Prop := {
  ac_list : timers_list t' l;
  ac_run : all_run t' l;
  ac_left : forall a, a ∈ l ->
    timeout (ev (heap t') a) = left_after m (u32 (clk (pred (pred (t_reads t'))))) (ev (heap t) a);
  ac_prev : prevSysTick t' = u32 (clk (pred (t_reads t')));
  ac_rem : remSysTick t' = remSysTick t;
  ac_calls : t_calls t' = t_calls t
}.

Lemma wakeup_total s l :
  timers_list (p_tm s) l -> (length l < fuel)%nat ->
  exists s', drv_pm_wakeupTimeUpdate fuel s = Some s' /\ p_ev s' = p_ev s /\ p_mac s' = p_mac s /\ p_ana s' = p_ana s /\
    timers_list (p_tm s') l.
Proof.
  intros Hl Hf. unfold drv_pm_wakeupTimeUpdate, drv_pm_sleepTime_get, pm_get_32k_tick. cbn [prevSleepTick p_tm].
  set (m := u32 (u32 (tick_32k (p_32k s)) - prevSleepTick s) / 32).
  destruct (Z.eqb_spec m 0) as [E|E]; cbn [negb].
  { eexists. split; [done|]. by split_and!. }
  destruct (update_list fuel (p_tm s) l m Hl E Hf) as (t & -> & Ht & _). eexists. split; [done|].
  split_and!; [done..|]. destruct Ht. by split.
Qed.

Lemma wakeup_spec s l :
  timers_list (p_tm s) l -> (forall a, a ∈ l -> 0 <= timeout (ev (heap (p_tm s)) a)) -> (length l < fuel)%nat ->
  exists s', drv_pm_wakeupTimeUpdate fuel s = Some s' /\
    let m := u32 (u32 (tick_32k (p_32k s)) - prevSleepTick s) / 32 in
    (m <> 0 -> accounted m (p_tm s) (p_tm s') l).
Proof.
  intros Hl Hr Hf. unfold drv_pm_wakeupTimeUpdate, drv_pm_sleepTime_get, pm_get_32k_tick. cbn [prevSleepTick p_tm].
  set (m := u32 (u32 (tick_32k (p_32k s)) - prevSleepTick s) / 32).
  destruct (Z.eqb_spec m 0) as [E|E]; cbn [negb].
  { eexists. by split. }
  destruct (update_all fuel (p_tm s) l m Hl Hr E Hf) as (t & -> & Hl' & Hr' & He & Hp & Hm & Hn & Hc & _).
  cbn [mbind option_bind]. eexists. split; [done|]. intros _.
  split; cbn; [destruct Hl'; by split|done|by rewrite Hn|done|done|done].
Qed.

Lemma recovery_spec s : RF_RECOVERY s =
  Some (emit (SetChannel (Pib.pib (p_mac s) Pib.off_phyChannelCur)) (emit RadioInit s)).
Proof. done. Qed.

(** *** What low power asks for *)

(** The milliseconds the chip is asked to sleep for a timer due in [t]: the 32k
    counter takes 2^27 of them. *)
Definition asked_ms (t : Z) : Z := if t <=? PM_NORMAL_SLEEP_MAX then t else t mod 2 ^ 27.

(** The chip is to sleep for [asked_ms t] from [now], its RAM retained. *)
Definition sleep_for (t now : Z) : pm_ev :=
  if t <=? PM_NORMAL_SLEEP_MAX then
    CpuSleep DEEPSLEEP_MODE_RET_SRAM_LOW32K (Z.lor PM_WAKEUP_PAD PM_WAKEUP_TIMER) (u32 (now + asked_ms t * (sysTimerPerUs * 1000)))
  else LongSleep DEEPSLEEP_MODE_RET_SRAM_LOW32K (Z.lor PM_WAKEUP_PAD PM_WAKEUP_TIMER) (asked_ms t * 32).

Lemma asked_ms_bound t : 0 <= t -> asked_ms t <= t /\ (t < 2 ^ 27 -> asked_ms t = t).
Proof.
  intros Ht. unfold asked_ms, PM_NORMAL_SLEEP_MAX. destruct (Z.leb_spec t (230 * 1000)); [lia|]. split.
  - apply Z.mod_le; lia.
  - intros Hs. by apply Z.mod_small.
Qed.

Definition sleep_until_pad (now : Z) : pm_ev := CpuSleep DEEPSLEEP_MODE PM_WAKEUP_PAD (u32 now).

(** The state in which the chip falls asleep. *)
Record asleep (req : pm_ev) s s1 : Prop := {
  as_ev : p_ev s1 = p_ev s ++ [PaShutDown; req];
  as_sleep : prevSleepTick s1 = u32 (tick_32k (p_32k s));
  as_32k : p_32k s1 = S (p_32k s);
  as_mac : p_mac s1 = p_mac s;
  as_heap : heap (p_tm s1) = heap (p_tm s);
  as_head : timer_head (p_tm s1) = timer_head (p_tm s);
  as_num : used_num (p_tm s1) = used_num (p_tm s);
  as_rem : remSysTick (p_tm s1) = remSysTick (p_tm s);
  as_calls : t_calls (p_tm s1) = t_calls (p_tm s);
  as_irq : c_irq (t_cpu (p_tm s1)) = 0
}.

Lemma asleep_list req s s1 l : asleep req s s1 -> timers_list (p_tm s) l -> timers_list (p_tm s1) l.
Proof.
  intros [? _ _ _ Eh Ehd En _ _ Ei] [Hc Hk Hu Hn _]. split; rewrite ?Eh, ?Ehd, ?En; try done. unfold irq_ok. lia.
Qed.

Definition quiet_stack s : Prop := tl_stackBusy (p_ev s) = false /\ zb_isTaskDone (p_ev s) = true.

Lemma u32_add x y : u32 (u32 x + y) = u32 (x + y).
Proof. unfold u32. by rewrite Zplus_mod_idemp_l. Qed.

Lemma low_power_timer s a :
  quiet_stack s -> timer_nearest (p_tm s) = a -> a <> 0 -> sysTimerPerUs = 16 ->
  let t := timeout (ev (heap (p_tm s)) a) in 0 <= t < 2 ^ 32 ->
  exists s1, asleep (sleep_for t (clk (t_reads (p_tm s)))) s s1 /\ p_ana s1 = p_ana s /\
    drv_pm_lowPowerEnter fuel s = (o ← after_sleep fuel s1; Some (restore_irq_of (u32 (c_irq (t_cpu (p_tm s)))) o)).
Proof.
  intros [Hb Hd] Ha Hz H16 t Ht. unfold drv_pm_lowPowerEnter. rewrite Hb, Hd. cbn [negb orb drv_disable_irq].
  unfold nearest_wakeup, ev_timer_nearestGet. cbn [p_tm with_tm timer_nearest with_tcpu heap].
  rewrite Ha, (proj2 (Z.eqb_neq a 0) Hz). fold t. cbn [negb].
  change (Z.land (Z.lor PM_WAKEUP_SRC_PAD PM_WAKEUP_SRC_TIMER) PM_WAKEUP_SRC_TIMER =? 0) with false.
  cbn [negb]. rewrite decide_False by done.
  assert (Hlong : negb (t =? 0) && (PM_NORMAL_SLEEP_MAX <? t) = (PM_NORMAL_SLEEP_MAX <? t)).
  { unfold PM_NORMAL_SLEEP_MAX. destruct (Z.eqb_spec t 0); [by replace t with 0 by done|done]. }
  rewrite Hlong. unfold sleep_for, asked_ms. destruct (Z.ltb_spec PM_NORMAL_SLEEP_MAX t) as [Hl|Hl]; cbn [negb].
  - rewrite (proj2 (Z.leb_gt _ _)) by done. eexists. split; [|split; [|unfold drv_pm_longSleep; reflexivity]]; [|done].
    assert (E32 : t mod 2 ^ 27 * 32 = u32 (t * 32)) by (unfold u32; zdm). rewrite E32. split; cbn; try done. by rewrite <- app_assoc.
  - rewrite (proj2 (Z.leb_le _ _)) by done. eexists. split; [|split; [|unfold drv_pm_sleep; reflexivity]]; [|done].
    unfold PM_NORMAL_SLEEP_MAX in Hl. rewrite H16, (u32_small (t * 1000)), (u32_small (t * 1000 * 16)), u32_add by lia.
    split; cbn; try done. rewrite <- app_assoc. cbn. do 6 f_equal. lia.
Qed.

Lemma low_power_deep s :
  quiet_stack s -> timer_nearest (p_tm s) = 0 ->
  exists s1, asleep (sleep_until_pad (clk (t_reads (p_tm s)))) s s1 /\
    p_ana s1 = p_ana (drv_pm_deepSleep_frameCnt_set 0 s) /\
    drv_pm_lowPowerEnter fuel s = (o ← after_sleep fuel s1; Some (restore_irq_of (u32 (c_irq (t_cpu (p_tm s)))) o)).
Proof.
  intros [Hb Hd] Ha. unfold drv_pm_lowPowerEnter. rewrite Hb, Hd. cbn [negb orb drv_disable_irq].
  unfold nearest_wakeup, ev_timer_nearestGet. cbn [p_tm with_tm timer_nearest with_tcpu heap].
  rewrite Ha. change (Z.land PM_WAKEUP_SRC_PAD PM_WAKEUP_SRC_TIMER =? 0) with true.
  cbn [negb Z.eqb]. rewrite decide_True by done. eexists. split; [|split; [|unfold drv_pm_sleep; reflexivity]]; [|done].
  split; cbn; try done. rewrite <- app_assoc. cbn. unfold sleep_until_pad. rewrite Z.mul_0_l.
  do 4 f_equal. change (u32 0) with 0. by rewrite u32_add, Z.add_0_r.
Qed.

End Sleep.

(** ** Waking *)
Section Wake.
Context {L : Type} `{Pib.TnLib L, TimerEnvOk, !QuietCallbacks, PmLaws, HwEnv} (fuel : nat).

(** From the end of a sleep back to the idle loop, as far as the timers are
    concerned: the caller goes on, or the program starts again ([main.c]), finds
    the RAM retained, and enables the interrupts. *)
Definition idle_again (o : flow L) (h : hw L) : option (hw L) :=
  match o with
  | Back p => Some (DrvHw.with_pm p h)
  | Reboot true p => '(_, h) ← drv_platform_init fuel (DrvHw.with_pm p h); Some (drv_enable_irq h)
  | Reboot false _ => None
  end.

Lemma accounted_irq m t t' l c : accounted m t t' l -> irq_ok c -> accounted m t (with_tcpu c t') l.
Proof. intros [[? ? ? ? _] ? ? ? ? ?] Hc. split; [by split|done..]. Qed.

Lemma resume_spec (s1 : pm L) req es l h r :
  p_ev s1 = es ++ [req] -> retains req -> timers_list (p_tm s1) l ->
  (forall a, a ∈ l -> 0 <= timeout (ev (heap (p_tm s1)) a)) -> (length l < fuel)%nat ->
  exists o h', after_sleep fuel s1 = Some o /\ idle_again (restore_irq_of r o) h = Some h' /\
    let m := u32 (u32 (tick_32k (p_32k s1)) - prevSleepTick s1) / 32 in
    (m <> 0 -> accounted m (p_tm s1) (p_tm (h_pm h')) l).
Proof.
  intros Hev Hret Hl Hr Hf. unfold after_sleep. rewrite Hev.
  destruct (retained_wake es req Hret) as [->|[-> Hst]].
  - destruct (wakeup_spec fuel s1 l Hl Hr Hf) as (s2 & -> & Hac). cbn [mbind option_bind].
    rewrite recovery_spec. cbn [mbind option_bind]. do 2 eexists. split; [done|]. split; [done|]. intros Hm.
    apply accounted_irq; [by apply Hac|]. unfold irq_ok, drv_restore_irq. cbn. apply u8_range.
  - exists (Reboot true s1). cbn [restore_irq_of idle_again]. unfold drv_platform_init, platform_wakeup_init, ask.
    cbn [h_pm DrvHw.with_pm emit p_ev]. rewrite Hev, <- app_assoc. cbn [app]. rewrite Hst. cbn [negb Z.eqb].
    match goal with |- context [drv_pm_wakeupTimeUpdate fuel ?x] =>
      destruct (wakeup_spec fuel x l Hl Hr Hf) as (s2 & -> & Hac) end.
    cbn [mbind option_bind]. eexists. split; [done|]. split; [done|]. intros Hm.
    apply accounted_irq; [by apply Hac|]. unfold irq_ok. cbn. lia.
Qed.

(** C17. Which timers run after a sleep with timers pending and the stack idle.
    When the 32k counter counts at least a whole millisecond of sleep and the
    chip wakes with its RAM retained, whether the call returns or the program
    starts again, and the next call of [ev_timer_process] comes less than
    2^32 ticks after the wake-up, [u] whole milliseconds by the clock (with
    the ticks that were left over before the sleep), that call calls, in the
    order of the list, exactly the timers whose timeout was at most [u] more than
    the time that passed for them; when [u] is 0 it calls none.  The time that
    passed for a timer that had been counted before the sleep is the milliseconds
    slept, that for one just started the time since then by the clock, which
    wraps every 268 s.  The callbacks leave the timers alone. *)
Theorem pm_due_timers_fire (h : hw L) l :
  timers_ok (p_tm (h_pm h)) l -> l <> [] -> (length l < fuel)%nat -> sysTimerPerUs = 16 ->
  quiet_stack (h_pm h) -> (forall a, a ∈ l -> 0 <= timeout (ev (heap (p_tm (h_pm h))) a) < 2 ^ 32) ->
  0 <= remSysTick (p_tm (h_pm h)) < ticks_per_ms -> slept_ms (p_32k (h_pm h)) <> 0 ->
  exists o h', drv_pm_lowPowerEnter fuel (h_pm h) = Some o /\ idle_again o h = Some h' /\
    let k := t_reads (p_tm (h_pm h')) in
    let elapsed := clk k - clk (pred k) in
    let u := (remSysTick (p_tm (h_pm h)) + elapsed) / ticks_per_ms in
    (0 <= elapsed < 2 ^ 32 ->
      exists t', ev_timer_process fuel (p_tm (h_pm h')) = Some t' /\
        t_calls t' = t_calls (p_tm (h_pm h)) ++
          (if u =? 0 then [] else due_after (slept_ms (p_32k (h_pm h))) (u32 (clk (pred (pred k)))) u (p_tm (h_pm h)) l)).
Proof.
  intros [Hl Hn] Hne Hf H16 Hq Hto Hrem Hm. set (s := h_pm h) in *.
  destruct (nearest_of_spec (timeouts (heap (p_tm s))) l Hne) as [Hin _]. rewrite <- Hn in Hin.
  assert (Hz : timer_nearest (p_tm s) <> 0) by exact (lseg_node (T := theap) _ _ _ _ _ (tk_chain _ _ Hl) Hin).
  destruct (low_power_timer fuel s _ Hq eq_refl Hz H16 (Hto _ Hin)) as (s1 & Has & _ & ->).
  set (req := sleep_for _ _) in Has. set (r := u32 _).
  assert (Hret : retains req) by (unfold req, sleep_for; by destruct (_ <=? _)).
  assert (Hl1 : timers_list (p_tm s1) l) by by eapply asleep_list.
  assert (Hp1 : forall a, a ∈ l -> 0 <= timeout (ev (heap (p_tm s1)) a)).
  { intros a Ha. rewrite (as_heap _ _ _ Has). apply Hto, Ha. }
  destruct (resume_spec s1 req (p_ev s ++ [PaShutDown]) l h r) as (o & h' & -> & Eh & Hac); [|done..|].
  { rewrite (as_ev _ _ _ Has). by rewrite <- app_assoc. }
  cbn [mbind option_bind]. cbv zeta in Hac. rewrite (as_32k _ _ _ Has), (as_sleep _ _ _ Has) in Hac.
  fold (slept_ms (p_32k s)) in Hac. specialize (Hac Hm). destruct Hac as [Al Ar Ae Ap Am Ac].
  rewrite (as_heap _ _ _ Has) in Ae. rewrite (as_rem _ _ _ Has) in Am. rewrite (as_calls _ _ _ Has) in Ac.
  set (t2 := p_tm (h_pm h')) in *. exists (restore_irq_of r o), h'. split_and!; [done|done|]. cbv zeta. fold t2.
  set (k := t_reads t2). set (elapsed := clk k - clk (pred k)). set (u := _ / ticks_per_ms). intros HD.
  destruct (process_due fuel t2 l (clk (pred k)) Al Ar) as (Hu & t' & Et & Hc); [|done|done|by rewrite Am|done|].
  { intros a Ha. rewrite Ae by done. apply Z.le_max_l. }
  rewrite Am, Ac in Hc. rewrite Am in Hu. exists t'. split; [done|]. rewrite Hc. f_equal. fold k elapsed u. fold k elapsed u in Hu.
  destruct (u =? 0); [done|]. by apply due_within_after.
Qed.
End Wake.
