(* ===== verification/DrvHwProps.v ===== *)
(** * The platform: properties

    The random bytes are the words of the generator in little-endian order, the
    test of the battery ends with the first good measurement or in a deep sleep,
    and the frame counter survives in the analog registers. *)
From S2P Require Import Prelude Memory SpiFlash FlashIf Linked ListC SysEv EvTimer Pm DrvHw PmProps.
From S2P Require Pib PibDemo.

(** ** Random bytes *)
Section Random.
Context `{Pib.Entropy}.

(** The bytes of [m] words of the generator, from the [k]-th on. *)
Fixpoint random_words (m k : nat) : list Z :=
  match m with O => [] | S m' => word_le 4 (u32 (Pib.rnd k)) ++ random_words m' (S k) end.

Lemma length_random_words m k : length (random_words m k) = (4 * m)%nat.
Proof. revert k. induction m as [|m IH]; intros k; [done|]. cbn [random_words]. rewrite length_app, length_word_le, IH. lia. Qed.

Lemma mod4 q r : (r < 4)%nat -> ((4 * q + r) mod 4 = r)%nat.
Proof. intros. rewrite Nat.add_comm, Nat.mul_comm, Nat.Div0.mod_add. by apply Nat.mod_small. Qed.

Lemma random_loop_spec n q r k :
  Pib.random_loop n (4 * q) r k = (take n (random_words ((n + 3) / 4) k), (k + (n + 3) / 4)%nat).
Proof.
  revert q r k. induction n as [n IH] using lt_wf_ind. intros q r k.
  pose proof (mod4 q 0) as L0. pose proof (mod4 q 1) as L1. pose proof (mod4 q 2) as L2. pose proof (mod4 q 3) as L3.
  rewrite Nat.add_0_r in L0.
  assert (B : forall x, Z.land x 255 = u8 x) by (intros; change 255 with (Z.ones 8); by rewrite Z.land_ones by lia).
  assert (D : forall x, Z.shiftr x 8 = x / 256) by (intros; by rewrite Z.shiftr_div_pow2 by lia).
  destruct n as [|[|[|[|n]]]]; cbn [Pib.random_loop];
    replace (S (4 * q)) with (4 * q + 1)%nat by lia; replace (S (4 * q + 1)) with (4 * q + 2)%nat by lia;
    replace (S (4 * q + 2)) with (4 * q + 3)%nat by lia;
    rewrite ?L0, ?L1, ?L2, ?L3 by lia; cbn [Nat.eqb]; rewrite ?B, ?D.
  - cbn. by rewrite Nat.add_0_r.
  - cbn. by rewrite Nat.add_1_r.
  - cbn. by rewrite Nat.add_1_r.
  - cbn. by rewrite Nat.add_1_r.
  - replace (S (4 * q + 3)) with (4 * (q + 1))%nat by lia. rewrite IH by lia.
    replace ((S (S (S (S n))) + 3) / 4)%nat with (S ((n + 3) / 4)) by
      (replace (S (S (S (S n))) + 3)%nat with (n + 3 + 1 * 4)%nat by lia; rewrite Nat.div_add by lia; lia).
    cbn [random_words word_le app take]. f_equal. lia.
Qed.

(** [drv_generateRandomData] writes the bytes of consecutive words of the
    generator, least significant first, and takes exactly the words it needs:
    the last one serves for the one to four bytes that are left. *)
Theorem random_bytes_exact len k :
  Pib.drv_generateRandomData len k = (take len (random_words ((len + 3) / 4) k), (k + (len + 3) / 4)%nat) /\
  length (Pib.drv_generateRandomData len k).1 = len.
Proof.
  unfold Pib.drv_generateRandomData. pose proof (random_loop_spec len 0 0 k) as E. rewrite Nat.mul_0_r in E.
  rewrite E. split; [done|]. cbn [fst]. rewrite length_take, length_random_words.
  pose proof (Nat.div_mod (len + 3) 4). pose proof (Nat.mod_upper_bound (len + 3) 4). lia.
Qed.
End Random.

(** ** The frame counter *)
Section FrameCounter.
Context {L : Type} `{Pib.TnLib L, TimerEnv, PmEnv}.
Implicit Type s : pm L.

(** What is stored for a deep sleep is read back after it, whatever else the
    sleep did, and the flag is then cleared: it is read once. *)
Lemma frameCnt_deep_roundtrip v s s' :
  0 <= v < 2 ^ 32 -> (forall a, PM_ANA_REG_FRAME_COUNTER <= a <= PM_ANA_REG_FRAME_COUNTER_FLAG ->
    p_ana s' a = p_ana (drv_pm_deepSleep_frameCnt_set v s) a) ->
  (drv_pm_deepSleep_flag_get s' = true <-> mcu_status (p_ev s') = MCU_STATUS_DEEP_BACK) /\
  (drv_pm_deepSleep_frameCnt_get s').1 = v /\
  drv_pm_deepSleep_flag_get (drv_pm_deepSleep_frameCnt_get s').2 = false.
Proof.
  intros Hv Ha. unfold PM_ANA_REG_FRAME_COUNTER, PM_ANA_REG_FRAME_COUNTER_FLAG, DEEP_ANA_REG0, DEEP_ANA_REG6 in Ha.
  split_and!.
  - unfold drv_pm_deepSleep_flag_get, analog_read. rewrite Ha by (vm_compute; split; congruence). cbn.
    rewrite andb_true_r. apply Z.eqb_eq.
  - change (drv_pm_deepSleep_frameCnt_get s').1 with
      (u32 (Z.lor (Z.lor (Z.lor (Z.shiftl (p_ana s' 0x38) 24) (Z.shiftl (p_ana s' 0x37) 16))
        (Z.shiftl (p_ana s' 0x36) 8)) (p_ana s' 0x35))).
    rewrite !Ha by (vm_compute; split; congruence).
    change (p_ana (drv_pm_deepSleep_frameCnt_set v s) 0x38) with (u8 (Z.shiftr v 24)).
    change (p_ana (drv_pm_deepSleep_frameCnt_set v s) 0x37) with (u8 (Z.shiftr v 16)).
    change (p_ana (drv_pm_deepSleep_frameCnt_set v s) 0x36) with (u8 (Z.shiftr v 8)).
    change (p_ana (drv_pm_deepSleep_frameCnt_set v s) 0x35) with (u8 v).
    unfold u8. rewrite !Z.shiftr_div_pow2, <- !Z.lor_assoc by lia. change (2 ^ 8) with 256.
    set (b0 := v mod 256). set (b1 := (v / 256) mod 256). set (b2 := (v / 2 ^ 16) mod 256). set (b3 := (v / 2 ^ 24) mod 256).
    assert (Hb : 0 <= b0 < 256 /\ 0 <= b1 < 256 /\ 0 <= b2 < 256 /\ 0 <= b3 < 256) by
      (split_and!; apply Z.mod_pos_bound; lia).
    rewrite (Z.lor_comm (Z.shiftl b1 8)), lor_shiftl_add by lia.
    rewrite (Z.lor_comm (Z.shiftl b2 16)), lor_shiftl_add by lia.
    rewrite (Z.lor_comm (Z.shiftl b3 24)), lor_shiftl_add by lia.
    assert (E : b0 + 2 ^ 8 * b1 + 2 ^ 16 * b2 + 2 ^ 24 * b3 = v) by (unfold b0, b1, b2, b3; zdm).
    rewrite E. by apply u32_small.
  - unfold drv_pm_deepSleep_flag_get. cbn. by rewrite andb_false_r.
Qed.
End FrameCounter.

(** ** The battery *)
Section Battery.
Context {L : Type} `{Pib.TnLib L, TimerEnvOk, PmEnv, HwEnv} (fuel : nat).
Implicit Types (s : hw L) (l : list Z).

(** The deep sleep of a low battery has no timer and no pin to end it. *)
Definition asleep_for_good (es : list pm_ev) : Prop := exists t, last es = Some (CpuSleep DEEPSLEEP_MODE 0 t).

Lemma deep_sleep_spec (p : pm L) l :
  timers_list (p_tm p) l -> (length l < fuel)%nat ->
  exists o, drv_pm_sleep fuel PM_SLEEP_MODE_DEEPSLEEP 0 0 p = Some o /\
    match o with Back p' => timers_list (p_tm p') l | Reboot _ p' => asleep_for_good (p_ev p') end.
Proof.
  intros Hl Hf. unfold drv_pm_sleep, after_sleep. cbn [chip_mode pm_get_32k_tick pm_clock_time clock_time with_prevSleepTick].
  match goal with |- context [wakes (p_ev ?x)] => set (q := x) end. destruct (wakes (p_ev q)) as [|r].
  - assert (Hq : timers_list (p_tm q) l) by (destruct Hl; by split).
    destruct (wakeup_total fuel q l Hq Hf) as (q' & -> & _ & _ & _ & Hl'). cbn [mbind option_bind].
    rewrite recovery_spec. eexists. split; [done|]. destruct Hl'. by split.
  - eexists. split; [done|]. cbn. unfold asleep_for_good. eexists. by rewrite last_snoc.
Qed.

Lemma voltage_loop_ends n j k cur s l :
  timers_list (p_tm (h_pm s)) l -> (length l < fuel)%nat -> h_adc s = S k ->
  FlashDrv.BATTERY_SAFETY_THRESHOLD <= u16 (adc_mv (k + j)) ->
  (forall i, (i < j)%nat -> u16 (adc_mv (k + i)) < FlashDrv.BATTERY_SAFETY_THRESHOLD) -> (j < n)%nat ->
  exists o, voltage_loop fuel n (u16 (adc_mv k)) cur s = Some o /\
    match o with
    | HwBack s' => h_adc s' = S (k + j) /\ timers_list (p_tm (h_pm s')) l
    | HwReboot _ s' => asleep_for_good (p_ev (h_pm s'))
    end.
Proof.
  revert j k s. induction n as [|n IH]; intros j k s Hl Hf Hk Hj Hi Hn; [lia|]. cbn [voltage_loop].
  destruct j as [|j].
  - rewrite Nat.add_0_r in Hj. rewrite (proj2 (Z.ltb_ge _ _)) by done. eexists. split; [done|]. by rewrite Nat.add_0_r.
  - pose proof (Hi 0%nat ltac:(lia)) as H0'. rewrite Nat.add_0_r in H0'. rewrite (proj2 (Z.ltb_lt _ _)) by done.
    cbn [hw_clock_time pm_clock_time clock_time]. set (s1 := DrvHw.with_pm _ s).
    assert (Hl1 : timers_list (p_tm (h_pm s1)) l) by (destruct Hl; by split).
    assert (Ho : exists o, (if clock_time_exceed (u32 (clk (t_reads (p_tm (h_pm s))))) cur (1000 * 1000)
        then drv_pm_sleep fuel PM_SLEEP_MODE_DEEPSLEEP 0 0 (h_pm s1) else Some (Back (h_pm s1))) = Some o /\
      match o with Back p' => timers_list (p_tm p') l | Reboot _ p' => asleep_for_good (p_ev p') end).
    { destruct (clock_time_exceed _ _ _); [by apply deep_sleep_spec|]. by exists (Back (h_pm s1)). }
    destruct Ho as (o & -> & Ho). cbn [mbind option_bind]. destruct o as [p|r p]; [|by eexists].
    unfold drv_get_adc_data. cbn [h_adc DrvHw.with_pm s1]. rewrite Hk.
    destruct (IH j (S k) (mk_hw p (g_u32MacFlashAddr s) (g_u32CfgFlashAddr s) (S (S k)))) as (o & E & Hr);
      [done|done|done|by replace (S k + j)%nat with (k + S j)%nat by lia| |lia|].
    { intros i Hlt. replace (S k + i)%nat with (k + S i)%nat by lia. apply Hi. lia. }
    exists o. split; [exact E|]. by replace (S k + j)%nat with (k + S j)%nat in Hr by lia.
Qed.

(** The test of the battery ends: when the [j]-th measurement is the first of
    at least 2.2 V, it returns after that measurement with the timers in order,
    unless it put the chip into a deep sleep that nothing ends. *)
Theorem voltage_detect_ends n s j l :
  timers_list (p_tm (h_pm s)) l -> (length l < fuel)%nat ->
  FlashDrv.BATTERY_SAFETY_THRESHOLD <= u16 (adc_mv (h_adc s + j)) ->
  (forall i, (i < j)%nat -> u16 (adc_mv (h_adc s + i)) < FlashDrv.BATTERY_SAFETY_THRESHOLD) -> (j < n)%nat ->
  exists o, voltage_detect fuel n s = Some o /\
    match o with
    | HwBack s' => h_adc s' = S (h_adc s + j) /\ timers_list (p_tm (h_pm s')) l
    | HwReboot _ s' => asleep_for_good (p_ev (h_pm s'))
    end.
Proof.
  intros Hl Hf Hj Hi Hn. unfold voltage_detect. cbn [drv_get_adc_data hw_clock_time pm_clock_time clock_time].
  apply voltage_loop_ends; [|done..]. destruct Hl. by split.
Qed.
End Battery.

(** ** Power management and the platform on concrete data

    A chip with the laws, whose sleeps with retention restart the program, the
    properties at concrete inputs, and a long sleep with a timer that has just
    been started. *)
#[local] Existing Instance demo_env_base.
#[local] Existing Instance PibDemo.d_TnLib.
#[local] Instance pm_env_ok : TimerEnvOk.
Proof. split; vm_compute; reflexivity. Qed.
#[local] Instance pm_quiet : QuietCallbacks := { cb_ret f d := d; cb_quiet f d s := eq_refl }.

(** Each sleep lasts 400 ms. *)
#[local] Instance demo_pm : PmEnv := {|
  tick_32k k := 12800 * Z.of_nat k;
  wakes _ := Restarted true;
  mcu_status _ := MCU_STATUS_DEEPRET_BACK;
  gpio_level _ _ := false;
  tl_stackBusy _ := false;
  zb_isTaskDone _ := true
|}.

#[local] Instance demo_pm_laws : PmLaws.
Proof. split. intros es e _. by right. Qed.

(** The battery recovers at the third measurement. *)
#[local] Instance demo_hw : HwEnv := {|
  flash_mid := 0x1460c8;
  adc_mv k := 2000 + 100 * Z.of_nat k
|}.

(** A timer of the application that is due in 300 ms, and whose callback asks for
    its removal. *)
Definition demo_sleep_timers : timers :=
  mk_timers {[ 0x850000 := mk_ev 0 1 (-1) 300 300 0 1 0 ]} 0x850000 0x850000 0 0 0 (mk_cpu ∅ 1 exc_init) 0 [].

Lemma demo_sleep_ok : timers_ok demo_sleep_timers [0x850000].
Proof.
  assert (forall i, (i < 24)%nat -> evt_addr i <> 0x850000) as Hne.
  { intros i Hi. unfold evt_addr, evt_size. cbn. lia. }
  split; [split|].
  - split_and!; [done|done|done].
  - intros a ->%list_elem_of_singleton. right. unfold static_timer, pool_range, evt_addr, evt_size. cbn. lia.
  - intros a (i & Hi & ->)%elem_of_slots. specialize (Hne i Hi). rewrite bool_decide_false by set_solver.
    unfold ev. cbn [heap demo_sleep_timers]. by rewrite lookup_singleton_ne by done.
  - reflexivity.
  - done.
  - reflexivity.
Qed.

Definition demo_mac_ch : Pib.mac PibDemo.dlists := Pib.mk_mac (fun _ => 11) (fun _ => []) [].
Definition demo_pm_state : pm PibDemo.dlists := mk_pm demo_sleep_timers 0 0 (fun _ => 0) demo_mac_ch [].
Definition demo_hw_state : hw PibDemo.dlists := mk_hw demo_pm_state FLASH_ADDR_OF_MAC_ADDR_512K 0x77000 0.


Lemma pm_due_timers_fire_witness : exists o h' t',
  drv_pm_lowPowerEnter 5 (h_pm demo_hw_state) = Some o /\ idle_again 5 o demo_hw_state = Some h' /\
  ev_timer_process 5 (p_tm (h_pm h')) = Some t' /\ t_calls t' = [0x850000].
Proof.
  destruct (pm_due_timers_fire 5 demo_hw_state [0x850000]) as (o & h' & Eo & Eh & Hp).
  - exact demo_sleep_ok.
  - done.
  - cbn. lia.
  - reflexivity.
  - split; reflexivity.
  - intros a ->%list_elem_of_singleton. vm_compute. split; congruence.
  - vm_compute. split; congruence.
  - vm_compute. congruence.
  - cbv zeta in Hp. assert (Ek : t_reads (p_tm (h_pm h')) = 3%nat).
    { vm_compute in Eo. injection Eo as <-. vm_compute in Eh. injection Eh as <-. reflexivity. }
    rewrite Ek in Hp. destruct Hp as (t' & Et & Ec); [vm_compute; split; congruence|].
    exists o, h', t'. split; [exact Eo|]. split; [exact Eh|]. split; [exact Et|]. rewrite Ec. vm_compute. reflexivity.
Defined.


Lemma voltage_detect_ends_witness : exists o, voltage_detect 5 3 demo_hw_state = Some o /\
  match o with HwBack s' => h_adc s' = 3%nat | HwReboot _ _ => False end.
Proof.
  destruct (voltage_detect_ends 5 3 demo_hw_state 2 [0x850000]) as (o & E & Ho).
  - exact demo_sleep_ok.
  - cbn. lia.
  - vm_compute. congruence.
  - intros [|[|i]] Hi; [vm_compute; reflexivity|vm_compute; reflexivity|lia].
  - lia.
  - exists o. split; [exact E|]. vm_compute in E. injection E as <-. exact (proj1 Ho).
Defined.

(** ** A long sleep with a timer that has just been started

    A timer of 300 s is posted, and the device goes to sleep at once, for 300 s.
    The time since a timer was started is taken from the 32-bit system clock,
    which wraps every 268 s: when the chip wakes on time, the timer still has
    268 s to go. *)
Definition late_env : TimerEnv := {|
  timerEventPool := 0x840100; clk := fun i => if (i =? 0)%nat then 0 else 300 * 16000000 + Z.of_nat i; sysTimerPerUs := 16;
  cb_call := fun f d s => (d, s)
|}.
Definition late_pm : PmEnv := {|
  tick_32k k := 300 * 32000 * Z.of_nat k;
  wakes _ := Returned;
  mcu_status _ := 0;
  gpio_level _ _ := false;
  tl_stackBusy _ := false;
  zb_isTaskDone _ := true
|}.

Theorem pm_long_sleep_fresh_timer : exists p tm s,
  ev_timer_taskPost (H := late_env) 5 1 0 300000 (ev_timer_init (H := late_env) demo_timers) = Some (p, tm) /\
  drv_pm_lowPowerEnter (H0 := late_env) (H1 := late_pm) 5 (mk_pm tm 0 0 (fun _ => 0) demo_mac_ch []) = Some (Back s) /\
  p_ev s = [PaShutDown; LongSleep DEEPSLEEP_MODE_RET_SRAM_LOW32K 40 (300000 * 32); RadioInit; SetChannel 11] /\
  timeout (ev (heap (p_tm s)) p) = 268436.
Proof. do 3 eexists. split; [vm_compute; reflexivity|]. split; [vm_compute; reflexivity|]. split; vm_compute; reflexivity. Qed.
