(* ===== verification/Putchar.v ===== *)
(** * Printing on a pin ([proj/drivers/drv_putchar.c])

    With [UART_PRINTF_MODE] the characters of [printf] leave on a pin that the
    code itself drives, at 115200 baud: [line] holds the output register of the
    pin's group, how often the clock was looked at, and the values of the register
    with the times since which they hold.  Interrupts are not masked meanwhile:
    whatever they do to the register is done at a look ([port_irq]).  With
    [USB_PRINTF_MODE] they go to an endpoint. *)
From S2P Require Import Prelude.

Definition BAUDRATE : Z := 115200.
Definition BIT_INTERVAL : Z := 16 * 1000 * 1000 / BAUDRATE.

(** The clock of the system timer at each look, what interrupts did to the output
    register by then, and [DEBUG_INFO_TX_PIN & 0xff]. *)
Class PrintEnv := {
  p_clk : nat -> Z;
  port_irq : nat -> Z -> Z;
  tx_bit : Z
}.

Record line := mk_line { TX_PIN_OUTPUT_REG : Z; l_looks : nat; l_wave : list (Z * Z) }.
Implicit Type s : line.

Section Soft.
Context `{PrintEnv}.

(** [clock_time], with the interrupts before it. *)
Definition look s : Z * line :=
  let k := l_looks s in
  let v := port_irq k (TX_PIN_OUTPUT_REG s) in
  (u32 (p_clk k), mk_line v (S k) (l_wave s ++ [(p_clk k, v)])).

(** The register is written right after the last look. *)
Definition port_write (v : Z) s : line := mk_line v (l_looks s) (l_wave s ++ [(p_clk (pred (l_looks s)), v)]).

Fixpoint wait_bit (n : nat) (t1 t2 : Z) s : option (Z * line) :=
  match n with
  | O => None
  | S n' => if u32 (t1 - t2) <? BIT_INTERVAL then let '(t1, s) := look s in wait_bit n' t1 t2 s else Some (t1, s)
  end.

Fixpoint send_bits (n : nat) (bit : list Z) (t1 : Z) s : option line :=
  match bit with
  | [] => Some s
  | b :: bit =>
      let t2 := t1 in
      '(t1, s) ← wait_bit n t1 t2 s;
      send_bits n bit t1 (port_write b s)
  end.

Definition bit_of (byte : Z) (i : Z) (tmp_bit0 tmp_bit1 : Z) : Z :=
  if negb (Z.land (Z.shiftr byte i) 0x01 =? 0) then tmp_bit1 else tmp_bit0.

Definition soft_uart_putc (n : nat) (byte : Z) s : option line :=
  let tmp_bit0 := u8 (Z.land (TX_PIN_OUTPUT_REG s) (Z.lnot tx_bit)) in
  let tmp_bit1 := u8 (Z.lor (TX_PIN_OUTPUT_REG s) tx_bit) in
  let bit := [tmp_bit0; bit_of byte 0 tmp_bit0 tmp_bit1; bit_of byte 1 tmp_bit0 tmp_bit1; bit_of byte 2 tmp_bit0 tmp_bit1;
              bit_of byte 3 tmp_bit0 tmp_bit1; bit_of byte 4 tmp_bit0 tmp_bit1; bit_of byte 5 tmp_bit0 tmp_bit1;
              bit_of byte 6 tmp_bit0 tmp_bit1; bit_of byte 7 tmp_bit0 tmp_bit1; tmp_bit1] in
  let '(t1, s) := look s in
  send_bits n bit t1 s.

(** [UART_PRINTF_MODE]: what [printf] hands over, one character after another. *)
Definition drv_putchar (n : nat) (byte : Z) s : option line := soft_uart_putc n (u8 byte) s.
Fixpoint put_all (n : nat) (bytes : list Z) s : option line :=
  match bytes with [] => Some s | b :: bytes => s ← drv_putchar n b s; put_all n bytes s end.
End Soft.

(** ** [USB_PRINTF_MODE] *)

Definition USB_PRINT_TIMEOUT : nat := 10.

(** Whether the FIFO of endpoint 8 is full, at each look, and [reg_usb_host_conn]. *)
Class UsbPrintEnv := { ep8_full : nat -> bool; usb_host_conn : bool }.

Record ep8 := mk_ep8 { e_looks : nat; reg_usb_ep8_dat : list Z }.

Section Usb.
Context `{UsbPrintEnv}.

Fixpoint usb_putc_loop (n : nat) (c : Z) (e : ep8) : Z * ep8 :=
  match n with
  | O => (-1, e)
  | S n' =>
      if negb (ep8_full (e_looks e)) then (c, mk_ep8 (S (e_looks e)) (reg_usb_ep8_dat e ++ [c]))
      else usb_putc_loop n' c (mk_ep8 (S (e_looks e)) (reg_usb_ep8_dat e))
  end.
Definition usb_putc (c : Z) (e : ep8) : Z * ep8 := usb_putc_loop USB_PRINT_TIMEOUT c e.
Definition hw_usb_putc (c : Z) (e : ep8) : Z * ep8 := if usb_host_conn then usb_putc c e else (-1, e).

(** A character is written once, or not at all, and the result says which. *)
Lemma usb_putc_once c (e : ep8) :
  0 <= c -> let '(r, e') := usb_putc c e in
  (r = c /\ reg_usb_ep8_dat e' = reg_usb_ep8_dat e ++ [c]) \/
  (r = -1 /\ reg_usb_ep8_dat e' = reg_usb_ep8_dat e /\ forall i, (i < USB_PRINT_TIMEOUT)%nat -> ep8_full (e_looks e + i) = true).
Proof.
  intros Hc. unfold usb_putc. generalize USB_PRINT_TIMEOUT. intros n. revert e. induction n as [|n IH]; intros e; cbn [usb_putc_loop].
  - right. split_and!; [done|done|lia].
  - destruct (ep8_full (e_looks e)) eqn:Ef; cbn [negb]; [|by left].
    specialize (IH (mk_ep8 (S (e_looks e)) (reg_usb_ep8_dat e))). destruct (usb_putc_loop _ _ _) as [r e'].
    destruct IH as [?|(? & ? & Hf)]; [by left|right]. split_and!; [done|done|]. intros [|i] Hi; [by rewrite Nat.add_0_r|].
    specialize (Hf i ltac:(lia)). cbn in Hf. by replace (e_looks e + S i)%nat with (S (e_looks e + i)) by lia.
Qed.
End Usb.

(** ** The receiver *)

(** The level of the pin, from the values of the register. *)
Definition level_at (mask : Z) (w : list (Z * Z)) (t : Z) : bool :=
  foldl (fun v e => if fst e <=? t then negb (Z.land (snd e) mask =? 0) else v) true w.

Definition mid (i : Z) : Z := (2 * i + 1) * (16 * 1000 * 1000) / (2 * BAUDRATE).

(** A receiver at exactly 115200 baud: it looks at the line in every tick until
    it falls, and then in the middle of every bit. *)
Fixpoint wait_low (n : nat) (w : Z -> bool) (t : Z) : option Z :=
  match n with O => None | S n' => if w t then wait_low n' w (t + 1) else Some t end.
Fixpoint sample (w : Z -> bool) (t : Z) (i : Z) (n : nat) : Z :=
  match n with O => 0 | S n' => (if w (t + mid i) then 1 else 0) + 2 * sample w t (i + 1) n' end.
Fixpoint receive (k n : nat) (w : Z -> bool) (t : Z) : list Z :=
  match k with
  | O => []
  | S k' =>
      match wait_low n w t with
      | None => []
      | Some t => if negb (w (t + mid 0)) && w (t + mid 9) then sample w t 1 8 :: receive k' n w (t + mid 9) else []
      end
  end.

(** ** Properties *)

(** The clock goes on between two looks, by at most 9 ticks (0.56 us): what
    interrupts cost must fit in between; they leave the pin alone. *)
Class PrintOk `{PrintEnv} := {
  clk_step k : 0 < p_clk (S k) - p_clk k <= 9;
  irq_tx k v : Z.land (port_irq k v) tx_bit = Z.land v tx_bit;
  tx_pos : { b : Z | 0 <= b < 8 /\ tx_bit = 2 ^ b }
}.

Section Props.
Context `{PrintOk}.

Definition high (v : Z) : bool := negb (Z.land v tx_bit =? 0).
Definition now s : Z := p_clk (pred (l_looks s)).
Definition wave s : Z -> bool := level_at tx_bit (l_wave s).

(** The pin is at the level [v] from now on. *)
Definition steady (v : bool) s : Prop := high (TX_PIN_OUTPUT_REG s) = v /\ forall t, now s <= t -> wave s t = v.

Lemma level_snoc m w x v t : level_at m (w ++ [(x, v)]) t = if x <=? t then negb (Z.land v m =? 0) else level_at m w t.
Proof. unfold level_at. by rewrite foldl_app. Qed.

Lemma now_step s : l_looks s <> O -> 0 < p_clk (l_looks s) - now s <= 9.
Proof. unfold now. destruct (l_looks s) as [|k]; [done|]. intros _. apply clk_step. Qed.

Lemma look_spec v s :
  steady v s -> exists s', look s = (u32 (now s'), s') /\ now s' = p_clk (l_looks s) /\ l_looks s' = S (l_looks s) /\
    steady v s' /\ forall t, wave s' t = wave s t.
Proof.
  intros [Hh Hw]. exists (look s).2. split; [done|]. split; [done|]. split; [done|].
  assert (Hn : now s <= p_clk (l_looks s)).
  { unfold now. destruct (l_looks s) as [|k]; [done|]. pose proof (clk_step k). cbn. lia. }
  assert (Hh' : high (port_irq (l_looks s) (TX_PIN_OUTPUT_REG s)) = v) by (unfold high in *; by rewrite irq_tx).
  assert (E : forall t, level_at tx_bit (l_wave s ++ [(p_clk (l_looks s), port_irq (l_looks s) (TX_PIN_OUTPUT_REG s))]) t = wave s t).
  { intros t. rewrite level_snoc. fold (high (port_irq (l_looks s) (TX_PIN_OUTPUT_REG s))). rewrite Hh'.
    destruct (Z.leb_spec (p_clk (l_looks s)) t); [|done]. by rewrite Hw by lia. }
  split; [|exact E]. split; [exact Hh'|]. intros t Ht. unfold wave at 1. cbn [l_wave]. rewrite E. apply Hw. unfold now in Ht. cbn in Ht. lia.
Qed.

Lemma u32_sub a b : 0 <= a - b < 2 ^ 32 -> u32 (u32 a - u32 b) = a - b.
Proof. intros. unfold u32. rewrite <- Zminus_mod. by apply Z.mod_small. Qed.

Lemma wait_bit_spec n v s T :
  steady v s -> l_looks s <> O -> 0 <= now s - T <= BIT_INTERVAL + 8 -> BIT_INTERVAL - (now s - T) < Z.of_nat n ->
  0 < Z.of_nat n ->
  exists s', wait_bit n (u32 (now s)) (u32 T) s = Some (u32 (now s'), s') /\ l_looks s' <> O /\
    BIT_INTERVAL <= now s' - T <= BIT_INTERVAL + 8 /\ steady v s' /\ forall t, wave s' t = wave s t.
Proof.
  revert s. induction n as [|n IH]; intros s Hs Hl Ht Hf Hn; [lia|]. change BIT_INTERVAL with 138 in *.
  cbn [wait_bit]. change BIT_INTERVAL with 138. rewrite u32_sub by lia. destruct (Z.ltb_spec (now s - T) 138) as [Hlt|Hge].
  - destruct (look_spec v s Hs) as (s1 & -> & E1 & E2 & Hs1 & Hw). pose proof (now_step s Hl).
    destruct (IH s1 Hs1) as (s' & -> & ? & ? & ? & Hw'); [lia|lia|lia|lia|].
    exists s'. split_and!; [done|done|lia|lia|done|]. intros t. by rewrite Hw', Hw.
  - exists s. split_and!; [done|done|lia|lia|done|done].
Qed.

(** From [T] the line shows [v], and then [vs], each for a bit time, up to the
    start of the last of them at [T']. *)
Fixpoint chain (w : Z -> bool) (T : Z) (v : bool) (vs : list bool) (T' : Z) : Prop :=
  match vs with
  | [] => T' = T
  | b :: vs => exists T1, BIT_INTERVAL <= T1 - T <= BIT_INTERVAL + 8 /\ (forall t, T <= t < T1 -> w t = v) /\ chain w T1 b vs T'
  end.

Lemma chain_le w T v vs T' : chain w T v vs T' -> T + Z.of_nat (length vs) * 138 <= T' <= T + Z.of_nat (length vs) * 146.
Proof.
  revert T v. induction vs as [|b vs IH]; intros T v Hc; cbn [chain length] in *; [lia|].
  destruct Hc as (T1 & Hb & _ & Hc). change BIT_INTERVAL with 138 in Hb. specialize (IH _ _ Hc). lia.
Qed.

Lemma chain_ext w w' T v vs T' : (forall t, t < T' -> w' t = w t) -> chain w T v vs T' -> chain w' T v vs T'.
Proof.
  intros E. revert T v. induction vs as [|b vs IH]; intros T v; cbn [chain]; [done|].
  intros (T1 & Hb & Hs & Hc). pose proof (chain_le _ _ _ _ _ Hc). exists T1. split_and!; [lia|lia| |by apply IH].
  intros t Ht. rewrite E by lia. by apply Hs.
Qed.

Lemma chain_at w T v vs T' i t b :
  chain w T v vs T' -> (i < length vs)%nat -> (v :: vs) !! i = Some b ->
  T + Z.of_nat i * 146 <= t < T + (Z.of_nat i + 1) * 138 -> w t = b.
Proof.
  revert T v i. induction vs as [|u vs IH]; intros T v i Hc Hi Hb Ht; cbn [chain length] in *; [lia|].
  destruct Hc as (T1 & HT & Hs & Hc). change BIT_INTERVAL with 138 in HT. destruct i as [|i].
  - injection Hb as <-. apply Hs. lia.
  - apply (IH T1 u i Hc); [lia|exact Hb|lia].
Qed.

Lemma send_bits_spec n bits v s :
  steady v s -> l_looks s <> O -> (147 <= n)%nat ->
  exists s', send_bits n bits (u32 (now s)) s = Some s' /\ l_looks s' <> O /\ TX_PIN_OUTPUT_REG s' = last_or (TX_PIN_OUTPUT_REG s) bits /\
    steady (foldl (fun _ b => b) v (map high bits)) s' /\ chain (wave s') (now s) v (map high bits) (now s') /\
    forall t, t < now s + (if bits is [] then 0 else BIT_INTERVAL) -> wave s' t = wave s t.
Proof.
  intros Hs Hl Hn. revert v s Hs Hl. induction bits as [|b bits IH]; intros v s Hs Hl; cbn [send_bits].
  { exists s. by split_and!. }
  destruct (wait_bit_spec n v s (now s) Hs Hl) as (s1 & -> & Hl1 & HT & [Hh1 Hs1] & Hw1); [change BIT_INTERVAL with 138; lia..|].
  cbn [mbind option_bind]. set (s2 := port_write b s1).
  assert (Ew : forall t, wave s2 t = if now s1 <=? t then high b else wave s1 t) by (intros t; apply level_snoc).
  assert (Hs2 : steady (high b) s2).
  { split; [done|]. intros t Ht. rewrite Ew. change (now s2) with (now s1) in Ht. by rewrite (proj2 (Z.leb_le _ _)). }
  destruct (IH (high b) s2 Hs2 Hl1) as (s' & E & Hl' & Hr & Hs' & Hc & Hw). change (now s2) with (now s1) in *.
  assert (Hold : forall t, t < now s1 -> wave s' t = wave s t).
  { intros t Ht. rewrite Hw by (destruct bits; change BIT_INTERVAL with 138; lia). rewrite Ew, (proj2 (Z.leb_gt _ _)) by done. apply Hw1. }
  exists s'. split; [exact E|]. split; [done|]. split; [by rewrite Hr, last_or_cons|].
  split; [|split].
  - exact Hs'.
  - cbn [map chain]. exists (now s1). split_and!; [lia|lia| |exact Hc]. intros t Ht. rewrite Hold by lia. apply Hs. lia.
  - intros t Ht. apply Hold. lia.
Qed.

(** ** A character *)

Lemma high_bit v : high v = Z.testbit v (proj1_sig tx_pos).
Proof.
  destruct tx_pos as (b & Hb & E). cbn. unfold high. rewrite E, land_bit by lia. destruct (Z.testbit v b); [|done].
  pose proof (Z.pow_pos_nonneg 2 b). by rewrite (proj2 (Z.eqb_neq _ _)) by lia.
Qed.

Lemma high_bit0 v : high (u8 (Z.land v (Z.lnot tx_bit))) = false.
Proof.
  rewrite high_bit. destruct tx_pos as (b & Hb & E). cbn. unfold u8. rewrite Z.mod_pow2_bits_low by lia.
  rewrite Z.land_spec, Z.lnot_spec, E, Z.pow2_bits_true by lia. by rewrite andb_false_r.
Qed.
Lemma high_bit1 v : high (u8 (Z.lor v tx_bit)) = true.
Proof.
  rewrite high_bit. destruct tx_pos as (b & Hb & E). cbn. unfold u8. rewrite Z.mod_pow2_bits_low by lia.
  rewrite Z.lor_spec, E, Z.pow2_bits_true by lia. by rewrite orb_true_r.
Qed.

Lemma high_bit_of byte i v : 0 <= i -> high (bit_of byte i (u8 (Z.land v (Z.lnot tx_bit))) (u8 (Z.lor v tx_bit))) = Z.testbit byte i.
Proof.
  intros Hi. unfold bit_of. change 1 with (2 ^ 0) at 1. rewrite land_bit, Z.shiftr_spec by lia. rewrite Z.add_0_l.
  destruct (Z.testbit byte i); [apply high_bit1|apply high_bit0].
Qed.

Definition byte_bits (byte : Z) : list bool := map (Z.testbit byte) [0; 1; 2; 3; 4; 5; 6; 7].

Lemma putc_spec n byte s :
  steady true s -> (147 <= n)%nat ->
  exists s' T, soft_uart_putc n byte s = Some s' /\ TX_PIN_OUTPUT_REG s' = u8 (Z.lor (TX_PIN_OUTPUT_REG s) tx_bit) /\
    now s <= T <= now s + 9 /\ steady true s' /\ chain (wave s') T true (false :: byte_bits byte ++ [true]) (now s') /\
    forall t, t < now s + BIT_INTERVAL -> wave s' t = wave s t.
Proof.
  intros Hs Hn. unfold soft_uart_putc. destruct (look_spec true s Hs) as (s1 & -> & E1 & E2 & Hs1 & Hw1).
  assert (Ht : now s <= now s1 <= now s + 9).
  { rewrite E1. unfold now. destruct (l_looks s) as [|k]; [cbn; lia|]. pose proof (clk_step k). cbn. lia. }
  set (bits := _ :: _). destruct (send_bits_spec n bits true s1 Hs1) as (s' & E & _ & Hr & Hs' & Hc & Hw); [lia|done|].
  assert (Eb : map high bits = false :: byte_bits byte ++ [true]).
  { subst bits. cbn [map byte_bits app]. by rewrite high_bit0, high_bit1, !high_bit_of by lia. }
  rewrite Eb in *. exists s', (now s1). split_and!; [exact E|exact Hr|lia|lia|exact Hs'|exact Hc|].
  intros t Hlt. rewrite Hw by (change (t < now s1 + BIT_INTERVAL); lia). apply Hw1.
Qed.

(** An interrupt that writes another pin of the group while a character is on its
    way loses its write: the register ends with the values of the other pins from
    before, whatever interrupts wrote. *)
Theorem putc_undoes_other_pins n byte s :
  steady true s -> (147 <= n)%nat ->
  exists s', soft_uart_putc n byte s = Some s' /\ TX_PIN_OUTPUT_REG s' = u8 (Z.lor (TX_PIN_OUTPUT_REG s) tx_bit).
Proof. intros Hs Hn. destruct (putc_spec n byte s Hs Hn) as (s' & T & ? & ? & _). by exists s'. Qed.

(** ** The receiver's side *)

Lemma wait_low_spec n w t T : t <= T -> T - t < Z.of_nat n -> (forall x, t <= x < T -> w x = true) -> w T = false -> wait_low n w t = Some T.
Proof.
  revert t. induction n as [|n IH]; intros t Hle Hn Hh Hl; [lia|]. cbn [wait_low]. destruct (decide (t = T)) as [->|Hne]; [by rewrite Hl|].
  rewrite Hh by lia. apply IH; [lia|lia| |done]. intros x Hx. apply Hh. lia.
Qed.

Lemma sample_byte byte w T :
  0 <= byte < 256 -> (forall i, (i < 8)%nat -> w (T + mid (Z.of_nat i + 1)) = Z.testbit byte (Z.of_nat i)) -> sample w T 1 8 = byte.
Proof.
  intros Hb Hw. cbn [sample].
  assert (E0 : w (T + mid 1) = Z.testbit byte 0) by exact (Hw 0%nat ltac:(lia)).
  assert (E1 : w (T + mid 2) = Z.testbit byte 1) by exact (Hw 1%nat ltac:(lia)).
  assert (E2 : w (T + mid 3) = Z.testbit byte 2) by exact (Hw 2%nat ltac:(lia)).
  assert (E3 : w (T + mid 4) = Z.testbit byte 3) by exact (Hw 3%nat ltac:(lia)).
  assert (E4 : w (T + mid 5) = Z.testbit byte 4) by exact (Hw 4%nat ltac:(lia)).
  assert (E5 : w (T + mid 6) = Z.testbit byte 5) by exact (Hw 5%nat ltac:(lia)).
  assert (E6 : w (T + mid 7) = Z.testbit byte 6) by exact (Hw 6%nat ltac:(lia)).
  assert (E7 : w (T + mid 8) = Z.testbit byte 7) by exact (Hw 7%nat ltac:(lia)).
  change (1 + 1) with 2. change (2 + 1) with 3. change (3 + 1) with 4. change (4 + 1) with 5. change (5 + 1) with 6.
  change (6 + 1) with 7. change (7 + 1) with 8. rewrite E0, E1, E2, E3, E4, E5, E6, E7.
  assert (Hall : forallb (fun k => let b := Z.of_nat k in
    ((if Z.testbit b 0 then 1 else 0) + 2 * ((if Z.testbit b 1 then 1 else 0) + 2 * ((if Z.testbit b 2 then 1 else 0) +
      2 * ((if Z.testbit b 3 then 1 else 0) + 2 * ((if Z.testbit b 4 then 1 else 0) + 2 * ((if Z.testbit b 5 then 1 else 0) +
      2 * ((if Z.testbit b 6 then 1 else 0) + 2 * ((if Z.testbit b 7 then 1 else 0) + 2 * 0))))))) =? b)%Z) (seq 0 256) = true)
    by (vm_compute; reflexivity).
  rewrite forallb_forall in Hall. specialize (Hall (Z.to_nat byte) ltac:(apply in_seq; lia)). cbv zeta in Hall.
  rewrite Z2Nat.id in Hall by lia. by apply Z.eqb_eq.
Qed.

Lemma mid_range i : 0 <= i <= 9 -> i * 146 <= mid i < (i + 1) * 138.
Proof. intros Hi. unfold mid, BAUDRATE. zdm. Qed.

Lemma receive_byte k w byte s s' T t0 :
  0 <= byte < 256 -> steady true s -> steady true s' -> now s <= T <= now s + 9 ->
  chain (wave s') T true (false :: byte_bits byte ++ [true]) (now s') ->
  (forall t, t < now s + BIT_INTERVAL -> wave s' t = wave s t) -> (forall t, t < now s' + BIT_INTERVAL -> w t = wave s' t) ->
  now s <= t0 < now s + BIT_INTERVAL ->
  exists t1, now s' <= t1 < now s' + BIT_INTERVAL /\ receive (S k) 200 w t0 = byte :: receive k 200 w t1.
Proof.
  intros Hb [_ Hs] [_ Hs'] HT (T1 & H1 & Hidle & Hc) Hold Hw Ht0. change BIT_INTERVAL with 138 in *.
  pose proof (chain_le _ _ _ _ _ Hc) as Hn. change (length (byte_bits byte ++ [true])) with 9%nat in Hn.
  assert (Hat : forall i b, (i < 9)%nat -> (false :: byte_bits byte ++ [true]) !! i = Some b -> w (T1 + mid (Z.of_nat i)) = b).
  { intros i b Hi Hl. pose proof (mid_range (Z.of_nat i) ltac:(lia)). rewrite Hw by lia. apply (chain_at _ _ _ _ _ i _ _ Hc Hi Hl). lia. }
  assert (Hlow : wait_low 200 w t0 = Some T1).
  { apply wait_low_spec; [lia|lia| |].
    - intros x Hx. rewrite Hw by lia. destruct (Z.lt_ge_cases x T); [|apply Hidle; lia]. rewrite Hold by lia. apply Hs. lia.
    - rewrite Hw by lia. apply (chain_at _ _ _ _ _ 0 _ _ Hc); [cbn; lia|done|lia]. }
  pose proof (mid_range 9 ltac:(lia)). exists (T1 + mid 9). split; [lia|]. cbn [receive]. rewrite Hlow.
  rewrite (Hat 0%nat false ltac:(lia) eq_refl : w (T1 + mid 0) = false).
  replace (w (T1 + mid 9)) with true by (rewrite Hw by lia; symmetry; apply Hs'; lia). cbn [negb andb]. f_equal.
  apply sample_byte; [done|]. intros i Hi. replace (Z.of_nat i + 1) with (Z.of_nat (S i)) by lia. apply Hat; [lia|].
  do 8 (destruct i as [|i]; [reflexivity|]). lia.
Qed.

Lemma put_all_spec n bytes s :
  steady true s -> (147 <= n)%nat -> Forall (fun b => 0 <= b < 256) bytes ->
  exists s', put_all n bytes s = Some s' /\ steady true s' /\
    (forall t, t < now s + BIT_INTERVAL -> wave s' t = wave s t) /\
    forall t0, now s <= t0 < now s + BIT_INTERVAL -> receive (length bytes) 200 (wave s') t0 = bytes.
Proof.
  intros Hs Hn Hb. revert s Hs. induction Hb as [|b bytes Hb _ IH]; intros s Hs; cbn [put_all]; [by exists s|].
  unfold drv_putchar. rewrite u8_small by done. destruct (putc_spec n b s Hs Hn) as (s1 & T & -> & _ & HT & Hs1 & Hc & Hw1).
  cbn [mbind option_bind]. destruct (IH s1 Hs1) as (s' & E & Hs' & Hw & Hr). exists s'. split; [exact E|]. split; [done|].
  assert (Hle : now s <= now s1) by (pose proof (chain_le _ _ _ _ _ Hc); lia).
  split; [intros t Ht; rewrite Hw by lia; by apply Hw1|].
  intros t0 Ht0. cbn [length]. destruct (receive_byte (length bytes) (wave s') b s s1 T t0) as (t1 & Ht1 & ->); [done..|].
  f_equal. by apply Hr.
Qed.

(** C36. What is printed is received.  While the clock is looked at at least every 9
    ticks, the characters of [printf] leave on the pin as frames that a receiver
    at exactly 115200 baud reads back, one for one and in order, although a bit
    lasts 138 to 146 ticks here and 138.9 there, and the line is idle again. *)
Theorem printed_is_received n bytes s :
  steady true s -> (147 <= n)%nat -> Forall (fun b => 0 <= b < 256) bytes ->
  exists s', put_all n bytes s = Some s' /\ receive (length bytes) 200 (wave s') (now s) = bytes /\ steady true s'.
Proof.
  intros Hs Hn Hb. destruct (put_all_spec n bytes s Hs Hn Hb) as (s' & ? & ? & _ & Hr). exists s'. split_and!; [done| |done].
  apply Hr. change BIT_INTERVAL with 138. lia.
Qed.
End Props.

(** ** A run

    The pin is PA2, the clock is looked at every 5 ticks, and an interrupt
    switches PA0 on at the 20th look. *)
#[local] Instance demo_print : PrintEnv := {| p_clk k := 5 * Z.of_nat k; port_irq k v := if (k =? 20)%nat then Z.lor v 1 else v; tx_bit := 4 |}.

#[local] Instance demo_print_ok : PrintOk.
Proof.
  split.
  - intros k. cbn [p_clk demo_print]. lia.
  - intros k v. cbn [port_irq tx_bit demo_print]. destruct (k =? 20)%nat; [|done].
    change 4 with (2 ^ 2). rewrite !land_bit by lia. rewrite Z.lor_spec. change (Z.testbit 1 2) with false. by rewrite orb_false_r.
  - exists 2. split; [lia|done].
Qed.

Definition line_idle : line := mk_line 4 0 [].

Lemma printed_is_received_witness :
  exists s', put_all 147 [72; 105; 33; 255; 0; 10] line_idle = Some s' /\ receive 6 200 (wave s') 0 = [72; 105; 33; 255; 0; 10].
Proof.
  destruct (printed_is_received 147 [72; 105; 33; 255; 0; 10] line_idle) as (s' & E & Hr & _).
  - by split.
  - lia.
  - repeat constructor; lia.
  - exists s'. split; [exact E|exact Hr].
Defined.

(** The interrupt's write to PA0 is undone by the next bit. *)
Example print_undoes_interrupt :
  match soft_uart_putc 147 72 line_idle with
  | Some s' => TX_PIN_OUTPUT_REG s' = 4 /\ (100, 5) ∈ l_wave s'
  | None => False
  end.
Proof. vm_compute. split; [reflexivity|]. repeat first [apply list_elem_of_here | apply list_elem_of_further]. Qed.

(** An interrupt of ten microseconds within a character garbles it: the receiver
    finds no stop bit. *)
Example print_garbled :
  let env := {| p_clk k := 5 * Z.of_nat k + (if (k <? 120)%nat then 0 else 160); port_irq _ v := v; tx_bit := 4 |} in
  match soft_uart_putc (H := env) 147 72 line_idle with
  | Some s' => receive 1 200 (wave (H := env) s') 0 = []
  | None => False
  end.
Proof. vm_compute. reflexivity. Qed.
