(* ===== verification/HwTimer.v ===== *)
(** * Hardware timers ([proj/drivers/drv_timer.c])

    The three timers of the chip and its system timer, each with an entry that
    holds the ticks, the function to call and a status.  [hwt] holds the entries,
    the registers that the inline functions of the chip's [timer.h] write, what is
    asked of the driver library ([timer_set_mode], [timer_start], [timer_stop],
    oldest first), the calls of timer functions, and the number of readings of the
    clock.  The code is the one of the 8278. *)
From S2P Require Import Prelude Memory Linked SysEv.

Definition TIMER_OVERFLOW_VALUE : Z := 0xFFFFFFFE.
Definition TIMER_SAFE_BOUNDARY_IN_US (v : Z) : Z := u32 (10 * v).
Definition TIMER_IDX_0 : Z := 0.
Definition TIMER_IDX_1 : Z := 1.
Definition TIMER_IDX_2 : Z := 2.
Definition TIMER_IDX_3 : Z := 3.
Definition TIMER_NUM : Z := 4.
Definition TIMER_IDLE : Z := 0.
Definition TIMER_WOF : Z := 1.
Definition TIMER_WTO : Z := 2.
Definition FLD_IRQ_SYSTEM_TIMER : Z := Z.shiftl 1 20.
Definition FLD_SYSTEM_TIMER_AUTO_EN : Z := Z.shiftl 1 2.

(** [ext_clk_t] *)
Record ext_clk_t := mk_ext_clk { low : Z; high : Z }.

(** [hw_timer_sts_t] *)
Inductive hw_timer_sts_t := HW_TIMER_SUCC | HW_TIMER_IS_RUNNING | HW_TIMER_INVALID.

(** [hwTmr_info_t]; [status] is the bit field of the flags. *)
Record hwTmr_info_t := mk_info { expireInfo : ext_clk_t; cb : Z; arg : Z; status : Z }.

Definition info_zero : hwTmr_info_t := mk_info (mk_ext_clk 0 0) 0 0 0.
Definition set_low (v : Z) (e : hwTmr_info_t) : hwTmr_info_t :=
  mk_info (mk_ext_clk v (high (expireInfo e))) (cb e) (arg e) (status e).
Definition set_high (v : Z) (e : hwTmr_info_t) : hwTmr_info_t :=
  mk_info (mk_ext_clk (low (expireInfo e)) v) (cb e) (arg e) (status e).
Definition set_status (v : Z) (e : hwTmr_info_t) : hwTmr_info_t := mk_info (expireInfo e) (cb e) (arg e) v.

(** What is asked of the driver library. *)
Inductive tmr_req := TmrMode (i mode : Z) | TmrStart (i : Z) | TmrStop (i : Z).

(** [timerInfo] and the registers of each timer are indexed by the timer; the
    code never leaves 0..3. *)
Record hwt := mk_hwt {
  timerInfo : Z -> hwTmr_info_t;
  reg_tmr_tick : Z -> Z;
  reg_tmr_capt : Z -> Z;
  reg_irq_mask : Z;
  reg_system_irq_mask : Z;
  reg_system_tick_irq_level : Z;
  w_cpu : cpu;
  w_reads : nat;
  w_reqs : list tmr_req;
  w_calls : list (Z * Z)
}.
Implicit Type s : hwt.

Definition upd {A} (i : Z) (v : A) (f : Z -> A) : Z -> A := fun j => if j =? i then v else f j.
Definition with_timerInfo v s := mk_hwt v (reg_tmr_tick s) (reg_tmr_capt s) (reg_irq_mask s) (reg_system_irq_mask s) (reg_system_tick_irq_level s) (w_cpu s) (w_reads s) (w_reqs s) (w_calls s).
Definition with_reg_tmr_tick v s := mk_hwt (timerInfo s) v (reg_tmr_capt s) (reg_irq_mask s) (reg_system_irq_mask s) (reg_system_tick_irq_level s) (w_cpu s) (w_reads s) (w_reqs s) (w_calls s).
Definition with_reg_tmr_capt v s := mk_hwt (timerInfo s) (reg_tmr_tick s) v (reg_irq_mask s) (reg_system_irq_mask s) (reg_system_tick_irq_level s) (w_cpu s) (w_reads s) (w_reqs s) (w_calls s).
Definition with_reg_irq_mask v s := mk_hwt (timerInfo s) (reg_tmr_tick s) (reg_tmr_capt s) v (reg_system_irq_mask s) (reg_system_tick_irq_level s) (w_cpu s) (w_reads s) (w_reqs s) (w_calls s).
Definition with_reg_system_irq_mask v s := mk_hwt (timerInfo s) (reg_tmr_tick s) (reg_tmr_capt s) (reg_irq_mask s) v (reg_system_tick_irq_level s) (w_cpu s) (w_reads s) (w_reqs s) (w_calls s).
Definition with_level v s := mk_hwt (timerInfo s) (reg_tmr_tick s) (reg_tmr_capt s) (reg_irq_mask s) (reg_system_irq_mask s) v (w_cpu s) (w_reads s) (w_reqs s) (w_calls s).
Definition with_wcpu v s := mk_hwt (timerInfo s) (reg_tmr_tick s) (reg_tmr_capt s) (reg_irq_mask s) (reg_system_irq_mask s) (reg_system_tick_irq_level s) v (w_reads s) (w_reqs s) (w_calls s).
Definition with_wreads v s := mk_hwt (timerInfo s) (reg_tmr_tick s) (reg_tmr_capt s) (reg_irq_mask s) (reg_system_irq_mask s) (reg_system_tick_irq_level s) (w_cpu s) v (w_reqs s) (w_calls s).
Definition tmr_request (r : tmr_req) s := mk_hwt (timerInfo s) (reg_tmr_tick s) (reg_tmr_capt s) (reg_irq_mask s) (reg_system_irq_mask s) (reg_system_tick_irq_level s) (w_cpu s) (w_reads s) (w_reqs s ++ [r]) (w_calls s).
Definition record_call c s := mk_hwt (timerInfo s) (reg_tmr_tick s) (reg_tmr_capt s) (reg_irq_mask s) (reg_system_irq_mask s) (reg_system_tick_irq_level s) (w_cpu s) (w_reads s) (w_reqs s) (w_calls s ++ [c]).
Definition upd_info (i : Z) (f : hwTmr_info_t -> hwTmr_info_t) s : hwt := with_timerInfo (upd i (f (timerInfo s i)) (timerInfo s)) s.

(** The clock of the system timer, its ticks in a microsecond, the clock of the
    chip, and the timer functions (an [int], and the state they leave). *)
Class HwtEnv := {
  sys_clk : nat -> Z;
  sysTimerPerUs : Z;
  CLOCK_SYS_CLOCK_HZ : Z;
  tmr_cb : Z -> Z -> hwt -> Z * hwt
}.

Section Hwt.
Context `{HwtEnv}.

Definition S_TIMER_CLOCK_1US : Z := sysTimerPerUs.
Definition H_TIMER_CLOCK_1US : Z := CLOCK_SYS_CLOCK_HZ / 1000000.
Definition TIMER_TICK_1US_GET (idx : Z) : Z := if idx <? TIMER_IDX_3 then H_TIMER_CLOCK_1US else S_TIMER_CLOCK_1US.

(** ** [timer.h] of the chip *)
Definition hwt_clock_time s : Z * hwt := (u32 (sys_clk (w_reads s)), with_wreads (S (w_reads s)) s).
Definition timer_set_init_tick (i v : Z) s : hwt := with_reg_tmr_tick (upd i v (reg_tmr_tick s)) s.
Definition timer_set_cap_tick (i v : Z) s : hwt := with_reg_tmr_capt (upd i v (reg_tmr_capt s)) s.
Definition timer_irq_enable (i : Z) s : hwt := with_reg_irq_mask (Z.lor (reg_irq_mask s) (Z.shiftl 1 i)) s.
Definition stimer_irq_enable s : hwt := with_reg_system_irq_mask (Z.lor (reg_system_irq_mask s) FLD_SYSTEM_TIMER_AUTO_EN) s.
Definition stimer_set_irq_capture (tick : Z) s : hwt := with_level (Z.land tick (u32 (Z.lnot 0x07))) s.
Definition stimer_set_irq_mask s : hwt := with_reg_irq_mask (Z.lor (reg_irq_mask s) FLD_IRQ_SYSTEM_TIMER) s.
Definition stimer_clr_irq_mask s : hwt := with_reg_irq_mask (Z.land (reg_irq_mask s) (u32 (Z.lnot FLD_IRQ_SYSTEM_TIMER))) s.

(** ** One timer of either kind *)
Definition hwTimerInit (tmrIdx mode : Z) s : hwt :=
  if tmrIdx <? TIMER_IDX_3 then
    let s := timer_set_init_tick tmrIdx 0 s in
    let s := tmr_request (TmrMode tmrIdx mode) s in
    timer_irq_enable tmrIdx s
  else stimer_irq_enable s.

Definition hwTimerSet (tmrIdx tick : Z) s : hwt :=
  if tmrIdx <? TIMER_IDX_3 then timer_set_cap_tick tmrIdx tick s
  else let '(now, s) := hwt_clock_time s in stimer_set_irq_capture (u32 (tick + now)) s.

Definition hwTimerStart (tmrIdx : Z) s : hwt :=
  if tmrIdx <? TIMER_IDX_3 then tmr_request (TmrStart tmrIdx) s else stimer_set_irq_mask s.

Definition hwTimerStop (tmrIdx : Z) s : hwt :=
  if tmrIdx <? TIMER_IDX_3 then tmr_request (TmrStop tmrIdx) s else stimer_clr_irq_mask s.

(** The ticks for the capture: a whole turn of the counter while the high word
    is not 0. *)
Definition capture_of (e : hwTmr_info_t) : Z :=
  if negb (high (expireInfo e) =? 0) then TIMER_OVERFLOW_VALUE else low (expireInfo e).

(** ** Operations *)
Definition hwTmr_setAbs (tmrIdx : Z) (absTimer : ext_clk_t) (func a : Z) s : hw_timer_sts_t * hwt :=
  if negb (status (timerInfo s tmrIdx) =? TIMER_IDLE) then (HW_TIMER_IS_RUNNING, s)
  else
    let '(r, c) := drv_disable_irq (w_cpu s) in
    let s := with_wcpu c s in
    let st := if negb (high absTimer =? 0) then TIMER_WOF else TIMER_WTO in
    let s := upd_info tmrIdx (fun _ => mk_info absTimer func a st) s in
    let pTimer := timerInfo s tmrIdx in
    if (high (expireInfo pTimer) =? 0)
       && (low (expireInfo pTimer) <? TIMER_SAFE_BOUNDARY_IN_US (TIMER_TICK_1US_GET tmrIdx)) then
      let s := with_wcpu (drv_restore_irq r (w_cpu s)) s in
      let s := upd_info tmrIdx (fun _ => info_zero) s in
      let s := if negb (func =? 0) then (tmr_cb func a (record_call (func, a) s)).2 else s in
      (HW_TIMER_SUCC, s)
    else
      let s := hwTimerSet tmrIdx (capture_of pTimer) s in
      let s := hwTimerStart tmrIdx s in
      (HW_TIMER_SUCC, with_wcpu (drv_restore_irq r (w_cpu s)) s).

Definition drv_hwTmr_irq_process (tmrIdx : Z) s : hwt :=
  if TIMER_WTO =? status (timerInfo s tmrIdx) then
    if negb (cb (timerInfo s tmrIdx) =? 0) then
      let func := cb (timerInfo s tmrIdx) in
      let a := arg (timerInfo s tmrIdx) in
      let '(t, s) := tmr_cb func a (record_call (func, a) s) in
      if t <? 0 then
        let s := hwTimerStop tmrIdx s in
        upd_info tmrIdx (fun _ => info_zero) s
      else if t =? 0 then
        if tmrIdx <? TIMER_IDX_3 then s
        else hwTimerSet tmrIdx (capture_of (timerInfo s tmrIdx)) s
      else
        let s := upd_info tmrIdx (set_low (u32 (t * TIMER_TICK_1US_GET tmrIdx))) s in
        hwTimerSet tmrIdx (capture_of (timerInfo s tmrIdx)) s
    else s
  else
    let s := upd_info tmrIdx (fun e => set_high (u32 (high (expireInfo e) - 1)) e) s in
    if negb (high (expireInfo (timerInfo s tmrIdx)) =? 0) then hwTimerSet tmrIdx TIMER_OVERFLOW_VALUE s
    else
      let s := hwTimerSet tmrIdx (low (expireInfo (timerInfo s tmrIdx))) s in
      upd_info tmrIdx (set_status TIMER_WTO) s.

Definition hwTimerInfoReset (tmrIdx : Z) s : hwt := upd_info tmrIdx (fun _ => info_zero) s.

Definition drv_hwTmr_init (tmrIdx mode : Z) s : hwt :=
  if TIMER_NUM <=? tmrIdx then s else hwTimerInit tmrIdx mode (hwTimerInfoReset tmrIdx s).

Definition drv_hwTmr_cancel (tmrIdx : Z) s : hwt :=
  if TIMER_NUM <=? tmrIdx then s
  else
    let '(r, c) := drv_disable_irq (w_cpu s) in
    let s := hwTimerStop tmrIdx (with_wcpu c s) in
    let s := upd_info tmrIdx (fun _ => info_zero) s in
    with_wcpu (drv_restore_irq r (w_cpu s)) s.

Definition drv_hwTmr_set (tmrIdx t_us func a : Z) s : hw_timer_sts_t * hwt :=
  if TIMER_NUM <=? tmrIdx then (HW_TIMER_INVALID, s)
  else hwTmr_setAbs tmrIdx (mk_ext_clk (u32 (t_us * TIMER_TICK_1US_GET tmrIdx)) 0) func a s.

(** ** Interrupt handlers *)
Definition drv_timer_irq0_handler s : hwt := drv_hwTmr_irq_process TIMER_IDX_0 s.
Definition drv_timer_irq1_handler s : hwt := drv_hwTmr_irq_process TIMER_IDX_1 s.
Definition drv_timer_irq3_handler s : hwt := drv_hwTmr_irq_process TIMER_IDX_3 s.
End Hwt.
