(* ===== verification/HwTimerProps.v ===== *)
(** * Hardware timers: properties

    The four hardware timers implement an abstract table in which a timer is idle
    or waits a number of ticks to call a function: any sequence of
    initialisations, starts, cancellations and interrupts gives the same results
    and the same calls, and leaves the registers as the table says, also when the
    functions called use the timers themselves. *)
From S2P Require Import Prelude Memory Linked SysEv HwTimer.

(** ** The abstract timers *)

(** A timer that waits: its period in ticks, the clock when it was started (for
    the system timer), and what it calls. *)
Record arm := mk_arm { a_ticks : Z; a_at : Z; a_func : Z; a_arg : Z }.

(** [ready]: the interrupt of the timer is enabled. *)
Record stimers := mk_stimers {
  armed : Z -> option arm;
  ready : Z -> bool;
  sp_reads : nat;
  sp_calls : list (Z * Z);
  sp_cpu : cpu
}.
Implicit Type σ : stimers.

Definition with_armed v σ := mk_stimers v (ready σ) (sp_reads σ) (sp_calls σ) (sp_cpu σ).
Definition with_ready v σ := mk_stimers (armed σ) v (sp_reads σ) (sp_calls σ) (sp_cpu σ).
Definition sp_read σ := mk_stimers (armed σ) (ready σ) (S (sp_reads σ)) (sp_calls σ) (sp_cpu σ).
Definition sp_call c σ := mk_stimers (armed σ) (ready σ) (sp_reads σ) (sp_calls σ ++ [c]) (sp_cpu σ).

Class SpecCb := sp_cb : Z -> Z -> stimers -> Z * stimers.

Section Spec.
Context `{HwtEnv, SpecCb}.

Definition disarm (i : Z) σ : stimers := with_armed (upd i None (armed σ)) σ.

(** A time of [t] microseconds on timer [i]: 32 bits of ticks. *)
Definition ticks_of (i t : Z) : Z := (t * TIMER_TICK_1US_GET i) mod 2 ^ 32.

(** The period of timer [i] is [ticks] from now on; only the system timer reads
    the clock, and also when it is idle by then. *)
Definition rearm (i : Z) (o : option arm) σ : stimers :=
  if i <? 3 then with_armed (upd i o (armed σ)) σ
  else with_armed (upd i ((fun x => mk_arm (a_ticks x) (u32 (sys_clk (sp_reads σ))) (a_func x) (a_arg x)) <$> o) (armed σ)) (sp_read σ).

Definition spec_init (i : Z) σ : stimers := if 4 <=? i then σ else with_ready (upd i true (ready σ)) σ.
Definition spec_cancel (i : Z) σ : stimers := if 4 <=? i then σ else disarm i σ.

(** A time that is under ten microseconds, or whose ticks wrap to that, is not
    waited for. *)
Definition spec_set (i t f a : Z) σ : hw_timer_sts_t * stimers :=
  if 4 <=? i then (HW_TIMER_INVALID, σ)
  else match armed σ i with
  | Some _ => (HW_TIMER_IS_RUNNING, σ)
  | None =>
      (HW_TIMER_SUCC,
       if ticks_of i t <? 10 * TIMER_TICK_1US_GET i then (if f =? 0 then σ else (sp_cb f a (sp_call (f, a) σ)).2)
       else rearm i (Some (mk_arm (ticks_of i t) 0 f a)) σ)
  end.

(** The interrupt of a timer that waits. *)
Definition spec_irq (i : Z) σ : stimers :=
  match armed σ i with
  | None => σ
  | Some x =>
      if a_func x =? 0 then σ
      else
        let '(t, σ) := sp_cb (a_func x) (a_arg x) (sp_call (a_func x, a_arg x) σ) in
        if t <? 0 then disarm i σ
        else if t =? 0 then (if i <? 3 then σ else rearm i (armed σ i) σ)
        else rearm i ((fun x => mk_arm (ticks_of i t) (a_at x) (a_func x) (a_arg x)) <$> armed σ i) σ
  end.

(** ** Sequences of operations *)
Inductive hwt_op := OInit (i mode : Z) | OSet (i t f a : Z) | OCancel (i : Z) | OIrq (i : Z).

Definition hwt_do (o : hwt_op) s : option hw_timer_sts_t * hwt :=
  match o with
  | OInit i m => (None, drv_hwTmr_init i m s)
  | OSet i t f a => let '(r, s) := drv_hwTmr_set i t f a s in (Some r, s)
  | OCancel i => (None, drv_hwTmr_cancel i s)
  | OIrq i => (None, if i =? 0 then drv_timer_irq0_handler s else if i =? 1 then drv_timer_irq1_handler s else drv_timer_irq3_handler s)
  end.

Definition spec_do (o : hwt_op) σ : option hw_timer_sts_t * stimers :=
  match o with
  | OInit i m => (None, spec_init i σ)
  | OSet i t f a => let '(r, σ) := spec_set i t f a σ in (Some r, σ)
  | OCancel i => (None, spec_cancel i σ)
  | OIrq i => (None, spec_irq i σ)
  end.

Fixpoint hwt_run (os : list hwt_op) s : list (option hw_timer_sts_t) * hwt :=
  match os with
  | [] => ([], s)
  | o :: os => let '(r, s) := hwt_do o s in let '(rs, s) := hwt_run os s in (r :: rs, s)
  end.
Fixpoint spec_run (os : list hwt_op) σ : list (option hw_timer_sts_t) * stimers :=
  match os with
  | [] => ([], σ)
  | o :: os => let '(r, σ) := spec_do o σ in let '(rs, σ) := spec_run os σ in (r :: rs, σ)
  end.

(** Timers are initialised while they are idle, and a timer that is idle does not
    interrupt. *)
Definition op_ok (o : hwt_op) σ : Prop :=
  match o with
  | OInit i _ => 0 <= i /\ (i < 4 -> armed σ i = None)
  | OSet i _ _ _ => 0 <= i
  | OCancel i => 0 <= i
  | OIrq i => (i = 0 \/ i = 1 \/ i = 3) /\ armed σ i <> None
  end.
Fixpoint ops_ok (os : list hwt_op) σ : Prop :=
  match os with [] => True | o :: os => op_ok o σ /\ ops_ok os (spec_do o σ).2 end.
End Spec.

(** ** The registers *)

(** What the requests to the library leave running. *)
Definition lib_runs (i : Z) (l : list tmr_req) : bool :=
  foldl (fun b r => match r with TmrStart j => if j =? i then true else b | TmrStop j => if j =? i then false else b | _ => b end) false l.

Definition runs (i : Z) s : bool := if i <? 3 then lib_runs i (w_reqs s) else Z.testbit (reg_irq_mask s) 20.
Definition capture (i : Z) s : Z := if i <? 3 then reg_tmr_capt s i else reg_system_tick_irq_level s.
Definition enabled (i : Z) s : bool := if i <? 3 then Z.testbit (reg_irq_mask s) i else Z.testbit (reg_system_irq_mask s) 2.

(** The value the counter is compared with: a timer of the chip counts from 0,
    the system timer never stops and drops the three low bits. *)
Definition capture_for (i : Z) (x : arm) : Z :=
  if i <? 3 then a_ticks x else Z.land (u32 (a_ticks x + a_at x)) (u32 (Z.lnot 0x07)).

Definition entry_ok (i : Z) s (o : option arm) : Prop :=
  match o with
  | None => status (timerInfo s i) = TIMER_IDLE /\ runs i s = false
  | Some x => timerInfo s i = mk_info (mk_ext_clk (a_ticks x) 0) (a_func x) (a_arg x) TIMER_WTO /\
      runs i s = true /\ capture i s = capture_for i x
  end.

Record hwt_rel s σ : Prop := {
  rel_entry i : 0 <= i < 4 -> entry_ok i s (armed σ i);
  rel_ready i : 0 <= i < 4 -> enabled i s = ready σ i;
  rel_reads : w_reads s = sp_reads σ;
  rel_calls : w_calls s = sp_calls σ;
  rel_cpu : w_cpu s = sp_cpu σ;
  rel_irq_ok : irq_ok (sp_cpu σ)
}.

(** What the environment promises: plausible clocks, and functions that do to the
    timers what their abstract counterparts do. *)
Class HwtOk `{HwtEnv, SpecCb} : Prop := {
  tick_pos i : 0 < TIMER_TICK_1US_GET i;
  tick_small i : 10 * TIMER_TICK_1US_GET i < 2 ^ 32;
  cb_sim f a s σ : f <> 0 -> hwt_rel s σ ->
    (tmr_cb f a s).1 = (sp_cb f a σ).1 /\ hwt_rel (tmr_cb f a s).2 (sp_cb f a σ).2
}.

(** ** One timer at a time *)
Section Steps.
Context `{HwtOk}.

(** The relation but for the entry of timer [i], with the processor in the state
    [k]. *)
Record rel_but (i : Z) (k : cpu) s σ : Prop := {
  but_entry j : 0 <= j < 4 -> j <> i -> entry_ok j s (armed σ j);
  but_ready j : 0 <= j < 4 -> enabled j s = ready σ j;
  but_reads : w_reads s = sp_reads σ;
  but_calls : w_calls s = sp_calls σ;
  but_cpu_is : w_cpu s = k;
  but_irq_ok : irq_ok (sp_cpu σ)
}.

Lemma rel_out i s σ : hwt_rel s σ -> rel_but i (sp_cpu σ) s σ.
Proof. intros []. by split; auto. Qed.

Lemma rel_in i s σ : rel_but i (sp_cpu σ) s σ -> entry_ok i s (armed σ i) -> hwt_rel s σ.
Proof. intros [He ?] Hi. split; auto. intros j Hj. destruct (decide (j = i)) as [->|]; auto. Qed.

Lemma upd_same {A} i (v : A) f : upd i v f i = v.
Proof. unfold upd. by rewrite Z.eqb_refl. Qed.
Lemma upd_other {A} i j (v : A) f : j <> i -> upd i v f j = f j.
Proof. intros. unfold upd. by rewrite (proj2 (Z.eqb_neq j i)). Qed.

(** The bits of the masks that the other timers own. *)
Lemma clr_mask_bit b j : 0 <= j < 20 -> Z.testbit (Z.land b (u32 (Z.lnot FLD_IRQ_SYSTEM_TIMER))) j = Z.testbit b j.
Proof.
  intros Hj. rewrite Z.land_spec. replace (Z.testbit (u32 _) j) with true; [by rewrite andb_true_r|].
  change (u32 (Z.lnot FLD_IRQ_SYSTEM_TIMER)) with (Z.lxor (Z.ones 32) (2 ^ 20)).
  rewrite Z.lxor_spec, Z.ones_spec_low, Z.pow2_bits_false by lia. done.
Qed.
Lemma clr_mask_bit20 b : Z.testbit (Z.land b (u32 (Z.lnot FLD_IRQ_SYSTEM_TIMER))) 20 = false.
Proof. rewrite Z.land_spec. by rewrite andb_false_r. Qed.
Lemma or_mask_bit b i j : 0 <= i -> 0 <= j -> Z.testbit (Z.lor b (Z.shiftl 1 i)) j = (j =? i) || Z.testbit b j.
Proof.
  intros. rewrite Z.lor_spec, Z.shiftl_mul_pow2, Z.mul_1_l, Z.pow2_bits_eqb, Z.eqb_sym by lia. apply orb_comm.
Qed.

Lemma lib_runs_app i l r :
  lib_runs i (l ++ [r]) =
    match r with TmrStart j => if j =? i then true else lib_runs i l | TmrStop j => if j =? i then false else lib_runs i l | _ => lib_runs i l end.
Proof. unfold lib_runs. rewrite foldl_app. done. Qed.

#[local] Arguments Z.testbit : simpl never.
#[local] Arguments Z.land : simpl never.
#[local] Arguments Z.lor : simpl never.
#[local] Arguments lib_runs : simpl never.

(** Both kinds of timer at once. *)
Ltac kinds i := destruct (Z.ltb_spec i 3); cbn.
Ltac untouched Hb := destruct Hb as [He Hr ? ? ? ?]; split; cbn; auto; intros j Hj;
  try (intros Hji; specialize (He j Hj Hji)); specialize (Hr j Hj);
  unfold entry_ok, enabled, runs, capture, capture_for in *; cbn in *.

Lemma but_upd_info i k g s σ : rel_but i k s σ -> rel_but i k (upd_info i g s) σ.
Proof. intros Hb. untouched Hb; by rewrite ?upd_other by done. Qed.

Lemma but_cpu i k c s σ : rel_but i k s σ -> rel_but i c (with_wcpu c s) σ.
Proof. intros Hb. untouched Hb; done. Qed.

Lemma but_armed i k o s σ : rel_but i k s σ -> rel_but i k s (with_armed (upd i o (armed σ)) σ).
Proof. intros Hb. untouched Hb; by rewrite ?upd_other by done. Qed.

Lemma but_start i k s σ : 0 <= i < 4 -> rel_but i k s σ -> rel_but i k (hwTimerStart i s) σ /\ runs i (hwTimerStart i s) = true.
Proof.
  intros Hi Hb. unfold hwTimerStart, TIMER_IDX_3. split.
  - kinds i; untouched Hb.
    + destruct (j <? 3); [|done]. rewrite lib_runs_app, (proj2 (Z.eqb_neq i j)) by done. done.
    + destruct (Z.ltb_spec j 3); [done|lia].
    + destruct (Z.ltb_spec j 3); [|done]. unfold FLD_IRQ_SYSTEM_TIMER. rewrite or_mask_bit, (proj2 (Z.eqb_neq j 20)) by lia. done.
  - unfold runs. kinds i; [by rewrite lib_runs_app, Z.eqb_refl|]. unfold FLD_IRQ_SYSTEM_TIMER. by rewrite or_mask_bit.
Qed.

Lemma but_stop i k s σ : 0 <= i < 4 -> rel_but i k s σ -> rel_but i k (hwTimerStop i s) σ /\ runs i (hwTimerStop i s) = false.
Proof.
  intros Hi Hb. unfold hwTimerStop, TIMER_IDX_3. split.
  - kinds i; untouched Hb.
    + destruct (j <? 3); [|done]. rewrite lib_runs_app, (proj2 (Z.eqb_neq i j)) by done. done.
    + destruct (Z.ltb_spec j 3); [done|lia].
    + destruct (Z.ltb_spec j 3); [|done]. rewrite clr_mask_bit by lia. done.
  - unfold runs. kinds i; [by rewrite lib_runs_app, Z.eqb_refl|]. apply clr_mask_bit20.
Qed.

(** [hwTimerSet] brings the entry [o] of timer [i] into the registers. *)
Definition awaits (i tick : Z) s (o : option arm) : Prop :=
  match o with
  | None => status (timerInfo s i) = TIMER_IDLE /\ runs i s = false
  | Some x => timerInfo s i = mk_info (mk_ext_clk (a_ticks x) 0) (a_func x) (a_arg x) TIMER_WTO /\ tick = a_ticks x
  end.

Lemma set_rearms i k tick s σ o :
  0 <= i < 4 -> rel_but i k s σ -> awaits i tick s o ->
  rel_but i k (hwTimerSet i tick s) (rearm i o σ) /\ runs i (hwTimerSet i tick s) = runs i s /\
  (runs i s = bool_decide (o <> None) -> entry_ok i (hwTimerSet i tick s) (armed (rearm i o σ) i)).
Proof.
  intros Hi Hb Ho. unfold hwTimerSet, rearm, TIMER_IDX_3. split; [|split].
  - kinds i; untouched Hb; rewrite ?upd_other by done; try done.
    destruct (Z.ltb_spec j 3); [done|lia].
  - unfold runs. kinds i; done.
  - intros Hr. destruct Hb as [_ _ Hk _ _ _]. unfold awaits, entry_ok, runs, capture, capture_for in *.
    kinds i; rewrite upd_same; destruct o as [x|]; cbn in *; rewrite ?Hr, <- ?Hk, ?upd_same; cbn; naive_solver.
Qed.

(** ** The operations *)
Lemma idx_cases i : 0 <= i -> i < 4 \/ (4 <=? i) = true.
Proof. intros. destruct (Z.leb_spec 4 i); auto with lia. Qed.

Lemma but_disarm i k s σ :
  0 <= i < 4 -> rel_but i k s σ ->
  rel_but i k (upd_info i (fun _ => info_zero) (hwTimerStop i s)) (disarm i σ) /\
  entry_ok i (upd_info i (fun _ => info_zero) (hwTimerStop i s)) (armed (disarm i σ) i).
Proof.
  intros Hi Hb. destruct (but_stop i k s σ Hi Hb) as [Hb' Hr]. split; [apply but_upd_info, but_armed, Hb'|].
  cbn [armed disarm with_armed]. rewrite upd_same. split; [|exact Hr]. cbn [timerInfo upd_info with_timerInfo]. by rewrite upd_same.
Qed.

(** Interrupts are disabled, and enabled again as they were. *)
Lemma but_locked i s σ : hwt_rel s σ -> rel_but i (with_irq 0 (w_cpu s)) (with_wcpu (drv_disable_irq (w_cpu s)).2 s) σ.
Proof. intros Hrel. eapply but_cpu. by apply rel_out. Qed.

Lemma cpu_unlocked c : irq_ok c -> drv_restore_irq (u32 (c_irq c)) (with_irq 0 c) = c.
Proof. intros Hc. unfold irq_ok in Hc. unfold drv_restore_irq. rewrite u32_small, u8_small by lia. by destruct c. Qed.

Lemma rel_unlocked i s s' σ σ' :
  hwt_rel s σ -> sp_cpu σ' = sp_cpu σ -> rel_but i (with_irq 0 (w_cpu s)) s' σ' -> entry_ok i s' (armed σ' i) ->
  hwt_rel (with_wcpu (drv_restore_irq (drv_disable_irq (w_cpu s)).1 (w_cpu s')) s') σ'.
Proof.
  intros Hrel Hs Hb He. pose proof (rel_cpu _ _ Hrel) as Hc. apply (rel_in i); [|exact He].
  rewrite (but_cpu_is _ _ _ _ Hb). replace (sp_cpu σ') with (w_cpu s) by congruence. cbn [drv_disable_irq fst].
  rewrite cpu_unlocked by (rewrite Hc; apply Hrel). by eapply but_cpu.
Qed.

Lemma hwt_init_rel i m s σ : op_ok (OInit i m) σ -> hwt_rel s σ -> hwt_rel (drv_hwTmr_init i m s) (spec_init i σ).
Proof.
  intros [Hi0 Hidle] Hrel. unfold drv_hwTmr_init, spec_init, TIMER_NUM. destruct (Z.leb_spec 4 i) as [|Hi]; [done|].
  specialize (Hidle Hi). pose proof (rel_entry _ _ Hrel i ltac:(lia)) as Hent. rewrite Hidle in Hent.
  apply (rel_out i) in Hrel. unfold hwTimerInit, hwTimerInfoReset, TIMER_IDX_3. apply (rel_in i).
  - kinds i; untouched Hrel; rewrite ?upd_other by done; rewrite ?lib_runs_app.
    + destruct (Z.ltb_spec j 3); [done|]. by rewrite or_mask_bit, (proj2 (Z.eqb_neq 20 i)) by lia.
    + unfold upd. destruct (Z.ltb_spec j 3).
      * rewrite or_mask_bit by lia. by destruct (j =? i).
      * by rewrite (proj2 (Z.eqb_neq j i)) by lia.
    + done.
    + unfold upd. destruct (Z.ltb_spec j 3).
      * by rewrite (proj2 (Z.eqb_neq j i)) by lia.
      * unfold FLD_SYSTEM_TIMER_AUTO_EN. rewrite or_mask_bit by lia. by replace (j =? i) with true by lia.
  - destruct Hent as [_ Hr]. cbn [armed with_ready]. rewrite Hidle. unfold entry_ok, runs in *.
    destruct (i <? 3) eqn:E; cbn; rewrite upd_same; (split; [done|]); [by rewrite lib_runs_app|done].
Qed.

Lemma cancel_rel i s σ : 0 <= i -> hwt_rel s σ -> hwt_rel (drv_hwTmr_cancel i s) (spec_cancel i σ).
Proof.
  intros Hi0 Hrel. unfold drv_hwTmr_cancel, spec_cancel, TIMER_NUM. destruct (Z.leb_spec 4 i) as [|Hi]; [done|].
  assert (Hi' : 0 <= i < 4) by lia.
  destruct (but_disarm i _ _ σ Hi' (but_locked i s σ Hrel)) as [Hb He].
  by apply (rel_unlocked i _ _ σ).
Qed.
Lemma rel_call c s σ : hwt_rel s σ -> hwt_rel (record_call c s) (sp_call c σ).
Proof. intros [? ? ? Hc ? ?]. split; cbn; auto. by rewrite Hc. Qed.

Lemma cb_rel f a s σ :
  f <> 0 -> hwt_rel s σ ->
  exists t s' σ', tmr_cb f a (record_call (f, a) s) = (t, s') /\ sp_cb f a (sp_call (f, a) σ) = (t, σ') /\
    hwt_rel s' σ'.
Proof.
  intros Hf Hrel. pose proof (cb_sim f a _ _ Hf (rel_call (f, a) _ _ Hrel)) as [E Hr].
  destruct (tmr_cb f a _) as [t s'], (sp_cb f a _) as [t' σ']. cbn in *. subst t'. by exists t, s', σ'.
Qed.

Lemma boundary_spec i : TIMER_SAFE_BOUNDARY_IN_US (TIMER_TICK_1US_GET i) = 10 * TIMER_TICK_1US_GET i.
Proof. pose proof (tick_pos i). pose proof (tick_small i). apply u32_small. lia. Qed.

Lemma rearm_cpu i o σ : sp_cpu (rearm i o σ) = sp_cpu σ.
Proof. unfold rearm. by destruct (i <? 3). Qed.

(** Arming timer [i]: the capture, then the start. *)
Lemma but_arm i k x s σ :
  0 <= i < 4 -> rel_but i k s σ -> timerInfo s i = mk_info (mk_ext_clk (a_ticks x) 0) (a_func x) (a_arg x) TIMER_WTO ->
  let s' := hwTimerStart i (hwTimerSet i (a_ticks x) s) in
  rel_but i k s' (rearm i (Some x) σ) /\ entry_ok i s' (armed (rearm i (Some x) σ) i).
Proof.
  intros Hi Hb Hx s'. destruct (set_rearms i k (a_ticks x) s σ (Some x) Hi Hb (conj Hx eq_refl)) as (Hb' & _ & _).
  destruct (but_start i k _ _ Hi Hb') as [Hb'' Hr]. split; [exact Hb''|]. destruct Hb as [_ _ Hk _ _ _]. subst s'.
  unfold rearm, entry_ok, hwTimerSet, hwTimerStart, runs, capture, capture_for, TIMER_IDX_3 in *.
  destruct (i <? 3); cbn in *; rewrite upd_same; cbn; rewrite ?upd_same, <- ?Hk; auto.
Qed.

Lemma set_rel i t f a s σ :
  op_ok (OSet i t f a) σ -> hwt_rel s σ ->
  (drv_hwTmr_set i t f a s).1 = (spec_set i t f a σ).1 /\ hwt_rel (drv_hwTmr_set i t f a s).2 (spec_set i t f a σ).2.
Proof.
  intros Hi0 Hrel. cbn in Hi0. unfold drv_hwTmr_set, spec_set, TIMER_NUM. destruct (Z.leb_spec 4 i) as [|Hi]; [done|].
  assert (Hi' : 0 <= i < 4) by lia. pose proof (rel_entry _ _ Hrel i Hi') as Hent. unfold hwTmr_setAbs.
  destruct (armed σ i) as [x|] eqn:Ea.
  { destruct Hent as [-> _]. done. }
  destruct Hent as [-> Hr]. pose proof (but_locked i s σ Hrel) as Hl. cbn [negb Z.eqb TIMER_IDLE drv_disable_irq fst snd] in Hl |- *.
  set (s1 := with_wcpu _ s) in *. set (x := mk_arm (ticks_of i t) 0 f a).
  pose proof (but_upd_info i _ (fun _ => mk_info (mk_ext_clk (u32 (t * TIMER_TICK_1US_GET i)) 0) f a TIMER_WTO) s1 σ Hl) as Hb.
  cbn [high negb Z.eqb]. set (s2 := upd_info i _ s1) in *.
  assert (E2 : timerInfo s2 i = mk_info (mk_ext_clk (a_ticks x) 0) f a TIMER_WTO).
  { cbn. by rewrite upd_same. }
  rewrite E2. cbn [high low expireInfo Z.eqb andb].
  rewrite boundary_spec. change (ticks_of i t) with (a_ticks x). destruct (a_ticks x <? _).
  - match goal with |- context [upd_info i (fun _ => info_zero) ?y] => set (s3 := upd_info i (fun _ => info_zero) y) end.
    assert (H3 : hwt_rel s3 σ).
    { apply (rel_in i); [apply but_upd_info|].
      - pose proof (rel_cpu _ _ Hrel) as Hc.
        assert (Ec : drv_restore_irq (u32 (c_irq (w_cpu s))) (with_irq 0 (w_cpu s)) = sp_cpu σ).
        { rewrite cpu_unlocked; [exact Hc|]. rewrite Hc. apply Hrel. }
        change (w_cpu s2) with (with_irq 0 (w_cpu s)). rewrite Ec. eapply but_cpu. exact Hb.
      - rewrite Ea. split; [|exact Hr]. cbn. by rewrite upd_same. }
    split; [done|]. cbn [snd]. destruct (Z.eqb_spec f 0) as [|Hf]; cbn [negb]; [exact H3|].
    destruct (cb_rel f a s3 σ Hf H3) as (t' & s' & σ' & -> & -> & ?). done.
  - split; [done|]. destruct (but_arm i _ x s2 σ Hi' Hb E2) as [Hb' He].
    apply (rel_unlocked i s _ σ _ Hrel (rearm_cpu _ _ _) Hb' He).
Qed.
Lemma irq_rel i s σ :
  0 <= i < 4 -> armed σ i <> None -> hwt_rel s σ -> hwt_rel (drv_hwTmr_irq_process i s) (spec_irq i σ).
Proof.
  intros Hi Harm Hrel. pose proof (rel_entry _ _ Hrel i Hi) as Hent. unfold drv_hwTmr_irq_process, spec_irq.
  destruct (armed σ i) as [x|] eqn:Ea; [|done]. destruct Hent as (-> & _ & _). cbn [status cb arg Z.eqb TIMER_WTO].
  destruct (Z.eqb_spec (a_func x) 0) as [|Hf]; cbn [negb]; [exact Hrel|].
  destruct (cb_rel (a_func x) (a_arg x) s σ Hf Hrel) as (t & s' & σ' & -> & -> & Hrel2).
  clear Hrel. rename Hrel2 into Hrel. pose proof (rel_out i _ _ Hrel) as Hb. pose proof (rel_entry _ _ Hrel i Hi) as Hent.
  destruct (Z.ltb_spec t 0) as [|Ht0]; [|destruct (Z.eqb_spec t 0) as [->|Ht]].
  - destruct (but_disarm i _ _ _ Hi Hb) as [Hb' He]. by apply (rel_in i).
  - unfold TIMER_IDX_3. destruct (i <? 3) eqn:Ei; [exact Hrel|].
    destruct (set_rearms i _ (capture_of (timerInfo s' i)) s' σ' (armed σ' i) Hi Hb) as (Hb' & _ & He).
    { destruct (armed σ' i); [|exact Hent]. destruct Hent as (E & _ & _). by rewrite E. }
    apply (rel_in i); [by rewrite rearm_cpu|]. apply He. destruct (armed σ' i); [by destruct Hent as (_ & -> & _)|by destruct Hent as [_ ->]].
  - change (u32 (t * TIMER_TICK_1US_GET i)) with (ticks_of i t). set (v := ticks_of i t). set (s2 := upd_info i (set_low v) s').
    destruct (set_rearms i _ (capture_of (timerInfo s2 i)) s2 σ' ((fun y => mk_arm v (a_at y) (a_func y) (a_arg y)) <$> armed σ' i) Hi
      (but_upd_info i _ _ _ _ Hb)) as (Hb' & _ & He).
    { subst s2. cbn [timerInfo upd_info with_timerInfo]. destruct (armed σ' i) as [y|]; cbn.
      - destruct Hent as (E & _ & _). by rewrite upd_same, E.
      - rewrite upd_same. destruct Hent as [E Hr]. split; [exact E|exact Hr]. }
    apply (rel_in i); [by rewrite rearm_cpu|]. apply He.
    destruct (armed σ' i); [by destruct Hent as (_ & Hr & _)|by destruct Hent as [_ Hr]].
Qed.

Lemma hwt_do_rel o s σ :
  op_ok o σ -> hwt_rel s σ -> (hwt_do o s).1 = (spec_do o σ).1 /\ hwt_rel (hwt_do o s).2 (spec_do o σ).2.
Proof.
  intros Hok Hrel. destruct o as [i m|i t f a|i|i]; cbn [hwt_do spec_do fst snd].
  - split; [done|]. by apply hwt_init_rel.
  - destruct (set_rel i t f a s σ Hok Hrel) as [E Hr].
    destruct (drv_hwTmr_set i t f a s), (spec_set i t f a σ). cbn in *. by subst.
  - split; [done|]. by apply cancel_rel.
  - split; [done|]. destruct Hok as [[-> | [-> | ->]] Harm]; (apply irq_rel; [lia|done|done]).
Qed.

End Steps.

(** ** A run

    A timer that repeats, one that ends after its first call, and one whose
    function cancels another; and what the overflow of the ticks and the
    initialisation of a running timer do. *)
(** Function 2 ends its timer, function 3 cancels timer 1 and asks for a
    millisecond, every other function lets its timer repeat. *)
Definition demo_ret (f : Z) : Z := if f =? 2 then -1 else if f =? 3 then 1000 else 0.

#[export] Instance demo_hwt : HwtEnv := {
  sys_clk n := 1000 * Z.of_nat n;
  HwTimer.sysTimerPerUs := 16;
  CLOCK_SYS_CLOCK_HZ := 32000000;
  tmr_cb f _ s := (demo_ret f, if f =? 3 then drv_hwTmr_cancel 1 s else s)
}.
#[export] Instance demo_spec_cb : SpecCb := fun f _ σ => (demo_ret f, if f =? 3 then spec_cancel 1 σ else σ).

#[export] Instance demo_hwt_ok : HwtOk.
Proof.
  assert (Hp : forall i, TIMER_TICK_1US_GET i = 32 \/ TIMER_TICK_1US_GET i = 16).
  { intros i. unfold TIMER_TICK_1US_GET. destruct (i <? _); [left|right]; reflexivity. }
  split.
  - intros i. destruct (Hp i) as [-> | ->]; lia.
  - intros i. destruct (Hp i) as [-> | ->]; lia.
  - intros f a s σ _ Hrel. split; [done|]. unfold tmr_cb, sp_cb, demo_hwt, demo_spec_cb. cbn [snd].
    destruct (f =? 3); [|done]. by apply cancel_rel.
Qed.

Definition hwt_zero : hwt :=
  mk_hwt (fun _ => info_zero) (fun _ => 0) (fun _ => 0) 0 0 0 (mk_cpu ∅ 1 exc_init) 0 [] [].
Definition stimers_zero : stimers := mk_stimers (fun _ => None) (fun _ => false) 0 [] (mk_cpu ∅ 1 exc_init).

Lemma hwt_zero_rel : hwt_rel hwt_zero stimers_zero.
Proof.
  split; try done.
  - intros i Hi. unfold entry_ok, runs. cbn. by destruct (i <? 3).
  - intros i Hi. unfold enabled. cbn. rewrite Z.bits_0. by destruct (i <? 3).
Qed.

Definition hwt_demo_ops : list hwt_op :=
  [OInit 0 0; OInit 1 0; OInit 3 0; OSet 0 500 1 10; OSet 1 200 2 11; OSet 3 5000 3 12; OSet 0 100 1 13; OSet 4 100 1 13;
   OIrq 0; OIrq 3; OIrq 0; OSet 1 100 2 14; OIrq 1; OSet 1 5 7 15; OCancel 0;
   OSet 0 134217728 4 17; OSet 0 100 1 16].


(** A time of 2^27 us (134 s) on timer 0 at 32 MHz: the ticks wrap to 0, within
    the safe boundary, so the function is called at once and nothing is armed. *)
Example hwt_overflow_calls_at_once :
  let '(r, s) := drv_hwTmr_set 0 134217728 1 10 hwt_zero in r = HW_TIMER_SUCC /\ w_calls s = [(1, 10)] /\ w_reqs s = [].
Proof. repeat split. Qed.

(** The initialisation of a timer that runs forgets it and does not stop it: its
    interrupt finds an idle entry, and the capture becomes a whole turn. *)
Example hwt_init_leaves_running :
  let s := drv_hwTmr_init 0 0 (snd (drv_hwTmr_set 0 500 1 10 hwt_zero)) in
  runs 0 s = true /\ status (timerInfo s 0) = TIMER_IDLE /\
  let s := drv_timer_irq0_handler s in
  w_calls s = [] /\ reg_tmr_capt s 0 = TIMER_OVERFLOW_VALUE /\ high (expireInfo (timerInfo s 0)) = 2 ^ 32 - 1.
Proof. vm_compute. repeat split. Qed.
