(* ===== verification/Uart.v ===== *)
(** * The serial port ([proj/drivers/drv_uart.c], [proj/hci/uart/hci_uart.c])

    A message is sent from an event buffer: four bytes of length, then the data;
    the DMA reads the buffer, and the interrupt at its end gives it back.  The
    host interface answers each message it receives with the same message.

    [uart] holds the memory, processor and buffers, the driver's status, receive
    function and transmit buffer, the tasks scheduled, what is asked of the chip
    (oldest first), and how often the code looked at the chip while it waited.
    The build is the one of the 8278. *)
From S2P Require Import Prelude Memory Linked ListC SysEv Mempool EvBuffer StringC.

(** The status of the driver. *)
Inductive UART_STA := UART_STA_IDLE | UART_STA_TX_DOING | UART_STA_TX_DONE | UART_STA_RX_DONE.
#[export] Instance uart_sta_eq_dec : EqDecision UART_STA.
Proof. solve_decision. Defined.

(** What is asked of the chip.  [UartSend p bytes]: the DMA starts on the buffer
    [p] that holds [bytes], the first four of which are the length of the rest. *)
Inductive uart_req :=
  | UartRecBuff (rxBuf rxBufLen : Z)
  | UartReset
  | UartBaudrate (baudrate clock : Z)
  | UartDmaEnable (rx tx : Z)
  | UartIrqs
  | UartIrqEnable (rx tx : Z)
  | UartPins (tx rx : Z)
  | UartClearParity
  | UartSend (p : Z) (bytes : list Z).

Inductive uart_irq := UartRx | UartTx.

(** [drv_uart_t] is [status] and [recvCb]; [send] is always [uart_dma_send]. *)
Record uart := mk_uart {
  u_buf : buf_state;
  status : UART_STA;
  recvCb : Z;
  uartDrvTxBuf : Z;
  u_tasks : list (Z * Z);
  u_reqs : list uart_req;
  u_polls : nat
}.
Implicit Type s : uart.

Definition with_u_buf v s := mk_uart v (status s) (recvCb s) (uartDrvTxBuf s) (u_tasks s) (u_reqs s) (u_polls s).
Definition with_status v s := mk_uart (u_buf s) v (recvCb s) (uartDrvTxBuf s) (u_tasks s) (u_reqs s) (u_polls s).
Definition with_recvCb v s := mk_uart (u_buf s) (status s) v (uartDrvTxBuf s) (u_tasks s) (u_reqs s) (u_polls s).
Definition with_uartDrvTxBuf v s := mk_uart (u_buf s) (status s) (recvCb s) v (u_tasks s) (u_reqs s) (u_polls s).
Definition with_u_tasks v s := mk_uart (u_buf s) (status s) (recvCb s) (uartDrvTxBuf s) v (u_reqs s) (u_polls s).
Definition ask_uart r s := mk_uart (u_buf s) (status s) (recvCb s) (uartDrvTxBuf s) (u_tasks s) (u_reqs s ++ [r]) (u_polls s).
Definition polled s := mk_uart (u_buf s) (status s) (recvCb s) (uartDrvTxBuf s) (u_tasks s) (u_reqs s) (S (u_polls s)).
Definition u_mem s : mem := b_mem (u_buf s).
Definition with_u_mem (m : mem) s : uart := with_u_buf (with_cpu (with_mem m (b_cpu (u_buf s))) (u_buf s)) s.

(** The interrupts that come before the [k]-th look at the chip, whether the
    chip takes a transfer at that look, the parity error flag, the clock, the
    receive buffer, and what the receive function does. *)
Class UartEnv := {
  uart_irqs : nat -> list uart_irq;
  uart_dma_ready : nat -> bool;
  uart_is_parity_error : list uart_req -> bool;
  UART_CLOCK_SOURCE : Z;
  uartRxBuf : Z;
  fn_uart_data_handler : Z;
  fn_uartRcvHandler : Z;
  uart_call : Z -> uart -> uart
}.

Definition UART_RX_BUF_SIZE : Z := 64.

Section Uart.
Context `{EvLayout, UartEnv}.

(** ** Interrupts *)
Definition drv_uart_rx_irq_handler s : uart := if negb (recvCb s =? 0) then uart_call (recvCb s) s else s.

(** The release of the transmit buffer, if there is one. *)
Definition free_tx s : option uart :=
  if negb (uartDrvTxBuf s =? 0) then
    '(_, b) ← ev_buf_free (uartDrvTxBuf s) (u_buf s);
    Some (with_uartDrvTxBuf 0 (with_u_buf b s))
  else Some s.

Definition drv_uart_tx_irq_handler s : option uart := s ← free_tx s; Some (with_status UART_STA_TX_DONE s).

Definition uart_interrupt (i : uart_irq) s : option uart :=
  match i with UartRx => Some (drv_uart_rx_irq_handler s) | UartTx => drv_uart_tx_irq_handler s end.

Fixpoint uart_interrupts (l : list uart_irq) s : option uart :=
  match l with [] => Some s | i :: l => s ← uart_interrupt i s; uart_interrupts l s end.

(** Before the code looks at the chip, the interrupts come, if they may. *)
Definition uart_poll s : option uart :=
  s' ← (if c_irq (b_cpu (u_buf s)) =? 0 then Some s else uart_interrupts (uart_irqs (u_polls s)) s);
  Some (polled s').

(** ** Set-up *)
Definition drv_uart_init (baudrate rxBuf rxBufLen uartRecvCb : Z) s : option uart :=
  let s := with_recvCb uartRecvCb (with_status UART_STA_IDLE s) in
  s ← free_tx s;
  let s := ask_uart (UartRecBuff rxBuf rxBufLen) s in
  let s := ask_uart UartReset s in
  let s := ask_uart (UartBaudrate baudrate UART_CLOCK_SOURCE) s in
  let s := ask_uart (UartDmaEnable 1 1) s in
  let s := ask_uart UartIrqs s in
  Some (ask_uart (UartIrqEnable 0 0) s).

Definition drv_uart_pin_set (txPin rxPin : Z) s : uart := ask_uart (UartPins txPin rxPin) s.

Definition drv_uart_exceptionProcess s : uart :=
  if uart_is_parity_error (u_reqs s) then ask_uart UartClearParity s else s.

(** ** Sending *)
Definition uart_tx_done s : bool := bool_decide (status s = UART_STA_TX_DONE).
Definition uart_is_idle s : bool := bool_decide (status s = UART_STA_IDLE).

(** [while(!uart_tx_done());] *)
Fixpoint wait_done (n : nat) s : option uart :=
  match n with
  | O => None
  | S n' => s ← uart_poll s; if uart_tx_done s then Some s else wait_done n' s
  end.

(** [while(!myUartDriver.send(uartDrvTxBuf));]: no transfer is under way, so that
    no interrupt of the transmitter comes. *)
Fixpoint send_loop (n : nat) s : option uart :=
  match n with
  | O => None
  | S n' =>
      if uart_dma_ready (u_polls s) then
        let p := uartDrvTxBuf s in
        Some (polled (ask_uart (UartSend p (load_bytes (u_mem s) p (4 + Z.to_nat (load32 (u_mem s) p)))) s))
      else send_loop n' (polled s)
  end.

(** The four bytes of the length. *)
Definition len_bytes (len : Z) : list Z := [u8 len; u8 (Z.shiftr len 8); u8 (Z.shiftr len 16); u8 (Z.shiftr len 24)].

Definition drv_uart_tx_start (n : nat) (data len : Z) s : option (Z * uart) :=
  s ← (if negb (uart_is_idle s) then wait_done n s else Some s);
  if uartDrvTxBuf s =? 0 then
    let '(p, b) := ev_buf_allocate (u16 (len + 4)) (u_buf s) in
    let s := with_uartDrvTxBuf p (with_u_buf b s) in
    if negb (p =? 0) then
      let s := with_status UART_STA_TX_DOING s in
      let s := with_u_mem (store_bytes (u_mem s) p (len_bytes len)) s in
      let s := with_u_buf (with_cpu (memcpy (p + 4) data len (b_cpu (u_buf s))).2 (u_buf s)) s in
      s ← send_loop n s;
      Some (1, s)
    else Some (0, s)
  else Some (0, s).

(** ** The host interface *)
Definition uart_txMsg (n : nat) (u16Length pu8Data : Z) s : option uart :=
  '(_, s) ← drv_uart_tx_start n pu8Data u16Length s; Some s.

Definition uart_data_handler (n : nat) s : option uart :=
  let dataLen := load32 (u_mem s) uartRxBuf in
  if (0 <? dataLen) && (dataLen <? 64) then uart_txMsg n (u16 dataLen) (uartRxBuf + 4) s else Some s.

(** [TL_SCHEDULE_TASK(uart_data_handler, uartRxBuf)] *)
Definition uartRcvHandler s : uart := with_u_tasks (u_tasks s ++ [(fn_uart_data_handler, uartRxBuf)]) s.

(** The pins are those of the board. *)
Definition hci_uart_init (txPin rxPin : Z) s : option uart :=
  drv_uart_init 115200 uartRxBuf UART_RX_BUF_SIZE fn_uartRcvHandler (drv_uart_pin_set txPin rxPin s).
End Uart.
