(* ===== verification/UartProps.v ===== *)
(** * The serial port: properties

    The driver is a channel of one frame over the abstract buffer allocator: what
    is asked of the DMA are the frames of the messages accepted, in order, each in
    a buffer of its own that stays as it is until the interrupt at its end gives it
    back; a message is refused only when no buffer is free, and every call
    returns. *)
From S2P Require Import Prelude Memory Linked ListC SysEv Mempool EvBuffer BufClient StringC Uart.

(** A message on the line: its length, then its bytes. *)
Definition uart_frame (msg : list Z) : list Z := len_bytes (Z.of_nat (length msg)) ++ msg.

Definition sent_of (r : uart_req) : option (list Z) := match r with UartSend _ bytes => Some bytes | _ => None end.

(** ** The abstract channel *)

(** The allocator, the buffer that is being sent (0: none), the frames sent, the
    memory that messages come from, and the interrupt register, which no operation
    changes. *)
Record chan := mk_chan { sp_alloc : alloc_state; sp_tx : Z; sp_sent : list (list Z); sp_mem : mem; sp_irq : Z }.
Implicit Type σ : chan.

Inductive uart_op := OInit (baudrate cb : Z) | OIrq (i : uart_irq) | OReceive (bytes : list Z) | OSend (data len : Z) | OTask.

Section Spec.
Context `{EvLayout, UartEnv} (n : nat).

Definition spec_release σ : chan :=
  if sp_tx σ =? 0 then σ else mk_chan (abs_free (sp_tx σ) (sp_alloc σ)).2 0 (sp_sent σ) (sp_mem σ) (sp_irq σ).

Definition spec_send (data len : Z) σ : Z * chan :=
  let σ := spec_release σ in
  let '(p, a) := abs_allocate (len + 4) (sp_alloc σ) in
  if p =? 0 then (0, mk_chan a 0 (sp_sent σ) (sp_mem σ) (sp_irq σ))
  else (1, mk_chan a p (sp_sent σ ++ [uart_frame (load_bytes (sp_mem σ) data (Z.to_nat len))]) (sp_mem σ) (sp_irq σ)).

Definition spec_do (o : uart_op) σ : option Z * chan :=
  match o with
  | OInit _ _ | OIrq UartTx => (None, spec_release σ)
  | OIrq UartRx => (None, σ)
  | OReceive bytes => (None, mk_chan (sp_alloc σ) (sp_tx σ) (sp_sent σ) (store_bytes (sp_mem σ) uartRxBuf bytes) (sp_irq σ))
  | OSend data len => let '(r, σ) := spec_send data len σ in (Some r, σ)
  | OTask =>
      let len := load32 (sp_mem σ) uartRxBuf in
      (None, if (0 <? len) && (len <? 64) then (spec_send (uartRxBuf + 4) len σ).2 else σ)
  end.

Definition uart_do (o : uart_op) s : option (option Z * uart) :=
  match o with
  | OInit b cb => s ← drv_uart_init b uartRxBuf UART_RX_BUF_SIZE cb s; Some (None, s)
  | OIrq i => s ← uart_interrupt i s; Some (None, s)
  | OReceive bytes => Some (None, with_u_mem (store_bytes (u_mem s) uartRxBuf bytes) s)
  | OSend data len => '(r, s) ← drv_uart_tx_start n data len s; Some (Some r, s)
  | OTask => s ← uart_data_handler n s; Some (None, s)
  end.

Fixpoint spec_run (os : list uart_op) σ : list (option Z) * chan :=
  match os with
  | [] => ([], σ)
  | o :: os => let '(r, σ) := spec_do o σ in let '(rs, σ) := spec_run os σ in (r :: rs, σ)
  end.

Fixpoint uart_run (os : list uart_op) s : option (list (option Z) * uart) :=
  match os with
  | [] => Some ([], s)
  | o :: os => '(r, s) ← uart_do o s; '(rs, s) ← uart_run os s; Some (r :: rs, s)
  end.

(** The memory that messages come from; what is received fits. *)
Variable msgs : Z -> Prop.
Definition msg_range (x len : Z) : Prop := forall y, x <= y < x + len -> msgs y.
Definition uart_op_ok (o : uart_op) : Prop :=
  match o with
  | OSend data len => 0 < data /\ 0 <= len /\ len + 4 < 2 ^ 16 /\ msg_range data len
  | OReceive bytes => Z.of_nat (length bytes) <= UART_RX_BUF_SIZE
  | _ => True
  end.

(** The driver and the channel; the client holds the buffers [L] besides, with the
    contents they have in [m0]. *)
Record uart_rel (m0 : mem) s σ (L : list Z) : Prop := {
  ur_bufs : holds_bufs (u_buf s) (sp_alloc σ) ((if sp_tx σ =? 0 then [] else [sp_tx σ]) ++ L);
  ur_tx : uartDrvTxBuf s = sp_tx σ;
  ur_status : if sp_tx σ =? 0 then status s = UART_STA_IDLE \/ status s = UART_STA_TX_DONE else status s = UART_STA_TX_DOING;
  ur_sent : omap sent_of (u_reqs s) = sp_sent σ;
  ur_busy : sp_tx σ <> 0 -> exists msg, last (sp_sent σ) = Some (uart_frame msg) /\
    4 + Z.of_nat (length msg) <= buf_cap (sp_tx σ) /\
    load_bytes (u_mem s) (sp_tx σ) (4 + length msg) = uart_frame msg;
  ur_mem y : msgs y -> load8 (u_mem s) y = load8 (sp_mem σ) y;
  ur_irq : c_irq (b_cpu (u_buf s)) = sp_irq σ;
  ur_irq_on : sp_irq σ <> 0;
  ur_kept : bufs_kept L m0 (u_mem s)
}.
End Spec.

(** What the environment promises: while the code waits at most [n] looks pass
    until the interrupt of the transmitter comes and until the chip takes a
    transfer; the receive function only schedules tasks; messages, those received
    among them, are not in the allocator's memory. *)
Class UartOk `{EvLayout, UartEnv} (n : nat) (msgs : Z -> Prop) : Prop := {
  tx_comes k : exists j, (j < n)%nat /\ UartTx ∈ uart_irqs (k + j);
  dma_takes k : exists j, (j < n)%nat /\ uart_dma_ready (k + j) = true;
  call_quiet f s : exists ts, uart_call f s = with_u_tasks (u_tasks s ++ ts) s;
  msgs_outside y : msgs y -> outside_bufs y;
  rx_msgs : msg_range msgs uartRxBuf 68;
  rx_nonnull : 0 < uartRxBuf
}.

Section Steps.
Context `{EvLayoutOk, UartEnv} (n : nat) (msgs : Z -> Prop) `{!UartOk n msgs}.
Implicit Type L : list Z.
Variable m0 : mem.

(** ** Interrupts *)
Lemma uart_mem_with b s : u_mem (with_u_buf b s) = b_mem b.
Proof. done. Qed.

Lemma release_rel s σ L :
  uart_rel msgs m0 s σ L ->
  exists s', free_tx s = Some s' /\ status s' = status s /\ u_reqs s' = u_reqs s /\ u_polls s' = u_polls s /\
    forall st, st = UART_STA_IDLE \/ st = UART_STA_TX_DONE -> uart_rel msgs m0 (with_status st s') (spec_release σ) L.
Proof.
  intros [Hb Ht Hs Hsent Hbusy Hm Hq Hon Hkp]. unfold free_tx, spec_release. rewrite Ht.
  destruct (Z.eqb_spec (sp_tx σ) 0) as [E|E]; cbn [negb].
  { exists s. split_and!; try done. intros st Hst. split; cbn; rewrite ?E in *; auto. }
  destruct (free_client_exact _ _ [] _ _ Hb) as (b & Ef & Hh & Hkb & Hirq). rewrite Ef. cbn [mbind option_bind].
  eexists. split; [done|]. split_and!; try done. intros st Hst.
  split; cbn; auto.
  - done.
  - intros y Hy. rewrite <- Hm by done. eapply free_outside; [exact Hb| |exact Ef|by eapply msgs_outside]. by left.
  - by rewrite Hirq.
  - exact (bufs_kept_trans L _ _ _ Hkp Hkb).
Qed.

Lemma tx_irq_rel s σ L :
  uart_rel msgs m0 s σ L ->
  exists s', drv_uart_tx_irq_handler s = Some s' /\ status s' = UART_STA_TX_DONE /\ u_polls s' = u_polls s /\
    uart_rel msgs m0 s' (spec_release σ) L.
Proof.
  intros Hr. destruct (release_rel s σ L Hr) as (s' & E & _ & _ & Hp & Hrel). unfold drv_uart_tx_irq_handler. rewrite E.
  cbn. eexists. split; [done|]. split_and!; try done. apply Hrel. by right.
Qed.

Lemma rx_irq_rel s σ L :
  uart_rel msgs m0 s σ L -> let s' := drv_uart_rx_irq_handler s in
  status s' = status s /\ u_polls s' = u_polls s /\ uart_rel msgs m0 s' σ L.
Proof.
  intros Hr. unfold drv_uart_rx_irq_handler. destruct (negb _); [|done].
  destruct (call_quiet (recvCb s) s) as [ts ->]. split_and!; try done. destruct Hr. by split.
Qed.

Lemma spec_release_idem σ : spec_release (spec_release σ) = spec_release σ.
Proof. unfold spec_release. destruct (sp_tx σ =? 0) eqn:E; [by rewrite E|done]. Qed.

Lemma interrupts_rel l s σ L :
  uart_rel msgs m0 s σ L ->
  exists s', uart_interrupts l s = Some s' /\ u_polls s' = u_polls s /\
    (status s = UART_STA_TX_DONE \/ UartTx ∈ l -> status s' = UART_STA_TX_DONE) /\
    (uart_rel msgs m0 s' σ L \/ uart_rel msgs m0 s' (spec_release σ) L).
Proof.
  revert s σ. induction l as [|[] l IH]; intros s σ Hr; cbn [uart_interrupts uart_interrupt mbind option_bind].
  - exists s. split_and!; [done..| |by left]. intros [?|?%not_elem_of_nil]; done.
  - destruct (rx_irq_rel s σ L Hr) as (Hs & Hp & Hr'). destruct (IH _ _ Hr') as (s' & E & Hp' & Hs' & Hc).
    exists s'. split_and!; [done|congruence| |done]. intros Hx. apply Hs'. rewrite Hs.
    destruct Hx as [?|Hx]; [by left|]. apply elem_of_cons in Hx as [?|?]; [done|by right].
  - destruct (tx_irq_rel s σ L Hr) as (s1 & E1 & Hs & Hp & Hr'). rewrite E1. cbn.
    destruct (IH _ _ Hr') as (s' & E & Hp' & Hs' & Hc). exists s'. split_and!; [done|congruence| |].
    + intros _. apply Hs'. by left.
    + rewrite spec_release_idem in Hc. right. by destruct Hc.
Qed.

(** ** Waiting *)
Lemma done_rel s σ L : uart_rel msgs m0 s σ L -> status s = UART_STA_TX_DONE -> spec_release σ = σ.
Proof. intros [_ _ Hs _ _ _ _ _ _] Hd. unfold spec_release. destruct (sp_tx σ =? 0); [done|congruence]. Qed.

Lemma irq_on s σ L : uart_rel msgs m0 s σ L -> (c_irq (b_cpu (u_buf s)) =? 0) = false.
Proof. intros Hr. rewrite (ur_irq _ _ _ _ _ Hr). apply Z.eqb_neq, Hr. Qed.

Lemma wait_rel m s σ L j :
  uart_rel msgs m0 s σ L -> (j < m)%nat -> UartTx ∈ uart_irqs (u_polls s + j) ->
  exists s', wait_done m s = Some s' /\ status s' = UART_STA_TX_DONE /\ uart_rel msgs m0 s' (spec_release σ) L.
Proof.
  revert s σ j. induction m as [|m IH]; intros s σ j Hr Hj Hin; [lia|]. cbn [wait_done]. unfold uart_poll.
  rewrite (irq_on s σ L Hr).
  destruct (interrupts_rel (uart_irqs (u_polls s)) s σ L Hr) as (s1 & -> & Hp & Hs & Hc). cbn [mbind option_bind].
  assert (Hpoll : forall τ, uart_rel msgs m0 s1 τ L -> uart_rel msgs m0 (polled s1) τ L) by (intros τ []; by split).
  unfold uart_tx_done. case_bool_decide as Ed; cbn [status polled] in Ed.
  - exists (polled s1). split_and!; [done|done|]. destruct Hc as [Hc|Hc]; [|by apply Hpoll].
    rewrite (done_rel _ _ _ Hc Ed). by apply Hpoll.
  - destruct j as [|j].
    { destruct Ed. apply Hs. right. by rewrite Nat.add_0_r in Hin. }
    assert (Hin' : UartTx ∈ uart_irqs (u_polls (polled s1) + j)).
    { cbn. rewrite Hp. by replace (S (u_polls s + j)) with (u_polls s + S j)%nat by lia. }
    destruct Hc as [Hc|Hc]; destruct (IH _ _ j (Hpoll _ Hc) ltac:(lia) Hin') as (s' & E & Hd & Hr'); exists s'; split_and!; try done.
    by rewrite spec_release_idem in Hr'.
Qed.

(** ** Sending *)
Lemma send_loop_spec m s j :
  (j < m)%nat -> uart_dma_ready (u_polls s + j) = true ->
  exists s', send_loop m s = Some s' /\ u_buf s' = u_buf s /\ status s' = status s /\ uartDrvTxBuf s' = uartDrvTxBuf s /\
    u_reqs s' = u_reqs s ++ [UartSend (uartDrvTxBuf s)
      (load_bytes (u_mem s) (uartDrvTxBuf s) (4 + Z.to_nat (load32 (u_mem s) (uartDrvTxBuf s))))].
Proof.
  revert s j. induction m as [|m IH]; intros s j Hj Hr; [lia|]. cbn [send_loop].
  destruct (uart_dma_ready (u_polls s)) eqn:E; [by eexists|].
  destruct j as [|j]; [rewrite Nat.add_0_r in Hr; congruence|].
  destruct (IH (polled s) j) as (s' & ? & ? & ? & ? & ?); [lia| |by exists s'].
  cbn. by replace (S (u_polls s + j)) with (u_polls s + S j)%nat by lia.
Qed.

(** [memcpy] when it finds nothing wrong. *)
Lemma memcpy_copies (out inp len : Z) (c : cpu) :
  0 < out -> 0 < inp -> 0 <= len <= LARGE_BUFFER ->
  copied (c_mem c) (c_mem (memcpy out inp len c).2) out inp (Z.to_nat len) /\ c_irq (memcpy out inp len c).2 = c_irq c.
Proof.
  intros Ho Hi Hl. unfold LARGE_BUFFER in Hl. pose proof (memcpy_checked out inp len c ltac:(lia)) as Hm. cbn zeta in Hm.
  case_decide as E0; [subst; rewrite Hm; done|]. rewrite decide_False in Hm by (intros [?|[?|[_ ?]]]; lia).
  destruct Hm as (_ & ? & ? & _). done.
Qed.

Lemma held_large s a L p : holds_bufs s a L -> p ∈ L -> buf_cap p <= LARGE_BUFFER.
Proof.
  intros [_ Hl _] Hp. rewrite Forall_forall in Hl. destruct (Hl p Hp) as [i Hi]. rewrite (live_cap _ _ _ Hi).
  destruct Hi as (Hi & _). pose proof (group_consts i Hi). unfold capacity, LARGE_BUFFER. lia.
Qed.

Lemma load32_len_bytes m p len :
  0 <= len < 2 ^ 32 -> load_bytes m p 4 = len_bytes len -> load32 m p = len.
Proof.
  intros Hl E. cbn [load_bytes] in E. unfold len_bytes in E. rewrite !Z.shiftr_div_pow2 in E by lia.
  injection E as E0 E1 E2 E3. unfold load32.
  replace (p + 1 + 1) with (p + 2) in * by lia. replace (p + 2 + 1) with (p + 3) in * by lia.
  rewrite E0, E1, E2, E3. unfold u8. change (2 ^ 24) with 16777216. change (2 ^ 16) with 65536. change (2 ^ 8) with 256. zdm.
Qed.

(** The frame is put into the buffer [p], and nothing else changes. *)
Definition fill (p data len : Z) (b : buf_state) : buf_state :=
  let b := with_cpu (with_mem (store_bytes (b_mem b) p (len_bytes len)) (b_cpu b)) b in
  with_cpu (memcpy (p + 4) data len (b_cpu b)).2 b.

Lemma fill_spec b a p data len L :
  holds_bufs b a (p :: L) -> 0 < p -> 0 < data -> 0 <= len -> len + 4 <= buf_cap p -> len <= LARGE_BUFFER -> msg_range msgs data len ->
  holds_bufs (fill p data len b) a (p :: L) /\ c_irq (b_cpu (fill p data len b)) = c_irq (b_cpu b) /\
  outside_kept (b_mem b) (b_mem (fill p data len b)) /\ bufs_kept L (b_mem b) (b_mem (fill p data len b)) /\
  load_bytes (b_mem (fill p data len b)) p (4 + Z.to_nat len) = len_bytes len ++ load_bytes (b_mem b) data (Z.to_nat len).
Proof.
  intros Hh Hp Hd Hl Hcap Hbig Hout. unfold fill.
  set (m1 := store_bytes (b_mem b) p (len_bytes len)). set (c1 := with_mem m1 (b_cpu b)).
  destruct (memcpy_copies (p + 4) data len c1 ltac:(lia) Hd ltac:(lia)) as [[Hc Hrest] Hirq].
  set (c2 := (memcpy (p + 4) data len c1).2) in *. change (c_mem c1) with m1 in *. cbn [b_cpu with_cpu].
  assert (Hm : forall y, ~ (p <= y < p + 4 + len) -> load8 (c_mem c2) y = load8 (b_mem b) y).
  { intros y Hy. rewrite Hrest by lia. subst m1. rewrite load8_store_bytes. cbn [length len_bytes].
    change (Z.of_nat 4) with 4. cmp_false ((p <=? y) && (y <? p + 4)). done. }
  assert (Hok : outside_kept (b_mem b) (c_mem c2)).
  { intros y Hy. apply Hm. intros Hr. pose proof (hb_live _ _ _ Hh) as Hlv. apply Forall_cons_1 in Hlv as [[i Hi] _].
    by apply (live_inside a i p y y Hi Hy ltac:(lia)). }
  split_and!.
  - apply (write_client b a (p :: L) c2 Hh Hirq). intros y Hy. apply Hm. intros Hr. apply (Hy p); [by left|]. right. lia.
  - exact Hirq.
  - exact Hok.
  - intros q y Hq Hy. apply Hm. intros Hr. pose proof (hb_nodup _ _ _ Hh) as Hnd. apply NoDup_cons in Hnd as [Hni _].
    assert (q <> p) by (by intros ->). assert (Hq' : q ∈ p :: L) by (by right).
    pose proof (held_apart _ _ _ _ _ Hh Hq' ltac:(by left) ltac:(done)). pose proof (held_range _ _ _ _ Hh Hq').
    unfold own_byte in Hy. lia.
  - change (load_bytes (c_mem c2) p (4 + Z.to_nat len) = len_bytes len ++ load_bytes (b_mem b) data (Z.to_nat len)).
    rewrite load_bytes_app. change (p + Z.of_nat 4) with (p + 4). f_equal.
    + transitivity (load_bytes m1 p 4).
      * apply load_bytes_ext. intros i Hi. apply Hrest. lia.
      * subst m1. change 4%nat with (length (len_bytes len)). apply load_store_bytes. repeat constructor; apply u8_range.
    + rewrite Hc. apply load_bytes_ext. intros i Hi.
      destruct (decide (p <= data + i < p + 4)) as [Hin|Hin].
      * exfalso. pose proof (hb_live _ _ _ Hh) as Hlv. apply Forall_cons_1 in Hlv as [[j Hj] _].
        apply (live_inside a j p (data + i) (data + i) Hj); [eapply msgs_outside, Hout; lia|lia|done].
      * subst m1. rewrite load8_store_bytes. cbn [length len_bytes]. change (Z.of_nat 4) with 4.
        cmp_false ((p <=? data + i) && (data + i <? p + 4)). done.
Qed.

Lemma send_now s σ L data len :
  uart_rel msgs m0 s σ L -> sp_tx σ = 0 -> 0 < data -> 0 <= len -> len + 4 < 2 ^ 16 -> msg_range msgs data len ->
  exists s', (let '(p, b) := ev_buf_allocate (u16 (len + 4)) (u_buf s) in
    let s := with_uartDrvTxBuf p (with_u_buf b s) in
    if negb (p =? 0) then
      s ← send_loop n (with_u_buf (fill p data len (u_buf s)) (with_status UART_STA_TX_DOING s)); Some (1, s)
    else Some (0, s)) = Some ((spec_send data len σ).1, s') /\ uart_rel msgs m0 s' (spec_send data len σ).2 L.
Proof.
  intros [Hb Ht Hs Hsent Hbusy Hm Hq Hon Hkp] E0 Hd Hl Hfit Hout. unfold spec_send, spec_release. rewrite E0 in *.
  change (0 =? 0) with true in *. cbn [app] in Hb. rewrite u16_small by lia.
  pose proof (abs_allocate_cases (len + 4) (sp_alloc σ)) as Hcase.
  destruct (allocate_sim _ _ (len + 4) (hb_alloc _ _ _ Hb)) as (b0 & E & _).
  destruct (allocate_client _ _ L (len + 4) Hb) as (p & b & E' & Hka & Hirq & Hc). rewrite E in E'. injection E' as <- ->.
  rewrite E. pose proof (alloc_outside _ _ _ _ _ _ Hb E) as Hko.
  destruct (abs_allocate (len + 4) (sp_alloc σ)) as [p a'] eqn:Ea. cbn [fst snd] in *.
  destruct Hc as [(-> & _ & Hh)|(Hp & _ & Hcap & Hh)].
  - assert (a' = sp_alloc σ) as ->.
    { destruct Hcase as [[_ ?]|(i & c & l & _ & _ & El & _ & Ep & _)]; [done|].
      destruct (abs_allocate_taken _ _ i c l (hb_alloc _ _ _ Hb) El) as (Hi & Hc & _).
      destruct (arena_bounds i c Hi Hc) as ([? _] & _). lia. }
    cbn. eexists. split; [done|]. split; cbn; auto.
    + done.
    + intros y Hy. change (load8 (b_mem b) y = load8 (sp_mem σ) y). rewrite (Hko y) by (by eapply msgs_outside). by apply Hm.
    + by rewrite Hirq.
    + exact (bufs_kept_trans L _ _ _ Hkp Hka).
  - rewrite (proj2 (Z.eqb_neq p 0)) by lia. cbn [negb].
    destruct (fill_spec b a' p data len L Hh Hp Hd Hl Hcap) as (Hf & Hfirq & Hfk & Hfb & Hbytes); [|done|].
    { pose proof (held_large _ _ _ p Hh ltac:(by left)). lia. }
    set (s1 := with_u_buf _ (with_status _ _)). destruct (dma_takes (u_polls s1)) as (j & Hj & Hr).
    destruct (send_loop_spec n s1 j Hj Hr) as (s' & -> & Eb & Es & Et & Er). cbn [mbind option_bind fst snd].
    exists s'. split; [done|].
    assert (El32 : load32 (u_mem s1) p = len).
    { apply load32_len_bytes; [lia|]. change (u_mem s1) with (b_mem (fill p data len b)).
      apply (f_equal (take 4)) in Hbytes. rewrite load_bytes_app in Hbytes. exact Hbytes. }
    assert (Emsg : load_bytes (b_mem b) data (Z.to_nat len) = load_bytes (sp_mem σ) data (Z.to_nat len)).
    { apply load_bytes_ext. intros i Hi. rewrite (Hko (data + i)) by (eapply msgs_outside, Hout; lia). apply Hm, Hout. lia. }
    rewrite Emsg in Hbytes. set (msg := load_bytes (sp_mem σ) data (Z.to_nat len)) in *.
    assert (Elen : length msg = Z.to_nat len) by apply length_load_bytes.
    assert (Efr : len_bytes len ++ msg = uart_frame msg) by (unfold uart_frame; rewrite Elen, Z2Nat.id; done).
    assert (Hin : load_bytes (u_mem s1) p (4 + Z.to_nat len) = uart_frame msg) by (rewrite <- Efr; exact Hbytes).
    split; cbn [sp_alloc sp_tx sp_sent sp_mem]; rewrite ?(proj2 (Z.eqb_neq p 0)) by lia; rewrite ?Eb, ?Et, ?Es; try done.
    + rewrite Er, omap_app. change (u_reqs s1) with (u_reqs s). rewrite Hsent.
      change (uartDrvTxBuf s1) with p. rewrite El32, Hin. done.
    + intros _. exists msg. rewrite last_snoc, Elen. split; [done|]. split; [lia|]. rewrite <- Hin. unfold u_mem. by rewrite Eb.
    + intros y Hy. unfold u_mem. rewrite Eb. change (b_mem (u_buf s1)) with (b_mem (fill p data len b)).
      rewrite (Hfk y), (Hko y) by (by eapply msgs_outside). by apply Hm.
    + change (c_irq (b_cpu (fill p data len b)) = sp_irq σ). by rewrite Hfirq, Hirq.
    + apply (bufs_kept_trans L _ _ _ Hkp). apply (bufs_kept_trans L _ _ _ Hka). unfold u_mem. rewrite Eb. exact Hfb.
Qed.

Lemma start_rel s σ L data len :
  uart_rel msgs m0 s σ L -> 0 < data -> 0 <= len -> len + 4 < 2 ^ 16 -> msg_range msgs data len ->
  exists s', drv_uart_tx_start n data len s = Some ((spec_send data len σ).1, s') /\ uart_rel msgs m0 s' (spec_send data len σ).2 L.
Proof.
  intros Hr Hd Hl Hfit Hout. unfold drv_uart_tx_start.
  assert (Hw : exists s1, (if negb (uart_is_idle s) then wait_done n s else Some s) = Some s1 /\ uart_rel msgs m0 s1 (spec_release σ) L).
  { unfold uart_is_idle. case_bool_decide as Ei; cbn [negb].
    - exists s. split; [done|]. unfold spec_release.
      pose proof (ur_status _ _ _ _ _ Hr) as Hs. destruct (sp_tx σ =? 0); [done|congruence].
    - destruct (tx_comes (u_polls s)) as (j & Hj & Hin). destruct (wait_rel n s σ L j Hr Hj Hin) as (s1 & ? & _ & ?). by exists s1. }
  destruct Hw as (s1 & -> & Hr1). cbn [mbind option_bind].
  assert (E0 : sp_tx (spec_release σ) = 0) by (unfold spec_release; destruct (Z.eqb_spec (sp_tx σ) 0); done).
  rewrite (ur_tx _ _ _ _ _ Hr1), E0. cbn [Z.eqb].
  destruct (send_now s1 _ L data len Hr1 E0 Hd Hl Hfit Hout) as (s' & E & Hr').
  unfold spec_send in *. rewrite spec_release_idem in *. exists s'. split; [exact E|exact Hr'].
Qed.

Lemma receive_rel s σ L bytes :
  uart_rel msgs m0 s σ L -> Z.of_nat (length bytes) <= UART_RX_BUF_SIZE ->
  uart_rel msgs m0 (with_u_mem (store_bytes (u_mem s) uartRxBuf bytes) s) (spec_do (OReceive bytes) σ).2 L.
Proof.
  intros [Hb Ht Hs Hsent Hbusy Hm Hq Hon Hkp] Hlen. unfold UART_RX_BUF_SIZE in Hlen.
  assert (Hin : forall y, ~ outside_bufs y -> load8 (store_bytes (u_mem s) uartRxBuf bytes) y = load8 (u_mem s) y).
  { intros y Hy. rewrite load8_store_bytes. destruct (_ && _) eqn:E; [|done]. destruct Hy. eapply msgs_outside, rx_msgs. lia. }
  split; cbn [spec_do fst snd sp_alloc sp_tx sp_sent sp_mem]; try done.
  - by apply write_outside.
  - intros E. destruct (Hbusy E) as (msg & El & Hcap & Em). exists msg. split; [done|]. split; [done|]. rewrite <- Em. apply load_bytes_ext.
    intros k Hk. apply Hin. intros Ho. rewrite (proj2 (Z.eqb_neq _ _) E) in Hb.
    pose proof (hb_live _ _ _ Hb) as Hlv. apply Forall_cons_1 in Hlv as [[j Hj] _].
    apply (live_inside _ _ _ _ (sp_tx σ + k) Hj Ho ltac:(lia) eq_refl).
  - intros y Hy. unfold u_mem. cbn. change (load8 (store_bytes (u_mem s) uartRxBuf bytes) y = load8 (store_bytes (sp_mem σ) uartRxBuf bytes) y).
    rewrite !load8_store_bytes. destruct (_ && _); [done|]. by apply Hm.
  - apply (bufs_kept_trans L _ _ _ Hkp). intros q y HqL Hy. apply Hin. apply (own_inside _ _ _ q y Hb); [set_solver|done].
Qed.

Lemma uart_init_rel s σ L b cb :
  uart_rel msgs m0 s σ L -> exists s', drv_uart_init b uartRxBuf UART_RX_BUF_SIZE cb s = Some s' /\ uart_rel msgs m0 s' (spec_release σ) L.
Proof.
  intros Hr. unfold drv_uart_init.
  assert (Ef : free_tx (with_recvCb cb (with_status UART_STA_IDLE s)) =
    (fun s' => with_recvCb cb (with_status UART_STA_IDLE s')) <$> free_tx s).
  { unfold free_tx. cbn -[ev_buf_free]. destruct (negb _); [|done]. by destruct (ev_buf_free (uartDrvTxBuf s) (u_buf s)) as [[? ?]|]. }
  destruct (release_rel s σ L Hr) as (s' & E & _ & _ & _ & Hrel). rewrite Ef, E. cbn [fmap option_fmap option_map mbind option_bind].
  eexists. split; [done|]. destruct (Hrel UART_STA_IDLE ltac:(by left)) as [? ? ? Hsent ? ? ?].
  split; cbn -[load_bytes]; auto. rewrite !omap_app. cbn. by rewrite !app_nil_r.
Qed.

Lemma uart_do_rel o s σ L :
  uart_rel msgs m0 s σ L -> uart_op_ok msgs o -> exists s', uart_do n o s = Some ((spec_do o σ).1, s') /\ uart_rel msgs m0 s' (spec_do o σ).2 L.
Proof.
  intros Hr Hok. destruct o as [b cb|[]|bytes|data len|]; cbn [uart_do spec_do uart_interrupt].
  - destruct (uart_init_rel s σ L b cb Hr) as (s' & -> & ?). by eexists.
  - cbn [mbind option_bind]. eexists. split; [done|]. apply rx_irq_rel, Hr.
  - destruct (tx_irq_rel s σ L Hr) as (s' & -> & _ & _ & ?). by eexists.
  - eexists. split; [done|]. by apply receive_rel.
  - destruct Hok as (? & ? & ? & ?). destruct (start_rel s σ L data len Hr) as (s' & -> & ?); [done..|].
    destruct (spec_send data len σ). by eexists.
  - unfold uart_data_handler. assert (El : load32 (u_mem s) uartRxBuf = load32 (sp_mem σ) uartRxBuf).
    { unfold load32. rewrite !(ur_mem _ _ _ _ _ Hr) by (eapply rx_msgs; lia). done. }
    rewrite El. destruct (_ && _) eqn:E; [|by eexists]. unfold uart_txMsg. rewrite u16_small by lia.
    pose proof rx_nonnull.
    destruct (start_rel s σ L (uartRxBuf + 4) (load32 (sp_mem σ) uartRxBuf) Hr) as (s' & -> & ?); [lia|lia|lia| |by eexists].
    intros y Hy. eapply rx_msgs. lia.
Qed.

(** C12. The serial port implements a channel of one frame over the abstract buffer
    allocator.  Whatever the order of set-ups, interrupts, messages received and
    messages sent, by the driver or by the host interface that answers what it
    receives, every call returns; a message is accepted exactly when the allocator
    has a buffer for it once the one before is given back; what the DMA was asked
    to send are the frames of the messages accepted, in order; the frame under way
    stays as it is until its interrupt; no buffer is lost, and the buffers of other
    clients keep their contents. *)
Theorem uart_refines_channel os s σ L :
  uart_rel msgs m0 s σ L -> Forall (uart_op_ok msgs) os ->
  exists s', uart_run n os s = Some ((spec_run os σ).1, s') /\ uart_rel msgs m0 s' (spec_run os σ).2 L.
Proof.
  intros Hr Hok. revert s σ Hr. induction Hok as [|o os Ho _ IH]; intros s σ Hr; [by exists s|]. cbn [uart_run spec_run].
  destruct (uart_do_rel o s σ L Hr Ho) as (s1 & -> & Hr1). cbn [mbind option_bind].
  destruct (spec_do o σ) as [r σ1]. cbn [fst snd] in *. destruct (IH _ _ Hr1) as (s' & -> & Hr'). cbn [mbind option_bind].
  exists s'. by destruct (spec_run os σ1).
Qed.
End Steps.

(** ** A run

    The host interface answers two messages, the second while the first is under
    way; and what a length near [2^16] does. *)
#[local] Existing Instance demo_layout.
#[local] Existing Instance demo_layout_ok.

(** Interrupts of the receiver and of the transmitter take turns, the chip takes a
    transfer at every other look; function 9 is [uartRcvHandler]. *)
#[export] Instance demo_uart : UartEnv := {
  uart_irqs k := if Nat.even k then [UartRx] else [UartTx];
  uart_dma_ready k := Nat.odd k;
  uart_is_parity_error _ := false;
  UART_CLOCK_SOURCE := 32000000;
  uartRxBuf := 0x846000;
  fn_uart_data_handler := 8;
  fn_uartRcvHandler := 9;
  uart_call f s := if f =? 9 then with_u_tasks (u_tasks s ++ [(8, 0x846000)]) s else s
}.

Lemma demo_outside y : 0x846000 <= y < 0x846100 -> outside_bufs y.
Proof.
  intros Hy i Hi.
  assert (Hs : sizeof_mem i <= 0x1000) by (destruct (group_cases i Hi) as [->|[->|[->| ->]]]; vm_compute; congruence).
  unfold size_pool, size_mem, demo_layout. lia.
Qed.

(** Messages come from the 256 bytes at [0x846000]. *)
Definition demo_msgs (y : Z) : Prop := 0x846000 <= y < 0x846100.

#[export] Instance demo_uart_ok : UartOk 2 demo_msgs.
Proof.
  split.
  - intros k. destruct (Nat.even k) eqn:E; [exists 1%nat|exists 0%nat]; (split; [lia|]); cbn.
    + rewrite Nat.add_1_r, Nat.even_succ, <- Nat.negb_even, E. by left.
    + rewrite Nat.add_0_r, E. by left.
  - intros k. destruct (Nat.odd k) eqn:E; [exists 0%nat|exists 1%nat]; (split; [lia|]); cbn.
    + by rewrite Nat.add_0_r.
    + by rewrite Nat.add_1_r, Nat.odd_succ, <- Nat.negb_odd, E.
  - intros f s. cbn. destruct (f =? 9); [by eexists|]. exists []. rewrite app_nil_r. by destruct s.
  - apply demo_outside.
  - intros y Hy. cbn in Hy. unfold demo_msgs. lia.
  - done.
Qed.

Definition uart_zero : uart := mk_uart (ev_buf_init demo_state) UART_STA_IDLE 0 0 [] [] 0.
Definition chan_zero : chan := mk_chan abs_init 0 [] (b_mem (ev_buf_init demo_state)) 0x55.

Lemma start_of b :
  buf_inv b abs_init -> c_irq (b_cpu b) = 0x55 ->
  uart_rel demo_msgs (b_mem b) (mk_uart b UART_STA_IDLE 0 0 [] [] 0) (mk_chan abs_init 0 [] (b_mem b) 0x55) [].
Proof.
  intros Hi Hq. split; try done.
  - split; [exact Hi|constructor|constructor].
  - by left.
Qed.

Lemma uart_zero_rel : uart_rel demo_msgs (u_mem uart_zero) uart_zero chan_zero [].
Proof. destruct (init_inv demo_state) as [Hi Hq]; [done|]. apply (start_of (ev_buf_init demo_state)); [exact Hi|]. by rewrite Hq. Qed.

(** Two messages arrive and are answered; while the second answer is under way a
    message of the driver's own waits for its end. *)
Definition uart_demo_ops : list uart_op :=
  [OInit 115200 9; OReceive [3; 0; 0; 0; 1; 2; 3]; OIrq UartRx; OTask; OReceive [2; 0; 0; 0; 7; 8]; OIrq UartRx; OTask;
   OSend 0x846004 1; OIrq UartTx; OReceive [64; 0; 0; 0]; OTask].

Lemma uart_refines_channel_witness :
  exists s', uart_run 2 uart_demo_ops uart_zero = Some ([None; None; None; None; None; None; None; Some 1; None; None; None], s') /\
    omap sent_of (u_reqs s') = [[3; 0; 0; 0; 1; 2; 3]; [2; 0; 0; 0; 7; 8]; [1; 0; 0; 0; 7]] /\ uartDrvTxBuf s' = 0.
Proof.
  destruct (uart_refines_channel 2 demo_msgs (u_mem uart_zero) uart_demo_ops uart_zero chan_zero []) as (s' & E & Hr).
  - apply uart_zero_rel.
  - repeat first [apply Forall_nil_2 | apply Forall_cons_2]; try exact I; try (unfold uart_op_ok, UART_RX_BUF_SIZE; cbn; lia).
    split_and!; [lia..|]. intros y Hy. unfold demo_msgs. lia.
  - exists s'. split; [etransitivity; [exact E|]; vm_compute; reflexivity|].
    split; [rewrite (ur_sent _ _ _ _ _ Hr)|rewrite (ur_tx _ _ _ _ _ Hr)]; vm_compute; reflexivity.
Defined.

(** A length of 65533: the sum with the header is cut to 16 bits, the smallest
    buffer is taken, and the DMA is told to send 65533 bytes from it. *)
Example uart_length_wraps :
  match drv_uart_tx_start 2 0x846004 65533 uart_zero with
  | Some (r, s) => r = 1 /\ buf_cap (uartDrvTxBuf s) = 16 /\ load32 (u_mem s) (uartDrvTxBuf s) = 65533
  | None => False
  end.
Proof. vm_compute. repeat split. Qed.
