(* ===== verification/Gpio.v ===== *)
(** * Pins and their interrupts ([proj/drivers/drv_gpio.c])

    The registers of the pins, through the inline functions of the chip's
    [gpio.h], and the table of interrupt functions: a list, in event buffers, of
    at most three entries for a pin and an interrupt line.

    [gpio] holds the memory, processor and buffers, the registers (bytes by
    address; a write to the source register of the interrupts only clears flags
    and is recorded), what is asked of the driver library, and the functions
    called (oldest first).  The code is the one of the 8278, where structures are
    packed and enumerations take a byte. *)
From S2P Require Import Prelude Memory Linked ListC SysEv Mempool EvBuffer StringC.

(** [drv_gpioPoll_e] and [drv_gpioIrqMode_t]. *)
Definition RISING_EDGE : Z := 0.
Definition FALLING_EDGE : Z := 1.
Definition GPIO_IRQ_MODE : Z := 1.
Definition GPIO_IRQ_RISC0_MODE : Z := 2.
Definition GPIO_IRQ_RISC1_MODE : Z := 3.
Definition GPIO_IRQ_HANDLER_Q_NUM : Z := 3.

(** [gpio_conf_list]: the offsets of its fields; [next] comes first. *)
Definition off_gpio_irq_callback : Z := 4.
Definition off_pin : Z := 8.
Definition off_mode : Z := 12.
Definition off_polarity : Z := 13.
Definition sizeof_gpio_conf_list : Z := 14.

Definition AS_GPIO : Z := 0.

Inductive gpio_req :=
  | SetFunc (pin func : Z)
  | SetInputEn (pin value : Z)
  | SetResistor (pin up_down : Z)
  | ClearIrqSrc (v : Z).

Record gpio := mk_gpio {
  g_buf : buf_state;
  g_regs : mem;
  g_reqs : list gpio_req;
  g_calls : list Z
}.
Implicit Type s : gpio.

Definition with_g_buf v s := mk_gpio v (g_regs s) (g_reqs s) (g_calls s).
Definition with_g_regs v s := mk_gpio (g_buf s) v (g_reqs s) (g_calls s).
Definition gpio_ask r s := mk_gpio (g_buf s) (g_regs s) (g_reqs s ++ [r]) (g_calls s).
Definition gpio_called f s := mk_gpio (g_buf s) (g_regs s) (g_reqs s) (g_calls s ++ [f]).
Definition g_mem s : mem := b_mem (g_buf s).
Definition with_g_mem (m : mem) s : gpio := with_g_buf (with_cpu (with_mem m (b_cpu (g_buf s))) (g_buf s)) s.

(** The cell of [LIST(gpioIrqHandlerQ)], the levels on the pins, and what the
    interrupt functions do. *)
Class GpioEnv := {
  gpioIrqHandlerQ : Z;
  gpio_in : gpio -> Z -> Z;
  gpio_call : Z -> gpio -> gpio
}.

(** ** The registers of a pin *)
Definition group (pin : Z) : Z := Z.shiftr pin 8.
Definition reg_gpio_oen (i : Z) : Z := 0x582 + Z.shiftl (group i) 3.
Definition reg_gpio_out (i : Z) : Z := 0x583 + Z.shiftl (group i) 3.
Definition reg_gpio_pol (i : Z) : Z := 0x584 + Z.shiftl (group i) 3.
Definition reg_gpio_irq_wakeup_en (i : Z) : Z := 0x587 + Z.shiftl (group i) 3.
Definition reg_gpio_irq_risc0_en (i : Z) : Z := 0x5b8 + group i.
Definition reg_gpio_irq_risc1_en (i : Z) : Z := 0x5c0 + group i.
Definition reg_gpio_in (i : Z) : Z := 0x580 + Z.shiftl (group i) 3.
Definition reg_gpio_wakeup_irq : Z := 0x5b5.
Definition reg_irq_mask : Z := 0x640.
Definition FLD_GPIO_CORE_INTERRUPT_EN : Z := Z.shiftl 1 3.
Definition FLD_IRQ_GPIO_EN : Z := Z.shiftl 1 18.
Definition FLD_IRQ_GPIO_RISC0_EN : Z := Z.shiftl 1 21.
Definition FLD_IRQ_GPIO_RISC1_EN : Z := Z.shiftl 1 22.

(** [BM_SET] and [BM_CLR] on a byte register. *)
Definition BM_SET (x mask : Z) (r : mem) : mem := store8 r x (Z.lor (load8 r x) mask).
Definition BM_CLR (x mask : Z) (r : mem) : mem := store8 r x (Z.land (load8 r x) (Z.lnot mask)).
Definition BM_IS_SET (x mask : Z) (r : mem) : Z := Z.land (load8 r x) mask.
Definition bm_put (b : bool) (x mask : Z) (r : mem) : mem := if b then BM_SET x mask r else BM_CLR x mask r.
Definition on_regs (f : mem -> mem) s : gpio := with_g_regs (f (g_regs s)) s.
Definition bit_of (pin : Z) : Z := Z.land pin 0xff.

Definition gpio_set_output_en (pin value : Z) s : gpio := on_regs (bm_put (value =? 0) (reg_gpio_oen pin) (bit_of pin)) s.
Definition gpio_is_output_en (pin : Z) s : bool := BM_IS_SET (reg_gpio_oen pin) (bit_of pin) (g_regs s) =? 0.
Definition gpio_write (pin value : Z) s : gpio := on_regs (bm_put (negb (value =? 0)) (reg_gpio_out pin) (bit_of pin)) s.
Definition gpio_toggle (pin : Z) s : gpio :=
  on_regs (fun r => store8 r (reg_gpio_out pin) (Z.lxor (load8 r (reg_gpio_out pin)) (bit_of pin))) s.
Definition gpio_set_interrupt_pol (pin falling : Z) s : gpio := on_regs (bm_put (negb (falling =? 0)) (reg_gpio_pol pin) (bit_of pin)) s.

Definition irq_line (v : Z) s : gpio :=
  let s := gpio_ask (ClearIrqSrc v) s in
  on_regs (fun r => store32 r reg_irq_mask (Z.lor (load32 r reg_irq_mask) v)) s.

Definition gpio_set_interrupt (pin falling : Z) s : gpio :=
  let s := on_regs (BM_SET reg_gpio_wakeup_irq FLD_GPIO_CORE_INTERRUPT_EN) s in
  let s := gpio_set_interrupt_pol pin falling s in
  irq_line FLD_IRQ_GPIO_EN s.
Definition gpio_set_interrupt_risc0 (pin falling : Z) s : gpio := irq_line FLD_IRQ_GPIO_RISC0_EN (gpio_set_interrupt_pol pin falling s).
Definition gpio_set_interrupt_risc1 (pin falling : Z) s : gpio := irq_line FLD_IRQ_GPIO_RISC1_EN (gpio_set_interrupt_pol pin falling s).
Definition gpio_en_interrupt (pin en : Z) s : gpio := on_regs (bm_put (negb (en =? 0)) (reg_gpio_irq_wakeup_en pin) (bit_of pin)) s.
Definition gpio_en_interrupt_risc0 (pin en : Z) s : gpio := on_regs (bm_put (negb (en =? 0)) (reg_gpio_irq_risc0_en pin) (bit_of pin)) s.
Definition gpio_en_interrupt_risc1 (pin en : Z) s : gpio := on_regs (bm_put (negb (en =? 0)) (reg_gpio_irq_risc1_en pin) (bit_of pin)) s.

(** ** The driver's names for them *)
Definition drv_gpio_func_set (pin : Z) s : gpio := gpio_ask (SetFunc pin AS_GPIO) s.
Definition drv_gpio_output_en (pin enable : Z) s : gpio := gpio_set_output_en pin enable s.
Definition drv_gpio_input_en (pin enable : Z) s : gpio := gpio_ask (SetInputEn pin enable) s.
Definition drv_gpio_up_down_resistor (pin res : Z) s : gpio := gpio_ask (SetResistor pin res) s.
Definition drv_gpio_write (pin value : Z) s : gpio := gpio_write pin value s.
Definition drv_gpio_irq_set (pin polarity : Z) s : gpio := gpio_set_interrupt pin polarity s.
Definition drv_gpio_irq_risc0_set (pin polarity : Z) s : gpio := gpio_set_interrupt_risc0 pin polarity s.
Definition drv_gpio_irq_risc1_set (pin polarity : Z) s : gpio := gpio_set_interrupt_risc1 pin polarity s.
Definition drv_gpio_irq_en (pin : Z) s : gpio := gpio_en_interrupt pin 1 s.
Definition drv_gpio_irq_risc0_en (pin : Z) s : gpio := gpio_en_interrupt_risc0 pin 1 s.
Definition drv_gpio_irq_risc1_en (pin : Z) s : gpio := gpio_en_interrupt_risc1 pin 1 s.
Definition drv_gpio_irq_dis (pin : Z) s : gpio := gpio_en_interrupt pin 0 s.
Definition drv_gpio_irq_risc0_dis (pin : Z) s : gpio := gpio_en_interrupt_risc0 pin 0 s.
Definition drv_gpio_irq_risc1_dis (pin : Z) s : gpio := gpio_en_interrupt_risc1 pin 0 s.

Section Gpio.
Context `{EvLayout, GpioEnv} (fuel : nat).

Definition gpio_read (pin : Z) s : Z := Z.land (gpio_in s (reg_gpio_in pin)) (bit_of pin).
Definition drv_gpio_read (pin : Z) s : Z := gpio_read pin s.
(** The four bytes written to [p]. *)
Definition gpio_read_all s : list Z := gpio_in s <$> [0x580; 0x588; 0x590; 0x598].
Definition drv_gpio_read_all s : list Z := gpio_read_all s.

(** ** The interrupt functions *)

(** The loop over the table: the first entry for [mode] and [pin], 0 if none. *)
Fixpoint conf_search (n : nat) (m : mem) (mode pin pList : Z) : option Z :=
  match n with
  | O => None
  | S n' =>
      if pList =? 0 then Some 0
      else if (load8 m (pList + off_mode) =? mode) && (load32 m (pList + off_pin) =? pin) then Some pList
      else conf_search n' m mode pin (load32 m pList)
  end.

(** The update of an entry found. *)
Definition conf_update (pList polarity cb : Z) (m : mem) : mem :=
  let m := if negb (load8 m (pList + off_polarity) =? polarity) then store8 m (pList + off_polarity) polarity else m in
  if negb (load32 m (pList + off_gpio_irq_callback) =? cb) then store32 m (pList + off_gpio_irq_callback) cb else m.

Definition conf_fill (node mode pin polarity cb : Z) (m : mem) : mem :=
  let m := store8 m (node + off_mode) mode in
  let m := store32 m (node + off_pin) pin in
  let m := store8 m (node + off_polarity) polarity in
  store32 m (node + off_gpio_irq_callback) cb.

(** The part for an entry that is not there: false when the function returns -1. *)
Definition conf_add (mode pin polarity cb : Z) s : option (bool * gpio) :=
  n ← listLength fuel (g_mem s) gpioIrqHandlerQ;
  if GPIO_IRQ_HANDLER_Q_NUM <=? n then Some (false, s)
  else
    let '(node, b) := ev_buf_allocate sizeof_gpio_conf_list (g_buf s) in
    if node =? 0 then Some (false, with_g_buf b s)
    else
      let b := with_cpu (memset node 0 sizeof_gpio_conf_list (b_cpu b)).2 b in
      let m := conf_fill node mode pin polarity cb (b_mem b) in
      m ← listAdd fuel m gpioIrqHandlerQ node;
      Some (true, with_g_buf (with_cpu (with_mem m (b_cpu b)) b) s).

Definition irq_set_of (mode pin polarity : Z) s : gpio :=
  if mode =? GPIO_IRQ_MODE then drv_gpio_irq_set pin polarity s
  else if mode =? GPIO_IRQ_RISC0_MODE then drv_gpio_irq_risc0_set pin polarity s
  else if mode =? GPIO_IRQ_RISC1_MODE then drv_gpio_irq_risc1_set pin polarity s
  else s.

Definition drv_gpio_irq_config (mode pin polarity cb : Z) s : option (Z * gpio) :=
  n ← listLength fuel (g_mem s) gpioIrqHandlerQ;
  pList ← (if negb (n =? 0) then conf_search fuel (g_mem s) mode pin (listHead (g_mem s) gpioIrqHandlerQ) else Some 0);
  '(done, s) ← (if negb (pList =? 0) then Some (true, with_g_mem (conf_update pList polarity cb (g_mem s)) s)
                else conf_add mode pin polarity cb s : option (bool * gpio));
  if done : bool then Some (0, irq_set_of mode pin polarity s) else Some (-1, s).

(** The first entry for the line that has a function is served. *)
Fixpoint irq_loop (n : nat) (mode pList : Z) s : option gpio :=
  match n with
  | O => None
  | S n' =>
      if pList =? 0 then Some s
      else if (load8 (g_mem s) (pList + off_mode) =? mode) && negb (load32 (g_mem s) (pList + off_gpio_irq_callback) =? 0) then
        let cb := load32 (g_mem s) (pList + off_gpio_irq_callback) in
        Some (gpio_call cb (gpio_called cb s))
      else irq_loop n' mode (load32 (g_mem s) pList) s
  end.

Definition drv_gpio_irq_process (mode : Z) s : option gpio :=
  n ← listLength fuel (g_mem s) gpioIrqHandlerQ;
  if negb (n =? 0) then irq_loop fuel mode (listHead (g_mem s) gpioIrqHandlerQ) s else Some s.

Definition drv_gpio_irq_handler s : option gpio := drv_gpio_irq_process GPIO_IRQ_MODE s.
Definition drv_gpio_irq_risc0_handler s : option gpio := drv_gpio_irq_process GPIO_IRQ_RISC0_MODE s.
Definition drv_gpio_irq_risc1_handler s : option gpio := drv_gpio_irq_process GPIO_IRQ_RISC1_MODE s.
End Gpio.
