(* ===== verification/GpioPins.v ===== *)
(** * The registers of the pins

    The bits of the registers implement a record of switches for each pin: an
    operation on one pin changes its switches as it says and no switch of any
    other pin. *)
From S2P Require Import Prelude Memory Linked ListC SysEv Mempool EvBuffer StringC Gpio.

(** The switches of a pin. *)
Record pin_t := mk_pin { p_driven : bool; p_level : bool; p_falling : bool; p_irq : bool; p_risc0 : bool; p_risc1 : bool }.

(** A pin is a group and one bit. *)
Definition valid_pin (pin : Z) : Prop := exists g b, 0 <= g < 5 /\ 0 <= b < 8 /\ pin = 256 * g + 2 ^ b.

Definition reg_bit (x mask : Z) (r : mem) : bool := negb (Z.land (load8 r x) mask =? 0).
Definition pin_of (r : mem) (pin : Z) : pin_t :=
  mk_pin (negb (reg_bit (reg_gpio_oen pin) (bit_of pin) r)) (reg_bit (reg_gpio_out pin) (bit_of pin) r)
    (reg_bit (reg_gpio_pol pin) (bit_of pin) r) (reg_bit (reg_gpio_irq_wakeup_en pin) (bit_of pin) r)
    (reg_bit (reg_gpio_irq_risc0_en pin) (bit_of pin) r) (reg_bit (reg_gpio_irq_risc1_en pin) (bit_of pin) r).

Inductive pin_field := FDriven | FLevel | FFalling | FIrq | FRisc0 | FRisc1.
#[export] Instance pin_field_eq_dec : EqDecision pin_field.
Proof. solve_decision. Defined.

Definition reg_of (f : pin_field) (pin : Z) : Z :=
  match f with
  | FDriven => reg_gpio_oen pin | FLevel => reg_gpio_out pin | FFalling => reg_gpio_pol pin
  | FIrq => reg_gpio_irq_wakeup_en pin | FRisc0 => reg_gpio_irq_risc0_en pin | FRisc1 => reg_gpio_irq_risc1_en pin
  end.

Definition get_field (f : pin_field) (p : pin_t) : bool :=
  match f with FDriven => p_driven p | FLevel => p_level p | FFalling => p_falling p | FIrq => p_irq p | FRisc0 => p_risc0 p | FRisc1 => p_risc1 p end.

Definition set_field (f : pin_field) (b : bool) (p : pin_t) : pin_t :=
  match f with
  | FDriven => mk_pin b (p_level p) (p_falling p) (p_irq p) (p_risc0 p) (p_risc1 p)
  | FLevel => mk_pin (p_driven p) b (p_falling p) (p_irq p) (p_risc0 p) (p_risc1 p)
  | FFalling => mk_pin (p_driven p) (p_level p) b (p_irq p) (p_risc0 p) (p_risc1 p)
  | FIrq => mk_pin (p_driven p) (p_level p) (p_falling p) b (p_risc0 p) (p_risc1 p)
  | FRisc0 => mk_pin (p_driven p) (p_level p) (p_falling p) (p_irq p) b (p_risc1 p)
  | FRisc1 => mk_pin (p_driven p) (p_level p) (p_falling p) (p_irq p) (p_risc0 p) b
  end.

(** The bit of a field: the output enable is active low. *)
Definition field_bit (f : pin_field) (b : bool) : bool := match f with FDriven => negb b | _ => b end.

Lemma reg_bit_ext x mask r r' : load8 r' x = load8 r x -> reg_bit x mask r' = reg_bit x mask r.
Proof. unfold reg_bit. by intros ->. Qed.

Lemma pin_of_ext r r' pin :
  (forall f, reg_bit (reg_of f pin) (bit_of pin) r' = reg_bit (reg_of f pin) (bit_of pin) r) -> pin_of r' pin = pin_of r pin.
Proof.
  intros E. pose proof (E FDriven) as E1. pose proof (E FLevel) as E2. pose proof (E FFalling) as E3.
  pose proof (E FIrq) as E4. pose proof (E FRisc0) as E5. pose proof (E FRisc1) as E6. cbn [reg_of] in *.
  unfold pin_of. by rewrite E1, E2, E3, E4, E5, E6.
Qed.

(** ** Groups and bits *)
Lemma valid_parts pin g b : 0 <= g < 5 -> 0 <= b < 8 -> pin = 256 * g + 2 ^ b -> group pin = g /\ bit_of pin = 2 ^ b.
Proof.
  intros Hg Hb ->. assert (Hp : 1 <= 2 ^ b <= 128).
  { split; [apply (Z.pow_le_mono_r 2 0 b); lia|apply (Z.pow_le_mono_r 2 b 7); lia]. }
  unfold group, bit_of. rewrite Z.shiftr_div_pow2 by lia. change 255 with (Z.ones 8). rewrite Z.land_ones by lia.
  change (2 ^ 8) with 256. split; zdm.
Qed.

Lemma bit_test v b : 0 <= b -> negb (Z.land v (2 ^ b) =? 0) = Z.testbit v b.
Proof.
  intros Hb. destruct (Z.testbit v b) eqn:E.
  - destruct (Z.eqb_spec (Z.land v (2 ^ b)) 0) as [E0|]; [|done].
    apply (f_equal (fun x => Z.testbit x b)) in E0. rewrite Z.land_spec, Z.pow2_bits_true, E, Z.bits_0 in E0 by done. done.
  - replace (Z.land v (2 ^ b)) with 0; [done|]. symmetry. apply Z.bits_inj'. intros n Hn.
    rewrite Z.land_spec, Z.pow2_bits_eqb, Z.bits_0 by done. destruct (Z.eqb_spec b n) as [->|]; [by rewrite E|by rewrite andb_false_r].
Qed.

Lemma u8_bit x b : 0 <= b < 8 -> Z.testbit (u8 x) b = Z.testbit x b.
Proof. intros. unfold u8. by rewrite Z.mod_pow2_bits_low by lia. Qed.

Lemma byte_high v n : 0 <= v < 256 -> 8 <= n -> Z.testbit v n = false.
Proof. intros Hv Hn. rewrite <- (Z.mod_small v (2 ^ 8)) by lia. by apply Z.mod_pow2_bits_high. Qed.

Lemma put_bit (v : bool) x b b' r :
  0 <= b < 8 -> 0 <= b' < 8 ->
  Z.testbit (load8 (bm_put v x (2 ^ b) r) x) b' = if b' =? b then v else Z.testbit (load8 r x) b'.
Proof.
  intros Hb Hb'. unfold bm_put, BM_SET, BM_CLR. destruct v; rewrite load8_store8_eq, u8_bit by lia.
  - rewrite Z.lor_spec, Z.pow2_bits_eqb, Z.eqb_sym by lia. destruct (b' =? b); [apply orb_true_r|apply orb_false_r].
  - rewrite Z.land_spec, Z.lnot_spec, Z.pow2_bits_eqb, Z.eqb_sym by lia. destruct (b' =? b); [apply andb_false_r|apply andb_true_r].
Qed.

Lemma put_other v x y mask r : x <> y -> load8 (bm_put v x mask r) y = load8 r y.
Proof. intros. unfold bm_put, BM_SET, BM_CLR. by destruct v; rewrite load8_store8_ne. Qed.

Lemma reg_of_group f pin : reg_of f pin = match f with
  | FDriven => 0x582 + 8 * group pin | FLevel => 0x583 + 8 * group pin | FFalling => 0x584 + 8 * group pin
  | FIrq => 0x587 + 8 * group pin | FRisc0 => 0x5b8 + group pin | FRisc1 => 0x5c0 + group pin end.
Proof. destruct f; cbn; unfold reg_gpio_oen, reg_gpio_out, reg_gpio_pol, reg_gpio_irq_wakeup_en, reg_gpio_irq_risc0_en, reg_gpio_irq_risc1_en; rewrite ?Z.shiftl_mul_pow2 by lia; lia. Qed.

(** Two registers are the same only for the same switch and group. *)
Lemma reg_of_inj f f' pin pin' :
  valid_pin pin -> valid_pin pin' -> reg_of f pin = reg_of f' pin' -> f = f' /\ group pin = group pin'.
Proof.
  intros (g & b & Hg & Hb & E) (g' & b' & Hg' & Hb' & E').
  rewrite !reg_of_group. destruct (valid_parts _ _ _ Hg Hb E) as [-> _], (valid_parts _ _ _ Hg' Hb' E') as [-> _].
  destruct f, f'; intros; (split; [try done; lia|lia]).
Qed.

(** ** One switch *)
Lemma field_of f r pin : get_field f (pin_of r pin) = field_bit f (reg_bit (reg_of f pin) (bit_of pin) r).
Proof. by destruct f. Qed.

Lemma pin_eq p q : (forall f, get_field f p = get_field f q) -> p = q.
Proof.
  intros E. pose proof (E FDriven). pose proof (E FLevel). pose proof (E FFalling). pose proof (E FIrq). pose proof (E FRisc0). pose proof (E FRisc1).
  destruct p, q; cbn in *; congruence.
Qed.

Lemma get_set f f' b p : get_field f (set_field f' b p) = if decide (f = f') then b else get_field f p.
Proof. by destruct f, f'. Qed.

Lemma field_bit_inv f b : field_bit f (field_bit f b) = b.
Proof. destruct f; cbn; by rewrite ?negb_involutive. Qed.

Lemma valid_inj pin pin' : valid_pin pin -> valid_pin pin' -> group pin = group pin' -> bit_of pin = bit_of pin' -> pin = pin'.
Proof.
  intros (g & b & Hg & Hb & E) (g' & b' & Hg' & Hb' & E'). destruct (valid_parts _ _ _ Hg Hb E) as [-> ->].
  destruct (valid_parts _ _ _ Hg' Hb' E') as [-> ->]. congruence.
Qed.

Lemma put_reg v x pin pin' r :
  valid_pin pin -> valid_pin pin' ->
  reg_bit x (bit_of pin') (bm_put v x (bit_of pin) r) = if decide (bit_of pin = bit_of pin') then v else reg_bit x (bit_of pin') r.
Proof.
  intros (g & b & Hg & Hb & E) (g' & b' & Hg' & Hb' & E'). destruct (valid_parts _ _ _ Hg Hb E) as [_ ->].
  destruct (valid_parts _ _ _ Hg' Hb' E') as [_ ->]. unfold reg_bit. rewrite !bit_test by lia. rewrite put_bit by lia.
  destruct (Z.eqb_spec b' b) as [->|Hne]; [by rewrite decide_True|]. rewrite decide_False; [done|].
  intros Ep%Z.pow_inj_r; lia.
Qed.

(** Setting the switch [f] of [pin]: the other switches of the pin, and all the
    other pins, stay. *)
Lemma put_pin f v pin pin' r :
  valid_pin pin -> valid_pin pin' ->
  pin_of (bm_put (field_bit f v) (reg_of f pin) (bit_of pin) r) pin' =
    if decide (pin' = pin) then set_field f v (pin_of r pin) else pin_of r pin'.
Proof.
  intros Hp Hp'. apply pin_eq. intros f'. rewrite field_of.
  destruct (decide (reg_of f pin = reg_of f' pin')) as [E|E].
  - destruct (reg_of_inj _ _ _ _ Hp Hp' E) as [<- Hg]. rewrite <- E, put_reg by done.
    destruct (decide (bit_of pin = bit_of pin')) as [Eb|Eb].
    + rewrite (decide_True _ _ (eq_sym (valid_inj _ _ Hp Hp' Hg Eb))), get_set, decide_True by done. apply field_bit_inv.
    + rewrite decide_False by congruence. by rewrite field_of, E.
  - rewrite (reg_bit_ext _ _ r) by (by apply put_other). rewrite <- field_of.
    destruct (decide (pin' = pin)) as [->|]; [|done]. rewrite get_set, decide_False; [done|]. by intros ->.
Qed.

(** ** The operations *)
Lemma reg_range f pin : valid_pin pin -> 0x582 <= reg_of f pin < 0x5c5 /\ reg_of f pin <> reg_gpio_wakeup_irq.
Proof.
  intros (g & b & Hg & Hb & E). destruct (valid_parts _ _ _ Hg Hb E) as [Eg _]. rewrite reg_of_group, Eg.
  unfold reg_gpio_wakeup_irq. destruct f; lia.
Qed.

Lemma global_pin r r' pin :
  valid_pin pin -> (forall x, 0x582 <= x < 0x5c5 -> x <> reg_gpio_wakeup_irq -> load8 r' x = load8 r x) -> pin_of r' pin = pin_of r pin.
Proof. intros Hp E. apply pin_of_ext. intros f. apply reg_bit_ext. destruct (reg_range f pin Hp). by apply E. Qed.

(** Toggling is setting the level to its contrary. *)
Lemma toggle_pin pin pin' s :
  valid_pin pin -> valid_pin pin' ->
  pin_of (g_regs (gpio_toggle pin s)) pin' =
    if decide (pin' = pin) then set_field FLevel (negb (p_level (pin_of (g_regs s) pin))) (pin_of (g_regs s) pin) else pin_of (g_regs s) pin'.
Proof.
  intros Hp Hp'. set (v := negb (p_level (pin_of (g_regs s) pin))). rewrite <- (put_pin FLevel v pin pin') by done.
  apply pin_of_ext. intros f. apply reg_bit_ext. cbn [g_regs gpio_toggle on_regs with_g_regs reg_of].
  destruct (decide (reg_of f pin' = reg_gpio_out pin)) as [E|E].
  - rewrite E. destruct Hp as (g & b & Hg & Hb & Ep). destruct (valid_parts _ _ _ Hg Hb Ep) as [_ Eb]. rewrite Eb.
    apply Z.bits_inj'. intros n Hn. destruct (Z.lt_ge_cases n 8) as [Hn8|Hn8].
    + rewrite put_bit, load8_store8_eq, u8_bit, Z.lxor_spec, Z.pow2_bits_eqb by lia. rewrite Z.eqb_sym.
      destruct (Z.eqb_spec n b) as [->|]; [|by rewrite xorb_false_r].
      rewrite xorb_true_r. subst v. cbn. unfold reg_bit. rewrite Eb. by rewrite bit_test by lia.
    + by rewrite !byte_high by (apply load8_range || lia).
  - rewrite put_other by done. by rewrite load8_store8_ne by done.
Qed.
