(* ===== verification/GpioProps.v ===== *)
(** * Pins and their interrupts: properties

    The driver implements a table of at most three interrupt functions, each for a
    pin and a line, next to the switches of every pin, over the abstract buffer
    allocator: whatever is configured, switched and interrupted, in any order. *)
From S2P Require Import Prelude Memory Linked ListC SysEv Mempool EvBuffer BufClient StringC Gpio GpioPins.

(** ** The abstract driver *)
Record conf := mk_conf { c_mode : Z; c_pin : Z; c_pol : Z; c_cb : Z }.

(** The table, the pins, the allocator, the calls, and the interrupt register,
    which no operation changes. *)
Record board := mk_board { tbl : list conf; pins : Z -> pin_t; ga : alloc_state; bd_calls : list Z; bd_irq : Z }.
Implicit Type σ : board.

Definition with_tbl v σ := mk_board v (pins σ) (ga σ) (bd_calls σ) (bd_irq σ).
Definition with_ga v σ := mk_board (tbl σ) (pins σ) v (bd_calls σ) (bd_irq σ).
Definition with_pin pin (f : pin_t -> pin_t) σ := mk_board (tbl σ) (fun q => if decide (q = pin) then f (pins σ pin) else pins σ q) (ga σ) (bd_calls σ) (bd_irq σ).
Definition bd_called f σ := mk_board (tbl σ) (pins σ) (ga σ) (bd_calls σ ++ [f]) (bd_irq σ).

Class BoardCb := bd_cb : Z -> board -> board.

Inductive gpio_op :=
  | GOutputEn (pin v : Z) | GWrite (pin v : Z) | GToggle (pin : Z)
  | GIrqEn (mode pin : Z) | GIrqDis (mode pin : Z)
  | GConfig (mode pin pol cb : Z) | GIrq (mode : Z).

Definition same_key (mode pin : Z) (c : conf) : bool := (c_mode c =? mode) && (c_pin c =? pin).

(** Replaces the first entry for the line and the pin. *)
Fixpoint put_conf (c : conf) (t : list conf) : option (list conf) :=
  match t with
  | [] => None
  | d :: t => if same_key (c_mode c) (c_pin c) d then Some (c :: t) else cons d <$> put_conf c t
  end.

(** The function of the first entry for the line that has one. *)
Fixpoint served (mode : Z) (t : list conf) : option Z :=
  match t with
  | [] => None
  | d :: t => if (c_mode d =? mode) && negb (c_cb d =? 0) then Some (c_cb d) else served mode t
  end.

Definition is_line (mode : Z) : bool := (mode =? GPIO_IRQ_MODE) || (mode =? GPIO_IRQ_RISC0_MODE) || (mode =? GPIO_IRQ_RISC1_MODE).
Definition line_field (mode : Z) : pin_field :=
  if mode =? GPIO_IRQ_MODE then FIrq else if mode =? GPIO_IRQ_RISC0_MODE then FRisc0 else FRisc1.

Section Spec.
Context `{EvLayout, GpioEnv, BoardCb} (fuel : nat).

Definition spec_config (c : conf) σ : Z * board :=
  let '(r, σ) :=
    match put_conf c (tbl σ) with
    | Some t => (0, with_tbl t σ)
    | None =>
        if 3 <=? Z.of_nat (length (tbl σ)) then (-1, σ)
        else let '(p, a) := abs_allocate sizeof_gpio_conf_list (ga σ) in
          if p =? 0 then (-1, σ) else (0, with_tbl (tbl σ ++ [c]) (with_ga a σ))
    end in
  (r, if (r =? 0) && is_line (c_mode c) then with_pin (c_pin c) (set_field FFalling (negb (c_pol c =? 0))) σ else σ).

Definition spec_do (o : gpio_op) σ : option Z * board :=
  match o with
  | GOutputEn pin v => (None, with_pin pin (set_field FDriven (negb (v =? 0))) σ)
  | GWrite pin v => (None, with_pin pin (set_field FLevel (negb (v =? 0))) σ)
  | GToggle pin => (None, with_pin pin (fun p => set_field FLevel (negb (p_level p)) p) σ)
  | GIrqEn mode pin => (None, with_pin pin (set_field (line_field mode) true) σ)
  | GIrqDis mode pin => (None, with_pin pin (set_field (line_field mode) false) σ)
  | GConfig mode pin pol cb => let '(r, σ) := spec_config (mk_conf mode pin pol cb) σ in (Some r, σ)
  | GIrq mode => (None, match served mode (tbl σ) with Some f => bd_cb f (bd_called f σ) | None => σ end)
  end.

Definition gpio_do (o : gpio_op) s : option (option Z * gpio) :=
  match o with
  | GOutputEn pin v => Some (None, drv_gpio_output_en pin v s)
  | GWrite pin v => Some (None, drv_gpio_write pin v s)
  | GToggle pin => Some (None, gpio_toggle pin s)
  | GIrqEn mode pin =>
      Some (None, if mode =? GPIO_IRQ_MODE then drv_gpio_irq_en pin s
                  else if mode =? GPIO_IRQ_RISC0_MODE then drv_gpio_irq_risc0_en pin s else drv_gpio_irq_risc1_en pin s)
  | GIrqDis mode pin =>
      Some (None, if mode =? GPIO_IRQ_MODE then drv_gpio_irq_dis pin s
                  else if mode =? GPIO_IRQ_RISC0_MODE then drv_gpio_irq_risc0_dis pin s else drv_gpio_irq_risc1_dis pin s)
  | GConfig mode pin pol cb => '(r, s) ← drv_gpio_irq_config fuel mode pin pol cb s; Some (Some r, s)
  | GIrq mode =>
      s ← (if mode =? GPIO_IRQ_MODE then drv_gpio_irq_handler fuel s
           else if mode =? GPIO_IRQ_RISC0_MODE then drv_gpio_irq_risc0_handler fuel s else drv_gpio_irq_risc1_handler fuel s);
      Some (None, s)
  end.

Fixpoint spec_run (os : list gpio_op) σ : list (option Z) * board :=
  match os with
  | [] => ([], σ)
  | o :: os => let '(r, σ) := spec_do o σ in let '(rs, σ) := spec_run os σ in (r :: rs, σ)
  end.

Fixpoint gpio_run (os : list gpio_op) s : option (list (option Z) * gpio) :=
  match os with
  | [] => Some ([], s)
  | o :: os => '(r, s) ← gpio_do o s; '(rs, s) ← gpio_run os s; Some (r :: rs, s)
  end.

Definition gpio_op_ok (o : gpio_op) : Prop :=
  match o with
  | GOutputEn pin _ | GWrite pin _ | GToggle pin => valid_pin pin
  | GIrqEn mode pin | GIrqDis mode pin => valid_pin pin /\ is_line mode = true
  | GConfig mode pin pol cb => valid_pin pin /\ 0 <= mode < 256 /\ 0 <= pol < 256 /\ 0 <= cb < 2 ^ 32
  | GIrq mode => is_line mode = true
  end.

(** An entry in memory. *)
Definition conf_at (m : mem) (p : Z) (c : conf) : Prop :=
  load8 m (p + off_mode) = c_mode c /\ load32 m (p + off_pin) = c_pin c /\
  load8 m (p + off_polarity) = c_pol c /\ load32 m (p + off_gpio_irq_callback) = c_cb c.

(** The driver and the abstract one, with the entries in the buffers [l]; the
    client holds the buffers [L] besides, with the contents they have in [m0], and
    so has the memory outside the buffers but for the cell of the list. *)
Record gpio_rel_at (m0 : mem) s σ (l L : list Z) : Prop := {
  gr_list : holds (g_mem s) gpioIrqHandlerQ l;
  gr_conf : Forall2 (conf_at (g_mem s)) l (tbl σ);
  gr_len : (length (tbl σ) <= 3)%nat;
  gr_bufs : holds_bufs (g_buf s) (ga σ) (l ++ L);
  gr_pins pin : valid_pin pin -> pin_of (g_regs s) pin = pins σ pin;
  gr_calls : g_calls s = bd_calls σ;
  gr_irq : c_irq (b_cpu (g_buf s)) = bd_irq σ;
  gr_kept : bufs_kept L m0 (g_mem s);
  gr_out y : outside_bufs y -> ~ (gpioIrqHandlerQ <= y < gpioIrqHandlerQ + 4) -> load8 (g_mem s) y = load8 m0 y
}.
Definition gpio_rel (m0 : mem) s σ (L : list Z) : Prop := exists l, gpio_rel_at m0 s σ l L.
End Spec.

(** The cell of the list is not the allocator's, and the interrupt functions do to
    the driver what they do to the abstract one. *)
Class GpioOk `{EvLayout, GpioEnv, BoardCb} (fuel : nat) : Prop := {
  fuel_enough : (3 < fuel)%nat;
  cell_aligned : aligned4 gpioIrqHandlerQ;
  cell_outside y : gpioIrqHandlerQ <= y < gpioIrqHandlerQ + 4 -> outside_bufs y;
  gpio_cb_sim f m0 s σ L : gpio_rel m0 s σ L -> gpio_rel m0 (gpio_call f s) (bd_cb f σ) L
}.

Section Steps.
Context `{EvLayoutOk, GpioEnv, BoardCb} (fuel : nat) `{!GpioOk fuel}.
Implicit Type (L l : list Z) (m : mem).
Variable m0 : mem.

(** ** The switches *)
Lemma rel_regs f g s σ L :
  gpio_rel m0 s σ L ->
  (forall q, valid_pin q -> pin_of (f (g_regs s)) q = pins (g σ) q) ->
  tbl (g σ) = tbl σ -> ga (g σ) = ga σ -> bd_calls (g σ) = bd_calls σ -> bd_irq (g σ) = bd_irq σ ->
  gpio_rel m0 (on_regs f s) (g σ) L.
Proof.
  intros [l []] Hp E1 E2 E3 E4. exists l. split; rewrite ?E1, ?E2, ?E3, ?E4; try done.
Qed.

Lemma put_rel fd v pin s σ L :
  valid_pin pin -> gpio_rel m0 s σ L ->
  gpio_rel m0 (on_regs (bm_put (field_bit fd v) (reg_of fd pin) (bit_of pin)) s) (with_pin pin (set_field fd v) σ) L.
Proof.
  intros Hp Hr. apply (rel_regs _ (with_pin pin (set_field fd v))); try done. intros q Hq. destruct Hr as [l Hr].
  rewrite put_pin by done. cbn [pins with_pin]. by rewrite !(gr_pins _ _ _ _ _ Hr) by done.
Qed.

Lemma toggle_rel pin s σ L :
  valid_pin pin -> gpio_rel m0 s σ L ->
  gpio_rel m0 (gpio_toggle pin s) (with_pin pin (fun p => set_field FLevel (negb (p_level p)) p) σ) L.
Proof.
  intros Hp [l Hr]. exists l. destruct Hr as [? ? ? ? Hpins ?]. split; try done. intros q Hq.
  rewrite toggle_pin by done. cbn [pins with_pin]. by rewrite !Hpins by done.
Qed.

Lemma line_rel v s σ L : gpio_rel m0 s σ L -> gpio_rel m0 (irq_line v s) σ L.
Proof.
  intros [l [? ? ? ? Hpins ?]]. exists l. split; try done. intros q Hq. rewrite <- Hpins by done.
  apply global_pin; [done|]. intros x Hx _. cbn. unfold reg_irq_mask. by rewrite !load8_store32_ne by lia.
Qed.

Lemma wakeup_rel s σ L : gpio_rel m0 s σ L -> gpio_rel m0 (on_regs (BM_SET reg_gpio_wakeup_irq FLD_GPIO_CORE_INTERRUPT_EN) s) σ L.
Proof.
  intros [l [? ? ? ? Hpins ?]]. exists l. split; try done. intros q Hq. rewrite <- Hpins by done.
  apply global_pin; [done|]. intros x _ Hx. cbn [g_regs on_regs with_g_regs]. unfold BM_SET. by rewrite load8_store8_ne.
Qed.

Lemma irq_set_rel mode pin pol s σ L :
  valid_pin pin -> gpio_rel m0 s σ L ->
  gpio_rel m0 (irq_set_of mode pin pol s) (if is_line mode then with_pin pin (set_field FFalling (negb (pol =? 0))) σ else σ) L.
Proof.
  intros Hp Hr. pose proof (fun s => put_rel FFalling (negb (pol =? 0)) pin s σ L Hp) as Hput.
  unfold irq_set_of, is_line. destruct (mode =? GPIO_IRQ_MODE), (mode =? GPIO_IRQ_RISC0_MODE), (mode =? GPIO_IRQ_RISC1_MODE); cbn [orb];
    try done; apply line_rel, Hput; try done; by apply wakeup_rel.
Qed.

(** ** The table *)
Lemma conf_ext m m' p c : conf_at m p c -> (forall y, p + 4 <= y < p + 14 -> load8 m' y = load8 m y) -> conf_at m' p c.
Proof.
  intros (E1 & E2 & E3 & E4) Hm. unfold conf_at, off_mode, off_pin, off_polarity, off_gpio_irq_callback, load32 in *.
  by rewrite !Hm by lia.
Qed.

Lemma conf_list_ext m m' l t :
  Forall2 (conf_at m) l t -> (forall b, b ∈ l -> forall y, b + 4 <= y < b + 14 -> load8 m' y = load8 m y) -> Forall2 (conf_at m') l t.
Proof.
  induction 1 as [|b c l t Hbc _ IH]; intros Hm; constructor.
  - apply (conf_ext m); [done|]. apply Hm. by left.
  - apply IH. intros b' Hb'. apply Hm. by right.
Qed.

Lemma conf_key m p c mode pin :
  conf_at m p c -> (load8 m (p + off_mode) =? mode) && (load32 m (p + off_pin) =? pin) = same_key mode pin c.
Proof. intros (-> & -> & _). done. Qed.

Lemma node_nonzero a : aligned4 a -> (a =? 0) = false.
Proof. intros [? _]. by apply Z.eqb_neq; lia. Qed.

(** The search finds what [put_conf] replaces. *)
Lemma search_spec n m p l t c :
  lchain m p l -> Forall2 (conf_at m) l t -> (length l < n)%nat ->
  match put_conf c t with
  | None => conf_search n m (c_mode c) (c_pin c) p = Some 0
  | Some t' => exists l1 a l2 t1 d t2, conf_search n m (c_mode c) (c_pin c) p = Some a /\
      l = l1 ++ a :: l2 /\ t = t1 ++ d :: t2 /\ t' = t1 ++ c :: t2 /\ length l1 = length t1 /\
      same_key (c_mode c) (c_pin c) d = true
  end.
Proof.
  intros Hl Ht. revert n p Hl. induction Ht as [|a d l t Had _ IH]; intros [|n] p Hl Hn; simpl in Hn; try lia; cbn [put_conf conf_search].
  - simpl in Hl. subst. done.
  - destruct Hl as (-> & Ha & Hl). rewrite (node_nonzero a Ha), (conf_key m a d) by done.
    destruct (same_key (c_mode c) (c_pin c) d) eqn:Ek.
    + by exists [], a, l, [], d, t.
    + specialize (IH n _ Hl ltac:(lia)). destruct (put_conf c t) as [t'|]; cbn [fmap option_fmap option_map].
      * destruct IH as (l1 & a' & l2 & t1 & d' & t2 & ? & -> & -> & -> & ? & ?).
        exists (a :: l1), a', l2, (d :: t1), d', t2. split_and!; try done. cbn. lia.
      * exact IH.
Qed.

(** The interrupt serves what [served] says. *)
Lemma irq_loop_spec n p l t mode s :
  lchain (g_mem s) p l -> Forall2 (conf_at (g_mem s)) l t -> (length l < n)%nat ->
  irq_loop n mode p s = Some match served mode t with Some f => gpio_call f (gpio_called f s) | None => s end.
Proof.
  intros Hl Ht. revert n p Hl. induction Ht as [|a d l t Had _ IH]; intros [|n] p Hl Hn; simpl in Hn; try lia; cbn [served irq_loop].
  - simpl in Hl. subst. done.
  - destruct Hl as (-> & Ha & Hl). rewrite (node_nonzero a Ha). destruct Had as (-> & _ & _ & ->).
    destruct (_ && _); [done|]. by apply IH; [|lia].
Qed.

Lemma process_rel mode s σ L :
  gpio_rel m0 s σ L ->
  exists s', drv_gpio_irq_process fuel mode s = Some s' /\
    gpio_rel m0 s' match served mode (tbl σ) with Some f => bd_cb f (bd_called f σ) | None => σ end L.
Proof.
  intros [l Hr]. pose proof Hr as [Hl Hc Hlen _ _ _]. pose proof fuel_enough. pose proof (Forall2_length _ _ _ Hc) as Hll.
  unfold drv_gpio_irq_process. rewrite (listLength_spec _ _ l) by (done || lia). cbn [mbind option_bind].
  assert (Hcall : forall f, gpio_rel m0 (gpio_call f (gpio_called f s)) (bd_cb f (bd_called f σ)) L).
  { intros f. apply gpio_cb_sim. exists l. destruct Hr. split; try done. cbn. congruence. }
  destruct l as [|a l]; cbn [length Z.of_nat Z.eqb negb].
  - inversion Hc as [|? ? ? ? ? ? E1 E2]; subst. eexists. split; [done|]. cbn. by exists [].
  - rewrite (irq_loop_spec _ _ _ _ _ _ (proj2 (proj2 Hl)) Hc) by lia. eexists. split; [done|].
    destruct (served mode (tbl σ)); [apply Hcall|by exists (a :: l)].
Qed.

(** ** Writing an entry *)
Lemma update_spec p pol cb m c :
  conf_at m p c -> 0 <= pol < 256 -> 0 <= cb < 2 ^ 32 ->
  conf_at (conf_update p pol cb m) p (mk_conf (c_mode c) (c_pin c) pol cb) /\
  forall y, ~ (p + 4 <= y < p + 14) -> load8 (conf_update p pol cb m) y = load8 m y.
Proof.
  intros (E1 & E2 & E3 & E4) Hpol Hcb. unfold conf_update, conf_at, off_mode, off_pin, off_polarity, off_gpio_irq_callback in *.
  rewrite E3. set (m1 := if negb (c_pol c =? pol) then _ else m).
  assert (Hw1 : load8 m1 (p + 13) = pol).
  { subst m1. destruct (Z.eqb_spec (c_pol c) pol); cbn [negb]; [congruence|]. by rewrite load8_store8_eq, u8_small. }
  assert (Hw1' : forall y, y <> p + 13 -> load8 m1 y = load8 m y).
  { intros y Hy. subst m1. destruct (negb _); [|done]. by rewrite load8_store8_ne by lia. }
  clearbody m1. assert (Hw14 : load32 m1 (p + 4) = c_cb c) by (rewrite <- E4; unfold load32; by rewrite !Hw1' by lia).
  rewrite Hw14. set (m2 := if negb (c_cb c =? cb) then _ else m1).
  assert (Hw2 : load32 m2 (p + 4) = cb).
  { subst m2. destruct (Z.eqb_spec (c_cb c) cb); cbn [negb]; [congruence|]. by rewrite load32_store32_eq, u32_small. }
  assert (Hw2' : forall y, ~ (p + 4 <= y < p + 8) -> load8 m2 y = load8 m1 y).
  { intros y Hy. subst m2. destruct (negb _); [|done]. by rewrite load8_store32_ne by lia. }
  clearbody m2. cbn [c_mode c_pin c_pol c_cb]. split_and!.
  - by rewrite Hw2', Hw1' by lia.
  - rewrite <- E2. unfold load32. by rewrite !Hw2', !Hw1' by lia.
  - by rewrite Hw2' by lia.
  - done.
  - intros y Hy. by rewrite Hw2', Hw1' by lia.
Qed.

Lemma fill_conf_spec p c m :
  0 <= c_mode c < 256 -> 0 <= c_pin c < 2 ^ 32 -> 0 <= c_pol c < 256 -> 0 <= c_cb c < 2 ^ 32 ->
  conf_at (conf_fill p (c_mode c) (c_pin c) (c_pol c) (c_cb c) m) p c /\
  forall y, ~ (p + 4 <= y < p + 14) -> load8 (conf_fill p (c_mode c) (c_pin c) (c_pol c) (c_cb c) m) y = load8 m y.
Proof.
  intros Hw1 Hw2 Hw3 Hw4. unfold conf_fill, conf_at, off_mode, off_pin, off_polarity, off_gpio_irq_callback. split_and!.
  - rewrite load8_store32_ne, load8_store8_ne, load8_store32_ne, load8_store8_eq by lia. by rewrite u8_small.
  - rewrite load32_store32_ne, load32_store8_ne, load32_store32_eq by lia. by rewrite u32_small.
  - rewrite load8_store32_ne, load8_store8_eq by lia. by rewrite u8_small.
  - rewrite load32_store32_eq. by rewrite u32_small.
  - intros y Hy. rewrite load8_store32_ne, load8_store8_ne, load8_store32_ne, load8_store8_ne by lia. done.
Qed.

(** ** The list under a change of memory *)
Lemma holds_ext m m' cell l : holds m cell l -> (forall x, x = cell \/ x ∈ l -> load32 m' x = load32 m x) -> holds m' cell l.
Proof.
  intros (Ha & Hni & Hl) Hm. split_and!; [done|done|]. rewrite Hm by auto. eapply lseg_mem_ext; [|exact Hl].
  intros x Hx. symmetry. apply Hm. auto.
Qed.

Lemma load32_ext m m' x : (forall y, x <= y < x + 4 -> load8 m' y = load8 m y) -> load32 m' x = load32 m x.
Proof. intros E. unfold load32. by rewrite !E by lia. Qed.

Lemma node_own s a K b y : holds_bufs s a K -> b ∈ K -> b <= y < b + 14 -> own_byte b y.
Proof. intros Hh Hb Hy. pose proof (held_range _ _ _ _ Hh Hb). right. lia. Qed.

Lemma node_other s a K b c y : holds_bufs s a K -> b ∈ K -> c ∈ K -> b <> c -> b <= y < b + 14 -> ~ (c <= y < c + 14).
Proof.
  intros Hh Hb Hc Hne Hy Hy'. pose proof (held_apart _ _ _ _ _ Hh Hb Hc Hne).
  pose proof (held_range _ _ _ _ Hh Hb). pose proof (held_range _ _ _ _ Hh Hc). lia.
Qed.

Lemma own_other s a K b c y : holds_bufs s a K -> b ∈ K -> c ∈ K -> b <> c -> own_byte b y -> ~ (c <= y < c + 14).
Proof.
  intros Hh Hb Hc Hne Hy Hy'. pose proof (held_apart _ _ _ _ _ Hh Hb Hc Hne).
  pose proof (held_range _ _ _ _ Hh Hb). pose proof (held_range _ _ _ _ Hh Hc). unfold own_byte in Hy. lia.
Qed.

Lemma cell_other s a K b x y :
  holds_bufs s a K -> b ∈ K -> gpioIrqHandlerQ <= y < gpioIrqHandlerQ + 4 -> b - 8 <= x < b + 14 -> x <> y.
Proof.
  intros Hh Hb Hy Hx. pose proof (held_range _ _ _ _ Hh Hb) as (_ & ? & _). pose proof (hb_live _ _ _ Hh) as Hl.
  rewrite Forall_forall in Hl. destruct (Hl b Hb) as [i Hi]. apply (live_inside a i b y x Hi (cell_outside y Hy)). lia.
Qed.

Lemma Forall2_app_len {A B} (P : A -> B -> Prop) (xs xs' : list A) (ys ys' : list B) :
  Forall2 P (xs ++ xs') (ys ++ ys') -> length xs = length ys -> Forall2 P xs ys /\ Forall2 P xs' ys'.
Proof.
  revert ys. induction xs as [|x xs IH]; intros [|y ys] HF Hlen; cbn in *; try lia; [done|].
  apply Forall2_cons_1 in HF as [? HF]. destruct (IH ys HF ltac:(lia)). split; [by constructor|done].
Qed.

Lemma update_rel s σ L l1 a l2 t1 d t2 c :
  gpio_rel_at m0 s σ (l1 ++ a :: l2) L -> tbl σ = t1 ++ d :: t2 -> length l1 = length t1 ->
  same_key (c_mode c) (c_pin c) d = true -> 0 <= c_pol c < 256 -> 0 <= c_cb c < 2 ^ 32 ->
  gpio_rel_at m0 (with_g_mem (conf_update a (c_pol c) (c_cb c) (g_mem s)) s) (with_tbl (t1 ++ c :: t2) σ) (l1 ++ a :: l2) L.
Proof.
  intros [Hl Hc Hlen Hb Hp Hcalls Hirq Hkp Hout] Et El Hk Hpol Hcb. rewrite Et in Hc, Hlen.
  apply andb_true_iff in Hk as [Hk1%Z.eqb_eq Hk2%Z.eqb_eq].
  destruct (Forall2_app_len _ _ _ _ _ Hc El) as [Hc1 [Had Hc2]%Forall2_cons_1].
  destruct (update_spec a (c_pol c) (c_cb c) (g_mem s) d Had Hpol Hcb) as [Hnew Hm]. rewrite Hk1, Hk2 in Hnew.
  set (m' := conf_update _ _ _ _) in *. replace (mk_conf _ _ _ _) with c in Hnew by (by destruct c).
  assert (Hin : forall b, b ∈ l1 ++ a :: l2 -> b ∈ (l1 ++ a :: l2) ++ L) by set_solver.
  assert (Ha : a ∈ (l1 ++ a :: l2) ++ L) by set_solver.
  assert (Hoth : forall b, b ∈ l1 ++ l2 -> forall y, b <= y < b + 14 -> load8 m' y = load8 (g_mem s) y).
  { intros b Hbl y Hy. apply Hm. assert (b <> a).
    { pose proof (hb_nodup _ _ _ Hb) as Hn. apply NoDup_app in Hn as (Hn & _). apply NoDup_app in Hn as (_ & Hd & Hn).
      apply NoDup_cons in Hn as [Hn _]. apply elem_of_app in Hbl as [Hbl|Hbl]; [|set_solver]. intros ->. apply (Hd a Hbl). by left. }
    intros Hya. apply (node_other _ _ _ b a y Hb (Hin b ltac:(set_solver)) Ha); [done|done|lia]. }
  split; cbn [tbl pins ga bd_calls with_tbl]; try done.
  - apply (holds_ext (g_mem s)); [done|]. intros x Hx. apply load32_ext. intros y Hy. change (g_mem (with_g_mem m' s)) with m'. apply Hm.
    intros Hya. destruct Hx as [->|Hx].
    + apply (cell_other _ _ _ a y y Hb Ha Hy); [lia|done].
    + destruct (decide (x = a)) as [->|Hne]; [lia|]. apply (node_other _ _ _ x a y Hb (Hin x Hx) Ha Hne); lia.
  - apply Forall2_app; [|constructor; [exact Hnew|]].
    + apply (conf_list_ext (g_mem s)); [done|]. intros b Hbl y Hy. apply (Hoth b); [set_solver|lia].
    + apply (conf_list_ext (g_mem s)); [done|]. intros b Hbl y Hy. apply (Hoth b); [set_solver|lia].
  - rewrite length_app in *. done.
  - apply write_client; [done|done|]. intros y Hy. apply Hm. intros Hya. apply (Hy a Ha). apply (node_own _ _ _ a y Hb Ha). lia.
  - apply (bufs_kept_trans L _ _ _ Hkp). intros q y Hq Hy. apply Hm. intros Hya.
    assert (q <> a) by (intros ->; pose proof (hb_nodup _ _ _ Hb) as (_ & Hd & _)%NoDup_app; apply (Hd a); [set_solver|done]).
    apply (own_other _ _ _ q a y Hb); [set_solver|done|done|done|lia].
  - intros y Ho Hyc. change (g_mem (with_g_mem m' s)) with m'. rewrite Hm; [by apply Hout|]. intros Hya.
    apply (own_inside _ _ _ a y Hb Ha); [|done]. apply (node_own _ _ _ a y Hb Ha). lia.
Qed.

(** ** A new entry *)
Lemma listAdd_bytes m cell l x :
  holds m cell l -> fresh_item cell l x -> (length l < fuel)%nat ->
  listAdd fuel m cell x = Some (store32 (store32 m x 0) (last_or cell l) x).
Proof.
  intros Hh Hx Hf. unfold listAdd. rewrite (listTail_spec _ _ _ _ (holds_frame _ _ _ x 0 Hh Hx) Hf). cbn [mbind option_bind].
  destruct (list_snoc_inv l) as [->|(l' & a & ->)]; [done|]. rewrite !last_or_snoc.
  rewrite (node_nonzero a); [done|]. apply (holds_node m cell (l' ++ [a])); [done|set_solver].
Qed.

(** Memory with [m] in it. *)
Definition on_mem m (b : buf_state) : buf_state := with_cpu (with_mem m (b_cpu b)) b.

(** What [conf_add] writes into a buffer [p] that was just allocated, before it
    is linked. *)
Definition written (p : Z) (c : conf) m : mem :=
  conf_fill p (c_mode c) (c_pin c) (c_pol c) (c_cb c) (set_loop 14 m p 0).

Lemma written_spec p c m :
  0 <= c_mode c < 256 -> 0 <= c_pin c < 2 ^ 32 -> 0 <= c_pol c < 256 -> 0 <= c_cb c < 2 ^ 32 ->
  conf_at (written p c m) p c /\ forall y, ~ (p <= y < p + 14) -> load8 (written p c m) y = load8 m y.
Proof.
  intros Hm Hp Hl Hc. destruct (fill_conf_spec p c (set_loop 14 m p 0) Hm Hp Hl Hc) as [E Hy]. split; [exact E|].
  intros y Hn. unfold written. rewrite Hy by lia. rewrite set_loop_spec. change (Z.of_nat 14) with 14.
  cmp_false ((p <=? y) && (y <? p + 14)). done.
Qed.

Lemma conf_add_eq c s l n :
  holds (g_mem s) gpioIrqHandlerQ l -> (length l < fuel)%nat -> n = Z.of_nat (length l) -> n < 3 ->
  conf_add fuel (c_mode c) (c_pin c) (c_pol c) (c_cb c) s =
    let '(p, b) := ev_buf_allocate sizeof_gpio_conf_list (g_buf s) in
    if p =? 0 then Some (false, with_g_buf b s)
    else m ← listAdd fuel (written p c (b_mem b)) gpioIrqHandlerQ p; Some (true, with_g_buf (on_mem m b) s).
Proof.
  intros Hl Hf -> Hn. unfold conf_add. rewrite (listLength_spec _ _ _ _ Hl Hf). cbn [mbind option_bind].
  unfold GPIO_IRQ_HANDLER_Q_NUM. cmp_false (3 <=? Z.of_nat (length l)).
  destruct (ev_buf_allocate _ _) as [p b]. destruct (Z.eqb_spec p 0) as [|Hp]; [done|].
  unfold memset, sizeof_gpio_conf_list. rewrite (proj2 (Z.eqb_neq p 0) Hp). unfold LARGE_BUFFER.
  change (1024 - 8 <? 14) with false. rewrite andb_false_r. done.
Qed.

Lemma snoc_rel s σ l L c p b a' :
  gpio_rel_at m0 s σ l L -> (length (tbl σ) < 3)%nat ->
  0 <= c_mode c < 256 -> 0 <= c_pin c < 2 ^ 32 -> 0 <= c_pol c < 256 -> 0 <= c_cb c < 2 ^ 32 ->
  bufs_kept (l ++ L) (g_mem s) (b_mem b) -> outside_kept (g_mem s) (b_mem b) ->
  c_irq (b_cpu b) = c_irq (b_cpu (g_buf s)) ->
  0 < p -> p ∉ l ++ L -> holds_bufs b a' (p :: l ++ L) ->
  exists m, listAdd fuel (written p c (b_mem b)) gpioIrqHandlerQ p = Some m /\
    gpio_rel_at m0 (with_g_buf (on_mem m b) s) (with_tbl (tbl σ ++ [c]) (with_ga a' σ)) (l ++ [p]) L.
Proof.
  intros [Hl Hc Hlen Hb Hp Hcalls Hirq Hkp Hout] Hlt Rm Rp Rl Rc Hk Ho Eirq Hpos Hni Hh.
  pose proof (Forall2_length _ _ _ Hc) as Hll. pose proof fuel_enough.
  destruct (written_spec p c (b_mem b) Rm Rp Rl Rc) as [Hnew Hw]. set (m2 := written p c (b_mem b)) in *.
  assert (Hpin : p ∈ p :: l ++ L) by (by left).
  assert (Hlin : forall x, x ∈ l -> x ∈ p :: l ++ L) by set_solver.
  assert (Hne : forall x, x ∈ l -> x <> p) by (intros x Hx ->; apply Hni; set_solver).
  assert (Hcell2 : forall y, gpioIrqHandlerQ <= y < gpioIrqHandlerQ + 4 -> load8 m2 y = load8 (g_mem s) y).
  { intros y Hy. rewrite Hw; [by apply Ho, cell_outside|]. intros Hyp. by apply (cell_other _ _ _ p y y Hh Hpin Hy); [lia|]. }
  assert (Hnode2 : forall x, x ∈ l -> forall y, x <= y < x + 14 -> load8 m2 y = load8 (g_mem s) y).
  { intros x Hx y Hy. rewrite Hw by (by apply (node_other _ _ _ x p y Hh (Hlin x Hx) Hpin (Hne x Hx))).
    apply (Hk x); [set_solver|]. apply (node_own _ _ _ x y Hb); [set_solver|done]. }
  assert (Hl2 : holds m2 gpioIrqHandlerQ l).
  { apply (holds_ext (g_mem s)); [done|]. intros x [->|Hx]; apply load32_ext; intros y Hy; [by apply Hcell2|]. apply (Hnode2 x Hx). lia. }
  assert (Hfresh : fresh_item gpioIrqHandlerQ l p).
  { split_and!; [|intros ->; apply (cell_other _ _ _ gpioIrqHandlerQ gpioIrqHandlerQ gpioIrqHandlerQ Hh Hpin); lia|set_solver].
    destruct (held_range _ _ _ _ Hh Hpin) as ([? ?] & ? & ?). split; [lia|zdm]. }
  assert (Hf : (length l < fuel)%nat) by lia.
  rewrite (listAdd_bytes m2 _ l p Hl2 Hfresh Hf). eexists. split; [done|].
  destruct (listAdd_holds m2 _ l p fuel Hl2 Hfresh Hf) as (m3 & E3 & Hl3). rewrite (listAdd_bytes m2 _ l p Hl2 Hfresh Hf) in E3.
  injection E3 as <-. set (m3 := store32 (store32 m2 p 0) _ p) in *.
  assert (Htgt : last_or gpioIrqHandlerQ l = gpioIrqHandlerQ \/ last_or gpioIrqHandlerQ l ∈ l).
  { destruct (list_snoc_inv l) as [->|(l' & x & ->)]; [by left|]. right. rewrite last_or_snoc. set_solver. }
  assert (Hrest : forall y, ~ (p <= y < p + 14) -> ~ (last_or gpioIrqHandlerQ l <= y < last_or gpioIrqHandlerQ l + 4) -> load8 m3 y = load8 (b_mem b) y).
  { intros y Hyp Hyt. subst m3. rewrite !load8_store32_ne by lia. by apply Hw. }
  (* the fields of the entries are not link words *)
  assert (Hfields : forall x, x ∈ p :: l -> forall y, x + 4 <= y < x + 14 -> load8 m3 y = load8 m2 y).
  { intros x Hx y Hy. assert (Hxin : x ∈ p :: l ++ L) by set_solver. subst m3. rewrite load8_store32_ne; [rewrite load8_store32_ne; [done|]|].
    - destruct (decide (x = p)) as [->|Hxp]; [lia|]. pose proof (node_other _ _ _ x p y Hh Hxin Hpin Hxp). lia.
    - destruct Htgt as [->|Ht].
      + assert (~ (gpioIrqHandlerQ <= y < gpioIrqHandlerQ + 4)); [|lia]. intros Hyc.
        by apply (cell_other _ _ _ x y y Hh Hxin Hyc); [lia|].
      + destruct (decide (x = last_or gpioIrqHandlerQ l)) as [E|Hxt]; [lia|].
        pose proof (node_other _ _ _ x _ y Hh Hxin (Hlin _ Ht) Hxt). lia. }
  split; cbn [tbl pins ga bd_calls with_tbl with_ga]; try done.
  - apply Forall2_app; [|constructor; [|constructor]].
    + apply (conf_list_ext (g_mem s)); [done|]. intros x Hx y Hy. change (g_mem _) with m3 at 1.
      rewrite (Hfields x) by (set_solver || lia). apply (Hnode2 x Hx). lia.
    + apply (conf_ext m2); [done|]. intros y Hy. apply (Hfields p); [by left|lia].
  - rewrite length_app. cbn. lia.
  - change (holds_bufs (on_mem m3 b) a' ((l ++ [p]) ++ L)). apply holds_bufs_perm with (p :: l ++ L).
    2:{ rewrite <- app_assoc. apply Permutation_middle. }
    assert (Hown : forall x y, x ∈ p :: l ++ L -> x <= y < x + 14 -> own_byte x y) by (intros; by apply (node_own b a' (p :: l ++ L))).
    assert (Hh2 : holds_bufs (on_mem (store32 m2 p 0) b) a' (p :: l ++ L)).
    { apply (write_client b); [done|done|]. intros y Hy. cbn [c_mem with_mem]. rewrite load8_store32_ne.
      - apply Hw. intros Hyp. by apply (Hy p Hpin), Hown.
      - assert (~ (p <= y < p + 4)); [|lia]. intros Hyp. apply (Hy p Hpin), Hown; [done|lia]. }
    destruct Htgt as [E|Ht].
    + subst m3. rewrite E. apply (write_outside (on_mem (store32 m2 p 0) b) a' _ _ Hh2); [done|]. intros y Hy.
      apply load8_store32_ne. assert (~ (gpioIrqHandlerQ <= y < gpioIrqHandlerQ + 4)); [|lia]. intros Hyc. by apply Hy, cell_outside.
    + apply (write_client (on_mem (store32 m2 p 0) b) a' _ _ Hh2); [done|]. intros y Hy. apply load8_store32_ne.
      assert (~ (last_or gpioIrqHandlerQ l <= y < last_or gpioIrqHandlerQ l + 4)); [|lia].
      intros Hyt. apply (Hy (last_or gpioIrqHandlerQ l)); [set_solver|]. apply Hown; [set_solver|lia].
  - change (c_irq (b_cpu b) = bd_irq σ). by rewrite Eirq.
  - apply (bufs_kept_trans L _ _ _ Hkp). intros q y Hq Hy. change (load8 m3 y = load8 (g_mem s) y). assert (HqK : q ∈ p :: l ++ L) by set_solver.
    assert (q <> p) by (intros ->; apply Hni; set_solver). rewrite Hrest.
    + apply (Hk q); [set_solver|done].
    + by apply (own_other _ _ _ q p y Hh).
    + destruct Htgt as [->|Ht].
      * intros Hyc. apply (own_inside _ _ _ q y Hh HqK Hy). by apply cell_outside.
      * assert (q <> last_or gpioIrqHandlerQ l) by (intros ->; pose proof (hb_nodup _ _ _ Hb) as (_ & Hd & _)%NoDup_app; by apply (Hd _ Ht)).
        intros Hyt. apply (own_other _ _ _ q _ y Hh HqK (Hlin _ Ht)); [done|done|lia].
  - intros y Ho' Hyc. change (load8 m3 y = load8 m0 y). rewrite Hrest; [by rewrite (Ho y Ho'); apply Hout| |].
    + intros Hyp. apply (own_inside _ _ _ p y Hh Hpin); [|done]. by apply (node_own _ _ _ p y Hh Hpin).
    + destruct Htgt as [->|Ht]; [done|]. intros Hyt. apply (own_inside _ _ _ _ y Hh (Hlin _ Ht)); [|done].
      apply (node_own _ _ _ _ y Hh (Hlin _ Ht)). lia.
Qed.

(** ** Configuration *)
Lemma config_rel c s σ L :
  valid_pin (c_pin c) -> 0 <= c_mode c < 256 -> 0 <= c_pol c < 256 -> 0 <= c_cb c < 2 ^ 32 -> gpio_rel m0 s σ L ->
  exists s', drv_gpio_irq_config fuel (c_mode c) (c_pin c) (c_pol c) (c_cb c) s = Some ((spec_config c σ).1, s') /\
    gpio_rel m0 s' (spec_config c σ).2 L.
Proof.
  intros Hpin Rm Rl Rc [l Hr]. pose proof Hr as [Hl Hc Hlen Hb _ _]. pose proof fuel_enough. pose proof (Forall2_length _ _ _ Hc) as Hll.
  assert (Rp : 0 <= c_pin c < 2 ^ 32).
  { destruct Hpin as (g & b & Hg & Hbt & ->). split; [lia|]. assert (2 ^ b <= 2 ^ 7) by (apply Z.pow_le_mono_r; lia). lia. }
  unfold drv_gpio_irq_config. rewrite (listLength_spec _ _ l) by (done || lia). cbn [mbind option_bind].
  assert (Hs : match put_conf c (tbl σ) with
    | None => (if negb (Z.of_nat (length l) =? 0) then conf_search fuel (g_mem s) (c_mode c) (c_pin c) (listHead (g_mem s) gpioIrqHandlerQ) else Some 0) = Some 0
    | Some t' => exists l1 a l2 t1 d t2, (if negb (Z.of_nat (length l) =? 0) then conf_search fuel (g_mem s) (c_mode c) (c_pin c) (listHead (g_mem s) gpioIrqHandlerQ) else Some 0) = Some a /\
        l = l1 ++ a :: l2 /\ tbl σ = t1 ++ d :: t2 /\ t' = t1 ++ c :: t2 /\ length l1 = length t1 /\ same_key (c_mode c) (c_pin c) d = true
    end).
  { pose proof (search_spec fuel (g_mem s) _ l (tbl σ) c (proj2 (proj2 Hl)) Hc ltac:(lia)) as Hs.
    destruct l as [|a l]; cbn [length Z.of_nat Z.eqb negb]; [|exact Hs]. by rewrite (Forall2_nil_inv_l _ _ Hc). }
  unfold spec_config. destruct (put_conf c (tbl σ)) as [t'|].
  - destruct Hs as (l1 & a & l2 & t1 & d & t2 & -> & -> & Et & -> & El & Hk). cbn [mbind option_bind].
    rewrite (node_nonzero a) by (apply (holds_node _ _ _ a Hl); set_solver). cbn [negb mbind option_bind Z.eqb andb fst snd].
    eexists. split; [done|]. apply irq_set_rel; [done|]. eexists. eapply update_rel; done.
  - rewrite Hs. cbn [mbind option_bind Z.eqb negb]. destruct (Z.leb_spec 3 (Z.of_nat (length (tbl σ)))) as [Hfull|Hroom].
    { unfold conf_add. rewrite (listLength_spec _ _ l) by (done || lia). cbn [mbind option_bind]. unfold GPIO_IRQ_HANDLER_Q_NUM.
      replace (3 <=? Z.of_nat (length l)) with true by lia. cbn. eexists. split; [done|]. by exists l. }
    rewrite (conf_add_eq c s l _ Hl ltac:(lia) eq_refl ltac:(lia)).
    destruct (allocate_sim _ _ sizeof_gpio_conf_list (hb_alloc _ _ _ Hb)) as (b0 & E & _ & _ & _).
    destruct (allocate_client _ _ (l ++ L) sizeof_gpio_conf_list Hb) as (p & b & E' & Hk & Hirq & Hcase). rewrite E in E'. injection E' as <- ->.
    rewrite E. pose proof (alloc_outside _ _ _ _ _ _ Hb E) as Hko.
    destruct (abs_allocate sizeof_gpio_conf_list (ga σ)) as [p a']. cbn [fst snd] in *.
    destruct Hcase as [(-> & _ & Hh)|(Hp & Hni & _ & Hh)].
    + cbn. eexists. split; [done|]. exists l. destruct Hr. split; try done.
      * apply (holds_ext (g_mem s)); [done|]. intros x [->|Hx]; apply load32_ext; intros y Hy; [by apply Hko, cell_outside|].
        apply (Hk x); [set_solver|]. apply (node_own _ _ _ x y Hb); [set_solver|lia].
      * apply (conf_list_ext (g_mem s)); [done|]. intros x Hx y Hy. apply (Hk x); [set_solver|].
        apply (node_own _ _ _ x y Hb); [set_solver|lia].
      * change (c_irq (b_cpu b) = bd_irq σ). by rewrite Hirq.
      * apply (bufs_kept_trans L _ _ _ gr_kept0). eapply bufs_kept_sub; [exact Hk|set_solver].
      * intros y Ho Hyc. change (load8 (b_mem b) y = load8 m0 y). rewrite (Hko y Ho). by apply gr_out0.
    + rewrite (proj2 (Z.eqb_neq p 0)) by lia.
      destruct (snoc_rel s σ l L c p b a' Hr ltac:(lia) Rm Rp Rl Rc Hk Hko Hirq Hp Hni Hh) as (m & -> & Hr').
      cbn [mbind option_bind Z.eqb andb fst snd]. eexists. split; [done|]. apply irq_set_rel; [done|]. by eexists.
Qed.

Lemma gpio_do_rel o s σ L :
  gpio_op_ok o -> gpio_rel m0 s σ L -> exists s', gpio_do fuel o s = Some ((spec_do o σ).1, s') /\ gpio_rel m0 s' (spec_do o σ).2 L.
Proof.
  intros Hok Hr. destruct o as [pin v|pin v|pin|mode pin|mode pin|mode pin pol cb|mode]; cbn [gpio_do spec_do fst snd].
  - eexists. split; [done|]. unfold drv_gpio_output_en, gpio_set_output_en. pose proof (put_rel FDriven (negb (v =? 0)) pin s σ L Hok Hr) as Hx.
    cbn [field_bit] in Hx. by rewrite negb_involutive in Hx.
  - eexists. split; [done|]. exact (put_rel FLevel _ pin s σ L Hok Hr).
  - eexists. split; [done|]. by apply toggle_rel.
  - destruct Hok as [Hp _]. eexists. split; [done|]. unfold line_field.
    destruct (mode =? GPIO_IRQ_MODE); [exact (put_rel FIrq true pin s σ L Hp Hr)|].
    destruct (mode =? GPIO_IRQ_RISC0_MODE); [exact (put_rel FRisc0 true pin s σ L Hp Hr)|exact (put_rel FRisc1 true pin s σ L Hp Hr)].
  - destruct Hok as [Hp _]. eexists. split; [done|]. unfold line_field.
    destruct (mode =? GPIO_IRQ_MODE); [exact (put_rel FIrq false pin s σ L Hp Hr)|].
    destruct (mode =? GPIO_IRQ_RISC0_MODE); [exact (put_rel FRisc0 false pin s σ L Hp Hr)|exact (put_rel FRisc1 false pin s σ L Hp Hr)].
  - destruct Hok as (Hp & Hm & Hl & Hc). destruct (config_rel (mk_conf mode pin pol cb) s σ L Hp Hm Hl Hc Hr) as (s' & E & Hr').
    cbn [c_mode c_pin c_pol c_cb] in E. rewrite E. cbn [mbind option_bind]. destruct (spec_config _ σ). by eexists.
  - unfold gpio_op_ok, is_line in Hok.
    assert (E : (if mode =? GPIO_IRQ_MODE then drv_gpio_irq_handler fuel s
           else if mode =? GPIO_IRQ_RISC0_MODE then drv_gpio_irq_risc0_handler fuel s else drv_gpio_irq_risc1_handler fuel s) =
           drv_gpio_irq_process fuel mode s).
    { destruct (Z.eqb_spec mode GPIO_IRQ_MODE) as [->|]; [done|]. destruct (Z.eqb_spec mode GPIO_IRQ_RISC0_MODE) as [->|]; [done|].
      by destruct (Z.eqb_spec mode GPIO_IRQ_RISC1_MODE) as [->|]. }
    rewrite E. destruct (process_rel mode s σ L Hr) as (s' & -> & Hr'). cbn [mbind option_bind]. by eexists.
Qed.

(** C13. The pins and their interrupt functions.  Whatever is configured, switched
    and interrupted, in any order: every call ends with the result of the
    abstract driver; an entry is replaced when its line and pin are in the table,
    added while there are fewer than three and a buffer is free, and refused
    otherwise; an interrupt calls the function of the first entry for its line
    that has one, and no other; an operation on a pin changes the switches of that
    pin as it says and no switch of another pin. *)
Theorem gpio_refines os s σ L :
  gpio_rel m0 s σ L -> Forall gpio_op_ok os ->
  exists s', gpio_run fuel os s = Some ((spec_run os σ).1, s') /\ gpio_rel m0 s' (spec_run os σ).2 L.
Proof.
  intros Hr Hok. revert s σ Hr. induction Hok as [|o os Ho _ IH]; intros s σ Hr; [by exists s|]. cbn [gpio_run spec_run].
  destruct (gpio_do_rel o s σ L Ho Hr) as (s1 & -> & Hr1). cbn [mbind option_bind].
  destruct (spec_do o σ) as [r σ1]. cbn [fst snd] in *. destruct (IH _ _ Hr1) as (s' & -> & Hr'). cbn [mbind option_bind].
  exists s'. by destruct (spec_run os σ1).
Qed.
End Steps.

(** ** A run

    Three entries, one of them replaced, a fourth refused, and the interrupts of
    the three lines; function 7 disables the interrupt of its pin.  And two pins
    on one line, of which the second is never served. *)
#[local] Existing Instance demo_layout.
#[local] Existing Instance demo_layout_ok.

Definition PB4 : Z := 0x110.
Definition PC2 : Z := 0x204.
Definition PA0 : Z := 0x001.

#[export] Instance demo_gpio : GpioEnv := {
  gpioIrqHandlerQ := 0x846200;
  gpio_in _ _ := 0;
  gpio_call f s := if f =? 7 then drv_gpio_irq_dis PB4 s else s
}.
#[export] Instance demo_board_cb : BoardCb := fun f σ => if f =? 7 then with_pin PB4 (set_field FIrq false) σ else σ.

Lemma demo_pin g b : 0 <= g < 5 -> 0 <= b < 8 -> valid_pin (256 * g + 2 ^ b).
Proof. intros. by exists g, b. Qed.

#[export] Instance demo_gpio_ok : GpioOk 4.
Proof.
  split.
  - lia.
  - split; done.
  - intros y Hy i Hi.
    assert (Hs : sizeof_mem i <= 0x1000) by (destruct (group_cases i Hi) as [->|[->|[->| ->]]]; vm_compute; congruence).
    unfold gpioIrqHandlerQ, demo_gpio in Hy. unfold size_pool, size_mem, demo_layout. lia.
  - intros f m0 s σ L Hr. unfold gpio_call, bd_cb, demo_gpio, demo_board_cb. destruct (f =? 7); [|done].
    exact (put_rel m0 FIrq false PB4 s σ L (demo_pin 1 4 ltac:(lia) ltac:(lia)) Hr).
Qed.

Definition gpio_zero : gpio := mk_gpio (ev_buf_init demo_state) ∅ [] [].
Definition board_zero : board := mk_board [] (pin_of ∅) abs_init [] 0x55.

Lemma board_start b : buf_inv b abs_init -> c_irq (b_cpu b) = 0x55 -> load32 (b_mem b) gpioIrqHandlerQ = 0 -> gpio_rel (b_mem b) (mk_gpio b ∅ [] []) board_zero [].
Proof.
  intros Hi Hq Hz. exists []. split; [| |cbn; lia| |done|done|exact Hq|done|done].
  - split; [split; done|]. split; [set_solver|exact Hz].
  - constructor.
  - split; [exact Hi|constructor|constructor].
Qed.

Lemma board_zero_rel : gpio_rel (g_mem gpio_zero) gpio_zero board_zero [].
Proof.
  destruct (init_inv demo_state) as [Hi Hq]; [done|]. apply (board_start (ev_buf_init demo_state)); [exact Hi|by rewrite Hq|]. vm_compute. reflexivity.
Qed.

Definition gpio_demo_ops : list gpio_op :=
  [GConfig 1 PB4 1 9; GConfig 2 PC2 0 5; GConfig 1 PB4 0 7; GConfig 3 PA0 1 0; GConfig 1 PA0 1 8;
   GIrqEn 1 PB4; GOutputEn PC2 1; GWrite PC2 1; GIrq 1; GIrq 3; GIrq 2; GToggle PC2].

Lemma gpio_refines_witness :
  exists s', gpio_run 4 gpio_demo_ops gpio_zero =
      Some ([Some 0; Some 0; Some 0; Some 0; Some (-1); None; None; None; None; None; None; None], s') /\
    g_calls s' = [7; 5] /\ pin_of (g_regs s') PC2 = mk_pin true false false false false false /\
    pin_of (g_regs s') PB4 = pin_of ∅ PB4.
Proof.
  pose proof (demo_pin 1 4 ltac:(lia) ltac:(lia)) as H1. pose proof (demo_pin 2 2 ltac:(lia) ltac:(lia)) as H2.
  pose proof (demo_pin 0 0 ltac:(lia) ltac:(lia)) as H0.
  destruct (gpio_refines 4 (g_mem gpio_zero) gpio_demo_ops gpio_zero board_zero []) as (s' & E & l & Hr).
  - apply board_zero_rel.
  - repeat first [apply Forall_nil_2 | apply Forall_cons_2]; cbn; split_and?; try lia; try assumption; reflexivity.
  - exists s'. split; [etransitivity; [exact E|]; vm_compute; reflexivity|].
    split; [rewrite (gr_calls _ _ _ _ _ Hr); vm_compute; reflexivity|].
    split; rewrite (gr_pins _ _ _ _ _ Hr); try assumption; vm_compute; reflexivity.
Defined.

(** Both pins are configured on line 1 with functions of their own: only the
    first function is ever called. *)
Example gpio_second_pin_unserved :
  match gpio_run 4 [GConfig 1 PC2 0 5; GConfig 1 PA0 0 6; GIrq 1; GIrq 1] gpio_zero with
  | Some (_, s) => g_calls s = [5; 5]
  | None => False
  end.
Proof. vm_compute. reflexivity. Qed.
