(* ===== verification/Irq.v ===== *)
(** * Interrupts ([platform/services/b85m/irq_handler.c])

    The handler of the processor looks at the pending sources of the radio, of the
    timers and pins and of the DMA, and for each clears the source, counts it and
    calls the driver's handler.

    [chip] puts the drivers together: the radio layer, the hardware timers, the
    pins and the serial port, each with the state of its own, over one processor,
    memory and set of event buffers, [i_buf], which a driver works on while one of
    its functions runs; the counters; and the sources cleared, oldest first. *)
From S2P Require Import Prelude Memory Linked ListC SysEv Mempool EvBuffer StringC.
From S2P Require MacPhy HwTimer Gpio Uart.

Definition FLD_RF_IRQ_RX : Z := Z.shiftl 1 0.
Definition FLD_RF_IRQ_TX : Z := Z.shiftl 1 1.
Definition FLD_IRQ_TMR0_EN : Z := Z.shiftl 1 0.
Definition FLD_IRQ_TMR1_EN : Z := Z.shiftl 1 1.
Definition FLD_TMR_STA_TMR0 : Z := Z.shiftl 1 0.
Definition FLD_TMR_STA_TMR1 : Z := Z.shiftl 1 1.
Definition FLD_DMA_CHN_UART_RX : Z := Z.shiftl 1 0.
Definition FLD_DMA_CHN_UART_TX : Z := Z.shiftl 1 1.

(** The flags cleared, by the register written. *)
Inductive irq_clear := ClrRf (v : Z) | ClrSrc (v : Z) | ClrTmr (v : Z) | ClrDma (v : Z).

Record chip := mk_chip {
  i_rf : MacPhy.phy;
  i_hwt : HwTimer.hwt;
  i_gpio : Gpio.gpio;
  i_uart : Uart.uart;
  i_buf : buf_state;
  T_DBG_irqTest : list Z;
  i_clears : list irq_clear
}.
Implicit Type s : chip.

Definition clear (c : irq_clear) s := mk_chip (i_rf s) (i_hwt s) (i_gpio s) (i_uart s) (i_buf s) (T_DBG_irqTest s) (i_clears s ++ [c]).
Definition counted (k : nat) s :=
  mk_chip (i_rf s) (i_hwt s) (i_gpio s) (i_uart s) (i_buf s) (alter (fun v => u8 (v + 1)) k (T_DBG_irqTest s)) (i_clears s).

(** A driver at work on the shared processor, memory and buffers. *)
Definition on_rf (f : MacPhy.phy -> option MacPhy.phy) s : option chip :=
  r ← f (i_rf s); Some (mk_chip r (i_hwt s) (i_gpio s) (i_uart s) (i_buf s) (T_DBG_irqTest s) (i_clears s)).
Definition on_hwt (f : HwTimer.hwt -> option HwTimer.hwt) s : option chip :=
  h ← f (HwTimer.with_wcpu (b_cpu (i_buf s)) (i_hwt s));
  Some (mk_chip (i_rf s) h (i_gpio s) (i_uart s) (with_cpu (HwTimer.w_cpu h) (i_buf s)) (T_DBG_irqTest s) (i_clears s)).
Definition on_gpio (f : Gpio.gpio -> option Gpio.gpio) s : option chip :=
  g ← f (Gpio.with_g_buf (i_buf s) (i_gpio s));
  Some (mk_chip (i_rf s) (i_hwt s) g (i_uart s) (Gpio.g_buf g) (T_DBG_irqTest s) (i_clears s)).
Definition on_uart (f : Uart.uart -> option Uart.uart) s : option chip :=
  u ← f (Uart.with_u_buf (i_buf s) (i_uart s));
  Some (mk_chip (i_rf s) (i_hwt s) (i_gpio s) u (Uart.u_buf u) (T_DBG_irqTest s) (i_clears s)).

Definition has (v fld : Z) : bool := negb (Z.land v fld =? 0).

Section Irq.
Context `{MacPhy.Radio, HwTimer.HwtEnv, EvLayout, Gpio.GpioEnv, Uart.UartEnv} (fuel : nat).

(** [src_rf], [src] and [dma]: the pending sources, as each register is read. *)
Definition irq_handler (src_rf src dma : Z) s : option chip :=
  s ← (if has src_rf FLD_RF_IRQ_TX then
         on_rf (fun r => Some (MacPhy.rf_tx_irq_handler r)) (counted 0 (clear (ClrRf FLD_RF_IRQ_TX) s)) else Some s);
  s ← (if has src_rf FLD_RF_IRQ_RX then
         on_rf (MacPhy.rf_rx_irq_handler fuel) (counted 1 (clear (ClrRf FLD_RF_IRQ_RX) s)) else Some s);
  s ← (if has src FLD_IRQ_TMR0_EN then
         on_hwt (fun h => Some (HwTimer.drv_timer_irq0_handler h))
           (counted 2 (clear (ClrTmr FLD_TMR_STA_TMR0) (clear (ClrSrc FLD_IRQ_TMR0_EN) s))) else Some s);
  s ← (if has src FLD_IRQ_TMR1_EN then
         on_hwt (fun h => Some (HwTimer.drv_timer_irq1_handler h))
           (counted 3 (clear (ClrTmr FLD_TMR_STA_TMR1) (clear (ClrSrc FLD_IRQ_TMR1_EN) s))) else Some s);
  s ← (if has src HwTimer.FLD_IRQ_SYSTEM_TIMER then
         on_hwt (fun h => Some (HwTimer.drv_timer_irq3_handler h))
           (counted 4 (clear (ClrSrc HwTimer.FLD_IRQ_SYSTEM_TIMER) s)) else Some s);
  s ← (if Z.land src Gpio.FLD_IRQ_GPIO_EN =? Gpio.FLD_IRQ_GPIO_EN then
         on_gpio (Gpio.drv_gpio_irq_handler fuel) (counted 5 (clear (ClrSrc Gpio.FLD_IRQ_GPIO_EN) s)) else Some s);
  s ← (if Z.land src Gpio.FLD_IRQ_GPIO_RISC0_EN =? Gpio.FLD_IRQ_GPIO_RISC0_EN then
         on_gpio (Gpio.drv_gpio_irq_risc0_handler fuel) (counted 6 (clear (ClrSrc Gpio.FLD_IRQ_GPIO_RISC0_EN) s)) else Some s);
  s ← (if Z.land src Gpio.FLD_IRQ_GPIO_RISC1_EN =? Gpio.FLD_IRQ_GPIO_RISC1_EN then
         on_gpio (Gpio.drv_gpio_irq_risc1_handler fuel) (counted 7 (clear (ClrSrc Gpio.FLD_IRQ_GPIO_RISC1_EN) s)) else Some s);
  if has dma FLD_DMA_CHN_UART_RX then
    on_uart (fun u => Some (Uart.drv_uart_rx_irq_handler u)) (counted 8 (clear (ClrDma FLD_DMA_CHN_UART_RX) s))
  else if has dma FLD_DMA_CHN_UART_TX then
    on_uart Uart.drv_uart_tx_irq_handler (counted 9 (clear (ClrDma FLD_DMA_CHN_UART_TX) s))
  else Some (clear (ClrDma (u8 (Z.lnot (Z.lor FLD_DMA_CHN_UART_TX FLD_DMA_CHN_UART_RX)))) s).
End Irq.
