(* ===== verification/IrqProps.v ===== *)
(** * Interrupts: properties

    The handler serves each pending source once, in a fixed order, and the drivers
    share the processor and the event buffers without harm: what the handler of
    one does leaves the relation of every other driver with its abstract
    counterpart as it is. *)
From S2P Require Import Prelude Memory Linked ListC SysEv Mempool EvBuffer BufClient StringC.
From S2P Require MacPhy MacPhyRadio HwTimer HwTimerProps Gpio GpioPins GpioProps Uart UartProps.
From S2P Require Import Irq.

(** ** The abstract chip *)

Inductive source := RfTx | RfRx | Tmr0 | Tmr1 | Tmr3 | Pin | Pin0 | Pin1 | SerRx | SerTx | DmaRest.

Definition bit (v i : Z) (k : source) : list source := if Z.testbit v i then [k] else [].

(** The sources in the order in which they are served; of the DMA only one is. *)
Definition pending (src_rf src dma : Z) : list source :=
  bit src_rf 1 RfTx ++ bit src_rf 0 RfRx ++ bit src 0 Tmr0 ++ bit src 1 Tmr1 ++ bit src 20 Tmr3 ++
  bit src 18 Pin ++ bit src 21 Pin0 ++ bit src 22 Pin1 ++
  [if Z.testbit dma 0 then SerRx else if Z.testbit dma 1 then SerTx else DmaRest].

(** The counter of a source, and what is written to clear it. *)
Definition counter (k : source) : option nat :=
  match k with
  | RfTx => Some 0 | RfRx => Some 1 | Tmr0 => Some 2 | Tmr1 => Some 3 | Tmr3 => Some 4 | Pin => Some 5
  | Pin0 => Some 6 | Pin1 => Some 7 | SerRx => Some 8 | SerTx => Some 9 | DmaRest => None
  end%nat.
Definition clears_of (k : source) : list irq_clear :=
  match k with
  | RfTx => [ClrRf 2] | RfRx => [ClrRf 1]
  | Tmr0 => [ClrSrc 1; ClrTmr 1] | Tmr1 => [ClrSrc 2; ClrTmr 2] | Tmr3 => [ClrSrc (2 ^ 20)]
  | Pin => [ClrSrc (2 ^ 18)] | Pin0 => [ClrSrc (2 ^ 21)] | Pin1 => [ClrSrc (2 ^ 22)]
  | SerRx => [ClrDma 1] | SerTx => [ClrDma 2] | DmaRest => [ClrDma 0xFC]
  end.

(** The radio layer and the abstract timers, pins and channel; the pins and the
    channel have the allocator in common. *)
Record world := mk_world {
  x_rf : MacPhy.phy;
  x_hwt : HwTimerProps.stimers;
  x_board : GpioProps.board;
  x_chan : UartProps.chan;
  x_count : list Z;
  x_clears : list irq_clear
}.
Implicit Type w : world.

Definition with_rf v w := mk_world v (x_hwt w) (x_board w) (x_chan w) (x_count w) (x_clears w).
Definition with_hwt v w := mk_world (x_rf w) v (x_board w) (x_chan w) (x_count w) (x_clears w).
Definition chan_alloc a (c : UartProps.chan) :=
  UartProps.mk_chan a (UartProps.sp_tx c) (UartProps.sp_sent c) (UartProps.sp_mem c) (UartProps.sp_irq c).
Definition with_board (b : GpioProps.board) w :=
  mk_world (x_rf w) (x_hwt w) b (chan_alloc (GpioProps.ga b) (x_chan w)) (x_count w) (x_clears w).
Definition with_chan (c : UartProps.chan) w :=
  mk_world (x_rf w) (x_hwt w) (GpioProps.with_ga (UartProps.sp_alloc c) (x_board w)) c (x_count w) (x_clears w).
Definition noted (k : source) w :=
  mk_world (x_rf w) (x_hwt w) (x_board w) (x_chan w)
    (if counter k is Some n then alter (fun v => u8 (v + 1)) n (x_count w) else x_count w) (x_clears w ++ clears_of k).

Section Spec.
Context `{MacPhy.Radio, HwTimer.HwtEnv, HwTimerProps.SpecCb, EvLayout, Gpio.GpioEnv, GpioProps.BoardCb, Uart.UartEnv}.
Context (fuel : nat).

Definition spec_tmr (i : Z) w := with_hwt (HwTimerProps.spec_irq i (x_hwt w)) w.
Definition spec_pin (mode : Z) w := with_board (GpioProps.spec_do (GpioProps.GIrq mode) (x_board w)).2 w.

Definition spec_serve (k : source) w : world :=
  let w := noted k w in
  match k with
  | RfTx => with_rf (MacPhy.rf_tx_irq_handler (x_rf w)) w
  | RfRx => with_rf (default (x_rf w) (MacPhy.rf_rx_irq_handler fuel (x_rf w))) w
  | Tmr0 => spec_tmr 0 w | Tmr1 => spec_tmr 1 w | Tmr3 => spec_tmr 3 w
  | Pin => spec_pin 1 w | Pin0 => spec_pin 2 w | Pin1 => spec_pin 3 w
  | SerTx => with_chan (UartProps.spec_release (x_chan w)) w
  | SerRx | DmaRest => w
  end.
Definition spec_serves (ks : list source) w : world := foldl (fun w k => spec_serve k w) w ks.

(** A frame comes in while the radio listens, and a timer interrupts while it
    waits, by the time the source is served. *)
Definition source_ok (k : source) w : Prop :=
  match k with
  | RfRx => MacPhy.rfMode (x_rf w) = MacPhy.RF_STATE_RX
  | Tmr0 => HwTimerProps.armed (x_hwt w) 0 <> None
  | Tmr1 => HwTimerProps.armed (x_hwt w) 1 <> None
  | Tmr3 => HwTimerProps.armed (x_hwt w) 3 <> None
  | _ => True
  end.
Fixpoint sources_ok (ks : list source) w : Prop :=
  match ks with [] => True | k :: ks => source_ok k w /\ sources_ok ks (spec_serve k w) end.

(** The memory that messages come from. *)
Variable msgs : Z -> Prop.
Definition in_cell (y : Z) : Prop := Gpio.gpioIrqHandlerQ <= y < Gpio.gpioIrqHandlerQ + 4.
Definition tx_of (c : UartProps.chan) : list Z := if UartProps.sp_tx c =? 0 then [] else [UartProps.sp_tx c].
Definition sp_with_cpu c (σ : HwTimerProps.stimers) :=
  HwTimerProps.mk_stimers (HwTimerProps.armed σ) (HwTimerProps.ready σ) (HwTimerProps.sp_reads σ) (HwTimerProps.sp_calls σ) c.

(** The chip and the abstract one; the table of the pins is in the buffers [l],
    and the client holds [L] besides, with the contents they have in [m0]. *)
Record chip_rel_at (m0 : mem) (s : chip) w (l L : list Z) : Prop := {
  cr_rf : i_rf s = x_rf w;
  cr_radio : MacPhyRadio.radio_ok (x_rf w);
  cr_hwt : HwTimerProps.hwt_rel (HwTimer.with_wcpu (b_cpu (i_buf s)) (i_hwt s)) (sp_with_cpu (b_cpu (i_buf s)) (x_hwt w));
  cr_gpio : GpioProps.gpio_rel_at (b_mem (i_buf s)) (Gpio.with_g_buf (i_buf s) (i_gpio s)) (x_board w) l (tx_of (x_chan w) ++ L);
  cr_uart : UartProps.uart_rel msgs (b_mem (i_buf s)) (Uart.with_u_buf (i_buf s) (i_uart s)) (x_chan w) (l ++ L);
  cr_alloc : GpioProps.ga (x_board w) = UartProps.sp_alloc (x_chan w);
  cr_irq : irq_ok (b_cpu (i_buf s));
  cr_count : T_DBG_irqTest s = x_count w;
  cr_clears : i_clears s = x_clears w;
  cr_kept : bufs_kept L m0 (b_mem (i_buf s));
  cr_out y : outside_bufs y -> ~ in_cell y -> load8 (b_mem (i_buf s)) y = load8 m0 y
}.
Definition chip_rel (m0 : mem) (s : chip) w (L : list Z) : Prop := exists l, chip_rel_at m0 s w l L.
End Spec.

(** What the environment promises besides: an acknowledgement ends in time; the
    cell of the pins' list is no part of a message; timer functions leave the
    processor alone, and pin functions the interrupt register. *)
Class IrqOk `{MacPhy.Radio, HwTimer.HwtEnv, HwTimerProps.SpecCb, EvLayout, Gpio.GpioEnv, GpioProps.BoardCb} (fuel : nat) (msgs : Z -> Prop) : Prop := {
  ack_timely : MacPhyRadio.timely fuel;
  msgs_cell y : msgs y -> ~ in_cell y;
  sp_cb_cpu f a σ c : HwTimerProps.sp_cb f a (sp_with_cpu c σ) = ((HwTimerProps.sp_cb f a σ).1, sp_with_cpu c (HwTimerProps.sp_cb f a σ).2);
  bd_cb_irq f σ : GpioProps.bd_irq (GpioProps.bd_cb f σ) = GpioProps.bd_irq σ
}.

(** ** The handler as a loop over the pending sources *)
Section Handler.
Context `{MacPhy.Radio, HwTimer.HwtEnv, EvLayout, Gpio.GpioEnv, Uart.UartEnv} (fuel : nat).

(** The code for a source: its flag is cleared, its counter goes up, and its
    driver's handler runs. *)
Definition marked (k : source) (s : chip) : chip :=
  let s := foldl (fun s c => clear c s) s (clears_of k) in
  if counter k is Some n then counted n s else s.

Definition serve (k : source) (s : chip) : option chip :=
  let s := marked k s in
  match k with
  | RfTx => on_rf (fun r => Some (MacPhy.rf_tx_irq_handler r)) s
  | RfRx => on_rf (MacPhy.rf_rx_irq_handler fuel) s
  | Tmr0 => on_hwt (fun h => Some (HwTimer.drv_timer_irq0_handler h)) s
  | Tmr1 => on_hwt (fun h => Some (HwTimer.drv_timer_irq1_handler h)) s
  | Tmr3 => on_hwt (fun h => Some (HwTimer.drv_timer_irq3_handler h)) s
  | Pin => on_gpio (Gpio.drv_gpio_irq_handler fuel) s
  | Pin0 => on_gpio (Gpio.drv_gpio_irq_risc0_handler fuel) s
  | Pin1 => on_gpio (Gpio.drv_gpio_irq_risc1_handler fuel) s
  | SerRx => on_uart (fun u => Some (Uart.drv_uart_rx_irq_handler u)) s
  | SerTx => on_uart Uart.drv_uart_tx_irq_handler s
  | DmaRest => Some s
  end.
Fixpoint serves (ks : list source) (s : chip) : option chip :=
  match ks with [] => Some s | k :: ks => s ← serve k s; serves ks s end.

Lemma has_bit v i : 0 <= i -> has v (Z.shiftl 1 i) = Z.testbit v i.
Proof.
  intros Hi. unfold has. rewrite Z.shiftl_1_l, land_bit by done. destruct (Z.testbit v i); [|done].
  pose proof (Z.pow_pos_nonneg 2 i). by rewrite (proj2 (Z.eqb_neq _ _)) by lia.
Qed.
Lemma eq_bit v i : 0 <= i -> (Z.land v (Z.shiftl 1 i) =? Z.shiftl 1 i) = Z.testbit v i.
Proof.
  intros Hi. rewrite Z.shiftl_1_l, land_bit by done. pose proof (Z.pow_pos_nonneg 2 i).
  destruct (Z.testbit v i); [apply Z.eqb_refl|by apply Z.eqb_neq; lia].
Qed.

Lemma serves_app ks ks' s : serves (ks ++ ks') s = serves ks s ≫= serves ks'.
Proof. revert s. induction ks as [|k ks IH]; intros s; [done|]. cbn. destruct (serve k s); [apply IH|done]. Qed.

Lemma serves_bit v i k ks s : serves (bit v i k ++ ks) s = (if Z.testbit v i then serve k s else Some s) ≫= serves ks.
Proof. unfold bit. by destruct (Z.testbit v i). Qed.

Lemma irq_handler_serves src_rf src dma s : irq_handler fuel src_rf src dma s = serves (pending src_rf src dma) s.
Proof.
  unfold irq_handler, pending, FLD_RF_IRQ_RX, FLD_RF_IRQ_TX, FLD_IRQ_TMR0_EN, FLD_IRQ_TMR1_EN, HwTimer.FLD_IRQ_SYSTEM_TIMER,
    Gpio.FLD_IRQ_GPIO_EN, Gpio.FLD_IRQ_GPIO_RISC0_EN, Gpio.FLD_IRQ_GPIO_RISC1_EN, FLD_DMA_CHN_UART_RX, FLD_DMA_CHN_UART_TX.
  rewrite !has_bit, !eq_bit by lia.
  repeat (rewrite serves_bit; match goal with |- ?x ≫= _ = ?y ≫= _ => change x with y; destruct y as [?s|]; [|done]; cbn [mbind option_bind] end).
  match goal with |- _ = serves [?k'] ?s' => set (k := k'); transitivity (serve k s') end.
  - subst k. destruct (Z.testbit dma 0); [done|]. by destruct (Z.testbit dma 1).
  - cbn [serves]. by destruct (serve k _).
Qed.
End Handler.

Section Steps.
Context `{MacPhy.Radio, HwTimer.HwtEnv, HwTimerProps.SpecCb, EvLayoutOk, Gpio.GpioEnv, GpioProps.BoardCb, Uart.UartEnv}.
Context (fuel n : nat) (msgs : Z -> Prop).
Context `{!HwTimerProps.HwtOk, !GpioProps.GpioOk fuel, !UartProps.UartOk n msgs, !IrqOk fuel msgs}.
Variable m0 : mem.
Implicit Type (l L : list Z).

(** ** The timers on another processor state *)
Lemma hwt_rel_cpu c h (σ : HwTimerProps.stimers) :
  irq_ok c -> HwTimerProps.hwt_rel h σ -> HwTimerProps.hwt_rel (HwTimer.with_wcpu c h) (sp_with_cpu c σ).
Proof. intros Hc [He Hr Hreads Hcalls _ _]. split; [exact He|exact Hr|done..]. Qed.

Lemma spec_irq_cpu i c σ : HwTimerProps.spec_irq i (sp_with_cpu c σ) = sp_with_cpu c (HwTimerProps.spec_irq i σ).
Proof.
  unfold HwTimerProps.spec_irq. cbn [HwTimerProps.armed sp_with_cpu]. destruct (HwTimerProps.armed σ i) as [x|]; [|done].
  destruct (HwTimerProps.a_func x =? 0); [done|].
  change (HwTimerProps.sp_call ?c' (sp_with_cpu c σ)) with (sp_with_cpu c (HwTimerProps.sp_call c' σ)). rewrite sp_cb_cpu.
  destruct (HwTimerProps.sp_cb _ _ _) as [t σ']. cbn [fst snd].
  destruct (t <? 0); [done|]. destruct (t =? 0); unfold HwTimerProps.rearm; by destruct (i <? 3).
Qed.

Lemma hwt_irq_cpu i c h σ :
  (i = 0 \/ i = 1 \/ i = 3) -> HwTimerProps.armed σ i <> None -> HwTimerProps.hwt_rel (HwTimer.with_wcpu c h) (sp_with_cpu c σ) ->
  exists h', (HwTimerProps.hwt_do (HwTimerProps.OIrq i) (HwTimer.with_wcpu c h)).2 = HwTimer.with_wcpu c h' /\
    HwTimerProps.hwt_rel (HwTimer.with_wcpu c h') (sp_with_cpu c (HwTimerProps.spec_irq i σ)).
Proof.
  intros Hi Ha Hr. pose proof (HwTimerProps.hwt_do_rel (HwTimerProps.OIrq i) _ _ (conj Hi Ha : HwTimerProps.op_ok (HwTimerProps.OIrq i) (sp_with_cpu c σ)) Hr) as [_ Hr'].
  cbn [snd HwTimerProps.spec_do] in Hr'. rewrite spec_irq_cpu in Hr'. set (h' := (HwTimerProps.hwt_do _ _).2) in *.
  exists h'. assert (E : HwTimer.with_wcpu c h' = h').
  { pose proof (HwTimerProps.rel_cpu _ _ Hr') as Ec. clearbody h'. cbn in Ec. destruct h'. cbn in *. by rewrite <- Ec. }
  by rewrite E.
Qed.

(** ** The buffers after a neighbour's work *)

(** The pins after the serial port worked: [b'] are the buffers then. *)
Lemma pins_kept g β b' a' l L L' :
  GpioProps.gpio_rel_at (Gpio.g_mem g) g β l L -> holds_bufs b' a' (L' ++ l) ->
  bufs_kept l (Gpio.g_mem g) (b_mem b') -> outside_kept (Gpio.g_mem g) (b_mem b') -> c_irq (b_cpu b') = c_irq (b_cpu (Gpio.g_buf g)) ->
  GpioProps.gpio_rel_at (b_mem b') (Gpio.with_g_buf b' g) (GpioProps.with_ga a' β) l L'.
Proof.
  intros [Hl Hc Hlen Hb Hp Hcalls Hirq _ _] Hh Hk Ho Hq.
  assert (Hnode : forall x y, x ∈ l -> x <= y < x + 14 -> load8 (b_mem b') y = load8 (Gpio.g_mem g) y).
  { intros x y Hx Hy. apply (Hk x y Hx), (GpioProps.node_own _ _ _ x y Hb); [apply elem_of_app; by left|done]. }
  split; cbn [GpioProps.tbl GpioProps.pins GpioProps.ga GpioProps.bd_calls GpioProps.bd_irq GpioProps.with_ga]; try done.
  - apply (GpioProps.holds_ext (Gpio.g_mem g)); [done|]. intros x [->|Hx]; apply GpioProps.load32_ext; intros y Hy.
    + by apply Ho, GpioProps.cell_outside.
    + apply (Hnode x y Hx). lia.
  - apply (GpioProps.conf_list_ext (Gpio.g_mem g)); [done|]. intros x Hx y Hy. apply (Hnode x y Hx). lia.
  - apply (holds_bufs_perm _ _ (L' ++ l)); [exact Hh|]. apply Permutation_app_comm.
  - change (c_irq (b_cpu b') = GpioProps.bd_irq β). by rewrite Hq.
Qed.

(** The serial port after the pins worked. *)
Lemma chan_kept u c b' β g' l l' L :
  UartProps.uart_rel msgs (Uart.u_mem u) u c (l ++ L) ->
  GpioProps.gpio_rel_at (Uart.u_mem u) g' β l' (tx_of c ++ L) -> Gpio.g_buf g' = b' -> GpioProps.bd_irq β = UartProps.sp_irq c ->
  UartProps.uart_rel msgs (b_mem b') (Uart.with_u_buf b' u) (chan_alloc (GpioProps.ga β) c) (l' ++ L).
Proof.
  intros [_ Ht Hs Hsent Hbusy Hm _ Hon _] [_ _ _ Hb _ _ Hirq Hkp Hout] <- Hq. unfold tx_of in *.
  split; cbn [UartProps.sp_alloc UartProps.sp_tx UartProps.sp_sent UartProps.sp_mem UartProps.sp_irq chan_alloc]; try done.
  - apply (holds_bufs_perm _ _ _ _ Hb). rewrite !(assoc_L app). apply Permutation_app_tail, Permutation_app_comm.
  - intros E. destruct (Hbusy E) as (msg & El & Hcap & Em). exists msg. split; [done|]. split; [done|]. rewrite <- Em.
    apply load_bytes_ext. intros k Hk. apply (Hkp (UartProps.sp_tx c)).
    + rewrite (proj2 (Z.eqb_neq _ _) E). by left.
    + right. lia.
  - intros y Hy. rewrite <- (Hm y Hy). apply Hout; [by apply (UartProps.msgs_outside (n:=n))|by apply msgs_cell].
  - change (c_irq (b_cpu (Gpio.g_buf g')) = UartProps.sp_irq c). congruence.
Qed.

(** ** One source at a time *)
Lemma marked_eq k s :
  marked k s = mk_chip (i_rf s) (i_hwt s) (i_gpio s) (i_uart s) (i_buf s)
    (if counter k is Some j then alter (fun v => u8 (v + 1)) j (T_DBG_irqTest s) else T_DBG_irqTest s) (i_clears s ++ clears_of k).
Proof. unfold marked. destruct k; cbn; unfold counted, clear; cbn; by rewrite <- ?(assoc_L app). Qed.

Lemma marked_rel k s w L : chip_rel msgs m0 s w L -> chip_rel msgs m0 (marked k s) (noted k w) L.
Proof.
  intros [l []]. exists l. rewrite marked_eq. split; try done; cbn [T_DBG_irqTest x_count noted i_clears x_clears].
  - destruct (counter k); congruence.
  - congruence.
Qed.

Lemma rf_rel f r s w L :
  chip_rel msgs m0 s w L -> f (x_rf w) = Some r -> MacPhyRadio.radio_ok r ->
  exists s', on_rf f s = Some s' /\ chip_rel msgs m0 s' (with_rf r w) L.
Proof.
  intros [l []] E Hr. unfold on_rf. rewrite cr_rf0, E. cbn [mbind option_bind]. eexists. split; [done|]. exists l. by split.
Qed.

Lemma tmr_rel i s w L :
  (i = 0 \/ i = 1 \/ i = 3) -> HwTimerProps.armed (x_hwt w) i <> None -> chip_rel msgs m0 s w L ->
  exists s', on_hwt (fun h => Some (HwTimerProps.hwt_do (HwTimerProps.OIrq i) h).2) s = Some s' /\ chip_rel msgs m0 s' (spec_tmr i w) L.
Proof.
  intros Hi Ha [l []]. destruct (hwt_irq_cpu i _ _ _ Hi Ha cr_hwt0) as (h & E & Hh). unfold on_hwt. rewrite E. cbn [mbind option_bind].
  eexists. split; [done|]. exists l. change (HwTimer.w_cpu (HwTimer.with_wcpu (b_cpu (i_buf s)) h)) with (b_cpu (i_buf s)).
  replace (with_cpu (b_cpu (i_buf s)) (i_buf s)) with (i_buf s) by (by destruct (i_buf s)). by split.
Qed.

(** The relation of the chip, after the buffers changed from those of [s]. *)
Lemma after_work s w l L b' g' β u' c l' :
  chip_rel_at msgs m0 s w l L ->
  GpioProps.gpio_rel_at (b_mem b') (Gpio.with_g_buf b' g') β l' (tx_of c ++ L) ->
  UartProps.uart_rel msgs (b_mem b') (Uart.with_u_buf b' u') c (l' ++ L) ->
  GpioProps.ga β = UartProps.sp_alloc c -> c_irq (b_cpu b') = c_irq (b_cpu (i_buf s)) ->
  bufs_kept L (b_mem (i_buf s)) (b_mem b') ->
  (forall y, outside_bufs y -> ~ in_cell y -> load8 (b_mem b') y = load8 (b_mem (i_buf s)) y) ->
  chip_rel msgs m0 (mk_chip (i_rf s) (i_hwt s) g' u' b' (T_DBG_irqTest s) (i_clears s))
    (mk_world (x_rf w) (x_hwt w) β c (x_count w) (x_clears w)) L.
Proof.
  intros [] Hg Hu Ha Hq Hk Ho. exists l'. split; try done.
  - apply (hwt_rel_cpu (b_cpu b')) in cr_hwt0; [exact cr_hwt0|]. unfold irq_ok. by rewrite Hq.
  - cbn [i_buf]. unfold irq_ok. by rewrite Hq.
  - exact (bufs_kept_trans L _ _ _ cr_kept0 Hk).
  - intros y Hy Hc. cbn [i_buf]. rewrite Ho by done. by apply cr_out0.
Qed.

Lemma spec_pin_irq mode β : GpioProps.bd_irq (GpioProps.spec_do (GpioProps.GIrq mode) β).2 = GpioProps.bd_irq β.
Proof. cbn. destruct (GpioProps.served _ _); [|done]. by rewrite bd_cb_irq. Qed.

Lemma pin_rel mode s w L :
  chip_rel msgs m0 s w L ->
  exists s', on_gpio (Gpio.drv_gpio_irq_process fuel mode) s = Some s' /\ chip_rel msgs m0 s' (spec_pin mode w) L.
Proof.
  intros [l Hr]. pose proof Hr as [_ _ _ Hg Hu Ha Hq _ _ _ _]. unfold on_gpio.
  destruct (GpioProps.process_rel fuel _ mode _ _ _ (ex_intro _ l Hg)) as (g' & -> & l' & Hg'). cbn [mbind option_bind].
  eexists. split; [done|]. unfold spec_pin, with_board. cbn [GpioProps.spec_do snd] in *.
  pose proof (spec_pin_irq mode (x_board w)) as Hqi. cbn [GpioProps.spec_do snd] in Hqi. set (β := match _ with Some _ => _ | None => _ end) in *.
  assert (Hqb : GpioProps.bd_irq (x_board w) = UartProps.sp_irq (x_chan w)).
  { rewrite <- (GpioProps.gr_irq _ _ _ _ _ Hg), <- (UartProps.ur_irq _ _ _ _ _ Hu). done. }
  eapply (after_work s w l L (Gpio.g_buf g') g' β (i_uart s) _ l' Hr).
  - replace (Gpio.with_g_buf (Gpio.g_buf g') g') with g' by (by destruct g'). destruct Hg'. by split.
  - apply (chan_kept (Uart.with_u_buf (i_buf s) (i_uart s)) _ _ β g' l l' L Hu Hg'); [done|congruence].
  - done.
  - rewrite <- (GpioProps.gr_irq _ _ _ _ _ Hg') in Hqi. rewrite Hqi. by rewrite <- (GpioProps.gr_irq _ _ _ _ _ Hg).
  - eapply bufs_kept_sub; [exact (GpioProps.gr_kept _ _ _ _ _ Hg')|set_solver].
  - intros y Hy Hc. exact (GpioProps.gr_out _ _ _ _ _ Hg' y Hy Hc).
Qed.

Lemma tx_irq_outside m u u' c L :
  UartProps.uart_rel msgs m u c L -> Uart.drv_uart_tx_irq_handler u = Some u' -> outside_kept (Uart.u_mem u) (Uart.u_mem u').
Proof.
  intros Hr. unfold Uart.drv_uart_tx_irq_handler, Uart.free_tx.
  pose proof (UartProps.ur_bufs _ _ _ _ _ Hr) as Hb. rewrite (UartProps.ur_tx _ _ _ _ _ Hr).
  destruct (Z.eqb_spec (UartProps.sp_tx c) 0) as [E|E]; cbn [negb mbind option_bind]; [by intros [= <-]|].
  destruct (ev_buf_free _ _) as [[r b]|] eqn:Ef; [|done]. intros [= <-]. eapply free_outside; [exact Hb| |exact Ef]. by left.
Qed.

(** The memory that the relation of the serial port starts from. *)
Lemma uart_rebase u c L m : UartProps.uart_rel msgs m u c L -> UartProps.uart_rel msgs (Uart.u_mem u) (Uart.with_u_buf (Uart.u_buf u) u) c L.
Proof. intros []. by split. Qed.

Lemma ser_rx_rel s w L :
  chip_rel msgs m0 s w L ->
  exists s', on_uart (fun u => Some (Uart.drv_uart_rx_irq_handler u)) s = Some s' /\ chip_rel msgs m0 s' w L.
Proof.
  intros [l Hr]. destruct Hr. unfold on_uart. cbn [mbind option_bind]. set (u := Uart.with_u_buf (i_buf s) (i_uart s)) in *.
  destruct (UartProps.rx_irq_rel n msgs _ u _ _ cr_uart0) as (_ & _ & Hu). cbn zeta in Hu.
  assert (Eb : Uart.u_buf (Uart.drv_uart_rx_irq_handler u) = i_buf s).
  { unfold Uart.drv_uart_rx_irq_handler. destruct (negb _); [|done].
    by destruct (UartProps.call_quiet (n:=n) (msgs:=msgs) (Uart.recvCb u) u) as [ts ->]. }
  apply uart_rebase in Hu. unfold Uart.u_mem in Hu. rewrite Eb in *. eexists. split; [done|]. exists l. by split.
Qed.

Lemma ser_tx_rel s w L :
  chip_rel msgs m0 s w L ->
  exists s', on_uart Uart.drv_uart_tx_irq_handler s = Some s' /\ chip_rel msgs m0 s' (with_chan (UartProps.spec_release (x_chan w)) w) L.
Proof.
  intros [l Hr]. pose proof Hr as [_ _ _ Hg Hu Ha _ _ _ _ _]. unfold on_uart. set (u := Uart.with_u_buf (i_buf s) (i_uart s)) in *.
  destruct (UartProps.tx_irq_rel n msgs _ u _ _ Hu) as (u' & E & _ & _ & Hu'). rewrite E. cbn [mbind option_bind].
  assert (Ho : outside_kept (b_mem (i_buf s)) (b_mem (Uart.u_buf u'))).
  { exact (tx_irq_outside _ u u' _ _ Hu E). }
  assert (Hq : c_irq (b_cpu (Uart.u_buf u')) = c_irq (b_cpu (i_buf s))).
  { rewrite (UartProps.ur_irq _ _ _ _ _ Hu'). change (i_buf s) with (Uart.u_buf u). rewrite (UartProps.ur_irq _ _ _ _ _ Hu).
    unfold UartProps.spec_release. by destruct (_ =? 0). }
  pose proof (UartProps.ur_kept _ _ _ _ _ Hu') as Hk.
  eexists. split; [done|]. apply (after_work s w l L (Uart.u_buf u') (i_gpio s) _ u' _ l Hr).
  - apply (pins_kept (Gpio.with_g_buf (i_buf s) (i_gpio s)) _ _ _ _ _ _ Hg); [|eapply bufs_kept_sub; [exact Hk|set_solver]|exact Ho|exact Hq].
    apply (holds_bufs_perm _ _ _ _ (UartProps.ur_bufs _ _ _ _ _ Hu')). rewrite <- (assoc_L app). apply Permutation_app_head, Permutation_app_comm.
  - exact (uart_rebase _ _ _ _ Hu').
  - done.
  - exact Hq.
  - eapply bufs_kept_sub; [exact Hk|set_solver].
  - intros y Hy _. by apply Ho.
Qed.

Lemma serve_rel k s w L :
  source_ok k w -> chip_rel msgs m0 s w L -> exists s', serve fuel k s = Some s' /\ chip_rel msgs m0 s' (spec_serve fuel k w) L.
Proof.
  intros Hok Hr. assert (Hok' : source_ok k (noted k w)) by by destruct k. apply (marked_rel k) in Hr.
  unfold serve, spec_serve. set (s1 := marked k s) in *. set (w1 := noted k w) in *. clearbody s1 w1. clear s w Hok. rename s1 into s, w1 into w.
  assert (Hrad : MacPhyRadio.radio_ok (x_rf w)) by (by destruct Hr as [l []]).
  destruct k; cbn [source_ok] in Hok'.
  - apply (rf_rel (fun r => Some (MacPhy.rf_tx_irq_handler r)) _ s w L Hr eq_refl), MacPhyRadio.ok_tx_irq, Hrad.
  - destruct (MacPhyRadio.ok_rx_irq fuel (x_rf w) (ack_timely (msgs:=msgs)) Hok' Hrad) as (r & E & Hrr). rewrite E. exact (rf_rel _ _ s w L Hr E Hrr).
  - apply (tmr_rel 0 s w L); auto.
  - apply (tmr_rel 1 s w L); auto.
  - apply (tmr_rel 3 s w L); auto.
  - exact (pin_rel 1 s w L Hr).
  - exact (pin_rel 2 s w L Hr).
  - exact (pin_rel 3 s w L Hr).
  - exact (ser_rx_rel s w L Hr).
  - exact (ser_tx_rel s w L Hr).
  - by eexists.
Qed.

(** C14. The interrupt handler of the processor.  Whatever is pending, it ends, and
    has served each pending source once, in a fixed order, of the DMA only the
    first: the flag is cleared, the counter goes up, and the driver does what its
    specification says; no driver disturbs another, though the pins and the
    serial port share the event buffers: the table of the pins is intact after a
    buffer was given back, the frame under way is intact after pin functions ran,
    and the buffers of other clients and the memory outside the buffers, but for
    the cell of the table, keep their contents. *)
Theorem irq_handler_serves_pending src_rf src dma s w L :
  chip_rel msgs m0 s w L -> sources_ok fuel (pending src_rf src dma) w ->
  exists s', irq_handler fuel src_rf src dma s = Some s' /\ chip_rel msgs m0 s' (spec_serves fuel (pending src_rf src dma) w) L.
Proof.
  rewrite irq_handler_serves. generalize (pending src_rf src dma). intros ks. revert s w.
  induction ks as [|k ks IH]; intros s w Hr Hok; [by exists s|]. destruct Hok as [Hk Hok].
  destruct (serve_rel k s w L Hk Hr) as (s1 & E & Hr1). cbn [serves]. rewrite E. exact (IH s1 _ Hr1 Hok).
Qed.
End Steps.
