(* ===== verification/IrqDemo.v ===== *)
(** * Interrupts: a run

    Two pins are configured, a frame is under way on the serial port, a timer
    waits and a radio frame has come in: everything is pending at once. *)
From S2P Require Import Prelude Memory Linked ListC SysEv Mempool EvBuffer BufClient StringC.
From S2P Require MacPhy MacPhyRadio MacPhyDemo HwTimer HwTimerProps Gpio GpioPins GpioProps Uart UartProps.
From S2P Require Import Irq IrqProps.

#[local] Existing Instance demo_layout.
#[local] Existing Instance demo_layout_ok.
#[local] Existing Instance MacPhyDemo.demo_radio.
#[local] Existing Instance HwTimerProps.demo_hwt.
#[local] Existing Instance HwTimerProps.demo_spec_cb.
#[local] Existing Instance HwTimerProps.demo_hwt_ok.
#[local] Existing Instance GpioProps.demo_gpio.
#[local] Existing Instance GpioProps.demo_board_cb.
#[local] Existing Instance UartProps.demo_uart.
#[local] Existing Instance UartProps.demo_uart_ok.

#[local] Instance demo_gpio_ok12 : GpioProps.GpioOk 12.
Proof. destruct GpioProps.demo_gpio_ok as [_ ? ? ?]. split; [lia|done..]. Qed.

#[local] Instance demo_irq_ok : IrqOk 12 UartProps.demo_msgs.
Proof.
  split.
  - apply MacPhyDemo.demo_timely.
  - intros y Hy Hc. unfold UartProps.demo_msgs in Hy. unfold in_cell in Hc. cbn in Hc. lia.
  - intros f a σ c. unfold HwTimerProps.sp_cb, HwTimerProps.demo_spec_cb. cbn [fst snd]. by destruct (f =? 3).
  - intros f σ. unfold GpioProps.bd_cb, GpioProps.demo_board_cb. by destruct (f =? 7).
Qed.

(** The serial port also runs when messages may come from anywhere outside the
    buffers. *)
#[local] Instance demo_uart_out : UartProps.UartOk 2 outside_bufs.
Proof.
  destruct UartProps.demo_uart_ok as [? ? ? ? ? ?]. split; try done.
  intros y Hy. apply UartProps.demo_outside. cbn in Hy. lia.
Qed.

Lemma ok_ram m s : MacPhyRadio.radio_ok s -> MacPhyRadio.radio_ok (MacPhy.with_ram m s).
Proof. intros []. by split. Qed.

Lemma demo_rx_ok : MacPhyRadio.radio_ok MacPhyDemo.demo_rx.
Proof.
  pose proof (MacPhyRadio.ok_init (H0 := MacPhyDemo.demo_radio_laws) MacPhyDemo.demo_phy eq_refl eq_refl ltac:(by left)) as Hi.
  unfold MacPhyDemo.demo_rx. apply ok_ram. revert Hi. generalize (MacPhy.rf_init MacPhyDemo.demo_phy). intros s Hi.
  by apply MacPhyRadio.ok_state.
Qed.

(** ** The drivers put together *)

(** A serial port that is idle, over the buffers of the pins. *)
Lemma idle_rel m g β l :
  GpioProps.gpio_rel_at m g β l [] -> GpioProps.bd_irq β = 0x55 ->
  UartProps.uart_rel outside_bufs (Gpio.g_mem g) (Uart.mk_uart (Gpio.g_buf g) Uart.UART_STA_IDLE 0 0 [] [] 0)
    (UartProps.mk_chan (GpioProps.ga β) 0 [] (Gpio.g_mem g) 0x55) l.
Proof.
  intros Hg Hq. split; try done.
  - pose proof (GpioProps.gr_bufs _ _ _ _ _ Hg) as Hb. by rewrite app_nil_r in Hb.
  - by left.
  - rewrite <- Hq. exact (GpioProps.gr_irq _ _ _ _ _ Hg).
Qed.

Lemma chip_start m r h σ g β u c l :
  MacPhyRadio.radio_ok r -> HwTimerProps.hwt_rel h σ -> GpioProps.gpio_rel_at m g β l [] ->
  UartProps.uart_rel outside_bufs (Gpio.g_mem g) u c l -> UartProps.sp_mem c = Gpio.g_mem g ->
  GpioProps.bd_irq β = 0x55 -> UartProps.sp_irq c = 0x55 ->
  chip_rel UartProps.demo_msgs (b_mem (Uart.u_buf u)) (mk_chip r h g u (Uart.u_buf u) (repeat 0 16) [])
    (mk_world r σ (GpioProps.with_ga (UartProps.sp_alloc c) β) c (repeat 0 16) []) [].
Proof.
  intros Hr Hh Hg Hu Hm Hqb Hqc. exists l. pose proof (UartProps.ur_irq _ _ _ _ _ Hu) as Hq. rewrite Hqc in Hq.
  assert (Ho : outside_kept (Gpio.g_mem g) (b_mem (Uart.u_buf u))).
  { intros y Hy. rewrite <- Hm. exact (UartProps.ur_mem _ _ _ _ _ Hu y Hy). }
  split; try done.
  - apply hwt_rel_cpu; [|exact Hh]. unfold irq_ok. cbn [i_buf]. rewrite Hq. lia.
  - apply (pins_kept 12 g β (Uart.u_buf u) _ l []).
    + destruct Hg. by split.
    + apply (holds_bufs_perm _ _ _ _ (UartProps.ur_bufs _ _ _ _ _ Hu)). unfold tx_of. by rewrite app_nil_r.
    + exact (UartProps.ur_kept _ _ _ _ _ Hu).
    + exact Ho.
    + rewrite Hq, <- Hqb. symmetry. exact (GpioProps.gr_irq _ _ _ _ _ Hg).
  - rewrite app_nil_r. destruct Hu. split; try done. intros y Hy. by apply ur_mem, UartProps.demo_outside.
  - unfold irq_ok. cbn [i_buf]. rewrite Hq. lia.
Qed.

(** ** The timers, the pins and the serial port one after another *)
Definition demo_timers : HwTimer.hwt := (HwTimerProps.hwt_run [HwTimerProps.OInit 0 0; HwTimerProps.OSet 0 500 1 10] HwTimerProps.hwt_zero).2.
Definition demo_stimers : HwTimerProps.stimers := (HwTimerProps.spec_run [HwTimerProps.OInit 0 0; HwTimerProps.OSet 0 500 1 10] HwTimerProps.stimers_zero).2.

Lemma demo_timers_rel : HwTimerProps.hwt_rel demo_timers demo_stimers.
Proof.
  assert (H0 : HwTimerProps.op_ok (HwTimerProps.OInit 0 0) HwTimerProps.stimers_zero) by by split.
  pose proof (HwTimerProps.hwt_do_rel _ _ _ H0 HwTimerProps.hwt_zero_rel) as [_ H1].
  refine (proj2 (HwTimerProps.hwt_do_rel (HwTimerProps.OSet 0 500 1 10) _ _ _ H1)). done.
Qed.

(** Function 7 on pin PB4 (line 1) disables the interrupt of its pin. *)
Definition demo_confs : list GpioProps.gpio_op :=
  [GpioProps.GConfig 1 GpioProps.PB4 0 7; GpioProps.GConfig 2 GpioProps.PC2 0 5; GpioProps.GIrqEn 1 GpioProps.PB4].
Definition demo_pins : Gpio.gpio := from_option snd GpioProps.gpio_zero (GpioProps.gpio_run 12 demo_confs GpioProps.gpio_zero).
Definition demo_board : GpioProps.board := (GpioProps.spec_run demo_confs GpioProps.board_zero).2.

Lemma demo_pins_rel : GpioProps.gpio_rel (Gpio.g_mem GpioProps.gpio_zero) demo_pins demo_board [].
Proof.
  pose proof (GpioProps.demo_pin 1 4 ltac:(lia) ltac:(lia)) as Hb. pose proof (GpioProps.demo_pin 2 2 ltac:(lia) ltac:(lia)) as Hc.
  destruct (GpioProps.gpio_do_rel 12 _ (GpioProps.GConfig 1 GpioProps.PB4 0 7) _ _ _ ltac:(split_and!; [exact Hb|lia..]) GpioProps.board_zero_rel) as (s1 & E1 & R1).
  destruct (GpioProps.gpio_do_rel 12 _ (GpioProps.GConfig 2 GpioProps.PC2 0 5) _ _ _ ltac:(split_and!; [exact Hc|lia..]) R1) as (s2 & E2 & R2).
  destruct (GpioProps.gpio_do_rel 12 _ (GpioProps.GIrqEn 1 GpioProps.PB4) _ _ _ ltac:(split; [exact Hb|done]) R2) as (s3 & E3 & R3).
  unfold demo_pins, demo_board, demo_confs. cbn [GpioProps.gpio_run GpioProps.spec_run]. rewrite E1. cbn [mbind option_bind]. rewrite E2.
  cbn [mbind option_bind]. rewrite E3. cbn [mbind option_bind from_option snd].
  destruct (GpioProps.spec_do _ GpioProps.board_zero) as [r1 σ1]. cbn [fst snd] in *.
  destruct (GpioProps.spec_do _ σ1) as [r2 σ2]. cbn [fst snd] in *. by destruct (GpioProps.spec_do _ σ2) as [r3 σ3].
Qed.

Definition demo_uart0 : Uart.uart := Uart.mk_uart (Gpio.g_buf demo_pins) Uart.UART_STA_IDLE 0 0 [] [] 0.
Definition demo_chan0 : UartProps.chan := UartProps.mk_chan (GpioProps.ga demo_board) 0 [] (Gpio.g_mem demo_pins) 0x55.
Definition demo_send : UartProps.uart_op := UartProps.OSend 0x846004 3.
Definition demo_busy : Uart.uart := from_option snd demo_uart0 (UartProps.uart_do 2 demo_send demo_uart0).
Definition demo_chan : UartProps.chan := (UartProps.spec_do demo_send demo_chan0).2.

Lemma demo_busy_rel l :
  GpioProps.gpio_rel_at (Gpio.g_mem GpioProps.gpio_zero) demo_pins demo_board l [] ->
  UartProps.uart_rel outside_bufs (Gpio.g_mem demo_pins) demo_busy demo_chan l.
Proof.
  intros Hg. pose proof (idle_rel _ _ _ _ Hg eq_refl) as Hr.
  destruct (UartProps.uart_do_rel 2 outside_bufs _ demo_send _ _ _ Hr) as (s' & E & Hr').
  - split_and!; [lia..|]. intros y Hy. apply UartProps.demo_outside. lia.
  - unfold demo_busy, demo_uart0. rewrite E. exact Hr'.
Qed.

Lemma send_mem data len σ : UartProps.sp_mem (UartProps.spec_do (UartProps.OSend data len) σ).2 = UartProps.sp_mem σ.
Proof.
  cbn [UartProps.spec_do]. unfold UartProps.spec_send, UartProps.spec_release.
  destruct (UartProps.sp_tx σ =? 0); destruct (abs_allocate _ _) as [p a]; by destruct (p =? 0).
Qed.

Lemma demo_chan_mem : UartProps.sp_mem demo_chan = Gpio.g_mem demo_pins.
Proof. unfold demo_chan, demo_send. rewrite send_mem. reflexivity. Qed.

(** ** The chip *)
Definition demo_chip : chip := mk_chip MacPhyDemo.demo_rx demo_timers demo_pins demo_busy (Uart.u_buf demo_busy) (repeat 0 16) [].
Definition demo_world : world :=
  mk_world MacPhyDemo.demo_rx demo_stimers (GpioProps.with_ga (UartProps.sp_alloc demo_chan) demo_board) demo_chan (repeat 0 16) [].

Lemma demo_chip_rel : chip_rel UartProps.demo_msgs (b_mem (i_buf demo_chip)) demo_chip demo_world [].
Proof.
  destruct demo_pins_rel as [l Hg]. apply (chip_start _ _ _ _ _ _ _ _ _ demo_rx_ok demo_timers_rel Hg (demo_busy_rel l Hg) demo_chan_mem); vm_compute; reflexivity.
Qed.

(** The radio's two sources, timer 0, two lines of the pins and both channels of
    the serial port are pending: the transmitter is not served, its receiver is. *)
Lemma irq_handler_serves_pending_witness :
  exists s', irq_handler 12 3 (1 + 2 ^ 18 + 2 ^ 21) 3 demo_chip = Some s' /\
    T_DBG_irqTest s' = [1; 1; 1; 0; 0; 1; 1; 0; 1; 0; 0; 0; 0; 0; 0; 0] /\
    i_clears s' = [ClrRf 2; ClrRf 1; ClrSrc 1; ClrTmr 1; ClrSrc (2 ^ 18); ClrSrc (2 ^ 21); ClrDma 1] /\
    HwTimer.w_calls (i_hwt s') = [(1, 10)] /\ Gpio.g_calls (i_gpio s') = [7; 5].
Proof.
  destruct (irq_handler_serves_pending 12 2 UartProps.demo_msgs (b_mem (i_buf demo_chip)) 3 (1 + 2 ^ 18 + 2 ^ 21) 3 demo_chip demo_world []) as (s' & E & l & Hr).
  - apply demo_chip_rel.
  - vm_compute. repeat split; discriminate.
  - exists s'. split; [exact E|]. split; [rewrite (cr_count _ _ _ _ _ _ Hr); vm_compute; reflexivity|].
    split; [rewrite (cr_clears _ _ _ _ _ _ Hr); vm_compute; reflexivity|].
    split; (etransitivity; [first [exact (HwTimerProps.rel_calls _ _ (cr_hwt _ _ _ _ _ _ Hr))|exact (GpioProps.gr_calls _ _ _ _ _ (cr_gpio _ _ _ _ _ _ Hr))]|]);
    vm_compute; reflexivity.
Defined.

(** The interrupt at the end of a frame gives the buffer back next to the pins'
    table. *)
Example irq_frame_done :
  match irq_handler 12 0 (2 ^ 18) 2 demo_chip with
  | Some s' => Uart.uartDrvTxBuf (i_uart s') = 0 /\ Uart.status (i_uart s') = Uart.UART_STA_TX_DONE /\ Gpio.g_calls (i_gpio s') = [7] /\
      i_clears s' = [ClrSrc (2 ^ 18); ClrDma 2]
  | None => False
  end.
Proof. vm_compute. repeat split. Qed.
